(* ===== verification/_CoqProject ===== *)
-Q . S2P
Prelude.v
CLib.v
KAlloc.v
Heap.v
Paging.v
AddressSpace.v
Disk.v
Cpu.v
Terminal.v
PathParser.v
Fat16.v
File.v
FatFs.v
Elf.v
Task.v
TaskMem.v
Process.v
ProcessMem.v
Boot.v
Inet.v
Socket.v
Net.v
Pci.v
Netdev.v
Rtl8139.v
RtlCard.v
RtlOpen.v
RtlSim.v
Machine.v
Syscall.v
Trap.v
Kernel.v
System.v
UserLib.v
UserProps.v
Programs.v
ProgramProps.v
UserSim.v
