(* ===== verification/Prelude.v ===== *)
(** * ToyOS: a verification development of the kernel and its programs

    ToyOS is a small operating system for 32-bit PCs: a kernel (src/) with a heap,
    paging, a FAT16 file system on an ATA disk, an ELF loader, processes with
    round-robin scheduling, a console, a keyboard, PCI, a network card and a UDP
    stack, and programs (programs/) that reach it through interrupt 0x80.  The
    development translates the C sources into executable functions and proves what
    makes them correct.

    ** Conventions

    An integer of the source is a [Z]; the wrap-around of its type ([u8], [u16],
    [u32], [s8], [s32]) is written where the code can reach it.  Physical memory is
    a map from addresses to bytes ([mem]).  A structure is a record; structures on
    the heap are kept by address, so that a freed one is gone.  A function pointer
    is a constructor of an enumeration.  Code with state is in the monad [M S A] of
    this file ([let!], [;!]); [None] is a fault: an access outside of an object, a
    null pointer, undefined behaviour, or [panick], which does not return.  A
    theorem that a call gives [Some] therefore also says that it stays in bounds.
    Error codes are values.  Hardware is a class of operations with documented
    laws; each group of laws has a simulated instance.

    ** Files

    - Prelude.v: integers, memory, the monad, loops, shared lemmas and tactics.
    - CLib.v: memory.c, string.c.  KAlloc.v: the interface of the allocator,
      [KAlloc] and its laws.  Heap.v: heap.c, kheap.c, and the proof that they
      meet that interface.
    - Paging.v, AddressSpace.v: paging.c against the page walk of the processor.
    - Disk.v: disk.c (class [PortIO], laws [AtaLaws]) and streamer.c (class
      [BlockDevice]).  PathParser.v: path_parser.c.  Fat16.v: fat16.c.  File.v:
      file.c over any file system (a record of operations with [FsLaws]).
      FatFs.v: fat16.c meets [FsLaws].
    - Cpu.v: gdt.c, descriptors of idt.c, pic8259.c.  Terminal.v: terminal.c,
      printf.c, the printing of kernel.c.
    - Elf.v: elfloader.c, elf.c.  Task.v, TaskMem.v: task.c and its address
      spaces.  Process.v, ProcessMem.v: process.c.  Boot.v: a concrete machine
      with a disk that holds a program.
    - Inet.v, Socket.v, Net.v: byteorder.h, the buffers of netdev.c, socket.c,
      ethernet.c, arp.c, ip.c, icmp.c, udp.c over any [NetDriver].
    - Pci.v: pci.c (class [PortIO32], laws [PciLaws]).  Netdev.v: the registry of
      netdev.c.  Rtl8139.v: rtl8139.c.  RtlCard.v: what the card promises
      ([RtlCard]), transmission, reception, the interrupt.  RtlOpen.v: opening the
      device.  RtlSim.v: a simulated card.
    - Machine.v: the state of the whole kernel, idt.c, keyboard.c, ps2.c.
      Syscall.v: the handlers of sys/, the entry points of idt.asm and how the
      processor reaches them through the gates.  Trap.v: their theorems.  Kernel.v: the end of [maink].  System.v: concrete machines.
    - UserLib.v, UserProps.v: programs/stdlib (class [UserSys], laws [UserLaws]).
      Programs.v, ProgramProps.v: the stubs of toyos.asm, c_start.c and the
      programs.  UserSim.v: simulated system calls.

    ** What the theorems show

    - Heap: for any use of it, the pointers that callers hold do not overlap, the
      table describes them and nothing else, and what was written is read back;
      allocation implements first fit; zeroed memory is fresh and zero.
    - Paging: mapping changes the translation of exactly the mapped pages, the
      lookup agrees with the walk of the processor, the life of an address space
      returns all memory.
    - Disk and files: sectors and byte streams are read back as written; reading
      a FAT16 file delivers its bytes along the chain, except behind a cluster
      border that a read crosses from inside a cluster; allocating a cluster extends the chain;
      opening and closing give everything back; a session on descriptors works on
      any file system; paths are parsed as they are printed.
    - Processes: loading an ELF file gives a runnable process whose address space
      holds the file and which can write its stack and the frames of its writable
      segments only; ending it, from the gates on, releases what it had and resumes
      another (a division by zero stops the machine); the scheduler is a queue and takes turns; memory of
      a process is mapped and unmapped with it; the kernel ends its boot in the
      entry point of the shell.
    - Traps and console: system call numbers reach their handlers, a key press
      reaches the process that reads it, formatted output shows the text.
    - Network: the PCI scan finds every device; the registry is a list of named
      devices, for any templates; opening the card fails only without memory and
      establishes the relations on which transmission (a queue
      for every interleaving with the card) and reception (frames taken in order,
      each once) rest, and every interleaving keeps them; a received datagram
      reaches the socket; what is sent is received; sockets are bounded queues.
    - Programs: a stub passes its arguments as the handler reads them; reading a
      line edits it inside of the buffer; a command becomes the list of its words;
      a round of the shell runs the line that was typed; the echo server answers
      what arrives, in order; a failed allocation while parsing leaves a dangling
      pointer behind.

    ** Bounds

    Recursion that is not structural has fuel, and the theorems prove that it is
    enough: the receive loop 8193 (a ring of 64 KB holds at most 8192 frames), the
    transmit loop 5 (four descriptors), [itoa] 12 digits, mapping segments 65536
    ([e_phnum] has 16 bits), a command 1026 words (1024 characters), [strtok] the
    length of the object.  Polling (keys, the end of a child, the card) has the
    number of polls as a parameter, and the theorems say which number is enough.

    ** Not modelled

    - bootloader.asm, kernel.asm: processor mode switches before [maink].
    - io.asm, gdt.asm, tss.asm: single processor instructions, which are the
      operations of the port classes or have no effect in the model.
    - [maink] before the shell is loaded: it calls functions that are modelled one
      by one on states of their own, with processor instructions in between.
    - sanos_rtl8139.c: the origin of rtl8139.c, which is not compiled.
    - tests/: clients of the kernel in a disabled test build.
    - The machine has one network card: what the stack asks of a device is asked
      of the first one in the registry.
    - Segment registers, the translation buffer and caches of the processor;
      delay loops; messages on the console in the PCI, network and loader code.
    - The laws of [UserSys] are assumptions on the kernel from the side of a
      program: they are not derived from Syscall.v, whose handlers work on the
      physical memory of the machine. *)

From stdpp Require Export base tactics option list numbers gmap.
From Stdlib Require Export ZArith Lia.

#[global] Open Scope Z_scope.

#[global] Arguments Z.eqb : simpl never.
#[global] Arguments Z.leb : simpl never.
#[global] Arguments Z.ltb : simpl never.
#[global] Arguments Z.land : simpl never.
#[global] Arguments Z.lor : simpl never.
#[global] Arguments Z.modulo : simpl never.
#[global] Arguments Z.div : simpl never.

(** ** Machine integers

    The kernel is compiled for i686 with [-O0]: [int] and pointers are 32 bits
    wide, arithmetic wraps.  An integer of the source is a [Z] together with the
    wrap-around of its type, written out where the code can reach it. *)

Definition u8 (z : Z) : Z := z mod 2 ^ 8.
Definition u16 (z : Z) : Z := z mod 2 ^ 16.
Definition u32 (z : Z) : Z := z mod 2 ^ 32.
Definition s8 (z : Z) : Z := (z + 2 ^ 7) mod 2 ^ 8 - 2 ^ 7.
Definition s32 (z : Z) : Z := (z + 2 ^ 31) mod 2 ^ 32 - 2 ^ 31.

(** Pointer arithmetic: addresses are 32-bit unsigned. *)
Definition ptr_add (p d : Z) : Z := u32 (p + d).

Definition NULL : Z := 0.

Definition is_byte (b : Z) : Prop := 0 <= b < 256.

#[global] Instance is_byte_dec b : Decision (is_byte b).
Proof. unfold is_byte. apply _. Defined.

(** ** Status codes (status.h) *)

Definition OK : Z := 0.
Definition EINVARG : Z := 1.
Definition ENOMEM : Z := 2.
Definition EIO : Z := 3.
Definition EBADPATH : Z := 4.
Definition ENOFILEMEM : Z := 5.
Definition EFSNOTUS : Z := 6.
Definition ERDONLY : Z := 7.
Definition EISTKN : Z := 8.
Definition EINFORMAT : Z := 9.
Definition EBUSY : Z := 10.

(** ** Arithmetic automation *)

(** [lia] after division and remainder have been turned into equations. *)
Ltac zlia := Z.to_euclidean_division_equations; lia.

Lemma u8_small z : 0 <= z < 256 -> u8 z = z.
Proof. intros. apply Z.mod_small. lia. Qed.

Lemma u16_small z : 0 <= z < 65536 -> u16 z = z.
Proof. intros. apply Z.mod_small. lia. Qed.

Lemma u32_small z : 0 <= z < 4294967296 -> u32 z = z.
Proof. intros. apply Z.mod_small. lia. Qed.

Lemma s32_small z : -2147483648 <= z < 2147483648 -> s32 z = z.
Proof. intros. unfold s32. rewrite Z.mod_small; lia. Qed.

Lemma s8_small z : -128 <= z < 128 -> s8 z = z.
Proof. intros. unfold s8. rewrite Z.mod_small; lia. Qed.

Lemma u8_range z : 0 <= u8 z < 256.
Proof. apply Z.mod_pos_bound. lia. Qed.

Lemma u16_range z : 0 <= u16 z < 65536.
Proof. apply Z.mod_pos_bound. lia. Qed.

Lemma u32_range z : 0 <= u32 z < 4294967296.
Proof. apply Z.mod_pos_bound. lia. Qed.

Lemma s32_range z : -2147483648 <= s32 z < 2147483648.
Proof. unfold s32. pose proof (Z.mod_pos_bound (z + 2 ^ 31) (2 ^ 32)). lia. Qed.

Lemma ptr_add_small p d : 0 <= p + d < 4294967296 -> ptr_add p d = p + d.
Proof. apply u32_small. Qed.

Lemma u32_s32 z : u32 (s32 z) = u32 z.
Proof.
  unfold u32, s32. rewrite Zminus_mod_idemp_l. f_equal. lia.
Qed.

Lemma land_ff z : Z.land z 0xff = z mod 256.
Proof. change 0xff with (Z.ones 8). by rewrite Z.land_ones. Qed.

Lemma land_ffff z : Z.land z 0xffff = z mod 65536.
Proof. change 0xffff with (Z.ones 16). by rewrite Z.land_ones. Qed.

Create Rewrite HintDb ints.
#[export] Hint Rewrite u8_small u16_small u32_small s32_small s8_small
  ptr_add_small using lia : ints.

(** Removes every wrap-around whose argument [lia] can bound. *)
Ltac ints := autorewrite with ints in *.

(** ** Little-endian words *)

Fixpoint le_val (l : list Z) : Z :=
  match l with
  | [] => 0
  | b :: l' => b + 256 * le_val l'
  end.

Fixpoint le_bytes (n : nat) (z : Z) : list Z :=
  match n with
  | O => []
  | S n' => z mod 256 :: le_bytes n' (z / 256)
  end.

Lemma length_le_bytes n z : length (le_bytes n z) = n.
Proof. revert z; induction n; intros; simpl; auto. Qed.

Lemma le_bytes_is_byte n z : Forall is_byte (le_bytes n z).
Proof.
  revert z; induction n; intros; simpl; constructor; auto.
  apply Z.mod_pos_bound. lia.
Qed.

Lemma le_val_bytes n z : le_val (le_bytes n z) = z mod 256 ^ Z.of_nat n.
Proof.
  revert z; induction n as [|n IH]; intros z; simpl.
  - by rewrite Z.mod_1_r.
  - rewrite IH, Nat2Z.inj_succ, Z.pow_succ_r by lia.
    rewrite Z.rem_mul_r by lia. lia.
Qed.

Lemma le_val_range l :
  Forall is_byte l -> 0 <= le_val l < 256 ^ Z.of_nat (length l).
Proof.
  induction 1 as [|b l Hb _ IH]; simpl; [lia|].
  rewrite Nat2Z.inj_succ, Z.pow_succ_r by lia.
  unfold is_byte in Hb. lia.
Qed.

Lemma le_bytes_val l :
  Forall is_byte l -> le_bytes (length l) (le_val l) = l.
Proof.
  induction 1 as [|b l Hb _ IH]; simpl; [done|]. unfold is_byte in Hb.
  rewrite (Z.mul_comm 256), Z.mod_add, Z.div_add, Z.mod_small, Z.div_small by lia.
  by rewrite Z.add_0_l, IH.
Qed.

(** ** Bytes stored in the middle of an object *)

Lemma splice_lookup (buf data : list Z) off k :
  (off + length data <= length buf)%nat ->
  (take off buf ++ data ++ drop (off + length data) buf) !! k =
    if decide (off <= k < off + length data)%nat then data !! (k - off)%nat else buf !! k.
Proof.
  intros Hl. destruct (decide (k < off)%nat).
  { rewrite lookup_app_l by (rewrite length_take; lia).
    rewrite lookup_take_lt by lia. by rewrite decide_False by lia. }
  rewrite lookup_app_r by (rewrite length_take; lia).
  rewrite length_take, Nat.min_l by lia. case_decide.
  - by rewrite lookup_app_l by lia.
  - rewrite lookup_app_r, lookup_drop by lia. f_equal. lia.
Qed.

(** ** Physical memory

    A finite map from physical addresses to octets; an address that was never
    written reads as zero.  Reads and writes truncate to eight bits, so every
    cell holds a byte. *)

Abbreviation mem := (gmap Z Z).

Definition mread (m : mem) (a : Z) : Z := u8 (default 0 (m !! a)).
Definition mwrite (m : mem) (a v : Z) : mem := <[a := u8 v]> m.

Fixpoint mread_n (m : mem) (a : Z) (n : nat) : list Z :=
  match n with
  | O => []
  | S n' => mread m a :: mread_n m (ptr_add a 1) n'
  end.

Fixpoint mwrite_n (m : mem) (a : Z) (l : list Z) : mem :=
  match l with
  | [] => m
  | b :: l' => mwrite_n (mwrite m a b) (ptr_add a 1) l'
  end.

Definition load32 (m : mem) (a : Z) : Z := le_val (mread_n m a 4).
Definition store32 (m : mem) (a v : Z) : mem := mwrite_n m a (le_bytes 4 v).

Lemma mread_byte m a : is_byte (mread m a).
Proof. apply u8_range. Qed.

Lemma mread_mwrite m a v x :
  mread (mwrite m a v) x = if decide (a = x) then u8 v else mread m x.
Proof.
  unfold mread, mwrite. rewrite lookup_insert. case_decide; [|done].
  simpl. apply u8_small, u8_range.
Qed.

Lemma mread_mwrite_eq m a v : mread (mwrite m a v) a = u8 v.
Proof. rewrite mread_mwrite. by rewrite decide_True. Qed.

Lemma mread_mwrite_ne m a v x : a <> x -> mread (mwrite m a v) x = mread m x.
Proof. intros. rewrite mread_mwrite. by rewrite decide_False. Qed.

Lemma length_mread_n m a n : length (mread_n m a n) = n.
Proof. revert a; induction n; intros; simpl; auto. Qed.

Lemma mread_n_bytes m a n : Forall is_byte (mread_n m a n).
Proof.
  revert a; induction n; intros; simpl; constructor; auto using mread_byte.
Qed.

Lemma mread_n_ext m m' a n :
  0 <= a -> a + Z.of_nat n <= 2 ^ 32 ->
  (forall x, a <= x < a + Z.of_nat n -> mread m' x = mread m x) ->
  mread_n m' a n = mread_n m a n.
Proof.
  revert a; induction n as [|n IH]; intros a Ha Hn Hx; simpl; [done|].
  f_equal; [apply Hx; lia|].
  destruct (decide (n = 0%nat)) as [->|]; [done|].
  rewrite ptr_add_small by lia. apply IH; [lia..|]. intros; apply Hx; lia.
Qed.

Lemma mread_mwrite_n m a l x :
  0 <= a -> a + Z.of_nat (length l) <= 2 ^ 32 ->
  mread (mwrite_n m a l) x =
    if decide (a <= x < a + Z.of_nat (length l))
    then u8 (default 0 (l !! Z.to_nat (x - a))) else mread m x.
Proof.
  revert m a; induction l as [|b l IH]; intros m a Ha Hl; simpl in *.
  { rewrite decide_False by lia. done. }
  destruct (decide (l = [])) as [->|Hne].
  { simpl. rewrite mread_mwrite. repeat case_decide; try lia; try done; subst.
    by replace (x - x) with 0 by lia. }
  assert (length l <> 0)%nat by (by destruct l).
  rewrite ptr_add_small, IH by lia. rewrite mread_mwrite.
  repeat case_decide; try lia; try done; subst.
  - replace (Z.to_nat (x - a)) with (S (Z.to_nat (x - (a + 1)))) by lia. done.
  - by replace (x - x) with 0 by lia.
Qed.

Lemma mread_n_lookup m a n i :
  0 <= a -> a + Z.of_nat n <= 2 ^ 32 -> (i < n)%nat ->
  mread_n m a n !! i = Some (mread m (a + Z.of_nat i)).
Proof.
  revert a i; induction n as [|n IH]; intros a i Ha Hn Hi; [lia|].
  destruct i as [|i]; simpl.
  - by rewrite Z.add_0_r.
  - rewrite ptr_add_small, IH by lia. do 2 f_equal. lia.
Qed.

Lemma mread_n_mwrite_n m a l :
  0 <= a -> a + Z.of_nat (length l) <= 2 ^ 32 -> Forall is_byte l ->
  mread_n (mwrite_n m a l) a (length l) = l.
Proof.
  intros Ha Hl Hb. apply list_eq. intros i.
  destruct (decide (i < length l)%nat) as [Hi|Hi].
  - rewrite mread_n_lookup, mread_mwrite_n by done.
    rewrite decide_True by lia. rewrite Z.add_simpl_l, Nat2Z.id.
    destruct (lookup_lt_is_Some_2 l i Hi) as [b Hlb]. rewrite Hlb. simpl.
    f_equal. apply u8_small. by eapply Forall_lookup_1 in Hb.
  - rewrite !lookup_ge_None_2; [done|lia|]. rewrite length_mread_n. lia.
Qed.

Lemma load32_range m a : 0 <= load32 m a < 2 ^ 32.
Proof. apply (le_val_range (mread_n m a 4)), mread_n_bytes. Qed.

Lemma load32_store32_eq m a v :
  0 <= a -> a + 4 <= 2 ^ 32 -> load32 (store32 m a v) a = u32 v.
Proof.
  intros Ha Hb. unfold load32, store32.
  pose proof (mread_n_mwrite_n m a (le_bytes 4 v) Ha) as H.
  rewrite length_le_bytes in H.
  rewrite H by (done || apply le_bytes_is_byte). apply (le_val_bytes 4 v).
Qed.

Lemma mread_store32_ne m a v x :
  0 <= a -> a + 4 <= 2 ^ 32 -> x < a \/ a + 4 <= x ->
  mread (store32 m a v) x = mread m x.
Proof.
  intros Ha Hb Hx. unfold store32.
  rewrite mread_mwrite_n by (rewrite ?length_le_bytes; lia).
  rewrite length_le_bytes, decide_False by lia. done.
Qed.

Lemma load32_ext m m' a :
  0 <= a -> a + 4 <= 2 ^ 32 ->
  (forall x, a <= x < a + 4 -> mread m' x = mread m x) ->
  load32 m' a = load32 m a.
Proof. intros. unfold load32. f_equal. by apply mread_n_ext. Qed.

Lemma load32_store32_ne m a v b :
  0 <= a -> a + 4 <= 2 ^ 32 -> 0 <= b -> b + 4 <= 2 ^ 32 ->
  b + 4 <= a \/ a + 4 <= b ->
  load32 (store32 m a v) b = load32 m b.
Proof.
  intros. apply load32_ext; [lia..|]. intros. apply mread_store32_ne; lia.
Qed.

Lemma mread_n_sub m a n k j :
  0 <= a -> a + Z.of_nat n <= 2 ^ 32 -> (k + j <= n)%nat ->
  mread_n m (a + Z.of_nat k) j = take j (drop k (mread_n m a n)).
Proof.
  intros Ha Hn Hk. apply list_eq. intros i. destruct (decide (i < j)%nat) as [Hi|Hi].
  - rewrite lookup_take_lt, lookup_drop, !mread_n_lookup by lia. do 2 f_equal. lia.
  - rewrite !lookup_ge_None_2; [done|..];
      rewrite ?length_take, ?length_drop, ?length_mread_n; lia.
Qed.

(** The window [a, a + n) after a write of [l] at offset [k]. *)
Lemma mread_n_splice m a n k l :
  0 <= a -> a + Z.of_nat n <= 2 ^ 32 -> (k + length l <= n)%nat -> Forall is_byte l ->
  mread_n (mwrite_n m (a + Z.of_nat k) l) a n
  = take k (mread_n m a n) ++ l ++ drop (k + length l) (mread_n m a n).
Proof.
  intros Ha Hn Hk Hl. apply list_eq. intros i.
  destruct (decide (i < n)%nat) as [Hi|Hi].
  2: { rewrite !lookup_ge_None_2; [done|..];
       rewrite ?length_app, ?length_take, ?length_drop, ?length_mread_n; lia. }
  rewrite mread_n_lookup, mread_mwrite_n by lia.
  destruct (decide (i < k)%nat).
  { rewrite decide_False by lia.
    rewrite lookup_app_l by (rewrite length_take, length_mread_n; lia).
    by rewrite lookup_take_lt, mread_n_lookup by lia. }
  rewrite lookup_app_r by (rewrite length_take, length_mread_n; lia).
  rewrite length_take, length_mread_n, Nat.min_l by lia.
  destruct (decide (i < k + length l)%nat) as [Hil|Hil].
  - rewrite decide_True, lookup_app_l by lia.
    replace (Z.to_nat (a + Z.of_nat i - (a + Z.of_nat k))) with (i - k)%nat by lia.
    destruct (lookup_lt_is_Some_2 l (i - k)%nat) as [b Hb]; [lia|].
    rewrite Hb. simpl. f_equal. apply u8_small. by eapply Forall_lookup_1 in Hl.
  - rewrite decide_False, lookup_app_r, lookup_drop, mread_n_lookup by lia.
    do 3 f_equal. lia.
Qed.
(** ** Page-aligned words: the low 12 bits are flags *)

Lemma land_page x : 0 <= x < 2 ^ 32 -> Z.land x 0xfffff000 = x - x mod 4096.
Proof.
  intros Hx. change 0xfffff000 with (Z.shiftl (Z.ones 20) 12).
  replace x with (Z.shiftl (x / 4096) 12 + x mod 4096) at 1
    by (rewrite Z.shiftl_mul_pow2 by lia; zlia).
  apply Z.bits_inj'. intros n Hn. rewrite Z.land_spec.
  replace (x - x mod 4096) with (Z.shiftl (x / 4096) 12)
    by (rewrite Z.shiftl_mul_pow2 by lia; zlia).
  rewrite !Z.shiftl_spec by lia. destruct (Z.lt_ge_cases n 12) as [Hlt|Hge].
  - rewrite (Z.testbit_neg_r (Z.ones 20)), (Z.testbit_neg_r (x / 4096)) by lia. apply andb_false_r.
  - assert (Z.testbit (Z.shiftl (x / 4096) 12 + x mod 4096) n = Z.testbit (x / 4096) (n - 12)) as ->.
    { rewrite Z.shiftl_mul_pow2 by lia. replace n with ((n - 12) + 12) at 1 by lia.
      rewrite <- Z.div_pow2_bits by lia. f_equal. change (2 ^ 12) with 4096. zlia. }
    destruct (Z.lt_ge_cases (n - 12) 20).
    + rewrite Z.ones_spec_low by lia. apply andb_true_r.
    + rewrite Z.ones_spec_high by lia. rewrite andb_false_r.
      symmetry. rewrite <- (Z.mod_small (x / 4096) (2 ^ 20)) by (change (2^20) with 1048576; zlia).
      apply Z.mod_pow2_bits_high. lia.
Qed.

(** A multiple of [2 ^ k] and a number below it share no bits. *)
Lemma land_low p f k : 0 <= k -> p mod 2 ^ k = 0 -> 0 <= f < 2 ^ k -> Z.land p f = 0.
Proof.
  intros Hk Hp Hf. apply Z.bits_inj'. intros n Hn. rewrite Z.land_spec, Z.bits_0.
  destruct (Z.lt_ge_cases n k).
  - replace p with (p / 2 ^ k * 2 ^ k) by (rewrite (Z.div_mod p (2 ^ k)) at 2; lia).
    by rewrite Z.mul_pow2_bits_low by lia.
  - rewrite <- (Z.mod_small f (2 ^ k)) by done. rewrite Z.mod_pow2_bits_high by lia.
    apply andb_false_r.
Qed.

Lemma lor_low p f k : 0 <= k -> p mod 2 ^ k = 0 -> 0 <= f < 2 ^ k -> Z.lor p f = p + f.
Proof.
  intros Hk Hp Hf. pose proof (land_low p f k Hk Hp Hf) as H0.
  rewrite Z.add_nocarry_lxor by done. apply Z.bits_inj'. intros n Hn.
  rewrite Z.lor_spec, Z.lxor_spec.
  assert (Z.testbit p n && Z.testbit f n = false) by (rewrite <- Z.land_spec, H0; apply Z.bits_0).
  destruct (Z.testbit p n), (Z.testbit f n); done.
Qed.

Lemma land_low_page p f : p mod 4096 = 0 -> 0 <= f < 4096 -> Z.land p f = 0.
Proof. intros. by apply (land_low p f 12). Qed.

Lemma lor_page p f : p mod 4096 = 0 -> 0 <= f < 4096 -> Z.lor p f = p + f.
Proof. intros. by apply (lor_low p f 12). Qed.

Lemma testbit_page p f n : p mod 4096 = 0 -> 0 <= f < 4096 -> 0 <= n < 12 ->
  Z.testbit (p + f) n = Z.testbit f n.
Proof.
  intros Hp Hf Hn. rewrite <- lor_page, Z.lor_spec by done.
  replace p with (p / 4096 * 2 ^ 12) by (change (2 ^ 12) with 4096; zlia).
  by rewrite Z.mul_pow2_bits_low by lia.
Qed.

Lemma land_mask_page p f k : p mod 4096 = 0 -> 0 <= f < 4096 -> 0 <= k < 4096 ->
  Z.land (p + f) k = Z.land f k.
Proof.
  intros Hp Hf Hk. rewrite <- lor_page, Z.land_lor_distr_l, land_low_page by done.
  apply Z.lor_0_l.
Qed.

Lemma lor_byte a b : is_byte a -> is_byte b -> is_byte (Z.lor a b).
Proof.
  unfold is_byte. intros Ha Hb.
  enough (Z.lor a b = Z.lor a b mod 2 ^ 8) by (change 256 with (2 ^ 8); zlia).
  rewrite <- (Z.land_ones _ 8), Z.land_lor_distr_l, !Z.land_ones by lia.
  by rewrite !Z.mod_small.
Qed.

Lemma land_byte a b : 0 <= a -> is_byte b -> is_byte (Z.land a b).
Proof.
  unfold is_byte. intros Ha Hb.
  enough (Z.land a b = Z.land a b mod 2 ^ 8) by (change 256 with (2 ^ 8); zlia).
  rewrite <- (Z.land_ones _ 8), <- Z.land_assoc, (Z.land_ones b) by lia.
  by rewrite Z.mod_small.
Qed.

(** ** Programs with state and faults

    [M S A]: a computation on a state [S] that returns an [A] or faults (an
    access outside an object, a call that does not return). *)

Declare Scope prog_scope.
Delimit Scope prog_scope with prog.

Definition M (S A : Type) : Type := S -> option (A * S).

Definition ret {S A} (x : A) : M S A := fun s => Some (x, s).

Definition fault {S A} : M S A := fun _ => None.

Definition bind {S A B} (m : M S A) (k : A -> M S B) : M S B :=
  fun s => match m s with Some (x, s') => k x s' | None => None end.

Definition get {S} : M S S := fun s => Some (s, s).

Definition put {S} (s : S) : M S unit := fun _ => Some (tt, s).

Definition modify {S} (f : S -> S) : M S unit := fun s => Some (tt, f s).

(** An optional value, or a fault. *)
Definition lift {S A} (x : option A) : M S A :=
  fun s => match x with Some x => Some (x, s) | None => None end.

Notation "'let!' x ':=' m 'in' k" := (bind m (fun x => k))
  (at level 10, x pattern, m at level 100, k at level 200,
   format "'[v' 'let!'  x  ':='  m  'in' '/' k ']'") : prog_scope.

Notation "m ';!' k" := (bind m (fun _ => k)) (at level 199, right associativity) : prog_scope.

Lemma bind_Some {S A B} (m : M S A) (k : A -> M S B) s x s' :
  m s = Some (x, s') -> bind m k s = k x s'.
Proof. unfold bind. by intros ->. Qed.

Lemma bind_lift {S A B} (o : option A) (k : A -> M S B) s x :
  o = Some x -> bind (lift o) k s = k x s.
Proof. by intros ->. Qed.

Lemma bind_inv {S A B} (m : M S A) (k : A -> M S B) s r :
  bind m k s = Some r -> exists x s', m s = Some (x, s') /\ k x s' = Some r.
Proof. unfold bind. destruct (m s) as [[x s']|]; [|done]. eauto. Qed.

(** [for (int j = i; j < i + n; j++) body(j);] *)
Fixpoint for_loop {S} (n : nat) (i : Z) (body : Z -> M S unit) : M S unit :=
  match n with
  | O => ret tt
  | Datatypes.S n' => bind (body i) (fun _ => for_loop n' (i + 1) body)
  end.

(** A loop whose body never faults establishes its invariant. *)
Lemma for_loop_inv {S} (P : Z -> S -> Prop) body n : forall i s,
  P i s ->
  (forall j s, i <= j < i + Z.of_nat n -> P j s -> exists s', body j s = Some (tt, s') /\ P (j + 1) s') ->
  exists s', for_loop n i body s = Some (tt, s') /\ P (i + Z.of_nat n) s'.
Proof.
  induction n as [|n IH]; intros i s HP Hb.
  { exists s. rewrite Z.add_0_r. by split. }
  destruct (Hb i s) as (s1 & E1 & HP1); [lia|done|].
  destruct (IH (i + 1) s1) as (s2 & E2 & HP2); [done| |].
  { intros j s' Hj. apply Hb. lia. }
  exists s2. cbn [for_loop]. rewrite (bind_Some _ _ _ _ _ E1), E2.
  replace (i + Z.of_nat (Datatypes.S n)) with (i + 1 + Z.of_nat n) by lia. by split.
Qed.
