(* ===== verification/CLib.v ===== *)
(** * The kernel's C library: memory.c and string.c

    [memset] and [memcpy] act on physical memory.  The string routines take the
    objects their pointers designate as byte lists; an access outside the object
    makes the routine fault ([None]), so a theorem that a call returns [Some]
    also says that it stays in bounds. *)

From S2P Require Import Prelude.

(** ** Bounds-checked access to an object *)

Definition rd (l : list Z) (i : Z) : option Z :=
  if i <? 0 then None else l !! Z.to_nat i.

Definition wr (l : list Z) (i v : Z) : option (list Z) :=
  if (0 <=? i) && (i <? Z.of_nat (length l))
  then Some (<[Z.to_nat i := u8 v]> l) else None.

Lemma rd_lookup l i : 0 <= i -> rd l i = l !! Z.to_nat i.
Proof. intros. unfold rd. by rewrite (proj2 (Z.ltb_ge i 0)). Qed.

Lemma wr_Some l i v :
  0 <= i < Z.of_nat (length l) -> wr l i v = Some (<[Z.to_nat i := u8 v]> l).
Proof.
  intros. unfold wr. rewrite (proj2 (Z.leb_le 0 i)), (proj2 (Z.ltb_lt i _)) by lia.
  done.
Qed.

Lemma wr_length l i v l' : wr l i v = Some l' -> length l' = length l.
Proof. unfold wr. case_match; intros; simplify_eq. apply length_insert. Qed.

Lemma wr_app l i v a b :
  Z.of_nat (length a) = i -> l = a ++ b -> b <> [] ->
  wr l i v = Some (a ++ u8 v :: tail b).
Proof.
  intros Ha -> Hb. destruct b as [|x b]; [done|].
  rewrite wr_Some by (rewrite length_app; simpl; lia).
  rewrite <- Ha, Nat2Z.id, insert_app_r_alt by lia.
  by rewrite Nat.sub_diag.
Qed.

Lemma rd_app_r l a b i :
  l = a ++ b -> Z.of_nat (length a) = i -> rd l i = head b.
Proof.
  intros -> <-. unfold rd. rewrite (proj2 (Z.ltb_ge _ 0)) by lia.
  rewrite Nat2Z.id, lookup_app_r, Nat.sub_diag by lia. by destruct b.
Qed.

(** ** src/src/memory/memory.c *)

Module Memory.

(** [for (size_t i = 0; i < size; i++) c_ptr[i] = (char)c;] — [n] is the number
    of iterations left. *)
Fixpoint memset_loop (m : mem) (ptr c i : Z) (n : nat) : mem :=
  match n with
  | O => m
  | S n' => memset_loop (mwrite m (ptr_add ptr i) c) ptr c (i + 1) n'
  end.

Definition memset (m : mem) (ptr c size : Z) : mem :=
  memset_loop m ptr c 0 (Z.to_nat size).

(** [while (count-- > 0)]: the comparison is on plain (signed) [char]. *)
Fixpoint memcmp_loop (s1 s2 : list Z) (n : nat) {struct n} : option Z :=
  match n with
  | O => Some 0
  | S n' =>
    match s1, s2 with
    | c1 :: s1', c2 :: s2' =>
      if negb (c1 =? c2) then Some (if s8 c1 <? s8 c2 then -1 else 1)
      else memcmp_loop s1' s2' n'
    | _, _ => None
    end
  end.

Definition memcmp (s1 s2 : list Z) (count : Z) : option Z :=
  memcmp_loop s1 s2 (Z.to_nat count).

(** [for (int i = 0; i < len; i++) d[i] = s[i];] *)
Fixpoint memcpy_loop (m : mem) (dest src i : Z) (n : nat) : mem :=
  match n with
  | O => m
  | S n' =>
    memcpy_loop (mwrite m (ptr_add dest i) (mread m (ptr_add src i)))
      dest src (i + 1) n'
  end.

Definition memcpy (m : mem) (dest src len : Z) : mem :=
  memcpy_loop m dest src 0 (Z.to_nat len).

Lemma memset_loop_read m ptr c i n x :
  0 <= ptr -> 0 <= i -> ptr + i + Z.of_nat n <= 2 ^ 32 ->
  mread (memset_loop m ptr c i n) x =
    if decide (ptr + i <= x < ptr + i + Z.of_nat n) then u8 c else mread m x.
Proof.
  revert m i; induction n as [|n IH]; intros m i Hp Hi Hn; simpl.
  - rewrite decide_False by lia. done.
  - rewrite IH by lia. rewrite ptr_add_small, mread_mwrite by lia.
    repeat case_decide; try lia; done.
Qed.

Lemma memset_read m ptr c size x :
  0 <= ptr -> 0 <= size -> ptr + size <= 2 ^ 32 ->
  mread (memset m ptr c size) x =
    if decide (ptr <= x < ptr + size) then u8 c else mread m x.
Proof.
  intros. unfold memset. rewrite memset_loop_read by lia.
  rewrite Z.add_0_r, Z2Nat.id by lia. done.
Qed.

Lemma memcpy_loop_read m dest src i n x :
  0 <= dest -> 0 <= src -> 0 <= i ->
  dest + i + Z.of_nat n <= 2 ^ 32 -> src + i + Z.of_nat n <= 2 ^ 32 ->
  dest + i + Z.of_nat n <= src + i \/ src + i + Z.of_nat n <= dest + i ->
  mread (memcpy_loop m dest src i n) x =
    if decide (dest + i <= x < dest + i + Z.of_nat n)
    then mread m (src + (x - dest)) else mread m x.
Proof.
  revert m i; induction n as [|n IH]; intros m i Hd Hs Hi Hn Hn' Hdis; simpl.
  - rewrite decide_False by lia. done.
  - rewrite IH by lia. rewrite !ptr_add_small by lia. rewrite !mread_mwrite.
    pose proof (mread_byte m (src + i)) as Hb. unfold is_byte in Hb.
    repeat case_decide; try lia; try done; subst; rewrite u8_small by lia;
      f_equal; lia.
Qed.

(** Copying between objects that do not overlap is exact. *)
Lemma memcpy_read m dest src len x :
  0 <= dest -> 0 <= src -> 0 <= len ->
  dest + len <= 2 ^ 32 -> src + len <= 2 ^ 32 ->
  dest + len <= src \/ src + len <= dest ->
  mread (memcpy m dest src len) x =
    if decide (dest <= x < dest + len)
    then mread m (src + (x - dest)) else mread m x.
Proof.
  intros. unfold memcpy. rewrite memcpy_loop_read by lia.
  rewrite Z.add_0_r, Z2Nat.id by lia. done.
Qed.

Lemma memcmp_loop_eq s1 s2 n :
  memcmp_loop s1 s2 n = Some 0 ->
  take n s1 = take n s2 /\ (n <= length s1)%nat /\ (n <= length s2)%nat.
Proof.
  revert s1 s2; induction n as [|n IH]; intros s1 s2 H; [simpl; auto with lia|].
  destruct s1 as [|c1 s1], s2 as [|c2 s2]; try done. simpl in *.
  destruct (Z.eqb_spec c1 c2) as [->|]; simpl in H.
  - apply IH in H as (-> & ? & ?). auto with lia.
  - case_match; done.
Qed.

End Memory.

(** ** src/src/stdlib/string.c

    A string argument is the object from the pointer to its end; characters are
    bytes, [s8] gives the value of a plain [char]. *)

Module Str.

Definition tolower (s1 : Z) : Z :=
  if (65 <=? s8 s1) && (s8 s1 <=? 90) then u8 (s1 + 32) else s1.

(** Both [strcpy] loops advance the two pointers together: [i] counts the bytes
    already copied. *)
Fixpoint strcpy_loop (dest src : list Z) (i : Z) : option (list Z) :=
  match src with
  | [] => None
  | c :: src' =>
    if c =? 0 then wr dest i 0
    else d ← wr dest i c; strcpy_loop d src' (i + 1)
  end.

Definition strcpy (dest src : list Z) : option (list Z) := strcpy_loop dest src 0.

Fixpoint strlen_loop (ptr : list Z) (i : Z) : option Z :=
  match ptr with
  | [] => None
  | c :: ptr' => if c =? 0 then Some i else strlen_loop ptr' (i + 1)
  end.

Definition strlen (ptr : list Z) : option Z := strlen_loop ptr 0.

(** [strcat]: find the end of [dest], then copy [src] there; returns the new
    object and the length of the concatenation. *)
Fixpoint strcat_loop (dest src : list Z) (i : Z) : option (list Z * Z) :=
  match src with
  | [] => None
  | c :: src' =>
    if c =? 0 then d ← wr dest i 0; Some (d, i)
    else d ← wr dest i c; strcat_loop d src' (i + 1)
  end.

Definition strcat (dest src : list Z) : option (list Z * Z) :=
  i ← strlen_loop dest 0; strcat_loop dest src i.

(** [while (i < n - 1)]: [k] is the number of iterations left, [n - 1 - i]. *)
Fixpoint strncpy_loop (k : nat) (dest src : list Z) (i : Z) : option (list Z * Z) :=
  match k with
  | O => Some (dest, i)
  | S k' =>
    c ← rd src i;
    if c =? 0 then Some (dest, i)
    else d ← wr dest i c; strncpy_loop k' d src (i + 1)
  end.

Definition strncpy (dest src : list Z) (n : Z) : option (list Z) :=
  '(d, i) ← strncpy_loop (Z.to_nat (n - 1)) dest src 0;
  wr d i 0.

Fixpoint strnlen_loop (k : nat) (ptr : list Z) (i : Z) : option Z :=
  match k with
  | O => Some i
  | S k' => c ← rd ptr i; if c =? 0 then Some i else strnlen_loop k' ptr (i + 1)
  end.

Definition strnlen (ptr : list Z) (max : Z) : option Z :=
  strnlen_loop (Z.to_nat max) ptr 0.

Fixpoint strnlen_terminator_loop (k : nat) (str : list Z) (i max terminator : Z)
    : option Z :=
  match k with
  | O => Some max
  | S k' =>
    c ← rd str i;
    if (c =? 0) || (c =? terminator) then Some i
    else strnlen_terminator_loop k' str (i + 1) max terminator
  end.

Definition strnlen_terminator (str : list Z) (max terminator : Z) : option Z :=
  strnlen_terminator_loop (Z.to_nat max) str 0 max terminator.

(** [itoa] writes into a static [char text[12]] from the end; the result is the
    buffer and the index [loc] of the returned pointer.  A non-negative number
    is negated first, so that [INT_MIN] needs no special case; [%] and [/]
    truncate towards zero ([Z.rem], [Z.quot]). *)
Fixpoint itoa_loop (fuel : nat) (text : list Z) (loc i : Z) : option (list Z * Z) :=
  match fuel with
  | O => None
  | S fuel' =>
    if i =? 0 then Some (text, loc)
    else
      let loc := loc - 1 in
      t ← wr text loc (48 - Z.rem i 10);
      itoa_loop fuel' t loc (Z.quot i 10)
  end.

Definition itoa_fuel : nat := 12.

Definition itoa (text : list Z) (i : Z) : option (list Z * Z) :=
  t0 ← wr text 11 0;
  let neg := negb (0 <=? i) in
  let i := if 0 <=? i then s32 (- i) else i in
  '(t1, loc) ← itoa_loop itoa_fuel t0 11 i;
  '(t2, loc) ← (if loc =? 11 then t ← wr t1 10 48; Some (t, 10) else Some (t1, loc));
  if neg then t ← wr t2 (loc - 1) 45; Some (t, loc - 1) else Some (t2, loc).

Definition ctoi (c : Z) : Z := s8 c - 48.

(** The digits of the string literal "0123456789ABCDEF". *)
Definition hex_digit (d : Z) : Z := if d <? 10 then 48 + d else 55 + d.

Fixpoint itoa_hex_loop (fuel : nat) (text : list Z) (loc i : Z)
    : option (list Z * Z) :=
  match fuel with
  | O => None
  | S fuel' =>
    if i =? 0 then Some (text, loc)
    else
      let loc := loc - 1 in
      t ← wr text loc (hex_digit (i mod 16));
      itoa_hex_loop fuel' t loc (i / 16)
  end.

Definition itoa_hex (text : list Z) (i : Z) : option (list Z * Z) :=
  t0 ← wr text 11 0;
  if i =? 0 then t ← wr t0 10 48; Some (t, 10)
  else itoa_hex_loop itoa_fuel t0 11 i.

Definition is_digit (c : Z) : bool := (48 <=? s8 c) && (s8 c <=? 57).

Fixpoint istrncmp_loop (n : nat) (s1 s2 : list Z) : option Z :=
  match n with
  | O => Some 0
  | S n' =>
    match s1, s2 with
    | u1 :: s1', u2 :: s2' =>
      if negb (u1 =? u2) && negb (tolower u1 =? tolower u2) then Some (-1)
      else if u1 =? 0 then Some 0
      else istrncmp_loop n' s1' s2'
    | _, _ => None
    end
  end.

Definition istrncmp (s1 s2 : list Z) (n : Z) : option Z :=
  istrncmp_loop (Z.to_nat n) s1 s2.

Fixpoint strncmp_loop (n : nat) (str1 str2 : list Z) : option Z :=
  match n with
  | O => Some 0
  | S n' =>
    match str1, str2 with
    | c1 :: str1', c2 :: str2' =>
      if negb (c1 =? c2) then Some (-2)
      else if c1 =? 0 then Some 0
      else strncmp_loop n' str1' str2'
    | _, _ => None
    end
  end.

(** A null pointer is [None]. *)
Definition strncmp (str1 str2 : option (list Z)) (n : Z) : option Z :=
  match str1, str2 with
  | Some s1, Some s2 =>
    if n =? 0 then Some (-1) else strncmp_loop (Z.to_nat n) s1 s2
  | _, _ => Some (-1)
  end.

(** *** Properties *)

(** A C string: characters that are bytes and not NUL. *)
Definition is_char (c : Z) : Prop := 0 < c < 256.

(** [c_str s rest]: an object that holds the string [s], its terminator and
    then arbitrary bytes. *)
Definition c_str (s rest : list Z) : list Z := s ++ 0 :: rest.

Lemma strlen_loop_spec s rest i :
  Forall is_char s -> strlen_loop (c_str s rest) i = Some (i + Z.of_nat (length s)).
Proof.
  unfold c_str. intros Hs; revert i; induction Hs as [|c s Hc _ IH]; intros i; simpl.
  - f_equal. lia.
  - unfold is_char in Hc. rewrite (proj2 (Z.eqb_neq c 0)) by lia. rewrite IH.
    f_equal. lia.
Qed.

Lemma strlen_spec s rest :
  Forall is_char s -> strlen (c_str s rest) = Some (Z.of_nat (length s)).
Proof. intros. unfold strlen. by rewrite strlen_loop_spec. Qed.

Lemma strnlen_loop_spec s rest : forall k pre,
  Forall is_char s ->
  strnlen_loop k (pre ++ c_str s rest) (Z.of_nat (length pre))
  = Some (Z.of_nat (length pre + length s `min` k)).
Proof.
  induction s as [|c s IH]; intros [|k] pre Hs; simpl; rewrite ?Nat.add_0_r; try done.
  - by erewrite rd_app_r by done.
  - inversion Hs as [|? ? Hc Hs']; subst. unfold is_char in Hc.
    erewrite rd_app_r by done. simpl. rewrite (proj2 (Z.eqb_neq c 0)) by lia.
    specialize (IH k (pre ++ [c]) Hs'). rewrite <- app_assoc, length_app in IH. simpl in IH.
    replace (Z.of_nat (length pre) + 1) with (Z.of_nat (length pre + 1)) by lia.
    unfold c_str in *. simpl. rewrite IH. do 2 f_equal. lia.
Qed.

Lemma strnlen_spec s rest max :
  Forall is_char s -> 0 <= max ->
  strnlen (c_str s rest) max = Some (Z.min (Z.of_nat (length s)) max).
Proof.
  intros Hs Hm. unfold strnlen. pose proof (strnlen_loop_spec s rest (Z.to_nat max) [] Hs) as H.
  simpl in H. change (Z.of_nat 0) with 0 in H. rewrite H. f_equal. lia.
Qed.

Lemma strncpy_loop_spec pre post s rest k :
  Forall is_char s ->
  (length (take k s) <= length post)%nat ->
  forall dn, length dn = length pre ->
  strncpy_loop k (pre ++ post) (dn ++ c_str s rest) (Z.of_nat (length pre))
  = Some (pre ++ take k s ++ drop (length (take k s)) post,
          Z.of_nat (length pre + length (take k s))).
Proof.
  intros Hs; revert pre post k.
  induction Hs as [|c s Hc _ IH]; intros pre post k Hlen dn Hdn.
  - destruct k; simpl.
    + by rewrite Nat.add_0_r.
    + erewrite rd_app_r by (rewrite ?Hdn; done). simpl. by rewrite Nat.add_0_r.
  - destruct k as [|k]; simpl in Hlen |- *; [by rewrite Nat.add_0_r|].
    erewrite rd_app_r by (rewrite ?Hdn; done). simpl.
    unfold is_char in Hc. rewrite (proj2 (Z.eqb_neq c 0)) by lia.
    destruct post as [|p post]; simpl in Hlen; [lia|].
    erewrite wr_app by done. simpl.
    rewrite u8_small by lia.
    specialize (IH (pre ++ [c]) post k).
    replace (dn ++ c_str (c :: s) rest) with ((dn ++ [c]) ++ c_str s rest)
      by (unfold c_str; by rewrite <- app_assoc).
    replace (pre ++ c :: post) with ((pre ++ [c]) ++ post) by (by rewrite <- app_assoc).
    replace (Z.of_nat (length pre) + 1) with (Z.of_nat (length (pre ++ [c])))
      by (rewrite length_app; simpl; lia).
    rewrite IH by (rewrite ?length_app; simpl; lia).
    rewrite <- app_assoc. simpl. do 2 f_equal. rewrite length_app. simpl. lia.
Qed.

(** [strncpy] copies at most [n - 1] characters and always terminates. *)
Lemma strncpy_spec dest s rest n :
  Forall is_char s -> 1 <= n ->
  let t := take (Z.to_nat (n - 1)) s in
  (length t < length dest)%nat ->
  strncpy dest (c_str s rest) n = Some (t ++ 0 :: drop (S (length t)) dest).
Proof.
  intros Hs Hn t Ht. unfold strncpy.
  pose proof (strncpy_loop_spec [] dest s rest (Z.to_nat (n - 1)) Hs) as H.
  fold t in H. specialize (H ltac:(lia) [] eq_refl). simpl in H. change (Z.of_nat 0) with 0 in H.
  rewrite H. simpl.
  assert (drop (length t) dest <> []).
  { intros He. apply (f_equal length) in He. rewrite length_drop in He. simpl in He. lia. }
  erewrite wr_app by done. rewrite u8_small by lia. do 3 f_equal.
  rewrite <- (Nat.add_1_r (length t)), <- (drop_drop dest 1 (length t)).
  by destruct (drop (length t) dest).
Qed.

(** Case-insensitive comparison of two strings shorter than the bound decides
    equality after [tolower]. *)
Lemma istrncmp_loop_spec a ra b rb n :
  Forall is_char a -> Forall is_char b -> (length a < n)%nat ->
  istrncmp_loop n (c_str a ra) (c_str b rb)
  = Some (if decide (map tolower a = map tolower b) then 0 else -1).
Proof.
  intros Ha; revert b n; induction Ha as [|c a Hc _ IH]; intros b n Hb Hn;
    (destruct n as [|n]; [simpl in Hn; lia|]); destruct Hb as [|d b Hd Hb]; simpl;
    unfold is_char in *.
  - done.
  - rewrite (proj2 (Z.eqb_neq 0 d)) by lia. simpl.
    assert (tolower 0 <> tolower d) as Hne.
    { unfold tolower. change (s8 0) with 0. simpl.
      case_match; [|lia]. assert (s8 d <= 90) by lia.
      assert (d = s8 d) by (unfold s8 in *; zlia). rewrite u8_small; lia. }
    by rewrite (proj2 (Z.eqb_neq _ _) Hne).
  - rewrite (proj2 (Z.eqb_neq c 0)) by lia. simpl.
    assert (tolower c <> tolower 0) as Hne.
    { unfold tolower. change (s8 0) with 0. simpl.
      case_match; [|lia]. assert (s8 c <= 90) by lia.
      assert (c = s8 c) by (unfold s8 in *; zlia). rewrite u8_small; lia. }
    by rewrite (proj2 (Z.eqb_neq _ _) Hne).
  - simpl in Hn. fold (c_str a ra) (c_str b rb).
    destruct (Z.eqb_spec c d) as [->|Hcd]; simpl.
    + rewrite (proj2 (Z.eqb_neq d 0)) by lia. rewrite IH by (done || lia).
      repeat case_decide; congruence.
    + destruct (Z.eqb_spec (tolower c) (tolower d)) as [Heq|Hne]; simpl.
      * rewrite (proj2 (Z.eqb_neq c 0)) by lia. rewrite IH by (done || lia).
        repeat case_decide; congruence.
      * case_decide; congruence.
Qed.

(** Exact comparison of two strings shorter than the bound. *)
Lemma strncmp_loop_spec a ra b rb n :
  Forall is_char a -> Forall is_char b -> (length a < n)%nat ->
  strncmp_loop n (c_str a ra) (c_str b rb) = Some (if decide (a = b) then 0 else -2).
Proof.
  intros Ha; revert b n; induction Ha as [|c a Hc _ IH]; intros b n Hb Hn;
    (destruct n as [|n]; [simpl in Hn; lia|]); destruct Hb as [|d b Hd Hb]; simpl; unfold is_char in *.
  - done.
  - by rewrite (proj2 (Z.eqb_neq 0 d)) by lia.
  - by rewrite (proj2 (Z.eqb_neq c 0)) by lia.
  - simpl in Hn. fold (c_str a ra) (c_str b rb). destruct (Z.eqb_spec c d) as [->|Hcd]; simpl.
    + rewrite (proj2 (Z.eqb_neq d 0)) by lia. rewrite IH by (done || lia). repeat case_decide; congruence.
    + rewrite decide_False by congruence. done.
Qed.

(** Appending a string over the bytes behind [pre]. *)
Lemma strcat_loop_spec s rest : forall pre post,
  Forall is_char s -> (length s < length post)%nat ->
  strcat_loop (pre ++ post) (c_str s rest) (Z.of_nat (length pre))
  = Some (pre ++ s ++ 0 :: drop (S (length s)) post, Z.of_nat (length pre + length s)).
Proof.
  induction s as [|c s IH]; intros pre post Hs Hl; simpl.
  - rewrite (wr_app _ _ _ pre post) by (done || (destruct post; simpl in *; [lia|done])). simpl.
    rewrite u8_small by lia. rewrite Nat.add_0_r. by destruct post.
  - apply Forall_cons in Hs as [Hc Hs]. unfold is_char in Hc.
    rewrite (proj2 (Z.eqb_neq c 0)) by lia. destruct post as [|x post]; [simpl in Hl; lia|].
    rewrite (wr_app _ _ _ pre (x :: post)) by done. simpl in Hl |- *. rewrite u8_small by lia.
    fold (c_str s rest). specialize (IH (pre ++ [c]) post Hs ltac:(lia)).
    rewrite length_app, <- !app_assoc in IH. simpl in IH.
    replace (Z.of_nat (length pre) + 1) with (Z.of_nat (length pre + 1)) by lia. rewrite IH.
    do 2 f_equal. lia.
Qed.

Lemma strcpy_strcat_loop src : forall dest i, strcpy_loop dest src i = fst <$> strcat_loop dest src i.
Proof.
  induction src as [|c src IH]; intros dest i; simpl; [done|]. destruct (c =? 0).
  - by destruct (wr dest i 0).
  - destruct (wr dest i c) as [d|]; simpl; [apply IH|done].
Qed.

(** *** Decimal conversion *)

Definition dec_digit (c : Z) : Prop := 48 <= c <= 57.

(** The value of a string of decimal digits. *)
Definition dec_val (ds : list Z) : Z := foldl (fun a c => 10 * a + (c - 48)) 0 ds.

Lemma dec_val_snoc ds d : dec_val (ds ++ [d]) = 10 * dec_val ds + (d - 48).
Proof. unfold dec_val. by rewrite foldl_app. Qed.

Lemma itoa_loop_spec fuel : forall pre suf i k,
  i <= 0 -> - i < 10 ^ Z.of_nat k -> (k <= length pre)%nat -> (k < fuel)%nat ->
  exists ds pre',
    itoa_loop fuel (pre ++ suf) (Z.of_nat (length pre)) i
      = Some (pre' ++ ds ++ suf, Z.of_nat (length pre')) /\
    length pre = (length pre' + length ds)%nat /\ Forall dec_digit ds /\
    dec_val ds = - i /\ (length ds <= k)%nat /\
    (i = 0 -> ds = []) /\ (i <> 0 -> ds <> []) /\ head ds <> Some 48.
Proof.
  induction fuel as [|fuel IH]; intros pre suf i k Hi Hk Hpre Hf; [lia|]. simpl.
  destruct (Z.eqb_spec i 0) as [->|Hne].
  { exists [], pre. repeat split; try done; simpl; lia. }
  assert (k <> 0%nat) as Hk0 by (intros ->; simpl in Hk; lia).
  destruct pre as [|p pre _] using rev_ind; [simpl in Hpre; lia|].
  rewrite length_app in Hpre |- *. simpl in Hpre |- *.
  replace (Z.of_nat (length pre + 1) - 1) with (Z.of_nat (length pre)) by lia.
  rewrite <- app_assoc. simpl. erewrite wr_app by done. simpl.
  set (d := 48 - Z.rem i 10).
  assert (Z.rem i 10 <= 0 /\ -9 <= Z.rem i 10) as Hr by zlia.
  rewrite (u8_small d) by (unfold d; lia).
  destruct (IH pre (d :: suf) (Z.quot i 10) (k - 1)%nat) as
    (ds & pre' & Heq & Hlen & Hds & Hv & Hdl & Hz & Hnz & Hh); [zlia| |lia..|].
  { replace k with (S (k - 1)) in Hk by lia.
    rewrite Nat2Z.inj_succ, Z.pow_succ_r in Hk by lia. zlia. }
  exists (ds ++ [d]), pre'. rewrite Heq.
  rewrite <- (app_assoc ds). simpl. rewrite length_app. simpl.
  split; [done|]. split; [lia|].
  split. { apply Forall_app; split; [done|]. repeat constructor; unfold d; lia. }
  split. { rewrite dec_val_snoc, Hv. unfold d. zlia. }
  split; [lia|]. split; [done|]. split; [by destruct ds|].
  destruct (decide (Z.quot i 10 = 0)) as [Hq|Hq].
  - rewrite (Hz Hq). simpl. unfold d. intros [=]. zlia.
  - specialize (Hnz Hq). by destruct ds.
Qed.

Lemma wr_before pre suf v :
  pre <> [] ->
  exists pre', wr (pre ++ suf) (Z.of_nat (length pre) - 1) v
                 = Some (pre' ++ u8 v :: suf) /\
               Z.of_nat (length pre') = Z.of_nat (length pre) - 1.
Proof.
  intros Hne. destruct pre as [|p pre _] using rev_ind; [done|].
  rewrite length_app. simpl. exists pre. split; [|lia].
  rewrite <- app_assoc. by apply (wr_app _ _ _ pre (p :: suf)); [lia|..].
Qed.

#[local] Arguments itoa_loop : simpl never.

(** [itoa] never leaves its 12-byte buffer, and the returned string is the
    sign followed by the decimal digits of the number, without a leading zero. *)
Lemma itoa_spec text i :
  length text = 12%nat -> -2147483648 <= i < 2147483648 ->
  exists text' loc ds,
    itoa text i = Some (text', loc) /\
    drop (Z.to_nat loc) text' = (if decide (i < 0) then [45] else []) ++ ds ++ [0] /\
    Forall dec_digit ds /\ ds <> [] /\ dec_val ds = Z.abs i /\
    (head ds = Some 48 -> i = 0).
Proof.
  intros Hl Hi. unfold itoa.
  destruct text as [|p text _] using rev_ind; [done|].
  rewrite length_app in Hl. simpl in Hl.
  rewrite (wr_app _ 11 0 text [p]) by (done || lia). simpl.
  rewrite u8_small by lia. set (n := if 0 <=? i then s32 (- i) else i).
  assert (n <= 0 /\ - n = Z.abs i) as [Hn0 Hn].
  { unfold n. destruct (Z.leb_spec 0 i); [rewrite s32_small|]; lia. }
  destruct (itoa_loop_spec itoa_fuel text [0] n 10%nat) as
    (ds & pre & Heq & Hlen & Hds & Hv & Hdl & Hz & Hnz & Hh);
    [lia| |lia|unfold itoa_fuel; lia|].
  { change (10 ^ Z.of_nat 10) with 10000000000. lia. }
  replace (Z.of_nat (length text)) with 11 in Heq by lia. rewrite Heq. simpl.
  destruct (decide (n = 0)) as [Hzero|Hzero].
  - assert (i = 0) as -> by lia. rewrite (Hz Hzero) in Hlen |- *. simpl in Hlen |- *.
    destruct (wr_before pre [0] 48) as (pre' & Hw & Hp'); [by destruct pre|].
    replace (Z.of_nat (length pre) - 1) with 10 in * by lia.
    replace (Z.of_nat (length pre)) with 11 by lia. simpl. rewrite Hw. simpl.
    exists (pre' ++ [48; 0]), 10, [48]. rewrite drop_app_length' by lia.
    repeat split; try done. repeat constructor; lia.
  - specialize (Hnz Hzero). assert (length ds <> 0)%nat by (by destruct ds).
    rewrite (proj2 (Z.eqb_neq (Z.of_nat (length pre)) 11)) by lia. simpl.
    destruct (Z.leb_spec 0 i); simpl.
    + exists (pre ++ ds ++ [0]), (Z.of_nat (length pre)), ds. split; [done|].
      rewrite Nat2Z.id, drop_app_length, decide_False by lia.
      repeat split; try done; lia.
    + destruct (wr_before pre (ds ++ [0]) 45) as (pre' & Hw & Hp').
      { intros ->. simpl in *. lia. }
      rewrite Hw. simpl. rewrite <- Hp'.
      eexists _, _, ds. split; [done|].
      rewrite Nat2Z.id, drop_app_length, decide_True by lia.
      repeat split; try done; lia.
Qed.

Lemma itoa_spec_witness :
  exists text' loc ds,
    itoa (replicate 12 0) (-2147483648) = Some (text', loc) /\
    drop (Z.to_nat loc) text' = [45] ++ ds ++ [0] /\
    Forall dec_digit ds /\ ds <> [] /\ dec_val ds = 2147483648 /\
    (head ds = Some 48 -> -2147483648 = 0).
Proof. apply (itoa_spec (replicate 12 0) (-2147483648)); [reflexivity|lia]. Defined.

End Str.
