(* ===== verification/KAlloc.v ===== *)
(** * The allocator interface

    What the heap promises to the components that call [kzalloc] and [kfree].
    [KAlloc] names the two operations over an abstract allocator state,
    [KAllocLaws] their contract in terms of the live allocations (a map from
    the address of an allocation to its length in 4096-byte blocks) and of the
    number of free blocks, and [KAllocMem] what an allocator that lives in
    physical memory promises about the contents of the allocations.  Heap.v
    discharges the contracts for the kernel heap; paging, the file system and
    the network stack are proved against the interface only. *)

From S2P Require Import Prelude.

(** Blocks needed for a request of [size] bytes. *)
Definition nblocks (size : Z) : Z := (size + 4095) / 4096.

(** The sizes for which the block count is exact and not zero. *)
Definition size_ok (size : Z) : Prop := 0 < size <= 0xfffff000.

Class KAlloc (A : Type) := {
  ka_zalloc : A -> Z -> Z * A;
  ka_free : A -> Z -> A
}.

Class KAllocLaws (A : Type) `{KAlloc A} := {
  (** [ka_live a lv n]: the live allocations are [lv], [n] blocks are free. *)
  ka_live : A -> gmap Z Z -> Z -> Prop;

  (** A failed request changes nothing, and a one-block request fails only
      when no block is free; a successful one adds one allocation at an address
      that was not live. *)
  ka_zalloc_spec : forall a lv n size p a',
    ka_live a lv n -> size_ok size -> ka_zalloc a size = (p, a') ->
    (p = NULL /\ a' = a /\ (nblocks size = 1 -> n = 0)) \/
    (p <> NULL /\ p mod 4096 = 0 /\ lv !! p = None /\
     ka_live a' (<[p := nblocks size]> lv) (n - nblocks size));

  ka_free_spec : forall a lv n p k,
    ka_live a lv n -> lv !! p = Some k -> ka_live (ka_free a p) (delete p lv) (n + k);

  ka_disjoint : forall a lv n p i q j,
    ka_live a lv n -> lv !! p = Some i -> lv !! q = Some j -> p <> q ->
    p + i * 4096 <= q \/ q + j * 4096 <= p;

  ka_range : forall a lv n p k,
    ka_live a lv n -> lv !! p = Some k ->
    0 < p /\ 1 <= k /\ p + k * 4096 < 2 ^ 32;

  (** The end of the memory that is handed out. *)
  ka_top : Z;
  ka_below : forall a lv n p k, ka_live a lv n -> lv !! p = Some k -> p + k * 4096 <= ka_top;

  ka_free_pos : forall a lv n, ka_live a lv n -> 0 <= n
}.

Class KAllocMem `{KAllocLaws mem} := {
  kam_zero : forall m lv n size p m',
    ka_live m lv n -> size_ok size -> ka_zalloc m size = (p, m') -> p <> NULL ->
    forall x, p <= x < p + size -> mread m' x = 0;

  kam_frame : forall m lv n size p m' q j,
    ka_live m lv n -> size_ok size -> ka_zalloc m size = (p, m') ->
    lv !! q = Some j -> forall x, q <= x < q + j * 4096 -> mread m' x = mread m x;

  kam_free_frame : forall m lv n p k q j,
    ka_live m lv n -> lv !! p = Some k -> lv !! q = Some j ->
    forall x, q <= x < q + j * 4096 -> mread (ka_free m p) x = mread m x;

  kam_write : forall m lv n p k a v,
    ka_live m lv n -> lv !! p = Some k -> p <= a < p + k * 4096 ->
    ka_live (mwrite m a v) lv n
}.

(** Fragmentation is bounded: [k] allocations cut the pool into at most [k + 1]
    free runs, so a request for [b] blocks succeeds when more than
    [(b - 1) * (k + 1)] blocks are free. *)
Class KAllocRoom (A : Type) `{KAllocLaws A} := {
  ka_room : forall a lv n sz p a',
    ka_live a lv n -> size_ok sz ->
    (nblocks sz - 1) * (Z.of_nat (size lv) + 1) < n ->
    ka_zalloc a sz = (p, a') -> p <> NULL
}.

(** Freeing the null pointer is not an error of the C interface: it harms no
    allocation. *)
Class KAllocNull `{KAllocLaws mem} := {
  ka_free_null : forall m lv n, ka_live m lv n -> ka_live (ka_free m NULL) lv n;
  kam_free_null : forall m lv n q j, ka_live m lv n -> lv !! q = Some j ->
    forall x, q <= x < q + j * 4096 -> mread (ka_free m NULL) x = mread m x
}.

(** Live maps with one-block allocations added and removed one by one. *)
Definition add_pages (lv : gmap Z Z) (ts : list Z) : gmap Z Z :=
  foldl (fun l t => <[t := 1]> l) lv ts.

Definition del_pages (lv : gmap Z Z) (ts : list Z) : gmap Z Z :=
  foldl (fun l t => delete t l) lv ts.

Lemma decide_elem_cons {B} (x t : Z) ts (a b : B) :
  (if decide (x ∈ ts) then a else if decide (t = x) then a else b)
  = if decide (x ∈ t :: ts) then a else b.
Proof.
  pose proof (elem_of_cons ts x t) as H. destruct (decide (x ∈ ts)) as [Hin|Hin].
  { by rewrite decide_True by (apply H; by right). }
  destruct (decide (t = x)) as [->|Hne].
  { by rewrite decide_True by (apply H; by left). }
  rewrite decide_False; [done|]. intros [?|?]%H; congruence.
Qed.

Lemma lookup_add_pages lv ts x :
  add_pages lv ts !! x = if decide (x ∈ ts) then Some 1 else lv !! x.
Proof.
  revert lv; induction ts as [|t ts IH]; intros lv; [done|].
  change (add_pages lv (t :: ts)) with (add_pages (<[t := 1]> lv) ts).
  rewrite IH, lookup_insert. by apply decide_elem_cons.
Qed.

Lemma lookup_del_pages lv ts x :
  del_pages lv ts !! x = if decide (x ∈ ts) then None else lv !! x.
Proof.
  revert lv; induction ts as [|t ts IH]; intros lv; [done|].
  change (del_pages lv (t :: ts)) with (del_pages (delete t lv) ts).
  rewrite IH, lookup_delete. by apply decide_elem_cons.
Qed.

Lemma add_pages_app lv ts us : add_pages lv (ts ++ us) = add_pages (add_pages lv ts) us.
Proof. unfold add_pages. by rewrite foldl_app. Qed.

Lemma del_add_pages lv ts :
  Forall (fun t => lv !! t = None) ts -> del_pages (add_pages lv ts) ts = lv.
Proof.
  intros Hf. apply map_eq. intros x. rewrite lookup_del_pages, lookup_add_pages.
  rewrite Forall_forall in Hf. case_decide; [|done]. symmetry. by apply Hf.
Qed.

Lemma add_pages_union lv ts : add_pages ∅ ts ∪ lv = add_pages lv ts.
Proof.
  apply map_eq. intros x. rewrite lookup_union, !lookup_add_pages. case_decide.
  - by destruct (lv !! x).
  - rewrite lookup_empty. by destruct (lv !! x).
Qed.

Lemma add_pages_insert lv ts p k :
  ~ (p ∈ ts) -> add_pages (<[p := k]> lv) ts = <[p := k]> (add_pages lv ts).
Proof.
  intros Hp. apply map_eq. intros x. rewrite lookup_add_pages.
  destruct (decide (x = p)) as [->|Hne].
  - by rewrite decide_False, !lookup_insert_eq.
  - by rewrite !lookup_insert_ne, lookup_add_pages by done.
Qed.

Lemma size_add_pages lv ts : (size (add_pages lv ts) <= size lv + length ts)%nat.
Proof.
  revert lv; induction ts as [|t ts IH]; intros lv; simpl; [lia|].
  etrans; [apply IH|]. destruct (lv !! t) as [k|] eqn:Hl.
  - rewrite map_size_insert_Some by eauto. lia.
  - rewrite map_size_insert_None by done. lia.
Qed.

Section Derived.
Context `{KL : KAllocLaws A}.

Lemma ka_null a lv n : ka_live a lv n -> lv !! NULL = None.
Proof.
  intros Ha. apply eq_None_not_Some. intros [k Hk].
  pose proof (ka_range _ _ _ _ _ Ha Hk). unfold NULL in *. lia.
Qed.

Lemma nblocks_1 size : 0 < size <= 4096 -> size_ok size /\ nblocks size = 1.
Proof. unfold size_ok, nblocks. intros. split; zlia. Qed.

(** With a free block, a request of at most one block succeeds. *)
Lemma ka_zalloc_1 a lv n size :
  ka_live a lv n -> 0 < size <= 4096 -> 0 < n ->
  exists p a', ka_zalloc a size = (p, a') /\ p <> NULL /\ p mod 4096 = 0 /\
    lv !! p = None /\ ka_live a' (<[p := 1]> lv) (n - 1).
Proof.
  intros Ha Hs Hn. destruct (nblocks_1 size Hs) as [Hok Hb].
  destruct (ka_zalloc a size) as [p a'] eqn:Hz. exists p, a'.
  destruct (ka_zalloc_spec _ _ _ _ _ _ Ha Hok Hz) as [(_ & _ & H0)|(H1 & H2 & H3 & H4)].
  - specialize (H0 Hb). lia.
  - rewrite Hb in H4. done.
Qed.

(** An allocation that is freed at once leaves the allocator as it was. *)
Lemma ka_zalloc_free a lv n size p a' :
  ka_live a lv n -> size_ok size -> ka_zalloc a size = (p, a') -> p <> NULL ->
  ka_live (ka_free a' p) lv n.
Proof.
  intros Ha Hs Hz Hp.
  destruct (ka_zalloc_spec _ _ _ _ _ _ Ha Hs Hz) as [[? _]|(_ & _ & Hn & Ha')]; [done|].
  rewrite <- (delete_insert_id lv p (nblocks size) Hn).
  replace n with (n - nblocks size + nblocks size) by lia.
  eapply ka_free_spec; [done|]. apply lookup_insert_eq.
Qed.

(** Freeing one-block allocations one after the other. *)
Lemma ka_free_all ts : forall a lv f,
  ka_live a lv f -> NoDup ts -> Forall (fun t => lv !! t = Some 1) ts ->
  ka_live (foldl ka_free a ts) (del_pages lv ts) (f + Z.of_nat (length ts)).
Proof.
  induction ts as [|t ts IH]; intros a lv f Ha Hnd Hl; simpl.
  { by replace (f + Z.of_nat 0) with f by lia. }
  apply NoDup_cons in Hnd as [Hnin Hnd]. apply Forall_cons in Hl as [Ht Hl].
  replace (f + Z.of_nat (S (length ts))) with (f + 1 + Z.of_nat (length ts)) by lia.
  apply IH; [by apply ka_free_spec|done|]. rewrite Forall_forall in Hl |- *. intros x Hx.
  rewrite lookup_delete_ne by (by intros ->). by apply Hl.
Qed.

(** Fresh one-block allocations, all released again. *)
Lemma ka_free_added a lv f ts :
  ka_live a (add_pages lv ts) (f - Z.of_nat (length ts)) -> NoDup ts ->
  Forall (fun t => lv !! t = None) ts ->
  ka_live (foldl ka_free a ts) lv f.
Proof.
  intros Ha Hnd Hf. rewrite <- (del_add_pages lv ts Hf).
  replace f with (f - Z.of_nat (length ts) + Z.of_nat (length ts)) by lia.
  apply ka_free_all; [done..|]. apply Forall_forall. intros x Hx.
  by rewrite lookup_add_pages, decide_True.
Qed.

(** [owned lv ts]: the addresses were free in [lv] and are pairwise different. *)
Definition owned (lv : gmap Z Z) (ts : list Z) : Prop :=
  NoDup ts /\ Forall (fun t => lv !! t = None) ts.

Lemma owned_disjoint lv ts : owned lv ts -> add_pages ∅ ts ##ₘ lv.
Proof.
  intros [_ Hf]. apply map_disjoint_spec. intros x i j. rewrite lookup_add_pages, lookup_empty.
  case_decide as Hx; [|done]. rewrite Forall_forall in Hf. intros _. by rewrite (Hf x Hx).
Qed.

Lemma owned_snoc lv ts t : owned lv ts -> add_pages lv ts !! t = None -> owned lv (ts ++ [t]).
Proof.
  intros [Hnd Hf] Ht. rewrite lookup_add_pages in Ht. case_decide as Hin; [done|]. split.
  - apply NoDup_app. split; [done|]. split; [|apply NoDup_singleton].
    intros x Hx ->%list_elem_of_singleton. done.
  - apply Forall_app. split; [done|]. by constructor.
Qed.

Lemma owned_app lv ts us : owned lv ts -> owned (add_pages lv ts) us -> owned lv (ts ++ us).
Proof.
  intros [Hnd Hf] [Hnd' Hf']. rewrite Forall_forall in Hf'. split.
  - apply NoDup_app. split; [done|]. split; [|done]. intros x Hx Hx'.
    specialize (Hf' x Hx'). rewrite lookup_add_pages, decide_True in Hf' by done. done.
  - apply Forall_app. split; [done|]. apply Forall_forall. intros x Hx.
    specialize (Hf' x Hx). rewrite lookup_add_pages in Hf'. by case_decide.
Qed.

Lemma add_pages_comm lv ts us : add_pages (add_pages lv ts) us = add_pages (add_pages lv us) ts.
Proof. apply map_eq. intros x. rewrite !lookup_add_pages. by repeat case_decide. Qed.

Lemma owned_app_inv lv ts us : owned lv (ts ++ us) -> owned lv ts /\ owned (add_pages lv ts) us.
Proof.
  intros [Hnd Hf]. apply NoDup_app in Hnd as (Ht & Hd & Hu). apply Forall_app in Hf as [Hft Hfu].
  split; [done|]. split; [done|]. rewrite Forall_forall in Hfu |- *. intros x Hx.
  rewrite lookup_add_pages, decide_False by (intros ?; by apply (Hd x)). by apply Hfu.
Qed.

Lemma owned_swap lv ts us :
  owned lv ts -> owned (add_pages lv ts) us -> owned lv us /\ owned (add_pages lv us) ts.
Proof.
  intros [Hnd Hf] [Hnd' Hf']. rewrite Forall_forall in Hf, Hf'.
  split; split; [done| |done|]; rewrite Forall_forall.
  - intros x Hx. specialize (Hf' x Hx). rewrite lookup_add_pages in Hf'. by case_decide.
  - intros x Hx. rewrite lookup_add_pages, decide_False; [by apply Hf|]. intros Hu.
    specialize (Hf' x Hu). by rewrite lookup_add_pages, decide_True in Hf'.
Qed.

End Derived.

Section DerivedMem.
Context `{KM : KAllocMem}.

Lemma kam_write_n m lv n p k a l :
  ka_live m lv n -> lv !! p = Some k -> p <= a -> a + Z.of_nat (length l) <= p + k * 4096 ->
  ka_live (mwrite_n m a l) lv n.
Proof.
  intros Hm Hp. pose proof (ka_range _ _ _ _ _ Hm Hp). revert m a Hm.
  induction l as [|b l IH]; intros m a Hm Ha Hl; [done|]. simpl in Hl |- *.
  assert (ka_live (mwrite m a b) lv n) by (eapply kam_write; [done..|lia]).
  destruct l as [|c l]; [done|]. simpl in Hl. rewrite ptr_add_small by lia.
  apply IH; [done|simpl; lia..].
Qed.

Lemma kam_store32 m lv n p k a v :
  ka_live m lv n -> lv !! p = Some k -> p <= a -> a + 4 <= p + k * 4096 ->
  ka_live (store32 m a v) lv n.
Proof. intros. eapply kam_write_n; [done..|]. rewrite length_le_bytes. lia. Qed.

Lemma kam_load32_frame m lv n size p m' q j a :
  ka_live m lv n -> size_ok size -> ka_zalloc m size = (p, m') ->
  lv !! q = Some j -> q <= a -> a + 4 <= q + j * 4096 -> load32 m' a = load32 m a.
Proof.
  intros Hm Hs Hz Hq Ha Hb. pose proof (ka_range _ _ _ _ _ Hm Hq).
  apply load32_ext; [lia..|]. intros x Hx. eapply kam_frame; [done..|lia].
Qed.

Lemma kam_load32_free m lv n p k q j a :
  ka_live m lv n -> lv !! p = Some k -> lv !! q = Some j ->
  q <= a -> a + 4 <= q + j * 4096 -> load32 (ka_free m p) a = load32 m a.
Proof.
  intros Hm Hp Hq Ha Hb. pose proof (ka_range _ _ _ _ _ Hm Hq).
  apply load32_ext; [lia..|]. intros x Hx. eapply kam_free_frame; [done..|lia].
Qed.

End DerivedMem.

(** ** Framing

    The contents of a set of allocations are part of the frame: fixing the
    allocations [lv0] and their contents in [m0] gives another instance of the
    interface, whose live allocations are the others.  Whatever is proved
    against the interface then also says that it leaves the frame alone. *)

Definition keeps (lv : gmap Z Z) (m m' : mem) : Prop :=
  forall q j x, lv !! q = Some j -> q <= x < q + j * 4096 -> mread m' x = mread m x.

Lemma keeps_refl lv m : keeps lv m m.
Proof. by intros q j x. Qed.

Lemma keeps_trans lv m1 m2 m3 : keeps lv m1 m2 -> keeps lv m2 m3 -> keeps lv m1 m3.
Proof. intros H1 H2 q j x Hq Hx. rewrite (H2 q j x Hq Hx). by apply (H1 q j). Qed.

Lemma keeps_sub lv lv' m m' : lv' ⊆ lv -> keeps lv m m' -> keeps lv' m m'.
Proof. intros Hs Hk q j x Hq. eapply Hk, lookup_weaken; done. Qed.

Section Framed.
Context `{KM : KAllocMem} (m0 : mem) (lv0 : gmap Z Z).

Definition framed_live (m : mem) (lv : gmap Z Z) (n : Z) : Prop :=
  lv ##ₘ lv0 /\ ka_live m (lv ∪ lv0) n /\ keeps lv0 m0 m.

#[local] Obligation Tactic := idtac.

Program Definition framed : KAllocLaws mem := {| ka_live := framed_live; ka_top := ka_top |}.
Next Obligation.
  intros a lv n size p a' (Hd & Ha & Hk) Hs Hz.
  destruct (ka_zalloc_spec _ _ _ _ _ _ Ha Hs Hz) as [?|(H1 & H2 & H3 & H4)]; [by left|right].
  apply lookup_union_None in H3 as [H3 H3']. split; [done|]. split; [done|]. split; [done|].
  split; [by apply map_disjoint_insert_l|]. rewrite <- insert_union_l. split; [done|].
  eapply keeps_trans; [done|]. intros q j x Hq. eapply kam_frame; [done..|].
  by apply lookup_union_Some_r.
Qed.
Next Obligation.
  intros a lv n p k (Hd & Ha & Hk) Hp. assert (lv0 !! p = None) as Hp0 by (by eapply map_disjoint_Some_l).
  assert ((lv ∪ lv0) !! p = Some k) as Hu by (by apply lookup_union_Some_l).
  split; [by apply map_disjoint_delete_l|]. split.
  - replace (delete p lv ∪ lv0) with (delete p (lv ∪ lv0)); [by apply ka_free_spec|].
    by rewrite delete_union, (delete_id lv0).
  - eapply keeps_trans; [done|]. intros q j x Hq. eapply kam_free_frame; [done..|].
    by apply lookup_union_Some_r.
Qed.
Next Obligation.
  intros a lv n p i q j (Hd & Ha & _) Hp Hq. eapply ka_disjoint; [done|by apply lookup_union_Some_l..].
Qed.
Next Obligation.
  intros a lv n p k (Hd & Ha & _) Hp. eapply ka_range; [done|by apply lookup_union_Some_l].
Qed.
Next Obligation.
  intros a lv n p k (Hd & Ha & _) Hp. eapply ka_below; [done|by apply lookup_union_Some_l].
Qed.
Next Obligation. intros a lv n (_ & Ha & _). by eapply ka_free_pos. Qed.

#[local] Program Instance framed_mem : @KAllocMem _ framed.
Next Obligation. intros m lv n size p m' (_ & Ha & _). by eapply kam_zero. Qed.
Next Obligation.
  intros m lv n size p m' q j (_ & Ha & _) Hs Hz Hq. eapply kam_frame; [done..|].
  by apply lookup_union_Some_l.
Qed.
Next Obligation.
  intros m lv n p k q j (_ & Ha & _) Hp Hq. eapply kam_free_frame; [done|by apply lookup_union_Some_l..].
Qed.
Next Obligation.
  intros m lv n p k a v (Hd & Ha & Hk) Hp Hx.
  assert ((lv ∪ lv0) !! p = Some k) as Hu by (by apply lookup_union_Some_l).
  split; [done|]. split; [by eapply kam_write|]. eapply keeps_trans; [done|].
  intros q j x Hq Hxq. apply mread_mwrite_ne. intros <-.
  assert (p <> q) as Hne by (intros ->; by rewrite (map_disjoint_Some_l _ _ _ _ Hd Hp) in Hq).
  destruct (ka_disjoint _ _ _ p k q j Ha Hu) as [?|?]; [by apply lookup_union_Some_r|done|lia..].
Qed.

(** Entering and leaving the frame. *)
Lemma framed_intro m lv n : lv ##ₘ lv0 -> ka_live m (lv ∪ lv0) n -> keeps lv0 m0 m -> framed_live m lv n.
Proof. done. Qed.

End Framed.
