(* ===== verification/Heap.v ===== *)
(** * The kernel heap: heap.c and kheap.c

    The heap is a pool of 4096-byte blocks described by a table with one byte
    per block.  The table lives in physical memory, at the address the
    [entries] field holds, and every table access below is a read or a write of
    that memory.  [Heap] holds the operations of heap.c, [KHeap] the kernel's
    instance of it, [Spec] an abstract allocator over block layouts that the
    operations are proved to refine, [Clients] what the callers of the allocator
    hold and know. *)

From S2P Require Import Prelude CLib KAlloc.
Import Memory.

Definition TOYOS_HEAP_SIZE_BYTES : Z := 104857600.
Definition TOYOS_HEAP_BLOCK_SIZE : Z := 4096.
Definition TOYOS_HEAP_ADDRESS : Z := 0x01000000.
Definition TOYOS_HEAP_TABLE_ADDRESS : Z := 0x00007e00.

Module Heap.

Definition HEAP_BLOCK_TABLE_ENTRY_TAKEN : Z := 0x01.
Definition HEAP_BLOCK_TABLE_ENTRY_FREE : Z := 0x00.
Definition HEAP_BLOCK_HAS_NEXT : Z := 0x80.
Definition HEAP_BLOCK_IS_FIRST : Z := 0x40.

(** [entries] is the address of the table in memory. *)
Record heap_table := mk_table { entries : Z; total : Z }.

Record heap := mk_heap { table : heap_table; saddr : Z }.

Definition heap_validate_table (ptr end_ : Z) (t : heap_table) : Z :=
  let table_size := u32 (s32 (end_ - ptr)) in
  let total_blocks := table_size / TOYOS_HEAP_BLOCK_SIZE in
  if negb (total t =? total_blocks) then - EINVARG else OK.

Definition heap_validate_alignment (ptr : Z) : bool :=
  ptr mod TOYOS_HEAP_BLOCK_SIZE =? 0.

Definition heap_align_value_to_upper (val : Z) : Z :=
  if val mod TOYOS_HEAP_BLOCK_SIZE =? 0 then val
  else
    let val := u32 (val - val mod TOYOS_HEAP_BLOCK_SIZE) in
    u32 (val + TOYOS_HEAP_BLOCK_SIZE).

Definition heap_get_entry_type (entry : Z) : Z := Z.land entry 0x0f.

Definition entry_at (m : mem) (h : heap) (i : Z) : Z :=
  mread m (ptr_add (entries (table h)) i).

(** [for (size_t i = 0; i < table->total; i++)]: [n] iterations are left; the
    result is [free_blocks] and [start_block] when the loop is left. *)
Fixpoint get_start_block_loop (n : nat) (m : mem) (h : heap)
    (total_blocks i free_blocks start_block : Z) : Z * Z :=
  match n with
  | O => (free_blocks, start_block)
  | S n' =>
    if negb (heap_get_entry_type (entry_at m h i) =? HEAP_BLOCK_TABLE_ENTRY_FREE)
    then get_start_block_loop n' m h total_blocks (i + 1) 0 (-1)
    else
      let start_block := if start_block =? -1 then s32 i else start_block in
      let free_blocks := s32 (free_blocks + 1) in
      if u32 free_blocks =? total_blocks then (free_blocks, start_block)
      else get_start_block_loop n' m h total_blocks (i + 1) free_blocks start_block
  end.

Definition heap_get_start_block (m : mem) (h : heap) (total_blocks : Z) : Z :=
  let '(free_blocks, start_block) :=
    get_start_block_loop (Z.to_nat (total (table h))) m h total_blocks 0 0 (-1) in
  let start_block :=
    if u32 free_blocks <? total_blocks then -1 else start_block in
  if start_block =? -1 then - ENOMEM else start_block.

Definition heap_block_to_address (h : heap) (block : Z) : Z :=
  ptr_add (saddr h) (s32 (block * TOYOS_HEAP_BLOCK_SIZE)).

(** [for (int i = start_block; i <= end_block; i++)] *)
Fixpoint mark_taken_loop (n : nat) (m : mem) (h : heap) (i end_block entry : Z) : mem :=
  match n with
  | O => m
  | S n' =>
    let m := mwrite m (ptr_add (entries (table h)) i) entry in
    let entry := HEAP_BLOCK_TABLE_ENTRY_TAKEN in
    let entry := if negb (i =? end_block - 1)
                 then Z.lor entry HEAP_BLOCK_HAS_NEXT else entry in
    mark_taken_loop n' m h (i + 1) end_block entry
  end.

Definition heap_mark_blocks_taken (m : mem) (h : heap) (start_block total_blocks : Z)
    : mem :=
  let end_block := s32 (start_block + total_blocks) - 1 in
  let entry := Z.lor HEAP_BLOCK_TABLE_ENTRY_TAKEN HEAP_BLOCK_IS_FIRST in
  let entry := if 1 <? total_blocks then Z.lor entry HEAP_BLOCK_HAS_NEXT else entry in
  mark_taken_loop (Z.to_nat (end_block - start_block + 1)) m h start_block end_block
    entry.

Definition heap_malloc_blocks (m : mem) (h : heap) (total_blocks : Z) : Z * mem :=
  let start_block := heap_get_start_block m h total_blocks in
  if start_block <? 0 then (NULL, m)
  else
    let address := heap_block_to_address h start_block in
    if address =? NULL then (address, m)
    else (address, heap_mark_blocks_taken m h start_block (s32 total_blocks)).

(** [for (int i = starting_block; i < (int)table->total; i++)] *)
Fixpoint mark_free_loop (n : nat) (m : mem) (h : heap) (i : Z) : mem :=
  match n with
  | O => m
  | S n' =>
    let entry := entry_at m h i in
    let m := mwrite m (ptr_add (entries (table h)) i) HEAP_BLOCK_TABLE_ENTRY_FREE in
    if Z.land entry HEAP_BLOCK_HAS_NEXT =? 0 then m
    else mark_free_loop n' m h (i + 1)
  end.

Definition heap_mark_blocks_free (m : mem) (h : heap) (starting_block : Z) : mem :=
  mark_free_loop (Z.to_nat (s32 (total (table h)) - starting_block)) m h starting_block.

(** Pointer difference, cast to [int]; C division truncates towards zero. *)
Definition heap_address_to_block (h : heap) (address : Z) : Z :=
  Z.quot (s32 (address - saddr h)) TOYOS_HEAP_BLOCK_SIZE.

(** Returns the status, the heap structure and the memory. *)
Definition heap_create (m : mem) (h : heap) (ptr end_ : Z) (t : heap_table)
    : Z * heap * mem :=
  if negb (heap_validate_alignment ptr) || negb (heap_validate_alignment end_)
  then (- EINVARG, h, m)
  else
    let h := mk_heap t ptr in
    let res := heap_validate_table ptr end_ t in
    if res <? 0 then (res, h, m)
    else
      let table_size := total t in
      (OK, h, memset m (entries t) HEAP_BLOCK_TABLE_ENTRY_FREE table_size).

Definition malloc (m : mem) (h : heap) (size : Z) : Z * mem :=
  let aligned_size := heap_align_value_to_upper size in
  let total_blocks := aligned_size / TOYOS_HEAP_BLOCK_SIZE in
  heap_malloc_blocks m h total_blocks.

Definition free (m : mem) (h : heap) (ptr : Z) : mem :=
  heap_mark_blocks_free m h (heap_address_to_block h ptr).

End Heap.

(** ** kheap.c: the kernel's heap *)

Module KHeap.
Import Heap.

(** [None] is the [panick] at the end of [kheap_init]. *)
Definition kheap_init (m : mem) (h0 : heap) : option (heap * mem) :=
  let total_table_entries := Z.quot TOYOS_HEAP_SIZE_BYTES TOYOS_HEAP_BLOCK_SIZE in
  let kernel_heap_table := mk_table TOYOS_HEAP_TABLE_ADDRESS total_table_entries in
  let end_ := TOYOS_HEAP_ADDRESS + TOYOS_HEAP_SIZE_BYTES in
  let '(res, h, m) := heap_create m h0 TOYOS_HEAP_ADDRESS end_ kernel_heap_table in
  if res <? 0 then None else Some (h, m).

Section Ops.
Variable kernel_heap : heap.

Definition kmalloc (m : mem) (size : Z) : Z * mem := malloc m kernel_heap size.

Definition kzalloc (m : mem) (size : Z) : Z * mem :=
  let '(ptr, m) := kmalloc m size in
  if ptr =? NULL then (NULL, m) else (ptr, memset m ptr 0x00 size).

Definition kfree (m : mem) (ptr : Z) : mem := free m kernel_heap ptr.

End Ops.
End KHeap.

(** ** The abstract allocator

    A layout is the pool cut into segments: single free blocks and allocations
    of [n] blocks.  Allocation is first fit. *)

Module Spec.

Inductive seg := Free | Alloc (n : nat).

#[global] Instance seg_eq_dec : EqDecision seg.
Proof. solve_decision. Defined.

Definition seg_len (s : seg) : nat := match s with Free => 1 | Alloc n => n end.

Definition seg_ok (s : seg) : Prop := (1 <= seg_len s)%nat.

Definition blocks (L : list seg) : nat := sum_list_with seg_len L.

(** Does the layout start with [n] free blocks? *)
Fixpoint free_prefix (n : nat) (L : list seg) : bool :=
  match n, L with
  | O, _ => true
  | S n', Free :: L' => free_prefix n' L'
  | _, _ => false
  end.

(** The layout before and after the first run of [n] free blocks. *)
Fixpoint first_fit (n : nat) (L : list seg) : option (list seg * list seg) :=
  if free_prefix n L then Some ([], drop n L)
  else match L with
       | [] => None
       | s :: L' => '(L1, L2) ← first_fit n L'; Some (s :: L1, L2)
       end.

(** [alloc n L]: the block number of the new allocation and the new layout. *)
Definition alloc (n : nat) (L : list seg) : option (nat * list seg) :=
  '(L1, L2) ← first_fit n L; Some (blocks L1, L1 ++ Alloc n :: L2).

(** [dealloc b L]: the allocation that starts at block [b] becomes free. *)
Fixpoint dealloc (b : nat) (L : list seg) : option (list seg) :=
  match L with
  | [] => None
  | s :: L' =>
    if decide (b = 0%nat)
    then match s with Alloc n => Some (replicate n Free ++ L') | Free => None end
    else if decide (b < seg_len s)%nat then None
    else L'' ← dealloc (b - seg_len s) L'; Some (s :: L'')
  end.

Definition nfree (L : list seg) : nat := length (filter (.= Free) L).

(** The encoding of a segment in the block table. *)
Definition run (n : nat) : list Z :=
  match n with
  | O => []
  | 1%nat => [0x41]
  | S (S k) => 0xc1 :: replicate k 0x81 ++ [0x01]
  end.

Definition enc (s : seg) : list Z := match s with Free => [0] | Alloc n => run n end.

Definition encode (L : list seg) : list Z := concat (map enc L).

(** *** Properties of layouts *)

Lemma blocks_app L1 L2 : blocks (L1 ++ L2) = (blocks L1 + blocks L2)%nat.
Proof. apply sum_list_with_app. Qed.

Lemma blocks_free n : blocks (replicate n Free) = n.
Proof. induction n; simpl; auto. Qed.

Lemma nfree_app L1 L2 : nfree (L1 ++ L2) = (nfree L1 + nfree L2)%nat.
Proof. unfold nfree. by rewrite filter_app, length_app. Qed.

Lemma nfree_free n : nfree (replicate n Free) = n.
Proof. induction n as [|n IH]; [done|]. unfold nfree in *. simpl. by rewrite IH. Qed.

Lemma nfree_alloc k L : nfree (Alloc k :: L) = nfree L.
Proof. done. Qed.

Lemma nfree_pos L : nfree L <> 0%nat -> exists L1 L2, L = L1 ++ Free :: L2.
Proof.
  intros Hn. apply list_elem_of_split. induction L as [|[|k] L IH]; [done|..].
  - apply list_elem_of_here.
  - apply list_elem_of_further, IH. done.
Qed.

Definition nalloc (L : list seg) : nat := length (filter (fun s => s <> Free) L).

(** Without a run of [S k] free blocks, each allocation and the end of the pool
    close a run of at most [k]. *)
Lemma no_run_bound k L : forall r,
  (forall L1 L2, replicate r Free ++ L <> L1 ++ replicate (S k) Free ++ L2) ->
  (r + nfree L <= k * (nalloc L + 1))%nat.
Proof.
  assert (forall r L, (forall L1 L2, replicate r Free ++ L <> L1 ++ replicate (S k) Free ++ L2) ->
    (r <= k)%nat) as Hr.
  { intros r L' Hno. destruct (decide (r <= k)%nat) as [|Hlt]; [done|]. exfalso.
    apply (Hno [] (replicate (r - S k) Free ++ L')). rewrite app_nil_l.
    rewrite (app_assoc (replicate (S k) Free)), <- replicate_add.
    by replace (S k + (r - S k))%nat with r by lia. }
  induction L as [|[|n] L IH]; intros r Hno; pose proof (Hr _ _ Hno).
  - change (nfree []) with 0%nat. change (nalloc []) with 0%nat. lia.
  - change (nfree (Free :: L)) with (S (nfree L)). change (nalloc (Free :: L)) with (nalloc L).
    specialize (IH (S r)). rewrite replicate_S_end, <- app_assoc in IH. specialize (IH Hno). lia.
  - change (nfree (Alloc n :: L)) with (nfree L). change (nalloc (Alloc n :: L)) with (S (nalloc L)).
    specialize (IH 0%nat). simpl in IH. enough (nfree L <= k * (nalloc L + 1))%nat by lia.
    apply IH. intros L1 L2 ->. apply (Hno (replicate r Free ++ Alloc n :: L1) L2). by rewrite <- app_assoc.
Qed.

Lemma length_run n : length (run n) = n.
Proof.
  destruct n as [|[|k]]; simpl; [done..|]. rewrite length_app, length_replicate. simpl. lia.
Qed.

Lemma length_enc s : length (enc s) = seg_len s.
Proof. destruct s; [done|apply length_run]. Qed.

Lemma encode_app L1 L2 : encode (L1 ++ L2) = encode L1 ++ encode L2.
Proof. unfold encode. by rewrite map_app, concat_app. Qed.

Lemma encode_cons s L : encode (s :: L) = enc s ++ encode L.
Proof. done. Qed.

Lemma encode_free n : encode (replicate n Free) = replicate n 0.
Proof. induction n as [|n IH]; [done|]. simpl. by rewrite encode_cons, IH. Qed.

Lemma length_encode L : length (encode L) = blocks L.
Proof.
  induction L as [|s L IH]; [done|]. rewrite encode_cons, length_app, length_enc, IH.
  done.
Qed.

Lemma run_lookup n i e :
  run n !! i = Some e ->
  Z.land e 0x0f = 1 /\ 0 <= e < 256 /\
  (Z.land e 0x80 = 0 <-> S i = n).
Proof.
  destruct n as [|[|k]]; simpl.
  - done.
  - destruct i; [|done]. intros [= <-]. repeat split; lia.
  - destruct i as [|i]; simpl.
    { intros [= <-]. repeat split; try lia. intros H; vm_compute in H; lia. }
    destruct (decide (i < k)%nat).
    + rewrite lookup_app_l by (rewrite length_replicate; lia).
      rewrite lookup_replicate. intros [-> _]. repeat split; try lia.
      intros H; vm_compute in H; lia.
    + rewrite lookup_app_r by (rewrite length_replicate; lia).
      rewrite length_replicate. destruct (i - k)%nat as [|j] eqn:Hj; [|done].
      simpl. intros [= <-]. repeat split; lia.
Qed.

Lemma free_prefix_spec n L :
  free_prefix n L = true <-> L = replicate n Free ++ drop n L.
Proof.
  revert L; induction n as [|n IH]; intros L; [done|].
  destruct L as [|[|k] L]; simpl; [done| |done].
  rewrite IH. split; [intros Heq; by f_equal|intros [= Heq]; done].
Qed.

Lemma first_fit_Some n L L1 L2 :
  first_fit n L = Some (L1, L2) ->
  L = L1 ++ replicate n Free ++ L2 /\
  forall L1' L2', L = L1' ++ replicate n Free ++ L2' -> (length L1 <= length L1')%nat.
Proof.
  revert L1; induction L as [|s L IH]; intros L1; simpl;
    (destruct (free_prefix n _) eqn:Hp; [intros [= <- <-]; simpl|]).
  - apply free_prefix_spec in Hp. split; [done|simpl; lia].
  - done.
  - apply free_prefix_spec in Hp. split; [done|simpl; lia].
  - destruct (first_fit n L) as [[L1' L2']|]; [|done]. intros [= <- <-].
    destruct (IH L1' eq_refl) as [HL Hmin]. split; [simpl; by f_equal|].
    intros [|s' M1] M2 HM; simpl in *.
    + destruct n as [|n]; [done|]. exfalso.
      enough (free_prefix (S n) (s :: L) = true) by congruence.
      apply free_prefix_spec. rewrite HM at 1. f_equal.
      by rewrite HM, drop_app_length' by (by rewrite length_replicate).
    + injection HM as _ HM. specialize (Hmin _ _ HM). lia.
Qed.

Lemma first_fit_None n L L1 L2 :
  first_fit n L = None -> L <> L1 ++ replicate n Free ++ L2.
Proof.
  revert L1; induction L as [|s L IH]; intros L1; simpl;
    (destruct (free_prefix n _) eqn:Hp; [done|]); intros Hf HL.
  - destruct n; [done|]. by destruct L1.
  - destruct (first_fit n L) as [[L1' L2']|] eqn:Hff; [done|].
    destruct L1 as [|s' L1]; simpl in HL.
    + enough (free_prefix n (s :: L) = true) by congruence.
      apply free_prefix_spec. rewrite HL at 1. f_equal.
      by rewrite HL, drop_app_length' by (by rewrite length_replicate).
    + injection HL as _ HL. by apply (IH L1 eq_refl).
Qed.

(** A run of free table entries is a run of free segments. *)
Lemma encode_free_split L : forall s n,
  Forall seg_ok L -> (s + S n <= blocks L)%nat ->
  (forall i, (s <= i < s + S n)%nat ->
     exists e, encode L !! i = Some e /\ Z.land e 0x0f = 0) ->
  exists L1 L2, L = L1 ++ replicate (S n) Free ++ L2 /\ blocks L1 = s.
Proof.
  induction L as [|g L IH]; intros s n Hok Hlen Hfree; [simpl in Hlen; lia|].
  inversion Hok as [|? ? Hg Hok']; subst. rewrite encode_cons in Hfree.
  change (blocks (g :: L)) with (seg_len g + blocks L)%nat in Hlen.
  destruct (decide (seg_len g <= s)%nat) as [Hge|Hlt].
  - destruct (IH (s - seg_len g)%nat n) as (L1 & L2 & -> & Hb); [done|lia| |].
    { intros i Hi. destruct (Hfree (i + seg_len g)%nat) as (e & He & Hf); [lia|].
      rewrite lookup_app_r, length_enc, Nat.add_sub in He by (rewrite length_enc; lia).
      eauto. }
    exists (g :: L1), L2. split; [done|].
    change (blocks (g :: L1)) with (seg_len g + blocks L1)%nat. lia.
  - destruct (Hfree s) as (e & He & Hf); [lia|].
    rewrite lookup_app_l in He by (rewrite length_enc; lia).
    destruct g as [|k]; simpl in *; [|apply run_lookup in He; lia].
    assert (s = 0%nat) as -> by lia.
    destruct n as [|n].
    + exists [], L. done.
    + destruct (IH 0%nat n) as (L1 & L2 & -> & Hb); [done|lia| |].
      { intros i Hi. destruct (Hfree (S i)) as (e' & He' & Hf'); [lia|]. eauto. }
      destruct L1 as [|g' L1].
      * exists [], L2. done.
      * exfalso. inversion Hok' as [|? ? Hg' _]. unfold seg_ok in Hg'.
        change (seg_len g' + blocks L1 = 0)%nat in Hb. lia.
Qed.

End Spec.

(** ** heap.c refines the abstract allocator *)

Module Refine.
Import Heap Spec.

(** Where the table and the pool lie: both inside the 32-bit address space,
    disjoint, and the pool small enough for the [int] arithmetic on offsets. *)
Record geom (h : heap) : Prop := {
  g_entries : 0 <= entries (table h);
  g_total : 0 <= total (table h);
  g_table : entries (table h) + total (table h) <= 2 ^ 32;
  g_saddr : 0 < saddr h;
  g_align : saddr h mod 4096 = 0;
  g_pool : saddr h + total (table h) * 4096 < 2 ^ 32;
  g_small : total (table h) * 4096 < 2 ^ 31;
  g_disj : entries (table h) + total (table h) <= saddr h \/
           saddr h + total (table h) * 4096 <= entries (table h)
}.

Definition tbl (m : mem) (h : heap) : list Z :=
  mread_n m (entries (table h)) (Z.to_nat (total (table h))).

(** The table in memory encodes the layout [L]. *)
Record rep (m : mem) (h : heap) (L : list seg) : Prop := {
  r_geom : geom h;
  r_ok : Forall seg_ok L;
  r_tbl : tbl m h = encode L
}.

Lemma rep_blocks m h L : rep m h L -> Z.of_nat (blocks L) = total (table h).
Proof.
  intros [[] _ Ht]. apply (f_equal length) in Ht.
  unfold tbl in Ht. rewrite length_mread_n, length_encode in Ht. lia.
Qed.

Section Facts.
Context (m : mem) (h : heap) (L : list seg).
Hypothesis R : rep m h L.

Definition all_free (s n : Z) : Prop :=
  forall j, s <= j < s + n -> heap_get_entry_type (entry_at m h j) = 0.

Lemma entry_at_lookup j :
  0 <= j < total (table h) -> encode L !! Z.to_nat j = Some (entry_at m h j).
Proof.
  intros Hj. pose proof R as [[] _ Ht]. rewrite <- Ht. unfold tbl, entry_at.
  rewrite mread_n_lookup by lia. rewrite ptr_add_small by lia. do 2 f_equal. lia.
Qed.

(** The search loop, entered after [i] blocks with a run of [f] free blocks
    behind it and no fit that starts before that run. *)
Lemma get_start_block_loop_spec tb n : forall i f st,
  1 <= tb -> 0 <= f < tb -> f <= i -> i + Z.of_nat n = total (table h) ->
  st = (if f =? 0 then -1 else i - f) ->
  all_free (i - f) f -> (forall s, 0 <= s < i - f -> ~ all_free s tb) ->
  exists f' st', get_start_block_loop n m h tb i f st = (f', st') /\
  ((f' = tb /\ 0 <= st' /\ st' + tb <= total (table h) /\ all_free st' tb /\
    forall s, 0 <= s < st' -> ~ all_free s tb) \/
   (0 <= f' < tb /\ f' <= total (table h) /\ forall s, 0 <= s -> s + tb <= total (table h) -> ~ all_free s tb)).
Proof.
  pose proof R as [[] _ _]. induction n as [|n IH]; intros i f st Htb Hf Hfi Hn Hst Hrun Hmin; simpl.
  { eexists _, _. split; [done|]. right. split; [done|]. split; [lia|]. intros s Hs Hs'. apply Hmin. lia. }
  change HEAP_BLOCK_TABLE_ENTRY_FREE with 0.
  destruct (Z.eqb_spec (heap_get_entry_type (entry_at m h i)) 0) as [He|He]; simpl.
  - rewrite (s32_small (f + 1)), (u32_small (f + 1)), (s32_small i) by lia.
    assert (all_free (i - f) (f + 1)) as Hrun'.
    { intros j Hj. destruct (decide (j = i)) as [->|]; [done|]. apply Hrun. lia. }
    set (st' := if st =? -1 then i else st).
    assert (st' = i - f) as Hst'.
    { unfold st'. rewrite Hst. destruct (Z.eqb_spec f 0), (Z.eqb_spec (i - f) (-1));
        simpl; try lia. }
    destruct (Z.eqb_spec (f + 1) tb) as [Heq|Hne].
    + eexists _, _. split; [done|]. left. rewrite Hst'. subst tb.
      repeat split; try lia; [done|]. apply Hmin.
    + apply IH; try lia.
      * rewrite (proj2 (Z.eqb_neq (f + 1) 0)) by lia. lia.
      * by replace (i + 1 - (f + 1)) with (i - f) by lia.
      * intros s Hs. apply Hmin. lia.
  - apply IH; try lia; try done.
    + intros j Hj. lia.
    + intros s Hs Ha. destruct (decide (s < i - f)) as [Hlt|Hge].
      * apply (Hmin s); [lia|done].
      * apply He, Ha. lia.
Qed.

Lemma get_start_block_spec tb :
  1 <= tb ->
  (heap_get_start_block m h tb = - ENOMEM /\
   forall s, 0 <= s -> s + tb <= total (table h) -> ~ all_free s tb) \/
  (exists st, heap_get_start_block m h tb = st /\ 0 <= st /\
     st + tb <= total (table h) /\ all_free st tb /\
     forall s, 0 <= s < st -> ~ all_free s tb).
Proof.
  intros Htb. pose proof R as [[] _ _]. unfold heap_get_start_block.
  destruct (get_start_block_loop_spec tb (Z.to_nat (total (table h))) 0 0 (-1))
    as (f & st & -> & [(-> & H1 & H2 & H3 & H4)|(H1 & H2 & H3)]); try lia; try done.
  - intros j Hj. lia.
  - right. exists st. rewrite u32_small by lia.
    rewrite (proj2 (Z.ltb_ge tb tb)) by lia.
    rewrite (proj2 (Z.eqb_neq st (-1))) by lia. done.
  - left. rewrite u32_small, (proj2 (Z.ltb_lt f tb)) by lia. done.
Qed.

(** The concrete search agrees with [first_fit]. *)
Lemma get_start_block_first_fit n :
  heap_get_start_block m h (Z.of_nat (S n)) =
  match first_fit (S n) L with
  | Some (L1, _) => Z.of_nat (blocks L1)
  | None => - ENOMEM
  end.
Proof.
  pose proof (rep_blocks _ _ _ R) as HB. pose proof R as [_ Hok _].
  assert (forall s, 0 <= s -> s + Z.of_nat (S n) <= total (table h) ->
    all_free s (Z.of_nat (S n)) <->
    exists L1 L2, L = L1 ++ replicate (S n) Free ++ L2 /\ Z.of_nat (blocks L1) = s)
    as Hiff.
  { intros s Hs Hsb. split.
    - intros Ha. destruct (encode_free_split L (Z.to_nat s) n) as (L1 & L2 & HL & Hb);
        [done|lia| |exists L1, L2; split; [done|lia]].
      intros i Hi. exists (entry_at m h (Z.of_nat i)). split.
      + rewrite <- entry_at_lookup by lia. by rewrite Nat2Z.id.
      + apply Ha. lia.
    - intros (L1 & L2 & HL & Hb) j Hj.
      pose proof (entry_at_lookup j ltac:(lia)) as Hl. rewrite HL in Hl.
      rewrite !encode_app, encode_free in Hl.
      rewrite lookup_app_r, length_encode in Hl by (rewrite length_encode; lia).
      rewrite lookup_app_l in Hl by (rewrite length_replicate; lia).
      apply lookup_replicate in Hl as [-> _]. done. }
  destruct (get_start_block_spec (Z.of_nat (S n))) as [(-> & Hno)|(st & -> & H0 & H1 & H2 & H3)];
    [lia|..]; destruct (first_fit (S n) L) as [[L1 L2]|] eqn:Hff.
  - apply first_fit_Some in Hff as [HL _]. exfalso.
    assert (Z.of_nat (blocks L1) + Z.of_nat (S n) <= total (table h)).
    { rewrite <- HB, HL, !blocks_app, blocks_free. lia. }
    apply (Hno (Z.of_nat (blocks L1))); [lia..|]. apply Hiff; [lia..|]. eauto.
  - done.
  - apply first_fit_Some in Hff as [HL Hmin].
    apply Hiff in H2 as (L1' & L2' & HL' & Hb'); [|lia..].
    specialize (Hmin _ _ HL').
    assert (L1 = take (length L1) L1') as Hpre.
    { apply (f_equal (take (length L1))) in HL'. rewrite HL in HL' at 1.
      rewrite take_app_length in HL'. rewrite HL' at 1.
      by rewrite take_app_le by lia. }
    destruct (decide (blocks L1 < blocks L1')%nat) as [Hlt|Hge].
    + exfalso. apply (H3 (Z.of_nat (blocks L1))); [lia|]. apply Hiff; [lia| |eauto].
      rewrite <- HB, HL, !blocks_app, blocks_free. lia.
    + enough (blocks L1 <= blocks L1')%nat by lia. rewrite Hpre.
      rewrite <- (take_drop (length L1) L1') at 2. rewrite blocks_app. lia.
  - exfalso. apply Hiff in H2 as (L1 & L2 & HL & _); [|lia..].
    by eapply first_fit_None.
Qed.

End Facts.

(** *** Writing the table *)

Lemma encode_bytes L : Forall is_byte (encode L).
Proof.
  induction L as [|g L IH]; [constructor|]. rewrite encode_cons. apply Forall_app.
  split; [|done]. apply Forall_lookup_2. intros i e. destruct g as [|k]; simpl.
  - destruct i; [|done]. intros [= <-]. unfold is_byte. lia.
  - intros He. apply run_lookup in He. unfold is_byte. tauto.
Qed.

(** Replacing the segments [M] by [M'] of the same length. *)
Lemma rep_splice m h L1 M L2 M' :
  rep m h (L1 ++ M ++ L2) -> blocks M' = blocks M -> Forall seg_ok M' ->
  rep (mwrite_n m (entries (table h) + Z.of_nat (blocks L1)) (encode M')) h
      (L1 ++ M' ++ L2).
Proof.
  intros R Hb HM'. pose proof (rep_blocks _ _ _ R) as HB. destruct R as [G Hok Ht].
  rewrite !blocks_app in HB. apply Forall_app in Hok as [H1 H2].
  apply Forall_app in H2 as [_ H2].
  split; [done|by rewrite !Forall_app|]. destruct G. unfold tbl in *.
  rewrite mread_n_splice by (rewrite ?length_encode; auto using encode_bytes; lia).
  rewrite Ht, !encode_app, take_app_length' by (by rewrite length_encode).
  do 2 f_equal. rewrite app_assoc, drop_app_length'; [done|].
  rewrite length_app, !length_encode. lia.
Qed.

(** The table bytes of an allocation after its first one. *)
Definition run_tail (j : nat) : list Z :=
  match j with O => [] | S j' => replicate j' 0x81 ++ [0x01] end.

Lemma run_tail_S j : run_tail (S j) = (if decide (j = 0%nat) then 0x01 else 0x81) :: run_tail j.
Proof. by destruct j. Qed.

Lemma run_first n :
  run (S n) = (if decide (n = 0%nat) then 0x41 else 0xc1) :: run_tail n.
Proof. by destruct n. Qed.

Lemma mark_taken_loop_spec k : forall m h i e,
  0 <= entries (table h) + i -> entries (table h) + i + Z.of_nat (S k) <= 2 ^ 32 ->
  mark_taken_loop (S k) m h i (i + Z.of_nat k) e
  = mwrite_n m (entries (table h) + i) (e :: run_tail k).
Proof.
  induction k as [|k IH]; intros m h i e H0 H1.
  - simpl. rewrite ptr_add_small by lia. done.
  - remember (S k) as k1. simpl. rewrite ptr_add_small by lia. subst k1.
    replace (i + Z.of_nat (S k)) with (i + 1 + Z.of_nat k) by lia.
    rewrite IH by lia. rewrite run_tail_S, ptr_add_small by lia.
    replace (entries (table h) + i + 1) with (entries (table h) + (i + 1)) by lia.
    f_equal. f_equal. destruct (Z.eqb_spec i (i + 1 + Z.of_nat k - 1)); case_decide;
      try lia; done.
Qed.

Lemma mark_blocks_taken_spec m h s n :
  geom h -> 0 <= s -> s + Z.of_nat (S n) <= total (table h) ->
  heap_mark_blocks_taken m h s (Z.of_nat (S n))
  = mwrite_n m (entries (table h) + s) (run (S n)).
Proof.
  intros [] Hs Hn. unfold heap_mark_blocks_taken. rewrite s32_small by lia.
  replace (Z.to_nat (s + Z.of_nat (S n) - 1 - s + 1)) with (S n) by lia.
  replace (s + Z.of_nat (S n) - 1) with (s + Z.of_nat n) by lia.
  rewrite mark_taken_loop_spec, run_first by lia. do 2 f_equal.
  destruct (Z.ltb_spec 1 (Z.of_nat (S n))); case_decide; try lia; done.
Qed.

Lemma mark_free_loop_spec j : forall k m h i,
  geom h -> 0 <= i -> i + Z.of_nat (S j) <= total (table h) -> (S j <= k)%nat ->
  (forall t, (t < S j)%nat ->
     Z.land (entry_at m h (i + Z.of_nat t)) 0x80 = 0 <-> t = j) ->
  mark_free_loop k m h i = mwrite_n m (entries (table h) + i) (replicate (S j) 0).
Proof.
  induction j as [|j IH]; intros k m h i G Hi Hb Hk He; (destruct k as [|k]; [lia|]);
    pose proof G as []; cbn [mark_free_loop]; change HEAP_BLOCK_HAS_NEXT with 0x80;
    pose proof (He 0%nat ltac:(lia)) as He0; rewrite Z.add_0_r in He0;
    destruct (Z.eqb_spec (Z.land (entry_at m h i) 0x80) 0) as [Hz|Hz];
    try (apply He0 in Hz; lia); try (exfalso; apply Hz, He0; lia);
    rewrite (ptr_add_small _ i) by lia; [done|].
  change (replicate (S (S j)) 0) with (0 :: replicate (S j) 0). cbn [mwrite_n].
  rewrite (ptr_add_small _ 1) by lia.
  rewrite <- Z.add_assoc. apply IH; [done|lia..|].
  intros t Ht. specialize (He (S t) ltac:(lia)).
  unfold entry_at in *. rewrite ptr_add_small in * by lia.
  rewrite mread_mwrite_ne by lia.
  replace (i + Z.of_nat (S t)) with (i + 1 + Z.of_nat t) in He by lia. rewrite He. lia.
Qed.

(** *** The refinement theorems *)

Lemma malloc_blocks_refines m h L n :
  rep m h L ->
  match alloc (S n) L with
  | Some (b, L') =>
    exists m', heap_malloc_blocks m h (Z.of_nat (S n))
               = (saddr h + Z.of_nat b * 4096, m') /\ rep m' h L' /\
      (forall x, mread m' x <> mread m x ->
         entries (table h) <= x < entries (table h) + total (table h))
  | None => heap_malloc_blocks m h (Z.of_nat (S n)) = (NULL, m)
  end.
Proof.
  intros R. unfold heap_malloc_blocks, alloc.
  rewrite (get_start_block_first_fit m h L R).
  destruct (first_fit (S n) L) as [[L1 L2]|] eqn:Hff; [|done]. simpl.
  apply first_fit_Some in Hff as [-> _].
  pose proof (rep_blocks _ _ _ R) as HB. rewrite !blocks_app, blocks_free in HB.
  pose proof (r_geom _ _ _ R) as G. pose proof G as [].
  rewrite (proj2 (Z.ltb_ge _ 0)) by lia. unfold heap_block_to_address.
  change TOYOS_HEAP_BLOCK_SIZE with 4096.
  rewrite s32_small, ptr_add_small by lia.
  rewrite (proj2 (Z.eqb_neq _ NULL)) by (unfold NULL; lia).
  rewrite (s32_small (Z.of_nat (S n))) by lia.
  rewrite mark_blocks_taken_spec by (done || lia).
  eexists. split; [done|]. split.
  - rewrite <- (app_nil_r (run (S n))). change (run (S n) ++ []) with (encode [Alloc (S n)]).
    apply (rep_splice _ _ _ (replicate (S n) Free) L2 [Alloc (S n)]); [done|..].
    + rewrite blocks_free. simpl. lia.
    + apply Forall_singleton. unfold seg_ok. simpl. lia.
  - intros x Hx. rewrite mread_mwrite_n in Hx by (rewrite ?length_run; lia).
    rewrite length_run in Hx. case_decide; [lia|done].
Qed.

Lemma dealloc_split b L L' :
  dealloc b L = Some L' ->
  exists L1 n L2, L = L1 ++ Alloc n :: L2 /\ blocks L1 = b /\
                  L' = L1 ++ replicate n Free ++ L2.
Proof.
  revert b L'; induction L as [|g L IH]; intros b L' H; simpl in H; [done|].
  case_decide as Hb.
  - destruct g as [|n]; [done|]. injection H as <-. subst b. by exists [], n, L.
  - case_decide as Hl; [done|]. destruct (dealloc _ L) as [L''|] eqn:Hd; [|done].
    injection H as <-. destruct (IH _ _ Hd) as (L1 & n & L2 & -> & Hb1 & ->).
    exists (g :: L1), n, L2. split; [done|]. split; [|done].
    change (blocks (g :: L1)) with (seg_len g + blocks L1)%nat. lia.
Qed.

Lemma free_refines m h L b L' :
  rep m h L -> dealloc b L = Some L' ->
  rep (free m h (saddr h + Z.of_nat b * 4096)) h L' /\
  (forall x, mread (free m h (saddr h + Z.of_nat b * 4096)) x <> mread m x ->
     entries (table h) <= x < entries (table h) + total (table h)).
Proof.
  intros R Hd. destruct (dealloc_split _ _ _ Hd) as (L1 & n & L2 & -> & <- & ->).
  pose proof (rep_blocks _ _ _ R) as HB. rewrite blocks_app in HB.
  change (blocks (Alloc n :: L2)) with (n + blocks L2)%nat in HB.
  pose proof R as [G Hok _]. pose proof G as [].
  apply Forall_app in Hok as [_ Hok]. inversion Hok as [|? ? Hn _]; subst.
  unfold seg_ok in Hn. simpl in Hn. destruct n as [|n]; [lia|].
  unfold free, heap_address_to_block. change TOYOS_HEAP_BLOCK_SIZE with 4096.
  rewrite Z.add_simpl_l, s32_small, Z.quot_mul by lia.
  unfold heap_mark_blocks_free. rewrite (s32_small (total _)) by lia.
  rewrite (mark_free_loop_spec n); [|done|lia..|].
  - split.
    + rewrite <- encode_free.
      apply (rep_splice _ _ _ [Alloc (S n)] L2 (replicate (S n) Free)); [done|..].
      * rewrite blocks_free. simpl. lia.
      * apply Forall_replicate. unfold seg_ok. simpl. lia.
    + intros x Hx. rewrite mread_mwrite_n in Hx by (rewrite ?length_replicate; lia).
      rewrite length_replicate in Hx. case_decide; [lia|done].
  - intros t Ht.
    pose proof (entry_at_lookup m h _ R (Z.of_nat (blocks L1) + Z.of_nat t)) as Hl.
    rewrite encode_app, lookup_app_r, length_encode in Hl by (rewrite ?length_encode; lia).
    rewrite encode_cons, lookup_app_l in Hl by (rewrite length_enc; simpl; lia).
    replace (Z.to_nat (Z.of_nat (blocks L1) + Z.of_nat t) - blocks L1)%nat with t in Hl by lia.
    specialize (Hl ltac:(lia)). apply (run_lookup (S n)) in Hl as (_ & _ & ->). lia.
Qed.

(** *** From byte sizes to blocks *)

Lemma malloc_nblocks m h size :
  0 <= size <= 0xfffff000 -> malloc m h size = heap_malloc_blocks m h (nblocks size).
Proof.
  intros Hs. unfold malloc, heap_align_value_to_upper, nblocks.
  change TOYOS_HEAP_BLOCK_SIZE with 4096. f_equal.
  destruct (Z.eqb_spec (size mod 4096) 0) as [H|H]; [zlia|].
  rewrite (u32_small (size - _)) by zlia. rewrite u32_small by zlia. zlia.
Qed.

(** A request of zero bytes, or of more than [0xfffff000] bytes (the round-up
    to a block boundary overflows), is treated as a request for no blocks. *)
Lemma malloc_no_blocks m h size :
  size = 0 \/ 0xfffff000 < size < 2 ^ 32 ->
  malloc m h size = heap_malloc_blocks m h 0.
Proof.
  intros Hs. unfold malloc, heap_align_value_to_upper.
  change TOYOS_HEAP_BLOCK_SIZE with 4096. f_equal.
  destruct Hs as [->|Hs]; [done|].
  destruct (Z.eqb_spec (size mod 4096) 0) as [H|H]; [zlia|].
  assert (size / 4096 = 0xfffff) as Hq by zlia.
  assert (size - size mod 4096 = 0xfffff000) as -> by zlia. done.
Qed.

(** *** The live allocations: address and number of blocks *)

Fixpoint live_from (sa : Z) (L : list seg) : gmap Z Z :=
  match L with
  | [] => ∅
  | Free :: L' => live_from (sa + 4096) L'
  | Alloc n :: L' => <[sa := Z.of_nat n]> (live_from (sa + Z.of_nat n * 4096) L')
  end.

Definition live (h : heap) (L : list seg) : gmap Z Z := live_from (saddr h) L.

Lemma live_from_bounds L : forall sa p n,
  Forall seg_ok L -> live_from sa L !! p = Some n ->
  sa <= p /\ 1 <= n /\ p + n * 4096 <= sa + Z.of_nat (blocks L) * 4096 /\
  (p - sa) mod 4096 = 0.
Proof.
  induction L as [|[|k] L IH]; intros sa p n Hok Hl; simpl in Hl; [done|..];
    inversion Hok as [|? ? Hk Hok']; subst; unfold seg_ok in Hk; simpl in Hk.
  - destruct (IH _ _ _ Hok' Hl) as (? & ? & ? & ?).
    change (blocks (Free :: L)) with (1 + blocks L)%nat. zlia.
  - change (blocks (Alloc k :: L)) with (k + blocks L)%nat.
    apply lookup_insert_Some in Hl as [[<- <-]|[_ Hl]].
    + rewrite Z.sub_diag. repeat split; lia.
    + destruct (IH _ _ _ Hok' Hl) as (? & ? & ? & ?). zlia.
Qed.

Lemma live_from_size L : forall sa, Forall seg_ok L -> size (live_from sa L) = nalloc L.
Proof.
  induction L as [|[|k] L IH]; intros sa Hok; simpl; [done|..]; apply Forall_cons in Hok as [Hk Hok].
  - by apply IH.
  - unfold seg_ok in Hk. simpl in Hk. rewrite map_size_insert_None; [by rewrite IH|].
    apply eq_None_not_Some. intros [n Hn]. apply live_from_bounds in Hn; [lia|done].
Qed.

Lemma live_from_app sa L1 L2 :
  live_from sa (L1 ++ L2)
  = live_from sa L1 ∪ live_from (sa + Z.of_nat (blocks L1) * 4096) L2.
Proof.
  revert sa; induction L1 as [|[|k] L1 IH]; intros sa; simpl.
  - rewrite Z.add_0_r. by rewrite (left_id_L ∅ (∪)).
  - rewrite IH. do 2 f_equal. change (blocks (Free :: L1)) with (1 + blocks L1)%nat. lia.
  - rewrite IH, insert_union_l. do 2 f_equal.
    change (blocks (Alloc k :: L1)) with (k + blocks L1)%nat. lia.
Qed.

Lemma live_from_free sa n : live_from sa (replicate n Free) = ∅.
Proof. revert sa; induction n; intros; simpl; auto. Qed.

(** Swapping a run of free blocks for an allocation inserts one entry. *)
Lemma live_from_alloc sa L1 n L2 :
  Forall seg_ok L1 ->
  live_from sa (L1 ++ Alloc n :: L2)
  = <[sa + Z.of_nat (blocks L1) * 4096 := Z.of_nat n]>
      (live_from sa (L1 ++ replicate n Free ++ L2)).
Proof.
  intros Hok. rewrite !live_from_app, live_from_free, blocks_free. simpl.
  rewrite (left_id_L ∅ (∪)), insert_union_r; [done|].
  apply eq_None_not_Some. intros [k Hk]. apply live_from_bounds in Hk; [lia|done].
Qed.

Lemma live_from_fresh sa L1 n L2 :
  Forall seg_ok (L1 ++ L2) -> (1 <= n)%nat ->
  live_from sa (L1 ++ replicate n Free ++ L2) !! (sa + Z.of_nat (blocks L1) * 4096) = None.
Proof.
  intros [H1 H2]%Forall_app Hn. rewrite !live_from_app, live_from_free, blocks_free.
  rewrite (left_id_L ∅ (∪)). apply lookup_union_None.
  split; apply eq_None_not_Some; intros [k Hk]; apply live_from_bounds in Hk;
    try done; lia.
Qed.

Lemma live_from_lookup sa L p n :
  Forall seg_ok L -> live_from sa L !! p = Some n ->
  exists L1 k L2, L = L1 ++ Alloc k :: L2 /\ p = sa + Z.of_nat (blocks L1) * 4096 /\
                  n = Z.of_nat k.
Proof.
  revert sa; induction L as [|[|k] L IH]; intros sa Hok Hl; simpl in Hl; [done|..];
    inversion Hok as [|? ? Hk Hok']; subst.
  - destruct (IH _ Hok' Hl) as (L1 & k & L2 & -> & -> & ->).
    exists (Free :: L1), k, L2. split; [done|]. split; [|done].
    change (blocks (Free :: L1)) with (1 + blocks L1)%nat. lia.
  - apply lookup_insert_Some in Hl as [[<- <-]|[_ Hl]].
    + exists [], k, L. split; [done|]. split; [|done]. simpl. lia.
    + destruct (IH _ Hok' Hl) as (L1 & k' & L2 & -> & -> & ->).
      exists (Alloc k :: L1), k', L2. split; [done|]. split; [|done].
      change (blocks (Alloc k :: L1)) with (k + blocks L1)%nat. lia.
Qed.

(** Distinct live allocations do not overlap. *)
Lemma live_from_disjoint sa L p n q k :
  Forall seg_ok L -> live_from sa L !! p = Some n -> live_from sa L !! q = Some k ->
  p <> q -> p + n * 4096 <= q \/ q + k * 4096 <= p.
Proof.
  intros Hok Hp Hq Hne.
  destruct (live_from_lookup _ _ _ _ Hok Hp) as (L1 & j & L2 & -> & -> & ->).
  apply Forall_app in Hok as [H1 H2]. inversion H2 as [|? ? Hj H2']; subst.
  rewrite live_from_app in Hq. simpl in Hq.
  apply lookup_union_Some_raw in Hq as [Hq|[_ Hq]].
  - apply live_from_bounds in Hq; [lia|done].
  - apply lookup_insert_Some in Hq as [[Hq _]|[_ Hq]]; [done|].
    apply live_from_bounds in Hq; [lia|done].
Qed.

Lemma dealloc_app L1 n L2 :
  Forall seg_ok L1 ->
  dealloc (blocks L1) (L1 ++ Alloc n :: L2) = Some (L1 ++ replicate n Free ++ L2).
Proof.
  induction 1 as [|g L1 Hg _ IH]; [done|]. unfold seg_ok in Hg.
  change (blocks (g :: L1)) with (seg_len g + blocks L1)%nat. simpl.
  rewrite !decide_False by lia. by rewrite Nat.add_comm, Nat.add_sub, IH.
Qed.

End Refine.

(** ** The kernel heap discharges the allocator interface *)

Module Laws.
Import Heap KHeap Spec Refine.

Section Instance_.
Context (h : heap).

#[local] Instance kheap_alloc : KAlloc mem := {
  ka_zalloc := kzalloc h;
  ka_free := kfree h
}.

(** Writes outside the block table do not change what it encodes. *)
Lemma rep_frame m m' L :
  rep m h L ->
  (forall x, entries (table h) <= x < entries (table h) + total (table h) ->
     mread m' x = mread m x) ->
  rep m' h L.
Proof.
  intros [G Hok Ht] Hx. split; [done..|]. rewrite <- Ht. destruct G.
  apply mread_n_ext; [lia..|]. intros x Hxr. apply Hx. lia.
Qed.

Lemma nblocks_pos size : size_ok size -> exists n, nblocks size = Z.of_nat (S n) /\
  size <= Z.of_nat (S n) * 4096.
Proof.
  intros Hs. unfold size_ok, nblocks in *.
  exists (Z.to_nat ((size + 4095) / 4096 - 1)). zlia.
Qed.

(** [kmalloc] in terms of layouts: either the request fails and nothing
    changes, or a run of free blocks becomes the new allocation. *)
Lemma kmalloc_cases m L size :
  rep m h L -> size_ok size ->
  (kmalloc h m size = (NULL, m) /\
   forall L1 L2, L <> L1 ++ replicate (Z.to_nat (nblocks size)) Free ++ L2) \/
  (exists L1 L2 m',
     L = L1 ++ replicate (Z.to_nat (nblocks size)) Free ++ L2 /\
     kmalloc h m size = (saddr h + Z.of_nat (blocks L1) * 4096, m') /\
     rep m' h (L1 ++ Alloc (Z.to_nat (nblocks size)) :: L2) /\
     (forall x, mread m' x <> mread m x ->
        entries (table h) <= x < entries (table h) + total (table h))).
Proof.
  intros R Hs. destruct (nblocks_pos size Hs) as (n & Hn & _).
  unfold kmalloc. rewrite malloc_nblocks by (unfold size_ok in Hs; lia).
  rewrite Hn, Nat2Z.id. pose proof (malloc_blocks_refines m h L n R) as H.
  unfold alloc in H. destruct (first_fit (S n) L) as [[L1 L2]|] eqn:Hff; simpl in H.
  - right. destruct H as (m' & Heq & R' & Hx).
    apply first_fit_Some in Hff as [HL _]. exists L1, L2, m'. done.
  - left. split; [done|]. intros L1 L2. by apply first_fit_None.
Qed.

Lemma kzalloc_cases m L size :
  rep m h L -> size_ok size ->
  (kzalloc h m size = (NULL, m) /\
   forall L1 L2, L <> L1 ++ replicate (Z.to_nat (nblocks size)) Free ++ L2) \/
  (exists L1 L2 m',
     L = L1 ++ replicate (Z.to_nat (nblocks size)) Free ++ L2 /\
     kzalloc h m size = (saddr h + Z.of_nat (blocks L1) * 4096, m') /\
     rep m' h (L1 ++ Alloc (Z.to_nat (nblocks size)) :: L2) /\
     (forall x, saddr h + Z.of_nat (blocks L1) * 4096 <= x
                < saddr h + Z.of_nat (blocks L1) * 4096 + size -> mread m' x = 0) /\
     (forall x, mread m' x <> mread m x ->
        entries (table h) <= x < entries (table h) + total (table h) \/
        saddr h + Z.of_nat (blocks L1) * 4096 <= x
          < saddr h + Z.of_nat (blocks L1) * 4096 + size)).
Proof.
  intros R Hs. destruct (nblocks_pos size Hs) as (n & Hn & Hle). unfold kzalloc.
  destruct (kmalloc_cases m L size R Hs) as [[-> Hno]|(L1 & L2 & m' & HL & -> & R' & Hx)];
    [by left|]. right.
  pose proof (rep_blocks _ _ _ R) as HB. rewrite HL, !blocks_app, blocks_free, Hn in HB.
  pose proof (r_geom _ _ _ R) as []. unfold size_ok in Hs.
  rewrite (proj2 (Z.eqb_neq _ NULL)) by (unfold NULL; lia).
  eexists L1, L2, _. split; [done|]. split; [done|]. split; [|split].
  - apply (rep_frame m'); [done|]. intros x Hxr.
    rewrite memset_read, decide_False by lia. done.
  - intros x Hxr. rewrite memset_read, decide_True by lia. done.
  - intros x Hxr. rewrite memset_read in Hxr by lia. case_decide; [by right|].
    left. by apply Hx.
Qed.

Definition heap_live (m : mem) (lv : gmap Z Z) (n : Z) : Prop :=
  exists L, rep m h L /\ lv = live h L /\ n = Z.of_nat (nfree L).

Lemma live_range m L p n :
  rep m h L -> live h L !! p = Some n ->
  saddr h <= p /\ 1 <= n /\ p + n * 4096 <= saddr h + total (table h) * 4096 /\
  p mod 4096 = 0.
Proof.
  intros R Hl. pose proof (rep_blocks _ _ _ R) as HB. pose proof R as [[] Hok _].
  apply live_from_bounds in Hl as (? & ? & ? & ?); [|done]. zlia.
Qed.

(** A run of free blocks that becomes an allocation. *)
Lemma taken_live m m' L1 L2 size :
  let L := L1 ++ replicate (Z.to_nat (nblocks size)) Free ++ L2 in
  let p := saddr h + Z.of_nat (blocks L1) * 4096 in
  size_ok size -> rep m h L -> rep m' h (L1 ++ Alloc (Z.to_nat (nblocks size)) :: L2) ->
  p <> NULL /\ p mod 4096 = 0 /\ live h L !! p = None /\
  heap_live m' (<[p := nblocks size]> (live h L)) (Z.of_nat (nfree L) - nblocks size).
Proof.
  intros L p Hs R R'. destruct (nblocks_pos size Hs) as (n & Hn & _). unfold p, L in *.
  pose proof R as [[] Hok _]. rewrite !Forall_app in Hok. destruct Hok as (H1 & _ & H2).
  unfold heap_live, live. split; [unfold NULL; lia|]. split; [zlia|]. split.
  - apply live_from_fresh; [by apply Forall_app|lia].
  - eexists. split; [done|]. split.
    + unfold live. rewrite live_from_alloc by done. f_equal. lia.
    + rewrite !nfree_app, nfree_free, nfree_alloc. lia.
Qed.

Lemma kmalloc_live m lv n size p m' :
  heap_live m lv n -> size_ok size -> kmalloc h m size = (p, m') ->
  (p = NULL /\ m' = m) \/
  (p <> NULL /\ lv !! p = None /\ heap_live m' (<[p := nblocks size]> lv) (n - nblocks size) /\
   forall x, mread m' x <> mread m x -> entries (table h) <= x < entries (table h) + total (table h)).
Proof.
  intros (L & R & -> & ->) Hs Hz.
  destruct (kmalloc_cases m L size R Hs) as [[Hz' _]|(L1 & L2 & m2 & -> & Hz' & R' & Hx)];
    rewrite Hz' in Hz; injection Hz as <- <-; [by left|right].
  by destruct (taken_live m m2 L1 L2 size Hs R R') as (? & _ & ? & ?).
Qed.

Lemma kzalloc_live m lv n size p m' :
  heap_live m lv n -> size_ok size -> kzalloc h m size = (p, m') ->
  (p = NULL /\ m' = m /\ (nblocks size = 1 -> n = 0)) \/
  (p <> NULL /\ p mod 4096 = 0 /\ lv !! p = None /\
   heap_live m' (<[p := nblocks size]> lv) (n - nblocks size)).
Proof.
  intros (L & R & -> & ->) Hs Hz.
  destruct (kzalloc_cases m L size R Hs) as [[Hz' Hno]|(L1 & L2 & m2 & -> & Hz' & R' & _)];
    rewrite Hz' in Hz; injection Hz as <- <-.
  - left. split; [done|]. split; [done|]. intros H1. rewrite H1 in Hno.
    destruct (decide (nfree L = 0%nat)) as [|Hn]; [lia|].
    destruct (nfree_pos L Hn) as (L1 & L2 & ->). by destruct (Hno L1 L2).
  - right. by apply (taken_live m).
Qed.

Lemma kfree_live m lv n p k :
  heap_live m lv n -> lv !! p = Some k ->
  heap_live (kfree h m p) (delete p lv) (n + k) /\
  forall x, mread (kfree h m p) x <> mread m x ->
    entries (table h) <= x < entries (table h) + total (table h).
Proof.
  intros (L & R & -> & ->) Hl. pose proof R as [_ Hok _].
  destruct (live_from_lookup _ _ _ _ Hok Hl) as (L1 & j & L2 & -> & -> & ->).
  apply Forall_app in Hok as [H1 H2]. inversion H2 as [|? ? Hk H2']; subst.
  unfold seg_ok in Hk. simpl in Hk.
  destruct (free_refines m h _ _ _ R (dealloc_app L1 j L2 H1)) as [R' Hx].
  split; [|done]. eexists. split; [done|]. split.
  - unfold live. rewrite live_from_alloc by done.
    rewrite delete_insert_id; [done|]. apply live_from_fresh; [by apply Forall_app|done].
  - rewrite !nfree_app, nfree_free, nfree_alloc. lia.
Qed.

#[local] Program Instance kheap_laws : KAllocLaws mem := {
  ka_live := heap_live;
  ka_top := saddr h + total (table h) * 4096
}.
Next Obligation. intros a lv n size p a'. apply kzalloc_live. Qed.
Next Obligation. intros a lv n p k Ha Hp. by apply kfree_live. Qed.
Next Obligation.
  intros a lv n p i q j (L & [_ Hok _] & -> & _) Hp Hq Hne. by eapply live_from_disjoint.
Qed.
Next Obligation.
  intros a lv n p k (L & R & -> & _) Hl. pose proof (live_range _ _ _ _ R Hl).
  pose proof (r_geom _ _ _ R) as []. lia.
Qed.
Next Obligation. intros a lv n p k (L & R & -> & _) Hl. by destruct (live_range _ _ _ _ R Hl) as (_ & _ & ? & _). Qed.
Next Obligation. intros a lv n (L & _ & _ & ->). lia. Qed.

#[local] Program Instance kheap_room : KAllocRoom mem.
Next Obligation.
  intros a lv n sz p a' (L & R & -> & ->) Hs Hlt Hz ->. simpl in Hz. pose proof R as [[] Hok _].
  unfold live in Hlt. rewrite live_from_size in Hlt by done. destruct (nblocks_pos sz Hs) as (k & Hk & _).
  destruct (kzalloc_cases a L sz R Hs) as [[_ Hno]|(L1 & L2 & m2 & HL & Hz' & _)].
  - rewrite Hk, Nat2Z.id in Hno. pose proof (no_run_bound k L 0 Hno). nia.
  - rewrite Hz in Hz'. injection Hz' as Hz' _. unfold NULL in Hz'. lia.
Qed.

(** Live allocations lie in the pool, so they are disjoint from the table. *)
Lemma live_not_table m lv n p k x :
  heap_live m lv n -> lv !! p = Some k -> p <= x < p + k * 4096 ->
  ~ (entries (table h) <= x < entries (table h) + total (table h)).
Proof.
  intros (L & R & -> & _) Hl Hx. pose proof (live_range _ _ _ _ R Hl).
  pose proof (r_geom _ _ _ R) as []. lia.
Qed.

Lemma kzalloc_frame m lv n size p m' q j x :
  heap_live m lv n -> size_ok size -> kzalloc h m size = (p, m') ->
  lv !! q = Some j -> q <= x < q + j * 4096 -> mread m' x = mread m x.
Proof.
  intros Hl Hs Hz Hq Hx. pose proof Hl as (L & R & Hlv & _).
  destruct (kzalloc_live m lv n size p m' Hl Hs Hz) as [(_ & -> & _)|(_ & _ & Hf & Hl')];
    [done|].
  destruct (kzalloc_cases m L size R Hs) as [[Hz' _]|(L1 & L2 & m2 & _ & Hz' & _ & _ & Hx2)];
    rewrite Hz' in Hz; injection Hz as Ep <-; [done|]. rewrite Ep in Hx2.
  destruct (decide (mread m2 x = mread m x)) as [|Hc]; [done|]. exfalso.
  apply Hx2 in Hc as [Ht|Ht]; [exact (live_not_table _ _ _ _ _ _ Hl Hq Hx Ht)|].
  assert (p <> q) as Hne by congruence.
  assert (size <= nblocks size * 4096) by (unfold nblocks; zlia).
  destruct (@ka_disjoint _ _ kheap_laws m2 _ _ p (nblocks size) q j Hl' (lookup_insert_eq _ _ _));
    [by rewrite lookup_insert_ne|done|lia..].
Qed.

#[local] Program Instance kheap_mem : KAllocMem.
Next Obligation.
  intros m lv n size p m' (L & R & _ & _) Hs Hz Hp x Hx. simpl in Hz.
  destruct (kzalloc_cases m L size R Hs) as [[Hz' _]|(L1 & L2 & m2 & _ & Hz' & _ & Hzero & _)];
    rewrite Hz' in Hz; injection Hz as <- <-; [done|]. by apply Hzero.
Qed.
Next Obligation. intros m lv n size p m' q j Hl Hs Hz Hq x. by eapply kzalloc_frame. Qed.
Next Obligation.
  intros m lv n p k q j Hl Hp Hq x Hx. destruct (kfree_live m lv n p k Hl Hp) as [_ Hx2].
  destruct (decide (mread (kfree h m p) x = mread m x)) as [|Hc]; [done|].
  apply Hx2 in Hc. by destruct (live_not_table m lv n q j x).
Qed.
Next Obligation.
  intros m lv n p k a v Hl Hp Ha. pose proof (live_not_table _ _ _ _ _ _ Hl Hp Ha) as Hnt.
  destruct Hl as (L & R & -> & ->). exists L. split; [|done].
  apply (rep_frame m); [done|]. intros x Hx. apply mread_mwrite_ne. congruence.
Qed.

End Instance_.
End Laws.

(** ** The callers of the allocator *)

Module Clients.
Import Heap KHeap Refine Laws.

(** What the rest of the kernel knows of its memory: the pointers it was given
    and has not freed, each with the size it asked for (a list, so that a pointer
    handed out twice is there twice), and for each address the byte it has to
    find there. *)
Record clients := mk_clients {
  held : list (Z * Z);
  known : Z -> option Z
}.

Definition no_clients : clients := mk_clients [] (fun _ => None).

Definition put_known (p size : Z) (v : option Z) (d : Z -> option Z) : Z -> option Z :=
  fun x => if (p <=? x) && (x <? p + size) then v else d x.

(** The caller takes the pointer that came back, unless it is null. *)
Definition grant (p size : Z) (v : option Z) (c : clients) : clients :=
  if p =? NULL then c else mk_clients ((p, size) :: held c) (put_known p size v (known c)).

(** The kernel after [kheap_init]: calls of the allocator's three entry points,
    each with what the caller learns from it, and writes of the callers into
    memory they hold. *)
Inductive step (h : heap) : mem * clients -> mem * clients -> Prop :=
| step_kmalloc m c size p m' :
    size_ok size -> kmalloc h m size = (p, m') -> step h (m, c) (m', grant p size None c)
| step_kzalloc m c size p m' :
    size_ok size -> kzalloc h m size = (p, m') -> step h (m, c) (m', grant p size (Some 0) c)
| step_kfree m xs p size ys d :
    step h (m, mk_clients (xs ++ (p, size) :: ys) d) (kfree h m p, mk_clients (xs ++ ys) (put_known p size None d))
| step_write m c p size a v :
    (p, size) ∈ held c -> p <= a < p + size ->
    step h (m, c) (mwrite m a v, mk_clients (held c) (put_known a 1 (Some (u8 v)) (known c))).

(** The allocations of the callers, in blocks. *)
Definition held_map (l : list (Z * Z)) : gmap Z Z := list_to_map (prod_map id nblocks <$> l).

Definition blocks_of (l : list (Z * Z)) : Z := foldr (fun ps n => nblocks ps.2 + n) 0 l.

Lemma held_map_fst (l : list (Z * Z)) : (prod_map id nblocks <$> l).*1 = l.*1.
Proof. rewrite <- list_fmap_compose. by apply list_fmap_ext. Qed.

Lemma held_map_in l p s : NoDup l.*1 -> (p, s) ∈ l -> held_map l !! p = Some (nblocks s).
Proof.
  intros Hn Hl. apply elem_of_list_to_map_1; [by rewrite held_map_fst|].
  by apply (list_elem_of_fmap_2 (prod_map id nblocks) l (p, s)).
Qed.

Lemma held_map_middle xs p s ys : NoDup (xs ++ (p, s) :: ys).*1 ->
  held_map (xs ++ (p, s) :: ys) = <[p := nblocks s]> (held_map (xs ++ ys)) /\ held_map (xs ++ ys) !! p = None.
Proof.
  intros Hn. rewrite <- Permutation_middle in Hn. split.
  - change (held_map (xs ++ (p, s) :: ys) = held_map ((p, s) :: xs ++ ys)). apply list_to_map_proper.
    + by rewrite held_map_fst, <- Permutation_middle.
    + by rewrite <- Permutation_middle.
  - apply not_elem_of_list_to_map_1. rewrite held_map_fst. by apply NoDup_cons in Hn as [? _].
Qed.

Lemma blocks_of_middle xs p s ys : blocks_of (xs ++ (p, s) :: ys) = nblocks s + blocks_of (xs ++ ys).
Proof. unfold blocks_of. induction xs as [|x xs IH]; simpl; lia. Qed.

(** What the callers know is true: the block table describes their allocations
    and no others, and every byte they rely on is there. *)
Record clients_ok (h : heap) (m : mem) (c : clients) : Prop := {
  co_nodup : NoDup (held c).*1;
  co_sizes : forall p s, (p, s) ∈ held c -> size_ok s;
  co_live : heap_live h m (held_map (held c)) (total (table h) - blocks_of (held c));
  co_data : forall x v, known c x = Some v ->
    mread m x = v /\ exists p s, (p, s) ∈ held c /\ p <= x < p + s
}.

Lemma held_region s x p : size_ok s -> p <= x < p + s -> p <= x < p + nblocks s * 4096.
Proof. intros Hs Hx. destruct (nblocks_pos s Hs) as (n & -> & ?). lia. Qed.

Lemma put_known_Some p size v d x w :
  put_known p size v d x = Some w -> (p <= x < p + size /\ v = Some w) \/ (~ p <= x < p + size /\ d x = Some w).
Proof.
  unfold put_known. destruct (_ && _) eqn:E; [left|right]; (split; [|done]);
    rewrite ?andb_true_iff, ?andb_false_iff, ?Z.leb_le, ?Z.ltb_lt, ?Z.leb_gt, ?Z.ltb_ge in E; lia.
Qed.

(** A successful request that leaves the memory of the callers alone. *)
Lemma grant_ok h m c size p m' v :
  clients_ok h m c -> size_ok size -> p <> NULL -> held_map (held c) !! p = None ->
  heap_live h m' (<[p := nblocks size]> (held_map (held c))) (total (table h) - blocks_of (held c) - nblocks size) ->
  (forall q j x, held_map (held c) !! q = Some j -> q <= x < q + j * 4096 -> mread m' x = mread m x) ->
  (forall w x, v = Some w -> p <= x < p + size -> mread m' x = w) ->
  clients_ok h m' (grant p size v c).
Proof.
  intros [Hn Hs Hl Hd] Hsz Hp Hf Hl' Hx Hv. unfold grant. rewrite (proj2 (Z.eqb_neq p NULL)) by done.
  split; cbn [held known].
  - rewrite fmap_cons. apply NoDup_cons. split; [|done]. intros Hin. change ((p, size).1) with p in Hin.
    rewrite <- held_map_fst in Hin. by apply not_elem_of_list_to_map in Hf.
  - intros q s [[= -> ->]|Hq]%elem_of_cons; [done|by eapply Hs].
  - change (held_map ((p, size) :: held c)) with (<[p := nblocks size]> (held_map (held c))).
    change (blocks_of ((p, size) :: held c)) with (nblocks size + blocks_of (held c)).
    by replace (total (table h) - (nblocks size + blocks_of (held c)))
      with (total (table h) - blocks_of (held c) - nblocks size) by lia.
  - intros x w [[Hr Hw]|[_ Hw]]%put_known_Some.
    + split; [by apply Hv|]. exists p, size. split; [apply elem_of_cons; by left|done].
    + apply Hd in Hw as (<- & q & s & Hq & Hr). split; [|exists q, s; split; [apply elem_of_cons; by right|done]].
      eapply Hx; [by apply held_map_in|]. apply held_region; [by eapply Hs|done].
Qed.

Lemma step_kfree_ok h m xs p size ys d :
  clients_ok h m (mk_clients (xs ++ (p, size) :: ys) d) ->
  clients_ok h (kfree h m p) (mk_clients (xs ++ ys) (put_known p size None d)).
Proof.
  intros [Hn Hs Hl Hd]. cbn [held known] in *. destruct (held_map_middle _ _ _ _ Hn) as [Ho Hf].
  assert (held_map (xs ++ (p, size) :: ys) !! p = Some (nblocks size)) as Hp by (by rewrite Ho, lookup_insert_eq).
  split; cbn [held known].
  - rewrite <- Permutation_middle in Hn. by apply NoDup_cons in Hn as [_ ?].
  - intros q s Hq. apply (Hs q). rewrite <- Permutation_middle. apply elem_of_cons. by right.
  - destruct (kfree_live h _ _ _ _ _ Hl Hp) as [Hl' _]. rewrite Ho, delete_insert_id, blocks_of_middle in Hl' by done.
    by replace (total (table h) - blocks_of (xs ++ ys))
      with (total (table h) - (nblocks size + blocks_of (xs ++ ys)) + nblocks size) by lia.
  - intros x w [[_ Hw]|[Hr Hw]]%put_known_Some; [done|].
    apply Hd in Hw as (<- & q & s & Hq & Hx). split.
    + eapply (@kam_free_frame _ _ (kheap_mem h)); [exact Hl|exact Hp|by apply held_map_in|].
      apply held_region; [by eapply Hs|done].
    + exists q, s. split; [|done]. rewrite <- Permutation_middle in Hq.
      apply elem_of_cons in Hq as [[= -> ->]|?]; [done|done].
Qed.

Lemma clients_step h st st' : step h st st' -> clients_ok h st.1 st.2 -> clients_ok h st'.1 st'.2.
Proof.
  intros [m c size p m' Hs Hz|m c size p m' Hs Hz|m xs p size ys d|m c p size a v Hp Ha] C; cbn [fst snd] in *;
    pose proof C as [Hn Hsz Hl Hd].
  - destruct (kmalloc_live h _ _ _ _ _ _ Hl Hs Hz) as [[-> ->]|(Hp & Hf & Hl' & Hx)]; [done|].
    apply (grant_ok h m); try done. intros q j x Hq Hr.
    destruct (decide (mread m' x = mread m x)) as [|Hc]; [done|].
    by destruct (live_not_table h m _ _ q j x Hl Hq Hr (Hx x Hc)).
  - destruct (kzalloc_live h _ _ _ _ _ _ Hl Hs Hz) as [(-> & -> & _)|(Hp & _ & Hf & Hl')]; [done|].
    apply (grant_ok h m); try done.
    + intros q j x Hq Hr. exact (kzalloc_frame h _ _ _ _ _ _ _ _ _ Hl Hs Hz Hq Hr).
    + intros w x [= <-]. by apply (@kam_zero _ _ (kheap_mem h) m (held_map (held c)) _ size p m' Hl Hs Hz Hp).
  - by apply step_kfree_ok.
  - pose proof (held_region _ _ _ (Hsz _ _ Hp) Ha) as Hr. split; cbn [held known]; try done.
    + eapply (@kam_write _ _ (kheap_mem h)); [done|by apply held_map_in|done].
    + intros x w [[Hx [= <-]]|[Hx Hw]]%put_known_Some.
      * assert (x = a) as -> by lia. rewrite mread_mwrite_eq. split; [done|]. by exists p, size.
      * rewrite mread_mwrite_ne by lia. by apply Hd.
Qed.

End Clients.

(** ** The theorems of the heap *)

Module HeapProps.
Import Heap KHeap Spec Refine Laws Clients.

(** The heap [kheap_init] sets up. *)
Definition kheap : heap :=
  mk_heap (mk_table TOYOS_HEAP_TABLE_ADDRESS 25600) TOYOS_HEAP_ADDRESS.

Lemma kheap_init_eq m h0 :
  kheap_init m h0 = Some (kheap, memset m TOYOS_HEAP_TABLE_ADDRESS 0 25600).
Proof. reflexivity. Qed.

Lemma kheap_geom : geom kheap.
Proof. split; simpl; unfold TOYOS_HEAP_TABLE_ADDRESS, TOYOS_HEAP_ADDRESS; zlia. Qed.

Lemma all_free_rep m h n :
  geom h -> total (table h) = Z.of_nat n ->
  (forall x, entries (table h) <= x < entries (table h) + total (table h) -> mread m x = 0) ->
  rep m h (replicate n Free).
Proof.
  intros G Hn Hz. pose proof G as []. split; [done|..].
  - apply Forall_replicate. unfold seg_ok. simpl. lia.
  - rewrite encode_free. unfold tbl. apply list_eq_same_length with n.
    + by rewrite length_replicate.
    + rewrite length_mread_n. lia.
    + intros i x y Hi. rewrite mread_n_lookup by lia.
      rewrite lookup_replicate, Hz by lia. intros [= <-] [<- _]. done.
Qed.

(** Right after [kheap_init] nothing is live and every block is free. *)
Lemma kheap_fresh m :
  heap_live kheap (memset m TOYOS_HEAP_TABLE_ADDRESS 0 25600) ∅ 25600.
Proof.
  exists (replicate (Z.to_nat 25600) Free). split; [|split].
  - apply all_free_rep; [apply kheap_geom|simpl; lia|].
    intros x Hx. simpl in Hx. rewrite memset_read, decide_True by
      (unfold TOYOS_HEAP_TABLE_ADDRESS in *; lia). done.
  - unfold live. by rewrite live_from_free.
  - rewrite nfree_free. lia.
Qed.

(** Memory right after [kheap_init]. *)
Definition boot_mem : mem := memset ∅ TOYOS_HEAP_TABLE_ADDRESS 0 25600.

(** While there is room, a request is granted. *)
Lemma clients_room h m c sz :
  clients_ok h m c -> size_ok sz ->
  (nblocks sz - 1) * (Z.of_nat (length (held c)) + 1) < total (table h) - blocks_of (held c) ->
  (kmalloc h m sz).1 <> NULL /\ (kzalloc h m sz).1 <> NULL.
Proof.
  intros [Hn _ Hl _] Hs Hr. assert (size (held_map (held c)) = length (held c)) as Hlen.
  { unfold held_map. rewrite map_size_list_to_map by (by rewrite held_map_fst). apply length_fmap. }
  assert ((kzalloc h m sz).1 <> NULL) as Hz.
  { destruct (kzalloc h m sz) as [p m'] eqn:E. refine (@ka_room _ _ (kheap_laws h) (kheap_room h) m _ _ sz p m' Hl Hs _ E).
    by rewrite Hlen. }
  split; [|exact Hz]. revert Hz. unfold kzalloc. destruct (kmalloc h m sz) as [p m'].
  by destruct (Z.eqb_spec p NULL).
Qed.

(** C1: the allocator is memory-safe for any use of it: after kheap_init,
    whatever sequence of kmalloc, kzalloc and kfree calls runs (each request of
    1 to 0xfffff000 bytes, each free of a pointer that is held), with any writes
    of the callers into what they hold between them, the pointers the callers
    were given and have not freed are block aligned and lie with the blocks they
    asked for in the 100 MB pool; no two of them overlap, so no pointer was
    given twice; the block table describes these allocations and no others, so
    that every other block is free again; and every byte a caller wrote, and
    every byte kzalloc cleared, is read back until the caller overwrites or
    frees it; and a request for b blocks is granted while more than b - 1 blocks
    per allocation held, and b - 1 more, are free. *)
Theorem heap_reachable_invariant m0 h0 h m1 m c :
  kheap_init m0 h0 = Some (h, m1) -> rtc (step h) (m1, no_clients) (m, c) ->
  heap_live h m (held_map (held c)) (25600 - blocks_of (held c)) /\
  (forall p s, (p, s) ∈ held c ->
     p <> NULL /\ p mod 4096 = 0 /\ 0 < s <= nblocks s * 4096 /\ TOYOS_HEAP_ADDRESS <= p /\
     p + nblocks s * 4096 <= TOYOS_HEAP_ADDRESS + TOYOS_HEAP_SIZE_BYTES) /\
  (forall i j p s q k, i <> j -> held c !! i = Some (p, s) -> held c !! j = Some (q, k) ->
     p + nblocks s * 4096 <= q \/ q + nblocks k * 4096 <= p) /\
  (forall x v, known c x = Some v -> mread m x = v) /\
  (forall size, size_ok size -> (nblocks size - 1) * (Z.of_nat (length (held c)) + 1) < 25600 - blocks_of (held c) ->
     (kmalloc h m size).1 <> NULL /\ (kzalloc h m size).1 <> NULL).
Proof.
  rewrite kheap_init_eq. intros Hi Hr. apply Some_inj, pair_eq in Hi as [<- <-].
  assert (clients_ok kheap m c) as C.
  { apply (rtc_ind_r (fun st => clients_ok kheap st.1 st.2) (memset m0 TOYOS_HEAP_TABLE_ADDRESS 0 25600, no_clients)
      ) in Hr; [done| |intros y z _ Hst; by apply (clients_step kheap)].
    split; cbn; [by apply NoDup_nil|by intros ? ? ?%elem_of_nil|apply kheap_fresh|done]. }
  pose proof C as [Hn Hs Hl Hd]. split; [done|]. split; [|split; [|split]].
  - intros p s Hp. pose proof (Hs _ _ Hp) as Hsz. destruct (nblocks_pos s Hsz) as (n & E & Hle).
    destruct Hl as (L & R & Hlv & _). pose proof (held_map_in _ _ _ Hn Hp) as Ho. rewrite Hlv in Ho.
    pose proof (live_range _ _ _ _ _ R Ho) as (Hlo & ? & Hhi & ?). cbn in Hlo, Hhi. unfold size_ok in Hsz.
    unfold TOYOS_HEAP_SIZE_BYTES, TOYOS_HEAP_ADDRESS, NULL in *. lia.
  - intros i j p s q k Hij Hp Hq.
    assert (p <> q) as Hne.
    { intros ->. apply Hij. apply (NoDup_lookup (held c).*1 i j q Hn); rewrite list_lookup_fmap; [by rewrite Hp|by rewrite Hq]. }
    eapply (@ka_disjoint _ _ (kheap_laws kheap)); [exact Hl| | |exact Hne]; apply held_map_in; try done;
      by eapply list_elem_of_lookup_2.
  - intros x v Hx. by apply Hd.
  - intros size. exact (clients_room kheap m c size C).
Qed.

(** Two requests, a write and a free: the second pointer is still there, and
    the byte written through it too. *)
Lemma heap_reachable_invariant_witness :
  exists p m c, (p, 5000) ∈ held c /\ known c (p + 4999) = Some 7 /\ p <> NULL /\ p mod 4096 = 0 /\
    mread m (p + 4999) = 7 /\ heap_live kheap m (held_map (held c)) (25600 - blocks_of (held c)).
Proof.
  pose proof (kheap_init_eq ∅ kheap) as E0. set (m1 := memset ∅ TOYOS_HEAP_TABLE_ADDRESS 0 25600) in E0.
  destruct (kmalloc kheap m1 1) as [p1 m2] eqn:E1. destruct (kzalloc kheap m2 5000) as [p m3] eqn:E2.
  assert (p1 = 0x1000000) as -> by (change p1 with (p1, m2).1; rewrite <- E1; vm_compute; reflexivity).
  assert (p = 0x1001000) as ->.
  { change p with (p, m3).1. rewrite <- E2. change m2 with (0x1000000, m2).2. rewrite <- E1. vm_compute. reflexivity. }
  clearbody m1. set (c1 := grant 0x1000000 1 None no_clients). set (c2 := grant 0x1001000 5000 (Some 0) c1).
  set (d := put_known 0x1000000 1 None (put_known (0x1001000 + 4999) 1 (Some (u8 7)) (known c2))).
  destruct (heap_reachable_invariant ∅ kheap kheap m1 (kfree kheap (mwrite m3 (0x1001000 + 4999) 7) 0x1000000)
    (mk_clients [(0x1001000, 5000)] d)) as (I1 & I2 & _ & I4 & _).
  - exact E0.
  - assert (size_ok 1) as S1 by (unfold size_ok; lia). assert (size_ok 5000) as S2 by (unfold size_ok; lia).
    eapply rtc_l; [exact (step_kmalloc kheap m1 no_clients 1 _ m2 S1 E1)|].
    eapply rtc_l; [exact (step_kzalloc kheap m2 c1 5000 _ m3 S2 E2)|].
    eapply rtc_l; [apply (step_write kheap m3 c2 0x1001000 5000 (0x1001000 + 4999) 7); [apply elem_of_cons; by left|lia]|].
    apply rtc_once, (step_kfree kheap _ [(0x1001000, 5000)] 0x1000000 1 []).
  - exists 0x1001000, (kfree kheap (mwrite m3 (0x1001000 + 4999) 7) 0x1000000), (mk_clients [(0x1001000, 5000)] d).
    destruct (I2 0x1001000 5000) as (Hp & Ha & _); [apply elem_of_cons; by left|].
    split; [apply elem_of_cons; by left|]. split; [reflexivity|]. split; [exact Hp|]. split; [exact Ha|].
    split; [|exact I1]. by apply I4.
Defined.

(** C2: kmalloc implements first-fit allocation over block layouts: for a
    request of 1 to 0xfffff000 bytes it returns the address of the first run of
    enough free blocks and turns that run into one allocation, changing only
    table bytes; it returns NULL and changes nothing when no such run exists. *)
Theorem kmalloc_refines h m L size :
  rep m h L -> size_ok size ->
  match alloc (Z.to_nat (nblocks size)) L with
  | Some (b, L') =>
    exists m', kmalloc h m size = (saddr h + Z.of_nat b * 4096, m') /\ rep m' h L' /\
      (forall x, mread m' x <> mread m x ->
         entries (table h) <= x < entries (table h) + total (table h))
  | None => kmalloc h m size = (NULL, m)
  end.
Proof.
  intros R Hs. destruct (nblocks_pos size Hs) as (n & Hn & _).
  unfold kmalloc. rewrite malloc_nblocks by (unfold size_ok in Hs; lia).
  rewrite Hn, Nat2Z.id. by apply malloc_blocks_refines.
Qed.

(** A heap of four blocks, for the witnesses. *)
Definition small : heap := mk_heap (mk_table 0x7e00 4) 0x1000000.

Lemma small_rep L m :
  Forall seg_ok L -> tbl m small = encode L -> rep m small L.
Proof. intros. split; [split; simpl; zlia|done..]. Qed.

Lemma kmalloc_refines_witness :
  exists m', kmalloc small (mwrite ∅ 0x7e00 0x41) 8000 = (0x1001000, m') /\
    rep m' small [Alloc 1; Alloc 2; Free] /\
    (forall x, mread m' x <> mread (mwrite ∅ 0x7e00 0x41) x -> 0x7e00 <= x < 0x7e00 + 4).
Proof.
  refine (kmalloc_refines small (mwrite ∅ 0x7e00 0x41) [Alloc 1; Free; Free; Free] 8000 _ _).
  - apply small_rep; [|reflexivity]. repeat apply List.Forall_cons; try (unfold seg_ok; simpl; lia).
    apply List.Forall_nil.
  - unfold size_ok. lia.
Defined.

(** C25: a successful kzalloc returns memory nobody else holds: the region is
    fresh, disjoint from every live allocation, inside the pool, filled with
    zeros, and no byte of another live allocation changes; a failed one
    changes nothing. *)
Theorem kzalloc_fresh_zeroed h m lv f size p m' :
  heap_live h m lv f -> size_ok size -> kzalloc h m size = (p, m') ->
  (p = NULL /\ m' = m) \/
  (p <> NULL /\ heap_live h m' (<[p := nblocks size]> lv) (f - nblocks size) /\
   size <= nblocks size * 4096 /\
   (forall x, p <= x < p + size -> mread m' x = 0) /\
   (forall q k, lv !! q = Some k ->
      (p + nblocks size * 4096 <= q \/ q + k * 4096 <= p) /\
      (forall x, q <= x < q + k * 4096 -> mread m' x = mread m x))).
Proof.
  intros Hl Hs Hz. destruct (kzalloc_live h m lv f size p m' Hl Hs Hz)
    as [(? & ? & _)|(Hp & _ & Hf & Hl')]; [by left|right].
  split; [done|]. split; [done|]. split; [unfold nblocks; zlia|].
  split; [exact (@kam_zero _ _ (kheap_mem h) m lv f size p m' Hl Hs Hz Hp)|].
  intros q k Hq. assert (p <> q) as Hne by congruence. split.
  - eapply (@ka_disjoint _ _ (kheap_laws h)); [exact Hl'|apply lookup_insert_eq|
      by rewrite lookup_insert_ne|done].
  - intros x Hx. by eapply kzalloc_frame.
Qed.

Lemma small_live m L : Forall seg_ok L -> tbl m small = encode L ->
  heap_live small m (live small L) (Z.of_nat (nfree L)).
Proof. intros. exists L. split; [by apply small_rep|done]. Qed.

Lemma kzalloc_fresh_zeroed_witness :
  let m := mwrite ∅ 0x7e00 0x41 in
  let '(p, m') := kzalloc small m 5000 in
  (p = NULL /\ m' = m) \/
  (p <> NULL /\ heap_live small m' (<[p := nblocks 5000]> (live small [Alloc 1; Free; Free; Free]))
                   (3 - nblocks 5000) /\
   5000 <= nblocks 5000 * 4096 /\
   (forall x, p <= x < p + 5000 -> mread m' x = 0) /\
   (forall q k, live small [Alloc 1; Free; Free; Free] !! q = Some k ->
      (p + nblocks 5000 * 4096 <= q \/ q + k * 4096 <= p) /\
      (forall x, q <= x < q + k * 4096 -> mread m' x = mread m x))).
Proof.
  intros m. destruct (kzalloc small m 5000) as [p m'] eqn:Hz.
  apply (kzalloc_fresh_zeroed small m _ 3 5000 p m').
  - apply (small_live m [Alloc 1; Free; Free; Free]); [|reflexivity]. repeat constructor.
  - unfold size_ok. lia.
  - exact Hz.
Defined.

(** allocating and freeing again is the identity on memory: after
    [kfree (kmalloc size)] every byte, the block table included, is what it
    was, whenever the allocation succeeded. *)
Theorem kmalloc_kfree_roundtrip h m L size p m' :
  rep m h L -> size_ok size -> kmalloc h m size = (p, m') -> p <> NULL ->
  rep (kfree h m' p) h L /\ forall x, mread (kfree h m' p) x = mread m x.
Proof.
  intros R Hs Hk Hp. pose proof R as [G Hok Ht].
  destruct (kmalloc_cases h m L size R Hs) as [[Hk' _]|(L1 & L2 & m2 & HL & Hk' & R' & Hx)];
    rewrite Hk' in Hk; injection Hk as Ep <-; [done|].
  rewrite HL, Forall_app in Hok. destruct Hok as [H1 _].
  destruct (free_refines _ _ _ _ _ R' (dealloc_app L1 _ L2 H1)) as [R2 Hx2].
  rewrite Ep, <- HL in R2. rewrite Ep in Hx2. split; [done|]. intros x. pose proof G as [].
  destruct (decide (entries (table h) <= x < entries (table h) + total (table h))) as [Hin|Hout].
  - pose proof (r_tbl _ _ _ R2) as Ht2. unfold kfree. unfold tbl in Ht, Ht2. rewrite <- Ht in Ht2.
    apply (f_equal (lookup (Z.to_nat (x - entries (table h))))) in Ht2.
    rewrite !mread_n_lookup in Ht2 by lia. injection Ht2 as Ht2.
    by replace (entries (table h) + Z.of_nat (Z.to_nat (x - entries (table h)))) with x in Ht2 by lia.
  - transitivity (mread m2 x).
    + destruct (decide (mread (kfree h m2 p) x = mread m2 x)) as [|Hc]; [done|].
      by apply Hx2 in Hc.
    + destruct (decide (mread m2 x = mread m x)) as [|Hc]; [done|]. by apply Hx in Hc.
Qed.

Lemma kmalloc_kfree_roundtrip_witness :
  let '(p, m') := kmalloc small ∅ 5000 in
  rep (kfree small m' p) small [Free; Free; Free; Free] /\
  forall x, mread (kfree small m' p) x = mread ∅ x.
Proof.
  destruct (kmalloc small ∅ 5000) as [p m'] eqn:Hk.
  apply (kmalloc_kfree_roundtrip small ∅ _ 5000 p m').
  - apply small_rep; [|reflexivity]. repeat constructor.
  - unfold size_ok. lia.
  - exact Hk.
  - vm_compute in Hk. injection Hk as <- _. discriminate.
Defined.

(** A request of 0 bytes, or of more than 0xfffff000 bytes (where rounding
    up to a block overflows), reserves nothing: memory is unchanged whatever
    pointer comes back, so a second request gets the very same answer. *)
Theorem kmalloc_reserves_nothing h m size :
  size = 0 \/ 0xfffff000 < size < 2 ^ 32 -> (kmalloc h m size).2 = m.
Proof.
  intros Hs. unfold kmalloc. rewrite malloc_no_blocks by done. unfold heap_malloc_blocks.
  destruct (_ <? 0) eqn:Hb; [done|]. destruct (_ =? NULL); [done|]. simpl.
  unfold heap_mark_blocks_taken. change (s32 0) with 0. rewrite Z.add_0_r.
  set (b := heap_get_start_block m h 0) in *.
  assert (s32 b <= b) as Hle.
  { apply Z.ltb_ge in Hb. unfold s32. zlia. }
  by replace (Z.to_nat (s32 b - 1 - b + 1)) with 0%nat by lia.
Qed.

(** The pointer that comes back from a fresh heap is that of the first block,
    although nothing was reserved. *)
Lemma kmalloc_reserves_nothing_witness :
  kmalloc small ∅ 0xfffffff0 = (0x1000000, ∅) /\ (kmalloc small ∅ 0xfffffff0).2 = ∅.
Proof.
  split; [reflexivity|]. apply (kmalloc_reserves_nothing small ∅ 0xfffffff0). right. lia.
Defined.

Lemma kfree_null_loop m :
  exists k, Z.of_nat k = 29695 /\ kfree kheap m NULL = mark_free_loop (S k) m kheap (-4096).
Proof.
  exists (Z.to_nat 29695). split; [lia|]. unfold kfree, free, heap_mark_blocks_free.
  replace (heap_address_to_block kheap NULL) with (-4096) by reflexivity.
  replace (s32 (total (table kheap))) with 25600 by reflexivity.
  by replace (S (Z.to_nat 29695)) with (Z.to_nat (25600 - -4096)) by lia.
Qed.

(** kfree(NULL) is not a no-operation: on the kernel heap it computes block
    number -4096 and clears the byte 4096 below the block table, at address
    0x6e00, and that byte only when its "has next" bit is clear. *)
Theorem kfree_null_clears_byte m :
  mread (kfree kheap m NULL) 0x6e00 = 0 /\
  (Z.land (mread m 0x6e00) 0x80 = 0 -> kfree kheap m NULL = mwrite m 0x6e00 0).
Proof.
  destruct (kfree_null_loop m) as (k & Hk29 & Hk).
  assert (forall n i m', -4096 < i -> i + Z.of_nat n <= 25600 ->
    mread (mark_free_loop n m' kheap i) 0x6e00 = mread m' 0x6e00) as Hloop.
  { intros n. induction n as [|n IH]; intros i m' Hi Hn; [done|]. simpl.
    unfold TOYOS_HEAP_TABLE_ADDRESS. rewrite (ptr_add_small _ i) by lia.
    destruct (_ =? 0); [|rewrite IH by lia]; rewrite mread_mwrite_ne by lia; done. }
  rewrite Hk. simpl. change (entry_at m kheap (-4096)) with (mread m 0x6e00).
  change (ptr_add TOYOS_HEAP_TABLE_ADDRESS (-4096)) with 0x6e00. split.
  - destruct (_ =? 0); [|rewrite Hloop by lia]; apply mread_mwrite_eq.
  - intros H0. unfold HEAP_BLOCK_HAS_NEXT. by rewrite H0.
Qed.

(** *** Freeing the null pointer

    Harmless as long as the byte below the block table that it clears does not
    have the has-next bit. *)

Definition quiet (m : mem) : Prop := Z.land (mread m 0x6e00) HEAP_BLOCK_HAS_NEXT = 0.

Lemma kfree_null m : quiet m -> kfree kheap m NULL = mwrite m 0x6e00 0.
Proof.
  intros Hq. destruct (kfree_null_loop m) as (k & _ & ->). cbn [mark_free_loop]. unfold entry_at.
  change (ptr_add (entries (table kheap)) (-4096)) with 0x6e00. by rewrite Hq.
Qed.

Lemma mread_outside m m' x :
  (mread m' x <> mread m x -> False) -> mread m' x = mread m x.
Proof. intros Hx. destruct (decide (mread m' x = mread m x)) as [|Hc]; [done|]. by destruct Hx. Qed.

Lemma kzalloc_quiet m lv n size p m' :
  heap_live kheap m lv n -> size_ok size -> kzalloc kheap m size = (p, m') -> quiet m -> quiet m'.
Proof.
  intros (L & R & _) Hs Hz Hq. unfold quiet. rewrite (mread_outside m m'); [done|].
  destruct (kzalloc_cases kheap m L size R Hs) as [[Hz' _]|(L1 & L2 & m2 & _ & Hz' & _ & _ & Hx)];
    rewrite Hz' in Hz; injection Hz as _ <-; [done|].
  intros [Ht|Ht]%Hx; cbn [entries table total saddr kheap] in Ht;
    unfold TOYOS_HEAP_TABLE_ADDRESS, TOYOS_HEAP_ADDRESS in Ht; lia.
Qed.

Lemma kfree_quiet m lv n p k : heap_live kheap m lv n -> lv !! p = Some k -> quiet m -> quiet (kfree kheap m p).
Proof.
  intros Ha Hp Hq. destruct (kfree_live kheap m lv n p k Ha Hp) as [_ Hx]. unfold quiet.
  rewrite (mread_outside m); [done|]. intros Ht%Hx. cbn [entries table total kheap] in Ht.
  unfold TOYOS_HEAP_TABLE_ADDRESS in Ht. lia.
Qed.

Lemma kfree_null_live m lv n :
  heap_live kheap m lv n -> quiet m -> heap_live kheap (kfree kheap m NULL) lv n /\ quiet (kfree kheap m NULL).
Proof.
  intros (L & R & -> & ->) Hq. rewrite kfree_null by done. split.
  - exists L. split; [|done]. apply (rep_frame kheap m); [done|].
    intros x Hx. apply mread_mwrite_ne. cbn [entries table total kheap] in Hx. unfold TOYOS_HEAP_TABLE_ADDRESS in Hx. lia.
  - unfold quiet. by rewrite mread_mwrite_eq.
Qed.

#[local] Existing Instance kheap_alloc.
#[local] Opaque kzalloc kfree.

(** The kernel heap while the byte below the table is quiet. *)
#[local] Program Instance quiet_laws : @KAllocLaws mem (kheap_alloc kheap) := {
  ka_live m lv n := heap_live kheap m lv n /\ quiet m;
  ka_top := @ka_top _ _ (kheap_laws kheap) }.
Next Obligation.
  intros a lv n size p a' [Ha Hq] Hs Hz.
  destruct (kzalloc_live kheap a lv n size p a' Ha Hs Hz) as [?|(H1 & H2 & H3 & H4)]; [by left|right].
  pose proof (kzalloc_quiet a lv n size p a' Ha Hs Hz Hq). done.
Qed.
Next Obligation.
  intros a lv n p k [Ha Hq] Hp. exact (conj (proj1 (kfree_live kheap a lv n p k Ha Hp)) (kfree_quiet a lv n p k Ha Hp Hq)).
Qed.
Next Obligation. intros a lv n p i q j [Ha _]. by apply (@ka_disjoint _ _ (kheap_laws kheap) a lv n). Qed.
Next Obligation. intros a lv n p k [Ha _]. by apply (@ka_range _ _ (kheap_laws kheap) a lv n). Qed.
Next Obligation. intros a lv n p k [Ha _]. by apply (@ka_below _ _ (kheap_laws kheap) a lv n). Qed.
Next Obligation. intros a lv n [Ha _]. by apply (@ka_free_pos _ _ (kheap_laws kheap) a lv). Qed.

Lemma pool_not_quiet m lv n p k x :
  heap_live kheap m lv n -> lv !! p = Some k -> p <= x < p + k * 4096 -> x <> 0x6e00.
Proof.
  intros (L & R & -> & _) Hl Hx. destruct (live_range kheap _ _ _ _ R Hl) as [Hs _]. cbn [saddr kheap] in Hs.
  unfold TOYOS_HEAP_ADDRESS in Hs. lia.
Qed.

#[local] Program Instance quiet_mem : @KAllocMem (kheap_alloc kheap) quiet_laws.
Next Obligation. intros m lv n size p m' [Ha _]. by apply (@kam_zero _ _ (kheap_mem kheap) m lv n size p m'). Qed.
Next Obligation.
  intros m lv n size p m' q j [Ha _]. by apply (@kam_frame _ _ (kheap_mem kheap) m lv n size p m' q j).
Qed.
Next Obligation.
  intros m lv n p k q j [Ha _]. by apply (@kam_free_frame _ _ (kheap_mem kheap) m lv n p k q j).
Qed.
Next Obligation.
  intros m lv n p k a v [Ha Hq] Hp Hx. split; [by apply (@kam_write _ _ (kheap_mem kheap) m lv n p k)|].
  unfold quiet. rewrite mread_mwrite_ne; [done|]. intros ->. by eapply pool_not_quiet.
Qed.

#[local] Program Instance quiet_room : @KAllocRoom mem (kheap_alloc kheap) quiet_laws.
Next Obligation. intros a lv n sz p a' [Ha _]. by apply (@ka_room _ _ (kheap_laws kheap) (kheap_room kheap) a lv n sz p a'). Qed.

#[local] Program Instance quiet_null : @KAllocNull (kheap_alloc kheap) quiet_laws.
Next Obligation.
  intros m lv n [Ha Hq]. exact (kfree_null_live m lv n Ha Hq).
Qed.
Next Obligation.
  intros m lv n q j [Ha Hq] Hl x Hx. change (mread (kfree kheap m NULL) x = mread m x). rewrite kfree_null by done.
  apply mread_mwrite_ne. pose proof (pool_not_quiet _ _ _ _ _ _ Ha Hl Hx). congruence.
Qed.

End HeapProps.
