(* ===== verification/Paging.v ===== *)
(** * Paging: paging.c

    Page directories and page tables are 1024-entry arrays of 32-bit words in
    physical memory; every access below is a [load32] or a [store32] there.
    [Mmu] is the x86 two-level page walk, the reference against which the
    functions of paging.c are judged.  Tables come from the allocator
    interface of KAlloc.v. *)

From S2P Require Import Prelude KAlloc Heap.

Definition PAGING_CACHE_DISABLED : Z := 16.
Definition PAGING_WRITE_THROUGH : Z := 8.
Definition PAGING_ACCESS_FROM_ALL : Z := 4.
Definition PAGING_IS_WRITEABLE : Z := 2.
Definition PAGING_IS_PRESENT : Z := 1.
Definition PAGING_TOTAL_ENTRIES_PER_TABLE : Z := 1024.
Definition PAGING_PAGE_SIZE : Z := 4096.

Module Paging.

(** [a[i]] for an array of 32-bit words at address [a]. *)
Definition word_at (a i : Z) : Z := ptr_add a (4 * i).

Definition paging_is_aligned (addr : Z) : bool := addr mod PAGING_PAGE_SIZE =? 0.

(** The status and the two output words, which keep their values ([di], [ti])
    when the address is refused. *)
Definition paging_get_indexes (virtual_addr di ti : Z) : Z * (Z * Z) :=
  if negb (paging_is_aligned virtual_addr) then (- EINVARG, (di, ti))
  else
    let directory_index :=
      virtual_addr / (PAGING_TOTAL_ENTRIES_PER_TABLE * PAGING_PAGE_SIZE) in
    let table_index :=
      virtual_addr mod (PAGING_TOTAL_ENTRIES_PER_TABLE * PAGING_PAGE_SIZE)
        / PAGING_PAGE_SIZE in
    (OK, (directory_index, table_index)).

Definition paging_align_address (ptr : Z) : Z :=
  if negb (ptr mod PAGING_PAGE_SIZE =? 0)
  then u32 (ptr + PAGING_PAGE_SIZE - ptr mod PAGING_PAGE_SIZE)
  else ptr.

Definition paging_align_to_lower_page (addr : Z) : Z :=
  u32 (addr - addr mod PAGING_PAGE_SIZE).

Definition paging_set (m : mem) (directory virt val : Z) : Z * mem :=
  if (virt =? NULL) || negb (paging_is_aligned virt) || (directory =? NULL)
  then (- EINVARG, m)
  else
    let '(res, (directory_index, table_index)) := paging_get_indexes virt 0 0 in
    if res <? 0 then (res, m)
    else
      let entry := load32 m (word_at directory directory_index) in
      let table := Z.land entry 0xfffff000 in
      (OK, store32 m (word_at table table_index) val).

Definition paging_get (m : mem) (directory virt : Z) : Z :=
  if (directory =? NULL) || (virt =? NULL) then u32 (- EINVARG)
  else
    let '(_, (directory_index, table_index)) := paging_get_indexes virt 0 0 in
    let entry := load32 m (word_at directory directory_index) in
    let table := Z.land entry 0xfffff000 in
    load32 m (word_at table table_index).

Definition paging_get_physical_address (m : mem) (directory virt : Z) : Z :=
  if (directory =? NULL) || (virt =? NULL) then NULL
  else
    let virt_addr_new := paging_align_to_lower_page virt in
    let difference := u32 (virt - virt_addr_new) in
    u32 (Z.land (paging_get m directory virt_addr_new) 0xfffff000 + difference).

(** [struct paging_4gb_chunk] has one field, the address of the directory. *)
Definition directory_entry (m : mem) (chunk : Z) : Z := load32 m chunk.

Definition paging_4gb_chunk_get_directory (m : mem) (chunk : Z) : Z :=
  directory_entry m chunk.

Definition paging_map (m : mem) (chunk virt phys flags : Z) : Z * mem :=
  if negb (virt mod PAGING_PAGE_SIZE =? 0) || negb (phys mod PAGING_PAGE_SIZE =? 0)
  then (- EINVARG, m)
  else paging_set m (directory_entry m chunk) virt (u32 (Z.lor phys flags)).

(** [for (int i = 0; i < count; i++)], [n] iterations left. *)
Fixpoint map_range_loop (n : nat) (m : mem) (chunk virt phys flags : Z) : Z * mem :=
  match n with
  | O => (OK, m)
  | S n' =>
    let '(res, m) := paging_map m chunk virt phys flags in
    if res <? 0 then (res, m)
    else map_range_loop n' m chunk (ptr_add virt PAGING_PAGE_SIZE)
           (ptr_add phys PAGING_PAGE_SIZE) flags
  end.

Definition paging_map_range (m : mem) (chunk virt phys count flags : Z) : Z * mem :=
  map_range_loop (Z.to_nat count) m chunk virt phys flags.

Definition paging_map_to (m : mem) (chunk virt phys phys_end flags : Z) : Z * mem :=
  if negb (virt mod PAGING_PAGE_SIZE =? 0) then (- EINVARG, m)
  else if negb (phys mod PAGING_PAGE_SIZE =? 0) then (- EINVARG, m)
  else if negb (phys_end mod PAGING_PAGE_SIZE =? 0) then (- EINVARG, m)
  else if phys_end <? phys then (- EINVARG, m)
  else
    let total_bytes := u32 (phys_end - phys) in
    let total_pages := total_bytes / PAGING_PAGE_SIZE in
    paging_map_range m chunk virt phys total_pages flags.

Section Alloc.
Context `{KAlloc mem}.

(** The inner loop of [paging_new_4gb]: [offset] is an [int]. *)
Fixpoint fill_table (n : nat) (m : mem) (entry offset flags j : Z) : mem :=
  match n with
  | O => m
  | S n' =>
    let v := u32 (Z.lor (s32 (offset + j * PAGING_PAGE_SIZE)) flags) in
    fill_table n' (store32 m (word_at entry j) v) entry offset flags (j + 1)
  end.

(** The outer loop. *)
Fixpoint new_tables (n : nat) (m : mem) (directory flags offset i : Z) : mem :=
  match n with
  | O => m
  | S n' =>
    let '(entry, m) := ka_zalloc m (4 * PAGING_TOTAL_ENTRIES_PER_TABLE) in
    let m := fill_table (Z.to_nat PAGING_TOTAL_ENTRIES_PER_TABLE) m entry offset flags 0 in
    let offset := s32 (offset + PAGING_TOTAL_ENTRIES_PER_TABLE * PAGING_PAGE_SIZE) in
    let m := store32 m (word_at directory i)
               (Z.lor (Z.lor entry flags) PAGING_IS_WRITEABLE) in
    new_tables n' m directory flags offset (i + 1)
  end.

(** Returns the address of the chunk. *)
Definition paging_new_4gb (m : mem) (flags : Z) : Z * mem :=
  let '(directory, m) := ka_zalloc m (4 * PAGING_TOTAL_ENTRIES_PER_TABLE) in
  let m := new_tables (Z.to_nat PAGING_TOTAL_ENTRIES_PER_TABLE) m directory flags 0 0 in
  let '(chunk_4gb, m) := ka_zalloc m 4 in
  (chunk_4gb, store32 m chunk_4gb directory).

Fixpoint free_tables (n : nat) (m : mem) (chunk i : Z) : mem :=
  match n with
  | O => m
  | S n' =>
    let entry := load32 m (word_at (directory_entry m chunk) i) in
    let table := Z.land entry 0xfffff000 in
    free_tables n' (ka_free m table) chunk (i + 1)
  end.

Definition paging_free_4gb (m : mem) (chunk : Z) : mem :=
  let m := free_tables (Z.to_nat PAGING_TOTAL_ENTRIES_PER_TABLE) m chunk 0 in
  let m := ka_free m (directory_entry m chunk) in
  ka_free m chunk.

End Alloc.

(** [paging_switch]: the processor's page-directory base register and the
    module's [current_directory]. *)
Record paging_state := mk_paging_state { cr3 : Z; current_directory : Z }.

Definition paging_load_directory (directory : Z) (s : paging_state) : paging_state :=
  mk_paging_state directory (current_directory s).

Definition paging_switch (m : mem) (chunk : Z) (s : paging_state) : paging_state :=
  let s := paging_load_directory (directory_entry m chunk) s in
  mk_paging_state (cr3 s) (directory_entry m chunk).

End Paging.

(** ** The x86 page walk *)

Module Mmu.

Definition pde (m : mem) (dir va : Z) : Z := load32 m (dir + 4 * (va / 4194304)).

Definition pte (m : mem) (dir va : Z) : Z :=
  load32 m (Z.land (pde m dir va) 0xfffff000 + 4 * (va / 4096 mod 1024)).

(** The physical address and the access rights (the user and write bits, which
    must be set at both levels), or a page fault. *)
Definition translate (m : mem) (dir va : Z) : option (Z * Z) :=
  if Z.testbit (pde m dir va) 0 && Z.testbit (pte m dir va) 0
  then Some (Z.land (pte m dir va) 0xfffff000 + va mod 4096,
             Z.land (Z.land (pde m dir va) (pte m dir va)) 6)
  else None.

End Mmu.

(** ** Well-formed directories *)

Module PagingFacts.
Import Paging Mmu.

(** The page tables of a directory: the address part of its 1024 entries. *)
Definition table_of (m : mem) (dir i : Z) : Z := Z.land (load32 m (dir + 4 * i)) 0xfffff000.

Definition page (p : Z) : Prop := p mod 4096 = 0 /\ 0 < p < 2 ^ 32.

(** The directory and its tables are distinct pages. *)
Record dir_ok (m : mem) (dir : Z) : Prop := {
  d_dir : page dir;
  d_tab : forall i, 0 <= i < 1024 -> page (table_of m dir i);
  d_sep : forall i, 0 <= i < 1024 -> table_of m dir i <> dir;
  d_inj : forall i j, 0 <= i < 1024 -> 0 <= j < 1024 ->
    table_of m dir i = table_of m dir j -> i = j
}.

Lemma page_range p : page p -> 4096 <= p /\ p + 4096 <= 2 ^ 32.
Proof. unfold page. zlia. Qed.

Lemma pages_apart p q : page p -> page q -> p <> q -> p + 4096 <= q \/ q + 4096 <= p.
Proof. unfold page. zlia. Qed.

Lemma word_at_small a i : page a -> 0 <= i < 1024 -> word_at a i = a + 4 * i.
Proof. intros Ha Hi. apply page_range in Ha. unfold word_at. rewrite ptr_add_small; lia. Qed.

Definition pte_addr (m : mem) (dir va : Z) : Z :=
  table_of m dir (va / 4194304) + 4 * (va / 4096 mod 1024).

Lemma pte_eq m dir va : pte m dir va = load32 m (pte_addr m dir va).
Proof. done. Qed.

Lemma va_indexes va : 0 <= va < 2 ^ 32 ->
  0 <= va / 4194304 < 1024 /\ 0 <= va / 4096 mod 1024 < 1024.
Proof. intros. zlia. Qed.

Lemma get_indexes_ok va di ti :
  va mod 4096 = 0 -> 0 <= va < 2 ^ 32 ->
  paging_get_indexes va di ti = (OK, (va / 4194304, va / 4096 mod 1024)).
Proof.
  intros Ha Hv. unfold paging_get_indexes, paging_is_aligned.
  change PAGING_PAGE_SIZE with 4096. rewrite Ha. simpl.
  change (PAGING_TOTAL_ENTRIES_PER_TABLE * 4096) with 4194304. do 2 f_equal. zlia.
Qed.

(** Writing a word into a table leaves the directory's entries alone, and
    the entries of the other pages too. *)
Lemma set_word_dir m dir va v i :
  dir_ok m dir -> 0 <= va < 2 ^ 32 -> 0 <= i < 1024 ->
  load32 (store32 m (pte_addr m dir va) v) (dir + 4 * i) = load32 m (dir + 4 * i).
Proof.
  intros D Hva Hi. destruct (va_indexes va Hva) as [H1 H2]. unfold pte_addr.
  pose proof (page_range _ (d_dir _ _ D)). pose proof (page_range _ (d_tab _ _ D _ H1)).
  destruct (pages_apart _ _ (d_dir _ _ D) (d_tab _ _ D _ H1)
    (fun e => d_sep _ _ D _ H1 (eq_sym e))); apply load32_store32_ne; lia.
Qed.

Lemma set_word_dir_ok m dir va v :
  dir_ok m dir -> 0 <= va < 2 ^ 32 ->
  dir_ok (store32 m (pte_addr m dir va) v) dir /\
  (forall i, 0 <= i < 1024 -> table_of (store32 m (pte_addr m dir va) v) dir i = table_of m dir i).
Proof.
  intros D Hva. set (m' := store32 _ _ _).
  assert (forall i, 0 <= i < 1024 -> table_of m' dir i = table_of m dir i) as HT.
  { intros i Hi. unfold table_of. f_equal. by apply set_word_dir. }
  split; [|done]. destruct D as [H1 H2 H3 H4].
  split; [done|intros i Hi; rewrite HT by done; auto..|].
  intros i j Hi Hj. rewrite !HT by done. auto.
Qed.

Lemma pde_set m dir va v x :
  dir_ok m dir -> 0 <= va < 2 ^ 32 -> 0 <= x < 2 ^ 32 ->
  pde (store32 m (pte_addr m dir va) v) dir x = pde m dir x.
Proof. intros. apply set_word_dir; [done..|]. by apply va_indexes. Qed.

Lemma pte_set m dir va v x :
  dir_ok m dir -> 0 <= va < 2 ^ 32 -> 0 <= x < 2 ^ 32 ->
  pte (store32 m (pte_addr m dir va) v) dir x =
    if decide (x / 4096 = va / 4096) then u32 v else pte m dir x.
Proof.
  intros D Hva Hx. rewrite !pte_eq.
  destruct (va_indexes va Hva) as [H1 H2], (va_indexes x Hx) as [H3 H4].
  assert (pte_addr (store32 m (pte_addr m dir va) v) dir x = pte_addr m dir x) as ->.
  { unfold pte_addr at 1 3. f_equal. by apply set_word_dir_ok. }
  pose proof (page_range _ (d_tab _ _ D _ H1)). pose proof (page_range _ (d_tab _ _ D _ H3)).
  case_decide as Hp.
  - assert (pte_addr m dir x = pte_addr m dir va) as ->.
    { unfold pte_addr. rewrite Hp. do 2 f_equal. zlia. }
    unfold pte_addr. apply load32_store32_eq; lia.
  - unfold pte_addr. apply load32_store32_ne; [lia..|].
    destruct (decide (x / 4194304 = va / 4194304)) as [He|Hne].
    + rewrite He. assert (x / 4096 mod 1024 <> va / 4096 mod 1024) by zlia. lia.
    + destruct (pages_apart _ _ (d_tab _ _ D _ H1) (d_tab _ _ D _ H3)); [|lia..].
      intros He. apply Hne. symmetry. by apply (d_inj _ _ D).
Qed.

(** *** The functions of paging.c on well-formed directories *)

Lemma paging_set_ok m dir va v :
  dir_ok m dir -> page va ->
  paging_set m dir va v = (OK, store32 m (pte_addr m dir va) v).
Proof.
  intros D [Ha Hv]. unfold paging_set, paging_is_aligned. change PAGING_PAGE_SIZE with 4096.
  rewrite Ha. pose proof (page_range _ (d_dir _ _ D)). unfold NULL.
  rewrite (proj2 (Z.eqb_neq va 0)), (proj2 (Z.eqb_neq dir 0)) by lia. simpl.
  rewrite get_indexes_ok by lia. simpl. destruct (va_indexes va) as [H1 H2]; [lia|].
  rewrite (word_at_small dir) by (done || by apply D). fold (table_of m dir (va / 4194304)).
  rewrite word_at_small by (done || by apply D). done.
Qed.

Lemma paging_get_ok m dir va :
  dir_ok m dir -> page va -> paging_get m dir va = pte m dir va.
Proof.
  intros D [Ha Hv]. unfold paging_get. pose proof (page_range _ (d_dir _ _ D)). unfold NULL.
  rewrite (proj2 (Z.eqb_neq va 0)), (proj2 (Z.eqb_neq dir 0)) by lia. simpl.
  rewrite get_indexes_ok by lia. destruct (va_indexes va) as [H1 H2]; [lia|].
  rewrite (word_at_small dir) by (done || by apply D). fold (table_of m dir (va / 4194304)).
  rewrite word_at_small by (done || by apply D). done.
Qed.

(** A chunk whose own page is none of the tables. *)
Record chunk_ok (m : mem) (chunk dir : Z) : Prop := {
  c_dir : dir_ok m dir;
  c_page : page chunk;
  c_ptr : directory_entry m chunk = dir;
  c_sep : forall i, 0 <= i < 1024 -> table_of m dir i <> chunk
}.

Lemma chunk_ok_set m chunk dir va v :
  chunk_ok m chunk dir -> 0 <= va < 2 ^ 32 ->
  chunk_ok (store32 m (pte_addr m dir va) v) chunk dir.
Proof.
  intros [D Hp Hc Hs] Hva. destruct (set_word_dir_ok m dir va v D Hva) as [D' HT].
  destruct (va_indexes va Hva) as [H1 H2].
  split; [done..| |intros i Hi; rewrite HT by done; auto].
  unfold directory_entry in *. rewrite <- Hc at 2. unfold pte_addr.
  pose proof (page_range _ Hp). pose proof (page_range _ (d_tab _ _ D _ H1)).
  destruct (pages_apart _ _ Hp (d_tab _ _ D _ H1) (fun e => Hs _ H1 (eq_sym e)));
    apply load32_store32_ne; lia.
Qed.

Lemma paging_map_ok m chunk dir va pa flags :
  chunk_ok m chunk dir -> page va -> pa mod 4096 = 0 -> 0 <= pa < 2 ^ 32 -> 0 <= flags < 4096 ->
  paging_map m chunk va pa flags = (OK, store32 m (pte_addr m dir va) (pa + flags)).
Proof.
  intros C Hva Hpa Hr Hf. unfold paging_map. change PAGING_PAGE_SIZE with 4096.
  pose proof Hva as [Ha _]. rewrite Ha, Hpa, (c_ptr _ _ _ C), lor_page by done. simpl.
  rewrite u32_small by zlia. apply paging_set_ok; [apply C|done].
Qed.

(** The page-table entries after a range has been mapped. *)
Definition range_pte (m : mem) (dir virt phys flags : Z) (n : nat) (x : Z) : Z :=
  if decide (virt <= x < virt + Z.of_nat n * 4096)
  then phys + (x - x mod 4096 - virt) + flags else pte m dir x.

Lemma map_range_loop_ok n : forall m chunk dir virt phys flags,
  chunk_ok m chunk dir ->
  virt mod 4096 = 0 -> 0 < virt -> virt + Z.of_nat n * 4096 <= 2 ^ 32 ->
  phys mod 4096 = 0 -> 0 <= phys -> phys + Z.of_nat n * 4096 <= 2 ^ 32 -> 0 <= flags < 4096 ->
  exists m', map_range_loop n m chunk virt phys flags = (OK, m') /\ chunk_ok m' chunk dir /\
    (forall x, 0 <= x < 2 ^ 32 -> pde m' dir x = pde m dir x) /\
    (forall x, 0 <= x < 2 ^ 32 -> pte m' dir x = range_pte m dir virt phys flags n x).
Proof.
  induction n as [|n IH]; intros m chunk dir virt phys flags C Hv Hv0 Hvn Hp Hp0 Hpn Hf.
  { exists m. split; [done|]. split; [done|]. split; [done|]. intros x Hx.
    unfold range_pte. rewrite decide_False by lia. done. }
  simpl. rewrite (paging_map_ok m chunk dir) by (done || lia || (split; [done|lia])). simpl.
  set (m1 := store32 _ _ _). pose proof (c_dir _ _ _ C) as D.
  assert (chunk_ok m1 chunk dir) as C1 by (apply chunk_ok_set; [done|lia]).
  assert (forall x, 0 <= x < 2 ^ 32 -> pte m1 dir x = range_pte m dir virt phys flags 1 x) as H1.
  { intros x Hx. unfold m1, range_pte. rewrite pte_set by (done || lia).
    repeat case_decide; try (exfalso; zlia); [|done]. rewrite u32_small; zlia. }
  destruct (decide (n = 0%nat)) as [->|Hn0].
  { exists m1. split; [done|]. split; [done|]. split; [|done].
    intros x Hx. apply pde_set; [done|lia..]. }
  change PAGING_PAGE_SIZE with 4096. rewrite !ptr_add_small by lia.
  destruct (IH m1 chunk dir (virt + 4096) (phys + 4096) flags) as (m' & He & C' & Hd & Ht);
    [done|zlia|lia|lia|zlia|lia|lia|lia|].
  exists m'. split; [done|]. split; [done|]. split.
  - intros x Hx. rewrite Hd by done. apply pde_set; [done|lia..].
  - intros x Hx. rewrite Ht by done. unfold range_pte at 1. case_decide.
    + unfold range_pte. rewrite decide_True by lia. lia.
    + rewrite H1 by done. unfold range_pte. repeat case_decide; try (exfalso; lia); lia.
Qed.

Lemma paging_map_to_ok m chunk dir virt phys phys_end flags :
  chunk_ok m chunk dir -> page virt -> phys mod 4096 = 0 -> phys_end mod 4096 = 0 ->
  0 <= phys <= phys_end -> phys_end < 2 ^ 32 -> virt + (phys_end - phys) <= 2 ^ 32 ->
  0 <= flags < 4096 ->
  let n := Z.to_nat ((phys_end - phys) / 4096) in
  exists m', paging_map_to m chunk virt phys phys_end flags = (OK, m') /\
    map_range_loop n m chunk virt phys flags = (OK, m') /\ chunk_ok m' chunk dir /\
    (forall x, 0 <= x < 2 ^ 32 -> pde m' dir x = pde m dir x) /\
    (forall x, 0 <= x < 2 ^ 32 -> pte m' dir x = range_pte m dir virt phys flags n x).
Proof.
  intros C [Hv Hv0] Hp He Hpe He2 Hvr Hf n. unfold paging_map_to, paging_map_range.
  change PAGING_PAGE_SIZE with 4096. rewrite Hv, Hp, He, (proj2 (Z.ltb_ge _ _)) by lia. simpl.
  rewrite u32_small by lia. fold n.
  assert (Z.of_nat n * 4096 = phys_end - phys) as Hn by (unfold n; zlia).
  destruct (map_range_loop_ok n m chunk dir virt phys flags) as (m' & Hm & C' & Hd & Ht);
    [done|done|lia|lia|done|lia|lia|done|].
  by exists m'.
Qed.

Lemma translate_range m m' dir virt phys flags n va :
  0 <= va < 2 ^ 32 -> 0 <= flags < 4096 -> Z.testbit flags 0 = true ->
  virt mod 4096 = 0 -> phys mod 4096 = 0 -> 0 <= phys -> phys + Z.of_nat n * 4096 <= 2 ^ 32 ->
  pde m' dir va = pde m dir va -> pte m' dir va = range_pte m dir virt phys flags n va ->
  translate m' dir va =
    if decide (virt <= va < virt + Z.of_nat n * 4096)
    then if Z.testbit (pde m dir va) 0
         then Some (phys + (va - virt), Z.land (Z.land (pde m dir va) flags) 6) else None
    else translate m dir va.
Proof.
  intros Hva Hf Hb Hv Hp Hp0 Hpn Hd Ht. unfold translate. rewrite Hd, Ht. unfold range_pte.
  case_decide; [|done]. set (q := phys + (va - va mod 4096 - virt)).
  assert (q mod 4096 = 0) as Hq by (unfold q; zlia).
  assert (0 <= q < 2 ^ 32) as Hqr by (unfold q; zlia).
  rewrite testbit_page, Hb, andb_true_r by (done || lia). destruct (Z.testbit (pde m dir va) 0); [|done].
  rewrite land_page by zlia. rewrite <- !Z.land_assoc, land_mask_page by (done || lia).
  assert ((q + flags) mod 4096 = flags) as -> by zlia.
  do 2 f_equal. unfold q. lia.
Qed.

Lemma pte_range m dir va : 0 <= pte m dir va < 2 ^ 32.
Proof. apply load32_range. Qed.

Lemma get_physical_ok m dir va :
  dir_ok m dir -> 4096 <= va < 2 ^ 32 ->
  paging_get_physical_address m dir va = Z.land (pte m dir va) 0xfffff000 + va mod 4096.
Proof.
  intros D Hva. unfold paging_get_physical_address, paging_align_to_lower_page.
  change PAGING_PAGE_SIZE with 4096. pose proof (page_range _ (d_dir _ _ D)). unfold NULL.
  rewrite (proj2 (Z.eqb_neq va 0)), (proj2 (Z.eqb_neq dir 0)) by lia. simpl.
  rewrite (u32_small (va - va mod 4096)) by zlia.
  rewrite paging_get_ok by (done || (split; zlia)).
  assert (pte m dir (va - va mod 4096) = pte m dir va) as ->.
  { unfold pte, pde. replace ((va - va mod 4096) / 4194304) with (va / 4194304) by zlia.
    by replace ((va - va mod 4096) / 4096) with (va / 4096) by zlia. }
  pose proof (pte_range m dir va). rewrite land_page by done.
  rewrite (u32_small (va - _)) by zlia. rewrite u32_small by zlia. lia.
Qed.

(** *** Building and releasing an address space *)

Section New.
Context `{KM : KAllocMem}.

Lemma fill_table_ok n : forall m lv f entry offset flags j,
  ka_live m lv f -> lv !! entry = Some 1 -> page entry ->
  0 <= j -> j + Z.of_nat n <= 1024 ->
  let m' := fill_table n m entry offset flags j in
  ka_live m' lv f /\
  (forall x, x < entry + 4 * j \/ entry + 4096 <= x -> mread m' x = mread m x) /\
  (forall k, j <= k < j + Z.of_nat n ->
     load32 m' (entry + 4 * k) = u32 (Z.lor (s32 (offset + k * 4096)) flags)).
Proof.
  induction n as [|n IH]; intros m lv f entry offset flags j Hm Hl He Hj Hn; simpl.
  { split; [done|]. split; [done|lia]. }
  pose proof (page_range _ He). rewrite word_at_small by (done || lia).
  set (v := u32 _). set (m1 := store32 m (entry + 4 * j) v).
  assert (ka_live m1 lv f) as Hm1 by (eapply kam_store32; [done..|lia|lia]).
  destruct (IH m1 lv f entry offset flags (j + 1)) as (I1 & I2 & I3); [done..|lia|lia|].
  split; [done|]. split.
  - intros x Hx. rewrite I2 by lia. apply mread_store32_ne; lia.
  - intros k Hk. destruct (decide (k = j)) as [->|Hne]; [|apply I3; lia].
    rewrite (load32_ext m1) by (lia || (intros; apply I2; lia)).
    unfold m1. rewrite load32_store32_eq by lia. apply u32_small, u32_range.
Qed.

(** Page table number [i] of an identity map with the given flags. *)
Definition identity_table (m : mem) (flags i t : Z) : Prop :=
  forall k, 0 <= k < 1024 -> load32 m (t + 4 * k) = i * 4194304 + k * 4096 + flags.

Lemma identity_entry offset i k flags :
  0 <= i < 1024 -> 0 <= k < 1024 -> 0 <= flags < 256 ->
  offset = s32 (i * 4194304) ->
  u32 (Z.lor (s32 (offset + k * 4096)) flags) = i * 4194304 + k * 4096 + flags.
Proof.
  intros Hi Hk Hf ->. rewrite lor_page by (unfold s32; zlia). unfold u32, s32. zlia.
Qed.

(** The state of [new_tables] after [i] tables: the tables [ts] have been
    allocated in the order of the directory. *)
Record building (m : mem) (lv : gmap Z Z) (f dir flags : Z) (ts : list Z) : Prop := {
  b_live : ka_live m lv f;
  b_dir : lv !! dir = Some 1 /\ page dir;
  b_tab : forall i t, ts !! i = Some t ->
    lv !! t = Some 1 /\ page t /\ t <> dir /\
    load32 m (dir + 4 * Z.of_nat i) = t + Z.lor flags 2 /\
    identity_table m flags (Z.of_nat i) t;
  b_nodup : NoDup ts
}.

Lemma lor_flags t flags :
  page t -> 0 <= flags < 256 ->
  Z.lor (Z.lor t flags) PAGING_IS_WRITEABLE = t + Z.lor flags 2 /\ 0 <= Z.lor flags 2 < 256.
Proof.
  intros [Ht _] Hf. assert (0 <= Z.lor flags 2 < 256) as Hr by (apply lor_byte; unfold is_byte; lia).
  split; [|done]. rewrite <- Z.lor_assoc. apply lor_page; [done|].
  change PAGING_IS_WRITEABLE with 2. lia.
Qed.

(** One round of the outer loop. *)
Lemma new_table_step m lv f dir flags ts :
  building m lv f dir flags ts -> (length ts < 1024)%nat -> 0 < f -> 0 <= flags < 256 ->
  let i := Z.of_nat (length ts) in
  exists t m1 m3, ka_zalloc m (4 * PAGING_TOTAL_ENTRIES_PER_TABLE) = (t, m1) /\
    store32 (fill_table (Z.to_nat PAGING_TOTAL_ENTRIES_PER_TABLE) m1 t (s32 (i * 4194304)) flags 0)
      (word_at dir i) (Z.lor (Z.lor t flags) PAGING_IS_WRITEABLE) = m3 /\
    lv !! t = None /\ building m3 (<[t := 1]> lv) (f - 1) dir flags (ts ++ [t]).
Proof.
  intros [Hm [Hd Hdp] Ht Hnd] Hlen Hf Hfl i.
  destruct (ka_zalloc_1 m lv f (4 * PAGING_TOTAL_ENTRIES_PER_TABLE) Hm) as
    (t & m1 & Hz & Hnz & Hal & Hfr & Hm1);
    [unfold PAGING_TOTAL_ENTRIES_PER_TABLE; lia|done|].
  exists t, m1. eexists. split; [done|]. split; [done|]. split; [done|].
  pose proof (lookup_insert_eq lv t 1) as Hlt.
  pose proof (ka_range _ _ _ _ _ Hm1 Hlt) as Hrt. assert (page t) as Hpt by (split; [done|lia]).
  destruct (fill_table_ok (Z.to_nat PAGING_TOTAL_ENTRIES_PER_TABLE) m1 _ _ t
    (s32 (i * 4194304)) flags 0 Hm1 Hlt Hpt) as (Hm2 & Hout & Hin); [done..|].
  set (m2 := fill_table _ _ _ _ _ _) in *.
  rewrite word_at_small by (done || lia). destruct (lor_flags t flags Hpt Hfl) as [-> Hr].
  pose proof (page_range _ Hpt). pose proof (page_range _ Hdp).
  assert (t <> dir) as Htd by congruence.
  assert (forall q x, lv !! q = Some 1 -> q <= x < q + 4096 -> mread m2 x = mread m x) as Hfrm.
  { intros q x Hq Hx. assert (q <> t) as Hqt by congruence.
    rewrite Hout.
    - apply (kam_frame m lv f (4 * PAGING_TOTAL_ENTRIES_PER_TABLE) t m1 q 1); [done| |done..|lia].
      by apply nblocks_1.
    - destruct (ka_disjoint m1 _ _ t 1 q 1 Hm1 Hlt); [|done|lia..].
      by rewrite lookup_insert_ne. }
  set (m3 := store32 m2 _ _).
  assert (forall x, x < dir + 4 * i \/ dir + 4 * i + 4 <= x -> mread m3 x = mread m2 x) as H3
    by (intros; apply mread_store32_ne; lia).
  assert (forall q x, lv !! q = Some 1 -> q <= x < q + 4096 -> page q -> q <> dir ->
    mread m3 x = mread m x) as Hfrm3.
  { intros q x Hq Hx Hqp Hqd. rewrite H3; [by eapply Hfrm|].
    destruct (pages_apart q dir Hqp Hdp Hqd); lia. }
  split.
  - eapply kam_store32; [done|by rewrite lookup_insert_ne|lia..].
  - split; [by rewrite lookup_insert_ne|done].
  - intros k u Hu. apply lookup_app_Some in Hu as [Hu|[Hk Hu]].
    + destruct (Ht k u Hu) as (T1 & T2 & T3 & T4 & T5). assert (u <> t) by congruence.
      pose proof (lookup_lt_Some _ _ _ Hu). pose proof (page_range _ T2).
      split; [by rewrite lookup_insert_ne|]. split; [done|]. split; [done|]. split.
      * rewrite <- T4. apply load32_ext; [lia..|]. intros x Hx. rewrite H3 by lia.
        apply (Hfrm dir); [done|lia].
      * intros j Hj. rewrite <- (T5 j Hj). apply load32_ext; [lia..|].
        intros x Hx. apply (Hfrm3 u); [done|lia|done..].
    + apply list_lookup_singleton_Some in Hu as [Hk0 <-].
      assert (Z.of_nat k = i) as -> by lia.
      split; [done|]. split; [done|]. split; [done|]. split.
      * unfold m3. rewrite load32_store32_eq by lia. apply u32_small. lia.
      * intros j Hj. rewrite <- (identity_entry (s32 (i * 4194304)) i j flags) by (done || lia).
        rewrite <- Hin by (change (Z.to_nat PAGING_TOTAL_ENTRIES_PER_TABLE) with 1024%nat; lia).
        apply load32_ext; [lia..|]. intros x Hx. apply H3.
        destruct (pages_apart t dir Hpt Hdp Htd); lia.
  - apply NoDup_app. split; [done|]. split; [|apply NoDup_singleton].
    intros u Hu ->%list_elem_of_singleton. apply list_elem_of_lookup in Hu as [k Hk].
    destruct (Ht k t Hk) as [Hl _]. congruence.
Qed.

Lemma new_tables_ok n : forall m lv f dir flags ts,
  building m lv f dir flags ts -> Z.of_nat (length ts + n) = 1024 -> Z.of_nat n <= f ->
  0 <= flags < 256 ->
  exists ts', length ts' = n /\
    building (new_tables n m dir flags (s32 (Z.of_nat (length ts) * 4194304))
                (Z.of_nat (length ts)))
      (add_pages lv ts') (f - Z.of_nat n) dir flags (ts ++ ts') /\
    Forall (fun t => lv !! t = None) ts'.
Proof.
  induction n as [|n IH]; intros m lv f dir flags ts B Hlen Hf Hfl.
  { exists []. rewrite app_nil_r. split; [done|]. split; [|constructor].
    by replace (f - Z.of_nat 0) with f by lia. }
  destruct (new_table_step m lv f dir flags ts B) as (t & m1 & m3 & Hz & Hm3 & Hfr & B3);
    [lia..|].
  destruct (IH m3 _ _ dir flags (ts ++ [t]) B3) as (ts' & Hl & B' & Hall);
    [rewrite length_app; simpl; lia|lia|done|].
  exists (t :: ts'). split; [simpl; by rewrite Hl|]. rewrite length_app in B'.
  simpl in B'. cbn [new_tables]. rewrite Hz, Hm3. rewrite <- app_assoc in B'. simpl in B'.
  replace (s32 (s32 (Z.of_nat (length ts) * 4194304) + PAGING_TOTAL_ENTRIES_PER_TABLE * PAGING_PAGE_SIZE))
    with (s32 (Z.of_nat (length ts + 1) * 4194304))
    by (change (PAGING_TOTAL_ENTRIES_PER_TABLE * PAGING_PAGE_SIZE) with 4194304; unfold s32; zlia).
  replace (Z.of_nat (length ts) + 1) with (Z.of_nat (length ts + 1)) by lia.
  replace (f - Z.of_nat (S n)) with (f - 1 - Z.of_nat n) by lia.
  split; [done|]. constructor; [done|]. eapply Forall_impl; [done|]. simpl.
  intros u Hu. by apply lookup_insert_None in Hu as [? _].
Qed.

(** A chunk together with the live allocations it consists of. *)
Record space (m : mem) (lv : gmap Z Z) (f chunk dir : Z) (ts : list Z) : Prop := {
  s_chunk : chunk_ok m chunk dir;
  s_live : ka_live m lv f;
  s_lchunk : lv !! chunk = Some 1;
  s_ldir : lv !! dir = Some 1;
  s_cd : chunk <> dir;
  s_len : length ts = 1024%nat;
  s_tab : forall i t, ts !! i = Some t ->
    table_of m dir (Z.of_nat i) = t /\ lv !! t = Some 1
}.

Lemma space_set m lv f chunk dir ts va v :
  space m lv f chunk dir ts -> 0 <= va < 2 ^ 32 ->
  space (store32 m (pte_addr m dir va) v) lv f chunk dir ts.
Proof.
  intros [C Hm Hc Hd Hcd Hl Ht] Hva. pose proof (c_dir _ _ _ C) as D.
  destruct (va_indexes va Hva) as [H1 H2].
  split; [by apply chunk_ok_set| |done..|].
  - destruct (lookup_lt_is_Some_2 ts (Z.to_nat (va / 4194304))) as [t Hi]; [lia|].
    destruct (Ht _ _ Hi) as [HT Hlt]. rewrite Z2Nat.id in HT by lia.
    unfold pte_addr. rewrite HT. eapply kam_store32; [done..|lia|lia].
  - intros i t Hi. pose proof (lookup_lt_Some _ _ _ Hi). destruct (Ht i t Hi) as [HT ?].
    split; [|done]. rewrite (proj2 (set_word_dir_ok m dir va v D Hva)) by lia. done.
Qed.

Lemma free_tables_ok ts : forall m lv f chunk dir i,
  ka_live m lv f -> lv !! chunk = Some 1 -> lv !! dir = Some 1 -> page dir ->
  directory_entry m chunk = dir ->
  Z.of_nat (i + length ts) = 1024 -> NoDup ts -> ~ (chunk ∈ ts) -> ~ (dir ∈ ts) ->
  (forall k t, ts !! k = Some t ->
     table_of m dir (Z.of_nat (i + k)) = t /\ lv !! t = Some 1) ->
  ka_live (free_tables (length ts) m chunk (Z.of_nat i)) (del_pages lv ts)
    (f + Z.of_nat (length ts)) /\
  directory_entry (free_tables (length ts) m chunk (Z.of_nat i)) chunk = dir.
Proof.
  induction ts as [|t ts IH]; intros m lv f chunk dir i Hm Hc Hd Hp Hde Hlen Hnd Hct Hdt HT.
  { simpl. split; [|done]. by replace (f + Z.of_nat 0) with f by lia. }
  simpl in Hlen |- *. rewrite Hde, word_at_small by (done || lia).
  destruct (HT 0%nat t eq_refl) as [HT0 Hlt]. rewrite Nat.add_0_r in HT0.
  unfold table_of in HT0. rewrite HT0.
  apply NoDup_cons in Hnd as [Hnin Hnd]. apply not_elem_of_cons in Hct as [Hc1 Hc2].
  apply not_elem_of_cons in Hdt as [Hd1 Hd2]. pose proof (page_range _ Hp).
  replace (Z.of_nat i + 1) with (Z.of_nat (S i)) by lia.
  replace (f + Z.of_nat (S (length ts))) with (f + 1 + Z.of_nat (length ts)) by lia.
  apply (IH (ka_free m t) (delete t lv)); [by apply ka_free_spec|by rewrite lookup_delete_ne
    |by rewrite lookup_delete_ne|done| |lia|done|done|done|].
  - unfold directory_entry in *. rewrite <- Hde.
    apply (kam_load32_free m lv f t 1 chunk 1); done || lia.
  - intros k u Hu. destruct (HT (S k) u Hu) as [HTu Hlu].
    assert (u <> t) by (intros ->; by apply Hnin, list_elem_of_lookup; exists k).
    split; [|by rewrite lookup_delete_ne]. rewrite <- HTu, <- Nat.add_succ_comm.
    pose proof (lookup_lt_Some _ _ _ Hu).
    unfold table_of. f_equal. apply (kam_load32_free m lv f t 1 dir 1); done || lia.
Qed.

Lemma paging_free_ok m lv f chunk dir ts :
  space m lv f chunk dir ts ->
  ka_live (paging_free_4gb m chunk) (delete chunk (delete dir (del_pages lv ts))) (f + 1026).
Proof.
  intros [[D Hp Hde Hs] Hm Hc Hd Hcd Hl Ht].
  assert (forall i t, ts !! i = Some t -> 0 <= Z.of_nat i < 1024) as Hi.
  { intros i t Hlt%lookup_lt_Some. lia. }
  assert (NoDup ts) as Hnd.
  { apply NoDup_alt. intros i j t Hti Htj. destruct (Ht _ _ Hti) as [Hi1 _], (Ht _ _ Htj) as [Hj1 _].
    apply Nat2Z.inj, (d_inj _ _ D); [by eapply Hi..|congruence]. }
  assert (~ (chunk ∈ ts)) as Hct.
  { intros [i Hti]%list_elem_of_lookup. destruct (Ht _ _ Hti) as [Hi1 _].
    by apply (Hs (Z.of_nat i)); [by eapply Hi|]. }
  assert (~ (dir ∈ ts)) as Hdt.
  { intros [i Hti]%list_elem_of_lookup. destruct (Ht _ _ Hti) as [Hi1 _].
    by apply (d_sep _ _ D (Z.of_nat i)); [by eapply Hi|]. }
  destruct (free_tables_ok ts m lv f chunk dir 0) as [Hm' Hde']; [done|done|done|apply D|done|lia|done|done|done|done|].
  unfold paging_free_4gb. replace (Z.to_nat PAGING_TOTAL_ENTRIES_PER_TABLE) with (length ts)
    by (rewrite Hl; reflexivity).
  change (Z.of_nat 0) with 0 in *. rewrite Hde'.
  replace (f + 1026) with (f + Z.of_nat (length ts) + 1 + 1) by lia.
  apply ka_free_spec; [apply ka_free_spec; [done|]|].
  - by rewrite lookup_del_pages, decide_False.
  - rewrite lookup_delete_ne by done. by rewrite lookup_del_pages, decide_False.
Qed.

Lemma table_of_building m lv f dir flags ts i t :
  building m lv f dir flags ts -> 0 <= flags < 256 -> ts !! i = Some t ->
  table_of m dir (Z.of_nat i) = t.
Proof.
  intros B Hf Hi. destruct (b_tab _ _ _ _ _ _ B i t Hi) as (_ & Hp & _ & He & _).
  destruct (lor_flags t flags Hp Hf) as [_ Hr]. pose proof (page_range _ Hp).
  unfold table_of. rewrite He, land_page by lia. destruct Hp. zlia.
Qed.

(** [paging_new_4gb] with enough free blocks: the new address space and its
    identity tables. *)
Lemma paging_new_ok m lv f flags :
  ka_live m lv f -> 1026 <= f -> 0 <= flags < 256 ->
  exists chunk m' dir ts,
    paging_new_4gb m flags = (chunk, m') /\
    space m' (<[chunk := 1]> (add_pages (<[dir := 1]> lv) ts)) (f - 1026) chunk dir ts /\
    building m' (<[chunk := 1]> (add_pages (<[dir := 1]> lv) ts)) (f - 1026) dir flags ts /\
    lv !! dir = None /\ Forall (fun t => <[dir := 1]> lv !! t = None) ts /\
    add_pages (<[dir := 1]> lv) ts !! chunk = None.
Proof.
  intros Hm Hf Hfl. unfold paging_new_4gb.
  destruct (ka_zalloc_1 m lv f (4 * PAGING_TOTAL_ENTRIES_PER_TABLE) Hm) as
    (dir & m1 & -> & _ & Hal & Hfr & Hm1); [unfold PAGING_TOTAL_ENTRIES_PER_TABLE; lia|lia|].
  pose proof (lookup_insert_eq lv dir 1) as Hld.
  pose proof (ka_range _ _ _ _ _ Hm1 Hld). assert (page dir) as Hpd by (split; [done|lia]).
  destruct (new_tables_ok 1024 m1 (<[dir := 1]> lv) (f - 1) dir flags []) as (ts & Hlen & B & Hall);
    [split; try done; constructor|done|lia|done|].
  change (s32 (Z.of_nat (length []) * 4194304)) with 0 in B. change (Z.of_nat (length [])) with 0 in B.
  change (Z.to_nat PAGING_TOTAL_ENTRIES_PER_TABLE) with 1024%nat. simpl app in B.
  set (m2 := new_tables _ _ _ _ _ _) in *. set (lv2 := add_pages _ _) in *.
  replace (f - 1 - Z.of_nat 1024) with (f - 1025) in B by lia.
  destruct (ka_zalloc_1 m2 lv2 (f - 1025) 4) as (chunk & m3 & Hz & _ & Hcal & Hcfr & Hm3);
    [apply B|lia..|].
  rewrite Hz. exists chunk. eexists. exists dir, ts. split; [done|].
  pose proof (lookup_insert_eq lv2 chunk 1) as Hlc. pose proof (ka_range _ _ _ _ _ Hm3 Hlc).
  assert (page chunk) as Hpc by (split; [done|lia]).
  destruct B as [Hm2 [Hl2 _] Ht Hnd]. assert (chunk <> dir) as Hcd by congruence.
  set (m4 := store32 m3 chunk dir).
  assert (forall q a, lv2 !! q = Some 1 -> page q -> q <= a -> a + 4 <= q + 4096 ->
    load32 m4 a = load32 m2 a) as Hfrm.
  { intros q a Hq Hqp Ha Hb. pose proof (page_range _ Hqp).
    assert (chunk <> q) as Hne by congruence. unfold m4.
    rewrite load32_store32_ne by (lia || (destruct (pages_apart chunk q Hpc Hqp Hne); lia)).
    apply (kam_load32_frame m2 lv2 (f - 1025) 4 chunk m3 q 1); [done| |done|done|lia|lia].
    by apply nblocks_1. }
  assert (building m4 (<[chunk := 1]> lv2) (f - 1026) dir flags ts) as B4.
  { split; [|split; [by rewrite lookup_insert_ne|done]| |done].
    - replace (f - 1026) with (f - 1025 - 1) by lia. eapply kam_store32; [done..|lia|lia].
    - intros i t Hi. destruct (Ht i t Hi) as (T1 & T2 & T3 & T4 & T5).
      pose proof (lookup_lt_Some _ _ _ Hi). split; [rewrite lookup_insert_ne by congruence; done|].
      split; [done|]. split; [done|]. split; [rewrite <- T4; apply (Hfrm dir); done || lia|].
      intros k Hk. rewrite <- (T5 k Hk). apply (Hfrm t); done || lia. }
  split; [|done]. pose proof (page_range _ Hpc).
  assert (forall i, 0 <= i < 1024 -> exists t, ts !! Z.to_nat i = Some t /\ table_of m4 dir i = t) as HT.
  { intros i Hi. destruct (lookup_lt_is_Some_2 ts (Z.to_nat i)) as [t Hti]; [lia|].
    exists t. split; [done|]. rewrite <- (Z2Nat.id i) by lia.
    by eapply table_of_building. }
  assert (directory_entry m4 chunk = dir) as Hde.
  { unfold directory_entry, m4. rewrite load32_store32_eq by lia. apply u32_small. lia. }
  split; [|apply B4|done|apply B4|done|done|].
  - split; [split|done|done|]; [done|..].
    + intros i Hi. destruct (HT i Hi) as (t & Hti & ->). by destruct (Ht _ _ Hti) as (_ & ? & _).
    + intros i Hi. destruct (HT i Hi) as (t & Hti & ->). by destruct (Ht _ _ Hti) as (_ & _ & ? & _).
    + intros i j Hi Hj. destruct (HT i Hi) as (t & Hti & ->), (HT j Hj) as (u & Huj & ->). intros <-.
      pose proof (NoDup_lookup _ _ _ _ Hnd Hti Huj). lia.
    + intros i Hi. destruct (HT i Hi) as (t & Hti & ->). destruct (Ht _ _ Hti) as (Hl & _). congruence.
  - intros i t Hi. split; [by eapply table_of_building|].
    by destruct (b_tab _ _ _ _ _ _ B4 i t Hi).
Qed.

Lemma building_translate m lv f dir flags ts va :
  building m lv f dir flags ts -> length ts = 1024%nat -> 0 <= flags < 256 -> Z.testbit flags 0 = true ->
  0 <= va < 2 ^ 32 -> translate m dir va = Some (va, Z.land flags 6).
Proof.
  intros B Hlen Hfl Hb Hva. destruct (va_indexes va Hva) as [H1 H2].
  destruct (lookup_lt_is_Some_2 ts (Z.to_nat (va / 4194304))) as [t Hi]; [rewrite Hlen; lia|].
  destruct (b_tab _ _ _ _ _ _ B _ t Hi) as (_ & Hp & _ & He & Hid).
  pose proof (table_of_building _ _ _ _ _ _ _ t B Hfl Hi) as HT.
  rewrite Z2Nat.id in He, HT, Hid by lia. destruct (lor_flags t flags Hp Hfl) as [_ Hr].
  unfold translate, pte. fold (table_of m dir (va / 4194304)). fold (pde m dir va) in *.
  unfold pde in *. fold (table_of m dir (va / 4194304)). rewrite He, HT, Hid by done.
  pose proof Hp as [Hal _]. rewrite !testbit_page by (done || zlia).
  rewrite Z.lor_spec, Hb. simpl.
  set (q := va / 4194304 * 4194304 + va / 4096 mod 1024 * 4096).
  assert (q = va - va mod 4096) as Hq by (unfold q; zlia).
  rewrite land_page by zlia. replace ((q + flags) mod 4096) with flags by zlia.
  replace (q + flags - flags + va mod 4096) with va by lia. do 2 f_equal.
  apply Z.bits_inj'. intros n Hn0. rewrite !Z.land_spec.
  destruct (decide (n < 12)) as [Hlt|Hge].
  - rewrite !testbit_page by (done || zlia). rewrite Z.lor_spec.
    destruct (Z.testbit flags n), (Z.testbit 2 n), (Z.testbit 6 n); done.
  - assert (Z.testbit 6 n = false) as -> by (apply Z.bits_above_log2; [lia|]; change (Z.log2 6) with 2; lia).
    by rewrite !andb_false_r.
Qed.

End New.

End PagingFacts.

(** ** The theorems of paging *)

Module PagingProps.
Import Paging Mmu PagingFacts.

Section Props.
Context `{KM : KAllocMem}.

(** paging_new_4gb builds the identity map of the whole 4 GB: after
    switching to the new directory, the page walk sends every address to
    itself with the access rights given in the flags, provided the flags have
    the present bit and the allocator has 1026 free blocks. *)
Theorem paging_new_identity m lv f flags chunk m' st va :
  ka_live m lv f -> 1026 <= f -> 0 <= flags < 256 -> Z.testbit flags 0 = true ->
  paging_new_4gb m flags = (chunk, m') -> 0 <= va < 2 ^ 32 ->
  translate m' (cr3 (paging_switch m' chunk st)) va = Some (va, Z.land flags 6).
Proof.
  intros Hm Hf Hfl Hb Hn Hva.
  destruct (paging_new_ok m lv f flags Hm Hf Hfl) as (c & m2 & dir & ts & Hn' & S & B & _).
  rewrite Hn in Hn'. injection Hn' as <- <-. simpl. rewrite (c_ptr _ _ _ (s_chunk _ _ _ _ _ _ S)).
  eapply building_translate; [done|apply S|done..].
Qed.

(** What the rest of the kernel does to an address space: set page-table
    entries through [paging_set], with any arguments, refused or not. *)
Definition remap (chunk : Z) (m m' : mem) : Prop :=
  exists virt val, 0 <= virt < 2 ^ 32 /\
    m' = (paging_set m (directory_entry m chunk) virt val).2.

Lemma remap_space lv f chunk dir ts m m' :
  rtc (remap chunk) m m' -> space m lv f chunk dir ts -> space m' lv f chunk dir ts.
Proof.
  induction 1 as [|m m1 m' (virt & val & Hv & ->) _ IH]; [done|]. intros S. apply IH.
  rewrite (c_ptr _ _ _ (s_chunk _ _ _ _ _ _ S)).
  destruct (decide (virt mod 4096 = 0 /\ virt <> 0)) as [[Ha Hnz]|Hno].
  - rewrite paging_set_ok by (apply S || (split; [done|lia])). by apply space_set.
  - unfold paging_set, paging_is_aligned, NULL. change PAGING_PAGE_SIZE with 4096.
    destruct (Z.eqb_spec virt 0); [done|]. destruct (Z.eqb_spec (virt mod 4096) 0); [tauto|done].
Qed.

(** C32: no page is leaked: an address space that is built by paging_new_4gb,
    remapped in any way through paging_set, and released by paging_free_4gb
    gives back exactly the 1026 blocks it took. *)
Theorem paging_lifecycle m lv f flags chunk m1 m2 :
  ka_live m lv f -> 1026 <= f -> 0 <= flags < 256 ->
  paging_new_4gb m flags = (chunk, m1) -> rtc (remap chunk) m1 m2 ->
  ka_live (paging_free_4gb m2 chunk) lv f.
Proof.
  intros Hm Hf Hfl Hn Hr.
  destruct (paging_new_ok m lv f flags Hm Hf Hfl) as
    (c & m' & dir & ts & Hn' & S & _ & Hd & Hts & Hc).
  rewrite Hn in Hn'. injection Hn' as <- <-.
  pose proof (paging_free_ok _ _ _ _ _ _ (remap_space _ _ _ _ _ _ _ Hr S)) as Hfree.
  replace (f - 1026 + 1026) with f in Hfree by lia.
  replace (delete chunk _) with lv in Hfree; [done|]. symmetry.
  apply map_eq. intros x. rewrite !lookup_delete, lookup_del_pages, lookup_insert, lookup_add_pages.
  rewrite lookup_add_pages in Hc. rewrite Forall_forall in Hts.
  destruct (decide (chunk = x)) as [<-|Hcx].
  { destruct (decide (chunk ∈ ts)); [done|]. apply lookup_insert_None in Hc. by destruct Hc. }
  destruct (decide (dir = x)) as [<-|Hdx]; [done|].
  destruct (decide (x ∈ ts)) as [Hx|Hx].
  - apply Hts, lookup_insert_None in Hx. by destruct Hx.
  - by rewrite lookup_insert_ne.
Qed.

End Props.

(** C3: paging_map_to on a well-formed directory maps exactly the pages from
    virt on to the frames from phys up to phys_end: the page walk sends
    virt + d to phys + d with the rights of the flags (when the directory
    entry is present), and every other address translates as before. *)
Theorem paging_map_to_translates m chunk dir virt phys phys_end flags :
  chunk_ok m chunk dir -> page virt -> phys mod 4096 = 0 -> phys_end mod 4096 = 0 ->
  0 <= phys <= phys_end -> phys_end < 2 ^ 32 -> virt + (phys_end - phys) <= 2 ^ 32 ->
  0 <= flags < 4096 -> Z.testbit flags 0 = true ->
  exists m', paging_map_to m chunk virt phys phys_end flags = (OK, m') /\
    chunk_ok m' chunk dir /\
    forall va, 0 <= va < 2 ^ 32 ->
      translate m' dir va =
        if decide (virt <= va < virt + (phys_end - phys))
        then if Z.testbit (pde m dir va) 0
             then Some (phys + (va - virt), Z.land (Z.land (pde m dir va) flags) 6) else None
        else translate m dir va.
Proof.
  intros C Hv Hp He Hpe He2 Hvr Hf Hb.
  destruct (paging_map_to_ok m chunk dir virt phys phys_end flags C Hv Hp He Hpe He2 Hvr Hf)
    as (m' & Hm & _ & C' & Hd & Ht).
  exists m'. split; [done|]. split; [done|]. intros va Hva.
  assert (Z.of_nat (Z.to_nat ((phys_end - phys) / 4096)) * 4096 = phys_end - phys) as Hn by zlia.
  destruct Hv as [Hv Hv0]. rewrite <- Hn. apply translate_range; auto; lia.
Qed.

(** C40: for every address outside page zero, paging_get_physical_address
    returns what the page walk returns for a present page; inside page zero
    (other than NULL) paging_get refuses the page-aligned address 0 and its
    error code is used as an entry, so the answer is 0xfffff000 + virt whatever
    the tables say. *)
Theorem paging_get_physical_walk m dir va :
  dir_ok m dir -> 0 < va < 2 ^ 32 ->
  paging_get_physical_address m dir va =
    if decide (va < 4096) then 0xfffff000 + va
    else Z.land (pte m dir va) 0xfffff000 + va mod 4096.
Proof.
  intros D Hva. case_decide as Hlt; [|apply get_physical_ok; [done|lia]].
  unfold paging_get_physical_address, paging_align_to_lower_page, NULL.
  change PAGING_PAGE_SIZE with 4096. pose proof (page_range _ (d_dir _ _ D)).
  rewrite (proj2 (Z.eqb_neq va 0)), (proj2 (Z.eqb_neq dir 0)) by lia. simpl.
  rewrite (Z.mod_small va), Z.sub_diag by lia. change (u32 0) with 0.
  rewrite Z.sub_0_r, (u32_small va) by lia. unfold paging_get, NULL. rewrite orb_true_r.
  change (Z.land (u32 (- EINVARG)) 0xfffff000) with 0xfffff000. apply u32_small. lia.
Qed.

(** *** Instances on the kernel heap *)

Import Heap.HeapProps Heap.Laws.

#[local] Existing Instance kheap_alloc.
#[local] Existing Instance kheap_laws.
#[local] Existing Instance kheap_mem.

Lemma paging_new_identity_witness :
  let '(chunk, m') := @paging_new_4gb (kheap_alloc kheap) boot_mem 7 in
  translate m' (cr3 (paging_switch m' chunk (mk_paging_state 0 0))) 0x12345678
  = Some (0x12345678, 6).
Proof.
  destruct (@paging_new_4gb (kheap_alloc kheap) boot_mem 7) as [chunk m'] eqn:Hn.
  apply (@paging_new_identity _ _ (kheap_mem kheap) boot_mem ∅ 25600 7 chunk m');
    [apply kheap_fresh|lia|lia|reflexivity|exact Hn|lia].
Defined.

Lemma paging_lifecycle_witness :
  let '(chunk, m1) := @paging_new_4gb (kheap_alloc kheap) boot_mem 7 in
  let m2 := (paging_set m1 (directory_entry m1 chunk) 0x400000 0x1000007).2 in
  heap_live kheap (@paging_free_4gb (kheap_alloc kheap) m2 chunk) ∅ 25600.
Proof.
  destruct (@paging_new_4gb (kheap_alloc kheap) boot_mem 7) as [chunk m1] eqn:Hn.
  apply (@paging_lifecycle _ _ (kheap_mem kheap) boot_mem ∅ 25600 7 chunk m1);
    [apply kheap_fresh|lia|lia|exact Hn|].
  apply rtc_once. exists 0x400000, 0x1000007. split; [lia|done].
Defined.

(** A well-formed chunk: what [paging_new_4gb] returns on the fresh heap. *)
Lemma boot_chunk : exists m chunk dir, chunk_ok m chunk dir /\
  forall va, 0 <= va < 2 ^ 32 -> Z.testbit (pde m dir va) 0 = true.
Proof.
  destruct (@paging_new_ok _ _ (kheap_mem kheap) boot_mem ∅ 25600 7) as
    (chunk & m & dir & ts & _ & S & B & _); [apply kheap_fresh|lia..|].
  exists m, chunk, dir. split; [apply S|]. intros va Hva.
  destruct (va_indexes va Hva) as [H1 _].
  destruct (lookup_lt_is_Some_2 ts (Z.to_nat (va / 4194304))) as [t Hi];
    [rewrite (s_len _ _ _ _ _ _ S); lia|].
  destruct (b_tab _ _ _ _ _ _ B _ t Hi) as (_ & Hp & _ & He & _).
  rewrite Z2Nat.id in He by lia. unfold pde. rewrite He. destruct Hp.
  by rewrite testbit_page.
Qed.

Lemma paging_map_to_translates_witness :
  exists m chunk dir m',
    paging_map_to m chunk 0x400000 0x1200000 0x1203000 7 = (OK, m') /\
    translate m' dir 0x401234 = Some (0x1201234, Z.land (Z.land (pde m dir 0x401234) 7) 6).
Proof.
  destruct boot_chunk as (m & chunk & dir & C & Hd). exists m, chunk, dir.
  destruct (paging_map_to_translates m chunk dir 0x400000 0x1200000 0x1203000 7 C) as
    (m' & Hm & _ & Ht); [split; [reflexivity|lia]|reflexivity|reflexivity|lia|lia|lia|lia|reflexivity|].
  exists m'. split; [exact Hm|]. rewrite Ht by lia. rewrite decide_True by lia.
  rewrite Hd by lia. reflexivity.
Defined.

Lemma paging_get_physical_walk_witness :
  exists m dir, paging_get_physical_address m dir 0x10 = 0xfffff010 /\
    paging_get_physical_address m dir 0x1010 = Z.land (pte m dir 0x1010) 0xfffff000 + 0x10.
Proof.
  destruct boot_chunk as (m & chunk & dir & C & _). exists m, dir.
  split; [apply (paging_get_physical_walk m dir 0x10)|apply (paging_get_physical_walk m dir 0x1010)];
    try lia; apply C.
Defined.

End PagingProps.
