(* ===== verification/AddressSpace.v ===== *)
(** * Address spaces as the tasks use them

    An address space is a chunk, its directory and its 1024 page tables.  Its
    operations are stated with everything else in the frame: building, mapping
    and freeing an address space leave the contents of every other allocation
    alone, and changes elsewhere leave the address space alone. *)

From S2P Require Import Prelude KAlloc Heap Paging.
Import Paging Mmu PagingFacts PagingProps.

Module ASpace.

(** The heap blocks of an address space. *)
Definition as_blocks (chunk dir : Z) (ts : list Z) : list Z := dir :: ts ++ [chunk].

(** Every directory entry grants all rights: the page tables decide. *)
Record aspace (m : mem) (chunk dir : Z) (ts : list Z) : Prop := {
  a_chunk : chunk_ok m chunk dir;
  a_nodup : NoDup (as_blocks chunk dir ts);
  a_len : length ts = 1024%nat;
  a_tab : forall i t, ts !! i = Some t -> table_of m dir (Z.of_nat i) = t;
  a_pde : forall i, 0 <= i < 1024 -> Z.land (load32 m (dir + 4 * i)) 7 = 7
}.

(** An address space whose blocks are live beside [lv]. *)
Record aspace_live `{KAllocLaws mem} (m : mem) (lv : gmap Z Z) (n chunk dir : Z) (ts : list Z) : Prop := {
  al_space : aspace m chunk dir ts;
  al_owned : owned lv (as_blocks chunk dir ts);
  al_live : ka_live m (add_pages lv (as_blocks chunk dir ts)) n
}.

Lemma as_page m chunk dir ts b : aspace m chunk dir ts -> b ∈ as_blocks chunk dir ts -> page b.
Proof.
  intros [C _ Hl Ht _] Hb. unfold as_blocks in Hb. rewrite elem_of_cons, elem_of_app, list_elem_of_singleton in Hb.
  destruct Hb as [->|[(i & Hi)%list_elem_of_lookup| ->]]; [apply C| |apply C].
  rewrite <- (Ht i b Hi). apply (d_tab _ _ (c_dir _ _ _ C)). apply lookup_lt_Some in Hi. lia.
Qed.

(** The page walk reads the blocks of the address space only. *)
Lemma as_keep m m' chunk dir ts :
  aspace m chunk dir ts ->
  (forall b x, b ∈ as_blocks chunk dir ts -> b <= x < b + 4096 -> mread m' x = mread m x) ->
  aspace m' chunk dir ts /\
  forall va, 0 <= va < 2 ^ 32 -> pde m' dir va = pde m dir va /\ pte m' dir va = pte m dir va.
Proof.
  intros A Hk. pose proof A as [C Hnd Hl Ht Hp].
  assert (forall b a, b ∈ as_blocks chunk dir ts -> b <= a -> a + 4 <= b + 4096 -> load32 m' a = load32 m a) as Hld.
  { intros b a Hb Ha Ha2. pose proof (page_range _ (as_page _ _ _ _ _ A Hb)). apply load32_ext; [lia..|].
    intros x Hx. apply (Hk b); [done|lia]. }
  assert (dir ∈ as_blocks chunk dir ts) as Hd by left.
  assert (chunk ∈ as_blocks chunk dir ts) as Hc by (right; apply elem_of_app; right; left).
  assert (forall i, 0 <= i < 1024 -> load32 m' (dir + 4 * i) = load32 m (dir + 4 * i)) as Hdir
    by (intros i Hi; apply (Hld dir); [done|lia..]).
  assert (forall i, 0 <= i < 1024 -> table_of m' dir i = table_of m dir i) as Htab
    by (intros i Hi; unfold table_of; by rewrite Hdir).
  split.
  - split; [|done|done| |].
    + destruct C as [[D1 D2 D3 D4] C2 C3 C4]. split; [split; [done|..]|done| |].
      * intros i Hi. rewrite Htab by done. auto.
      * intros i Hi. rewrite Htab by done. auto.
      * intros i j Hi Hj. rewrite !Htab by done. auto.
      * etrans; [|exact C3]. apply (Hld chunk); [done|lia..].
      * intros i Hi. rewrite Htab by done. auto.
    + intros i t Hi. rewrite Htab; [by apply Ht|]. apply lookup_lt_Some in Hi. lia.
    + intros i Hi. rewrite Hdir by done. auto.
  - intros va Hva. destruct (va_indexes va Hva) as [H1 H2]. split; [by apply Hdir|].
    rewrite !pte_eq. unfold pte_addr. rewrite Htab by done.
    destruct (lookup_lt_is_Some_2 ts (Z.to_nat (va / 4194304))) as [t Hi]; [lia|].
    pose proof (Ht _ _ Hi) as HT. rewrite Z2Nat.id in HT by lia. rewrite HT.
    apply (Hld t); [|lia..]. right. apply elem_of_app. left. by eapply list_elem_of_lookup_2.
Qed.

Lemma translate_eq m m' dir va :
  pde m' dir va = pde m dir va -> pte m' dir va = pte m dir va -> translate m' dir va = translate m dir va.
Proof. unfold translate. by intros -> ->. Qed.

Lemma building_pde `{KAllocLaws mem} m lv f dir flags ts :
  building m lv f dir flags ts -> length ts = 1024%nat ->
  0 <= flags < 256 -> Z.testbit flags 0 = true -> Z.testbit flags 2 = true ->
  forall i, 0 <= i < 1024 -> Z.land (load32 m (dir + 4 * i)) 7 = 7.
Proof.
  intros B Hlen Hfl HP HU i Hi. destruct (lookup_lt_is_Some_2 ts (Z.to_nat i)) as [t Ht]; [lia|].
  destruct (b_tab _ _ _ _ _ _ B _ t Ht) as (_ & Hp & _ & He & _). rewrite Z2Nat.id in He by lia. rewrite He.
  destruct (lor_flags t flags Hp Hfl) as [_ Hr]. rewrite land_mask_page by (apply Hp || lia).
  apply Z.bits_inj'. intros k Hk0. rewrite Z.land_spec, Z.lor_spec.
  destruct (decide (k < 3)) as [Hk3|Hk3].
  - assert (k = 0 \/ k = 1 \/ k = 2) as [-> | [-> | ->]] by lia; [by rewrite HP| |by rewrite HU].
    change (Z.testbit 2 1) with true. by rewrite orb_true_r.
  - assert (Z.testbit 7 k = false) as -> by (apply Z.bits_above_log2; [lia|]; change (Z.log2 7) with 2; lia).
    by rewrite andb_false_r.
Qed.

Section Live.
Context `{KM : KAllocMem}.

(** The address space and the rest of the memory, one in the frame of the
    other. *)
Lemma live_space m lv n chunk dir ts :
  aspace_live m lv n chunk dir ts ->
  @space _ (framed m lv) m (add_pages ∅ (as_blocks chunk dir ts)) n chunk dir ts.
Proof.
  intros [A Hown Ha]. pose proof A as [C Hnd Hl Ht Hp].
  assert (forall b, b ∈ as_blocks chunk dir ts -> add_pages ∅ (as_blocks chunk dir ts) !! b = Some 1) as Hb
    by (intros b Hb; by rewrite lookup_add_pages, decide_True).
  assert (dir ∈ as_blocks chunk dir ts) as Hd by left.
  assert (chunk ∈ as_blocks chunk dir ts) as Hc by (right; apply elem_of_app; right; left).
  split; [done| |by apply Hb|by apply Hb| |done|].
  - split; [by apply owned_disjoint|]. rewrite add_pages_union. split; [done|apply keeps_refl].
  - intros ->. unfold as_blocks in Hnd. apply NoDup_cons in Hnd as [Hnd _]. apply Hnd, elem_of_app. right. left.
  - intros i t Hi. split; [by apply Ht|]. apply Hb. right. apply elem_of_app. left. by eapply list_elem_of_lookup_2.
Qed.

Lemma space_live m m' lv n chunk dir ts :
  @space _ (framed m lv) m' (add_pages ∅ (as_blocks chunk dir ts)) n chunk dir ts ->
  ka_live m' (add_pages lv (as_blocks chunk dir ts)) n /\ keeps lv m m'.
Proof. intros [_ (_ & Ha & Hk) _ _ _ _ _]. by rewrite add_pages_union in Ha. Qed.

Lemma as_new m lv f flags :
  ka_live m lv f -> 1026 <= f -> 0 <= flags < 256 -> Z.testbit flags 0 = true -> Z.testbit flags 2 = true ->
  exists chunk m' dir ts, paging_new_4gb m flags = (chunk, m') /\ chunk <> NULL /\
    aspace_live m' lv (f - 1026) chunk dir ts /\ keeps lv m m' /\
    forall va, 0 <= va < 2 ^ 32 -> translate m' dir va = Some (va, Z.land flags 6).
Proof.
  intros Ha Hf Hfl HP HU.
  destruct (@paging_new_ok _ _ (framed_mem m lv) m ∅ f flags) as
    (chunk & m' & dir & ts & Hn & Sp & B & Hd & Hts & Hc); [|done|done|].
  { split; [apply map_disjoint_empty_l|]. rewrite map_empty_union. split; [done|apply keeps_refl]. }
  assert (<[chunk := 1]> (add_pages (<[dir := 1]> ∅) ts) = add_pages ∅ (as_blocks chunk dir ts)) as Hlv
    by (unfold as_blocks; change (dir :: ts ++ [chunk]) with ([dir] ++ ts ++ [chunk]); by rewrite !add_pages_app).
  rewrite Hlv in Sp, B. destruct (space_live m m' lv (f - 1026) chunk dir ts Sp) as [Ha' Hk].
  pose proof Sp as [C (Hdis & _ & _) _ _ Hcd Hlen Htab].
  exists chunk, m', dir, ts. split; [done|].
  split; [pose proof (page_range _ (c_page _ _ _ C)); unfold NULL; lia|].
  split; [|split; [done|intros va Hva; exact (@building_translate _ _ _ _ _ _ _ _ va B Hlen Hfl HP Hva)]].
  assert (NoDup (as_blocks chunk dir ts)) as Hnd.
  { rewrite lookup_add_pages in Hc. rewrite Forall_forall in Hts. unfold as_blocks. apply NoDup_cons. split.
    - rewrite elem_of_app, list_elem_of_singleton. intros [Hin|Heq]; [|done].
      apply Hts in Hin. by rewrite lookup_insert_eq in Hin.
    - apply NoDup_app. split; [apply B|]. split; [|apply NoDup_singleton].
      intros x Hx ->%list_elem_of_singleton. by rewrite decide_True in Hc. }
  split; [split; [done|done|done| |]| |done].
  - intros i t Hi. by apply Htab.
  - exact (@building_pde _ _ _ _ _ _ _ _ B Hlen Hfl HP HU).
  - split; [done|]. apply Forall_forall. intros b Hb. apply (map_disjoint_Some_l _ _ b 1 Hdis).
    by rewrite lookup_add_pages, decide_True.
Qed.

(** Mapping goes through [paging_set] only. *)
Lemma map_range_remap n : forall m chunk virt phys flags r m',
  0 <= virt < 2 ^ 32 -> map_range_loop n m chunk virt phys flags = (r, m') -> rtc (remap chunk) m m'.
Proof.
  induction n as [|n IH]; intros m chunk virt phys flags r m' Hv; simpl; [by intros [= _ <-]|].
  destruct (paging_map m chunk virt phys flags) as [res m1] eqn:Hp.
  assert (rtc (remap chunk) m m1) as H1.
  { revert Hp. unfold paging_map. destruct (_ || _); [by intros [= _ <-]|]. intros Hp. apply rtc_once.
    exists virt, (u32 (Z.lor phys flags)). split; [done|]. by rewrite Hp. }
  destruct (res <? 0); [by intros [= _ <-]|]. intros Hl. etrans; [exact H1|].
  eapply IH; [|exact Hl]. apply u32_range.
Qed.

Lemma as_map_pte m lv n chunk dir ts virt phys phys_end flags :
  aspace_live m lv n chunk dir ts ->
  page virt -> phys mod 4096 = 0 -> phys_end mod 4096 = 0 ->
  0 <= phys <= phys_end -> phys_end < 2 ^ 32 -> virt + (phys_end - phys) <= 2 ^ 32 -> 0 <= flags < 4096 ->
  exists m', paging_map_to m chunk virt phys phys_end flags = (OK, m') /\
    aspace_live m' lv n chunk dir ts /\ keeps lv m m' /\
    (forall x, 0 <= x < 2 ^ 32 -> pde m' dir x = pde m dir x) /\
    (forall x, 0 <= x < 2 ^ 32 ->
       pte m' dir x = range_pte m dir virt phys flags (Z.to_nat ((phys_end - phys) / 4096)) x).
Proof.
  intros AL Hv Hp He Hpe He2 Hvr Hf. pose proof AL as [A Hown Ha].
  destruct (paging_map_to_ok m chunk dir virt phys phys_end flags (a_chunk _ _ _ _ A) Hv Hp He Hpe He2 Hvr Hf)
    as (m' & Hm & Hl & C' & Hd & Ht).
  exists m'. split; [done|]. assert (0 <= virt < 2 ^ 32) as Hv2 by (destruct Hv; lia).
  pose proof (@remap_space _ _ (framed_mem m lv) _ _ _ _ _ _ _
    (map_range_remap _ _ _ _ _ _ _ _ Hv2 Hl) (live_space _ _ _ _ _ _ AL)) as Sp.
  destruct (space_live _ _ _ _ _ _ _ Sp) as [Ha' Hk]. split; [|done].
  destruct A as [C Hnd Hlen Htab Hpde]. split; [split; [done|done|done| |]|done|done].
  - intros i t Hi. exact (proj1 (@s_tab _ _ _ _ _ _ _ _ Sp i t Hi)).
  - intros i Hi. specialize (Hd (i * 4194304)). unfold pde in Hd.
    replace (i * 4194304 / 4194304) with i in Hd by zlia. rewrite Hd by lia. by apply Hpde.
Qed.

Lemma pde_full m chunk dir ts va :
  aspace m chunk dir ts -> 0 <= va < 2 ^ 32 ->
  Z.testbit (pde m dir va) 0 = true /\ forall f, Z.land (Z.land (pde m dir va) f) 6 = Z.land f 6.
Proof.
  intros A Hva. pose proof (a_pde _ _ _ _ A (va / 4194304) (proj1 (va_indexes va Hva))) as H7.
  change (Z.land (pde m dir va) 7 = 7) in H7.
  assert (forall k, Z.testbit 7 k = true -> Z.testbit (pde m dir va) k = true) as Hb.
  { intros k Hk. rewrite <- H7, Z.land_spec in Hk. by apply andb_true_iff in Hk as [? _]. }
  split; [by apply Hb|]. intros f.
  change 6 with (Z.land 7 6). rewrite (Z.land_assoc _ 7), (Z.land_comm (pde _ _ _)), <- (Z.land_assoc f), H7.
  by rewrite <- Z.land_assoc.
Qed.

(** [paging_map_to] with a present flag: the range shows the frames, with the
    rights asked for, and every other address is as before. *)
Lemma as_map m lv n chunk dir ts virt phys phys_end flags :
  aspace_live m lv n chunk dir ts ->
  page virt -> phys mod 4096 = 0 -> phys_end mod 4096 = 0 ->
  0 <= phys <= phys_end -> phys_end < 2 ^ 32 -> virt + (phys_end - phys) <= 2 ^ 32 ->
  0 <= flags < 4096 -> Z.testbit flags 0 = true ->
  exists m', paging_map_to m chunk virt phys phys_end flags = (OK, m') /\
    aspace_live m' lv n chunk dir ts /\ keeps lv m m' /\
    forall va, 0 <= va < 2 ^ 32 -> translate m' dir va =
      if decide (virt <= va < virt + (phys_end - phys))
      then Some (phys + (va - virt), Z.land flags 6) else translate m dir va.
Proof.
  intros AL Hv Hp He Hpe He2 Hvr Hf Hb.
  destruct (as_map_pte m lv n chunk dir ts virt phys phys_end flags AL Hv Hp He Hpe He2 Hvr Hf)
    as (m' & Hm & AL' & Hk & Hd & Ht).
  exists m'. split; [done|]. split; [done|]. split; [done|]. intros va Hva.
  assert (Z.of_nat (Z.to_nat ((phys_end - phys) / 4096)) * 4096 = phys_end - phys) as Hn by zlia.
  destruct Hv as [Hv Hv0].
  rewrite (translate_range m m' dir virt phys flags (Z.to_nat ((phys_end - phys) / 4096)) va Hva Hf Hb Hv Hp) by (auto; lia). rewrite Hn.
  case_decide; [|done]. destruct (pde_full _ _ _ _ va (al_space _ _ _ _ _ _ AL) Hva) as [-> Hr]. by rewrite Hr.
Qed.

(** With no flags the range faults. *)
Lemma as_unmap m lv n chunk dir ts virt phys phys_end :
  aspace_live m lv n chunk dir ts ->
  page virt -> phys mod 4096 = 0 -> phys_end mod 4096 = 0 ->
  0 <= phys <= phys_end -> phys_end < 2 ^ 32 -> virt + (phys_end - phys) <= 2 ^ 32 ->
  exists m', paging_map_to m chunk virt phys phys_end 0 = (OK, m') /\
    aspace_live m' lv n chunk dir ts /\ keeps lv m m' /\
    forall va, 0 <= va < 2 ^ 32 -> translate m' dir va =
      if decide (virt <= va < virt + (phys_end - phys)) then None else translate m dir va.
Proof.
  intros AL Hv Hp He Hpe He2 Hvr.
  destruct (as_map_pte m lv n chunk dir ts virt phys phys_end 0 AL Hv Hp He Hpe He2 Hvr ltac:(lia))
    as (m' & Hm & AL' & Hk & Hd & Ht).
  exists m'. split; [done|]. split; [done|]. split; [done|]. intros va Hva.
  assert (Z.of_nat (Z.to_nat ((phys_end - phys) / 4096)) * 4096 = phys_end - phys) as Hn by zlia.
  unfold translate. rewrite Hd, Ht by done. unfold range_pte. rewrite Hn. case_decide; [|done].
  destruct Hv as [Hv Hv0]. rewrite testbit_page by (zlia || lia). by rewrite andb_false_r.
Qed.

(** [paging_free_4gb] gives the 1026 blocks back. *)
Lemma as_free m lv n chunk dir ts :
  aspace_live m lv n chunk dir ts ->
  ka_live (paging_free_4gb m chunk) lv (n + 1026) /\ keeps lv m (paging_free_4gb m chunk).
Proof.
  intros AL. pose proof (@paging_free_ok _ _ (framed_mem m lv) _ _ _ _ _ _ (live_space _ _ _ _ _ _ AL)) as Hf.
  replace (delete chunk (delete dir (del_pages (add_pages ∅ (as_blocks chunk dir ts)) ts))) with (∅ : gmap Z Z) in Hf.
  - destruct Hf as (_ & Ha & Hk). by rewrite map_empty_union in Ha.
  - apply map_eq. intros x. rewrite lookup_empty. symmetry.
    destruct (decide (x = chunk)) as [->|Hc]; [apply lookup_delete_eq|].
    destruct (decide (x = dir)) as [->|Hd]; [rewrite lookup_delete_ne by done; apply lookup_delete_eq|].
    rewrite !lookup_delete_ne by done. rewrite lookup_del_pages, lookup_add_pages, lookup_empty.
    repeat case_decide; try done. exfalso. unfold as_blocks in *.
    rewrite elem_of_cons, elem_of_app, list_elem_of_singleton in *. tauto.
Qed.

End Live.
End ASpace.
