(* ===== verification/Disk.v ===== *)
(** * The disk: disk.c and streamer.c

    [Ata] is the programmed-I/O driver of disk.c over an abstract set of I/O
    ports; [AtaLaws] states what the ATA command protocol promises of the
    device behind the ports.  [BlockDevice] is the interface the byte streams of
    streamer.c use; the driver discharges it.  [Streamer] holds the streams. *)

From S2P Require Import Prelude CLib KAlloc.

Definition TOYOS_SECTOR_SIZE : Z := 512.
Definition DISK_TYPE_REAL : Z := 0.

(** ** Port I/O *)

Class PortIO (D : Type) := {
  p_outb : D -> Z -> Z -> D;
  p_outw : D -> Z -> Z -> D;
  p_insb : D -> Z -> Z * D;
  p_insw : D -> Z -> Z * D
}.

Module Ata.
Section Driver.
Context `{PortIO D}.

(** The five register writes both commands begin with; [lba] is an [int]. *)
Definition select (d : D) (lba total : Z) : D :=
  let d := p_outb d 0x1f6 (u8 (Z.lor (Z.shiftr lba 24) 0xe0)) in
  let d := p_outb d 0x1f2 (u8 total) in
  let d := p_outb d 0x1f3 (u8 (Z.land lba 0xff)) in
  let d := p_outb d 0x1f4 (u8 (Z.shiftr lba 8)) in
  p_outb d 0x1f5 (u8 (Z.shiftr lba 16)).

(** [char c = insb(0x1f7); while (!(c & 0x08)) c = insb(0x1f7);] *)
Fixpoint wait_ready (fuel : nat) (d : D) : option D :=
  match fuel with
  | O => None
  | S fuel' =>
    let '(c, d) := p_insb d 0x1f7 in
    if negb (Z.land c 0x08 =? 0) then Some d else wait_ready fuel' d
  end.

(** [for (int j = 0; j < 256; j++)] of the two commands, [n] iterations left;
    words are little endian in the buffer. *)
Fixpoint write_words (n : nat) (d : D) (buf : list Z) (i : Z) : option (Z * D) :=
  match n with
  | O => Some (i, d)
  | S n' =>
    lo ← rd buf i; hi ← rd buf (i + 1);
    write_words n' (p_outw d 0x1f0 (lo + 256 * hi)) buf (i + 2)
  end.

Fixpoint read_words (n : nat) (d : D) (buf : list Z) (i : Z) : option (list Z * Z * D) :=
  match n with
  | O => Some (buf, i, d)
  | S n' =>
    let '(w, d) := p_insw d 0x1f0 in
    buf ← wr buf i (w mod 256); buf ← wr buf (i + 1) (w / 256);
    read_words n' d buf (i + 2)
  end.

Section Fuel.
(** How often the status register is polled before the driver is taken to hang. *)
Variable fuel : nat.

Fixpoint write_sectors (n : nat) (d : D) (buf : list Z) (i : Z) : option D :=
  match n with
  | O => Some d
  | S n' =>
    d ← wait_ready fuel d;
    '(i, d) ← write_words 256 d buf i;
    write_sectors n' d buf i
  end.

Fixpoint read_sectors (n : nat) (d : D) (buf : list Z) (i : Z) : option (list Z * D) :=
  match n with
  | O => Some (buf, d)
  | S n' =>
    d ← wait_ready fuel d;
    '(buf, i, d) ← read_words 256 d buf i;
    read_sectors n' d buf i
  end.

(** A null buffer is [None]. *)
Definition disk_write_sector (d : D) (lba total : Z) (buf : option (list Z))
    : option (Z * D) :=
  match buf with
  | None => Some (- EINVARG, d)
  | Some buf =>
    let d := select d lba total in
    let d := p_outb d 0x1f7 0x30 in
    d ← write_sectors (Z.to_nat total) d buf 0;
    Some (OK, d)
  end.

Definition disk_read_sector (d : D) (lba total : Z) (buf : option (list Z))
    : option (Z * option (list Z) * D) :=
  match buf with
  | None => Some (- EINVARG, None, d)
  | Some buf =>
    let d := select d lba total in
    let d := p_outb d 0x1f7 0x20 in
    '(buf, d) ← read_sectors (Z.to_nat total) d buf 0;
    Some (OK, Some buf, d)
  end.

(** The static [struct disk disk] is the only disk; [disk_ptr] is its address. *)
Variable disk_ptr : Z.

Definition disk_get (index : Z) : Z := if negb (index =? 0) then NULL else disk_ptr.

Definition disk_read_block (idisk : Z) (d : D) (lba total : Z) (buf : option (list Z))
    : option (Z * option (list Z) * D) :=
  if negb (idisk =? disk_ptr) then Some (- EIO, buf, d)
  else disk_read_sector d (s32 lba) total buf.

Definition disk_write_block (idisk : Z) (d : D) (lba total : Z) (buf : option (list Z))
    : option (Z * D) :=
  if negb (idisk =? disk_ptr) then Some (- EIO, d)
  else disk_write_sector d (s32 lba) total buf.

End Fuel.
End Driver.
End Ata.

(** ** The block-device interface *)

(** One-sector transfers to and from a 512-byte buffer, as [disk_read_block] and
    [disk_write_block] with [total = 1]; [None] means that the call does not
    return. *)
Class BlockDevice (D : Type) := {
  bd_read : D -> Z -> list Z -> option (Z * list Z * D);
  bd_write : D -> Z -> list Z -> option (Z * D)
}.

Class BlockLaws (D : Type) `{BlockDevice D} := {
  bd_sector : D -> Z -> list Z;
  bd_size : Z;
  bd_ok : D -> Prop;

  bd_len : forall d lba, bd_ok d -> length (bd_sector d lba) = 512%nat;
  bd_byte : forall d lba, bd_ok d -> Forall is_byte (bd_sector d lba);
  bd_range : bd_size <= 2 ^ 22;

  bd_read_spec : forall d lba buf,
    bd_ok d -> 0 <= lba < bd_size -> length buf = 512%nat ->
    exists d', bd_read d lba buf = Some (OK, bd_sector d lba, d') /\ bd_ok d' /\
      forall l, bd_sector d' l = bd_sector d l;

  bd_write_spec : forall d lba buf,
    bd_ok d -> 0 <= lba < bd_size -> length buf = 512%nat -> Forall is_byte buf ->
    exists d', bd_write d lba buf = Some (OK, d') /\ bd_ok d' /\
      forall l, bd_sector d' l = if decide (l = lba) then buf else bd_sector d l
}.

(** ** streamer.c *)

Module Streamer.

Record disk_stream := mk_stream { pos : Z; disk : Z }.

Section Stream.
Context `{BlockDevice D}.

(** What the uninitialised locals of [streamer_write] hold: the sector buffer
    and the outer [res]. *)
Variables (stack_buf : list Z) (stack_res : Z).

Definition streamer_seek (s : disk_stream) (p : Z) : Z * disk_stream :=
  if p <? 0 then (- EINVARG, s) else (OK, mk_stream p (disk s)).

(** The copy loop of [streamer_read], from [buf[offset + i]]: the bytes written
    through [out]. *)
Fixpoint copy_out (n : nat) (buf : list Z) (i : Z) : option (list Z) :=
  match n with
  | O => Some []
  | S n' => b ← rd buf i; l ← copy_out n' buf (i + 1); Some (b :: l)
  end.

(** The copy loop of [streamer_write], into [buf[offset + i]]. *)
Fixpoint copy_in (n : nat) (buf inp : list Z) (i : Z) : option (list Z * list Z) :=
  match n with
  | O => Some (buf, inp)
  | S n' =>
    match inp with
    | [] => None
    | b :: inp' => buf ← wr buf i b; copy_in n' buf inp' (i + 1)
    end
  end.

(** The result is the status, the bytes stored through [out], the stream and
    the device.  [out] is the destination address. *)
Fixpoint streamer_read_rec (fuel : nat) (d : D) (s : disk_stream) (out total : Z)
    : option (Z * list Z * disk_stream * D) :=
  match fuel with
  | O => None
  | S fuel' =>
    if (out =? NULL) || (total <? 0) then Some (- EINVARG, [], s, d)
    else
      let sector := Z.quot (pos s) TOYOS_SECTOR_SIZE in
      let offset := Z.rem (pos s) TOYOS_SECTOR_SIZE in
      let overflow := TOYOS_SECTOR_SIZE <=? s32 (offset + total) in
      let total_to_read :=
        if overflow then total - (offset + total - TOYOS_SECTOR_SIZE) else total in
      '(res, buf, d) ← bd_read d sector stack_buf;
      if res <? 0 then Some (res, [], s, d)
      else
        l ← copy_out (Z.to_nat total_to_read) buf offset;
        let s := mk_stream (s32 (pos s + total_to_read)) (disk s) in
        if overflow then
          '(res, l', s, d) ← streamer_read_rec fuel' d s (ptr_add out total_to_read)
                               (total - total_to_read);
          Some (res, l ++ l', s, d)
        else Some (res, l, s, d)
  end.

Definition streamer_read (d : D) (s : disk_stream) (out total : Z)
    : option (Z * list Z * disk_stream * D) :=
  streamer_read_rec (S (Z.to_nat total)) d s out total.

Fixpoint streamer_write_rec (fuel : nat) (d : D) (s : disk_stream) (inp : list Z) (total : Z)
    : option (Z * disk_stream * D) :=
  match fuel with
  | O => None
  | S fuel' =>
    if total <? 0 then Some (- EINVARG, s, d)
    else
      let sector := Z.quot (pos s) TOYOS_SECTOR_SIZE in
      let offset := Z.rem (pos s) TOYOS_SECTOR_SIZE in
      let overflow := TOYOS_SECTOR_SIZE <=? s32 (offset + total) in
      let total_to_write :=
        if overflow then total - (offset + total - TOYOS_SECTOR_SIZE) else total in
      '(res, buf, d) ← (if negb (offset =? 0) || negb (total_to_write =? TOYOS_SECTOR_SIZE)
                        then bd_read d sector stack_buf else Some (OK, stack_buf, d));
      if res <? 0 then Some (stack_res, s, d)
      else
        '(buf, inp) ← copy_in (Z.to_nat total_to_write) buf inp offset;
        '(res, d) ← bd_write d sector buf;
        if res <? 0 then Some (res, s, d)
        else
          let s := mk_stream (s32 (pos s + total_to_write)) (disk s) in
          if overflow then streamer_write_rec fuel' d s inp (total - total_to_write)
          else Some (res, s, d)
  end.

(** A null [in] is [None]. *)
Definition streamer_write (d : D) (s : disk_stream) (inp : option (list Z)) (total : Z)
    : option (Z * disk_stream * D) :=
  match inp with
  | None => Some (- EINVARG, s, d)
  | Some inp => streamer_write_rec (S (Z.to_nat total)) d s inp total
  end.

End Stream.

(** Opening and closing allocate and free the structure (8 bytes); the handle is
    its address. *)
Section Open.
Context `{KAlloc A} (disk_ptr : Z).

Definition streamer_new (a : A) (disk_id : Z) : option (Z * disk_stream) * A :=
  let disk := Ata.disk_get disk_ptr disk_id in
  if disk =? NULL then (None, a)
  else
    let '(streamer, a) := ka_zalloc a 8 in
    if streamer =? NULL then (None, a) else (Some (streamer, mk_stream 0 disk), a).

Definition streamer_close (a : A) (stream : Z) : A := ka_free a stream.

End Open.
End Streamer.

(** ** Streams are reads and writes of one flat byte array *)

Module StreamFacts.
Import Streamer.

Lemma copy_out_spec n : forall buf i,
  0 <= i -> (Z.to_nat i + n <= length buf)%nat ->
  copy_out n buf i = Some (take n (drop (Z.to_nat i) buf)).
Proof.
  induction n as [|n IH]; intros buf i Hi Hn; [done|]. simpl. rewrite rd_lookup by done.
  destruct (lookup_lt_is_Some_2 buf (Z.to_nat i)) as [b Hb]; [lia|].
  rewrite Hb. simpl. rewrite IH by lia. rewrite (drop_S _ _ _ Hb). simpl.
  by replace (Z.to_nat (i + 1)) with (S (Z.to_nat i)) by lia.
Qed.

Lemma copy_in_spec n : forall buf inp i,
  0 <= i -> (Z.to_nat i + n <= length buf)%nat -> (n <= length inp)%nat -> Forall is_byte inp ->
  copy_in n buf inp i
  = Some (take (Z.to_nat i) buf ++ take n inp ++ drop (Z.to_nat i + n) buf, drop n inp).
Proof.
  induction n as [|n IH]; intros buf inp i Hi Hn Hl Hb; simpl.
  { rewrite Nat.add_0_r. by rewrite take_drop. }
  destruct inp as [|b inp]; [simpl in Hl; lia|]. simpl in Hl.
  inversion Hb as [|? ? Hb0 Hb']; subst.
  rewrite wr_Some by lia. simpl. rewrite u8_small by (apply Hb0).
  rewrite IH by (rewrite ?length_insert; done || lia).
  replace (Z.to_nat (i + 1)) with (S (Z.to_nat i)) by lia. do 2 f_equal.
  rewrite (take_S_r _ _ b) by (apply list_lookup_insert_eq; lia).
  rewrite take_insert_ge, <- app_assoc by lia. simpl. do 3 f_equal.
  rewrite drop_insert_lt by lia. f_equal. lia.
Qed.

Section Flat.
Context `{BL : BlockLaws D}.

Definition byte_at (d : D) (x : Z) : Z :=
  default 0 (bd_sector d (x / 512) !! Z.to_nat (x mod 512)).

Lemma byte_at_byte d x : bd_ok d -> is_byte (byte_at d x).
Proof.
  intros Hd. unfold byte_at. destruct (_ !! _) as [b|] eqn:Hb; simpl; [|unfold is_byte; lia].
  pose proof (bd_byte d (x / 512) Hd) as Hf. rewrite Forall_forall in Hf. apply Hf.
  by eapply list_elem_of_lookup_2.
Qed.

(** [n] bytes of the device from offset [p] on. *)
Definition bytes_of (d : D) (p n : Z) : list Z := map (byte_at d) (seqZ p n).

Definition same_disk (d d' : D) : Prop := forall l, bd_sector d' l = bd_sector d l.

Lemma length_bytes_of d p n : length (bytes_of d p n) = Z.to_nat n.
Proof. unfold bytes_of. by rewrite length_map, length_seqZ. Qed.

Lemma bytes_of_app d p a b :
  0 <= a -> 0 <= b -> bytes_of d p (a + b) = bytes_of d p a ++ bytes_of d (p + a) b.
Proof. intros. unfold bytes_of. by rewrite seqZ_app, map_app. Qed.

Lemma bytes_of_same d d' p n : same_disk d d' -> bytes_of d' p n = bytes_of d p n.
Proof. intros Hs. unfold bytes_of. apply map_ext. intros x. unfold byte_at. by rewrite Hs. Qed.

Lemma sector_slice d lba off n :
  bd_ok d -> 0 <= lba -> 0 <= off -> 0 <= n -> off + n <= 512 ->
  take (Z.to_nat n) (drop (Z.to_nat off) (bd_sector d lba)) = bytes_of d (lba * 512 + off) n.
Proof.
  intros Hd Hl Ho Hn Hon. pose proof (bd_len d lba Hd) as Hlen.
  apply list_eq_same_length with (Z.to_nat n).
  - apply length_bytes_of.
  - rewrite length_take, length_drop. lia.
  - intros i x y Hi. rewrite lookup_take_lt, lookup_drop by lia. unfold bytes_of.
    rewrite list_lookup_fmap, lookup_seqZ_lt by lia. simpl. intros Hx [= <-].
    unfold byte_at. replace ((lba * 512 + off + Z.of_nat i) / 512) with lba by zlia.
    replace (Z.to_nat ((lba * 512 + off + Z.of_nat i) mod 512)) with (Z.to_nat off + i)%nat by zlia.
    by rewrite Hx.
Qed.

Lemma streamer_read_ok stack_buf fuel : forall d s out total,
  length stack_buf = 512%nat -> bd_ok d ->
  0 <= pos s -> 0 <= total -> pos s + total < 2 ^ 31 -> (pos s + total) / 512 < bd_size ->
  out <> NULL -> 0 <= out -> out + total < 2 ^ 32 -> total < Z.of_nat fuel ->
  exists d', streamer_read_rec stack_buf fuel d s out total
      = Some (OK, bytes_of d (pos s) total, mk_stream (pos s + total) (disk s), d') /\
    bd_ok d' /\ same_disk d d'.
Proof.
  induction fuel as [|fuel IH]; intros d s out total Hsb Hd Hp Ht Hpt Hsz Hout Ho1 Ho2 Hf; [lia|].
  simpl. rewrite (proj2 (Z.eqb_neq out NULL)) by done. rewrite (proj2 (Z.ltb_ge total 0)) by lia.
  simpl. change TOYOS_SECTOR_SIZE with 512. rewrite Z.quot_div_nonneg, Z.rem_mod_nonneg by lia.
  rewrite s32_small by zlia.
  destruct (bd_read_spec d (pos s / 512) stack_buf Hd) as (d1 & -> & Hd1 & Hs1); [zlia|done|].
  simpl. destruct (Z.leb_spec 512 (pos s mod 512 + total)) as [Hov|Hov].
  - set (t := total - (pos s mod 512 + total - 512)).
    assert (1 <= t <= total /\ pos s mod 512 + t = 512) as Ht1 by (unfold t; zlia).
    rewrite copy_out_spec by (rewrite ?bd_len by done; zlia). simpl.
    rewrite sector_slice by (done || zlia). rewrite (s32_small (pos s + t)) by lia.
    rewrite ptr_add_small by lia.
    destruct (IH d1 (mk_stream (pos s + t) (disk s)) (out + t) (total - t)) as (d2 & -> & Hd2 & Hs2);
      simpl; [done|done|lia|lia|lia|zlia|unfold NULL in *; lia|lia|lia|lia|].
    exists d2. split; [|split; [done|intros l; by rewrite Hs2]].
    replace (pos s / 512 * 512 + pos s mod 512) with (pos s) by zlia.
    rewrite (bytes_of_same d d1), <- bytes_of_app by (done || lia).
    replace (t + (total - t)) with total by lia.
    by replace (pos s + t + (total - t)) with (pos s + total) by lia.
  - rewrite copy_out_spec by (rewrite ?bd_len by done; zlia). simpl.
    rewrite sector_slice by (done || zlia). rewrite (s32_small (pos s + total)) by lia.
    exists d1. replace (pos s / 512 * 512 + pos s mod 512) with (pos s) by zlia. done.
Qed.

(** The device after [data] has been stored from offset [p] on. *)
Definition stored (d d' : D) (p : Z) (data : list Z) : Prop :=
  forall x, 0 <= x -> byte_at d' x =
    if decide (p <= x < p + Z.of_nat (length data))
    then default 0 (data !! Z.to_nat (x - p)) else byte_at d x.

(** One sector written back after [data] has been copied into it. *)
Lemma stored_sector d d' lba off buf data :
  0 <= lba -> (off + length data <= 512)%nat -> length buf = 512%nat ->
  (buf = bd_sector d lba \/ (off = 0 /\ length data = 512)%nat) ->
  (forall l, bd_sector d' l =
     if decide (l = lba) then take off buf ++ data ++ drop (off + length data) buf
     else bd_sector d l) ->
  stored d d' (lba * 512 + Z.of_nat off) data.
Proof.
  intros Hl Hoff Hb Hcase Hd x Hx. unfold byte_at. rewrite Hd.
  destruct (decide (x / 512 = lba)) as [Hq|Hq].
  - rewrite splice_lookup by lia. repeat case_decide; try (exfalso; zlia).
    + do 2 f_equal. zlia.
    + destruct Hcase as [->|Hc]; [by rewrite Hq|exfalso; zlia].
  - rewrite decide_False by zlia. done.
Qed.

Lemma stored_app d d1 d2 p a b :
  stored d d1 p a -> stored d1 d2 (p + Z.of_nat (length a)) b -> stored d d2 p (a ++ b).
Proof.
  intros H1 H2 x Hx. rewrite H2, H1 by done. rewrite length_app.
  repeat case_decide; try lia; f_equal.
  - rewrite lookup_app_r by lia. f_equal. lia.
  - by rewrite lookup_app_l by lia.
Qed.

Lemma Forall_splice (buf data : list Z) off :
  Forall is_byte buf \/ (off = 0 /\ length data = length buf)%nat -> Forall is_byte data ->
  Forall is_byte (take off buf ++ data ++ drop (off + length data) buf).
Proof.
  intros [Hb|[-> Hl]] Hd.
  - repeat apply Forall_app_2; [by apply Forall_take|done|by apply Forall_drop].
  - rewrite Hl. simpl. rewrite drop_all, app_nil_r. done.
Qed.

(** One round of [streamer_write]: the sector is read unless it is replaced
    as a whole, filled, and written back. *)
Lemma write_round stack_buf d lba off data rest :
  length stack_buf = 512%nat -> bd_ok d -> 0 <= lba < bd_size ->
  0 <= off -> off + Z.of_nat (length data) <= 512 -> Forall is_byte (data ++ rest) ->
  exists d1 buf d2,
    (if negb (off =? 0) || negb (Z.of_nat (length data) =? 512)
     then bd_read d lba stack_buf else Some (OK, stack_buf, d)) = Some (OK, buf, d1) /\
    copy_in (length data) buf (data ++ rest) off
      = Some (take (Z.to_nat off) buf ++ data ++ drop (Z.to_nat off + length data) buf, rest) /\
    bd_write d1 lba (take (Z.to_nat off) buf ++ data ++ drop (Z.to_nat off + length data) buf)
      = Some (OK, d2) /\
    bd_ok d2 /\ stored d d2 (lba * 512 + off) data.
Proof.
  intros Hsb Hd Hl Ho Hod Hby. pose proof Hby as [Hbd _]%Forall_app.
  assert (exists d1 buf,
    (if negb (off =? 0) || negb (Z.of_nat (length data) =? 512)
     then bd_read d lba stack_buf else Some (OK, stack_buf, d)) = Some (OK, buf, d1) /\
    bd_ok d1 /\ same_disk d d1 /\ length buf = 512%nat /\
    ((buf = bd_sector d lba /\ Forall is_byte buf) \/ (Z.to_nat off = 0 /\ length data = 512)%nat))
    as (d1 & buf & He & Hd1 & Hs1 & Hlb & Hcase).
  { destruct (Z.eqb_spec off 0), (Z.eqb_spec (Z.of_nat (length data)) 512); simpl;
      try (destruct (bd_read_spec d lba stack_buf Hd) as (d1 & He & Hd1 & Hs1); [done..|];
           exists d1, (bd_sector d lba); split_and!;
             [done|done|exact Hs1|by apply bd_len|left; split; [done|by apply bd_byte]]).
    exists d, stack_buf. split_and!; [done|done|done|done|right; lia]. }
  set (buf' := take (Z.to_nat off) buf ++ data ++ drop (Z.to_nat off + length data) buf).
  assert (length buf' = 512%nat) as Hlb'.
  { unfold buf'. rewrite !length_app, length_take, length_drop. lia. }
  assert (Forall is_byte buf') as Hbb'.
  { apply Forall_splice; [|done]. rewrite Hlb. destruct Hcase as [[_ ?]|?]; [by left|by right]. }
  destruct (bd_write_spec d1 lba buf' Hd1) as (d2 & Hw & Hd2 & Hs2); [done..|].
  exists d1, buf, d2. split; [done|]. split.
  { rewrite copy_in_spec by (rewrite ?length_app; done || lia).
    by rewrite take_app_length, drop_app_length. }
  split; [done|]. split; [done|]. rewrite <- (Z2Nat.id off) by done.
  apply (stored_sector _ _ _ _ buf); [lia|lia|done| |].
  - destruct Hcase as [[? _]|?]; auto.
  - intros l. rewrite Hs2. by rewrite Hs1.
Qed.

Lemma streamer_write_ok stack_buf stack_res fuel : forall d s data rest,
  let total := Z.of_nat (length data) in
  length stack_buf = 512%nat -> bd_ok d -> Forall is_byte (data ++ rest) ->
  0 <= pos s -> pos s + total < 2 ^ 31 -> (pos s + total) / 512 < bd_size ->
  total < Z.of_nat fuel ->
  exists d', streamer_write_rec stack_buf stack_res fuel d s (data ++ rest) total
      = Some (OK, mk_stream (pos s + total) (disk s), d') /\
    bd_ok d' /\ stored d d' (pos s) data.
Proof.
  induction fuel as [|fuel IH]; intros d s data rest total Hsb Hd Hby Hp Hpt Hsz Hf; [lia|].
  simpl. rewrite (proj2 (Z.ltb_ge total 0)) by lia. change TOYOS_SECTOR_SIZE with 512.
  rewrite Z.quot_div_nonneg, Z.rem_mod_nonneg by lia. rewrite s32_small by zlia.
  destruct (Z.leb_spec 512 (pos s mod 512 + total)) as [Hov|Hov].
  - set (t := total - (pos s mod 512 + total - 512)).
    assert (1 <= t <= total /\ pos s mod 512 + t = 512) as Ht1 by (unfold t; zlia).
    set (d0 := take (Z.to_nat t) data). set (d9 := drop (Z.to_nat t) data).
    assert (Z.of_nat (length d0) = t) as Hl0 by (unfold d0; rewrite length_take; lia).
    assert (Z.of_nat (length d9) = total - t) as Hl9 by (unfold d9; rewrite length_drop; lia).
    assert (data = d0 ++ d9) as Hdd by (unfold d0, d9; by rewrite take_drop).
    rewrite Hdd, <- app_assoc in Hby |- *.
    destruct (write_round stack_buf d (pos s / 512) (pos s mod 512) d0 (d9 ++ rest))
      as (d1 & buf & d2 & He & Hc & Hw & Hd2 & Hst); [done|done|zlia|zlia|lia|done|].
    rewrite Hl0 in He. rewrite He. simpl. replace (Z.to_nat t) with (length d0) by lia.
    rewrite Hc. simpl. rewrite Hw. simpl. rewrite (s32_small (pos s + t)), <- Hl9 by lia.
    destruct (IH d2 (mk_stream (pos s + t) (disk s)) d9 rest) as (d3 & -> & Hd3 & Hst3); simpl;
      [done|done|by apply Forall_app in Hby as [_ ?]|lia|lia|rewrite Hl9; zlia|lia|].
    exists d3. rewrite Hl9. replace (pos s + t + (total - t)) with (pos s + total) by lia.
    split; [done|]. split; [done|]. apply (stored_app d d2 d3).
    + by replace (pos s) with (pos s / 512 * 512 + pos s mod 512) by zlia.
    + simpl in Hst3. by rewrite Hl0.
  - destruct (write_round stack_buf d (pos s / 512) (pos s mod 512) data rest)
      as (d1 & buf & d2 & He & Hc & Hw & Hd2 & Hst); [done|done|zlia|zlia|fold total; lia|done|].
    fold total in He. rewrite He. simpl. replace (Z.to_nat total) with (length data) by lia.
    rewrite Hc. simpl. rewrite Hw. simpl. rewrite (s32_small (pos s + total)) by lia.
    exists d2. replace (pos s / 512 * 512 + pos s mod 512) with (pos s) in Hst by zlia. done.
Qed.

(** Reading back what has been stored, and what has not been touched. *)
Lemma bytes_of_stored_eq d d' p data :
  0 <= p -> stored d d' p data -> bytes_of d' p (Z.of_nat (length data)) = data.
Proof.
  intros Hp Hst. unfold bytes_of. apply list_eq. intros i. rewrite list_lookup_fmap.
  destruct (decide (i < length data)%nat) as [Hi|Hi].
  - rewrite lookup_seqZ_lt by lia. simpl. rewrite Hst, decide_True by lia.
    replace (Z.to_nat (p + Z.of_nat i - p)) with i by lia.
    destruct (lookup_lt_is_Some_2 data i Hi) as [b Hb]. by rewrite Hb.
  - rewrite lookup_seqZ_ge by lia. by rewrite lookup_ge_None_2 by lia.
Qed.

Lemma bytes_of_stored_ne d d' p data q n :
  0 <= q -> stored d d' p data -> q + n <= p \/ p + Z.of_nat (length data) <= q ->
  bytes_of d' q n = bytes_of d q n.
Proof.
  intros Hq Hst Hd. unfold bytes_of. apply map_ext_in. intros x Hx.
  apply list_elem_of_In, elem_of_seqZ in Hx. by rewrite Hst, decide_False by lia.
Qed.

Lemma stored_nil d d' p : stored d d' p [] -> forall q n, 0 <= q -> bytes_of d' q n = bytes_of d q n.
Proof.
  intros Hst q n Hq. unfold bytes_of. apply map_ext_in. intros x Hx.
  apply list_elem_of_In, elem_of_seqZ in Hx. rewrite Hst, decide_False by (simpl; lia). done.
Qed.

End Flat.
End StreamFacts.

(** ** What the ATA protocol promises

    The device is idle, or transfers sectors in one direction.  [DataIn lba left
    w]: sector [lba] is being read, [w] of its 256 words have been taken, and
    [left] sectors remain, this one included.  [DataOut lba left acc]: [acc] are
    the bytes of sector [lba] received so far. *)

Inductive ata_phase :=
| Idle
| DataIn (lba left w : Z)
| DataOut (lba left : Z) (acc : list Z).

Class AtaLaws (D : Type) `{PortIO D} := {
  ata_state : D -> ata_phase;
  ata_reg : D -> Z -> Z;
  ata_sector : D -> Z -> list Z;
  ata_size : Z;
  (** Status polls until the data-request bit is set, and a bound on them. *)
  ata_delay : D -> nat;
  ata_max_delay : nat;

  ata_len : forall d lba, length (ata_sector d lba) = 512%nat;
  ata_byte : forall d lba, Forall is_byte (ata_sector d lba);
  ata_lba28 : ata_size <= 2 ^ 22;
  ata_bound : forall d, (ata_delay d < ata_max_delay)%nat;

  (** Task-file registers keep what is written to them. *)
  ata_out_reg : forall d port v,
    ata_state d = Idle -> 0x1f2 <= port <= 0x1f6 -> is_byte v ->
    let d' := p_outb d port v in
    ata_state d' = Idle /\ (forall l, ata_sector d' l = ata_sector d l) /\
    (forall q, ata_reg d' q = if decide (q = port) then v else ata_reg d q);

  (** READ SECTORS (0x20) and WRITE SECTORS (0x30) in LBA mode on the master. *)
  ata_command : forall d cmd lba,
    ata_state d = Idle -> cmd = 0x20 \/ cmd = 0x30 ->
    ata_reg d 0x1f6 = 0xe0 + lba / 2 ^ 24 -> ata_reg d 0x1f5 = lba / 2 ^ 16 mod 256 ->
    ata_reg d 0x1f4 = lba / 2 ^ 8 mod 256 -> ata_reg d 0x1f3 = lba mod 256 ->
    0 < ata_reg d 0x1f2 -> 0 <= lba -> lba + ata_reg d 0x1f2 <= ata_size ->
    let d' := p_outb d 0x1f7 cmd in
    ata_state d' = (if cmd =? 0x20 then DataIn lba (ata_reg d 0x1f2) 0
                    else DataOut lba (ata_reg d 0x1f2) []) /\
    (forall l, ata_sector d' l = ata_sector d l);

  (** A status read shows the data-request bit once the delay has run down. *)
  ata_status : forall d v d',
    ata_state d <> Idle -> p_insb d 0x1f7 = (v, d') ->
    ata_state d' = ata_state d /\ (forall l, ata_sector d' l = ata_sector d l) /\
    ((Z.land v 8 <> 0 /\ ata_delay d' = 0%nat) \/
     (Z.land v 8 = 0 /\ (ata_delay d' < ata_delay d)%nat));

  (** The data port delivers the words of the sector in order. *)
  ata_in : forall d lba left w v d',
    ata_state d = DataIn lba left w -> 0 <= w < 256 -> (w = 0 -> ata_delay d = 0%nat) ->
    p_insw d 0x1f0 = (v, d') ->
    (forall l, ata_sector d' l = ata_sector d l) /\
    le_bytes 2 v = take 2 (drop (Z.to_nat (2 * w)) (ata_sector d lba)) /\ 0 <= v < 65536 /\
    ata_state d' = if w <? 255 then DataIn lba left (w + 1)
                   else if left =? 1 then Idle else DataIn (lba + 1) (left - 1) 0;

  (** The data port takes words; the sector is stored when it is complete. *)
  ata_out : forall d lba left acc k v,
    ata_state d = DataOut lba left acc -> (acc = [] -> ata_delay d = 0%nat) ->
    (length acc + 2 * S k = 512)%nat -> Forall is_byte acc -> 0 <= v < 65536 ->
    let d' := p_outw d 0x1f0 v in
    let acc' := acc ++ le_bytes 2 v in
    if (length acc' <? 512)%nat
    then ata_state d' = DataOut lba left acc' /\ (forall l, ata_sector d' l = ata_sector d l)
    else ata_state d' = (if left =? 1 then Idle else DataOut (lba + 1) (left - 1) []) /\
         (forall l, ata_sector d' l = if decide (l = lba) then acc' else ata_sector d l)
}.

(** ** The driver follows the protocol *)

Module AtaFacts.
Import Ata.

Section Driver.
Context `{AL : AtaLaws D}.

Definition same (d d' : D) : Prop := forall l, ata_sector d' l = ata_sector d l.

Lemma same_trans d1 d2 d3 : same d1 d2 -> same d2 d3 -> same d1 d3.
Proof. intros H1 H2 l. by rewrite H2, H1. Qed.

Lemma lba_bytes lba : 0 <= lba < 2 ^ 22 ->
  u8 (Z.lor (Z.shiftr lba 24) 0xe0) = 0xe0 + lba / 2 ^ 24 /\
  u8 (Z.land lba 0xff) = lba mod 256 /\ u8 (Z.shiftr lba 8) = lba / 2 ^ 8 mod 256 /\
  u8 (Z.shiftr lba 16) = lba / 2 ^ 16 mod 256.
Proof.
  intros Hl. rewrite !Z.shiftr_div_pow2 by lia. change 0xff with (Z.ones 8).
  rewrite Z.land_ones by lia. split.
  - replace (lba / 2 ^ 24) with 0 by (change (2 ^ 24) with 16777216; zlia). done.
  - split; [|done]. unfold u8. change (2 ^ 8) with 256. zlia.
Qed.

Lemma select_ok d lba total :
  ata_state d = Idle -> 0 <= lba < 2 ^ 22 -> 0 < total < 256 ->
  let d' := select d lba total in
  ata_state d' = Idle /\ same d d' /\
  ata_reg d' 0x1f6 = 0xe0 + lba / 2 ^ 24 /\ ata_reg d' 0x1f5 = lba / 2 ^ 16 mod 256 /\
  ata_reg d' 0x1f4 = lba / 2 ^ 8 mod 256 /\ ata_reg d' 0x1f3 = lba mod 256 /\
  ata_reg d' 0x1f2 = total.
Proof.
  intros H0 Hl Ht. unfold select. destruct (lba_bytes lba Hl) as (-> & -> & -> & ->).
  rewrite (u8_small total) by lia. assert (is_byte (0xe0 + lba / 2 ^ 24)) as Hb1.
  { unfold is_byte. change (2 ^ 24) with 16777216. zlia. }
  destruct (ata_out_reg d 0x1f6 (0xe0 + lba / 2 ^ 24) H0) as (A1 & A2 & A3); [lia|done|].
  destruct (ata_out_reg _ 0x1f2 total A1) as (B1 & B2 & B3); [lia|unfold is_byte; lia|].
  destruct (ata_out_reg _ 0x1f3 (lba mod 256) B1) as (C1 & C2 & C3); [lia|unfold is_byte; zlia|].
  destruct (ata_out_reg _ 0x1f4 (lba / 2 ^ 8 mod 256) C1) as (D1 & D2 & D3);
    [lia|unfold is_byte; zlia|].
  destruct (ata_out_reg _ 0x1f5 (lba / 2 ^ 16 mod 256) D1) as (E1 & E2 & E3);
    [lia|unfold is_byte; zlia|].
  split; [done|]. split; [intros l; by rewrite E2, D2, C2, B2, A2|].
  rewrite !E3, !D3, !C3, !B3, !A3. done.
Qed.

Lemma wait_ready_ok fuel : forall d,
  ata_state d <> Idle -> (ata_delay d < fuel)%nat ->
  exists d', wait_ready fuel d = Some d' /\ ata_state d' = ata_state d /\ same d d' /\
    ata_delay d' = 0%nat.
Proof.
  induction fuel as [|fuel IH]; intros d Hs Hf; [lia|]. simpl.
  destruct (p_insb d 0x1f7) as [v d1] eqn:Hi.
  destruct (ata_status d v d1 Hs Hi) as (H1 & H2 & [[Hb Hd]|[Hb Hd]]).
  - rewrite (proj2 (Z.eqb_neq _ 0) Hb). by exists d1.
  - rewrite Hb. simpl. destruct (IH d1) as (d2 & -> & H3 & H4 & H5); [congruence|lia|].
    exists d2. split; [done|]. split; [congruence|]. split; [by eapply same_trans|done].
Qed.

Lemma wr_word pre post v i :
  Z.of_nat (length pre) = i -> (2 <= length post)%nat -> 0 <= v < 65536 ->
  (b ← wr (pre ++ post) i (v mod 256); wr b (i + 1) (v / 256))
  = Some ((pre ++ le_bytes 2 v) ++ drop 2 post).
Proof.
  intros Hi Hp Hv. destruct post as [|x [|y post]]; simpl in Hp; [lia..|].
  rewrite (wr_app _ i _ pre (x :: y :: post)) by done. simpl.
  rewrite (wr_app _ (i + 1) _ (pre ++ [u8 (v mod 256)]) (y :: post)).
  - rewrite <- !app_assoc. simpl. rewrite !u8_small by zlia.
    rewrite (Z.mod_small (v / 256)) by zlia. done.
  - rewrite length_app. simpl. lia.
  - by rewrite <- app_assoc.
  - done.
Qed.

#[local] Arguments le_bytes : simpl never.

Lemma read_words_ok n : forall d lba left w pre post,
  ata_state d = DataIn lba left w -> (w = 0 -> ata_delay d = 0%nat) ->
  (0 < n)%nat -> 0 <= w -> Z.of_nat n + w = 256 -> (2 * n <= length post)%nat ->
  exists d', read_words n d (pre ++ post) (Z.of_nat (length pre))
      = Some ((pre ++ drop (Z.to_nat (2 * w)) (ata_sector d lba)) ++ drop (2 * n) post,
              Z.of_nat (length pre + 2 * n), d') /\
    same d d' /\ ata_state d' = if left =? 1 then Idle else DataIn (lba + 1) (left - 1) 0.
Proof.
  induction n as [|n IH]; intros d lba left w pre post Hs Hdl Hn Hw Hnw Hp; [lia|].
  cbn [read_words]. destruct (p_insw d 0x1f0) as [v d1] eqn:Hi.
  destruct (ata_in d lba left w v d1 Hs ltac:(lia) Hdl Hi) as (H1 & H2 & H3 & H4).
  pose proof (wr_word pre post v _ eq_refl ltac:(lia) H3) as Hww.
  destruct (wr (pre ++ post) _ _) as [b|] eqn:Hw1; [|done]. simpl in Hww |- *. rewrite Hww. simpl.
  pose proof (ata_len d lba) as Hlen.
  assert (take 2 (drop (Z.to_nat (2 * w)) (ata_sector d lba)) ++ drop (Z.to_nat (2 * (w + 1)))
    (ata_sector d lba) = drop (Z.to_nat (2 * w)) (ata_sector d lba)) as Hsplit.
  { replace (Z.to_nat (2 * (w + 1))) with (Z.to_nat (2 * w) + 2)%nat by lia.
    rewrite <- drop_drop. apply take_drop. }
  destruct (Z.ltb_spec w 255) as [Hlt|Hge].
  - destruct (IH d1 lba left (w + 1) (pre ++ le_bytes 2 v) (drop 2 post)) as (d2 & He & Hs2 & Hst);
      [done|lia|lia|lia|lia|rewrite length_drop; lia|].
    rewrite length_app, length_le_bytes in He.
    replace (Z.of_nat (length pre) + 2) with (Z.of_nat (length pre + 2)) by lia.
    rewrite He. exists d2. split; [|split; [by eapply same_trans|done]].
    rewrite H1, H2, <- (app_assoc pre), Hsplit, drop_drop.
    replace (2 + 2 * n)%nat with (2 * S n)%nat by lia.
    by replace (length pre + 2 + 2 * n)%nat with (length pre + 2 * S n)%nat by lia.
  - assert (n = 0%nat) as -> by lia. exists d1. split; [|done]. simpl. do 3 f_equal; [|lia].
    rewrite H2, take_ge; [done|]. rewrite length_drop. lia.
Qed.

Definition sectors (d : D) (lba : Z) (n : nat) : list Z :=
  concat (map (ata_sector d) (seqZ lba (Z.of_nat n))).

Lemma sectors_S d lba n : sectors d lba (S n) = ata_sector d lba ++ sectors d (lba + 1) n.
Proof.
  unfold sectors. rewrite seqZ_cons by lia. simpl.
  by replace (Z.pred (Z.of_nat (S n))) with (Z.of_nat n) by lia.
Qed.

Lemma sectors_same d d' lba n : same d d' -> sectors d' lba n = sectors d lba n.
Proof. intros Hs. unfold sectors. f_equal. apply map_ext. done. Qed.

Lemma read_sectors_ok fuel n : forall d lba pre post,
  (ata_max_delay <= fuel)%nat ->
  ata_state d = (if decide (n = 0%nat) then Idle else DataIn lba (Z.of_nat n) 0) ->
  (512 * n <= length post)%nat ->
  exists d', read_sectors fuel n d (pre ++ post) (Z.of_nat (length pre))
      = Some (pre ++ sectors d lba n ++ drop (512 * n) post, d') /\
    same d d' /\ ata_state d' = Idle.
Proof.
  induction n as [|n IH]; intros d lba pre post Hf Hs Hp; cbn [read_sectors].
  { exists d. done. }
  destruct (wait_ready_ok fuel d) as (d1 & -> & Hs1 & Hsm1 & Hd1);
    [by rewrite Hs|pose proof (ata_bound d); lia|]. rewrite decide_False in Hs by lia.
  rewrite Hs in Hs1. cbn [mbind option_bind].
  destruct (read_words_ok 256 d1 lba (Z.of_nat (S n)) 0 pre post Hs1) as (d2 & He & Hsm2 & Hs2);
    [done|lia|lia|lia|lia|].
  rewrite He. cbn [mbind option_bind]. rewrite drop_0 in *.
  pose proof (ata_len d1 lba) as Hl. change (2 * 256)%nat with 512%nat.
  replace (length pre + 512)%nat with (length (pre ++ ata_sector d1 lba)) by (rewrite length_app; lia).
  destruct (IH d2 (lba + 1) (pre ++ ata_sector d1 lba) (drop 512 post)) as (d3 & -> & Hsm3 & Hs3);
    [done| |rewrite length_drop; lia|].
  { rewrite Hs2. case_decide; destruct (Z.eqb_spec (Z.of_nat (S n)) 1); try lia; [done|].
    by replace (Z.of_nat (S n) - 1) with (Z.of_nat n) by lia. }
  exists d3. split; [|split; [by eauto using same_trans|done]].
  rewrite sectors_S, drop_drop, <- app_assoc, Hsm1.
  rewrite (sectors_same d d2) by (by eapply same_trans). rewrite <- app_assoc.
  by replace (512 + 512 * n)%nat with (512 * S n)%nat by lia.
Qed.

Lemma rd_word pre post i lo hi rest :
  Z.of_nat (length pre) = i -> post = lo :: hi :: rest ->
  rd (pre ++ post) i = Some lo /\ rd (pre ++ post) (i + 1) = Some hi.
Proof.
  intros Hi ->. split; [by rewrite (rd_app_r _ pre (lo :: hi :: rest))|].
  erewrite (rd_app_r _ (pre ++ [lo]) (hi :: rest)); [done|by rewrite <- app_assoc|].
  rewrite length_app. simpl. lia.
Qed.

Lemma write_words_ok n : forall d lba left acc pre data post,
  ata_state d = DataOut lba left acc -> (acc = [] -> ata_delay d = 0%nat) ->
  (0 < n)%nat -> length data = (2 * n)%nat -> (length acc + 2 * n = 512)%nat ->
  Forall is_byte acc -> Forall is_byte data ->
  exists d', write_words n d (pre ++ data ++ post) (Z.of_nat (length pre))
      = Some (Z.of_nat (length pre + 2 * n), d') /\
    (forall l, ata_sector d' l = if decide (l = lba) then acc ++ data else ata_sector d l) /\
    ata_state d' = if left =? 1 then Idle else DataOut (lba + 1) (left - 1) [].
Proof.
  induction n as [|n IH]; intros d lba left acc pre data post Hs Hdl Hn Hl Hla Hba Hb; [lia|].
  destruct data as [|lo [|hi data]]; simpl in Hl; [lia..|].
  inversion Hb as [|? ? Hlo Hb1]; subst. inversion Hb1 as [|? ? Hhi Hb2]; subst.
  cbn [write_words]. simpl app.
  destruct (rd_word pre _ _ lo hi (data ++ post) eq_refl eq_refl) as [-> ->]. cbn [mbind option_bind].
  unfold is_byte in *.
  assert (le_bytes 2 (lo + 256 * hi) = [lo; hi]) as Hle.
  { unfold le_bytes. f_equal; [zlia|]. f_equal. zlia. }
  pose proof (ata_out d lba left acc n (lo + 256 * hi) Hs Hdl Hla Hba ltac:(lia)) as Ho.
  simpl in Ho. rewrite Hle, length_app in Ho. simpl in Ho.
  set (d1 := p_outw d 0x1f0 (lo + 256 * hi)) in *.
  destruct (Nat.ltb_spec (length acc + 2) 512) as [Hlt|Hge].
  - destruct Ho as [Hs1 Hsm1].
    destruct (IH d1 lba left (acc ++ [lo; hi]) (pre ++ [lo; hi]) data post) as (d2 & He & Hd2 & Hst);
      [done|by destruct acc|lia|lia|rewrite length_app; simpl; lia| |done|].
    { apply Forall_app_2; [done|]. constructor; [done|]. constructor; [done|]. constructor. }
    rewrite <- app_assoc in He. simpl app in He. rewrite length_app in He. simpl length in He.
    replace (Z.of_nat (length pre) + 2) with (Z.of_nat (length pre + 2)) by lia.
    rewrite He. exists d2. split; [do 3 f_equal; lia|]. split; [|done].
    intros l. rewrite Hd2, <- app_assoc. by case_decide; [|rewrite Hsm1].
  - assert (n = 0%nat) as -> by lia. destruct data; [|simpl in Hl; lia].
    destruct Ho as [Hs1 Hsm1]. exists d1. split; [simpl; do 3 f_equal; lia|]. split; [|done].
    intros l. by rewrite Hsm1.
Qed.

Lemma write_sectors_ok fuel n : forall d lba pre data post,
  (ata_max_delay <= fuel)%nat ->
  ata_state d = (if decide (n = 0%nat) then Idle else DataOut lba (Z.of_nat n) []) ->
  length data = (512 * n)%nat -> Forall is_byte data ->
  exists d', write_sectors fuel n d (pre ++ data ++ post) (Z.of_nat (length pre)) = Some d' /\
    ata_state d' = Idle /\
    (forall l, ata_sector d' l =
       if decide (lba <= l < lba + Z.of_nat n)
       then take 512 (drop (512 * Z.to_nat (l - lba)) data) else ata_sector d l).
Proof.
  induction n as [|n IH]; intros d lba pre data post Hf Hs Hl Hb; cbn [write_sectors].
  { exists d. split; [done|]. split; [done|]. intros l. by rewrite decide_False by lia. }
  destruct (wait_ready_ok fuel d) as (d1 & -> & Hs1 & Hsm1 & Hd1);
    [by rewrite Hs|pose proof (ata_bound d); lia|]. rewrite decide_False in Hs by lia.
  rewrite Hs in Hs1. cbn [mbind option_bind].
  set (d0 := take 512 data). set (d9 := drop 512 data).
  assert (data = d0 ++ d9) as Hdd by (unfold d0, d9; by rewrite take_drop).
  assert (length d0 = 512 /\ length d9 = 512 * n)%nat as [Hl0 Hl9]
    by (unfold d0, d9; rewrite length_take, length_drop; lia).
  rewrite Hdd in Hb. apply Forall_app in Hb as [Hb0 Hb9]. rewrite Hdd, <- app_assoc.
  destruct (write_words_ok 256 d1 lba (Z.of_nat (S n)) [] pre d0 (d9 ++ post)) as
    (d2 & He & Hd2 & Hs2); [done|done|lia|done|done|constructor|done|].
  rewrite He. cbn [mbind option_bind].
  change (2 * 256)%nat with 512%nat. rewrite app_assoc.
  replace (length pre + 512)%nat with (length (pre ++ d0)) by (rewrite length_app; lia).
  destruct (IH d2 (lba + 1) (pre ++ d0) d9 post) as (d3 & -> & Hs3 & Hd3); [done| |done|done|].
  { rewrite Hs2. case_decide; destruct (Z.eqb_spec (Z.of_nat (S n)) 1); try lia; [done|].
    by replace (Z.of_nat (S n) - 1) with (Z.of_nat n) by lia. }
  exists d3. split; [done|]. split; [done|]. intros l. rewrite Hd3, Hd2, Hsm1.
  destruct (decide (l = lba)) as [->|Hne].
  - rewrite decide_False, decide_True by lia. rewrite Z.sub_diag. change (512 * Z.to_nat 0)%nat with 0%nat.
    by rewrite drop_0, take_app_length' by lia.
  - repeat case_decide; try lia; try done. f_equal.
    replace (512 * Z.to_nat (l - lba))%nat with (length d0 + 512 * Z.to_nat (l - (lba + 1)))%nat by lia.
    by rewrite drop_app_add.
Qed.

Lemma sectors_stored n : forall d lba data,
  length data = (512 * n)%nat ->
  (forall l, lba <= l < lba + Z.of_nat n ->
     ata_sector d l = take 512 (drop (512 * Z.to_nat (l - lba)) data)) ->
  sectors d lba n = data.
Proof.
  induction n as [|n IH]; intros d lba data Hl Hs.
  { destruct data; [done|simpl in Hl; lia]. }
  rewrite sectors_S, Hs, (IH d (lba + 1) (drop 512 data)); [| | |lia].
  - rewrite Z.sub_diag. change (512 * Z.to_nat 0)%nat with 0%nat. by rewrite drop_0, take_drop.
  - rewrite length_drop. lia.
  - intros l Hll. rewrite Hs, drop_drop by lia. do 2 f_equal. lia.
Qed.

(** The two commands, whole. *)
Lemma command_ok d lba n cmd :
  ata_state d = Idle -> cmd = 0x20 \/ cmd = 0x30 -> 0 <= lba -> (0 < n < 256)%nat ->
  lba + Z.of_nat n <= ata_size ->
  let d' := p_outb (select d lba (Z.of_nat n)) 0x1f7 cmd in
  same d d' /\
  ata_state d' = if cmd =? 0x20 then DataIn lba (Z.of_nat n) 0 else DataOut lba (Z.of_nat n) [].
Proof.
  intros Hs Hc Hl Hn Hsz. pose proof ata_lba28.
  destruct (select_ok d lba (Z.of_nat n) Hs) as (S1 & S2 & R6 & R5 & R4 & R3 & R2); [lia..|].
  destruct (ata_command _ cmd lba S1 Hc R6 R5 R4 R3) as [Hst Hsm]; [lia|lia|lia|].
  rewrite R2 in Hst. split; [by eapply same_trans|done].
Qed.

Lemma disk_read_sector_ok fuel d lba n buf :
  (ata_max_delay <= fuel)%nat -> ata_state d = Idle -> 0 <= lba -> (0 < n < 256)%nat ->
  lba + Z.of_nat n <= ata_size -> (512 * n <= length buf)%nat ->
  exists d', disk_read_sector fuel d lba (Z.of_nat n) (Some buf)
      = Some (OK, Some (sectors d lba n ++ drop (512 * n) buf), d') /\
    same d d' /\ ata_state d' = Idle.
Proof.
  intros Hf Hs Hl Hn Hsz Hb. unfold disk_read_sector. rewrite Nat2Z.id.
  destruct (command_ok d lba n 0x20) as [Hsm Hst]; auto.
  destruct (read_sectors_ok fuel n (p_outb (select d lba (Z.of_nat n)) 0x1f7 0x20) lba [] buf)
    as (d' & He & Hsm' & Hs'); [done|by rewrite decide_False by lia|done|].
  change ([] ++ buf) with buf in He. change (Z.of_nat (length [])) with 0 in He. rewrite He.
  exists d'. rewrite (sectors_same d) by done. split; [done|]. split; [by eapply same_trans|done].
Qed.

Lemma disk_write_sector_ok fuel d lba n data post :
  (ata_max_delay <= fuel)%nat -> ata_state d = Idle -> 0 <= lba -> (0 < n < 256)%nat ->
  lba + Z.of_nat n <= ata_size -> length data = (512 * n)%nat -> Forall is_byte data ->
  exists d', disk_write_sector fuel d lba (Z.of_nat n) (Some (data ++ post)) = Some (OK, d') /\
    ata_state d' = Idle /\
    (forall l, ata_sector d' l =
       if decide (lba <= l < lba + Z.of_nat n)
       then take 512 (drop (512 * Z.to_nat (l - lba)) data) else ata_sector d l).
Proof.
  intros Hf Hs Hl Hn Hsz Hd Hb. unfold disk_write_sector. rewrite Nat2Z.id.
  destruct (command_ok d lba n 0x30) as [Hsm Hst]; auto.
  destruct (write_sectors_ok fuel n (p_outb (select d lba (Z.of_nat n)) 0x1f7 0x30) lba [] data post)
    as (d' & He & Hs' & Hd'); [done|by rewrite decide_False by lia|done|done|].
  change ([] ++ data ++ post) with (data ++ post) in He. change (Z.of_nat (length [])) with 0 in He.
  rewrite He. exists d'. split; [done|]. split; [done|]. intros l. rewrite Hd'. by rewrite Hsm.
Qed.

(** The driver is a block device. *)
Section Block.
Context (disk_ptr : Z).

#[local] Instance ata_block : BlockDevice D := {
  bd_read d lba buf :=
    '(res, b, d) ← disk_read_block ata_max_delay disk_ptr disk_ptr d lba 1 (Some buf);
    Some (res, default buf b, d);
  bd_write d lba buf := disk_write_block ata_max_delay disk_ptr disk_ptr d lba 1 (Some buf)
}.

#[local] Program Instance ata_block_laws : BlockLaws D := {
  bd_sector := ata_sector; bd_size := ata_size; bd_ok d := ata_state d = Idle
}.
Next Obligation. intros d lba _. apply ata_len. Qed.
Next Obligation. intros d lba _. apply ata_byte. Qed.
Next Obligation. apply ata_lba28. Qed.
Next Obligation.
  intros d lba buf Hs Hl Hb. simpl. pose proof ata_lba28. unfold disk_read_block.
  rewrite Z.eqb_refl, s32_small by lia. simpl negb. cbv iota.
  destruct (disk_read_sector_ok ata_max_delay d lba 1 buf) as (d' & He & Hsm & Hs'); [done|done|lia..|].
  change (Z.of_nat 1) with 1 in He. rewrite He. exists d'. split; [|done]. simpl.
  unfold sectors. simpl. rewrite app_nil_r, drop_ge, app_nil_r by lia. done.
Qed.
Next Obligation.
  intros d lba buf Hs Hl Hb Hby. simpl. pose proof ata_lba28. unfold disk_write_block.
  rewrite Z.eqb_refl, s32_small by lia. simpl negb. cbv iota.
  destruct (disk_write_sector_ok ata_max_delay d lba 1 buf []) as (d' & He & Hs' & Hd');
    [done|done|lia..|done|]. rewrite app_nil_r in He.
  change (Z.of_nat 1) with 1 in He, Hd'. exists d'. split; [done|]. split; [done|].
  intros l. rewrite Hd'. repeat case_decide; try lia; [|done].
  subst l. rewrite Z.sub_diag. change (512 * Z.to_nat 0)%nat with 0%nat.
  by rewrite drop_0, take_ge by lia.
Qed.

End Block.
End Driver.
End AtaFacts.

(** ** A device that satisfies the protocol laws *)

Module Sim.

Record sim := mk_sim {
  s_sec : gmap Z (list Z); s_reg : gmap Z Z; s_st : ata_phase; s_wait : bool }.

Definition norm (l : list Z) : list Z := map u8 (take 512 (l ++ replicate 512 0)).

Definition sec (d : sim) (l : Z) : list Z := norm (default [] (s_sec d !! l)).

Definition reg (d : sim) (p : Z) : Z := default 0 (s_reg d !! p).

Definition sim_lba (d : sim) : Z :=
  reg d 0x1f6 mod 16 * 2 ^ 24 + reg d 0x1f5 * 2 ^ 16 + reg d 0x1f4 * 2 ^ 8 + reg d 0x1f3.

Definition outb (d : sim) (port v : Z) : sim :=
  if port =? 0x1f7 then
    if v =? 0x20 then mk_sim (s_sec d) (s_reg d) (DataIn (sim_lba d) (reg d 0x1f2) 0) true
    else mk_sim (s_sec d) (s_reg d) (DataOut (sim_lba d) (reg d 0x1f2) []) true
  else mk_sim (s_sec d) (<[port := v]> (s_reg d)) (s_st d) (s_wait d).

Definition insb (d : sim) (port : Z) : Z * sim :=
  (if s_wait d then 0x50 else 0x58, mk_sim (s_sec d) (s_reg d) (s_st d) false).

Definition insw (d : sim) (port : Z) : Z * sim :=
  match s_st d with
  | DataIn lba n w =>
    let st := if w <? 255 then DataIn lba n (w + 1)
              else if n =? 1 then Idle else DataIn (lba + 1) (n - 1) 0 in
    (le_val (take 2 (drop (Z.to_nat (2 * w)) (sec d lba))),
     mk_sim (s_sec d) (s_reg d) st (negb (w <? 255)))
  | _ => (0, d)
  end.

Definition outw (d : sim) (port v : Z) : sim :=
  match s_st d with
  | DataOut lba n acc =>
    let acc' := acc ++ le_bytes 2 v in
    if (length acc' <? 512)%nat
    then mk_sim (s_sec d) (s_reg d) (DataOut lba n acc') (s_wait d)
    else mk_sim (<[lba := acc']> (s_sec d)) (s_reg d)
           (if n =? 1 then Idle else DataOut (lba + 1) (n - 1) []) true
  | _ => d
  end.

#[export] Instance sim_ports : PortIO sim :=
  { p_outb := outb; p_outw := outw; p_insb := insb; p_insw := insw }.

Lemma length_norm l : length (norm l) = 512%nat.
Proof. unfold norm. rewrite length_map, length_take, length_app, length_replicate. lia. Qed.

Lemma norm_byte l : Forall is_byte (norm l).
Proof. unfold norm. apply List.Forall_map, Forall_true. intros x. apply u8_range. Qed.

Lemma norm_id l : length l = 512%nat -> Forall is_byte l -> norm l = l.
Proof.
  intros Hl Hb. unfold norm. rewrite take_app_length' by done. rewrite <- (map_id l) at 2.
  apply map_ext_Forall. eapply Forall_impl; [done|]. intros x Hx. by apply u8_small.
Qed.

#[export] Program Instance sim_laws : AtaLaws sim := {
  ata_state := s_st; ata_reg := reg; ata_sector := sec; ata_size := 2 ^ 22;
  ata_delay d := if s_wait d then 1%nat else 0%nat; ata_max_delay := 2
}.
Next Obligation. intros. apply length_norm. Qed.
Next Obligation. intros. apply norm_byte. Qed.
Next Obligation. lia. Qed.
Next Obligation. intros d. simpl. destruct (s_wait d); lia. Qed.
Next Obligation.
  intros d port v Hs Hp Hv. simpl. unfold outb.
  rewrite (proj2 (Z.eqb_neq port 0x1f7)) by lia. split; [done|]. split; [done|].
  intros q. unfold reg. simpl. rewrite lookup_insert. by repeat case_decide; subst.
Qed.
Next Obligation.
  intros d cmd lba Hs Hc R6 R5 R4 R3 R2 Hl Hsz. simpl.
  assert (sim_lba d = lba) as Hlba.
  { unfold sim_lba. rewrite R6, R5, R4, R3. change (2 ^ 24) with 16777216.
    change (2 ^ 16) with 65536. change (2 ^ 8) with 256. zlia. }
  unfold outb. simpl. destruct Hc as [-> | ->]; simpl; by rewrite Hlba.
Qed.
Next Obligation.
  intros d v d' Hs [= <- <-]. split; [done|]. split; [done|]. destruct (s_wait d); simpl.
  - right. split; [done|lia].
  - by left.
Qed.
Next Obligation.
  intros d lba left w v d' Hs Hw Hd. simpl. unfold insw. rewrite Hs. intros [= <- <-].
  set (l := take 2 _). assert (length l = 2%nat) as Hl.
  { unfold l, sec. rewrite length_take, length_drop, length_norm. lia. }
  assert (Forall is_byte l) as Hb by (apply Forall_take, Forall_drop, norm_byte).
  split; [done|]. split; [|split; [|done]].
  - pose proof (le_bytes_val l Hb) as Hv. by rewrite Hl in Hv.
  - pose proof (le_val_range l Hb) as Hr. rewrite Hl in Hr. done.
Qed.
Next Obligation.
  intros d lba left acc k v Hs Hd Hl Hb Hv. simpl. unfold outw. rewrite Hs.
  destruct (_ <? 512)%nat eqn:Hlt; [done|]. split; [done|]. intros q. unfold sec. simpl.
  rewrite lookup_insert. repeat case_decide; try congruence. simpl.
  apply norm_id; [|apply Forall_app_2; [done|apply (le_bytes_is_byte 2 v)]].
  apply Nat.ltb_ge in Hlt. rewrite length_app in *. simpl in *. lia.
Qed.

End Sim.

(** ** The theorems of the disk layer *)

Module DiskProps.
Import Ata Streamer StreamFacts AtaFacts.

Section Streams.
Context `{BL : BlockLaws D}.

(** C23: streamer_read terminates and returns exactly the [total] bytes of the
    device from the stream position on, for reads inside one sector, across
    sector borders and of no bytes at all; the position advances by [total] and
    the device is unchanged. *)
Theorem streamer_read_correct stack_buf d s out total :
  length stack_buf = 512%nat -> bd_ok d -> 0 <= pos s -> 0 <= total ->
  pos s + total < 2 ^ 31 -> (pos s + total) / 512 < bd_size ->
  0 < out -> out + total < 2 ^ 32 ->
  exists d', streamer_read stack_buf d s out total
      = Some (OK, bytes_of d (pos s) total, mk_stream (pos s + total) (disk s), d') /\
    bd_ok d' /\ same_disk d d'.
Proof.
  intros. apply streamer_read_ok; try done; try lia. unfold NULL. lia.
Qed.

(** C22: streamer_write terminates and stores exactly the given bytes from the
    stream position on, whatever the uninitialised sector buffer held: every
    other byte of the device, in the partially written sectors too, keeps its
    value. *)
Theorem streamer_write_correct stack_buf stack_res d s data rest :
  let total := Z.of_nat (length data) in
  length stack_buf = 512%nat -> bd_ok d -> Forall is_byte (data ++ rest) ->
  0 <= pos s -> pos s + total < 2 ^ 31 -> (pos s + total) / 512 < bd_size ->
  exists d', streamer_write stack_buf stack_res d s (Some (data ++ rest)) total
      = Some (OK, mk_stream (pos s + total) (disk s), d') /\
    bd_ok d' /\
    forall x, 0 <= x -> byte_at d' x =
      if decide (pos s <= x < pos s + total)
      then default 0 (data !! Z.to_nat (x - pos s)) else byte_at d x.
Proof. intros total Hsb Hd Hb Hp Hpt Hsz. apply streamer_write_ok; try done. lia. Qed.

(** A failed read of the sector in [streamer_write]: the status returned is the
    value of an uninitialised variable, not the error. *)
Lemma streamer_write_read_error stack_buf stack_res d s inp total res buf d' :
  0 < total < 512 -> pos s = 0 ->
  bd_read d 0 stack_buf = Some (res, buf, d') -> res < 0 ->
  streamer_write stack_buf stack_res d s (Some inp) total = Some (stack_res, s, d').
Proof.
  intros Ht Hp Hr Hneg. unfold streamer_write. simpl. rewrite Hp.
  change TOYOS_SECTOR_SIZE with 512. change (Z.quot 0 512) with 0. change (Z.rem 0 512) with 0.
  rewrite (proj2 (Z.ltb_ge total 0)), s32_small by lia.
  rewrite (proj2 (Z.leb_gt 512 (0 + total))), (proj2 (Z.eqb_neq total 512)) by lia. simpl.
  rewrite Hr. simpl. by rewrite (proj2 (Z.ltb_lt res 0)).
Qed.

End Streams.

(** C24: the programmed-I/O driver is correct against the ATA protocol: sectors
    written by disk_write_sector are read back unchanged by disk_read_sector,
    no other sector changes, both commands terminate when the device answers
    within [fuel] status polls, and the device is idle again afterwards. *)
Theorem ata_write_read_roundtrip `{AL : AtaLaws D} fuel d lba n data buf :
  (ata_max_delay <= fuel)%nat -> ata_state d = Idle -> 0 <= lba -> (0 < n < 256)%nat ->
  lba + Z.of_nat n <= ata_size -> length data = (512 * n)%nat -> Forall is_byte data ->
  length buf = (512 * n)%nat ->
  exists d1 d2,
    disk_write_sector fuel d lba (Z.of_nat n) (Some data) = Some (OK, d1) /\
    disk_read_sector fuel d1 lba (Z.of_nat n) (Some buf) = Some (OK, Some data, d2) /\
    ata_state d2 = Idle /\
    forall l, ~ lba <= l < lba + Z.of_nat n -> ata_sector d2 l = ata_sector d l.
Proof.
  intros Hf Hs Hl Hn Hsz Hd Hb Hbuf.
  destruct (disk_write_sector_ok fuel d lba n data []) as (d1 & Hw & Hs1 & Hd1); [done..|].
  rewrite app_nil_r in Hw.
  destruct (disk_read_sector_ok fuel d1 lba n buf) as (d2 & Hr & Hsm & Hs2); [done..|lia|].
  exists d1, d2. split; [done|]. split; [|split; [done|]].
  - rewrite Hr, drop_ge, app_nil_r by lia. do 4 f_equal.
    apply sectors_stored; [done|]. intros l Hll. rewrite Hd1, decide_True by lia. done.
  - intros l Hnl. by rewrite Hsm, Hd1, decide_False.
Qed.

(** *** Instances on the simulated device *)

Import Sim.

Definition fresh_disk : sim := mk_sim ∅ ∅ Idle false.

Lemma ata_write_read_roundtrip_witness :
  exists d1 d2,
    disk_write_sector 2 fresh_disk 5 (Z.of_nat 2) (Some (replicate 1024 0x41)) = Some (OK, d1) /\
    disk_read_sector 2 d1 5 (Z.of_nat 2) (Some (replicate 1024 0))
      = Some (OK, Some (replicate 1024 0x41), d2) /\
    ata_state d2 = Idle /\
    forall l, ~ 5 <= l < 5 + Z.of_nat 2 -> ata_sector d2 l = ata_sector fresh_disk l.
Proof.
  apply (ata_write_read_roundtrip 2 fresh_disk 5 2 (replicate 1024 0x41) (replicate 1024 0));
    try reflexivity; try lia.
  - simpl. lia.
  - apply Forall_replicate. unfold is_byte. lia.
Defined.

#[local] Existing Instance ata_block.
#[local] Existing Instance ata_block_laws.

Lemma streamer_read_correct_witness :
  exists d', @streamer_read _ (ata_block 1) (replicate 512 0) fresh_disk (mk_stream 500 1) 0x1000 100
      = Some (OK, @bytes_of _ _ (ata_block_laws 1) fresh_disk 500 100, mk_stream 600 1, d') /\
    s_st d' = Idle /\ @same_disk _ _ (ata_block_laws 1) fresh_disk d'.
Proof.
  refine (@streamer_read_correct _ _ (ata_block_laws 1) (replicate 512 0) fresh_disk
    (mk_stream 500 1) 0x1000 100 _ _ _ _ _ _ _ _); try reflexivity; simpl; lia.
Defined.

Lemma streamer_write_correct_witness :
  exists d', @streamer_write _ (ata_block 1) (replicate 512 7) 0 fresh_disk (mk_stream 510 1)
      (Some ([1; 2; 3; 4] ++ [])) 4 = Some (OK, mk_stream 514 1, d') /\
    s_st d' = Idle /\
    forall x, 0 <= x -> @byte_at _ _ (ata_block_laws 1) d' x =
      if decide (510 <= x < 514) then default 0 ([1; 2; 3; 4] !! Z.to_nat (x - 510))
      else @byte_at _ _ (ata_block_laws 1) fresh_disk x.
Proof.
  refine (@streamer_write_correct _ _ (ata_block_laws 1) (replicate 512 7) 0 fresh_disk
    (mk_stream 510 1) [1; 2; 3; 4] [] _ _ _ _ _ _); try reflexivity; simpl; try lia.
  repeat apply List.Forall_cons; try (unfold is_byte; lia). apply List.Forall_nil.
Defined.

End DiskProps.
