(* ===== verification/Cpu.v ===== *)
(** * Processor tables and the interrupt controller: gdt.c, the descriptors of
    idt.c, pic8259.c

    A segment descriptor is an object of 8 bytes, an interrupt gate a record.
    The interrupt controllers are behind the port interface of Disk.v. *)

From S2P Require Import Prelude CLib Disk.

Definition TOYOS_CODE_SELECTOR : Z := 0x08.
Definition TOYOS_TOTAL_GDT_SEGMENTS : Z := 6.
Definition TOYOS_TOTAL_INTERRUPTS : Z := 512.

(** ** Segment descriptors *)

Module Gdt.

Record gdt_structured := mk_gdt { g_base : Z; g_limit : Z; g_type : Z }.

(** [target] is the descriptor's storage; [None] is [panick]. *)
Definition encode_gdt_entry (target : list Z) (source : gdt_structured) : option (list Z) :=
  let limit := g_limit source in
  if (65536 <? limit) && negb (Z.land limit 0xfff =? 0xfff) then None
  else
    target ← wr target 6 0x40;
    '(limit, target) ← (if 65536 <? limit
                        then target ← wr target 6 0xc0; Some (Z.shiftr limit 12, target)
                        else Some (limit, target));
    target ← wr target 0 (Z.land limit 0xff);
    target ← wr target 1 (Z.land (Z.shiftr limit 8) 0xff);
    flags ← rd target 6;
    target ← wr target 6 (Z.lor flags (Z.land (Z.shiftr limit 16) 0x0f));
    target ← wr target 2 (Z.land (g_base source) 0xff);
    target ← wr target 3 (Z.land (Z.shiftr (g_base source) 8) 0xff);
    target ← wr target 4 (Z.land (Z.shiftr (g_base source) 16) 0xff);
    target ← wr target 7 (Z.land (Z.shiftr (g_base source) 24) 0xff);
    wr target 5 (g_type source).

(** [gdt] and [structured_gdt] from entry [i] on, [n] entries left. *)
Fixpoint gdt_structured_to_gdt (gdt : list (list Z)) (structured_gdt : list gdt_structured) (n : nat)
    : option (list (list Z)) :=
  match n with
  | O => Some gdt
  | S n' =>
    match gdt, structured_gdt with
    | target :: gdt', source :: structured' =>
      target ← encode_gdt_entry target source;
      gdt' ← gdt_structured_to_gdt gdt' structured' n';
      Some (target :: gdt')
    | _, _ => None
    end
  end.

(** The table of kernel.c; [tss] is the address of the task state segment,
    [sizeof_tss] its size. *)
Definition kernel_segments (tss : Z) (sizeof_tss : Z) : list gdt_structured :=
  [mk_gdt 0 0 0; mk_gdt 0 0xffffffff 0x9a; mk_gdt 0 0xffffffff 0x92; mk_gdt 0 0xffffffff 0xf8;
   mk_gdt 0 0xffffffff 0xf2; mk_gdt tss sizeof_tss 0xe9].

End Gdt.

(** ** Interrupt gates *)

Module Gate.

Record idt_desc := mk_desc { offset_1 : Z; selector : Z; zero : Z; type_attr : Z; offset_2 : Z }.

Definition zero_desc : idt_desc := mk_desc 0 0 0 0 0.

(** [idt_set] for the entry [interrupt_no] of the table *)
Definition idt_set (t : list idt_desc) (interrupt_no address : Z) : option (list idt_desc) :=
  if decide (0 <= interrupt_no < Z.of_nat (length t))
  then Some (<[Z.to_nat interrupt_no :=
    mk_desc (Z.land (u32 address) 0x0000ffff) TOYOS_CODE_SELECTOR 0x00 0xee (Z.shiftr (u32 address) 16)]> t)
  else None.

End Gate.

(** ** The 8259 controllers *)

Module Pic.

Definition PIC1_COMMAND : Z := 0x20.
Definition PIC1_DATA : Z := 0x21.
Definition PIC2_COMMAND : Z := 0xa0.
Definition PIC2_DATA : Z := 0xa1.
Definition PIC_EOI : Z := 0x20.
Definition ICW1_ICW4 : Z := 0x01.
Definition ICW1_INIT : Z := 0x10.
Definition ICW4_8086 : Z := 0x01.
Definition PIC_READ_IRR : Z := 0x0a.
Definition PIC_READ_ISR : Z := 0x0b.
Definition PIC_MASTER_OFFSET : Z := 0x20.
Definition PIC_SLAVE_OFFSET : Z := 0x28.

Section Ops.
Context `{PortIO D}.

Definition io_wait (d : D) : D := p_outb d 0x80 0.

Definition pic_remap (offset1 offset2 : Z) (d : D) : D :=
  let d := io_wait (p_outb d PIC1_COMMAND (Z.lor ICW1_INIT ICW1_ICW4)) in
  let d := io_wait (p_outb d PIC2_COMMAND (Z.lor ICW1_INIT ICW1_ICW4)) in
  let d := io_wait (p_outb d PIC1_DATA (u8 offset1)) in
  let d := io_wait (p_outb d PIC2_DATA (u8 offset2)) in
  let d := io_wait (p_outb d PIC1_DATA 4) in
  let d := io_wait (p_outb d PIC2_DATA 2) in
  let d := io_wait (p_outb d PIC1_DATA ICW4_8086) in
  let d := io_wait (p_outb d PIC2_DATA ICW4_8086) in
  let d := p_outb d PIC1_DATA 0x00 in
  p_outb d PIC2_DATA 0x00.

(** [irq] is a [uint8_t]. *)
Definition pic_send_eoi (irq : Z) (d : D) : D :=
  let d := if 8 <=? u8 irq then p_outb d PIC2_COMMAND PIC_EOI else d in
  p_outb d PIC1_COMMAND PIC_EOI.

Definition irq_set_mask (irq_line : Z) (d : D) : D :=
  let '(port, irq_line) := if irq_line <? 8 then (PIC1_DATA, irq_line) else (PIC2_DATA, irq_line - 8) in
  let '(v, d) := p_insb d port in
  p_outb d port (u8 (Z.lor v (Z.shiftl 1 irq_line))).

Definition irq_clear_mask (irq_line : Z) (d : D) : D :=
  let '(port, irq_line) := if irq_line <? 8 then (PIC1_DATA, irq_line) else (PIC2_DATA, irq_line - 8) in
  let '(v, d) := p_insb d port in
  p_outb d port (u8 (Z.land v (Z.lnot (Z.shiftl 1 irq_line)))).

Definition pic_disable (d : D) : D := p_outb (p_outb d PIC1_DATA 0xff) PIC2_DATA 0xff.

Definition pic_get_irq_reg (ocw3 : Z) (d : D) : Z * D :=
  let d := p_outb d PIC1_COMMAND ocw3 in
  let d := p_outb d PIC2_COMMAND ocw3 in
  let '(hi, d) := p_insb d PIC2_COMMAND in
  let '(lo, d) := p_insb d PIC1_COMMAND in
  (u16 (Z.lor (Z.shiftl hi 8) lo), d).

Definition pic_get_irr (d : D) : Z * D := pic_get_irq_reg PIC_READ_IRR d.

Definition pic_get_isr (d : D) : Z * D := pic_get_irq_reg PIC_READ_ISR d.

Definition pic_init (d : D) : D := pic_remap PIC_MASTER_OFFSET PIC_SLAVE_OFFSET d.

End Ops.
End Pic.

(** ** What the processor reads *)

Module CpuFacts.
Import Gdt Gate.

(** A segment descriptor as the processor decodes it: base, limit in bytes and
    access byte; bit 7 of byte 6 says that the limit counts pages. *)
Definition decode_segment (l : list Z) : Z * Z * Z :=
  let b i := nth i l 0 in
  let limit := b 0%nat + 256 * b 1%nat + 65536 * (b 6%nat mod 16) in
  (b 2%nat + 256 * b 3%nat + 65536 * b 4%nat + 16777216 * b 7%nat,
   (if 128 <=? b 6%nat then 4096 * limit + 4095 else limit), b 5%nat).

(** The address of a gate *)
Definition gate_address (g : idt_desc) : Z := offset_1 g + 65536 * offset_2 g.

(** What [encode_gdt_entry] can represent *)
Definition segment_ok (s : gdt_structured) : Prop :=
  0 <= g_base s < 2 ^ 32 /\ 0 <= g_limit s < 2 ^ 32 /\ 0 <= g_type s < 256 /\
  (g_limit s <= 65536 \/ g_limit s mod 4096 = 4095).

Lemma shiftr_byte z k : 0 <= k -> Z.land (Z.shiftr z k) 0xff = z / 2 ^ k mod 256.
Proof. intros. by rewrite land_ff, Z.shiftr_div_pow2. Qed.

Lemma stores_eq t0 t1 t2 t3 t4 t5 t6 t7 fl l0 l1 nib b0 b1 b2 b3 ty :
  (target ← wr [t0; t1; t2; t3; t4; t5; t6; t7] 6 fl;
   target ← wr target 0 l0;
   target ← wr target 1 l1;
   flags ← rd target 6;
   target ← wr target 6 (Z.lor flags nib);
   target ← wr target 2 b0;
   target ← wr target 3 b1;
   target ← wr target 4 b2;
   target ← wr target 7 b3;
   wr target 5 ty) = Some [u8 l0; u8 l1; u8 b0; u8 b1; u8 b2; u8 ty; u8 (Z.lor (u8 fl) nib); u8 b3].
Proof. reflexivity. Qed.

(** The stores leave these bytes. *)
Lemma encode_gdt_entry_bytes t0 t1 t2 t3 t4 t5 t6 t7 s :
  segment_ok s ->
  let big := 65536 <? g_limit s in
  let limit := if big then g_limit s / 4096 else g_limit s in
  encode_gdt_entry [t0; t1; t2; t3; t4; t5; t6; t7] s =
    Some [limit mod 256; limit / 256 mod 256; g_base s mod 256; g_base s / 256 mod 256;
      g_base s / 65536 mod 256; g_type s; (if big then 0xc0 else 0x40) + limit / 65536 mod 16;
      g_base s / 16777216 mod 256].
Proof.
  intros (Hb & Hl & Ht & Hp) big limit. unfold encode_gdt_entry. fold big.
  replace (big && negb (Z.land (g_limit s) 0xfff =? 0xfff)) with false; last first.
  { unfold big. change 0xfff with (Z.ones 12). rewrite Z.land_ones by lia. change (2 ^ 12) with 4096.
    destruct (Z.ltb_spec 65536 (g_limit s)), (Z.eqb_spec (g_limit s mod 4096) (Z.ones 12)) as [|Hne]; try done.
    exfalso. apply Hne. change (Z.ones 12) with 4095. lia. }
  assert (0 <= limit < 2 ^ 20) as Hlim.
  { unfold limit, big. destruct (Z.ltb_spec 65536 (g_limit s)); zlia. }
  assert (Hnib : Z.land (Z.shiftr limit 16) 0x0f = limit / 65536 mod 16).
  { change 0x0f with (Z.ones 4). rewrite Z.land_ones, Z.shiftr_div_pow2 by lia. done. }
  assert (Hor : forall c, c mod 16 = 0 -> Z.lor c (limit / 65536 mod 16) = c + limit / 65536 mod 16).
  { intros c Hc. apply (lor_low _ _ 4); [lia|done|]. zlia. }
  assert (Hfl : forall c, c = 0x40 \/ c = 0xc0 ->
    u8 (Z.lor (u8 c) (limit / 65536 mod 16)) = c + limit / 65536 mod 16).
  { intros c Hc. rewrite (u8_small c) by lia. rewrite Hor by (destruct Hc as [-> | ->]; done). apply u8_small. zlia. }
  destruct big.
  - change (wr [t0; t1; t2; t3; t4; t5; t6; t7] 6 0x40) with (Some [t0; t1; t2; t3; t4; t5; 0x40; t7]).
    cbn [mbind option_bind]. replace (Z.shiftr (g_limit s) 12) with limit by (rewrite Z.shiftr_div_pow2 by lia; done).
    etransitivity; [apply stores_eq|]. rewrite Hnib, !shiftr_byte, !land_ff by lia.
    rewrite (Hfl 0xc0 (or_intror eq_refl)). by rewrite !u8_small by zlia.
  - change (g_limit s) with limit. etransitivity; [apply stores_eq|]. rewrite Hnib, !shiftr_byte, !land_ff by lia.
    rewrite (Hfl 0x40 (or_introl eq_refl)). by rewrite !u8_small by zlia.
Qed.

Lemma base_bytes z : 0 <= z < 2 ^ 32 ->
  z mod 256 + 256 * (z / 256 mod 256) + 65536 * (z / 65536 mod 256) + 16777216 * (z / 16777216 mod 256) = z.
Proof. intros. zlia. Qed.

Lemma encode_decode t s :
  length t = 8%nat -> segment_ok s ->
  exists t', encode_gdt_entry t s = Some t' /\ length t' = 8%nat /\
    decode_segment t' = (g_base s, g_limit s, g_type s).
Proof.
  intros Ht Hs. destruct t as [|t0 [|t1 [|t2 [|t3 [|t4 [|t5 [|t6 [|t7 [|]]]]]]]]]; try done.
  rewrite encode_gdt_entry_bytes by done. eexists. split; [reflexivity|]. split; [done|].
  destruct Hs as (Hb & Hl & Hty & Hp). unfold decode_segment. cbn [nth]. rewrite base_bytes by done.
  f_equal. f_equal. destruct (Z.ltb_spec 65536 (g_limit s)) as [Hbig|Hsmall].
  - rewrite (proj2 (Z.leb_le 128 _)) by zlia. assert (g_limit s mod 4096 = 4095) by lia. zlia.
  - rewrite (proj2 (Z.leb_gt 128 _)) by zlia. zlia.
Qed.

Lemma idt_set_address t i a :
  0 <= i < Z.of_nat (length t) -> 0 <= a < 2 ^ 32 ->
  exists t', idt_set t i a = Some t' /\ length t' = length t /\
    (gate_address <$> t' !! Z.to_nat i) = Some a /\
    forall j, j <> Z.to_nat i -> t' !! j = t !! j.
Proof.
  intros Hi Ha. unfold idt_set. rewrite decide_True by done. eexists. split; [reflexivity|].
  rewrite length_insert. split; [done|]. split.
  - rewrite list_lookup_insert_eq by lia. cbn. f_equal. unfold gate_address. cbn. rewrite u32_small by lia.
    change 0xffff with (Z.ones 16). rewrite Z.land_ones, Z.shiftr_div_pow2 by lia. zlia.
  - intros j Hj. by rewrite list_lookup_insert_ne.
Qed.

End CpuFacts.

Module CpuProps.
Import Gdt CpuFacts.

(** The descriptor table the kernel builds says what its source says: every
    segment of the structured table is encoded, and the processor decodes from
    the 8 bytes of its descriptor the same base, limit and access byte. *)
Theorem gdt_encode_decode gdt structured :
  length gdt = length structured -> Forall (fun t => length t = 8%nat) gdt -> Forall segment_ok structured ->
  exists gdt', gdt_structured_to_gdt gdt structured (length structured) = Some gdt' /\
    map decode_segment gdt' = map (fun s => (g_base s, g_limit s, g_type s)) structured.
Proof.
  revert gdt. induction structured as [|s structured IH]; intros [|t gdt] Hl Ht Hs; try done.
  { by exists []. }
  apply Forall_cons in Ht as [Ht0 Ht]. apply Forall_cons in Hs as [Hs0 Hs].
  destruct (encode_decode t s Ht0 Hs0) as (t' & E & _ & Hd).
  destruct (IH gdt) as (gdt' & E' & Hm); [cbn in Hl; lia|done..|].
  exists (t' :: gdt'). cbn. rewrite E. cbn. rewrite E'. cbn. rewrite Hd. by rewrite Hm.
Qed.

(** The table of the kernel, with its task state segment of 104 bytes. *)
Lemma gdt_encode_decode_witness :
  exists gdt', gdt_structured_to_gdt (replicate 6 (replicate 8 0)) (kernel_segments 0x10f000 104) 6 = Some gdt' /\
    map decode_segment gdt' = [(0, 0, 0); (0, 0xffffffff, 0x9a); (0, 0xffffffff, 0x92); (0, 0xffffffff, 0xf8);
      (0, 0xffffffff, 0xf2); (0x10f000, 104, 0xe9)].
Proof.
  apply (gdt_encode_decode (replicate 6 (replicate 8 0)) (kernel_segments 0x10f000 104)).
  - reflexivity.
  - repeat constructor.
  - repeat (constructor; [repeat split; vm_compute; (discriminate || (left; discriminate) || (right; reflexivity))|]).
    constructor.
Defined.

End CpuProps.
