(* ===== verification/Terminal.v ===== *)
(** * The console: terminal.c, printf.c and the printing of kernel.c

    The screen buffer is a map from [y * VGA_WIDTH + x] to 16-bit cells, an
    access outside of the array is a fault; [vga] is the text memory of the
    display at 0xb8000, [video_mem] the pointer to it.  The cursor registers are
    behind the port interface of Disk.v.  The static buffers of [itoa] and
    [itoa_hex] are part of the state. *)

From S2P Require Import Prelude CLib Disk.
Import Str.
#[local] Open Scope prog_scope.

Definition VGA_WIDTH : Z := 80.
Definition VGA_HEIGHT : Z := 25.
Definition VGA_CMD_PORT : Z := 0x3d4.
Definition VGA_DATA_PORT : Z := 0x3d5.
Definition VGA_CURSOR_HIGH : Z := 0x0e.
Definition VGA_CURSOR_LOW : Z := 0x0f.
Definition VGA_COLOR_BLUE : Z := 1.
Definition VGA_COLOR_RED : Z := 4.
Definition VGA_COLOR_LIGHT_BROWN : Z := 14.
Definition VGA_COLOR_WHITE : Z := 15.

Module Terminal.

Record console (D : Type) := mk_con {
  video_mem : Z; vga : gmap Z Z; terminal_row : Z; terminal_col : Z; screen_buffer : gmap Z Z;
  itoa_text : list Z; hex_text : list Z; ports : D }.

Arguments mk_con {D}.
Arguments video_mem {D}.
Arguments vga {D}.
Arguments terminal_row {D}.
Arguments terminal_col {D}.
Arguments screen_buffer {D}.
Arguments itoa_text {D}.
Arguments hex_text {D}.
Arguments ports {D}.

(** [(color << 8) | c] on two [char]s *)
Definition terminal_make_char (c color : Z) : Z := u16 (Z.lor (Z.shiftl (s8 color) 8) (s8 c)).

Section Ops.
Context {D : Type} `{PortIO D}.

Abbreviation T := (M (console D)).

Definition set_vga (v : gmap Z Z) (s : console D) : console D :=
  mk_con (video_mem s) v (terminal_row s) (terminal_col s) (screen_buffer s) (itoa_text s) (hex_text s) (ports s).

Definition set_screen (b : gmap Z Z) (s : console D) : console D :=
  mk_con (video_mem s) (vga s) (terminal_row s) (terminal_col s) b (itoa_text s) (hex_text s) (ports s).

Definition set_cursor (row col : Z) (s : console D) : console D :=
  mk_con (video_mem s) (vga s) row col (screen_buffer s) (itoa_text s) (hex_text s) (ports s).

Definition set_text (t h : list Z) (s : console D) : console D :=
  mk_con (video_mem s) (vga s) (terminal_row s) (terminal_col s) (screen_buffer s) t h (ports s).

Definition set_ports (d : D) (s : console D) : console D :=
  mk_con (video_mem s) (vga s) (terminal_row s) (terminal_col s) (screen_buffer s) (itoa_text s) (hex_text s) d.

Definition outb (port v : Z) : T unit := modify (fun s => set_ports (p_outb (ports s) port v) s).

Definition insb (port : Z) : T Z := fun s =>
  let '(v, d) := p_insb (ports s) port in Some (v, set_ports d s).

Definition set_row (r : Z) : T unit := modify (fun s => set_cursor r (terminal_col s) s).

Definition set_col (c : Z) : T unit := modify (fun s => set_cursor (terminal_row s) c s).

(** [screen_buffer[y][x]] *)
Definition in_screen (y x : Z) : bool := (0 <=? y) && (y <? VGA_HEIGHT) && (0 <=? x) && (x <? VGA_WIDTH).

Definition buffer_get (y x : Z) : T Z :=
  let! s := get in
  if in_screen y x then ret (default 0 (screen_buffer s !! (y * VGA_WIDTH + x))) else fault.

Definition buffer_set (y x v : Z) : T unit :=
  if in_screen y x then modify (fun s => set_screen (<[y * VGA_WIDTH + x := v]> (screen_buffer s)) s) else fault.

(** [video_mem[i] = v]; a write through the null pointer is a fault *)
Definition video_set (i v : Z) : T unit :=
  let! s := get in
  if video_mem s =? NULL then fault else modify (set_vga (<[i := v]> (vga s))).

Definition terminal_get_cursor_position : T Z :=
  outb VGA_CMD_PORT 0x0f ;!
  let! low := insb VGA_DATA_PORT in
  let pos := Z.lor 0 low in
  outb VGA_CMD_PORT 0x0e ;!
  let! high := insb VGA_DATA_PORT in
  ret (u16 (Z.lor pos (Z.shiftl high 8))).

Definition terminal_disable_cursor : T unit :=
  outb VGA_CMD_PORT 0x0a ;!
  outb VGA_DATA_PORT 0x20.

Definition terminal_enable_cursor (cursor_start cursor_end : Z) : T unit :=
  outb VGA_CMD_PORT 0x0a ;!
  let! v := insb VGA_DATA_PORT in
  outb VGA_DATA_PORT (u8 (Z.lor (Z.land v 0xc0) cursor_start)) ;!
  outb VGA_CMD_PORT 0x0b ;!
  let! v := insb VGA_DATA_PORT in
  outb VGA_DATA_PORT (u8 (Z.lor (Z.land v 0xe0) cursor_end)).

Definition terminal_putchar (x y c color : Z) : T unit :=
  video_set (y * VGA_WIDTH + x) (terminal_make_char c color).

Definition terminal_buffer_putchar (x y c color : Z) : T unit :=
  buffer_set y x (terminal_make_char c color).

Definition terminal_update_vga_memory : T unit :=
  for_loop 25 0 (fun y => for_loop 80 0 (fun x =>
    let! v := buffer_get y x in video_set (y * VGA_WIDTH + x) v)).

Definition terminal_scroll : T unit :=
  for_loop 24 1 (fun y => for_loop 80 0 (fun x => let! v := buffer_get y x in buffer_set (y - 1) x v)) ;!
  for_loop 80 0 (fun x => buffer_set (VGA_HEIGHT - 1) x
    (terminal_make_char 32 (Z.lor (Z.shiftl VGA_COLOR_BLUE 4) VGA_COLOR_WHITE))) ;!
  set_row (VGA_HEIGHT - 1).

Definition terminal_update_cursor : T unit :=
  let! s := get in
  let position := u16 (terminal_row s * VGA_WIDTH + terminal_col s) in
  outb VGA_CMD_PORT VGA_CURSOR_LOW ;!
  outb VGA_DATA_PORT (u8 (Z.land position 0xff)) ;!
  outb VGA_CMD_PORT VGA_CURSOR_HIGH ;!
  outb VGA_DATA_PORT (u8 (Z.land (Z.shiftr position 8) 0xff)).

(** [if (terminal_row >= VGA_HEIGHT) terminal_scroll();] *)
Definition scroll_if_needed : T unit :=
  let! s := get in if VGA_HEIGHT <=? terminal_row s then terminal_scroll else ret tt.

(** The body of [terminal_writechar], with the function it calls for a
    backspace as an argument: [terminal_writechar] and [terminal_backspace] call
    each other. *)
Definition writechar_with (backspace : T unit) (c fg bg : Z) : T unit :=
  let! s := get in
  (if c =? 10 then
     set_row (u16 (terminal_row s + 1)) ;!
     set_col 0 ;!
     scroll_if_needed
   else if c =? 8 then backspace
   else
     terminal_buffer_putchar (terminal_col s) (terminal_row s) c
       (Z.lor (Z.shiftl (Z.land bg 0x0f) 4) (Z.land fg 0x0f)) ;!
     set_col (u16 (terminal_col s + 1)) ;!
     let! s := get in
     if VGA_WIDTH <=? terminal_col s then
       set_col 0 ;!
       set_row (u16 (terminal_row s + 1)) ;!
       scroll_if_needed
     else ret tt) ;!
  terminal_update_vga_memory.

Definition backspace_with (writechar : Z -> Z -> Z -> T unit) : T unit :=
  let! s := get in
  if (terminal_row s =? 0) && (terminal_col s =? 0) then ret tt
  else
    (if terminal_col s =? 0 then
       set_row (u16 (terminal_row s - 1)) ;! set_col VGA_WIDTH
     else ret tt) ;!
    let! s := get in
    set_col (u16 (terminal_col s - 1)) ;!
    writechar 32 VGA_COLOR_WHITE VGA_COLOR_BLUE ;!
    let! s := get in
    set_col (u16 (terminal_col s - 1)).

(** A blank is no backspace, so one unfolding of the recursion is enough (see
    [terminal_backspace_eq]). *)
Definition terminal_backspace : T unit := backspace_with (writechar_with fault).

Definition terminal_writechar : Z -> Z -> Z -> T unit := writechar_with terminal_backspace.

Definition terminal_clear_all : T unit :=
  for_loop 25 0 (fun y => for_loop 80 0 (fun x =>
    terminal_buffer_putchar x y 32 (Z.lor (Z.shiftl (Z.land VGA_COLOR_BLUE 0x0f) 4) (Z.land VGA_COLOR_BLUE 0x0f)) ;!
    let! v := buffer_get y x in
    video_set (y * VGA_WIDTH + x) v)) ;!
  set_row 0 ;!
  set_col 0.

Definition terminal_init : T unit :=
  modify (fun s => mk_con 0xb8000 (vga s) (terminal_row s) (terminal_col s) (screen_buffer s)
    (itoa_text s) (hex_text s) (ports s)) ;!
  terminal_enable_cursor 15 15 ;!
  terminal_clear_all.

(** ** printf.c *)

(** A variable argument: an [int] or a string. *)
Inductive arg := AInt (i : Z) | AStr (s : list Z).

Definition print (str : list Z) (fg bg : Z) : T unit :=
  let! len := lift (strlen str) in
  for_loop (Z.to_nat len) 0 (fun i => let! c := lift (rd str i) in terminal_writechar c fg bg).

Definition call_itoa (i : Z) : T (list Z) :=
  let! s := get in
  let! (t, loc) := lift (itoa (itoa_text s) i) in
  modify (set_text t (hex_text s)) ;!
  ret (drop (Z.to_nat loc) t).

Definition call_itoa_hex (i : Z) : T (list Z) :=
  let! s := get in
  let! (t, loc) := lift (itoa_hex (hex_text s) i) in
  modify (set_text (itoa_text s) t) ;!
  ret (drop (Z.to_nat loc) t).

(** The loop of [printf] and [printf_colored] over the format, which only the
    former lets contain [%x]. *)
Fixpoint printf_loop (hex : bool) (fg bg : Z) (fmt : list Z) (ap : list arg) : T unit :=
  match fmt with
  | [] => fault
  | c :: p =>
    if c =? 0 then ret tt
    else if negb (c =? 37) then terminal_writechar c fg bg ;! printf_loop hex fg bg p ap
    else
      match p with
      | [] => fault
      | d :: p =>
        if d =? 105 then
          match ap with
          | AInt i :: ap =>
            let! t := call_itoa i in
            print t fg bg ;!
            printf_loop hex fg bg p ap
          | _ => fault
          end
        else if d =? 115 then
          match ap with
          | AStr s :: ap => print s fg bg ;! printf_loop hex fg bg p ap
          | _ => fault
          end
        else if hex && (d =? 120) then
          match ap with
          | AInt i :: ap =>
            let! t := call_itoa_hex (u32 i) in
            print t fg bg ;!
            printf_loop hex fg bg p ap
          | _ => fault
          end
        else terminal_writechar d fg bg ;! printf_loop hex fg bg p ap
      end
  end.

Definition printf (fmt : list Z) (ap : list arg) : T Z :=
  printf_loop true VGA_COLOR_WHITE VGA_COLOR_BLUE fmt ap ;!
  terminal_update_cursor ;!
  ret 0.

Definition printf_colored (fmt : list Z) (fg bg : Z) (ap : list arg) : T Z :=
  printf_loop false fg bg fmt ap ;!
  terminal_update_cursor ;!
  ret 0.

(** ** Kernel messages: kernel.c *)

(** The loop of [printk_colored] is that of [print]. *)
Definition printk_colored (str : list Z) (fg bg : Z) : T unit :=
  print str fg bg ;!
  terminal_update_cursor.

Definition printk (str : list Z) : T unit := printk_colored str VGA_COLOR_WHITE VGA_COLOR_BLUE.

(** The message of [alertk] is formatted with one argument, the [va_list]
    itself: on i686 a pointer, here [args]. *)
Definition alertk (str : list Z) (args : Z) : T unit :=
  let! _ := printf_colored str VGA_COLOR_LIGHT_BROWN VGA_COLOR_BLUE [AInt args] in ret tt.

End Ops.
End Terminal.

(** ** The text a format stands for *)

Module Render.
Import Terminal.

(** The digits of [n] in the base, in front of [acc]; a fuel of 12 is enough for
    32 bits. *)
Fixpoint digits (fuel : nat) (base n : Z) (acc : list Z) : list Z :=
  match fuel with
  | O => acc
  | S fuel => if n =? 0 then acc else digits fuel base (n / base) (hex_digit (n mod base) :: acc)
  end.

Definition number (base n : Z) : list Z := if n =? 0 then [48] else digits itoa_fuel base n [].

Definition decimal (i : Z) : list Z := (if i <? 0 then [45] else []) ++ number 10 (Z.abs i).

(** The characters of a C string *)
Fixpoint c_text (s : list Z) : option (list Z) :=
  match s with
  | [] => None
  | c :: s => if c =? 0 then Some [] else cons c <$> c_text s
  end.

Fixpoint render (hex : bool) (fmt : list Z) (ap : list arg) : option (list Z) :=
  match fmt with
  | [] => None
  | c :: p =>
    if c =? 0 then Some []
    else if negb (c =? 37) then cons c <$> render hex p ap
    else
      match p with
      | [] => None
      | d :: p =>
        if d =? 0 then None
        else if d =? 105 then
          match ap with AInt i :: ap => app (decimal i) <$> render hex p ap | _ => None end
        else if d =? 115 then
          match ap with AStr s :: ap => t ← c_text s; app t <$> render hex p ap | _ => None end
        else if hex && (d =? 120) then
          match ap with AInt i :: ap => app (number 16 (u32 i)) <$> render hex p ap | _ => None end
        else cons d <$> render hex p ap
      end
  end.

Definition arg_ok (a : arg) : Prop :=
  match a with AInt i => -2147483648 <= i < 2147483648 | AStr _ => True end.

Lemma digits_app fuel base : forall n acc, digits fuel base n acc = digits fuel base n [] ++ acc.
Proof.
  induction fuel as [|fuel IH]; intros n acc; [done|]. cbn [digits]. case_match; [done|].
  rewrite IH, (IH _ [_]). by rewrite <- app_assoc.
Qed.

Lemma snoc_pre (pre : list Z) k : (S k <= length pre)%nat -> exists q x, pre = q ++ [x] /\ (k <= length q)%nat.
Proof.
  intros Hk. destruct pre as [|x q _] using rev_ind; [cbn in Hk; lia|].
  exists q, x. rewrite length_app in Hk. cbn in Hk. split; [done|lia].
Qed.

(** Writing the next digit in front of those already in the buffer *)
Lemma wr_digit q x suf v : wr ((q ++ [x]) ++ suf) (Z.of_nat (length (q ++ [x])) - 1) v = Some (q ++ u8 v :: suf).
Proof. rewrite length_app, <- app_assoc. cbn. apply (wr_app _ _ _ q (x :: suf)); [lia|done..]. Qed.

Lemma itoa_loop_digits fuel : forall pre suf i k,
  i <= 0 -> - i < 10 ^ Z.of_nat k -> (k <= length pre)%nat -> (k < fuel)%nat ->
  exists q, itoa_loop fuel (pre ++ suf) (Z.of_nat (length pre)) i
    = Some (q ++ digits fuel 10 (- i) suf, Z.of_nat (length q)) /\
    (length q <= length pre <= length q + k)%nat /\ (i <> 0 -> (length q < length pre)%nat).
Proof.
  induction fuel as [|fuel IH]; intros pre suf i k Hi Hk Hp Hf; [lia|]. cbn [itoa_loop digits].
  destruct (Z.eqb_spec i 0) as [->|Hne]; [exists pre; repeat split; (done || lia)|].
  rewrite (proj2 (Z.eqb_neq (- i) 0)) by lia. destruct k as [|k]; [cbn in Hk; lia|].
  destruct (snoc_pre pre k Hp) as (q & x & -> & Hq). cbv zeta. rewrite wr_digit. cbn [mbind option_bind].
  rewrite length_app. cbn [length]. replace (Z.of_nat (length q + 1) - 1) with (Z.of_nat (length q)) by lia.
  assert (Z.rem i 10 = - ((- i) mod 10) /\ Z.quot i 10 = - ((- i) / 10)) as [-> ->] by zlia.
  destruct (IH q (hex_digit ((- i) mod 10) :: suf) (- ((- i) / 10)) k) as (q' & E & Hl & _); [zlia| |lia..|].
  { rewrite Nat2Z.inj_succ, Z.pow_succ_r in Hk by lia. zlia. }
  exists q'. rewrite Z.opp_involutive in E. split; [|lia]. rewrite <- E. unfold hex_digit.
  rewrite (proj2 (Z.ltb_lt _ _)) by zlia. do 4 f_equal. rewrite u8_small by zlia. zlia.
Qed.

Lemma itoa_hex_loop_digits fuel : forall pre suf i k,
  0 <= i < 16 ^ Z.of_nat k -> (k <= length pre)%nat -> (k < fuel)%nat ->
  exists q, itoa_hex_loop fuel (pre ++ suf) (Z.of_nat (length pre)) i
    = Some (q ++ digits fuel 16 i suf, Z.of_nat (length q)) /\ (length pre <= length q + k)%nat.
Proof.
  induction fuel as [|fuel IH]; intros pre suf i k Hi Hp Hf; [lia|]. cbn [itoa_hex_loop digits].
  destruct (Z.eqb_spec i 0) as [->|Hne]; [exists pre; split; [done|lia]|].
  destruct k as [|k]; [cbn in Hi; lia|].
  destruct (snoc_pre pre k Hp) as (q & x & -> & Hq). cbv zeta. rewrite wr_digit. cbn [mbind option_bind].
  rewrite length_app. cbn [length]. replace (Z.of_nat (length q + 1) - 1) with (Z.of_nat (length q)) by lia.
  rewrite Nat2Z.inj_succ, Z.pow_succ_r in Hi by lia.
  destruct (IH q (hex_digit (i mod 16) :: suf) (i / 16) k) as (q' & E & Hl); [zlia|lia..|].
  exists q'. split; [|lia]. rewrite <- E, u8_small; [done|]. unfold hex_digit. case_match; zlia.
Qed.

Lemma wr_last t v : length t = 12%nat -> exists q, wr t 11 v = Some (q ++ [u8 v]) /\ length q = 11%nat.
Proof.
  intros Hl. destruct (snoc_pre t 11 ltac:(lia)) as (q & x & -> & _). rewrite length_app in Hl. cbn in Hl.
  exists q. rewrite (wr_app _ _ _ q [x]) by (done || lia). split; [done|lia].
Qed.

Lemma wr_front q suf v : (0 < length q)%nat ->
  exists q', wr (q ++ suf) (Z.of_nat (length q) - 1) v = Some (q' ++ u8 v :: suf) /\ length q = S (length q').
Proof.
  intros Hq. destruct (snoc_pre q 0 Hq) as (q' & x & -> & _). rewrite wr_digit.
  exists q'. rewrite length_app. cbn. split; [done|lia].
Qed.

Lemma itoa_text_ok t i :
  length t = 12%nat -> -2147483648 <= i < 2147483648 ->
  exists t' loc, itoa t i = Some (t', loc) /\ drop (Z.to_nat loc) t' = decimal i ++ [0].
Proof.
  intros Hl Hi. unfold itoa, decimal, number. destruct (wr_last t 0 Hl) as (q & -> & Hq). cbn [mbind option_bind].
  rewrite u8_small by lia. destruct (Z.eqb_spec (Z.abs i) 0) as [H0|H0].
  { assert (i = 0) as -> by lia. destruct (wr_front q [0] 48) as (q1 & E & Hq1); [lia|].
    rewrite Hq in E, Hq1. change (Z.of_nat 11 - 1) with 10 in E.
    change (itoa_loop _ _ _ _) with (Some (q ++ [0], 11)). cbn [mbind option_bind].
    change (11 =? 11) with true. cbv iota. rewrite E. exists (q1 ++ [48; 0]), 10.
    split; [done|]. rewrite drop_app_length' by lia. done. }
  set (n := if 0 <=? i then s32 (- i) else i).
  assert (n <= 0 /\ - n = Z.abs i) as [Hn0 Hn].
  { unfold n. destruct (Z.leb_spec 0 i); [rewrite s32_small|]; lia. }
  destruct (itoa_loop_digits itoa_fuel q [0] n 10) as (q1 & E & Hl1 & Hl2);
    [lia|change (10 ^ Z.of_nat 10) with 10000000000; lia|lia|unfold itoa_fuel; lia|].
  rewrite Hq in E. change (Z.of_nat 11) with 11 in E. rewrite E, Hn, digits_app. cbn [mbind option_bind].
  rewrite (proj2 (Z.eqb_neq (Z.of_nat (length q1)) 11)) by lia. cbn [mbind option_bind].
  destruct (Z.leb_spec 0 i), (Z.ltb_spec i 0); try lia; cbn [negb].
  - eexists _, _. split; [done|]. by rewrite Nat2Z.id, drop_app_length.
  - destruct (wr_front q1 (digits itoa_fuel 10 (Z.abs i) [] ++ [0]) 45) as (q2 & E2 & Hq2); [lia|].
    rewrite E2. eexists _, _. split; [done|]. rewrite drop_app_length' by lia. done.
Qed.

Lemma itoa_hex_text_ok t i :
  length t = 12%nat -> 0 <= i < 2 ^ 32 ->
  exists t' loc, itoa_hex t i = Some (t', loc) /\ drop (Z.to_nat loc) t' = number 16 i ++ [0].
Proof.
  intros Hl Hi. unfold itoa_hex, number. destruct (wr_last t 0 Hl) as (q & -> & Hq). cbn [mbind option_bind].
  rewrite u8_small by lia. destruct (Z.eqb_spec i 0) as [->|H0].
  - destruct (wr_front q [0] 48) as (q1 & E & Hq1); [lia|]. rewrite Hq in E, Hq1.
    change (Z.of_nat 11 - 1) with 10 in E. rewrite E.
    exists (q1 ++ [48; 0]), 10. split; [done|]. rewrite drop_app_length' by lia. done.
  - destruct (itoa_hex_loop_digits itoa_fuel q [0] i 8) as (q1 & E & _);
      [change (16 ^ Z.of_nat 8) with 4294967296; lia|lia|unfold itoa_fuel; lia|].
    rewrite Hq in E. change (Z.of_nat 11) with 11 in E. rewrite E, digits_app.
    eexists _, _. split; [done|]. by rewrite Nat2Z.id, drop_app_length.
Qed.

Lemma itoa_loop_length fuel : forall t loc i r, itoa_loop fuel t loc i = Some r -> length r.1 = length t.
Proof.
  induction fuel as [|fuel IH]; intros t loc i r; [done|]. cbn. case_match; [by intros [= <-]|].
  destruct (wr t _ _) as [t'|] eqn:E; [|done]. cbn. intros ->%IH. by apply wr_length in E.
Qed.

Lemma itoa_hex_loop_length fuel : forall t loc i r, itoa_hex_loop fuel t loc i = Some r -> length r.1 = length t.
Proof.
  induction fuel as [|fuel IH]; intros t loc i r; [done|]. cbn. case_match; [by intros [= <-]|].
  destruct (wr t _ _) as [t'|] eqn:E; [|done]. cbn. intros ->%IH. by apply wr_length in E.
Qed.

Lemma itoa_length t i r : itoa t i = Some r -> length r.1 = length t.
Proof.
  unfold itoa. destruct (wr t 11 0) as [t0|] eqn:E0; [|done]. cbn [mbind option_bind].
  destruct (itoa_loop _ t0 _ _) as [[t1 loc]|] eqn:E1; [|done]. cbn [mbind option_bind].
  apply wr_length in E0. apply itoa_loop_length in E1. cbn in E1.
  assert (forall t2 l2, (if loc =? 11 then t ← wr t1 10 48; Some (t, 10) else Some (t1, loc)) = Some (t2, l2) ->
    length t2 = length t) as Hm.
  { intros t2 l2. case_match; [|intros [= <- <-]; congruence].
    destruct (wr t1 10 48) eqn:E2; [|done]. apply wr_length in E2. intros [= <- <-]. congruence. }
  destruct (if loc =? 11 then _ else _) as [[t2 l2]|]; [|done]. specialize (Hm _ _ eq_refl). cbn [mbind option_bind].
  case_match; [|by intros [= <-]]. destruct (wr t2 _ 45) eqn:E3; [|done]. apply wr_length in E3.
  intros [= <-]. cbn. congruence.
Qed.

Lemma itoa_hex_length t i r : itoa_hex t i = Some r -> length r.1 = length t.
Proof.
  unfold itoa_hex. destruct (wr t 11 0) as [t0|] eqn:E0; [|done]. apply wr_length in E0. cbn [mbind option_bind].
  case_match; [|intros E%itoa_hex_loop_length; congruence].
  destruct (wr t0 10 48) eqn:E1; [|done]. apply wr_length in E1. intros [= <-]. cbn. congruence.
Qed.

Lemma digits_nonzero fuel base n acc :
  0 < base -> Forall (fun c => c <> 0) acc -> Forall (fun c => c <> 0) (digits fuel base n acc).
Proof.
  intros Hb. revert n acc. induction fuel as [|fuel IH]; intros n acc Ha; [done|]. cbn. case_match; [done|].
  apply IH. constructor; [|done]. unfold hex_digit. case_match; zlia.
Qed.

Lemma number_nonzero base n : 0 < base -> Forall (fun c => c <> 0) (number base n).
Proof. intros. unfold number. case_match; [by repeat constructor|]. by apply digits_nonzero. Qed.

Lemma decimal_nonzero i : Forall (fun c => c <> 0) (decimal i).
Proof.
  unfold decimal. apply Forall_app. split; [case_match; by repeat constructor|]. by apply number_nonzero.
Qed.

Lemma c_text_terminated t : Forall (fun c => c <> 0) t -> c_text (t ++ [0]) = Some t.
Proof.
  induction 1 as [|c t Hc _ IH]; [done|]. cbn. by rewrite (proj2 (Z.eqb_neq c 0) Hc), IH.
Qed.

Lemma c_text_strlen s t i : c_text s = Some t -> strlen_loop s i = Some (i + Z.of_nat (length t)).
Proof.
  revert t i. induction s as [|c s IH]; intros t i; [done|]. cbn. case_match.
  - intros [= <-]. cbn. by rewrite Z.add_0_r.
  - destruct (c_text s) as [t'|] eqn:E; [|done]. intros [= <-]. rewrite (IH _ _ eq_refl). cbn. f_equal. lia.
Qed.

Lemma c_text_rd s t i c : c_text s = Some t -> t !! i = Some c -> rd s (Z.of_nat i) = Some c.
Proof.
  intros Ht Hi. rewrite rd_lookup, Nat2Z.id by lia. revert t i Ht Hi.
  induction s as [|x s IH]; intros t i; [done|]. cbn. case_match; [by intros [= <-]|].
  destruct (c_text s) as [t'|] eqn:E; [|done]. intros [= <-]. destruct i; [done|]. cbn. by apply IH.
Qed.

End Render.

(** ** The screen as a page of text *)

Module TermFacts.
Import Terminal Render.

(** Completed lines and the current line. *)
Definition page : Type := list (list Z) * list Z.

Definition newline (p : page) : page := (p.1 ++ [p.2], []).

Definition type_char (p : page) (c : Z) : page :=
  if c =? 10 then newline p
  else if c =? 8 then (p.1, take (length p.2 - 1) p.2)
  else if Z.of_nat (length p.2) + 1 =? VGA_WIDTH then newline (p.1, p.2 ++ [c])
  else (p.1, p.2 ++ [c]).

(** The lines on the screen: the last 25. *)
Definition visible (p : page) : list (list Z) := drop (length p.1 - 24) p.1 ++ [p.2].

(** The character at a position of a text; a blank where the text has none. *)
Definition char_at (l : list Z) (x : Z) : Z := default 32 (l !! Z.to_nat x).
Definition text_at (ls : list (list Z)) (y x : Z) : Z := char_at (default [] (ls !! Z.to_nat y)) x.

Definition glyph (cell : Z) : Z := Z.land cell 0xff.

Definition cell (b : gmap Z Z) (j : Z) : Z := default 0 (b !! j).

(** The buffer holds the characters of the lines. *)
Definition holds (b : gmap Z Z) (ls : list (list Z)) : Prop :=
  forall y x, 0 <= y < 25 -> 0 <= x < 80 -> glyph (cell b (y * 80 + x)) = text_at ls y x.

Lemma glyph_make_char c color : is_byte c -> glyph (terminal_make_char c color) = c.
Proof.
  intros Hc. unfold glyph, terminal_make_char, u16.
  rewrite <- !(Z.land_ones _ 16) by lia. change 0xff with (Z.ones 8).
  rewrite <- Z.land_assoc. change (Z.land (Z.ones 16) (Z.ones 8)) with (Z.ones 8).
  rewrite Z.land_lor_distr_l, !Z.land_ones, Z.shiftl_mul_pow2, Z.mod_mul by lia.
  rewrite Z.lor_0_l. unfold s8. unfold is_byte in Hc. zlia.
Qed.

Lemma cell_insert b i v j : cell (<[i := v]> b) j = if decide (i = j) then v else cell b j.
Proof.
  unfold cell. case_decide as E; [subst; by rewrite lookup_insert_eq|by rewrite lookup_insert_ne].
Qed.

Lemma text_at_snoc V l y x :
  0 <= y -> text_at (V ++ [l]) y x = if decide (y < Z.of_nat (length V)) then text_at V y x
    else if decide (y = Z.of_nat (length V)) then char_at l x else 32.
Proof.
  intros Hy. unfold text_at. repeat case_decide.
  - by rewrite lookup_app_l by lia.
  - rewrite lookup_app_r by lia. by replace (Z.to_nat y - length V)%nat with 0%nat by lia.
  - rewrite lookup_ge_None_2; [done|]. rewrite length_app. cbn. lia.
Qed.

Lemma text_at_over V y x : 0 <= y -> Z.of_nat (length V) <= y -> text_at V y x = 32.
Proof. intros. unfold text_at. by rewrite lookup_ge_None_2 by lia. Qed.

Lemma char_at_snoc l c x :
  0 <= x -> char_at (l ++ [c]) x = if decide (Z.of_nat (length l) = x) then c else char_at l x.
Proof.
  intros Hx. unfold char_at. case_decide as E.
  - subst. by rewrite Nat2Z.id, list_lookup_middle.
  - destruct (decide (x < Z.of_nat (length l))).
    + by rewrite lookup_app_l by lia.
    + rewrite !lookup_ge_None_2; [done|lia|]. rewrite length_app. cbn. lia.
Qed.

(** The buffer holds the lines, except for one cell. *)
Definition holds_but (b : gmap Z Z) (ls : list (list Z)) (y0 x0 : Z) : Prop :=
  forall y x, 0 <= y < 25 -> 0 <= x < 80 -> ~ (y = y0 /\ x = x0) ->
    glyph (cell b (y * 80 + x)) = text_at ls y x.

(** Writing at the end of the last line *)
Lemma holds_put b V l v :
  holds_but b (V ++ [l]) (Z.of_nat (length V)) (Z.of_nat (length l)) ->
  Z.of_nat (length V) < 25 -> Z.of_nat (length l) < 80 ->
  holds (<[Z.of_nat (length V) * 80 + Z.of_nat (length l) := v]> b) (V ++ [l ++ [glyph v]]).
Proof.
  intros Hb HV Hl y x Hy Hx. rewrite cell_insert, text_at_snoc by lia.
  case_decide as E.
  - assert (y = Z.of_nat (length V) /\ x = Z.of_nat (length l)) as [-> ->] by lia.
    by rewrite decide_False, decide_True, char_at_snoc, decide_True by lia.
  - rewrite Hb, text_at_snoc by lia. repeat case_decide; try done.
    by rewrite char_at_snoc, decide_False by lia.
Qed.

Lemma holds_blank_line b ls : holds b ls -> holds b (ls ++ [[]]).
Proof.
  intros Hb y x Hy Hx. rewrite Hb, text_at_snoc by lia.
  case_decide; [done|]. rewrite text_at_over by lia. by case_decide.
Qed.

(** The buffer after [terminal_scroll]. *)
Lemma holds_scroll b b' ls :
  holds b ls -> length ls = 25%nat ->
  (forall j, 0 <= j < 1920 -> cell b' j = cell b (j + 80)) ->
  (forall j, 1920 <= j < 2000 -> glyph (cell b' j) = 32) ->
  holds b' (drop 1 ls ++ [[]]).
Proof.
  intros Hb Hls Hup Hlast. apply holds_blank_line. intros y x Hy Hx.
  destruct (decide (y = 24)) as [->|].
  - rewrite Hlast, text_at_over; [done|lia| |lia]. rewrite length_drop. lia.
  - rewrite Hup by lia. replace (y * 80 + x + 80) with ((y + 1) * 80 + x) by lia.
    rewrite Hb by lia. unfold text_at. rewrite lookup_drop. do 4 f_equal. lia.
Qed.

Lemma visible_length p : length (visible p) = (length p.1 `min` 24 + 1)%nat.
Proof. unfold visible. rewrite length_app, length_drop. cbn. lia. Qed.

Lemma visible_newline p :
  visible (newline p) = (if decide (length p.1 < 24)%nat then visible p else drop 1 (visible p)) ++ [[]].
Proof.
  unfold visible, newline. destruct p as [d l]. cbn [fst snd]. rewrite length_app. cbn [length].
  case_decide as Hd.
  - by replace (length d + 1 - 24)%nat with 0%nat by lia; replace (length d - 24)%nat with 0%nat by lia.
  - replace (length d + 1 - 24)%nat with (length d - 24 + 1)%nat by lia.
    rewrite !drop_app_le by (rewrite ?length_drop; lia). by rewrite drop_drop.
Qed.

(** *** The loops over the screen *)

Lemma grid_inv {S} (P : Z -> S -> Prop) (body : Z -> Z -> M S unit) h y0 s :
  P (y0 * 80) s ->
  (forall y x s, y0 <= y < y0 + Z.of_nat h -> 0 <= x < 80 -> P (y * 80 + x) s ->
    exists s', body y x s = Some (tt, s') /\ P (y * 80 + x + 1) s') ->
  exists s', for_loop h y0 (fun y => for_loop 80 0 (body y)) s = Some (tt, s') /\
    P ((y0 + Z.of_nat h) * 80) s'.
Proof.
  intros H0 Hb. apply (for_loop_inv (fun y => P (y * 80))); [done|].
  intros y s1 Hy H1.
  destruct (for_loop_inv (fun x => P (y * 80 + x)) (body y) 80 0 s1) as (s2 & E2 & H2).
  { by rewrite Z.add_0_r. }
  { intros x s2 Hx H2. rewrite Z.add_assoc. apply Hb; [done|lia|done]. }
  exists s2. split; [done|]. by replace ((y + 1) * 80) with (y * 80 + (0 + Z.of_nat 80)) by lia.
Qed.

Lemma in_screen_true y x : 0 <= y < 25 -> 0 <= x < 80 -> in_screen y x = true.
Proof. unfold in_screen, VGA_HEIGHT, VGA_WIDTH. intros. lia. Qed.

Section Facts.
Context {D : Type} `{PortIO D}.

Implicit Types s : console D.

Lemma buffer_get_ok y x s :
  0 <= y < 25 -> 0 <= x < 80 -> buffer_get y x s = Some (cell (screen_buffer s) (y * 80 + x), s).
Proof. intros. unfold buffer_get, bind, get. by rewrite in_screen_true. Qed.

Lemma buffer_set_ok y x v s :
  0 <= y < 25 -> 0 <= x < 80 ->
  buffer_set y x v s = Some (tt, set_screen (<[y * 80 + x := v]> (screen_buffer s)) s).
Proof. intros. unfold buffer_set. by rewrite in_screen_true. Qed.

Lemma video_set_ok i v s :
  video_mem s <> NULL -> video_set i v s = Some (tt, set_vga (<[i := v]> (vga s)) s).
Proof. intros Hv. unfold video_set, bind, get. by rewrite (proj2 (Z.eqb_neq _ _) Hv). Qed.

Lemma update_vga_ok s :
  video_mem s <> NULL ->
  exists v, terminal_update_vga_memory s = Some (tt, set_vga v s) /\
    forall j, 0 <= j < 2000 -> v !! j = Some (cell (screen_buffer s) j).
Proof.
  intros Hv. unfold terminal_update_vga_memory.
  edestruct (grid_inv (fun k s' => exists v, s' = set_vga v s /\
    forall j, 0 <= j < k -> v !! j = Some (cell (screen_buffer s) j))) as (s' & E & v & -> & Hj);
    [| |exists v; split; [exact E|done]].
  - exists (vga s). split; [by destruct s|lia].
  - intros y x ? Hy Hx (v & -> & Hj).
    rewrite (bind_Some _ _ _ _ _ (buffer_get_ok y x _ ltac:(lia) Hx)), video_set_ok by done.
    eexists. split; [reflexivity|]. eexists. split; [reflexivity|]. intros j Hr.
    destruct (decide (j = y * 80 + x)) as [->|].
    + by rewrite lookup_insert_eq.
    + rewrite lookup_insert_ne by (unfold VGA_WIDTH; lia). apply Hj. lia.
Qed.

Lemma scroll_ok s :
  exists b, terminal_scroll s = Some (tt, set_cursor 24 (terminal_col s) (set_screen b s)) /\
    (forall j, 0 <= j < 1920 -> cell b j = cell (screen_buffer s) (j + 80)) /\
    forall j, 1920 <= j < 2000 -> glyph (cell b j) = 32.
Proof.
  unfold terminal_scroll.
  edestruct (grid_inv (fun k s' => exists b, s' = set_screen b s /\
    forall j, 0 <= j -> cell b j = if decide (j < k - 80) then cell (screen_buffer s) (j + 80)
      else cell (screen_buffer s) j) (fun y x => let! v := buffer_get y x in buffer_set (y - 1) x v) 24 1 s)
    as (s1 & E1 & b1 & -> & Hb1).
  { exists (screen_buffer s). split; [by destruct s|]. intros j Hj. by rewrite decide_False by lia. }
  { intros y x ? Hy Hx (b & -> & Hb). 
    rewrite (bind_Some _ _ _ _ _ (buffer_get_ok y x _ ltac:(lia) Hx)), buffer_set_ok by lia.
    eexists. split; [reflexivity|]. eexists. split; [reflexivity|].
    intros j Hj. rewrite cell_insert. cbn [screen_buffer set_screen]. rewrite !Hb by lia.
    repeat case_decide; try lia; f_equal; lia. }
  rewrite (bind_Some _ _ _ _ _ E1).
  edestruct (for_loop_inv (fun x s' => exists b, s' = set_screen b s /\
    (forall j, 0 <= j < 1920 -> cell b j = cell (screen_buffer s) (j + 80)) /\
    forall j, 1920 <= j < 1920 + x -> glyph (cell b j) = 32)) as (s2 & E2 & b2 & -> & Hl & Hr);
    [| |rewrite (bind_Some _ _ _ _ _ E2); exists b2; split; [reflexivity|split; [exact Hl|exact Hr]]].
  - exists b1. split; [done|]. split; [|lia]. intros j Hj. rewrite Hb1, decide_True; lia.
  - intros x ? Hx (b & -> & Hl & Hr). rewrite buffer_set_ok by (unfold VGA_HEIGHT; lia).
    eexists. split; [reflexivity|]. eexists. split; [reflexivity|]. unfold VGA_HEIGHT. split.
    + intros j Hj. rewrite cell_insert, decide_False by lia. by apply Hl.
    + intros j Hj. rewrite cell_insert. case_decide; [|apply Hr; lia].
      apply glyph_make_char. unfold is_byte. lia.
Qed.

Lemma set_twice v b v' b' s :
  set_vga v' (set_screen b' (set_vga v (set_screen b s))) = set_vga v' (set_screen b' s).
Proof. reflexivity. Qed.

Lemma terminal_clear_ok s :
  video_mem s <> NULL ->
  exists b v, terminal_clear_all s = Some (tt, set_cursor 0 0 (set_vga v (set_screen b s))) /\
    forall j, 0 <= j < 2000 -> v !! j = Some (cell b j) /\ glyph (cell b j) = 32.
Proof.
  intros Hv. unfold terminal_clear_all.
  edestruct (grid_inv (fun k s' => exists b v, s' = set_vga v (set_screen b s) /\
    forall j, 0 <= j < k -> v !! j = Some (cell b j) /\ glyph (cell b j) = 32))
    as (s1 & E1 & b & v & -> & Hj);
    [| |rewrite (bind_Some _ _ _ _ _ E1); exists b, v; split; [reflexivity|exact Hj]].
  - exists (screen_buffer s), (vga s). split; [by destruct s|lia].
  - intros y x ? Hy Hx (b & v & -> & Hj).
    unfold terminal_buffer_putchar.
    rewrite (bind_Some _ _ _ _ _ (buffer_set_ok y x _ _ ltac:(lia) Hx)),
      (bind_Some _ _ _ _ _ (buffer_get_ok y x _ ltac:(lia) Hx)), video_set_ok by done.
    eexists. split; [reflexivity|]. eexists _, _. split; [apply set_twice|]. unfold VGA_WIDTH.
    intros j Hr. cbn [screen_buffer vga set_screen set_vga]. rewrite !cell_insert.
    destruct (decide (y * 80 + x = j)) as [<-|].
    + rewrite lookup_insert_eq, ?decide_True by done. split; [done|].
      apply glyph_make_char. unfold is_byte. lia.
    + rewrite lookup_insert_ne by done. apply Hj. lia.
Qed.

#[local] Opaque terminal_update_vga_memory terminal_scroll terminal_clear_all.

(** *** The console shows a page *)

Ltac fields := cbn [video_mem vga terminal_row terminal_col screen_buffer itoa_text hex_text ports
  set_vga set_screen set_cursor set_text set_ports fst snd newline] in *.

(** The page except for the cell at the cursor. *)
Record almost (s : console D) (p : page) : Prop := {
  al_video : video_mem s <> NULL;
  al_row : terminal_row s = Z.of_nat (length p.1 `min` 24);
  al_col : terminal_col s = Z.of_nat (length p.2);
  al_holds : holds_but (screen_buffer s) (visible p) (terminal_row s) (terminal_col s);
  al_itoa : length (itoa_text s) = 12%nat;
  al_hex : length (hex_text s) = 12%nat }.

(** The page up to a line that is full, before the display memory is updated. *)
Record shown (s : console D) (p : page) : Prop := {
  sh_video : video_mem s <> NULL;
  sh_row : terminal_row s = Z.of_nat (length p.1 `min` 24);
  sh_col : terminal_col s = Z.of_nat (length p.2);
  sh_holds : holds (screen_buffer s) (visible p);
  sh_itoa : length (itoa_text s) = 12%nat;
  sh_hex : length (hex_text s) = 12%nat }.

Record shows (s : console D) (p : page) : Prop := {
  sh_shown : shown s p;
  sh_room : Z.of_nat (length p.2) < 80;
  sh_vga : forall j, 0 <= j < 2000 -> vga s !! j = Some (cell (screen_buffer s) j) }.

Lemma visible_snoc p : exists V, visible p = V ++ [p.2] /\ length V = (length p.1 `min` 24)%nat /\
  forall l, visible (p.1, l) = V ++ [l].
Proof.
  exists (drop (length p.1 - 24) p.1). unfold visible. rewrite length_drop. cbn. repeat split. lia.
Qed.

Lemma shown_almost s p : shown s p -> almost s p.
Proof. intros [Hv Hr Hc Hh Hi Hx]. constructor; try assumption. intros y x Hy Hx' _. by apply Hh. Qed.

Lemma put_shown s p c color :
  almost s p -> Z.of_nat (length p.2) < 80 -> is_byte c ->
  exists s', (terminal_buffer_putchar (terminal_col s) (terminal_row s) c color) s = Some (tt, s') /\
    shown (set_cursor (terminal_row s') (terminal_col s' + 1) s') (p.1, p.2 ++ [c]) /\
    terminal_row s' = terminal_row s /\ terminal_col s' = terminal_col s /\ ports s' = ports s.
Proof.
  intros [Hv Hr Hc Hh Hi Hx] Hp Hb. unfold terminal_buffer_putchar.
  destruct (visible_snoc p) as (V & EV & LV & Hl).
  rewrite buffer_set_ok by lia. eexists. split; [reflexivity|]. split; [|done]. constructor; fields; try assumption; try reflexivity.
  - rewrite length_app. cbn. lia.
  - rewrite Hl, Hr, <- LV, Hc. rewrite EV, Hr, <- LV, Hc in Hh.
    rewrite <- (glyph_make_char c color Hb) at 2. apply holds_put; [done|lia..].
Qed.

(** A new line: the cursor is moved down by the caller. *)
Lemma newline_shown s p :
  shown s p ->
  exists s', scroll_if_needed (set_cursor (u16 (terminal_row s + 1)) 0 s) = Some (tt, s') /\
    shown s' (newline p) /\ ports s' = ports s.
Proof.
  intros [Hv Hr Hc Hh Hi Hx]. unfold scroll_if_needed, bind, get. cbn.
  rewrite u16_small by lia. unfold VGA_HEIGHT.
  destruct (Z.leb_spec 25 (terminal_row s + 1)) as [Hle|Hlt].
  - destruct (scroll_ok (set_cursor (terminal_row s + 1) 0 s)) as (b & E & Hup & Hlast).
    rewrite E. eexists. split; [reflexivity|]. split; [|done]. constructor; fields; try assumption; try reflexivity.
    + rewrite length_app. cbn. lia.
    + rewrite visible_newline, decide_False by lia. eapply holds_scroll; [exact Hh| |exact Hup|exact Hlast].
      rewrite visible_length. lia.
  - eexists. split; [reflexivity|]. split; [|done]. constructor; fields; try assumption; try reflexivity.
    + rewrite length_app. cbn. lia.
    + rewrite visible_newline, decide_True by lia. by apply holds_blank_line.
Qed.

Lemma update_shows s p :
  shown s p -> Z.of_nat (length p.2) < 80 ->
  exists s', terminal_update_vga_memory s = Some (tt, s') /\ shows s' p /\ ports s' = ports s.
Proof.
  intros [Hv Hr Hc Hh Hi Hx] Hp. destruct (update_vga_ok s Hv) as (v & E & Hj).
  exists (set_vga v s). split; [done|]. split; [|done]. by repeat constructor.
Qed.

(** Writing a character other than a new line or a backspace; what a backspace
    would do does not matter. *)
Lemma putchar_shows bs s p c fg bg :
  almost s p -> Z.of_nat (length p.2) < 80 -> is_byte c -> c <> 8 -> c <> 10 ->
  exists s', writechar_with bs c fg bg s = Some (tt, s') /\ shows s' (type_char p c) /\ ports s' = ports s.
Proof.
  intros Hs Hp Hc H8 H10. unfold writechar_with, bind at 1, get. unfold type_char.
  rewrite (proj2 (Z.eqb_neq c 8) H8), (proj2 (Z.eqb_neq c 10) H10).
  destruct (put_shown s p c (Z.lor (Z.shiftl (Z.land bg 0x0f) 4) (Z.land fg 0x0f)) Hs Hp Hc)
    as (s1 & E1 & Hs1 & R1 & C1 & D1).
  pose proof (al_col _ _ Hs) as Hcol. unfold VGA_WIDTH.
  destruct (decide (Z.of_nat (length p.2) + 1 = 80)) as [Hfull|Hroom].
  - rewrite (proj2 (Z.eqb_eq _ _) Hfull).
    destruct (newline_shown _ _ Hs1) as (s2 & E2 & Hs2 & D2). fields.
    destruct (update_shows s2 _ Hs2) as (s3 & E3 & Hs3 & D3); [done|].
    exists s3. erewrite bind_Some; [split; [exact E3|]; split; [done|congruence]|].
    erewrite bind_Some by exact E1. unfold set_col at 1. unfold bind, modify, get. fields.
    rewrite u16_small, Hcol, Hfull by lia. exact E2.
  - rewrite (proj2 (Z.eqb_neq _ _) Hroom).
    destruct (update_shows _ _ Hs1) as (s3 & E3 & Hs3 & D3); [fields; rewrite length_app; cbn; lia|].
    exists s3. erewrite bind_Some; [split; [exact E3|]; split; [done|fields; congruence]|].
    erewrite bind_Some by exact E1. unfold set_col at 1. unfold bind, modify, get. fields.
    rewrite u16_small, C1, Hcol by lia. destruct (Z.leb_spec 80 (Z.of_nat (length p.2) + 1)); [lia|].
    reflexivity.
Qed.

(** [terminal_backspace] satisfies the equation of the source. *)
Lemma terminal_backspace_eq s : terminal_backspace s = backspace_with terminal_writechar s.
Proof. reflexivity. Qed.

Lemma backspace_shows s p :
  shows s p -> p.2 <> [] \/ p.1 = [] ->
  exists s', terminal_backspace s = Some (tt, s') /\ shown s' (p.1, take (length p.2 - 1) p.2) /\
    ports s' = ports s.
Proof.
  intros [Hs Hp Hg] Hne. destruct (Hs) as [Hv Hr Hc Hh Hi Hx]. destruct p as [d l]. fields.
  unfold terminal_backspace, backspace_with, bind at 1, get. rewrite Hr, Hc.
  destruct l as [|c l _] using rev_ind.
  { destruct Hne as [Hne| ->]; [done|]. exists s. by repeat split. }
  rewrite length_app in *. cbn [length] in *. replace (length l + 1 - 1)%nat with (length l) by lia.
  rewrite take_app_length, (proj2 (Z.eqb_neq (Z.of_nat (length l + 1)) 0)), andb_false_r by lia.
  destruct (putchar_shows fault (set_cursor (terminal_row s) (Z.of_nat (length l)) s) (d, l) 32
    VGA_COLOR_WHITE VGA_COLOR_BLUE) as (s1 & E1 & Hs1 & D1); [|fields; lia|unfold is_byte; lia|lia..|].
  { constructor; fields; try assumption; [reflexivity|]. intros y x Hy Hx' Hyx.
    rewrite Hh by done. destruct (visible_snoc (d, l)) as (V & EV & LV & Hl). fields. rewrite EV, Hl.
    rewrite !text_at_snoc by lia. repeat case_decide; try done. rewrite char_at_snoc, decide_False; lia. }
  revert Hs1. unfold type_char, VGA_WIDTH. change (32 =? 10) with false. change (32 =? 8) with false. fields.
  rewrite (proj2 (Z.eqb_neq (Z.of_nat (length l) + 1) 80)) by lia. intros [[Hv1 Hr1 Hc1 Hh1 Hi1 Hx1] _ _]. fields.
  exists (set_cursor (terminal_row s1) (Z.of_nat (length l)) s1).
  split; [|split; [constructor; fields; try assumption; [reflexivity|]|done]].
  - unfold bind at 1 2 3, set_col, modify, get, ret. fields. rewrite Hc, u16_small by lia.
    replace (Z.of_nat (length l + 1) - 1) with (Z.of_nat (length l)) by lia.
    rewrite (bind_Some _ _ _ _ _ E1). unfold bind. rewrite Hc1, length_app, u16_small by (cbn; lia).
    cbn [length]. do 3 f_equal. lia.
  - intros y x Hy Hx'. rewrite Hh1 by done. destruct (visible_snoc (d, l)) as (V & EV & LV & Hl). fields.
    rewrite EV, Hl, !text_at_snoc by lia. repeat case_decide; try done. rewrite char_at_snoc by lia.
    case_decide; [|done]. unfold char_at. by rewrite lookup_ge_None_2 by lia.
Qed.

(** What the console can be told to write: a backspace only where there is a
    character on the line, or nothing on the page. *)
Definition legal_char (p : page) (c : Z) : Prop := is_byte c /\ (c = 8 -> p.2 <> [] \/ p.1 = []).

Lemma terminal_writechar_shows s p c fg bg :
  shows s p -> legal_char p c ->
  exists s', terminal_writechar c fg bg s = Some (tt, s') /\ shows s' (type_char p c) /\ ports s' = ports s.
Proof.
  intros Hsh [Hc H8]. pose proof Hsh as [Hs Hp Hg].
  destruct (decide (c = 8)) as [->|Hn8]; [|destruct (decide (c = 10)) as [->|H10]].
  - destruct (backspace_shows s p Hsh (H8 eq_refl)) as (s1 & E1 & Hs1 & D1).
    destruct (update_shows s1 _ Hs1) as (s2 & E2 & Hs2 & D2); [fields; rewrite length_take; lia|].
    exists s2. unfold terminal_writechar, writechar_with, bind at 1, get. change (8 =? 10) with false. change (8 =? 8) with true.
    cbv iota. rewrite (bind_Some _ _ _ _ _ E1). split; [done|]. split; [exact Hs2|congruence].
  - destruct (newline_shown s p Hs) as (s1 & E1 & Hs1 & D1).
    destruct (update_shows s1 _ Hs1) as (s2 & E2 & Hs2 & D2); [done|].
    exists s2. unfold terminal_writechar, writechar_with, bind at 1, get.
    erewrite bind_Some by exact E1. split; [done|]. split; [exact Hs2|congruence].
  - apply putchar_shows; try done. by apply shown_almost.
Qed.

(** *** Printing *)

Definition type_text (p : page) (t : list Z) : page := foldl type_char p t.

(** Every character of the text is legal where it comes. *)
Fixpoint legal (p : page) (t : list Z) : Prop :=
  match t with
  | [] => True
  | c :: t => legal_char p c /\ legal (type_char p c) t
  end.

Lemma legal_app t u p : legal p (t ++ u) <-> legal p t /\ legal (type_text p t) u.
Proof. revert p. induction t as [|c t IH]; intros p; cbn; [tauto|]. rewrite IH. tauto. Qed.

Lemma legal_lookup t p i c : legal p t -> t !! i = Some c -> legal_char (type_text p (take i t)) c.
Proof.
  revert p i. induction t as [|x t IH]; intros p i; [done|]. intros [Hx Ht].
  destruct i as [|i]; cbn; [by intros [= <-]|]. by apply IH.
Qed.

#[local] Opaque terminal_writechar.

Lemma print_shows str t p s fg bg :
  c_text str = Some t -> legal p t -> shows s p ->
  exists s', print str fg bg s = Some (tt, s') /\ shows s' (type_text p t) /\ ports s' = ports s.
Proof.
  intros Ht Hl Hs. unfold print, strlen. rewrite (bind_lift _ _ _ _ (c_text_strlen _ _ 0 Ht)).
  rewrite Z.add_0_l, Nat2Z.id.
  edestruct (for_loop_inv (fun i s' => shows s' (type_text p (take (Z.to_nat i) t)) /\ ports s' = ports s)
    (fun i => let! c := lift (rd str i) in terminal_writechar c fg bg) (length t) 0 s)
    as (s' & E & Hs' & Hd); [by split| |].
  - intros j s1 Hj [Hs1 Hd1].
    destruct (lookup_lt_is_Some_2 t (Z.to_nat j)) as [c Hc]; [lia|].
    destruct (terminal_writechar_shows s1 _ c fg bg Hs1 (legal_lookup _ _ _ _ Hl Hc)) as (s2 & E2 & Hs2 & Hd2).
    exists s2. pose proof (c_text_rd _ _ _ _ Ht Hc) as Hr. rewrite Z2Nat.id in Hr by lia.
    rewrite (bind_lift _ _ _ _ Hr), E2. split; [done|]. split; [|congruence].
    replace (Z.to_nat (j + 1)) with (S (Z.to_nat j)) by lia. rewrite (take_S_r _ _ _ Hc).
    unfold type_text in *. by rewrite foldl_app.
  - exists s'. split; [done|]. rewrite Z.add_0_l, Nat2Z.id, firstn_all in Hs'. by split.
Qed.

Lemma set_text_shows t h s p :
  length t = 12%nat -> length h = 12%nat -> shows s p -> shows (set_text t h s) p.
Proof. intros Ht Hh [[Hv Hr Hc Hb Hi Hx] Hp Hg]. by repeat constructor. Qed.

Lemma call_itoa_ok i s p :
  shows s p -> -2147483648 <= i < 2147483648 ->
  exists s', call_itoa i s = Some (decimal i ++ [0], s') /\ shows s' p /\ ports s' = ports s.
Proof.
  intros Hs Hi. pose proof (sh_itoa _ _ (sh_shown _ _ Hs)) as Hl. pose proof (sh_hex _ _ (sh_shown _ _ Hs)) as Hh.
  destruct (itoa_text_ok (itoa_text s) i Hl Hi) as (t & loc & E & Ht).
  unfold call_itoa, bind at 1, get. rewrite (bind_lift _ _ _ _ E). eexists. split; [by rewrite <- Ht|].
  split; [|done]. apply set_text_shows; [|done..]. apply itoa_length in E. cbn in E. congruence.
Qed.

Lemma call_itoa_hex_ok i s p :
  shows s p -> 0 <= i < 2 ^ 32 ->
  exists s', call_itoa_hex i s = Some (number 16 i ++ [0], s') /\ shows s' p /\ ports s' = ports s.
Proof.
  intros Hs Hi. pose proof (sh_itoa _ _ (sh_shown _ _ Hs)) as Hl. pose proof (sh_hex _ _ (sh_shown _ _ Hs)) as Hh.
  destruct (itoa_hex_text_ok (hex_text s) i Hh Hi) as (t & loc & E & Ht).
  unfold call_itoa_hex, bind at 1, get. rewrite (bind_lift _ _ _ _ E). eexists. split; [by rewrite <- Ht|].
  split; [|done]. apply set_text_shows; [done| |done]. apply itoa_hex_length in E. cbn in E. congruence.
Qed.

(** One directive, then the rest of the format *)
Lemma then_shows (m k : M (console D) unit) p t u s :
  legal p (t ++ u) ->
  (legal p t -> exists s', m s = Some (tt, s') /\ shows s' (type_text p t) /\ ports s' = ports s) ->
  (forall s' p, legal p u -> shows s' p ->
    exists s'', k s' = Some (tt, s'') /\ shows s'' (type_text p u) /\ ports s'' = ports s') ->
  exists s', (m ;! k) s = Some (tt, s') /\ shows s' (type_text p (t ++ u)) /\ ports s' = ports s.
Proof.
  intros [Ht Hu]%legal_app Hm Hk. destruct (Hm Ht) as (s1 & E1 & Hs1 & D1).
  destruct (Hk s1 _ Hu Hs1) as (s2 & E2 & Hs2 & D2). exists s2. rewrite (bind_Some _ _ _ _ _ E1), E2.
  split; [done|]. split; [|congruence]. unfold type_text in *. by rewrite foldl_app.
Qed.

Lemma char_shows c p s fg bg :
  shows s p -> legal p [c] ->
  exists s', terminal_writechar c fg bg s = Some (tt, s') /\ shows s' (type_text p [c]) /\ ports s' = ports s.
Proof. intros Hs [Hc _]. by apply terminal_writechar_shows. Qed.

(** Converting a number, printing its text *)
Lemma number_shows (call : M (console D) (list Z)) t p s fg bg :
  (exists s', call s = Some (t ++ [0], s') /\ shows s' p /\ ports s' = ports s) ->
  Forall (fun c => c <> 0) t -> legal p t ->
  exists s', (let! x := call in print x fg bg) s = Some (tt, s') /\ shows s' (type_text p t) /\ ports s' = ports s.
Proof.
  intros (s1 & E1 & Hs1 & D1) Ht Hl. rewrite (bind_Some _ _ _ _ _ E1).
  destruct (print_shows _ t p s1 fg bg (c_text_terminated _ Ht) Hl Hs1) as (s2 & E2 & Hs2 & D2).
  exists s2. split; [done|]. split; [done|congruence].
Qed.

Lemma bind_assoc {A B C} (m : M (console D) A) (f : A -> M (console D) B) (g : B -> M (console D) C) s :
  (let! x := m in let! y := f x in g y) s = (let! y := (let! x := m in f x) in g y) s.
Proof. unfold bind. by destruct (m s) as [[x s']|]. Qed.

Lemma printf_loop_shows hex fg bg n : forall fmt ap text p s,
  (length fmt <= n)%nat -> render hex fmt ap = Some text -> Forall arg_ok ap -> legal p text -> shows s p ->
  exists s', printf_loop hex fg bg fmt ap s = Some (tt, s') /\ shows s' (type_text p text) /\ ports s' = ports s.
Proof.
  induction n as [|n IH]; intros [|c q] ap text p s Hn; try done; [cbn in Hn; lia|].
  cbn [render printf_loop]. destruct (c =? 0) eqn:E0; [intros [= <-] _ _ Hs; by exists s|].
  destruct (negb (c =? 37)) eqn:E37.
  { destruct (render hex q ap) as [u|] eqn:Eu; [|done]. intros [= <-] Ha Hl Hs.
    apply (then_shows _ _ p [c] u s Hl); [by apply char_shows|].
    intros s1 p1 Hu Hs1. apply (IH q ap); try done. cbn in Hn. lia. }
  destruct q as [|d q]; [done|]. cbn in Hn. assert (forall ap u s p, render hex q ap = Some u ->
    Forall arg_ok ap -> legal p u -> shows s p -> exists s', printf_loop hex fg bg q ap s = Some (tt, s') /\
      shows s' (type_text p u) /\ ports s' = ports s) as Hq.
  { intros ap' u s1 p1 Hu Ha Hl Hs. apply (IH q ap'); try done. lia. }
  destruct (d =? 0) eqn:Ed; [done|]. destruct (d =? 105); [|destruct (d =? 115); [|destruct (hex && (d =? 120))]].
  - destruct ap as [|[i|] ap]; try done. destruct (render hex q ap) as [u|] eqn:Eu; [|done].
    intros [= <-] [Hi Ha]%Forall_cons Hl Hs. rewrite bind_assoc. apply (then_shows _ _ p _ u s Hl); [|eauto].
    intros Ht. apply number_shows; [by apply call_itoa_ok|apply decimal_nonzero|done].
  - destruct ap as [|[|str] ap]; try done. destruct (c_text str) as [t|] eqn:Et; [|done]. cbn [mbind option_bind].
    destruct (render hex q ap) as [u|] eqn:Eu; [|done]. intros [= <-] [_ Ha]%Forall_cons Hl Hs.
    apply (then_shows _ _ p t u s Hl); [|eauto]. intros Ht. by apply print_shows.
  - destruct ap as [|[i|] ap]; try done. destruct (render hex q ap) as [u|] eqn:Eu; [|done].
    intros [= <-] [Hi Ha]%Forall_cons Hl Hs. rewrite bind_assoc. apply (then_shows _ _ p _ u s Hl); [|eauto].
    intros Ht. apply number_shows; [apply call_itoa_hex_ok; [done|apply u32_range]|by apply number_nonzero|done].
  - destruct (render hex q ap) as [u|] eqn:Eu; [|done]. intros [= <-] Ha Hl Hs.
    apply (then_shows _ _ p [d] u s Hl); [by apply char_shows|eauto].
Qed.

(** The registers [terminal_update_cursor] writes. *)
Definition cursor_out (d : D) (position : Z) : D :=
  p_outb (p_outb (p_outb (p_outb d VGA_CMD_PORT VGA_CURSOR_LOW) VGA_DATA_PORT (position mod 256))
    VGA_CMD_PORT VGA_CURSOR_HIGH) VGA_DATA_PORT (position / 256).

(** The position of the cursor on the page. *)
Definition cursor_of (p : page) : Z := Z.of_nat (length p.1 `min` 24) * 80 + Z.of_nat (length p.2).

Lemma update_cursor_shows s p :
  shows s p ->
  exists s', terminal_update_cursor s = Some (tt, s') /\ shows s' p /\ ports s' = cursor_out (ports s) (cursor_of p).
Proof.
  intros [[Hv Hr Hc Hb Hi Hx] Hp Hg].
  assert (Hpos : u16 (terminal_row s * VGA_WIDTH + terminal_col s) = cursor_of p).
  { rewrite Hr, Hc. unfold cursor_of, VGA_WIDTH. apply u16_small. lia. }
  unfold terminal_update_cursor, bind at 1, get. rewrite Hpos. eexists. split; [reflexivity|].
  split; [by repeat constructor|]. fields. unfold cursor_out, u8. change 0xff with (Z.ones 8).
  rewrite !Z.land_ones, Z.shiftr_div_pow2 by lia. change (2 ^ 8) with 256.
  assert (0 <= cursor_of p < 2000) as Hp0 by (unfold cursor_of; lia). revert Hp0. clear. generalize (cursor_of p).
  intros z Hz. rewrite !Z.mod_mod, (Z.mod_small (z / 256)) by zlia. done.
Qed.

Lemma terminal_init_shows s :
  length (itoa_text s) = 12%nat -> length (hex_text s) = 12%nat ->
  exists s', terminal_init s = Some (tt, s') /\ shows s' ([], []).
Proof.
  intros Hi Hx. unfold terminal_init, bind at 1, modify.
  set (s0 := mk_con _ _ _ _ _ _ _ _).
  assert (exists s1, terminal_enable_cursor 15 15 s0 = Some (tt, s1) /\ exists d, s1 = set_ports d s0) as (s1 & E1 & d & ->).
  { unfold terminal_enable_cursor, outb, insb, modify, bind. fields.
    destruct (p_insb _ _) as [v d1]. fields. destruct (p_insb _ _) as [v' d2]. fields.
    eexists. split; [reflexivity|]. eexists. reflexivity. }
  rewrite (bind_Some _ _ _ _ _ E1).
  destruct (terminal_clear_ok (set_ports d s0)) as (b & v & E & Hj); [done|]. rewrite E.
  eexists. split; [reflexivity|]. constructor; [constructor; fields|reflexivity|].
  - discriminate.
  - reflexivity.
  - reflexivity.
  - intros y x Hy Hx'. assert (0 <= y * 80 + x < 2000) as Hr by lia. rewrite (proj2 (Hj _ Hr)). unfold text_at, visible. cbn [fst snd length].
    destruct (Z.to_nat y) as [|[|k]]; reflexivity.
  - exact Hi.
  - exact Hx.
  - fields. intros j Hr. apply (Hj j Hr).
Qed.

(** A blank in the last column, on a line that is not the last of the screen *)
Lemma last_column_blank bs s y :
  video_mem s <> NULL -> 0 <= y < 24 ->
  exists b v, writechar_with bs 32 VGA_COLOR_WHITE VGA_COLOR_BLUE (set_cursor y 79 s) =
    Some (tt, set_cursor (y + 1) 0 (set_vga v (set_screen b s))).
Proof.
  intros Hv Hy. unfold writechar_with, bind at 1, get. change (32 =? 10) with false. change (32 =? 8) with false.
  cbv iota. set (color := Z.lor _ _). set (b := <[y * 80 + 79 := terminal_make_char 32 color]> (screen_buffer s)).
  destruct (update_vga_ok (set_cursor (y + 1) 0 (set_screen b s))) as (v & Ev & _); [done|].
  exists b, v. erewrite bind_Some; [exact Ev|]. fields.
  unfold terminal_buffer_putchar. rewrite (bind_Some _ _ _ _ _ (buffer_set_ok y 79 _ _ ltac:(lia) ltac:(lia))).
  unfold bind, set_col, set_row, modify, get, scroll_if_needed. fields. change (u16 (79 + 1)) with 80.
  change (VGA_WIDTH <=? 80) with true. cbv iota. rewrite u16_small by lia. unfold bind, get, VGA_HEIGHT. fields.
  destruct (Z.leb_spec 25 (y + 1)); [lia|reflexivity].
Qed.

(** A backspace at the start of a line leaves the column at 65535. *)
Lemma backspace_at_start s p fg bg :
  shows s p -> p.2 = [] -> p.1 <> [] ->
  exists s', writechar_with terminal_backspace 8 fg bg s = Some (tt, s') /\ terminal_col s' = 65535.
Proof.
  intros [[Hv Hr Hc _ _ _] _ _] H2 H1. rewrite H2 in Hc. change (terminal_col s = 0) in Hc.
  assert (1 <= terminal_row s <= 24) as Hrow by (destruct p as [[|l d] q]; [done|cbn in Hr; lia]).
  destruct (last_column_blank fault s (terminal_row s - 1) Hv) as (b & v & E); [lia|].
  destruct (update_vga_ok (set_cursor (terminal_row s - 1 + 1) 65535 (set_vga v (set_screen b s))))
    as (v' & Ev' & _); [done|].
  exists (set_vga v' (set_cursor (terminal_row s - 1 + 1) 65535 (set_vga v (set_screen b s)))). split; [|done].
  unfold writechar_with, bind at 1, get. change (8 =? 10) with false. change (8 =? 8) with true. cbv iota.
  erewrite bind_Some; [exact Ev'|]. unfold terminal_backspace, backspace_with, bind at 1, get.
  rewrite Hc, (proj2 (Z.eqb_neq (terminal_row s) 0)) by lia. cbn [andb]. change (0 =? 0) with true. cbv iota.
  unfold bind at 1 2, set_row, set_col, modify. fields. rewrite u16_small by lia.
  unfold bind at 1 2. fields. unfold VGA_WIDTH. change (u16 (80 - 1)) with 79.
  erewrite bind_Some; [|exact E]. unfold bind. fields. reflexivity.
Qed.

Lemma writechar_outside c fg bg s :
  terminal_col s = 65535 -> c <> 8 -> c <> 10 -> writechar_with terminal_backspace c fg bg s = None.
Proof.
  intros Hc H8 H10. unfold writechar_with, terminal_buffer_putchar, buffer_set, bind, get.
  rewrite (proj2 (Z.eqb_neq c 8) H8), (proj2 (Z.eqb_neq c 10) H10), Hc.
  unfold in_screen. change (65535 <? VGA_WIDTH) with false. by rewrite andb_false_r.
Qed.

End Facts.
End TermFacts.

(** ** Claims *)

Module TermProps.
Import Terminal Render TermFacts.

#[local] Opaque terminal_update_vga_memory terminal_scroll terminal_clear_all.

Section Props.
Context {D : Type} `{PortIO D}.

(** C31: [printf] prints the text its format stands for: when the console shows a
    page, it then shows the page with that text typed after it, the last 25 lines
    of it in the buffer and in the display memory, and the cursor registers hold
    the position after the last character.  Excluded is a backspace at the start of
    a line that has lines above it, after which the code writes outside of its
    buffer. *)
Theorem printf_shows (s : console D) p fmt ap text :
  shows s p -> render true fmt ap = Some text -> Forall arg_ok ap -> legal p text ->
  exists s', printf fmt ap s = Some (0, s') /\ shows s' (type_text p text) /\
    ports s' = cursor_out (ports s) (cursor_of (type_text p text)).
Proof.
  intros Hs Hr Ha Hl.
  destruct (printf_loop_shows true VGA_COLOR_WHITE VGA_COLOR_BLUE (length fmt) fmt ap text p s)
    as (s1 & E1 & Hs1 & D1); [done..|].
  destruct (update_cursor_shows s1 _ Hs1) as (s2 & E2 & Hs2 & D2).
  exists s2. unfold printf. rewrite (bind_Some _ _ _ _ _ E1), (bind_Some _ _ _ _ _ E2), <- D1. by split.
Qed.

(** A backspace at the start of a line other than the first leaves the cursor
    in column 65535, and the next character is written outside of the screen
    buffer. *)
Theorem terminal_backspace_corrupts (s : console D) p fg bg :
  shows s p -> p.2 = [] -> p.1 <> [] ->
  exists s', terminal_writechar 8 fg bg s = Some (tt, s') /\ terminal_col s' = 65535 /\
    forall c, c <> 8 -> c <> 10 -> terminal_writechar c fg bg s' = None.
Proof.
  intros Hs H2 H1. destruct (backspace_at_start s p fg bg Hs H2 H1) as (s' & E & Hc).
  exists s'. split; [exact E|]. split; [done|]. intros c H8 H10. by apply writechar_outside.
Qed.

End Props.

(** A device that records what is written to it. *)
#[local] Instance log_ports : PortIO (list (Z * Z)) := {
  p_outb := fun d p v => d ++ [(p, v)];
  p_outw := fun d p v => d ++ [(p, v)];
  p_insb := fun d p => (0, d);
  p_insw := fun d p => (0, d) }.

(** The static data at boot *)
Definition boot_console : console (list (Z * Z)) :=
  mk_con NULL ∅ 0 0 ∅ (replicate 12 0) (replicate 12 0) [].

(** "n=%i\n%x" with -12 and 255 *)
Definition sample_format : list Z := [110; 61; 37; 105; 10; 37; 120; 0].

Lemma printf_shows_witness :
  exists s s', terminal_init boot_console = Some (tt, s) /\
    printf sample_format [AInt (-12); AInt 255] s = Some (0, s') /\
    shows s' ([[110; 61; 45; 49; 50]], [70; 70]) /\ ports s' = cursor_out (ports s) 82.
Proof.
  destruct (terminal_init_shows boot_console eq_refl eq_refl) as (s & E & Hs).
  destruct (printf_shows s ([], []) sample_format [AInt (-12); AInt 255] [110; 61; 45; 49; 50; 10; 70; 70] Hs)
    as (s' & E' & Hs' & Hd).
  - vm_compute. reflexivity.
  - repeat constructor; vm_compute; intros [=].
  - repeat split; try (vm_compute; discriminate); intros [=].
  - exists s, s'. split; [exact E|]. split; [exact E'|]. split; [exact Hs'|exact Hd].
Defined.

Lemma terminal_backspace_corrupts_witness :
  exists s s1 s2, terminal_init boot_console = Some (tt, s) /\
    terminal_writechar 10 15 1 s = Some (tt, s1) /\ terminal_writechar 8 15 1 s1 = Some (tt, s2) /\
    terminal_writechar 65 15 1 s2 = None.
Proof.
  destruct (terminal_init_shows boot_console eq_refl eq_refl) as (s & E & Hs).
  destruct (terminal_writechar_shows s ([], []) 10 15 1 Hs) as (s1 & E1 & Hs1 & _).
  { split; [unfold is_byte; lia|intros [=]]. }
  destruct (terminal_backspace_corrupts s1 _ 15 1 Hs1 eq_refl) as (s2 & E2 & _ & Hn); [intros [=]|].
  exists s, s1, s2. split; [exact E|]. split; [exact E1|]. split; [exact E2|]. apply Hn; intros [=].
Defined.

End TermProps.
