(* ===== verification/PathParser.v ===== *)
(** * Paths: path_parser.c

    A path is the object its pointer designates, a byte list; advancing the
    pointer drops bytes.  The parts of a parsed path form a singly linked list
    in the program and a list of records here; each record keeps the addresses
    of its two allocations, so that the allocator's state can be followed
    through parsing and freeing.  [None] is an access outside an object (or
    exhausted fuel, which [parse_ok] rules out). *)

From S2P Require Import Prelude CLib KAlloc Heap.
Import Str Memory.

Definition TOYOS_MAX_PATH : Z := 108.
Definition SLASH : Z := 47.
Definition COLON : Z := 58.

Module PathParser.

Record path_part := mk_part { p_addr : Z; p_str_addr : Z; part : list Z }.

Record path_root := mk_root { r_addr : Z; drive_no : Z; first : list path_part }.

(** The three conditions are evaluated from left to right. *)
Definition path_parser_path_valid_format (filename : list Z) : option bool :=
  len ← strnlen filename TOYOS_MAX_PATH;
  if negb (3 <=? len) then Some false
  else
    c ← rd filename 0;
    if negb (is_digit c) then Some false
    else r ← memcmp (drop 1 filename) [COLON; SLASH; 0] 2; Some (r =? 0).

Definition path_parser_get_drive_by_path (path : list Z) : option Z :=
  ok ← path_parser_path_valid_format path;
  if negb ok then Some (- EBADPATH) else c ← rd path 0; Some (ctoi c).

(** The copy loop of [path_parser_get_path_part]: the buffer, the rest of the
    path and the number of bytes copied. *)
Fixpoint part_loop (path buf : list Z) (i : Z) : option (list Z * list Z * Z) :=
  match path with
  | [] => None
  | c :: path' =>
    if (c =? SLASH) || (c =? 0) then Some (buf, c :: path', i)
    else buf ← wr buf i c; part_loop path' buf (i + 1)
  end.

Section Alloc.
Context `{KAlloc A}.

Definition path_parser_create_root (a : A) (drive_number : Z) : option path_root * A :=
  let '(path_r, a) := ka_zalloc a 8 in
  if path_r =? NULL then (None, a) else (Some (mk_root path_r drive_number []), a).

(** Returns the string's address and contents ([None] for NULL), the rest of
    the path and the allocator. *)
Definition path_parser_get_path_part (a : A) (path : list Z)
    : option (option (Z * list Z) * list Z * A) :=
  let '(result_path_part, a) := ka_zalloc a TOYOS_MAX_PATH in
  if result_path_part =? NULL then Some (None, path, a)
  else
    '(buf, path, i) ← part_loop path (replicate (Z.to_nat TOYOS_MAX_PATH) 0) 0;
    c ← rd path 0;
    let path := if c =? SLASH then drop 1 path else path in
    if i =? 0 then Some (None, path, ka_free a result_path_part)
    else Some (Some (result_path_part, buf), path, a).

(** The caller appends the new part to the list. *)
Definition path_parser_parse_path_part (a : A) (path : list Z)
    : option (option path_part * list Z * A) :=
  '(str, path, a) ← path_parser_get_path_part a path;
  match str with
  | None => Some (None, path, a)
  | Some (str_addr, str) =>
    let '(p, a) := ka_zalloc a 8 in
    if p =? NULL then Some (None, path, a)
    else Some (Some (mk_part p str_addr str), path, a)
  end.

(** [while (part) part = path_parser_parse_path_part(part, &tmp_path);] *)
Fixpoint parse_parts (fuel : nat) (a : A) (path : list Z) (parts : list path_part)
    : option (list path_part * A) :=
  match fuel with
  | O => None
  | S fuel' =>
    '(p, path, a) ← path_parser_parse_path_part a path;
    match p with
    | None => Some (parts, a)
    | Some p => parse_parts fuel' a path (parts ++ [p])
    end
  end.

(** [None] as the inner result is the NULL the callers test for. *)
Definition path_parser_parse (a : A) (path : list Z) : option (option path_root * A) :=
  len ← strlen path;
  if TOYOS_MAX_PATH <? len then Some (None, a)
  else
    drive_no ← path_parser_get_drive_by_path path;
    if drive_no <? 0 then Some (None, a)
    else
      let '(root, a) := path_parser_create_root a drive_no in
      match root with
      | None => Some (None, a)
      | Some root =>
        let tmp_path := drop 3 path in
        '(p, tmp_path, a) ← path_parser_parse_path_part a tmp_path;
        match p with
        | None => Some (Some root, a)
        | Some p =>
          '(parts, a) ← parse_parts (S (length tmp_path)) a tmp_path [p];
          Some (Some (mk_root (r_addr root) drive_no parts), a)
        end
      end.

Fixpoint free_parts (a : A) (parts : list path_part) : A :=
  match parts with
  | [] => a
  | p :: parts' => free_parts (ka_free (ka_free a (p_str_addr p)) (p_addr p)) parts'
  end.

Definition path_parser_free (a : A) (root : path_root) : A :=
  ka_free (free_parts a (first root)) (r_addr root).

End Alloc.
End PathParser.

(** ** What parsing a path means *)

Module PathFacts.
Import PathParser.

(** A component: bytes other than NUL and the slash. *)
Definition comp_char (c : Z) : Prop := is_char c /\ c <> SLASH.

(** The components up to the first empty one. *)
Fixpoint components_from (s cur : list Z) : list (list Z) :=
  match s with
  | [] => match cur with [] => [] | _ => [cur] end
  | c :: s' =>
    if c =? SLASH
    then match cur with [] => [] | _ => cur :: components_from s' [] end
    else components_from s' (cur ++ [c])
  end.

Definition components (s : list Z) : list (list Z) := components_from s [].

(** The object a part's string occupies: 108 bytes, zero padded. *)
Definition padded (s : list Z) : list Z := s ++ replicate (108 - length s) 0.

Lemma components_comp s cur rest :
  Forall comp_char s ->
  components_from (s ++ rest) cur = components_from rest (cur ++ s).
Proof.
  intros Hs; revert cur; induction Hs as [|c s [_ Hc] _ IH]; intros cur; simpl.
  - by rewrite app_nil_r.
  - rewrite (proj2 (Z.eqb_neq c SLASH)) by done. by rewrite IH, <- app_assoc.
Qed.

Lemma part_loop_ok s : forall pre k c rest,
  Forall comp_char s -> c = 0 \/ c = SLASH -> (length s <= k)%nat ->
  part_loop (s ++ c :: rest) (pre ++ replicate k 0) (Z.of_nat (length pre))
  = Some (pre ++ s ++ replicate (k - length s) 0, c :: rest, Z.of_nat (length pre + length s)).
Proof.
  induction s as [|x s IH]; intros pre k c rest Hs Hc Hk; simpl.
  - assert ((c =? SLASH) || (c =? 0) = true) as ->.
    { destruct Hc as [-> | ->]; [apply orb_true_r|done]. }
    by rewrite Nat.sub_0_r, Nat.add_0_r.
  - inversion Hs as [|? ? [Hx Hxs] Hs']; subst. unfold is_char in Hx.
    rewrite (proj2 (Z.eqb_neq x SLASH)), (proj2 (Z.eqb_neq x 0)) by (done || lia). simpl.
    simpl in Hk. destruct k as [|k]; [lia|]. simpl.
    rewrite (wr_app _ _ _ pre (0 :: replicate k 0)) by done. simpl.
    rewrite u8_small by lia. specialize (IH (pre ++ [x]) k c rest Hs' Hc ltac:(lia)).
    rewrite <- app_assoc in IH. simpl in IH. rewrite length_app in IH. simpl in IH.
    replace (Z.of_nat (length pre) + 1) with (Z.of_nat (length pre + 1)) by lia.
    rewrite IH. rewrite <- app_assoc. simpl. do 2 f_equal. lia.
Qed.

(** Any string splits into its first component and what follows. *)
Lemma span_comp s :
  Forall is_char s ->
  exists w t, s = w ++ t /\ Forall comp_char w /\
    (t = [] \/ exists t', t = SLASH :: t' /\ Forall is_char t').
Proof.
  induction 1 as [|c s Hc Hs IH]; [by exists [], []; auto|].
  destruct (decide (c = SLASH)) as [->|Hne].
  - exists [], (SLASH :: s). split; [done|]. split; [constructor|]. right. by exists s.
  - destruct IH as (w & t & -> & Hw & Ht). exists (c :: w), t. split; [done|].
    split; [|done]. by constructor.
Qed.

Section Parse.
Context `{KL : KAllocLaws A}.

(** The two allocations of a part, in the order of [path_parser_free]. *)
Definition addrs (ps : list path_part) : list Z :=
  flat_map (fun p => [p_str_addr p; p_addr p]) ps.

Lemma addrs_app ps qs : addrs (ps ++ qs) = addrs ps ++ addrs qs.
Proof. apply flat_map_app. Qed.

Lemma free_parts_eq ps : forall a, free_parts a ps = foldl ka_free a (addrs ps).
Proof. induction ps as [|p ps IH]; intros a; [done|]. apply IH. Qed.

(** The path after a component: its slash, if there is one, is skipped. *)
Definition skip (t rest : list Z) : list Z :=
  match t with [] => 0 :: rest | _ :: t' => t' ++ 0 :: rest end.

Lemma get_path_part_ok a lv f w t rest :
  ka_live a lv f -> 1 <= f -> Forall comp_char w -> (length w <= 105)%nat ->
  (t = [] \/ exists t', t = SLASH :: t') ->
  exists sa a', path_parser_get_path_part a (w ++ t ++ 0 :: rest)
      = Some (match w with [] => None | _ => Some (sa, padded w) end, skip t rest, a') /\
    match w with
    | [] => ka_live a' lv f
    | _ => ka_live a' (<[sa := 1]> lv) (f - 1) /\ lv !! sa = None /\ sa <> NULL
    end.
Proof.
  intros Ha Hf Hw Hlen Ht. unfold path_parser_get_path_part.
  destruct (ka_zalloc_1 a lv f TOYOS_MAX_PATH) as (sa & a1 & Hz & Hnz & _ & Hfr & Ha1);
    [done|unfold TOYOS_MAX_PATH; lia|lia|].
  rewrite Hz, (proj2 (Z.eqb_neq sa NULL)) by done.
  assert (exists c r, t ++ 0 :: rest = c :: r /\ (c = 0 \/ c = SLASH) /\
    skip t rest = if c =? SLASH then r else c :: r) as (c & r & Hcr & Hc & Hskip).
  { destruct Ht as [-> | (t' & ->)]; simpl; do 2 eexists; auto. }
  pose proof (part_loop_ok w [] 108 c r Hw Hc ltac:(lia)) as Hloop. rewrite !app_nil_l in Hloop.
  change (Z.to_nat TOYOS_MAX_PATH) with 108%nat. change (Z.of_nat (length [])) with 0 in Hloop.
  rewrite Hcr, Hloop. cbn [mbind option_bind]. rewrite rd_lookup by lia. simpl.
  fold (padded w). exists sa. rewrite Hskip. destruct w as [|x w]; simpl.
  - eexists. split; [by destruct (c =? SLASH)|].
    eapply ka_zalloc_free; [done| |done|done]. by apply nblocks_1.
  - eexists. split; [by destruct (c =? SLASH)|done].
Qed.

Lemma parse_part_ok a lv f w t rest :
  ka_live a lv f -> 2 <= f -> Forall comp_char w -> (length w <= 105)%nat ->
  (t = [] \/ exists t', t = SLASH :: t') ->
  exists p sa a', path_parser_parse_path_part a (w ++ t ++ 0 :: rest)
      = Some (match w with [] => None | _ => Some (mk_part p sa (padded w)) end,
              skip t rest, a') /\
    match w with
    | [] => ka_live a' lv f
    | _ => ka_live a' (add_pages lv [sa; p]) (f - 2) /\ owned lv [sa; p]
    end.
Proof.
  intros Ha Hf Hw Hlen Ht. unfold path_parser_parse_path_part.
  destruct (get_path_part_ok a lv f w t rest Ha ltac:(lia) Hw Hlen Ht) as (sa & a1 & -> & Ha1).
  cbn [mbind option_bind]. destruct w as [|x w].
  { exists 0, 0, a1. done. }
  destruct Ha1 as (Ha1 & Hfr & _).
  destruct (ka_zalloc_1 a1 _ _ 8 Ha1) as (p & a2 & -> & Hnz & _ & Hfr2 & Ha2); [lia..|].
  rewrite (proj2 (Z.eqb_neq p NULL)) by done. exists p, sa, a2. split; [done|].
  replace (f - 2) with (f - 1 - 1) by lia. split; [done|].
  apply (owned_snoc lv [sa]); [|done]. split; [apply NoDup_singleton|by constructor].
Qed.

Lemma components_split x w t rest :
  Forall comp_char (x :: w) -> (t = [] \/ exists t', t = SLASH :: t' /\ Forall is_char t') ->
  exists s', skip t rest = s' ++ 0 :: rest /\ Forall is_char s' /\ (length s' <= length t)%nat /\
    components ((x :: w) ++ t) = (x :: w) :: components s'.
Proof.
  intros Hw Ht. unfold components. rewrite components_comp by done.
  destruct Ht as [-> | (t' & -> & Ht')]; [exists []|exists t']; simpl; auto.
Qed.

(** The loop over the remaining components. *)
Lemma parse_parts_ok fuel : forall a lv f s rest ps,
  ka_live a (add_pages lv (addrs ps)) f -> owned lv (addrs ps) ->
  Forall is_char s -> (length s <= 105)%nat -> 2 * Z.of_nat (length s) + 2 <= f ->
  (length s < fuel)%nat ->
  exists qs a', parse_parts fuel a (s ++ 0 :: rest) ps = Some (ps ++ qs, a') /\
    map part qs = map padded (components s) /\
    ka_live a' (add_pages lv (addrs (ps ++ qs))) (f - Z.of_nat (length (addrs qs))) /\
    owned lv (addrs (ps ++ qs)).
Proof.
  induction fuel as [|fuel IH]; intros a lv f s rest ps Ha Ho Hs Hlen Hf Hfu; [lia|].
  cbn [parse_parts]. destruct (span_comp s Hs) as (w & t & -> & Hw & Ht).
  rewrite length_app in *.
  assert (t = [] \/ exists t', t = SLASH :: t') as Ht0 by (destruct Ht as [?|(? & ? & _)]; eauto).
  destruct (parse_part_ok a _ f w t rest Ha ltac:(lia) Hw ltac:(lia) Ht0) as (p & sa & a1 & He & Ha1).
  rewrite <- app_assoc, He. cbn [mbind option_bind]. destruct w as [|x w].
  { exists [], a1. rewrite app_nil_r. split; [done|]. split; [|split; [|done]].
    - unfold components. destruct Ht as [-> | (t' & -> & _)]; done.
    - simpl. by replace (f - Z.of_nat 0) with f by lia. }
  destruct Ha1 as [Ha1 Ho1]. set (q := mk_part p sa (padded (x :: w))).
  assert (addrs (ps ++ [q]) = addrs ps ++ [sa; p]) as Haq by (by rewrite addrs_app).
  destruct (components_split x w t rest Hw Ht) as (s' & -> & Hs' & Hl' & Hc).
  destruct (IH a1 lv (f - 2) s' rest (ps ++ [q])) as (qs & a2 & -> & Hm & Ha2 & Ho2);
    [by rewrite Haq, add_pages_app|rewrite Haq; by apply owned_app|done|simpl in *; lia..|].
  exists (q :: qs), a2. rewrite <- app_assoc in *. simpl in Ha2, Ho2 |- *. split; [done|].
  split; [|split; [|done]].
  - change (x :: w ++ t) with ((x :: w) ++ t). rewrite Hc. simpl. by rewrite Hm.
  - by replace (f - Z.of_nat (S (S (length (addrs qs))))) with (f - 2 - Z.of_nat (length (addrs qs))) by lia.
Qed.

Lemma is_char_digit d : 0 <= d <= 9 -> is_char (48 + d) /\ is_digit (48 + d) = true.
Proof.
  intros Hd. unfold is_char, is_digit. rewrite s8_small by lia. split; [lia|].
  rewrite (proj2 (Z.leb_le 48 _)), (proj2 (Z.leb_le _ 57)) by lia. done.
Qed.

(** The text [d:/s]. *)
Definition path_text (d : Z) (s : list Z) : list Z := 48 + d :: COLON :: SLASH :: s.

Lemma valid_format_ok d s rest :
  0 <= d <= 9 -> Forall is_char s ->
  path_parser_path_valid_format (c_str (path_text d s) rest) = Some true.
Proof.
  intros Hd Hs. destruct (is_char_digit d Hd) as [Hc Hdig].
  assert (Forall is_char (path_text d s)) as Hall.
  { constructor; [done|]. constructor; [unfold is_char, COLON; lia|].
    constructor; [unfold is_char, SLASH; lia|done]. }
  unfold path_parser_path_valid_format. rewrite strnlen_spec by (done || unfold TOYOS_MAX_PATH; lia).
  simpl. rewrite (proj2 (Z.leb_le 3 _)) by (unfold TOYOS_MAX_PATH; lia). simpl.
  rewrite Hdig. reflexivity.
Qed.

(** The blocks a parsed path holds. *)
Definition path_blocks (root : path_root) : list Z := r_addr root :: addrs (first root).

Lemma parse_blocks a lv f d s rest :
  ka_live a lv f -> 0 <= d <= 9 -> Forall is_char s -> (length s <= 105)%nat ->
  2 * Z.of_nat (length s) + 3 <= f ->
  exists root a', path_parser_parse a (c_str (path_text d s) rest) = Some (Some root, a') /\
    drive_no root = d /\ map part (first root) = map padded (components s) /\
    ka_live a' (add_pages lv (path_blocks root)) (f - Z.of_nat (length (path_blocks root))) /\
    owned lv (path_blocks root).
Proof.
  intros Ha Hd Hs Hlen Hf. destruct (is_char_digit d Hd) as [Hc _].
  assert (Forall is_char (path_text d s)) as Hall.
  { constructor; [done|]. constructor; [unfold is_char, COLON; lia|].
    constructor; [unfold is_char, SLASH; lia|done]. }
  unfold path_parser_parse. rewrite strlen_spec by done. cbn [mbind option_bind].
  rewrite (proj2 (Z.ltb_ge TOYOS_MAX_PATH _)) by (unfold TOYOS_MAX_PATH, path_text; simpl; lia).
  unfold path_parser_get_drive_by_path. rewrite valid_format_ok by done. cbn [mbind option_bind negb].
  rewrite rd_lookup by lia. simpl lookup. cbn [mbind option_bind].
  assert (ctoi (48 + d) = d) as -> by (unfold ctoi; rewrite s8_small; lia).
  rewrite (proj2 (Z.ltb_ge d 0)) by lia. unfold path_parser_create_root.
  destruct (ka_zalloc_1 a lv f 8 Ha) as (r & a1 & -> & Hnz & _ & Hfr & Ha1); [lia..|].
  rewrite (proj2 (Z.eqb_neq r NULL)) by done.
  change (drop 3 (c_str (path_text d s) rest)) with (s ++ 0 :: rest).
  destruct (span_comp s Hs) as (w & t & -> & Hw & Ht). rewrite length_app in *.
  assert (t = [] \/ exists t', t = SLASH :: t') as Ht0 by (destruct Ht as [?|(? & ? & _)]; eauto).
  destruct (parse_part_ok a1 _ (f - 1) w t rest Ha1 ltac:(lia) Hw ltac:(lia) Ht0)
    as (p & sa & a2 & He & Ha2).
  rewrite <- app_assoc, He. cbn [mbind option_bind]. destruct w as [|x w].
  - eexists _, a2. split; [done|]. split; [done|]. split; [|split].
    + unfold components. destruct Ht as [-> | (t' & -> & _)]; done.
    + done.
    + split; [apply NoDup_singleton|by constructor].
  - destruct Ha2 as [Ha2 Ho2]. set (q := mk_part p sa (padded (x :: w))).
    destruct (components_split x w t rest Hw Ht) as (s' & Hsk & Hs' & Hl' & Hcs).
    rewrite Hsk. destruct (parse_parts_ok (S (length (s' ++ 0 :: rest))) a2 (<[r := 1]> lv) (f - 3)
      s' rest [q]) as (qs & a3 & -> & Hm & Ha3 & Ho3);
      [by replace (f - 3) with (f - 1 - 2) by lia|done|done|simpl in *; lia..|rewrite length_app; lia|].
    cbn [mbind option_bind]. eexists _, a3. split; [done|]. split; [done|]. split; [|split].
    + rewrite Hcs. simpl. by rewrite Hm.
    + unfold path_blocks. simpl in Ha3 |- *.
      by replace (f - Z.of_nat (S (S (S (length (addrs qs))))))
        with (f - 3 - Z.of_nat (length (addrs qs))) by lia.
    + apply (owned_app lv [r]); [|done]. split; [apply NoDup_singleton|by constructor].
Qed.

Lemma path_free_ok a lv f root :
  ka_live a (add_pages lv (path_blocks root)) (f - Z.of_nat (length (path_blocks root))) ->
  owned lv (path_blocks root) -> ka_live (path_parser_free a root) lv f.
Proof.
  intros Ha [Hnd Hf]. unfold path_parser_free, path_blocks in *. rewrite free_parts_eq.
  apply NoDup_cons in Hnd as [Hni Hnd]. apply Forall_cons in Hf as [Hr Hf].
  rewrite <- (delete_insert_id lv (r_addr root) 1) by done.
  replace f with (f - 1 + 1) by lia. apply ka_free_spec; [|apply lookup_insert_eq].
  apply ka_free_added; [|done|].
  - simpl length in Ha. by replace (f - 1 - Z.of_nat (length (addrs (first root))))
      with (f - Z.of_nat (S (length (addrs (first root))))) by lia.
  - rewrite Forall_forall in Hf |- *. intros t Ht. rewrite lookup_insert_ne; [by apply Hf|].
    intros <-. done.
Qed.

Lemma parse_ok a lv f d s rest :
  ka_live a lv f -> 0 <= d <= 9 -> Forall is_char s -> (length s <= 105)%nat ->
  2 * Z.of_nat (length s) + 3 <= f ->
  exists root a', path_parser_parse a (c_str (path_text d s) rest) = Some (Some root, a') /\
    drive_no root = d /\ map part (first root) = map padded (components s) /\
    ka_live (path_parser_free a' root) lv f.
Proof.
  intros Ha Hd Hs Hl Hf. destruct (parse_blocks a lv f d s rest) as (root & a' & ? & ? & ? & ? & ?);
    [done..|]. exists root, a'. eauto using path_free_ok.
Qed.

End Parse.
End PathFacts.

(** ** The theorems of the path parser *)

Module PathProps.
Import PathParser PathFacts.

(** The text of a path: components separated by slashes. *)
Fixpoint join (ws : list (list Z)) : list Z :=
  match ws with
  | [] => []
  | [w] => w
  | w :: ws' => w ++ SLASH :: join ws'
  end.

Definition comp (w : list Z) : Prop := w <> [] /\ Forall comp_char w.

Lemma components_join ws : Forall comp ws -> components (join ws) = ws.
Proof.
  unfold components. induction 1 as [|w ws [Hne Hw] Hws IH]; [done|].
  destruct ws as [|v ws]; simpl.
  - rewrite <- (app_nil_r w) at 1. rewrite components_comp by done. simpl. by destruct w.
  - rewrite components_comp by done. simpl. destruct w; [done|]. f_equal. apply IH.
Qed.

Lemma join_chars ws : Forall comp ws -> Forall is_char (join ws).
Proof.
  induction 1 as [|w ws [_ Hw] Hws IH]; [constructor|].
  assert (Forall is_char w) by (eapply Forall_impl; [exact Hw|]; intros c [? _]; done).
  destruct ws as [|v ws]; [done|]. apply Forall_app. split; [done|].
  constructor; [unfold is_char, SLASH; lia|done].
Qed.

(** C34: printing a path and parsing it gives back the drive number and the
    components: path_parser_parse applied to the text of a drive digit, ":/"
    and the components joined by slashes (at most 108 characters) yields that
    drive and exactly those components, each in its own zero-padded 108-byte
    buffer, whenever the allocator has enough blocks. *)
Theorem path_print_parse `{KL : KAllocLaws A} a lv f d ws rest :
  ka_live a lv f -> 0 <= d <= 9 -> Forall comp ws -> (length (join ws) <= 105)%nat ->
  2 * Z.of_nat (length (join ws)) + 3 <= f ->
  exists root a', path_parser_parse a (c_str (path_text d (join ws)) rest) = Some (Some root, a') /\
    drive_no root = d /\ map part (first root) = map padded ws.
Proof.
  intros Ha Hd Hw Hl Hf.
  destruct (parse_ok a lv f d (join ws) rest) as (root & a' & He & Hdr & Hp & _);
    [done|done|by apply join_chars|done|done|].
  exists root, a'. split; [done|]. split; [done|]. by rewrite Hp, components_join.
Qed.

(** parsing any well-formed path stays inside its buffers and terminates,
    the parts are the components up to the first empty one, and
    path_parser_free returns every block that parsing took. *)
Theorem path_parse_free `{KL : KAllocLaws A} a lv f d s rest :
  ka_live a lv f -> 0 <= d <= 9 -> Forall is_char s -> (length s <= 105)%nat ->
  2 * Z.of_nat (length s) + 3 <= f ->
  exists root a', path_parser_parse a (c_str (path_text d s) rest) = Some (Some root, a') /\
    map part (first root) = map padded (components s) /\
    ka_live (path_parser_free a' root) lv f.
Proof.
  intros. destruct (parse_ok a lv f d s rest) as (root & a' & He & _ & Hp & Hfr); eauto.
Qed.

(** What the parser accepts: at most 108 characters, a digit, then ":/". *)
Definition well_formed (s : list Z) : bool :=
  (Z.of_nat (length s) <=? TOYOS_MAX_PATH) &&
  match s with
  | c0 :: c1 :: c2 :: _ => is_digit c0 && (c1 =? COLON) && (c2 =? SLASH)
  | _ => false
  end.

(** Every malformed path (longer than 108 characters, shorter than three,
    without a drive digit or without ":/" after it) is refused with NULL, in
    bounds and without touching the allocator. *)
Theorem path_parse_rejects `{KAlloc A} (a : A) s rest :
  Forall is_char s -> well_formed s = false ->
  path_parser_parse a (c_str s rest) = Some (None, a).
Proof.
  intros Hs Hw. unfold path_parser_parse. rewrite strlen_spec by done. cbn [mbind option_bind].
  destruct (Z.ltb_spec TOYOS_MAX_PATH (Z.of_nat (length s))) as [|Hle]; [done|].
  unfold well_formed in Hw. rewrite (proj2 (Z.leb_le _ _)) in Hw by done. simpl in Hw.
  assert (path_parser_path_valid_format (c_str s rest) = Some false) as Hv.
  { unfold path_parser_path_valid_format.
    rewrite strnlen_spec by (done || unfold TOYOS_MAX_PATH; lia). cbn [mbind option_bind].
    unfold TOYOS_MAX_PATH in *.
    destruct s as [|c0 [|c1 [|c2 s]]]; [done..|].
    rewrite (proj2 (Z.leb_le 3 _)) by (simpl length; lia). simpl.
    destruct (is_digit c0); [|done]. simpl in Hw |- *. unfold memcmp. simpl.
    destruct (Z.eqb_spec c1 COLON) as [->|]; simpl in *.
    - destruct (Z.eqb_spec c2 SLASH) as [->|]; [done|]. simpl. by destruct (_ <? _).
    - by destruct (_ <? _). }
  unfold path_parser_get_drive_by_path. by rewrite Hv.
Qed.

(** *** Instances on the kernel heap *)

Import Heap.HeapProps Heap.Laws.
#[local] Existing Instance kheap_alloc.
#[local] Existing Instance kheap_laws.

(** "bin/sh" on drive 0. *)
Definition bin_sh : list (list Z) := [[98; 105; 110]; [115; 104]].

Lemma comp_bin_sh : Forall comp bin_sh.
Proof.
  repeat apply List.Forall_cons; try apply List.Forall_nil; (split; [done|]);
    repeat apply List.Forall_cons; try apply List.Forall_nil;
    unfold comp_char, is_char, SLASH; lia.
Qed.

Lemma path_print_parse_witness :
  exists root a',
    @path_parser_parse _ (kheap_alloc kheap) boot_mem (c_str (path_text 0 (join bin_sh)) [])
      = Some (Some root, a') /\
    drive_no root = 0 /\ map part (first root) = map padded bin_sh.
Proof.
  apply (@path_print_parse _ _ (kheap_laws kheap) boot_mem ∅ 25600 0 bin_sh []);
    [apply kheap_fresh|lia|apply comp_bin_sh|simpl; lia|simpl; lia].
Defined.

Lemma path_parse_free_witness :
  exists root a',
    @path_parser_parse _ (kheap_alloc kheap) boot_mem (c_str (path_text 0 [97; 47; 47; 98]) [])
      = Some (Some root, a') /\
    map part (first root) = map padded [[97]] /\
    heap_live kheap (@path_parser_free _ (kheap_alloc kheap) a' root) ∅ 25600.
Proof.
  apply (@path_parse_free _ _ (kheap_laws kheap) boot_mem ∅ 25600 0 [97; 47; 47; 98] []);
    [apply kheap_fresh|lia| |simpl; lia|simpl; lia].
  repeat apply List.Forall_cons; try apply List.Forall_nil; unfold is_char; lia.
Defined.

Lemma path_parse_rejects_witness :
  @path_parser_parse _ (kheap_alloc kheap) boot_mem (c_str [97; 58; 47] []) = Some (None, boot_mem).
Proof.
  apply (path_parse_rejects boot_mem [97; 58; 47] []); [|reflexivity].
  repeat apply List.Forall_cons; try apply List.Forall_nil; unfold is_char; lia.
Defined.

End PathProps.
