(* ===== verification/Fat16.v ===== *)
(** * The FAT16 file system: fat16.c

    The state of a mounted volume holds the allocator, the block device, the
    boot-sector fields the code uses, the root directory and the three streams
    of [struct fat_private].  Directory entries are 32-byte records decoded from
    the bytes on disk.  Functions that return pointers return the structure
    pointed to together with the address of its allocation.  A fault ([None])
    is an access outside an object, a null dereference, a division by zero or a
    loop that does not end. *)

From S2P Require Import Prelude CLib KAlloc Heap Disk PathParser.
Import Str Streamer PathParser.
#[local] Open Scope prog_scope.

Module Fat16.

Definition TOYOS_FAT16_SIGNATURE : Z := 0x29.
Definition TOYOS_FAT16_FAT_ENTRY_SIZE : Z := 0x02.
Definition TOYOS_FAT16_BAD_SECTOR : Z := 0xff7.
Definition TOYOS_FAT16_UNUSED : Z := 0x00.
Definition FAT_FILE_READ_ONLY : Z := 0x01.
Definition FAT_FILE_SUBDIRECTORY : Z := 0x10.
Definition DIRECTORY_ENTRY_AVAILABLE : Z := 0xe5.
Definition FILE_MODE_READ : Z := 0.
Definition FILE_MODE_WRITE : Z := 1.
Definition FILE_MODE_APPEND : Z := 2.
Definition FILE_MODE_INVALID : Z := 3.
Definition SEEK_SET : Z := 0.
Definition SEEK_CUR : Z := 1.
Definition SEEK_END : Z := 2.
Definition FILE_STAT_READ_ONLY : Z := 1.

(** The address of a local variable: only that it is not null matters. *)
Definition local_addr : Z := 1.

(** ** On-disk structures *)

(** Little-endian field of [n] bytes at offset [off]. *)
Definition field (l : list Z) (off n : nat) : Z := le_val (take n (drop off l)).

Definition bytes (l : list Z) (off n : nat) : list Z := take n (drop off l).

(** [struct fat_header]; the extended header contributes its signature. *)
Record fat_header := mk_header {
  bytes_per_sector : Z; sectors_per_cluster : Z; reserved_sectors : Z; fat_copies : Z;
  root_dir_entries : Z; number_of_sectors : Z; sectors_per_fat : Z; signature : Z }.

(** [sizeof(struct fat_h)]: 36 bytes of primary and 26 of extended header. *)
Definition sizeof_fat_h : Z := 62.

Definition decode_header (l : list Z) : fat_header := {|
  bytes_per_sector := field l 11 2; sectors_per_cluster := field l 13 1;
  reserved_sectors := field l 14 2; fat_copies := field l 16 1;
  root_dir_entries := field l 17 2; number_of_sectors := field l 19 2;
  sectors_per_fat := field l 22 2; signature := field l 38 1 |}.

Record fat_directory_item := mk_item {
  filename : list Z; ext : list Z; attribute : Z; reserved : Z;
  creation_time_tenths_of_a_sec : Z; creation_time : Z; creation_date : Z; last_access : Z;
  high_16_bits_first_cluster : Z; last_mod_time : Z; last_mod_date : Z;
  low_16_bits_first_cluster : Z; filesize : Z }.

Definition sizeof_item : Z := 32.

Definition decode_item (l : list Z) : fat_directory_item := {|
  filename := bytes l 0 8; ext := bytes l 8 3; attribute := field l 11 1;
  reserved := field l 12 1; creation_time_tenths_of_a_sec := field l 13 1;
  creation_time := field l 14 2; creation_date := field l 16 2; last_access := field l 18 2;
  high_16_bits_first_cluster := field l 20 2; last_mod_time := field l 22 2;
  last_mod_date := field l 24 2; low_16_bits_first_cluster := field l 26 2;
  filesize := field l 28 4 |}.

Definition encode_item (i : fat_directory_item) : list Z :=
  filename i ++ ext i ++ le_bytes 1 (attribute i) ++ le_bytes 1 (reserved i) ++
  le_bytes 1 (creation_time_tenths_of_a_sec i) ++ le_bytes 2 (creation_time i) ++
  le_bytes 2 (creation_date i) ++ le_bytes 2 (last_access i) ++
  le_bytes 2 (high_16_bits_first_cluster i) ++ le_bytes 2 (last_mod_time i) ++
  le_bytes 2 (last_mod_date i) ++ le_bytes 2 (low_16_bits_first_cluster i) ++
  le_bytes 4 (filesize i).

(** ** In-memory structures *)

(** [d_addr] is the address of the structure ([NULL] for the root directory,
    which is embedded in [fat_private]), [item_addr] and [items] the address and
    the contents of the array [item] points to. *)
Record fat_directory := mk_dir {
  d_addr : Z; item_addr : Z; items : list Z; total : Z;
  sector_pos : Z; ending_sector_pos : Z }.

(** The union of [struct fat_item]: an entry with the address of its clone, or
    a directory; [None] is a null pointer. *)
Inductive fat_body :=
| FAT_ITEM_TYPE_DIRECTORY (directory : option fat_directory)
| FAT_ITEM_TYPE_FILE (item : option (Z * fat_directory_item)).

Record fat_item := mk_fat_item { fi_addr : Z; body : fat_body }.

Record fat_file_descriptor := mk_fd { fd_addr : Z; fd_item : fat_item; fd_pos : Z }.

Record file_stat := mk_stat { st_flags : Z; st_filesize : Z }.

(** A mounted volume. *)
Record volume (A D : Type) := mk_volume {
  alloc : A; dev : D; sector_size : Z;
  header : fat_header; root_directory : fat_directory;
  cluster_read_stream : option disk_stream;
  fat_read_stream : option disk_stream;
  directory_stream : option disk_stream }.

Arguments mk_volume {A D}.
Arguments alloc {A D}.
Arguments dev {A D}.
Arguments sector_size {A D}.
Arguments header {A D}.
Arguments root_directory {A D}.
Arguments cluster_read_stream {A D}.
Arguments fat_read_stream {A D}.
Arguments directory_stream {A D}.

(** Which stream of the volume an operation uses. *)
Inductive which := Cluster | Fat | Dir.

#[export] Instance which_dec : EqDecision which.
Proof. solve_decision. Defined.

Section Ops.
Context {A D : Type} `{KAlloc A} `{BlockDevice D}.
Variables (stack_buf : list Z) (stack_res : Z).

Abbreviation vol := (volume A D).
Abbreviation F := (M vol).

Definition stream_of (w : which) (v : vol) : option disk_stream :=
  match w with
  | Cluster => cluster_read_stream v
  | Fat => fat_read_stream v
  | Dir => directory_stream v
  end.

Definition set_stream (w : which) (s : disk_stream) (d : D) (v : vol) : vol :=
  mk_volume (alloc v) d (sector_size v) (header v) (root_directory v)
    (match w with Cluster => Some s | _ => cluster_read_stream v end)
    (match w with Fat => Some s | _ => fat_read_stream v end)
    (match w with Dir => Some s | _ => directory_stream v end).

Definition set_alloc (a : A) (v : vol) : vol :=
  mk_volume a (dev v) (sector_size v) (header v) (root_directory v)
    (cluster_read_stream v) (fat_read_stream v) (directory_stream v).

(** The stream operations on a stream of the volume; a null stream is refused. *)
Definition vol_seek (w : which) (p : Z) : F Z := fun v =>
  match stream_of w v with
  | None => Some (- EINVARG, v)
  | Some s => let '(res, s) := streamer_seek s p in Some (res, set_stream w s (dev v) v)
  end.

Definition vol_read (w : which) (out n : Z) : F (Z * list Z) := fun v =>
  match stream_of w v with
  | None => Some (- EINVARG, [], v)
  | Some s =>
    match streamer_read stack_buf (dev v) s out n with
    | Some (res, l, s, d) => Some (res, l, set_stream w s d v)
    | None => None
    end
  end.

Definition vol_write (w : which) (inp : list Z) (n : Z) : F Z := fun v =>
  match stream_of w v with
  | None => Some (- EINVARG, v)
  | Some s =>
    match streamer_write stack_buf stack_res (dev v) s (Some inp) n with
    | Some (res, s, d) => Some (res, set_stream w s d v)
    | None => None
    end
  end.

Definition vol_kzalloc (size : Z) : F Z := fun v =>
  let '(p, a) := ka_zalloc (alloc v) (u32 size) in Some (p, set_alloc a v).

Definition vol_kfree (p : Z) : F unit := fun v => Some (tt, set_alloc (ka_free (alloc v) p) v).

(** *** Directories and the boot sector *)

(** [while (1)] over the entries on disk. *)
Fixpoint total_items_loop (fuel : nat) (total_items : Z) : F Z :=
  match fuel with
  | O => fault
  | S fuel' =>
    let! (res, l) := vol_read Dir local_addr sizeof_item in
    if negb (res =? OK) then ret (- EIO)
    else
      let! c := lift (rd l 0) in
      if c =? 0x00 then ret total_items
      else if c =? DIRECTORY_ENTRY_AVAILABLE then total_items_loop fuel' total_items
      else total_items_loop fuel' (total_items + 1)
  end.

(** How many entries a directory may have before the scan is taken to hang. *)
Variable dir_fuel : nat.

Definition fat16_get_total_items_for_directory (directory_start_sector : Z) : F Z :=
  let! v := get in
  let directory_start_pos := s32 (u32 (directory_start_sector * sector_size v)) in
  let! res := vol_seek Dir directory_start_pos in
  if negb (res =? OK) then ret (- EIO) else total_items_loop dir_fuel 0.

Definition fat16_sector_to_absolute (v : vol) (sector : Z) : Z := s32 (sector * sector_size v).

(** Fills the root directory of the volume. *)
Definition fat16_get_root_directory : F Z :=
  let! v := get in
  let h := header v in
  let root_dir_sector_pos := fat_copies h * sectors_per_fat h + reserved_sectors h in
  let root_dir_size := root_dir_entries h * sizeof_item in
  let! total_items := fat16_get_total_items_for_directory root_dir_sector_pos in
  let! dir := vol_kzalloc root_dir_size in
  if dir =? NULL then ret (- ENOMEM)
  else
    let! v := get in
    match directory_stream v with
    | None => vol_kfree dir ;! ret (- EIO)
    | Some _ =>
      let! res := vol_seek Dir (fat16_sector_to_absolute v root_dir_sector_pos) in
      if negb (res =? OK) then vol_kfree dir ;! ret (- EIO)
      else
        let! (res, l) := vol_read Dir dir root_dir_size in
        if negb (res =? OK) then vol_kfree dir ;! ret (- EIO)
        else
          modify (fun v =>
            mk_volume (alloc v) (dev v) (sector_size v) (header v)
              (mk_dir NULL dir l total_items root_dir_sector_pos
                 (root_dir_sector_pos + Z.quot root_dir_size (sector_size v)))
              (cluster_read_stream v) (fat_read_stream v) (directory_stream v)) ;!
          ret OK
    end.

(** *** Entries, clusters and the file allocation table *)

Definition fat16_clone_directory_item (item : fat_directory_item) (size : Z)
    : F (option (Z * fat_directory_item)) :=
  if u32 size <? sizeof_item then ret None
  else
    let! item_copy := vol_kzalloc size in
    if item_copy =? NULL then ret None else ret (Some (item_copy, item)).

Definition fat16_get_first_cluster (item : fat_directory_item) : Z :=
  Z.lor (high_16_bits_first_cluster item) (low_16_bits_first_cluster item).

Definition fat16_cluster_to_sector (v : vol) (cluster : Z) : Z :=
  s32 (ending_sector_pos (root_directory v) + s32 ((cluster - 2) * sectors_per_cluster (header v))).

Definition fat16_get_first_fat_sector (v : vol) : Z := reserved_sectors (header v).

Definition fat16_get_fat_entry (cluster : Z) : F Z :=
  let! v := get in
  match fat_read_stream v with
  | None => ret (-100)
  | Some _ =>
    let fat_table_position := u32 (fat16_get_first_fat_sector v * sector_size v) in
    let! res := vol_seek Fat (s32 (fat_table_position + cluster * TOYOS_FAT16_FAT_ENTRY_SIZE)) in
    if res <? 0 then ret res
    else
      let! (res, l) := vol_read Fat local_addr 2 in
      if res <? 0 then ret res else ret (le_val l)
  end.

(** [for (int i = 0; i < clusters_ahead; i++)]: the value of [res]. *)
Fixpoint cluster_loop (n : nat) (cluster_to_use : Z) : F Z :=
  match n with
  | O => ret cluster_to_use
  | S n' =>
    let! entry := fat16_get_fat_entry cluster_to_use in
    if (entry =? 0xff8) || (entry =? 0xfff) then ret (- EIO)
    else if entry =? TOYOS_FAT16_BAD_SECTOR then ret (- EIO)
    else if (entry =? 0xff0) || (entry =? 0xff6) then ret (- EIO)
    else if entry =? 0x00 then ret (- EIO)
    else cluster_loop n' entry
  end.

Definition size_of_cluster_bytes (v : vol) : Z := sectors_per_cluster (header v) * sector_size v.

Definition fat16_get_cluster_for_offset (starting_cluster offset : Z) : F Z :=
  let! v := get in
  let size := size_of_cluster_bytes v in
  if size =? 0 then fault
  else cluster_loop (Z.to_nat (Z.quot offset size)) starting_cluster.

(** Recursion on the rest of the request: the status and the bytes stored
    through [out]. *)
Fixpoint read_internal_rec (fuel : nat) (cluster offset total out : Z) : F (Z * list Z) :=
  match fuel with
  | O => fault
  | S fuel' =>
    let! v := get in
    let size := size_of_cluster_bytes v in
    let! cluster_to_use := fat16_get_cluster_for_offset cluster offset in
    if cluster_to_use <? 0 then ret (cluster_to_use, [])
    else
      let starting_sector := fat16_cluster_to_sector v cluster_to_use in
      let offset_from_cluster := Z.rem offset size in
      let starting_pos := s32 (starting_sector * sector_size v + offset_from_cluster) in
      let total_to_read := if size <? total then size else total in
      let! res := vol_seek Cluster starting_pos in
      if negb (res =? OK) then ret (res, [])
      else
        let! (res, l) := vol_read Cluster out total_to_read in
        if negb (res =? OK) then ret (res, l)
        else
          let total := total - total_to_read in
          if 0 <? total then
            let! (res, l') := read_internal_rec fuel' cluster (s32 (offset + total_to_read)) total
                                (ptr_add out total_to_read) in
            ret (res, l ++ l')
          else ret (res, l)
  end.

Definition fat16_read_internal (starting_cluster offset total out : Z) : F (Z * list Z) :=
  read_internal_rec (S (Z.to_nat total)) starting_cluster offset total out.

(** *** Releasing *)

Definition fat16_free_directory (directory : option fat_directory) : F unit :=
  match directory with
  | None => ret tt
  | Some d => (if item_addr d =? NULL then ret tt else vol_kfree (item_addr d)) ;! vol_kfree (d_addr d)
  end.

Definition fat16_fat_item_free (item : fat_item) : F unit :=
  match body item with
  | FAT_ITEM_TYPE_DIRECTORY d => fat16_free_directory d
  | FAT_ITEM_TYPE_FILE i => vol_kfree (match i with Some (a, _) => a | None => NULL end)
  end ;! vol_kfree (fi_addr item).

(** On an error the directory is freed and returned all the same. *)
Definition fat16_load_fat_directory (item : fat_directory_item) : F (option fat_directory) :=
  if Z.land (attribute item) FAT_FILE_SUBDIRECTORY =? 0 then ret None
  else
    let! directory := vol_kzalloc 16 in
    if directory =? NULL then ret None
    else
      let! v := get in
      let cluster := fat16_get_first_cluster item in
      let cluster_sector := fat16_cluster_to_sector v cluster in
      let! total := fat16_get_total_items_for_directory (u32 cluster_sector) in
      let directory_size := s32 (total * sizeof_item) in
      let! p := vol_kzalloc directory_size in
      if p =? NULL then
        let d := mk_dir directory NULL [] total 0 0 in
        fat16_free_directory (Some d) ;! ret (Some d)
      else
        let! (res, l) := fat16_read_internal cluster 0x00 directory_size p in
        let d := mk_dir directory p
                   (l ++ drop (length l) (replicate (Z.to_nat (u32 directory_size)) 0)) total 0 0 in
        (if negb (res =? OK) then fat16_free_directory (Some d) else ret tt) ;!
        ret (Some d).

Definition fat16_new_fat_item_for_directory_item (item : fat_directory_item)
    : F (option fat_item) :=
  let! f_item := vol_kzalloc 8 in
  if f_item =? NULL then ret None
  else if negb (Z.land (attribute item) FAT_FILE_SUBDIRECTORY =? 0) then
    let! d := fat16_load_fat_directory item in
    ret (Some (mk_fat_item f_item (FAT_ITEM_TYPE_DIRECTORY d)))
  else
    let! i := fat16_clone_directory_item item sizeof_item in
    ret (Some (mk_fat_item f_item (FAT_ITEM_TYPE_FILE i))).

End Ops.

(** *** Names *)

(** The loop of [fat16_to_proper_string]: [i] counts the bytes copied, [pos] is
    the index of [*out] in the output object.  The result is the object and the
    final [*out]. *)
Fixpoint proper_string_loop (inp out : list Z) (pos i size : Z) : option (list Z * Z) :=
  match inp with
  | [] => None
  | c :: inp' =>
    if (c =? 0x00) || (c =? 0x20) then Some (out, pos)
    else
      out ← wr out pos c;
      if u32 (size - 1) <=? i then Some (out, pos + 1)
      else proper_string_loop inp' out (pos + 1) (i + 1) size
  end.

Definition fat16_to_proper_string (out : list Z) (pos : Z) (inp : list Z) (size : Z)
    : option (list Z * Z) :=
  '(out, pos) ← proper_string_loop inp out pos 0 size;
  out ← wr out pos 0x00;
  Some (out, pos).

(** The output object has [max_len] bytes. *)
Definition fat16_get_full_relative_filename (item : fat_directory_item) (max_len : Z)
    : option (list Z) :=
  let out := replicate (Z.to_nat max_len) 0 in
  '(out, out_tmp) ← fat16_to_proper_string out 0 (filename item) 8;
  e ← rd (ext item) 0;
  if negb (e =? 0x00) && negb (e =? 0x20) then
    out ← wr out out_tmp 46;
    '(out, _) ← fat16_to_proper_string out (out_tmp + 1) (ext item) 3;
    Some out
  else Some out.

(** [&directory->item[i]]: its address and contents. *)
Definition item_at (d : fat_directory) (i : Z) : option (Z * fat_directory_item) :=
  if (0 <=? i) && (sizeof_item * (i + 1) <=? Z.of_nat (length (items d)))
  then Some (ptr_add (item_addr d) (sizeof_item * i),
             decode_item (bytes (items d) (Z.to_nat (sizeof_item * i)) 32))
  else None.

Section Ops2.
Context {A D : Type} `{KAlloc A} `{BlockDevice D}.
Variables (stack_buf : list Z) (stack_res : Z) (dir_fuel : nat).

Abbreviation vol := (volume A D).
Abbreviation F := (M vol).

(** [for (int i = 0; i < directory->total; i++)]: a later match replaces an
    earlier one. *)
Fixpoint find_loop (n : nat) (d : fat_directory) (i : Z) (name : list Z)
    (f_item : option fat_item) : F (option fat_item) :=
  match n with
  | O => ret f_item
  | S n' =>
    let! (_, item) := lift (item_at d i) in
    let! tmp_filename := lift (fat16_get_full_relative_filename item TOYOS_MAX_PATH) in
    let! r := lift (istrncmp tmp_filename name TOYOS_MAX_PATH) in
    if r =? 0 then
      let! f := fat16_new_fat_item_for_directory_item stack_buf dir_fuel item in
      find_loop n' d (i + 1) name f
    else find_loop n' d (i + 1) name f_item
  end.

Definition fat16_find_item_in_directory (d : fat_directory) (name : list Z)
    : F (option fat_item) :=
  find_loop (Z.to_nat (total d)) d 0 name None.

(** [while (next_part != NULL)]; a directory that could not be loaded is a null
    dereference. *)
Fixpoint walk (current_item : fat_item) (parts : list path_part) : F (option fat_item) :=
  match parts with
  | [] => ret (Some current_item)
  | p :: parts' =>
    match body current_item with
    | FAT_ITEM_TYPE_FILE _ => ret None
    | FAT_ITEM_TYPE_DIRECTORY None => fault
    | FAT_ITEM_TYPE_DIRECTORY (Some d) =>
      let! tmp_item := fat16_find_item_in_directory d (part p) in
      match tmp_item with
      | None => ret None
      | Some tmp_item => fat16_fat_item_free current_item ;! walk tmp_item parts'
      end
    end
  end.

Definition fat16_get_directory_entry (path : list path_part) : F (option fat_item) :=
  match path with
  | [] => fault
  | p :: next_part =>
    let! v := get in
    let! root_item := fat16_find_item_in_directory (root_directory v) (part p) in
    match root_item with
    | None => ret None
    | Some root_item => walk root_item next_part
    end
  end.

(** *** Writing the file allocation table *)

Definition fat16_set_fat_entry (cluster value : Z) : F Z :=
  let! v := get in
  match fat_read_stream v with
  | None => ret (- EIO)
  | Some _ =>
    let fat_table_position := u32 (fat16_get_first_fat_sector v * sector_size v) in
    let! res := vol_seek Fat (s32 (fat_table_position + cluster * TOYOS_FAT16_FAT_ENTRY_SIZE)) in
    if negb (res =? OK) then ret (- EIO)
    else
      let! res := vol_write stack_buf stack_res Fat (le_bytes 2 (u16 value)) 2 in
      if negb (res =? OK) then ret (- EIO) else ret OK
  end.

(** [for (int i = 2; i < number_of_sectors; i++)] *)
Fixpoint allocate_loop (n : nat) (i current_cluster : Z) : F Z :=
  match n with
  | O => ret (- ENOMEM)
  | S n' =>
    let! entry := fat16_get_fat_entry stack_buf i in
    if entry =? TOYOS_FAT16_UNUSED then
      let! res := fat16_set_fat_entry current_cluster i in
      if negb (res =? OK) then ret (- EIO)
      else
        let! res := fat16_set_fat_entry i 0xfff in
        if negb (res =? OK) then ret (- EIO) else ret i
    else allocate_loop n' (i + 1) current_cluster
  end.

Definition fat16_allocate_cluster (current_cluster : Z) : F Z :=
  let! v := get in
  allocate_loop (Z.to_nat (number_of_sectors (header v) - 2)) 2 current_cluster.

(** *** Where a directory entry lives on disk *)

Definition fat16_get_directory_sector (v : vol) (item : fat_directory_item) : Z :=
  if negb (Z.land (attribute item) FAT_FILE_SUBDIRECTORY =? 0)
  then fat16_cluster_to_sector v (fat16_get_first_cluster item)
  else reserved_sectors (header v) + fat_copies (header v) * sectors_per_fat (header v).

(** The search compares addresses. *)
Fixpoint offset_loop (n : nat) (d : fat_directory) (i addr : Z) : Z :=
  match n with
  | O => - EIO
  | S n' =>
    if ptr_add (item_addr d) (sizeof_item * i) =? addr then i * sizeof_item
    else offset_loop n' d (i + 1) addr
  end.

Definition fat16_get_directory_offset (v : vol) (addr : Z) (item : fat_directory_item) : Z :=
  if negb (Z.land (attribute item) FAT_FILE_SUBDIRECTORY =? 0) then 0
  else offset_loop (Z.to_nat (total (root_directory v))) (root_directory v) 0 addr.

(** *** The file-system operations *)

(** An error code or a descriptor. *)
Definition fat16_open (path : list path_part) (mode : Z) : F (Z + fat_file_descriptor) :=
  match path with
  | [] => ret (inl (- EINVARG))
  | _ =>
    if negb (mode =? FILE_MODE_READ) && negb (mode =? FILE_MODE_WRITE) then ret (inl (- EINVARG))
    else
      let! descriptor := vol_kzalloc 8 in
      if descriptor =? NULL then ret (inl (- ENOMEM))
      else
        let! item := fat16_get_directory_entry path in
        match item with
        | None => vol_kfree descriptor ;! ret (inl (- EIO))
        | Some item => ret (inr (mk_fd descriptor item 0))
        end
  end.

(** [descriptor->item->item]: reading a directory through it runs past the end
    of a [struct fat_directory]; a null clone is a null dereference. *)
Definition file_item (d : fat_file_descriptor) : option (Z * fat_directory_item) :=
  match body (fd_item d) with
  | FAT_ITEM_TYPE_FILE (Some i) => Some i
  | _ => None
  end.

(** Every element is stored at [out]; the result is the return value and the
    contents of the output object, [buf] at first. *)
Fixpoint fread_loop (n : nat) (item : fat_directory_item) (offset size nmemb out : Z)
    (buf : list Z) : F (Z * list Z) :=
  match n with
  | O => ret (s32 nmemb, buf)
  | S n' =>
    let! (res, l) := fat16_read_internal stack_buf (fat16_get_first_cluster item) offset
                       (s32 size) out in
    let buf := l ++ drop (length l) buf in
    if res <? 0 then ret (0, buf)
    else fread_loop n' item (s32 (s32 (offset + size) + res)) size nmemb out buf
  end.

Definition fat16_read (d : fat_file_descriptor) (size nmemb out : Z) (buf : list Z)
    : F (Z * list Z) :=
  if out =? NULL then ret (- EINVARG, buf)
  else
    let! (_, item) := lift (file_item d) in
    fread_loop (Z.to_nat nmemb) item (s32 (fd_pos d)) size nmemb out buf.

Definition fat16_seek (d : fat_file_descriptor) (offset seek_mode : Z)
    : option (Z * fat_file_descriptor) :=
  match body (fd_item d) with
  | FAT_ITEM_TYPE_DIRECTORY _ => Some (- EINVARG, d)
  | FAT_ITEM_TYPE_FILE None => None
  | FAT_ITEM_TYPE_FILE (Some (_, dir_item)) =>
    if filesize dir_item <? offset then Some (- EIO, d)
    else if seek_mode =? SEEK_SET then Some (OK, mk_fd (fd_addr d) (fd_item d) offset)
    else if seek_mode =? SEEK_CUR
    then Some (OK, mk_fd (fd_addr d) (fd_item d) (u32 (fd_pos d + offset)))
    else if seek_mode =? SEEK_END
    then Some (OK, mk_fd (fd_addr d) (fd_item d) (u32 (filesize dir_item + offset)))
    else Some (- EINVARG, d)
  end.

Definition fat16_stat (d : fat_file_descriptor) : option (Z * option file_stat) :=
  match body (fd_item d) with
  | FAT_ITEM_TYPE_DIRECTORY _ => Some (- EINVARG, None)
  | FAT_ITEM_TYPE_FILE None => None
  | FAT_ITEM_TYPE_FILE (Some (_, dir_item)) =>
    let flags := if negb (Z.land (attribute dir_item) FAT_FILE_READ_ONLY =? 0)
                 then FILE_STAT_READ_ONLY else 0 in
    Some (OK, Some (mk_stat flags (filesize dir_item)))
  end.

(** The write loop: [Some] code is an early return, [None] the normal exit with
    the number of bytes written. *)
Fixpoint fwrite_loop (fuel : nat) (inp : list Z) (cluster offset total_bytes bytes_written : Z)
    : F (option Z * Z) :=
  match fuel with
  | O => fault
  | S fuel' =>
    if total_bytes =? 0 then ret (None, bytes_written)
    else
      let! v := get in
      let! current_cluster := fat16_get_cluster_for_offset stack_buf cluster offset in
      if current_cluster <? 0 then ret (Some (- EIO), bytes_written)
      else
        let starting_sector := fat16_cluster_to_sector v current_cluster in
        let offset_from_cluster := Z.rem offset (size_of_cluster_bytes v) in
        let starting_pos := s32 (starting_sector * sector_size v + offset_from_cluster) in
        let room := u32 (sector_size v - offset_from_cluster) in
        let bytes_to_write := s32 (if room <? total_bytes then room else total_bytes) in
        let! res := vol_seek Cluster starting_pos in
        if negb (res =? OK) then ret (Some (- EIO), bytes_written)
        else
          let! res := vol_write stack_buf stack_res Cluster (drop (Z.to_nat bytes_written) inp)
                        bytes_to_write in
          if negb (res =? OK) then ret (Some (- EIO), bytes_written)
          else
            let total_bytes := u32 (total_bytes - bytes_to_write) in
            let bytes_written := u32 (bytes_written + bytes_to_write) in
            let offset := s32 (offset + bytes_to_write) in
            if size_of_cluster_bytes v <=? offset_from_cluster + bytes_to_write then
              let! next_cluster := fat16_get_fat_entry stack_buf current_cluster in
              if (next_cluster =? 0xfff) || (next_cluster =? 0xff8) then
                let! next_cluster := fat16_allocate_cluster current_cluster in
                if next_cluster <? 0 then ret (Some (- EIO), bytes_written)
                else fwrite_loop fuel' inp next_cluster offset total_bytes bytes_written
              else fwrite_loop fuel' inp next_cluster offset total_bytes bytes_written
            else fwrite_loop fuel' inp cluster offset total_bytes bytes_written
  end.

Definition set_filesize (i : fat_directory_item) (n : Z) : fat_directory_item :=
  mk_item (filename i) (ext i) (attribute i) (reserved i) (creation_time_tenths_of_a_sec i)
    (creation_time i) (creation_date i) (last_access i) (high_16_bits_first_cluster i)
    (last_mod_time i) (last_mod_date i) (low_16_bits_first_cluster i) n.

Definition set_file (d : fat_file_descriptor) (addr : Z) (i : fat_directory_item) (pos : Z)
    : fat_file_descriptor :=
  mk_fd (fd_addr d) (mk_fat_item (fi_addr (fd_item d)) (FAT_ITEM_TYPE_FILE (Some (addr, i)))) pos.

Definition fat16_write (fuel : nat) (d : fat_file_descriptor) (size nmemb : Z)
    (inp : option (list Z)) : F (Z * fat_file_descriptor) :=
  match inp with
  | None => ret (- EINVARG, d)
  | Some inp =>
    let! (addr, item) := lift (file_item d) in
    if negb (Z.land (attribute item) FAT_FILE_READ_ONLY =? 0) then ret (- ERDONLY, d)
    else
      let! (early, bytes_written) :=
        fwrite_loop fuel inp (fat16_get_first_cluster item) (s32 (fd_pos d)) (u32 (size * nmemb)) 0 in
      match early with
      | Some e => ret (e, d)
      | None =>
        let item := if filesize item <? u32 (fd_pos d + bytes_written)
                    then set_filesize item (u32 (fd_pos d + bytes_written)) else item in
        let! v := get in
        let dir_sector := fat16_get_directory_sector v item in
        if dir_sector <? 0 then ret (- EIO, set_file d addr item (fd_pos d))
        else
          let dir_offset := fat16_get_directory_offset v addr item in
          if dir_offset <? 0 then ret (- EIO, set_file d addr item (fd_pos d))
          else
            let! res := vol_seek Dir (s32 (dir_sector * sector_size v + dir_offset)) in
            if negb (res =? OK) then ret (- EIO, set_file d addr item (fd_pos d))
            else
              let! res := vol_write stack_buf stack_res Dir (encode_item item) sizeof_item in
              if negb (res =? OK) then ret (- EIO, set_file d addr item (fd_pos d))
              else ret (s32 bytes_written,
                        set_file d addr item (u32 (fd_pos d + bytes_written)))
      end
  end.

Definition fat16_close (d : fat_file_descriptor) : F Z :=
  fat16_fat_item_free (fd_item d) ;! vol_kfree (fd_addr d) ;! ret OK.

End Ops2.

(** *** Mounting *)

Section Resolve.
Context {A D : Type} `{KAlloc A} `{BlockDevice D}.
Variables (stack_buf : list Z) (dir_fuel : nat) (disk_ptr : Z).

Abbreviation vol := (volume A D).

(** [sizeof(struct fat_private)]: 62 bytes of header padded to 64, the root
    directory and three pointers. *)
Definition sizeof_fat_private : Z := 92.

(** The three streams; a stream that cannot be allocated stays null. *)
Definition fat16_init_private (a : A) (d : D) (disk_id sector_size : Z) : vol :=
  let '(s1, a) := streamer_new disk_ptr a disk_id in
  let '(s2, a) := streamer_new disk_ptr a disk_id in
  let '(s3, a) := streamer_new disk_ptr a disk_id in
  mk_volume a d sector_size (decode_header (replicate 62 0)) (mk_dir NULL NULL [] 0 0 0)
    (snd <$> s1) (snd <$> s2) (snd <$> s3).

(** The status, the volume (absent after an error, when [fs_private] is reset)
    and the allocator and device of a failed mount. *)
Definition fat16_resolve (a : A) (d : D) (disk_id sector_size : Z)
    : option (Z * option vol * A * D) :=
  let '(fat_private, a) := ka_zalloc a sizeof_fat_private in
  if fat_private =? NULL then Some (- ENOMEM, None, a, d)
  else
    let v := fat16_init_private a d disk_id sector_size in
    let '(stream, a) := streamer_new disk_ptr (alloc v) disk_id in
    let v := set_alloc a v in
    match stream with
    | None => Some (- ENOMEM, None, ka_free (alloc v) fat_private, dev v)
    | Some (stream_addr, stream) =>
      '(res, l, stream, d) ← streamer_read stack_buf (dev v) stream fat_private sizeof_fat_h;
      let v := mk_volume (alloc v) d sector_size (decode_header l) (root_directory v)
                 (cluster_read_stream v) (fat_read_stream v) (directory_stream v) in
      '(res, v) ←
        (if negb (res =? OK) then Some (- EIO, v)
         else if negb (signature (header v) =? TOYOS_FAT16_SIGNATURE) then Some (- EFSNOTUS, v)
         else
           '(res, v) ← fat16_get_root_directory stack_buf dir_fuel v;
           if negb (res =? OK) then Some (- EIO, v) else Some (OK, v));
      let v := set_alloc (streamer_close (alloc v) stream_addr) v in
      if res <? 0 then Some (res, None, ka_free (alloc v) fat_private, dev v)
      else Some (res, Some v, alloc v, dev v)
    end.

End Resolve.
End Fat16.

(** ** What the volume means *)

Module FatFacts.
Import Fat16 StreamFacts.

#[local] Arguments bytes_of : simpl never.
#[local] Arguments le_val : simpl never.
#[local] Arguments le_bytes : simpl never.

Section Facts.
Context `{KAlloc A} `{BL : BlockLaws D}.
Context (stack_buf : list Z) (stack_res : Z).

Abbreviation vol := (volume A D).

(** A range of the device that a stream can read: the [int] position does not
    overflow, and the sector after the range exists, because a transfer that
    ends on a sector border touches the next sector too. *)
Definition fits (p n : Z) : Prop :=
  0 <= p /\ 0 <= n /\ p + n < 2 ^ 31 /\ (p + n) / 512 < bd_size.

Lemma fits_sub p n q k : fits p n -> p <= q -> 0 <= k -> q + k <= p + n -> fits q k.
Proof. unfold fits. intros. zlia. Qed.

Definition fat_pos (v : vol) : Z := reserved_sectors (header v) * 512.
Definition csize (v : vol) : Z := sectors_per_cluster (header v) * 512.
Definition cluster_pos (v : vol) (c : Z) : Z :=
  (ending_sector_pos (root_directory v) + (c - 2) * sectors_per_cluster (header v)) * 512.

(** A usable volume: working streams and device, sectors of 512 bytes, and a
    file allocation table of 65536 entries inside the device. *)
Record vol_ok (v : vol) : Prop := {
  v_dev : bd_ok (dev v);
  v_sec : sector_size v = 512;
  v_str : forall w, is_Some (stream_of w v);
  v_spc : 1 <= sectors_per_cluster (header v) < 256;
  v_res : 0 <= reserved_sectors (header v) < 65536;
  v_end : 0 <= ending_sector_pos (root_directory v) < 2 ^ 24;
  v_fat : fits (fat_pos v) (2 * 65536)
}.

(** Two states of a volume with the same contents. *)
Record same_vol (v v' : vol) : Prop := {
  sv_hdr : header v' = header v;
  sv_root : root_directory v' = root_directory v;
  sv_alloc : alloc v' = alloc v;
  sv_disk : same_disk (dev v) (dev v')
}.

Lemma same_vol_refl v : same_vol v v.
Proof. split; done. Qed.

Lemma same_vol_trans v1 v2 v3 : same_vol v1 v2 -> same_vol v2 v3 -> same_vol v1 v3.
Proof. intros [] []. split; congruence. Qed.

(** *** Streams of the volume *)

Lemma stream_of_set w u s (d : D) (v : vol) :
  stream_of w (set_stream u s d v) = if decide (w = u) then Some s else stream_of w v.
Proof. by destruct w, u. Qed.

Lemma vol_ok_set w s (d : D) (v : vol) :
  vol_ok v -> bd_ok d -> vol_ok (set_stream w s d v).
Proof.
  intros [] Hd. split; try done. intros u. rewrite stream_of_set. case_decide; eauto.
Qed.

Lemma seek_ok w p (v : vol) :
  vol_ok v -> 0 <= p ->
  exists v', vol_seek w p v = Some (OK, v') /\ vol_ok v' /\ same_vol v v' /\
    exists s, stream_of w v' = Some s /\ pos s = p.
Proof.
  intros V Hp. destruct (v_str v V w) as [s Hs]. unfold vol_seek. rewrite Hs.
  unfold streamer_seek. rewrite (proj2 (Z.ltb_ge p 0)) by done.
  eexists. split; [done|]. split; [apply vol_ok_set; [done|apply V]|]. split; [done|].
  exists (mk_stream p (disk s)). split; [|done]. rewrite stream_of_set. by destruct w.
Qed.

Lemma read_ok (Hsb : length stack_buf = 512%nat) w out n (v : vol) s :
  vol_ok v -> stream_of w v = Some s -> fits (pos s) n -> 0 < out -> out + n < 2 ^ 32 ->
  exists v', vol_read stack_buf w out n v = Some (OK, bytes_of (dev v) (pos s) n, v') /\
    vol_ok v' /\ same_vol v v' /\
    exists s', stream_of w v' = Some s' /\ pos s' = pos s + n.
Proof.
  intros V Hs (Hp & Hn & Hr & Hsz) Ho Hon. unfold vol_read. rewrite Hs.
  destruct (streamer_read_ok stack_buf (S (Z.to_nat n)) (dev v) s out n) as (d' & He & Hd' & Hsm);
    [done|apply V|done..|unfold NULL; lia|lia|lia|lia|].
  unfold streamer_read. rewrite He. eexists. split; [done|].
  split; [by apply vol_ok_set|]. split; [by split|].
  eexists. split; [rewrite stream_of_set; by destruct w|done].
Qed.

Lemma write_ok (Hsb : length stack_buf = 512%nat) w data rest (v : vol) s :
  vol_ok v -> stream_of w v = Some s -> fits (pos s) (Z.of_nat (length data)) ->
  Forall is_byte (data ++ rest) ->
  exists v', vol_write stack_buf stack_res w (data ++ rest) (Z.of_nat (length data)) v = Some (OK, v') /\
    vol_ok v' /\ header v' = header v /\ root_directory v' = root_directory v /\
    alloc v' = alloc v /\ stored (dev v) (dev v') (pos s) data /\
    exists s', stream_of w v' = Some s' /\ pos s' = pos s + Z.of_nat (length data).
Proof.
  intros V Hs (Hp & Hn & Hr & Hsz) Hb. unfold vol_write. rewrite Hs.
  destruct (streamer_write_ok stack_buf stack_res (S (Z.to_nat (Z.of_nat (length data)))) (dev v) s
    data rest) as (d' & He & Hd' & Hst); [done|apply V|done..|lia|].
  unfold streamer_write. rewrite He. eexists. split; [done|].
  split; [by apply vol_ok_set|]. do 3 (split; [done|]). split; [done|].
  eexists. split; [rewrite stream_of_set; by destruct w|done].
Qed.

(** *** The file allocation table *)

Definition fat_entry (v : vol) (c : Z) : Z := le_val (bytes_of (dev v) (fat_pos v + 2 * c) 2).

Lemma bytes_of_byte d p n : bd_ok d -> Forall is_byte (bytes_of d p n).
Proof.
  intros Hd. unfold bytes_of. apply List.Forall_map, Forall_true. intros x. unfold byte_at.
  destruct (bd_sector d (x / 512) !! Z.to_nat (x mod 512)) as [b|] eqn:Hb; simpl; [|done].
  by eapply Forall_lookup_1 in Hb; [|apply bd_byte].
Qed.

Lemma fat_entry_range v c : vol_ok v -> 0 <= fat_entry v c < 65536.
Proof.
  intros V. unfold fat_entry. pose proof (bytes_of_byte (dev v) (fat_pos v + 2 * c) 2 (v_dev v V)) as Hb.
  pose proof (le_val_range _ Hb) as Hr. by rewrite length_bytes_of in Hr.
Qed.

Lemma fat_entry_same v v' c : same_vol v v' -> fat_entry v' c = fat_entry v c.
Proof.
  intros [Hh _ _ Hd]. unfold fat_entry, fat_pos. rewrite Hh. by rewrite (bytes_of_same (dev v)).
Qed.

Lemma fat_seek_pos v c :
  vol_ok v -> 0 <= c < 65536 ->
  s32 (u32 (fat16_get_first_fat_sector v * sector_size v) + c * TOYOS_FAT16_FAT_ENTRY_SIZE)
  = fat_pos v + 2 * c.
Proof.
  intros V Hc. destruct V. unfold fat16_get_first_fat_sector, TOYOS_FAT16_FAT_ENTRY_SIZE, fat_pos in *.
  rewrite v_sec0. destruct v_fat0 as (? & _ & ? & _).
  rewrite u32_small, s32_small; lia.
Qed.

Lemma get_fat_entry_ok (Hsb : length stack_buf = 512%nat) v c :
  vol_ok v -> 0 <= c < 65536 ->
  exists v', fat16_get_fat_entry stack_buf c v = Some (fat_entry v c, v') /\
    vol_ok v' /\ same_vol v v'.
Proof.
  intros V Hc. unfold fat16_get_fat_entry. unfold bind at 1, get. destruct (v_str v V Fat) as [s0 Hs0].
  simpl in Hs0. rewrite Hs0, fat_seek_pos by done. pose proof (v_fat v V) as Hfit.
  destruct (seek_ok Fat (fat_pos v + 2 * c) v V) as (v1 & He1 & V1 & S1 & s & Hs & Hp).
  { destruct Hfit. lia. }
  erewrite bind_Some by done. simpl.
  destruct (read_ok Hsb Fat local_addr 2 v1 s V1 Hs) as (v2 & He2 & V2 & S2 & _);
    [rewrite Hp; eapply fits_sub; [done|lia..]|done|done|].
  erewrite bind_Some by done. simpl. rewrite Hp.
  eexists. split; [|split; [done|by eapply same_vol_trans]].
  unfold ret, fat_entry. do 3 f_equal. by apply bytes_of_same, S1.
Qed.

(** *** Cluster chains *)

(** The entries at which the code stops: end of chain, bad, reserved, free. *)
Definition marker (e : Z) : bool :=
  (e =? 0xff8) || (e =? 0xfff) || (e =? 0xff7) || (e =? 0xff0) || (e =? 0xff6) || (e =? 0).

(** The [k]-th cluster of the chain that starts at [c]. *)
Fixpoint chain (v : vol) (c : Z) (k : nat) : option Z :=
  match k with
  | O => Some c
  | S k' => if marker (fat_entry v c) then None else chain v (fat_entry v c) k'
  end.

Lemma chain_same v v' c k : same_vol v v' -> chain v' c k = chain v c k.
Proof.
  intros S. revert c; induction k as [|k IH]; intros c; [done|]. simpl.
  rewrite (fat_entry_same v v') by done. by rewrite IH.
Qed.

Lemma chain_range v c k c' :
  vol_ok v -> 0 <= c < 65536 -> chain v c k = Some c' -> 0 <= c' < 65536.
Proof.
  intros V. revert c; induction k as [|k IH]; intros c Hc; simpl; [congruence|].
  destruct (marker _); [done|]. apply IH, fat_entry_range; done.
Qed.

Lemma cluster_loop_ok (Hsb : length stack_buf = 512%nat) k : forall v c,
  vol_ok v -> 0 <= c < 65536 ->
  exists v', cluster_loop stack_buf k c v = Some (default (- EIO) (chain v c k), v') /\
    vol_ok v' /\ same_vol v v'.
Proof.
  induction k as [|k IH]; intros v c V Hc; cbn [cluster_loop chain].
  { exists v. split; [done|]. split; [done|apply same_vol_refl]. }
  destruct (get_fat_entry_ok Hsb v c V Hc) as (v1 & He & V1 & S1).
  erewrite bind_Some by done. pose proof (fat_entry_range v c V) as Hr.
  change TOYOS_FAT16_BAD_SECTOR with 0xff7. unfold marker.
  destruct (_ =? 0xff8), (_ =? 0xfff); try (by exists v1). simpl.
  destruct (_ =? 0xff7); try (by exists v1). simpl.
  destruct (_ =? 0xff0), (_ =? 0xff6); try (by exists v1). simpl.
  destruct (_ =? 0); try (by exists v1).
  destruct (IH v1 (fat_entry v c) V1 Hr) as (v2 & -> & V2 & S2).
  exists v2. rewrite (chain_same v v1) by done. split; [done|]. split; [done|].
  by eapply same_vol_trans.
Qed.

Lemma size_of_cluster_csize v : vol_ok v -> size_of_cluster_bytes v = csize v.
Proof. intros V. unfold size_of_cluster_bytes, csize. by rewrite (v_sec v V). Qed.

Lemma csize_range v : vol_ok v -> 512 <= csize v < 131072.
Proof. intros V. pose proof (v_spc v V). unfold csize. lia. Qed.

Lemma get_cluster_ok (Hsb : length stack_buf = 512%nat) v c off :
  vol_ok v -> 0 <= c < 65536 -> 0 <= off ->
  exists v', fat16_get_cluster_for_offset stack_buf c off v
      = Some (default (- EIO) (chain v c (Z.to_nat (off / csize v))), v') /\
    vol_ok v' /\ same_vol v v'.
Proof.
  intros V Hc Ho. pose proof (csize_range v V). unfold fat16_get_cluster_for_offset.
  unfold bind at 1, get. rewrite size_of_cluster_csize by done.
  rewrite (proj2 (Z.eqb_neq (csize v) 0)) by lia.
  rewrite Z.quot_div_nonneg by lia. by apply cluster_loop_ok.
Qed.

(** A cluster whose bytes the streams can reach. *)
Definition cluster_fits (v : vol) (c : Z) : Prop := 2 <= c < 65536 /\ fits (cluster_pos v c) (csize v).

Lemma cluster_to_sector_ok v c :
  vol_ok v -> 0 <= c < 65536 ->
  fat16_cluster_to_sector v c
  = ending_sector_pos (root_directory v) + (c - 2) * sectors_per_cluster (header v).
Proof.
  intros V Hc. pose proof (v_spc v V). pose proof (v_end v V). unfold fat16_cluster_to_sector.
  assert (-512 <= (c - 2) * sectors_per_cluster (header v) < 2 ^ 24) by nia.
  rewrite (s32_small ((c - 2) * _)) by lia. rewrite s32_small by lia. done.
Qed.

(** *** Files as byte sequences *)

(** Byte [i] of the file whose first cluster is [c]. *)
Definition file_byte (v : vol) (c i : Z) : Z :=
  byte_at (dev v) (cluster_pos v (default 0 (chain v c (Z.to_nat (i / csize v)))) + i mod csize v).

Definition file_bytes (v : vol) (c off n : Z) : list Z := map (file_byte v c) (seqZ off n).

Lemma length_file_bytes v c off n : length (file_bytes v c off n) = Z.to_nat n.
Proof. unfold file_bytes. by rewrite length_map, length_seqZ. Qed.

Lemma file_bytes_app v c off a b :
  0 <= a -> 0 <= b ->
  file_bytes v c off (a + b) = file_bytes v c off a ++ file_bytes v c (off + a) b.
Proof. intros. unfold file_bytes. by rewrite seqZ_app, map_app. Qed.

Lemma file_byte_same v v' c i : same_vol v v' -> file_byte v' c i = file_byte v c i.
Proof.
  intros S. unfold file_byte. rewrite (chain_same v v') by done.
  destruct S as [Hh Hr _ Hd]. unfold cluster_pos, csize, byte_at. by rewrite Hh, Hr, Hd.
Qed.

Lemma file_bytes_same v v' c off n : same_vol v v' -> file_bytes v' c off n = file_bytes v c off n.
Proof. intros S. unfold file_bytes. apply map_ext. intros i. by apply file_byte_same. Qed.

(** One round of [fat16_read_internal_from_stream]: it reads [n] consecutive
    bytes of the device, from the cluster of the offset on. *)
Lemma read_round_phys (Hsb : length stack_buf = 512%nat) v c off n c' out :
  vol_ok v -> 0 <= c < 65536 -> 0 <= off ->
  chain v c (Z.to_nat (off / csize v)) = Some c' -> 2 <= c' < 65536 ->
  fits (cluster_pos v c' + off mod csize v) n ->
  0 < out -> out + n < 2 ^ 32 ->
  exists v1 v2 v3,
    fat16_get_cluster_for_offset stack_buf c off v = Some (c', v1) /\
    vol_seek Cluster (s32 (fat16_cluster_to_sector v c' * sector_size v +
                       Z.rem off (size_of_cluster_bytes v))) v1 = Some (OK, v2) /\
    vol_read stack_buf Cluster out n v2
      = Some (OK, bytes_of (dev v) (cluster_pos v c' + off mod csize v) n, v3) /\
    vol_ok v3 /\ same_vol v v3.
Proof.
  intros V Hc Ho Hch Hc2 Hf Hout Hout2. pose proof (csize_range v V) as Hcs.
  destruct (get_cluster_ok Hsb v c off V Hc Ho) as (v1 & He1 & V1 & S1). rewrite Hch in He1. simpl in He1.
  rewrite cluster_to_sector_ok, size_of_cluster_csize, (v_sec v V) by (done || lia).
  fold (cluster_pos v c'). rewrite Z.rem_mod_nonneg by lia.
  pose proof Hf as (Hf0 & Hf2 & Hf1 & _). rewrite s32_small by lia.
  destruct (seek_ok Cluster (cluster_pos v c' + off mod csize v) v1 V1 Hf0)
    as (v2 & He2 & V2 & S2 & s & Hs & Hp).
  destruct (read_ok Hsb Cluster out n v2 s V2 Hs) as (v3 & He3 & V3 & S3 & _);
    [by rewrite Hp|done|done|].
  exists v1, v2, v3. split; [done|]. split; [done|]. split.
  - rewrite He3, Hp. do 3 f_equal.
    apply (bytes_of_same (dev v)). intros l. by rewrite (sv_disk _ _ S2), (sv_disk _ _ S1).
  - split; [done|]. eauto using same_vol_trans.
Qed.

(** Byte [j] of what a read at [off] returns.  Each round takes as many bytes as a
    cluster has from the place where it starts, so that a round that starts inside
    a cluster runs on into what follows that cluster on the device. *)
Definition read_byte (v : vol) (c off j : Z) : Z :=
  byte_at (dev v) (cluster_pos v (default 0 (chain v c (Z.to_nat (off / csize v + j / csize v))))
    + off mod csize v + j mod csize v).

Definition read_bytes (v : vol) (c off n : Z) : list Z := map (read_byte v c off) (seqZ 0 n).

Lemma length_read_bytes v c off n : length (read_bytes v c off n) = Z.to_nat n.
Proof. unfold read_bytes. by rewrite length_map, length_seqZ. Qed.

Lemma read_bytes_same v v' c off n : same_vol v v' -> read_bytes v' c off n = read_bytes v c off n.
Proof.
  intros S. unfold read_bytes. apply map_ext. intros i. unfold read_byte. pose proof S as [Hh Hr _ Hd].
  assert (csize v' = csize v) as -> by (unfold csize; by rewrite Hh). rewrite (chain_same v v') by done.
  unfold cluster_pos, byte_at. by rewrite Hh, Hr, Hd.
Qed.

(** The bytes after the first round are those of a read that starts there. *)
Lemma read_bytes_app v c off m : 0 < csize v -> 0 <= off -> 0 <= m ->
  read_bytes v c off (csize v + m) = read_bytes v c off (csize v) ++ read_bytes v c (off + csize v) m.
Proof.
  intros Hs Ho Hm. unfold read_bytes. rewrite seqZ_app, map_app by lia. f_equal.
  rewrite Z.add_0_l, <- (Z.add_0_r (csize v)) at 1. rewrite <- fmap_add_seqZ, map_map. apply map_ext. intros j.
  unfold read_byte. rewrite (Z.add_comm (csize v) j).
  replace (off + csize v) with (off + 1 * csize v) by lia. replace (j + csize v) with (j + 1 * csize v) by lia.
  rewrite !Z.div_add, !Z.mod_add by lia.
  by replace (off / csize v + (j / csize v + 1)) with (off / csize v + 1 + j / csize v) by lia.
Qed.

(** One round reads consecutive bytes. *)
Lemma read_bytes_round v c off n c' : 0 < csize v -> n <= csize v ->
  chain v c (Z.to_nat (off / csize v)) = Some c' ->
  bytes_of (dev v) (cluster_pos v c' + off mod csize v) n = read_bytes v c off n.
Proof.
  intros Hs Hn Hc. unfold bytes_of, read_bytes. apply list_eq. intros i.
  rewrite !list_lookup_fmap. destruct (decide (Z.of_nat i < n)) as [Hi|Hi].
  - rewrite !lookup_seqZ_lt by lia. simpl. f_equal. unfold read_byte.
    rewrite (Z.div_small (0 + Z.of_nat i)), (Z.mod_small (0 + Z.of_nat i)), Z.add_0_r, Hc by lia. simpl. f_equal.
  - rewrite !lookup_seqZ_ge by lia. done.
Qed.

(** A read that starts on a cluster border, or stays in one cluster, returns the
    bytes of the file. *)
Lemma read_bytes_file v c off n : 0 < csize v -> 0 <= off ->
  off mod csize v = 0 \/ off mod csize v + n <= csize v -> read_bytes v c off n = file_bytes v c off n.
Proof.
  intros Hs Ho Hal. unfold read_bytes, file_bytes.
  assert (seqZ off n = map (Z.add off) (seqZ 0 n)) as -> by (etransitivity; [|symmetry; apply fmap_add_seqZ]; by rewrite Z.add_0_r).
  rewrite map_map. apply map_ext_in. intros j Hj. apply list_elem_of_In, elem_of_seqZ in Hj.
  unfold read_byte, file_byte. pose proof (Z.mod_pos_bound off (csize v) Hs). pose proof (Z.mod_pos_bound j (csize v) Hs).
  pose proof (Z.div_mod off (csize v) ltac:(lia)). pose proof (Z.div_mod j (csize v) ltac:(lia)).
  assert (off mod csize v + j mod csize v < csize v) as Hlt.
  { destruct Hal as [->|Hal]; [lia|]. rewrite (Z.mod_small j) by lia. lia. }
  assert ((off + j) / csize v = off / csize v + j / csize v /\
          (off + j) mod csize v = off mod csize v + j mod csize v) as [-> ->].
  { split; symmetry; [eapply Z.div_unique_pos with (r := off mod csize v + j mod csize v)|
      eapply Z.mod_unique_pos with (q := off / csize v + j / csize v)]; lia. }
  f_equal. lia.
Qed.

(** The clusters that the rounds of a read of [n] bytes at [off] start in are in
    the chain, and the streams can reach the bytes they take. *)
Definition read_fits (v : vol) (c off n : Z) : Prop :=
  forall k, 0 <= k <= (n - 1) / csize v ->
    exists c', chain v c (Z.to_nat (off / csize v + k)) = Some c' /\ 2 <= c' < 65536 /\
      fits (cluster_pos v c' + off mod csize v) (Z.min (csize v) (n - k * csize v)).

(** The clusters a read of [n] bytes at [off] needs are there. *)
Definition file_fits (v : vol) (c off n : Z) : Prop :=
  forall k, off / csize v <= k <= (off + n - 1) / csize v ->
    exists c', chain v c (Z.to_nat k) = Some c' /\ cluster_fits v c'.

Lemma file_read_fits v c off n : 0 < csize v -> 0 <= off -> 0 < n ->
  off mod csize v = 0 \/ off mod csize v + n <= csize v -> file_fits v c off n -> read_fits v c off n.
Proof.
  intros Hs Ho Hn Hal Hff k Hk. pose proof (Z.mod_pos_bound off (csize v) Hs).
  pose proof (Z.div_mod off (csize v) ltac:(lia)) as Hd. pose proof (Z.div_mod (n - 1) (csize v) ltac:(lia)) as Hdn.
  pose proof (Z.mod_pos_bound (n - 1) (csize v) Hs).
  assert (off / csize v + (n - 1) / csize v <= (off + n - 1) / csize v) as Hle by (apply Z.div_le_lower_bound; nia).
  destruct (Hff (off / csize v + k)) as (c' & Hch & Hc2 & Hcf); [lia|]. exists c'. split; [done|]. split; [done|].
  assert (k * csize v <= n - 1) by nia.
  eapply fits_sub; [exact Hcf|lia|lia|]. destruct Hal as [->|Hal]; [lia|].
  assert ((n - 1) / csize v = 0) by (apply Z.div_small; lia). lia.
Qed.

(** The rest of a read after its first round. *)
Lemma read_fits_next v v' c off n : same_vol v v' -> 0 < csize v -> csize v < n -> 0 <= off -> read_fits v c off n ->
  read_fits v' c (off + csize v) (n - csize v).
Proof.
  intros S Hs Hn Ho Hf k Hk. pose proof S as [Hh Hr _ _]. assert (csize v' = csize v) as Hc by (unfold csize; by rewrite Hh).
  rewrite Hc in *. replace (n - csize v - 1) with (n - 1 + (-1) * csize v) in Hk by lia. rewrite Z.div_add in Hk by lia.
  destruct (Hf (k + 1)) as (c' & Hch & Hc2 & Hcf); [lia|]. exists c'. rewrite (chain_same v v') by done.
  replace (off + csize v) with (off + 1 * csize v) by lia. rewrite Z.div_add, Z.mod_add by lia. split; [|split; [done|]].
  - rewrite <- Hch. f_equal. lia.
  - assert (cluster_pos v' c' = cluster_pos v c') as -> by (unfold cluster_pos, csize; by rewrite Hh, Hr).
    by replace (n - csize v - k * csize v) with (n - (k + 1) * csize v) by lia.
Qed.

Lemma read_internal_phys (Hsb : length stack_buf = 512%nat) fuel : forall v c off n out,
  vol_ok v -> 0 <= c < 65536 -> 0 <= off -> 0 < n -> off + n < 2 ^ 31 ->
  read_fits v c off n -> 0 < out -> out + n < 2 ^ 32 -> n < Z.of_nat fuel ->
  exists v', read_internal_rec stack_buf fuel c off n out v
      = Some (OK, read_bytes v c off n, v') /\ vol_ok v' /\ same_vol v v'.
Proof.
  induction fuel as [|fuel IH]; intros v c off n out V Hc Ho Hn Hr Hff Hout Hout2 Hfu; [lia|].
  pose proof (csize_range v V) as Hcs. cbn [read_internal_rec]. unfold bind at 1, get.
  destruct (Hff 0) as (c' & Hch & Hc2 & Hcf); [split; [lia|apply Z.div_pos; lia]|]. rewrite Z.add_0_r in Hch.
  set (t := if csize v <? n then csize v else n).
  assert (t = Z.min (csize v) (n - 0 * csize v)) as Ht by (unfold t; destruct (Z.ltb_spec (csize v) n); lia).
  rewrite <- Ht in Hcf.
  destruct (read_round_phys Hsb v c off t c' out V Hc Ho Hch Hc2 Hcf) as (v1 & v2 & v3 & He1 & He2 & He3 & V3 & S3); [lia|lia|].
  rewrite (read_bytes_round v c off t c') in He3 by (done || lia).
  erewrite bind_Some by done. rewrite (proj2 (Z.ltb_ge c' 0)) by lia.
  erewrite bind_Some by done. rewrite Z.eqb_refl. cbn [negb].
  replace (if size_of_cluster_bytes v <? n then size_of_cluster_bytes v else n) with t
    by (unfold t; by rewrite size_of_cluster_csize).
  erewrite bind_Some by done. cbn beta iota. rewrite Z.eqb_refl. cbn [negb].
  destruct (Z.ltb_spec 0 (n - t)) as [Hmore|Hdone]; [|assert (t = n) as -> by lia; by exists v3].
  assert (t = csize v) as -> by lia. rewrite (s32_small (off + csize v)), ptr_add_small by lia.
  destruct (IH v3 c (off + csize v) (n - csize v) (out + csize v)) as (v4 & He4 & V4 & S4);
    [done|done|lia|lia|lia|apply (read_fits_next v); done || lia|lia|lia|lia|].
  erewrite bind_Some by done. exists v4. split; [|split; [done|by eapply same_vol_trans]].
  unfold ret. rewrite (read_bytes_same v v3), <- read_bytes_app by (done || lia).
  by replace (csize v + (n - csize v)) with n by lia.
Qed.

Lemma read_internal_ok (Hsb : length stack_buf = 512%nat) fuel v c off n out :
  vol_ok v -> 0 <= c < 65536 -> 0 <= off -> 0 < n -> off + n < 2 ^ 31 ->
  off mod csize v = 0 \/ off mod csize v + n <= csize v ->
  file_fits v c off n -> 0 < out -> out + n < 2 ^ 32 -> n < Z.of_nat fuel ->
  exists v', read_internal_rec stack_buf fuel c off n out v
      = Some (OK, file_bytes v c off n, v') /\ vol_ok v' /\ same_vol v v'.
Proof.
  intros V Hc Ho Hn Hr Hal Hff Hout Hout2 Hfu. pose proof (csize_range v V) as Hcs.
  rewrite <- read_bytes_file by (done || lia). apply read_internal_phys; try done. apply file_read_fits; done || lia.
Qed.

(** *** Changing the file allocation table *)

(** The volume after FAT entry [c] has been set to [val]. *)
Record fat_set (v v' : vol) (c val : Z) : Prop := {
  fs_ok : vol_ok v';
  fs_hdr : header v' = header v;
  fs_root : root_directory v' = root_directory v;
  fs_alloc : alloc v' = alloc v;
  fs_entry : forall x, 0 <= x < 65536 ->
    fat_entry v' x = if decide (x = c) then val else fat_entry v x
}.

Lemma set_fat_entry_ok (Hsb : length stack_buf = 512%nat) v c val :
  vol_ok v -> 0 <= c < 65536 -> 0 <= val < 65536 ->
  exists v', fat16_set_fat_entry stack_buf stack_res c val v = Some (OK, v') /\ fat_set v v' c val.
Proof.
  intros V Hc Hval. unfold fat16_set_fat_entry. unfold bind at 1, get.
  destruct (v_str v V Fat) as [s0 Hs0]. simpl in Hs0. rewrite Hs0, fat_seek_pos by done.
  pose proof (v_fat v V) as Hfit. pose proof Hfit as [Hf0 _].
  destruct (seek_ok Fat (fat_pos v + 2 * c) v V) as (v1 & He1 & V1 & S1 & s & Hs & Hp); [lia|].
  erewrite bind_Some by done. rewrite Z.eqb_refl. cbn [negb]. rewrite u16_small by lia.
  destruct (write_ok Hsb Fat (le_bytes 2 val) [] v1 s V1 Hs) as (v2 & He2 & V2 & Hh & Hr & Ha & Hst & _).
  { rewrite Hp, length_le_bytes. eapply fits_sub; [done|lia..]. }
  { rewrite app_nil_r. apply le_bytes_is_byte. }
  rewrite app_nil_r, length_le_bytes in He2. erewrite bind_Some by done.
  rewrite Z.eqb_refl. cbn [negb]. exists v2. split; [done|]. rewrite Hp in Hst.
  assert (fat_pos v2 = fat_pos v) as Hfp by (unfold fat_pos; by rewrite Hh, (sv_hdr _ _ S1)).
  split; [done|by rewrite Hh, (sv_hdr _ _ S1)|by rewrite Hr, (sv_root _ _ S1)
    |by rewrite Ha, (sv_alloc _ _ S1)|].
  intros x Hx. unfold fat_entry. rewrite Hfp. case_decide as Hxc.
  - subst x. pose proof (bytes_of_stored_eq (dev v1) (dev v2) (fat_pos v + 2 * c) (le_bytes 2 val) ltac:(lia) Hst) as Hb.
    rewrite length_le_bytes in Hb. change (Z.of_nat 2) with 2 in Hb. rewrite Hb, le_val_bytes.
    apply Z.mod_small. done.
  - rewrite (bytes_of_stored_ne (dev v1) (dev v2) (fat_pos v + 2 * c) (le_bytes 2 val))
      by (done || rewrite ?length_le_bytes; lia).
    by rewrite (bytes_of_same (dev v)) by apply S1.
Qed.

(** The first free entry from [i] on, among [n] entries. *)
Fixpoint first_free (v : vol) (n : nat) (i : Z) : option Z :=
  match n with
  | O => None
  | S n' => if fat_entry v i =? 0 then Some i else first_free v n' (i + 1)
  end.

Lemma first_free_same v v' n : forall i, same_vol v v' -> first_free v' n i = first_free v n i.
Proof.
  induction n as [|n IH]; intros i S; [done|]. simpl. rewrite (fat_entry_same v v') by done.
  by rewrite IH.
Qed.

Lemma first_free_Some v n : forall i j, first_free v n i = Some j ->
  i <= j < i + Z.of_nat n /\ fat_entry v j = 0.
Proof.
  induction n as [|n IH]; intros i j; [done|]. simpl.
  destruct (Z.eqb_spec (fat_entry v i) 0) as [He|]; [intros [= <-]; split; [lia|done]|].
  intros Hj%IH. lia.
Qed.

Lemma allocate_loop_ok (Hsb : length stack_buf = 512%nat) n : forall v i cur,
  vol_ok v -> 0 <= i -> i + Z.of_nat n <= 65536 -> 0 <= cur < 65536 ->
  exists v', match first_free v n i with
  | None => allocate_loop stack_buf stack_res n i cur v = Some (- ENOMEM, v') /\ vol_ok v' /\ same_vol v v'
  | Some j =>
    allocate_loop stack_buf stack_res n i cur v = Some (j, v') /\
    vol_ok v' /\ header v' = header v /\ root_directory v' = root_directory v /\
    alloc v' = alloc v /\
    (forall x, 0 <= x < 65536 -> fat_entry v' x =
       if decide (x = j) then 0xfff else if decide (x = cur) then j else fat_entry v x)
  end.
Proof.
  induction n as [|n IH]; intros v i cur V Hi Hn Hcur; cbn [allocate_loop first_free].
  { exists v. split; [done|]. split; [done|apply same_vol_refl]. }
  destruct (get_fat_entry_ok Hsb v i V ltac:(lia)) as (v1 & He1 & V1 & S1).
  erewrite bind_Some by done. change TOYOS_FAT16_UNUSED with 0.
  destruct (Z.eqb_spec (fat_entry v i) 0) as [Hz|Hnz].
  - destruct (set_fat_entry_ok Hsb v1 cur i V1 Hcur ltac:(lia)) as (v2 & He2 & [V2 Hh2 Hr2 Ha2 Hf2]).
    erewrite bind_Some by done. rewrite Z.eqb_refl. cbn [negb].
    destruct (set_fat_entry_ok Hsb v2 i 0xfff V2 ltac:(lia) ltac:(lia)) as (v3 & He3 & [V3 Hh3 Hr3 Ha3 Hf3]).
    erewrite bind_Some by done. rewrite Z.eqb_refl. cbn [negb]. destruct S1 as [Hh1 Hr1 Ha1 Hd1] eqn:HS1.
    exists v3. split; [done|]. split; [done|]. do 3 (split; [congruence|]).
    intros x Hx. rewrite Hf3, Hf2 by done. by rewrite (fat_entry_same v v1).
  - destruct (IH v1 (i + 1) cur V1) as (v2 & H2); [lia|lia|done|].
    rewrite (first_free_same v v1) in H2 by done. exists v2.
    destruct (first_free v n (i + 1)) as [j|].
    + destruct H2 as (He & V2 & Hh & Hr & Ha & Hf). pose proof S1 as [].
      split; [done|]. split; [done|]. do 3 (split; [congruence|]).
      intros x Hx. rewrite Hf by done. by rewrite (fat_entry_same v v1).
    + destruct H2 as (He & V2 & S2). split; [done|]. split; [done|]. by eapply same_vol_trans.
Qed.

(** *** Writing file data *)

(** The bytes the loop of [fat16_write] takes in one round. *)
Definition round_size (v : vol) (off tot : Z) : Z :=
  let room := u32 (512 - off mod csize v) in if room <? tot then room else tot.

(** One round of the loop inside the first cluster: it stores [round_size]
    bytes and goes on with the rest at the new offset. *)
Lemma fwrite_round (Hsb : length stack_buf = 512%nat) fuel v c off tot done_ inp :
  vol_ok v -> cluster_fits v c -> 0 <= off < csize v -> 0 < tot < 2 ^ 31 -> 0 <= done_ ->
  let n := round_size v off tot in
  off + n < csize v -> done_ + n < 2 ^ 31 ->
  done_ + n <= Z.of_nat (length inp) -> Forall is_byte inp ->
  exists v', vol_ok v' /\ header v' = header v /\ root_directory v' = root_directory v /\
    alloc v' = alloc v /\
    stored (dev v) (dev v') (cluster_pos v c + off) (take (Z.to_nat n) (drop (Z.to_nat done_) inp)) /\
    fwrite_loop stack_buf stack_res (S fuel) inp c off tot done_ v
    = fwrite_loop stack_buf stack_res fuel inp c (off + n) (tot - n) (done_ + n) v'.
Proof.
  intros V [Hc Hcf] Ho Ht Hd n Hn Hdn Hinp Hb. pose proof (csize_range v V) as Hcs.
  assert (0 <= n <= tot) as Hn0.
  { unfold n, round_size. pose proof (u32_range (512 - off mod csize v)).
    destruct (Z.ltb_spec (u32 (512 - off mod csize v)) tot); lia. }
  cbn [fwrite_loop]. rewrite (proj2 (Z.eqb_neq tot 0)) by lia. unfold bind at 1, get.
  destruct (get_cluster_ok Hsb v c off V ltac:(lia) ltac:(lia)) as (v1 & He1 & V1 & S1).
  rewrite (Z.div_small off) in He1 by lia. simpl in He1.
  erewrite bind_Some by done. rewrite (proj2 (Z.ltb_ge c 0)) by lia.
  rewrite cluster_to_sector_ok, size_of_cluster_csize, (v_sec v V) by (done || lia).
  fold (cluster_pos v c). rewrite Z.rem_mod_nonneg by lia.
  assert (off mod csize v = off) as Hmod by (apply Z.mod_small; lia). rewrite Hmod.
  assert (s32 (if u32 (512 - off) <? tot then u32 (512 - off) else tot) = n) as ->.
  { unfold n, round_size. rewrite Hmod. apply s32_small.
    fold (round_size v off tot) in n. unfold n, round_size in Hn0. rewrite Hmod in Hn0. lia. }
  assert (fits (cluster_pos v c + off) n) as Hf by (eapply fits_sub; [done|lia..]).
  pose proof Hf as (Hf0 & _ & Hf1 & _). rewrite (s32_small (cluster_pos v c + off)) by lia.
  destruct (seek_ok Cluster (cluster_pos v c + off) v1 V1 Hf0) as (v2 & He2 & V2 & S2 & s & Hs & Hp).
  erewrite bind_Some by done. rewrite Z.eqb_refl. cbn [negb].
  set (rest := drop (Z.to_nat done_) inp). set (data := take (Z.to_nat n) rest).
  assert (Z.of_nat (length data) = n) as Hld.
  { unfold data, rest. rewrite length_take, length_drop. lia. }
  destruct (write_ok Hsb Cluster data (drop (Z.to_nat n) rest) v2 s V2 Hs)
    as (v3 & He3 & V3 & Hh & Hr & Ha & Hst & _).
  { by rewrite Hp, Hld. }
  { unfold data. rewrite take_drop. by apply Forall_drop. }
  unfold data in He3. rewrite take_drop in He3. fold data in He3. rewrite Hld in He3.
  erewrite bind_Some by done. rewrite Z.eqb_refl. cbn [negb].
  rewrite (proj2 (Z.leb_gt (csize v) (off + n))) by lia.
  rewrite !u32_small, s32_small by lia. exists v3. pose proof S1 as []. pose proof S2 as [].
  split; [done|]. do 3 (split; [congruence|]). split; [|done]. rewrite Hp in Hst.
  intros x Hx. rewrite Hst by done. case_decide; [done|]. unfold byte_at.
  by rewrite sv_disk1, sv_disk0.
Qed.

Lemma fwrite_stuck (Hsb : length stack_buf = 512%nat) fuel : forall v c tot done_ inp,
  vol_ok v -> cluster_fits v c -> 512 < csize v -> 0 < tot < 2 ^ 31 -> 0 <= done_ < 2 ^ 31 ->
  done_ <= Z.of_nat (length inp) -> Forall is_byte inp ->
  fwrite_loop stack_buf stack_res fuel inp c 512 tot done_ v = None.
Proof.
  induction fuel as [|fuel IH]; intros v c tot done_ inp V Hc Hcs Ht Hd Hl Hb; [done|].
  assert (round_size v 512 tot = 0) as Hrs.
  { unfold round_size. rewrite Z.mod_small by lia. change (u32 (512 - 512)) with 0.
    by rewrite (proj2 (Z.ltb_lt 0 tot)) by lia. }
  destruct (fwrite_round Hsb fuel v c 512 tot done_ inp) as (v' & V' & Hh & Hr & _ & _ & ->);
    rewrite ?Hrs; [done|done|lia|done|lia|lia|lia|lia|done|].
  rewrite !Z.add_0_r, Z.sub_0_r. apply IH; try done.
  - destruct Hc as [? Hc]. split; [done|]. unfold cluster_pos, csize in *. by rewrite Hh, Hr.
  - unfold csize in *. by rewrite Hh.
Qed.

End Facts.
End FatFacts.

(** ** Names and lookup *)

Module FatNames.
Import Fat16 PathFacts.

(** A character of an 8.3 name. *)
Definition name_char (c : Z) : Prop := is_char c /\ c <> 0x20.

(** A name field of [n] bytes: the name, then a space or NUL and anything. *)
Definition name_field (n : nat) (w l : list Z) : Prop :=
  Forall name_char w /\ length l = n /\
  exists t, l = w ++ t /\ (t = [] \/ exists p t', t = p :: t' /\ (p = 0x20 \/ p = 0)).

Definition has_name (i : fat_directory_item) (w e : list Z) : Prop :=
  name_field 8 w (filename i) /\ name_field 3 e (ext i).

(** The name as a user writes it. *)
Definition full_name (w e : list Z) : list Z :=
  w ++ match e with [] => [] | _ => 46 :: e end.

Lemma proper_string_ok size w : forall t pre k i,
  Forall name_char w -> 0 <= i -> 1 <= size < 2 ^ 31 ->
  i + Z.of_nat (length (w ++ t)) = size -> i < size ->
  (t = [] \/ exists p t', t = p :: t' /\ (p = 0x20 \/ p = 0)) -> (length w <= k)%nat ->
  proper_string_loop (w ++ t) (pre ++ replicate k 0) (Z.of_nat (length pre)) i size
  = Some (pre ++ w ++ replicate (k - length w) 0, Z.of_nat (length pre + length w)).
Proof.
  induction w as [|c w IH]; intros t pre k i Hw Hi Hs Hl His Ht Hk.
  - simpl in *. destruct Ht as [-> | (p & t' & -> & Hp)]; [simpl in Hl; lia|]. simpl.
    assert ((p =? 0) || (p =? 32) = true) as ->.
    { destruct Hp as [-> | ->]; [apply orb_true_r|done]. }
    by rewrite Nat.sub_0_r, Nat.add_0_r.
  - apply Forall_cons in Hw as [[Hc Hc2] Hw']. unfold is_char in Hc. simpl in Hl, Hk |- *.
    destruct k as [|k]; [lia|]. simpl.
    rewrite (proj2 (Z.eqb_neq c 0)), (proj2 (Z.eqb_neq c 32)) by lia. simpl.
    rewrite (wr_app _ _ _ pre (0 :: replicate k 0)) by done. simpl. rewrite u8_small by lia.
    rewrite u32_small by lia.
    replace (pre ++ c :: replicate k 0) with ((pre ++ [c]) ++ replicate k 0) by (by rewrite <- app_assoc).
    rewrite length_app in Hl. destruct (Z.leb_spec (size - 1) i) as [Hle|Hgt].
    + destruct w; [|simpl in *; lia]. simpl. rewrite Nat.sub_0_r, <- app_assoc. do 2 f_equal. lia.
    + specialize (IH t (pre ++ [c]) k (i + 1) Hw'). rewrite !length_app in IH. simpl in IH.
      replace (Z.of_nat (length pre) + 1) with (Z.of_nat (length pre + 1)) by lia.
      rewrite IH by (done || lia). rewrite <- app_assoc. simpl. do 2 f_equal. lia.
Qed.

Lemma to_proper_string_ok n w l pre k :
  (1 <= n)%nat -> (n < 100)%nat -> name_field n w l -> (length w < k)%nat ->
  fat16_to_proper_string (pre ++ replicate k 0) (Z.of_nat (length pre)) l (Z.of_nat n)
  = Some (pre ++ w ++ replicate (k - length w) 0, Z.of_nat (length pre + length w)).
Proof.
  intros Hn Hn2 (Hw & Hl & t & -> & Ht) Hk. unfold fat16_to_proper_string.
  rewrite proper_string_ok by (done || lia). cbn [mbind option_bind].
  rewrite app_assoc. rewrite (wr_app _ _ _ (pre ++ w) (replicate (k - length w) 0)).
  - destruct (k - length w)%nat as [|j] eqn:Hj; [lia|]. done.
  - by rewrite length_app.
  - done.
  - destruct (k - length w)%nat eqn:Hj; [lia|done].
Qed.

Lemma name_field_length n w l : name_field n w l -> (length w <= n)%nat.
Proof. intros (_ & <- & t & -> & _). rewrite length_app. lia. Qed.

(** The name in its 108-byte buffer. *)
Lemma full_relative_filename_ok i w e :
  has_name i w e ->
  fat16_get_full_relative_filename i TOYOS_MAX_PATH = Some (padded (full_name w e)).
Proof.
  intros [Hw He]. pose proof (name_field_length _ _ _ Hw) as Hlw.
  pose proof (name_field_length _ _ _ He) as Hle.
  unfold fat16_get_full_relative_filename. change (Z.to_nat TOYOS_MAX_PATH) with 108%nat.
  pose proof (to_proper_string_ok 8 w (filename i) [] 108 ltac:(lia) ltac:(lia) Hw ltac:(lia)) as H1.
  rewrite !app_nil_l in H1. change (Z.of_nat (length [])) with 0 in H1.
  change (Z.of_nat 8) with 8 in H1. rewrite H1. cbn [mbind option_bind].
  pose proof He as (Hec & Hel & t & Heq & Ht). rewrite rd_lookup by lia. simpl Z.to_nat.
  unfold padded, full_name. destruct e as [|c e].
  - simpl in Heq. rewrite app_nil_r. destruct Ht as [-> | (p & t' & -> & Hp)].
    + rewrite Heq in Hel. simpl in Hel. lia.
    + rewrite Heq. simpl. destruct Hp as [-> | ->]; done.
  - rewrite Heq. simpl. inversion Hec as [|? ? [Hc Hc2] _]; subst. unfold is_char in Hc.
    rewrite (proj2 (Z.eqb_neq c 0)), (proj2 (Z.eqb_neq c 32)) by lia. simpl.
    rewrite (wr_app _ _ _ w (replicate (108 - length w) 0)) by
      (done || (destruct (108 - length w)%nat eqn:?; [lia|done])).
    destruct (108 - length w)%nat as [|j] eqn:Hj; [lia|]. simpl.
    replace (w ++ u8 46 :: replicate j 0) with ((w ++ [46]) ++ replicate j 0) by (by rewrite <- app_assoc).
    pose proof (to_proper_string_ok 3 (c :: e) (ext i) (w ++ [46]) j ltac:(lia) ltac:(lia) He) as H2.
    rewrite length_app in H2. simpl length in H2. change (Z.of_nat 3) with 3 in H2.
    rewrite Heq in H2. simpl app in H2.
    replace (Z.of_nat (length w) + 1) with (Z.of_nat (length w + 1)) by lia.
    rewrite H2 by (simpl in Hle; lia). cbn [mbind option_bind]. f_equal. rewrite <- !app_assoc. simpl.
    do 2 f_equal. rewrite length_app. simpl. do 3 f_equal. lia.
Qed.

Lemma full_name_chars i w e : has_name i w e -> Forall is_char (full_name w e).
Proof.
  intros [(Hw & _) (He & _)]. unfold full_name. apply Forall_app. split.
  - eapply Forall_impl; [exact Hw|]. by intros c [? _].
  - destruct e; [constructor|]. constructor; [unfold is_char; lia|].
    eapply Forall_impl; [exact He|]. by intros c' [? _].
Qed.

(** [istrncmp] on two padded names decides equality up to letter case. *)
Lemma name_compare a b :
  Forall is_char a -> Forall is_char b -> (length a < 108)%nat -> (length b < 108)%nat ->
  istrncmp (padded a) (padded b) TOYOS_MAX_PATH
  = Some (if decide (map tolower a = map tolower b) then 0 else -1).
Proof.
  intros Ha Hb Hla Hlb. unfold istrncmp, padded.
  destruct (108 - length a)%nat as [|j] eqn:Hj; [lia|].
  destruct (108 - length b)%nat as [|k] eqn:Hk; [lia|]. cbn [replicate].
  apply (istrncmp_loop_spec a (replicate j 0) b (replicate k 0)); [done|done|].
  change (Z.to_nat TOYOS_MAX_PATH) with 108%nat. lia.
Qed.

(** Entry [j] of a directory and its name. *)
Definition entry_named (d : fat_directory) (j : Z) (it : fat_directory_item) (nm : list Z) : Prop :=
  exists addr w e, item_at d j = Some (addr, it) /\ has_name it w e /\ nm = full_name w e.

(** The name of an entry is determined by its bytes. *)
Lemma name_field_inj n w w' l : name_field n w l -> name_field n w' l -> w = w'.
Proof.
  intros (Hw & _ & t & -> & Ht) (Hw' & _ & t' & Hl & Ht'). clear n.
  revert w' Hw' Hl; induction Hw as [|c w [Hc Hc2] Hw IH]; intros [|c' w'] Hw' Hl; simpl in Hl; [done|..].
  - apply Forall_cons in Hw' as [[Hc' Hc2'] _]. unfold is_char in *.
    destruct Ht as [-> | (p & t0 & -> & Hp)]; [done|]. injection Hl as -> _. lia.
  - unfold is_char in *. destruct Ht' as [-> | (p & t0 & -> & Hp)]; [done|]. injection Hl as -> _. lia.
  - apply Forall_cons in Hw' as [_ Hw']. injection Hl as -> Hl. f_equal. by apply IH.
Qed.

Lemma entry_named_inj d j it it' nm nm' :
  entry_named d j it nm -> entry_named d j it' nm' -> it = it' /\ nm = nm'.
Proof.
  intros (? & w & e & Hi & [Hw He] & ->) (? & w' & e' & Hi' & [Hw' He'] & ->).
  rewrite Hi in Hi'. injection Hi' as _ <-. split; [done|].
  by rewrite (name_field_inj _ _ _ _ Hw Hw'), (name_field_inj _ _ _ _ He He').
Qed.

Definition same_name (a b : list Z) : Prop := map tolower a = map tolower b.

#[export] Instance same_name_dec a b : Decision (same_name a b).
Proof. unfold same_name. apply _. Defined.

Section Lookup.
Context `{KL : KAllocLaws A} `{BlockDevice D}.
Context (stack_buf : list Z) (dir_fuel : nat).

Abbreviation vol := (volume A D).

Lemma entry_compare d j it nm name :
  entry_named d j it nm -> Forall is_char name -> (length name < 108)%nat ->
  exists addr, item_at d j = Some (addr, it) /\
    fat16_get_full_relative_filename it TOYOS_MAX_PATH = Some (padded nm) /\
    istrncmp (padded nm) (padded name) TOYOS_MAX_PATH
    = Some (if decide (same_name nm name) then 0 else -1).
Proof.
  intros (addr & w & e & Hi & Hn & ->) Hc Hl. exists addr. split; [done|].
  split; [by apply full_relative_filename_ok|]. apply name_compare; [by eapply full_name_chars|done| |done].
  destruct Hn as [Hw He]. apply name_field_length in Hw, He. unfold full_name. rewrite length_app.
  destruct e; simpl in *; lia.
Qed.

(** No entry of the range has the name: nothing is found or allocated. *)
Lemma find_loop_none n : forall d i name f (v : vol),
  Forall is_char name -> (length name < 108)%nat ->
  (forall j, i <= j < i + Z.of_nat n -> exists it nm, entry_named d j it nm /\ ~ same_name nm name) ->
  find_loop stack_buf dir_fuel n d i (padded name) f v = Some (f, v).
Proof.
  induction n as [|n IH]; intros d i name f v Hc Hl Hj; [done|]. cbn [find_loop].
  destruct (Hj i ltac:(lia)) as (it & nm & He & Hne).
  destruct (entry_compare d i it nm name He Hc Hl) as (addr & Hi & Hf & Hcmp).
  rewrite (bind_lift _ _ _ _ Hi), (bind_lift _ _ _ _ Hf), (bind_lift _ _ _ _ Hcmp).
  rewrite decide_False by done. change (-1 =? 0) with false. cbv iota.
  apply IH; [done|done|]. intros j Hjr. apply Hj. lia.
Qed.

Lemma kzalloc_ok (v : vol) lv f size :
  ka_live (alloc v) lv f -> 0 < size <= 4096 -> 0 < f ->
  exists p a', vol_kzalloc size v = Some (p, set_alloc a' v) /\ p <> NULL /\ lv !! p = None /\
    ka_live a' (<[p := 1]> lv) (f - 1).
Proof.
  intros Ha Hs Hf. destruct (ka_zalloc_1 (alloc v) lv f size Ha Hs Hf) as (p & a' & Hz & Hp & _ & Hl & Ha').
  exists p, a'. unfold vol_kzalloc. rewrite u32_small by lia. by rewrite Hz.
Qed.

Lemma clone_ok (v : vol) lv f it :
  ka_live (alloc v) lv f -> 0 < f ->
  exists q a', fat16_clone_directory_item it sizeof_item v = Some (Some (q, it), set_alloc a' v) /\
    lv !! q = None /\ ka_live a' (<[q := 1]> lv) (f - 1).
Proof.
  intros Ha Hf. unfold fat16_clone_directory_item.
  destruct (kzalloc_ok v lv f sizeof_item Ha) as (q & a2 & He2 & Hq & Hl2 & Ha2);
    [unfold sizeof_item; lia|lia|].
  change (u32 sizeof_item <? sizeof_item) with false. cbv iota.
  erewrite bind_Some by done. rewrite (proj2 (Z.eqb_neq q NULL)) by done. by exists q, a2.
Qed.

(** A file entry is wrapped in two allocations. *)
Lemma new_file_item_ok (v : vol) lv f it :
  ka_live (alloc v) lv f -> 2 <= f -> Z.land (attribute it) FAT_FILE_SUBDIRECTORY = 0 ->
  exists p q a', fat16_new_fat_item_for_directory_item stack_buf dir_fuel it v
      = Some (Some (mk_fat_item p (FAT_ITEM_TYPE_FILE (Some (q, it)))), set_alloc a' v) /\
    ka_live a' (add_pages lv [p; q]) (f - 2) /\ owned lv [p; q].
Proof.
  intros Ha Hf Hat. unfold fat16_new_fat_item_for_directory_item.
  destruct (kzalloc_ok v lv f 8 Ha) as (p & a1 & He1 & Hp & Hl1 & Ha1); [lia..|].
  erewrite bind_Some by done. rewrite (proj2 (Z.eqb_neq p NULL)) by done.
  rewrite Hat, Z.eqb_refl. cbn [negb].
  destruct (clone_ok (set_alloc a1 v) _ _ it Ha1) as (q & a2 & He2 & Hl2 & Ha2); [lia|].
  erewrite bind_Some by done.
  exists p, q, a2. split; [done|]. split.
  - by replace (f - 2) with (f - 1 - 1) by lia.
  - apply (owned_snoc lv [p]); [|done]. split; [apply NoDup_singleton|by constructor].
Qed.

(** Exactly one entry of the range has the name, and it is a file. *)
Lemma find_loop_file n : forall d i name f0 (v : vol) lv f k it nm,
  ka_live (alloc v) lv f -> 2 <= f ->
  Forall is_char name -> (length name < 108)%nat -> i <= k < i + Z.of_nat n ->
  entry_named d k it nm -> same_name nm name ->
  Z.land (attribute it) FAT_FILE_SUBDIRECTORY = 0 ->
  (forall j, i <= j < i + Z.of_nat n -> j <> k ->
     exists it nm, entry_named d j it nm /\ ~ same_name nm name) ->
  exists p q a', find_loop stack_buf dir_fuel n d i (padded name) f0 v
      = Some (Some (mk_fat_item p (FAT_ITEM_TYPE_FILE (Some (q, it)))), set_alloc a' v) /\
    ka_live a' (add_pages lv [p; q]) (f - 2) /\ owned lv [p; q].
Proof.
  induction n as [|n IH]; intros d i name f0 v lv f k it nm Ha Hf Hc Hl Hk He Hs Hat Hj; [lia|].
  cbn [find_loop]. destruct (decide (k = i)) as [->|Hki].
  - destruct (entry_compare d i it nm name He Hc Hl) as (addr & Hi & Hfn & Hcmp).
    rewrite (bind_lift _ _ _ _ Hi), (bind_lift _ _ _ _ Hfn), (bind_lift _ _ _ _ Hcmp).
    rewrite decide_True, Z.eqb_refl by done.
    destruct (new_file_item_ok v lv f it Ha Hf Hat) as (p & q & a' & Hnew & Ha' & Ho).
    erewrite bind_Some by done. exists p, q, a'. split; [|done].
    apply find_loop_none; [done|done|]. intros j Hjr. apply Hj; lia.
  - destruct (Hj i ltac:(lia) ltac:(lia)) as (it' & nm' & He' & Hne).
    destruct (entry_compare d i it' nm' name He' Hc Hl) as (addr & Hi & Hfn & Hcmp).
    rewrite (bind_lift _ _ _ _ Hi), (bind_lift _ _ _ _ Hfn), (bind_lift _ _ _ _ Hcmp).
    rewrite decide_False by done. change (-1 =? 0) with false. cbv iota.
    apply (IH d (i + 1) name f0 v lv f k it nm); try done; [lia|].
    intros j Hjr Hjk. apply Hj; lia.
Qed.

End Lookup.
End FatNames.

(** ** The theorems of the file system *)

Module FatProps.
Import Fat16 StreamFacts FatFacts FatNames PathFacts Laws HeapProps AtaFacts Sim.

Section Props.
Context `{KL : KAllocLaws A} `{BL : BlockLaws D}.
Context (stack_buf : list Z) (stack_res : Z) (dir_fuel : nat).

Abbreviation vol := (volume A D).

(** Reading one element of an open file. *)
Lemma fat16_read_phys (v : vol) d addr it n out buf :
  length stack_buf = 512%nat -> vol_ok v -> file_item d = Some (addr, it) ->
  let c := fat16_get_first_cluster it in
  0 <= c < 65536 -> 0 <= fd_pos d -> 0 < n -> fd_pos d + n < 2 ^ 31 ->
  read_fits v c (fd_pos d) n -> 0 < out -> out + n < 2 ^ 32 ->
  exists v', fat16_read stack_buf d n 1 out buf v
      = Some (1, read_bytes v c (fd_pos d) n ++ drop (Z.to_nat n) buf, v') /\
    vol_ok v' /\ same_vol v v'.
Proof.
  intros Hsb V Hi c Hc Hp Hn Hpn Hff Ho Hon. unfold fat16_read.
  rewrite (proj2 (Z.eqb_neq out NULL)) by (unfold NULL; lia).
  rewrite (bind_lift _ _ _ _ Hi). change (Z.to_nat 1) with 1%nat. cbn [fread_loop].
  rewrite !(s32_small (fd_pos d)), (s32_small n) by lia.
  destruct (read_internal_phys stack_buf Hsb (S (Z.to_nat n)) v c (fd_pos d) n out)
    as (v' & He & V' & S'); [done|done|done|done|lia|done|done|done|lia|].
  unfold fat16_read_internal. erewrite bind_Some by done. cbn beta iota.
  exists v'. split; [|done]. simpl. by rewrite length_read_bytes.
Qed.

(** Reading one element that starts on a cluster border or stays in one cluster. *)
Lemma fat16_read_ok (v : vol) d addr it n out buf :
  length stack_buf = 512%nat -> vol_ok v -> file_item d = Some (addr, it) ->
  let c := fat16_get_first_cluster it in
  0 <= c < 65536 -> 0 <= fd_pos d -> 0 < n -> fd_pos d + n < 2 ^ 31 ->
  fd_pos d mod csize v = 0 \/ fd_pos d mod csize v + n <= csize v ->
  file_fits v c (fd_pos d) n -> 0 < out -> out + n < 2 ^ 32 ->
  exists v', fat16_read stack_buf d n 1 out buf v
      = Some (1, file_bytes v c (fd_pos d) n ++ drop (Z.to_nat n) buf, v') /\
    vol_ok v' /\ same_vol v v'.
Proof.
  intros Hsb V Hi c Hc Hp Hn Hpn Hal Hff Ho Hon. pose proof (csize_range v V) as Hcs.
  rewrite <- read_bytes_file by (done || lia). eapply fat16_read_phys; try done. apply file_read_fits; done || lia.
Qed.

(** C4: reading one element of an open file, at any position.  The read goes in
    rounds of at most a cluster's size; round k starts at the file's offset in the
    (k + 1)-st of the clusters that the FAT chain gives from the position on, and
    takes consecutive bytes of the device from there.  When the read starts on a
    cluster border or stays inside one cluster, what comes back are the bytes of
    the file in order, across any number of clusters, and it comes back whenever
    the chain covers the range.  A read that starts inside a cluster and crosses
    its end gets, from the border on, the bytes that follow on the device instead
    of those of the next cluster of the chain: the length of a round is not
    reduced by the offset in the cluster.  The volume is unchanged. *)
Theorem fat16_read_correct (v : vol) d addr it n out buf :
  length stack_buf = 512%nat -> vol_ok v -> file_item d = Some (addr, it) ->
  let c := fat16_get_first_cluster it in
  let aligned := fd_pos d mod csize v = 0 \/ fd_pos d mod csize v + n <= csize v in
  0 <= c < 65536 -> 0 <= fd_pos d -> 0 < n -> fd_pos d + n < 2 ^ 31 ->
  read_fits v c (fd_pos d) n \/ (aligned /\ file_fits v c (fd_pos d) n) -> 0 < out -> out + n < 2 ^ 32 ->
  exists l v', fat16_read stack_buf d n 1 out buf v = Some (1, l ++ drop (Z.to_nat n) buf, v') /\
    l = read_bytes v c (fd_pos d) n /\ (aligned -> l = file_bytes v c (fd_pos d) n) /\
    vol_ok v' /\ same_vol v v'.
Proof.
  intros Hsb V Hi c aligned Hc Hp Hn Hpn Hff Ho Hon. pose proof (csize_range v V) as Hcs.
  assert (read_fits v c (fd_pos d) n) as Hrf.
  { destruct Hff as [?|[Hal Hff]]; [done|]. apply file_read_fits; done || lia. }
  destruct (fat16_read_phys v d addr it n out buf Hsb V Hi Hc Hp Hn Hpn Hrf Ho Hon) as (v' & E & V' & S').
  exists (read_bytes v c (fd_pos d) n), v'. split; [exact E|]. split; [done|]. split; [|done].
  intros Hal. apply read_bytes_file; done || lia.
Qed.

(** a read that starts inside a cluster and runs past its end returns the
    bytes that follow on the device, whatever cluster the FAT chain names next:
    the length of the request is not reduced by the offset in the cluster. *)
Theorem fat16_read_ignores_chain (v : vol) c off n c' out :
  length stack_buf = 512%nat -> vol_ok v -> 0 <= c < 65536 -> 0 <= off -> 0 < n <= csize v ->
  chain v c (Z.to_nat (off / csize v)) = Some c' -> 2 <= c' < 65536 ->
  fits (cluster_pos v c' + off mod csize v) n -> 0 < out -> out + n < 2 ^ 32 ->
  exists v', fat16_read_internal stack_buf c off n out v
    = Some (OK, bytes_of (dev v) (cluster_pos v c' + off mod csize v) n, v').
Proof.
  intros Hsb V Hc Ho Hn Hch Hc2 Hf Hout Hout2. unfold fat16_read_internal. cbn [read_internal_rec].
  unfold bind at 1, get.
  destruct (read_round_phys stack_buf Hsb v c off n c' out V Hc Ho Hch Hc2 Hf Hout Hout2)
    as (v1 & v2 & v3 & He1 & He2 & He3 & _).
  erewrite bind_Some by done. rewrite (proj2 (Z.ltb_ge c' 0)) by lia.
  erewrite bind_Some by done. rewrite Z.eqb_refl. cbn [negb].
  rewrite size_of_cluster_csize, (proj2 (Z.ltb_ge (csize v) n)) by (done || lia).
  erewrite bind_Some by done. cbn beta iota. rewrite Z.eqb_refl. cbn [negb].
  rewrite Z.sub_diag. change (0 <? 0) with false. by exists v3.
Qed.

(** With two elements both are stored at the start of the output buffer:
    the caller gets a count of 2 and the second element only. *)
Theorem fat16_read_overwrites (v : vol) d addr it n out buf :
  length stack_buf = 512%nat -> vol_ok v -> file_item d = Some (addr, it) ->
  let c := fat16_get_first_cluster it in
  cluster_fits v c -> 0 <= fd_pos d -> 0 < n -> fd_pos d + 2 * n <= csize v ->
  0 < out -> out + n < 2 ^ 32 ->
  exists v', fat16_read stack_buf d n 2 out buf v
      = Some (2, file_bytes v c (fd_pos d + n) n ++ drop (Z.to_nat n) buf, v').
Proof.
  intros Hsb V Hi c Hcf Hp Hn Hfit Ho Hon. unfold fat16_read.
  rewrite (proj2 (Z.eqb_neq out NULL)) by (unfold NULL; lia).
  pose proof (csize_range v V) as Hcs. pose proof Hcf as [Hc2 _].
  assert (forall off, 0 <= off -> off + n <= csize v -> file_fits v c off n) as Hff.
  { intros off Hof1 Hof2 k Hk. exists c. rewrite !Z.div_small in Hk by lia.
    replace k with 0 by lia. done. }
  rewrite (bind_lift _ _ _ _ Hi). change (Z.to_nat 2) with 2%nat. cbn [fread_loop].
  rewrite !(s32_small (fd_pos d)), !(s32_small n) by lia. unfold fat16_read_internal.
  destruct (read_internal_ok stack_buf Hsb (S (Z.to_nat n)) v c (fd_pos d) n out)
    as (v1 & He & V1 & S1);
    [done|lia|done|done|lia|right; rewrite Z.mod_small; lia|apply Hff; lia|done|done|lia|].
  erewrite bind_Some by done. cbn beta iota. change (OK <? 0) with false. cbv iota.
  unfold OK. rewrite Z.add_0_r, !(s32_small (fd_pos d + n)) by (rewrite ?s32_small; lia).
  assert (csize v1 = csize v) as Hc1 by (unfold csize; by rewrite (sv_hdr _ _ S1)).
  destruct (read_internal_ok stack_buf Hsb (S (Z.to_nat n)) v1 c (fd_pos d + n) n out)
    as (v2 & He2 & V2 & S2);
    [done|lia|lia|done|lia|right; rewrite Hc1, Z.mod_small; lia| |done|done|lia|].
  { intros k Hk. exists c. rewrite Hc1, !Z.div_small in Hk by lia. replace k with 0 by lia.
    split; [done|]. destruct Hcf as [? Hcf]. split; [done|].
    unfold cluster_pos, csize in *. by rewrite (sv_hdr _ _ S1), (sv_root _ _ S1). }
  erewrite bind_Some by done. cbn beta iota. exists v2.
  rewrite (file_bytes_same v v1) by done. rewrite !length_file_bytes. simpl. unfold ret. do 4 f_equal.
  by rewrite drop_app_length' by (by rewrite length_file_bytes).
Qed.

(** fat16_write does not return when more than one sector is written from
    the start of a file on a volume with more than one sector per cluster:
    after the first sector the room left is computed as 512 minus the offset in
    the cluster, which is 0, and the loop writes 0 bytes for ever. *)
Theorem fat16_write_hangs (v : vol) d addr it size nmemb inp fuel :
  length stack_buf = 512%nat -> vol_ok v -> file_item d = Some (addr, it) ->
  Z.land (attribute it) FAT_FILE_READ_ONLY = 0 -> fd_pos d = 0 ->
  cluster_fits v (fat16_get_first_cluster it) -> 512 < csize v ->
  512 < u32 (size * nmemb) < 2 ^ 31 ->
  512 <= Z.of_nat (length inp) -> Forall is_byte inp ->
  fat16_write stack_buf stack_res fuel d size nmemb (Some inp) v = None.
Proof.
  intros Hsb V Hi Hro Hp Hcf Hcs Ht Hl Hb. unfold fat16_write. rewrite (bind_lift _ _ _ _ Hi).
  cbn beta iota. rewrite Hro, Z.eqb_refl. cbn [negb]. unfold bind at 1.
  rewrite Hp. change (s32 0) with 0.
  enough (fwrite_loop stack_buf stack_res fuel inp (fat16_get_first_cluster it) 0
            (u32 (size * nmemb)) 0 v = None) as -> by done.
  destruct fuel as [|fuel]; [done|].
  assert (round_size v 0 (u32 (size * nmemb)) = 512) as Hrs.
  { unfold round_size. rewrite Z.mod_0_l by lia. change (u32 (512 - 0)) with 512.
    by rewrite (proj2 (Z.ltb_lt 512 _)) by lia. }
  destruct (fwrite_round stack_buf stack_res Hsb fuel v (fat16_get_first_cluster it) 0
    (u32 (size * nmemb)) 0 inp) as (v' & V' & Hh & Hr & _ & _ & ->);
    rewrite ?Hrs; [done|done|lia|lia|lia|lia|lia|lia|done|].
  apply fwrite_stuck; try done; try lia.
  - destruct Hcf as [? Hcf]. split; [done|]. unfold cluster_pos, csize in *. by rewrite Hh, Hr.
  - unfold csize in *. by rewrite Hh.
Qed.

Lemma offset_loop_none n : forall d i addr,
  (forall j, i <= j < i + Z.of_nat n -> ptr_add (item_addr d) (sizeof_item * j) <> addr) ->
  offset_loop n d i addr = - EIO.
Proof.
  induction n as [|n IH]; intros d i addr Hj; [done|]. simpl.
  rewrite (proj2 (Z.eqb_neq _ _)) by (apply Hj; lia). apply IH. intros j Hjr. apply Hj. lia.
Qed.

(** a write that fits into the first sector of a file puts the data on the
    disk at the file position, and still returns -EIO without advancing the
    position: the directory entry is searched by address among the entries of
    the root directory, and the descriptor holds a copy. *)
Theorem fat16_write_reports_error (v : vol) d addr it size nmemb inp fuel lv f k :
  length stack_buf = 512%nat -> vol_ok v -> file_item d = Some (addr, it) ->
  Z.land (attribute it) FAT_FILE_READ_ONLY = 0 -> Z.land (attribute it) FAT_FILE_SUBDIRECTORY = 0 ->
  0 <= fat_copies (header v) -> 0 <= sectors_per_fat (header v) ->
  ka_live (alloc v) lv f -> lv !! addr = Some 1 -> addr <> item_addr (root_directory v) ->
  lv !! item_addr (root_directory v) = Some k -> 32 * total (root_directory v) <= k * 4096 ->
  cluster_fits v (fat16_get_first_cluster it) -> 0 <= fd_pos d ->
  let t := u32 (size * nmemb) in
  0 < t -> fd_pos d + t <= 512 -> fd_pos d + t < csize v -> (2 <= fuel)%nat ->
  Z.of_nat (length inp) = t -> Forall is_byte inp ->
  exists v' d', fat16_write stack_buf stack_res fuel d size nmemb (Some inp) v
      = Some (- EIO, d', v') /\ fd_pos d' = fd_pos d /\
    stored (dev v) (dev v') (cluster_pos v (fat16_get_first_cluster it) + fd_pos d) inp.
Proof.
  intros Hsb V Hi Hro Hsd Hcp Hspf Ha Hla Hne Hlr Hlen Hcf Hp t Ht Hpt Hpc Hfu Hl Hb.
  unfold fat16_write. rewrite (bind_lift _ _ _ _ Hi). cbn beta iota.
  rewrite Hro, Z.eqb_refl. cbn [negb]. fold t. rewrite (s32_small (fd_pos d)) by lia.
  assert (round_size v (fd_pos d) t = t) as Hrs.
  { unfold round_size. rewrite Z.mod_small, u32_small by lia.
    by rewrite (proj2 (Z.ltb_ge _ _)) by lia. }
  destruct fuel as [|[|fuel]]; [lia|lia|].
  destruct (fwrite_round stack_buf stack_res Hsb (S fuel) v (fat16_get_first_cluster it) (fd_pos d)
    t 0 inp) as (v' & V' & Hh & Hr & Hal & Hst & He);
    rewrite ?Hrs; [done|done|lia|lia|lia|lia|lia|lia|done|].
  rewrite Hrs in He, Hst. rewrite Z.sub_diag, Z.add_0_l in He. cbn [fwrite_loop] in He.
  change (0 =? 0) with true in He. erewrite bind_Some by exact He. cbn beta iota.
  rewrite drop_0, take_ge in Hst by lia.
  set (it' := if _ <? _ then set_filesize _ _ else it).
  assert (attribute it' = attribute it) as Hat by (unfold it'; by destruct (_ <? _)).
  unfold bind at 1, get. unfold fat16_get_directory_sector. rewrite Hat, Hsd, Z.eqb_refl. cbn [negb].
  pose proof (v_res v V). rewrite Hh, (proj2 (Z.ltb_ge _ 0)) by nia.
  unfold fat16_get_directory_offset. rewrite Hat, Hsd, Z.eqb_refl, Hr. cbn [negb].
  rewrite offset_loop_none.
  - exists v', (set_file d addr it' (fd_pos d)). done.
  - intros j Hj. pose proof (ka_range _ _ _ _ _ Ha Hla). pose proof (ka_range _ _ _ _ _ Ha Hlr).
    unfold sizeof_item. rewrite ptr_add_small by lia.
    destruct (ka_disjoint _ _ _ _ _ _ _ Ha Hla Hlr Hne); lia.
Qed.

(** C36: fat16_allocate_cluster takes the first free cluster below the number of
    sectors, links it behind the current cluster and marks it as the last one;
    every other FAT entry keeps its value.  With no free cluster it returns
    -ENOMEM and changes nothing. *)
Theorem fat16_allocate_cluster_links (v : vol) cur :
  length stack_buf = 512%nat -> vol_ok v -> 0 <= cur < 65536 ->
  2 <= number_of_sectors (header v) <= 65536 ->
  exists v', match first_free v (Z.to_nat (number_of_sectors (header v) - 2)) 2 with
  | None =>
    fat16_allocate_cluster stack_buf stack_res cur v = Some (- ENOMEM, v') /\ same_vol v v'
  | Some j =>
    fat16_allocate_cluster stack_buf stack_res cur v = Some (j, v') /\
    2 <= j < number_of_sectors (header v) /\ fat_entry v j = 0 /\
    (forall x, 0 <= x < 65536 -> fat_entry v' x =
       if decide (x = j) then 0xfff else if decide (x = cur) then j else fat_entry v x)
  end.
Proof.
  intros Hsb V Hc Hn. unfold fat16_allocate_cluster. unfold bind, get.
  destruct (allocate_loop_ok stack_buf stack_res Hsb (Z.to_nat (number_of_sectors (header v) - 2))
    v 2 cur V) as (v' & Hv); [lia|lia|done|]. exists v'.
  destruct (first_free _ _ _) as [j|] eqn:Hff.
  - destruct Hv as (He & _ & _ & _ & _ & Hf). apply first_free_Some in Hff as [Hj Hz].
    split; [done|]. split; [lia|]. done.
  - by destruct Hv as (He & _ & S).
Qed.

(** With a 16-bit sector count of 0, as in bootloader.asm, no cluster is ever
    allocated. *)
Lemma allocate_no_sectors (v : vol) cur :
  number_of_sectors (header v) = 0 ->
  fat16_allocate_cluster stack_buf stack_res cur v = Some (- ENOMEM, v).
Proof. intros Hn. unfold fat16_allocate_cluster, bind, get. by rewrite Hn. Qed.

Lemma close_file_ok (v : vol) d p q it pos lv f :
  ka_live (alloc v) (add_pages lv [d; p; q]) (f - 3) -> owned lv [d; p; q] ->
  exists v', fat16_close (mk_fd d (mk_fat_item p (FAT_ITEM_TYPE_FILE (Some (q, it)))) pos) v
      = Some (OK, v') /\ ka_live (alloc v') lv f.
Proof.
  intros Ha [Hnd Hf]. eexists. split; [done|]. simpl.
  rewrite Forall_forall in Hf. apply NoDup_cons in Hnd as [Hd Hnd].
  apply NoDup_cons in Hnd as [Hp _]. apply not_elem_of_cons in Hd as [Hdp Hdq].
  apply not_elem_of_cons in Hdq as [Hdq _]. apply not_elem_of_cons in Hp as [Hpq _].
  pose proof (Hf d ltac:(set_solver)). pose proof (Hf p ltac:(set_solver)).
  pose proof (Hf q ltac:(set_solver)).
  replace lv with (delete d (delete p (delete q (add_pages lv [d; p; q])))).
  - replace f with (f - 3 + 1 + 1 + 1) by lia.
    apply ka_free_spec; [apply ka_free_spec; [apply ka_free_spec; [done|]|]|];
      rewrite ?lookup_delete_ne by done; rewrite lookup_add_pages, decide_True; set_solver.
  - apply map_eq. intros x. rewrite !lookup_delete, lookup_add_pages.
    destruct (decide (d = x)), (decide (p = x)), (decide (q = x)); subst; try done.
    rewrite decide_False; [done|]. rewrite !not_elem_of_cons. auto using not_elem_of_nil.
Qed.

(** [it] is the entry of the root directory that [name] denotes. *)
Definition names_file (v : vol) (name : list Z) (it : fat_directory_item) : Prop :=
  exists k nm, 0 <= k < total (root_directory v) /\ entry_named (root_directory v) k it nm /\
    same_name nm name /\
    forall j, 0 <= j < total (root_directory v) -> j <> k ->
      exists it nm, entry_named (root_directory v) j it nm /\ ~ same_name nm name.

Lemma open_ok (v : vol) lv f p name mode it :
  ka_live (alloc v) lv f -> 3 <= f -> part p = padded name ->
  Forall is_char name -> (length name < 108)%nat ->
  mode = FILE_MODE_READ \/ mode = FILE_MODE_WRITE ->
  names_file v name it -> Z.land (attribute it) FAT_FILE_SUBDIRECTORY = 0 ->
  exists d fi q a', fat16_open stack_buf dir_fuel [p] mode v
      = Some (inr (mk_fd d (mk_fat_item fi (FAT_ITEM_TYPE_FILE (Some (q, it)))) 0), set_alloc a' v) /\
    ka_live a' (add_pages lv [d; fi; q]) (f - 3) /\ owned lv [d; fi; q].
Proof.
  intros Ha Hf Hp Hc Hl Hm (k & nm & Hk & He & Hs & Hj) Hat. unfold fat16_open.
  assert (negb (mode =? FILE_MODE_READ) && negb (mode =? FILE_MODE_WRITE) = false) as ->.
  { destruct Hm as [-> | ->]; done. }
  destruct (kzalloc_ok v lv f 8 Ha) as (d & a1 & He1 & Hd & Hl1 & Ha1); [lia..|].
  erewrite bind_Some by done. rewrite (proj2 (Z.eqb_neq d NULL)) by done.
  unfold fat16_get_directory_entry, fat16_find_item_in_directory.
  destruct (find_loop_file stack_buf dir_fuel (Z.to_nat (total (root_directory v)))
    (root_directory v) 0 name None (set_alloc a1 v) _ _ k it nm Ha1)
    as (fi & q & a2 & Hfind & Ha2 & Ho2); [lia|done|done|lia|done|done|done| |].
  { intros j Hjr. apply Hj. lia. }
  rewrite <- Hp in Hfind. unfold bind at 1 2, get. cbn [root_directory set_alloc].
  rewrite (bind_Some _ _ _ _ _ Hfind). cbn [walk ret].
  exists d, fi, q, a2. split; [done|]. split.
  - by replace (f - 3) with (f - 1 - 2) by lia.
  - apply (owned_app lv [d]); [|done]. split; [apply NoDup_singleton|by constructor].
Qed.

(** C35: opening a file of the root directory finds the entry whose 8.3 name
    equals the path component up to letter case, and opening and closing give
    back every block that was taken. *)
Theorem fat16_open_close (v : vol) lv f p name mode k it nm :
  ka_live (alloc v) lv f -> 3 <= f -> part p = padded name ->
  Forall is_char name -> (length name < 108)%nat ->
  mode = FILE_MODE_READ \/ mode = FILE_MODE_WRITE ->
  0 <= k < total (root_directory v) ->
  entry_named (root_directory v) k it nm -> same_name nm name ->
  Z.land (attribute it) FAT_FILE_SUBDIRECTORY = 0 ->
  (forall j, 0 <= j < total (root_directory v) -> j <> k ->
     exists it nm, entry_named (root_directory v) j it nm /\ ~ same_name nm name) ->
  exists d addr v1 v2,
    fat16_open stack_buf dir_fuel [p] mode v = Some (inr d, v1) /\
    file_item d = Some (addr, it) /\ fd_pos d = 0 /\
    fat16_close d v1 = Some (OK, v2) /\ ka_live (alloc v2) lv f.
Proof.
  intros Ha Hf Hp Hc Hl Hm Hk He Hs Hat Hj.
  destruct (open_ok v lv f p name mode it) as (d & fi & q & a' & Ho & Ha' & Hown);
    [done..|by exists k, nm|done|].
  destruct (close_file_ok (set_alloc a' v) d fi q it 0 lv f Ha' Hown) as (v2 & Hcl & Ha3).
  eexists _, q, _, v2. split; [exact Ho|]. split; [done|]. split; [done|]. done.
Qed.

End Props.

(** The 32-byte directory entry of the disk and the decoded record carry the
    same information: encoding what was decoded gives back the 32 bytes. *)
Theorem fat_item_decode_encode l :
  length l = 32%nat -> Forall is_byte l -> encode_item (decode_item l) = l.
Proof.
  intros Hl Hb. unfold encode_item, decode_item, bytes, field. simpl filename. simpl ext.
  cbn [attribute reserved creation_time_tenths_of_a_sec creation_time creation_date last_access
    high_16_bits_first_cluster last_mod_time last_mod_date low_16_bits_first_cluster filesize].
  assert (forall n off, (off + n <= 32)%nat -> le_bytes n (le_val (take n (drop off l))) = take n (drop off l))
    as Hf.
  { intros n off Hn. assert (length (take n (drop off l)) = n) as Hln
      by (rewrite length_take, length_drop; lia).
    rewrite <- Hln at 1. apply le_bytes_val. by apply Forall_take, Forall_drop. }
  rewrite !Hf by lia.
  assert (forall off a b c n, c = (off + a)%nat -> n = (a + b)%nat ->
    take a (drop off l) ++ take b (drop c l) = take n (drop off l)) as Hcat.
  { intros off a b c n -> ->. by rewrite <- drop_drop, take_take_drop. }
  rewrite (Hcat 26 2 4 28 6)%nat, (Hcat 24 2 6 26 8)%nat, (Hcat 22 2 8 24 10)%nat,
    (Hcat 20 2 10 22 12)%nat, (Hcat 18 2 12 20 14)%nat, (Hcat 16 2 14 18 16)%nat,
    (Hcat 14 2 16 16 18)%nat, (Hcat 13 1 18 14 19)%nat, (Hcat 12 1 19 13 20)%nat,
    (Hcat 11 1 20 12 21)%nat, (Hcat 8 3 21 11 24)%nat, (Hcat 0 8 24 8 32)%nat by lia.
  by rewrite drop_0, take_ge by lia.
Qed.

(** ** A concrete volume

    The boot sector of bootloader.asm, the first sector of its file allocation
    table, and a root directory with one file HELLO.TXT on clusters 3 and 4. *)

Definition image_header : fat_header := mk_header 512 0x80 200 2 0x40 0 0x100 TOYOS_FAT16_SIGNATURE.

Definition image_fat : list Z := [0xf8; 0xff; 0xff; 0xff; 0xff; 0x0f; 4; 0; 0xff; 0x0f].

Definition hello : fat_directory_item :=
  mk_item [72; 69; 76; 76; 79; 32; 32; 32] [84; 88; 84] 0 0 0 0 0 0 0 0 0 3 100000.

Definition image : sim := mk_sim {[200 := image_fat; 844 := [1; 2; 3; 4; 5; 6; 7; 8]]} ∅ Idle false.

Definition image_root (dir : Z) : fat_directory :=
  mk_dir NULL dir (encode_item hello ++ replicate 2016 0) 1 712 716.

Definition image_vol (m : mem) (dir : Z) : volume mem sim :=
  mk_volume m image 512 image_header (image_root dir)
    (Some (mk_stream 0 1)) (Some (mk_stream 0 1)) (Some (mk_stream 0 1)).

Definition hello_fd_at (pos p : Z) : fat_file_descriptor :=
  mk_fd 0x1000 (mk_fat_item 0x2000 (FAT_ITEM_TYPE_FILE (Some (p, hello)))) pos.

Definition hello_fd (p : Z) : fat_file_descriptor := hello_fd_at 0 p.

#[local] Existing Instance ata_block.
#[local] Existing Instance ata_block_laws.

Lemma image_ok m dir : @vol_ok _ _ _ (ata_block_laws 1) (image_vol m dir).
Proof.
  split; try done; try (simpl; lia).
  - intros []; by eexists.
Qed.

Lemma image_cluster m dir c : 2 <= c < 5 -> @cluster_fits _ _ _ (ata_block_laws 1) (image_vol m dir) c.
Proof. intros Hc. unfold cluster_fits, fits, cluster_pos, csize. simpl. zlia. Qed.

(** A file of two clusters read from its start, and four bytes across the border of
    its first cluster. *)
Lemma fat16_read_correct_witness :
  (exists v', @fat16_read _ _ (ata_block 1) (replicate 512 0) (hello_fd 0x3000) 100000 1 0x400000 []
      (image_vol HeapProps.boot_mem 0x1004000)
    = Some (1, @file_bytes _ _ _ (ata_block_laws 1) (image_vol HeapProps.boot_mem 0x1004000) 3 0 100000
         ++ drop (Z.to_nat 100000) [], v')) /\
  exists v', @fat16_read _ _ (ata_block 1) (replicate 512 0) (hello_fd_at 65535 0x3000) 4 1 0x400000 []
      (image_vol HeapProps.boot_mem 0x1004000)
    = Some (1, @read_bytes _ _ _ (ata_block_laws 1) (image_vol HeapProps.boot_mem 0x1004000) 3 65535 4
         ++ drop (Z.to_nat 4) [], v').
Proof.
  split.
  - destruct (@fat16_read_correct _ _ _ (ata_block_laws 1) (replicate 512 0)
      (image_vol HeapProps.boot_mem 0x1004000) (hello_fd 0x3000) 0x3000 hello 100000 0x400000 []
      eq_refl (image_ok _ _) eq_refl) as (l & v' & E & _ & Hl & _); [done|done|done|done| |done|done|].
    + right. split; [by left|]. intros k Hk. change (0 <= k <= 1) in Hk. assert (k = 0 \/ k = 1) as [-> | ->] by lia.
      * exists 3. split; [reflexivity|by apply image_cluster].
      * exists 4. split; [vm_compute; reflexivity|by apply image_cluster].
    + exists v'. rewrite E. by rewrite (Hl (or_introl eq_refl)).
  - destruct (@fat16_read_correct _ _ _ (ata_block_laws 1) (replicate 512 0)
      (image_vol HeapProps.boot_mem 0x1004000) (hello_fd_at 65535 0x3000) 0x3000 hello 4 0x400000 []
      eq_refl (image_ok _ _) eq_refl) as (l & v' & E & Hl & _); [done|done|done|done| |done|done|].
    + left. intros k Hk. change (0 <= k <= 0) in Hk. assert (k = 0) as -> by lia. by exists 3.
    + exists v'. by rewrite E, Hl.
Defined.

Lemma fat16_read_ignores_chain_witness :
  exists v', @fat16_read_internal _ _ (ata_block 1) (replicate 512 0) 3 65535 4 0x400000
      (image_vol HeapProps.boot_mem 0x1004000)
    = Some (OK, @bytes_of _ _ (ata_block_laws 1) image (432128 + 65535) 4, v').
Proof.
  refine (@fat16_read_ignores_chain _ _ _ (ata_block_laws 1) (replicate 512 0)
    (image_vol HeapProps.boot_mem 0x1004000) 3 65535 4 3 0x400000
    eq_refl (image_ok _ _) _ _ _ eq_refl _ _ _ _); done.
Defined.

Lemma fat16_read_overwrites_witness :
  exists v', @fat16_read _ _ (ata_block 1) (replicate 512 0) (hello_fd 0x3000) 4 2 0x400000
      [0; 0; 0; 0; 0; 0; 0; 0] (image_vol HeapProps.boot_mem 0x1004000)
    = Some (2, [5; 6; 7; 8] ++ [0; 0; 0; 0], v').
Proof.
  refine (@fat16_read_overwrites _ _ _ (ata_block_laws 1) (replicate 512 0)
    (image_vol HeapProps.boot_mem 0x1004000) (hello_fd 0x3000) 0x3000 hello 4 0x400000
    [0; 0; 0; 0; 0; 0; 0; 0] eq_refl (image_ok _ _) eq_refl (image_cluster _ _ 3 _) _ _ _ _ _); done.
Defined.

Lemma fat16_write_hangs_witness :
  @fat16_write _ _ (ata_block 1) (replicate 512 0) 0 1000 (hello_fd 0x3000) 1 600
    (Some (replicate 600 0x41)) (image_vol HeapProps.boot_mem 0x1004000) = None.
Proof.
  refine (@fat16_write_hangs _ _ _ (ata_block_laws 1) (replicate 512 0) 0
    (image_vol HeapProps.boot_mem 0x1004000) (hello_fd 0x3000) 0x3000 hello 1 600
    (replicate 600 0x41) 1000 eq_refl (image_ok _ _) eq_refl eq_refl eq_refl
    (image_cluster _ _ 3 _) _ _ _ _); try done.
  apply Forall_replicate. unfold is_byte. lia.
Defined.

Lemma fat16_write_reports_error_witness :
  exists m dir p v' d',
    @fat16_write _ _ (ata_block 1) (replicate 512 0) 0 2 (hello_fd p) 1 3 (Some [65; 66; 67])
      (image_vol m dir) = Some (- EIO, d', v') /\ fd_pos d' = 0 /\
    @stored _ _ (ata_block_laws 1) image (dev v') 432128 [65; 66; 67].
Proof.
  destruct (@ka_zalloc_1 _ _ (kheap_laws kheap) HeapProps.boot_mem ∅ 25600 2048)
    as (dir & m1 & _ & _ & _ & _ & H1); [apply kheap_fresh|lia|lia|].
  destruct (@ka_zalloc_1 _ _ (kheap_laws kheap) m1 _ _ 32 H1)
    as (p & m & _ & _ & _ & Hp & H2); [lia|lia|].
  exists m, dir, p. apply lookup_insert_None in Hp as [_ Hp].
  refine (@fat16_write_reports_error _ _ (kheap_laws kheap) _ _ (ata_block_laws 1)
    (replicate 512 0) 0 (image_vol m dir) (hello_fd p) p hello 1 3 [65; 66; 67] 2 _ _ 1
    eq_refl (image_ok _ _) eq_refl eq_refl eq_refl _ _ H2 _ _ _ _ (image_cluster _ _ 3 _)
    _ _ _ _ _ _ _); try done.
  - by rewrite lookup_insert_eq.
  - by rewrite lookup_insert_ne, lookup_insert_eq.
  - repeat apply List.Forall_cons; try apply List.Forall_nil; unfold is_byte; lia.
Defined.

(** A smaller volume, whose sector count fits into 16 bits. *)
Definition small_vol : volume mem sim :=
  mk_volume HeapProps.boot_mem image 512 (mk_header 512 1 200 2 0x40 4096 0x100 TOYOS_FAT16_SIGNATURE)
    (image_root 0x1004000) (Some (mk_stream 0 1)) (Some (mk_stream 0 1)) (Some (mk_stream 0 1)).

Lemma small_ok : @vol_ok _ _ _ (ata_block_laws 1) small_vol.
Proof. split; try done; try (simpl; lia). intros []; by eexists. Qed.

Lemma fat16_allocate_cluster_links_witness :
  exists v',
    @fat16_allocate_cluster _ _ (ata_block 1) (replicate 512 0) 0 4 small_vol = Some (5, v') /\
    2 <= 5 < 4096 /\ @fat_entry _ _ _ (ata_block_laws 1) small_vol 5 = 0 /\
    (forall x, 0 <= x < 65536 -> @fat_entry _ _ _ (ata_block_laws 1) v' x =
       if decide (x = 5) then 0xfff else if decide (x = 4) then 5
       else @fat_entry _ _ _ (ata_block_laws 1) small_vol x).
Proof.
  assert (@first_free _ _ _ (ata_block_laws 1) small_vol (Z.to_nat (4096 - 2)) 2 = Some 5) as Hf
    by (vm_compute; reflexivity).
  pose proof (@fat16_allocate_cluster_links _ _ _ (ata_block_laws 1) (replicate 512 0) 0 small_vol 4
    eq_refl small_ok ltac:(lia) ltac:(simpl; lia)) as Hw.
  change (number_of_sectors (header small_vol)) with 4096 in Hw. rewrite Hf in Hw. exact Hw.
Defined.

(** "hello.txt" *)
Definition hello_txt : list Z := [104; 101; 108; 108; 111; 46; 116; 120; 116].

Definition hello_part : path_part := mk_part 0x1005000 0x1006000 (padded hello_txt).

Lemma hello_named dir :
  entry_named (image_root dir) 0 hello [72; 69; 76; 76; 79; 46; 84; 88; 84].
Proof.
  exists (ptr_add dir 0), [72; 69; 76; 76; 79], [84; 88; 84]. split; [reflexivity|].
  split; [|done]. split; (split; [repeat constructor; unfold is_char; lia|]).
  - split; [done|]. exists [32; 32; 32]. split; [done|]. right. by exists 32, [32; 32]; auto.
  - split; [done|]. exists []. auto.
Qed.

Lemma fat16_open_close_witness :
  exists d addr v1 v2,
    @fat16_open _ _ (kheap_alloc kheap) (ata_block 1) (replicate 512 0) 10 [hello_part]
      FILE_MODE_READ (image_vol HeapProps.boot_mem 0x1004000) = Some (inr d, v1) /\
    file_item d = Some (addr, hello) /\ fd_pos d = 0 /\
    @fat16_close _ _ (kheap_alloc kheap) d v1 = Some (OK, v2) /\
    heap_live kheap (alloc v2) ∅ 25600.
Proof.
  refine (@fat16_open_close _ _ (kheap_laws kheap) _ (ata_block 1) (replicate 512 0) 10
    (image_vol HeapProps.boot_mem 0x1004000) ∅ 25600 hello_part hello_txt FILE_MODE_READ 0 hello _
    (kheap_fresh _) _ eq_refl _ _ (or_introl eq_refl) _ (hello_named _) eq_refl eq_refl _);
    [lia| |simpl; lia|simpl; lia|].
  - repeat apply List.Forall_cons; try apply List.Forall_nil; unfold is_char; lia.
  - intros j Hj Hne. simpl in Hj. lia.
Defined.

Lemma fat_item_decode_encode_witness :
  encode_item (decode_item ([66; 73; 78; 32; 32; 32; 32; 32; 32; 32; 32; 16] ++ replicate 20 7))
  = [66; 73; 78; 32; 32; 32; 32; 32; 32; 32; 32; 16] ++ replicate 20 7.
Proof.
  apply fat_item_decode_encode; [reflexivity|].
  repeat apply List.Forall_cons; try apply List.Forall_nil; unfold is_byte; lia.
Defined.

End FatProps.
