(* ===== verification/File.v ===== *)
(** * The virtual file system: file.c and disk_search_and_init

    A file system is a record of operations, as [struct filesystem] is a table
    of function pointers; its operations act on a state that contains the
    allocator.  The kernel state holds that state, the table of file systems,
    the table of open descriptors and the disk.  What the descriptor layer
    needs of a file system is the class [FsLaws]; fat16.c is its instance. *)

From S2P Require Import Prelude CLib KAlloc Heap Disk PathParser Fat16.
Import Str PathParser Fat16.
#[local] Open Scope prog_scope.

Definition TOYOS_MAX_FILESYSTEMS : Z := 12.
Definition TOYOS_MAX_FILE_DESCRIPTORS : Z := 512.
Definition TOYOS_SECTOR_SIZE : Z := 512.
Definition DISK_TYPE_REAL : Z := 0.

(** A state that contains an allocator. *)
Class HasAlloc (A S : Type) := { get_alloc : S -> A; put_alloc : A -> S -> S }.

Module File.

(** [struct filesystem]: [S] is the state the operations act on and [H] the
    private data of an open file, which an operation may update in place. *)
Record filesystem (S H : Type) := mk_fs {
  fs_name : list Z;
  resolve : M S Z;
  open : list path_part -> Z -> M S (Z + H);
  read : H -> Z -> Z -> Z -> list Z -> M S (Z * list Z);
  write : H -> Z -> Z -> option (list Z) -> M S (Z * H);
  seek : H -> Z -> Z -> M S (Z * H);
  stat : H -> M S (Z * option file_stat);
  close : H -> M S Z
}.

Arguments mk_fs {S H}.
Arguments fs_name {S H}.
Arguments resolve {S H}.
Arguments open {S H}.
Arguments read {S H}.
Arguments write {S H}.
Arguments seek {S H}.
Arguments stat {S H}.
Arguments close {S H}.

(** [struct file_descriptor] with the address of its allocation; the [disk]
    member always points to the one disk. *)
Record file_descriptor (S H : Type) := mk_desc {
  desc_addr : Z; index : Z; desc_fs : option (filesystem S H); private_data : option H }.

Arguments mk_desc {S H}.
Arguments desc_addr {S H}.
Arguments index {S H}.
Arguments desc_fs {S H}.
Arguments private_data {S H}.

(** [struct disk]; [fs_private] is part of the state of the file system. *)
Record disk (S H : Type) := mk_disk {
  id : Z; disk_type : Z; disk_sector_size : Z; fs : option (filesystem S H) }.

Arguments mk_disk {S H}.
Arguments id {S H}.
Arguments disk_type {S H}.
Arguments disk_sector_size {S H}.
Arguments fs {S H}.

Record kernel (S H : Type) := mk_kernel {
  sys : S;
  filesystems : list (option (filesystem S H));
  file_descriptors : list (option (file_descriptor S H));
  kdisk : disk S H }.

Arguments mk_kernel {S H}.
Arguments sys {S H}.
Arguments filesystems {S H}.
Arguments file_descriptors {S H}.
Arguments kdisk {S H}.

Section Ops.
Context {A S H : Type} `{KAlloc A} `{HasAlloc A S}.

Abbreviation K := (M (kernel S H)).

(** *** Access to the parts of the kernel state *)

Definition set_sys (s : S) (k : kernel S H) : kernel S H :=
  mk_kernel s (filesystems k) (file_descriptors k) (kdisk k).

Definition set_filesystems (t : list (option (filesystem S H))) (k : kernel S H) : kernel S H :=
  mk_kernel (sys k) t (file_descriptors k) (kdisk k).

Definition set_descriptors (t : list (option (file_descriptor S H))) (k : kernel S H)
    : kernel S H :=
  mk_kernel (sys k) (filesystems k) t (kdisk k).

Definition set_disk (d : disk S H) (k : kernel S H) : kernel S H :=
  mk_kernel (sys k) (filesystems k) (file_descriptors k) d.

(** Runs an operation of a file system. *)
Definition on_sys {B} (m : M S B) : K B := fun k =>
  match m (sys k) with
  | Some (x, s) => Some (x, set_sys s k)
  | None => None
  end.

Definition vfs_kzalloc (size : Z) : K Z := fun k =>
  let '(p, a) := ka_zalloc (get_alloc (sys k)) size in
  Some (p, set_sys (put_alloc a (sys k)) k).

Definition vfs_kfree (p : Z) : K unit := fun k =>
  Some (tt, set_sys (put_alloc (ka_free (get_alloc (sys k)) p) (sys k)) k).

Definition parse (path : list Z) : K (option path_root) := fun k =>
  match path_parser_parse (get_alloc (sys k)) path with
  | Some (r, a) => Some (r, set_sys (put_alloc a (sys k)) k)
  | None => None
  end.

(** The first null slot at or after slot [i]. *)
Fixpoint free_slot {X} (l : list (option X)) (i : nat) : option nat :=
  match l with
  | [] => None
  | None :: _ => Some i
  | Some _ :: l' => free_slot l' (Datatypes.S i)
  end.

(** *** File systems *)

Definition fs_get_free_filesystem (k : kernel S H) : option nat := free_slot (filesystems k) 0.

(** A full table ends in [panick], which does not return. *)
Definition fs_insert_filesystem (filesystem : filesystem S H) : K unit := fun k =>
  match fs_get_free_filesystem k with
  | None => None
  | Some i => Some (tt, set_filesystems (<[i := Some filesystem]> (filesystems k)) k)
  end.

(** [fat16_init] returns the address of a static table of operations. *)
Variable fat16_init : filesystem S H.

Definition fs_static_load : K unit := fs_insert_filesystem fat16_init.

Definition fs_load : K unit := fs_static_load.

Definition fs_init : K unit :=
  modify (set_filesystems (replicate (Z.to_nat TOYOS_MAX_FILESYSTEMS) None)) ;!
  modify (set_descriptors (replicate (Z.to_nat TOYOS_MAX_FILE_DESCRIPTORS) None)) ;!
  fs_load.

Fixpoint resolve_loop (l : list (option (filesystem S H))) : K (option (filesystem S H)) :=
  match l with
  | [] => ret None
  | None :: l' => resolve_loop l'
  | Some f :: l' =>
    let! res := on_sys (resolve f) in
    if res =? OK then ret (Some f) else resolve_loop l'
  end.

Definition fs_resolve : K (option (filesystem S H)) :=
  let! k := get in resolve_loop (filesystems k).

Definition disk_search_and_init : K unit :=
  modify (set_disk (mk_disk 0 DISK_TYPE_REAL TOYOS_SECTOR_SIZE None)) ;!
  let! f := fs_resolve in
  modify (set_disk (mk_disk 0 DISK_TYPE_REAL TOYOS_SECTOR_SIZE f)).

(** *** Descriptors *)

(** [strncmp(str, "r", 1) == 0] and so on. *)
Definition file_get_mode_by_string (str : option (list Z)) : option Z :=
  r ← strncmp str (Some [114; 0]) 1;
  if r =? 0 then Some FILE_MODE_READ
  else
    w ← strncmp str (Some [119; 0]) 1;
    if w =? 0 then Some FILE_MODE_WRITE
    else
      a ← strncmp str (Some [97; 0]) 1;
      if a =? 0 then Some FILE_MODE_APPEND else Some FILE_MODE_INVALID.

(** [sizeof(struct file_descriptor)] *)
Definition sizeof_file_descriptor : Z := 16.

(** The status and the slot of the new descriptor. *)
Definition file_new_descriptor : K (Z * nat) :=
  let! k := get in
  match free_slot (file_descriptors k) 0 with
  | None => ret (- ENOFILEMEM, O)
  | Some i =>
    let! new_file_desc := vfs_kzalloc sizeof_file_descriptor in
    if new_file_desc =? NULL then ret (- ENOMEM, O)
    else
      modify (fun k => set_descriptors
        (<[i := Some (mk_desc new_file_desc (Z.of_nat i + 1) None None)]> (file_descriptors k)) k) ;!
      ret (OK, i)
  end.

Definition file_get_descriptor (k : kernel S H) (file_desc_id : Z)
    : option (file_descriptor S H) :=
  if (file_desc_id <=? 0) || (TOYOS_MAX_FILE_DESCRIPTORS <=? file_desc_id) then None
  else mjoin (file_descriptors k !! Z.to_nat (file_desc_id - 1)).

Definition set_slot (i : nat) (d : option (file_descriptor S H)) : K unit :=
  modify (fun k => set_descriptors (<[i := d]> (file_descriptors k)) k).

(** [fopen] up to the label [out]. *)
Definition fopen_res (filename : list Z) (mode_str : option (list Z)) : K Z :=
  let! root_path := parse filename in
  match root_path with
  | None => ret (- EINVARG)
  | Some root_path =>
    match first root_path with
    | [] => ret (- EINVARG)
    | path =>
      let! k := get in
      match (if drive_no root_path =? 0 then fs (kdisk k) else None) with
      | None => ret (- EIO)
      | Some f =>
        let! mode := lift (file_get_mode_by_string mode_str) in
        if mode =? FILE_MODE_INVALID then ret (- EIO)
        else
          let! descriptor_private_data := on_sys (open f path mode) in
          match descriptor_private_data with
          | inl e => ret e
          | inr h =>
            let! (res, i) := file_new_descriptor in
            if res <? 0 then ret res
            else
              let! k := get in
              let! desc := lift (mjoin (file_descriptors k !! i)) in
              set_slot i (Some (mk_desc (desc_addr desc) (index desc) (Some f) (Some h))) ;!
              ret (index desc)
          end
      end
    end
  end.

Definition fopen (filename : list Z) (mode_str : option (list Z)) : K Z :=
  let! res := fopen_res filename mode_str in
  if res <? 0 then ret 0 else ret res.

(** [desc->fs] and [desc->private_data] are dereferenced without a test. *)
Definition handle_of (desc : file_descriptor S H) : option (filesystem S H * H) :=
  f ← desc_fs desc; h ← private_data desc; Some (f, h).

Definition update (fd : Z) (desc : file_descriptor S H) (h : H) : K unit :=
  set_slot (Z.to_nat (fd - 1)) (Some (mk_desc (desc_addr desc) (index desc) (desc_fs desc) (Some h))).

(** [ptr] is the address of the output object, [buf] its contents before. *)
Definition fread (ptr : Z) (buf : list Z) (size nmemb fd : Z) : K (Z * list Z) :=
  if (size =? 0) || (nmemb =? 0) || (fd <? 0) then ret (- EINVARG, buf)
  else
    let! k := get in
    match file_get_descriptor k fd with
    | None => ret (- EINVARG, buf)
    | Some desc =>
      let! (f, h) := lift (handle_of desc) in on_sys (read f h size nmemb ptr buf)
    end.

Definition fwrite (ptr : option (list Z)) (size nmemb fd : Z) : K Z :=
  if (size =? 0) || (nmemb =? 0) || (fd <? 0) then ret (- EINVARG)
  else
    let! k := get in
    match file_get_descriptor k fd with
    | None => ret (- EINVARG)
    | Some desc =>
      let! (f, h) := lift (handle_of desc) in
      let! (res, h) := on_sys (write f h size nmemb ptr) in
      update fd desc h ;! ret res
    end.

Definition fseek (fd offset whence : Z) : K Z :=
  if fd <? 0 then ret (- EINVARG)
  else
    let! k := get in
    match file_get_descriptor k fd with
    | None => ret (- EINVARG)
    | Some desc =>
      let! (f, h) := lift (handle_of desc) in
      let! (res, h) := on_sys (seek f h (u32 offset) whence) in
      update fd desc h ;! ret res
    end.

Definition fstat (fd : Z) : K (Z * option file_stat) :=
  if fd <? 0 then ret (- EINVARG, None)
  else
    let! k := get in
    match file_get_descriptor k fd with
    | None => ret (- EINVARG, None)
    | Some desc => let! (f, h) := lift (handle_of desc) in on_sys (stat f h)
    end.

Definition fclose (fd : Z) : K Z :=
  if fd <? 0 then ret (- EINVARG)
  else
    let! k := get in
    match file_get_descriptor k fd with
    | None => ret (- EINVARG)
    | Some desc =>
      let! (f, h) := lift (handle_of desc) in
      let! res := on_sys (close f h) in
      if res <? 0 then ret res
      else
        vfs_kfree (desc_addr desc) ;!
        set_slot (Z.to_nat (fd - 1)) None ;!
        ret OK
    end.

End Ops.
End File.

(** ** What the descriptor layer relies on

    The state of a file system as its callers see it:
    [fl_opens s names mode]: the path with these components can be opened;
    [fl_file s names h]: [h] is an open handle of that file;
    [fl_content s names n l]: the first [n] bytes of the file are [l];
    [fl_size s names n]: the directory gives [n] as the size of the file;
    [fl_blocks h]: the heap blocks an open handle owns. *)
Class FsSpec {S H : Type} (f : File.filesystem S H) := {
  fl_opens : S -> list (list Z) -> Z -> Prop;
  fl_file : S -> list (list Z) -> H -> Prop;
  fl_content : S -> list (list Z) -> Z -> list Z -> Prop;
  fl_size : S -> list (list Z) -> Z -> Prop;
  fl_blocks : H -> list Z;
  fl_need : Z
}.

Class FsLaws {A S H : Type} `{KAllocLaws A} `{HasAlloc A S} (f : File.filesystem S H)
    `{!FsSpec f} := {
  fl_need_pos : 0 <= fl_need;
  fl_blocks_need : forall s names h,
    fl_file s names h -> Z.of_nat (length (fl_blocks h)) <= fl_need;
  fl_get_put : forall s a, get_alloc (put_alloc a s) = a;
  fl_opens_put : forall s a names mode, fl_opens s names mode -> fl_opens (put_alloc a s) names mode;
  fl_file_put : forall s a names h, fl_file s names h -> fl_file (put_alloc a s) names h;
  fl_content_put : forall s a names n l,
    fl_content s names n l -> fl_content (put_alloc a s) names n l;
  fl_content_bytes : forall s names n l,
    fl_content s names n l -> 0 < n < 2 ^ 31 /\ Z.of_nat (length l) = n /\ Forall is_byte l;
  fl_size_put : forall s a names n, fl_size s names n -> fl_size (put_alloc a s) names n;

  fl_open : forall s lv n parts names mode,
    ka_live (get_alloc s) lv n -> fl_need <= n -> fl_opens s names mode -> names <> [] ->
    map part parts = map PathFacts.padded names ->
    exists h s', File.open f parts mode s = Some (inr h, s') /\
      fl_file s' names h /\ (forall k l, fl_content s names k l -> fl_content s' names k l) /\
      (forall k, fl_size s names k -> fl_size s' names k) /\
      ka_live (get_alloc s') (add_pages lv (fl_blocks h)) (n - Z.of_nat (length (fl_blocks h))) /\
      owned lv (fl_blocks h);

  fl_stat : forall s names h n,
    fl_file s names h -> fl_size s names n ->
    exists flags, File.stat f h s = Some ((OK, Some (mk_stat flags n)), s);

  fl_read : forall s names h n l out buf,
    fl_file s names h -> fl_content s names n l -> 0 < out -> out + n < 2 ^ 32 ->
    exists s', File.read f h n 1 out buf s = Some (1, l ++ drop (length l) buf, s') /\
      fl_file s' names h /\ get_alloc s' = get_alloc s;

  fl_close : forall s lv n names h,
    fl_file s names h -> owned lv (fl_blocks h) ->
    ka_live (get_alloc s) (add_pages lv (fl_blocks h)) (n - Z.of_nat (length (fl_blocks h))) ->
    exists s', File.close f h s = Some (OK, s') /\ ka_live (get_alloc s') lv n
}.

Module FileFacts.
Import File.

Section Table.
Context {A S H : Type} `{KAlloc A} `{HasAlloc A S}.

Abbreviation krn := (kernel S H).

(** *** Slots *)

Lemma free_slot_Some {X} (l : list (option X)) : forall i j,
  free_slot l i = Some j ->
  (i <= j)%nat /\ l !! (j - i)%nat = Some None /\
  forall n, (n < j - i)%nat -> exists d, l !! n = Some (Some d).
Proof.
  induction l as [|[x|] l IH]; intros i j; simpl; [done| |].
  - intros (Hi & Hj & Hn)%IH. split; [lia|]. replace (j - i)%nat with (Datatypes.S (j - Datatypes.S i)) by lia.
    split; [done|]. intros [|n] Hlt; [by exists x|]. apply Hn. lia.
  - intros [= <-]. rewrite Nat.sub_diag. split; [lia|]. split; [done|]. intros n Hn. lia.
Qed.

Lemma free_slot_None {X} (l : list (option X)) : forall i,
  free_slot l i = None -> forall n, (n < length l)%nat -> exists d, l !! n = Some (Some d).
Proof.
  induction l as [|[x|] l IH]; intros i Hf n Hn; simpl in *; [lia| |done].
  destruct n as [|n]; [by exists x|]. apply (IH _ Hf). lia.
Qed.

(** *** The descriptor table: one entry per slot, each with its operations and
    private data *)
Record table_ok (k : krn) : Prop := {
  t_len : length (file_descriptors k) = 512%nat;
  t_desc : forall i d, file_descriptors k !! i = Some (Some d) ->
    index d = Z.of_nat i + 1 /\ is_Some (handle_of d)
}.

(** The entry [fopen] adds. *)
Definition opened (k k' : krn) (r : Z) : Prop := exists d,
  1 <= r <= Z.of_nat (length (file_descriptors k)) /\
  file_descriptors k !! Z.to_nat (r - 1) = Some None /\
  (forall n, (n < Z.to_nat (r - 1))%nat -> exists d, file_descriptors k !! n = Some (Some d)) /\
  index d = r /\ is_Some (handle_of d) /\
  file_descriptors k' = <[Z.to_nat (r - 1) := Some d]> (file_descriptors k).

Lemma on_sys_inv {B} (m : M S B) (k : krn) x k' :
  on_sys m k = Some (x, k') -> exists s, m (sys k) = Some (x, s) /\ k' = set_sys s k.
Proof.
  unfold on_sys. destruct (m (sys k)) as [[y s]|]; [|done].
  intros [= <- <-]. by exists s.
Qed.

Lemma parse_inv path (k : krn) r k' :
  parse path k = Some (r, k') -> file_descriptors k' = file_descriptors k /\ kdisk k' = kdisk k.
Proof. unfold parse. destruct (path_parser_parse _ _) as [[??]|]; [|done]. by intros [= _ <-]. Qed.

Lemma new_descriptor_inv (k : krn) res i k' :
  file_new_descriptor k = Some ((res, i), k') ->
  (res < 0 /\ file_descriptors k' = file_descriptors k) \/
  (res = OK /\ free_slot (file_descriptors k) 0 = Some i /\ exists p,
     file_descriptors k' = <[i := Some (mk_desc p (Z.of_nat i + 1) None None)]> (file_descriptors k)).
Proof.
  unfold file_new_descriptor, bind at 1, get. destruct (free_slot _ 0) as [j|] eqn:Hs.
  - unfold bind, vfs_kzalloc. destruct (ka_zalloc _ _) as [p a]. cbn [sys set_sys].
    destruct (p =? NULL); intros [= <- <- <-]; [by left|]. right. eauto.
  - intros [= <- _ <-]. by left.
Qed.

(** The error values of [open] are negative, as [ISERROR] requires. *)
Definition errors_negative (k : krn) : Prop := forall f p m s e s',
  fs (kdisk k) = Some f -> open f p m s = Some (inl e, s') -> e < 0.

(** An early exit with an error. *)
Local Ltac bad := match goal with Hf : _ = Some (?r, _) |- _ => injection Hf as <- <- end;
  split; [done|]; left; done.

Lemma fopen_res_inv (k k' : krn) fname mode r :
  errors_negative k -> fopen_res fname mode k = Some (r, k') ->
  kdisk k' = kdisk k /\
  ((r < 0 /\ file_descriptors k' = file_descriptors k) \/ opened k k' r).
Proof.
  intros Hneg Hf. unfold fopen_res in Hf. apply bind_inv in Hf as (root & k1 & Hp & Hf).
  apply parse_inv in Hp as [Ht Hd]. destruct root as [root|]; [|bad].
  destruct (first root) as [|p path]; [bad|].
  unfold bind at 1, get in Hf. rewrite Hd in Hf. destruct (drive_no root =? 0).
  2: bad.
  destruct (fs (kdisk k)) as [f|] eqn:Hfs; [|bad].
  apply bind_inv in Hf as (m & k2 & Hm & Hf). unfold lift in Hm.
  destruct (file_get_mode_by_string mode); [|done]. injection Hm as -> ->.
  destruct (m =? FILE_MODE_INVALID); [bad|].
  apply bind_inv in Hf as (h & k3 & Ho & Hf). apply on_sys_inv in Ho as (s & Ho & ->).
  destruct h as [e|h]; [injection Hf as <- <-; split; [done|left; split; [eauto|done]]|].
  apply bind_inv in Hf as ([res i] & k4 & Hn & Hf).
  assert (kdisk k4 = kdisk k2) as Hd4.
  { revert Hn. unfold file_new_descriptor, bind, get. cbn [file_descriptors set_sys].
    destruct (free_slot _ 0); [|by intros [= _ _ <-]]. unfold vfs_kzalloc.
    destruct (ka_zalloc _ _) as [q a]. by destruct (q =? NULL); intros [= _ _ <-]. }
  apply new_descriptor_inv in Hn. cbn [file_descriptors set_sys] in Hn. rewrite Ht in Hn.
  destruct Hn as [[Hr Ht4]|(-> & Hs & q & Ht4)].
  { rewrite (proj2 (Z.ltb_lt res 0)) in Hf by done. injection Hf as <- <-. rewrite Hd4. auto. }
  change (OK <? 0) with false in Hf. unfold bind, get, lift in Hf.
  apply free_slot_Some in Hs as (_ & Hs & Hlow). rewrite Nat.sub_0_r in *.
  pose proof (lookup_lt_Some _ _ _ Hs) as Hi.
  rewrite Ht4, list_lookup_insert_eq in Hf by done. injection Hf as <- <-.
  split; [by rewrite <- Hd|]. right. eexists (mk_desc q (Z.of_nat i + 1) (Some f) (Some h)).
  replace (Z.to_nat (Z.of_nat i + 1 - 1)) with i by lia. split; [lia|].
  split; [done|]. split; [done|]. split; [done|]. split; [by eexists|].
  cbn [file_descriptors set_descriptors]. rewrite Ht4, list_insert_insert_eq. done.
Qed.

Lemma fopen_inv (k k' : krn) fname mode r :
  errors_negative k -> fopen fname mode k = Some (r, k') ->
  kdisk k' = kdisk k /\
  ((r = 0 /\ file_descriptors k' = file_descriptors k) \/ opened k k' r).
Proof.
  intros Hneg Hf. apply bind_inv in Hf as (res & k1 & Hr & Hf).
  apply fopen_res_inv in Hr as [Hd Hc]; [|done]. destruct Hc as [[Hneg' Ht]|Ho].
  - rewrite (proj2 (Z.ltb_lt _ _)) in Hf by done. injection Hf as <- <-. auto.
  - assert (1 <= res) by (destruct Ho as (? & [? _] & _); done).
    rewrite (proj2 (Z.ltb_ge res 0)) in Hf by lia. injection Hf as <- <-. auto.
Qed.

Lemma opened_table (k k' : krn) r : table_ok k -> opened k k' r -> table_ok k'.
Proof.
  intros [Hl Hd] (d & Hr & Hs & _ & Hi & Hh & Ht). split; rewrite Ht.
  - by rewrite length_insert.
  - intros i d'. rewrite list_lookup_insert. case_decide as Hdec; [|apply Hd].
    intros [= <-]. split; [lia|done].
Qed.

(** *** The other operations leave the table in order *)

Lemma get_descriptor_Some (k : krn) fd d :
  file_get_descriptor k fd = Some d ->
  1 <= fd < 512 /\ file_descriptors k !! Z.to_nat (fd - 1) = Some (Some d).
Proof.
  unfold file_get_descriptor, TOYOS_MAX_FILE_DESCRIPTORS.
  destruct (Z.leb_spec fd 0); [done|]. destruct (Z.leb_spec 512 fd); [done|]. simpl.
  destruct (_ !! _) as [[x|]|]; simpl; [|done..]. intros [= ->]. split; [lia|done].
Qed.

Lemma set_slot_table (k : krn) i o :
  table_ok k -> (forall d, o = Some d -> index d = Z.of_nat i + 1 /\ is_Some (handle_of d)) ->
  table_ok (set_descriptors (<[i := o]> (file_descriptors k)) k).
Proof.
  intros [Hl Hd] Ho. split; cbn [file_descriptors set_descriptors]; [by rewrite length_insert|].
  intros j d. rewrite list_lookup_insert. case_decide as Hdec; [|apply Hd].
  destruct Hdec as [-> _]. intros [= ->]. by apply Ho.
Qed.

Lemma update_table (k : krn) fd d h s :
  table_ok k -> file_get_descriptor k fd = Some d -> is_Some (desc_fs d) ->
  exists k', update fd d h (set_sys s k) = Some (tt, k') /\ table_ok k' /\ kdisk k' = kdisk k.
Proof.
  intros T (Hr & Hs)%get_descriptor_Some [f Hf]. eexists. split; [done|]. split; [|done].
  apply (set_slot_table (set_sys s k)); [by destruct T|]. intros d' [= <-].
  split; [by apply (t_desc k T) in Hs as [? _]|]. unfold handle_of. simpl. rewrite Hf. by eexists.
Qed.

(** A descriptor the table holds can be used. *)
Lemma get_descriptor_handle (k : krn) fd d :
  table_ok k -> file_get_descriptor k fd = Some d ->
  exists f h, desc_fs d = Some f /\ private_data d = Some h /\ handle_of d = Some (f, h).
Proof.
  intros T (_ & Hs)%get_descriptor_Some. apply (t_desc k T) in Hs as (_ & [[f h] Hh]).
  exists f, h. split; [|split]; [| |done]; revert Hh; unfold handle_of;
    destruct (desc_fs d), (private_data d); simpl; try done; by intros [= -> ->].
Qed.

End Table.
End FileFacts.

(** ** Opening, reading and closing against the interface *)

Module FileUse.
Import File FileFacts PathFacts PathProps.

Lemma join_length ws : Forall comp ws -> (length ws <= length (join ws))%nat.
Proof.
  induction 1 as [|w ws [Hne _] Hws IH]; [simpl; lia|].
  destruct w as [|c w]; [done|]. destruct ws as [|v ws]; simpl in *; [lia|]. rewrite length_app. simpl. lia.
Qed.

Section Use.
Context {A S H : Type} `{KAllocLaws A} `{HasAlloc A S} (f : filesystem S H) `{FP : !FsSpec f} `{FL : !FsLaws f}.

Abbreviation krn := (kernel S H).

(** The file interface mounted on [f], with the allocations [lv] and [n] free
    blocks, and slot [i] the next descriptor. *)
Record ready (k : krn) (lv : gmap Z Z) (n : Z) (i : nat) : Prop := {
  r_fs : fs (kdisk k) = Some f;
  r_live : ka_live (get_alloc (sys k)) lv n;
  r_slot : free_slot (file_descriptors k) 0 = Some i;
  r_len : length (file_descriptors k) = 512%nat
}.

(** The path [0:/name/...] as a C string. *)
Definition path_arg (names : list (list Z)) (rest : list Z) : list Z :=
  c_str (path_text 0 (join names)) rest.

Lemma new_descriptor_ok (k : krn) lv n i :
  ka_live (get_alloc (sys k)) lv n -> 0 < n -> free_slot (file_descriptors k) 0 = Some i ->
  exists p a', file_new_descriptor k = Some ((OK, i),
      mk_kernel (put_alloc a' (sys k)) (filesystems k)
        (<[i := Some (mk_desc p (Z.of_nat i + 1) None None)]> (file_descriptors k)) (kdisk k)) /\
    lv !! p = None /\ ka_live a' (<[p := 1]> lv) (n - 1).
Proof.
  intros Ha Hn Hi. unfold file_new_descriptor, bind, get, vfs_kzalloc. rewrite Hi.
  destruct (ka_zalloc_1 _ lv n sizeof_file_descriptor Ha) as (p & a' & -> & Hp & _ & Hl & Ha');
    [unfold sizeof_file_descriptor; lia..|].
  rewrite (proj2 (Z.eqb_neq p NULL)) by done. by exists p, a'.
Qed.

Lemma parse_arg (k : krn) lv n names rest :
  ka_live (get_alloc (sys k)) lv n -> Forall comp names -> (length (join names) <= 105)%nat ->
  2 * Z.of_nat (length (join names)) + 3 <= n ->
  exists root a', parse (path_arg names rest) k = Some (Some root, set_sys (put_alloc a' (sys k)) k) /\
    drive_no root = 0 /\ map part (first root) = map padded names /\
    ka_live a' (add_pages lv (path_blocks root)) (n - Z.of_nat (length (path_blocks root))) /\
    owned lv (path_blocks root) /\
    length (path_blocks root) = (2 * length names + 1)%nat.
Proof.
  intros Ha Hc Hl Hn.
  destruct (parse_blocks _ lv n 0 (join names) rest Ha) as (root & a' & Hp & Hd & Hm & Ha' & Ho);
    [lia|by apply join_chars|done|done|].
  exists root, a'. unfold parse, path_arg. rewrite Hp. split; [done|]. split; [done|].
  rewrite components_join in Hm by done. split; [done|]. split; [done|]. split; [done|].
  unfold path_blocks. simpl. apply (f_equal length) in Hm. rewrite !length_map in Hm.
  rewrite <- Hm. generalize (first root). intros ps. unfold addrs.
  induction ps as [|q ps IH]; simpl in *; lia.
Qed.

Lemma fopen_ok (k : krn) lv n i names rest mode ms :
  ready k lv n i -> Forall comp names -> names <> [] -> (length (join names) <= 105)%nat ->
  file_get_mode_by_string ms = Some mode -> mode <> FILE_MODE_INVALID ->
  fl_opens (sys k) names mode ->
  2 * Z.of_nat (length (join names)) + 4 + fl_need <= n ->
  exists h p s' ps,
    fopen (path_arg names rest) ms k = Some (Z.of_nat i + 1,
      mk_kernel s' (filesystems k)
        (<[i := Some (mk_desc p (Z.of_nat i + 1) (Some f) (Some h))]> (file_descriptors k)) (kdisk k)) /\
    fl_file s' names h /\ (forall c l, fl_content (sys k) names c l -> fl_content s' names c l) /\
    (forall c, fl_size (sys k) names c -> fl_size s' names c) /\
    length ps = (2 * length names + 1)%nat /\ owned lv (ps ++ fl_blocks h ++ [p]) /\
    ka_live (get_alloc s') (add_pages lv (ps ++ fl_blocks h ++ [p]))
      (n - Z.of_nat (length (ps ++ fl_blocks h ++ [p]))).
Proof.
  intros R Hc Hne Hl Hm Hmi Hop Hn. unfold fopen.
  pose proof fl_need_pos as Hnp. pose proof (join_length names Hc) as Hjl.
  destruct (parse_arg k lv n names rest (r_live _ _ _ _ R) Hc Hl) as
    (root & a1 & Hp & Hd & Hparts & Ha1 & Ho1 & Hlen); [lia|].
  set (s1 := put_alloc a1 (sys k)) in *.
  destruct (fl_open s1 (add_pages lv (path_blocks root)) (n - Z.of_nat (length (path_blocks root)))
    (first root) names mode) as (h & s2 & Hopen & Hfile & Hcont & Hsize & Ha2 & Ho2);
    [by unfold s1; rewrite fl_get_put|lia|by apply fl_opens_put|done|done|].
  pose proof (fl_blocks_need _ _ _ Hfile) as Hbn.
  destruct (new_descriptor_ok (set_sys s2 k) _ _ i Ha2) as (p & a3 & Hnew & Hpf & Ha3);
    [lia|apply R|].
  exists h, p, (put_alloc a3 s2), (path_blocks root).
  split; [|split; [by apply fl_file_put|split; [intros c l Hcl; apply fl_content_put, Hcont; by
    apply fl_content_put|split; [intros c Hcs; apply fl_size_put, Hsize; by apply fl_size_put|split; [done|split]]]]].
  - unfold bind at 1, fopen_res. rewrite (bind_Some (parse _) _ _ _ _ Hp).
    destruct (first root) as [|q path] eqn:Hfr; [by destruct names|].
    pose proof (free_slot_Some _ _ _ (r_slot _ _ _ _ R)) as (_ & Hs & _). rewrite Nat.sub_0_r in Hs.
    unfold bind, get, lift, on_sys. cbn [sys set_sys kdisk file_descriptors filesystems].
    rewrite Hd, (r_fs _ _ _ _ R), Hm. change (0 =? 0) with true. cbv iota.
    rewrite (proj2 (Z.eqb_neq mode _)) by done.
    change (sys (set_sys s1 k)) with s1. rewrite Hopen.
    unfold set_sys in Hnew |- *. cbn [sys filesystems kdisk file_descriptors] in Hnew |- *.
    rewrite Hnew. change (OK <? 0) with false. cbn -[list_insert_insert].
    rewrite list_lookup_insert_eq by (by eapply lookup_lt_Some). cbn.
    rewrite (proj2 (Z.ltb_ge (Z.of_nat i + 1) 0)) by lia. unfold ret, set_descriptors.
    cbn. by rewrite list_insert_insert_eq.
  - apply owned_app; [done|]. by apply owned_snoc.
  - rewrite fl_get_put, !add_pages_app, !length_app. change (length [p]) with 1%nat.
    match goal with |- ka_live _ _ ?x =>
      replace x with (n - Z.of_nat (length (path_blocks root)) - Z.of_nat (length (fl_blocks h)) - 1)
        by lia end. done.
Qed.

(** A kernel whose slot [i] holds the descriptor [d]. *)
Lemma get_descriptor_slot (k : krn) i d :
  (i < 511)%nat -> file_descriptors k !! i = Some (Some d) ->
  file_get_descriptor k (Z.of_nat i + 1) = Some d.
Proof.
  intros Hi Hd. unfold file_get_descriptor, TOYOS_MAX_FILE_DESCRIPTORS.
  rewrite (proj2 (Z.leb_gt _ 0)), (proj2 (Z.leb_gt 512 _)) by lia. simpl.
  replace (Z.to_nat (Z.of_nat i + 1 - 1)) with i by lia. by rewrite Hd.
Qed.

Lemma fstat_ok (k : krn) i p h names c :
  (i < 511)%nat ->
  file_descriptors k !! i = Some (Some (mk_desc p (Z.of_nat i + 1) (Some f) (Some h))) ->
  fl_file (sys k) names h -> fl_size (sys k) names c ->
  exists flags, fstat (Z.of_nat i + 1) k = Some ((OK, Some (mk_stat flags c)), k).
Proof.
  intros Hi Hd Hf Hc. destruct (fl_stat (sys k) names h c Hf Hc) as [flags Hs].
  exists flags. unfold fstat. rewrite (proj2 (Z.ltb_ge (Z.of_nat i + 1) 0)) by lia.
  unfold bind at 1, get. rewrite (get_descriptor_slot _ _ _ Hi Hd). unfold bind, lift, on_sys. simpl.
  rewrite Hs. by destruct k.
Qed.

Lemma fread_ok (k : krn) i p h names c l out buf :
  (i < 511)%nat ->
  file_descriptors k !! i = Some (Some (mk_desc p (Z.of_nat i + 1) (Some f) (Some h))) ->
  fl_file (sys k) names h -> fl_content (sys k) names c l -> 0 < c -> 0 < out -> out + c < 2 ^ 32 ->
  exists s', fread out buf c 1 (Z.of_nat i + 1) k
      = Some (1, l ++ drop (length l) buf, set_sys s' k) /\
    fl_file s' names h /\ get_alloc s' = get_alloc (sys k).
Proof.
  intros Hi Hd Hf Hc Hcp Ho Hoc.
  destruct (fl_read (sys k) names h c l out buf Hf Hc Ho Hoc) as (s' & Hr & Hf' & Ha').
  exists s'. split; [|done]. unfold fread.
  rewrite (proj2 (Z.eqb_neq c 0)), (proj2 (Z.ltb_ge (Z.of_nat i + 1) 0)) by lia.
  change (1 =? 0) with false. cbn [orb].
  unfold bind at 1, get. rewrite (get_descriptor_slot _ _ _ Hi Hd). unfold bind, lift, on_sys. simpl.
  by rewrite Hr.
Qed.

Lemma fclose_ok (k : krn) i p h names lv n :
  (i < 511)%nat ->
  file_descriptors k !! i = Some (Some (mk_desc p (Z.of_nat i + 1) (Some f) (Some h))) ->
  fl_file (sys k) names h -> owned lv (fl_blocks h ++ [p]) ->
  ka_live (get_alloc (sys k)) (add_pages lv (fl_blocks h ++ [p]))
    (n - Z.of_nat (length (fl_blocks h ++ [p]))) ->
  exists s', fclose (Z.of_nat i + 1) k
      = Some (OK, mk_kernel s' (filesystems k) (<[i := None]> (file_descriptors k)) (kdisk k)) /\
    ka_live (get_alloc s') lv n.
Proof.
  intros Hi Hd Hf [Hnd Hown] Ha. apply NoDup_app in Hnd as (Hnd & Hdis & _).
  apply Forall_app in Hown as [Hown Hp]. apply Forall_cons in Hp as [Hp _].
  rewrite add_pages_app, add_pages_comm, length_app in Ha. change (length [p]) with 1%nat in Ha.
  destruct (fl_close (sys k) (add_pages lv [p]) (n - 1) names h Hf) as (s' & Hc & Ha').
  - split; [done|]. rewrite Forall_forall in Hown |- *. intros t Ht. rewrite lookup_add_pages.
    rewrite decide_False by (intros ?; by apply (Hdis t)). by apply Hown.
  - by replace (n - 1 - Z.of_nat (length (fl_blocks h)))
      with (n - Z.of_nat (length (fl_blocks h) + 1)) by lia.
  - exists (put_alloc (ka_free (get_alloc s') p) s'). split.
    + unfold fclose. rewrite (proj2 (Z.ltb_ge (Z.of_nat i + 1) 0)) by lia.
      unfold bind at 1, get. rewrite (get_descriptor_slot _ _ _ Hi Hd).
      unfold bind, lift, on_sys. simpl. rewrite Hc. simpl. unfold set_slot, set_descriptors, modify, ret.
      simpl. by replace (Z.to_nat (Z.of_nat i + 1 - 1)) with i by lia.
    + rewrite fl_get_put. rewrite <- (delete_insert_id lv p 1) by done.
      replace n with (n - 1 + 1) by lia. apply ka_free_spec; [done|apply lookup_insert_eq].
Qed.

End Use.
End FileUse.

(** ** The theorems of the descriptor layer *)

Module FileProps.
Import File FileFacts FileUse.

Section Props.
Context {A S H : Type} `{KAlloc A} `{HasAlloc A S}.

Abbreviation krn := (kernel S H).

(** Any call of the file interface, with any arguments. *)
Inductive call : krn -> krn -> Prop :=
| call_open fname mode r k k' : fopen fname mode k = Some (r, k') -> call k k'
| call_read ptr buf size nmemb fd r k k' : fread ptr buf size nmemb fd k = Some (r, k') -> call k k'
| call_write inp size nmemb fd r k k' : fwrite inp size nmemb fd k = Some (r, k') -> call k k'
| call_seek fd off whence r k k' : fseek fd off whence k = Some (r, k') -> call k k'
| call_stat fd r k k' : fstat fd k = Some (r, k') -> call k k'
| call_close fd r k k' : fclose fd k = Some (r, k') -> call k k'.

Lemma table_sys (k : krn) s : table_ok k -> table_ok (set_sys s k).
Proof. by intros []. Qed.

(** A call on a descriptor that ends in a file-system operation. *)
Local Ltac on_desc := match goal with
  | |- context [bind get _ ?k] => unfold bind at 1, get
  end; match goal with
  | T : table_ok ?k |- context [file_get_descriptor ?k ?fd] =>
    let d := fresh "d" in let Hd := fresh "Hd" in
    destruct (file_get_descriptor k fd) as [d|] eqn:Hd; [|by intros [= _ <-]];
    let f := fresh "f" in let h := fresh "h" in let Hf := fresh "Hf" in let Hh := fresh "Hh" in
    destruct (get_descriptor_handle k fd d T Hd) as (f & h & Hf & _ & Hh);
    rewrite (bind_lift _ _ _ _ Hh)
  end.

Lemma call_table (k k' : krn) :
  errors_negative k -> call k k' -> table_ok k -> table_ok k' /\ kdisk k' = kdisk k.
Proof.
  intros Hneg Hc T. revert Hneg T. destruct Hc as [fname mode r k k' Hc|ptr buf size nmemb fd r k k' Hc|
    inp size nmemb fd r k k' Hc|fd off whence r k k' Hc|fd r k k' Hc|fd r k k' Hc]; intros Hneg T; revert Hc.
  - intros [Hd [[_ Ht]|Ho]]%fopen_inv; [| |done].
    + split; [|done]. destruct T as [Hl Hdesc]. split; by rewrite Ht.
    + split; [by eapply opened_table|done].
  - unfold fread. destruct (_ || _); [by intros [= _ <-]|]. on_desc.
    intros (s & _ & ->)%on_sys_inv. by split; [apply table_sys|].
  - unfold fwrite. destruct (_ || _); [by intros [= _ <-]|]. on_desc.
    intros ([res h'] & k1 & (s & _ & ->)%on_sys_inv & Hu)%bind_inv.
    destruct (update_table k fd d h' s T Hd) as (k2 & Hu2 & T2 & Hd2); [by rewrite Hf|].
    rewrite (bind_Some _ _ _ _ _ Hu2) in Hu. by injection Hu as _ <-.
  - unfold fseek. destruct (fd <? 0); [by intros [= _ <-]|]. on_desc.
    intros ([res h'] & k1 & (s & _ & ->)%on_sys_inv & Hu)%bind_inv.
    destruct (update_table k fd d h' s T Hd) as (k2 & Hu2 & T2 & Hd2); [by rewrite Hf|].
    rewrite (bind_Some _ _ _ _ _ Hu2) in Hu. by injection Hu as _ <-.
  - unfold fstat. destruct (fd <? 0); [by intros [= _ <-]|]. on_desc.
    intros (s & _ & ->)%on_sys_inv. by split; [apply table_sys|].
  - unfold fclose. destruct (fd <? 0); [by intros [= _ <-]|]. on_desc.
    intros (res & k1 & (s & _ & ->)%on_sys_inv & Hu)%bind_inv.
    destruct (res <? 0); [injection Hu as _ <-; by split; [apply table_sys|]|].
    injection Hu as _ <-. split; [|done]. by apply (set_slot_table (set_sys _ k)); [destruct T|].
Qed.

Lemma resolve_loop_inv l : forall (k k' : krn) o,
  resolve_loop l k = Some (o, k') ->
  file_descriptors k' = file_descriptors k /\ forall f, o = Some f -> Some f ∈ l.
Proof.
  induction l as [|[f|] l IH]; intros k k' o; simpl.
  - by intros [= <- <-].
  - intros (res & k1 & (s & _ & ->)%on_sys_inv & Hr)%bind_inv.
    destruct (res =? OK); [injection Hr as <- <-; split; [done|intros ? [= ->]; left]|].
    apply IH in Hr as [Ht Hf]. split; [done|]. intros f' ->. right. auto.
  - intros [Ht Hf]%IH. split; [done|]. intros f' ->. right. auto.
Qed.

Lemma disk_search_inv (k k' : krn) :
  disk_search_and_init k = Some (tt, k') ->
  file_descriptors k' = file_descriptors k /\
  forall f, fs (kdisk k') = Some f -> Some f ∈ filesystems k.
Proof.
  unfold disk_search_and_init, fs_resolve. intros (o & k1 & Hr & Hm)%bind_inv.
  injection Hr as <- <-. apply bind_inv in Hm as (o & k1 & Hr & Hm). injection Hm as <-.
  apply resolve_loop_inv in Hr as [Ht Hf]. done.
Qed.

Lemma fs_init_eq fat (k : krn) :
  fs_init fat k = Some (tt, mk_kernel (sys k) (<[O := Some fat]> (replicate 12 None))
    (replicate 512 None) (kdisk k)).
Proof. reflexivity. Qed.

(** the descriptor table stays well formed: after fs_init and
    disk_search_and_init, whatever calls of fopen, fread, fwrite, fseek, fstat
    and fclose are made, the table has 512 slots, the descriptor in slot i has
    number i + 1, and every descriptor in it has its file system and private
    data set, so no call dereferences a null member of a descriptor. *)
Theorem descriptor_table_invariant (fat : filesystem S H) (k0 k1 k2 k : krn) :
  (forall p m s e s', open fat p m s = Some (inl e, s') -> e < 0) ->
  fs_init fat k0 = Some (tt, k1) -> disk_search_and_init k1 = Some (tt, k2) ->
  rtc call k2 k -> table_ok k.
Proof.
  intros Hneg Hi Hs Hr. rewrite fs_init_eq in Hi. apply Some_inj, pair_eq in Hi as [_ <-].
  apply disk_search_inv in Hs as [Ht Hfs].
  assert (table_ok k2) as T.
  { split; rewrite Ht; cbn [file_descriptors].
    - by rewrite length_replicate.
    - intros i d [? _]%lookup_replicate. done. }
  assert (errors_negative k2) as E.
  { intros f p m s e s' Hf%Hfs. cbn [filesystems] in Hf.
    apply list_elem_of_lookup in Hf as [i Hf]. rewrite list_lookup_insert in Hf.
    case_decide; [injection Hf as <-; apply Hneg|]. by apply lookup_replicate in Hf as [? _]. }
  clear Ht Hfs. revert T E. induction Hr as [|a b c Hc _ IH]; [done|]. intros T E.
  destruct (call_table a b E Hc T) as [T' Hd]. apply IH; [done|].
  unfold errors_negative. by rewrite Hd.
Qed.

(** Fopen returns 0 and leaves the table alone, or it returns the number
    of the lowest free slot, whose new descriptor is ready for use and is the
    only change of the table; it never returns a negative number. *)
Theorem fopen_lowest_free (k k' : krn) fname mode r :
  errors_negative k -> fopen fname mode k = Some (r, k') ->
  (r = 0 /\ file_descriptors k' = file_descriptors k) \/ opened k k' r.
Proof. intros Hn Hf. by apply fopen_inv in Hf as [_ ?]. Qed.

(** the last descriptor is lost: when fopen returns 512, the descriptor is in
    the table, but file_get_descriptor refuses the number, so that every fread,
    fwrite, fseek, fstat and fclose on it fails with -EINVARG and the slot is
    never free again. *)
Theorem descriptor_512_lost (k k' : krn) fname mode :
  errors_negative k -> fopen fname mode k = Some (512, k') ->
  (exists d, file_descriptors k' !! 511%nat = Some (Some d) /\ index d = 512) /\
  fclose 512 k' = Some (- EINVARG, k') /\ fstat 512 k' = Some (- EINVARG, None, k') /\
  forall ptr buf inp size nmemb off whence, 0 < size -> 0 < nmemb ->
    fread ptr buf size nmemb 512 k' = Some (- EINVARG, buf, k') /\
    fwrite inp size nmemb 512 k' = Some (- EINVARG, k') /\
    fseek 512 off whence k' = Some (- EINVARG, k').
Proof.
  intros Hn Hf. apply fopen_inv in Hf as [_ [[? _]|Ho]]; [done| |done].
  destruct Ho as (d & Hr & Hs & _ & Hi & _ & Ht). split; [|split; [done|split; [done|]]].
  - exists d. split; [|done]. rewrite Ht. apply list_lookup_insert_eq. by eapply lookup_lt_Some.
  - intros ptr buf inp size nmemb off whence Hsz Hnm. unfold fread, fwrite.
    by rewrite (proj2 (Z.eqb_neq size 0)), (proj2 (Z.eqb_neq nmemb 0)) by lia.
Qed.

End Props.

(** C33: a whole session against any file system that meets [FsLaws]: opening an
    existing file for reading gives the lowest free descriptor, reading the first
    [c] bytes through it returns the contents of the file, closing succeeds and
    restores the descriptor table; of the heap, everything is given back except
    the parsed path, 2 blocks per component and one for the root, which nothing
    frees. *)
Theorem file_session {A S H : Type} `{KAllocLaws A} `{HasAlloc A S}
    (f : filesystem S H) `{FP : !FsSpec f} `{FL : !FsLaws f} (k : kernel S H) lv n i names rest c l out buf :
  ready f k lv n i -> (i < 511)%nat ->
  Forall PathProps.comp names -> names <> [] -> (length (PathProps.join names) <= 105)%nat ->
  fl_opens (sys k) names FILE_MODE_READ -> fl_content (sys k) names c l ->
  2 * Z.of_nat (length (PathProps.join names)) + 4 + fl_need <= n ->
  0 < c -> 0 < out -> out + c < 2 ^ 32 ->
  exists k1 k2 k3 ps,
    fopen (path_arg names rest) (Some [114; 0]) k = Some (Z.of_nat i + 1, k1) /\
    fread out buf c 1 (Z.of_nat i + 1) k1 = Some (1, l ++ drop (length l) buf, k2) /\
    fclose (Z.of_nat i + 1) k2 = Some (OK, k3) /\
    file_descriptors k3 = file_descriptors k /\
    length ps = (2 * length names + 1)%nat /\ owned lv ps /\
    ka_live (get_alloc (sys k3)) (add_pages lv ps) (n - Z.of_nat (length ps)).
Proof.
  intros R Hi Hc Hne Hl Hop Hct Hn Hcp Ho Hoc.
  destruct (fopen_ok f k lv n i names rest FILE_MODE_READ (Some [114; 0]) R Hc Hne Hl eq_refl)
    as (h & p & s1 & ps & Hopen & Hf1 & Hct1 & _ & Hps & Hown & Ha1); [done|done|done|].
  pose proof (free_slot_Some _ _ _ (r_slot _ _ _ _ _ R)) as (_ & Hs & _). rewrite Nat.sub_0_r in Hs.
  pose proof (lookup_lt_Some _ _ _ Hs) as Hlt.
  set (k1 := mk_kernel s1 _ _ _) in Hopen.
  assert (file_descriptors k1 !! i = Some (Some (mk_desc p (Z.of_nat i + 1) (Some f) (Some h)))) as Hd
    by (simpl; by rewrite list_lookup_insert_eq).
  destruct (fread_ok f k1 i p h names c l out buf Hi Hd Hf1 (Hct1 _ _ Hct) Hcp Ho Hoc)
    as (s2 & Hread & Hf2 & Ha2).
  destruct (fclose_ok f (set_sys s2 k1) i p h names (add_pages lv ps) (n - Z.of_nat (length ps)) Hi Hd Hf2)
    as (s3 & Hclose & Ha3).
  { by eapply owned_app_inv. }
  { cbn [sys set_sys]. rewrite Ha2. rewrite add_pages_app, length_app in Ha1.
    by replace (n - Z.of_nat (length ps) - Z.of_nat (length (fl_blocks h ++ [p])))
      with (n - Z.of_nat (length ps + length (fl_blocks h ++ [p]))) by lia. }
  eexists k1, _, _, ps. split; [done|]. split; [done|]. split; [done|].
  split; [|split; [done|split; [by eapply owned_app_inv|done]]].
  simpl. rewrite list_insert_insert_eq, list_insert_id; done.
Qed.

End FileProps.
