(* ===== verification/FatFs.v ===== *)
(** * fat16.c mounted under file.c

    The table of operations that [fat16_init] returns, over a disk that is not
    yet mounted or holds a FAT16 volume, and the proof that it meets the
    contract [FsLaws] of the descriptor layer. *)

From S2P Require Import Prelude CLib KAlloc Heap Disk PathParser Fat16 File.
Import Str PathParser Fat16 File StreamFacts FatFacts FatNames PathFacts FatProps.
#[local] Open Scope prog_scope.

(** The disk before and after [fat16_resolve] has set [fs_private]. *)
Inductive fat_state (A D : Type) :=
| Unmounted (a : A) (d : D)
| Mounted (v : volume A D).

Arguments Unmounted {A D}.
Arguments Mounted {A D}.

#[export] Instance fat_has_alloc A D : HasAlloc A (fat_state A D) := {
  get_alloc s := match s with Unmounted a _ => a | Mounted v => alloc v end;
  put_alloc a s := match s with Unmounted _ d => Unmounted a d | Mounted v => Mounted (set_alloc a v) end
}.

Module FatFs.

Section Fs.
Context {A D : Type} `{KAlloc A} `{BlockDevice D}.
Variables (stack_buf : list Z) (stack_res : Z) (dir_fuel write_fuel : nat) (disk_ptr : Z).

Abbreviation F := (M (fat_state A D)).

(** An operation on the volume; without one, [fs_private] is null. *)
Definition on_volume {B} (m : M (volume A D) B) : F B := fun s =>
  match s with
  | Unmounted _ _ => None
  | Mounted v => match m v with Some (x, v) => Some (x, Mounted v) | None => None end
  end.

Definition fat_resolve : F Z := fun s =>
  let '(a, d) := match s with Unmounted a d => (a, d) | Mounted v => (alloc v, dev v) end in
  '(res, v, a, d) ← fat16_resolve stack_buf dir_fuel disk_ptr a d 0 TOYOS_SECTOR_SIZE;
  Some (res, match v with Some v => Mounted v | None => Unmounted a d end).

(** [fat16_init]: the static table, with its name set to "FAT16". *)
Definition fat16_init : filesystem (fat_state A D) fat_file_descriptor := mk_fs
  [70; 65; 84; 49; 54]
  fat_resolve
  (fun path mode => on_volume (fat16_open stack_buf dir_fuel path mode))
  (fun d size nmemb out buf => on_volume (fat16_read stack_buf d size nmemb out buf))
  (fun d size nmemb inp => on_volume (fat16_write stack_buf stack_res write_fuel d size nmemb inp))
  (fun d offset mode => lift (fat16_seek d offset mode))
  (fun d => lift (fat16_stat d))
  (fun d => on_volume (fat16_close d)).

(** Every error of [fat16_open] is negative. *)
Lemma fat16_open_negative path mode s e s' :
  open fat16_init path mode s = Some (inl e, s') -> e < 0.
Proof.
  simpl. unfold on_volume. destruct s as [|v]; [done|].
  destruct (fat16_open _ _ _ _ v) as [[r v']|] eqn:Ho; [|done]. intros [= -> _]. revert Ho.
  unfold fat16_open. destruct path as [|p path]; [by intros [= <- _]|].
  destruct (_ && _); [by intros [= <- _]|]. intros (d & v1 & _ & Ho)%bind_inv. revert Ho.
  destruct (d =? NULL); [by intros [= <- _]|]. intros (i & v2 & _ & Ho)%bind_inv. revert Ho.
  destruct i; [done|]. by intros [= <- _].
Qed.

End Fs.

Section Laws.
Context `{KL : KAllocLaws A} `{BL : BlockLaws D}.
Variables (stack_buf : list Z) (stack_res : Z) (dir_fuel write_fuel : nat) (disk_ptr : Z).
Hypothesis stack_len : length stack_buf = 512%nat.

Abbreviation fat := (fat16_init stack_buf stack_res dir_fuel write_fuel disk_ptr).
Abbreviation st := (fat_state A D).

(** A plain file of the root directory. *)
Definition root_file (v : volume A D) (name : list Z) (it : fat_directory_item) : Prop :=
  Forall is_char name /\ (length name < 108)%nat /\ names_file v name it /\
  Z.land (attribute it) FAT_FILE_SUBDIRECTORY = 0.

Definition fat_opens (s : st) (names : list (list Z)) (mode : Z) : Prop :=
  exists v name it, s = Mounted v /\ names = [name] /\ root_file v name it /\
    (mode = FILE_MODE_READ \/ mode = FILE_MODE_WRITE).

Definition fat_file (s : st) (names : list (list Z)) (h : fat_file_descriptor) : Prop :=
  exists v name it d fi q, s = Mounted v /\ names = [name] /\ root_file v name it /\
    h = mk_fd d (mk_fat_item fi (FAT_ITEM_TYPE_FILE (Some (q, it)))) 0.

(** The first [n] bytes of the file, found along its cluster chain. *)
Definition fat_content (s : st) (names : list (list Z)) (n : Z) (l : list Z) : Prop :=
  exists v name it, s = Mounted v /\ names = [name] /\ root_file v name it /\ vol_ok v /\
    0 <= fat16_get_first_cluster it < 65536 /\ 0 < n < 2 ^ 31 /\
    file_fits v (fat16_get_first_cluster it) 0 n /\
    l = file_bytes v (fat16_get_first_cluster it) 0 n.

(** The size in the directory entry. *)
Definition fat_size (s : st) (names : list (list Z)) (n : Z) : Prop :=
  exists v name it, s = Mounted v /\ names = [name] /\ root_file v name it /\ filesize it = n.

Definition fat_blocks (h : fat_file_descriptor) : list Z :=
  fd_addr h :: fi_addr (fd_item h) ::
  match body (fd_item h) with FAT_ITEM_TYPE_FILE (Some (q, _)) => [q] | _ => [] end.

Lemma root_file_inj v name it it' : root_file v name it -> root_file v name it' -> it = it'.
Proof.
  intros (_ & _ & (k & nm & Hk & He & Hs & Hj) & _) (_ & _ & (k' & nm' & Hk' & He' & Hs' & _) & _).
  destruct (decide (k' = k)) as [->|Hne].
  - by destruct (entry_named_inj _ _ _ _ _ _ He He').
  - destruct (Hj k' Hk' Hne) as (it2 & nm2 & He2 & Hn2).
    destruct (entry_named_inj _ _ _ _ _ _ He' He2) as [_ ->]. done.
Qed.

(** The contents of a volume do not depend on the allocator. *)
Lemma chain_alloc (v : volume A D) a k : forall c, chain (set_alloc a v) c k = chain v c k.
Proof.
  induction k as [|k IH]; intros c; [done|]. cbn [chain].
  change (fat_entry (set_alloc a v) c) with (fat_entry v c). by destruct (marker _).
Qed.

Lemma content_alloc v a name n l :
  fat_content (Mounted v) [name] n l -> fat_content (Mounted (set_alloc a v)) [name] n l.
Proof.
  intros (v' & name' & it & [= <-] & [= <-] & Hr & [] & Hc & Hn & Hf & ->).
  exists (set_alloc a v), name, it. split; [done|]. split; [done|]. split; [done|].
  split; [by split|]. split; [exact Hc|]. split; [exact Hn|]. split.
  - intros k Hk. destruct (Hf k Hk) as (c' & Hch & Hfit). exists c'. by rewrite chain_alloc.
  - apply map_ext. intros x. unfold file_byte. by rewrite chain_alloc.
Qed.

#[local] Obligation Tactic := idtac.

#[export] Instance fat_spec : FsSpec fat := {
  fl_opens := fat_opens; fl_file := fat_file; fl_content := fat_content;
  fl_size := fat_size; fl_blocks := fat_blocks; fl_need := 3
}.

#[export] Program Instance fat_laws : FsLaws fat.
Next Obligation. simpl. lia. Qed.
Next Obligation. by intros s names h (v & name & it & d & fi & q & -> & -> & _ & ->). Qed.
Next Obligation. by intros [a0 d0|v] a. Qed.
Next Obligation. intros s a names mode (v & name & it & -> & -> & Hr & Hm). by eexists _, name, it. Qed.
Next Obligation.
  intros s a names h (v & name & it & d & fi & q & -> & -> & Hr & ->).
  by eexists _, name, it, d, fi, q.
Qed.
Next Obligation.
  intros s a names n l Hc. pose proof Hc as (v & name & it & -> & -> & _). by apply content_alloc.
Qed.
Next Obligation.
  intros s names n l (v & name & it & -> & -> & _ & V & _ & Hn & _ & ->). split; [done|].
  rewrite length_file_bytes. split; [lia|]. unfold file_bytes. apply List.Forall_map, Forall_true.
  intros x. unfold file_byte. apply byte_at_byte, V.
Qed.
Next Obligation. intros s a names n (v & name & it & -> & -> & Hr & Hs). by eexists _, name, it. Qed.
Next Obligation.
  intros s lv n parts names mode Ha Hn (v & name & it & -> & -> & Hr & Hm) _ Hp.
  destruct parts as [|p [|? ?]]; [done| |done]. injection Hp as Hp. simpl in Ha.
  pose proof Hr as (Hc & Hl & Hnf & Hat).
  destruct (open_ok stack_buf dir_fuel v lv n p name mode it) as (d & fi & q & a' & Ho & Ha' & Hown);
    [done..|].
  eexists _, (Mounted (set_alloc a' v)). unfold fat16_init, open, on_volume. rewrite Ho.
  split; [done|].
  split; [by eexists _, name, it, d, fi, q|]. split; [intros k l; apply content_alloc|].
  split; [|done]. intros k (v' & name' & it' & [= <-] & [= <-] & Hr' & Hs). by eexists _, name, it'.
Qed.
Next Obligation.
  intros s names h n (v & name & it & d & fi & q & -> & -> & Hr & ->)
    (v' & name' & it' & [= <-] & [= <-] & Hr' & <-).
  rewrite (root_file_inj _ _ _ _ Hr' Hr). by eexists.
Qed.
Next Obligation.
  intros s names h n l out buf (v & name & it & d & fi & q & -> & -> & Hr & ->)
    (v' & name' & it' & [= <-] & [= <-] & Hr' & V & Hc & Hn & Hf & ->) Ho Hon.
  rewrite (root_file_inj _ _ _ _ Hr' Hr) in *. clear Hr'.
  destruct (fat16_read_ok stack_buf v (mk_fd d (mk_fat_item fi (FAT_ITEM_TYPE_FILE (Some (q, it)))) 0)
    q it n out buf) as (v' & He & V' & Sv); [done|done|done|done|done|simpl; lia..| |done|done|done|].
  { left. simpl. by rewrite Z.mod_0_l by (pose proof (csize_range v V); lia). }
  exists (Mounted v'). unfold fat16_init, read, on_volume. rewrite He, length_file_bytes.
  split; [done|]. split.
  - eexists v', name, it, d, fi, q. split; [done|]. split; [done|]. split; [|done].
    unfold root_file, names_file in *. by rewrite (sv_root _ _ Sv).
  - apply (sv_alloc _ _ Sv).
Qed.
Next Obligation.
  intros s lv n names h (v & name & it & d & fi & q & -> & -> & _ & ->) Ho Ha.
  destruct (close_file_ok v d fi q it 0 lv n Ha Ho) as (v' & Hc & Ha').
  exists (Mounted v'). unfold fat16_init, close, on_volume. by rewrite Hc.
Qed.

End Laws.
End FatFs.

(** ** The file interface on a concrete disk

    The volume of [FatProps] on the simulated drive, over the kernel heap. *)
Module FatFsProps.
Import FatFs FileFacts FileUse FileProps PathProps Laws HeapProps AtaFacts Sim.

#[local] Existing Instance kheap_alloc.
#[local] Existing Instance kheap_laws.

Definition fat : filesystem (fat_state mem sim) fat_file_descriptor :=
  @fat16_init mem sim (kheap_alloc kheap) (ata_block 1) (replicate 512 0) 0 64 64 1.

#[local] Instance fat_is_spec : FsSpec fat :=
  @fat_spec mem (kheap_alloc kheap) sim (ata_block 1) (ata_block_laws 1) (replicate 512 0) 0 64 64 1.

#[local] Instance fat_is_fs : @FsLaws _ _ _ _ (kheap_laws kheap) _ fat fat_is_spec :=
  @fat_laws _ _ (kheap_laws kheap) _ _ (ata_block_laws 1) (replicate 512 0) 0 64 64 1 eq_refl.

Definition mounted (used : list (option (file_descriptor (fat_state mem sim) fat_file_descriptor)))
    : kernel (fat_state mem sim) fat_file_descriptor :=
  mk_kernel (Mounted (image_vol boot_mem 0x1004000)) [Some fat] used
    (mk_disk 0 DISK_TYPE_REAL 512 (Some fat)).

Lemma hello_file : root_file (image_vol boot_mem 0x1004000) hello_txt hello.
Proof.
  split; [repeat constructor; unfold is_char; lia|]. split; [simpl; lia|]. split; [|done].
  exists 0, [72; 69; 76; 76; 79; 46; 84; 88; 84]. split; [simpl; lia|].
  split; [apply hello_named|]. split; [done|]. intros j Hj Hne. simpl in Hj. lia.
Qed.

Lemma hello_comp : Forall comp [hello_txt].
Proof.
  constructor; [|constructor]. split; [done|].
  repeat constructor; unfold is_char, SLASH; lia.
Qed.

Lemma hello_content :
  @fat_content _ _ _ (ata_block_laws 1) (Mounted (image_vol boot_mem 0x1004000)) [hello_txt] 8
    [1; 2; 3; 4; 5; 6; 7; 8].
Proof.
  eexists _, hello_txt, hello. split; [done|]. split; [done|]. split; [apply hello_file|].
  split; [apply image_ok|]. split; [done|]. split; [done|]. split; [|vm_compute; reflexivity].
  intros k Hk. change (0 <= k <= 0) in Hk. replace k with 0 by lia.
  exists 3. split; [done|]. by apply image_cluster.
Qed.

Lemma fat_negative used : errors_negative (mounted used).
Proof. intros f p m s e s' [= <-]. apply fat16_open_negative. Qed.

Lemma file_session_witness :
  exists k1 k2 k3 ps,
    @fopen _ _ _ (kheap_alloc kheap) _ (path_arg [hello_txt] []) (Some [114; 0])
      (mounted (replicate 512 None)) = Some (1, k1) /\
    fread 0x400000 [9; 9; 9; 9; 9; 9; 9; 9; 9] 8 1 1 k1 = Some (1, [1; 2; 3; 4; 5; 6; 7; 8; 9], k2) /\
    @fclose _ _ _ (kheap_alloc kheap) _ 1 k2 = Some (OK, k3) /\
    file_descriptors k3 = replicate 512 None /\
    length ps = 3%nat /\ owned ∅ ps /\
    heap_live kheap (get_alloc (sys k3)) (add_pages ∅ ps) (25600 - Z.of_nat (length ps)).
Proof.
  refine (@file_session _ _ _ _ (kheap_laws kheap) _ fat fat_is_spec fat_is_fs (mounted (replicate 512 None))
    ∅ 25600 0 [hello_txt] [] 8 [1; 2; 3; 4; 5; 6; 7; 8] 0x400000 [9; 9; 9; 9; 9; 9; 9; 9; 9]
    _ _ hello_comp _ _ _ hello_content _ _ _ _); try done; try (simpl; lia).
  - split; [done|apply kheap_fresh|reflexivity|reflexivity].
  - eexists _, hello_txt, hello. split; [done|]. split; [done|]. split; [apply hello_file|by left].
Defined.

Definition is_some {X} (o : option X) : bool := match o with Some _ => true | None => false end.

(** A table with 511 open descriptors. *)
Definition nearly_full : list (option (file_descriptor (fat_state mem sim) fat_file_descriptor)) :=
  replicate 511 (Some (mk_desc 0x2000000 1 (Some fat) (Some (hello_fd 0x3000)))) ++ [None].

Lemma opens_hello used i :
  free_slot used 0 = Some i -> length used = 512%nat ->
  exists k', @fopen _ _ _ (kheap_alloc kheap) _ (path_arg [hello_txt] []) (Some [114; 0])
      (mounted used) = Some (Z.of_nat i + 1, k').
Proof.
  intros Hs Hl. destruct (@fopen_ok _ _ _ _ (kheap_laws kheap) _ fat fat_is_spec fat_is_fs (mounted used)
    ∅ 25600 i [hello_txt] [] FILE_MODE_READ (Some [114; 0])) as (h & p & s' & ps & Ho & _);
    [|apply hello_comp|done|simpl; lia|done|done| |simpl; lia|by eexists].
  - split; [done|apply kheap_fresh|done|done].
  - eexists _, hello_txt, hello. split; [done|]. split; [done|]. split; [apply hello_file|by left].
Qed.

Lemma fopen_lowest_free_witness :
  exists r k', @fopen _ _ _ (kheap_alloc kheap) _ (path_arg [hello_txt] []) (Some [114; 0])
      (mounted (replicate 512 None)) = Some (r, k') /\ r = 1 /\
    ((r = 0 /\ file_descriptors k' = replicate 512 None) \/
     opened (mounted (replicate 512 None)) k' r).
Proof.
  destruct (opens_hello (replicate 512 None) 0 eq_refl eq_refl) as [k' Hk'].
  exists 1, k'. split; [exact Hk'|]. split; [done|].
  exact (fopen_lowest_free _ _ _ _ _ (fat_negative _) Hk').
Defined.

Lemma descriptor_512_lost_witness :
  exists k', @fopen _ _ _ (kheap_alloc kheap) _ (path_arg [hello_txt] []) (Some [114; 0])
      (mounted nearly_full) = Some (512, k') /\
    @fclose _ _ _ (kheap_alloc kheap) _ 512 k' = Some (- EINVARG, k') /\
    fread 0x400000 [] 8 1 512 k' = Some (- EINVARG, [], k').
Proof.
  destruct (opens_hello nearly_full 511 eq_refl eq_refl) as [k' Hk'].
  exists k'. split; [exact Hk'|].
  destruct (descriptor_512_lost _ _ _ _ (fat_negative _) Hk') as (_ & Hc & _ & Hr).
  split; [exact Hc|]. by apply (Hr 0x400000 [] None 8 1 0 0).
Defined.

(** The kernel before [fs_init], on an empty drive. *)
Definition before_boot : kernel (fat_state mem sim) fat_file_descriptor :=
  mk_kernel (Unmounted boot_mem DiskProps.fresh_disk) [] [] (mk_disk 0 0 0 None).

Lemma descriptor_table_invariant_witness :
  exists k1 k2, fs_init fat before_boot = Some (tt, k1) /\
    disk_search_and_init k1 = Some (tt, k2) /\ table_ok k2.
Proof.
  destruct (fs_init fat before_boot) as [[[] k1]|] eqn:H1; [|done].
  destruct (disk_search_and_init k1) as [[[] k2]|] eqn:H2.
  - exists k1, k2. split; [done|]. split; [done|].
    apply (@descriptor_table_invariant _ _ _ (kheap_alloc kheap) _ fat before_boot k1 k2 k2);
      [|done|done|apply rtc_refl].
    intros p m s e s'. apply fat16_open_negative.
  - exfalso. rewrite fs_init_eq in H1. apply Some_inj, pair_eq in H1 as [_ <-].
    revert H2. assert (forall (X : Type) (o : option X), is_some o = true -> o <> None) as Hs by (by intros ? []).
    apply Hs. vm_compute. reflexivity.
Defined.

End FatFsProps.
