(* ===== verification/Elf.v ===== *)
(** * The ELF loader: elfloader.c and elf.c

    The image of a program file in physical memory, the accessors of its
    headers, the validation and the extent computation of elfloader.c, and
    [elf_load], which reads the file through the descriptor layer.  Headers are
    decoded at their byte offsets; nothing in the source checks that the file
    is long enough to hold them. *)

From S2P Require Import Prelude CLib KAlloc Heap PathParser Fat16 File.
Import Str PathParser Fat16 File.
#[local] Open Scope prog_scope.

Definition PF_W : Z := 0x02.
Definition PT_LOAD : Z := 1.
Definition ET_EXEC : Z := 2.
Definition EI_CLASS : Z := 4.
Definition EI_DATA : Z := 5.
Definition ELFCLASSNONE : Z := 0.
Definition ELFCLASS32 : Z := 1.
Definition ELFDATANONE : Z := 0.
Definition ELFDATA2LSB : Z := 1.
Definition TOYOS_PROGRAM_VIRTUAL_ADDRESS : Z := 0x400000.
Definition elf_signature : list Z := [0x7f; 69; 76; 70].

(** [sizeof(struct elf_file)] *)
Definition sizeof_elf_file : Z := 132.

Module Elf.

Definition load16 (m : mem) (a : Z) : Z := le_val (mread_n m a 2).

(** [struct elf_header] and [struct elf32_phdr]; the fields of type [elf32_off]
    are signed. *)
Record header := mk_header {
  e_ident : list Z; e_type : Z; e_machine : Z; e_version : Z; e_entry : Z; e_phoff : Z;
  e_shoff : Z; e_flags : Z; e_ehsize : Z; e_phentsize : Z; e_phnum : Z; e_shentsize : Z;
  e_shnum : Z; e_shstrndx : Z }.

Record elf32_phdr := mk_phdr {
  p_type : Z; p_offset : Z; p_vaddr : Z; p_paddr : Z; p_filesz : Z; p_memsz : Z;
  p_flags : Z; p_align : Z }.

Definition read_header (m : mem) (h : Z) : header :=
  mk_header (mread_n m h 16) (load16 m (ptr_add h 16)) (load16 m (ptr_add h 18))
    (load32 m (ptr_add h 20)) (load32 m (ptr_add h 24)) (s32 (load32 m (ptr_add h 28)))
    (s32 (load32 m (ptr_add h 32))) (load32 m (ptr_add h 36)) (load16 m (ptr_add h 40))
    (load16 m (ptr_add h 42)) (load16 m (ptr_add h 44)) (load16 m (ptr_add h 46))
    (load16 m (ptr_add h 48)) (load16 m (ptr_add h 50)).

Definition read_phdr (m : mem) (p : Z) : elf32_phdr :=
  mk_phdr (load32 m p) (s32 (load32 m (ptr_add p 4))) (load32 m (ptr_add p 8))
    (load32 m (ptr_add p 12)) (load32 m (ptr_add p 16)) (load32 m (ptr_add p 20))
    (load32 m (ptr_add p 24)) (load32 m (ptr_add p 28)).

(** [struct elf_file]; [filename] and [in_memory_size] are never written. *)
Record elf_file := mk_elf {
  elf_memory : Z; virtual_base_address : Z; virtual_end_address : Z;
  physical_base_address : Z; physical_end_address : Z }.

Definition elf_header (file : elf_file) : Z := elf_memory file.

Definition elf_pheader (m : mem) (header : Z) : Z :=
  if e_phoff (read_header m header) =? 0 then NULL
  else ptr_add header (e_phoff (read_header m header)).

Definition elf_sheader (m : mem) (header : Z) : Z :=
  ptr_add header (e_shoff (read_header m header)).

(** [&elf_pheader(header)[index]]: entries of 32 bytes. *)
Definition elf_program_header (m : mem) (header index : Z) : Z :=
  ptr_add (elf_pheader m header) (32 * index).

Definition elf_section (m : mem) (header index : Z) : Z :=
  ptr_add (elf_sheader m header) (40 * index).

(** [sh_offset] is at byte 16 of a section header. *)
Definition elf_str_table (m : mem) (header : Z) : Z :=
  let shdr := elf_section m header (e_shstrndx (read_header m header)) in
  ptr_add header (s32 (load32 m (ptr_add shdr 16))).

Definition elf_valid_signature (m : mem) (buffer : Z) : bool :=
  bool_decide (Memory.memcmp (mread_n m buffer 4) elf_signature 4 = Some 0).

Definition ident (h : header) (i : Z) : Z := nth (Z.to_nat i) (e_ident h) 0.

Definition elf_valid_class (h : header) : bool :=
  (ident h EI_CLASS =? ELFCLASSNONE) || (ident h EI_CLASS =? ELFCLASS32).

Definition elf_valid_encoding (h : header) : bool :=
  (ident h EI_DATA =? ELFDATANONE) || (ident h EI_DATA =? ELFDATA2LSB).

Definition elf_is_executable (h : header) : bool :=
  (e_type h =? ET_EXEC) && (TOYOS_PROGRAM_VIRTUAL_ADDRESS <=? e_entry h).

Definition elf_has_program_header (h : header) : bool := negb (e_phoff h =? 0).

Definition elf_validate_loaded (m : mem) (header : Z) : Z :=
  let h := read_header m header in
  if elf_valid_signature m header && elf_valid_class h && elf_valid_encoding h &&
     elf_has_program_header h
  then OK else - EINFORMAT.

(** *** The extent of the loadable segments *)

Definition elf_process_phdr_pt_load (f : elf_file) (phdr : elf32_phdr) : elf_file :=
  let f :=
    if (p_vaddr phdr <=? virtual_base_address f) || (virtual_base_address f =? 0x00)
    then mk_elf (elf_memory f) (p_vaddr phdr) (virtual_end_address f)
           (ptr_add (elf_memory f) (p_offset phdr)) (physical_end_address f)
    else f in
  let end_virtual_address := u32 (p_vaddr phdr + p_filesz phdr) in
  if (virtual_end_address f <=? end_virtual_address) || (virtual_end_address f =? 0x00)
  then mk_elf (elf_memory f) (virtual_base_address f) end_virtual_address
         (physical_base_address f)
         (ptr_add (ptr_add (elf_memory f) (p_offset phdr)) (p_filesz phdr))
  else f.

(** The result is always 0. *)
Definition elf_process_pheader (f : elf_file) (phdr : elf32_phdr) : elf_file :=
  if p_type phdr =? PT_LOAD then elf_process_phdr_pt_load f phdr else f.

(** [for (int i = 0; i < header->e_phnum; i++)], [n] iterations left. *)
Fixpoint pheaders_loop (n : nat) (m : mem) (header i : Z) (f : elf_file) : elf_file :=
  match n with
  | O => f
  | S n' =>
    let phdr := read_phdr m (elf_program_header m header i) in
    pheaders_loop n' m header (i + 1) (elf_process_pheader f phdr)
  end.

Definition elf_process_pheaders (m : mem) (f : elf_file) : Z * elf_file :=
  let header := elf_header f in
  (0, pheaders_loop (Z.to_nat (e_phnum (read_header m header))) m header 0 f).

Definition elf_process_loaded (m : mem) (f : elf_file) : Z * elf_file :=
  let res := elf_validate_loaded m (elf_header f) in
  if res <? 0 then (res, f) else elf_process_pheaders m f.

Definition elf_virtual_base (f : elf_file) : Z := virtual_base_address f.
Definition elf_virtual_end (f : elf_file) : Z := virtual_end_address f.
Definition elf_phys_base (f : elf_file) : Z := physical_base_address f.
Definition elf_phys_end (f : elf_file) : Z := physical_end_address f.

Definition elf_phdr_phys_address (f : elf_file) (phdr : elf32_phdr) : Z :=
  ptr_add (elf_memory f) (p_offset phdr).

Definition elf_get_entry_ptr (m : mem) (header : Z) : Z := e_entry (read_header m header).
Definition elf_get_entry (m : mem) (header : Z) : Z := e_entry (read_header m header).

(** *** Loading through the file system *)

Section Load.
Context {S H : Type} `{KAlloc mem} `{HasAlloc mem S}.

Abbreviation K := (M (kernel S H)).

Definition kmem (k : kernel S H) : mem := get_alloc (sys k).

Definition set_kmem (m : mem) (k : kernel S H) : kernel S H := set_sys (put_alloc m (sys k)) k.

(** [fread] into memory: the object at [ptr] is read, passed to the file system
    and stored back. *)
Definition fread_mem (ptr size nmemb fd : Z) : K Z :=
  let! k := get in
  let! (res, bytes) := fread ptr (mread_n (kmem k) ptr (Z.to_nat (size * nmemb))) size nmemb fd in
  modify (fun k => set_kmem (mwrite_n (kmem k) ptr bytes) k) ;!
  ret res.

(** The label [out]: the file is closed, whatever [fd] is. *)
Definition elf_out (fd res : Z) (out : option (Z * elf_file)) : K (Z * option (Z * elf_file)) :=
  let! _ := fclose fd in ret (res, out).

(** From [fstat] on; the result and, on success, [*file_out] with its address. *)
Definition elf_load_fd (addr fd : Z) : K (Z * option (Z * elf_file)) :=
  let! (res, st) := fstat fd in
  if res <? 0 then elf_out fd res None
  else
    let! st := lift st in
    let! memory := vfs_kzalloc (st_filesize st) in
    if addr =? NULL then fault
    else
      let! res := fread_mem memory (st_filesize st) 1 fd in
      if res <? 0 then elf_out fd res None
      else
        let! k := get in
        let '(res, file) := elf_process_loaded (kmem k) (mk_elf memory 0 0 0 0) in
        if res <? 0 then elf_out fd res None
        else elf_out fd res (Some (addr, file)).

Definition elf_load (filename : list Z) : K (Z * option (Z * elf_file)) :=
  let! addr := vfs_kzalloc sizeof_elf_file in
  let! res := fopen filename (Some [114; 0]) in
  if res <=? 0 then elf_out 0 (- EIO) None else elf_load_fd addr res.

(** [None] is the null pointer. *)
Definition elf_close (file : option (Z * elf_file)) : K unit :=
  match file with
  | None => ret tt
  | Some (addr, f) => vfs_kfree (elf_memory f) ;! vfs_kfree addr
  end.

End Load.
End Elf.

(** ** The contents of an ELF file *)

Module ElfFacts.
Import Elf.

Definition sub (l : list Z) (off : Z) (k : nat) : list Z := take k (drop (Z.to_nat off) l).

Definition image_header (l : list Z) : header :=
  mk_header (sub l 0 16) (le_val (sub l 16 2)) (le_val (sub l 18 2)) (le_val (sub l 20 4))
    (le_val (sub l 24 4)) (s32 (le_val (sub l 28 4))) (s32 (le_val (sub l 32 4)))
    (le_val (sub l 36 4)) (le_val (sub l 40 2)) (le_val (sub l 42 2)) (le_val (sub l 44 2))
    (le_val (sub l 46 2)) (le_val (sub l 48 2)) (le_val (sub l 50 2)).

Definition image_phdr (l : list Z) (off : Z) : elf32_phdr :=
  mk_phdr (le_val (sub l off 4)) (s32 (le_val (sub l (off + 4) 4))) (le_val (sub l (off + 8) 4))
    (le_val (sub l (off + 12) 4)) (le_val (sub l (off + 16) 4)) (le_val (sub l (off + 20) 4))
    (le_val (sub l (off + 24) 4)) (le_val (sub l (off + 28) 4)).

Definition image_phdrs (l : list Z) : list elf32_phdr :=
  map (fun i => image_phdr l (e_phoff (image_header l) + 32 * i)) (seqZ 0 (e_phnum (image_header l))).

(** A file that the loader accepts and whose headers lie inside the file. *)
Record image_ok (l : list Z) : Prop := {
  im_len : 52 <= Z.of_nat (length l) < 2 ^ 31;
  im_magic : sub l 0 4 = elf_signature;
  im_class : elf_valid_class (image_header l) = true;
  im_enc : elf_valid_encoding (image_header l) = true;
  im_phoff : 0 < e_phoff (image_header l);
  im_phdrs : e_phoff (image_header l) + 32 * e_phnum (image_header l) <= Z.of_nat (length l)
}.

(** Memory at [p] holds the bytes [l]. *)
Record holds (m : mem) (p : Z) (l : list Z) : Prop := {
  ho_bytes : mread_n m p (length l) = l;
  ho_pos : 0 < p;
  ho_end : p + Z.of_nat (length l) <= 2 ^ 32
}.

Lemma holds_sub m p l off k :
  holds m p l -> 0 <= off -> off + Z.of_nat k <= Z.of_nat (length l) ->
  mread_n m (p + off) k = sub l off k.
Proof.
  intros [Hb Hp He] Ho Hk. unfold sub. rewrite <- Hb.
  rewrite <- mread_n_sub by lia. do 2 f_equal. lia.
Qed.

Lemma holds_lookup m p l i :
  holds m p l -> 0 <= i < Z.of_nat (length l) -> l !! Z.to_nat i = Some (mread m (p + i)).
Proof.
  intros [Hb Hp He] Hi. rewrite <- Hb at 1. rewrite mread_n_lookup by lia. do 3 f_equal. lia.
Qed.

Lemma holds_keep m m' p l :
  holds m p l -> (forall x, p <= x < p + Z.of_nat (length l) -> mread m' x = mread m x) -> holds m' p l.
Proof. intros [Hb Hp He] Hx. split; [|done..]. rewrite <- Hb at 2. by apply mread_n_ext; [lia..|]. Qed.

(** A field of a header inside the file. *)
Local Ltac field := unfold load32, load16; rewrite ?ptr_add_small by lia; erewrite ?holds_sub by (done || lia).

Lemma header_holds m p l :
  holds m p l -> 52 <= Z.of_nat (length l) -> read_header m p = image_header l.
Proof.
  intros Hh Hl. pose proof Hh as [_ Hp He]. unfold read_header, image_header.
  rewrite <- (Z.add_0_r p) at 1. by field.
Qed.

Lemma phdr_holds m p l off :
  holds m p l -> 0 <= off -> off + 32 <= Z.of_nat (length l) ->
  read_phdr m (p + off) = image_phdr l off.
Proof.
  intros Hh Ho Hl. pose proof Hh as [_ Hp He]. unfold read_phdr, image_phdr, load32.
  rewrite !ptr_add_small by lia. rewrite <- !Z.add_assoc. by rewrite !(holds_sub m p l) by (done || lia).
Qed.

(** The program headers in memory. *)
Definition phdrs (m : mem) (header : Z) : list elf32_phdr :=
  map (fun i => read_phdr m (elf_program_header m header i)) (seqZ 0 (e_phnum (read_header m header))).

Lemma phdrs_holds m p l : holds m p l -> image_ok l -> phdrs m p = image_phdrs l.
Proof.
  intros Hh I. pose proof Hh as [_ Hp He]. destruct I as [Hl _ _ _ Ho Hn].
  unfold phdrs, image_phdrs, elf_program_header, elf_pheader. rewrite (header_holds m p l) by (done || lia).
  rewrite (proj2 (Z.eqb_neq _ 0)) by lia. apply List.map_ext_in. intros i Hi.
  apply list_elem_of_In, elem_of_seqZ in Hi.
  rewrite (ptr_add_small p), ptr_add_small, <- Z.add_assoc by lia. by rewrite (phdr_holds m p l) by (done || lia).
Qed.

Lemma pheaders_fold n m header : forall i f,
  pheaders_loop n m header i f
  = foldl elf_process_pheader f
      (map (fun i => read_phdr m (elf_program_header m header i)) (seqZ i (Z.of_nat n))).
Proof.
  induction n as [|n IH]; intros i f; [done|]. rewrite seqZ_cons by lia. simpl. rewrite IH.
  unfold Z.succ, Z.pred. do 3 f_equal; lia.
Qed.

Lemma process_pheaders_fold m f :
  elf_process_pheaders m f = (0, foldl elf_process_pheader f (phdrs m (elf_header f))).
Proof.
  unfold elf_process_pheaders. rewrite pheaders_fold. unfold phdrs.
  destruct (Z_le_gt_dec 0 (e_phnum (read_header m (elf_header f)))) as [Hn|Hn].
  - by rewrite Z2Nat.id.
  - replace (Z.to_nat _) with 0%nat by lia. by rewrite (seqZ_nil 0 (e_phnum _)) by lia.
Qed.

Lemma validate_holds m p l : holds m p l -> image_ok l -> elf_validate_loaded m p = OK.
Proof.
  intros Hh [Hl Hm Hc He Ho Hn]. unfold elf_validate_loaded, elf_valid_signature, elf_has_program_header.
  rewrite (header_holds m p l) by (done || lia).
  pose proof (holds_sub m p l 0 4 Hh ltac:(lia) ltac:(lia)) as Hs. rewrite Z.add_0_r, Hm in Hs.
  rewrite bool_decide_true by (by rewrite Hs). rewrite Hc, He.
  by rewrite (proj2 (Z.eqb_neq _ 0)) by lia.
Qed.

Lemma elf_memory_process f ps : elf_memory (foldl elf_process_pheader f ps) = elf_memory f.
Proof.
  revert f; induction ps as [|p ps IH]; intros f; [done|]. simpl. rewrite IH.
  unfold elf_process_pheader, elf_process_phdr_pt_load. by repeat case_match.
Qed.

(** The ELF file whose image [l] is at [p]. *)
Definition elf_of (p : Z) (l : list Z) : elf_file :=
  foldl elf_process_pheader (mk_elf p 0 0 0 0) (image_phdrs l).

(** The loader on a file image. *)
Lemma process_loaded_holds m p l :
  holds m p l -> image_ok l ->
  elf_process_loaded m (mk_elf p 0 0 0 0) = (0, elf_of p l) /\ elf_memory (elf_of p l) = p.
Proof.
  intros Hh I. unfold elf_process_loaded. cbn [elf_header elf_memory].
  rewrite (validate_holds m p l) by done. change (OK <? 0) with false. cbv iota.
  rewrite process_pheaders_fold. split; [|apply elf_memory_process]. cbn [elf_header elf_memory].
  by rewrite (phdrs_holds m p l).
Qed.

(** *** The extent of the loadable segments *)

Definition loads (ps : list elf32_phdr) : list elf32_phdr := filter (fun p => p_type p = PT_LOAD) ps.

Definition seg_end (p : elf32_phdr) : Z := u32 (p_vaddr p + p_filesz p).

(** The lowest address and the highest end, with the physical addresses of the
    segments that have them. *)
Record extent (f : elf_file) (ps : list elf32_phdr) : Prop := {
  ex_base : exists p, p ∈ ps /\ virtual_base_address f = p_vaddr p /\
    physical_base_address f = ptr_add (elf_memory f) (p_offset p);
  ex_low : forall p, p ∈ ps -> virtual_base_address f <= p_vaddr p;
  ex_end : exists p, p ∈ ps /\ virtual_end_address f = seg_end p /\
    physical_end_address f = ptr_add (ptr_add (elf_memory f) (p_offset p)) (p_filesz p);
  ex_high : forall p, p ∈ ps -> seg_end p <= virtual_end_address f
}.

Lemma process_loads f ps :
  foldl elf_process_pheader f ps = foldl elf_process_phdr_pt_load f (loads ps).
Proof.
  revert f; induction ps as [|p ps IH]; intros f; [done|]. unfold loads. simpl. unfold elf_process_pheader at 2.
  rewrite IH. destruct (Z.eqb_spec (p_type p) PT_LOAD) as [He|He].
  - by rewrite filter_cons_True.
  - by rewrite filter_cons_False.
Qed.

Lemma extent_first mm p :
  extent (elf_process_phdr_pt_load (mk_elf mm 0 0 0 0) p) [p].
Proof.
  unfold elf_process_phdr_pt_load.
  cbn [virtual_base_address virtual_end_address physical_base_address physical_end_address elf_memory].
  change (0 =? 0) with true. rewrite orb_true_r.
  cbn [virtual_base_address virtual_end_address physical_base_address physical_end_address elf_memory].
  change (0 =? 0) with true. rewrite orb_true_r.
  split; cbn; try (exists p; split; [by left|done]); by intros q ->%list_elem_of_singleton.
Qed.

Lemma extent_snoc f ps p :
  extent f ps -> 0 < virtual_base_address f -> 0 < virtual_end_address f -> 0 < p_vaddr p ->
  0 < seg_end p ->
  extent (elf_process_phdr_pt_load f p) (ps ++ [p]).
Proof.
  intros [(b & Hb & Hbv & Hbp) Hlow (e & He & Hev & Hep) Hhigh] H0 H1 Hv Hs.
  unfold elf_process_phdr_pt_load. fold (seg_end p).
  rewrite (proj2 (Z.eqb_neq (virtual_base_address f) 0)), orb_false_r by lia.
  assert (forall g, 0 < virtual_end_address g -> (virtual_end_address g =? 0) = false) as Hne.
  { intros g Hg. apply Z.eqb_neq. lia. }
  destruct (Z.leb_spec (p_vaddr p) (virtual_base_address f));
    cbn [virtual_end_address]; rewrite Hne, orb_false_r by done;
    destruct (Z.leb_spec (virtual_end_address f) (seg_end p)); split; cbn;
    try (exists p; split; [apply elem_of_app; right; by left|done]);
    try (exists b; split; [apply elem_of_app; by left|done]);
    try (exists e; split; [apply elem_of_app; by left|done]);
    intros q Hq; apply elem_of_app in Hq as [Hq|Hq];
    try (apply list_elem_of_singleton in Hq; subst q; lia);
    pose proof (Hlow q Hq); pose proof (Hhigh q Hq); lia.
Qed.

Lemma extent_loads mm ps :
  ps <> [] -> Forall (fun p => 0 < p_vaddr p /\ 0 < seg_end p) ps ->
  extent (foldl elf_process_phdr_pt_load (mk_elf mm 0 0 0 0) ps) ps.
Proof.
  induction ps as [|p ps IH] using rev_ind; [done|]. intros _ [Hps Hp]%Forall_app.
  apply Forall_cons in Hp as [[Hv Hs] _]. rewrite foldl_app. simpl.
  destruct (decide (ps = [])) as [->|Hne]; [apply extent_first|].
  specialize (IH Hne Hps). rewrite Forall_forall in Hps. apply extent_snoc; [done| | |done|done].
  - destruct (ex_base _ _ IH) as (b & Hb & -> & _). by apply Hps.
  - destruct (ex_end _ _ IH) as (e & He & -> & _). by apply Hps.
Qed.

End ElfFacts.

(** ** Loading a program file *)

Module ElfUse.
Import Elf ElfFacts FileFacts FileUse PathFacts PathProps.

Section Use.
Context {S H : Type} {KA : KAlloc mem} {KL : KAllocLaws mem} {KM : KAllocMem} {KR : KAllocRoom mem}.
Context `{HasAlloc mem S} (f : filesystem S H) {FP : FsSpec f}.
Context (FL : forall L : KAllocLaws mem, FsLaws f).

Abbreviation krn := (kernel S H).

(** The file interface with every allocation in the frame. *)
Lemma ready_framed (k : krn) lv n i :
  ready f k lv n i -> @ready _ _ _ _ (framed (kmem k) lv) _ f k ∅ n i.
Proof.
  intros [Hf Ha Hs Hl]. split; [done| |done|done]. split; [apply map_disjoint_empty_l|].
  split; [by rewrite map_empty_union|apply keeps_refl].
Qed.

Lemma fopen_frame (k : krn) lv n i names rest :
  ready f k lv n i -> Forall comp names -> names <> [] -> (length (join names) <= 105)%nat ->
  fl_opens (sys k) names FILE_MODE_READ ->
  2 * Z.of_nat (length (join names)) + 4 + fl_need <= n ->
  exists h p s' ps,
    fopen (path_arg names rest) (Some [114; 0]) k = Some (Z.of_nat i + 1,
      mk_kernel s' (filesystems k)
        (<[i := Some (mk_desc p (Z.of_nat i + 1) (Some f) (Some h))]> (file_descriptors k)) (kdisk k)) /\
    fl_file s' names h /\ (forall c l, fl_content (sys k) names c l -> fl_content s' names c l) /\
    (forall c, fl_size (sys k) names c -> fl_size s' names c) /\
    length ps = (2 * length names + 1)%nat /\ owned lv (ps ++ fl_blocks h ++ [p]) /\
    Z.of_nat (length (ps ++ fl_blocks h ++ [p])) <= 2 * Z.of_nat (length (join names)) + 2 + fl_need /\
    ka_live (get_alloc s') (add_pages lv (ps ++ fl_blocks h ++ [p]))
      (n - Z.of_nat (length (ps ++ fl_blocks h ++ [p]))) /\
    keeps lv (kmem k) (get_alloc s').
Proof.
  intros R Hc Hne Hl Hop Hn. pose proof (join_length names Hc) as Hjl.
  destruct (@fopen_ok _ _ _ _ (framed (kmem k) lv) _ f _ (FL _) k ∅ n i names rest FILE_MODE_READ (Some [114; 0])
    (ready_framed k lv n i R) Hc Hne Hl eq_refl) as (h & p & s' & ps & Ho & Hf & Hct & Hsz & Hps & Hown & Ha);
    [done|done|done|].
  destruct Ha as (Hd & Ha & Hk). rewrite add_pages_union in Ha.
  exists h, p, s', ps. repeat (split; [done|]). split; [|split; [|done]].
  - destruct Hown as [Hnd _]. split; [done|]. apply Forall_forall. intros t Ht.
    apply (map_disjoint_Some_l _ _ t 1 Hd). by rewrite lookup_add_pages, decide_True.
  - pose proof (@fl_blocks_need _ _ _ _ _ _ f _ (FL _) _ _ _ Hf). rewrite !length_app, Hps. simpl. lia.
Qed.

Lemma fclose_frame (k : krn) i p h names lv n :
  (i < 511)%nat ->
  file_descriptors k !! i = Some (Some (mk_desc p (Z.of_nat i + 1) (Some f) (Some h))) ->
  fl_file (sys k) names h -> owned lv (fl_blocks h ++ [p]) ->
  ka_live (kmem k) (add_pages lv (fl_blocks h ++ [p])) (n - Z.of_nat (length (fl_blocks h ++ [p]))) ->
  exists s', fclose (Z.of_nat i + 1) k
      = Some (OK, mk_kernel s' (filesystems k) (<[i := None]> (file_descriptors k)) (kdisk k)) /\
    ka_live (get_alloc s') lv n /\ keeps lv (kmem k) (get_alloc s').
Proof.
  intros Hi Hd Hf Hown Ha.
  destruct (@fclose_ok _ _ _ _ (framed (kmem k) lv) _ f _ (FL _) k i p h names ∅ n Hi Hd Hf)
    as (s' & Hc & _ & Ha' & Hk).
  - destruct Hown as [Hnd _]. split; [done|]. apply Forall_forall. intros t _. apply lookup_empty.
  - split; [by apply owned_disjoint|]. rewrite add_pages_union. split; [done|apply keeps_refl].
  - exists s'. rewrite map_empty_union in Ha'. done.
Qed.

Lemma fread_mem_ok (k : krn) i p h names c l ptr lv n b :
  (i < 511)%nat ->
  file_descriptors k !! i = Some (Some (mk_desc p (Z.of_nat i + 1) (Some f) (Some h))) ->
  fl_file (sys k) names h -> fl_content (sys k) names c l ->
  ka_live (kmem k) lv n -> lv !! ptr = Some b -> c <= b * 4096 ->
  exists s', fread_mem ptr c 1 (Z.of_nat i + 1) k = Some (1, set_sys s' k) /\
    fl_file s' names h /\ ka_live (get_alloc s') lv n /\ holds (get_alloc s') ptr l /\
    keeps (delete ptr lv) (kmem k) (get_alloc s').
Proof.
  intros Hi Hd Hf Hc Ha Hp Hcb. destruct (ka_range _ _ _ _ _ Ha Hp) as (Hp0 & Hp1 & Hp2).
  destruct (@fl_content_bytes _ _ _ _ _ _ f _ (FL _) _ _ _ _ Hc) as (Hcp & Hlen & Hby).
  destruct (@fread_ok _ _ _ _ _ _ f _ (FL _) k i p h names c l ptr
    (mread_n (kmem k) ptr (Z.to_nat (c * 1))) Hi Hd Hf Hc) as (s' & Hr & Hf' & Hal); [lia..|].
  exists (put_alloc (mwrite_n (get_alloc s') ptr l) s'). unfold fread_mem, bind at 1, get.
  rewrite (bind_Some _ _ _ _ _ Hr). rewrite drop_ge by (rewrite length_mread_n; lia).
  rewrite app_nil_r. split; [done|]. rewrite (@fl_get_put _ _ _ _ _ _ f _ (FL _)), Hal.
  split; [by apply (@fl_file_put _ _ _ _ _ _ f _ (FL _))|].
  split; [by eapply kam_write_n; [done..|lia|lia]|]. split.
  - split; [apply mread_n_mwrite_n; [lia..|done]|lia|lia].
  - intros q j x [Hne Hq]%lookup_delete_Some Hx. unfold kmem. rewrite mread_mwrite_n by lia.
    rewrite decide_False; [done|].
    destruct (ka_disjoint _ _ _ ptr b q j Ha Hp Hq); [congruence|lia..].
Qed.

(** The blocks [elf_load] needs beside the memory for the file. *)
Definition elf_blocks (names : list (list Z)) : Z := 2 * Z.of_nat (length (join names)) + 5 + fl_need.

Lemma zalloc_room (k : krn) lv n size :
  ka_live (kmem k) lv n -> size_ok size -> (nblocks size - 1) * (Z.of_nat (stdpp.base.size lv) + 1) < n ->
  exists p m', vfs_kzalloc size k = Some (p, set_kmem m' k) /\ p <> NULL /\ p mod 4096 = 0 /\
    lv !! p = None /\ ka_live m' (<[p := nblocks size]> lv) (n - nblocks size) /\ keeps lv (kmem k) m' /\
    (forall x, p <= x < p + size -> mread m' x = 0).
Proof.
  intros Ha Hs Hr. unfold vfs_kzalloc. fold (kmem k). destruct (ka_zalloc (kmem k) size) as [p m'] eqn:Hz.
  pose proof (ka_room _ _ _ _ _ _ Ha Hs Hr Hz) as Hp.
  destruct (ka_zalloc_spec _ _ _ _ _ _ Ha Hs Hz) as [[? _]|(_ & Hal & Hf & Ha')]; [done|].
  exists p, m'. repeat (split; [done|]). split.
  - intros q j x Hq. by eapply kam_frame.
  - intros x Hx. exact (kam_zero _ _ _ _ _ _ Ha Hs Hz Hp x Hx).
Qed.

Lemma elf_load_fd_ok (k : krn) lv n i p h names c l addr :
  (i < 511)%nat ->
  file_descriptors k !! i = Some (Some (mk_desc p (Z.of_nat i + 1) (Some f) (Some h))) ->
  fl_file (sys k) names h -> fl_content (sys k) names c l -> fl_size (sys k) names c -> image_ok l ->
  owned lv (fl_blocks h ++ [p]) -> addr <> NULL ->
  ka_live (kmem k) (add_pages lv (fl_blocks h ++ [p])) (n - Z.of_nat (length (fl_blocks h ++ [p]))) ->
  (nblocks c - 1) * (Z.of_nat (size lv + length (fl_blocks h ++ [p])) + 1)
    < n - Z.of_nat (length (fl_blocks h ++ [p])) ->
  exists file s', elf_load_fd addr (Z.of_nat i + 1) k = Some ((0, Some (addr, file)),
      mk_kernel s' (filesystems k) (<[i := None]> (file_descriptors k)) (kdisk k)) /\
    holds (get_alloc s') (elf_memory file) l /\ keeps lv (kmem k) (get_alloc s') /\
    file = elf_of (elf_memory file) l /\ lv !! elf_memory file = None /\ elf_memory file mod 4096 = 0 /\
    ka_live (get_alloc s') (<[elf_memory file := nblocks c]> lv) (n - nblocks c).
Proof.
  intros Hi Hd Hf Hct Hsz I Hown Hadr Ha Hr. set (qs := fl_blocks h ++ [p]) in *.
  destruct (@fl_content_bytes _ _ _ _ _ _ f _ (FL _) _ _ _ _ Hct) as (Hcp & Hlen & _).
  destruct (@fstat_ok _ _ _ _ _ _ f _ (FL _) k i p h names c Hi Hd Hf Hsz) as [flags Hst].
  assert (size_ok c /\ 0 < nblocks c /\ c <= nblocks c * 4096) as (Hok & Hb & Hcb)
    by (unfold size_ok, nblocks; zlia).
  destruct (zalloc_room k _ _ c Ha Hok) as (memory & m3 & He3 & Hm0 & Hm4 & Hm & Ha3 & Hk3 & _).
  { pose proof (size_add_pages lv qs).
    assert ((nblocks c - 1) * (Z.of_nat (size (add_pages lv qs)) + 1)
      <= (nblocks c - 1) * (Z.of_nat (size lv + length qs) + 1)) by (apply Z.mul_le_mono_nonneg_l; lia). lia. }
  set (k3 := set_kmem m3 k) in *.
  assert (kmem k3 = m3) as Hkm by apply (@fl_get_put _ _ _ _ _ _ f _ (FL _)).
  rewrite <- Hkm in Ha3.
  destruct (fread_mem_ok k3 i p h names c l memory (<[memory := nblocks c]> (add_pages lv qs))
    (n - Z.of_nat (length qs) - nblocks c) (nblocks c) Hi Hd) as (s4 & He4 & Hf4 & Ha4 & Hh4 & Hk4);
    [by apply (@fl_file_put _ _ _ _ _ _ f _ (FL _))|by apply (@fl_content_put _ _ _ _ _ _ f _ (FL _))|done|
     apply lookup_insert_eq|done|].
  rewrite lookup_add_pages in Hm. case_decide as Hmq; [done|].
  destruct (process_loaded_holds _ _ _ Hh4 I) as [Hpl Hfm].
  remember (elf_of memory l) as file eqn:Hfo.
  destruct (fclose_frame (set_sys s4 k3) i p h names (<[memory := nblocks c]> lv) (n - nblocks c) Hi Hd Hf4)
    as (s5 & He5 & Ha5 & Hk5).
  { destruct Hown as [Hnd Ho]. split; [done|]. rewrite Forall_forall in Ho |- *. intros t Ht.
    rewrite lookup_insert_ne; [by apply Ho|by intros ->]. }
  { rewrite add_pages_insert by done. fold qs.
    by replace (n - nblocks c - Z.of_nat (length qs)) with (n - Z.of_nat (length qs) - nblocks c) by lia. }
  change (kmem (set_sys s4 k3)) with (get_alloc s4) in Hk5. rewrite <- Hfm in *.
  exists file, s5. split; [|split; [|split; [|done]]].
  - unfold elf_load_fd. rewrite (bind_Some _ _ _ _ _ Hst). change (OK <? 0) with false. cbv iota.
    unfold bind at 1, lift. rewrite (bind_Some _ _ _ _ _ He3). fold k3.
    rewrite (proj2 (Z.eqb_neq _ NULL)) by done. cbn [st_filesize]. rewrite (bind_Some _ _ _ _ _ He4).
    change (1 <? 0) with false. cbv iota. unfold bind at 1, get.
    change (kmem (set_sys s4 k3)) with (get_alloc s4). rewrite Hpl. change (0 <? 0) with false. cbv iota.
    unfold elf_out. by rewrite (bind_Some _ _ _ _ _ He5).
  - eapply holds_keep; [done|]. intros x Hx. eapply (Hk5 _ (nblocks c)); [apply lookup_insert_eq|lia].
  - eapply keeps_trans; [|eapply keeps_sub; [|exact Hk5]; by apply insert_subseteq].
    eapply keeps_trans; [eapply keeps_sub; [|exact Hk3]|rewrite Hkm in Hk4; eapply keeps_sub; [|exact Hk4]].
    + rewrite <- add_pages_union. apply map_union_subseteq_r. by apply owned_disjoint.
    + rewrite delete_insert_id by (by rewrite lookup_add_pages, decide_False).
      rewrite <- add_pages_union. apply map_union_subseteq_r. by apply owned_disjoint.
Qed.

Lemma elf_load_ok (k : krn) lv n i names rest c l :
  ready f k lv n i -> (i < 511)%nat -> Forall comp names -> names <> [] ->
  (length (join names) <= 105)%nat ->
  fl_opens (sys k) names FILE_MODE_READ -> fl_content (sys k) names c l -> fl_size (sys k) names c ->
  image_ok l ->
  (nblocks c - 1) * (Z.of_nat (size lv) + elf_blocks names) + elf_blocks names <= n ->
  exists addr file s' ps,
    elf_load (path_arg names rest) k = Some ((0, Some (addr, file)), set_sys s' k) /\
    holds (get_alloc s') (elf_memory file) l /\ keeps lv (kmem k) (get_alloc s') /\
    length ps = (2 * length names + 1)%nat /\ owned lv (addr :: ps) /\
    file = elf_of (elf_memory file) l /\
    add_pages lv (addr :: ps) !! elf_memory file = None /\ elf_memory file mod 4096 = 0 /\
    ka_live (get_alloc s') (<[elf_memory file := nblocks c]> (add_pages lv (addr :: ps)))
      (n - Z.of_nat (length (addr :: ps)) - nblocks c).
Proof.
  intros R Hi Hc Hne Hl Hop Hct Hsz I Hn. unfold elf_blocks in Hn.
  pose proof (@fl_need_pos _ _ _ _ _ _ f _ (FL _)) as Hnp.
  destruct (@fl_content_bytes _ _ _ _ _ _ f _ (FL _) _ _ _ _ Hct) as (Hcp & Hlen & _).
  assert (0 < nblocks c) as Hb by (unfold nblocks; zlia).
  set (B := 2 * Z.of_nat (length (join names)) + 5 + fl_need) in *.
  assert (0 <= (nblocks c - 1) * (Z.of_nat (size lv) + B)) as Hpos by (apply Z.mul_nonneg_nonneg; lia).
  destruct (zalloc_room k lv n sizeof_elf_file (r_live _ _ _ _ _ R)) as
    (addr & m1 & He1 & Ha0 & _ & Hf1 & Ha1 & Hk1 & _); [unfold size_ok, sizeof_elf_file; lia|
    change (nblocks sizeof_elf_file) with 1; lia|].
  change (nblocks sizeof_elf_file) with 1 in Ha1. set (k1 := set_kmem m1 k) in *.
  assert (kmem k1 = m1) as Hkm by apply (@fl_get_put _ _ _ _ _ _ f _ (FL _)).
  assert (ready f k1 (<[addr := 1]> lv) (n - 1) i) as R1 by (destruct R; split; [done|by rewrite <- Hkm in Ha1|done|done]).
  destruct (fopen_frame k1 _ _ i names rest R1 Hc Hne Hl) as
    (h & p & s2 & ps & He2 & Hf2 & Hct2 & Hsz2 & Hps & Hown & Hlq & Ha2 & Hk2);
    [by apply (@fl_opens_put _ _ _ _ _ _ f _ (FL _))|lia|].
  set (k2 := mk_kernel s2 _ _ _) in He2. apply owned_app_inv in Hown as [Ho1 Ho2].
  change (add_pages (<[addr := 1]> lv) ps) with (add_pages lv (addr :: ps)) in Ho2.
  rewrite length_app in Hlq, Ha2. rewrite add_pages_app in Ha2.
  change (add_pages (<[addr := 1]> lv) ps) with (add_pages lv (addr :: ps)) in Ha2.
  pose proof (free_slot_Some _ _ _ (r_slot _ _ _ _ _ R)) as (_ & Hslot & _). rewrite Nat.sub_0_r in Hslot.
  pose proof (lookup_lt_Some _ _ _ Hslot) as Hlt. pose proof (size_add_pages lv (addr :: ps)) as Hsp.
  destruct (elf_load_fd_ok k2 (add_pages lv (addr :: ps)) (n - 1 - Z.of_nat (length ps)) i p h names c l addr Hi)
    as (file & s' & He3 & Hh & Hk3 & Hfo & Hm & Hm4 & Ha3); try done.
  - cbn. by rewrite list_lookup_insert_eq.
  - apply Hct2. by apply (@fl_content_put _ _ _ _ _ _ f _ (FL _)).
  - apply Hsz2. by apply (@fl_size_put _ _ _ _ _ _ f _ (FL _)).
  - match goal with |- ka_live _ _ ?x => match type of Ha2 with ka_live _ _ ?y => by replace x with y by lia end end.
  - assert ((nblocks c - 1) * (Z.of_nat (size (add_pages lv (addr :: ps)) + length (fl_blocks h ++ [p])) + 1)
      <= (nblocks c - 1) * (Z.of_nat (size lv) + B)); [|lia].
    apply Z.mul_le_mono_nonneg_l; [lia|]. simpl length in Hsp. lia.
  - exists addr, file, s', ps. split; [|split; [done|split; [|split; [done|split; [|split; [done|split; [done|split; [done|]]]]]]]].
    + unfold elf_load. rewrite (bind_Some _ _ _ _ _ He1). fold k1. rewrite (bind_Some _ _ _ _ _ He2). fold k2.
      rewrite (proj2 (Z.leb_gt _ 0)) by lia. rewrite He3. cbn.
      rewrite list_insert_insert_eq, list_insert_id by done. by destruct k.
    + eapply keeps_trans; [exact Hk1|]. rewrite <- Hkm.
      eapply keeps_trans; [eapply keeps_sub, Hk2; by apply insert_subseteq|].
      eapply keeps_sub, Hk3. rewrite <- add_pages_union. apply map_union_subseteq_r, owned_disjoint.
      apply (owned_app lv [addr] ps); [|done]. split; [apply NoDup_singleton|by repeat constructor].
    + apply (owned_app lv [addr] ps); [|done]. split; [apply NoDup_singleton|by repeat constructor].
    + match goal with |- ka_live _ _ ?x => match type of Ha3 with ka_live _ _ ?y =>
        replace x with y by (simpl length; lia) end end. done.
Qed.

End Use.
End ElfUse.
