(* ===== verification/Task.v ===== *)
(** * Tasks: task.c, kernel_page of kernel.c

    [struct task] and [struct process] live on the kernel heap: the state maps
    the addresses of the live objects to their contents, so that a freed object
    is no longer there and using it faults ([None]).  Page directories are in
    physical memory.  [panick] does not return: it is [None] too.  Code that
    runs on the page tables of a task reads and writes through the page walk of
    Paging.v; the processor does not check write access in kernel mode.
    The segment registers ([user_registers], [kernel_registers]) are left out. *)

From S2P Require Import Prelude CLib KAlloc Heap Paging PathParser Fat16 File Elf.
Import Paging Mmu File Elf.
#[local] Open Scope prog_scope.

Definition TOYOS_PROGRAM_VIRTUAL_STACK_ADDRESS_START : Z := 0x3ff000.
Definition TOYOS_USER_DATA_SEGMENT : Z := 0x23.
Definition TOYOS_USER_CODE_SEGMENT : Z := 0x1b.

(** [sizeof(struct task)] *)
Definition sizeof_task : Z := 64.

Module Task.

Record registers := mk_regs {
  edi : Z; esi : Z; ebp : Z; ebx : Z; edx : Z; ecx : Z; eax : Z;
  ip : Z; cs : Z; flags : Z; esp : Z; ss : Z }.

Definition zero_regs : registers := mk_regs 0 0 0 0 0 0 0 0 0 0 0 0.

(** [struct interrupt_frame] of idt.h *)
Record interrupt_frame := mk_frame {
  f_edi : Z; f_esi : Z; f_ebp : Z; f_reserved : Z; f_ebx : Z; f_edx : Z; f_ecx : Z; f_eax : Z;
  f_ip : Z; f_cs : Z; f_flags : Z; f_esp : Z; f_ss : Z }.

Record task := mk_task {
  page_directory : Z; regs : registers; process_of : Z; next : Z; prev : Z }.

(** The program of a process: [filetype] and the union of [ptr] and [elf_file].
    A zeroed process is an ELF process without a file. *)
Inductive program :=
| PROCESS_FILETYPE_ELF (elf_file : option (Z * elf_file))
| PROCESS_FILETYPE_BINARY (ptr : Z).

Record keyboard_buffer := mk_kb { kb_buffer : list Z; kb_tail : Z; kb_head : Z }.

Record process := mk_process {
  p_id : Z; p_filename : list Z; p_task : Z; allocations : list (Z * Z); p_stack : Z;
  p_size : Z; keyboard : keyboard_buffer; p_program : program; argc : Z; argv : Z }.

(** The scheduler's list and the process table. *)
Record sched := mk_sched { tasks : gmap Z task; current_task : Z; task_head : Z; task_tail : Z }.

Record ptable := mk_ptable { procs : gmap Z process; processes : list Z; current_process : Z }.

Record os (S H : Type) := mk_os {
  o_k : kernel S H; o_pg : paging_state; kernel_chunk : Z; o_sched : sched; o_procs : ptable }.

Arguments mk_os {S H}.
Arguments o_k {S H}.
Arguments o_pg {S H}.
Arguments kernel_chunk {S H}.
Arguments o_sched {S H}.
Arguments o_procs {S H}.

(** *** The linked list *)

Section List.

Abbreviation L := (M sched).

Definition get_task (p : Z) : L task := fun s =>
  match tasks s !! p with Some t => Some (t, s) | None => None end.

Definition put_task (p : Z) (t : task) : L unit :=
  modify (fun s => mk_sched (<[p := t]> (tasks s)) (current_task s) (task_head s) (task_tail s)).

Definition with_next (n : Z) (t : task) : task :=
  mk_task (page_directory t) (regs t) (process_of t) n (prev t).

Definition with_prev (n : Z) (t : task) : task :=
  mk_task (page_directory t) (regs t) (process_of t) (next t) n.

Definition set_next (p n : Z) : L unit := let! t := get_task p in put_task p (with_next n t).

Definition set_prev (p n : Z) : L unit := let! t := get_task p in put_task p (with_prev n t).

Definition set_current (p : Z) : L unit :=
  modify (fun s => mk_sched (tasks s) p (task_head s) (task_tail s)).

Definition set_head (p : Z) : L unit :=
  modify (fun s => mk_sched (tasks s) (current_task s) p (task_tail s)).

Definition set_tail (p : Z) : L unit :=
  modify (fun s => mk_sched (tasks s) (current_task s) (task_head s) p).

Definition when (b : bool) (m : L unit) : L unit := if b then m else ret tt.

Definition task_list_remove (task : Z) : L unit :=
  if task =? NULL then ret tt
  else
    let! s := get in
    let! t := get_task task in
    let next_task :=
      if task =? current_task s
      then (if negb (next t =? NULL) then next t else task_head s) else NULL in
    when (negb (prev t =? NULL)) (set_next (prev t) (next t)) ;!
    let! t := get_task task in
    when (negb (next t =? NULL)) (set_prev (next t) (prev t)) ;!
    let! t := get_task task in
    when (task =? task_head s) (set_head (next t)) ;!
    when (task =? task_tail s) (set_tail (prev t)) ;!
    when (task =? current_task s) (set_current next_task).

Definition task_current : L Z := let! s := get in ret (current_task s).

(** The end of [task_new]: the new task is linked in. *)
Definition task_link (task : Z) : L unit :=
  let! s := get in
  if task_head s =? NULL
  then set_head task ;! set_tail task ;! set_current task
  else set_next (task_tail s) task ;! set_prev task (task_tail s) ;! set_tail task.

Definition task_get_next : L Z :=
  let! s := get in
  let! t := get_task (current_task s) in
  if next t =? NULL then ret (task_head s) else ret (next t).

(** *** Saving and restoring registers *)

Definition frame_regs (frame : interrupt_frame) : registers :=
  mk_regs (f_edi frame) (f_esi frame) (f_ebp frame) (f_ebx frame) (f_edx frame) (f_ecx frame)
    (f_eax frame) (f_ip frame) (f_cs frame) (f_flags frame) (f_esp frame) (f_ss frame).

(** [None] is a null pointer. *)
Definition task_save_state (task : Z) (frame : option interrupt_frame) : L unit :=
  match frame with
  | None => ret tt
  | Some frame =>
    if task =? NULL then ret tt
    else
      let! t := get_task task in
      put_task task (mk_task (page_directory t) (frame_regs frame) (process_of t) (next t) (prev t))
  end.

Definition task_current_save_state (frame : option interrupt_frame) : L unit :=
  let! task := task_current in
  if task =? NULL then fault else task_save_state task frame.

End List.

(** [task_return]: the registers the processor continues with; EFLAGS are those
    of the kernel with interrupts enabled, not the saved ones. *)
Definition task_return (eflags : Z) (r : registers) : registers :=
  mk_regs (edi r) (esi r) (ebp r) (ebx r) (edx r) (ecx r) (eax r) (ip r) (cs r)
    (Z.lor eflags 0x200) (esp r) (ss r).

(** *** Virtual memory *)

Definition vread (m : mem) (dir va : Z) : option Z :=
  '(pa, _) ← translate m dir (u32 va); Some (mread m pa).

Definition vwrite (m : mem) (dir va v : Z) : option mem :=
  '(pa, _) ← translate m dir (u32 va); Some (mwrite m pa v).

Definition vload32 (m : mem) (dir va : Z) : option Z :=
  b0 ← vread m dir va; b1 ← vread m dir (va + 1);
  b2 ← vread m dir (va + 2); b3 ← vread m dir (va + 3);
  Some (le_val [b0; b1; b2; b3]).

(** [strncpy] on virtual addresses, [k] iterations left. *)
Fixpoint vstrncpy_loop (k : nat) (m : mem) (dir dest src i : Z) : option (mem * Z) :=
  match k with
  | O => Some (m, i)
  | S k' =>
    c ← vread m dir (src + i);
    if c =? 0 then Some (m, i)
    else m ← vwrite m dir (dest + i) c; vstrncpy_loop k' m dir dest src (i + 1)
  end.

Definition vstrncpy (m : mem) (dir dest src n : Z) : option mem :=
  '(m, i) ← vstrncpy_loop (Z.to_nat (n - 1)) m dir dest src 0;
  vwrite m dir (dest + i) 0.

Section Ops.
Context {S H : Type} `{KAlloc mem} `{HasAlloc mem S}.

Abbreviation O := (M (os S H)).

(** *** Access to the parts of the state *)

Definition set_k (k : kernel S H) (s : os S H) : os S H :=
  mk_os k (o_pg s) (kernel_chunk s) (o_sched s) (o_procs s).

Definition set_pg (g : paging_state) (s : os S H) : os S H :=
  mk_os (o_k s) g (kernel_chunk s) (o_sched s) (o_procs s).

Definition set_sched (c : sched) (s : os S H) : os S H :=
  mk_os (o_k s) (o_pg s) (kernel_chunk s) c (o_procs s).

Definition set_procs (p : ptable) (s : os S H) : os S H :=
  mk_os (o_k s) (o_pg s) (kernel_chunk s) (o_sched s) p.

Definition omem (s : os S H) : mem := kmem (o_k s).

Definition set_omem (m : mem) (s : os S H) : os S H := set_k (set_kmem m (o_k s)) s.

Definition on_k {B} (x : M (kernel S H) B) : O B := fun s =>
  match x (o_k s) with Some (r, k) => Some (r, set_k k s) | None => None end.

Definition on_sched {B} (x : M sched B) : O B := fun s =>
  match x (o_sched s) with Some (r, c) => Some (r, set_sched c s) | None => None end.

Definition on_mem {B} (x : mem -> B * mem) : O B := fun s =>
  let '(r, m) := x (omem s) in Some (r, set_omem m s).

Definition task_kzalloc (size : Z) : O Z := on_mem (fun m => ka_zalloc m size).

Definition task_kfree (p : Z) : O unit := on_mem (fun m => (tt, ka_free m p)).

Definition switch (chunk : Z) : O unit :=
  modify (fun s => set_pg (paging_switch (omem s) chunk (o_pg s)) s).

Definition kernel_page : O unit := let! s := get in switch (kernel_chunk s).

Definition get_process (p : Z) : O process := fun s =>
  match procs (o_procs s) !! p with Some x => Some (x, s) | None => None end.

(** *** Creating and freeing tasks *)

(** [filetype == PROCESS_FILETYPE_ELF ? elf_header(elf_file)->e_entry : ...];
    a null [elf_file] is dereferenced. *)
Definition entry_point (m : mem) (p : process) : option Z :=
  match p_program p with
  | PROCESS_FILETYPE_BINARY _ => Some TOYOS_PROGRAM_VIRTUAL_ADDRESS
  | PROCESS_FILETYPE_ELF None => None
  | PROCESS_FILETYPE_ELF (Some (_, f)) => Some (e_entry (read_header m (elf_header f)))
  end.

Definition task_init (task process : Z) : O Z :=
  if (task =? NULL) || (process =? NULL) then ret (- EINVARG)
  else
    on_sched (put_task task (mk_task NULL zero_regs NULL NULL NULL)) ;!
    let! chunk := on_mem (fun m => paging_new_4gb m (Z.lor PAGING_IS_PRESENT PAGING_ACCESS_FROM_ALL)) in
    if chunk =? NULL then ret (- ENOMEM)
    else
      let! p := get_process process in
      let! s := get in
      let! ip := lift (entry_point (omem s) p) in
      on_sched (put_task task (mk_task chunk
        (mk_regs 0 0 0 0 0 0 0 ip TOYOS_USER_CODE_SEGMENT 0
           TOYOS_PROGRAM_VIRTUAL_STACK_ADDRESS_START TOYOS_USER_DATA_SEGMENT)
        process NULL NULL)) ;!
      ret OK.

Definition task_free (task : Z) : O Z :=
  if task =? NULL then ret (- EINVARG)
  else
    let! t := on_sched (get_task task) in
    on_mem (fun m => (tt, paging_free_4gb m (page_directory t))) ;!
    on_sched (task_list_remove task) ;!
    task_kfree task ;!
    on_sched (modify (fun c => mk_sched (delete task (tasks c)) (current_task c) (task_head c) (task_tail c))) ;!
    ret OK.

(** The address of the task, or an error code as a pointer. *)
Definition task_new (process : Z) : O Z :=
  if process =? NULL then ret (u32 (- EINVARG))
  else
    let! task := task_kzalloc sizeof_task in
    let! res := (if task =? NULL then ret (- ENOMEM) else task_init task process) in
    if res =? OK then on_sched (task_link task) ;! ret task
    else let! _ := task_free task in ret (u32 res).

(** *** Switching *)

Definition task_switch (task : Z) : O Z :=
  on_sched (set_current task) ;!
  let! t := on_sched (get_task task) in
  switch (page_directory t) ;!
  ret OK.

Definition task_page : O Z :=
  let! task := on_sched task_current in
  let! _ := task_switch task in
  ret OK.

Definition task_page_task (task : Z) : O Z :=
  let! t := on_sched (get_task task) in
  switch (page_directory t) ;!
  ret OK.

(** Does not return: the result is what the processor continues with. *)
Definition task_next (eflags : Z) : O registers :=
  let! next_task := on_sched task_get_next in
  if next_task =? NULL then fault
  else
    let! _ := task_switch next_task in
    let! t := on_sched (get_task next_task) in
    ret (task_return eflags (regs t)).

(** *** Access to the memory of a task *)

Definition task_virtual_address_to_physical (task virtual_address : Z) : O Z :=
  let! t := on_sched (get_task task) in
  let! s := get in
  ret (paging_get_physical_address (omem s) (directory_entry (omem s) (page_directory t)) virtual_address).

Definition task_get_stack_item (task index : Z) : O Z :=
  if index <? 0 then ret NULL
  else if task =? NULL then ret NULL
  else
    let! t := on_sched (get_task task) in
    let! _ := task_page_task task in
    let! s := get in
    let! result := lift (vload32 (omem s) (cr3 (o_pg s)) (esp (regs t) + 4 * index)) in
    kernel_page ;!
    ret result.

Definition on_vmem (x : mem -> Z -> option mem) : O unit := fun s =>
  match x (omem s) (cr3 (o_pg s)) with Some m => Some (tt, set_omem m s) | None => None end.

Definition copy_string_from_task (task virtual phys max : Z) : O Z :=
  if (PAGING_PAGE_SIZE <=? max) || (task =? NULL) || (virtual =? NULL) || (phys =? NULL)
  then ret (- EINVARG)
  else
    let! tmp := task_kzalloc max in
    if tmp =? NULL then ret (- ENOMEM)
    else
      let! t := on_sched (get_task task) in
      let! s := get in
      let task_directory := directory_entry (omem s) (page_directory t) in
      let old_entry := paging_get (omem s) task_directory tmp in
      let! _ := on_mem (fun m => paging_map m (page_directory t) tmp tmp
        (Z.lor (Z.lor PAGING_IS_WRITEABLE PAGING_IS_PRESENT) PAGING_ACCESS_FROM_ALL)) in
      switch (page_directory t) ;!
      on_vmem (fun m dir => vstrncpy m dir tmp virtual max) ;!
      kernel_page ;!
      let! res := on_mem (fun m => paging_set m task_directory tmp old_entry) in
      if res <? 0 then task_kfree tmp ;! ret (- EIO)
      else
        on_vmem (fun m dir => vstrncpy m dir phys tmp max) ;!
        task_kfree tmp ;!
        ret res.

End Ops.
End Task.

(** ** The task list *)

Module TaskList.
Import Task.

(** The objects [ts] form a doubly linked list between [p] and [n]. *)
Fixpoint lseg (o : gmap Z task) (p : Z) (ts : list Z) (n : Z) : Prop :=
  match ts with
  | [] => True
  | t :: ts' => exists x, o !! t = Some x /\ prev x = p /\ next x = hd n ts' /\ lseg o t ts' n
  end.

(** The scheduler's list: distinct live tasks, linked from head to tail. *)
Record list_ok (s : sched) (ts : list Z) : Prop := {
  l_nodup : NoDup ts;
  l_null : ~ (NULL ∈ ts);
  l_seg : lseg (tasks s) NULL ts NULL;
  l_head : task_head s = hd NULL ts;
  l_tail : task_tail s = default NULL (last ts)
}.

(** ... with the running task among them. *)
Definition sched_ok (s : sched) (ts : list Z) : Prop := list_ok s ts /\ current_task s ∈ ts.

(** What a relinking leaves alone. *)
Definition body (x : task) : Z * registers * Z := (page_directory x, regs x, process_of x).

Definition same_bodies (o o' : gmap Z task) : Prop := forall t, body <$> o' !! t = body <$> o !! t.

Lemma lseg_app o p xs ys n :
  lseg o p (xs ++ ys) n <-> lseg o p xs (hd n ys) /\ lseg o (default p (last xs)) ys n.
Proof.
  revert p; induction xs as [|x xs IH]; intros p; simpl lseg; [simpl; tauto|].
  assert (default p (last (x :: xs)) = default x (last xs)) as ->
    by (rewrite last_cons; by destruct (last xs)).
  replace (hd n (xs ++ ys)) with (hd (hd n ys) xs) by (by destruct xs).
  split; [intros (e & ? & ? & ? & Hs); apply IH in Hs as [? ?]; eauto 10|].
  intros [(e & ? & ? & ? & ?) ?]. exists e. repeat (split; [done|]). apply IH. done.
Qed.

(** Objects outside the list do not matter. *)
Lemma lseg_ext o o' p ts n : (forall t, t ∈ ts -> o' !! t = o !! t) -> lseg o p ts n -> lseg o' p ts n.
Proof.
  revert p; induction ts as [|t ts IH]; intros p Ho; [done|]. intros (x & Hx & Hp & Hn & Hs).
  exists x. rewrite Ho by left. repeat (split; [done|]). apply IH; [|done]. intros u Hu. apply Ho. by right.
Qed.

(** [xs]'s last node gets the successor [n]; [ys]'s first the predecessor [p]. *)
Definition relink_next (xs : list Z) (n : Z) (o : gmap Z task) : gmap Z task :=
  match last xs with Some u => alter (with_next n) u o | None => o end.

Definition relink_prev (ys : list Z) (p : Z) (o : gmap Z task) : gmap Z task :=
  match ys with v :: _ => alter (with_prev p) v o | [] => o end.

Lemma lseg_relink_next o p xs n n' :
  NoDup xs -> lseg o p xs n -> lseg (relink_next xs n' o) p xs n'.
Proof.
  intros Hnd. unfold relink_next. destruct (last xs) as [u|] eqn:Hu.
  - apply last_Some in Hu as [xs' ->]. rewrite !lseg_app. intros [Hs (x & Hx & Hp & Hn & _)].
    apply NoDup_app in Hnd as (_ & Hd & _). split.
    + eapply lseg_ext; [|exact Hs]. intros t Ht. apply lookup_alter_ne. intros <-. apply (Hd u Ht). by left.
    + exists (with_next n' x). by rewrite lookup_alter_eq, Hx.
  - by apply last_None in Hu as ->.
Qed.

Lemma lseg_relink_prev o p ys n p' :
  NoDup ys -> lseg o p ys n -> lseg (relink_prev ys p' o) p' ys n.
Proof.
  intros Hnd. destruct ys as [|v ys]; [done|]. intros (x & Hx & Hp & Hn & Hs).
  exists (with_prev p' x). cbn [relink_prev]. rewrite lookup_alter_eq, Hx. split; [done|]. split; [done|].
  split; [done|]. apply NoDup_cons in Hnd as [Hv _].
  eapply lseg_ext; [|exact Hs]. intros t Ht. apply lookup_alter_ne. by intros <-.
Qed.

Lemma relink_next_ne xs n o t : ~ (t ∈ xs) -> relink_next xs n o !! t = o !! t.
Proof.
  intros Ht. unfold relink_next. destruct (last xs) as [u|] eqn:Hu; [|done].
  apply lookup_alter_ne. intros <-. by apply Ht, last_Some_elem_of.
Qed.

Lemma relink_prev_ne ys n o t : ~ (t ∈ ys) -> relink_prev ys n o !! t = o !! t.
Proof.
  intros Ht. destruct ys as [|v ys]; [done|]. apply lookup_alter_ne. intros <-. apply Ht. by left.
Qed.

Lemma alter_bodies g o u : (forall x, body (g x) = body x) -> same_bodies o (alter g u o).
Proof.
  intros Hg t. rewrite lookup_alter. case_decide; [subst|done]. destruct (o !! t); simpl; [|done].
  by rewrite Hg.
Qed.

Lemma same_bodies_trans o1 o2 o3 : same_bodies o1 o2 -> same_bodies o2 o3 -> same_bodies o1 o3.
Proof. intros H1 H2 t. by rewrite H2. Qed.

Lemma relink_next_bodies xs n o : same_bodies o (relink_next xs n o).
Proof. unfold relink_next. destruct (last xs); [by apply alter_bodies|done]. Qed.

Lemma relink_prev_bodies ys p o : same_bodies o (relink_prev ys p o).
Proof. destruct ys; [done|by apply alter_bodies]. Qed.

(** *** The operations on the list *)

Definition with_tasks (o : gmap Z task) (s : sched) : sched :=
  mk_sched o (current_task s) (task_head s) (task_tail s).

Lemma set_next_eq s u n x :
  tasks s !! u = Some x -> set_next u n s = Some (tt, with_tasks (alter (with_next n) u (tasks s)) s).
Proof.
  intros Hu. unfold set_next, bind, get_task. rewrite Hu. unfold put_task, modify, with_tasks. do 3 f_equal.
  apply map_eq. intros t. rewrite lookup_alter, lookup_insert. case_decide; [subst; by rewrite Hu|done].
Qed.

Lemma set_prev_eq s u n x :
  tasks s !! u = Some x -> set_prev u n s = Some (tt, with_tasks (alter (with_prev n) u (tasks s)) s).
Proof.
  intros Hu. unfold set_prev, bind, get_task. rewrite Hu. unfold put_task, modify, with_tasks. do 3 f_equal.
  apply map_eq. intros t. rewrite lookup_alter, lookup_insert. case_decide; [subst; by rewrite Hu|done].
Qed.

Lemma relink_next_step s p xs n k :
  ~ (NULL ∈ xs) -> lseg (tasks s) p xs k ->
  when (negb (default NULL (last xs) =? NULL)) (set_next (default NULL (last xs)) n) s
  = Some (tt, with_tasks (relink_next xs n (tasks s)) s).
Proof.
  intros H0 Hs. unfold relink_next. destruct (last xs) as [u|] eqn:Hu; simpl default.
  - pose proof (last_Some_elem_of _ _ Hu) as Hin.
    rewrite (proj2 (Z.eqb_neq u NULL)) by congruence. simpl when.
    apply last_Some in Hu as [xs' ->]. apply lseg_app in Hs as [_ (x & Hx & _)]. by eapply set_next_eq.
  - by destruct s.
Qed.

Lemma relink_prev_step s p ys n k :
  ~ (NULL ∈ ys) -> lseg (tasks s) p ys k ->
  when (negb (hd NULL ys =? NULL)) (set_prev (hd NULL ys) n) s
  = Some (tt, with_tasks (relink_prev ys n (tasks s)) s).
Proof.
  intros H0 Hs. destruct ys as [|v ys]; [by destruct s|]. cbn [hd].
  rewrite (proj2 (Z.eqb_neq v NULL)) by (intros ->; apply H0; by left).
  destruct Hs as (x & Hx & _). by eapply set_prev_eq.
Qed.

(** The successor of [t] in the cyclic order of [xs ++ t :: ys]. *)
Lemma get_next_ok s xs t ys :
  list_ok s (xs ++ t :: ys) -> current_task s = t -> task_get_next s = Some (hd t (ys ++ xs), s).
Proof.
  intros [_ Hn Hs Hh _] Hc. apply lseg_app in Hs as [_ (x & Hx & Hp & Hnx & _)].
  unfold task_get_next, bind, get, get_task. rewrite Hc, Hx, Hnx, Hh. destruct ys as [|v ys]; cbn [hd app].
  - change (NULL =? NULL) with true. by destruct xs.
  - rewrite (proj2 (Z.eqb_neq v NULL)); [done|]. intros ->. apply Hn, elem_of_app. right. right. by left.
Qed.

Lemma default_last_mid xs t ys : default NULL (last (xs ++ t :: ys)) = default t (last ys).
Proof. rewrite last_app, last_cons. by destruct (last ys). Qed.

Lemma list_remove_ok s xs t ys :
  list_ok s (xs ++ t :: ys) ->
  exists s', task_list_remove t s = Some (tt, s') /\ list_ok s' (xs ++ ys) /\
    current_task s' = (if t =? current_task s then hd t (ys ++ xs) else current_task s) /\
    same_bodies (tasks s) (tasks s').
Proof.
  intros [Hnd H0 Hs Hh Ht]. apply lseg_app in Hs as [Hxs (x & Hx & Hp & Hnx & Hys)].
  apply NoDup_app in Hnd as (Hnx1 & Hdis & Hnd). apply NoDup_cons in Hnd as [Hty Hny].
  assert (t ∉ xs) as Htx by (intros Hin; apply (Hdis t Hin); by left).
  assert (t <> NULL) as Ht0 by (intros ->; apply H0, elem_of_app; right; by left).
  assert (NULL ∉ xs) as H0x by (intros Hin; by apply H0, elem_of_app; left).
  assert (NULL ∉ ys) as H0y by (intros Hin; apply H0, elem_of_app; right; by right).
  unfold task_list_remove. rewrite (proj2 (Z.eqb_neq t NULL)) by done.
  unfold bind at 1, get. rewrite (bind_Some (get_task t) _ s x s) by (unfold get_task; by rewrite Hx).
  rewrite Hp, (bind_Some _ _ _ _ _ (relink_next_step s _ _ (next x) _ H0x Hxs)).
  set (o1 := relink_next _ _ _). assert (o1 !! t = Some x) as Hx1 by (unfold o1; by rewrite relink_next_ne).
  rewrite (bind_Some (get_task t) _ (with_tasks o1 s) x (with_tasks o1 s)) by (unfold get_task; cbn; by rewrite Hx1).
  assert (lseg o1 t ys NULL) as Hy1.
  { eapply lseg_ext; [|exact Hys]. intros u Hu. apply relink_next_ne. intros Hin. apply (Hdis u Hin). by right. }
  rewrite Hnx, Hp, (bind_Some _ _ _ _ _ (relink_prev_step (with_tasks o1 s) _ _ (default NULL (last xs)) _ H0y Hy1)).
  cbn [tasks with_tasks]. set (o2 := relink_prev _ _ _).
  assert (o2 !! t = Some x) as Hx2 by (unfold o2; by rewrite relink_prev_ne).
  rewrite (bind_Some (get_task t) _ _ x (with_tasks o2 s)) by (unfold get_task; cbn; by rewrite Hx2).
  rewrite Hnx, Hp, Hh, Ht, default_last_mid.
  exists (mk_sched o2 (if t =? current_task s then hd t (ys ++ xs) else current_task s)
    (hd NULL (xs ++ ys)) (default NULL (last (xs ++ ys)))).
  split; [|split; [|split; [done|]]].
  - rewrite last_app. replace (if t =? current_task s then _ else NULL)
      with (if t =? current_task s then hd t (ys ++ xs) else NULL).
    2: { destruct ys as [|v ys]; cbn [hd app]; [by destruct xs|]. rewrite (proj2 (Z.eqb_neq v NULL)); [done|].
         intros ->. apply H0y. by left. }
    assert ((t =? hd NULL (xs ++ t :: ys)) = match xs with [] => true | _ => false end) as ->.
    { destruct xs as [|u xs]; [apply Z.eqb_refl|]. apply Z.eqb_neq. cbn. intros He. apply Htx. rewrite He. by left. }
    assert ((t =? default t (last ys)) = match last ys with None => true | _ => false end) as ->.
    { destruct (last ys) as [u|] eqn:Hu; [|apply Z.eqb_refl]. apply Z.eqb_neq. cbn. intros He.
      apply Hty. rewrite He. by apply last_Some_elem_of. }
    unfold bind, when, set_head, set_tail, set_current, modify, ret, with_tasks.
    rewrite Hh, Ht, default_last_mid. by destruct xs, (last ys), (t =? current_task s).
  - split; cbn.
    + apply NoDup_app. split; [done|]. split; [|done]. intros u Hu Hu'. apply (Hdis u Hu). by right.
    + intros [?|?]%elem_of_app; tauto.
    + apply lseg_app. split.
      * eapply lseg_ext; [|by eapply lseg_relink_next]. intros u Hu. unfold o2, o1. rewrite Hnx.
        apply relink_prev_ne. intros Hin. apply (Hdis u Hu). by right.
      * by eapply lseg_relink_prev.
    + done.
    + done.
  - eapply same_bodies_trans; [apply (relink_next_bodies xs (next x))|apply relink_prev_bodies].
Qed.

(** A new task is appended; the first one becomes the running one. *)
Lemma link_ok s ts t x :
  list_ok s ts -> tasks s !! t = Some x -> t <> NULL -> t ∉ ts -> next x = NULL -> prev x = NULL ->
  exists s', task_link t s = Some (tt, s') /\ list_ok s' (ts ++ [t]) /\
    current_task s' = (match ts with [] => t | _ => current_task s end) /\
    same_bodies (tasks s) (tasks s').
Proof.
  intros [Hnd H0 Hs Hh Ht] Hx Ht0 Htn Hxn Hxp. unfold task_link, bind at 1, get. rewrite Hh.
  assert (NoDup (ts ++ [t])) as Hnd'.
  { apply NoDup_app. split; [done|]. split; [|apply NoDup_singleton]. by intros u Hu ->%list_elem_of_singleton. }
  assert (NULL ∉ ts ++ [t]) as H0' by (intros [?|?%list_elem_of_singleton]%elem_of_app; [done|congruence]).
  destruct (decide (ts = [])) as [->|Hne].
  - eexists. split; [done|]. split; [|done]. split; [done..| |done|done]. by exists x.
  - assert (exists u ts', ts = u :: ts' /\ (hd NULL ts =? NULL) = false) as (u & ts' & Hu & ->).
    { destruct ts as [|u ts]; [done|]. exists u, ts. split; [done|]. apply Z.eqb_neq. cbn.
      intros ->. apply H0. by left. }
    destruct (last ts) as [l|] eqn:Hl; [|by apply last_None in Hl]. simpl in Ht. rewrite Ht.
    pose proof (last_Some_elem_of _ _ Hl) as Hlin.
    assert (default NULL (last ts) = l) as Hdl by (by rewrite Hl).
    pose proof (relink_next_step s _ _ t _ H0 Hs) as Hst. rewrite Hdl in Hst.
    rewrite (proj2 (Z.eqb_neq l NULL)) in Hst by congruence. simpl when in Hst.
    rewrite (bind_Some _ _ _ _ _ Hst). set (o1 := relink_next _ _ _).
    assert (o1 !! t = Some x) as Hx1 by (unfold o1; by rewrite relink_next_ne).
    rewrite (bind_Some _ _ _ _ _ (set_prev_eq (with_tasks o1 s) t l x Hx1)).
    eexists. split; [reflexivity|]. cbn [current_task tasks with_tasks]. split; [|split; [by destruct ts|]].
    + split; cbn [tasks task_head task_tail with_tasks]; [done|done| |rewrite Hh; by destruct ts|by rewrite last_snoc].
      apply lseg_app. split.
      * eapply lseg_ext; [|by eapply lseg_relink_next]. intros v Hv. apply lookup_alter_ne. by intros <-.
      * exists (with_prev l x). rewrite lookup_alter_eq, Hx1, Hl. done.
    + eapply same_bodies_trans; [apply (relink_next_bodies ts t)|]. by apply alter_bodies.
Qed.

(** *** Round robin *)

(** [cyc] is the list read cyclically from the running task on. *)
Definition view (s : sched) (ts cyc : list Z) : Prop :=
  exists xs ys, ts = xs ++ ys /\ cyc = ys ++ xs /\ hd_error ys = Some (current_task s).

Lemma view_intro s ts : current_task s ∈ ts -> exists cyc, view s ts cyc.
Proof.
  intros (xs & ys & ->)%list_elem_of_split. exists ((current_task s :: ys) ++ xs). by exists xs, (current_task s :: ys).
Qed.

Lemma view_perm s ts cyc : view s ts cyc -> cyc ≡ₚ ts.
Proof. intros (xs & ys & -> & -> & _). by rewrite Permutation_app_comm. Qed.

Lemma view_current s ts cyc : view s ts cyc -> exists r, cyc = current_task s :: r.
Proof. intros (xs & [|y ys] & _ & -> & [= <-]). by eexists. Qed.

(** Moving on to the successor rotates the view. *)
Lemma view_next s s' ts t r :
  view s ts (t :: r) -> current_task s' = hd t r -> view s' ts (r ++ [t]).
Proof.
  intros (xs & [|y ys] & -> & Hc & Hy) Hn; [done|]. injection Hc as -> ->.
  destruct ys as [|z ys].
  - exists [], (xs ++ [y]). rewrite app_nil_r. split; [done|]. split; [done|].
    rewrite Hn. by destruct xs.
  - exists (xs ++ [y]), (z :: ys). rewrite <- !app_assoc. split; [done|]. split; [done|]. by rewrite Hn.
Qed.

Lemma view_get_next s ts t r :
  list_ok s ts -> view s ts (t :: r) -> task_get_next s = Some (hd t r, s).
Proof.
  intros L (xs & [|y ys] & -> & Hc & Hy); [done|]. injection Hc as -> ->. injection Hy as Hy.
  by apply get_next_ok.
Qed.

Lemma list_ok_save s ts t x fr :
  list_ok s ts -> tasks s !! t = Some x ->
  list_ok (with_tasks (<[t := mk_task (page_directory x) fr (process_of x) (next x) (prev x)]> (tasks s)) s) ts.
Proof.
  intros [Hnd H0 Hs Hh Ht] Hx. split; [done|done| |done|done]. cbn. clear -Hs Hx.
  revert Hs. generalize NULL at 1 3. induction ts as [|u ts IH]; intros p; [done|].
  intros (y & Hy & Hp & Hn & Hs). cbn. destruct (decide (u = t)) as [->|Hne].
  - rewrite lookup_insert_eq. eexists. split; [done|]. rewrite Hx in Hy. injection Hy as <-. cbn. auto.
  - rewrite lookup_insert_ne by done. exists y. auto.
Qed.

Lemma list_ok_lookup s ts t : list_ok s ts -> t ∈ ts -> exists x, tasks s !! t = Some x /\ t <> NULL.
Proof.
  intros [_ H0 Hs _ _] Hin. assert (t <> NULL) as Hne by congruence.
  apply list_elem_of_split in Hin as (xs & ys & ->). apply lseg_app in Hs as [_ (x & Hx & _)]. eauto.
Qed.

End TaskList.

(** ** Timer ticks *)

Module TaskRun.
Import Task TaskList.

Section Run.
Context {S H : Type} {KA : KAlloc mem} `{HasAlloc mem S}.

Abbreviation st := (os S H).

(** The running task is interrupted with [frame] and the next one resumed. *)
Definition tick (e : Z) (frame : interrupt_frame) : M st registers :=
  kernel_page ;! on_sched (task_current_save_state (Some frame)) ;! task_next e.

(** The tasks resumed by a sequence of ticks, with their registers. *)
Fixpoint ticks (e : Z) (fs : list interrupt_frame) : M st (list (Z * registers)) :=
  match fs with
  | [] => ret []
  | f :: fs' =>
    let! r := tick e f in
    let! s := get in
    let! l := ticks e fs' in
    ret ((current_task (o_sched s), r) :: l)
  end.

(** The processor runs on the page directory of task [x]. *)
Definition on_pages (s : st) (x : task) : Prop :=
  cr3 (o_pg s) = directory_entry (omem s) (page_directory x).

Lemma task_next_ok (s : st) ts c r e :
  list_ok (o_sched s) ts -> view (o_sched s) ts (c :: r) ->
  exists s' y, task_next e s = Some (task_return e (regs y), s') /\
    tasks (o_sched s) !! hd c r = Some y /\
    o_sched s' = mk_sched (tasks (o_sched s)) (hd c r) (task_head (o_sched s)) (task_tail (o_sched s)) /\
    on_pages s' y /\ o_k s' = o_k s /\ o_procs s' = o_procs s.
Proof.
  intros L V. pose proof (view_perm _ _ _ V) as P.
  assert (hd c r ∈ ts) as Hin by (rewrite <- P; destruct r; [left|right; left]).
  destruct (list_ok_lookup _ _ _ L Hin) as (y & Hy & Hn0).
  eexists _, y. split; [|split; [exact Hy|]].
  - unfold task_next, bind at 1, on_sched at 1. rewrite (view_get_next _ _ _ _ L V).
    rewrite (proj2 (Z.eqb_neq _ NULL)) by done. unfold task_switch, bind, on_sched, set_current, modify, get_task, switch.
    cbn [o_sched set_sched tasks set_pg]. rewrite Hy. unfold modify, ret. cbn [o_sched set_sched tasks set_pg].
    rewrite Hy. reflexivity.
  - done.
Qed.

Lemma tick_ok (s : st) ts c r e f x :
  list_ok (o_sched s) ts -> view (o_sched s) ts (c :: r) -> tasks (o_sched s) !! c = Some x ->
  let x' := mk_task (page_directory x) (frame_regs f) (process_of x) (next x) (prev x) in
  exists s' y, tick e f s = Some (task_return e (regs y), s') /\
    list_ok (o_sched s') ts /\ view (o_sched s') ts (r ++ [c]) /\
    tasks (o_sched s') = <[c := x']> (tasks (o_sched s)) /\
    tasks (o_sched s') !! hd c r = Some y /\ current_task (o_sched s') = hd c r /\
    on_pages s' y /\ o_k s' = o_k s /\ o_procs s' = o_procs s.
Proof.
  intros L V Hx x'. destruct (view_current _ _ _ V) as (r' & Hc). injection Hc as Hc <-.
  assert (c ∈ ts) as Hin by (rewrite <- (view_perm _ _ _ V); left).
  destruct (list_ok_lookup _ _ _ L Hin) as (_ & _ & Hc0).
  pose proof (list_ok_save _ ts c x (frame_regs f) L Hx) as L'.
  set (s1 := with_tasks _ _) in L'. fold x' in s1.
  set (s0 := set_sched s1 (set_pg (paging_switch (omem s) (kernel_chunk s) (o_pg s)) s)).
  destruct (task_next_ok s0 ts c r e L' V) as (s' & y & Hn & Hy & Hs & Hp & Hk & Hpr).
  exists s', y. split.
  - rewrite <- Hn. unfold tick, kernel_page, bind at 1 2, get, switch, modify.
    unfold bind at 1, on_sched at 1. cbn [o_sched set_pg].
    assert (task_current_save_state (Some f) (o_sched s) = Some (tt, s1)) as ->; [|done].
    unfold task_current_save_state, task_current, bind, get, ret. rewrite <- Hc.
    rewrite (proj2 (Z.eqb_neq c NULL)) by done. unfold task_save_state, bind, get_task.
    rewrite (proj2 (Z.eqb_neq c NULL)), Hx by done. done.
  - rewrite Hs. split; [by destruct L'|]. split; [by eapply view_next; [exact V|]|].
    split; [done|]. split; [exact Hy|]. done.
Qed.

Lemma ticks_ok e fs : forall (s : st) ts A B,
  list_ok (o_sched s) ts -> view (o_sched s) ts (A ++ B) -> length A = length fs -> NoDup ts ->
  exists cs s', ticks e fs s = Some (cs, s') /\
    list_ok (o_sched s') ts /\ view (o_sched s') ts (B ++ A) /\
    map fst cs = tl (A ++ [hd NULL (B ++ A)]) /\
    (forall t, t ∉ A -> tasks (o_sched s') !! t = tasks (o_sched s) !! t) /\
    (forall t r, last cs = Some (t, r) -> exists x,
       tasks (o_sched s') !! t = Some x /\ r = task_return e (regs x) /\ on_pages s' x) /\
    o_k s' = o_k s /\ o_procs s' = o_procs s.
Proof.
  induction fs as [|f fs IH]; intros s ts A B L V HA Hnd.
  { destruct A; [|done]. exists [], s. rewrite app_nil_r. repeat (split; [done|]). done. }
  destruct A as [|a A]; [done|]. cbn [app] in V.
  assert (a ∈ ts) as Hin by (rewrite <- (view_perm _ _ _ V); left).
  destruct (list_ok_lookup _ _ _ L Hin) as (x & Hx & _).
  destruct (tick_ok s ts a (A ++ B) e f x L V Hx) as (s1 & y & Ht & L1 & V1 & Ho & Hy & Hc1 & Hpg & Hk & Hp).
  rewrite <- app_assoc in V1.
  destruct (IH s1 ts A (B ++ [a]) L1 V1) as (cs & s2 & Hts & L2 & V2 & Hm & Hkeep & Hlast & Hk2 & Hp2);
    [simpl in HA; lia|done|].
  exists ((hd a (A ++ B), task_return e (regs y)) :: cs), s2.
  split; [|split; [done|split; [by rewrite <- app_assoc in V2|split; [|split; [|split; [|split; congruence]]]]]].
  - cbn [ticks]. rewrite (bind_Some _ _ _ _ _ Ht). unfold bind at 1, get. rewrite (bind_Some _ _ _ _ _ Hts).
    by rewrite Hc1.
  - cbn [map fst app tl]. rewrite Hm, <- app_assoc. destruct A as [|b A]; cbn [app tl hd].
    + by destruct B.
    + done.
  - intros t Hta. rewrite Hkeep by (intros ?; apply Hta; by right). rewrite Ho, lookup_insert_ne; [done|].
    intros <-. apply Hta. by left.
  - intros t r. rewrite last_cons. destruct (last cs) as [[t' r']|] eqn:Hl.
    + intros [= <- <-]. by apply Hlast.
    + intros [= <- <-]. apply last_None in Hl as ->.
      assert (fs = []) as ->.
      { apply (f_equal length) in Hm. destruct A; [by destruct fs|]. simpl in Hm. rewrite length_app in Hm. simpl in Hm. lia. }
      injection Hts as <-. eauto.
Qed.

End Run.
End TaskRun.
