(* ===== verification/TaskMem.v ===== *)
(** * Tasks and their address spaces

    Every task owns the block of its [struct task] and the blocks of its own
    address space.  The invariant [tasks_ok] says so for all tasks at once,
    together with the linked list of Task.v; [task_new], [task_free] and the
    timer keep it, and leave every other allocation alone. *)

From S2P Require Import Prelude CLib KAlloc Heap Paging AddressSpace PathParser Fat16 File Elf Task.
Import Paging Mmu PagingFacts ASpace File Elf Task TaskList TaskRun.
#[local] Open Scope prog_scope.

(** The allocator inside the state is a lens. *)
Class AllocLens (A S : Type) `{HasAlloc A S} := {
  al_get_put : forall (s : S) (a : A), get_alloc (put_alloc a s) = a;
  al_put_put : forall (s : S) (a b : A), put_alloc a (put_alloc b s) = put_alloc a s;
  al_put_get : forall s : S, put_alloc (get_alloc s) s = s
}.

Module TaskMem.

(** A task: its object and its address space. *)
Record tspace := mk_tspace { ts_task : Z; ts_chunk : Z; ts_dir : Z; ts_tabs : list Z }.

Definition ts_blocks (k : tspace) : list Z :=
  ts_task k :: as_blocks (ts_chunk k) (ts_dir k) (ts_tabs k).

Definition all_blocks (ks : list tspace) : list Z := concat (map ts_blocks ks).

Lemma all_blocks_app ks js : all_blocks (ks ++ js) = all_blocks ks ++ all_blocks js.
Proof. unfold all_blocks. by rewrite map_app, concat_app. Qed.

Lemma all_blocks_perm xs k ys : all_blocks (xs ++ k :: ys) ≡ₚ all_blocks (xs ++ ys) ++ ts_blocks k.
Proof.
  rewrite !all_blocks_app. unfold all_blocks at 2. cbn [map concat]. fold (all_blocks ys).
  rewrite <- app_assoc. f_equiv. apply Permutation_app_comm.
Qed.

Lemma add_pages_perm lv ts us : ts ≡ₚ us -> add_pages lv ts = add_pages lv us.
Proof.
  intros P. apply map_eq. intros x. rewrite !lookup_add_pages.
  repeat case_decide; try done; exfalso; rewrite P in *; done.
Qed.

Lemma owned_perm lv ts us : ts ≡ₚ us -> owned lv ts -> owned lv us.
Proof. intros P [Hn Hf]. split; [by rewrite <- P|by rewrite <- P]. Qed.

Definition task_space (m : mem) (c : sched) (k : tspace) : Prop :=
  aspace m (ts_chunk k) (ts_dir k) (ts_tabs k) /\
  exists x, tasks c !! ts_task k = Some x /\ page_directory x = ts_chunk k.

Section Mem.
Context {S H : Type} {KA : KAlloc mem} {HA : HasAlloc mem S} {AL : AllocLens mem S}.

Abbreviation st := (os S H).

Lemma omem_set (s : st) m : omem (set_omem m s) = m.
Proof. apply al_get_put. Qed.

Lemma kmem_set (k : kernel S H) m : kmem (set_kmem m k) = m.
Proof. apply al_get_put. Qed.

Lemma set_kmem_set (k : kernel S H) m m' : set_kmem m (set_kmem m' k) = set_kmem m k.
Proof. unfold set_kmem, set_sys. cbn. by rewrite al_put_put. Qed.

Lemma set_kmem_id (k : kernel S H) : set_kmem (kmem k) k = k.
Proof. unfold set_kmem, set_sys, kmem. rewrite al_put_get. by destruct k. Qed.

Lemma bind_on_mem {B C} (x : mem -> B * mem) (g : B -> M st C) (s : st) r m :
  x (omem s) = (r, m) -> bind (on_mem x) g s = g r (set_omem m s).
Proof. intros Hx. unfold bind, on_mem. by rewrite Hx. Qed.

Lemma bind_on_sched {B C} (x : M sched B) (g : B -> M st C) (s : st) r c :
  x (o_sched s) = Some (r, c) -> bind (on_sched x) g s = g r (set_sched c s).
Proof. intros Hx. unfold bind, on_sched. by rewrite Hx. Qed.

Lemma get_task_eq c p x : tasks c !! p = Some x -> get_task p c = Some (x, c).
Proof. intros Hx. unfold get_task. by rewrite Hx. Qed.

(** The state with other memory and another scheduler. *)
Definition upd (m : mem) (c : sched) (s : st) : st :=
  mk_os (set_kmem m (o_k s)) (o_pg s) (kernel_chunk s) c (o_procs s).

Context {KL : KAllocLaws mem} {KM : KAllocMem}.

(** The registers of a new task. *)
Definition start_regs (ip : Z) : registers :=
  mk_regs 0 0 0 0 0 0 0 ip TOYOS_USER_CODE_SEGMENT 0 TOYOS_PROGRAM_VIRTUAL_STACK_ADDRESS_START
    TOYOS_USER_DATA_SEGMENT.

Lemma task_init_ok (s : st) lv n t p proc ip :
  ka_live (omem s) lv n -> 1026 <= n -> t <> NULL -> p <> NULL ->
  procs (o_procs s) !! p = Some proc ->
  (forall m, keeps lv (omem s) m -> entry_point m proc = Some ip) ->
  exists m' k, ts_task k = t /\
    task_init t p s = Some (OK, upd m' (with_tasks
      (<[t := mk_task (ts_chunk k) (start_regs ip) p NULL NULL]> (tasks (o_sched s))) (o_sched s)) s) /\
    aspace_live m' lv (n - 1026) (ts_chunk k) (ts_dir k) (ts_tabs k) /\ keeps lv (omem s) m' /\
    forall va, 0 <= va < 2 ^ 32 -> translate m' (ts_dir k) va = Some (va, 4).
Proof.
  intros Ha Hn Ht Hp Hpr Hip.
  destruct (as_new (omem s) lv n 5 Ha Hn) as (chunk & m' & dir & ts & Hnew & Hc & HL & Hk & Htr); [lia|done|done|].
  exists m', (mk_tspace t chunk dir ts). split; [done|]. split; [|done].
  unfold task_init. rewrite (proj2 (Z.eqb_neq t NULL)), (proj2 (Z.eqb_neq p NULL)) by done. cbn [orb].
  rewrite (bind_on_sched _ _ s tt (with_tasks (<[t := mk_task NULL zero_regs NULL NULL NULL]>
    (tasks (o_sched s))) (o_sched s))) by done.
  change (Z.lor PAGING_IS_PRESENT PAGING_ACCESS_FROM_ALL) with 5.
  rewrite (bind_on_mem _ _ _ chunk m') by exact Hnew. rewrite (proj2 (Z.eqb_neq chunk NULL)) by done.
  unfold bind at 1, get_process. cbn [o_procs set_omem set_k set_sched]. rewrite Hpr.
  unfold bind at 1, get. unfold bind at 1, lift. rewrite omem_set, (Hip m' Hk).
  rewrite (bind_on_sched _ _ _ tt (with_tasks (<[t := mk_task chunk (start_regs ip) p NULL NULL]>
    (<[t := mk_task NULL zero_regs NULL NULL NULL]> (tasks (o_sched s)))) (o_sched s))) by done.
  unfold ret, upd. by rewrite insert_insert_eq.
Qed.

(** *** All tasks at once *)

(** [base] are the allocations that belong to no task. *)
Record tasks_ok (m : mem) (c : sched) (base : gmap Z Z) (n : Z) (ks : list tspace) : Prop := {
  t_list : list_ok c (map ts_task ks);
  t_own : owned base (all_blocks ks);
  t_live : ka_live m (add_pages base (all_blocks ks)) n;
  t_space : Forall (task_space m c) ks
}.

Lemma ts_block_in ks k : k ∈ ks -> forall b, b ∈ ts_blocks k -> b ∈ all_blocks ks.
Proof.
  intros (xs & ys & ->)%list_elem_of_split b Hb. rewrite all_blocks_perm. apply elem_of_app. by right.
Qed.

(** What is kept of the blocks of the tasks keeps their address spaces. *)
Lemma spaces_keep m m' c c' base ks :
  keeps (add_pages base (all_blocks ks)) m m' ->
  (forall k, k ∈ ks -> page_directory <$> tasks c' !! ts_task k = page_directory <$> tasks c !! ts_task k) ->
  Forall (task_space m c) ks -> Forall (task_space m' c') ks.
Proof.
  intros Hk Hb. rewrite !Forall_forall. intros Hs k Hin. destruct (Hs k Hin) as (A & x & Hx & Hpd). split.
  - eapply as_keep; [exact A|]. intros b a Hbk Hba. apply (Hk b 1); [|lia].
    rewrite lookup_add_pages, decide_True; [done|]. eapply ts_block_in; [exact Hin|]. by right.
  - specialize (Hb k Hin). rewrite Hx in Hb. destruct (tasks c' !! ts_task k) as [y|]; [|done].
    injection Hb as Hy. exists y. split; [done|congruence].
Qed.

Lemma body_directory (x y : option task) : body <$> x = body <$> y -> page_directory <$> x = page_directory <$> y.
Proof. destruct x, y; cbn; try done. by intros [= -> _ _]. Qed.

Lemma translate_keep m m' c base ks :
  keeps (add_pages base (all_blocks ks)) m m' -> Forall (task_space m c) ks ->
  forall j va, j ∈ ks -> 0 <= va < 2 ^ 32 -> translate m' (ts_dir j) va = translate m (ts_dir j) va.
Proof.
  intros Hk Hs j va Hj Hva. rewrite Forall_forall in Hs. destruct (Hs j Hj) as [A _].
  destruct (as_keep _ m' _ _ _ A) as [_ Hw]; [|destruct (Hw va Hva); by apply translate_eq].
  intros b x Hb' Hx. apply (Hk b 1); [|lia]. rewrite lookup_add_pages, decide_True; [done|].
  eapply ts_block_in; [exact Hj|]. by right.
Qed.

(** One task singled out, the others in the frame. *)
Lemma tasks_split m c base n xs k ys :
  tasks_ok m c base n (xs ++ k :: ys) ->
  let lv := add_pages base (all_blocks (xs ++ ys)) in
  lv !! ts_task k = None /\ aspace_live m (<[ts_task k := 1]> lv) n (ts_chunk k) (ts_dir k) (ts_tabs k) /\
  exists x, tasks c !! ts_task k = Some x /\ page_directory x = ts_chunk k.
Proof.
  intros [Hl Ho Ha Hs] lv. apply Forall_app in Hs as [_ Hs]. apply Forall_cons in Hs as [[A Hx] _].
  apply (owned_perm _ _ _ (all_blocks_perm xs k ys)), owned_app_inv in Ho as [_ Ho]. fold lv in Ho.
  rewrite (add_pages_perm _ _ _ (all_blocks_perm xs k ys)), add_pages_app in Ha. fold lv in Ha.
  change (ts_blocks k) with ([ts_task k] ++ as_blocks (ts_chunk k) (ts_dir k) (ts_tabs k)) in Ho, Ha.
  rewrite add_pages_app in Ha. apply owned_app_inv in Ho as [[_ Ho1] Ho2].
  apply Forall_cons in Ho1 as [Ho1 _]. split; [done|]. split; [|done]. by split.
Qed.

(** ... and put back. *)
Lemma tasks_join m c base n xs k ys :
  let lv := add_pages base (all_blocks (xs ++ ys)) in
  list_ok c (map ts_task (xs ++ k :: ys)) -> owned base (all_blocks (xs ++ ys)) ->
  lv !! ts_task k = None -> aspace_live m (<[ts_task k := 1]> lv) n (ts_chunk k) (ts_dir k) (ts_tabs k) ->
  (exists x, tasks c !! ts_task k = Some x /\ page_directory x = ts_chunk k) ->
  Forall (task_space m c) (xs ++ ys) -> tasks_ok m c base n (xs ++ k :: ys).
Proof.
  intros lv Hl Ho Ht [A Ho' Ha] Hx Hs.
  assert (owned lv (ts_blocks k)) as Hok.
  { apply (owned_app lv [ts_task k]); [|done]. split; [apply NoDup_singleton|by repeat constructor]. }
  split; [done| | |].
  - eapply owned_perm; [symmetry; apply all_blocks_perm|]. by apply owned_app.
  - by rewrite (add_pages_perm _ _ _ (all_blocks_perm xs k ys)), add_pages_app.
  - apply Forall_app in Hs as [? ?]. apply Forall_app. split; [done|]. by constructor.
Qed.

(** [task_new] appends a task with a fresh identity-mapped address space. *)
Lemma task_new_ok (s : st) base n ks p proc ip :
  tasks_ok (omem s) (o_sched s) base n ks -> 1027 <= n -> p <> NULL ->
  procs (o_procs s) !! p = Some proc ->
  (forall m, keeps base (omem s) m -> entry_point m proc = Some ip) ->
  exists m' c' k, task_new p s = Some (ts_task k, upd m' c' s) /\
    tasks_ok m' c' base (n - 1027) (ks ++ [k]) /\ keeps base (omem s) m' /\
    current_task c' = (match ks with [] => ts_task k | _ => current_task (o_sched s) end) /\
    (body <$> tasks c' !! ts_task k = Some (ts_chunk k, start_regs ip, p)) /\
    (forall t, t <> ts_task k -> body <$> tasks c' !! t = body <$> tasks (o_sched s) !! t) /\
    (forall j va, j ∈ ks -> 0 <= va < 2 ^ 32 -> translate m' (ts_dir j) va = translate (omem s) (ts_dir j) va) /\
    forall va, 0 <= va < 2 ^ 32 -> translate m' (ts_dir k) va = Some (va, 4).
Proof.
  intros T Hn Hp Hpr Hip. pose proof T as [Hl Ho Ha Hs]. set (lv := add_pages base (all_blocks ks)) in *.
  destruct (ka_zalloc_1 _ _ _ sizeof_task Ha) as (t & m1 & Hz & Ht0 & _ & Htf & Ha1); [unfold sizeof_task; lia|lia|].
  assert (keeps lv (omem s) m1) as Hk1
    by (intros q j x Hq; eapply kam_frame; [done| |done..]; unfold size_ok, sizeof_task; lia).
  assert (base ⊆ lv) as Hbl by (unfold lv; rewrite <- add_pages_union; by apply map_union_subseteq_r, owned_disjoint).
  assert (lv ⊆ <[t := 1]> lv) as Hlt by (by apply insert_subseteq).
  set (s1 := set_omem m1 s). assert (omem s1 = m1) as Hm1 by apply omem_set.
  destruct (task_init_ok s1 (<[t := 1]> lv) (n - 1) t p proc ip) as (m2 & k & Hkt & Hi & HL & Hk2 & Htr);
    [by rewrite Hm1|lia|done|done|done| |].
  { intros m Hm. apply Hip. eapply keeps_trans; [by eapply keeps_sub|]. rewrite Hm1 in Hm.
    eapply keeps_sub; [|exact Hm]. by etrans. }
  rewrite Hm1 in Hk2. assert (keeps lv (omem s) m2) as Hk by (eapply keeps_trans; [exact Hk1|by eapply keeps_sub]).
  subst t. set (c1 := with_tasks _ _) in Hi.
  assert (ts_task k ∉ map ts_task ks) as Hnin.
  { intros (j & Hj & Hin)%list_elem_of_fmap. apply (not_elem_of_dom_2 _ _) in Htf. apply Htf, elem_of_dom. exists 1.
    unfold lv. rewrite lookup_add_pages, decide_True; [done|]. eapply ts_block_in; [exact Hin|]. rewrite Hj. by left. }
  assert (list_ok c1 (map ts_task ks)) as Hl1.
  { destruct Hl as [L1 L2 L3 L4 L5]. split; [done|done| |done|done]. eapply lseg_ext; [|exact L3].
    intros u Hu. cbn. rewrite lookup_insert_ne; [done|]. intros He; apply Hnin; by rewrite He. }
  destruct (link_ok c1 _ (ts_task k) _ Hl1 (lookup_insert_eq _ _ _)) as (c' & Hlk & Hl' & Hcur & Hb); [done..|].
  assert (forall t, t <> ts_task k -> body <$> tasks c' !! t = body <$> tasks (o_sched s) !! t) as Hoth.
  { intros u Hu. rewrite (Hb u). cbn. by rewrite lookup_insert_ne. }
  assert (body <$> tasks c' !! ts_task k = Some (ts_chunk k, start_regs ip, p)) as Hnew.
  { rewrite (Hb (ts_task k)). cbn. by rewrite lookup_insert_eq. }
  assert (upd m2 c' s = set_sched c' (upd m2 c1 s1)) as Hupd.
  { unfold upd, set_sched, s1. cbn. by rewrite set_kmem_set. }
  exists m2, c', k. split.
  { unfold task_new. rewrite (proj2 (Z.eqb_neq p NULL)) by done. unfold task_kzalloc.
    rewrite (bind_on_mem _ _ _ _ _ Hz), (proj2 (Z.eqb_neq _ NULL)) by done. fold s1.
    rewrite (bind_Some _ _ _ _ _ Hi). change (OK =? OK) with true. cbv iota.
    by rewrite (bind_on_sched _ _ (upd m2 c1 s1) _ _ Hlk), Hupd. }
  split; [|split; [by eapply keeps_sub|]].
  { apply (tasks_join m2 c' base (n - 1027) ks k []); rewrite ?app_nil_r; [|done|done| | |].
    - rewrite map_app. exact Hl'.
    - fold lv. by replace (n - 1027) with (n - 1 - 1026) by lia.
    - destruct (tasks c' !! ts_task k) as [y|]; [|done]. injection Hnew as Hy _ _. by exists y.
    - eapply spaces_keep; [exact Hk| |exact Hs]. intros j Hj. apply body_directory, Hoth. intros He. apply Hnin.
      rewrite <- He. by apply list_elem_of_fmap_2. }
  split; [by rewrite Hcur; destruct ks|]. split; [done|]. split; [done|]. split; [|done].
  by apply (translate_keep _ _ _ _ _ Hk Hs).
Qed.

(** [task_free] removes it and gives its 1027 blocks back; a running task hands
    over to its successor.  The last task stays the running one, freed. *)
Lemma task_free_ok (s : st) base n xs k ys :
  tasks_ok (omem s) (o_sched s) base n (xs ++ k :: ys) ->
  exists m' c', task_free (ts_task k) s = Some (OK, upd m' c' s) /\
    tasks_ok m' c' base (n + 1027) (xs ++ ys) /\ keeps base (omem s) m' /\
    current_task c' = (if ts_task k =? current_task (o_sched s)
                       then hd (ts_task k) (map ts_task (ys ++ xs)) else current_task (o_sched s)) /\
    tasks c' !! ts_task k = None /\
    (forall t, t <> ts_task k -> body <$> tasks c' !! t = body <$> tasks (o_sched s) !! t) /\
    forall j va, j ∈ xs ++ ys -> 0 <= va < 2 ^ 32 ->
      translate m' (ts_dir j) va = translate (omem s) (ts_dir j) va.
Proof.
  intros T. destruct (tasks_split _ _ _ _ _ _ _ T) as (Hf & HL & x & Hx & Hpd). pose proof T as [Hl Ho _ Hs].
  set (lv := add_pages base (all_blocks (xs ++ ys))) in *. set (t := ts_task k) in *.
  assert (lv ⊆ <[t := 1]> lv) as Hlt by (by apply insert_subseteq).
  destruct (as_free _ _ _ _ _ _ HL) as [Ha1 Hk1]. rewrite <- Hpd in *. set (m1 := paging_free_4gb _ _) in *.
  pose proof (ka_free_spec _ _ _ t 1 Ha1 (lookup_insert_eq _ _ _)) as Ha2.
  rewrite delete_insert_id in Ha2 by done.
  assert (keeps lv (omem s) (ka_free m1 t)) as Hk.
  { eapply keeps_trans; [by eapply keeps_sub|]. intros q j a Hq.
    eapply kam_free_frame; [exact Ha1|apply lookup_insert_eq|by eapply lookup_weaken]. }
  rewrite map_app in Hl. pose proof (list_ok_lookup _ _ t Hl) as Ht0.
  destruct Ht0 as (_ & _ & Ht0); [apply elem_of_app; right; left|].
  destruct (list_remove_ok _ _ _ _ Hl) as (c1 & Hr & Hl1 & Hcur & Hb). rewrite <- !map_app in *.
  set (c' := mk_sched (delete t (tasks c1)) (current_task c1) (task_head c1) (task_tail c1)).
  assert (forall u, u <> t -> body <$> tasks c' !! u = body <$> tasks (o_sched s) !! u) as Hoth.
  { intros u Hu. cbn. by rewrite lookup_delete_ne. }
  assert (t ∉ map ts_task (xs ++ ys)) as Hnin.
  { intros (j & Hj & Hin)%list_elem_of_fmap. unfold lv in Hf. rewrite lookup_add_pages, decide_True in Hf; [done|].
    eapply ts_block_in; [exact Hin|]. rewrite Hj. by left. }
  apply Forall_app in Hs as [Hsx [_ Hsy]%Forall_cons].
  apply (owned_perm _ _ _ (all_blocks_perm xs k ys)), owned_app_inv in Ho as [Ho _].
  assert (Forall (task_space (omem s) (o_sched s)) (xs ++ ys)) as Hs by (by apply Forall_app).
  assert (base ⊆ lv) as Hbl by (unfold lv; rewrite <- add_pages_union; by apply map_union_subseteq_r, owned_disjoint).
  exists (ka_free m1 t), c'. split.
  { unfold task_free. rewrite (proj2 (Z.eqb_neq t NULL)) by done.
    rewrite (bind_on_sched _ _ s _ _ (get_task_eq _ _ _ Hx)).
    rewrite (bind_on_mem _ _ _ tt m1) by done. rewrite (bind_on_sched _ _ (set_omem m1 (set_sched (o_sched s) s)) _ _ Hr). unfold task_kfree.
    rewrite (bind_on_mem _ _ _ tt (ka_free m1 t)) by (cbv beta; do 2 f_equal; apply (al_get_put (sys (o_k s)) m1)).
    unfold bind, on_sched, modify, ret, upd, set_omem, set_sched, set_k.
    cbn [o_k o_pg kernel_chunk o_sched o_procs]. by rewrite set_kmem_set. }
  split; [|split; [by eapply keeps_sub|]].
  { split; [|done|by replace (n + 1027) with (n + 1026 + 1) by lia|].
    - destruct Hl1 as [L1 L2 L3 L4 L5]. split; [done|done| |done|done]. eapply lseg_ext; [|exact L3].
      intros u Hu. apply lookup_delete_ne. by intros <-.
    - eapply spaces_keep; [exact Hk| |exact Hs]. intros j Hj. apply body_directory, Hoth. intros He. apply Hnin.
      rewrite <- He. by apply list_elem_of_fmap_2. }
  split; [cbn; by rewrite Hcur, ?map_app|]. split; [apply lookup_delete_eq|]. split; [done|].
  by apply (translate_keep _ _ _ _ _ Hk Hs).
Qed.

End Mem.
End TaskMem.

(** ** What the scheduler promises *)

Module TaskProps.
Import TaskMem.

(** The abstract scheduler: a queue and the running task. *)
Record asched := mk_asched { queue : list Z; running : Z }.

Fixpoint rest_after (t : Z) (ts : list Z) : list Z :=
  match ts with
  | [] => []
  | u :: ts' => if u =? t then ts' else rest_after t ts'
  end.

(** The next task in the cyclic order. *)
Definition succ_of (t : Z) (ts : list Z) : Z := hd (hd t ts) (rest_after t ts).

Inductive event :=
| New (process : Z)
| Free (task : Z)
| Tick (eflags : Z) (frame : interrupt_frame).

(** [r] is the address of a new task. *)
Definition astep (ev : event) (r : Z) (a : asched) : asched :=
  match ev with
  | New _ => mk_asched (queue a ++ [r]) (match queue a with [] => r | _ => running a end)
  | Free t => mk_asched (filter (fun u => u <> t) (queue a))
                (if t =? running a then succ_of t (queue a) else running a)
  | Tick _ _ => mk_asched (queue a) (succ_of (running a) (queue a))
  end.

Lemma rest_after_mid xs t ys : t ∉ xs -> rest_after t (xs ++ t :: ys) = ys.
Proof.
  induction xs as [|x xs IH]; intros Ht; simpl; [by rewrite Z.eqb_refl|].
  rewrite (proj2 (Z.eqb_neq x t)) by (intros ->; apply Ht; left). apply IH. intros ?. apply Ht. by right.
Qed.

Lemma succ_of_mid xs t ys : t ∉ xs -> succ_of t (xs ++ t :: ys) = hd t (ys ++ xs).
Proof. intros Ht. unfold succ_of. rewrite rest_after_mid by done. destruct ys; [|done]. by destruct xs. Qed.

Lemma filter_mid xs (t : Z) ys :
  t ∉ xs -> t ∉ ys -> filter (fun u => u <> t) (xs ++ t :: ys) = xs ++ ys.
Proof.
  intros Hx Hy. assert (forall l : list Z, t ∉ l -> filter (fun u : Z => u <> t) l = l) as Hall.
  { intros l Hl. induction l as [|u l IH]; [done|]. rewrite filter_cons_True by (intros ->; apply Hl; left).
    f_equal. apply IH. intros ?. apply Hl. by right. }
  rewrite filter_app, filter_cons_False by (intros H; by apply H). by rewrite !Hall.
Qed.

Section Props.
Context {S H : Type} {KA : KAlloc mem} {KL : KAllocLaws mem} {KM : KAllocMem}.
Context {HA : HasAlloc mem S} {AL : AllocLens mem S}.

Abbreviation st := (os S H).

Definition run (ev : event) : M st Z :=
  match ev with
  | New p => task_new p
  | Free t => task_free t
  | Tick e f => let! _ := tick e f in on_sched task_current
  end.

Definition inv (s : st) (base : gmap Z Z) (n : Z) (ks : list tspace) : Prop :=
  tasks_ok (omem s) (o_sched s) base n ks /\ (ks <> [] -> current_task (o_sched s) ∈ map ts_task ks).

Definition abs (s : st) (ks : list tspace) : asched :=
  mk_asched (map ts_task ks) (current_task (o_sched s)).

(** A new task needs an initialised process and 1027 blocks; the last task is
    not freed; the timer needs a task. *)
Definition enabled (s : st) (base : gmap Z Z) (n : Z) (ks : list tspace) (ev : event) : Prop :=
  match ev with
  | New p => p <> NULL /\ 1027 <= n /\ exists proc ip, procs (o_procs s) !! p = Some proc /\
      forall m, keeps base (omem s) m -> entry_point m proc = Some ip
  | Free t => t ∈ map ts_task ks /\ (2 <= length ks)%nat
  | Tick _ _ => ks <> []
  end.

Definition step_ok (s : st) (base : gmap Z Z) (n : Z) (ks : list tspace) (ev : event) : Prop :=
  exists r s' n' ks', run ev s = Some (r, s') /\ inv s' base n' ks' /\
    abs s' ks' = astep ev r (abs s ks) /\ n' + 1027 * Z.of_nat (length ks') = n + 1027 * Z.of_nat (length ks) /\
    keeps base (omem s) (omem s') /\
    forall j va, j ∈ ks -> j ∈ ks' -> 0 <= va < 2 ^ 32 ->
      translate (omem s') (ts_dir j) va = translate (omem s) (ts_dir j) va.

Lemma task_new_refines s base n ks p :
  inv s base n ks -> enabled s base n ks (New p) -> step_ok s base n ks (New p).
Proof.
  intros [T Hc] (Hp & Hn & proc & ip & Hpr & Hip).
  destruct (task_new_ok s base n ks p proc ip T Hn Hp Hpr Hip) as (m' & c' & k & Hr & T' & Hk & Hcur & _ & _ & Htr & _).
  exists (ts_task k), (upd m' c' s), (n - 1027), (ks ++ [k]).
  assert (omem (upd m' c' s) = m') as Hm by apply al_get_put.
  split; [done|]. unfold inv, abs. rewrite Hm. cbn [o_sched upd]. split; [split; [done|]|].
  - intros _. rewrite Hcur, map_app. destruct ks as [|j ks]; [by left|]. apply elem_of_app. left. by apply Hc.
  - split; [|split; [rewrite length_app; simpl; lia|split; [done|by intros; apply Htr]]].
    cbn [astep queue running]. rewrite map_app, Hcur. by destruct ks.
Qed.

Lemma task_free_refines s base n ks t :
  inv s base n ks -> enabled s base n ks (Free t) -> step_ok s base n ks (Free t).
Proof.
  intros [T Hc] [Ht Hlen]. apply list_elem_of_fmap in Ht as (k & -> & (xs & ys & ->)%list_elem_of_split).
  pose proof (l_nodup _ _ (t_list _ _ _ _ _ T)) as Hnd. rewrite map_app in Hnd. cbn [map] in Hnd.
  apply NoDup_app in Hnd as (_ & Hd & [Hky _]%NoDup_cons).
  assert (ts_task k ∉ map ts_task xs) as Hkx by (intros Hin; apply (Hd _ Hin); left).
  destruct (task_free_ok s base n xs k ys T) as (m' & c' & Hr & T' & Hk & Hcur & _ & _ & Htr).
  exists OK, (upd m' c' s), (n + 1027), (xs ++ ys).
  assert (omem (upd m' c' s) = m') as Hm by apply al_get_put.
  split; [done|]. unfold inv, abs. rewrite Hm. cbn [o_sched upd]. split; [split; [done|]|].
  - intros Hne. rewrite Hcur, !map_app. destruct (Z.eqb_spec (ts_task k) (current_task (o_sched s))) as [He|He].
    + destruct ys as [|y ys]; [destruct xs as [|x xs]; [done|]|]; rewrite elem_of_app; [left|right]; by left.
    + specialize (Hc ltac:(by destruct xs)). rewrite map_app in Hc. cbn [map] in Hc.
      rewrite elem_of_app, elem_of_cons in Hc. rewrite elem_of_app. destruct Hc as [?|[?|?]]; [by left|congruence|by right].
  - rewrite !length_app in *. cbn [length] in *. split; [|split; [lia|split; [done|by intros; apply Htr]]].
    cbn [astep queue running]. rewrite Hcur, !map_app. cbn [map]. rewrite filter_mid, succ_of_mid by done.
    done.
Qed.

Lemma tick_step_refines s base n ks e f :
  inv s base n ks -> enabled s base n ks (Tick e f) -> step_ok s base n ks (Tick e f).
Proof.
  intros [[Hl Ho Ha Hs] Hc] Hne. specialize (Hc Hne). destruct (view_intro _ _ Hc) as [cyc V].
  destruct (view_current _ _ _ V) as [r ->]. destruct (list_ok_lookup _ _ _ Hl Hc) as (x & Hx & _).
  destruct (tick_ok s _ _ _ e f x Hl V Hx) as (s' & y & Ht & L' & V' & Hts & Hy & Hcur & _ & Hk & Hp).
  assert (omem s' = omem s) as Hm by (unfold omem; by rewrite Hk).
  exists (hd (current_task (o_sched s)) r), s', n, ks. split.
  { unfold run. rewrite (bind_Some _ _ _ _ _ Ht). unfold on_sched, task_current, bind, get, ret.
    rewrite Hcur. by destruct s'. }
  assert (hd (current_task (o_sched s)) r = succ_of (current_task (o_sched s)) (map ts_task ks)) as Hsucc.
  { destruct V as (xs & [|u ys] & He & Hr & [= Hu]). injection Hr as _ ->. rewrite He, Hu. symmetry. apply succ_of_mid.
    pose proof (l_nodup _ _ Hl) as Hnd. rewrite He, Hu in Hnd. apply NoDup_app in Hnd as (_ & Hd & _).
    intros Hin. apply (Hd _ Hin). left. }
  split; [split; [split; [done|done|by rewrite Hm|]|]|].
  - rewrite Hm. eapply (spaces_keep _ _ _ _ base); [apply keeps_refl| |exact Hs]. intros k _. rewrite Hts, lookup_insert.
    case_decide as He; [|done]. by rewrite <- He, Hx.
  - intros _. rewrite <- (view_perm _ _ _ V'), Hcur. destruct r; [by left|]. by left.
  - rewrite Hm. split; [|split; [done|split; [apply keeps_refl|done]]]. unfold abs. cbn [astep queue running].
    by rewrite Hcur, Hsucc.
Qed.

(** C8: The scheduler implements a cyclic queue.  From a state in which the
    tasks are linked up and each owns its own address space, creating a task
    (for an initialised process, with 1027 free blocks), freeing one of several
    tasks and a timer tick all return; the new state is such a state again; the
    queue and the running task are those of the abstract queue; no block is
    leaked; the address spaces of the other tasks and all other allocations are
    untouched. *)
Theorem scheduler_refines s base n ks ev :
  inv s base n ks -> enabled s base n ks ev -> step_ok s base n ks ev.
Proof. destruct ev; [apply task_new_refines|apply task_free_refines|apply tick_step_refines]. Qed.

(** C27: Round robin.  With n tasks, n timer ticks resume every task exactly
    once; the last one resumed is the task that was interrupted first, with the
    registers it was interrupted with (the flags are the kernel's), on its own
    page directory. *)
Theorem round_robin (s : st) ts e f fs :
  sched_ok (o_sched s) ts -> length (f :: fs) = length ts ->
  exists cs s' x, ticks e (f :: fs) s = Some (cs, s') /\ map fst cs ≡ₚ ts /\
    last cs = Some (current_task (o_sched s), task_return e (frame_regs f)) /\
    sched_ok (o_sched s') ts /\ current_task (o_sched s') = current_task (o_sched s) /\
    tasks (o_sched s') !! current_task (o_sched s) = Some x /\ on_pages s' x.
Proof.
  intros [Hl Hc] Hlen. destruct (view_intro _ _ Hc) as [cyc V]. destruct (view_current _ _ _ V) as [r ->].
  set (c := current_task (o_sched s)) in *. pose proof (view_perm _ _ _ V) as P.
  destruct (list_ok_lookup _ _ _ Hl Hc) as (x & Hx & _). pose proof (l_nodup _ _ Hl) as Hnd.
  assert (c ∉ r) as Hcr by (rewrite <- P in Hnd; by apply NoDup_cons in Hnd as [? _]).
  destruct (tick_ok s ts c r e f x Hl V Hx) as (s1 & y & Ht & L1 & V1 & Hts & Hy & Hcur & Hpg & Hk & Hp).
  assert (length r = length fs) as Hlr by (apply Permutation_length in P; simpl in *; lia).
  destruct (ticks_ok e fs s1 ts r [c] L1 V1 Hlr Hnd) as (cs & s2 & Hcs & L2 & V2 & Hm & Hkeep & Hlast & _).
  set (x' := mk_task _ _ _ _ _) in *.
  assert (tasks (o_sched s2) !! c = Some x') as Hx2 by (by rewrite (Hkeep c Hcr), Hts, lookup_insert_eq).
  destruct (view_current _ _ _ V2) as (r2 & [= Hc2 _]).
  exists ((hd c r, task_return e (regs y)) :: cs), s2, x'. split.
  { cbn [ticks]. rewrite (bind_Some _ _ _ _ _ Ht). unfold bind at 1, get.
    rewrite (bind_Some _ _ _ _ _ Hcs). by rewrite Hcur. }
  split; [cbn [map fst]; rewrite Hm; rewrite <- P; destruct r as [|b r]; cbn; [done|];
          by rewrite Permutation_app_comm; cbn; apply perm_swap|].
  assert (last ((hd c r, task_return e (regs y)) :: cs) = Some (c, task_return e (frame_regs f)) /\ on_pages s2 x')
    as [Hla Hop].
  { destruct r as [|b r].
    - destruct fs; [|done]. injection Hcs as <- <-. rewrite Hts, lookup_insert_eq in Hy. by injection Hy as <-.
    - assert (map fst cs = r ++ [c]) as Hm' by exact Hm. rewrite last_cons.
      assert (exists q, last cs = Some (c, q)) as [q Hq].
      { destruct cs as [|[a q] cs _] using rev_ind; [by destruct r|]. rewrite map_app in Hm'.
        apply app_inj_tail in Hm' as [_ <-]. exists q. by rewrite last_snoc. }
      rewrite Hq. destruct (Hlast _ _ Hq) as (z & Hz & -> & Hpz). rewrite Hx2 in Hz. by injection Hz as <-. }
  split; [done|]. split; [split; [done|by rewrite <- Hc2]|]. done.
Qed.

(** Freeing the only task leaves [current_task] pointing at the freed
    object: the next timer interrupt uses it. *)
Theorem task_free_last (s : st) base n k e f :
  tasks_ok (omem s) (o_sched s) base n [k] -> current_task (o_sched s) = ts_task k ->
  exists s', task_free (ts_task k) s = Some (OK, s') /\ task_head (o_sched s') = NULL /\
    current_task (o_sched s') = ts_task k /\ tick e f s' = None.
Proof.
  intros T Hc. destruct (task_free_ok s base n [] k [] T) as (m' & c' & Hr & [Hl _ _ _] & _ & Hcur & Hg & _).
  rewrite Hc, Z.eqb_refl in Hcur. cbn in Hcur. exists (upd m' c' s). split; [done|].
  split; [apply (l_head _ _ Hl)|]. split; [done|]. pose proof (list_ok_lookup _ _ (ts_task k) (t_list _ _ _ _ _ T)) as Hk.
  destruct Hk as (_ & _ & Hk0); [by left|]. unfold tick, kernel_page, bind at 1 2, get, switch, modify.
  unfold bind at 1, on_sched. cbn [o_sched set_pg upd]. unfold task_current_save_state, task_current, bind, get, ret.
  rewrite Hcur, (proj2 (Z.eqb_neq _ NULL)) by done. unfold task_save_state, bind.
  rewrite (proj2 (Z.eqb_neq _ NULL)) by done. unfold get_task. by rewrite Hg.
Qed.

End Props.

(** *** The kernel right after boot, with one process *)

Import HeapProps Laws.

#[local] Instance boot_alloc : KAlloc mem := kheap_alloc kheap.
#[local] Instance boot_laws : KAllocLaws mem := kheap_laws kheap.
#[local] Instance boot_kmem : KAllocMem := kheap_mem kheap.
#[local] Instance mem_alloc : HasAlloc mem mem := { get_alloc s := s; put_alloc a _ := a }.
#[local] Instance mem_lens : AllocLens mem mem.
Proof. by split. Defined.

Definition blank_process : process :=
  mk_process 0 [] 0 [] 0 0 (mk_kb [] 0 0) (PROCESS_FILETYPE_BINARY 0x5000) 0 0.

Definition boot_os (m : mem) (c : sched) : os mem unit :=
  mk_os (mk_kernel m [] [] (mk_disk 0 0 0 None)) (mk_paging_state 0 0) 0x9000 c
    (mk_ptable {[ 0x2000 := blank_process ]} [] 0).

Definition no_tasks : sched := mk_sched ∅ 0 0 0.

Lemma boot_tasks : tasks_ok boot_mem no_tasks ∅ 25600 [].
Proof.
  split; [|by split; constructor|apply kheap_fresh|done].
  split; [constructor|apply not_elem_of_nil|done|done|done].
Qed.

Definition a_frame : interrupt_frame := mk_frame 1 2 3 0 4 5 6 7 0x400123 0x1b 0x202 0x3feff0 0x23.

Lemma scheduler_refines_witness :
  exists r s n ks, run (New 0x2000) (boot_os boot_mem no_tasks) = Some (r, s) /\
    step_ok s ∅ n ks (Tick 0x46 a_frame).
Proof.
  destruct (scheduler_refines (boot_os boot_mem no_tasks) ∅ 25600 [] (New 0x2000)) as
    (r & s & n & ks & Hr & I & Ha & _).
  - split; [exact boot_tasks|intros Hne; by destruct Hne].
  - split; [discriminate|]. split; [lia|]. exists blank_process, TOYOS_PROGRAM_VIRTUAL_ADDRESS.
    split; [apply lookup_singleton_eq|intros m _; reflexivity].
  - exists r, s, n, ks. split; [exact Hr|]. apply (scheduler_refines s ∅ n ks (Tick 0x46 a_frame)); [exact I|].
    intros ->. discriminate Ha.
Defined.

Definition three_tasks : sched :=
  mk_sched (list_to_map [(0x1000, mk_task 0x10000 zero_regs 0x2000 0x3000 0);
                         (0x3000, mk_task 0x20000 zero_regs 0x2000 0x5000 0x1000);
                         (0x5000, mk_task 0x30000 zero_regs 0x2000 0 0x3000)]) 0x3000 0x1000 0x5000.

Lemma round_robin_witness :
  exists cs s, ticks 0x46 [a_frame; a_frame; a_frame] (boot_os boot_mem three_tasks) = Some (cs, s) /\
    map fst cs ≡ₚ [0x1000; 0x3000; 0x5000] /\
    last cs = Some (0x3000, task_return 0x46 (frame_regs a_frame)).
Proof.
  destruct (round_robin (boot_os boot_mem three_tasks) [0x1000; 0x3000; 0x5000] 0x46 a_frame [a_frame; a_frame])
    as (cs & s & x & Hr & Hp & Hl & _).
  - split; [|right; left]. split; [| |do 3 (eexists; split; [reflexivity|split; [reflexivity|split; [reflexivity|]]]);
      exact I|reflexivity|reflexivity].
    + repeat (apply NoDup_cons; split; [rewrite ?elem_of_cons, elem_of_nil; lia|]). apply NoDup_nil; exact I.
    + rewrite !elem_of_cons, elem_of_nil. unfold NULL. lia.
  - reflexivity.
  - exists cs, s. split; [exact Hr|]. split; [exact Hp|exact Hl].
Defined.

Lemma task_free_last_witness :
  exists t s s', task_new 0x2000 (boot_os boot_mem no_tasks) = Some (t, s) /\
    task_free t s = Some (OK, s') /\ tick 0x46 a_frame s' = None.
Proof.
  assert (tasks_ok (omem (boot_os boot_mem no_tasks)) (o_sched (boot_os boot_mem no_tasks)) ∅ 25600 []) as T0
    by exact boot_tasks.
  assert (procs (o_procs (boot_os boot_mem no_tasks)) !! 0x2000 = Some blank_process) as Hp
    by apply lookup_singleton_eq.
  generalize dependent (boot_os boot_mem no_tasks). intros s T0 Hp.
  destruct (task_new_ok s ∅ 25600 [] 0x2000 blank_process TOYOS_PROGRAM_VIRTUAL_ADDRESS T0) as
    (m & c & k & Hn & T & _ & Hc & _); [lia|discriminate|exact Hp|intros m _; reflexivity|].
  change (tasks_ok m c ∅ (25600 - 1027) [k]) in T. rewrite <- (omem_set s m) in T.
  destruct (task_free_last (upd m c s) ∅ (25600 - 1027) k 0x46 a_frame T Hc)
    as (s' & Hf & _ & _ & Ht).
  exists (ts_task k), (upd m c s), s'. split; [exact Hn|]. split; [exact Hf|exact Ht].
Defined.

End TaskProps.
