(* ===== verification/Process.v ===== *)
(** * Processes: process.c

    The process table, the program loader and the memory of a process, on the
    state of Task.v.  [struct process] is a record at its heap address; freeing
    it removes the record, so that a later use faults ([None]).  The files come
    from the virtual file system (File.v, Elf.v); program images, stacks and
    process memory are in physical memory, which kernel code reaches through
    its identity mapping. *)

From S2P Require Import Prelude CLib KAlloc Heap Paging AddressSpace PathParser Fat16 File Elf Task TaskMem.
Import Memory Str Paging Mmu PagingFacts ASpace PathParser Fat16 File Elf Task TaskList TaskRun TaskMem.
#[local] Open Scope prog_scope.

Definition TOYOS_MAX_PATH : Z := 108.
Definition TOYOS_MAX_PROCESSES : Z := 12.
Definition TOYOS_MAX_PROGRAM_ALLOCATIONS : Z := 1024.
Definition TOYOS_USER_PROGRAM_STACK_SIZE : Z := 1024 * 16.
Definition TOYOS_PROGRAM_VIRTUAL_STACK_ADDRESS_END : Z :=
  TOYOS_PROGRAM_VIRTUAL_STACK_ADDRESS_START - TOYOS_USER_PROGRAM_STACK_SIZE.

(** [sizeof(struct process)] and the size of the text of a command argument *)
Definition sizeof_process : Z := 9364.
Definition sizeof_argument : Z := 512.

Module Process.

(** *** Strings in memory *)

(** [strncpy] of string.c, [k] iterations left. *)
Fixpoint mstrncpy_loop (k : nat) (m : mem) (dest src i : Z) : mem * Z :=
  match k with
  | O => (m, i)
  | S k' =>
    let c := mread m (ptr_add src i) in
    if c =? 0 then (m, i) else mstrncpy_loop k' (mwrite m (ptr_add dest i) c) dest src (i + 1)
  end.

Definition mstrncpy (m : mem) (dest src n : Z) : mem :=
  let '(m, i) := mstrncpy_loop (Z.to_nat (n - 1)) m dest src 0 in mwrite m (ptr_add dest i) 0.

(** *** Fields of a process *)

Definition with_program (g : program) (x : process) : process :=
  mk_process (p_id x) (p_filename x) (p_task x) (allocations x) (p_stack x) (p_size x) (keyboard x) g
    (argc x) (argv x).

Definition with_size (n : Z) (x : process) : process :=
  mk_process (p_id x) (p_filename x) (p_task x) (allocations x) (p_stack x) n (keyboard x) (p_program x)
    (argc x) (argv x).

Definition with_setup (filename : list Z) (stack id : Z) (x : process) : process :=
  mk_process id filename (p_task x) (allocations x) stack (p_size x) (keyboard x) (p_program x)
    (argc x) (argv x).

Definition with_task (t : Z) (x : process) : process :=
  mk_process (p_id x) (p_filename x) t (allocations x) (p_stack x) (p_size x) (keyboard x) (p_program x)
    (argc x) (argv x).

Definition with_allocations (a : list (Z * Z)) (x : process) : process :=
  mk_process (p_id x) (p_filename x) (p_task x) a (p_stack x) (p_size x) (keyboard x) (p_program x)
    (argc x) (argv x).

Definition with_arguments (c v : Z) (x : process) : process :=
  mk_process (p_id x) (p_filename x) (p_task x) (allocations x) (p_stack x) (p_size x) (keyboard x) (p_program x)
    c v.

(** What [kzalloc] leaves in a [struct process]. *)
Definition zero_process : process :=
  mk_process 0 (replicate (Z.to_nat TOYOS_MAX_PATH) 0) NULL
    (replicate (Z.to_nat TOYOS_MAX_PROGRAM_ALLOCATIONS) (NULL, 0)) NULL 0
    (mk_kb (replicate 1024 0) 0 0) (PROCESS_FILETYPE_ELF None) 0 NULL.

(** *** Allocations *)

(** The first index at or after [i] whose pointer is [ptr]. *)
Fixpoint allocation_index (l : list (Z * Z)) (ptr i : Z) : option Z :=
  match l with
  | [] => None
  | (p, _) :: l' => if p =? ptr then Some i else allocation_index l' ptr (i + 1)
  end.

Definition process_find_free_allocation_index (x : process) : Z :=
  match allocation_index (allocations x) NULL 0 with Some i => i | None => - ENOMEM end.

Definition process_is_process_pointer (x : process) (ptr : Z) : bool :=
  match allocation_index (allocations x) ptr 0 with Some _ => true | None => false end.

Definition process_allocation_unjoin (ptr : Z) (x : process) : process :=
  with_allocations (map (fun a => if fst a =? ptr then (NULL, 0) else a) (allocations x)) x.

(** The allocation with the address; [None] is the null pointer. *)
Definition process_get_allocation_by_addr (x : process) (addr : Z) : option (Z * Z) :=
  match allocation_index (allocations x) addr 0 with
  | Some i => allocations x !! Z.to_nat i
  | None => None
  end.

(** *** The process table *)

(** The first null slot at or after [i]. *)
Fixpoint free_process_slot (l : list Z) (i : Z) : option Z :=
  match l with
  | [] => None
  | p :: l' => if p =? NULL then Some i else free_process_slot l' (i + 1)
  end.

Definition process_get_free_slot (t : ptable) : Z :=
  match free_process_slot (processes t) 0 with Some i => i | None => - EISTKN end.

Definition process_get (process_id : Z) (t : ptable) : Z :=
  if (process_id <? 0) || (TOYOS_MAX_PROCESSES <=? process_id) then NULL
  else nth (Z.to_nat process_id) (processes t) NULL.

Definition process_switch (p : Z) (t : ptable) : ptable := mk_ptable (procs t) (processes t) p.

(** The first process of the table; [panick] does not return. *)
Fixpoint process_switch_to_any_loop (l : list Z) (t : ptable) : option ptable :=
  match l with
  | [] => None
  | p :: l' => if negb (p =? NULL) then Some (process_switch p t) else process_switch_to_any_loop l' t
  end.

Definition process_switch_to_any (t : ptable) : option ptable := process_switch_to_any_loop (processes t) t.

Section Ops.
Context {S H : Type} `{KAlloc mem} `{HasAlloc mem S}.

Abbreviation O := (M (os S H)).

Definition put_process (p : Z) (x : process) : O unit :=
  modify (fun s => set_procs (mk_ptable (<[p := x]> (procs (o_procs s))) (processes (o_procs s))
    (current_process (o_procs s))) s).

Definition change_process (p : Z) (g : process -> process) : O unit :=
  let! x := get_process p in put_process p (g x).

Definition on_table (g : ptable -> option ptable) : O unit := fun s =>
  match g (o_procs s) with Some t => Some (tt, set_procs t s) | None => None end.

(** [process->task->page_directory] *)
Definition page_directory_of (x : process) : O Z :=
  let! t := on_sched (get_task (p_task x)) in ret (page_directory t).

(** [kfree] of a [struct process] *)
Definition kfree_process (p : Z) : O unit :=
  task_kfree p ;!
  on_table (fun t => Some (mk_ptable (delete p (procs t)) (processes t) (current_process t))).

(** *** Loading the program *)

(** The label [out] of [process_load_binary]. *)
Definition binary_out (fd res : Z) : O Z := let! _ := on_k (fclose fd) in ret res.

Definition process_load_binary (filename : list Z) (process : Z) : O Z :=
  let! fd := on_k (fopen filename (Some [114; 0])) in
  if fd <? 0 then ret (- EIO)
  else
    let! (res, st) := on_k (fstat fd) in
    if res <? 0 then binary_out fd (- EIO)
    else
      let! st := lift st in
      let! program_data_ptr := task_kzalloc (st_filesize st) in
      if program_data_ptr =? NULL then binary_out fd (- ENOMEM)
      else
        let! n := on_k (fread_mem program_data_ptr (st_filesize st) 1 fd) in
        if negb (n =? 1) then binary_out fd (- EIO)
        else
          change_process process (fun x =>
            with_size (st_filesize st) (with_program (PROCESS_FILETYPE_BINARY program_data_ptr) x)) ;!
          binary_out fd res.

Definition process_load_elf (filename : list Z) (process : Z) : O Z :=
  let! (res, elf_file) := on_k (elf_load filename) in
  if res <? 0 then ret res
  else change_process process (with_program (PROCESS_FILETYPE_ELF elf_file)) ;! ret res.

Definition process_load_data (filename : list Z) (process : Z) : O Z :=
  let! res := process_load_elf filename process in
  if res =? - EINFORMAT then process_load_binary filename process else ret res.

(** *** Mapping the program *)

Definition process_map_binary (process : Z) : O Z :=
  let! x := get_process process in
  match p_program x with
  | PROCESS_FILETYPE_ELF _ => fault
  | PROCESS_FILETYPE_BINARY ptr =>
    let! chunk := page_directory_of x in
    on_mem (fun m => paging_map_to m chunk TOYOS_PROGRAM_VIRTUAL_ADDRESS ptr
      (paging_align_address (ptr_add ptr (p_size x)))
      (Z.lor (Z.lor PAGING_IS_PRESENT PAGING_ACCESS_FROM_ALL) PAGING_IS_WRITEABLE))
  end.

(** The body of the loop: one program header. *)
Definition map_phdr (m : mem) (chunk : Z) (f : elf_file) (phdr : elf32_phdr) : Z * mem :=
  let phdr_phys_address := elf_phdr_phys_address f phdr in
  let flags := Z.lor PAGING_IS_PRESENT PAGING_ACCESS_FROM_ALL in
  let flags := if negb (Z.land (p_flags phdr) PF_W =? 0) then Z.lor flags PAGING_IS_WRITEABLE else flags in
  let virt := paging_align_to_lower_page (p_vaddr phdr) in
  let phys := paging_align_to_lower_page phdr_phys_address in
  let phys_end := paging_align_address (ptr_add phdr_phys_address (p_memsz phdr)) in
  paging_map_to m chunk virt phys phys_end flags.

(** [e_phnum] is a 16-bit field, so 65536 rounds are enough. *)
Definition map_elf_fuel : nat := Z.to_nat 65536.

Fixpoint map_elf_loop (n : nat) (m : mem) (chunk : Z) (f : elf_file) (header phdrs i res : Z)
    : option (Z * mem) :=
  if negb (i <? e_phnum (read_header m header)) then Some (res, m)
  else
    match n with
    | 0%nat => None
    | Datatypes.S n' =>
      let '(res, m) := map_phdr m chunk f (read_phdr m (ptr_add phdrs (32 * i))) in
      if res <? 0 then Some (res, m) else map_elf_loop n' m chunk f header phdrs (i + 1) res
    end.

Definition process_map_elf (process : Z) : O Z :=
  let! x := get_process process in
  match p_program x with
  | PROCESS_FILETYPE_ELF (Some (_, elf_file)) =>
    let! chunk := page_directory_of x in
    let! s := get in
    let header := elf_header elf_file in
    let phdrs := elf_pheader (omem s) header in
    let! (res, m) := lift (map_elf_loop map_elf_fuel (omem s) chunk elf_file header phdrs 0 OK) in
    modify (set_omem m) ;!
    ret res
  | _ => fault
  end.

Definition process_map_memory (process : Z) : O Z :=
  let! x := get_process process in
  let! res := (match p_program x with
               | PROCESS_FILETYPE_ELF _ => process_map_elf process
               | PROCESS_FILETYPE_BINARY _ => process_map_binary process
               end) in
  if res <? 0 then ret res
  else
    let! chunk := page_directory_of x in
    let! res := on_mem (fun m => paging_map_to m chunk TOYOS_PROGRAM_VIRTUAL_STACK_ADDRESS_END (p_stack x)
      (paging_align_address (ptr_add (p_stack x) TOYOS_USER_PROGRAM_STACK_SIZE))
      (Z.lor (Z.lor PAGING_IS_PRESENT PAGING_IS_WRITEABLE) PAGING_ACCESS_FROM_ALL)) in
    if res <? 0 then ret res else ret OK.

(** *** Loading a process *)

(** The label [out] of [process_load_for_slot] for a negative [res]. *)
Definition load_failed (process program_stack_ptr res : Z) : O (Z * Z) :=
  (if process =? NULL then ret tt
   else
     let! x := get_process process in
     if p_task x =? NULL then ret tt else let! _ := task_free (p_task x) in ret tt) ;!
  kfree_process process ;!
  task_kfree program_stack_ptr ;!
  ret (res, NULL).

(** The result and, on success, [*process]. *)
Definition process_load_for_slot (filename : list Z) (process_slot : Z) : O (Z * Z) :=
  let! s := get in
  if negb (process_get process_slot (o_procs s) =? OK) then load_failed NULL NULL (- EISTKN)
  else
    let! process := task_kzalloc sizeof_process in
    if process =? NULL then load_failed NULL NULL (- ENOMEM)
    else
      put_process process zero_process ;!
      let! res := process_load_data filename process in
      if res <? 0 then load_failed process NULL res
      else
        let! program_stack_ptr := task_kzalloc TOYOS_USER_PROGRAM_STACK_SIZE in
        if program_stack_ptr =? NULL then load_failed process NULL (- ENOMEM)
        else
          let! x := get_process process in
          let! name := lift (strncpy (p_filename x) filename TOYOS_MAX_PATH) in
          change_process process (with_setup name program_stack_ptr (u16 process_slot)) ;!
          let! task := task_new process in
          if task =? NULL then load_failed process program_stack_ptr (s32 task)
          else
            change_process process (with_task task) ;!
            let! res := process_map_memory process in
            if res <? 0 then load_failed process program_stack_ptr res
            else
              on_table (fun t =>
                if decide (0 <= process_slot < Z.of_nat (length (processes t)))
                then Some (mk_ptable (procs t) (<[Z.to_nat process_slot := process]> (processes t))
                  (current_process t)) else None) ;!
              ret (res, process).

Definition process_load (filename : list Z) : O (Z * Z) :=
  let! s := get in
  let process_slot := process_get_free_slot (o_procs s) in
  if process_slot <? 0 then ret (- EISTKN, NULL) else process_load_for_slot filename process_slot.

(** [None] is a null pointer. *)
Definition process_load_and_switch (filename : option (list Z)) : O (Z * Z) :=
  match filename with
  | None => ret (- EINVARG, NULL)
  | Some filename =>
    let! (res, process) := process_load filename in
    if res =? OK then on_table (fun t => Some (process_switch process t)) ;! ret (res, process)
    else ret (res, process)
  end.

Definition process_current : O Z := let! s := get in ret (current_process (o_procs s)).

(** *** Memory of a process *)

Definition process_malloc (process size : Z) : O Z :=
  let! ptr := task_kzalloc size in
  if ptr =? NULL then ret NULL
  else
    let! x := get_process process in
    let index := process_find_free_allocation_index x in
    if index <? 0 then task_kfree ptr ;! ret NULL
    else
      let! chunk := page_directory_of x in
      let! res := on_mem (fun m => paging_map_to m chunk ptr ptr (paging_align_address (ptr_add ptr size))
        (Z.lor (Z.lor PAGING_IS_WRITEABLE PAGING_IS_PRESENT) PAGING_ACCESS_FROM_ALL)) in
      if res <? 0 then task_kfree ptr ;! ret NULL
      else
        put_process process (with_allocations (<[Z.to_nat index := (ptr, size)]> (allocations x)) x) ;!
        ret ptr.

Definition process_free (process ptr : Z) : O unit :=
  let! x := get_process process in
  match process_get_allocation_by_addr x ptr with
  | None => ret tt
  | Some (p, size) =>
    let! chunk := page_directory_of x in
    let! res := on_mem (fun m => paging_map_to m chunk p p (paging_align_address (ptr_add p size)) 0) in
    if res <? 0 then ret tt
    else change_process process (process_allocation_unjoin ptr) ;! task_kfree ptr
  end.

(** [n] iterations left. *)
Fixpoint terminate_allocations_loop (n : nat) (process i : Z) : O unit :=
  match n with
  | 0%nat => ret tt
  | Datatypes.S n' =>
    let! x := get_process process in
    let! a := lift (allocations x !! Z.to_nat i) in
    process_free process (fst a) ;!
    terminate_allocations_loop n' process (i + 1)
  end.

Definition process_terminate_allocations (process : Z) : O Z :=
  terminate_allocations_loop (Z.to_nat TOYOS_MAX_PROGRAM_ALLOCATIONS) process 0 ;! ret OK.

(** *** Ending a process *)

Definition process_free_binary_data (ptr : Z) : O Z := task_kfree ptr ;! ret OK.

Definition process_free_elf_data (f : option (Z * elf_file)) : O Z := on_k (elf_close f) ;! ret OK.

Definition process_free_program_data (process : Z) : O Z :=
  let! x := get_process process in
  match p_program x with
  | PROCESS_FILETYPE_BINARY ptr => process_free_binary_data ptr
  | PROCESS_FILETYPE_ELF f => process_free_elf_data f
  end.

Definition process_unlink (process : Z) : O unit :=
  let! x := get_process process in
  on_table (fun t =>
    if decide (0 <= p_id x < Z.of_nat (length (processes t)))
    then Some (mk_ptable (procs t) (<[Z.to_nat (p_id x) := NULL]> (processes t)) (current_process t))
    else None) ;!
  let! s := get in
  if current_process (o_procs s) =? process then on_table process_switch_to_any else ret tt.

Definition process_terminate (process : Z) : O Z :=
  let! res := process_terminate_allocations process in
  if res <? 0 then ret res
  else
    let! res := process_free_program_data process in
    if res <? 0 then ret res
    else
      let! x := get_process process in
      task_kfree (p_stack x) ;!
      let! _ := task_free (p_task x) in
      process_unlink process ;!
      ret res.

(** *** Arguments *)

(** [struct command_argument]: 512 bytes and the address of the next one.  The
    list need not end: [fuel] bounds the walk. *)
Fixpoint process_count_command_arguments (fuel : nat) (m : mem) (current i : Z) : option Z :=
  if current =? NULL then Some i
  else
    match fuel with
    | 0%nat => None
    | Datatypes.S n => process_count_command_arguments n m (load32 m (ptr_add current sizeof_argument)) (i + 1)
    end.

Definition process_get_arguments (process : Z) : O (Z * Z) :=
  let! x := get_process process in ret (argc x, argv x).

(** The second loop; [OK], or [- ENOMEM] when the memory is exhausted. *)
Fixpoint inject_loop (fuel : nat) (process argv current i : Z) : O Z :=
  if current =? NULL then ret OK
  else
    match fuel with
    | 0%nat => fault
    | Datatypes.S n =>
      let! argument_str := process_malloc process sizeof_argument in
      if argument_str =? NULL then ret (- ENOMEM)
      else
        modify (fun s => set_omem (mstrncpy (omem s) argument_str current sizeof_argument) s) ;!
        modify (fun s => set_omem (store32 (omem s) (ptr_add argv (4 * i)) argument_str) s) ;!
        let! s := get in
        inject_loop n process argv (load32 (omem s) (ptr_add current sizeof_argument)) (i + 1)
    end.

Definition process_inject_arguments (fuel : nat) (process root_argument : Z) : O Z :=
  let! s := get in
  let! argc := lift (process_count_command_arguments fuel (omem s) root_argument 0) in
  if argc =? 0 then ret (- EIO)
  else
    let! argv := process_malloc process (4 * argc) in
    if argv =? NULL then ret (- ENOMEM)
    else
      let! res := inject_loop fuel process argv root_argument 0 in
      if res =? OK then change_process process (with_arguments argc argv) ;! ret res else ret res.

(** *** Fork *)

(** The loop over the allocations of the parent, [n] iterations left. *)
Fixpoint fork_loop (n : nat) (parent child i : Z) : O unit :=
  match n with
  | 0%nat => ret tt
  | Datatypes.S n' =>
    let! x := get_process parent in
    let! a := lift (allocations x !! Z.to_nat i) in
    (if fst a =? NULL then ret tt
     else
       let! newptr := process_malloc child (snd a) in
       if newptr =? NULL then ret tt
       else modify (fun s => set_omem (memcpy (omem s) newptr (fst a) (snd a)) s)) ;!
    fork_loop n' parent child (i + 1)
  end.

(** [child->task->registers = task_current()->registers; ...eax = 0] *)
Definition with_eax (v : Z) (r : registers) : registers :=
  mk_regs (edi r) (esi r) (ebp r) (ebx r) (edx r) (ecx r) v (ip r) (cs r) (flags r) (esp r) (ss r).

Definition with_regs (r : registers) (t : task) : task :=
  mk_task (page_directory t) r (process_of t) (next t) (prev t).

(** The 16-bit result and, on success, [*out_process]. *)
Definition process_fork : O (Z * Z) :=
  let! parent := process_current in
  if parent =? NULL then ret (u16 (- EINVARG), NULL)
  else
    let! s := get in
    let slot := process_get_free_slot (o_procs s) in
    if slot <? 0 then ret (u16 slot, NULL)
    else
      let! x := get_process parent in
      let! (res, child) := process_load_for_slot (p_filename x) slot in
      if res <? 0 then ret (u16 res, NULL)
      else
        let! y := get_process child in
        modify (fun s => set_omem (memcpy (omem s) (p_stack y) (p_stack x) TOYOS_USER_PROGRAM_STACK_SIZE) s) ;!
        fork_loop (Z.to_nat TOYOS_MAX_PROGRAM_ALLOCATIONS) parent child 0 ;!
        let! y := get_process child in
        let! cur := on_sched task_current in
        let! t := on_sched (get_task cur) in
        let! u := on_sched (get_task (p_task y)) in
        on_sched (put_task (p_task y) (with_regs (with_eax 0 (regs t)) u)) ;!
        ret (p_id y, child).

End Ops.
End Process.

(** ** Segments *)

Module ProcessFacts.
Import Process ElfFacts.

Definition lo (a : Z) : Z := a - a mod 4096.
Definition hi (a : Z) : Z := (a + 4095) / 4096 * 4096.

(** The pages of a segment, and the rights they are mapped with. *)
Definition covers (ph : elf32_phdr) (va : Z) : Prop :=
  lo (p_vaddr ph) <= va < hi (p_vaddr ph + p_memsz ph).

#[export] Instance covers_dec ph va : Decision (covers ph va).
Proof. unfold covers. apply _. Defined.

Definition rights (ph : elf32_phdr) : Z := if Z.land (p_flags ph) PF_W =? 0 then 4 else 6.

(** The page walk after mapping the segments [ps] of the image at [E]. *)
Definition segs (E : Z) (ps : list elf32_phdr) (va : Z) (tr : option (Z * Z)) : option (Z * Z) :=
  foldl (fun r ph => if decide (covers ph va)
    then Some (E + p_offset ph + (va - p_vaddr ph), rights ph) else r) tr ps.

(** A segment whose file offset and address agree on the offset in the page, and
    which ends below [limit] when it is counted from the start of the image; or one
    that asks for nothing.  It need not lie inside the image. *)
Definition phdr_ok (limit : Z) (ph : elf32_phdr) : Prop :=
  p_offset ph mod 4096 = p_vaddr ph mod 4096 /\ 0 <= p_offset ph /\ 0 <= p_memsz ph /\
  p_offset ph + p_memsz ph <= limit /\ 0 <= p_vaddr ph /\
  (4096 <= p_vaddr ph /\ p_vaddr ph + p_memsz ph < 0xfffff000 \/ p_vaddr ph = 0 /\ p_memsz ph = 0).

Lemma align_address_hi a : 0 <= a -> hi a < 2 ^ 32 -> paging_align_address a = hi a.
Proof.
  intros Ha Hh. unfold paging_align_address, hi in *. change PAGING_PAGE_SIZE with 4096.
  destruct (Z.eqb_spec (a mod 4096) 0) as [He|He]; cbn [negb]; [zlia|]. rewrite u32_small; zlia.
Qed.

Lemma align_lower_lo a : 0 <= a < 2 ^ 32 -> paging_align_to_lower_page a = lo a.
Proof. intros Ha. unfold paging_align_to_lower_page, lo. change PAGING_PAGE_SIZE with 4096. rewrite u32_small; zlia. Qed.

Section Segs.
Context `{KM : KAllocMem}.

(** The frames of a segment are below the last page, wherever its image is. *)
Definition phdr_limit : Z := 0xfffff000 - ka_top.

Lemma aspace_below m lv n chunk dir ts q b :
  aspace_live m lv n chunk dir ts -> lv !! q = Some b -> q + b * 4096 <= ka_top.
Proof.
  intros [_ Hown Ha] Hq. apply (ka_below _ _ _ _ _ Ha). rewrite <- add_pages_union.
  apply lookup_union_Some_r; [by apply owned_disjoint|done].
Qed.

Lemma aspace_range m lv n chunk dir ts q b :
  aspace_live m lv n chunk dir ts -> lv !! q = Some b -> 0 < q /\ 1 <= b /\ q + b * 4096 < 2 ^ 32.
Proof.
  intros [_ Hown Ha] Hq. apply (ka_range _ _ _ _ _ Ha). rewrite <- add_pages_union.
  apply lookup_union_Some_r; [by apply owned_disjoint|done].
Qed.

Lemma map_phdr_ok m lv n chunk dir ts f b ph :
  aspace_live m lv n chunk dir ts -> elf_memory f mod 4096 = 0 -> lv !! elf_memory f = Some b ->
  phdr_ok phdr_limit ph ->
  exists m', map_phdr m chunk f ph = (OK, m') /\ aspace_live m' lv n chunk dir ts /\ keeps lv m m' /\
    forall va, 0 <= va < 2 ^ 32 -> translate m' dir va = segs (elf_memory f) [ph] va (translate m dir va).
Proof.
  intros HL HE Hb (Hc & Ho & Hs & Hi & Hv & Hr). set (E := elf_memory f) in *.
  assert (0 < E /\ 1 <= b /\ E + b * 4096 < 2 ^ 32) as (HE0 & Hb1 & HEb) by (by eapply aspace_range).
  pose proof (aspace_below _ _ _ _ _ _ _ _ HL Hb) as HEt. unfold phdr_limit in Hi.
  unfold map_phdr, elf_phdr_phys_address. fold E.
  change (Z.lor PAGING_IS_PRESENT PAGING_ACCESS_FROM_ALL) with 5.
  rewrite (ptr_add_small E), ptr_add_small by lia.
  rewrite !align_lower_lo by (destruct Hr as [Hr|Hr]; lia).
  rewrite align_address_hi by (unfold hi; zlia).
  set (fl := if negb _ then _ else _).
  assert (0 <= fl < 4096 /\ Z.testbit fl 0 = true /\ Z.land fl 6 = rights ph) as (Hf1 & Hf2 & Hf3)
    by (unfold fl, rights; destruct (_ =? _); repeat split; (reflexivity || (vm_compute; congruence))).
  destruct (decide (p_vaddr ph = 0)) as [Hz|Hz].
  - destruct Hr as [Hr|[_ Hr]]; [lia|]. rewrite Hz in Hc |- *. rewrite Hr.
    assert (lo (E + p_offset ph) = E + p_offset ph /\ hi (E + p_offset ph + 0) = E + p_offset ph) as [-> ->]
      by (unfold lo, hi; zlia).
    exists m. split; [|split; [done|split; [apply keeps_refl|]]].
    + unfold paging_map_to, paging_map_range. change PAGING_PAGE_SIZE with 4096.
      rewrite (proj2 (Z.ltb_ge _ _)) by lia. replace ((E + p_offset ph) mod 4096) with 0 by zlia.
      rewrite Z.sub_diag. reflexivity.
    + intros va Hva. unfold segs. cbn. rewrite decide_False; [done|]. unfold covers. rewrite Hz, Hr.
      unfold lo, hi. zlia.
  - destruct Hr as [[Hr1 Hr2]|[? _]]; [|done].
    destruct (as_map m lv n chunk dir ts (lo (p_vaddr ph)) (lo (E + p_offset ph)) (hi (E + p_offset ph + p_memsz ph)) fl)
      as (m' & Hm & HL' & Hk & Ht); [done|split; unfold lo; zlia|unfold lo; zlia|unfold hi; zlia|
        unfold lo, hi; zlia|unfold hi; zlia|unfold lo, hi; zlia|done|done|].
    exists m'. split; [done|]. split; [done|]. split; [done|]. intros va Hva. rewrite Ht by done.
    unfold segs. cbn. unfold covers. rewrite Hf3.
    assert (lo (p_vaddr ph) + (hi (E + p_offset ph + p_memsz ph) - lo (E + p_offset ph))
      = hi (p_vaddr ph + p_memsz ph)) as -> by (unfold lo, hi; zlia).
    repeat case_decide; try done. do 2 f_equal. unfold lo. zlia.
Qed.

Lemma holds_keeps m m' lv p b l :
  keeps lv m m' -> lv !! p = Some b -> Z.of_nat (length l) <= b * 4096 -> holds m p l -> holds m' p l.
Proof. intros Hk Hp Hl Hh. eapply holds_keep; [done|]. intros x Hx. apply (Hk p b x Hp). lia. Qed.

Lemma map_elf_loop_ok lv n chunk dir ts f b l : forall ps fuel m i res,
  aspace_live m lv n chunk dir ts -> elf_memory f mod 4096 = 0 -> lv !! elf_memory f = Some b ->
  Z.of_nat (length l) <= b * 4096 -> holds m (elf_memory f) l -> image_ok l ->
  (i <= length (image_phdrs l))%nat -> ps = drop i (image_phdrs l) -> Forall (phdr_ok phdr_limit) ps ->
  (length ps <= fuel)%nat -> (ps = [] -> res = OK) ->
  exists m', map_elf_loop fuel m chunk f (elf_memory f) (elf_memory f + e_phoff (image_header l)) (Z.of_nat i) res
      = Some (OK, m') /\ aspace_live m' lv n chunk dir ts /\ keeps lv m m' /\
    forall va, 0 <= va < 2 ^ 32 -> translate m' dir va = segs (elf_memory f) ps va (translate m dir va).
Proof.
  induction ps as [|ph ps IH]; intros fuel m i res HL HE Hb Hlb Hh I Hi Hps Hok Hfu Hres;
    pose proof Hh as [_ HE0 HE1]; pose proof I as [Hlen _ _ _ Hpo Hpn].
  - assert (length (image_phdrs l) = Z.to_nat (e_phnum (image_header l))) as Hln
      by (unfold image_phdrs; by rewrite length_map, length_seqZ).
    apply (f_equal length) in Hps. rewrite length_drop in Hps. simpl in Hps.
    exists m. rewrite (Hres eq_refl). split; [|split; [done|split; [apply keeps_refl|done]]].
    destruct fuel; cbn [map_elf_loop]; rewrite (header_holds m _ l), (proj2 (Z.ltb_ge _ _)) by (done || lia); done.
  - assert (image_phdrs l !! i = Some ph) as Hph.
    { rewrite <- (Nat.add_0_r i), <- lookup_drop, <- Hps. done. }
    pose proof Hph as Hpi. unfold image_phdrs in Hpi. apply list_lookup_fmap_Some in Hpi as (j & -> & Hj).
    apply lookup_seqZ in Hj as [-> Hj]. rewrite Z.add_0_l in *.
    apply Forall_cons in Hok as [Hok1 Hok2]. destruct fuel as [|fuel]; [simpl in Hfu; lia|].
    destruct (map_phdr_ok m lv n chunk dir ts f b _ HL HE Hb Hok1) as (m1 & Hm1 & HL1 & Hk1 & Ht1).
    destruct (IH fuel m1 (Datatypes.S i) OK) as (m' & Hm' & HL' & Hk' & Ht'); try done.
    + by eapply holds_keeps.
    + apply lookup_lt_Some in Hph. lia.
    + rewrite (drop_S _ _ _ Hph) in Hps. by injection Hps.
    + simpl in Hfu. lia.
    + exists m'. split; [|split; [done|split; [by eapply keeps_trans|]]].
      * cbn [map_elf_loop]. rewrite (header_holds m _ l), (proj2 (Z.ltb_lt _ _)) by (done || lia). cbn [negb].
        rewrite ptr_add_small, <- Z.add_assoc by lia. rewrite (phdr_holds m _ l), Hm1 by (done || lia).
        change (OK <? 0) with false. cbv iota. by replace (Z.of_nat i + 1) with (Z.of_nat (Datatypes.S i)) by lia.
      * intros va Hva. rewrite Ht', Ht1 by done. done.
Qed.

End Segs.
End ProcessFacts.

(** ** Loading a program *)

Module ProcessLoad.
Import Process ProcessFacts ElfFacts ElfUse FileFacts FileUse PathFacts PathProps.

(** Allocations that belong to no task are added. *)
Section Grow.
Context {KA : KAlloc mem} {KL : KAllocLaws mem} {KM : KAllocMem}.

Lemma tasks_insert m m' c base n n' ks p b :
  tasks_ok m c base n ks -> add_pages base (all_blocks ks) !! p = None ->
  ka_live m' (<[p := b]> (add_pages base (all_blocks ks))) n' ->
  keeps (add_pages base (all_blocks ks)) m m' ->
  tasks_ok m' c (<[p := b]> base) n' ks.
Proof.
  intros [Hl [Hnd Ho] Ha Hs] Hp Ha' Hk. rewrite lookup_add_pages in Hp. case_decide as Hin; [done|].
  rewrite <- add_pages_insert in Ha' by done. split; [done| |done|by eapply spaces_keep].
  split; [done|]. rewrite Forall_forall in Ho |- *. intros b' Hb'. rewrite lookup_insert_ne; [by apply Ho|congruence].
Qed.

Lemma tasks_pages m m' c base n n' ks qs :
  tasks_ok m c base n ks -> owned (add_pages base (all_blocks ks)) qs ->
  ka_live m' (add_pages (add_pages base (all_blocks ks)) qs) n' ->
  keeps (add_pages base (all_blocks ks)) m m' ->
  tasks_ok m' c (add_pages base qs) n' ks.
Proof.
  intros [Hl Ho Ha Hs] Hq Ha' Hk. destruct (owned_swap _ _ _ Ho Hq) as [_ Ho'].
  rewrite add_pages_comm in Ha'. split; [done|done|done|by eapply spaces_keep].
Qed.

Lemma base_sub (base : gmap Z Z) ts : owned base ts -> base ⊆ add_pages base ts.
Proof. intros Ho. rewrite <- add_pages_union. by apply map_union_subseteq_r, owned_disjoint. Qed.

(** The address space of one task changes. *)
Lemma tasks_remap m m' c base n xs j ys :
  let lv := <[ts_task j := 1]> (add_pages base (all_blocks (xs ++ ys))) in
  tasks_ok m c base n (xs ++ j :: ys) ->
  aspace_live m' lv n (ts_chunk j) (ts_dir j) (ts_tabs j) -> keeps lv m m' ->
  tasks_ok m' c base n (xs ++ j :: ys) /\ keeps base m m' /\
  forall i va, i ∈ xs ++ ys -> 0 <= va < 2 ^ 32 -> translate m' (ts_dir i) va = translate m (ts_dir i) va.
Proof.
  intros lv T HL Hk. destruct (tasks_split _ _ _ _ _ _ _ T) as (Hf & _ & Hx). pose proof T as [Hl Ho _ Hs].
  apply (owned_perm _ _ _ (all_blocks_perm xs j ys)), owned_app_inv in Ho as [Ho _].
  assert (Forall (task_space m c) (xs ++ ys)) as Hs'
    by (apply Forall_app in Hs as [Hsx [_ Hsy]%Forall_cons]; by apply Forall_app).
  assert (keeps (add_pages base (all_blocks (xs ++ ys))) m m') as Hk'
    by (eapply keeps_sub; [|exact Hk]; by apply insert_subseteq).
  split; [|split; [eapply keeps_sub; [|exact Hk']; by apply base_sub|by apply (translate_keep _ _ _ _ _ Hk' Hs')]].
  apply tasks_join; [done|done|done|done|done|]. by eapply spaces_keep.
Qed.

End Grow.

Section Load.
Context {S H : Type} {KA : KAlloc mem} {KL : KAllocLaws mem} {KM : KAllocMem} {KR : KAllocRoom mem}.
Context {HA : HasAlloc mem S} {AL : AllocLens mem S} (f : filesystem S H) {FP : FsSpec f}.
Context (FL : forall L : KAllocLaws mem, FsLaws f).

Abbreviation st := (os S H).

Lemma zalloc_fits m lv n sz :
  ka_live m lv n -> size_ok sz -> (nblocks sz - 1) * (Z.of_nat (size lv) + 1) < n ->
  exists p m', ka_zalloc m sz = (p, m') /\ p <> NULL /\ p mod 4096 = 0 /\ lv !! p = None /\
    ka_live m' (<[p := nblocks sz]> lv) (n - nblocks sz) /\ keeps lv m m' /\
    forall x, p <= x < p + sz -> mread m' x = 0.
Proof.
  intros Ha Hs Hr. destruct (ka_zalloc m sz) as [p m'] eqn:Hz.
  pose proof (ka_room _ _ _ _ _ _ Ha Hs Hr Hz) as Hp.
  destruct (ka_zalloc_spec _ _ _ _ _ _ Ha Hs Hz) as [[? _]|(_ & Hal & Hf & Ha')]; [done|].
  exists p, m'. repeat (split; [done|]). split.
  - intros q j x Hq. by eapply kam_frame.
  - intros x Hx. exact (kam_zero _ _ _ _ _ _ Ha Hs Hz Hp x Hx).
Qed.

(** Enough free blocks for a program file of [sz] bytes. *)
Definition load_room (names : list (list Z)) (sz : Z) (lv : gmap Z Z) (n : Z) : Prop :=
  (nblocks sz + 3) * (Z.of_nat (size lv) + elf_blocks f names + 4) + 1040 <= n.

(** The tables of program [l] in the address space [j] of process [x]. *)
Record program_mapped (m : mem) (j : tspace) (x : process) (E : Z) (l : list Z) : Prop := {
  pm_bytes : holds m E l;
  pm_stack : forall a, p_stack x <= a < p_stack x + TOYOS_USER_PROGRAM_STACK_SIZE -> mread m a = 0;
  pm_walk : forall va, 0 <= va < 2 ^ 32 -> translate m (ts_dir j) va =
    if decide (TOYOS_PROGRAM_VIRTUAL_STACK_ADDRESS_END <= va < TOYOS_PROGRAM_VIRTUAL_STACK_ADDRESS_START)
    then Some (p_stack x + (va - TOYOS_PROGRAM_VIRTUAL_STACK_ADDRESS_END), 6)
    else segs E (image_phdrs l) va (Some (va, 4))
}.

(** *** [process_map_memory] *)

Lemma phnum_range m p l : holds m p l -> 0 <= e_phnum (image_header l) <= 65536.
Proof.
  intros [Hb _ _]. pose proof (le_val_range (sub l 44 2)) as Hr.
  assert (Forall is_byte (sub l 44 2)) as Hby by (unfold sub; rewrite <- Hb; apply Forall_take, Forall_drop, mread_n_bytes).
  specialize (Hr Hby). unfold sub in Hr. rewrite length_take in Hr. cbn [e_phnum image_header]. unfold sub.
  assert (256 ^ Z.of_nat (2 `min` length (drop (Z.to_nat 44) l)) <= 256 ^ 2)
    by (apply Z.pow_le_mono_r; lia). lia.
Qed.

Lemma map_elf_ok (s : st) lv n p x addr file b l y dir ts :
  aspace_live (omem s) lv n (page_directory y) dir ts ->
  procs (o_procs s) !! p = Some x -> p_program x = PROCESS_FILETYPE_ELF (Some (addr, file)) ->
  tasks (o_sched s) !! p_task x = Some y -> elf_memory file mod 4096 = 0 -> lv !! elf_memory file = Some b ->
  Z.of_nat (length l) <= b * 4096 -> holds (omem s) (elf_memory file) l -> image_ok l ->
  Forall (phdr_ok phdr_limit) (image_phdrs l) ->
  exists m', process_map_elf p s = Some (OK, set_omem m' s) /\
    aspace_live m' lv n (page_directory y) dir ts /\ keeps lv (omem s) m' /\
    forall va, 0 <= va < 2 ^ 32 ->
      translate m' dir va = segs (elf_memory file) (image_phdrs l) va (translate (omem s) dir va).
Proof.
  intros HL Hp Hpr Hy HE Hb Hlb Hh I Hok. pose proof (phnum_range _ _ _ Hh) as Hn.
  destruct (aspace_range _ _ _ _ _ _ _ _ HL Hb) as (_ & _ & HEb).
  pose proof Hh as [_ HE0 HE1]. pose proof I as [Hlen _ _ _ Hpo Hpn].
  destruct (map_elf_loop_ok lv n (page_directory y) dir ts file b l (image_phdrs l) map_elf_fuel
    (omem s) 0 OK HL HE Hb Hlb Hh I) as (m' & Hm & HL' & Hk & Ht);
    [lia|done|done|unfold image_phdrs, map_elf_fuel; rewrite length_map, length_seqZ; lia|done|].
  exists m'. split; [|done]. unfold process_map_elf.
  rewrite (bind_Some (get_process p) _ s x s) by (unfold get_process; by rewrite Hp). rewrite Hpr.
  unfold page_directory_of. unfold bind at 1, bind at 1, on_sched. rewrite (get_task_eq _ _ _ Hy).
  unfold ret at 1, bind at 1, get, elf_header, elf_pheader. change (omem (set_sched _ s)) with (omem s).
  rewrite (header_holds _ _ l Hh) by lia. rewrite (proj2 (Z.eqb_neq (e_phoff _) 0)) by lia.
  rewrite (ptr_add_small (elf_memory file)) by lia.
  rewrite (bind_lift _ _ _ _ Hm). cbn. by destruct s.
Qed.

Lemma map_memory_ok (s : st) base n ks j p x addr file b l y :
  tasks_ok (omem s) (o_sched s) base n (ks ++ [j]) ->
  procs (o_procs s) !! p = Some x -> p_program x = PROCESS_FILETYPE_ELF (Some (addr, file)) ->
  p_task x = ts_task j -> tasks (o_sched s) !! p_task x = Some y -> page_directory y = ts_chunk j ->
  elf_memory file mod 4096 = 0 -> base !! elf_memory file = Some b -> Z.of_nat (length l) <= b * 4096 ->
  base !! p_stack x = Some 4 -> p_stack x mod 4096 = 0 ->
  holds (omem s) (elf_memory file) l -> image_ok l -> Forall (phdr_ok phdr_limit) (image_phdrs l) ->
  (forall a, p_stack x <= a < p_stack x + TOYOS_USER_PROGRAM_STACK_SIZE -> mread (omem s) a = 0) ->
  (forall va, 0 <= va < 2 ^ 32 -> translate (omem s) (ts_dir j) va = Some (va, 4)) ->
  exists m', process_map_memory p s = Some (OK, set_omem m' s) /\
    tasks_ok m' (o_sched s) base n (ks ++ [j]) /\ keeps base (omem s) m' /\
    (forall i va, i ∈ ks -> 0 <= va < 2 ^ 32 -> translate m' (ts_dir i) va = translate (omem s) (ts_dir i) va) /\
    program_mapped m' j x (elf_memory file) l.
Proof.
  intros T Hp Hpr Hpt Hy Hpd HE Hb Hlb Hst Hst4 Hh I Hok Hz Htr.
  destruct (tasks_split _ _ _ _ _ _ _ T) as (Hf & HL & _). rewrite app_nil_r in Hf, HL.
  set (lv := add_pages base (all_blocks ks)) in *. set (lv' := <[ts_task j := 1]> lv) in *.
  pose proof T as [Hl Ho Ha Hs]. pose proof (base_sub _ _ Ho) as Hbt. rewrite all_blocks_app in Ho. apply owned_app_inv in Ho as [Ho _].
  assert (lv ⊆ lv') as Hlv by (by apply insert_subseteq).
  assert (base ⊆ lv') as Hbl by (etrans; [by apply base_sub|done]).
  destruct (ka_range _ _ _ (p_stack x) 4 Ha) as (Hs0 & _ & Hs1).
  { by eapply lookup_weaken. }
  rewrite <- Hpd in HL.
  destruct (map_elf_ok s lv' n p x addr file b l y _ _ HL Hp Hpr Hy HE (lookup_weaken _ _ _ _ Hb Hbl) Hlb Hh I Hok)
    as (m1 & Hm1 & HL1 & Hk1 & Ht1).
  destruct (as_map m1 lv' n _ _ _ TOYOS_PROGRAM_VIRTUAL_STACK_ADDRESS_END (p_stack x) (p_stack x + 16384) 7 HL1)
    as (m2 & Hm2 & HL2 & Hk2 & Ht2); [done|done|zlia|lia|lia|
    change TOYOS_PROGRAM_VIRTUAL_STACK_ADDRESS_END with 0x3fb000; lia|lia|done|].
  assert (keeps lv' (omem s) m2) as Hk by (by eapply keeps_trans).
  rewrite Hpd in HL2. pose proof (tasks_remap (omem s) m2 (o_sched s) base n ks j []) as Hre.
  cbv zeta in Hre. rewrite app_nil_r in Hre. specialize (Hre T HL2 Hk).
  exists m2. split; [|split; [|split; [|split]]].
  - unfold process_map_memory. rewrite (bind_Some (get_process p) _ s x s) by (unfold get_process; by rewrite Hp).
    rewrite Hpr. rewrite (bind_Some _ _ _ _ _ Hm1). change (OK <? 0) with false. cbv iota.
    unfold page_directory_of. unfold bind at 1, bind at 1, on_sched.
    change (o_sched (set_omem m1 s)) with (o_sched s). rewrite (get_task_eq _ _ _ Hy). unfold ret at 1.
    unfold TOYOS_USER_PROGRAM_STACK_SIZE. rewrite ptr_add_small by lia.
    rewrite align_address_hi by (unfold hi; zlia).
    replace (hi (p_stack x + 1024 * 16)) with (p_stack x + 16384) by (unfold hi; zlia).
    rewrite (bind_on_mem _ _ _ OK m2); [|].
    + unfold set_omem, set_k, set_sched. cbn [o_k o_pg kernel_chunk o_sched o_procs]. rewrite set_kmem_set. by destruct s.
    + change (omem (set_sched (o_sched s) (set_omem m1 s))) with (omem (set_omem m1 s)). rewrite omem_set. exact Hm2.
  - apply Hre.
  - apply Hre.
  - apply Hre.
  - split.
    + eapply (holds_keeps (omem s) m2 lv'); [done|by eapply lookup_weaken|done|done].
    + intros a Ha'. rewrite (Hk (p_stack x) 4 a); [by apply Hz|by eapply lookup_weaken|].
      unfold TOYOS_USER_PROGRAM_STACK_SIZE in Ha'. lia.
    + intros va Hva. rewrite Ht2, Ht1, Htr by done.
      replace (TOYOS_PROGRAM_VIRTUAL_STACK_ADDRESS_END + (p_stack x + 16384 - p_stack x))
        with TOYOS_PROGRAM_VIRTUAL_STACK_ADDRESS_START by
        (unfold TOYOS_PROGRAM_VIRTUAL_STACK_ADDRESS_END, TOYOS_USER_PROGRAM_STACK_SIZE; lia). done.
Qed.

(** *** [process_load_data] on an ELF file *)

Definition set_proc (p : Z) (x : process) (s : st) : st :=
  set_procs (mk_ptable (<[p := x]> (procs (o_procs s))) (processes (o_procs s)) (current_process (o_procs s))) s.

Lemma change_process_ok (s : st) p x g :
  procs (o_procs s) !! p = Some x -> change_process p g s = Some (tt, set_proc p (g x) s).
Proof. intros Hp. unfold change_process, bind, get_process. by rewrite Hp. Qed.

Lemma load_data_ok (s : st) base n ks i p x names rest sz l :
  tasks_ok (omem s) (o_sched s) base n ks -> ready f (o_k s) (add_pages base (all_blocks ks)) n i ->
  (i < 511)%nat -> Forall comp names -> names <> [] -> (length (join names) <= 105)%nat ->
  fl_opens (sys (o_k s)) names FILE_MODE_READ -> fl_content (sys (o_k s)) names sz l ->
  fl_size (sys (o_k s)) names sz -> image_ok l -> procs (o_procs s) !! p = Some x ->
  (nblocks sz - 1) * (Z.of_nat (size (add_pages base (all_blocks ks))) + elf_blocks f names)
    + elf_blocks f names <= n ->
  exists addr E s2 ps, let k2 := set_sys s2 (o_k s) in
    process_load_data (path_arg names rest) p s = Some (OK, set_proc p
      (with_program (PROCESS_FILETYPE_ELF (Some (addr, elf_of E l))) x) (set_k k2 s)) /\
    elf_memory (elf_of E l) = E /\ holds (kmem k2) E l /\ keeps (add_pages base (all_blocks ks)) (omem s) (kmem k2) /\
    E mod 4096 = 0 /\ length ps = (2 * length names + 1)%nat /\ owned (add_pages base (all_blocks ks)) (addr :: ps) /\
    add_pages (add_pages base (all_blocks ks)) (addr :: ps) !! E = None /\
    tasks_ok (kmem k2) (o_sched s) (<[E := nblocks sz]> (add_pages base (addr :: ps)))
      (n - Z.of_nat (length (addr :: ps)) - nblocks sz) ks.
Proof.
  intros T R Hi Hc Hne Hl Hop Hct Hsz I Hp Hr. set (lv := add_pages base (all_blocks ks)) in *.
  destruct (elf_load_ok f FL (o_k s) lv n i names rest sz l R Hi Hc Hne Hl Hop Hct Hsz I Hr)
    as (addr & file & s2 & ps & He & Hh & Hk & Hps & Ho & Hfile & HE & HE4 & Ha).
  set (E := elf_memory file) in *. exists addr, E, s2, ps. cbn zeta. rewrite <- Hfile.
  split; [|split; [done|split; [done|split; [done|split; [done|split; [done|split; [done|split; [done|]]]]]]]].
  - unfold process_load_data, process_load_elf.
    rewrite (bind_Some _ _ s 0 (set_proc p (with_program (PROCESS_FILETYPE_ELF (Some (addr, file))) x)
      (set_k (set_sys s2 (o_k s)) s))); [done|].
    unfold bind at 1, on_k. rewrite He. change (0 <? 0) with false. cbv iota.
    by rewrite (bind_Some _ _ _ _ _ (change_process_ok (set_k (set_sys s2 (o_k s)) s) p x _ Hp)).
  - pose proof T as [_ Hob _ _]. destruct (owned_swap _ _ _ Hob Ho) as [_ Hob'].
    pose proof HE as HE'. rewrite lookup_add_pages in HE'. case_decide as Hin; [done|].
    unfold lv in HE'. rewrite lookup_add_pages in HE'. case_decide as Hin2; [done|].
    unfold lv in Ha. rewrite add_pages_comm, <- add_pages_insert in Ha by done.
    destruct T as [T1 T2 T3 T4]. split; [done| |done|eapply spaces_keep; [exact Hk|done|done]].
    destruct Hob' as [Hn Hf]. split; [done|]. rewrite Forall_forall in Hf |- *. intros b Hb.
    rewrite lookup_insert_ne; [by apply Hf|congruence].
Qed.

(** *** [process_load_for_slot] *)

(** The file name field: at most 107 characters and a terminator. *)
Definition name_field (names : list (list Z)) : list Z :=
  let t := take 107 (path_text 0 (join names)) in
  t ++ 0 :: drop (Datatypes.S (length t)) (replicate (Z.to_nat TOYOS_MAX_PATH) 0).

Lemma name_field_ok names rest :
  Forall comp names ->
  strncpy (p_filename zero_process) (path_arg names rest) TOYOS_MAX_PATH = Some (name_field names).
Proof.
  intros Hc. apply (strncpy_spec _ (path_text 0 (join names)) rest); [|unfold TOYOS_MAX_PATH; lia|].
  - constructor; [unfold is_char; lia|]. constructor; [unfold is_char, COLON; lia|].
    constructor; [unfold is_char, SLASH; lia|]. by apply join_chars.
  - cbn [p_filename zero_process]. rewrite length_replicate, length_take. unfold TOYOS_MAX_PATH. lia.
Qed.

(** A process loaded from the image [l] into [slot]: its table entry, its task
    and its address space; what belonged to others is untouched. *)
Record loaded (s s' : st) (base base' : gmap Z Z) (ks : list tspace) (j : tspace)
    (p : Z) (x : process) (E : Z) (names : list (list Z)) (sz : Z) (l : list Z) (slot : Z) : Prop := {
  ld_table : o_procs s' = mk_ptable (<[p := x]> (procs (o_procs s)))
    (<[Z.to_nat slot := p]> (processes (o_procs s))) (current_process (o_procs s));
  ld_proc : exists addr, base' !! addr = Some 1 /\ NoDup [E; addr; p_stack x; p] /\
    elf_memory (elf_of E l) = E /\
    x = mk_process slot (name_field names) (ts_task j) (allocations zero_process) (p_stack x) 0
      (keyboard zero_process) (PROCESS_FILETYPE_ELF (Some (addr, elf_of E l))) 0 NULL;
  ld_base : base ⊆ base' /\ base !! p = None /\ p <> NULL /\ base' !! p = Some 3 /\
    base' !! p_stack x = Some 4 /\ base' !! E = Some (nblocks sz);
  ld_keeps : keeps base (omem s) (omem s');
  ld_others : forall i va, i ∈ ks -> 0 <= va < 2 ^ 32 ->
    translate (omem s') (ts_dir i) va = translate (omem s) (ts_dir i) va;
  ld_task : body <$> tasks (o_sched s') !! ts_task j
    = Some (ts_chunk j, start_regs (e_entry (image_header l)), p);
  ld_bodies : forall t, t <> ts_task j ->
    body <$> tasks (o_sched s') !! t = body <$> tasks (o_sched s) !! t;
  ld_mapped : program_mapped (omem s') j x E l;
  ld_rest : o_pg s' = o_pg s /\ kernel_chunk s' = kernel_chunk s
}.

(** What a load needs of the file system and of the heap. *)
Record loadable (s : st) (base : gmap Z Z) (n : Z) (ks : list tspace) (names : list (list Z)) (sz : Z) (l : list Z)
    : Prop := {
  lo_tasks : tasks_ok (omem s) (o_sched s) base n ks;
  lo_ready : exists i, ready f (o_k s) (add_pages base (all_blocks ks)) n i /\ (i < 511)%nat;
  lo_names : Forall comp names /\ names <> [] /\ (length (join names) <= 105)%nat;
  lo_opens : fl_opens (sys (o_k s)) names FILE_MODE_READ;
  lo_content : fl_content (sys (o_k s)) names sz l;
  lo_size : fl_size (sys (o_k s)) names sz;
  lo_image : image_ok l;
  lo_phdrs : Forall (phdr_ok phdr_limit) (image_phdrs l);
  lo_room : load_room names sz (add_pages base (all_blocks ks)) n
}.

(** The allocations before the task is created. *)
Lemma load_image_ok (s : st) base n ks names rest sz l :
  loadable s base n ks names sz l ->
  exists p addr E stk ps m1 s2 m3,
    let lv := add_pages base (all_blocks ks) in
    let x := with_program (PROCESS_FILETYPE_ELF (Some (addr, elf_of E l))) zero_process in
    let s1 := set_proc p zero_process (set_omem m1 s) in
    let s3 := set_proc p x (set_k (set_sys s2 (o_k s1)) s1) in
    let base3 := <[stk := 4]> (<[E := nblocks sz]> (add_pages (<[p := 3]> base) (addr :: ps))) in
    ka_zalloc (omem s) sizeof_process = (p, m1) /\ p <> NULL /\
    process_load_data (path_arg names rest) p s1 = Some (OK, s3) /\
    ka_zalloc (omem s3) TOYOS_USER_PROGRAM_STACK_SIZE = (stk, m3) /\ stk <> NULL /\ stk mod 4096 = 0 /\
    E mod 4096 = 0 /\ elf_memory (elf_of E l) = E /\ holds m3 E l /\ Z.of_nat (length l) <= nblocks sz * 4096 /\
    (forall a, stk <= a < stk + TOYOS_USER_PROGRAM_STACK_SIZE -> mread m3 a = 0) /\
    keeps lv (omem s) m3 /\ base ⊆ base3 /\ base !! p = None /\ base3 !! p = Some 3 /\ base3 !! E = Some (nblocks sz) /\
    base3 !! addr = Some 1 /\ NoDup [E; addr; stk; p] /\
    exists n3, tasks_ok m3 (o_sched s) base3 n3 ks /\ 1027 <= n3 /\
      n3 = n - (2 * Z.of_nat (length names) + 9 + nblocks sz).
Proof.
  intros [T (i & R & Hi) (Hc & Hne & Hl) Hop Hct Hsz I Hph Hr]. unfold load_room in Hr.
  set (lv := add_pages base (all_blocks ks)) in *. set (B := elf_blocks f names) in *.
  assert (0 < sz < 2 ^ 31 /\ Z.of_nat (length l) = sz) as [Hsz0 Hlen]
    by (destruct (@fl_content_bytes _ _ _ _ _ _ f _ (FL _) _ _ _ _ Hct) as (? & ? & _); done).
  assert (1 <= nblocks sz /\ sz <= nblocks sz * 4096) as [Hnb Hnbs] by (unfold nblocks; zlia).
  assert (2 * Z.of_nat (length names) + 5 <= B) as HB.
  { pose proof (@fl_need_pos _ _ _ _ _ _ f _ (FL _)). pose proof (join_length names Hc). unfold B, elf_blocks. lia. }
  set (Sz := Z.of_nat (size lv)) in *. assert (0 <= Sz) as HS by (unfold Sz; lia).
  assert (nblocks sz + B <= nblocks sz * (Sz + B + 4)) as Hprod by nia.
  destruct (zalloc_fits (omem s) lv n sizeof_process (t_live _ _ _ _ _ T)) as
    (p & m1 & Hz1 & Hp0 & _ & Hpf & Ha1 & Hk1 & _); [unfold size_ok, sizeof_process; lia|
      change (nblocks sizeof_process) with 3; fold Sz; nia|].
  change (nblocks sizeof_process) with 3 in Ha1.
  pose proof (tasks_insert _ _ _ _ _ _ _ _ _ T Hpf Ha1 Hk1) as T1.
  assert ((p ∉ all_blocks ks) /\ base !! p = None) as [Hpn Hpb]
    by (unfold lv in Hpf; rewrite lookup_add_pages in Hpf; by case_decide).
  set (s1 := set_proc p zero_process (set_omem m1 s)). assert (omem s1 = m1) as Hm1 by apply al_get_put.
  assert (add_pages (<[p := 3]> base) (all_blocks ks) = <[p := 3]> lv) as Hlv1 by (by rewrite add_pages_insert).
  assert (Z.of_nat (size (<[p := 3]> lv)) = Sz + 1) as Hs1 by (rewrite map_size_insert_None by done; unfold Sz; lia).
  destruct (load_data_ok s1 (<[p := 3]> base) (n - 3) ks i p zero_process names rest sz l) as
    (addr & E & s2 & ps & He & Hfm & Hh & Hk2 & HE4 & Hps & Hown & HEf & T2);
    [by rewrite Hm1| |done|done|done|done|by apply (@fl_opens_put _ _ _ _ _ _ f _ (FL _))|
     by apply (@fl_content_put _ _ _ _ _ _ f _ (FL _))|by apply (@fl_size_put _ _ _ _ _ _ f _ (FL _))|done|
     apply lookup_insert_eq|rewrite Hlv1, Hs1; fold B; nia|].
  { destruct R as [R1 R2 R3 R4]. split; [done| |done|done]. fold (kmem (o_k s1)). change (kmem (o_k s1)) with (omem s1).
    rewrite Hm1. apply T1. }
  cbv zeta in He, Hh, Hk2, T2. rewrite Hm1, Hlv1 in *. set (k2 := set_sys s2 (o_k s1)) in *.
  set (base2 := <[E := nblocks sz]> _) in *.
  assert (Z.of_nat (length (addr :: ps)) = 2 * Z.of_nat (length names) + 2) as Hlp by (cbn [length]; lia).
  assert (add_pages base2 (all_blocks ks) = <[E := nblocks sz]> (add_pages (<[p := 3]> lv) (addr :: ps))) as Hlv2.
  { rewrite lookup_add_pages in HEf. case_decide; [done|]. rewrite <- Hlv1, lookup_add_pages in HEf.
    case_decide; [done|]. unfold base2. by rewrite add_pages_insert, add_pages_comm, Hlv1. }
  destruct (zalloc_fits (kmem k2) _ _ TOYOS_USER_PROGRAM_STACK_SIZE (t_live _ _ _ _ _ T2)) as
    (stk & m3 & Hz3 & Hs0 & Hs4 & Hsf & Ha3 & Hk3 & Hz).
  { unfold size_ok, TOYOS_USER_PROGRAM_STACK_SIZE. lia. }
  { change (nblocks TOYOS_USER_PROGRAM_STACK_SIZE) with 4. rewrite Hlv2, Hlp.
    rewrite map_size_insert_None by done. pose proof (size_add_pages (<[p := 3]> lv) (addr :: ps)). lia. }
  change (nblocks TOYOS_USER_PROGRAM_STACK_SIZE) with 4 in Ha3.
  pose proof (tasks_insert _ _ _ _ _ _ _ _ _ T2 Hsf Ha3 Hk3) as T3.
  pose proof T1 as [_ Ho1 _ _]. rewrite <- Hlv1 in Hown. destruct (owned_swap _ _ _ Ho1 Hown) as [Ho1' _].
  pose proof (insert_subseteq base p 3 Hpb) as S1. pose proof (base_sub _ _ Ho1') as S2.
  assert (add_pages (<[p := 3]> base) (addr :: ps) !! E = None) as HEn.
  { rewrite <- Hlv1, add_pages_comm, lookup_add_pages in HEf. by case_decide. }
  pose proof (insert_subseteq _ E (nblocks sz) HEn) as S3. fold base2 in S3.
  assert (base2 !! stk = None) as Hsn by (rewrite lookup_add_pages in Hsf; by case_decide).
  pose proof (insert_subseteq _ stk 4 Hsn) as S4.
  exists p, addr, E, stk, ps, m1, s2, m3. cbv zeta. fold s1. fold k2. fold base2.
  split; [done|]. split; [done|]. split; [done|]. split; [done|]. split; [done|]. split; [done|]. split; [done|].
  split; [done|]. split.
  { eapply holds_keeps; [exact Hk3| | |exact Hh]; [|by rewrite Hlen].
    rewrite Hlv2. apply lookup_insert_eq. }
  split; [by rewrite Hlen|]. split; [done|]. split.
  { eapply keeps_trans; [exact Hk1|]. eapply keeps_trans; [eapply keeps_sub, Hk2; by apply insert_subseteq|].
    eapply keeps_sub, Hk3. rewrite Hlv2. etrans; [by apply (insert_subseteq lv p 3)|].
    rewrite Hlv1 in Hown. etrans; [apply base_sub, Hown|]. by apply insert_subseteq. }
  split; [by do 3 (etrans; [eassumption|])|]. split; [done|]. split.
  { eapply lookup_weaken, S4. eapply lookup_weaken, S3. eapply lookup_weaken, S2. apply lookup_insert_eq. }
  split; [eapply lookup_weaken, S4; apply lookup_insert_eq|]. split.
  { eapply lookup_weaken, S4. eapply lookup_weaken, S3. rewrite lookup_add_pages, decide_True by left. done. }
  split.
  { assert (base2 !! addr = Some 1) as Hb1.
    { eapply lookup_weaken, S3. rewrite lookup_add_pages, decide_True by left. done. }
    assert (base2 !! p = Some 3) as Hb2.
    { eapply lookup_weaken, S3. eapply lookup_weaken, S2. apply lookup_insert_eq. }
    assert (base2 !! E = Some (nblocks sz)) as Hb3 by apply lookup_insert_eq.
    assert (E <> addr /\ E <> p) as [? ?].
    { split; intros ->; [rewrite lookup_add_pages, decide_True in HEn by left; done|].
      by rewrite (lookup_weaken _ _ _ _ (lookup_insert_eq base p 3) S2) in HEn. }
    assert (addr <> p).
    { intros ->. destruct Ho1' as [_ [Hf _]%Forall_cons]. by rewrite lookup_insert_eq in Hf. }
    repeat (apply NoDup_cons; split; [rewrite ?elem_of_cons, elem_of_nil; intuition congruence|]). by apply NoDup_nil. }
  eexists. split; [exact T3|]. rewrite Hlp. lia.
Qed.

Lemma load_for_slot_ok (s : st) base n ks names rest sz l slot :
  loadable s base n ks names sz l -> process_get slot (o_procs s) = NULL ->
  0 <= slot < Z.of_nat (length (processes (o_procs s))) -> slot < 65536 ->
  exists p x j E base' s',
    process_load_for_slot (path_arg names rest) slot s = Some ((OK, p), s') /\
    tasks_ok (omem s') (o_sched s') base' (n - (2 * Z.of_nat (length names) + 1036 + nblocks sz)) (ks ++ [j]) /\
    loaded s s' base base' ks j p x E names sz l slot.
Proof.
  intros LD Hslot Hrange H16. pose proof LD as [_ _ (Hc & _) _ _ _ I Hph _].
  destruct (load_image_ok s base n ks names rest sz l LD) as (p & addr & E & stk & ps & m1 & s2 & m3 & HX).
  cbv zeta in HX. set (x0 := with_program _ zero_process) in HX. set (s1 := set_proc p zero_process _) in HX.
  set (s3 := set_proc p x0 _) in HX. set (base3 := <[stk := 4]> _) in HX.
  destruct HX as (Hz1 & Hp0 & Hld & Hz3 & Hs0 & Hs4 & HE4 & HEm & Hh & Hlen & Hzero & Hk & Hsub & Hpb & Hp3 & HE3 & Ha3 & Hnd &
    n3 & T3 & Hn3 & Heq).
  set (x1 := with_setup (name_field names) stk slot x0).
  set (s4 := set_proc p x1 (set_omem m3 s3)). assert (omem s4 = m3) as Hm4 by apply al_get_put.
  assert (procs (o_procs s4) !! p = Some x1) as Hpx by apply lookup_insert_eq.
  destruct (task_new_ok s4 base3 n3 ks p x1 (e_entry (image_header l))) as
    (m5 & c5 & j & Hnew & T5 & Hk5 & _ & Hbody & Hoth & Htr5 & Hid); [by rewrite Hm4|done|done|done| |].
  { intros m Hm. rewrite Hm4 in Hm.
    change (entry_point m x1) with (Some (e_entry (read_header m (elf_memory (elf_of E l))))). rewrite HEm. rewrite (header_holds m E l); [done| |apply I].
    by eapply holds_keeps. }
  set (x := with_task (ts_task j) x1). set (s6 := set_proc p x (upd m5 c5 s4)).
  assert (omem s6 = m5) as Hm6 by apply al_get_put. rewrite Hm4 in Hk5, Htr5.
  destruct (tasks c5 !! ts_task j) as [y|] eqn:Hy; [|done]. injection Hbody as Hpd Hreg Hpo.
  destruct (map_memory_ok s6 base3 (n3 - 1027) ks j p x addr (elf_of E l) (nblocks sz) l y) as
    (m7 & Hmap & T7 & Hk7 & Htr7 & PM); rewrite ?Hm6, ?HEm;
    [done|apply lookup_insert_eq|done|done|done|done|done|done|done|apply lookup_insert_eq|done|
     by eapply holds_keeps|done|done| |done|].
  { intros a Ha. rewrite (Hk5 stk 4 a); [by apply Hzero|apply lookup_insert_eq|].
    change (stk <= a < stk + 16384) in Ha. lia. }
  set (slots := <[Z.to_nat slot := p]> (processes (o_procs s))).
  set (s8 := set_procs (mk_ptable (procs (o_procs s6)) slots (current_process (o_procs s6))) (set_omem m7 s6)).
  assert (omem s8 = m7) as Hm8 by apply al_get_put.
  exists p, x, j, E, base3, s8. split; [|split].
  - unfold process_load_for_slot. unfold bind at 1, get. rewrite Hslot. change (NULL =? OK) with true. cbn [negb].
    unfold task_kzalloc. rewrite (bind_on_mem _ _ _ _ _ Hz1), (proj2 (Z.eqb_neq p NULL)) by done.
    unfold put_process. unfold bind at 1, modify at 1. fold (set_proc p zero_process (set_omem m1 s)). fold s1.
    rewrite (bind_Some _ _ _ _ _ Hld). change (OK <? 0) with false. cbv iota.
    rewrite (bind_on_mem _ _ _ _ _ Hz3), (proj2 (Z.eqb_neq stk NULL)) by done.
    rewrite (bind_Some (get_process p) _ (set_omem m3 s3) x0 (set_omem m3 s3))
      by (unfold get_process; cbn [o_procs set_omem set_k s3 set_proc set_procs procs]; by rewrite lookup_insert_eq).
    change (p_filename x0) with (p_filename zero_process). rewrite (bind_lift _ _ _ _ (name_field_ok names rest Hc)).
    rewrite (bind_Some _ _ _ _ _ (change_process_ok (set_omem m3 s3) p x0 _ (lookup_insert_eq _ _ _))).
    replace (u16 slot) with slot by (unfold u16; symmetry; apply Z.mod_small; lia). fold x1. fold s4.
    rewrite (bind_Some _ _ _ _ _ Hnew).
    destruct (list_ok_lookup _ _ (ts_task j) (t_list _ _ _ _ _ T5)) as (_ & _ & Hj0);
      [rewrite map_app; apply elem_of_app; right; left|].
    rewrite (proj2 (Z.eqb_neq (ts_task j) NULL)) by done.
    rewrite (bind_Some _ _ _ _ _ (change_process_ok (upd m5 c5 s4) p x1 _ Hpx)). fold x. fold s6.
    rewrite (bind_Some _ _ _ _ _ Hmap). change (OK <? 0) with false. cbv iota.
    unfold bind, on_table. rewrite decide_True by exact Hrange. done.
  - rewrite Hm8. by replace (n - _) with (n3 - 1027) by lia.
  - split; rewrite ?Hm8.
    + cbn [o_procs s8 set_procs set_omem set_k s6 set_proc procs current_process upd s4 s3 s1 processes].
      by rewrite !insert_insert_eq.
    + exists addr. split; [done|]. split; [exact Hnd|]. split; [exact HEm|done].
    + repeat (split; [done|]). apply conj; [apply lookup_insert_eq|done].
    + eapply keeps_trans; [eapply keeps_sub, Hk|eapply keeps_trans; eapply keeps_sub; [exact Hsub| |exact Hsub|]].
      * apply base_sub, LD.
      * exact Hk5.
      * by rewrite <- Hm6.
    + intros i va Hi Hva. rewrite Htr7, Hm6, Htr5 by done.
      pose proof (lo_tasks _ _ _ _ _ _ _ LD) as [_ _ _ Hs]. by apply (translate_keep _ _ _ _ _ Hk Hs).
    + change (o_sched s8) with c5. rewrite Hy. cbn. by rewrite <- Hpd, <- Hreg, <- Hpo.
    + done.
    + by rewrite HEm in PM.
    + done.
Qed.

Lemma free_slot_get t slot :
  process_get_free_slot t = slot -> 0 <= slot -> length (processes t) = 12%nat ->
  process_get slot t = NULL /\ slot < 12.
Proof.
  unfold process_get_free_slot, process_get. intros Hs H0 Hl.
  assert (forall l i k, free_process_slot l i = Some k -> i <= k < i + Z.of_nat (length l) /\
    nth (Z.to_nat (k - i)) l NULL = NULL) as Hf.
  { induction l as [|q l IH]; intros i k; simpl; [done|]. destruct (Z.eqb_spec q NULL) as [->|Hq].
    - intros [= <-]. rewrite Z.sub_diag. split; [lia|done].
    - intros [Hk Hn]%IH. split; [lia|]. replace (Z.to_nat (k - i)) with (Datatypes.S (Z.to_nat (k - (i + 1)))) by lia. done. }
  destruct (free_process_slot (processes t) 0) as [k|] eqn:Hk; [|unfold EISTKN in Hs; lia].
  subst k. apply Hf in Hk as [Hk Hn]. rewrite Z.sub_0_r in Hn. split; [|lia].
  destruct (_ || _); done.
Qed.

End Load.
End ProcessLoad.

(** ** What a loaded process sees *)

Module ProcessProps.
Import Process ProcessFacts ProcessLoad ElfFacts ElfUse FileFacts FileUse PathFacts PathProps.

Lemma segs_app E xs ys va tr : segs E (xs ++ ys) va tr = segs E ys va (segs E xs va tr).
Proof. unfold segs. by rewrite foldl_app. Qed.

Lemma segs_out E ps va tr : Forall (fun q => ~ covers q va) ps -> segs E ps va tr = tr.
Proof.
  induction 1 as [|q ps Hq Hps IH]; [done|]. unfold segs in *. cbn. by rewrite decide_False.
Qed.

(** The segment that shows at [va] is the last one that covers it. *)
Lemma segs_last E xs ph ys va tr :
  covers ph va -> Forall (fun q => ~ covers q va) ys ->
  segs E (xs ++ ph :: ys) va tr = Some (E + p_offset ph + (va - p_vaddr ph), rights ph).
Proof.
  intros Hc Hy. rewrite segs_app. change (ph :: ys) with ([ph] ++ ys). rewrite segs_app, segs_out by done.
  unfold segs at 1. cbn. by rewrite decide_True.
Qed.


(** The frames of a segment start in the image, and a segment that ends in it has
    all its frames there. *)
Lemma covers_frames lim ph va :
  phdr_ok lim ph -> covers ph va -> 0 <= p_offset ph + (va - p_vaddr ph) /\
    forall b, p_offset ph + p_memsz ph <= b * 4096 -> p_offset ph + (va - p_vaddr ph) < b * 4096.
Proof.
  intros (Hc & Ho & Hm & _ & Hv & _) [H1 H2]. unfold lo, hi in *. split; [zlia|]. intros b Hb. zlia.
Qed.

Section Props.
Context {S H : Type} {KA : KAlloc mem} {KL : KAllocLaws mem} {KM : KAllocMem} {KR : KAllocRoom mem}.
Context {HA : HasAlloc mem S} {AL : AllocLens mem S} (f : filesystem S H) {FP : FsSpec f}.
Context (FL : forall L : KAllocLaws mem, FsLaws f).

Abbreviation st := (os S H).

Lemma process_load_ok (s : st) base n ks names rest sz l slot :
  loadable f s base n ks names sz l -> process_get_free_slot (o_procs s) = slot -> 0 <= slot ->
  length (processes (o_procs s)) = 12%nat ->
  exists p x j E base' s',
    process_load (path_arg names rest) s = Some ((OK, p), s') /\
    tasks_ok (omem s') (o_sched s') base' (n - (2 * Z.of_nat (length names) + 1036 + nblocks sz)) (ks ++ [j]) /\
    loaded s s' base base' ks j p x E names sz l slot.
Proof.
  intros LD Hs H0 Hl. destruct (free_slot_get _ _ Hs H0 Hl) as [Hg Hlt].
  destruct (load_for_slot_ok f FL s base n ks names rest sz l slot LD Hg) as
    (p & x & j & E & base' & s' & Hr & T & Hld); [lia|lia|].
  exists p, x, j, E, base', s'. split; [|done]. unfold process_load, bind at 1, get. rewrite Hs.
  by rewrite (proj2 (Z.ltb_ge slot 0)) by lia.
Qed.

(** What the program finds in its address space *)
Lemma mapped_bytes m j x E l lim : program_mapped m j x E l -> Forall (phdr_ok lim) (image_phdrs l) ->
  (forall xs ph ys va, image_phdrs l = xs ++ ph :: ys -> covers ph va ->
     Forall (fun q => ~ covers q va) ys -> 0 <= va < 2 ^ 32 ->
     ~ (0x3fb000 <= va < 0x3ff000) -> p_offset ph + (va - p_vaddr ph) < Z.of_nat (length l) ->
     vread m (ts_dir j) va = l !! Z.to_nat (p_offset ph + (va - p_vaddr ph))) /\
  (forall va, 0x3fb000 <= va < 0x3ff000 -> vread m (ts_dir j) va = Some 0).
Proof.
  intros [Hb Hz Hw] Hph. split.
  - intros xs ph ys va Hps Hc Hys Hva Hst Hlt. unfold vread. rewrite u32_small, Hw by lia.
    rewrite decide_False by done. rewrite Hps, segs_last by done. cbn.
    rewrite Forall_forall in Hph. pose proof (Hph ph ltac:(rewrite Hps; apply elem_of_app; right; left)) as Hok.
    destruct (covers_frames _ _ _ Hok Hc) as [? _]. rewrite (holds_lookup _ E l) by (done || lia).
    by rewrite <- Z.add_assoc.
  - intros va Hva. unfold vread. rewrite u32_small, Hw by lia. rewrite decide_True by exact Hva. cbn.
    rewrite Hz; [done|]. change (p_stack x <= p_stack x + (va - 0x3fb000) < p_stack x + 16384). lia.
Qed.

(** C6: [process_load] on an ELF file ends in a runnable process.  The process
    is in the first free slot, its task is appended to the scheduler's queue
    with the entry point of the file and the top of the stack, and in its own
    address space every byte of the file that a segment covers is at the
    segment's address, with the segment's rights (unless the stack or a later
    segment covers it).  The stack is mapped and zero.  All other allocations,
    tasks and address spaces are untouched. *)
Theorem process_load_elf (s : st) base n ks names rest sz l slot :
  loadable f s base n ks names sz l -> process_get_free_slot (o_procs s) = slot -> 0 <= slot ->
  length (processes (o_procs s)) = 12%nat ->
  exists p x j E base' s',
    process_load (path_arg names rest) s = Some ((OK, p), s') /\
    tasks_ok (omem s') (o_sched s') base' (n - (2 * Z.of_nat (length names) + 1036 + nblocks sz)) (ks ++ [j]) /\
    loaded s s' base base' ks j p x E names sz l slot /\
    (forall xs ph ys va, image_phdrs l = xs ++ ph :: ys -> covers ph va ->
       Forall (fun q => ~ covers q va) ys -> 0 <= va < 2 ^ 32 ->
       ~ (0x3fb000 <= va < 0x3ff000) -> p_offset ph + (va - p_vaddr ph) < Z.of_nat (length l) ->
       vread (omem s') (ts_dir j) va = l !! Z.to_nat (p_offset ph + (va - p_vaddr ph))) /\
    (forall va, 0x3fb000 <= va < 0x3ff000 -> vread (omem s') (ts_dir j) va = Some 0).
Proof.
  intros LD Hs Hs0 Hl. destruct (process_load_ok s base n ks names rest sz l slot LD Hs Hs0 Hl) as
    (p & x & j & E & base' & s' & Hr & T & Hld).
  exists p, x, j, E, base', s'. split; [done|]. split; [done|]. split; [done|].
  destruct Hld as [_ _ _ _ _ _ _ Hm _]. exact (mapped_bytes _ j x E l _ Hm (lo_phdrs _ _ _ _ _ _ _ _ LD)).
Qed.


End Props.
End ProcessProps.
