(* ===== verification/ProcessMem.v ===== *)
(** * The memory of a process: process_malloc, process_free, process_terminate

    On the invariants of TaskMem.v: what an allocation adds to the address
    space of the process and to the heap, that freeing takes both back, and
    what is left after a process has ended. *)

From S2P Require Import Prelude CLib KAlloc Heap Paging AddressSpace PathParser Fat16 File Elf Task TaskMem Process.
Import Memory Str Paging Mmu PagingFacts ASpace PathParser Fat16 File Elf Task TaskList TaskRun TaskMem.
Import Process ProcessFacts ProcessLoad ElfFacts.
#[local] Open Scope prog_scope.

Module ProcessMem.

Lemma hi_aligned p sz : p mod 4096 = 0 -> hi (p + sz) = p + nblocks sz * 4096.
Proof. intros Hp. unfold hi, nblocks. zlia. Qed.

Section Mem.
Context {S H : Type} {KA : KAlloc mem} {KL : KAllocLaws mem} {KM : KAllocMem} {KR : KAllocRoom mem}.
Context {HA : HasAlloc mem S} {AL : AllocLens mem S}.

Abbreviation st := (os S H).

(** Process [p] with task [j]. *)
Record owns (s : st) (p : Z) (x : process) (j : tspace) : Prop := {
  ow_proc : procs (o_procs s) !! p = Some x;
  ow_task : p_task x = ts_task j
}.

Lemma page_directory_ok (s : st) m base n xs j ys x :
  tasks_ok m (o_sched s) base n (xs ++ j :: ys) -> p_task x = ts_task j ->
  page_directory_of x s = Some (ts_chunk j, s).
Proof.
  intros T Hpt. destruct (tasks_split _ _ _ _ _ _ _ T) as (_ & _ & y & Hy & Hpd).
  unfold page_directory_of, bind, on_sched. rewrite Hpt, (get_task_eq _ _ _ Hy), <- Hpd. by destruct s.
Qed.

(** [process_malloc]: fresh zeroed memory, mapped at its physical address for
    reading and writing, entered in the first free slot. *)
Lemma process_malloc_ok (s : st) base n xs j ys p x sz i :
  tasks_ok (omem s) (o_sched s) base n (xs ++ j :: ys) -> owns s p x j -> size_ok sz ->
  (nblocks sz - 1) * (Z.of_nat (size (add_pages base (all_blocks (xs ++ j :: ys)))) + 1) < n ->
  allocation_index (allocations x) NULL 0 = Some i -> 0 <= i ->
  exists ptr m', ptr <> NULL /\ ptr mod 4096 = 0 /\ base !! ptr = None /\
    process_malloc p sz s = Some (ptr, set_proc p (with_allocations
      (<[Z.to_nat i := (ptr, sz)]> (allocations x)) x) (set_omem m' s)) /\
    tasks_ok m' (o_sched s) (<[ptr := nblocks sz]> base) (n - nblocks sz) (xs ++ j :: ys) /\
    keeps base (omem s) m' /\ (forall a, ptr <= a < ptr + sz -> mread m' a = 0) /\
    (forall k va, k ∈ xs ++ ys -> 0 <= va < 2 ^ 32 ->
       translate m' (ts_dir k) va = translate (omem s) (ts_dir k) va) /\
    forall va, 0 <= va < 2 ^ 32 -> translate m' (ts_dir j) va =
      if decide (ptr <= va < ptr + nblocks sz * 4096) then Some (va, 6) else translate (omem s) (ts_dir j) va.
Proof.
  intros T Hown Hsz Hroom Hi Hi0. pose proof Hown as [Hp Hpt].
  destruct (zalloc_fits (omem s) _ n sz (t_live _ _ _ _ _ T) Hsz Hroom) as
    (ptr & m1 & Hz & Hptr & Hal & Hf & Ha1 & Hk1 & Hzero).
  pose proof (tasks_insert _ _ _ _ _ _ _ _ _ T Hf Ha1 Hk1) as T1.
  destruct (tasks_split _ _ _ _ _ _ _ T1) as (Hf1 & HL1 & _).
  set (lv := <[ts_task j := 1]> _) in HL1.
  assert (base !! ptr = None) as Hpb by (rewrite lookup_add_pages in Hf; by case_decide).
  destruct (ka_range _ _ _ ptr (nblocks sz) Ha1 (lookup_insert_eq _ _ _)) as (Hp0 & Hb1 & Hp1).
  destruct (as_map m1 lv _ _ _ _ ptr ptr (ptr + nblocks sz * 4096) 7 HL1) as (m2 & Hm2 & HL2 & Hk2 & Ht2);
    [split; [done|lia]|done|zlia|lia|lia|lia|lia|done|].
  destruct (tasks_remap m1 m2 _ _ _ xs j ys T1 HL2 Hk2) as (T2 & Hkb & Hoth).
  pose proof T as [_ _ _ Hs].
  exists ptr, m2. split; [done|]. split; [done|]. split; [done|]. split.
  { unfold process_malloc, task_kzalloc. rewrite (bind_on_mem _ _ _ _ _ Hz), (proj2 (Z.eqb_neq ptr NULL)) by done.
    rewrite (bind_Some (get_process p) _ (set_omem m1 s) x (set_omem m1 s)) by (unfold get_process; cbn; by rewrite Hp).
    unfold process_find_free_allocation_index. rewrite Hi, (proj2 (Z.ltb_ge i 0)) by lia.
    rewrite (bind_Some _ _ _ _ _ (page_directory_ok (set_omem m1 s) m1 _ _ xs j ys x T1 Hpt)).
    assert (0 < sz <= nblocks sz * 4096) as Hsn by (unfold size_ok, nblocks in *; zlia).
    rewrite ptr_add_small by lia. rewrite align_address_hi; [|lia|rewrite hi_aligned by done; lia].
    rewrite hi_aligned by done.
    rewrite (bind_on_mem _ _ _ OK m2) by (rewrite omem_set; exact Hm2). change (OK <? 0) with false. cbv iota.
    unfold bind, put_process, modify, ret. unfold set_proc, set_omem, set_k, set_procs.
    cbn [o_k o_pg kernel_chunk o_sched o_procs]. by rewrite set_kmem_set. }
  split; [done|]. split; [eapply keeps_trans; [eapply keeps_sub, Hk1|eapply keeps_sub, Hkb; by apply insert_subseteq];
    apply base_sub, T|]. split.
  { intros a Ha. rewrite (Hkb ptr (nblocks sz) a); [by apply Hzero|apply lookup_insert_eq|].
    unfold nblocks in *. zlia. }
  assert (forall k va, k ∈ xs ++ j :: ys -> 0 <= va < 2 ^ 32 ->
    translate m1 (ts_dir k) va = translate (omem s) (ts_dir k) va) as Hk1'
    by (by apply (translate_keep _ _ _ _ _ Hk1 Hs)).
  split.
  - intros k va Hk Hva. rewrite Hoth by done. apply Hk1'; [|done].
    rewrite elem_of_app, elem_of_cons. apply elem_of_app in Hk as [?|?]; auto.
  - intros va Hva. rewrite Ht2, Hk1' by (done || (apply elem_of_app; right; left)).
    replace (ptr + (ptr + nblocks sz * 4096 - ptr)) with (ptr + nblocks sz * 4096) by lia.
    case_decide; [|done]. change (Z.land 7 6) with 6. do 2 f_equal. lia.
Qed.

(** Memory is given back: an allocation that belongs to no task goes. *)
Lemma tasks_delete m c base n ks p b :
  tasks_ok m c base n ks -> base !! p = Some b ->
  tasks_ok (ka_free m p) c (delete p base) (n + b) ks /\
  keeps (add_pages (delete p base) (all_blocks ks)) m (ka_free m p).
Proof.
  intros [Hl [Hnd Ho] Ha Hs] Hp. rewrite Forall_forall in Ho.
  assert (p ∉ all_blocks ks) as Hin by (intros Hin; by rewrite (Ho p Hin) in Hp).
  assert (add_pages base (all_blocks ks) !! p = Some b) as Hpl by (by rewrite lookup_add_pages, decide_False).
  assert (delete p (add_pages base (all_blocks ks)) = add_pages (delete p base) (all_blocks ks)) as Hd.
  { apply map_eq. intros x. rewrite lookup_delete, !lookup_add_pages, lookup_delete.
    repeat case_decide; subst; done. }
  assert (keeps (add_pages (delete p base) (all_blocks ks)) m (ka_free m p)) as Hk.
  { rewrite <- Hd. intros q k x [_ Hq]%lookup_delete_Some. by eapply kam_free_frame. }
  split; [|done]. split; [done| | |by eapply spaces_keep].
  - split; [done|]. apply Forall_forall. intros b' Hb'. apply lookup_delete_None. right. by apply Ho.
  - rewrite <- Hd. by apply ka_free_spec.
Qed.

Lemma allocation_index_Some l ptr : forall i k,
  allocation_index l ptr i = Some k ->
  i <= k < i + Z.of_nat (length l) /\ exists sz, l !! Z.to_nat (k - i) = Some (ptr, sz).
Proof.
  induction l as [|[q sz] l IH]; intros i k; simpl; [done|]. destruct (Z.eqb_spec q ptr) as [->|Hq].
  - intros [= <-]. rewrite Z.sub_diag. split; [lia|]. by exists sz.
  - intros (Hk & sz' & Hsz)%IH. split; [lia|]. exists sz'.
    replace (Z.to_nat (k - i)) with (Datatypes.S (Z.to_nat (k - (i + 1)))) by lia. done.
Qed.

(** [process_free] of an allocation: unmapped, forgotten and given back. *)
Lemma process_free_ok (s : st) base n xs j ys p x ptr sz :
  tasks_ok (omem s) (o_sched s) base n (xs ++ j :: ys) -> owns s p x j ->
  process_get_allocation_by_addr x ptr = Some (ptr, sz) ->
  base !! ptr = Some (nblocks sz) -> ptr mod 4096 = 0 -> size_ok sz ->
  exists m', process_free p ptr s = Some (tt, set_proc p (process_allocation_unjoin ptr x) (set_omem m' s)) /\
    tasks_ok m' (o_sched s) (delete ptr base) (n + nblocks sz) (xs ++ j :: ys) /\
    keeps (delete ptr base) (omem s) m' /\
    (forall k va, k ∈ xs ++ ys -> 0 <= va < 2 ^ 32 ->
       translate m' (ts_dir k) va = translate (omem s) (ts_dir k) va) /\
    forall va, 0 <= va < 2 ^ 32 -> translate m' (ts_dir j) va =
      if decide (ptr <= va < ptr + nblocks sz * 4096) then None else translate (omem s) (ts_dir j) va.
Proof.
  intros T [Hp Hpt] Hget Hb Hal Hsz. destruct (tasks_split _ _ _ _ _ _ _ T) as (Hf & HL & _).
  set (lv := <[ts_task j := 1]> _) in HL. pose proof T as [_ Ho Ha _].
  destruct (ka_range _ _ _ ptr (nblocks sz) Ha) as (Hp0 & Hb1 & Hp1).
  { eapply lookup_weaken; [exact Hb|by apply base_sub]. }
  destruct (as_unmap (omem s) lv _ _ _ _ ptr ptr (ptr + nblocks sz * 4096) HL) as (m1 & Hm1 & HL1 & Hk1 & Ht1);
    [split; [done|lia]|done|zlia|lia|lia|lia|].
  destruct (tasks_remap (omem s) m1 _ _ _ xs j ys T HL1 Hk1) as (T1 & Hkb & Hoth).
  destruct (tasks_delete _ _ _ _ _ _ _ T1 Hb) as [T2 Hk2].
  assert (forall k va, k ∈ xs ++ j :: ys -> 0 <= va < 2 ^ 32 ->
    translate (ka_free m1 ptr) (ts_dir k) va = translate m1 (ts_dir k) va) as Htk.
  { by apply (translate_keep m1 _ (o_sched s) _ _ Hk2 (t_space _ _ _ _ _ T1)). }
  exists (ka_free m1 ptr). split; [|split; [done|split; [|split]]].
  - unfold process_free. rewrite (bind_Some (get_process p) _ s x s) by (unfold get_process; by rewrite Hp).
    rewrite Hget, (bind_Some _ _ _ _ _ (page_directory_ok s _ _ _ xs j ys x T Hpt)).
    assert (0 < sz <= nblocks sz * 4096) as Hsn by (unfold size_ok, nblocks in *; zlia).
    rewrite ptr_add_small by lia. rewrite align_address_hi; [|lia|rewrite hi_aligned by done; lia].
    rewrite hi_aligned by done. rewrite (bind_on_mem _ _ _ _ _ Hm1). change (OK <? 0) with false. cbv iota.
    rewrite (bind_Some _ _ _ _ _ (change_process_ok (set_omem m1 s) p x _ Hp)).
    unfold task_kfree, on_mem. change (omem (set_proc p _ (set_omem m1 s))) with (omem (set_omem m1 s)).
    rewrite omem_set. unfold set_proc, set_omem, set_k, set_procs.
    cbn [o_k o_pg kernel_chunk o_sched o_procs]. by rewrite set_kmem_set.
  - intros q k a [Hne Hq]%lookup_delete_Some Hx. rewrite (Hk2 q k a); [by apply (Hkb q k)| |done].
    eapply lookup_weaken; [by rewrite lookup_delete_ne|apply base_sub, T2].
  - intros k va Hk Hva. rewrite Htk, Hoth by (done || (rewrite elem_of_app, elem_of_cons; apply elem_of_app in Hk as [?|?]; auto)).
    done.
  - intros va Hva. rewrite Htk, Ht1 by (done || (apply elem_of_app; right; left)).
    by replace (ptr + (ptr + nblocks sz * 4096 - ptr)) with (ptr + nblocks sz * 4096) by lia.
Qed.

End Mem.

(** *** The table of allocations *)

Definition live_ptrs (l : list (Z * Z)) : list Z := filter (fun q => q <> NULL) (map fst l).

Definition allocation_ok (base : gmap Z Z) (a : Z * Z) : Prop :=
  a = (NULL, 0) \/ fst a <> NULL /\ fst a mod 4096 = 0 /\ size_ok (snd a) /\ base !! fst a = Some (nblocks (snd a)).

(** Every entry is unused or a live allocation of the recorded size; no pointer
    is recorded twice. *)
Definition allocations_ok (base : gmap Z Z) (l : list (Z * Z)) : Prop :=
  Forall (allocation_ok base) l /\ NoDup (live_ptrs l).

(** What is left of [base], and the blocks that come back, after the entries are freed. *)
Definition without (l : list (Z * Z)) (base : gmap Z Z) : gmap Z Z := foldl (fun b a => delete (fst a) b) base l.

Definition freed (l : list (Z * Z)) : Z := foldr (fun a n => nblocks (snd a) + n) 0 l.

Lemma live_ptrs_app l l' : live_ptrs (l ++ l') = live_ptrs l ++ live_ptrs l'.
Proof. unfold live_ptrs. by rewrite map_app, filter_app. Qed.

Lemma live_ptrs_in l a : a ∈ l -> fst a <> NULL -> fst a ∈ live_ptrs l.
Proof.
  intros Ha Hn. unfold live_ptrs. apply list_elem_of_filter. split; [done|]. by apply list_elem_of_fmap_2.
Qed.

Lemma live_ptrs_null i : live_ptrs (replicate i (NULL, 0)) = [].
Proof. induction i as [|i IH]; [done|]. unfold live_ptrs in *. cbn. by rewrite decide_False by (intros Hn; by apply Hn). Qed.

Lemma lookup_without l base q : q ∉ map fst l -> without l base !! q = base !! q.
Proof.
  revert base; induction l as [|a l IH]; intros base Hq; [done|]. cbn. unfold without in IH.
  rewrite IH by (intros ?; apply Hq; by right). apply lookup_delete_ne. intros <-. apply Hq. left.
Qed.

Lemma without_sub l base : without l base ⊆ base.
Proof.
  revert base; induction l as [|a l IH]; intros base; [done|]. cbn. etrans; [apply IH|apply delete_subseteq].
Qed.

(** The entry found for a recorded pointer is the only one with it. *)
Lemma find_allocation x pre ptr sz post :
  allocations x = pre ++ (ptr, sz) :: post -> ptr ∉ map fst pre ->
  process_get_allocation_by_addr x ptr = Some (ptr, sz).
Proof.
  intros Hl Hn. unfold process_get_allocation_by_addr. rewrite Hl.
  assert (forall i, allocation_index (pre ++ (ptr, sz) :: post) ptr i = Some (i + Z.of_nat (length pre))) as Hi.
  { clear Hl. induction pre as [|[q z] pre IH]; intros i; simpl.
    - rewrite Z.eqb_refl. f_equal. lia.
    - rewrite (proj2 (Z.eqb_neq q ptr)) by (intros ->; apply Hn; left).
      rewrite IH by (intros ?; apply Hn; by right). f_equal. lia. }
  rewrite Hi, Z.add_0_l, Nat2Z.id. by apply list_lookup_middle.
Qed.

Lemma unjoin_middle x pre ptr sz post :
  allocations x = pre ++ (ptr, sz) :: post -> ptr ∉ map fst pre -> ptr ∉ map fst post ->
  process_allocation_unjoin ptr x = with_allocations (pre ++ (NULL, 0) :: post) x.
Proof.
  intros Hl Hn Hn'. unfold process_allocation_unjoin. rewrite Hl, map_app. cbn [map fst]. rewrite Z.eqb_refl.
  assert (forall l, ptr ∉ map fst l -> map (fun a => if fst a =? ptr then (NULL, 0) else a) l = l) as Hid.
  { induction l as [|[q z] l IH]; intros Hl'; [done|]. cbn.
    rewrite (proj2 (Z.eqb_neq q ptr)) by (intros ->; apply Hl'; left). f_equal. apply IH. intros ?. apply Hl'. by right. }
  by rewrite !Hid.
Qed.

(** *** Ending a process *)

Section Terminate.
Context {S H : Type} {KA : KAlloc mem} {KL : KAllocLaws mem} {KM : KAllocMem} {KN : KAllocNull}.
Context {HA : HasAlloc mem S} {AL : AllocLens mem S}.

Abbreviation st := (os S H).

Lemma set_proc_twice p x y m m' (s : st) :
  set_proc p x (set_omem m (set_proc p y (set_omem m' s))) = set_proc p x (set_omem m s).
Proof.
  unfold set_proc, set_omem, set_k, set_procs. cbn [o_k o_pg kernel_chunk o_sched o_procs procs processes current_process].
  by rewrite set_kmem_set, insert_insert_eq.
Qed.

Lemma unjoin_null base x :
  Forall (allocation_ok base) (allocations x) -> process_allocation_unjoin NULL x = x.
Proof.
  intros Hok. unfold process_allocation_unjoin. replace (map _ _) with (allocations x); [by destruct x|].
  symmetry. rewrite <- (map_id (allocations x)) at 2. apply map_ext_in. intros a Ha%list_elem_of_In.
  rewrite Forall_forall in Hok. destruct (Hok a Ha) as [->|[Hn _]]; [done|].
  by rewrite (proj2 (Z.eqb_neq (fst a) NULL)).
Qed.

(** An unused entry: [process_free(NULL)] only calls [kfree(NULL)]. *)
Lemma process_free_null (s : st) base n xs j ys p x post :
  tasks_ok (omem s) (o_sched s) base n (xs ++ j :: ys) -> owns s p x j ->
  allocations x = (NULL, 0) :: post -> Forall (allocation_ok base) (allocations x) ->
  let m' := ka_free (omem s) NULL in
  process_free p NULL s = Some (tt, set_proc p x (set_omem m' s)) /\
  tasks_ok m' (o_sched s) base n (xs ++ j :: ys) /\
  keeps (add_pages base (all_blocks (xs ++ j :: ys))) (omem s) m'.
Proof.
  intros T [Hp Hpt] Hl Hok m'. pose proof T as [Hl1 Ho Ha Hs].
  assert (keeps (add_pages base (all_blocks (xs ++ j :: ys))) (omem s) m') as Hk
    by (intros q k a Hq; by eapply kam_free_null).
  split; [|split; [split; [done|done|by apply ka_free_null|by eapply spaces_keep]|done]].
  assert (process_get_allocation_by_addr x NULL = Some (NULL, 0)) as Hg
    by (eapply (find_allocation x []); [done|apply not_elem_of_nil]).
  unfold process_free. rewrite (bind_Some (get_process p) _ s x s) by (unfold get_process; by rewrite Hp).
  rewrite Hg, (bind_Some _ _ _ _ _ (page_directory_ok s _ _ _ xs j ys x T Hpt)).
  rewrite (bind_on_mem _ _ _ OK (omem s)) by done. change (OK <? 0) with false. cbv iota.
  rewrite (bind_Some _ _ _ _ _ (change_process_ok (set_omem (omem s) s) p x _ Hp)).
  rewrite (unjoin_null base) by done. unfold task_kfree, on_mem.
  change (omem (set_proc p x (set_omem (omem s) s))) with (omem (set_omem (omem s) s)). rewrite omem_set.
  unfold set_proc, set_omem, set_k, set_procs. cbn [o_k o_pg kernel_chunk o_sched o_procs]. by rewrite set_kmem_set.
Qed.

Lemma allocation_ok_delete base q a : allocation_ok base a -> fst a <> q -> allocation_ok (delete q base) a.
Proof.
  intros [->|(Hn & Hm & Hs & Hb)] Hq; [by left|right]. repeat (split; [done|]). by rewrite lookup_delete_ne.
Qed.

(** One round of [process_terminate_allocations]. *)
Lemma terminate_step (s : st) base n xs j ys p x i a l :
  tasks_ok (omem s) (o_sched s) base n (xs ++ j :: ys) -> owns s p x j ->
  allocations x = replicate i (NULL, 0) ++ a :: l -> allocations_ok base (allocations x) ->
  let x' := with_allocations (replicate (Datatypes.S i) (NULL, 0) ++ l) x in
  exists m', process_free p (fst a) s = Some (tt, set_proc p x' (set_omem m' s)) /\
    tasks_ok m' (o_sched s) (delete (fst a) base) (n + nblocks (snd a)) (xs ++ j :: ys) /\
    keeps (delete (fst a) base) (omem s) m' /\
    (forall k va, k ∈ xs ++ ys -> 0 <= va < 2 ^ 32 ->
       translate m' (ts_dir k) va = translate (omem s) (ts_dir k) va) /\
    allocations_ok (delete (fst a) base) (allocations x').
Proof.
  intros T Hown Hl [Hok Hnd] x'. pose proof Hok as Hok'. rewrite Hl in Hok, Hnd. apply Forall_app in Hok as [_ Hok].
  apply Forall_cons in Hok as [Ha Hok]. rewrite live_ptrs_app, live_ptrs_null in Hnd. cbn [app] in Hnd.
  destruct Ha as [->|(Hn & Hal & Hsz & Hb)].
  - assert (allocations x = (NULL, 0) :: (replicate i (NULL, 0) ++ l)) as Hl'.
    { rewrite Hl. change ((NULL, 0) :: l) with ([(NULL, 0)] ++ l). by rewrite app_assoc, <- replicate_cons_app. }
    assert (base !! NULL = None) as Hnull.
    { destruct (base !! NULL) as [b|] eqn:Hb; [|done]. destruct T as [_ Ho Ha _].
      destruct (ka_range _ _ _ NULL b Ha) as [? _]; [|unfold NULL in *; lia].
      eapply lookup_weaken; [exact Hb|by apply base_sub]. }
    cbn [fst snd]. rewrite delete_id by done. change (nblocks 0) with 0. rewrite Z.add_0_r.
    destruct (process_free_null s base n xs j ys p x _ T Hown Hl' Hok') as (Hf & T' & Hk).
    exists (ka_free (omem s) NULL). replace x' with x; [|unfold x'; change (replicate (Datatypes.S i) (NULL, 0) ++ l) with ((NULL, 0) :: (replicate i (NULL, 0) ++ l));
      rewrite <- Hl'; by destruct x].
    split; [done|]. split; [done|]. split; [eapply keeps_sub, Hk; apply base_sub, T|]. split; [|by split; [|rewrite Hl, live_ptrs_app, live_ptrs_null]].
    intros k va Hk' Hva. apply (translate_keep _ _ _ _ _ Hk (t_space _ _ _ _ _ T)); [|done].
    rewrite elem_of_app, elem_of_cons. apply elem_of_app in Hk' as [?|?]; auto.
  - destruct a as [ptr sz]. cbn [fst snd] in *.
    assert (ptr ∉ map fst (replicate i (NULL, 0))) as Hn1.
    { intros (b & Hb' & Hin)%list_elem_of_fmap. apply elem_of_replicate in Hin as [-> _]. done. }
    assert (ptr ∉ map fst l) as Hn2.
    { unfold live_ptrs in Hnd. cbn in Hnd. rewrite decide_True in Hnd by done. apply NoDup_cons in Hnd as [Hnd _].
      intros Hin. apply Hnd, list_elem_of_filter. done. }
    destruct (process_free_ok s base n xs j ys p x ptr sz T Hown) as (m' & Hf & T' & Hk & Hoth & _);
      [by eapply find_allocation|done|done|done|].
    rewrite (unjoin_middle x _ _ _ _ Hl Hn1 Hn2) in Hf.
    assert (replicate i (NULL, 0) ++ (NULL, 0) :: l = replicate (Datatypes.S i) (NULL, 0) ++ l) as Hrep.
    { change ((NULL, 0) :: l) with ([(NULL, 0)] ++ l). by rewrite app_assoc, <- replicate_cons_app. }
    rewrite Hrep in Hf. exists m'. split; [done|]. split; [done|]. split; [done|]. split; [done|].
    cbn [allocations x' with_allocations]. split.
    + apply Forall_app. split; [apply Forall_replicate; by left|]. rewrite Forall_forall in Hok |- *.
      intros b Hb'. apply allocation_ok_delete; [by apply Hok|]. intros He. apply Hn2. rewrite <- He.
      by apply list_elem_of_fmap_2.
    + rewrite live_ptrs_app, live_ptrs_null. unfold live_ptrs in Hnd |- *. cbn in Hnd. rewrite decide_True in Hnd by done.
      by apply NoDup_cons in Hnd as [_ ?].
Qed.

Lemma terminate_loop_ok p xs j ys l : forall (s : st) base n x i,
  tasks_ok (omem s) (o_sched s) base n (xs ++ j :: ys) -> owns s p x j ->
  allocations x = replicate i (NULL, 0) ++ l -> allocations_ok base (allocations x) ->
  exists m', terminate_allocations_loop (length l) p (Z.of_nat i) s
      = Some (tt, set_proc p (with_allocations (replicate (i + length l) (NULL, 0)) x) (set_omem m' s)) /\
    tasks_ok m' (o_sched s) (without l base) (n + freed l) (xs ++ j :: ys) /\
    keeps (without l base) (omem s) m' /\
    (forall k va, k ∈ xs ++ ys -> 0 <= va < 2 ^ 32 ->
       translate m' (ts_dir k) va = translate (omem s) (ts_dir k) va).
Proof.
  induction l as [|a l IH]; intros s base n x i T Hown Hl Hok.
  - exists (omem s). cbn. rewrite Z.add_0_r. split; [|split; [done|split; [apply keeps_refl|done]]].
    rewrite Nat.add_0_r, app_nil_r in *. unfold ret. do 2 f_equal. rewrite <- Hl. destruct Hown as [Hp _].
    destruct s as [k pg kc c [pr tb cu]], x. unfold set_proc, set_omem, set_k, set_procs, omem. cbn in *.
    by rewrite set_kmem_id, insert_id.
  - destruct (terminate_step s base n xs j ys p x i a l T Hown Hl Hok) as (m1 & Hf & T1 & Hk1 & Ht1 & Hok1).
    set (x1 := with_allocations _ x) in *. set (s1 := set_proc p x1 (set_omem m1 s)).
    assert (omem s1 = m1) as Hm1 by apply al_get_put.
    assert (owns s1 p x1 j) as Hown1 by (split; [apply lookup_insert_eq|apply Hown]).
    destruct (IH s1 (delete (fst a) base) (n + nblocks (snd a)) x1 (Datatypes.S i)) as (m2 & Hl2 & T2 & Hk2 & Ht2);
      [by rewrite Hm1|done|done|done|]. rewrite Hm1 in Hk2, Ht2.
    exists m2. split; [|split; [|split]].
    + cbn [terminate_allocations_loop length].
      rewrite (bind_Some (get_process p) _ s x s) by (unfold get_process; by rewrite (ow_proc _ _ _ _ Hown)).
      rewrite Nat2Z.id, (bind_lift _ _ _ a) by (rewrite Hl; apply list_lookup_middle; by rewrite length_replicate).
      rewrite (bind_Some _ _ _ _ _ Hf). fold s1. replace (Z.of_nat i + 1) with (Z.of_nat (Datatypes.S i)) by lia.
      rewrite Hl2. unfold s1. rewrite set_proc_twice.
      by replace (Datatypes.S i + length l)%nat with (i + Datatypes.S (length l))%nat by lia.
    + change (freed (a :: l)) with (nblocks (snd a) + freed l). rewrite Z.add_assoc. exact T2.
    + eapply keeps_trans; [eapply keeps_sub, Hk1|exact Hk2]. apply (without_sub l (delete (fst a) base)).
    + intros k va Hk Hva. by rewrite Ht2, Ht1.
Qed.

(** What an ELF process owns beside its task. *)
Record process_ok (base : gmap Z Z) (p : Z) (x : process) (addr : Z) (file : elf_file) (b : Z) : Prop := {
  po_program : p_program x = PROCESS_FILETYPE_ELF (Some (addr, file));
  po_len : length (allocations x) = 1024%nat;
  po_allocs : allocations_ok base (allocations x);
  po_image : base !! elf_memory file = Some b;
  po_elf : base !! addr = Some 1;
  po_stack : base !! p_stack x = Some 4;
  po_self : base !! p = Some 3;
  po_nodup : NoDup ([elf_memory file; addr; p_stack x; p] ++ live_ptrs (allocations x))
}.

(** A freshly loaded process. *)
Lemma loaded_process_ok (s s' : st) base base' ks j p x E names sz l slot :
  loaded s s' base base' ks j p x E names sz l slot ->
  owns s' p x j /\ p_id x = slot /\ exists addr, process_ok base' p x addr (elf_of E l) (nblocks sz).
Proof.
  intros [Htab (addr & Ha & Hnd & HE & Hx) (_ & _ & _ & Hp & Hst & HEb) _ _ _ _ _ _].
  split; [split; [rewrite Htab; apply lookup_insert_eq|by rewrite Hx]|]. split; [by rewrite Hx|]. exists addr.
  assert (allocations x = replicate 1024 (NULL, 0)) as Hal by (by rewrite Hx).
  split; [by rewrite Hx|by rewrite Hal| |by rewrite HE|done|done|done|].
  - rewrite Hal. split; [apply Forall_replicate; by left|rewrite live_ptrs_null; constructor].
  - by rewrite Hal, live_ptrs_null, app_nil_r, HE.
Qed.

Lemma base_not_null m c base n ks q b : tasks_ok m c base n ks -> base !! q = Some b -> q <> NULL.
Proof.
  intros [_ Ho Ha _] Hq. destruct (ka_range _ _ _ q b Ha); [|unfold NULL; lia].
  eapply lookup_weaken; [exact Hq|by apply base_sub].
Qed.

Lemma without_owned m c base n ks l q b :
  tasks_ok m c base n ks -> base !! q = Some b -> q ∉ live_ptrs l -> without l base !! q = Some b.
Proof.
  intros T Hq Hn. rewrite lookup_without; [done|]. intros (a & Ha & Hin)%list_elem_of_fmap. apply Hn. rewrite Ha.
  apply live_ptrs_in; [done|]. rewrite <- Ha. by eapply base_not_null.
Qed.

(** Three allocations given back one after the other. *)
Lemma tasks_delete3 m c base n ks q1 b1 q2 b2 q3 b3 :
  tasks_ok m c base n ks -> base !! q1 = Some b1 -> base !! q2 = Some b2 -> base !! q3 = Some b3 ->
  NoDup [q1; q2; q3] ->
  let m' := ka_free (ka_free (ka_free m q1) q2) q3 in
  let base' := delete q3 (delete q2 (delete q1 base)) in
  tasks_ok m' c base' (n + b1 + b2 + b3) ks /\ keeps base' m m' /\
  forall k va, k ∈ ks -> 0 <= va < 2 ^ 32 -> translate m' (ts_dir k) va = translate m (ts_dir k) va.
Proof.
  intros T H1 H2 H3 Hnd m' base'.
  apply NoDup_cons in Hnd as [Hn1 Hnd]. apply NoDup_cons in Hnd as [Hn2 _].
  rewrite elem_of_cons, list_elem_of_singleton in Hn1. rewrite list_elem_of_singleton in Hn2.
  destruct (tasks_delete _ _ _ _ _ _ _ T H1) as [T1 K1].
  assert (delete q1 base !! q2 = Some b2) as H2' by (rewrite lookup_delete_ne by tauto; done).
  destruct (tasks_delete _ _ _ _ _ _ _ T1 H2') as [T2 K2].
  assert (delete q2 (delete q1 base) !! q3 = Some b3) as H3' by (rewrite !lookup_delete_ne by tauto; done).
  destruct (tasks_delete _ _ _ _ _ _ _ T2 H3') as [T3 K3]. split; [done|].
  assert (forall b0 b1' : gmap Z Z, b1' ⊆ b0 -> add_pages b1' (all_blocks ks) ⊆ add_pages b0 (all_blocks ks)) as Hm.
  { intros b0 b1' Hs. apply map_subseteq_spec. intros r v. rewrite !lookup_add_pages. case_decide; [done|].
    intros Hr; by eapply lookup_weaken. }
  assert (keeps (add_pages base' (all_blocks ks)) m m') as Hk.
  { eapply keeps_trans; [eapply keeps_sub, K1|eapply keeps_trans; [eapply keeps_sub, K2|exact K3]]; apply Hm;
      [etrans; apply delete_subseteq|apply delete_subseteq]. }
  split; [eapply keeps_sub, Hk; apply base_sub, T3|]. by apply (translate_keep _ _ _ _ _ Hk (t_space _ _ _ _ _ T)).
Qed.

(** The table after process [x] at [p] is unlinked: when it was the current
    process, the first one left becomes current. *)
Definition unlinked (t : ptable) (p : Z) (x : process) : option ptable :=
  let t' := mk_ptable (procs t) (<[Z.to_nat (p_id x) := NULL]> (processes t)) (current_process t) in
  if current_process t =? p then process_switch_to_any t' else Some t'.

Lemma process_unlink_ok (s : st) p x t' :
  procs (o_procs s) !! p = Some x -> 0 <= p_id x < Z.of_nat (length (processes (o_procs s))) ->
  unlinked (o_procs s) p x = Some t' -> process_unlink p s = Some (tt, set_procs t' s).
Proof.
  intros Hp Hid Hu. unfold process_unlink.
  rewrite (bind_Some (get_process p) _ s x s) by (unfold get_process; by rewrite Hp).
  unfold bind at 1, on_table at 1. rewrite decide_True by done. unfold bind, get. unfold unlinked in Hu.
  cbn [o_procs set_procs current_process]. destruct (current_process (o_procs s) =? p).
  - unfold on_table. cbn [o_procs set_procs]. by rewrite Hu.
  - by injection Hu as <-.
Qed.

(** The state when the task is about to be freed. *)
Lemma terminate_memory_ok (s : st) base n xs j ys p x addr file b :
  tasks_ok (omem s) (o_sched s) base n (xs ++ j :: ys) -> owns s p x j -> process_ok base p x addr file b ->
  let x' := with_allocations (replicate 1024 (NULL, 0)) x in
  let base' := delete (p_stack x) (delete addr (delete (elf_memory file) (without (allocations x) base))) in
  exists m1, let s' m := set_proc p x' (set_omem m s) in
  let m' := ka_free (ka_free (ka_free m1 (elf_memory file)) addr) (p_stack x) in
    process_terminate_allocations p s = Some (OK, s' m1) /\
    process_free_program_data p (s' m1) = Some (OK, s' (ka_free (ka_free m1 (elf_memory file)) addr)) /\
    tasks_ok m' (o_sched s) base' (n + freed (allocations x) + b + 5) (xs ++ j :: ys) /\
    keeps base' (omem s) m' /\ base' !! p = Some 3 /\ base' ⊆ base /\
    forall k va, k ∈ xs ++ ys -> 0 <= va < 2 ^ 32 ->
      translate m' (ts_dir k) va = translate (omem s) (ts_dir k) va.
Proof.
  intros T Hown [Hpr Hlen Hal HE Hadr Hst Hself Hnd] x' base'.
  destruct (terminate_loop_ok p xs j ys (allocations x) s base n x 0 T Hown eq_refl Hal) as (m1 & Hl & T1 & Hk1 & Ht1).
  rewrite Hlen in Hl. cbn [Nat.add] in Hl. apply NoDup_app in Hnd as (Hnd & Hdis & _).
  assert (forall q v, q ∈ [elf_memory file; addr; p_stack x; p] -> base !! q = Some v ->
    without (allocations x) base !! q = Some v) as Hw
    by (intros q v Hq Hv; eapply without_owned; [exact T|done|by apply Hdis]).
  destruct (tasks_delete3 m1 (o_sched s) _ _ _ (elf_memory file) b addr 1 (p_stack x) 4 T1) as (T2 & Hk2 & Ht2);
    [apply Hw; [left|done]|apply Hw; [right; left|done]|apply Hw; [do 2 right; left|done]| |].
  { by apply (NoDup_app [elf_memory file; addr; p_stack x] [p]) in Hnd as (? & _). }
  exists m1. cbv zeta. split.
  { unfold process_terminate_allocations. change (Z.to_nat TOYOS_MAX_PROGRAM_ALLOCATIONS) with 1024%nat.
    by rewrite (bind_Some _ _ _ _ _ Hl). }
  set (s1 := set_proc p x' (set_omem m1 s)). split.
  { unfold process_free_program_data.
    rewrite (bind_Some (get_process p) _ s1 x' s1) by (unfold get_process; cbn; by rewrite lookup_insert_eq).
    cbn [p_program x' with_allocations]. rewrite Hpr. unfold process_free_elf_data, elf_close, bind, on_k, vfs_kfree.
    fold (kmem (o_k s1)). change (kmem (o_k s1)) with (kmem (set_kmem m1 (o_k s))). rewrite kmem_set.
    unfold ret. do 2 f_equal. unfold s1, set_proc, set_omem, set_k, set_procs.
    cbn [o_k o_pg kernel_chunk o_sched o_procs]. f_equal.
    fold (set_kmem (ka_free m1 (elf_memory file)) (set_kmem m1 (o_k s))). fold (kmem (set_kmem (ka_free m1 (elf_memory file)) (set_kmem m1 (o_k s)))).
    rewrite kmem_set. fold (set_kmem (ka_free (ka_free m1 (elf_memory file)) addr) (set_kmem (ka_free m1 (elf_memory file)) (set_kmem m1 (o_k s)))).
    by rewrite !set_kmem_set. }
  split; [by replace (n + freed (allocations x) + b + 5) with (n + freed (allocations x) + b + 1 + 4) by lia|].
  assert (base' ⊆ without (allocations x) base) as Hsub by (unfold base'; do 2 (etrans; [apply delete_subseteq|]); apply delete_subseteq).
  split; [eapply keeps_trans; [eapply keeps_sub, Hk1; done|exact Hk2]|]. split.
  { assert (p <> elf_memory file /\ p <> addr /\ p <> p_stack x) as (?&?&?).
    { apply (NoDup_app [elf_memory file; addr; p_stack x] [p]) in Hnd as (_ & Hd & _).
      assert (p ∉ [elf_memory file; addr; p_stack x]) as Hn by (intros Hin; apply (Hd p Hin); left).
      rewrite !elem_of_cons in Hn. tauto. }
    unfold base'. rewrite !lookup_delete_ne by done. apply Hw; [do 3 right; left|done]. }
  split; [etrans; [exact Hsub|apply without_sub]|].
  intros k va Hk Hva. rewrite Ht2, Ht1 by (done || (rewrite elem_of_app, elem_of_cons; apply elem_of_app in Hk as [?|?]; auto)).
  done.
Qed.

Lemma process_terminate_ok (s : st) base n xs j ys p x addr file b t' :
  tasks_ok (omem s) (o_sched s) base n (xs ++ j :: ys) -> owns s p x j -> process_ok base p x addr file b ->
  0 <= p_id x < Z.of_nat (length (processes (o_procs s))) ->
  let x' := with_allocations (replicate 1024 (NULL, 0)) x in
  unlinked (o_procs (set_proc p x' s)) p x' = Some t' ->
  let base' := delete (p_stack x) (delete addr (delete (elf_memory file) (without (allocations x) base))) in
  exists m' c', process_terminate p s = Some (OK, set_procs t' (upd m' c' s)) /\
    tasks_ok m' c' base' (n + freed (allocations x) + b + 1032) (xs ++ ys) /\
    keeps base' (omem s) m' /\ base' !! p = Some 3 /\ base' ⊆ base /\
    current_task c' = (if ts_task j =? current_task (o_sched s)
                       then hd (ts_task j) (map ts_task (ys ++ xs)) else current_task (o_sched s)) /\
    (forall t, t <> ts_task j -> body <$> tasks c' !! t = body <$> tasks (o_sched s) !! t) /\
    forall k va, k ∈ xs ++ ys -> 0 <= va < 2 ^ 32 ->
      translate m' (ts_dir k) va = translate (omem s) (ts_dir k) va.
Proof.
  intros T Hown Hok Hid x' Hu base'.
  destruct (terminate_memory_ok s base n xs j ys p x addr file b T Hown Hok) as (m1 & HX).
  cbv zeta in HX. fold x' in HX. fold base' in HX. set (m2 := ka_free (ka_free m1 _) _) in HX.
  destruct HX as (Hta & Hpd & T3 & Hk3 & Hself & Hsub & Ht3).
  set (m3 := ka_free m2 (p_stack x)) in *. set (s3 := set_proc p x' (set_omem m3 s)).
  assert (omem s3 = m3) as Hm3 by apply al_get_put.
  destruct (task_free_ok s3 base' (n + freed (allocations x) + b + 5) xs j ys) as
    (m4 & c4 & Hf & T4 & Hk4 & Hcur & _ & Hbd & Ht4); [by rewrite Hm3|].
  exists m4, c4. split.
  - unfold process_terminate. rewrite (bind_Some _ _ _ _ _ Hta). change (OK <? 0) with false. cbv iota.
    rewrite (bind_Some _ _ _ _ _ Hpd). change (OK <? 0) with false. cbv iota.
    set (s2 := set_proc p x' (set_omem m2 s)).
    rewrite (bind_Some (get_process p) _ s2 x' s2) by (unfold get_process; cbn; by rewrite lookup_insert_eq).
    unfold task_kfree. rewrite (bind_on_mem _ _ _ tt m3).
    2: { change (omem s2) with (kmem (set_kmem m2 (o_k s))). by rewrite kmem_set. }
    assert (set_omem m3 s2 = s3) as ->.
    { unfold s2, s3, set_proc, set_omem, set_k, set_procs. cbn [o_k o_pg kernel_chunk o_sched o_procs].
      by rewrite set_kmem_set. }
    change (p_task x') with (p_task x). rewrite (ow_task _ _ _ _ Hown), (bind_Some _ _ _ _ _ Hf).
    rewrite (bind_Some _ _ _ _ _ (process_unlink_ok (upd m4 c4 s3) p x' t' (lookup_insert_eq _ _ _) Hid Hu)).
    replace (set_procs t' (upd m4 c4 s3)) with (set_procs t' (upd m4 c4 s)); [done|].
    unfold upd, set_procs, s3, set_proc, set_omem, set_k, set_procs.
    cbn [o_k o_pg kernel_chunk o_sched o_procs]. by rewrite set_kmem_set.
  - split; [by replace (n + freed (allocations x) + b + 1032) with (n + freed (allocations x) + b + 5 + 1027) by lia|].
    rewrite Hm3 in Hk4, Ht4. split; [by eapply keeps_trans|]. split; [done|]. split; [done|]. split; [exact Hcur|].
    split; [exact Hbd|]. intros k va Hk Hva. by rewrite Ht4, Ht3.
Qed.

Lemma switch_to_any_ok q l t :
  q ∈ l -> q <> NULL ->
  exists r, process_switch_to_any_loop l t = Some (process_switch r t) /\ r ∈ l /\ r <> NULL.
Proof.
  intros Hin Hq. induction l as [|r l IH]; [by apply elem_of_nil in Hin|]. cbn.
  destruct (Z.eqb_spec r NULL) as [->|Hr]; cbn [negb].
  - apply elem_of_cons in Hin as [->|Hin]; [done|]. destruct (IH Hin) as (r & He & Hr & Hr0).
    exists r. split; [done|]. split; [by right|done].
  - exists r. split; [done|]. split; [left|done].
Qed.

(** Another process [q] is left in the table. *)
Lemma unlinked_ok (s : st) p x x' q :
  p_id x' = p_id x -> q ∈ <[Z.to_nat (p_id x) := NULL]> (processes (o_procs s)) -> q <> NULL ->
  exists t', unlinked (o_procs (set_proc p x' s)) p x' = Some t' /\
    processes t' = <[Z.to_nat (p_id x) := NULL]> (processes (o_procs s)) /\
    (current_process (o_procs s) <> p -> current_process t' = current_process (o_procs s)) /\
    (current_process (o_procs s) = p ->
       current_process t' ∈ <[Z.to_nat (p_id x) := NULL]> (processes (o_procs s)) /\ current_process t' <> NULL).
Proof.
  intros Hid Hq Hq0. unfold unlinked. rewrite Hid.
  cbn [o_procs set_proc set_procs procs processes current_process].
  set (l := <[Z.to_nat (p_id x) := NULL]> (processes (o_procs s))) in *.
  destruct (Z.eqb_spec (current_process (o_procs s)) p) as [He|He].
  - unfold process_switch_to_any. cbn [processes]. destruct (switch_to_any_ok q l (mk_ptable
      (<[p := x']> (procs (o_procs s))) l (current_process (o_procs s))) Hq Hq0) as (r & Hr & Hin & Hr0).
    eexists. split; [exact Hr|]. done.
  - eexists. split; [reflexivity|]. done.
Qed.

End Terminate.

End ProcessMem.

(** ** What process memory promises *)

Module ProcessMemProps.
Import ProcessMem.

Section Props.
Context {S H : Type} {KA : KAlloc mem} {KL : KAllocLaws mem} {KM : KAllocMem} {KR : KAllocRoom mem}.
Context {HA : HasAlloc mem S} {AL : AllocLens mem S}.

Abbreviation st := (os S H).

Lemma free_entry base l i :
  Forall (allocation_ok base) l -> allocation_index l NULL 0 = Some i ->
  0 <= i /\ exists pre post, l = pre ++ (NULL, 0) :: post /\ Z.to_nat i = length pre.
Proof.
  intros Hok Hi. destruct (allocation_index_Some _ _ _ _ Hi) as (Hr & sz & Hl). rewrite Z.sub_0_r in Hl.
  split; [lia|]. pose proof (Forall_lookup_1 _ _ _ _ Hok Hl) as [[= ->]|[Hn _]]; [|done].
  exists (take (Z.to_nat i) l), (drop (Datatypes.S (Z.to_nat i)) l). split; [by rewrite take_drop_middle|].
  rewrite length_take. lia.
Qed.

Lemma allocations_ok_add base pre post ptr sz :
  allocations_ok base (pre ++ (NULL, 0) :: post) -> base !! ptr = None ->
  ptr <> NULL -> ptr mod 4096 = 0 -> size_ok sz ->
  ptr ∉ map fst pre /\ ptr ∉ map fst post /\
  allocations_ok (<[ptr := nblocks sz]> base) (pre ++ (ptr, sz) :: post).
Proof.
  intros [Hok Hnd] Hp H0 Hal Hsz. apply Forall_app in Hok as [Hpre [_ Hpost]%Forall_cons].
  assert (forall l, Forall (allocation_ok base) l -> ptr ∉ map fst l) as Hn.
  { intros l Hl (a & Ha & Hin)%list_elem_of_fmap. rewrite Forall_forall in Hl.
    destruct (Hl a Hin) as [->|(_ & _ & _ & Hb)]; [done|congruence]. }
  assert (forall l, Forall (allocation_ok base) l -> Forall (allocation_ok (<[ptr := nblocks sz]> base)) l) as Hm.
  { intros l Hl. eapply Forall_impl; [exact Hl|]. intros a [->|(H1 & H2 & H3 & H4)]; [by left|right].
    repeat (split; [done|]). rewrite lookup_insert_ne; [done|congruence]. }
  split; [by apply Hn|]. split; [by apply Hn|]. split.
  - apply Forall_app. split; [by apply Hm|]. constructor; [|by apply Hm]. right. cbn.
    repeat (split; [done|]). apply lookup_insert_eq.
  - rewrite live_ptrs_app in Hnd |- *. unfold live_ptrs at 2 in Hnd. unfold live_ptrs at 2. cbn in *.
    rewrite decide_False in Hnd by (intros Hx; by apply Hx). rewrite decide_True by done. fold (live_ptrs post) in *.
    rewrite <- Permutation_middle. apply NoDup_cons. split; [|done]. rewrite elem_of_app.
    assert (forall l, ptr ∉ map fst l -> ptr ∉ live_ptrs l) as Hlp by (intros l Hl [_ Hin]%list_elem_of_filter; done).
    intros [Hin|Hin]; revert Hin; apply Hlp, Hn; done.
Qed.

(** C37: [process_malloc] and [process_free].  An allocation is fresh, zero and
    writable by the process, the table of allocations stays well-formed, and no
    other allocation or address space changes; freeing it takes it out of the
    address space again and restores the heap and the table. *)
Theorem process_malloc_free (s : st) base n xs j ys p x sz i :
  tasks_ok (omem s) (o_sched s) base n (xs ++ j :: ys) -> owns s p x j -> size_ok sz ->
  allocations_ok base (allocations x) ->
  (nblocks sz - 1) * (Z.of_nat (size (add_pages base (all_blocks (xs ++ j :: ys)))) + 1) < n ->
  allocation_index (allocations x) NULL 0 = Some i ->
  exists ptr x1 s1 s2,
    process_malloc p sz s = Some (ptr, s1) /\ base !! ptr = None /\ keeps base (omem s) (omem s1) /\
    procs (o_procs s1) !! p = Some x1 /\ allocations_ok (<[ptr := nblocks sz]> base) (allocations x1) /\
    (forall va, ptr <= va < ptr + sz -> translate (omem s1) (ts_dir j) va = Some (va, 6) /\ mread (omem s1) va = 0) /\
    (forall k va, k ∈ xs ++ ys -> 0 <= va < 2 ^ 32 ->
       translate (omem s2) (ts_dir k) va = translate (omem s) (ts_dir k) va) /\
    process_free p ptr s1 = Some (tt, s2) /\ procs (o_procs s2) !! p = Some x /\
    tasks_ok (omem s2) (o_sched s2) base n (xs ++ j :: ys) /\ keeps base (omem s) (omem s2) /\
    (forall va, ptr <= va < ptr + sz -> translate (omem s2) (ts_dir j) va = None).
Proof.
  intros T Hown Hsz Hal Hroom Hi. destruct (free_entry base _ _ (proj1 Hal) Hi) as (Hi0 & pre & post & Hl & Hpre).
  destruct (process_malloc_ok s base n xs j ys p x sz i T Hown Hsz Hroom Hi Hi0) as
    (ptr & m1 & Hp0 & Hp4 & Hpb & Hm & T1 & Hk1 & Hz & Hoth & Htr).
  set (x1 := with_allocations _ x) in Hm. set (s1 := set_proc p x1 (set_omem m1 s)) in Hm.
  assert (omem s1 = m1) as Hm1 by apply al_get_put.
  assert (allocations x1 = pre ++ (ptr, sz) :: post) as Hl1.
  { cbn [x1 allocations with_allocations]. rewrite Hl, Hpre. by rewrite insert_app_r_alt, Nat.sub_diag by lia. }
  rewrite Hl in Hal. destruct (allocations_ok_add base pre post ptr sz Hal Hpb Hp0 Hp4 Hsz) as (Hn1 & Hn2 & Hal1).
  destruct (process_free_ok s1 (<[ptr := nblocks sz]> base) (n - nblocks sz) xs j ys p x1 ptr sz) as
    (m2 & Hf & T2 & Hk2 & Hoth2 & Htr2); [by rewrite Hm1|split; [apply lookup_insert_eq|apply Hown]|
      by eapply find_allocation|apply lookup_insert_eq|done|done|].
  rewrite (unjoin_middle x1 _ _ _ _ Hl1 Hn1 Hn2), Hm1 in *.
  rewrite delete_insert_id in T2, Hk2 by done. replace (n - nblocks sz + nblocks sz) with n in T2 by lia.
  destruct (ka_range _ _ _ ptr (nblocks sz) (t_live _ _ _ _ _ T1)) as (Hr0 & _ & Hr1).
  { eapply lookup_weaken; [apply lookup_insert_eq|apply base_sub, T1]. }
  assert (sz <= nblocks sz * 4096) as Hnb by (unfold nblocks; zlia).
  set (s2 := set_proc p _ _) in Hf. assert (omem s2 = m2) as Hm2 by apply al_get_put.
  exists ptr, x1, s1, s2. rewrite Hm1, Hm2. split; [done|]. split; [done|]. split; [done|].
  split; [apply lookup_insert_eq|]. split; [by rewrite Hl1|]. split.
  { intros va Hva. rewrite Htr, decide_True by lia. split; [done|by apply Hz]. }
  split; [|split; [exact Hf|split; [|split; [done|split; [by eapply keeps_trans|]]]]].
  - intros k va Hk Hva. by rewrite Hoth2, Hoth.
  - cbn [o_procs s2 set_proc set_procs procs]. rewrite lookup_insert_eq. f_equal.
    cbn [with_allocations x1]. rewrite <- Hl. by destruct x.
  - intros va Hva. by rewrite Htr2, decide_True by lia.
Qed.

Context {KN : KAllocNull}.

(** C5: [process_terminate] of a loaded ELF process.  Its allocations, its
    program, its stack, its task and its address space are given back, its slot
    is free again, the scheduler's queue is without its task and the address
    spaces of the other tasks are untouched.  One thing is not given back: the
    [struct process] itself is still allocated. *)
Theorem process_terminate_releases (s : st) base n xs j ys p x addr file b q :
  tasks_ok (omem s) (o_sched s) base n (xs ++ j :: ys) -> owns s p x j -> process_ok base p x addr file b ->
  0 <= p_id x < Z.of_nat (length (processes (o_procs s))) ->
  q ∈ <[Z.to_nat (p_id x) := NULL]> (processes (o_procs s)) -> q <> NULL ->
  exists s' base', process_terminate p s = Some (OK, s') /\
    processes (o_procs s') = <[Z.to_nat (p_id x) := NULL]> (processes (o_procs s)) /\
    (current_process (o_procs s) <> p -> current_process (o_procs s') = current_process (o_procs s)) /\
    (current_process (o_procs s) = p ->
       current_process (o_procs s') ∈ processes (o_procs s') /\ current_process (o_procs s') <> NULL) /\
    tasks_ok (omem s') (o_sched s') base' (n + freed (allocations x) + b + 1032) (xs ++ ys) /\
    base' ⊆ base /\ base' !! p = Some 3 /\ base' !! p_stack x = None /\ base' !! elf_memory file = None /\
    keeps base' (omem s) (omem s') /\
    forall k va, k ∈ xs ++ ys -> 0 <= va < 2 ^ 32 ->
      translate (omem s') (ts_dir k) va = translate (omem s) (ts_dir k) va.
Proof.
  intros T Hown Hok Hid Hq Hq0. set (x' := with_allocations (replicate 1024 (NULL, 0)) x).
  set (l := <[Z.to_nat (p_id x) := NULL]> (processes (o_procs s))) in *.
  destruct (unlinked_ok s p x x' q eq_refl Hq Hq0) as (t' & Hu & Hpt & Hc1 & Hc2).
  destruct (process_terminate_ok s base n xs j ys p x addr file b t' T Hown Hok Hid Hu) as
    (m' & c' & Ht & T' & Hk & Hself & Hsub & _ & _ & Htr).
  set (base' := delete (p_stack x) _) in *. exists (set_procs t' (upd m' c' s)), base'.
  assert (omem (set_procs t' (upd m' c' s)) = m') as Hm by apply al_get_put. rewrite Hm.
  split; [done|]. split; [exact Hpt|]. split; [exact Hc1|]. split; [cbn; by rewrite Hpt|]. split; [done|]. split; [done|].
  split; [done|]. split; [apply lookup_delete_eq|]. split; [|done].
  unfold base'. rewrite !lookup_delete. by repeat case_decide.
Qed.

End Props.
End ProcessMemProps.
