(* ===== verification/Boot.v ===== *)
(** * A machine with a program on its disk

    The concrete instance of the layers above: the kernel heap, a simulated ATA
    drive with a FAT16 volume whose root directory holds an ELF program, and the
    process layer on top.  It shows that the hypotheses of the theorems of
    Process.v and ProcessMem.v can be met together. *)

From S2P Require Import Prelude CLib KAlloc Heap Paging AddressSpace Disk PathParser Fat16 File FatFs Elf Task TaskMem Process ProcessMem.
Import Memory Str Paging Mmu PagingFacts ASpace PathParser Fat16 File Elf Task TaskList TaskRun TaskMem.
Import Process ProcessFacts ProcessLoad ProcessProps ProcessMem ProcessMemProps ElfFacts ElfUse.
Import Streamer FatFs FileFacts FileUse PathFacts PathProps FatNames FatFacts Laws HeapProps AtaFacts Sim.

Module Boot.

#[local] Instance boot_alloc : KAlloc mem := kheap_alloc kheap.
#[local] Existing Instances quiet_laws quiet_mem quiet_room quiet_null.
#[local] Existing Instances ata_block ata_block_laws.

(** An executable with one read-write segment: the whole file at 0x400000. *)
Definition program_file : list Z :=
  [0x7f; 69; 76; 70; 1; 1; 1; 0; 0; 0; 0; 0; 0; 0; 0; 0] ++
  le_bytes 2 2 ++ le_bytes 2 3 ++ le_bytes 4 1 ++ le_bytes 4 0x400054 ++ le_bytes 4 52 ++ le_bytes 4 0 ++
  le_bytes 4 0 ++ le_bytes 2 52 ++ le_bytes 2 32 ++ le_bytes 2 1 ++ le_bytes 2 0 ++ le_bytes 2 0 ++ le_bytes 2 0 ++
  le_bytes 4 1 ++ le_bytes 4 0 ++ le_bytes 4 0x400000 ++ le_bytes 4 0x400000 ++ le_bytes 4 96 ++ le_bytes 4 96 ++
  le_bytes 4 7 ++ le_bytes 4 0x1000 ++ replicate 12 0x90.

(** "SHELL.ELF", 96 bytes, on cluster 3 *)
Definition prog : fat_directory_item :=
  mk_item [83; 72; 69; 76; 76; 32; 32; 32] [69; 76; 70] 0 0 0 0 0 0 0 0 0 3 96.

Definition disk_image : sim := mk_sim {[200 := FatProps.image_fat; 844 := program_file]} ∅ Idle false.

Definition prog_vol (m : mem) : volume mem sim :=
  mk_volume m disk_image 512 FatProps.image_header
    (mk_dir NULL 0x1004000 (encode_item prog ++ replicate 2016 0) 1 712 716)
    (Some (mk_stream 0 1)) (Some (mk_stream 0 1)) (Some (mk_stream 0 1)).

Definition fat : filesystem (fat_state mem sim) fat_file_descriptor :=
  @fat16_init mem sim boot_alloc (ata_block 1) (replicate 512 0) 0 64 64 1.

#[local] Instance fat_is_spec : FsSpec fat :=
  @fat_spec mem boot_alloc sim (ata_block 1) (ata_block_laws 1) (replicate 512 0) 0 64 64 1.

Lemma fat_is_fs (L : KAllocLaws mem) : FsLaws fat.
Proof. exact (@fat_laws _ _ L _ _ (ata_block_laws 1) (replicate 512 0) 0 64 64 1 eq_refl). Qed.

#[local] Instance fat_lens : AllocLens mem (fat_state mem sim).
Proof. split; [by intros []|by intros []|by intros [|[]]]. Defined.

Definition start_kernel : kernel (fat_state mem sim) fat_file_descriptor :=
  mk_kernel (Mounted (prog_vol boot_mem)) [Some fat] (replicate 512 None)
    (mk_disk 0 0 512 (Some fat)).

Definition machine : Type := os (fat_state mem sim) fat_file_descriptor.

(** Slot 0 of the process table is taken. *)
Definition start_os : machine :=
  mk_os start_kernel (mk_paging_state 0 0) 0x9000 (mk_sched ∅ 0 0 0)
    (mk_ptable ∅ (0x2000000 :: replicate 11 NULL) NULL).

(** "shell.elf" *)
Definition prog_elf : list Z := [115; 104; 101; 108; 108; 46; 101; 108; 102].

Lemma prog_file : @root_file _ _ (prog_vol boot_mem) prog_elf prog.
Proof.
  split; [repeat constructor; unfold is_char; lia|]. split; [simpl; lia|]. split; [|done].
  exists 0, [83; 72; 69; 76; 76; 46; 69; 76; 70]. split; [simpl; lia|]. split.
  - exists (ptr_add 0x1004000 0), [83; 72; 69; 76; 76], [69; 76; 70]. split; [reflexivity|].
    split; [|done]. split; (split; [repeat constructor; unfold is_char; lia|]).
    + split; [done|]. exists [32; 32; 32]. split; [done|]. right. by exists 32, [32; 32]; auto.
    + split; [done|]. exists []. auto.
  - split; [done|]. intros j Hj Hne. simpl in Hj. lia.
Qed.

Lemma prog_vol_ok : @vol_ok _ _ _ (ata_block_laws 1) (prog_vol boot_mem).
Proof. split; try done; try (simpl; lia). intros []; by eexists. Qed.

Lemma prog_content :
  @fat_content _ _ _ (ata_block_laws 1) (Mounted (prog_vol boot_mem)) [prog_elf] 96 program_file.
Proof.
  eexists _, prog_elf, prog. split; [done|]. split; [done|]. split; [apply prog_file|].
  split; [apply prog_vol_ok|]. split; [done|]. split; [done|]. split; [|vm_compute; reflexivity].
  intros k Hk. change (0 <= k <= 0) in Hk. replace k with 0 by lia.
  exists 3. split; [done|]. unfold cluster_fits, fits, cluster_pos, csize. simpl. zlia.
Qed.

Lemma program_image : image_ok program_file.
Proof. split; [vm_compute; split; congruence|reflexivity|reflexivity|reflexivity|reflexivity|vm_compute; congruence]. Qed.

Lemma start_live : ka_live boot_mem ∅ 25600.
Proof. split; [apply kheap_fresh|]. unfold quiet, boot_mem. rewrite memset_read by (vm_compute; congruence). rewrite decide_False; [reflexivity|]. unfold TOYOS_HEAP_TABLE_ADDRESS. lia. Qed.

Lemma start_loadable : loadable fat start_os ∅ 25600 [] [prog_elf] 96 program_file.
Proof.
  split.
  - split; [|by split; constructor|exact start_live|done].
    split; [constructor|apply not_elem_of_nil|done|done|done].
  - exists 0%nat. split; [|lia]. split; [done|exact start_live|reflexivity|reflexivity].
  - split; [constructor; [|constructor]; split; [done|]; repeat constructor; unfold is_char, SLASH; lia|].
    split; [done|simpl; lia].
  - eexists _, prog_elf, prog. split; [done|]. split; [done|]. split; [apply prog_file|by left].
  - exact prog_content.
  - eexists _, prog_elf, prog. split; [done|]. split; [done|]. split; [apply prog_file|done].
  - exact program_image.
  - constructor; [|constructor]. vm_compute. repeat split; try congruence. left. split; congruence.
  - unfold load_room. vm_compute. congruence.
Qed.

Lemma process_load_elf_witness :
  exists p j s', process_load (path_arg [prog_elf] []) start_os = Some ((OK, p), s') /\
    vread (omem s') (ts_dir j) 0x400000 = Some 0x7f /\ vread (omem s') (ts_dir j) 0x3fefff = Some 0.
Proof.
  destruct (process_load_elf fat fat_is_fs start_os ∅ 25600 [] [prog_elf] [] 96 program_file 1 start_loadable)
    as (p & x & j & E & base & s' & Hl & _ & _ & Hb & Hz); [reflexivity|lia|reflexivity|].
  exists p, j, s'. split; [exact Hl|]. split; [|apply Hz; lia].
  rewrite (Hb [] (image_phdr program_file 52) [] 0x400000); [reflexivity|reflexivity| |constructor|lia|lia|].
  - split; vm_compute; congruence.
  - vm_compute. reflexivity.
Defined.


(** The loaded program as a process. *)
Lemma started : exists p x j addr E base n s',
  process_load (path_arg [prog_elf] []) start_os = Some ((OK, p), s') /\
  tasks_ok (omem s') (o_sched s') base n [j] /\ 20000 <= n /\ owns s' p x j /\
  process_ok base p x addr (elf_of E program_file) 1 /\ allocations x = replicate 1024 (NULL, 0) /\ p_id x = 1 /\
  processes (o_procs s') = <[1%nat := p]> (0x2000000 :: replicate 11 NULL) /\ current_process (o_procs s') = NULL /\
  exists t, tasks (o_sched s') !! ts_task j = Some t /\ process_of t = p.
Proof.
  destruct (process_load_ok fat fat_is_fs start_os ∅ 25600 [] [prog_elf] [] 96 program_file 1 start_loadable)
    as (p & x & j & E & base & s' & Hl & T & Hld); [reflexivity|lia|reflexivity|].
  destruct (loaded_process_ok _ _ _ _ _ _ _ _ _ _ _ _ _ Hld) as (Ho & Hid & addr & Hok).
  exists p, x, j, addr, E, base, (25600 - (2 * Z.of_nat (length [prog_elf]) + 1036 + nblocks 96)), s'.
  split; [exact Hl|]. split; [exact T|]. split; [vm_compute; congruence|]. split; [exact Ho|]. split; [exact Hok|].
  split; [by destruct (ld_proc _ _ _ _ _ _ _ _ _ _ _ _ _ Hld) as (? & _ & _ & _ & ->)|].
  split; [exact Hid|]. pose proof (ld_table _ _ _ _ _ _ _ _ _ _ _ _ _ Hld) as Ht.
  rewrite Ht. split; [reflexivity|]. split; [reflexivity|].
  pose proof (ld_task _ _ _ _ _ _ _ _ _ _ _ _ _ Hld) as Hb.
  destruct (tasks (o_sched s') !! ts_task j) as [t|]; [|discriminate Hb]. injection Hb as _ _ Hb. exists t. split; [reflexivity|exact Hb].
Qed.

Lemma process_malloc_free_witness :
  exists p (s : machine) ptr s1 s2, process_malloc p 100 s = Some (ptr, s1) /\ process_free p ptr s1 = Some (tt, s2).
Proof.
  destruct started as (p & x & j & addr & E & base & n & s & _ & T & Hn & Ho & Hok & Hal & _).
  destruct (process_malloc_free s base n [] j [] p x 100 0 T Ho) as (ptr & x1 & s1 & s2 & Hm & _ & _ & _ & _ & _ & _ & Hf & _).
  - split; lia.
  - apply Hok.
  - change (nblocks 100 - 1) with 0. lia.
  - rewrite Hal. reflexivity.
  - exists p, s, ptr, s1, s2. split; [exact Hm|exact Hf].
Defined.

Lemma process_terminate_releases_witness :
  exists p (s s' : machine), process_terminate p s = Some (OK, s') /\
    processes (o_procs s') = 0x2000000 :: replicate 11 NULL.
Proof.
  destruct started as (p & x & j & addr & E & base & n & s & _ & T & Hn & Ho & Hok & Hal & Hid & Hps & _).
  assert (<[Z.to_nat (p_id x) := NULL]> (processes (o_procs s)) = 0x2000000 :: replicate 11 NULL) as Hl
    by (rewrite Hps, Hid; reflexivity).
  destruct (process_terminate_releases s base n [] j [] p x addr (elf_of E program_file) 1 0x2000000 T Ho Hok)
    as (s' & base' & Ht & Hp & _).
  - rewrite Hps, Hid. simpl length. lia.
  - rewrite Hl. left.
  - discriminate.
  - exists p, s, s'. split; [exact Ht|]. rewrite Hp. exact Hl.
Defined.

End Boot.
