(* ===== verification/Inet.v ===== *)
(** * Network basics: byteorder.h, the buffers of netdev.c, ip_checksum

    A packet buffer is the byte object its data pointer designates.  Header
    structures are packed, so a field is a slice of the object: [fetch] and
    [store] access [n] bytes at an offset and fail outside the object. *)

From S2P Require Import Prelude CLib KAlloc.
#[local] Open Scope prog_scope.

Module Inet.

(** ** Byte order *)

Definition ntohs (netshort : Z) : Z :=
  u16 (Z.lor (Z.shiftl (Z.land netshort 0xff) 8) (Z.land (Z.shiftr netshort 8) 0xff)).

Definition htons (hostshort : Z) : Z :=
  u16 (Z.lor (Z.shiftl (Z.land hostshort 0xff) 8) (Z.land (Z.shiftr hostshort 8) 0xff)).

Definition ntohl (netlong : Z) : Z :=
  u32 (Z.lor (Z.lor (Z.lor (Z.shiftl (Z.land netlong 0xff) 24)
    (Z.shiftl (Z.land (Z.shiftr netlong 8) 0xff) 16))
    (Z.shiftl (Z.land (Z.shiftr netlong 16) 0xff) 8))
    (Z.land (Z.shiftr netlong 24) 0xff)).

Definition htonl (hostlong : Z) : Z :=
  u32 (Z.lor (Z.lor (Z.lor (Z.shiftl (Z.land hostlong 0xff) 24)
    (Z.shiftl (Z.land (Z.shiftr hostlong 8) 0xff) 16))
    (Z.shiftl (Z.land (Z.shiftr hostlong 16) 0xff) 8))
    (Z.land (Z.shiftr hostlong 24) 0xff)).

(** ** Slices of an object *)

Definition fetch (l : list Z) (off n : Z) : option (list Z) :=
  if (0 <=? off) && (0 <=? n) && (off + n <=? Z.of_nat (length l))
  then Some (take (Z.to_nat n) (drop (Z.to_nat off) l)) else None.

Definition store (l : list Z) (off : Z) (bs : list Z) : option (list Z) :=
  if (0 <=? off) && (off + Z.of_nat (length bs) <=? Z.of_nat (length l))
  then Some (take (Z.to_nat off) l ++ bs ++ drop (Z.to_nat off + length bs) l) else None.

(** A [uint16_t] member, as the little-endian machine reads and writes it. *)
Definition fetch16 (l : list Z) (off : Z) : option Z := le_val <$> fetch l off 2.

Definition store16 (l : list Z) (off v : Z) : option (list Z) := store l off (le_bytes 2 v).

(** A [uint8_t] member. *)
Definition fetch8 (l : list Z) (off : Z) : option Z := le_val <$> fetch l off 1.

Definition store8 (l : list Z) (off v : Z) : option (list Z) := store l off (le_bytes 1 v).

(** ** Buffers *)

(** [struct netbuf]: its address, the data pointer and the object it designates,
    the data length and the total length. *)
Record netbuf := mk_netbuf {
  nb_addr : Z; nb_data_addr : Z; nb_data : list Z; nb_len : Z; nb_total_len : Z }.

(** [sizeof(struct netbuf)] *)
Definition sizeof_netbuf : Z := 12.

Section Buffers.
Context `{KAlloc A}.

Definition netbuf_alloc (a : A) (size : Z) : option netbuf * A :=
  let size := u16 size in
  let '(buf, a) := ka_zalloc a sizeof_netbuf in
  if buf =? NULL then (None, a)
  else
    let '(data, a) := ka_zalloc a size in
    if data =? NULL then (None, ka_free a buf)
    else (Some (mk_netbuf buf data (replicate (Z.to_nat size) 0) 0 size), a).

Definition netbuf_free (a : A) (buf : netbuf) : A :=
  let a := if nb_data_addr buf =? NULL then a else ka_free a (nb_data_addr buf) in
  ka_free a (nb_addr buf).

End Buffers.

Definition set_data (buf : netbuf) (l : list Z) : netbuf :=
  mk_netbuf (nb_addr buf) (nb_data_addr buf) l (nb_len buf) (nb_total_len buf).

Definition set_len (buf : netbuf) (n : Z) : netbuf :=
  mk_netbuf (nb_addr buf) (nb_data_addr buf) (nb_data buf) (u16 n) (nb_total_len buf).

(** ** The internet checksum *)

(** [while (len > 1) { sum += *ptr++; len -= 2; }] *)
Fixpoint sum_words (ptr : list Z) (len sum : Z) : option (list Z * Z * Z) :=
  if len <=? 1 then Some (ptr, len, sum)
  else
    match ptr with
    | b0 :: b1 :: ptr' => sum_words ptr' (len - 2) (u32 (sum + (b0 + 256 * b1)))
    | _ => None
    end.

(** [while (sum >> 16) sum = (sum & 0xFFFF) + (sum >> 16);] *)
Fixpoint fold_carry (fuel : nat) (sum : Z) : option Z :=
  match fuel with
  | O => None
  | S fuel' =>
    if Z.shiftr sum 16 =? 0 then Some sum
    else fold_carry fuel' (u32 (Z.land sum 0xffff + Z.shiftr sum 16))
  end.

Definition ip_checksum (data : list Z) (len : Z) : option Z :=
  '(ptr, len, sum) ← sum_words data len 0;
  sum ← (if len =? 1 then b ← rd ptr 0; Some (u32 (sum + b)) else Some sum);
  sum ← fold_carry 4 sum;
  Some (u16 (Z.lnot sum)).

(** *** Properties *)

Lemma fetch_ok l off n : 0 <= off -> 0 <= n -> off + n <= Z.of_nat (length l) ->
  fetch l off n = Some (take (Z.to_nat n) (drop (Z.to_nat off) l)).
Proof.
  intros. unfold fetch.
  by rewrite (proj2 (Z.leb_le 0 off)), (proj2 (Z.leb_le 0 n)), (proj2 (Z.leb_le (off + n) _)).
Qed.

Lemma store_ok l off bs : 0 <= off -> off + Z.of_nat (length bs) <= Z.of_nat (length l) ->
  store l off bs = Some (take (Z.to_nat off) l ++ bs ++ drop (Z.to_nat off + length bs) l).
Proof.
  intros. unfold store.
  by rewrite (proj2 (Z.leb_le 0 off)), (proj2 (Z.leb_le (off + _) _)).
Qed.

Lemma swap16 n : 0 <= n < 65536 ->
  Z.lor (Z.shiftl (Z.land n 0xff) 8) (Z.land (Z.shiftr n 8) 0xff) = 256 * (n mod 256) + n / 256.
Proof.
  intros Hn. change 0xff with (Z.ones 8). rewrite !Z.land_ones by lia.
  rewrite Z.shiftl_mul_pow2, Z.shiftr_div_pow2 by lia. change (2 ^ 8) with 256.
  rewrite (Z.mod_small (n / 256)) by zlia. rewrite (lor_low _ _ 8); [lia|lia| |];
    change (2 ^ 8) with 256; [by rewrite Z.mod_mul|zlia].
Qed.

Lemma htons_eq n : 0 <= n < 65536 -> htons n = 256 * (n mod 256) + n / 256.
Proof. intros Hn. unfold htons. rewrite swap16 by done. apply u16_small. zlia. Qed.

Lemma ntohs_htons n : 0 <= n < 65536 -> ntohs (htons n) = n.
Proof.
  intros Hn. rewrite (htons_eq n) by done. unfold ntohs. rewrite swap16 by zlia.
  rewrite u16_small; zlia.
Qed.

Lemma htons_range n : 0 <= htons n < 65536.
Proof. apply u16_range. Qed.

(** *** The checksum as a sum of 16-bit words modulo 65535 *)

Fixpoint wsum (l : list Z) : Z :=
  match l with
  | b0 :: b1 :: l' => b0 + 256 * b1 + wsum l'
  | [b] => b
  | [] => 0
  end.

Definition fold16 (s : Z) : Z := if s =? 0 then 0 else (s - 1) mod 65535 + 1.

(** Induction on lists of bytes taken in pairs. *)
Lemma pair_ind (P : list Z -> Prop) :
  P [] -> (forall b, P [b]) -> (forall a b l, P l -> P (a :: b :: l)) -> forall l, P l.
Proof.
  intros H0 H1 H2. fix IH 1. intros [|a [|b l]]; [done|apply H1|apply H2, IH].
Qed.

Lemma wsum_range l : Forall is_byte l ->
  0 <= wsum l <= 65535 * ((Z.of_nat (length l) + 1) / 2).
Proof.
  induction l as [|b|a b l IH] using pair_ind; intros Hl.
  - simpl. zlia.
  - apply Forall_cons in Hl as [Hb _]. unfold is_byte in Hb. simpl. zlia.
  - apply Forall_cons in Hl as [Ha Hl]. apply Forall_cons in Hl as [Hb Hl].
    specialize (IH Hl). unfold is_byte in *. cbn [wsum length]. zlia.
Qed.

Lemma wsum_app l1 l2 : Nat.Even (length l1) -> wsum (l1 ++ l2) = wsum l1 + wsum l2.
Proof.
  induction l1 as [|b|a b l IH] using pair_ind; intros He; [done|by destruct He as [? ?]; simpl in *; lia|].
  assert (Nat.Even (length l)) as He' by (destruct He as [m Hm]; exists (m - 1)%nat; simpl in Hm; lia).
  simpl app. cbn [wsum]. rewrite IH by done. lia.
Qed.

Lemma sum_words_ok l rest : forall sum,
  Forall is_byte l -> 0 <= sum -> sum + wsum l < 2 ^ 32 ->
  exists t s, sum_words (l ++ rest) (Z.of_nat (length l)) sum
      = Some (t ++ rest, Z.of_nat (length t), s) /\
    (length t <= 1)%nat /\ Forall is_byte t /\ 0 <= s /\ s + wsum t = sum + wsum l.
Proof.
  induction l as [|b|a b l IH] using pair_ind; intros sum Hl Hs Hb.
  - exists [], sum. destruct rest; auto with lia.
  - exists [b], sum. auto with lia.
  - apply Forall_cons in Hl as [Ha Hl]. apply Forall_cons in Hl as [Hb' Hl]. unfold is_byte in *.
    pose proof (wsum_range l Hl) as Hw. cbn [wsum] in Hb.
    destruct (IH (sum + (a + 256 * b)) Hl ltac:(lia) ltac:(lia)) as (t & s & He & Ht & Hbt & Hs0 & Hsum).
    exists t, s. simpl app. cbn [sum_words]. cbn [length].
    rewrite (proj2 (Z.leb_gt _ 1)) by lia.
    replace (Z.of_nat (S (S (length l))) - 2) with (Z.of_nat (length l)) by lia.
    rewrite u32_small by lia. split; [done|]. cbn [wsum]. auto with lia.
Qed.

Lemma fold_step s : 0 <= s < 2 ^ 32 ->
  u32 (Z.land s 0xffff + Z.shiftr s 16) = s mod 65536 + s / 65536.
Proof.
  intros Hs. change 0xffff with (Z.ones 16). rewrite Z.land_ones, Z.shiftr_div_pow2 by lia.
  change (2 ^ 16) with 65536. rewrite u32_small; zlia.
Qed.

Lemma fold16_step s : 0 <= s -> fold16 (s mod 65536 + s / 65536) = fold16 s.
Proof.
  intros Hs. unfold fold16. destruct (Z.eqb_spec s 0) as [->|]; [done|].
  rewrite (proj2 (Z.eqb_neq _ 0)) by zlia. f_equal. symmetry.
  rewrite (Z.div_mod s 65536) at 1 by lia.
  replace (65536 * (s / 65536) + s mod 65536 - 1)
    with (s mod 65536 + s / 65536 - 1 + s / 65536 * 65535) by lia.
  apply Z.mod_add. lia.
Qed.

Lemma fold_carry_step f s : 0 <= s < 2 ^ 32 ->
  fold_carry (S f) s = if s <? 65536 then Some s else fold_carry f (s mod 65536 + s / 65536).
Proof.
  intros Hs. cbn [fold_carry]. rewrite fold_step, Z.shiftr_div_pow2 by lia.
  change (2 ^ 16) with 65536. destruct (Z.ltb_spec s 65536).
  - by rewrite Z.div_small by lia.
  - by rewrite (proj2 (Z.eqb_neq _ 0)) by zlia.
Qed.

(** Two rounds are enough for a 32-bit sum. *)
Lemma fold_carry_ok s : 0 <= s < 2 ^ 32 -> fold_carry 4 s = Some (fold16 s).
Proof.
  intros Hs. assert (forall x, 0 <= x < 65536 -> fold16 x = x) as Hsm.
  { intros x Hx. unfold fold16. destruct (Z.eqb_spec x 0); [done|]. rewrite Z.mod_small; lia. }
  rewrite fold_carry_step by done. destruct (Z.ltb_spec s 65536); [by rewrite Hsm by lia|].
  rewrite <- (fold16_step s) by lia. set (s1 := s mod 65536 + s / 65536).
  assert (0 <= s1 <= 131070) by (unfold s1; zlia). clearbody s1.
  rewrite fold_carry_step by lia. destruct (Z.ltb_spec s1 65536); [by rewrite Hsm by lia|].
  rewrite <- (fold16_step s1) by lia. set (s2 := s1 mod 65536 + s1 / 65536).
  assert (0 <= s2 < 65536) by (unfold s2; zlia). clearbody s2.
  rewrite fold_carry_step, (proj2 (Z.ltb_lt s2 65536)) by lia. by rewrite Hsm.
Qed.

Lemma fold16_range s : 0 <= s -> 0 <= fold16 s <= 65535.
Proof. intros Hs. unfold fold16. destruct (_ =? 0); zlia. Qed.

Lemma ip_checksum_eq l rest :
  Forall is_byte l -> Z.of_nat (length l) <= 131072 ->
  ip_checksum (l ++ rest) (Z.of_nat (length l)) = Some (65535 - fold16 (wsum l)).
Proof.
  intros Hl Hlen. pose proof (wsum_range l Hl) as Hw. unfold ip_checksum.
  destruct (sum_words_ok l rest 0 Hl) as (t & s & -> & Ht & Hbt & Hs & Hsum); [lia|zlia|].
  cbn [mbind option_bind]. rewrite Z.add_0_l in Hsum.
  assert (fold_carry 4 (wsum l) = Some (fold16 (wsum l))) as Hf by (apply fold_carry_ok; zlia).
  pose proof (fold16_range (wsum l) (proj1 Hw)) as Hr.
  assert (u16 (Z.lnot (fold16 (wsum l))) = 65535 - fold16 (wsum l)) as Hn.
  { unfold Z.lnot, u16. change (2 ^ 16) with 65536.
    rewrite <- (Z.mod_add _ 1) by lia. rewrite Z.mod_small; lia. }
  destruct t as [|b [|? ?]]; [| |simpl in Ht; lia]; simpl in Hsum.
  - rewrite Z.add_0_r in Hsum. subst s.
    change (Z.of_nat (length []) =? 1) with false. cbn [mbind option_bind].
    rewrite Hf. cbn [mbind option_bind]. by rewrite Hn.
  - change (Z.of_nat (length [b]) =? 1) with true. cbn [mbind option_bind]. apply Forall_cons in Hbt as [Hb _]. unfold is_byte in Hb.
    rewrite rd_lookup by lia. simpl lookup. cbn [mbind option_bind]. rewrite u32_small by zlia.
    rewrite Hsum, Hf. cbn [mbind option_bind]. by rewrite Hn.
Qed.

Lemma fold16_full s : 0 <= s -> fold16 s = 65535 <-> 0 < s /\ s mod 65535 = 0.
Proof. intros Hs. unfold fold16. destruct (Z.eqb_spec s 0); zlia. Qed.

Lemma ip_checksum_zero l rest :
  Forall is_byte l -> Z.of_nat (length l) <= 131072 ->
  ip_checksum (l ++ rest) (Z.of_nat (length l)) = Some 0 <-> 0 < wsum l /\ wsum l mod 65535 = 0.
Proof.
  intros Hl Hlen. rewrite ip_checksum_eq by done. pose proof (wsum_range l Hl) as [Hw _].
  rewrite <- fold16_full by done. pose proof (fold16_range _ Hw). split; [intros [= ?]; lia|].
  intros ->. done.
Qed.

Lemma le_bytes_2 v : 0 <= v < 65536 -> le_bytes 2 v = [v mod 256; v / 256].
Proof.
  intros Hv. simpl. rewrite (Z.mod_small (v / 256)) by zlia. done.
Qed.

(** Storing the checksum of a message into its zeroed field. *)
Lemma ip_checksum_store a b rest :
  Nat.Even (length a) -> Forall is_byte a -> Forall is_byte b ->
  Z.of_nat (length a + 2 + length b) <= 131072 ->
  exists c, ip_checksum ((a ++ [0; 0] ++ b) ++ rest) (Z.of_nat (length (a ++ [0; 0] ++ b))) = Some c /\
    0 <= c < 65536 /\
    ip_checksum ((a ++ le_bytes 2 c ++ b) ++ rest) (Z.of_nat (length (a ++ le_bytes 2 c ++ b))) = Some 0.
Proof.
  intros He Ha Hb Hlen. assert (Forall is_byte (a ++ [0; 0] ++ b)) as Hl.
  { apply Forall_app. split; [done|]. repeat (constructor; [unfold is_byte; lia|]). done. }
  assert (wsum (a ++ [0; 0] ++ b) = wsum a + wsum b) as Hs0
    by (rewrite wsum_app by done; simpl; lia).
  pose proof (wsum_range a Ha) as [Hwa _]. pose proof (wsum_range b Hb) as [Hwb _].
  eexists. rewrite ip_checksum_eq, Hs0 by (done || rewrite !length_app; simpl; lia).
  pose proof (fold16_range (wsum a + wsum b) ltac:(lia)) as Hr.
  split; [done|]. split; [lia|]. rewrite le_bytes_2 by lia. apply ip_checksum_zero.
  - apply Forall_app. split; [done|]. repeat (constructor; [unfold is_byte; zlia|]). done.
  - rewrite !length_app. simpl. lia.
  - rewrite wsum_app by done. simpl app. cbn [wsum]. revert Hr.
    generalize (fold16_full (wsum a + wsum b)). set (c := 65535 - fold16 (wsum a + wsum b)).
    replace (wsum a + (c mod 256 + 256 * (c / 256) + wsum b)) with (wsum a + wsum b + c) by zlia.
    intros _ _. unfold c, fold16. destruct (Z.eqb_spec (wsum a + wsum b) 0) as [->|]; [done|].
    set (s := wsum a + wsum b) in *. split; [zlia|].
    replace (s + (65535 - ((s - 1) mod 65535 + 1))) with ((1 + (s - 1) / 65535) * 65535) by zlia.
    by apply Z.mod_mul.
Qed.

Lemma wsum_byte a x b :
  wsum (a ++ x :: b) = wsum (a ++ 0 :: b) + (if Nat.even (length a) then 1 else 256) * x.
Proof.
  induction a as [|y|y z a IH] using pair_ind; simpl app.
  - destruct b; cbn [wsum length Nat.even]; lia.
  - cbn [wsum length Nat.even]. lia.
  - cbn [wsum length Nat.even]. lia.
Qed.

(** A message with one byte changed no longer checks. *)
Lemma ip_checksum_change a x y b rest :
  Forall is_byte (a ++ x :: b) -> is_byte y -> x <> y ->
  Z.of_nat (length (a ++ x :: b)) <= 131072 ->
  ip_checksum ((a ++ x :: b) ++ rest) (Z.of_nat (length (a ++ x :: b))) = Some 0 ->
  ip_checksum ((a ++ y :: b) ++ rest) (Z.of_nat (length (a ++ y :: b))) <> Some 0.
Proof.
  intros Hl Hy Hne Hlen. rewrite !ip_checksum_zero; [| |by rewrite length_app in *|done|done].
  2:{ apply Forall_app in Hl as [Ha Hb]. apply Forall_cons in Hb as [_ Hb].
      apply Forall_app. split; [done|]. by constructor. }
  assert (is_byte x) as Hx by (apply Forall_app in Hl as [_ Hb]; by apply Forall_cons in Hb as [? _]).
  rewrite (wsum_byte a x), (wsum_byte a y). unfold is_byte in *. destruct (Nat.even _); zlia.
Qed.

End Inet.
