(* ===== verification/Socket.v ===== *)
(** * Sockets: socket.c

    The socket table is a list of 16 records with the ring buffer of received
    packets as an array of 8 entries.  A call that touches no packet data is a
    function on the table; one that copies data fails ([None]) on an access
    outside an object.  [socket_sendto] is in [Net], where the send path is. *)

From S2P Require Import Prelude CLib Inet.
Import Inet.

Definition MAX_SOCKETS : Z := 16.
Definition SOCKET_RECV_QUEUE_SIZE : Z := 8.
Definition SOCKET_MAX_PACKET_SIZE : Z := 1500.
Definition SOCK_DGRAM : Z := 2.

Module Socket.

Record socket_packet := mk_pkt {
  pkt_data : list Z; pkt_len : Z; pkt_src_ip : list Z; pkt_src_port : Z }.

Record socket := mk_socket {
  in_use : Z; sock_type : Z; bound_port : Z; recv_queue : list socket_packet;
  recv_head : Z; recv_tail : Z; recv_count : Z }.

(** [memset(&sockets[i], 0, sizeof(struct socket))] *)
Definition zero_packet : socket_packet := mk_pkt (replicate 1500 0) 0 [0; 0; 0; 0] 0.
Definition zero_socket : socket := mk_socket 0 0 0 (replicate 8 zero_packet) 0 0 0.

Definition init_sockets : list socket := replicate 16 zero_socket.

(** [memcpy(dst + off, src, n)] between objects; nothing is copied for [n <= 0]. *)
Definition copy (dst : list Z) (off : Z) (src : list Z) (n : Z) : option (list Z) :=
  if n <=? 0 then Some dst else bs ← fetch src 0 n; store dst off bs.

(** The first free slot at or after slot [i]. *)
Fixpoint create_loop (l : list socket) (i : nat) : option nat :=
  match l with
  | [] => None
  | s :: l' => if in_use s =? 0 then Some i else create_loop l' (S i)
  end.

Definition socket_create (t : list socket) (type : Z) : Z * list socket :=
  if negb (type =? SOCK_DGRAM) then (-1, t)
  else
    match create_loop t 0 with
    | None => (-1, t)
    | Some i =>
      (Z.of_nat i, <[i := mk_socket 1 type 0 (replicate 8 zero_packet) 0 0 0]> t)
    end.

(** [sockfd < 0 || sockfd >= MAX_SOCKETS || !sockets[sockfd].in_use] *)
Definition lookup_socket (t : list socket) (sockfd : Z) : option socket :=
  if (sockfd <? 0) || (MAX_SOCKETS <=? sockfd) then None
  else
    match t !! Z.to_nat sockfd with
    | Some s => if in_use s =? 0 then None else Some s
    | None => None
    end.

(** The first slot in use that is bound to [port]. *)
Fixpoint port_loop (l : list socket) (i : nat) (port : Z) : option nat :=
  match l with
  | [] => None
  | s :: l' =>
    if negb (in_use s =? 0) && (bound_port s =? port) then Some i else port_loop l' (S i) port
  end.

Definition set_port (s : socket) (port : Z) : socket :=
  mk_socket (in_use s) (sock_type s) port (recv_queue s) (recv_head s) (recv_tail s) (recv_count s).

Definition socket_bind (t : list socket) (sockfd port : Z) : Z * list socket :=
  match lookup_socket t sockfd with
  | None => (-1, t)
  | Some s =>
    if negb (bound_port s =? 0) then (-1, t)
    else
      match port_loop t 0 port with
      | Some _ => (-1, t)
      | None => (0, <[Z.to_nat sockfd := set_port s port]> t)
      end
  end.

(** The return value, the packet data and sender written to the caller (the
    destination object [buf] holds what it held before where nothing is
    stored), and the table. *)
Definition socket_recvfrom (t : list socket) (sockfd : Z) (buf : option (list Z)) (max_len : Z)
    : option (Z * option (list Z) * option (list Z * Z) * list socket) :=
  match lookup_socket t sockfd with
  | None => Some (-1, buf, None, t)
  | Some s =>
    match buf with
    | None => Some (-1, buf, None, t)
    | Some b =>
      if max_len <=? 0 then Some (-1, buf, None, t)
      else if recv_count s =? 0 then Some (0, buf, None, t)
      else
        pkt ← recv_queue s !! Z.to_nat (recv_tail s);
        let copy_len := if max_len <? pkt_len pkt then max_len else pkt_len pkt in
        b ← copy b 0 (pkt_data pkt) copy_len;
        let s := mk_socket (in_use s) (sock_type s) (bound_port s) (recv_queue s) (recv_head s)
                   (Z.rem (recv_tail s + 1) SOCKET_RECV_QUEUE_SIZE) (recv_count s - 1) in
        Some (copy_len, Some b, Some (pkt_src_ip pkt, pkt_src_port pkt),
              <[Z.to_nat sockfd := s]> t)
    end
  end.

Definition socket_deliver_udp (t : list socket) (port : Z) (data : list Z) (len : Z)
    (src_ip : list Z) (src_port : Z) : option (Z * list socket) :=
  match port_loop t 0 port with
  | None => Some (-1, t)
  | Some i =>
    s ← t !! i;
    if SOCKET_RECV_QUEUE_SIZE <=? recv_count s then Some (-1, t)
    else
      pkt ← recv_queue s !! Z.to_nat (recv_head s);
      let copy_len := if SOCKET_MAX_PACKET_SIZE <? len then SOCKET_MAX_PACKET_SIZE else len in
      d ← copy (pkt_data pkt) 0 data copy_len;
      ip ← copy (pkt_src_ip pkt) 0 src_ip 4;
      let s := mk_socket (in_use s) (sock_type s) (bound_port s)
                 (<[Z.to_nat (recv_head s) := mk_pkt d copy_len ip src_port]> (recv_queue s))
                 (Z.rem (recv_head s + 1) SOCKET_RECV_QUEUE_SIZE) (recv_tail s) (recv_count s + 1) in
      Some (0, <[i := s]> t)
  end.

Definition socket_close (t : list socket) (sockfd : Z) : Z * list socket :=
  match lookup_socket t sockfd with
  | None => (-1, t)
  | Some _ => (0, <[Z.to_nat sockfd := zero_socket]> t)
  end.

End Socket.

(** ** What the socket layer promises

    A socket is free or holds a port and a queue of at most 8 messages; a
    message is its data and the sender's address and port. *)
Module SocketSpec.
Import Socket.

Definition msg : Type := list Z * list Z * Z.
Definition asock : Type := option (Z * list msg).

Inductive call :=
| Create (type : Z)
| Bind (sockfd port : Z)
| Deliver (port : Z) (data src_ip : list Z) (src_port : Z)
| Recv (sockfd : Z) (buf : list Z) (max_len : Z)
| Close (sockfd : Z).

(** The return value; for [Recv] also the buffer afterwards and the sender. *)
Record result := mk_result { code : Z; buffer : list Z; sender : option (list Z * Z) }.

Definition just (c : Z) : result := mk_result c [] None.

Fixpoint a_free (T : list asock) (i : nat) : option nat :=
  match T with
  | [] => None
  | None :: _ => Some i
  | Some _ :: T' => a_free T' (S i)
  end.

Fixpoint a_port (T : list asock) (i : nat) (port : Z) : option nat :=
  match T with
  | [] => None
  | Some (p, _) :: T' => if p =? port then Some i else a_port T' (S i) port
  | None :: T' => a_port T' (S i) port
  end.

Definition a_lookup (T : list asock) (fd : Z) : asock :=
  if decide (0 <= fd < 16) then mjoin (T !! Z.to_nat fd) else None.

Definition spec (T : list asock) (c : call) : result * list asock :=
  match c with
  | Create type =>
    if negb (type =? SOCK_DGRAM) then (just (-1), T)
    else match a_free T 0 with
         | None => (just (-1), T)
         | Some i => (just (Z.of_nat i), <[i := Some (0, [])]> T)
         end
  | Bind fd port =>
    match a_lookup T fd with
    | None => (just (-1), T)
    | Some (p, q) =>
      if negb (p =? 0) then (just (-1), T)
      else match a_port T 0 port with
           | Some _ => (just (-1), T)
           | None => (just 0, <[Z.to_nat fd := Some (port, q)]> T)
           end
    end
  | Deliver port data ip sport =>
    match a_port T 0 port with
    | None => (just (-1), T)
    | Some i =>
      match mjoin (T !! i) with
      | None => (just (-1), T)
      | Some (p, q) =>
        if (8 <=? length q)%nat then (just (-1), T)
        else (just 0, <[i := Some (p, q ++ [(take 1500 data, ip, sport)])]> T)
      end
    end
  | Recv fd buf max_len =>
    match a_lookup T fd with
    | None => (mk_result (-1) buf None, T)
    | Some (p, q) =>
      if max_len <=? 0 then (mk_result (-1) buf None, T)
      else match q with
           | [] => (mk_result 0 buf None, T)
           | (d, ip, sport) :: q' =>
             let n := Z.min max_len (Z.of_nat (length d)) in
             (mk_result n (take (Z.to_nat n) d ++ drop (Z.to_nat n) buf) (Some (ip, sport)),
              <[Z.to_nat fd := Some (p, q')]> T)
           end
    end
  | Close fd =>
    match a_lookup T fd with
    | None => (just (-1), T)
    | Some _ => (just 0, <[Z.to_nat fd := None]> T)
    end
  end.

(** The calls on the table of socket.c. *)
Definition impl (t : list socket) (c : call) : option (result * list socket) :=
  match c with
  | Create type => let '(r, t) := socket_create t type in Some (just r, t)
  | Bind fd port => let '(r, t) := socket_bind t fd port in Some (just r, t)
  | Deliver port data ip sport =>
    '(r, t) ← socket_deliver_udp t port data (Z.of_nat (length data)) ip sport; Some (just r, t)
  | Recv fd buf max_len =>
    '(r, b, snd, t) ← socket_recvfrom t fd (Some buf) max_len;
    b ← b; Some (mk_result r b snd, t)
  | Close fd => let '(r, t) := socket_close t fd in Some (just r, t)
  end.

(** What a caller must provide: a 4-byte address, a buffer of [max_len] bytes. *)
Definition call_ok (c : call) : Prop :=
  match c with
  | Deliver _ _ ip _ => length ip = 4%nat
  | Recv _ buf max_len => max_len <= Z.of_nat (length buf)
  | _ => True
  end.

(** ** The representation *)

Definition msg_of (p : socket_packet) : msg :=
  (take (Z.to_nat (pkt_len p)) (pkt_data p), pkt_src_ip p, pkt_src_port p).

(** The entry [k] places behind the tail of the ring. *)
Definition entry (s : socket) (k : nat) : socket_packet :=
  default zero_packet (recv_queue s !! Z.to_nat ((recv_tail s + Z.of_nat k) mod 8)).

Definition queue (s : socket) : list msg :=
  map (fun k => msg_of (entry s k)) (seq 0 (Z.to_nat (recv_count s))).

Definition abs_sock (s : socket) : asock :=
  if in_use s =? 0 then None else Some (bound_port s, queue s).

Definition abs (t : list socket) : list asock := map abs_sock t.

Record pkt_ok (p : socket_packet) : Prop := {
  pk_data : length (pkt_data p) = 1500%nat;
  pk_len : 0 <= pkt_len p <= 1500;
  pk_ip : length (pkt_src_ip p) = 4%nat
}.

Record sock_ok (s : socket) : Prop := {
  so_len : length (recv_queue s) = 8%nat;
  so_pkts : Forall pkt_ok (recv_queue s);
  so_tail : 0 <= recv_tail s < 8;
  so_count : 0 <= recv_count s <= 8;
  so_head : recv_head s = (recv_tail s + recv_count s) mod 8
}.

(** No two sockets in use have the same port, other than port 0. *)
Definition ports_distinct (t : list socket) : Prop := forall i j s s',
  t !! i = Some s -> t !! j = Some s' -> in_use s <> 0 -> in_use s' <> 0 ->
  bound_port s = bound_port s' -> bound_port s <> 0 -> i = j.

Record table_ok (t : list socket) : Prop := {
  tb_len : length t = 16%nat;
  tb_socks : Forall sock_ok t;
  tb_ports : ports_distinct t
}.

(** ** Proofs *)

Lemma copy_ok dst src n :
  0 <= n <= Z.of_nat (length src) -> n <= Z.of_nat (length dst) ->
  copy dst 0 src n = Some (take (Z.to_nat n) src ++ drop (Z.to_nat n) dst).
Proof.
  intros Hn Hd. unfold copy. destruct (Z.leb_spec n 0).
  - by replace n with 0 by lia.
  - rewrite fetch_ok by lia. cbn [mbind option_bind].
    rewrite drop_0, store_ok, length_take, Nat.min_l by (rewrite ?length_take; lia). done.
Qed.

Lemma a_free_abs t : forall i, a_free (abs t) i = create_loop t i.
Proof.
  induction t as [|s t IH]; intros i; [done|]. simpl. unfold abs_sock.
  destruct (in_use s =? 0); [done|]. apply IH.
Qed.

Lemma a_port_abs t port : forall i, a_port (abs t) i port = port_loop t i port.
Proof.
  induction t as [|s t IH]; intros i; [done|]. simpl. unfold abs_sock.
  destruct (in_use s =? 0); simpl; [apply IH|]. destruct (bound_port s =? port); [done|apply IH].
Qed.

Lemma a_lookup_abs t fd :
  a_lookup (abs t) fd = (s ← lookup_socket t fd; Some (bound_port s, queue s)).
Proof.
  unfold a_lookup, lookup_socket, MAX_SOCKETS. case_decide.
  - rewrite (proj2 (Z.ltb_ge fd 0)), (proj2 (Z.leb_gt 16 fd)) by lia. simpl.
    unfold abs. rewrite list_lookup_fmap. destruct (t !! _) as [s|]; simpl; [|done].
    unfold abs_sock. by destruct (in_use s =? 0).
  - destruct (Z.ltb_spec fd 0); [done|]. by rewrite (proj2 (Z.leb_le 16 fd)) by lia.
Qed.

Lemma abs_insert t i s : abs (<[i := s]> t) = <[i := abs_sock s]> (abs t).
Proof. apply list_fmap_insert. Qed.

Lemma lookup_socket_Some t fd s :
  lookup_socket t fd = Some s ->
  0 <= fd < 16 /\ t !! Z.to_nat fd = Some s /\ in_use s <> 0.
Proof.
  unfold lookup_socket, MAX_SOCKETS. destruct (Z.ltb_spec fd 0); [done|].
  destruct (Z.leb_spec 16 fd); [done|]. simpl. destruct (t !! _) as [x|]; [|done].
  destruct (Z.eqb_spec (in_use x) 0); [done|]. intros [= ->]. done.
Qed.

Lemma port_loop_Some t port : forall i j,
  port_loop t i port = Some j ->
  exists s, (i <= j)%nat /\ t !! (j - i)%nat = Some s /\ in_use s <> 0 /\ bound_port s = port.
Proof.
  induction t as [|s t IH]; intros i j; simpl; [done|].
  destruct (Z.eqb_spec (in_use s) 0); simpl.
  2: destruct (Z.eqb_spec (bound_port s) port); simpl.
  2:{ intros [= <-]. exists s. by rewrite Nat.sub_diag. }
  all: intros (x & Hle & Hx & ?)%IH; exists x; (split; [lia|]);
    by replace (j - i)%nat with (S (j - S i)) by lia.
Qed.

Lemma port_loop_None t port : forall i,
  port_loop t i port = None -> forall j s, t !! j = Some s -> in_use s <> 0 -> bound_port s <> port.
Proof.
  induction t as [|x t IH]; intros i Hp j s Hj Hu; [done|]. simpl in Hp.
  destruct (Z.eqb_spec (in_use x) 0), (Z.eqb_spec (bound_port x) port); simpl in Hp; try done;
    (destruct j as [|j]; [injection Hj as ->; done|by eapply IH]).
Qed.

(** *** The ring buffer is a queue *)

Lemma sock_ok_zero p ty : sock_ok (mk_socket p ty 0 (replicate 8 zero_packet) 0 0 0).
Proof.
  split; cbn [recv_queue recv_tail recv_count recv_head]; try done.
  apply Forall_replicate. split; [by unfold zero_packet, pkt_data; rewrite length_replicate|done|done].
Qed.

Definition pop (s : socket) : socket :=
  mk_socket (in_use s) (sock_type s) (bound_port s) (recv_queue s) (recv_head s)
    (Z.rem (recv_tail s + 1) SOCKET_RECV_QUEUE_SIZE) (recv_count s - 1).

Definition push (s : socket) (p : socket_packet) : socket :=
  mk_socket (in_use s) (sock_type s) (bound_port s)
    (<[Z.to_nat (recv_head s) := p]> (recv_queue s))
    (Z.rem (recv_head s + 1) SOCKET_RECV_QUEUE_SIZE) (recv_tail s) (recv_count s + 1).

Lemma rem_8 x : 0 <= x -> Z.rem x SOCKET_RECV_QUEUE_SIZE = x mod 8.
Proof. intros. by apply Z.rem_mod_nonneg. Qed.

Lemma queue_pop s : sock_ok s -> 0 < recv_count s ->
  sock_ok (pop s) /\
  exists p, recv_queue s !! Z.to_nat (recv_tail s) = Some p /\ pkt_ok p /\
    queue s = msg_of p :: queue (pop s).
Proof.
  intros [Hl Hp Ht Hc Hh] Hpos. split.
  - split; simpl; try done; rewrite ?rem_8 by lia; [zlia|lia|]. rewrite Hh. zlia.
  - destruct (lookup_lt_is_Some_2 (recv_queue s) (Z.to_nat (recv_tail s))) as [p Hpk]; [lia|].
    exists p. split; [done|]. split; [by eapply Forall_lookup_1 in Hp|].
    unfold queue. simpl. replace (Z.to_nat (recv_count s)) with (S (Z.to_nat (recv_count s - 1))) by lia.
    simpl. f_equal.
    + unfold entry. rewrite Z.add_0_r, Z.mod_small, Hpk by lia. done.
    + rewrite <- seq_shift, map_map. apply map_ext. intros k. unfold entry. simpl. rewrite rem_8 by lia.
      do 4 f_equal. zlia.
Qed.

Lemma queue_push s p : sock_ok s -> recv_count s < 8 -> pkt_ok p ->
  sock_ok (push s p) /\ queue (push s p) = queue s ++ [msg_of p].
Proof.
  intros [Hl Hp Ht Hc Hh] Hlt Hpk. split.
  - split; simpl; [by rewrite length_insert|by apply Forall_insert|done|lia|].
    rewrite rem_8, Hh by zlia. zlia.
  - unfold queue. simpl. replace (Z.to_nat (recv_count s + 1)) with (Z.to_nat (recv_count s) + 1)%nat by lia.
    rewrite seq_app, map_app. simpl. f_equal.
    + apply map_ext_in. intros k Hk%in_seq. unfold entry. simpl. rewrite list_lookup_insert_ne; [done|].
      rewrite Hh. zlia.
    + unfold entry. simpl. rewrite Z2Nat.id, Hh, list_lookup_insert_eq by zlia. done.
Qed.

Lemma length_queue s : length (queue s) = Z.to_nat (recv_count s).
Proof. unfold queue. by rewrite length_map, length_seq. Qed.

(** Replacing a socket by one that is free or keeps its use and port, or takes
    port 0 or a port nobody has. *)
Lemma table_insert t i s :
  table_ok t -> sock_ok s ->
  in_use s = 0 \/ bound_port s = 0 \/
    (forall j x, t !! j = Some x -> j <> i -> in_use x <> 0 -> bound_port x <> bound_port s) ->
  table_ok (<[i := s]> t).
Proof.
  intros [Hl Hs Hp] Hok Hc. split; [by rewrite length_insert|by apply Forall_insert|].
  intros j k x y. rewrite !list_lookup_insert.
  repeat case_decide; intros Hx Hy Hux Huy Heq Hne; simplify_eq; try lia.
  - destruct Hc as [?|[?|Hc]]; [done|done|]. exfalso. apply (Hc k y); [done| |done|done].
    intros ->. apply lookup_lt_Some in Hy. tauto.
  - destruct Hc as [?|[?|Hc]]; [done|congruence|]. exfalso. apply (Hc j x); [done| |done|done].
    intros ->. apply lookup_lt_Some in Hx. tauto.
  - by eapply Hp.
Qed.

Lemma create_refines t type : table_ok t ->
  exists r t', impl t (Create type) = Some (r, t') /\ spec (abs t) (Create type) = (r, abs t') /\
    table_ok t'.
Proof.
  intros T. unfold impl, spec, socket_create. rewrite a_free_abs.
  destruct (negb _); [by eauto|]. destruct (create_loop t 0) as [i|]; [|by eauto].
  eexists _, _. split; [done|]. split; [by rewrite abs_insert|].
  apply table_insert; [done|apply sock_ok_zero|]. right. by left.
Qed.

Lemma bind_refines t fd port : table_ok t ->
  exists r t', impl t (Bind fd port) = Some (r, t') /\ spec (abs t) (Bind fd port) = (r, abs t') /\
    table_ok t'.
Proof.
  intros T. unfold impl, spec, socket_bind. rewrite a_lookup_abs, a_port_abs.
  destruct (lookup_socket t fd) as [s|] eqn:Hs; cbn [mbind option_bind]; [|by eauto].
  destruct (negb _); [by eauto|]. destruct (port_loop t 0 port) eqn:Hp; [by eauto|].
  apply lookup_socket_Some in Hs as (Hfd & Hs & Hu). pose proof (Forall_lookup_1 _ _ _ _ (tb_socks t T) Hs) as [].
  eexists _, _. split; [done|]. split.
  - rewrite abs_insert. unfold abs_sock. simpl. by rewrite (proj2 (Z.eqb_neq _ _)).
  - apply table_insert; [done|by split|]. right. right. intros j x Hx _ Hux.
    by apply (port_loop_None _ _ _ Hp j).
Qed.

Lemma close_refines t fd : table_ok t ->
  exists r t', impl t (Close fd) = Some (r, t') /\ spec (abs t) (Close fd) = (r, abs t') /\
    table_ok t'.
Proof.
  intros T. unfold impl, spec, socket_close. rewrite a_lookup_abs.
  destruct (lookup_socket t fd) as [s|]; cbn [mbind option_bind]; [|by eauto].
  eexists _, _. split; [done|]. split; [by rewrite abs_insert|].
  apply table_insert; [done|apply sock_ok_zero|]. by left.
Qed.

(** A socket that keeps its use and port may be put back. *)
Lemma table_same t i s s' :
  table_ok t -> t !! i = Some s -> sock_ok s' -> in_use s' = in_use s ->
  bound_port s' = bound_port s -> table_ok (<[i := s']> t).
Proof.
  intros T Hs Hok Hu Hb. apply table_insert; [done..|].
  destruct (decide (in_use s = 0)); [left; congruence|].
  destruct (decide (bound_port s = 0)); [right; left; congruence|]. right. right.
  intros j x Hx Hji Hux Heq. apply Hji. eapply (tb_ports t T j i x s); try done; congruence.
Qed.

Lemma deliver_refines t port data ip sport : table_ok t -> length ip = 4%nat ->
  exists r t', impl t (Deliver port data ip sport) = Some (r, t') /\
    spec (abs t) (Deliver port data ip sport) = (r, abs t') /\ table_ok t'.
Proof.
  intros T Hip. unfold impl, spec, socket_deliver_udp. rewrite a_port_abs.
  destruct (port_loop t 0 port) as [i|] eqn:Hp; [|by eauto].
  apply port_loop_Some in Hp as (s & _ & Hs & Hu & Hb). rewrite Nat.sub_0_r in Hs.
  pose proof (Forall_lookup_1 _ _ _ _ (tb_socks t T) Hs) as Hok.
  unfold abs at 1. rewrite list_lookup_fmap, Hs. cbn [fmap option_fmap option_map mbind option_bind].
  unfold abs_sock at 1. rewrite (proj2 (Z.eqb_neq (in_use s) 0)) by done.
  change (mjoin (Some (Some (bound_port s, queue s)))) with (Some (bound_port s, queue s)).
  cbv beta iota. rewrite length_queue.
  unfold SOCKET_RECV_QUEUE_SIZE. pose proof (so_count s Hok).
  destruct (Z.leb_spec 8 (recv_count s)).
  { rewrite (proj2 (Nat.leb_le 8 _)) by lia. by eauto. }
  rewrite (proj2 (Nat.leb_gt 8 _)) by lia.
  destruct (lookup_lt_is_Some_2 (recv_queue s) (Z.to_nat (recv_head s))) as [p Hpk].
  { rewrite (so_len s Hok), (so_head s Hok). zlia. }
  rewrite Hpk. cbn [mbind option_bind].
  pose proof (Forall_lookup_1 _ _ _ _ (so_pkts s Hok) Hpk) as [Hd Hpl Hpi].
  set (n := if _ <? _ then _ else _).
  assert (n = Z.min 1500 (Z.of_nat (length data))) as Hn
    by (unfold n, SOCKET_MAX_PACKET_SIZE; destruct (Z.ltb_spec 1500 (Z.of_nat (length data))); lia).
  rewrite !copy_ok by lia. cbn [mbind option_bind].
  rewrite (take_ge ip), (drop_ge (pkt_src_ip p)), app_nil_r by (change (Z.to_nat 4) with 4%nat; lia).
  set (q := mk_pkt _ _ _ _).
  assert (pkt_ok q) as Hq.
  { split; simpl; [rewrite length_app, length_take, length_drop; lia|lia|done]. }
  destruct (queue_push s q Hok ltac:(lia) Hq) as [Hok' Hqu].
  assert (msg_of q = (take 1500 data, ip, sport)) as Hm.
  { unfold msg_of, q. simpl. do 2 f_equal. rewrite take_app_le by (rewrite length_take; lia).
    rewrite take_take. destruct (Z.le_ge_cases (Z.of_nat (length data)) 1500).
    - rewrite (take_ge data 1500) by lia. apply take_ge. lia.
    - f_equal. lia. }
  exists (just 0), (<[i := push s q]> t). split; [done|]. split.
  - rewrite abs_insert. unfold abs_sock. change (in_use (push s q)) with (in_use s). rewrite (proj2 (Z.eqb_neq (in_use s) 0)) by done.
    by rewrite Hqu, Hm.
  - by apply (table_same t i s).
Qed.

Lemma recv_refines t fd buf max_len : table_ok t -> max_len <= Z.of_nat (length buf) ->
  exists r t', impl t (Recv fd buf max_len) = Some (r, t') /\
    spec (abs t) (Recv fd buf max_len) = (r, abs t') /\ table_ok t'.
Proof.
  intros T Hbuf. unfold impl, spec, socket_recvfrom. rewrite a_lookup_abs.
  destruct (lookup_socket t fd) as [s|] eqn:Hs; cbn [mbind option_bind]; [|by eauto].
  destruct (Z.leb_spec max_len 0); [by eauto|].
  apply lookup_socket_Some in Hs as (Hfd & Hs & Hu).
  pose proof (Forall_lookup_1 _ _ _ _ (tb_socks t T) Hs) as Hok.
  destruct (Z.eqb_spec (recv_count s) 0) as [H0|H0].
  { unfold queue. rewrite H0. by eauto. }
  pose proof (so_count s Hok). destruct (queue_pop s Hok ltac:(lia)) as (Hok' & p & Hpk & [Hd Hpl Hpi] & Hq).
  rewrite Hpk, Hq. cbn [mbind option_bind]. unfold msg_of at 1.
  assert (length (take (Z.to_nat (pkt_len p)) (pkt_data p)) = Z.to_nat (pkt_len p)) as Hlt
    by (rewrite length_take; lia).
  rewrite Hlt, Z2Nat.id by lia.
  assert ((if max_len <? pkt_len p then max_len else pkt_len p) = Z.min max_len (pkt_len p)) as ->
    by (destruct (Z.ltb_spec max_len (pkt_len p)); lia).
  rewrite copy_ok by lia. cbn [mbind option_bind]. rewrite take_take, Nat.min_l by lia.
  eexists _, (<[Z.to_nat fd := pop s]> t). split; [done|]. split.
  - rewrite abs_insert. unfold abs_sock. change (in_use (pop s)) with (in_use s).
    by rewrite (proj2 (Z.eqb_neq (in_use s) 0)).
  - by apply (table_same t _ s).
Qed.

(** Sequences of calls. *)
Fixpoint spec_run (T : list asock) (cs : list call) : list result * list asock :=
  match cs with
  | [] => ([], T)
  | c :: cs =>
    let '(r, T) := spec T c in
    let '(rs, T) := spec_run T cs in (r :: rs, T)
  end.

Fixpoint impl_run (t : list socket) (cs : list call) : option (list result * list socket) :=
  match cs with
  | [] => Some ([], t)
  | c :: cs =>
    '(r, t) ← impl t c;
    '(rs, t) ← impl_run t cs; Some (r :: rs, t)
  end.

Lemma init_ok : table_ok init_sockets.
Proof.
  split; [done|apply Forall_replicate, sock_ok_zero|].
  intros i j s s' [-> _]%lookup_replicate _ Hu. done.
Qed.

Lemma call_refines t c : table_ok t -> call_ok c ->
  exists r t', impl t c = Some (r, t') /\ spec (abs t) c = (r, abs t') /\ table_ok t'.
Proof.
  intros T Hc. destruct c; [by apply create_refines|by apply bind_refines|
    by apply deliver_refines|by apply recv_refines|by apply close_refines].
Qed.

Lemma run_refines cs : forall t, table_ok t -> Forall call_ok cs ->
  exists rs t', impl_run t cs = Some (rs, t') /\ spec_run (abs t) cs = (rs, abs t') /\ table_ok t'.
Proof.
  induction cs as [|c cs IH]; intros t T Hc; [by exists [], t|].
  apply Forall_cons in Hc as [Hc Hcs].
  destruct (call_refines t c T Hc) as (r & t1 & He & Hs & T1).
  destruct (IH t1 T1 Hcs) as (rs & t2 & He2 & Hs2 & T2).
  exists (r :: rs), t2. simpl. rewrite He, Hs. cbn [mbind option_bind]. rewrite He2, Hs2. done.
Qed.

End SocketSpec.

Module SocketProps.
Import Socket SocketSpec.

(** C18: socket.c implements bounded FIFO queues: for any sequence of create,
    bind, deliver, receive and close calls on the empty socket table, every
    call stays in bounds and returns exactly what the queue specification
    returns (delivery appends to the queue of the bound socket or is refused
    when 8 messages wait, receiving takes the oldest message), and no two
    sockets ever share a port other than 0. *)
Theorem sockets_are_queues cs :
  Forall call_ok cs ->
  exists rs t, impl_run init_sockets cs = Some (rs, t) /\
    spec_run (replicate 16 None) cs = (rs, abs t) /\ ports_distinct t.
Proof.
  intros Hc. destruct (run_refines cs init_sockets init_ok Hc) as (rs & t & Hi & Hs & T).
  exists rs, t. split; [done|]. split; [exact Hs|]. by destruct T.
Qed.

Lemma sockets_are_queues_witness :
  exists rs t, impl_run init_sockets
      [Create 2; Bind 0 7; Deliver 7 [1; 2; 3] [10; 0; 2; 2] 99; Recv 0 (replicate 16 0) 16]
      = Some (rs, t) /\
    spec_run (replicate 16 None)
      [Create 2; Bind 0 7; Deliver 7 [1; 2; 3] [10; 0; 2; 2] 99; Recv 0 (replicate 16 0) 16]
      = (rs, abs t) /\ ports_distinct t.
Proof.
  apply sockets_are_queues. repeat (apply List.Forall_cons; [simpl; done|]). apply List.Forall_nil.
Defined.

(** A datagram for port 0 reaches a socket that was created but never
    bound: an unbound socket is represented by port 0, and port 0 is not
    excluded on delivery. *)
Theorem deliver_port_zero data ip sport :
  length ip = 4%nat ->
  exists t, impl_run init_sockets [Create 2; Deliver 0 data ip sport] = Some ([just 0; just 0], t) /\
    abs t !! O = Some (Some (0, [(take 1500 data, ip, sport)])).
Proof.
  intros Hip. destruct (run_refines [Create 2; Deliver 0 data ip sport] init_sockets init_ok)
    as (rs & t & Hi & Hs & _); [by repeat constructor|].
  injection Hs as <- Ht. exists t. split; [done|]. by rewrite <- Ht.
Qed.

Lemma deliver_port_zero_witness :
  exists t, impl_run init_sockets [Create 2; Deliver 0 [1; 2; 3] [10; 0; 2; 2] 99]
      = Some ([just 0; just 0], t) /\
    abs t !! O = Some (Some (0, [([1; 2; 3], [10; 0; 2; 2], 99)])).
Proof. apply (deliver_port_zero [1; 2; 3] [10; 0; 2; 2] 99). reflexivity. Defined.

End SocketProps.
