(* ===== verification/Net.v ===== *)
(** * The network stack: ethernet.c, arp.c, ip.c, icmp.c, udp.c, the send path
    of socket.c and the receive entry of netdev.c

    The state holds the allocator, the network device, the ARP cache, the IP identification counter and the socket table.
    The device is the class [NetDriver]: it takes over each frame it is given.
    A fault ([None]) is a null dereference or an access outside a buffer. *)

From S2P Require Import Prelude CLib KAlloc Heap Inet Socket.
Import Inet Socket.
#[local] Open Scope prog_scope.

(** A [struct netdev] with its driver: [dev->hwaddr], the receive counters of
    [dev->stats] ([rx_packets++; rx_bytes += len]) and [dev->ops->transmit]; a
    fault of the driver is a fault of the sender. *)
Class NetDriver (D : Type) := {
  nd_hwaddr : D -> list Z;
  nd_count_rx : D -> Z -> D;
  nd_transmit : D -> netbuf -> option (Z * D);
  nd_hwaddr_count : forall d n, nd_hwaddr (nd_count_rx d n) = nd_hwaddr d
}.

Definition ARP_CACHE_SIZE : Z := 16.
Definition ARP_HW_ETHERNET : Z := 1.
Definition ARP_PRO_IPV4 : Z := 0x0800.
Definition ARP_OP_REQUEST : Z := 1.
Definition ARP_OP_REPLY : Z := 2.
Definition ETH_TYPE_ARP : Z := 0x0806.
Definition ETH_TYPE_IPV4 : Z := 0x0800.
Definition IP_PROTO_ICMP : Z := 1.
Definition IP_PROTO_TCP : Z := 6.
Definition IP_PROTO_UDP : Z := 17.
Definition IP_DEFAULT_TTL : Z := 64.
Definition IP_FLAG_DF : Z := 0x4000.
Definition ICMP_TYPE_ECHO_REPLY : Z := 0.
Definition ICMP_TYPE_ECHO_REQUEST : Z := 8.

(** [sizeof] of the packed headers. *)
Definition sizeof_ethernet_header : Z := 14.
Definition sizeof_arp_header : Z := 28.
Definition sizeof_ip_header : Z := 20.
Definition sizeof_icmp_header : Z := 8.
Definition sizeof_udp_header : Z := 8.

Definition our_ip : list Z := [10; 0; 2; 15].

Module Net.

Record arp_cache_entry := mk_entry { e_ip : list Z; e_mac : list Z; e_valid : bool }.

Record net (A D : Type) := mk_net {
  n_alloc : A; n_dev : D;
  arp_cache : list arp_cache_entry; arp_cache_next : Z;
  ip_id_counter : Z; n_sockets : list socket }.

Arguments mk_net {A D}.
Arguments n_alloc {A D}.
Arguments n_dev {A D}.
Arguments arp_cache {A D}.
Arguments arp_cache_next {A D}.
Arguments ip_id_counter {A D}.
Arguments n_sockets {A D}.

(** *** The ARP cache *)

(** [a[0] == b[0] && ... && a[3] == b[3]] *)
Definition ip_eq (a b : list Z) : bool :=
  (nth 0 a 0 =? nth 0 b 0) && (nth 1 a 0 =? nth 1 b 0) &&
  (nth 2 a 0 =? nth 2 b 0) && (nth 3 a 0 =? nth 3 b 0).

(** The first valid entry for [ip]. *)
Fixpoint arp_find (l : list arp_cache_entry) (i : nat) (ip : list Z) : option nat :=
  match l with
  | [] => None
  | e :: l' => if e_valid e && ip_eq (e_ip e) ip then Some i else arp_find l' (S i) ip
  end.

Definition cache_update (l : list arp_cache_entry) (next : Z) (ip mac : list Z)
    : list arp_cache_entry * Z :=
  match arp_find l 0 ip with
  | Some i => (alter (fun e => mk_entry (e_ip e) mac (e_valid e)) i l, next)
  | None =>
    (<[Z.to_nat next := mk_entry ip mac true]> l, Z.rem (next + 1) ARP_CACHE_SIZE)
  end.

Definition cache_lookup (l : list arp_cache_entry) (ip : list Z) : option (list Z) :=
  i ← arp_find l 0 ip; e ← l !! i; Some (e_mac e).

Section Ops.
Context {A D : Type} `{KAlloc A} `{NetDriver D}.

Abbreviation N := (M (net A D)).

(** *** Access to the parts of the state *)

Definition hwaddr (s : net A D) : list Z := nd_hwaddr (n_dev s).

Definition set_alloc (a : A) (s : net A D) : net A D :=
  mk_net a (n_dev s) (arp_cache s) (arp_cache_next s) (ip_id_counter s)
    (n_sockets s).

Definition set_dev (d : D) (s : net A D) : net A D :=
  mk_net (n_alloc s) d (arp_cache s) (arp_cache_next s) (ip_id_counter s)
    (n_sockets s).

Definition set_cache (c : list arp_cache_entry * Z) (s : net A D) : net A D :=
  mk_net (n_alloc s) (n_dev s) c.1 c.2 (ip_id_counter s) (n_sockets s).

Definition set_id (n : Z) (s : net A D) : net A D :=
  mk_net (n_alloc s) (n_dev s) (arp_cache s) (arp_cache_next s) n
    (n_sockets s).

Definition set_sockets (t : list socket) (s : net A D) : net A D :=
  mk_net (n_alloc s) (n_dev s) (arp_cache s) (arp_cache_next s)
    (ip_id_counter s) t.

Definition alloc_buf (size : Z) : N (option netbuf) := fun s =>
  let '(b, a) := netbuf_alloc (n_alloc s) size in Some (b, set_alloc a s).

Definition free_buf (b : netbuf) : N unit := modify (fun s => set_alloc (netbuf_free (n_alloc s) b) s).

Definition transmit (b : netbuf) : N Z := fun s =>
  '(res, d) ← nd_transmit (n_dev s) b; Some (res, set_dev d s).

Definition arp_cache_update (ip mac : list Z) : N unit :=
  modify (fun s => set_cache (cache_update (arp_cache s) (arp_cache_next s) ip mac) s).

Definition arp_cache_lookup (ip : list Z) : N (option (list Z)) :=
  let! s := get in ret (cache_lookup (arp_cache s) ip).

(** *** Sending *)

(** A buffer that could not be allocated is dereferenced. *)
Definition ethernet_tx (dest_mac : list Z) (ethertype : Z) (payload : netbuf) : N Z :=
  let! b := alloc_buf (sizeof_ethernet_header + nb_len payload) in
  let! frame_buf := lift b in
  let! s := get in
  let! frame := lift (
    f ← copy (nb_data frame_buf) 0 dest_mac 6;
    f ← copy f 6 (hwaddr s) 6;
    f ← store16 f 12 (htons ethertype);
    copy f 14 (nb_data payload) (nb_len payload)) in
  let frame_buf := set_len (set_data frame_buf frame) (sizeof_ethernet_header + nb_len payload) in
  transmit frame_buf.

Definition arp_send_reply (sender_mac sender_ip : list Z) : N Z :=
  let! b := alloc_buf sizeof_arp_header in
  match b with
  | None => ret (-1)
  | Some reply_buf =>
    let! s := get in
    let! reply := lift (
      r ← store16 (nb_data reply_buf) 0 (htons ARP_HW_ETHERNET);
      r ← store16 r 2 (htons ARP_PRO_IPV4);
      r ← store8 r 4 6;
      r ← store8 r 5 4;
      r ← store16 r 6 (htons ARP_OP_REPLY);
      r ← copy r 8 (hwaddr s) 6;
      r ← copy r 14 our_ip 4;
      r ← copy r 18 sender_mac 6;
      copy r 24 sender_ip 4) in
    let reply_buf := set_len (set_data reply_buf reply) sizeof_arp_header in
    let! res := ethernet_tx sender_mac ETH_TYPE_ARP reply_buf in
    free_buf reply_buf ;!
    ret res
  end.

Definition ip_tx (dst_ip : list Z) (protocol : Z) (payload : netbuf) : N Z :=
  let total_len := u16 (sizeof_ip_header + nb_len payload) in
  let! b := alloc_buf total_len in
  match b with
  | None => ret (-1)
  | Some ip_buf =>
    let! s := get in
    let! ip := lift (
      p ← store8 (nb_data ip_buf) 0 (Z.lor (Z.shiftl 4 4) 5);
      p ← store8 p 1 0;
      p ← store16 p 2 (htons total_len);
      store16 p 4 (htons (ip_id_counter s))) in
    modify (set_id (u16 (ip_id_counter s + 1))) ;!
    let! ip := lift (
      p ← store16 ip 6 (htons IP_FLAG_DF);
      p ← store8 p 8 IP_DEFAULT_TTL;
      p ← store8 p 9 protocol;
      p ← copy p 12 our_ip 4;
      p ← copy p 16 dst_ip 4;
      p ← store16 p 10 0;
      c ← ip_checksum p sizeof_ip_header;
      p ← store16 p 10 c;
      copy p sizeof_ip_header (nb_data payload) (nb_len payload)) in
    let ip_buf := set_len (set_data ip_buf ip) total_len in
    let! dst_mac := arp_cache_lookup dst_ip in
    match dst_mac with
    | None => free_buf ip_buf ;! ret (-1)
    | Some dst_mac =>
      let! res := ethernet_tx dst_mac ETH_TYPE_IPV4 ip_buf in
      free_buf ip_buf ;!
      ret res
    end
  end.

Definition udp_tx (dst_ip : list Z) (src_port dst_port : Z) (payload : netbuf) : N Z :=
  let udp_len := u16 (sizeof_udp_header + nb_len payload) in
  let! b := alloc_buf udp_len in
  match b with
  | None => ret (-1)
  | Some udp_buf =>
    let! udp := lift (
      p ← store16 (nb_data udp_buf) 0 (htons src_port);
      p ← store16 p 2 (htons dst_port);
      p ← store16 p 4 (htons udp_len);
      p ← store16 p 6 0;
      copy p sizeof_udp_header (nb_data payload) (nb_len payload)) in
    let udp_buf := set_len (set_data udp_buf udp) udp_len in
    let! res := ip_tx dst_ip IP_PROTO_UDP udp_buf in
    free_buf udp_buf ;!
    ret res
  end.

(** [have_dev] is whether [netdev_get_by_index(0)] finds a device. *)
Definition socket_sendto (have_dev : bool) (sockfd : Z) (buf : option (list Z)) (len : Z)
    (dst_ip : list Z) (dst_port : Z) : N Z :=
  let! s := get in
  match lookup_socket (n_sockets s) sockfd with
  | None => ret (-1)
  | Some sock =>
    match buf with
    | None => ret (-1)
    | Some buf =>
      if (len <=? 0) || (SOCKET_MAX_PACKET_SIZE <? len) then ret (-1)
      else if negb have_dev then ret (-1)
      else
        let! b := alloc_buf len in
        match b with
        | None => ret (-1)
        | Some payload =>
          let! data := lift (copy (nb_data payload) 0 buf len) in
          let payload := set_len (set_data payload data) len in
          let! res := udp_tx dst_ip (bound_port sock) dst_port payload in
          free_buf payload ;!
          if res <? 0 then ret (-1) else ret len
        end
    end
  end.

(** *** Receiving *)

Definition is_our_ip (ip : list Z) : bool := ip_eq ip our_ip.

Definition arp_rx (buf : netbuf) : N Z :=
  if nb_len buf <? sizeof_arp_header then ret (-1)
  else
    let arp := nb_data buf in
    let! hwtype := lift (fetch16 arp 0) in
    if negb (ntohs hwtype =? ARP_HW_ETHERNET) then ret (-1)
    else
      let! protype := lift (fetch16 arp 2) in
      if negb (ntohs protype =? ARP_PRO_IPV4) then ret (-1)
      else
        let! sender_mac := lift (fetch arp 8 6) in
        let! sender_ip := lift (fetch arp 14 4) in
        arp_cache_update sender_ip sender_mac ;!
        let! opcode := lift (fetch16 arp 6) in
        if ntohs opcode =? ARP_OP_REQUEST then
          let! target_ip := lift (fetch arp 24 4) in
          if is_our_ip target_ip then arp_send_reply sender_mac sender_ip else ret 0
        else if ntohs opcode =? ARP_OP_REPLY then ret 0
        else ret (-1).

(** [ip_hdr] is the received IP header, [request] the message. *)
Definition icmp_echo_reply (ip_hdr request : list Z) (icmp_len : Z) : N Z :=
  let! b := alloc_buf icmp_len in
  match b with
  | None => ret (-1)
  | Some reply_buf =>
    let! reply := lift (
      r ← copy (nb_data reply_buf) 0 request icmp_len;
      r ← store8 r 0 ICMP_TYPE_ECHO_REPLY;
      r ← store8 r 1 0;
      r ← store16 r 2 0;
      c ← ip_checksum r icmp_len;
      store16 r 2 c) in
    let reply_buf := set_len (set_data reply_buf reply) icmp_len in
    let! src_ip := lift (fetch ip_hdr 12 4) in
    let! res := ip_tx src_ip IP_PROTO_ICMP reply_buf in
    free_buf reply_buf ;!
    ret res
  end.

Definition icmp_rx (ip_hdr : list Z) (buf : netbuf) : N Z :=
  if nb_len buf <? sizeof_icmp_header then ret (-1)
  else
    let icmp := nb_data buf in
    let! c := lift (ip_checksum icmp (nb_len buf)) in
    if negb (c =? 0) then ret (-1)
    else
      let! type := lift (fetch8 icmp 0) in
      if type =? ICMP_TYPE_ECHO_REQUEST then icmp_echo_reply ip_hdr icmp (nb_len buf)
      else ret 0.

Definition udp_rx (ip_hdr : list Z) (buf : netbuf) : N Z :=
  if nb_len buf <? sizeof_udp_header then ret (-1)
  else
    let udp := nb_data buf in
    let! src_port := lift (fetch16 udp 0) in
    let! dst_port := lift (fetch16 udp 2) in
    let! len := lift (fetch16 udp 4) in
    let udp_len := ntohs len in
    if (udp_len <? sizeof_udp_header) || (nb_len buf <? udp_len) then ret (-1)
    else
      let data := drop 8 udp in
      let data_len := udp_len - sizeof_udp_header in
      let! src_ip := lift (fetch ip_hdr 12 4) in
      let! s := get in
      let! (_, t) := lift (socket_deliver_udp (n_sockets s) (ntohs dst_port) data data_len src_ip
                             (ntohs src_port)) in
      modify (set_sockets t) ;!
      ret 0.

Definition ip_rx (buf : netbuf) : N Z :=
  if nb_len buf <? sizeof_ip_header then ret (-1)
  else
    let ip := nb_data buf in
    let! version_ihl := lift (fetch8 ip 0) in
    if negb (Z.land (Z.shiftr version_ihl 4) 0x0f =? 4) then ret (-1)
    else
      let hdr_len := Z.land version_ihl 0x0f * 4 in
      if hdr_len <? 20 then ret (-1)
      else
        let! c := lift (ip_checksum ip hdr_len) in
        if negb (c =? 0) then ret (-1)
        else
          let! dst_ip := lift (fetch ip 16 4) in
          if negb (ip_eq dst_ip our_ip) then ret (-1)
          else
            let! total_length := lift (fetch16 ip 2) in
            let total_len := ntohs total_length in
            let! protocol := lift (fetch8 ip 9) in
            let payload := mk_netbuf (nb_addr buf) (ptr_add (nb_data_addr buf) hdr_len)
                             (drop (Z.to_nat hdr_len) ip) (u16 (total_len - hdr_len))
                             (u16 (total_len - hdr_len)) in
            if protocol =? IP_PROTO_ICMP then icmp_rx ip payload
            else if protocol =? IP_PROTO_UDP then udp_rx ip payload
            else if protocol =? IP_PROTO_TCP then ret 0
            else ret (-1).

(** The buffer is returned with its data pointer moved past the header. *)
Definition ethernet_rx (buf : netbuf) : N (Z * netbuf) :=
  let eth := nb_data buf in
  let! ethertype := lift (fetch16 eth 12) in
  let buf := mk_netbuf (nb_addr buf) (ptr_add (nb_data_addr buf) sizeof_ethernet_header)
               (drop 14 eth) (u16 (nb_len buf - sizeof_ethernet_header)) (nb_total_len buf) in
  if ntohs ethertype =? ETH_TYPE_IPV4 then let! r := ip_rx buf in ret (r, buf)
  else if ntohs ethertype =? ETH_TYPE_ARP then let! r := arp_rx buf in ret (r, buf)
  else ret (-1, buf).

Definition netdev_rx (buf : netbuf) : N (Z * netbuf) :=
  modify (fun s => set_dev (nd_count_rx (n_dev s) (nb_len buf)) s) ;!
  let! (res, buf) := ethernet_rx buf in
  if res <? 0 then ret (-1, buf) else ret (0, buf).

End Ops.
End Net.

(** ** Building packets *)

Module NetFacts.
Import Net SocketSpec.

(** Big-endian 16-bit value. *)
Definition be16 (v : Z) : list Z := [v / 256; v mod 256].

Lemma le_htons v : 0 <= v < 65536 -> le_bytes 2 (htons v) = be16 v.
Proof.
  intros Hv. rewrite le_bytes_2 by apply htons_range. rewrite htons_eq by done.
  unfold be16. f_equal; [|f_equal]; zlia.
Qed.

Lemma le_val_be16 v : 0 <= v < 65536 -> ntohs (le_val (be16 v)) = v.
Proof.
  intros Hv. rewrite <- le_htons by done. rewrite le_val_bytes, Z.mod_small by apply htons_range.
  by apply ntohs_htons.
Qed.

Lemma store_app_l h t off bs h' :
  store h off bs = Some h' -> store (h ++ t) off bs = Some (h' ++ t).
Proof.
  unfold store. destruct (Z.leb_spec 0 off); [|done]. rewrite length_app. simpl.
  destruct (Z.leb_spec (off + Z.of_nat (length bs)) (Z.of_nat (length h))); [|done].
  intros [= <-]. rewrite (proj2 (Z.leb_le _ _)) by lia.
  rewrite take_app_le, drop_app_le by lia. by rewrite <- !app_assoc.
Qed.

Lemma copy_app_l h t off src n h' :
  copy h off src n = Some h' -> copy (h ++ t) off src n = Some (h' ++ t).
Proof.
  unfold copy. destruct (n <=? 0); [by intros [= ->]|].
  destruct (fetch src 0 n) as [bs|]; [|done]. apply store_app_l.
Qed.

(** Filling the part of a zeroed buffer behind its header. *)
Lemma copy_tail h src n off :
  off = Z.of_nat (length h) -> 0 <= n <= Z.of_nat (length src) ->
  copy (h ++ replicate (Z.to_nat n) 0) off src n = Some (h ++ take (Z.to_nat n) src).
Proof.
  intros -> Hn. unfold copy. destruct (Z.leb_spec n 0).
  - replace n with 0 by lia. done.
  - rewrite fetch_ok by lia. cbn [mbind option_bind]. rewrite drop_0.
    rewrite store_ok by (rewrite ?length_app, ?length_take, ?length_replicate; lia).
    rewrite Nat2Z.id, take_app_length, length_take, Nat.min_l by lia.
    rewrite drop_ge, app_nil_r by (rewrite length_app, length_replicate; lia). done.
Qed.

Lemma ip_checksum_short l len : Z.of_nat (length l) < len -> ip_checksum l len = None.
Proof.
  intros Hlen. unfold ip_checksum.
  assert (forall l len sum, Z.of_nat (length l) < len ->
    sum_words l len sum = None \/ exists s, sum_words l len sum = Some ([], 1, s)) as Hs.
  { clear. intros l; induction l as [|b|a b l IH] using pair_ind; intros len sum Hlen; simpl in Hlen.
    - simpl. destruct (Z.leb_spec len 1); [|by left]. right. exists sum. by replace len with 1 by lia.
    - simpl. rewrite (proj2 (Z.leb_gt len 1)) by lia. by left.
    - cbn [sum_words]. rewrite (proj2 (Z.leb_gt len 1)) by lia. apply IH. lia. }
  destruct (Hs l len 0 Hlen) as [-> | [s ->]]; done.
Qed.

Lemma list4 {X} (l : list X) : length l = 4%nat -> exists a b c d, l = [a; b; c; d].
Proof. do 5 (destruct l as [|? l]; try done). intros _. by repeat eexists. Qed.

Lemma list6 {X} (l : list X) : length l = 6%nat -> exists a b c d e f, l = [a; b; c; d; e; f].
Proof. do 7 (destruct l as [|? l]; try done). intros _. by repeat eexists. Qed.

Lemma zeros_app k n : 0 <= k -> 0 <= n ->
  replicate (Z.to_nat (k + n)) (0 : Z) = replicate (Z.to_nat k) 0 ++ replicate (Z.to_nat n) 0.
Proof. intros. by rewrite Z2Nat.inj_add, replicate_add. Qed.

Section Buffers.
Context `{KL : KAllocLaws A}.

Lemma netbuf_alloc_ok a lv n size :
  ka_live a lv n -> 2 <= n -> 0 < size <= 4096 ->
  exists p q a', netbuf_alloc a size
      = (Some (mk_netbuf p q (replicate (Z.to_nat size) 0) 0 size), a') /\
    ka_live a' (add_pages lv [p; q]) (n - 2) /\ owned lv [p; q].
Proof.
  intros Ha Hn Hs. unfold netbuf_alloc. rewrite (u16_small size) by lia.
  destruct (ka_zalloc_1 a lv n sizeof_netbuf Ha) as (p & a1 & -> & Hp & _ & Hpf & Ha1);
    [unfold sizeof_netbuf; lia|lia|].
  rewrite (proj2 (Z.eqb_neq p NULL)) by done.
  destruct (ka_zalloc_1 a1 _ _ size Ha1) as (q & a2 & -> & Hq & _ & Hqf & Ha2); [lia|lia|].
  rewrite (proj2 (Z.eqb_neq q NULL)) by done. exists p, q, a2. split; [done|]. split.
  - by replace (n - 2) with (n - 1 - 1) by lia.
  - apply lookup_insert_None in Hqf as [Hqf Hne]. split.
    + constructor; [by intros ->%list_elem_of_singleton|apply NoDup_singleton].
    + by repeat constructor.
Qed.

Lemma netbuf_free_ok a lv n p q l k t :
  ka_live a (add_pages lv [p; q]) (n - 2) -> owned lv [p; q] ->
  ka_live (netbuf_free a (mk_netbuf p q l k t)) lv n.
Proof.
  intros Ha [Hnd Hf]. unfold netbuf_free. simpl.
  assert (q <> NULL) as Hq.
  { intros ->. pose proof (ka_null _ _ _ Ha) as H0. by rewrite lookup_add_pages, decide_True in H0 by set_solver. }
  rewrite (proj2 (Z.eqb_neq q NULL)) by done.
  apply NoDup_cons in Hnd as [Hpq _]. rewrite list_elem_of_singleton in Hpq.
  apply Forall_cons in Hf as [Hp Hf]. apply Forall_cons in Hf as [Hq' _].
  replace lv with (delete p (delete q (add_pages lv [p; q]))).
  - replace n with (n - 2 + 1 + 1) by lia.
    apply ka_free_spec; [apply ka_free_spec; [done|]|];
      rewrite ?lookup_delete_ne by done; rewrite lookup_add_pages, decide_True; set_solver.
  - apply map_eq. intros x. rewrite !lookup_delete, lookup_add_pages.
    destruct (decide (p = x)), (decide (q = x)); subst; try done.
    rewrite decide_False; [done|]. rewrite !not_elem_of_cons. auto using not_elem_of_nil.
Qed.

End Buffers.
Section Send.
Context `{KL : KAllocLaws A} `{NetDriver D}.

Abbreviation st := (net A D).

Definition eth_frame (dst src : list Z) (ty : Z) (data : list Z) : list Z :=
  dst ++ src ++ be16 ty ++ data.

(** A frame of [l] handed to the driver in [s], with the allocator [a] and the
    identification counter [id] afterwards. *)
Definition handed (s : st) (p q : Z) (l : list Z) (a : A) (id : Z) : option (Z * st) :=
  '(res, d) ← nd_transmit (n_dev s)
    (mk_netbuf p q l (Z.of_nat (length l)) (Z.of_nat (length l)));
  Some (res, set_id id (set_dev d (set_alloc a s))).

(** A payload whose length is covered by its data. *)
Definition payload_ok (b : netbuf) (k : Z) : Prop :=
  0 <= nb_len b <= Z.of_nat (length (nb_data b)) /\ k + nb_len b <= 4096.

Lemma ethernet_tx_ok (s : st) lv n mac ty payload :
  ka_live (n_alloc s) lv n -> 2 <= n -> length mac = 6%nat -> length (hwaddr s) = 6%nat ->
  0 <= ty < 65536 -> payload_ok payload 14 ->
  exists p q a', ethernet_tx mac ty payload s
      = handed s p q (eth_frame mac (hwaddr s) ty (take (Z.to_nat (nb_len payload)) (nb_data payload)))
          a' (ip_id_counter s) /\
    ka_live a' (add_pages lv [p; q]) (n - 2) /\ owned lv [p; q].
Proof.
  intros Ha Hn Hm Hh Hty [Hl Hl2]. unfold ethernet_tx, sizeof_ethernet_header.
  destruct (netbuf_alloc_ok (n_alloc s) lv n (14 + nb_len payload) Ha Hn) as (p & q & a' & He & Ha' & Ho); [lia|].
  exists p, q, a'. split; [|done]. unfold bind at 1, alloc_buf. rewrite He. unfold bind at 1, lift at 1.
  unfold bind at 1, get. change (hwaddr (set_alloc a' s)) with (hwaddr s). cbn [nb_data].
  rewrite (zeros_app 14) by lia. change (replicate (Z.to_nat 14) 0) with (replicate 14 0).
  destruct (list6 _ Hm) as (m0 & m1 & m2 & m3 & m4 & m5 & ->).
  destruct (list6 _ Hh) as (h0 & h1 & h2 & h3 & h4 & h5 & ->).
  erewrite copy_app_l by reflexivity. cbn [mbind option_bind].
  erewrite copy_app_l by reflexivity. cbn [mbind option_bind].
  unfold store16. rewrite le_htons by done. unfold be16.
  erewrite store_app_l by reflexivity. cbn [mbind option_bind].
  rewrite copy_tail by (simpl; lia). unfold bind at 1, lift.
  unfold transmit, handed, set_len, set_data. cbn [nb_addr nb_data_addr nb_data nb_total_len].
  rewrite u16_small by lia. unfold eth_frame.
  assert (Z.of_nat (length ([m0; m1; m2; m3; m4; m5] ++ [h0; h1; h2; h3; h4; h5] ++ be16 ty ++
    take (Z.to_nat (nb_len payload)) (nb_data payload))) = 14 + nb_len payload) as ->.
  { rewrite !length_app, length_take. simpl. lia. }
  reflexivity.
Qed.

Definition ip_header (id total proto c : Z) (dst : list Z) : list Z :=
  [0x45; 0] ++ be16 total ++ be16 id ++ [0x40; 0; 64; proto] ++ le_bytes 2 c ++ our_ip ++ dst.

Lemma be16_byte v : 0 <= v < 65536 -> Forall is_byte (be16 v).
Proof. intros Hv. unfold be16, is_byte. repeat constructor; zlia. Qed.

Lemma ip_header_byte id total proto c dst :
  0 <= id < 65536 -> 0 <= total < 65536 -> is_byte proto -> Forall is_byte dst ->
  Forall is_byte (ip_header id total proto c dst).
Proof.
  intros. unfold ip_header. repeat (apply Forall_app; split); try (by apply be16_byte);
    try apply le_bytes_is_byte; try done;
    repeat (constructor; [done || (unfold is_byte; lia)|]); constructor.
Qed.

Lemma length_ip_header id total proto c dst :
  length dst = 4%nat -> length (ip_header id total proto c dst) = 20%nat.
Proof. intros Hd. unfold ip_header. by rewrite !length_app, Hd. Qed.

(** The checksum of the header does not depend on what follows it. *)
Lemma ip_header_checksum id total proto dst :
  0 <= id < 65536 -> 0 <= total < 65536 -> is_byte proto -> length dst = 4%nat -> Forall is_byte dst ->
  exists c, 0 <= c < 65536 /\ forall t,
    ip_checksum (ip_header id total proto 0 dst ++ t) 20 = Some c /\
    ip_checksum (ip_header id total proto c dst ++ t) 20 = Some 0.
Proof.
  intros Hid Ht Hp Hd Hdb.
  destruct (ip_checksum_store ([0x45; 0] ++ be16 total ++ be16 id ++ [0x40; 0; 64; proto])
    (our_ip ++ dst) []) as (c & Hc & Hr & Hv).
  - by exists 5%nat.
  - repeat (apply Forall_app; split); try (by apply be16_byte);
      repeat (constructor; [done || (unfold is_byte; lia)|]); constructor.
  - apply Forall_app. split; [|done]. repeat (constructor; [unfold is_byte; lia|]). constructor.
  - rewrite !length_app. simpl. lia.
  - exists c. split; [done|]. intros t.
    assert (forall c', 0 <= c' < 65536 -> ip_checksum (ip_header id total proto c' dst ++ t) 20
      = ip_checksum (ip_header id total proto c' dst ++ []) 20) as Hrest.
    { intros c' Hc'. change 20 with (Z.of_nat 20).
      rewrite <- (length_ip_header id total proto c' dst) by done.
      rewrite !ip_checksum_eq; try done; rewrite ?length_ip_header by done; try lia;
        by apply ip_header_byte. }
    rewrite !Hrest by lia. destruct (list4 _ Hd) as (d0 & d1 & d2 & d3 & ->).
    split; [exact Hc|exact Hv].
Qed.

Lemma ip_build_1 id total t : 0 <= id < 65536 -> 0 <= total < 65536 ->
  (p ← store8 (replicate 20 0 ++ t) 0 (Z.lor (Z.shiftl 4 4) 5);
   p ← store8 p 1 0;
   p ← store16 p 2 (htons total);
   store16 p 4 (htons id))
  = Some (([0x45; 0] ++ be16 total ++ be16 id ++ replicate 14 0) ++ t).
Proof.
  intros Hid Ht. unfold store16, store8. rewrite !le_htons by done. unfold be16.
  do 3 (erewrite store_app_l by reflexivity; cbn [mbind option_bind]).
  by erewrite store_app_l by reflexivity.
Qed.

Lemma ip_build_2 {B} id total proto dst t (k : list Z -> option B) :
  is_byte proto -> length dst = 4%nat ->
  (p ← store16 (([0x45; 0] ++ be16 total ++ be16 id ++ replicate 14 0) ++ t) 6 (htons IP_FLAG_DF);
   p ← store8 p 8 IP_DEFAULT_TTL;
   p ← store8 p 9 proto;
   p ← copy p 12 our_ip 4;
   p ← copy p 16 dst 4;
   p ← store16 p 10 0;
   k p)
  = k (ip_header id total proto 0 dst ++ t).
Proof.
  intros Hp Hd. unfold store16, store8, be16.
  assert (le_bytes 1 proto = [proto]) as -> by (simpl; by rewrite Z.mod_small).
  destruct (list4 _ Hd) as (d0 & d1 & d2 & d3 & ->).
  do 3 (erewrite store_app_l by reflexivity; cbn [mbind option_bind]).
  do 2 (erewrite copy_app_l by reflexivity; cbn [mbind option_bind]).
  by erewrite store_app_l by reflexivity.
Qed.

Lemma ip_build_3 id total proto c dst t : length dst = 4%nat ->
  store16 (ip_header id total proto 0 dst ++ t) 10 c = Some (ip_header id total proto c dst ++ t).
Proof.
  intros Hd. destruct (list4 _ Hd) as (d0 & d1 & d2 & d3 & ->).
  apply store_app_l. reflexivity.
Qed.

(** Giving back a buffer below a frame that stays with the driver. *)
Lemma free_under a lv n p q p1 q1 l k t :
  ka_live a (add_pages (add_pages lv [p1; q1]) [p; q]) (n - 2 - 2) -> owned lv [p1; q1] ->
  owned (add_pages lv [p1; q1]) [p; q] ->
  ka_live (netbuf_free a (mk_netbuf p1 q1 l k t)) (add_pages lv [p; q]) (n - 2) /\ owned lv [p; q].
Proof.
  intros Ha Ho1 Ho. destruct (owned_swap _ _ _ Ho1 Ho) as [Hl Hr]. split; [|done].
  rewrite add_pages_comm in Ha. by apply netbuf_free_ok.
Qed.

Lemma ip_tx_ok (s : st) lv n dst proto mac payload :
  ka_live (n_alloc s) lv n -> 4 <= n -> length mac = 6%nat -> length (hwaddr s) = 6%nat ->
  length dst = 4%nat -> Forall is_byte dst -> is_byte proto -> payload_ok payload 34 ->
  0 <= ip_id_counter s < 65536 -> cache_lookup (arp_cache s) dst = Some mac ->
  let len := nb_len payload in
  exists p q a' c,
    ip_tx dst proto payload s
      = handed s p q (eth_frame mac (hwaddr s) ETH_TYPE_IPV4
          (ip_header (ip_id_counter s) (20 + len) proto c dst ++ take (Z.to_nat len) (nb_data payload)))
          a' (u16 (ip_id_counter s + 1)) /\
    0 <= c < 65536 /\
    (forall t, ip_checksum (ip_header (ip_id_counter s) (20 + len) proto c dst ++ t) 20 = Some 0) /\
    ka_live a' (add_pages lv [p; q]) (n - 2) /\ owned lv [p; q].
Proof.
  intros Ha Hn Hm Hh Hd Hdb Hpr [Hl Hl2] Hid Hc len.
  unfold ip_tx, sizeof_ip_header. fold len. rewrite (u16_small (20 + len)) by lia.
  destruct (netbuf_alloc_ok (n_alloc s) lv n (20 + len) Ha) as (p1 & q1 & a1 & He & Ha1 & Ho1); [lia|lia|].
  unfold bind at 1, alloc_buf. rewrite He. unfold bind at 1, get. cbn [ip_id_counter set_alloc nb_data].
  destruct (ip_header_checksum (ip_id_counter s) (20 + len) proto dst) as (c & Hcr & Hcv);
    [done|lia|done|done|done|].
  rewrite (zeros_app 20) by lia. change (replicate (Z.to_nat 20) 0) with (replicate 20 0).
  rewrite ip_build_1 by (done || lia). unfold bind at 1, lift at 1. unfold bind at 1, modify.
  rewrite ip_build_2 by done. rewrite (proj1 (Hcv _)). cbn [mbind option_bind].
  rewrite ip_build_3 by done. cbn [mbind option_bind].
  rewrite copy_tail by (rewrite ?length_ip_header by done; lia).
  unfold bind at 1, lift at 1. unfold bind at 1, arp_cache_lookup, bind at 1, get, ret at 1.
  cbn [arp_cache set_id set_alloc]. rewrite Hc.
  set (ipb := set_len _ _). set (s1 := set_id _ _).
  assert (nb_len ipb = 20 + len) as Hil by (unfold ipb, set_len; simpl; rewrite u16_small; lia).
  assert (nb_data ipb = ip_header (ip_id_counter s) (20 + len) proto c dst ++
    take (Z.to_nat len) (nb_data payload)) as Hid' by done.
  destruct (ethernet_tx_ok s1 (add_pages lv [p1; q1]) (n - 2) mac ETH_TYPE_IPV4 ipb)
    as (p & q & a2 & Het & Ha2 & Ho2); [done|lia|done|done|done| |].
  { split; rewrite Hil; [|lia]. rewrite Hid', length_app, length_ip_header, length_take by done. lia. }
  destruct (free_under a2 lv n p q p1 q1 (nb_data ipb) (nb_len ipb) (nb_total_len ipb) Ha2 Ho1 Ho2) as [Ha3 Ho3].
  exists p, q, (netbuf_free a2 ipb), c. split; [|split; [done|split; [apply Hcv|split; done]]].
  unfold bind at 1. rewrite Het, Hil, Hid'. rewrite (take_ge (_ ++ _)) by
    (rewrite length_app, length_ip_header, length_take by done; lia).
  unfold handed. cbn [n_dev set_id set_alloc s1 hwaddr]. by destruct (nd_transmit _ _) as [[]|].
Qed.

Definition udp_header (sp dp len : Z) : list Z := be16 sp ++ be16 dp ++ be16 len ++ [0; 0].

Lemma udp_tx_ok (s : st) lv n dst sp dp mac payload :
  ka_live (n_alloc s) lv n -> 6 <= n -> length mac = 6%nat -> length (hwaddr s) = 6%nat ->
  length dst = 4%nat -> Forall is_byte dst -> 0 <= sp < 65536 -> 0 <= dp < 65536 ->
  payload_ok payload 42 -> 0 <= ip_id_counter s < 65536 ->
  cache_lookup (arp_cache s) dst = Some mac ->
  let len := nb_len payload in
  exists p q a' c,
    udp_tx dst sp dp payload s
      = handed s p q (eth_frame mac (hwaddr s) ETH_TYPE_IPV4
          (ip_header (ip_id_counter s) (28 + len) IP_PROTO_UDP c dst ++
           udp_header sp dp (8 + len) ++ take (Z.to_nat len) (nb_data payload)))
          a' (u16 (ip_id_counter s + 1)) /\
    0 <= c < 65536 /\
    (forall t, ip_checksum (ip_header (ip_id_counter s) (28 + len) IP_PROTO_UDP c dst ++ t) 20 = Some 0) /\
    ka_live a' (add_pages lv [p; q]) (n - 2) /\ owned lv [p; q].
Proof.
  intros Ha Hn Hm Hh Hd Hdb Hsp Hdp [Hl Hl2] Hid Hc len.
  unfold udp_tx, sizeof_udp_header. fold len. rewrite (u16_small (8 + len)) by lia.
  destruct (netbuf_alloc_ok (n_alloc s) lv n (8 + len) Ha) as (p1 & q1 & a1 & He & Ha1 & Ho1); [lia|lia|].
  unfold bind at 1, alloc_buf. rewrite He. cbn [nb_data].
  rewrite (zeros_app 8) by lia. change (replicate (Z.to_nat 8) 0) with (replicate 8 0).
  unfold store16. rewrite !le_htons by (done || lia). unfold be16 at 1 2 3.
  do 4 (erewrite store_app_l by reflexivity; cbn [mbind option_bind]).
  rewrite copy_tail by (simpl; lia). unfold bind at 1, lift at 1.
  set (udpb := set_len _ _). set (s1 := set_alloc _ _).
  assert (nb_len udpb = 8 + len) as Hul by (unfold udpb, set_len; simpl; rewrite u16_small; lia).
  assert (nb_data udpb = udp_header sp dp (8 + len) ++ take (Z.to_nat len) (nb_data payload)) as Hud by done.
  destruct (ip_tx_ok s1 (add_pages lv [p1; q1]) (n - 2) dst IP_PROTO_UDP mac udpb)
    as (p & q & a2 & c & Het & Hcr & Hcv & Ha2 & Ho2); try done; [lia| |].
  { split; rewrite Hul; [|lia]. rewrite Hud, length_app, length_take. simpl. lia. }
  rewrite Hul, Z.add_assoc in Het, Hcv. change (20 + 8) with 28 in Het, Hcv.
  destruct (free_under a2 lv n p q p1 q1 (nb_data udpb) (nb_len udpb) (nb_total_len udpb) Ha2 Ho1 Ho2) as [Ha3 Ho3].
  exists p, q, (netbuf_free a2 udpb), c. split; [|split; [done|split; [done|split; done]]].
  unfold bind at 1. rewrite Het, Hud. rewrite (take_ge (_ ++ _)) by
    (rewrite length_app, length_take; simpl; lia).
  unfold handed. cbn [n_dev set_alloc s1 hwaddr ip_id_counter]. by destruct (nd_transmit _ _) as [[]|].
Qed.

Lemma sendto_ok (s : st) lv n fd sock dst dp mac data rest :
  ka_live (n_alloc s) lv n -> 8 <= n -> length mac = 6%nat -> length (hwaddr s) = 6%nat ->
  length dst = 4%nat -> Forall is_byte dst -> 0 <= bound_port sock < 65536 -> 0 <= dp < 65536 ->
  (0 < length data <= 1500)%nat -> 0 <= ip_id_counter s < 65536 ->
  cache_lookup (arp_cache s) dst = Some mac -> lookup_socket (n_sockets s) fd = Some sock ->
  let len := Z.of_nat (length data) in
  exists p q a' c,
    socket_sendto true fd (Some (data ++ rest)) len dst dp s
      = match handed s p q (eth_frame mac (hwaddr s) ETH_TYPE_IPV4
          (ip_header (ip_id_counter s) (28 + len) IP_PROTO_UDP c dst ++
           udp_header (bound_port sock) dp (8 + len) ++ data))
          a' (u16 (ip_id_counter s + 1)) with
        | Some (res, s') => Some (if res <? 0 then -1 else len, s')
        | None => None
        end /\
    0 <= c < 65536 /\
    (forall t, ip_checksum (ip_header (ip_id_counter s) (28 + len) IP_PROTO_UDP c dst ++ t) 20 = Some 0) /\
    ka_live a' (add_pages lv [p; q]) (n - 2) /\ owned lv [p; q].
Proof.
  intros Ha Hn Hm Hh Hd Hdb Hsp Hdp Hl Hid Hc Hs len.
  unfold socket_sendto, bind at 1, get. rewrite Hs. unfold SOCKET_MAX_PACKET_SIZE.
  rewrite (proj2 (Z.leb_gt len 0)), (proj2 (Z.ltb_ge 1500 len)) by lia. cbn [orb negb].
  destruct (netbuf_alloc_ok (n_alloc s) lv n len Ha) as (p1 & q1 & a1 & He & Ha1 & Ho1); [lia|lia|].
  unfold bind at 1, alloc_buf. rewrite He. cbn [nb_data].
  rewrite copy_ok by (rewrite ?length_app, ?length_replicate; lia).
  rewrite drop_ge, app_nil_r, take_app_length' by (rewrite ?length_replicate; lia).
  unfold bind at 1, lift at 1. set (pl := set_len _ _). set (s1 := set_alloc _ _).
  assert (nb_len pl = len) as Hul by (unfold pl, set_len; simpl; rewrite u16_small; lia).
  destruct (udp_tx_ok s1 (add_pages lv [p1; q1]) (n - 2) dst (bound_port sock) dp mac pl)
    as (p & q & a2 & c & Het & Hcr & Hcv & Ha2 & Ho2); try done; [lia| |].
  { split; rewrite Hul; [simpl; lia|lia]. }
  rewrite Hul in Het, Hcv.
  destruct (free_under a2 lv n p q p1 q1 (nb_data pl) (nb_len pl) (nb_total_len pl) Ha2 Ho1 Ho2) as [Ha3 Ho3].
  exists p, q, (netbuf_free a2 pl), c. split; [|split; [done|split; [done|split; done]]].
  unfold bind at 1. rewrite Het. change (nb_data pl) with data. rewrite take_ge by lia.
  unfold handed. cbn [n_dev set_alloc s1 hwaddr ip_id_counter]. destruct (nd_transmit _ _) as [[res d]|]; [|done]. cbn [mbind option_bind].
  unfold bind, free_buf, modify. by destruct (res <? 0).
Qed.

(** *** Receiving *)

(** An IPv4 header of 20 bytes; [idf] is the identification and fragment field. *)
Definition ip_hdr (tos total : Z) (idf : list Z) (ttl proto : Z) (cs src dst : list Z) : list Z :=
  [0x45; tos] ++ be16 total ++ idf ++ [ttl; proto] ++ cs ++ src ++ dst.

Lemma ip_header_hdr id total proto c dst :
  ip_header id total proto c dst
  = ip_hdr 0 total (be16 id ++ [0x40; 0]) 64 proto (le_bytes 2 c) our_ip dst.
Proof. done. Qed.

(** What [ip_rx] does with a payload. *)
Definition ip_dispatch (proto : Z) (ip : list Z) (payload : netbuf) : M st Z :=
  if proto =? IP_PROTO_ICMP then icmp_rx ip payload
  else if proto =? IP_PROTO_UDP then udp_rx ip payload
  else if proto =? IP_PROTO_TCP then ret 0
  else ret (-1).

Lemma ip_rx_accepts tos total idf ttl proto cs src t buf (s : st) :
  nb_data buf = ip_hdr tos total idf ttl proto cs src our_ip ++ t ->
  length idf = 4%nat -> length cs = 2%nat -> length src = 4%nat -> 0 <= total < 65536 ->
  20 <= nb_len buf -> ip_checksum (nb_data buf) 20 = Some 0 ->
  ip_rx buf s = ip_dispatch proto (nb_data buf)
    (mk_netbuf (nb_addr buf) (ptr_add (nb_data_addr buf) 20) t (u16 (total - 20)) (u16 (total - 20))) s.
Proof.
  intros Hd Hi Hc Hs Ht Hl Hck. unfold ip_rx, sizeof_ip_header.
  rewrite (proj2 (Z.ltb_ge _ 20)) by lia.
  destruct (list4 _ Hi) as (i0 & i1 & i2 & i3 & ->). destruct (list4 _ Hs) as (s0 & s1 & s2 & s3 & ->).
  destruct cs as [|c0 [|c1 [|? ?]]]; try discriminate Hc.
  assert (forall off n, 0 <= off -> 0 <= n -> off + n <= 20 -> fetch (nb_data buf) off n
    = Some (take (Z.to_nat n) (drop (Z.to_nat off) (ip_hdr tos total [i0; i1; i2; i3] ttl proto [c0; c1]
        [s0; s1; s2; s3] our_ip)))) as Hf.
  { intros off n Ho Hn Hon. rewrite Hd, fetch_ok by (rewrite ?length_app; simpl; lia).
    rewrite drop_app_le, take_app_le by (rewrite ?length_drop; simpl; lia). done. }
  assert (fetch8 (nb_data buf) 0 = Some 0x45) as F0 by (unfold fetch8; by rewrite Hf).
  assert (fetch16 (nb_data buf) 2 = Some (le_val (be16 total))) as F2 by (unfold fetch16; by rewrite Hf).
  assert (fetch8 (nb_data buf) 9 = Some proto) as F9.
  { unfold fetch8. rewrite Hf by lia. simpl. f_equal. lia. }
  assert (fetch (nb_data buf) 16 4 = Some our_ip) as F16 by (by rewrite Hf).
  rewrite (bind_lift _ _ _ _ F0). change (negb (Z.land (Z.shiftr 69 4) 15 =? 4)) with false. cbv iota.
  change (Z.land 69 15 * 4) with 20. change (20 <? 20) with false. cbv iota.
  rewrite (bind_lift _ _ _ _ Hck). change (negb (0 =? 0)) with false. cbv iota.
  rewrite (bind_lift _ _ _ _ F16). change (negb (ip_eq our_ip our_ip)) with false. cbv iota.
  rewrite (bind_lift _ _ _ _ F2), (bind_lift _ _ _ _ F9), le_val_be16 by done.
  assert (drop (Z.to_nat 20) (nb_data buf) = t) as -> by (by rewrite Hd). done.
Qed.

Lemma fetch_app h t off n : 0 <= off -> 0 <= n -> off + n <= Z.of_nat (length h) ->
  fetch (h ++ t) off n = Some (take (Z.to_nat n) (drop (Z.to_nat off) h)).
Proof.
  intros. rewrite fetch_ok by (rewrite ?length_app; lia).
  by rewrite drop_app_le, take_app_le by (rewrite ?length_drop; lia).
Qed.

(** The source address of a header. *)
Lemma ip_hdr_src tos total idf ttl proto cs src dst t :
  length idf = 4%nat -> length cs = 2%nat -> length src = 4%nat -> length dst = 4%nat ->
  fetch (ip_hdr tos total idf ttl proto cs src dst ++ t) 12 4 = Some src.
Proof.
  intros Hi Hc Hs Hd. destruct (list4 _ Hi) as (i0 & i1 & i2 & i3 & ->).
  destruct (list4 _ Hs) as (s0 & s1 & s2 & s3 & ->). destruct cs as [|c0 [|c1 [|? ?]]]; try discriminate Hc.
  rewrite fetch_app; [done|lia|lia|]. unfold ip_hdr. rewrite !length_app. simpl. lia.
Qed.

Lemma deliver_prefix t port data pad ip sp :
  socket_deliver_udp t port (data ++ pad) (Z.of_nat (length data)) ip sp
  = socket_deliver_udp t port data (Z.of_nat (length data)) ip sp.
Proof.
  assert (forall dst n, n <= Z.of_nat (length data) -> copy dst 0 (data ++ pad) n = copy dst 0 data n) as Hc.
  { intros dst n Hn. unfold copy. destruct (Z.leb_spec n 0); [done|].
    rewrite fetch_app, fetch_ok by lia. done. }
  unfold socket_deliver_udp. destruct (port_loop _ _ _); [|done]. destruct (t !! _) as [s|]; [|done]. simpl.
  destruct (_ <=? _); [done|]. destruct (recv_queue s !! _); [|done]. simpl. rewrite Hc; [done|].
  unfold SOCKET_MAX_PACKET_SIZE. destruct (Z.ltb_spec 1500 (Z.of_nat (length data))); lia.
Qed.

Lemma udp_rx_ok ip sp dp data pad src buf (s : st) r t' :
  nb_data buf = udp_header sp dp (8 + Z.of_nat (length data)) ++ data ++ pad ->
  8 + Z.of_nat (length data) <= nb_len buf -> (length data <= 1500)%nat ->
  0 <= sp < 65536 -> 0 <= dp < 65536 -> fetch ip 12 4 = Some src ->
  socket_deliver_udp (n_sockets s) dp data (Z.of_nat (length data)) src sp = Some (r, t') ->
  udp_rx ip buf s = Some (0, set_sockets t' s).
Proof.
  intros Hd Hl Hl2 Hsp Hdp Hsrc Hdel. unfold udp_rx, sizeof_udp_header.
  rewrite (proj2 (Z.ltb_ge _ 8)) by lia.
  assert (forall off v, (off = 0 /\ v = sp \/ off = 2 /\ v = dp \/ off = 4 /\ v = 8 + Z.of_nat (length data)) ->
    fetch16 (nb_data buf) off = Some (le_val (be16 v))) as Hf.
  { intros off v Hv. unfold fetch16. rewrite Hd, fetch_app by (simpl; lia).
    by destruct Hv as [[-> ->]|[[-> ->]|[-> ->]]]. }
  rewrite (bind_lift _ _ _ _ (Hf 0 sp ltac:(auto))), (bind_lift _ _ _ _ (Hf 2 dp ltac:(auto))).
  rewrite (bind_lift _ _ _ _ (Hf 4 (8 + Z.of_nat (length data)) ltac:(auto))).
  rewrite !le_val_be16 by lia.
  rewrite (proj2 (Z.ltb_ge (8 + _) 8)), (proj2 (Z.ltb_ge (nb_len buf) _)) by lia. cbn [orb].
  rewrite (bind_lift _ _ _ _ Hsrc). unfold bind at 1, get. rewrite Hd.
  change (drop 8 (udp_header sp dp (8 + Z.of_nat (length data)) ++ data ++ pad)) with (data ++ pad).
  replace (8 + Z.of_nat (length data) - 8) with (Z.of_nat (length data)) by lia.
  rewrite deliver_prefix. by rewrite (bind_lift _ _ _ _ Hdel).
Qed.

(** A received frame, counted and stripped of its Ethernet header. *)
Lemma netdev_rx_frame p q dst src ty data tot (s : st) :
  length dst = 6%nat -> length src = 6%nat -> 0 <= ty < 65536 ->
  let n := Z.of_nat (length (eth_frame dst src ty data)) in
  n < 65536 ->
  let buf := mk_netbuf p (ptr_add q 14) data (n - 14) tot in
  let s1 := set_dev (nd_count_rx (n_dev s) n) s in
  netdev_rx (mk_netbuf p q (eth_frame dst src ty data) n tot) s
  = match (if ty =? ETH_TYPE_IPV4 then ip_rx buf s1
           else if ty =? ETH_TYPE_ARP then arp_rx buf s1 else Some (-1, s1)) with
    | Some (r, s') => Some (if r <? 0 then -1 else 0, buf, s')
    | None => None
    end.
Proof.
  intros Hd Hs Ht n Hn buf s1. unfold netdev_rx, bind at 1, modify. cbn [nb_len]. fold s1.
  unfold ethernet_rx. cbn [nb_data nb_addr nb_data_addr nb_len nb_total_len].
  destruct (list6 _ Hd) as (d0 & d1 & d2 & d3 & d4 & d5 & ->).
  destruct (list6 _ Hs) as (h0 & h1 & h2 & h3 & h4 & h5 & ->).
  assert (fetch16 (eth_frame [d0; d1; d2; d3; d4; d5] [h0; h1; h2; h3; h4; h5] ty data) 12
    = Some (le_val (be16 ty))) as Hf.
  { unfold fetch16, eth_frame. rewrite fetch_ok by (rewrite ?length_app; simpl; lia). reflexivity. }
  unfold bind at 1. rewrite (bind_lift _ _ _ _ Hf), le_val_be16 by done.
  assert (14 <= n) by (unfold n, eth_frame; rewrite !length_app; simpl; lia).
  change sizeof_ethernet_header with 14. rewrite (u16_small (n - 14)) by lia.
  change (drop 14 (eth_frame _ _ ty data)) with data. fold buf.
  destruct (ty =? ETH_TYPE_IPV4); [|destruct (ty =? ETH_TYPE_ARP)]; unfold bind, ret.
  - destruct (ip_rx buf s1) as [[r s']|]; [|done]. by destruct (r <? 0).
  - destruct (arp_rx buf s1) as [[r s']|]; [|done]. by destruct (r <? 0).
  - done.
Qed.

(** A UDP datagram for us goes to the socket of its port. *)
Lemma udp_frame_ok p q tot dst src tos idf ttl cs sip sp dp data pad (s : st) r t :
  length dst = 6%nat -> length src = 6%nat -> length idf = 4%nat -> length cs = 2%nat -> length sip = 4%nat ->
  0 <= sp < 65536 -> 0 <= dp < 65536 -> (length data <= 1500)%nat ->
  let len := Z.of_nat (length data) in
  let packet := ip_hdr tos (28 + len) idf ttl IP_PROTO_UDP cs sip our_ip ++ udp_header sp dp (8 + len) ++ data ++ pad in
  let frame := eth_frame dst src ETH_TYPE_IPV4 packet in
  Z.of_nat (length frame) < 65536 -> ip_checksum packet 20 = Some 0 ->
  socket_deliver_udp (n_sockets s) dp data len sip sp = Some (r, t) ->
  exists buf, netdev_rx (mk_netbuf p q frame (Z.of_nat (length frame)) tot) s
    = Some (0, buf, set_sockets t (set_dev (nd_count_rx (n_dev s) (Z.of_nat (length frame))) s)).
Proof.
  intros Hd Hs Hi Hc Hsip Hsp Hdp Hl len packet frame Hlen Hck Hdel.
  unfold frame. rewrite netdev_rx_frame by done. change (ETH_TYPE_IPV4 =? ETH_TYPE_IPV4) with true. cbv iota.
  set (buf := mk_netbuf _ _ _ _ _). set (s3 := set_dev _ _).
  assert (28 + len <= nb_len buf) as Hb28.
  { unfold buf, eth_frame. cbn [nb_len]. rewrite !length_app, Hd, Hs. unfold packet, ip_hdr.
    rewrite !length_app, Hi, Hc, Hsip. simpl. lia. }
  rewrite (ip_rx_accepts tos (28 + len) idf ttl IP_PROTO_UDP cs sip (udp_header sp dp (8 + len) ++ data ++ pad));
    [|done|done|done|done|lia|lia|done].
  change (ip_dispatch IP_PROTO_UDP) with (@udp_rx A D). rewrite (u16_small (28 + len - 20)) by lia.
  rewrite (udp_rx_ok _ sp dp data pad sip _ s3 r t); [by exists buf|done|cbn [nb_len]; lia|lia|lia|lia| |done].
  by apply (ip_hdr_src tos (28 + len) idf ttl IP_PROTO_UDP cs).
Qed.

(** *** ICMP and ARP *)

Lemma icmp_echo_ok (s : st) lv n iph src mac code cs body t :
  ka_live (n_alloc s) lv n -> 6 <= n -> length mac = 6%nat -> length (hwaddr s) = 6%nat ->
  length src = 4%nat -> Forall is_byte src -> 0 <= ip_id_counter s < 65536 ->
  cache_lookup (arp_cache s) src = Some mac -> fetch iph 12 4 = Some src ->
  length cs = 2%nat -> Forall is_byte body -> (length body <= 3000)%nat ->
  let len := 4 + Z.of_nat (length body) in
  exists p q a' c c',
    icmp_echo_reply iph (([8; code] ++ cs ++ body) ++ t) len s
      = handed s p q (eth_frame mac (hwaddr s) ETH_TYPE_IPV4
          (ip_header (ip_id_counter s) (20 + len) IP_PROTO_ICMP c src ++
           [0; 0] ++ le_bytes 2 c' ++ body)) a' (u16 (ip_id_counter s + 1)) /\
    (forall t, ip_checksum (ip_header (ip_id_counter s) (20 + len) IP_PROTO_ICMP c src ++ t) 20 = Some 0) /\
    ip_checksum ([0; 0] ++ le_bytes 2 c' ++ body) len = Some 0 /\
    ka_live a' (add_pages lv [p; q]) (n - 2) /\ owned lv [p; q].
Proof.
  intros Ha Hn Hm Hh Hs Hsb Hid Hc Hsrc Hcs Hb Hl len. unfold icmp_echo_reply.
  destruct (netbuf_alloc_ok (n_alloc s) lv n len Ha) as (p1 & q1 & a1 & He & Ha1 & Ho1); [lia|lia|].
  unfold bind at 1, alloc_buf. rewrite He. cbn [nb_data].
  destruct cs as [|c0 [|c1 [|? ?]]]; try discriminate Hcs.
  rewrite copy_ok by (rewrite ?length_app, ?length_replicate; simpl; lia). cbn [mbind option_bind].
  rewrite take_app_length' by (rewrite !length_app; simpl; lia).
  rewrite drop_ge, app_nil_r by (rewrite length_replicate; lia).
  change ([8; code] ++ [c0; c1] ++ body) with ([8; code; c0; c1] ++ body).
  unfold store8, store16.
  rewrite (store_app_l _ _ _ _ [0; code; c0; c1]) by reflexivity. cbn [mbind option_bind].
  rewrite (store_app_l _ _ _ _ [0; 0; c0; c1]) by reflexivity. cbn [mbind option_bind].
  rewrite (store_app_l _ _ _ _ [0; 0; 0; 0]) by reflexivity. cbn [mbind option_bind].
  destruct (ip_checksum_store [0; 0] body []) as (c' & Hc1 & Hcr & Hc2);
    [by exists 1%nat|repeat (constructor; [unfold is_byte; lia|]); constructor|done|simpl; lia|].
  rewrite !app_nil_r in Hc1, Hc2.
  assert (forall x, Z.of_nat (length ([0; 0] ++ le_bytes 2 x ++ body)) = len) as Hlen
    by (intros x; simpl; lia).
  change ([0; 0] ++ [0; 0] ++ body) with ([0; 0; 0; 0] ++ body) in Hc1.
  change (Z.of_nat (length ([0; 0; 0; 0] ++ body))) with (Z.of_nat (length ([0; 0] ++ le_bytes 2 0 ++ body))) in Hc1.
  rewrite Hlen in Hc1, Hc2.
  rewrite Hc1. cbn [mbind option_bind].
  rewrite (store_app_l _ _ _ _ ([0; 0] ++ le_bytes 2 c')) by reflexivity.
  unfold bind at 1, lift at 1. rewrite (bind_lift _ _ _ _ Hsrc).
  set (rb := set_len _ _). set (s1 := set_alloc _ _).
  assert (nb_len rb = len) as Hul by (unfold rb, set_len; simpl; rewrite u16_small; lia).
  assert (nb_data rb = [0; 0] ++ le_bytes 2 c' ++ body) as Hud by done.
  destruct (ip_tx_ok s1 (add_pages lv [p1; q1]) (n - 2) src IP_PROTO_ICMP mac rb)
    as (p & q & a2 & c & Het & Hcr2 & Hcv & Ha2 & Ho2); try done; [lia| |].
  { split; rewrite Hul; [|lia]. rewrite Hud, Hlen. lia. }
  rewrite Hul in Het, Hcv.
  destruct (free_under a2 lv n p q p1 q1 (nb_data rb) (nb_len rb) (nb_total_len rb) Ha2 Ho1 Ho2) as [Ha3 Ho3].
  exists p, q, (netbuf_free a2 rb), c, c'. split; [|split; [done|split; [done|split; done]]].
  unfold bind at 1. rewrite Het, Hud. rewrite take_ge by (simpl; lia).
  unfold handed. cbn [n_dev set_alloc s1 hwaddr ip_id_counter]. by destruct (nd_transmit _ _) as [[]|].
Qed.

Definition arp_packet (op : Z) (smac sip tmac tip : list Z) : list Z :=
  be16 ARP_HW_ETHERNET ++ be16 ARP_PRO_IPV4 ++ [6; 4] ++ be16 op ++ smac ++ sip ++ tmac ++ tip.

Lemma arp_reply_ok (s : st) lv n smac sip :
  ka_live (n_alloc s) lv n -> 4 <= n -> length smac = 6%nat -> length (hwaddr s) = 6%nat ->
  length sip = 4%nat ->
  exists p q a', arp_send_reply smac sip s
      = handed s p q (eth_frame smac (hwaddr s) ETH_TYPE_ARP
          (arp_packet ARP_OP_REPLY (hwaddr s) our_ip smac sip)) a' (ip_id_counter s) /\
    ka_live a' (add_pages lv [p; q]) (n - 2) /\ owned lv [p; q].
Proof.
  intros Ha Hn Hm Hh Hs. unfold arp_send_reply, sizeof_arp_header.
  destruct (netbuf_alloc_ok (n_alloc s) lv n 28 Ha) as (p1 & q1 & a1 & He & Ha1 & Ho1); [lia|lia|].
  unfold bind at 1, alloc_buf. rewrite He. unfold bind at 1, get. change (hwaddr (set_alloc _ s)) with (hwaddr s). cbn [nb_data set_alloc].
  set (r := mbind _ _).
  assert (r = Some (arp_packet ARP_OP_REPLY (hwaddr s) our_ip smac sip)) as ->.
  { unfold r. destruct (list6 _ Hm) as (m0 & m1 & m2 & m3 & m4 & m5 & ->).
    destruct (list6 _ Hh) as (h0 & h1 & h2 & h3 & h4 & h5 & ->).
    destruct (list4 _ Hs) as (i0 & i1 & i2 & i3 & ->). reflexivity. }
  unfold bind at 1, lift at 1. set (rb := set_len _ _). set (s1 := set_alloc _ _).
  assert (length (nb_data rb) = 28%nat) as Hrl.
  { change (nb_data rb) with (arp_packet ARP_OP_REPLY (hwaddr s) our_ip smac sip).
    unfold arp_packet. by rewrite !length_app, Hm, Hh, Hs. }
  destruct (ethernet_tx_ok s1 (add_pages lv [p1; q1]) (n - 2) smac ETH_TYPE_ARP rb)
    as (p & q & a2 & Het & Ha2 & Ho2); [done|lia|done|done|done| |].
  { change (nb_len rb) with 28. split; [rewrite Hrl|]; change (nb_len rb) with 28; lia. }
  destruct (free_under a2 lv n p q p1 q1 (nb_data rb) (nb_len rb) (nb_total_len rb) Ha2 Ho1 Ho2) as [Ha3 Ho3].
  exists p, q, (netbuf_free a2 rb). split; [|split; done].
  unfold bind at 1. rewrite Het. rewrite take_ge by (rewrite Hrl; done).
  unfold handed. cbn [n_dev set_alloc s1 hwaddr ip_id_counter]. by destruct (nd_transmit _ _) as [[]|].
Qed.

End Send.
(** *** The ARP cache as a map *)

Lemma ip_eq_true a b : length a = 4%nat -> length b = 4%nat -> ip_eq a b = true <-> a = b.
Proof.
  intros Ha Hb. destruct (list4 _ Ha) as (a0 & a1 & a2 & a3 & ->).
  destruct (list4 _ Hb) as (b0 & b1 & b2 & b3 & ->). unfold ip_eq. simpl.
  rewrite !andb_true_iff, !Z.eqb_eq. split; [by intros [[[-> ->] ->] ->]|by intros [= -> -> -> ->]].
Qed.

(** 16 entries, the next slot among them, and one valid entry per address. *)
Record cache_ok (l : list arp_cache_entry) (next : Z) : Prop := {
  ca_len : length l = 16%nat;
  ca_next : 0 <= next < 16;
  ca_ip : forall i e, l !! i = Some e -> e_valid e = true -> length (e_ip e) = 4%nat;
  ca_uniq : forall i j e e', l !! i = Some e -> l !! j = Some e' ->
    e_valid e = true -> e_valid e' = true -> e_ip e = e_ip e' -> i = j
}.

Definition holds (l : list arp_cache_entry) (i : nat) (ip mac : list Z) : Prop :=
  exists e, l !! i = Some e /\ e_valid e = true /\ e_ip e = ip /\ e_mac e = mac.

Lemma arp_find_Some l ip : forall k i,
  (forall i e, l !! i = Some e -> e_valid e = true -> length (e_ip e) = 4%nat) ->
  length ip = 4%nat -> arp_find l k ip = Some i ->
  (k <= i)%nat /\ exists mac, holds l (i - k) ip mac.
Proof.
  induction l as [|e l IH]; intros k i Hl Hip; simpl; [done|].
  destruct (e_valid e) eqn:Hv; simpl.
  - destruct (ip_eq (e_ip e) ip) eqn:He.
    + intros [= <-]. apply ip_eq_true in He; [|by apply (Hl 0%nat e)|done].
      rewrite Nat.sub_diag. split; [lia|]. by exists (e_mac e), e.
    + intros (Hk & mac & Hh)%IH; [|intros j x Hx; by apply (Hl (S j))|done].
      split; [lia|]. exists mac. by replace (i - k)%nat with (S (i - S k)) by lia.
  - intros (Hk & mac & Hh)%IH; [|intros j x Hx; by apply (Hl (S j))|done].
    split; [lia|]. exists mac. by replace (i - k)%nat with (S (i - S k)) by lia.
Qed.

Lemma arp_find_None l ip : forall k,
  length ip = 4%nat -> arp_find l k ip = None -> forall i mac, ~ holds l i ip mac.
Proof.
  induction l as [|e l IH]; intros k Hip Hf i mac (x & Hx & Hv & He & Hm); [done|]. simpl in Hf.
  destruct i as [|i].
  - injection Hx as <-. rewrite Hv in Hf. simpl in Hf.
    assert (ip_eq (e_ip e) ip = true) as Ht by (rewrite He; by apply ip_eq_true).
    by rewrite Ht in Hf.
  - destruct (_ && _); [done|]. eapply (IH (S k) Hip Hf i mac). by exists x.
Qed.

Lemma cache_lookup_holds l next ip mac : cache_ok l next -> length ip = 4%nat ->
  cache_lookup l ip = Some mac <-> exists i, holds l i ip mac.
Proof.
  intros C Hip. unfold cache_lookup. destruct (arp_find l 0 ip) as [j|] eqn:Hf; simpl.
  - apply arp_find_Some in Hf as (_ & m & e & Hj & Hv & He & Hm); [|apply C|done].
    rewrite Nat.sub_0_r in Hj. rewrite Hj. simpl. split.
    + intros [= <-]. by exists j, e.
    + intros (i & e' & Hi & Hv' & He' & <-).
      assert (i = j) as -> by (apply (ca_uniq _ _ C i j e' e Hi Hj); congruence).
      rewrite Hj in Hi. by injection Hi as ->.
  - split; [done|]. intros (i & Hh). by eapply arp_find_None in Hh.
Qed.

(** The address of the valid entry in slot [i]. *)
Definition slot_ip (l : list arp_cache_entry) (i : nat) : option (list Z) :=
  e ← l !! i; if e_valid e then Some (e_ip e) else None.

Lemma slot_ip_holds l i x : slot_ip l i = Some x <-> exists m, holds l i x m.
Proof.
  unfold slot_ip, holds. destruct (l !! i) as [e|]; simpl.
  - destruct (e_valid e) eqn:Hv.
    + split; [intros [= <-]; by exists (e_mac e), e|]. by intros (m & e' & [= <-] & _ & -> & _).
    + split; [done|]. intros (m & e' & [= <-] & ? & _). congruence.
  - split; [done|]. by intros (m & e' & ? & _).
Qed.

(** The address whose entry an update overwrites. *)
Definition evicted (l : list arp_cache_entry) (next : Z) (ip : list Z) : option (list Z) :=
  match cache_lookup l ip with Some _ => None | None => slot_ip l (Z.to_nat next) end.

Lemma update_known l next ip mac i e :
  cache_ok l next -> length ip = 4%nat -> l !! i = Some e -> e_valid e = true -> e_ip e = ip ->
  cache_update l next ip mac = (<[i := mk_entry ip mac true]> l, next).
Proof.
  intros C Hip Hi Hv He. unfold cache_update. destruct (arp_find l 0 ip) as [j|] eqn:Hf.
  - apply arp_find_Some in Hf as (_ & m & e' & Hj & Hv' & He' & _); [|apply C|done].
    rewrite Nat.sub_0_r in Hj. assert (i = j) as <- by (apply (ca_uniq _ _ C i j e e' Hi Hj); congruence).
    f_equal. rewrite Hi in Hj. injection Hj as <-. apply list_eq. intros k.
    destruct (decide (i = k)) as [<-|].
    + rewrite list_lookup_alter_eq, list_lookup_insert_eq, Hi by (by eapply lookup_lt_Some).
      simpl. by rewrite He, Hv.
    + by rewrite list_lookup_alter_ne, list_lookup_insert_ne.
  - exfalso. eapply (arp_find_None l ip 0 Hip Hf i (e_mac e)). by exists e.
Qed.

Lemma update_new l next ip mac :
  length ip = 4%nat -> cache_lookup l ip = None ->
  (forall i e, l !! i = Some e -> e_valid e = true -> length (e_ip e) = 4%nat) ->
  cache_update l next ip mac
  = (<[Z.to_nat next := mk_entry ip mac true]> l, Z.rem (next + 1) ARP_CACHE_SIZE).
Proof.
  intros Hip Hl Hok. unfold cache_update, cache_lookup in *. destruct (arp_find l 0 ip) as [j|] eqn:Hf; [|done].
  apply arp_find_Some in Hf as (_ & m & e & Hj & _); [|done|done]. rewrite Nat.sub_0_r in Hj.
  simpl in Hl. by rewrite Hj in Hl.
Qed.

(** Writing a valid entry for [ip] into slot [i], where [ip] had no other. *)
Lemma holds_insert l i ip mac j x m :
  (i < length l)%nat -> holds (<[i := mk_entry ip mac true]> l) j x m <->
  (j = i /\ x = ip /\ m = mac) \/ (j <> i /\ holds l j x m).
Proof.
  intros Hi. unfold holds. destruct (decide (j = i)) as [->|Hne].
  - rewrite list_lookup_insert_eq by done. split.
    + intros (e & [= <-] & _ & <- & <-). by left.
    + intros [(_ & -> & ->)|[? _]]; [by eexists|done].
  - rewrite list_lookup_insert_ne by done. split; [by right|]. intros [[? _]|[_ ?]]; done.
Qed.

Lemma cache_insert l next next' i ip mac :
  cache_ok l next -> 0 <= next' < 16 -> (i < 16)%nat -> length ip = 4%nat ->
  (forall j m, holds l j ip m -> j = i) ->
  cache_ok (<[i := mk_entry ip mac true]> l) next' /\
  forall x, length x = 4%nat -> cache_lookup (<[i := mk_entry ip mac true]> l) x =
    if decide (x = ip) then Some mac
    else if decide (slot_ip l i = Some x) then None else cache_lookup l x.
Proof.
  intros C Hn Hi Hip Hu. pose proof (ca_len _ _ C) as Hl.
  assert (cache_ok (<[i := mk_entry ip mac true]> l) next') as C'.
  { split; [by rewrite length_insert|done| |].
    - intros j e. rewrite list_lookup_insert. case_decide; [by intros [= <-]|apply C].
    - intros j k e e' Hj Hk Hv Hv' He.
      assert (holds (<[i := mk_entry ip mac true]> l) j (e_ip e) (e_mac e)) as Hhj by (by exists e).
      assert (holds (<[i := mk_entry ip mac true]> l) k (e_ip e') (e_mac e')) as Hhk by (by exists e').
      rewrite holds_insert in Hhj, Hhk by lia.
      destruct Hhj as [(-> & ? & _)|[Hji Hhj]], Hhk as [(-> & ? & _)|[Hki Hhk]]; [done| | |].
      + symmetry. apply (Hu k (e_mac e')). congruence.
      + apply (Hu j (e_mac e)). congruence.
      + destruct Hhj as (x & Hx & ? & ? & _), Hhk as (y & Hy & ? & ? & _).
        apply (ca_uniq _ _ C j k x y Hx Hy); congruence. }
  split; [done|]. intros x Hx. apply option_eq. intros m.
  rewrite (cache_lookup_holds _ next') by done. setoid_rewrite holds_insert; [|lia].
  case_decide as Hxi; [subst x|].
  - split; [intros (j & [(_ & _ & ->)|[Hne Hj]]); [done|]|intros [= <-]; exists i; by left].
    by apply Hu in Hj.
  - case_decide as Hs.
    + apply slot_ip_holds in Hs as (m' & e & He & Hv & Hei & _). split; [|done].
      intros (j & [(_ & ? & _)|[Hne (e' & Hj & Hv' & He' & _)]]); [done|].
      exfalso. apply Hne, (ca_uniq _ _ C j i e' e); congruence.
    + rewrite (cache_lookup_holds _ next) by done. split.
      * intros (j & [(_ & ? & _)|[_ Hj]]); [done|]. by exists j.
      * intros (j & Hj). exists j. right. split; [|done]. intros ->. apply Hs, slot_ip_holds. by exists m.
Qed.

Lemma cache_update_ok l next ip mac :
  cache_ok l next -> length ip = 4%nat ->
  cache_ok (cache_update l next ip mac).1 (cache_update l next ip mac).2 /\
  forall x, length x = 4%nat -> cache_lookup (cache_update l next ip mac).1 x =
    if decide (x = ip) then Some mac
    else if decide (evicted l next ip = Some x) then None else cache_lookup l x.
Proof.
  intros C Hip. pose proof (ca_next _ _ C) as Hn. unfold evicted.
  destruct (cache_lookup l ip) as [m|] eqn:Hc.
  - apply (cache_lookup_holds _ next) in Hc as (i & e & Hi & Hv & He & _); [|done|done].
    pose proof (lookup_lt_Some _ _ _ Hi) as Hlt. rewrite (ca_len _ _ C) in Hlt.
    rewrite (update_known l next ip mac i e) by done. simpl.
    destruct (cache_insert l next next i ip mac C Hn Hlt Hip) as [C' Hl].
    { intros j m' (e' & Hj & Hv' & He' & _). apply (ca_uniq _ _ C j i e' e); congruence. }
    split; [done|]. intros x Hx. rewrite (Hl x Hx). case_decide; [done|].
    rewrite decide_False; [done|]. unfold slot_ip. rewrite Hi. simpl. rewrite Hv. congruence.
  - rewrite update_new; [|done|done|apply C]. simpl. apply (cache_insert l next); [done| |lia|done|].
    + unfold ARP_CACHE_SIZE. rewrite Z.rem_mod_nonneg by lia. zlia.
    + intros j m Hj. assert (cache_lookup l ip = Some m) as Hm
        by (apply (cache_lookup_holds _ next); eauto). congruence.
Qed.

(** *** The stack touches the device through its operations only *)

Section Device.
Context {A D : Type} `{KAlloc A} `{NetDriver D}.

(** What counting and transmitting keep, the stack keeps. *)
Variable Q : D -> Prop.
Hypothesis Q_count : forall d n, Q d -> Q (nd_count_rx d n).
Hypothesis Q_transmit : forall d b res d', nd_transmit d b = Some (res, d') -> Q d -> Q d'.

Definition keeps {X} (m : M (net A D) X) : Prop :=
  forall s v s', m s = Some (v, s') -> Q (n_dev s) -> Q (n_dev s').

Lemma keeps_ret {X} (v : X) : keeps (ret v).
Proof. by intros s v' s' [= _ <-]. Qed.

Lemma keeps_bind {X Y} (m : M (net A D) X) (k : X -> M (net A D) Y) :
  keeps m -> (forall v, keeps (k v)) -> keeps (bind m k).
Proof. intros Hm Hk s v s' (x & s1 & E1 & E2)%bind_inv Hq. eapply Hk, Hm; eauto. Qed.

Lemma keeps_lift {X} (o : option X) : keeps (lift o).
Proof. intros s v s'. unfold lift. destruct o; [|done]. by intros [= _ <-]. Qed.

Lemma keeps_get : keeps get.
Proof. by intros s v s' [= _ <-]. Qed.

Lemma keeps_alloc n : keeps (alloc_buf n).
Proof. intros s v s'. unfold alloc_buf. destruct (netbuf_alloc _ _). by intros [= _ <-]. Qed.

Lemma keeps_modify f : (forall s, Q (n_dev s) -> Q (n_dev (f s))) -> keeps (modify f).
Proof. intros Hf s v s' [= _ <-]. apply Hf. Qed.

Lemma keeps_transmit b : keeps (transmit b).
Proof.
  intros s v s'. unfold transmit. destruct (nd_transmit (n_dev s) b) as [[res d]|] eqn:E; [|done].
  intros [= _ <-]. by apply (Q_transmit _ _ _ _ E).
Qed.

Local Ltac keep :=
  repeat first
    [ apply keeps_ret | apply keeps_lift | apply keeps_get | apply keeps_alloc | apply keeps_transmit
    | apply keeps_modify; intros s' Hq; exact Hq
    | apply keeps_bind; [|intros ?] | progress case_match ].

Lemma keeps_ethernet_tx mac ty b : keeps (ethernet_tx mac ty b).
Proof. unfold ethernet_tx. keep. Qed.

Lemma keeps_ip_tx dst proto b : keeps (ip_tx dst proto b).
Proof. unfold ip_tx, free_buf, arp_cache_lookup. keep; apply keeps_ethernet_tx. Qed.

Lemma keeps_arp_rx b : keeps (arp_rx b).
Proof.
  unfold arp_rx, arp_cache_update, arp_send_reply, free_buf. keep; apply keeps_ethernet_tx.
Qed.

Lemma keeps_ip_rx b : keeps (ip_rx b).
Proof.
  unfold ip_rx, icmp_rx, icmp_echo_reply, udp_rx, free_buf. keep; apply keeps_ip_tx.
Qed.

Lemma keeps_netdev_rx b : keeps (netdev_rx b).
Proof.
  unfold netdev_rx, ethernet_rx. apply keeps_bind.
  { apply keeps_modify. intros s. apply Q_count. }
  intros _. keep; (apply keeps_ip_rx || apply keeps_arp_rx).
Qed.

End Device.
End NetFacts.

(** ** The theorems of the network stack *)

Module NetProps.
Import Net NetFacts.

(** the internet checksum protects a message: whatever the message, storing
    its checksum in a zeroed 16-bit field at an even offset makes the receiver's
    check pass, and changing any single byte of a message that passes makes it
    fail (for messages of up to 131072 bytes; the carry loop ends after two
    rounds). *)
Theorem ip_checksum_protects a b x y m m' rest :
  Nat.Even (length a) -> Forall is_byte a -> Forall is_byte b ->
  Z.of_nat (length a + 2 + length b) <= 131072 ->
  Forall is_byte (m ++ x :: m') -> is_byte y -> x <> y ->
  Z.of_nat (length (m ++ x :: m')) <= 131072 ->
  (exists c, ip_checksum ((a ++ [0; 0] ++ b) ++ rest) (Z.of_nat (length (a ++ [0; 0] ++ b))) = Some c /\
     ip_checksum ((a ++ le_bytes 2 c ++ b) ++ rest) (Z.of_nat (length (a ++ le_bytes 2 c ++ b))) = Some 0) /\
  (ip_checksum ((m ++ x :: m') ++ rest) (Z.of_nat (length (m ++ x :: m'))) = Some 0 ->
   ip_checksum ((m ++ y :: m') ++ rest) (Z.of_nat (length (m ++ y :: m'))) <> Some 0).
Proof.
  intros He Ha Hb Hl Hm Hy Hne Hl2. split; [|by apply ip_checksum_change].
  destruct (ip_checksum_store a b rest He Ha Hb Hl) as (c & ? & _ & ?). by exists c.
Qed.

Section Props.
Context `{KL : KAllocLaws A} `{NetDriver D}.

Abbreviation st := (net A D).

(** C17: a datagram survives the whole stack: the frame that socket_sendto hands
    to the driver, received again with any padding behind it, is accepted by
    the Ethernet, IP and UDP layers and delivered to the socket bound to the
    destination port with exactly the bytes, the source address and the source
    port of the sender; and the send path gives back every buffer it took
    except the frame, which is the driver's. *)
Theorem udp_send_receive (s : st) lv n fd sock dp mac data rest :
  ka_live (n_alloc s) lv n -> 8 <= n -> length mac = 6%nat -> length (hwaddr s) = 6%nat ->
  0 <= bound_port sock < 65536 -> 0 <= dp < 65536 -> (0 < length data <= 1500)%nat ->
  0 <= ip_id_counter s < 65536 -> cache_lookup (arp_cache s) our_ip = Some mac ->
  lookup_socket (n_sockets s) fd = Some sock ->
  let len := Z.of_nat (length data) in
  exists p q frame a',
    socket_sendto true fd (Some (data ++ rest)) len our_ip dp s
      = match handed s p q frame a' (u16 (ip_id_counter s + 1)) with
        | Some (res, s') => Some (if res <? 0 then -1 else len, s')
        | None => None
        end /\
    ka_live a' (add_pages lv [p; q]) (n - 2) /\ owned lv [p; q] /\
    forall s2 p2 q2 tot pad r t, Z.of_nat (length (frame ++ pad)) < 65536 ->
      socket_deliver_udp (n_sockets s2) dp data len our_ip (bound_port sock) = Some (r, t) ->
      exists buf s3, netdev_rx (mk_netbuf p2 q2 (frame ++ pad) (Z.of_nat (length (frame ++ pad))) tot) (s2 : st)
        = Some (0, buf, s3) /\ n_sockets s3 = t.
Proof.
  intros Ha Hn Hm Hh Hsp Hdp Hl Hid Hc Hs len.
  destruct (sendto_ok s lv n fd sock our_ip dp mac data rest) as (p & q & a' & c & He & Hcr & Hcv & Ha' & Ho);
    try done; [repeat (constructor; [unfold is_byte; lia|]); constructor|].
  fold len in He, Hcv. eexists p, q, _, a'. split; [exact He|]. split; [done|]. split; [done|].
  intros s2 p2 q2 tot pad r t Hlen Hdel. unfold eth_frame in Hlen |- *.
  rewrite <- !app_assoc in Hlen |- *. fold (eth_frame mac (hwaddr s) ETH_TYPE_IPV4
    (ip_header (ip_id_counter s) (28 + len) IP_PROTO_UDP c our_ip ++
     udp_header (bound_port sock) dp (8 + len) ++ data ++ pad)) in Hlen |- *.
  destruct (udp_frame_ok p2 q2 tot mac (hwaddr s) 0 (be16 (ip_id_counter s) ++ [0x40; 0]) 64 (le_bytes 2 c) our_ip
    (bound_port sock) dp data pad s2 r t) as [buf E]; try done; [lia|]. eexists buf, _. by split; [exact E|].
Qed.

(** a ping is answered: an echo request to our address with valid IP and
    ICMP checksums is answered by one frame to the sender's cached hardware
    address, whose IP header has a valid checksum and whose ICMP message is an
    echo reply with the request's identifier, sequence number and data and a
    valid checksum; every buffer other than that frame is given back. *)
Theorem ping_answered (s : st) lv n p q dst src tos idf ttl cs sip code ics body pad tot mac :
  ka_live (n_alloc s) lv n -> 6 <= n -> length mac = 6%nat -> length (hwaddr s) = 6%nat ->
  length dst = 6%nat -> length src = 6%nat -> length idf = 4%nat -> length cs = 2%nat ->
  length sip = 4%nat -> Forall is_byte sip -> length ics = 2%nat -> Forall is_byte body ->
  (4 <= length body <= 3000)%nat -> 0 <= ip_id_counter s < 65536 ->
  cache_lookup (arp_cache s) sip = Some mac ->
  let len := 4 + Z.of_nat (length body) in
  let icmp := [ICMP_TYPE_ECHO_REQUEST; code] ++ ics ++ body in
  let ip := ip_hdr tos (20 + len) idf ttl IP_PROTO_ICMP cs sip our_ip in
  let frame := eth_frame dst src ETH_TYPE_IPV4 (ip ++ icmp ++ pad) in
  Z.of_nat (length frame) < 65536 -> ip_checksum (ip ++ icmp ++ pad) 20 = Some 0 ->
  ip_checksum (icmp ++ pad) len = Some 0 ->
  exists p' q' a' c c' buf s1,
    netdev_rx (mk_netbuf p q frame (Z.of_nat (length frame)) tot) s
      = match handed s1 p' q' (eth_frame mac (hwaddr s) ETH_TYPE_IPV4
          (ip_header (ip_id_counter s) (20 + len) IP_PROTO_ICMP c sip ++
           [ICMP_TYPE_ECHO_REPLY; 0] ++ le_bytes 2 c' ++ body)) a' (u16 (ip_id_counter s + 1)) with
        | Some (r, s') => Some (if r <? 0 then -1 else 0, buf, s')
        | None => None
        end /\
    n_dev s1 = nd_count_rx (n_dev s) (Z.of_nat (length frame)) /\ n_sockets s1 = n_sockets s /\ arp_cache s1 = arp_cache s /\
    ip_checksum (ip_header (ip_id_counter s) (20 + len) IP_PROTO_ICMP c sip) 20 = Some 0 /\
    ip_checksum ([ICMP_TYPE_ECHO_REPLY; 0] ++ le_bytes 2 c' ++ body) len = Some 0 /\
    ka_live a' (add_pages lv [p'; q']) (n - 2) /\ owned lv [p'; q'].
Proof.
  intros Ha Hn Hm Hh Hd Hsr Hidf Hcs Hsip Hsb Hics Hb Hl Hid Hc len icmp ip frame Hfl Hck Hick.
  unfold frame. rewrite netdev_rx_frame by done.
  change (ETH_TYPE_IPV4 =? ETH_TYPE_IPV4) with true. cbv iota.
  set (buf := mk_netbuf _ _ _ _ _). set (s1 := set_dev _ _).
  assert (hwaddr s1 = hwaddr s) as Hw by apply nd_hwaddr_count. rewrite <- Hw in Hh |- *.
  assert (24 <= nb_len buf) as Hb28.
  { unfold buf, frame, eth_frame. cbn [nb_len]. rewrite !length_app, Hd, Hsr.
    unfold ip, ip_hdr, icmp. rewrite !length_app, Hidf, Hcs, Hsip, Hics. simpl. lia. }
  rewrite (ip_rx_accepts tos (20 + len) idf ttl IP_PROTO_ICMP cs sip (icmp ++ pad));
    [|done|done|done|done|lia|lia|done].
  change (ip_dispatch IP_PROTO_ICMP) with (@icmp_rx A D _ _). rewrite (u16_small (20 + len - 20)) by lia.
  unfold icmp_rx, sizeof_icmp_header. cbn [nb_len nb_data]. replace (20 + len - 20) with len by lia.
  rewrite (proj2 (Z.ltb_ge len 8)) by lia. rewrite (bind_lift _ _ _ _ Hick).
  change (negb (0 =? 0)) with false. cbv iota.
  assert (fetch8 (icmp ++ pad) 0 = Some 8) as F0.
  { unfold fetch8. rewrite fetch_app; [done|lia|lia|]. unfold icmp. simpl. lia. }
  rewrite (bind_lift _ _ _ _ F0). change (8 =? ICMP_TYPE_ECHO_REQUEST) with true. cbv iota.
  destruct (icmp_echo_ok s1 lv n (nb_data buf) sip mac code ics body pad)
    as (p' & q' & a' & c & c' & He & Hcv & Hcv' & Ha' & Ho); try done; [|lia|].
  { by apply (ip_hdr_src tos (20 + len) idf ttl IP_PROTO_ICMP cs). }
  exists p', q', a', c, c', buf, s1. fold len in He, Hcv, Hcv'.
  change ((([8; code] ++ ics ++ body)) ++ pad) with (icmp ++ pad) in He. rewrite He.
  split; [done|]. repeat (split; [done|]). split; [|done].
  specialize (Hcv []). by rewrite app_nil_r in Hcv.
Qed.

(** an ARP request for our address is answered with our hardware address by
    a unicast reply to the asker, and the asker's address is in the cache
    afterwards; every buffer other than the reply frame is given back. *)
Theorem arp_request_answered (s : st) lv n p q dst src smac sip tmac pad tot :
  ka_live (n_alloc s) lv n -> 4 <= n -> length (hwaddr s) = 6%nat -> length dst = 6%nat ->
  length src = 6%nat -> length smac = 6%nat -> length sip = 4%nat -> length tmac = 6%nat ->
  cache_ok (arp_cache s) (arp_cache_next s) ->
  let frame := eth_frame dst src ETH_TYPE_ARP (arp_packet ARP_OP_REQUEST smac sip tmac our_ip ++ pad) in
  Z.of_nat (length frame) < 65536 ->
  exists p' q' a' buf s1,
    netdev_rx (mk_netbuf p q frame (Z.of_nat (length frame)) tot) s
      = match handed s1 p' q' (eth_frame smac (hwaddr s) ETH_TYPE_ARP
          (arp_packet ARP_OP_REPLY (hwaddr s) our_ip smac sip)) a' (ip_id_counter s) with
        | Some (r, s') => Some (if r <? 0 then -1 else 0, buf, s')
        | None => None
        end /\
    n_dev s1 = nd_count_rx (n_dev s) (Z.of_nat (length frame)) /\ n_sockets s1 = n_sockets s /\
    cache_ok (arp_cache s1) (arp_cache_next s1) /\ cache_lookup (arp_cache s1) sip = Some smac /\
    ka_live a' (add_pages lv [p'; q']) (n - 2) /\ owned lv [p'; q'].
Proof.
  intros Ha Hn Hh Hd Hsr Hsm Hsip Htm C frame Hfl. unfold frame. rewrite netdev_rx_frame by done.
  change (ETH_TYPE_ARP =? ETH_TYPE_IPV4) with false. change (ETH_TYPE_ARP =? ETH_TYPE_ARP) with true. cbv iota.
  set (buf := mk_netbuf _ _ _ _ _). set (s0 := set_dev _ _).
  assert (hwaddr s0 = hwaddr s) as Hw by apply nd_hwaddr_count. rewrite <- Hw in Hh |- *.
  assert (28 <= nb_len buf) as Hbl.
  { unfold buf, frame, eth_frame, arp_packet. cbn [nb_len]. rewrite !length_app, Hd, Hsr, Hsm, Hsip, Htm.
    simpl. lia. }
  unfold arp_rx, sizeof_arp_header. rewrite (proj2 (Z.ltb_ge _ 28)) by lia.
  assert (length (arp_packet ARP_OP_REQUEST smac sip tmac our_ip) = 28%nat) as Hal
    by (unfold arp_packet; by rewrite !length_app, Hsm, Hsip, Htm).
  assert (forall off k l, 0 <= off -> 0 <= k -> off + k <= 28 ->
    take (Z.to_nat k) (drop (Z.to_nat off) (arp_packet ARP_OP_REQUEST smac sip tmac our_ip)) = l ->
    fetch (nb_data buf) off k = Some l) as Hf.
  { intros off k l Ho Hk Hok <-. unfold buf. cbn [nb_data]. by apply fetch_app; rewrite ?Hal. }
  destruct (list6 _ Hsm) as (m0 & m1 & m2 & m3 & m4 & m5 & ->).
  destruct (list6 _ Htm) as (t0 & t1 & t2 & t3 & t4 & t5 & ->).
  destruct (list4 _ Hsip) as (i0 & i1 & i2 & i3 & ->).
  assert (fetch16 (nb_data buf) 0 = Some 256) as F0 by (unfold fetch16; by rewrite (Hf 0 2 [0; 1])).
  assert (fetch16 (nb_data buf) 2 = Some 8) as F2 by (unfold fetch16; by rewrite (Hf 2 2 [8; 0])).
  assert (fetch16 (nb_data buf) 6 = Some 256) as F6 by (unfold fetch16; by rewrite (Hf 6 2 [0; 1])).
  rewrite (bind_lift _ _ _ _ F0). change (negb (ntohs 256 =? ARP_HW_ETHERNET)) with false. cbv iota.
  rewrite (bind_lift _ _ _ _ F2). change (negb (ntohs 8 =? ARP_PRO_IPV4)) with false. cbv iota.
  rewrite (bind_lift _ _ _ _ (Hf 8 6 [m0; m1; m2; m3; m4; m5] ltac:(lia) ltac:(lia) ltac:(lia) eq_refl)).
  rewrite (bind_lift _ _ _ _ (Hf 14 4 [i0; i1; i2; i3] ltac:(lia) ltac:(lia) ltac:(lia) eq_refl)).
  unfold arp_cache_update, bind at 1, modify. set (s1 := set_cache _ _).
  rewrite (bind_lift _ _ _ _ F6). change (ntohs 256 =? ARP_OP_REQUEST) with true. cbv iota.
  rewrite (bind_lift _ _ _ _ (Hf 24 4 our_ip ltac:(lia) ltac:(lia) ltac:(lia) eq_refl)).
  change (is_our_ip our_ip) with true. cbv iota.
  destruct (cache_update_ok (arp_cache s) (arp_cache_next s) [i0; i1; i2; i3] [m0; m1; m2; m3; m4; m5] C Hsip)
    as [C' Hlk].
  destruct (arp_reply_ok s1 lv n [m0; m1; m2; m3; m4; m5] [i0; i1; i2; i3]) as (p' & q' & a' & He & Ha' & Ho);
    [done..|].
  exists p', q', a', buf, s1. rewrite He. split; [done|]. split; [done|]. split; [done|]. split; [done|].
  split; [|done]. change (arp_cache s1) with (cache_update (arp_cache s) (arp_cache_next s) [i0; i1; i2; i3]
    [m0; m1; m2; m3; m4; m5]).1. rewrite Hlk by done. by rewrite decide_True.
Qed.

(** ip_rx believes the length field of the header: an ICMP packet with a
    valid header checksum whose total length exceeds what was received makes the
    receiver read outside the buffer. *)
Theorem ip_rx_trusts_length (s : st) p q tos total idf ttl cs sip payload tot :
  length idf = 4%nat -> length cs = 2%nat -> length sip = 4%nat -> 28 <= total < 65536 ->
  20 + Z.of_nat (length payload) < total ->
  let packet := ip_hdr tos total idf ttl IP_PROTO_ICMP cs sip our_ip ++ payload in
  ip_checksum packet 20 = Some 0 ->
  ip_rx (mk_netbuf p q packet (Z.of_nat (length packet)) tot) s = None.
Proof.
  intros Hi Hc Hs Ht Hp packet Hck.
  assert (20 <= Z.of_nat (length packet)) as Hl.
  { unfold packet, ip_hdr. rewrite !length_app, Hi, Hc, Hs. simpl. lia. }
  rewrite (ip_rx_accepts tos total idf ttl IP_PROTO_ICMP cs sip payload); [|done..|lia|done|done].
  change (ip_dispatch IP_PROTO_ICMP) with (@icmp_rx A D _ _). rewrite (u16_small (total - 20)) by lia.
  unfold icmp_rx, sizeof_icmp_header. cbn [nb_len nb_data].
  rewrite (proj2 (Z.ltb_ge (total - 20) 8)) by lia.
  unfold bind at 1, lift. by rewrite ip_checksum_short by lia.
Qed.

End Props.

(** the ARP cache is a map from addresses to hardware addresses that forgets
    at most one binding per update: after an update the address is bound to the
    new hardware address, an address is forgotten only if it held the slot the
    round-robin pointer stood on and the update was for an unknown address, and
    every other lookup is unchanged; the cache stays well formed (16 slots, no
    address twice). *)
Theorem arp_cache_is_map l next ip mac :
  cache_ok l next -> length ip = 4%nat ->
  cache_ok (cache_update l next ip mac).1 (cache_update l next ip mac).2 /\
  forall x, length x = 4%nat -> cache_lookup (cache_update l next ip mac).1 x =
    if decide (x = ip) then Some mac
    else if decide (evicted l next ip = Some x) then None else cache_lookup l x.
Proof. apply cache_update_ok. Qed.

(** *** Instances: the kernel heap and a driver that records the frames *)

Import HeapProps Laws.

#[local] Instance boot_alloc : KAlloc mem := kheap_alloc kheap.
#[local] Instance boot_laws : KAllocLaws mem := kheap_laws kheap.

Definition mac0 : list Z := [0x52; 0x54; 0; 0x12; 0x34; 0x56].

Definition wire : Type := list (list Z).

#[local] Instance wire_driver : NetDriver wire := {
  nd_hwaddr _ := mac0;
  nd_count_rx w _ := w;
  nd_transmit w b := Some (0, w ++ [take (Z.to_nat (nb_len b)) (nb_data b)]);
  nd_hwaddr_count _ _ := eq_refl }.

Definition peer_mac : list Z := [0x52; 0x55; 10; 0; 2; 2].
Definition peer_ip : list Z := [10; 0; 2; 2].

Definition known : list arp_cache_entry :=
  [mk_entry our_ip mac0 true; mk_entry peer_ip peer_mac true] ++
  replicate 14 (mk_entry [0; 0; 0; 0] [0; 0; 0; 0; 0; 0] false).

Lemma known_inv i e :
  known !! i = Some e -> e_valid e = true ->
  (i = 0%nat /\ e = mk_entry our_ip mac0 true) \/ (i = 1%nat /\ e = mk_entry peer_ip peer_mac true).
Proof.
  intros Hi Hv. destruct i as [|[|i]]; [left; by injection Hi as <-|right; by injection Hi as <-|].
  change (replicate 14 (mk_entry [0; 0; 0; 0] [0; 0; 0; 0; 0; 0] false) !! i = Some e) in Hi.
  by apply lookup_replicate in Hi as [-> _].
Qed.

Lemma known_ok : cache_ok known 2.
Proof.
  split; [done|lia| |].
  - intros i e Hi Hv. by destruct (known_inv i e Hi Hv) as [[_ ->]|[_ ->]].
  - intros i j e e' Hi Hj Hv Hv' Heq.
    by destruct (known_inv i e Hi Hv) as [[-> ->]|[-> ->]], (known_inv j e' Hj Hv') as [[-> ->]|[-> ->]].
Qed.

(** A socket bound to port 7. *)
Definition sockets7 : list socket := (socket_bind (socket_create init_sockets 2).2 0 7).2.

Definition booted : net mem wire :=
  mk_net boot_mem [] known 2 0 sockets7.

Lemma ip_checksum_protects_witness :
  ip_checksum [0x45; 0; 0xba; 0xff] 4 = Some 0 /\ ip_checksum [0x45; 1; 0xba; 0xff] 4 <> Some 0.
Proof.
  destruct (ip_checksum_protects [] [] 0 1 [0x45] [0xba; 0xff] []) as [_ Hc];
    try (repeat (apply List.Forall_cons; [unfold is_byte; lia|]); apply List.Forall_nil);
    [by exists 0%nat|simpl; lia|unfold is_byte; lia|done|simpl; lia|].
  assert (ip_checksum [0x45; 0; 0xba; 0xff] 4 = Some 0) as H0 by (vm_compute; reflexivity).
  split; [exact H0|exact (Hc H0)].
Defined.

Lemma udp_send_receive_witness :
  exists p q frame a' res s',
    socket_sendto true 0 (Some [1; 2; 3]) 3 our_ip 7 booted
      = match handed booted p q frame a' 1 with
        | Some (res, s') => Some (if res <? 0 then -1 else 3, s')
        | None => None
        end /\
    handed booted p q frame a' 1 = Some (res, s') /\ n_dev s' = [frame] /\
    (Z.of_nat (length (frame ++ replicate 15 0)) < 65536 ->
     exists buf s3, netdev_rx (mk_netbuf 0x1000 0x2000 (frame ++ replicate 15 0)
       (Z.of_nat (length (frame ++ replicate 15 0))) 60) booted = Some (0, buf, s3)).
Proof.
  destruct (socket_deliver_udp (n_sockets booted) 7 [1; 2; 3] 3 our_ip 7) as [[r t]|] eqn:E;
    [|exfalso; revert E; vm_compute; discriminate].
  destruct (lookup_socket (n_sockets booted) 0) as [sock|] eqn:Es;
    [|exfalso; revert Es; vm_compute; discriminate].
  assert (bound_port sock = 7) as Hbp
    by (apply (f_equal (fun o => match o with Some x => bound_port x | None => 0 end)) in Es;
        rewrite <- Es; vm_compute; reflexivity).
  destruct (udp_send_receive booted ∅ 25600 0 sock 7 mac0 [1; 2; 3] [])
    as (p & q & frame & a' & Hs & _ & _ & Hr);
    [apply kheap_fresh|lia|done|done|lia|lia|simpl; lia|simpl; lia|done|done|].
  rewrite Hbp in Hr. exists p, q, frame, a', 0, (set_id 1 (set_dev [frame] (set_alloc a' booted))).
  split; [exact Hs|]. unfold handed. cbn [nd_transmit wire_driver nb_data nb_len].
  rewrite take_ge by lia. split; [reflexivity|]. split; [reflexivity|]. intros Hl.
  destruct (Hr booted 0x1000 0x2000 60 (replicate 15 0) r t Hl E) as (buf & s3 & Hrx & _).
  exists buf, s3. exact Hrx.
Defined.

(** An echo request for us with the data "hi" from 10.0.2.2. *)
Lemma ping_answered_witness :
  let ip := ip_hdr 0 30 [0; 1; 0; 0] 64 IP_PROTO_ICMP [98; 206] peer_ip our_ip in
  let frame := eth_frame mac0 peer_mac ETH_TYPE_IPV4
    (ip ++ ([8; 0] ++ [143; 148] ++ [0; 1; 0; 1; 104; 105]) ++ replicate 16 0) in
  exists p' q' a' c c' buf s1,
    netdev_rx (mk_netbuf 0x1000 0x2000 frame (Z.of_nat (length frame)) 60) booted
      = match handed s1 p' q' (eth_frame peer_mac mac0 ETH_TYPE_IPV4
          (ip_header 0 30 IP_PROTO_ICMP c peer_ip ++
           [0; 0] ++ le_bytes 2 c' ++ [0; 1; 0; 1; 104; 105])) a' 1 with
        | Some (r, s') => Some (if r <? 0 then -1 else 0, buf, s')
        | None => None
        end.
Proof.
  destruct (ping_answered booted ∅ 25600 0x1000 0x2000 mac0 peer_mac 0 [0; 1; 0; 0] 64 [98; 206] peer_ip
    0 [143; 148] [0; 1; 0; 1; 104; 105] (replicate 16 0) 60 peer_mac) as (p' & q' & a' & c & c' & buf & s1 & He & _);
    [apply kheap_fresh|lia|reflexivity..|
     repeat (apply List.Forall_cons; [unfold is_byte; lia|]); apply List.Forall_nil|reflexivity|
     repeat (apply List.Forall_cons; [unfold is_byte; lia|]); apply List.Forall_nil|
     simpl; lia|simpl; lia|reflexivity|simpl; lia|vm_compute; reflexivity|vm_compute; reflexivity|].
  exists p', q', a', c, c', buf, s1. exact He.
Defined.

Lemma arp_request_answered_witness :
  let frame := eth_frame (replicate 6 255) peer_mac ETH_TYPE_ARP
    (arp_packet ARP_OP_REQUEST peer_mac [10; 0; 2; 3] (replicate 6 0) our_ip ++ replicate 18 0) in
  exists p' q' a' buf s1,
    netdev_rx (mk_netbuf 0x1000 0x2000 frame (Z.of_nat (length frame)) 60) booted
      = match handed s1 p' q' (eth_frame peer_mac mac0 ETH_TYPE_ARP
          (arp_packet ARP_OP_REPLY mac0 our_ip peer_mac [10; 0; 2; 3])) a' 0 with
        | Some (r, s') => Some (if r <? 0 then -1 else 0, buf, s')
        | None => None
        end /\
    cache_lookup (arp_cache s1) [10; 0; 2; 3] = Some peer_mac.
Proof.
  destruct (arp_request_answered booted ∅ 25600 0x1000 0x2000 (replicate 6 255) peer_mac peer_mac [10; 0; 2; 3]
    (replicate 6 0) (replicate 18 0) 60) as (p' & q' & a' & buf & s1 & He & _ & _ & _ & Hc & _);
    [apply kheap_fresh|lia|done..|apply known_ok|simpl; lia|].
  exists p', q', a', buf, s1. split; [exact He|exact Hc].
Defined.

Lemma ip_rx_trusts_length_witness :
  ip_rx (mk_netbuf 0x1000 0x2000 (ip_hdr 0 1500 [0; 1; 0; 0] 64 IP_PROTO_ICMP [93; 16] peer_ip our_ip ++
    [8; 0; 0; 0]) 24 24) booted = None.
Proof.
  apply (ip_rx_trusts_length booted 0x1000 0x2000 0 1500 [0; 1; 0; 0] 64 [93; 16] peer_ip [8; 0; 0; 0] 24);
    try done; simpl; lia.
Defined.

Lemma arp_cache_is_map_witness :
  cache_lookup (cache_update known 2 [10; 0; 2; 3] [2; 2; 2; 2; 2; 2]).1 peer_ip = Some peer_mac.
Proof.
  destruct (arp_cache_is_map known 2 [10; 0; 2; 3] [2; 2; 2; 2; 2; 2] known_ok eq_refl) as [_ Hl].
  rewrite (Hl peer_ip eq_refl). reflexivity.
Defined.

End NetProps.
