(* ===== verification/Pci.v ===== *)
(** * The PCI bus: pci.c

    Configuration space is reached through two 32-bit ports, the class
    [PortIO32]; [PciLaws] is what configuration mechanism #1 promises of them.
    [PciHost] is the state of the kernel as the bus scan sees it: the ports, the
    device table, and the driver for the network card that the scan starts for
    each card it finds.  Messages on the console are left out. *)

From stdpp Require Import strings.
From S2P Require Import Prelude CLib.
#[local] Open Scope prog_scope.

Class PortIO32 (P : Type) := {
  p_outl : P -> Z -> Z -> P;
  p_insl : P -> Z -> Z * P
}.

Definition PCI_CONFIG_ADDRESS : Z := 0xcf8.
Definition PCI_CONFIG_DATA : Z := 0xcfc.
Definition PCI_VENDOR_ID : Z := 0x00.
Definition PCI_COMMAND : Z := 0x04.
Definition PCI_REVISION_ID : Z := 0x08.
Definition PCI_BAR0 : Z := 0x10.
Definition PCI_INTERRUPT_LINE : Z := 0x3c.
Definition PCI_INVALID_VENDOR : Z := 0xffff.
Definition PCI_MAX_BUS : Z := 256.
Definition PCI_MAX_DEVICE : Z := 32.
Definition PCI_MAX_DEVICES : Z := 16.
Definition RTL8139_VENDOR_ID : Z := 0x10ec.
Definition RTL8139_DEVICE_ID : Z := 0x8139.

Module Pci.

(** [struct pci_device] *)
Record pci_device := mk_pci {
  bus : Z; device : Z; function : Z;
  vendor_id : Z; device_id : Z; command : Z; status : Z;
  revision_id : Z; prog_if : Z; subclass : Z; class_code : Z;
  header_type : Z; interrupt_line : Z; interrupt_pin : Z;
  bar : list Z }.

Definition zero_device : pci_device := mk_pci 0 0 0 0 0 0 0 0 0 0 0 0 0 0 (replicate 6 0).

(** The bit fields of [union pci_config_address], low bits first. *)
Record pci_config_address := mk_address {
  a_offset : Z; a_function : Z; a_device : Z; a_bus : Z; a_reserved : Z; a_enable : Z }.

Definition raw (a : pci_config_address) : Z :=
  Z.lor (a_offset a) (Z.lor (Z.shiftl (a_function a) 8) (Z.lor (Z.shiftl (a_device a) 11)
    (Z.lor (Z.shiftl (a_bus a) 16) (Z.lor (Z.shiftl (a_reserved a) 24) (Z.shiftl (a_enable a) 31))))).

(** The address both accessors build; a bit field keeps the low bits. *)
Definition config_address (bus device function offset : Z) : pci_config_address :=
  mk_address (Z.land offset 0xfc) (function mod 2 ^ 3) (device mod 2 ^ 5) (bus mod 2 ^ 8) 0 1.

Definition pci_class_names : list string := [
  "Unclassified"; "Mass Storage"; "Network"; "Display"; "Multimedia"; "Memory"; "Bridge"; "Communication";
  "System Peripheral"; "Input Device"; "Docking Station"; "Processor"; "Serial Bus"; "Wireless";
  "Intelligent I/O"; "Satellite Communication"; "Encryption/Decryption"; "Data Acquisition"]%string.

Definition pci_get_class_name (class_code : Z) : string :=
  if class_code <? Z.of_nat (length pci_class_names)
  then default "Unknown"%string (pci_class_names !! Z.to_nat class_code) else "Unknown"%string.

(** *** Configuration space *)

Section Config.
Context {P : Type} `{PortIO32 P}.

Definition outl (port v : Z) : M P unit := modify (fun p => p_outl p port v).
Definition insl (port : Z) : M P Z := fun p => Some (p_insl p port).

Definition pci_config_read_32 (bus device function offset : Z) : M P Z :=
  outl PCI_CONFIG_ADDRESS (raw (config_address bus device function offset)) ;!
  insl PCI_CONFIG_DATA.

Definition pci_config_write_32 (bus device function offset value : Z) : M P unit :=
  outl PCI_CONFIG_ADDRESS (raw (config_address bus device function offset)) ;!
  outl PCI_CONFIG_DATA value.

(** [for (int i = 0; i < 6; i++)] with [n] base address registers left. *)
Fixpoint read_bars (n : nat) (i : Z) (bus device function : Z) : M P (list Z) :=
  match n with
  | O => ret []
  | S n' =>
    let! b := pci_config_read_32 bus device function (u8 (PCI_BAR0 + i * 4)) in
    let! bs := read_bars n' (i + 1) bus device function in
    ret (b :: bs)
  end.

(** [None] is the result -1, with the structure untouched. *)
Definition pci_read_device_info (bus device function : Z) : M P (option pci_device) :=
  let! vendor_device := pci_config_read_32 bus device function PCI_VENDOR_ID in
  if Z.land vendor_device 0xffff =? PCI_INVALID_VENDOR then ret None
  else
    let! cmd_status := pci_config_read_32 bus device function PCI_COMMAND in
    let! class_info := pci_config_read_32 bus device function PCI_REVISION_ID in
    let! misc_info := pci_config_read_32 bus device function 0x0c in
    let! interrupt_info := pci_config_read_32 bus device function PCI_INTERRUPT_LINE in
    let! bars := read_bars 6 0 bus device function in
    ret (Some (mk_pci bus device function
      (Z.land vendor_device 0xffff) (Z.land (Z.shiftr vendor_device 16) 0xffff)
      (Z.land cmd_status 0xffff) (Z.land (Z.shiftr cmd_status 16) 0xffff)
      (Z.land class_info 0xff) (Z.land (Z.shiftr class_info 8) 0xff)
      (Z.land (Z.shiftr class_info 16) 0xff) (Z.land (Z.shiftr class_info 24) 0xff)
      (Z.land (Z.shiftr misc_info 16) 0xff)
      (Z.land interrupt_info 0xff) (Z.land (Z.shiftr interrupt_info 8) 0xff)
      bars)).

End Config.

(** *** The device table *)

(** [pci_devices] and [pci_device_count] *)
Record pcidb := mk_db { pci_devices : list pci_device; pci_device_count : Z }.

Definition matches (vendor dev : Z) (d : pci_device) : bool :=
  (vendor_id d =? vendor) && (device_id d =? dev).

(** [n] entries left from [i] on; the result is the index, [None] the null
    pointer, and the outer [None] an access outside of the array. *)
Fixpoint find_device_loop (n : nat) (l : list pci_device) (i : Z) (vendor dev : Z) : option (option Z) :=
  match n with
  | O => Some None
  | S n' =>
    d ← l !! Z.to_nat i;
    if matches vendor dev d then Some (Some i) else find_device_loop n' l (i + 1) vendor dev
  end.

Definition pci_find_device (db : pcidb) (vendor dev : Z) : option (option Z) :=
  find_device_loop (Z.to_nat (pci_device_count db)) (pci_devices db) 0 vendor dev.

(** The devices copied out; their number is the result. *)
Fixpoint find_class_loop (n : nat) (l : list pci_device) (i : Z) (class max found : Z)
    : option (list pci_device) :=
  match n with
  | O => Some []
  | S n' =>
    if negb (found <? max) then Some []
    else
      d ← l !! Z.to_nat i;
      if class_code d =? class
      then r ← find_class_loop n' l (i + 1) class max (found + 1); Some (d :: r)
      else find_class_loop n' l (i + 1) class max found
  end.

Definition pci_find_devices_by_class (db : pcidb) (class max_devices : Z) : option (list pci_device) :=
  find_class_loop (Z.to_nat (pci_device_count db)) (pci_devices db) 0 class max_devices 0.

(** *** The bus scan *)

(** The scan runs in a kernel state [S]: the ports, the table and
    [rtl8139_init], which gets the index of the device in the table. *)
Class PciHost (S P : Type) := {
  ph_ports : S -> P; ph_set_ports : P -> S -> S;
  ph_db : S -> pcidb; ph_set_db : pcidb -> S -> S;
  ph_rtl8139_init : Z -> M S Z
}.

Section Scan.
Context {S P : Type} `{PortIO32 P} `{PciHost S P}.

Definition on_ports {A} (x : M P A) : M S A := fun s =>
  match x (ph_ports s) with Some (r, p) => Some (r, ph_set_ports p s) | None => None end.

(** The body of the two loops; a store outside of [pci_devices] is a fault. *)
Definition scan_slot (bus dev : Z) : M S unit :=
  let! info := on_ports (pci_read_device_info bus dev 0) in
  match info with
  | None => ret tt
  | Some d =>
    let! s := get in
    let n := pci_device_count (ph_db s) in
    if (n <? 0) || (PCI_MAX_DEVICES <=? n) then fault
    else
      modify (ph_set_db (mk_db (<[Z.to_nat n := d]> (pci_devices (ph_db s))) (n + 1))) ;!
      if (vendor_id d =? RTL8139_VENDOR_ID) && (device_id d =? RTL8139_DEVICE_ID)
      then let! _ := ph_rtl8139_init n in ret tt
      else ret tt
  end.

Definition pci_enumerate_devices : M S Z :=
  modify (fun s => ph_set_db (mk_db (pci_devices (ph_db s)) 0) s) ;!
  for_loop (Z.to_nat PCI_MAX_BUS) 0 (fun bus =>
    for_loop (Z.to_nat PCI_MAX_DEVICE) 0 (fun dev => scan_slot bus dev)) ;!
  let! s := get in
  ret (pci_device_count (ph_db s)).

End Scan.
End Pci.

(** ** Configuration mechanism #1 *)

(** An address with the enable bit, on a word border. *)
Definition is_config (a : Z) : Prop := 2 ^ 31 <= a < 2 ^ 31 + 2 ^ 24 /\ a mod 4 = 0.

(** [pci_cfg p a] is the configuration word at [a].  A read returns it and
    changes no word; a write changes words of the addressed function only. *)
Class PciLaws (P : Type) `{PortIO32 P} := {
  pci_cfg : P -> Z -> Z;
  pci_cfg_range : forall p a, 0 <= pci_cfg p a < 2 ^ 32;
  pci_cfg_read : forall p a, is_config a ->
    (p_insl (p_outl p PCI_CONFIG_ADDRESS a) PCI_CONFIG_DATA).1 = pci_cfg p a /\
    forall b, pci_cfg (p_insl (p_outl p PCI_CONFIG_ADDRESS a) PCI_CONFIG_DATA).2 b = pci_cfg p b;
  pci_cfg_write : forall p a v b, is_config a -> a / 256 <> b / 256 ->
    pci_cfg (p_outl (p_outl p PCI_CONFIG_ADDRESS a) PCI_CONFIG_DATA v) b = pci_cfg p b
}.

Class PciHostLaws (S P : Type) `{Pci.PciHost S P} := {
  ph_ports_set : forall p s, Pci.ph_ports (Pci.ph_set_ports p s) = p;
  ph_ports_db : forall d s, Pci.ph_ports (Pci.ph_set_db d s) = Pci.ph_ports s;
  ph_db_set : forall d s, Pci.ph_db (Pci.ph_set_db d s) = d;
  ph_db_ports : forall p s, Pci.ph_db (Pci.ph_set_ports p s) = Pci.ph_db s
}.

Module PciFacts.
Import Pci.

(** *** Addresses *)

Lemma land_fc off : 0 <= off < 256 -> Z.land off 0xfc = off - off mod 4.
Proof.
  intros Ho. assert (forall k, (k < 256)%nat ->
    Z.land (Z.of_nat k) 0xfc = Z.of_nat k - Z.of_nat k mod 4) as Hk.
  { intros k Hk. do 256 (destruct k as [|k]; [reflexivity|]). lia. }
  specialize (Hk (Z.to_nat off)). rewrite !Z2Nat.id in Hk by lia. apply Hk. lia.
Qed.

Lemma raw_sum bus dev fn off :
  0 <= bus < 256 -> 0 <= dev < 32 -> 0 <= fn < 8 -> 0 <= off < 256 ->
  raw (config_address bus dev fn off)
  = (off - off mod 4) + 2 ^ 8 * fn + 2 ^ 11 * dev + 2 ^ 16 * bus + 2 ^ 31.
Proof.
  intros Hb Hd Hf Ho. unfold raw, config_address. cbn [a_offset a_function a_device a_bus a_reserved a_enable].
  rewrite land_fc by done. rewrite (Z.mod_small fn), (Z.mod_small dev), (Z.mod_small bus) by lia.
  rewrite !Z.shiftl_mul_pow2 by lia.
  rewrite (Z.lor_0_l). rewrite (Z.lor_comm (bus * 2 ^ 16)), (lor_low (1 * 2 ^ 31) (bus * 2 ^ 16) 31) by (done || lia).
  assert (forall x y k, 0 <= k -> y mod 2 ^ k = 0 -> 0 <= x < 2 ^ k -> Z.lor x y = x + y) as L.
  { intros x y k Hk Hy Hx. rewrite Z.lor_comm, (lor_low y x k) by done. lia. }
  rewrite (L (dev * 2 ^ 11) _ 16) by (simpl; zlia).
  rewrite (L (fn * 2 ^ 8) _ 11) by (simpl; zlia).
  rewrite (L (off - off mod 4) _ 8) by (simpl; zlia). lia.
Qed.

Lemma raw_config bus dev fn off :
  0 <= bus < 256 -> 0 <= dev < 32 -> 0 <= fn < 8 -> 0 <= off < 256 ->
  is_config (raw (config_address bus dev fn off)).
Proof. intros. rewrite raw_sum by done. unfold is_config. zlia. Qed.

(** Words of different functions have different addresses above bit 8. *)
Lemma raw_function bus dev fn off bus' dev' fn' off' :
  0 <= bus < 256 -> 0 <= dev < 32 -> 0 <= fn < 8 -> 0 <= off < 256 ->
  0 <= bus' < 256 -> 0 <= dev' < 32 -> 0 <= fn' < 8 -> 0 <= off' < 256 ->
  raw (config_address bus dev fn off) / 256 = raw (config_address bus' dev' fn' off') / 256 ->
  bus = bus' /\ dev = dev' /\ fn = fn'.
Proof. intros. rewrite !raw_sum in * by done. zlia. Qed.

(** *** The configuration header *)

(** The 64 bytes of [struct pci_config_header] from the words of a function. *)
Definition hdr (w : Z -> Z) : list Z := concat (map (fun k => le_bytes 4 (w (4 * k))) (seqZ 0 16)).

(** The field of [n] bytes at [off]. *)
Definition field (h : list Z) (off n : nat) : Z := le_val (take n (drop off h)).

(** What a function 0 with the header [h] looks like in the device table. *)
Definition device_of (bus dev : Z) (h : list Z) : option pci_device :=
  if field h 0 2 =? PCI_INVALID_VENDOR then None
  else Some (mk_pci bus dev 0
    (field h 0x00 2) (field h 0x02 2) (field h 0x04 2) (field h 0x06 2)
    (field h 0x08 1) (field h 0x09 1) (field h 0x0a 1) (field h 0x0b 1)
    (field h 0x0e 1) (field h 0x3c 1) (field h 0x3d 1)
    [field h 0x10 4; field h 0x14 4; field h 0x18 4; field h 0x1c 4; field h 0x20 4; field h 0x24 4]).

Lemma field_lo w x : field (x mod 256 :: x / 256 mod 256 :: w) 0 2 = Z.land x 0xffff.
Proof. rewrite land_ffff. unfold field. simpl. zlia. Qed.

Lemma field_hi w x : field (x / 256 / 256 mod 256 :: x / 256 / 256 / 256 mod 256 :: w) 0 2
  = Z.land (Z.shiftr x 16) 0xffff.
Proof. rewrite land_ffff, Z.shiftr_div_pow2 by lia. unfold field. simpl. change (2 ^ 16) with 65536. zlia. Qed.

Lemma field_word w x : 0 <= x < 2 ^ 32 -> field (le_bytes 4 x ++ w) 0 4 = x.
Proof.
  intros Hx. unfold field. rewrite drop_0, take_app_length' by (by rewrite length_le_bytes).
  rewrite le_val_bytes. by rewrite Z.mod_small.
Qed.

Lemma field_byte w x j : 0 <= j -> field (Z.shiftr x j mod 256 :: w) 0 1 = Z.land (Z.shiftr x j) 0xff.
Proof. intros. rewrite land_ff. unfold field. simpl. lia. Qed.

Lemma field_drop h off n : field h off n = field (drop off h) 0 n.
Proof. reflexivity. Qed.

Lemma shiftr_bytes x k : Z.shiftr x (8 * Z.of_nat k) = Nat.iter k (fun y => y / 256) x.
Proof.
  induction k as [|k IH]; [apply Z.shiftr_0_r|]. change (Nat.iter (S k) _ x) with (Nat.iter k (fun y => y / 256) x / 256). rewrite <- IH.
  replace (8 * Z.of_nat (S k)) with (8 * Z.of_nat k + 8) by lia.
  by rewrite <- Z.shiftr_shiftr, (Z.shiftr_div_pow2 _ 8) by lia.
Qed.

(** Byte [k] of a word. *)
Lemma field_nth w x k : field (Nat.iter k (fun y => y / 256) x mod 256 :: w) 0 1
  = Z.land (Z.shiftr x (8 * Z.of_nat k)) 0xff.
Proof. rewrite shiftr_bytes, land_ff. unfold field. simpl. lia. Qed.

Lemma device_of_hdr bus dev w :
  (forall o, 0 <= w o < 2 ^ 32) ->
  device_of bus dev (hdr w) =
    if Z.land (w 0) 0xffff =? PCI_INVALID_VENDOR then None
    else Some (mk_pci bus dev 0
      (Z.land (w 0) 0xffff) (Z.land (Z.shiftr (w 0) 16) 0xffff)
      (Z.land (w 4) 0xffff) (Z.land (Z.shiftr (w 4) 16) 0xffff)
      (Z.land (w 8) 0xff) (Z.land (Z.shiftr (w 8) 8) 0xff)
      (Z.land (Z.shiftr (w 8) 16) 0xff) (Z.land (Z.shiftr (w 8) 24) 0xff)
      (Z.land (Z.shiftr (w 12) 16) 0xff)
      (Z.land (w 60) 0xff) (Z.land (Z.shiftr (w 60) 8) 0xff)
      [w 16; w 20; w 24; w 28; w 32; w 36]).
Proof.
  intros Hw. unfold device_of. rewrite !(field_drop (hdr w)).
  assert (field (drop 0 (hdr w)) 0 2 = Z.land (w 0) 0xffff) as -> by apply field_lo.
  case (Z.land (w 0) 0xffff =? PCI_INVALID_VENDOR); [done|].
  f_equal. f_equal.
  - apply field_hi.
  - apply field_lo.
  - apply field_hi.
  - etrans; [apply (field_nth (drop 9 (hdr w)) (w 8) 0)|reflexivity].
  - etrans; [apply (field_nth (drop 10 (hdr w)) (w 8) 1)|reflexivity].
  - etrans; [apply (field_nth (drop 11 (hdr w)) (w 8) 2)|reflexivity].
  - etrans; [apply (field_nth (drop 12 (hdr w)) (w 8) 3)|reflexivity].
  - etrans; [apply (field_nth (drop 15 (hdr w)) (w 12) 2)|reflexivity].
  - etrans; [apply (field_nth (drop 61 (hdr w)) (w 60) 0)|reflexivity].
  - etrans; [apply (field_nth (drop 62 (hdr w)) (w 60) 1)|reflexivity].
  - repeat (f_equal; [by apply field_word|]). f_equal. by apply field_word.
Qed.

(** *** Reading *)

Section Reads.
Context {P : Type} `{PciLaws P}.

(** One configuration read as the ports see it. *)
Definition cfg_step (p p' : P) : Prop :=
  exists a, is_config a /\ p' = (p_insl (p_outl p PCI_CONFIG_ADDRESS a) PCI_CONFIG_DATA).2.

Lemma reads_cfg p p' b : rtc cfg_step p p' -> pci_cfg p' b = pci_cfg p b.
Proof.
  induction 1 as [|p p1 p' (a & Ha & ->) _ IH]; [done|]. rewrite IH. by apply pci_cfg_read.
Qed.

(** The words of function 0 of a slot. *)
Definition words (p : P) (bus dev off : Z) : Z := pci_cfg p (raw (config_address bus dev 0 off)).

Definition present (p : P) (bus dev : Z) : option pci_device := device_of bus dev (hdr (words p bus dev)).

Lemma read32_ok p p0 bus dev off :
  rtc cfg_step p0 p -> 0 <= bus < 256 -> 0 <= dev < 32 -> 0 <= off < 256 ->
  exists p', pci_config_read_32 bus dev 0 off p = Some (words p0 bus dev off, p') /\ rtc cfg_step p0 p'.
Proof.
  intros Hr Hb Hd Ho. unfold pci_config_read_32, outl, insl, bind, modify.
  assert (is_config (raw (config_address bus dev 0 off))) as Hc by (apply raw_config; lia).
  destruct (pci_cfg_read p _ Hc) as [Hv _]. rewrite (reads_cfg _ _ _ Hr) in Hv.
  destruct (p_insl _ _) as [v p'] eqn:E. simpl in Hv. subst v. exists p'. split; [done|].
  apply (rtc_r _ _ _ Hr). exists (raw (config_address bus dev 0 off)). by rewrite E.
Qed.

Lemma read_info_ok p bus dev :
  0 <= bus < 256 -> 0 <= dev < 32 ->
  exists p', pci_read_device_info bus dev 0 p = Some (present p bus dev, p') /\ rtc cfg_step p p'.
Proof.
  intros Hb Hd. unfold pci_read_device_info, present.
  rewrite device_of_hdr by (intros; apply pci_cfg_range).
  destruct (read32_ok p p bus dev PCI_VENDOR_ID) as (p1 & E1 & R1); [done|done|done|done|].
  rewrite (bind_Some _ _ _ _ _ E1). change (words p bus dev PCI_VENDOR_ID) with (words p bus dev 0).
  destruct (_ =? PCI_INVALID_VENDOR); [by exists p1|].
  destruct (read32_ok p1 p bus dev PCI_COMMAND) as (p2 & E2 & R2); [done|done|done|done|].
  rewrite (bind_Some _ _ _ _ _ E2).
  destruct (read32_ok p2 p bus dev PCI_REVISION_ID) as (p3 & E3 & R3); [done|done|done|done|].
  rewrite (bind_Some _ _ _ _ _ E3).
  destruct (read32_ok p3 p bus dev 0x0c) as (p4 & E4 & R4); [done|done|done|done|].
  rewrite (bind_Some _ _ _ _ _ E4).
  destruct (read32_ok p4 p bus dev PCI_INTERRUPT_LINE) as (p5 & E5 & R5); [done|done|done|done|].
  rewrite (bind_Some _ _ _ _ _ E5).
  assert (forall n i q, rtc cfg_step p q -> 0 <= i -> i + Z.of_nat n <= 6 -> exists q',
    read_bars n i bus dev 0 q = Some (map (fun k => words p bus dev (16 + k * 4)) (seqZ i (Z.of_nat n)), q') /\
    rtc cfg_step p q') as Hbars.
  { induction n as [|n IH]; intros i q Rq Hi Hn; [by exists q|]. cbn [read_bars].
    rewrite u8_small by (unfold PCI_BAR0; lia).
    destruct (read32_ok q p bus dev (PCI_BAR0 + i * 4)) as (q1 & Eq1 & Rq1);
      [done|done|done|unfold PCI_BAR0; lia|].
    rewrite (bind_Some _ _ _ _ _ Eq1). destruct (IH (i + 1) q1) as (q2 & Eq2 & Rq2); [done|lia|lia|].
    rewrite (bind_Some _ _ _ _ _ Eq2). exists q2. split; [|done].
    rewrite (seqZ_cons i) by lia. replace (Z.pred (Z.of_nat (S n))) with (Z.of_nat n) by lia. done. }
  destruct (Hbars 6%nat 0 p5 R5) as (p6 & E6 & R6); [lia|lia|].
  rewrite (bind_Some _ _ _ _ _ E6). exists p6. split; [reflexivity|done].
Qed.

End Reads.

(** *** The scan *)

Definition is_rtl8139 (d : pci_device) : bool :=
  (vendor_id d =? RTL8139_VENDOR_ID) && (device_id d =? RTL8139_DEVICE_ID).

Lemma device_of_slot bus dev h d : device_of bus dev h = Some d -> Pci.bus d = bus /\ device d = dev.
Proof. unfold device_of. destruct (_ =? _); [done|]. by intros [= <-]. Qed.

Section Enumerate.
Context {S P : Type} `{PciLaws P} `{PciHostLaws S P}.

(** The devices in the slots below [k], in the order of the scan. *)
Definition found (p : P) (k : Z) : list pci_device :=
  omap (fun i => present p (i / 32) (i mod 32)) (seqZ 0 k).

Lemma found_succ p k : 0 <= k ->
  found p (k + 1) = found p k ++ match present p (k / 32) (k mod 32) with Some d => [d] | None => [] end.
Proof.
  intros Hk. unfold found. rewrite (seqZ_app 0 k 1), omap_app by lia. f_equal.
Qed.

Lemma found_le p k k' : 0 <= k <= k' -> (length (found p k) <= length (found p k'))%nat.
Proof.
  intros Hk. unfold found. replace k' with (k + (k' - k)) by lia.
  rewrite (seqZ_app 0 k (k' - k)), omap_app, length_app by lia. lia.
Qed.

Lemma present_ext p p' bus dev :
  (forall off, 0 <= off < 256 -> words p' bus dev off = words p bus dev off) ->
  present p' bus dev = present p bus dev.
Proof.
  intros Hw. unfold present, hdr. f_equal. f_equal. apply map_ext_in. intros k Hk.
  apply list_elem_of_In, elem_of_seqZ in Hk. f_equal. apply Hw. lia.
Qed.

(** [J l s]: the driver has been started for the devices [l]. *)
Variable J : list pci_device -> S -> Prop.
Hypothesis J_ports : forall l s p, J l s -> rtc cfg_step (ph_ports s) p -> J l (ph_set_ports p s).
Hypothesis J_db : forall l s d, J l s -> J l (ph_set_db d s).
Hypothesis J_init : forall l s i d, J l s -> pci_devices (ph_db s) !! i = Some d -> is_rtl8139 d = true ->
  exists r s', ph_rtl8139_init (Z.of_nat i) s = Some (r, s') /\ J (l ++ [d]) s' /\ ph_db s' = ph_db s /\
    forall bus dev off, 0 <= bus < 256 -> 0 <= dev < 32 -> 0 <= off < 256 ->
      (bus, dev) <> (Pci.bus d, device d) -> words (ph_ports s') bus dev off = words (ph_ports s) bus dev off.

Record scanned (p0 : P) (k : Z) (s : S) : Prop := {
  sc_len : length (pci_devices (ph_db s)) = 16%nat;
  sc_count : pci_device_count (ph_db s) = Z.of_nat (length (found p0 k));
  sc_found : take (length (found p0 k)) (pci_devices (ph_db s)) = found p0 k;
  sc_init : J (List.filter is_rtl8139 (found p0 k)) s;
  sc_rest : forall bus dev off, 0 <= bus < 256 -> 0 <= dev < 32 -> 0 <= off < 256 -> k <= 32 * bus + dev ->
    words (ph_ports s) bus dev off = words p0 bus dev off
}.

Lemma scan_slot_ok p0 bus dev s :
  0 <= bus < 256 -> 0 <= dev < 32 -> (length (found p0 (32 * bus + dev + 1)) <= 16)%nat ->
  scanned p0 (32 * bus + dev) s ->
  exists s', scan_slot bus dev s = Some (tt, s') /\ scanned p0 (32 * bus + dev + 1) s'.
Proof.
  intros Hb Hd Hn [Hl Hc Hf HJ Hw]. set (k := 32 * bus + dev) in *.
  rewrite found_succ in Hn by lia.
  replace (k / 32) with bus in Hn by (unfold k; zlia). replace (k mod 32) with dev in Hn by (unfold k; zlia).
  destruct (read_info_ok (ph_ports s) bus dev Hb Hd) as (p1 & E1 & R1).
  rewrite (present_ext p0) in E1 by (intros; apply Hw; lia).
  unfold scan_slot, on_ports, bind at 1. rewrite E1.
  pose proof (J_ports _ _ _ HJ R1) as HJ1. set (s1 := ph_set_ports p1 s) in *.
  assert (ph_db s1 = ph_db s) as Hdb by apply ph_db_ports.
  assert (forall b d o, words (ph_ports s1) b d o = words (ph_ports s) b d o) as Hw1.
  { intros. unfold words, s1. rewrite ph_ports_set. by apply reads_cfg. }
  destruct (present p0 bus dev) as [d|] eqn:Ed.
  2: { exists s1. split; [done|]. split; rewrite ?Hdb, ?found_succ by lia;
    replace (k / 32) with bus by (unfold k; zlia); replace (k mod 32) with dev by (unfold k; zlia);
    rewrite ?Ed, ?app_nil_r; try done. intros. rewrite Hw1. apply Hw; lia. }
  unfold bind at 1, get. rewrite Hdb, Hc. rewrite length_app in Hn. cbn [length] in Hn. set (f := found p0 k) in *.
  rewrite (proj2 (Z.ltb_ge _ 0)), (proj2 (Z.leb_gt _ _)) by (unfold PCI_MAX_DEVICES; lia). cbn [orb].
  unfold bind at 1, modify. rewrite Nat2Z.id. set (l' := <[length f := d]> (pci_devices (ph_db s))).
  set (s2 := ph_set_db _ s1). pose proof (J_db _ _ (mk_db l' (Z.of_nat (length f) + 1)) HJ1) as HJ2.
  fold s2 in HJ2.
  assert (ph_db s2 = mk_db l' (Z.of_nat (length f) + 1)) as Hdb2 by apply ph_db_set.
  assert (ph_ports s2 = ph_ports s1) as Hp2 by apply ph_ports_db.
  assert (take (length (f ++ [d])) l' = f ++ [d]) as Htk.
  { unfold l'. rewrite insert_take_drop by lia. rewrite Hf.
    change (f ++ d :: drop ?n ?x) with (f ++ [d] ++ drop n x). rewrite app_assoc. apply take_app_length. }
  assert (found p0 (k + 1) = f ++ [d]) as Hfs.
  { rewrite found_succ by lia. replace (k / 32) with bus by (unfold k; zlia).
    replace (k mod 32) with dev by (unfold k; zlia). by rewrite Ed. }
  assert (forall s', ph_db s' = ph_db s2 -> J (List.filter is_rtl8139 (f ++ [d])) s' ->
    (forall b d' o, 0 <= b < 256 -> 0 <= d' < 32 -> 0 <= o < 256 -> (b, d') <> (bus, dev) ->
      words (ph_ports s') b d' o = words (ph_ports s) b d' o) -> scanned p0 (k + 1) s') as Hdone.
  { intros s' Hs' HJ' Hw'. split; rewrite ?Hs', ?Hdb2, ?Hfs; cbn [pci_devices pci_device_count]; try done.
    - unfold l'. by rewrite length_insert.
    - rewrite length_app. cbn [length]. lia.
    - intros b d' o ???? . rewrite Hw' by (done || (intros [= -> ->]; unfold k in *; lia)). apply Hw; lia. }
  rewrite List.filter_app in Hdone. cbn [List.filter] in Hdone. fold (is_rtl8139 d).
  destruct (is_rtl8139 d) eqn:Er.
  - destruct (J_init _ s2 (length f) d HJ2) as (r & s3 & E3 & HJ3 & Hdb3 & Hw3); [|done|].
    { rewrite Hdb2. cbn [pci_devices]. unfold l'. apply list_lookup_insert_eq. lia. }
    rewrite (bind_Some _ _ _ _ _ E3). exists s3. split; [done|]. apply Hdone; [done|done|].
    intros b d' o ??? Hne. destruct (device_of_slot _ _ _ _ Ed) as [Hbd Hdd].
    rewrite Hw3 by (rewrite ?Hbd, ?Hdd; done). by rewrite Hp2, Hw1.
  - exists s2. split; [done|]. apply Hdone; [done|by rewrite app_nil_r|]. intros. by rewrite Hp2, Hw1.
Qed.

(** The scan of all slots. *)
Lemma enumerate_ok s :
  length (pci_devices (ph_db s)) = 16%nat -> J [] s ->
  (length (found (ph_ports s) 8192) <= 16)%nat ->
  exists s', pci_enumerate_devices s = Some (Z.of_nat (length (found (ph_ports s) 8192)), s') /\
    scanned (ph_ports s) 8192 s'.
Proof.
  intros Hl HJ Hn. set (p0 := ph_ports s) in *. unfold pci_enumerate_devices, bind at 1, modify.
  set (s0 := ph_set_db _ s). assert (ph_db s0 = mk_db (pci_devices (ph_db s)) 0) as Hdb by apply ph_db_set.
  assert (scanned p0 0 s0) as Hs0.
  { split; rewrite ?Hdb; try done; [by apply J_db|]. intros. unfold s0. by rewrite ph_ports_db. }
  destruct (for_loop_inv (fun b s => scanned p0 (32 * b) s)
    (fun bus => for_loop (Z.to_nat PCI_MAX_DEVICE) 0 (fun dev => scan_slot bus dev))
    (Z.to_nat PCI_MAX_BUS) 0 s0 Hs0) as (s1 & E1 & Hs1).
  { intros b s1 Hb Hs1'. destruct (for_loop_inv (fun d s => scanned p0 (32 * b + d) s)
      (fun dev => scan_slot b dev) (Z.to_nat PCI_MAX_DEVICE) 0 s1) as (s2 & E2 & Hs2).
    - by rewrite Z.add_0_r.
    - intros d s2 Hd Hs2'. rewrite Z.add_assoc. apply scan_slot_ok; [unfold PCI_MAX_BUS in Hb; lia|unfold PCI_MAX_DEVICE in Hd; lia| |done].
      etrans; [apply (found_le _ _ 8192)|done]. unfold PCI_MAX_BUS in Hb; unfold PCI_MAX_DEVICE in Hd; lia.
    - exists s2. split; [done|]. replace (32 * (b + 1)) with (32 * b + (0 + Z.of_nat (Z.to_nat PCI_MAX_DEVICE)));
        [done|unfold PCI_MAX_DEVICE; lia]. }
  rewrite (bind_Some _ _ _ _ _ E1). exists s1. unfold bind, get, ret. by rewrite (sc_count _ _ _ Hs1).
Qed.

End Enumerate.

(** The first device of a list with the vendor and the device number. *)
Fixpoint first_match (vendor dev : Z) (l : list pci_device) : option Z :=
  match l with
  | [] => None
  | d :: l => if matches vendor dev d then Some 0 else (fun i => i + 1) <$> first_match vendor dev l
  end.

Lemma find_device_loop_ok vendor dev : forall l before rest,
  find_device_loop (length l) (before ++ l ++ rest) (Z.of_nat (length before)) vendor dev
  = Some ((fun i => Z.of_nat (length before) + i) <$> first_match vendor dev l).
Proof.
  induction l as [|d l IH]; intros before rest; [done|]. cbn [length find_device_loop first_match].
  change ((d :: l) ++ rest) with (d :: l ++ rest). rewrite Nat2Z.id, list_lookup_middle by done. cbn [mbind option_bind].
  destruct (matches vendor dev d); [cbn; by rewrite Z.add_0_r|].
  specialize (IH (before ++ [d]) rest). rewrite <- app_assoc in IH. cbn [app] in IH |- *.
  rewrite length_app in IH. cbn [length] in IH. replace (Z.of_nat (length before) + 1) with (Z.of_nat (length before + 1)) by lia.
  rewrite IH. f_equal. destruct (first_match vendor dev l); cbn; [|done]. f_equal. lia.
Qed.

(** The search in a table whose used part is [l]. *)
Lemma find_device_ok db l vendor dev :
  pci_device_count db = Z.of_nat (length l) -> take (length l) (pci_devices db) = l ->
  pci_find_device db vendor dev = Some (first_match vendor dev l).
Proof.
  intros Hc Hl. unfold pci_find_device. rewrite Hc, Nat2Z.id, <- (take_drop (length l) (pci_devices db)), Hl.
  etrans; [exact (find_device_loop_ok vendor dev l [] _)|]. f_equal. by destruct (first_match vendor dev l).
Qed.

End PciFacts.

Module PciProps.
Import Pci PciFacts.

Section Props.
Context {S P : Type} `{PciLaws P} `{PciHostLaws S P}.

(** [started l s]: the network driver has been started for the devices [l].  The
    driver may write the configuration space of its own device. *)
Variable started : list pci_device -> S -> Prop.

Definition survives_scan : Prop :=
  (forall l s p, started l s -> rtc cfg_step (ph_ports s) p -> started l (ph_set_ports p s)) /\
  (forall l s d, started l s -> started l (ph_set_db d s)).

Definition driver_starts : Prop :=
  forall l s i d, started l s -> pci_devices (ph_db s) !! i = Some d -> is_rtl8139 d = true ->
  exists r s', ph_rtl8139_init (Z.of_nat i) s = Some (r, s') /\ started (l ++ [d]) s' /\ ph_db s' = ph_db s /\
    forall bus dev off, 0 <= bus < 256 -> 0 <= dev < 32 -> 0 <= off < 256 ->
      (bus, dev) <> (Pci.bus d, device d) -> words (ph_ports s') bus dev off = words (ph_ports s) bus dev off.

(** C15: the bus scan is complete: with at most 16 slots occupied on the 256
    buses of 32 slots, pci_enumerate_devices returns their number, the table
    lists function 0 of every occupied slot, once and in bus order, with the
    fields of its configuration header, the network driver has been started once
    for each RTL8139 and for no other device, and pci_find_device then finds the
    first device with a given vendor and device number. *)
Theorem pci_enumerate_finds s :
  survives_scan -> driver_starts -> length (pci_devices (ph_db s)) = 16%nat -> started [] s ->
  let l := found (ph_ports s) 8192 in
  (length l <= 16)%nat ->
  exists s', pci_enumerate_devices s = Some (Z.of_nat (length l), s') /\
    take (length l) (pci_devices (ph_db s')) = l /\ started (List.filter is_rtl8139 l) s' /\
    forall vendor dev, pci_find_device (ph_db s') vendor dev = Some (first_match vendor dev l).
Proof.
  intros [Hp Hd] Hi Hl Hs l Hn. destruct (enumerate_ok started Hp Hd Hi s Hl Hs Hn) as (s' & E & Hsc).
  exists s'. split; [done|]. split; [apply (sc_found _ _ _ _ Hsc)|]. split; [apply (sc_init _ _ _ _ Hsc)|].
  intros vendor dev. apply find_device_ok; [apply (sc_count _ _ _ _ Hsc)|apply (sc_found _ _ _ _ Hsc)].
Qed.

End Props.

(** *** Instance: a bridge and a network card *)

(** The address register and the configuration space. *)
Record sim_bus := mk_bus { sb_latch : Z; sb_config : Z -> Z }.

Definition sim_outl (p : sim_bus) (port v : Z) : sim_bus :=
  if port =? PCI_CONFIG_ADDRESS then mk_bus v (sb_config p)
  else if port =? PCI_CONFIG_DATA then
    mk_bus (sb_latch p) (fun a => if a =? sb_latch p then v else sb_config p a)
  else p.

Definition sim_insl (p : sim_bus) (port : Z) : Z * sim_bus :=
  (if port =? PCI_CONFIG_DATA then sb_config p (sb_latch p) mod 2 ^ 32 else 0, p).

#[local] Instance sim_ports32 : PortIO32 sim_bus := {| p_outl := sim_outl; p_insl := sim_insl |}.

#[local] Instance sim_laws : PciLaws sim_bus.
Proof.
  refine (Build_PciLaws sim_bus _ (fun p a => sb_config p a mod 2 ^ 32) _ _ _).
  - intros p a. apply Z.mod_pos_bound. lia.
  - intros p a _. done.
  - intros p a v b _ Hne. change ((if b =? a then v else sb_config p b) mod 2 ^ 32 = sb_config p b mod 2 ^ 32).
    by destruct (Z.eqb_spec b a) as [->|].
Defined.

(** Slot 0: a bridge; slot 3: the network card; nothing elsewhere. *)
Definition two_devices (a : Z) : Z :=
  let slot := (a - 2 ^ 31) / 2048 in
  let off := a mod 256 in
  if slot =? 0 then (if off =? 0 then 0x12378086 else if off =? 8 then 0x06000002 else 0)
  else if slot =? 3 then
    (if off =? 0 then 0x813910ec else if off =? 8 then 0x02000020 else if off =? 0x10 then 0xc001
     else if off =? 0x3c then 0x010b else 0)
  else 0xffffffff.

(** A machine that notes the devices for which the driver is started. *)
Record sim_host := mk_host { h_ports : sim_bus; h_db : pcidb; h_started : list Z }.

#[local] Instance sim_pci : PciHost sim_host sim_bus := {|
  ph_ports := h_ports; ph_set_ports p s := mk_host p (h_db s) (h_started s);
  ph_db := h_db; ph_set_db d s := mk_host (h_ports s) d (h_started s);
  ph_rtl8139_init i := fun s => Some (0, mk_host (h_ports s) (h_db s) (h_started s ++ [i])) |}.

#[local] Instance sim_pci_laws : PciHostLaws sim_host sim_bus.
Proof. split; done. Qed.

Definition sim_start : sim_host := mk_host (mk_bus 0 two_devices) (mk_db (replicate 16 zero_device) 0) [].

(** The slots with a device, decided on the first word of the header. *)
Definition occupied (i : Z) : bool :=
  negb (Z.land (two_devices (raw (config_address (i / 32) (i mod 32) 0 0)) mod 2 ^ 32) 0xffff =? PCI_INVALID_VENDOR).

Lemma occupied_other i : 4 <= i < 8192 -> occupied i = false.
Proof.
  intros Hi. unfold occupied. rewrite raw_sum by zlia. unfold two_devices.
  match goal with |- context [?a / 2048 =? 0] => replace (a / 2048) with i by zlia end.
  by rewrite (proj2 (Z.eqb_neq i 0)), (proj2 (Z.eqb_neq i 3)) by lia.
Qed.

Lemma filter_none {B} (f : B -> bool) l : (forall x, x ∈ l -> f x = false) -> List.filter f l = [].
Proof.
  induction l as [|x l IH]; intros Hf; [done|]. cbn [List.filter]. rewrite Hf by (by apply elem_of_cons; left).
  apply IH. intros y Hy. apply Hf. by apply elem_of_cons; right.
Qed.

Lemma found_occupied (p : sim_bus) : sb_config p = two_devices ->
  found p 8192 = omap (fun i => present p (i / 32) (i mod 32)) (List.filter occupied (seqZ 0 8192)).
Proof.
  intros Hp. unfold found. induction (seqZ 0 8192) as [|i l IH]; [done|]. cbn [omap list_omap List.filter].
  destruct (occupied i) eqn:E; cbn [omap list_omap]; rewrite IH; [done|].
  unfold present. rewrite device_of_hdr by (intros; apply pci_cfg_range). unfold words. cbn [pci_cfg sim_laws].
  rewrite Hp. unfold occupied in E. apply negb_false_iff in E. by rewrite E.
Qed.

Definition network_card : pci_device :=
  mk_pci 0 3 0 RTL8139_VENDOR_ID RTL8139_DEVICE_ID 0 0 32 0 0 2 0 11 1 [0xc001; 0; 0; 0; 0; 0].

Definition bridge : pci_device := mk_pci 0 0 0 0x8086 0x1237 0 0 2 0 0 6 0 0 0 [0; 0; 0; 0; 0; 0].

Lemma sim_found : found (mk_bus 0 two_devices) 8192 = [bridge; network_card].
Proof.
  rewrite found_occupied by done. replace 8192 with (4 + 8188) by lia. rewrite seqZ_app, List.filter_app by lia.
  rewrite (filter_none _ (seqZ (0 + 4) 8188)).
  - assert (List.filter occupied (seqZ 0 4) = [0; 3]) as -> by reflexivity. reflexivity.
  - intros i Hi%elem_of_seqZ. apply occupied_other. lia.
Qed.

Lemma pci_enumerate_finds_witness :
  exists s', pci_enumerate_devices sim_start = Some (2, s') /\ length (h_started s') = 1%nat /\
    pci_find_device (h_db s') RTL8139_VENDOR_ID RTL8139_DEVICE_ID = Some (Some 1).
Proof.
  destruct (pci_enumerate_finds (S := sim_host) (P := sim_bus) (fun l s => length (h_started s) = length l) sim_start)
    as (s' & E & _ & Hs & Hf).
  - by split.
  - intros l s i d Hs _ _. eexists 0, _. split; [reflexivity|]. split; [|done]. cbn. by rewrite !length_app, Hs.
  - reflexivity.
  - reflexivity.
  - cbn [ph_ports sim_pci h_ports sim_start]. rewrite sim_found. cbn. lia.
  - cbn [ph_ports sim_pci h_ports sim_start] in E, Hs, Hf. rewrite sim_found in E, Hs.
    exists s'. split; [exact E|]. split; [exact Hs|]. etrans; [apply Hf|]. rewrite sim_found. reflexivity.
Defined.

End PciProps.
