(* ===== verification/Netdev.v ===== *)
(** * Network devices: the registry of netdev.c

    The objects of type [struct netdev] are kept by address; the registry holds
    their addresses in the order of creation.  [nics P R] is the state below the
    network stack: the ports, the PCI table, the registry and the private state
    [R] of the drivers.  Function pointers are the constructors of an
    enumeration.  Messages on the console are left out. *)

From S2P Require Import Prelude CLib KAlloc Heap Terminal Inet Net Pci.
Import Str Inet Net Pci.
#[local] Open Scope prog_scope.

Definition NETDEV_NAME_MAX : Z := 32.
Definition NETDEV_STATE_DOWN : Z := 0.
Definition NETDEV_STATE_UP : Z := 1.
Definition MAX_NETDEVS : Z := 8.

(** [sizeof(struct netdev)] *)
Definition sizeof_netdev : Z := 120.

Module Netdev.

Record netdev_stats := mk_stats {
  rx_packets : Z; tx_packets : Z; rx_bytes : Z; tx_bytes : Z; rx_errors : Z; tx_errors : Z;
  rx_dropped : Z; tx_dropped : Z; rx_crc_errors : Z; rx_fifo_errors : Z; tx_fifo_errors : Z; collisions : Z }.

Definition zero_stats : netdev_stats := mk_stats 0 0 0 0 0 0 0 0 0 0 0 0.

(** The functions that a [struct netdev_ops] can hold. *)
Inductive netdev_fp :=
| fp_rtl8139_open | fp_rtl8139_close | fp_rtl8139_transmit | fp_rtl8139_set_rx_mode | fp_rtl8139_get_stats.

(** [None] is a null function pointer. *)
Record netdev_ops := mk_ops {
  op_open : option netdev_fp; op_close : option netdev_fp; op_transmit : option netdev_fp;
  op_set_rx_mode : option netdev_fp; op_get_stats : option netdev_fp }.

(** [pci_dev] is an index into [pci_devices], [None] is a null pointer. *)
Record netdev := mk_netdev {
  name : list Z; flags : Z; state : Z; pci_dev : option Z; iobase : Z; irq : Z; hwaddr : list Z;
  ops : option netdev_ops; driver_data : Z; stats : netdev_stats }.

Definition zero_netdev : netdev :=
  mk_netdev (replicate 32 0) 0 0 None 0 0 (replicate 6 0) None NULL zero_stats.

Record registry := mk_reg {
  netdevs : list Z; netdev_count : Z; eth_counter : Z; dev_objs : gmap Z netdev }.

Record nics (P R : Type) := mk_nics {
  nic_ports : P; nic_pci : pcidb; nic_reg : registry; nic_drv : R }.

Arguments mk_nics {P R}.
Arguments nic_ports {P R}.
Arguments nic_pci {P R}.
Arguments nic_reg {P R}.
Arguments nic_drv {P R}.

Definition set_state (v : Z) (d : netdev) : netdev :=
  mk_netdev (name d) (flags d) v (pci_dev d) (iobase d) (irq d) (hwaddr d) (ops d) (driver_data d) (stats d).

(** *** Names *)

Definition eth : list Z := [101; 116; 104; 0].

(** [itoa] leaves the digits at the end of its buffer, whatever it held. *)
Definition generate_device_name (eth_counter : Z) (dest template : list Z) : option (list Z * Z) :=
  c ← strncmp (Some template) (Some eth) 3;
  if c =? 0 then
    d ← strcpy dest template;
    '(text, loc) ← itoa (replicate 12 0) eth_counter;
    '(d, _) ← strcat d (drop (Z.to_nat loc) text);
    Some (d, s32 (eth_counter + 1))
  else
    d ← strncpy dest template (NETDEV_NAME_MAX - 1);
    d ← wr d (NETDEV_NAME_MAX - 1) 0;
    Some (d, eth_counter).

(** *** The table *)

Fixpoint by_name_loop (n : nat) (r : registry) (i : Z) (key : list Z) : option Z :=
  match n with
  | O => Some NULL
  | S n' =>
    p ← netdevs r !! Z.to_nat i;
    d ← dev_objs r !! p;
    c ← strncmp (Some (name d)) (Some key) NETDEV_NAME_MAX;
    if c =? 0 then Some p else by_name_loop n' r (i + 1) key
  end.

Definition netdev_get_by_name (r : registry) (key : list Z) : option Z :=
  by_name_loop (Z.to_nat (netdev_count r)) r 0 key.

Definition netdev_get_by_index (r : registry) (index : Z) : option Z :=
  if (index <? 0) || (netdev_count r <=? index) then Some NULL else netdevs r !! Z.to_nat index.

Definition netdev_get_count (r : registry) : Z := netdev_count r.

(** [for (int j = i; j < netdev_count - 1; j++)], [n] iterations left. *)
Fixpoint shift_loop (n : nat) (l : list Z) (j : Z) : option (list Z) :=
  match n with
  | O => Some l
  | S n' => p ← rd l (j + 1); shift_loop n' (<[Z.to_nat j := p]> l) (j + 1)
  end.

Fixpoint remove_loop (n : nat) (r : registry) (i dev : Z) : option registry :=
  match n with
  | O => Some r
  | S n' =>
    p ← netdevs r !! Z.to_nat i;
    if p =? dev then
      l ← shift_loop (Z.to_nat (netdev_count r - 1 - i)) (netdevs r) i;
      Some (mk_reg l (netdev_count r - 1) (eth_counter r) (dev_objs r))
    else remove_loop n' r (i + 1) dev
  end.

(** *** Access through a pointer; a pointer to no object is a fault *)

Section Access.
Context {P R : Type}.

Definition put_ports (p : P) (d : nics P R) : nics P R := mk_nics p (nic_pci d) (nic_reg d) (nic_drv d).

Definition put_reg (r : registry) (d : nics P R) : nics P R := mk_nics (nic_ports d) (nic_pci d) r (nic_drv d).

Definition put_drv (x : R) (d : nics P R) : nics P R := mk_nics (nic_ports d) (nic_pci d) (nic_reg d) x.

Definition get_netdev (p : Z) : M (nics P R) netdev := fun d =>
  match dev_objs (nic_reg d) !! p with Some x => Some (x, d) | None => None end.

Definition put_netdev (p : Z) (x : netdev) : M (nics P R) unit := modify (fun d => let r := nic_reg d in
  put_reg (mk_reg (netdevs r) (netdev_count r) (eth_counter r) (<[p := x]> (dev_objs r))) d).

Definition upd_netdev (p : Z) (f : netdev -> netdev) : M (nics P R) unit :=
  let! x := get_netdev p in put_netdev p (f x).

End Access.

Section Ops.
Context {A P R : Type} `{KAlloc A}.

Abbreviation st := (net A (nics P R)).
Abbreviation N := (M st).

Definition reg (s : st) : registry := nic_reg (n_dev s).

Definition set_reg (r : registry) (s : st) : st := set_dev (put_reg r (n_dev s)) s.

Definition net_kzalloc (size : Z) : N Z := fun s =>
  let '(p, a) := ka_zalloc (n_alloc s) size in Some (p, set_alloc a s).

Definition net_kfree (p : Z) : N unit := modify (fun s => set_alloc (ka_free (n_alloc s) p) s).

Definition on_dev {X} (x : M (nics P R) X) : N X := fun s =>
  match x (n_dev s) with Some (r, d) => Some (r, set_dev d s) | None => None end.

(** The I/O base is 16 bits wide. *)
Definition netdev_create (template : list Z) (o : option netdev_ops) (pci : option Z) (data : Z) : N Z :=
  let! s := get in
  if MAX_NETDEVS <=? netdev_count (reg s) then ret NULL
  else
    let! p := net_kzalloc sizeof_netdev in
    if p =? NULL then ret NULL
    else
      let! (nm, c) := lift (generate_device_name (eth_counter (reg s)) (name zero_netdev) template) in
      let! (base, line) := lift (match pci with
        | None => Some (0, 0)
        | Some i =>
          x ← pci_devices (nic_pci (n_dev s)) !! Z.to_nat i;
          b ← bar x !! 0%nat;
          Some (u16 (Z.land b 0xfffffffc), interrupt_line x)
        end) in
      let d := mk_netdev nm 0 NETDEV_STATE_DOWN pci base line (hwaddr zero_netdev) o data zero_stats in
      modify (fun s => let r := reg s in
        set_reg (mk_reg (<[Z.to_nat (netdev_count r) := p]> (netdevs r)) (netdev_count r + 1) c
                   (<[p := d]> (dev_objs r))) s) ;!
      ret p.

Definition netdev_destroy (dev : Z) : N unit :=
  if dev =? NULL then ret tt
  else
    let! s := get in
    let! r := lift (remove_loop (Z.to_nat (netdev_count (reg s))) (reg s) 0 dev) in
    let! _ := lift (dev_objs r !! dev) in
    modify (set_reg (mk_reg (netdevs r) (netdev_count r) (eth_counter r) (delete dev (dev_objs r)))) ;!
    net_kfree dev.

(** *** Bringing devices up and down *)

(** A call through one of the function pointers, with the device as argument. *)
Variable call : netdev_fp -> Z -> N Z.

Definition with_state (dev v : Z) : N unit := on_dev (upd_netdev dev (set_state v)).

(** [fuel] bounds the number of devices; the table has [MAX_NETDEVS]. *)
Fixpoint up_loop (fuel : nat) (i successful : Z) : N Z :=
  match fuel with
  | O => fault
  | S fuel' =>
    let! s := get in
    if negb (i <? netdev_count (reg s)) then ret successful
    else
      let! dev := lift (netdevs (reg s) !! Z.to_nat i) in
      if dev =? NULL then up_loop fuel' (i + 1) successful
      else
        let! d := on_dev (get_netdev dev) in
        match ops d with
        | Some (mk_ops (Some f) _ _ _ _) =>
          let! result := call f dev in
          if result =? 0
          then with_state dev NETDEV_STATE_UP ;! up_loop fuel' (i + 1) (successful + 1)
          else up_loop fuel' (i + 1) successful
        | _ => up_loop fuel' (i + 1) successful
        end
  end.

Definition netdev_bring_all_up : N Z := up_loop (Z.to_nat MAX_NETDEVS + 1) 0 0.

Definition netdev_bring_up (key : list Z) : N Z :=
  let! s := get in
  let! dev := lift (netdev_get_by_name (reg s) key) in
  if dev =? NULL then ret (-1)
  else
    let! d := on_dev (get_netdev dev) in
    match ops d with
    | Some (mk_ops (Some f) _ _ _ _) =>
      if state d =? NETDEV_STATE_UP then ret 0
      else
        let! result := call f dev in
        if result =? 0 then with_state dev NETDEV_STATE_UP ;! ret result else ret result
    | _ => ret (-1)
    end.

Definition netdev_bring_down (key : list Z) : N Z :=
  let! s := get in
  let! dev := lift (netdev_get_by_name (reg s) key) in
  if dev =? NULL then ret (-1)
  else
    let! d := on_dev (get_netdev dev) in
    match ops d with
    | Some (mk_ops _ (Some f) _ _ _) =>
      if state d =? NETDEV_STATE_DOWN then ret 0
      else
        let! result := call f dev in
        if result =? 0 then with_state dev NETDEV_STATE_DOWN ;! ret result else ret result
    | _ => ret (-1)
    end.

End Ops.
End Netdev.

(** ** What the registry holds *)

Module NetdevFacts.
Import Netdev Render.

(** *** Names *)

(** The name of a device created from the template [t] when the counter is [k]:
    a template that begins with "eth" gets the counter appended, every other is
    cut to 30 characters; and the counter afterwards. *)
Definition is_eth (t : list Z) : Prop := take 3 t = [101; 116; 104].
#[local] Instance is_eth_dec t : Decision (is_eth t) := ltac:(unfold is_eth; apply _).

Definition dev_text (k : Z) (t : list Z) : list Z := if decide (is_eth t) then t ++ decimal k else take 30 t.
Definition dev_count (k : Z) (t : list Z) : Z := if decide (is_eth t) then k + 1 else k.

(** The name field that holds a text. *)
Definition name_field (t : list Z) : list Z := c_str t (replicate (31 - length t) 0).

(** The templates whose name fits its field, which generate_device_name does not
    check when it appends the counter. *)
Definition template_ok (k : Z) (t : list Z) : Prop :=
  Forall is_char t /\ (is_eth t -> k < 2147483647 /\ (length t + length (decimal k) < 32)%nat).

Lemma length_digits fuel base : forall n acc, (length (digits fuel base n acc) <= fuel + length acc)%nat.
Proof.
  induction fuel as [|fuel IH]; intros n acc; cbn [digits]; [lia|]. case_match; [lia|].
  etrans; [apply IH|]. cbn. lia.
Qed.

Lemma length_decimal k : 0 <= k -> (length (decimal k) <= 12)%nat.
Proof.
  intros Hk. unfold decimal, number. rewrite (proj2 (Z.ltb_ge k 0)) by lia. cbn [app].
  case_match; [cbn; lia|]. etrans; [apply length_digits|]. unfold itoa_fuel. cbn. lia.
Qed.

Lemma decimal_val k : 0 <= k < 2147483648 -> Forall dec_digit (decimal k) /\ dec_val (decimal k) = k.
Proof.
  intros Hk. destruct (itoa_text_ok (replicate 12 0) k) as (t & loc & E & Hd); [done|lia|].
  destruct (itoa_spec (replicate 12 0) k) as (t' & loc' & ds & E' & Hd' & Hds & _ & Hv & _); [done|lia|].
  rewrite E in E'. injection E' as <- <-. rewrite decide_False, Hd in Hd' by lia.
  cbn [app] in Hd'. apply app_inj_tail in Hd' as [-> _]. split; [done|lia].
Qed.

Lemma decimal_inj k k' : 0 <= k < 2147483648 -> 0 <= k' < 2147483648 -> decimal k = decimal k' -> k = k'.
Proof.
  intros Hk Hk' E. destruct (decimal_val k Hk) as [_ <-], (decimal_val k' Hk') as [_ <-]. by rewrite E.
Qed.

Lemma decimal_chars k : 0 <= k < 2147483648 -> Forall is_char (decimal k).
Proof.
  intros Hk. destruct (decimal_val k Hk) as [Hd _].
  eapply Forall_impl; [exact Hd|]. intros c. unfold dec_digit, is_char. lia.
Qed.

Lemma dev_text_ok k t : 0 <= k < 2147483648 -> template_ok k t ->
  Forall is_char (dev_text k t) /\ (length (dev_text k t) < 32)%nat.
Proof.
  intros Hk [Ht He]. unfold dev_text. case_decide as E.
  - rewrite length_app. split; [|by apply He]. apply Forall_app. split; [done|by apply decimal_chars].
  - split; [by apply Forall_take|]. rewrite length_take. lia.
Qed.

Lemma strncmp_prefix t rest : Forall is_char t ->
  strncmp (Some (c_str t rest)) (Some eth) 3 = Some (if decide (is_eth t) then 0 else -2).
Proof.
  intros Ht. unfold strncmp, is_eth. change (3 =? 0) with false. cbv iota. change (Z.to_nat 3) with 3%nat.
  assert (forall c, is_char c -> c =? 0 = false) as Hz by (intros c Hc; unfold is_char in Hc; apply Z.eqb_neq; lia).
  destruct Ht as [|a t Ha Ht]; [done|]. cbn. rewrite (Hz a Ha).
  destruct (Z.eqb_spec a 101) as [->|Hne]; cbn; [|by rewrite decide_False by congruence].
  destruct Ht as [|b t Hb Ht]; [done|]. cbn. rewrite (Hz b Hb).
  destruct (Z.eqb_spec b 116) as [->|Hne]; cbn; [|by rewrite decide_False by congruence].
  destruct Ht as [|c t Hc Ht]; [done|]. cbn. rewrite (Hz c Hc).
  destruct (Z.eqb_spec c 104) as [->|Hne]; cbn; [by destruct t|by rewrite decide_False by congruence].
Qed.

Lemma drop_0s n : 0 :: drop n (replicate 32 0) = replicate (S (32 - n)) 0.
Proof. by rewrite drop_replicate. Qed.

Lemma generate_name_ok k t rest : 0 <= k < 2147483648 -> template_ok k t ->
  generate_device_name k (replicate 32 0) (c_str t rest) = Some (name_field (dev_text k t), dev_count k t).
Proof.
  intros Hk [Ht He]. unfold generate_device_name. rewrite strncmp_prefix by done. cbn [mbind option_bind].
  unfold dev_text, dev_count. case_decide as E.
  - change (0 =? 0) with true. cbv iota. destruct (He E) as [Hk' Hl]. unfold strcpy.
    rewrite strcpy_strcat_loop. pose proof (strcat_loop_spec t rest [] (replicate 32 0) Ht) as Hc.
    change ([] ++ replicate 32 0) with (replicate 32 0) in Hc. change (Z.of_nat (length [])) with 0 in Hc.
    rewrite Hc by (rewrite length_replicate; lia). cbn [app fmap option_fmap option_map fst mbind option_bind]. clear Hc.
    destruct (itoa_text_ok (replicate 12 0) k) as (x & loc & Ei & Hx); [done|lia|]. rewrite Ei.
    cbn [mbind option_bind]. rewrite Hx. unfold strcat. change (t ++ 0 :: ?d) with (c_str t d).
    rewrite strlen_loop_spec by done. cbn [mbind option_bind]. unfold c_str at 1. rewrite drop_0s.
    change (decimal k ++ [0]) with (c_str (decimal k) []). rewrite Z.add_0_l, strcat_loop_spec.
    + cbn [mbind option_bind]. rewrite s32_small by lia. do 2 f_equal. unfold name_field, c_str.
      rewrite length_app, <- app_assoc. do 3 f_equal. rewrite drop_replicate. f_equal. lia.
    + by apply decimal_chars.
    + rewrite length_replicate. lia.
  - change (-2 =? 0) with false. cbv iota. pose proof (strncpy_spec (replicate 32 0) t rest (NETDEV_NAME_MAX - 1) Ht) as Hc.
    change (Z.to_nat (NETDEV_NAME_MAX - 1 - 1)) with 30%nat in Hc. cbv zeta in Hc. set (u := take 30 t) in *.
    assert (length u <= 30)%nat as Hu by (unfold u; rewrite length_take; lia).
    rewrite Hc by (unfold NETDEV_NAME_MAX; rewrite ?length_replicate; lia). cbn [mbind option_bind].
    rewrite drop_replicate. replace (32 - S (length u))%nat with (S (30 - length u)) by lia. rewrite replicate_S_end.
    rewrite (wr_app _ _ _ (u ++ 0 :: replicate (30 - length u) 0) [0]); [|unfold NETDEV_NAME_MAX| |done].
    + cbn [mbind option_bind]. do 2 f_equal. unfold name_field, c_str. rewrite <- app_assoc. cbn [app tail].
      change (u8 0) with 0. rewrite <- replicate_S_end. do 3 f_equal. lia.
    + rewrite length_app. cbn [length]. rewrite length_replicate. lia.
    + rewrite <- app_assoc. done.
Qed.

(** *** The table as a list *)

(** The devices in the order of the table, with the text of their name. *)
Record reg_is (r : registry) (l : list (Z * list Z)) : Prop := {
  ri_len : length (netdevs r) = 8%nat;
  ri_count : netdev_count r = Z.of_nat (length l);
  ri_max : (length l <= 8)%nat;
  ri_take : take (length l) (netdevs r) = l.*1;
  ri_ptrs : NoDup l.*1;
  ri_null : ~ (NULL ∈ l.*1);
  ri_texts : Forall (fun x => Forall is_char x.2 /\ (length x.2 < 32)%nat) l;
  ri_counter : 0 <= eth_counter r < 2147483648;
  ri_objs : forall p t, (p, t) ∈ l -> exists d, dev_objs r !! p = Some d /\ name d = name_field t
}.

Lemma ri_lookup r l i x : reg_is r l -> l !! i = Some x -> netdevs r !! i = Some x.1.
Proof.
  intros Hr Hi. pose proof (lookup_lt_Some _ _ _ Hi).
  rewrite <- (lookup_take_lt _ (length l)) by done. rewrite (ri_take _ _ Hr), list_lookup_fmap. by rewrite Hi.
Qed.

(** The first device with the name [t]. *)
Definition dev_named (l : list (Z * list Z)) (t : list Z) : Z :=
  match list_find (fun x => x.2 = t) l with Some (_, x) => x.1 | None => NULL end.

Lemma by_name_loop_ok r l t rest : forall l2 l1,
  reg_is r l -> l = l1 ++ l2 -> Forall is_char t ->
  by_name_loop (length l2) r (Z.of_nat (length l1)) (c_str t rest) = Some (dev_named l2 t).
Proof.
  induction l2 as [|[p u] l2 IH]; intros l1 Hr Hl Ht; [done|]. cbn [length by_name_loop].
  assert (l !! length l1 = Some (p, u)) as Hi by (subst; by rewrite lookup_app_r, Nat.sub_diag by lia).
  rewrite Nat2Z.id, (ri_lookup _ _ _ _ Hr Hi). cbn [fst mbind option_bind].
  pose proof (list_elem_of_lookup_2 _ _ _ Hi) as Hin. destruct (ri_objs _ _ Hr _ _ Hin) as (d & -> & Hn).
  cbn [mbind option_bind]. rewrite Hn. pose proof (ri_texts _ _ Hr) as Hx. rewrite Forall_forall in Hx.
  destruct (Hx _ Hin) as [Hu Hlen]. cbn in Hu, Hlen. unfold strncmp, name_field.
  change (NETDEV_NAME_MAX =? 0) with false. cbv iota. rewrite strncmp_loop_spec by (done || exact Hlen).
  cbn [mbind option_bind]. unfold dev_named. cbn [list_find]. case_decide as Hkk.
  - rewrite decide_True by done. done.
  - rewrite decide_False by done. change (-2 =? 0) with false. cbv iota.
    specialize (IH (l1 ++ [(p, u)]) Hr). rewrite length_app, <- app_assoc in IH. cbn [length app] in IH.
    replace (Z.of_nat (length l1) + 1) with (Z.of_nat (length l1 + 1)) by lia. rewrite IH by done.
    unfold dev_named. by destruct (list_find _ l2) as [[]|].
Qed.

Lemma by_name_ok r l t rest : reg_is r l -> Forall is_char t ->
  netdev_get_by_name r (c_str t rest) = Some (dev_named l t).
Proof.
  intros Hr Ht. unfold netdev_get_by_name. rewrite (ri_count _ _ Hr), Nat2Z.id.
  by apply (by_name_loop_ok r l t rest l []).
Qed.

(** *** Removing *)

Lemma shift_loop_ok b : forall a x c,
  exists y, shift_loop (length b) (a ++ x :: b ++ c) (Z.of_nat (length a)) = Some (a ++ b ++ y :: c).
Proof.
  induction b as [|z b IH]; intros a x c; [by exists x|]. cbn [length shift_loop app].
  rewrite (rd_app_r _ (a ++ [x]) (z :: b ++ c)); [|by rewrite <- app_assoc|rewrite length_app; cbn; lia].
  cbn [head mbind option_bind]. rewrite Nat2Z.id, insert_app_r_alt, Nat.sub_diag by lia. cbn [insert list_insert].
  destruct (IH (a ++ [z]) z c) as [y E]. exists y. rewrite length_app in E. cbn [length] in E.
  rewrite <- !app_assoc in E. cbn [app] in E. rewrite <- E. f_equal. lia.
Qed.

(** The registry without one of its entries. *)
Lemma remove_loop_ok r l1 p k l2 :
  reg_is r (l1 ++ (p, k) :: l2) ->
  exists r', remove_loop (Z.to_nat (netdev_count r)) r 0 p = Some r' /\ reg_is r' (l1 ++ l2) /\
    eth_counter r' = eth_counter r /\ dev_objs r' = dev_objs r.
Proof.
  intros Hr. set (l := l1 ++ (p, k) :: l2) in *.
  assert (netdevs r = l1.*1 ++ p :: l2.*1 ++ drop (length l) (netdevs r)) as Hsplit.
  { rewrite <- (take_drop (length l) (netdevs r)) at 1. rewrite (ri_take _ _ Hr). unfold l.
    rewrite fmap_app, fmap_cons, <- app_assoc. done. }
  set (X := remove_loop (S (length l2)) r (Z.of_nat (length l1)) p).
  assert (forall a b, l1 = a ++ b -> remove_loop (length b + S (length l2)) r (Z.of_nat (length a)) p = X) as Hskip.
  { intros a b; revert a; induction b as [|[q j] b IH]; intros a Hab.
    { rewrite app_nil_r in Hab. by subst. }
    cbn [length Nat.add remove_loop]. rewrite Nat2Z.id.
    assert (l !! length a = Some (q, j)) as Hq
      by (unfold l; rewrite Hab, <- app_assoc, lookup_app_r, Nat.sub_diag by lia; done).
    rewrite (ri_lookup _ _ _ _ Hr Hq). cbn [fst mbind option_bind].
    assert (q <> p) as Hqp.
    { intros ->. pose proof (ri_ptrs _ _ Hr) as Hnd. unfold l in Hnd. rewrite Hab, <- app_assoc, fmap_app in Hnd.
      apply NoDup_app in Hnd as (_ & _ & Hnd). cbn in Hnd. apply NoDup_cons in Hnd as [Hnin _]. apply Hnin.
      rewrite fmap_app. set_solver. }
    rewrite (proj2 (Z.eqb_neq q p)) by done.
    specialize (IH (a ++ [(q, j)])). rewrite length_app, <- app_assoc in IH. cbn [length app] in IH.
    rewrite <- (IH Hab). f_equal. lia. }
  pose proof (ri_count _ _ Hr) as Hc. unfold l in Hc. rewrite length_app in Hc. cbn [length] in Hc.
  rewrite Hc, Nat2Z.id. change 0 with (Z.of_nat (length (@nil (Z * list Z)))). rewrite (Hskip [] l1 eq_refl).
  unfold X. cbn [remove_loop]. rewrite Nat2Z.id, Hsplit.
  rewrite lookup_app_r, length_fmap, Nat.sub_diag by (rewrite length_fmap; lia). cbn [lookup list_lookup mbind option_bind].
  rewrite (proj2 (Z.eqb_eq p p)), Hc by done. set (c := drop (length l) (netdevs r)) in *.
  destruct (shift_loop_ok l2.*1 l1.*1 p c) as [y E]. rewrite !length_fmap in E.
  replace (Z.to_nat (Z.of_nat (length l1 + S (length l2)) - 1 - Z.of_nat (length l1))) with (length l2) by lia.
  rewrite E. cbn [mbind option_bind]. eexists. split; [done|]. split; [|done].
  destruct Hr as [R1 R2 R3 R4 R5 R7 R8 R9 R10]. unfold l in *.
  split; cbn [netdevs netdev_count eth_counter dev_objs]; rewrite ?fmap_app in *; cbn [fmap list_fmap] in *.
  - rewrite <- R1, Hsplit. rewrite !length_app. cbn [length]. rewrite !length_app. lia.
  - rewrite length_app. lia.
  - rewrite length_app in *. cbn [length] in R3. lia.
  - rewrite app_assoc. apply take_app_length'. by rewrite !length_app, !length_fmap.
  - apply NoDup_app in R5 as (? & ? & [? ?]%NoDup_cons). apply NoDup_app. set_solver.
  - set_solver.
  - apply Forall_app in R8 as [? [_ ?]%Forall_cons]. by apply Forall_app.
  - done.
  - intros q j Hin. apply R10. set_solver.
Qed.

(** *** Creating and destroying *)

Section Registry.
Context {A P R : Type} `{KL : KAllocLaws A}.

Abbreviation st := (net A (nics P R)).

(** The hardware information of a PCI device, if there is one. *)
Definition pci_info (db : pcidb) (pci : option Z) : option (Z * Z) :=
  match pci with
  | None => Some (0, 0)
  | Some i => x ← pci_devices db !! Z.to_nat i; b ← bar x !! 0%nat;
              Some (u16 (Z.land b 0xfffffffc), interrupt_line x)
  end.

(** The state with one more device. *)
Definition registered (p : Z) (d : netdev) (c : Z) (a : A) (s : st) : st :=
  set_reg (mk_reg (<[Z.to_nat (netdev_count (reg s)) := p]> (netdevs (reg s))) (netdev_count (reg s) + 1)
    c (<[p := d]> (dev_objs (reg s)))) (set_alloc a s).

Lemma reg_is_snoc r l p d c t :
  reg_is r l -> (length l < 8)%nat -> p <> NULL -> ~ (p ∈ l.*1) -> 0 <= c < 2147483648 ->
  name d = name_field t -> Forall is_char t -> (length t < 32)%nat ->
  reg_is (mk_reg (<[Z.to_nat (netdev_count r) := p]> (netdevs r)) (netdev_count r + 1) c
    (<[p := d]> (dev_objs r))) (l ++ [(p, t)]).
Proof.
  intros [R1 R2 R3 R4 R5 R7 R8 R9 R10] Hl Hp Hnin Hc Hn Ht Htl.
  split; cbn [netdevs netdev_count eth_counter dev_objs]; rewrite ?fmap_app, ?length_app; cbn [length fmap list_fmap].
  - by rewrite length_insert.
  - lia.
  - lia.
  - rewrite R2, Nat2Z.id, insert_take_drop, R4 by lia.
    change (l.*1 ++ p :: drop ?n ?x) with (l.*1 ++ [p] ++ drop n x). rewrite app_assoc.
    apply take_app_length'. by rewrite length_app, length_fmap.
  - apply NoDup_app. split; [done|]. split; [|apply NoDup_singleton]. intros x Hx ->%list_elem_of_singleton. done.
  - rewrite elem_of_app, list_elem_of_singleton. intros [Hx|Hx]; [by apply R7|by apply Hp].
  - apply Forall_app. split; [done|]. by apply Forall_singleton.
  - done.
  - intros q j [Hin|Hin]%elem_of_app.
    + rewrite lookup_insert_ne; [by apply R10|]. intros ->. apply Hnin. by apply (list_elem_of_fmap_2 fst) in Hin.
    + apply list_elem_of_singleton in Hin as [= -> ->]. rewrite lookup_insert_eq. by exists d.
Qed.

Lemma create_ok (s : st) l lv n t rest o pci data base line :
  let k := eth_counter (reg s) in
  reg_is (reg s) l -> ka_live (n_alloc s) lv n -> Forall (fun p => lv !! p = Some 1) l.*1 ->
  template_ok k t -> pci_info (nic_pci (n_dev s)) pci = Some (base, line) ->
  (netdev_create (c_str t rest) o pci data s = Some (NULL, s) /\ (length l = 8%nat \/ n = 0)) \/
  exists p a d, netdev_create (c_str t rest) o pci data s = Some (p, registered p d (dev_count k t) a s) /\
    d = mk_netdev (name_field (dev_text k t)) 0 NETDEV_STATE_DOWN pci base line (replicate 6 0) o data zero_stats /\
    p <> NULL /\ lv !! p = None /\ ka_live a (<[p := 1]> lv) (n - 1) /\
    reg_is (reg (registered p d (dev_count k t) a s)) (l ++ [(p, dev_text k t)]).
Proof.
  intros k Hr Ha Hl Hc Hi. pose proof (dev_text_ok k t (ri_counter _ _ Hr) Hc) as [Ht1 Ht2]. pose proof (ri_max _ _ Hr) as Hm. pose proof (ri_counter _ _ Hr).
  destruct (Z.leb_spec 8 (Z.of_nat (length l))) as [Hf|Hf].
  { left. split; [|left; lia]. unfold netdev_create, bind at 1, get.
    rewrite (ri_count _ _ Hr), (proj2 (Z.leb_le _ _)) by (unfold MAX_NETDEVS; lia). done. }
  destruct (ka_zalloc (n_alloc s) sizeof_netdev) as [p a] eqn:Ez.
  destruct (nblocks_1 sizeof_netdev) as [Hok Hnb]; [unfold sizeof_netdev; lia|].
  destruct (ka_zalloc_spec _ _ _ _ _ _ Ha Hok Ez) as [(-> & -> & Hn0)|(Hp & _ & Hpn & Ha')].
  { left. split; [|right; by apply Hn0]. unfold netdev_create, bind at 1, get.
    rewrite (ri_count _ _ Hr), (proj2 (Z.leb_gt _ _)) by (unfold MAX_NETDEVS; lia).
    unfold net_kzalloc, bind at 1. rewrite Ez. by destruct s. }
  right. exists p, a. eexists. split; [|split; [reflexivity|]].
  { unfold netdev_create, bind at 1, get.
    rewrite (ri_count _ _ Hr), (proj2 (Z.leb_gt _ _)) by (unfold MAX_NETDEVS; lia).
    unfold net_kzalloc, bind at 1. rewrite Ez, (proj2 (Z.eqb_neq p NULL)) by done.
    change (name zero_netdev) with (replicate 32 0).
    rewrite (bind_lift _ _ _ _ (generate_name_ok (eth_counter (reg s)) t rest ltac:(lia) Hc)).
    fold (pci_info (nic_pci (n_dev s)) pci). rewrite (bind_lift _ _ _ _ Hi). reflexivity. }
  rewrite Hnb in Ha'. split; [done|]. split; [done|].
  split; [done|]. apply (reg_is_snoc (reg s)); try done; [lia| |].
  2: { unfold dev_count, k. case_decide as E; [|done]. destruct Hc as [_ Hc]. destruct (Hc E). unfold k in *. lia. }
  intros Hin. rewrite Forall_forall in Hl. rewrite (Hl _ Hin) in Hpn. done.
Qed.

Lemma destroy_ok (s : st) l1 p k l2 lv n :
  reg_is (reg s) (l1 ++ (p, k) :: l2) -> ka_live (n_alloc s) lv n -> lv !! p = Some 1 ->
  exists r, netdev_destroy p s = Some (tt, set_alloc (ka_free (n_alloc s) p) (set_reg r s)) /\
    reg_is r (l1 ++ l2) /\ eth_counter r = eth_counter (reg s) /\ dev_objs r = delete p (dev_objs (reg s)) /\
    ka_live (ka_free (n_alloc s) p) (delete p lv) (n + 1).
Proof.
  intros Hr Ha Hp. unfold netdev_destroy.
  assert (p <> NULL) as Hnp by (intros ->; apply (ri_null _ _ Hr); rewrite fmap_app; set_solver).
  rewrite (proj2 (Z.eqb_neq p NULL)) by done. unfold bind at 1, get.
  destruct (remove_loop_ok _ _ _ _ _ Hr) as (r & E & Hr' & Hc & Ho). rewrite (bind_lift _ _ _ _ E).
  destruct (ri_objs _ _ Hr p k) as (d & Hd & _); [set_solver|]. rewrite Ho, (bind_lift _ _ _ _ Hd).
  eexists. split; [done|]. rewrite <- Ho. split; [|split; [done|split; [done|by apply ka_free_spec]]].
  destruct Hr' as [R1 R2 R3 R4 R5 R7 R8 R9 R10].
  split; cbn [netdevs netdev_count eth_counter dev_objs]; try done.
  intros q j Hq. rewrite lookup_delete_ne; [by apply R10|]. intros ->.
  pose proof (ri_ptrs _ _ Hr) as Hnd. rewrite fmap_app in Hnd. cbn in Hnd.
  apply NoDup_app in Hnd as (_ & Hd1 & [Hd2 _]%NoDup_cons).
  apply (list_elem_of_fmap_2 fst) in Hq. rewrite fmap_app in Hq. cbn in Hq. apply elem_of_app in Hq as [Hq|Hq].
  - apply (Hd1 _ Hq). by left.
  - done.
Qed.

End Registry.
End NetdevFacts.

(** ** The registry refines a list of devices *)

Module NetdevProps.
Import Netdev NetdevFacts Render.

Section Props.
Context {A P R : Type} `{KL : KAllocLaws A}.

Abbreviation st := (net A (nics P R)).

(** What happened to the registry since [s0]: each creation, from a template of
    [T], appends a device with the name made from it, unless it failed, and each
    destruction removes one. *)
Inductive history (T : list Z -> Prop) (s0 : st) : st -> list (Z * list Z) -> Prop :=
| h_start : history T s0 s0 []
| h_create s l t rest o pci data x p s' :
    history T s0 s l -> T t -> template_ok (eth_counter (reg s)) t -> pci_info (nic_pci (n_dev s)) pci = Some x ->
    netdev_create (c_str t rest) o pci data s = Some (p, s') ->
    history T s0 s' (if decide (p = NULL) then l else l ++ [(p, dev_text (eth_counter (reg s)) t)])
| h_destroy s l p t s' :
    history T s0 s l -> (p, t) ∈ l -> netdev_destroy p s = Some (tt, s') ->
    history T s0 s' (filter (fun x => x.1 <> p) l).

(** The registry after a history, and the blocks it holds. *)
Record keeps (lv : gmap Z Z) (n : Z) (s : st) (l : list (Z * list Z)) : Prop := {
  kp_reg : reg_is (reg s) l;
  kp_live : ka_live (n_alloc s) (add_pages lv l.*1) (n - Z.of_nat (length l));
  kp_owned : owned lv l.*1
}.

Lemma filter_id (l : list (Z * list Z)) p : ~ (p ∈ l.*1) -> filter (fun x => x.1 <> p) l = l.
Proof.
  induction l as [|[q j] l IH]; [done|]. rewrite fmap_cons, not_elem_of_cons. intros [Hq Hl].
  rewrite filter_cons_True by (cbn; intros ->; by apply Hq). by rewrite IH.
Qed.

Lemma filter_out (l1 l2 : list (Z * list Z)) p k : NoDup (l1 ++ (p, k) :: l2).*1 ->
  filter (fun x => x.1 <> p) (l1 ++ (p, k) :: l2) = l1 ++ l2.
Proof.
  rewrite fmap_app, fmap_cons. intros (_ & Hd1 & [Hd2 _]%NoDup_cons)%NoDup_app.
  rewrite filter_app, filter_cons_False by (cbn; tauto). rewrite !filter_id; [done|done|].
  intros Hin. apply (Hd1 p Hin). by left.
Qed.

Lemma keeps_create lv n s l t rest o pci data x :
  let k := eth_counter (reg s) in
  keeps lv n s l -> template_ok k t -> pci_info (nic_pci (n_dev s)) pci = Some x ->
  exists p s', netdev_create (c_str t rest) o pci data s = Some (p, s') /\
    keeps lv n s' (if decide (p = NULL) then l else l ++ [(p, dev_text k t)]) /\
    eth_counter (reg s') = (if decide (p = NULL) then k else dev_count k t) /\
    (p = NULL -> length l = 8%nat \/ n = Z.of_nat (length l)).
Proof.
  intros k [Hr Ha Ho] Hc Hi. destruct x as [base line].
  destruct (create_ok s l _ _ t rest o pci data base line Hr Ha) as [[E Hn]|(p & a & d & E & _ & Hp & Hpn & Ha' & Hr')]; try done.
  - apply Forall_forall. intros q Hq. by rewrite lookup_add_pages, decide_True.
  - exists NULL, s. split; [done|]. rewrite !decide_True by done. split; [by split|]. split; [done|].
    intros _. destruct Hn; [by left|right; lia].
  - exists p, (registered p d (dev_count k t) a s). rewrite !decide_False by done. split; [done|]. split; [|done]. split; [done| |].
    + rewrite fmap_app, add_pages_app, length_app. cbn. by replace (n - Z.of_nat (length l + 1)) with (n - Z.of_nat (length l) - 1) by lia.
    + rewrite fmap_app. by apply owned_snoc.
Qed.

Lemma keeps_destroy lv n s l p k :
  keeps lv n s l -> (p, k) ∈ l ->
  exists s', netdev_destroy p s = Some (tt, s') /\ keeps lv n s' (filter (fun x => x.1 <> p) l) /\
    eth_counter (reg s') = eth_counter (reg s).
Proof.
  intros [Hr Ha Ho] (l1 & l2 & ->)%list_elem_of_split. rewrite (filter_out _ _ _ _ (ri_ptrs _ _ Hr)).
  destruct (destroy_ok s l1 p k l2 _ _ Hr Ha) as (r & E & Hr' & Hc & _ & Ha').
  { rewrite lookup_add_pages, decide_True; [done|]. rewrite fmap_app. set_solver. }
  eexists. split; [exact E|]. split; [|exact Hc]. destruct Ho as [Hnd Hf]. rewrite fmap_app in *. cbn in Hnd, Hf.
  apply NoDup_app in Hnd as (Hn1 & Hd1 & [Hd2 Hn2]%NoDup_cons). apply Forall_app in Hf as [Hf1 [Hfp Hf2]%Forall_cons].
  split; [done| |].
  - rewrite length_app in *. cbn [length] in Ha'.
    replace (n - Z.of_nat (length l1 + length l2)) with (n - Z.of_nat (length l1 + S (length l2)) + 1) by lia.
    replace (add_pages lv (l1 ++ l2).*1) with (delete p (add_pages lv (l1.*1 ++ ((p, k) :: l2).*1))); [done|].
    apply map_eq. intros x. rewrite lookup_delete, !lookup_add_pages, fmap_app. cbn. case_decide as Hx.
    + subst. rewrite decide_False; [done|]. intros [Hin|Hin]%elem_of_app; [apply (Hd1 _ Hin); by left|done].
    + repeat case_decide; set_solver.
  - split.
    + rewrite fmap_app. apply NoDup_app. split; [done|]. split; [|done]. intros x Hx Hx2. apply (Hd1 _ Hx). by right.
    + rewrite fmap_app. by apply Forall_app.
Qed.

Lemma history_keeps T (s0 s : st) lv n l :
  reg_is (reg s0) [] -> ka_live (n_alloc s0) lv n -> history T s0 s l -> keeps lv n s l.
Proof.
  intros Hr Ha Hh. induction Hh as [|s l t rest o pci data x p s' _ IH _ Hc Hi E|s l p t s' _ IH Hin E].
  - split; [done| |]; cbn; [by rewrite Z.sub_0_r|]. split; [apply NoDup_nil_2|done].
  - destruct (keeps_create lv n s l t rest o pci data x IH Hc Hi) as (p' & s2 & E' & Hk & _).
    rewrite E in E'. by injection E' as <- <-.
  - destruct (keeps_destroy lv n s l p t IH Hin) as (s2 & E' & Hk & _). rewrite E in E'. by injection E' as <-.
Qed.

(** The names made from one template that begins with "eth" carry different
    numbers. *)
Definition numbered (t0 : list Z) (k : Z) (l : list (Z * list Z)) : Prop :=
  NoDup l.*2 /\ Forall (fun x => exists j, 0 <= j < k /\ x.2 = t0 ++ decimal j) l.

Lemma numbered_filter t0 k l p : numbered t0 k l -> numbered t0 k (filter (fun x => x.1 <> p) l).
Proof.
  intros [Hn Hf]. split.
  - eapply sublist_NoDup; [exact Hn|]. apply fmap_sublist, sublist_filter.
  - rewrite Forall_forall in *. intros x [_ Hx]%list_elem_of_filter. by apply Hf.
Qed.

Lemma history_numbered T (s0 s : st) lv n l t0 :
  reg_is (reg s0) [] -> ka_live (n_alloc s0) lv n -> is_eth t0 -> (forall t, T t -> t = t0) ->
  history T s0 s l -> numbered t0 (eth_counter (reg s)) l.
Proof.
  intros Hr Ha He HT Hh. induction Hh as [|s l t rest o pci data x p s' Hh IH Ht Hc Hi E|s l p t s' Hh IH Hin E].
  - split; [apply NoDup_nil_2|done].
  - pose proof (history_keeps _ _ _ _ _ _ Hr Ha Hh) as Hk. rewrite (HT t Ht) in *.
    pose proof (ri_counter _ _ (kp_reg _ _ _ _ Hk)) as Hr0. destruct IH as [IH1 IH2].
    destruct (keeps_create lv n s l t0 rest o pci data x Hk Hc Hi) as (p' & s2 & E' & _ & Ec & _).
    rewrite E in E'. injection E' as <- <-. rewrite Ec. case_decide; [done|].
    unfold dev_count, dev_text. rewrite !decide_True by done. split.
    + rewrite fmap_app. apply NoDup_app. split; [done|]. split; [|apply NoDup_singleton].
      intros y Hy ->%list_elem_of_singleton. apply list_elem_of_fmap in Hy as ([q u] & Eq & Hy).
      rewrite Forall_forall in IH2. destruct (IH2 _ Hy) as (j & Hj & Eu). cbn in Eq, Eu. subst u.
      apply app_inv_head in Eu. apply decimal_inj in Eu; lia.
    + apply Forall_app. split; [eapply Forall_impl; [exact IH2|]; intros y (j & ? & ?); exists j; split; [lia|done]|].
      repeat constructor. exists (eth_counter (reg s)). split; [lia|done].
  - pose proof (history_keeps _ _ _ _ _ _ Hr Ha Hh) as Hk.
    destruct (keeps_destroy lv n s l p t Hk Hin) as (s2 & E' & _ & Ec). rewrite E in E'. injection E' as <-.
    rewrite Ec. by apply numbered_filter.
Qed.

Lemma dev_named_in l p t : NoDup l.*2 -> (p, t) ∈ l -> dev_named l t = p.
Proof.
  intros Hnd Hin. unfold dev_named. destruct (list_find _ l) as [[i x]|] eqn:E.
  - apply list_find_Some in E as (Hi & <- & _). apply list_elem_of_lookup in Hin as [j Hj].
    assert (i = j) as ->; [|by rewrite Hi in Hj; injection Hj as ->].
    apply (NoDup_lookup l.*2 i j x.2 Hnd); rewrite list_lookup_fmap; [by rewrite Hi|by rewrite Hj].
  - apply list_find_None in E. rewrite Forall_forall in E. by specialize (E _ Hin).
Qed.

(** C16: the registry behaves as a list of named devices: after any history of
    creations, from any templates whose name fits the field, and destructions,
    a device bears its template followed by the counter when the template begins
    with "eth" and the first 30 characters of its template otherwise; looking up
    a name finds the first device in the list that bears it, which is the only
    one when all devices were made from one template that begins with "eth";
    looking up by index gives the devices in the order of creation, the blocks
    in use are those of the devices in the list, the next creation and the
    destruction of any of the devices return, and a creation fails only when the
    table is full or no block is free. *)
Theorem netdev_registry_refines T (s0 s : st) lv n l :
  reg_is (reg s0) [] -> ka_live (n_alloc s0) lv n -> history T s0 s l ->
  (forall p t, (p, t) ∈ l -> exists d, dev_objs (reg s) !! p = Some d /\ name d = name_field t) /\
  (forall t rest, Forall is_char t -> netdev_get_by_name (reg s) (c_str t rest) = Some (dev_named l t)) /\
  (forall t0, is_eth t0 -> (forall t, T t -> t = t0) -> forall p t, (p, t) ∈ l -> dev_named l t = p) /\
  (forall i, netdev_get_by_index (reg s) i
    = Some (if decide (0 <= i) then default NULL (l.*1 !! Z.to_nat i) else NULL)) /\
  netdev_get_count (reg s) = Z.of_nat (length l) /\
  ka_live (n_alloc s) (add_pages lv l.*1) (n - Z.of_nat (length l)) /\
  (forall t rest o pci data x, template_ok (eth_counter (reg s)) t -> pci_info (nic_pci (n_dev s)) pci = Some x ->
    exists p s', netdev_create (c_str t rest) o pci data s = Some (p, s') /\
      (p = NULL -> length l = 8%nat \/ n = Z.of_nat (length l))) /\
  (forall p t, (p, t) ∈ l -> exists s', netdev_destroy p s = Some (tt, s')).
Proof.
  intros Hr Ha Hh. pose proof (history_keeps _ _ _ _ _ _ Hr Ha Hh) as Hk.
  pose proof (kp_reg _ _ _ _ Hk) as Hr'. split; [exact (ri_objs _ _ Hr')|]. split; [intros; by apply by_name_ok|].
  split; [intros t0 He HT p t; apply dev_named_in; by eapply history_numbered|].
  split; [|split; [apply (ri_count _ _ Hr')|split; [apply (kp_live _ _ _ _ Hk)|split]]].
  - intros i. unfold netdev_get_by_index. rewrite (ri_count _ _ Hr'). case_decide as Hi.
    + rewrite (proj2 (Z.ltb_ge i 0)) by lia. cbn [orb]. destruct (Z.leb_spec (Z.of_nat (length l)) i) as [Hl|Hl].
      * by rewrite lookup_ge_None_2 by (rewrite length_fmap; lia).
      * destruct (lookup_lt_is_Some_2 l (Z.to_nat i)) as [x Hx]; [lia|].
        by rewrite (ri_lookup _ _ _ _ Hr' Hx), list_lookup_fmap, Hx.
    + by rewrite (proj2 (Z.ltb_lt i 0)) by lia.
  - intros t rest o pci data x Hc Hi.
    destruct (keeps_create lv n s l t rest o pci data x Hk Hc Hi) as (p & s2 & E & _ & _ & Hn). eauto.
  - intros p t Hin. destruct (keeps_destroy lv n s l p t Hk Hin) as (s2 & E & _). eauto.
Qed.

End Props.

(** *** Instance: the kernel heap and an empty registry *)

Import HeapProps Laws.

#[local] Instance boot_alloc : KAlloc mem := kheap_alloc kheap.
#[local] Instance boot_laws : KAllocLaws mem := kheap_laws kheap.

Definition empty_reg : registry := mk_reg (replicate 8 NULL) 0 0 ∅.

Definition no_devices : net mem (nics unit unit) :=
  mk_net boot_mem (mk_nics tt (mk_db (replicate 16 zero_device) 0) empty_reg tt) [] 0 0 [].

Lemma empty_reg_is : reg_is empty_reg [].
Proof.
  split; cbn; try done; [lia|apply NoDup_nil_2|apply not_elem_of_nil|].
  by intros p k ?%elem_of_nil.
Qed.

(** A list of given characters. *)
Ltac chars := repeat first [apply Forall_nil_2 | apply Forall_cons_2; [unfold is_char; lia|]].

(** The templates "eth" and "lo": the first gets a number, and each device is
    found by its name. *)
Lemma netdev_registry_refines_witness :
  exists p s q s', netdev_create eth None None 0 no_devices = Some (p, s) /\ p <> NULL /\
    netdev_create [108; 111; 0] None None 0 s = Some (q, s') /\ q <> NULL /\
    netdev_get_by_name (reg s') [101; 116; 104; 48; 0] = Some p /\
    netdev_get_by_name (reg s') [108; 111; 0] = Some q /\ netdev_get_count (reg s') = 2.
Proof.
  pose (T := fun _ : list Z => True). assert (ka_live (n_alloc no_devices) ∅ 25600) as Ha by apply kheap_fresh.
  destruct (netdev_registry_refines T no_devices no_devices ∅ 25600 []) as (_ & _ & _ & _ & _ & _ & Hc & _);
    [apply empty_reg_is|exact Ha|constructor|].
  assert (template_ok 0 [101; 116; 104]) as T1 by (split; [chars|intros _; split; [lia|vm_compute; lia]]).
  destruct (Hc [101; 116; 104] [] None None 0 (0, 0) T1 eq_refl) as (p & s & E & Hp).
  assert (p <> NULL) as Hn by (intros Hz; destruct (Hp Hz); [done|cbn in *; lia]).
  pose proof (h_create T no_devices no_devices [] [101; 116; 104] [] None None 0 (0, 0) p s (h_start _ _) I T1 eq_refl E) as Hh.
  rewrite decide_False in Hh by done.
  destruct (netdev_registry_refines T no_devices s ∅ 25600 _ empty_reg_is Ha Hh) as (_ & _ & _ & _ & _ & _ & Hc' & _).
  assert (template_ok (eth_counter (reg s)) [108; 111]) as T2 by (split; [chars|intros He; discriminate He]).
  destruct (Hc' [108; 111] [] None None 0 (0, 0) T2 eq_refl) as (q & s' & E' & Hq).
  assert (q <> NULL) as Hnq by (intros Hz; destruct (Hq Hz); [done|cbn in *; lia]).
  pose proof (h_create T no_devices s _ [108; 111] [] None None 0 (0, 0) q s' Hh I T2 eq_refl E') as Hh'.
  rewrite decide_False in Hh' by done.
  destruct (netdev_registry_refines T no_devices s' ∅ 25600 _ empty_reg_is Ha Hh') as (_ & Hb & _ & _ & Hk & _).
  exists p, s, q, s'. do 4 (split; [done|]). split; [|split; [|done]].
  - etrans; [apply (Hb [101; 116; 104; 48] []); chars|reflexivity].
  - etrans; [apply (Hb [108; 111] []); chars|reflexivity].
Defined.

End NetdevProps.
