(* ===== verification/Rtl8139.v ===== *)
(** * The network card: rtl8139.c

    The driver reaches the card through the ports of the machine and through
    the memory it allocates for the card: one block that holds the receive ring
    and the four transmit buffers, kept here as a list of bytes by its address.
    Functions that only touch the card, the device objects and the driver run on
    [nics]; those that allocate, or hand packets to the network stack, run on
    the state of the stack.  The vectors for which [rtl8139_interrupt] has been
    registered are part of the driver state.  Messages on the console are left
    out. *)

From S2P Require Import Prelude CLib KAlloc Disk Inet Socket Net Pci Netdev.
Import Str Inet Socket Net Pci Netdev.
#[local] Open Scope prog_scope.

Definition NUM_TX_DESC : Z := 4.
Definition ETH_ZLEN : Z := 60.
Definition RX_BUF_LEN_IDX : Z := 2.
Definition TX_BUF_SIZE : Z := 1536.
Definition TX_FIFO_THRESH : Z := 256.
Definition RX_FIFO_THRESH : Z := 4.
Definition RX_DMA_BURST : Z := 4.
Definition TX_DMA_BURST : Z := 4.

Definition HAS_MII_XCVR : Z := 0x01.
Definition HAS_CHIP_XCVR : Z := 0x02.
Definition HAS_LNK_CHNG : Z := 0x04.
Definition RTL8139_CAPS : Z := Z.lor HAS_CHIP_XCVR HAS_LNK_CHNG.

(** Registers *)
Definition MAC0 : Z := 0x00.
Definition MAR0 : Z := 0x08.
Definition TxStatus0 : Z := 0x10.
Definition TxAddr0 : Z := 0x20.
Definition RxBuf : Z := 0x30.
Definition ChipCmd : Z := 0x37.
Definition RxBufPtr : Z := 0x38.
Definition IntrMask : Z := 0x3c.
Definition IntrStatus : Z := 0x3e.
Definition TxConfig : Z := 0x40.
Definition RxConfig : Z := 0x44.
Definition RxMissed : Z := 0x4c.
Definition Cfg9346 : Z := 0x50.
Definition Config1 : Z := 0x52.
Definition GPPinData : Z := 0x58.
Definition MII_SMI : Z := 0x5a.
Definition HltClk : Z := 0x5b.
Definition MII_BMCR : Z := 0x62.
Definition MII_BMSR : Z := 0x64.
Definition NWayAdvert : Z := 0x66.
Definition NWayLPAR : Z := 0x68.
Definition NWayExpansion : Z := 0x6a.

(** Command, interrupt, transmit and receive status bits *)
Definition RxBufEmpty : Z := 0x01.
Definition CmdTxEnb : Z := 0x04.
Definition CmdRxEnb : Z := 0x08.
Definition CmdReset : Z := 0x10.
Definition RxOK : Z := 0x0001.
Definition RxErr : Z := 0x0002.
Definition TxOK : Z := 0x0004.
Definition TxErr : Z := 0x0008.
Definition RxOverflow : Z := 0x0010.
Definition RxUnderrun : Z := 0x0020.
Definition RxFIFOOver : Z := 0x0040.
Definition PCSTimeout : Z := 0x4000.
Definition PCIErr : Z := 0x8000.
Definition TxUnderrun : Z := 0x00004000.
Definition TxStatOK : Z := 0x00008000.
Definition TxOutOfWindow : Z := 0x20000000.
Definition TxAborted : Z := 0x40000000.
Definition TxCarrierLost : Z := 0x80000000.
Definition RxBadAlign : Z := 0x0002.
Definition RxCRCErr : Z := 0x0004.
Definition RxTooLong : Z := 0x0008.
Definition RxRunt : Z := 0x0010.
Definition RxBadSymbol : Z := 0x0020.
Definition AcceptMyPhys : Z := 0x02.
Definition AcceptMulticast : Z := 0x04.
Definition AcceptBroadcast : Z := 0x08.

Definition EE_SHIFT_CLK : Z := 0x04.
Definition EE_CS : Z := 0x08.
Definition EE_DATA_WRITE : Z := 0x02.
Definition EE_DATA_READ : Z := 0x01.
Definition EE_ENB : Z := Z.lor 0x80 EE_CS.
Definition EE_READ_CMD : Z := 6.
Definition MDIO_DIR : Z := 0x80.
Definition MDIO_DATA_OUT : Z := 0x04.
Definition MDIO_DATA_IN : Z := 0x02.
Definition MDIO_CLK : Z := 0x01.
Definition MDIO_WRITE0 : Z := MDIO_DIR.
Definition MDIO_WRITE1 : Z := Z.lor MDIO_DIR MDIO_DATA_OUT.

(** [sizeof(struct rtl8139)] *)
Definition sizeof_rtl8139 : Z := 120.

(** [x & mask] as a condition *)
Definition has (x mask : Z) : bool := negb (Z.land x mask =? 0).

Module Rtl8139.

(** *** The private data, in the groups of the declaration *)

Record rx_state := mk_rx { rx_ring : Z; cur_rx : Z; rx_buf_len : Z }.

(** [tx_bufs] are the packets that the driver owns; [None] is a null pointer. *)
Record tx_state := mk_tx {
  tx_lock : Z; cur_tx : Z; dirty_tx : Z; tx_flag : Z; tx_bufs : list (option netbuf);
  tx_buffer : list Z; tx_bufs_mem : Z; trans_start : Z }.

Record conf_state := mk_conf {
  rx_config : Z; mc_filter : list Z; phys : list Z; advertising : Z; full_duplex : Z; duplex_lock : Z;
  link_speed : Z; config1 : Z; max_interrupt_work : Z; multicast_filter_limit : Z; caps : Z;
  tx_timeout_count : Z }.

Record rtl8139 := mk_rtl {
  rtl_netdev : Z; rtl_iobase : Z; rtl_irq : Z; interrupt_registered : Z;
  rx : rx_state; tx : tx_state; conf : conf_state }.

Definition zero_rtl : rtl8139 :=
  mk_rtl NULL 0 0 0 (mk_rx NULL 0 0) (mk_tx 0 0 0 0 (replicate 4 None) (replicate 4 NULL) NULL 0)
    (mk_conf 0 [0; 0] [0; 0; 0; 0] 0 0 0 0 0 0 0 0 0).

(** The driver objects by address, the memory of the cards by its address, and
    the interrupt vectors that the driver asked for. *)
Record rtls := mk_rtls { rtl_objs : gmap Z rtl8139; dma : gmap Z (list Z); vectors : list Z }.

Definition with_rx (x : rx_state) (r : rtl8139) : rtl8139 :=
  mk_rtl (rtl_netdev r) (rtl_iobase r) (rtl_irq r) (interrupt_registered r) x (tx r) (conf r).

Definition with_tx (x : tx_state) (r : rtl8139) : rtl8139 :=
  mk_rtl (rtl_netdev r) (rtl_iobase r) (rtl_irq r) (interrupt_registered r) (rx r) x (conf r).

Definition with_conf (x : conf_state) (r : rtl8139) : rtl8139 :=
  mk_rtl (rtl_netdev r) (rtl_iobase r) (rtl_irq r) (interrupt_registered r) (rx r) (tx r) x.

Definition set_cur_rx (v : Z) (x : rx_state) : rx_state := mk_rx (rx_ring x) v (rx_buf_len x).

Definition set_tx_ptrs (cur dirty : Z) (x : tx_state) : tx_state :=
  mk_tx (tx_lock x) cur dirty (tx_flag x) (tx_bufs x) (tx_buffer x) (tx_bufs_mem x) (trans_start x).

Definition set_tx_flag (v : Z) (x : tx_state) : tx_state :=
  mk_tx (tx_lock x) (cur_tx x) (dirty_tx x) v (tx_bufs x) (tx_buffer x) (tx_bufs_mem x) (trans_start x).

Definition set_tx_bufs (l : list (option netbuf)) (x : tx_state) : tx_state :=
  mk_tx (tx_lock x) (cur_tx x) (dirty_tx x) (tx_flag x) l (tx_buffer x) (tx_bufs_mem x) (trans_start x).

Definition set_duplex (v : Z) (x : conf_state) : conf_state :=
  mk_conf (rx_config x) (mc_filter x) (phys x) (advertising x) v (duplex_lock x) (link_speed x) (config1 x)
    (max_interrupt_work x) (multicast_filter_limit x) (caps x) (tx_timeout_count x).

Definition set_rx_config (v : Z) (x : conf_state) : conf_state :=
  mk_conf v (mc_filter x) (phys x) (advertising x) (full_duplex x) (duplex_lock x) (link_speed x) (config1 x)
    (max_interrupt_work x) (multicast_filter_limit x) (caps x) (tx_timeout_count x).

Definition set_mc_filter (v : list Z) (x : conf_state) : conf_state :=
  mk_conf (rx_config x) v (phys x) (advertising x) (full_duplex x) (duplex_lock x) (link_speed x) (config1 x)
    (max_interrupt_work x) (multicast_filter_limit x) (caps x) (tx_timeout_count x).

Definition add_timeout (x : conf_state) : conf_state :=
  mk_conf (rx_config x) (mc_filter x) (phys x) (advertising x) (full_duplex x) (duplex_lock x) (link_speed x)
    (config1 x) (max_interrupt_work x) (multicast_filter_limit x) (caps x) (u32 (tx_timeout_count x + 1)).

(** *** Statistics *)

Definition with_stats (f : netdev_stats -> netdev_stats) (d : netdev) : netdev :=
  mk_netdev (name d) (flags d) (state d) (pci_dev d) (iobase d) (irq d) (hwaddr d) (ops d) (driver_data d)
    (f (stats d)).

Definition count_rx (n : Z) (x : netdev_stats) : netdev_stats :=
  mk_stats (u32 (rx_packets x + 1)) (tx_packets x) (u32 (rx_bytes x + n)) (tx_bytes x) (rx_errors x) (tx_errors x)
    (rx_dropped x) (tx_dropped x) (rx_crc_errors x) (rx_fifo_errors x) (tx_fifo_errors x) (collisions x).

Definition count_tx (n : Z) (x : netdev_stats) : netdev_stats :=
  mk_stats (rx_packets x) (u32 (tx_packets x + 1)) (rx_bytes x) (u32 (tx_bytes x + n)) (rx_errors x) (tx_errors x)
    (rx_dropped x) (tx_dropped x) (rx_crc_errors x) (rx_fifo_errors x) (tx_fifo_errors x) (collisions x).

Definition add_rx_errors (n crc : Z) (x : netdev_stats) : netdev_stats :=
  mk_stats (rx_packets x) (tx_packets x) (rx_bytes x) (tx_bytes x) (u32 (rx_errors x + n)) (tx_errors x)
    (rx_dropped x) (tx_dropped x) (u32 (rx_crc_errors x + crc)) (rx_fifo_errors x) (tx_fifo_errors x) (collisions x).

Definition add_tx_errors (n : Z) (x : netdev_stats) : netdev_stats :=
  mk_stats (rx_packets x) (tx_packets x) (rx_bytes x) (tx_bytes x) (rx_errors x) (u32 (tx_errors x + n))
    (rx_dropped x) (tx_dropped x) (rx_crc_errors x) (rx_fifo_errors x) (tx_fifo_errors x) (collisions x).

Definition add_dropped (r t : Z) (x : netdev_stats) : netdev_stats :=
  mk_stats (rx_packets x) (tx_packets x) (rx_bytes x) (tx_bytes x) (rx_errors x) (tx_errors x)
    (u32 (rx_dropped x + r)) (u32 (tx_dropped x + t)) (rx_crc_errors x) (rx_fifo_errors x) (tx_fifo_errors x)
    (collisions x).

Definition add_tx_done (fifo coll : Z) (x : netdev_stats) : netdev_stats :=
  mk_stats (rx_packets x) (tx_packets x) (rx_bytes x) (tx_bytes x) (rx_errors x) (tx_errors x)
    (rx_dropped x) (tx_dropped x) (rx_crc_errors x) (rx_fifo_errors x) (u32 (tx_fifo_errors x + fifo))
    (u32 (collisions x + coll)).

(** ** Functions on the card and the driver *)

Section Card.
Context {P : Type} `{PortIO P} `{PortIO32 P}.

Abbreviation C := (M (nics P rtls)).

Definition get_rtl (p : Z) : C rtl8139 := fun d =>
  match rtl_objs (nic_drv d) !! p with Some x => Some (x, d) | None => None end.

Definition put_rtl (p : Z) (x : rtl8139) : C unit := modify (fun d => let r := nic_drv d in
  put_drv (mk_rtls (<[p := x]> (rtl_objs r)) (dma r) (vectors r)) d).

Definition upd_rtl (p : Z) (f : rtl8139 -> rtl8139) : C unit := let! x := get_rtl p in put_rtl p (f x).

(** The memory of a card by its address. *)
Definition get_dma (p : Z) : C (list Z) := fun d =>
  match dma (nic_drv d) !! p with Some x => Some (x, d) | None => None end.

Definition put_dma (p : Z) (x : list Z) : C unit := modify (fun d => let r := nic_drv d in
  put_drv (mk_rtls (rtl_objs r) (<[p := x]> (dma r)) (vectors r)) d).

(** Port I/O; a port number is an [unsigned short]. *)
Definition io_out (f : P -> Z -> Z -> P) (port v : Z) : C unit :=
  modify (fun d => put_ports (f (nic_ports d) (u16 port) v) d).

Definition io_in (f : P -> Z -> Z * P) (port : Z) : C Z := fun d =>
  let '(v, p) := f (nic_ports d) (u16 port) in Some (v, put_ports p d).

Definition outb (port v : Z) : C unit := io_out p_outb port (u8 v).
Definition outw (port v : Z) : C unit := io_out p_outw port (u16 v).
Definition outl (port v : Z) : C unit := io_out p_outl port (u32 v).
Definition insb (port : Z) : C Z := io_in p_insb port.
Definition insw (port : Z) : C Z := io_in p_insw port.
Definition insl (port : Z) : C Z := io_in p_insl port.

(** *** The serial EEPROM *)

Definition eeprom_delay (ee_addr : Z) : C unit := let! _ := insl ee_addr in ret tt.

(** [for (i = 4 + addr_len; i >= 0; i--)], [n] bits left. *)
Fixpoint eeprom_send (n : nat) (ee_addr read_cmd : Z) : C unit :=
  match n with
  | O => ret tt
  | S n' =>
    let dataval := if has read_cmd (Z.shiftl 1 (Z.of_nat n')) then EE_DATA_WRITE else 0 in
    outb ee_addr (Z.lor EE_ENB dataval) ;!
    eeprom_delay ee_addr ;!
    outb ee_addr (Z.lor (Z.lor EE_ENB dataval) EE_SHIFT_CLK) ;!
    eeprom_delay ee_addr ;!
    eeprom_send n' ee_addr read_cmd
  end.

(** [for (i = 16; i > 0; i--)], [n] bits left. *)
Fixpoint eeprom_receive (n : nat) (ee_addr retval : Z) : C Z :=
  match n with
  | O => ret retval
  | S n' =>
    outb ee_addr (Z.lor EE_ENB EE_SHIFT_CLK) ;!
    eeprom_delay ee_addr ;!
    let! b := insb ee_addr in
    let retval := u32 (Z.lor (Z.shiftl retval 1) (if has b EE_DATA_READ then 1 else 0)) in
    outb ee_addr EE_ENB ;!
    eeprom_delay ee_addr ;!
    eeprom_receive n' ee_addr retval
  end.

Definition rtl8139_read_eeprom (iobase location addr_len : Z) : C Z :=
  let ee_addr := u16 (iobase + Cfg9346) in
  let read_cmd := Z.lor location (Z.shiftl EE_READ_CMD addr_len) in
  outb ee_addr (Z.land EE_ENB (Z.lnot EE_CS)) ;!
  outb ee_addr EE_ENB ;!
  eeprom_send (Z.to_nat (5 + addr_len)) ee_addr read_cmd ;!
  outb ee_addr EE_ENB ;!
  eeprom_delay ee_addr ;!
  let! retval := eeprom_receive 16 ee_addr 0 in
  outb ee_addr (Z.lnot EE_CS) ;!
  ret (s32 retval).

(** *** The management interface of the transceiver *)

Definition mdio_delay (mdio_addr : Z) : C unit := let! _ := insl mdio_addr in ret tt.

(** One clock with [v] on the data line. *)
Definition mdio_clock (mdio_addr v : Z) : C unit :=
  outb mdio_addr v ;!
  mdio_delay mdio_addr ;!
  outb mdio_addr (Z.lor v MDIO_CLK) ;!
  mdio_delay mdio_addr.

Definition mii_2_8139_map : list Z := [MII_BMCR; MII_BMSR; 0; 0; NWayAdvert; NWayLPAR; NWayExpansion; 0].

(** [for (i = 32; i >= 0; i--)] *)
Definition mdio_sync (mdio_addr : Z) : C unit := for_loop 33 0 (fun _ => mdio_clock mdio_addr MDIO_WRITE1).

Fixpoint mdio_send (n : nat) (mdio_addr mii_cmd one zero : Z) : C unit :=
  match n with
  | O => ret tt
  | S n' =>
    mdio_clock mdio_addr (if has mii_cmd (Z.shiftl 1 (Z.of_nat n')) then one else zero) ;!
    mdio_send n' mdio_addr mii_cmd one zero
  end.

Fixpoint mdio_receive (n : nat) (mdio_addr retval : Z) : C Z :=
  match n with
  | O => ret retval
  | S n' =>
    outb mdio_addr 0 ;!
    mdio_delay mdio_addr ;!
    let! b := insb mdio_addr in
    let retval := s32 (Z.lor (Z.shiftl retval 1) (if has b MDIO_DATA_IN then 1 else 0)) in
    outb mdio_addr MDIO_CLK ;!
    mdio_delay mdio_addr ;!
    mdio_receive n' mdio_addr retval
  end.

Definition rtl8139_mdio_read (rtl phy_id location : Z) : C Z :=
  let! r := get_rtl rtl in
  let mdio_addr := u16 (rtl_iobase r + MII_SMI) in
  let mii_cmd := s32 (Z.lor (Z.lor (Z.shiftl 0xf6 10) (Z.shiftl phy_id 5)) location) in
  if 31 <? phy_id then
    if location <? 8 then
      let! reg := lift (rd mii_2_8139_map location) in
      if negb (reg =? 0) then insw (rtl_iobase r + reg) else ret 0
    else ret 0
  else
    mdio_sync mdio_addr ;!
    mdio_send 15 mdio_addr mii_cmd (Z.lor MDIO_DIR MDIO_DATA_OUT) MDIO_DIR ;!
    let! retval := mdio_receive 19 mdio_addr 0 in
    ret (Z.land (Z.shiftr retval 1) 0xffff).

Definition rtl8139_mdio_write (rtl phy_id location value : Z) : C unit :=
  let! r := get_rtl rtl in
  let mdio_addr := u16 (rtl_iobase r + MII_SMI) in
  let mii_cmd := s32 (Z.lor (Z.lor (Z.lor (Z.shiftl 0x5002 16) (Z.shiftl phy_id 23)) (Z.shiftl location 18)) value) in
  if 31 <? phy_id then
    let ioaddr := rtl_iobase r in
    if location =? 0 then
      outb (ioaddr + Cfg9346) 0xc0 ;!
      outw (ioaddr + MII_BMCR) value ;!
      outb (ioaddr + Cfg9346) 0x00
    else if location <? 8 then
      let! reg := lift (rd mii_2_8139_map location) in
      if negb (reg =? 0) then outw (ioaddr + reg) value else ret tt
    else ret tt
  else
    mdio_sync mdio_addr ;!
    mdio_send 32 mdio_addr mii_cmd MDIO_WRITE1 MDIO_WRITE0 ;!
    for_loop 2 0 (fun _ => mdio_clock mdio_addr 0).

(** *** Configuration *)

(** The result is the address of [dev->stats]: the statistics stay in the device. *)
Definition rtl8139_get_stats (dev : Z) : C unit :=
  let! d := get_netdev dev in
  let! r := get_rtl (driver_data d) in
  let! missed := insl (rtl_iobase r + RxMissed) in
  upd_netdev dev (with_stats (add_dropped missed 0)) ;!
  outl (rtl_iobase r + RxMissed) 0.

Definition rtl8139_set_rx_mode (dev : Z) : C Z :=
  let! d := get_netdev dev in
  let rtl := driver_data d in
  let! r := get_rtl rtl in
  let ioaddr := rtl_iobase r in
  let rx_mode := Z.lor (Z.lor AcceptBroadcast AcceptMulticast) AcceptMyPhys in
  outl (ioaddr + RxConfig) (Z.lor (rx_config (conf r)) rx_mode) ;!
  upd_rtl rtl (fun r => with_conf (set_mc_filter [0xffffffff; 0xffffffff] (conf r)) r) ;!
  outl (ioaddr + MAR0 + 0) 0xffffffff ;!
  outl (ioaddr + MAR0 + 4) 0xffffffff ;!
  ret 0.

Definition rtl8139_init_ring (rtl : Z) : C unit :=
  upd_rtl rtl (fun r => let t := tx r in
    with_tx (mk_tx 0 0 0 (tx_flag t) (replicate 4 None)
      (map (fun i => ptr_add (tx_bufs_mem t) (i * TX_BUF_SIZE)) [0; 1; 2; 3]) (tx_bufs_mem t) (trans_start t)) r).

(** [for (i = 1000; i > 0; i--)]: gives up after the last poll. *)
Fixpoint wait_reset (n : nat) (ioaddr : Z) : C unit :=
  match n with
  | O => ret tt
  | S n' =>
    let! c := insb (ioaddr + ChipCmd) in
    if Z.land c CmdReset =? 0 then ret tt else wait_reset n' ioaddr
  end.

Definition intr_mask : Z :=
  Z.lor PCIErr (Z.lor PCSTimeout (Z.lor RxUnderrun (Z.lor RxOverflow (Z.lor RxFIFOOver (Z.lor TxErr
    (Z.lor TxOK (Z.lor RxErr RxOK))))))).

(** The second word of the address takes the two bytes behind [hwaddr], which are
    padding of the zeroed structure. *)
Definition rtl8139_hw_start (rtl : Z) : C Z :=
  let! r := get_rtl rtl in
  let ioaddr := rtl_iobase r in
  outb (ioaddr + ChipCmd) CmdReset ;!
  wait_reset 1000 ioaddr ;!
  outb (ioaddr + Cfg9346) 0xc0 ;!
  let! d := get_netdev (rtl_netdev r) in
  outl (ioaddr + MAC0 + 0) (le_val (take 4 (hwaddr d))) ;!
  outl (ioaddr + MAC0 + 4) (le_val (drop 4 (hwaddr d) ++ [0; 0])) ;!
  upd_rtl rtl (fun r => with_rx (set_cur_rx 0 (rx r)) r) ;!
  outb (ioaddr + ChipCmd) (Z.lor CmdRxEnb CmdTxEnb) ;!
  outl (ioaddr + RxConfig) (rx_config (conf r)) ;!
  outl (ioaddr + TxConfig) (Z.shiftl TX_DMA_BURST 8) ;!
  let! phy := lift (phys (conf r) !! 0%nat) in
  (if (0 <=? phy) || has (caps (conf r)) HAS_MII_XCVR then
     let! v := rtl8139_mdio_read rtl phy 5 in
     let mii_reg5 := u16 v in
     if negb (mii_reg5 =? 0xffff) && ((Z.land mii_reg5 0x0100 =? 0x0100) || (Z.land mii_reg5 0x00c0 =? 0x0040))
     then upd_rtl rtl (fun r => with_conf (set_duplex 1 (conf r)) r)
     else ret tt
   else ret tt) ;!
  (if has (caps (conf r)) HAS_MII_XCVR then
     let! r := get_rtl rtl in
     outb (ioaddr + Config1) (if negb (full_duplex (conf r) =? 0) then 0x60 else 0x20)
   else ret tt) ;!
  outb (ioaddr + Cfg9346) 0x00 ;!
  outl (ioaddr + RxBuf) (rx_ring (rx r)) ;!
  outl (ioaddr + RxMissed) 0 ;!
  let! _ := rtl8139_set_rx_mode (rtl_netdev r) in
  outb (ioaddr + ChipCmd) (Z.lor CmdRxEnb CmdTxEnb) ;!
  outw (ioaddr + IntrMask) intr_mask ;!
  let! _ := insw (ioaddr + IntrMask) in
  ret 0.

Definition with_hwaddr (l : list Z) (d : netdev) : netdev :=
  mk_netdev (name d) (flags d) (state d) (pci_dev d) (iobase d) (irq d) l (ops d) (driver_data d) (stats d).

Definition rtl8139_get_mac_address (rtl : Z) : C unit :=
  let! r := get_rtl rtl in
  for_loop 3 0 (fun i =>
    let! v := rtl8139_read_eeprom (rtl_iobase r) (i + 7) 8 in
    let eeprom_data := u16 v in
    upd_netdev (rtl_netdev r) (fun d => with_hwaddr
      (<[Z.to_nat (i * 2) := Z.land eeprom_data 0xff]>
        (<[Z.to_nat (i * 2 + 1) := Z.land (Z.shiftr eeprom_data 8) 0xff]> (hwaddr d))) d)).

(** *** Transmitting *)

Definition rtl8139_transmit (dev : Z) (buf : netbuf) : C Z :=
  let! d := get_netdev dev in
  let rtl := driver_data d in
  let! r := get_rtl rtl in
  let ioaddr := rtl_iobase r in
  let t := tx r in
  let len := nb_len buf in
  if NUM_TX_DESC <=? u32 (cur_tx t - dirty_tx t) then
    upd_netdev dev (with_stats (add_dropped 0 1)) ;!
    ret (-1)
  else
    let entry := cur_tx t mod NUM_TX_DESC in
    upd_rtl rtl (fun r => with_tx (set_tx_bufs (<[Z.to_nat entry := Some buf]> (tx_bufs (tx r))) (tx r)) r) ;!
    let! a := lift (tx_buffer t !! Z.to_nat entry) in
    let! m := get_dma (rx_ring (rx r)) in
    let! m := lift (copy m (a - rx_ring (rx r)) (nb_data buf) len) in
    put_dma (rx_ring (rx r)) m ;!
    outl (ioaddr + TxAddr0 + entry * 4) a ;!
    outl (ioaddr + TxStatus0 + entry * 4)
      (Z.lor (tx_flag t) (if ETH_ZLEN <=? len then len else ETH_ZLEN)) ;!
    upd_rtl rtl (fun r => let t := tx r in
      with_tx (mk_tx (tx_lock t) (u32 (cur_tx t + 1)) (dirty_tx t) (tx_flag t) (tx_bufs t) (tx_buffer t)
                 (tx_bufs_mem t) 0) r) ;!
    upd_netdev dev (with_stats (count_tx len)) ;!
    ret 0.

End Card.

(** ** The card as a network device *)

(** The stack serves the first device of the registry. *)
Section Device.
Context {P : Type} `{PortIO P} `{PortIO32 P}.

Definition first_dev (d : nics P rtls) : option (Z * netdev) :=
  if netdev_count (nic_reg d) <=? 0 then None
  else p ← netdevs (nic_reg d) !! 0%nat; x ← dev_objs (nic_reg d) !! p; Some (p, x).

Definition put_dev (p : Z) (x : netdev) (d : nics P rtls) : nics P rtls :=
  let r := nic_reg d in
  put_reg (mk_reg (netdevs r) (netdev_count r) (eth_counter r) (<[p := x]> (dev_objs r))) d.

Definition dev_hwaddr (d : nics P rtls) : list Z := from_option (fun x => hwaddr x.2) [] (first_dev d).

Definition dev_count_rx (d : nics P rtls) (n : Z) : nics P rtls :=
  match first_dev d with Some (p, x) => put_dev p (with_stats (count_rx n) x) d | None => d end.

(** [dev->ops->transmit(dev, buf)] *)
Definition dev_transmit (d : nics P rtls) (buf : netbuf) : option (Z * nics P rtls) :=
  '(p, x) ← first_dev d;
  o ← ops x;
  match op_transmit o with
  | Some fp_rtl8139_transmit => rtl8139_transmit p buf d
  | _ => None
  end.

Lemma first_dev_put p x x' d :
  first_dev d = Some (p, x) -> first_dev (put_dev p x' d) = Some (p, x').
Proof.
  unfold first_dev, put_dev. cbn [nic_reg put_reg netdev_count netdevs dev_objs].
  destruct (netdev_count (nic_reg d) <=? 0); [done|]. destruct (netdevs (nic_reg d) !! 0%nat) as [q|]; [|done].
  cbn. destruct (dev_objs (nic_reg d) !! q); [|done]. cbn. intros [= -> ->]. by rewrite lookup_insert_eq.
Qed.

#[export, program] Instance rtl8139_driver : NetDriver (nics P rtls) := {
  nd_hwaddr := dev_hwaddr; nd_count_rx := dev_count_rx; nd_transmit := dev_transmit }.
Next Obligation.
  intros d n. unfold dev_hwaddr, dev_count_rx. destruct (first_dev d) as [[p x]|] eqn:E; [|by rewrite E].
  by rewrite (first_dev_put _ _ _ _ E).
Qed.

End Device.

(** ** Functions that allocate or hand packets up *)

Section Driver.
Context {A P : Type} `{KAlloc A} `{PortIO P} `{PortIO32 P}.

Abbreviation N := (M (net A (nics P rtls))).

Definition upd_stats (dev : Z) (f : netdev_stats -> netdev_stats) : N unit :=
  on_dev (upd_netdev dev (with_stats f)).

(** *** Receiving *)

Definition b2z (b : bool) : Z := if b then 1 else 0.

(** The error counters for a frame with the status [rx_status]. *)
Definition count_rx_errors (rx_status : Z) (x : netdev_stats) : netdev_stats :=
  add_rx_errors (1 + b2z (has rx_status (Z.lor RxBadSymbol RxBadAlign)) + b2z (has rx_status (Z.lor RxRunt RxTooLong)))
    (b2z (has rx_status RxCRCErr)) x.

Definition rx_error_bits : Z :=
  Z.lor RxBadSymbol (Z.lor RxRunt (Z.lor RxTooLong (Z.lor RxCRCErr RxBadAlign))).

(** The packet of [pkt_size] bytes behind the header at [ring_offset], copied in
    two parts if it goes over the end of the ring. *)
Definition copy_packet (ring : list Z) (rx_buf_len ring_offset rx_size pkt_size : Z) (data : list Z)
    : option (list Z) :=
  if rx_buf_len <? u32 (ring_offset + rx_size) then
    let semi_count := s32 (rx_buf_len - ring_offset - 4) in
    data ← copy data 0 (drop (Z.to_nat (ring_offset + 4)) ring) semi_count;
    copy data semi_count ring (pkt_size - semi_count)
  else copy data 0 (drop (Z.to_nat (ring_offset + 4)) ring) pkt_size.

(** The loop of [rtl8139_rx]; [cur_rx] is the 16-bit local.  [fuel] bounds the
    number of frames: a ring of 64 KB holds at most 8192. *)
Fixpoint rx_loop (fuel : nat) (rtl : rtl8139) (cur_rx : Z) : N Z :=
  match fuel with
  | O => fault
  | S fuel' =>
    let ioaddr := rtl_iobase rtl in
    let! cmd := on_dev (insb (ioaddr + ChipCmd)) in
    if has cmd RxBufEmpty then ret cur_rx
    else
      let ring_offset := cur_rx mod rx_buf_len (rx rtl) in
      let! ring := on_dev (get_dma (rx_ring (rx rtl))) in
      let! hdr := lift (fetch ring ring_offset 4) in
      let rx_status := le_val hdr in
      let rx_size := Z.shiftr rx_status 16 in
      let next := u16 (Z.land (cur_rx + rx_size + 4 + 3) (Z.lnot 3)) in
      if has rx_status 0x8000 then
        (if has rx_status rx_error_bits then upd_stats (rtl_netdev rtl) (count_rx_errors rx_status) else ret tt) ;!
        on_dev (outw (ioaddr + RxBufPtr) (next - 16)) ;!
        rx_loop fuel' rtl next
      else
        let pkt_size := s32 (rx_size - 4) in
        let! b := alloc_buf pkt_size in
        match b with
        | None => upd_stats (rtl_netdev rtl) (add_dropped 1 0) ;! ret cur_rx
        | Some netbuf =>
          let! data := lift (copy_packet ring (rx_buf_len (rx rtl)) ring_offset rx_size pkt_size (nb_data netbuf)) in
          let netbuf := mk_netbuf (nb_addr netbuf) (nb_data_addr netbuf) data (u16 pkt_size) (u16 pkt_size) in
          let! (res, netbuf) := netdev_rx netbuf in
          (if res <? 0 then free_buf netbuf else ret tt) ;!
          upd_stats (rtl_netdev rtl) (count_rx pkt_size) ;!
          on_dev (outw (ioaddr + RxBufPtr) (next - 16)) ;!
          rx_loop fuel' rtl next
        end
  end.

Definition rx_fuel : nat := Z.to_nat 8193.

Definition rtl8139_rx (rtl : Z) : N Z :=
  let! r := on_dev (get_rtl rtl) in
  let! cur := rx_loop rx_fuel r (u16 (cur_rx (rx r))) in
  on_dev (upd_rtl rtl (fun r => with_rx (set_cur_rx cur (rx r)) r)) ;!
  ret 0.

(** *** Completed transmissions *)

(** What a finished descriptor with status [s] adds to the counters. *)
Definition count_tx_status (s : Z) (x : netdev_stats) : netdev_stats :=
  if has s (Z.lor TxOutOfWindow TxAborted) then
    add_tx_errors (1 + b2z (has s TxAborted) + b2z (has s TxCarrierLost) + b2z (has s TxOutOfWindow)) x
  else count_tx (Z.land s 0x7ff) (add_tx_done (b2z (has s TxUnderrun)) (Z.land (Z.shiftr s 24) 15) x).

(** [fuel] bounds the number of descriptors. *)
Fixpoint tx_clear_loop (fuel : nat) (rtl : Z) (dirty_tx : Z) : N Z :=
  match fuel with
  | O => fault
  | S fuel' =>
    let! r := on_dev (get_rtl rtl) in
    let ioaddr := rtl_iobase r in
    if u32 (cur_tx (tx r) - dirty_tx) =? 0 then ret dirty_tx
    else
      let entry := dirty_tx mod NUM_TX_DESC in
      let! v := on_dev (insl (ioaddr + TxStatus0 + entry * 4)) in
      let txstatus := s32 v in
      if negb (has txstatus (Z.lor TxStatOK (Z.lor TxUnderrun TxAborted))) then ret dirty_tx
      else
        upd_stats (rtl_netdev r) (count_tx_status txstatus) ;!
        (if has txstatus (Z.lor TxOutOfWindow TxAborted) then
           if has txstatus TxAborted then on_dev (outl (ioaddr + TxConfig) (Z.shiftl TX_DMA_BURST 8)) else ret tt
         else if has txstatus TxUnderrun && (tx_flag (tx r) <? 0x00300000) then
           on_dev (upd_rtl rtl (fun r => with_tx (set_tx_flag (tx_flag (tx r) + 0x00020000) (tx r)) r))
         else ret tt) ;!
        let! b := lift (tx_bufs (tx r) !! Z.to_nat entry) in
        (match b with
         | Some buf =>
           free_buf buf ;!
           on_dev (upd_rtl rtl (fun r =>
             with_tx (set_tx_bufs (<[Z.to_nat entry := None]> (tx_bufs (tx r))) (tx r)) r))
         | None => ret tt
         end) ;!
        tx_clear_loop fuel' rtl (u32 (dirty_tx + 1))
  end.

Definition tx_fuel : nat := 5.

Definition rtl8139_tx_clear (rtl : Z) : N unit :=
  let! r := on_dev (get_rtl rtl) in
  let! dirty := tx_clear_loop tx_fuel rtl (dirty_tx (tx r)) in
  on_dev (upd_rtl rtl (fun r => with_tx (set_tx_ptrs (cur_tx (tx r)) dirty (tx r)) r)).

(** [for (i = 0; i < NUM_TX_DESC; i++)] of the timeout and of [rtl8139_close]:
    frees the packets that have not been sent; [drop] counts them. *)
Definition free_tx (rtl : Z) (drop : bool) : N unit :=
  for_loop 4 0 (fun i =>
    let! r := on_dev (get_rtl rtl) in
    let! b := lift (tx_bufs (tx r) !! Z.to_nat i) in
    match b with
    | Some buf =>
      free_buf buf ;!
      on_dev (upd_rtl rtl (fun r => with_tx (set_tx_bufs (<[Z.to_nat i := None]> (tx_bufs (tx r))) (tx r)) r)) ;!
      if drop then upd_stats (rtl_netdev r) (add_dropped 0 1) else ret tt
    | None => ret tt
    end).

Definition rtl8139_tx_timeout (rtl : Z) : N unit :=
  let! r := on_dev (get_rtl rtl) in
  let ioaddr := rtl_iobase r in
  let! _ := on_dev (insw (ioaddr + IntrStatus)) in
  let! _ := on_dev (insb (ioaddr + ChipCmd)) in
  let! _ := on_dev (insb (ioaddr + GPPinData)) in
  on_dev (outw (ioaddr + IntrMask) 0x0000) ;!
  for_loop 4 0 (fun i => let! _ := on_dev (insl (ioaddr + TxStatus0 + i * 4)) in ret tt) ;!
  free_tx rtl true ;!
  let! _ := on_dev (rtl8139_hw_start rtl) in
  on_dev (upd_rtl rtl (fun r => with_conf (add_timeout (conf r)) (with_tx (set_tx_ptrs 0 0 (tx r)) r))).

(** *** The interrupt handler *)

(** [while (max_work-- > 0)] *)
Fixpoint interrupt_loop (max_work : nat) (rtl ioaddr : Z) : N unit :=
  match max_work with
  | O => ret tt
  | S n' =>
    let! status := on_dev (insw (ioaddr + IntrStatus)) in
    if (status =? 0) || (status =? 0xffff) then ret tt
    else
      on_dev (outw (ioaddr + IntrStatus) status) ;!
      (if has status (Z.lor RxOK RxErr) then let! _ := rtl8139_rx rtl in ret tt else ret tt) ;!
      (if has status (Z.lor TxOK TxErr) then rtl8139_tx_clear rtl else ret tt) ;!
      interrupt_loop n' rtl ioaddr
  end.

Definition eth0 : list Z := [101; 116; 104; 48; 0].

Definition rtl8139_interrupt : N unit :=
  let! s := get in
  let! rtl_dev := lift (pci_find_device (nic_pci (n_dev s)) RTL8139_VENDOR_ID RTL8139_DEVICE_ID) in
  match rtl_dev with
  | None => ret tt
  | Some _ =>
    let! dev := lift (netdev_get_by_name (nic_reg (n_dev s)) eth0) in
    if dev =? NULL then ret tt
    else
      let! d := on_dev (get_netdev dev) in
      if driver_data d =? NULL then ret tt
      else
        let! r := on_dev (get_rtl (driver_data d)) in
        interrupt_loop (Z.to_nat (max_interrupt_work (conf r))) (driver_data d) (rtl_iobase r)
  end.

(** *** Opening and closing *)

(** [do ... while (rtl->rx_ring == NULL && --rx_buf_len_idx >= 0)]; the size of
    the ring and the final index. *)
Fixpoint alloc_ring (n : nat) (idx : Z) : N (Z * Z * Z) :=
  let rx_buf_len := Z.shiftl 8192 idx in
  let! p := net_kzalloc (rx_buf_len + 16 + TX_BUF_SIZE * NUM_TX_DESC) in
  if p =? NULL then
    match n with
    | O => ret (p, rx_buf_len, idx - 1)
    | S n' => alloc_ring n' (idx - 1)
    end
  else ret (p, rx_buf_len, idx).

Definition rtl8139_open (dev : Z) : N Z :=
  let! d := on_dev (get_netdev dev) in
  let rtl := driver_data d in
  let! r := on_dev (get_rtl rtl) in
  on_dev (modify (fun d => let x := nic_drv d in
    put_drv (mk_rtls (rtl_objs x) (dma x) (0x20 + rtl_irq r :: vectors x)) d)) ;!
  let! (p, len, idx) := alloc_ring (Z.to_nat RX_BUF_LEN_IDX) RX_BUF_LEN_IDX in
  on_dev (upd_rtl rtl (fun r => with_rx (mk_rx p (cur_rx (rx r)) len) r)) ;!
  if p =? NULL then ret (-1)
  else
    on_dev (put_dma p (replicate (Z.to_nat (len + 16 + TX_BUF_SIZE * NUM_TX_DESC)) 0)) ;!
    on_dev (upd_rtl rtl (fun r => let t := tx r in
      with_tx (mk_tx (tx_lock t) (cur_tx t) (dirty_tx t) (tx_flag t) (tx_bufs t) (tx_buffer t)
                 (ptr_add p (len + 16)) (trans_start t)) r)) ;!
    on_dev (rtl8139_init_ring rtl) ;!
    on_dev (upd_rtl rtl (fun r =>
      with_conf (set_rx_config (Z.lor (Z.lor (Z.shiftl RX_FIFO_THRESH 13) (Z.shiftl idx 11)) (Z.shiftl RX_DMA_BURST 8))
                  (set_duplex (duplex_lock (conf r)) (conf r)))
        (with_tx (set_tx_flag (Z.land (Z.shiftl TX_FIFO_THRESH 11) 0x003f0000) (tx r)) r))) ;!
    let! _ := on_dev (rtl8139_hw_start rtl) in
    let! _ := on_dev (insw (rtl_iobase r + IntrStatus)) in
    let! _ := on_dev (insb (rtl_iobase r + ChipCmd)) in
    ret 0.

Definition rtl8139_close (dev : Z) : N Z :=
  let! d := on_dev (get_netdev dev) in
  let rtl := driver_data d in
  let! r := on_dev (get_rtl rtl) in
  let ioaddr := rtl_iobase r in
  let! _ := on_dev (insw (ioaddr + IntrStatus)) in
  on_dev (outw (ioaddr + IntrMask) 0x0000) ;!
  on_dev (outb (ioaddr + ChipCmd) 0x00) ;!
  let! missed := on_dev (insl (ioaddr + RxMissed)) in
  upd_stats dev (add_dropped missed 0) ;!
  on_dev (outl (ioaddr + RxMissed) 0) ;!
  free_tx rtl false ;!
  net_kfree (rx_ring (rx r)) ;!
  on_dev (modify (fun d => let x := nic_drv d in
    put_drv (mk_rtls (rtl_objs x) (delete (rx_ring (rx r)) (dma x)) (vectors x)) d)) ;!
  on_dev (upd_rtl rtl (fun r => with_rx (mk_rx NULL (cur_rx (rx r)) (rx_buf_len (rx r))) r)) ;!
  on_dev (outb (ioaddr + Cfg9346) 0xc0) ;!
  on_dev (outb (ioaddr + Config1) (Z.lor (config1 (conf r)) 0x03)) ;!
  on_dev (outb (ioaddr + HltClk) 72) ;!
  ret 0.

(** *** Finding a card *)

Definition rtl8139_netdev_ops : netdev_ops :=
  mk_ops (Some fp_rtl8139_open) (Some fp_rtl8139_close) (Some fp_rtl8139_transmit) (Some fp_rtl8139_set_rx_mode)
    (Some fp_rtl8139_get_stats).

Definition PCI_COMMAND_IO : Z := 0x0001.
Definition PCI_COMMAND_MASTER : Z := 0x0004.
Definition PCI_COMMAND_INTX_DISABLE : Z := 0x0400.

Definition on_cfg {X} (x : M P X) : N X := on_dev (fun d =>
  match x (nic_ports d) with Some (r, p) => Some (r, put_ports p d) | None => None end).

(** The card at index [i] of the PCI table. *)
Definition rtl8139_init (i : Z) : N Z :=
  let! s := get in
  let! x := lift (pci_devices (nic_pci (n_dev s)) !! Z.to_nat i) in
  let! b := lift (bar x !! 0%nat) in
  let iobase := u16 (Z.land b 0xfffffffc) in
  let irq := interrupt_line x in
  let! cmd := on_cfg (pci_config_read_32 (bus x) (device x) (function x) PCI_COMMAND) in
  let cmd := Z.land (Z.lor cmd (Z.lor PCI_COMMAND_IO PCI_COMMAND_MASTER)) (u32 (Z.lnot PCI_COMMAND_INTX_DISABLE)) in
  on_cfg (pci_config_write_32 (bus x) (device x) (function x) PCI_COMMAND cmd) ;!
  let! _ := on_cfg (pci_config_read_32 (bus x) (device x) (function x) PCI_COMMAND) in
  let! rtl := net_kzalloc sizeof_rtl8139 in
  if rtl =? NULL then ret (-1)
  else
    on_dev (put_rtl rtl zero_rtl) ;!
    let! netdev := netdev_create eth (Some rtl8139_netdev_ops) (Some i) rtl in
    if netdev =? NULL then
      on_dev (modify (fun d => let x := nic_drv d in
        put_drv (mk_rtls (delete rtl (rtl_objs x)) (dma x) (vectors x)) d)) ;!
      net_kfree rtl ;!
      ret (-1)
    else
      on_dev (upd_rtl rtl (fun r => mk_rtl netdev iobase irq (interrupt_registered r) (rx r) (tx r)
        (mk_conf (rx_config (conf r)) (mc_filter (conf r)) [32; 255; 255; 255] (advertising (conf r)) 0 0
           (link_speed (conf r)) (config1 (conf r)) 20 32 RTL8139_CAPS (tx_timeout_count (conf r))))) ;!
      on_dev (rtl8139_get_mac_address rtl) ;!
      on_dev (upd_netdev netdev (fun d => mk_netdev (name d) (flags d) NETDEV_STATE_DOWN (pci_dev d) iobase irq
        (hwaddr d) (ops d) (driver_data d) (stats d))) ;!
      ret 0.

Definition rtl8139_cleanup (rtl : Z) : N unit :=
  if rtl =? NULL then ret tt
  else
    let! r := on_dev (get_rtl rtl) in
    if rtl_netdev r =? NULL then ret tt
    else
      netdev_destroy (rtl_netdev r) ;!
      on_dev (modify (fun d => let x := nic_drv d in
        put_drv (mk_rtls (delete rtl (rtl_objs x)) (dma x) (vectors x)) d)) ;!
      net_kfree rtl.

(** Calls through the function pointers of [struct netdev_ops]. *)
Definition call_netdev (f : netdev_fp) (dev : Z) : N Z :=
  match f with
  | fp_rtl8139_open => rtl8139_open dev
  | fp_rtl8139_close => rtl8139_close dev
  | fp_rtl8139_set_rx_mode => on_dev (rtl8139_set_rx_mode dev)
  | fp_rtl8139_get_stats => on_dev (rtl8139_get_stats dev) ;! ret dev
  | fp_rtl8139_transmit => fault
  end.

End Driver.

#[export] Instance rtl8139_host {A P : Type} `{KAlloc A} `{PortIO P} `{PortIO32 P}
    : PciHost (net A (nics P rtls)) P := {
  ph_ports s := nic_ports (n_dev s);
  ph_set_ports p s := set_dev (put_ports p (n_dev s)) s;
  ph_db s := nic_pci (n_dev s);
  ph_set_db db s := let d := n_dev s in set_dev (mk_nics (nic_ports d) db (nic_reg d) (nic_drv d)) s;
  ph_rtl8139_init := rtl8139_init }.

(** *** Unused helpers of the multicast filter *)

Fixpoint crc_bits (n : nat) (crc octet : Z) : Z :=
  match n with
  | O => crc
  | S n' =>
    let bit := xorb (crc <? 0) (Z.land octet 1 =? 1) in
    crc_bits n' (s32 (Z.lxor (Z.shiftl crc 1) (if bit then 0x04c11db7 else 0))) (Z.shiftr octet 1)
  end.

(** [while (--length >= 0)] over the bytes of [data]. *)
Fixpoint crc_loop (data : list Z) (crc : Z) : Z :=
  match data with
  | [] => crc
  | b :: data' => crc_loop data' (crc_bits 8 crc b)
  end.

Definition rtl8139_ether_crc (data : list Z) : Z := u32 (crc_loop data (-1)).

Definition rtl8139_set_bit (filter : list Z) (bitnum : Z) : option (list Z) :=
  w ← rd filter (Z.shiftr bitnum 5);
  Some (<[Z.to_nat (Z.shiftr bitnum 5) := Z.lor w (u32 (Z.shiftl 1 (Z.land bitnum 31)))]> filter).

End Rtl8139.
