(* ===== verification/RtlCard.v ===== *)
(** * The RTL8139: what the card promises and what the driver makes of it

    [RtlCard] states the documented behaviour of the card behind its registers
    in terms of a view of the card: the four transmit descriptors, the
    descriptors handed over and not yet sent, the frames sent, the frames
    received and not yet taken, and the interrupt status.  Between the calls of
    the driver the card sends the oldest descriptor, reading the frame from
    memory, or stores a received frame in the ring. *)

From S2P Require Import Prelude CLib KAlloc Disk Inet Socket Net Pci Netdev Rtl8139.
Import Inet Socket Net Pci Netdev Rtl8139.
#[local] Open Scope prog_scope.

Record txdesc := mk_txd { td_addr : Z; td_status : Z }.

(** A received frame is its 16 status bits and its bytes without the checksum. *)
Record card := mk_card {
  c_tx : list txdesc; c_queue : list nat; c_wire : list (list Z);
  c_rx : list (Z * list Z); c_rxpos : Z; c_ring : Z; c_start : Z; c_isr : Z }.

(** Where the next frame starts: header, frame and checksum, rounded up to a word. *)
Definition next_pos (ring pos : Z) (f : list Z) : Z := ((pos + Z.of_nat (length f) + 11) / 4 * 4) mod ring.

Definition set_addr (e : nat) (v : Z) (c : card) : card :=
  mk_card (alter (fun t => mk_txd v (td_status t)) e (c_tx c)) (c_queue c) (c_wire c) (c_rx c) (c_rxpos c) (c_ring c)
    (c_start c) (c_isr c).

(** Writing the size with the owner bit clear hands the descriptor over. *)
Definition start (e : nat) (v : Z) (c : card) : card :=
  mk_card (alter (fun t => mk_txd (td_addr t) v) e (c_tx c)) (c_queue c ++ [e]) (c_wire c) (c_rx c) (c_rxpos c)
    (c_ring c) (c_start c) (c_isr c).

Definition take_frame (c : card) : card :=
  match c_rx c with
  | [] => c
  | (_, f) :: r =>
    mk_card (c_tx c) (c_queue c) (c_wire c) r (next_pos (c_ring c) (c_rxpos c) f) (c_ring c) (c_start c)
      (c_isr c)
  end.

Definition set_isr (v : Z) (c : card) : card :=
  mk_card (c_tx c) (c_queue c) (c_wire c) (c_rx c) (c_rxpos c) (c_ring c) (c_start c) v.

(** The receiver of the card and its interrupt status. *)
Definition rx_part (c : card) : list (Z * list Z) * Z * Z * Z * Z := (c_rx c, c_rxpos c, c_ring c, c_start c, c_isr c).

Definition set_ring (n : Z) (c : card) : card :=
  mk_card (c_tx c) (c_queue c) (c_wire c) (c_rx c) (c_rxpos c) n (c_start c) (c_isr c).

Definition set_start (a : Z) (c : card) : card :=
  mk_card (c_tx c) (c_queue c) (c_wire c) (c_rx c) (c_rxpos c) (c_ring c) a (c_isr c).

(** A soft reset: nothing is waiting in either direction. *)
Record is_reset (c c' : card) : Prop := {
  ir_tx : length (c_tx c') = 4%nat;
  ir_queue : c_queue c' = [];
  ir_wire : c_wire c' = c_wire c;
  ir_rx : c_rx c' = [];
  ir_pos : c_rxpos c' = 0;
  ir_isr : c_isr c' = 0
}.

Definition tx_done_bits : Z := Z.lor TxStatOK (Z.lor TxUnderrun TxAborted).

Class RtlCard (P : Type) `{PortIO P} `{PortIO32 P} := {
  card_base : Z;
  card_base_range : 0 <= card_base < 65280;
  card_view : P -> card;

  card_tx_addr : forall p e v, (e < 4)%nat -> 0 <= v < 2 ^ 32 ->
    card_view (p_outl p (card_base + TxAddr0 + Z.of_nat e * 4) v) = set_addr e v (card_view p);
  card_tx_status : forall p e v, (e < 4)%nat -> 0 <= v < 2 ^ 32 -> Z.testbit v 13 = false ->
    card_view (p_outl p (card_base + TxStatus0 + Z.of_nat e * 4) v) = start e v (card_view p);
  card_tx_read : forall p e t, c_tx (card_view p) !! e = Some t -> (e < 4)%nat ->
    (p_insl p (card_base + TxStatus0 + Z.of_nat e * 4)).1 = td_status t /\
    card_view (p_insl p (card_base + TxStatus0 + Z.of_nat e * 4)).2 = card_view p;
  card_tx_config : forall p v, card_view (p_outl p (card_base + TxConfig) v) = card_view p;
  (** The transmit registers do not touch the receiver. *)
  card_tx_rx : forall p r v, TxStatus0 <= r < TxAddr0 + 16 ->
    rx_part (card_view (p_outl p (card_base + r) v)) = rx_part (card_view p);

  (** The buffer-empty bit; the read pointer is written with an offset of 16. *)
  card_rx_empty : forall p,
    has (p_insb p (card_base + ChipCmd)).1 RxBufEmpty = bool_decide (c_rx (card_view p) = []) /\
    card_view (p_insb p (card_base + ChipCmd)).2 = card_view p;
  card_rx_ptr : forall p v st f r, c_rx (card_view p) = (st, f) :: r -> 0 <= v < 65536 ->
    (v + 16) mod c_ring (card_view p) = next_pos (c_ring (card_view p)) (c_rxpos (card_view p)) f ->
    card_view (p_outw p (card_base + RxBufPtr) v) = take_frame (card_view p);

  (** Reading the interrupt status; writing ones clears them. *)
  card_isr_read : forall p, (p_insw p (card_base + IntrStatus)).1 = c_isr (card_view p) /\
    card_view (p_insw p (card_base + IntrStatus)).2 = card_view p;
  card_isr_write : forall p v, 0 <= v < 65536 ->
    card_view (p_outw p (card_base + IntrStatus) v)
    = set_isr (Z.ldiff (c_isr (card_view p)) v) (card_view p);

  (** The command register: a reset, or only enabling. *)
  card_reset : forall p v, has v CmdReset = true ->
    is_reset (card_view p) (card_view (p_outb p (card_base + ChipCmd) v));
  card_enable : forall p v, has v CmdReset = false ->
    card_view (p_outb p (card_base + ChipCmd) v) = card_view p;
  (** The ring: bits 11 and 12 of the configuration are its size, 8 KB times a
      power of two; its address is a register. *)
  card_rx_config : forall p v, 0 <= v < 2 ^ 32 ->
    card_view (p_outl p (card_base + RxConfig) v) = set_ring (8192 * 2 ^ (v / 2048 mod 4)) (card_view p);
  card_rx_buf : forall p v, 0 <= v < 2 ^ 32 ->
    card_view (p_outl p (card_base + RxBuf) v) = set_start v (card_view p);
  (** Lock, address and filter registers, the counter of missed packets and the
      interrupt mask do not touch the buffers, and neither does reading. *)
  card_lock : forall p v, card_view (p_outb p (card_base + Cfg9346) v) = card_view p;
  card_setup : forall p r v, r ∈ [MAC0; MAC0 + 4; MAR0; MAR0 + 4; RxMissed] ->
    card_view (p_outl p (card_base + r) v) = card_view p;
  card_mask : forall p v, card_view (p_outw p (card_base + IntrMask) v) = card_view p;
  card_insb : forall p r, 0 <= r < 256 -> card_view (p_insb p (card_base + r)).2 = card_view p;
  card_insw : forall p r, 0 <= r < 256 -> card_view (p_insw p (card_base + r)).2 = card_view p
}.

(** The bytes that the card reads for a transmission: the memory of the card
    starts at [ring]. *)
Definition dma_read (ring : Z) (m : list Z) (addr size : Z) : list Z :=
  take (Z.to_nat size) (drop (Z.to_nat (addr - ring)) m).

Section Moves.
Context {P : Type} `{RtlCard P}.

(** The card sends the oldest frame and reports the result. *)
Definition sends (ring : Z) (m : list Z) (p p' : P) : Prop :=
  exists e q t st, c_queue (card_view p) = e :: q /\ c_tx (card_view p) !! e = Some t /\
    0 <= st < 2 ^ 32 /\ has (s32 st) tx_done_bits = true /\
    card_view p' = let c := card_view p in
      mk_card (<[e := mk_txd (td_addr t) st]> (c_tx c)) q
        (c_wire c ++ [dma_read ring m (td_addr t) (td_status t mod 8192)])
        (c_rx c) (c_rxpos c) (c_ring c) (c_start c) (Z.lor (c_isr c) TxOK).

End Moves.

(** ** Conditions on bits *)

Lemma has_lor x a b : has x (Z.lor a b) = has x a || has x b.
Proof.
  unfold has. rewrite Z.land_lor_distr_r.
  destruct (Z.eqb_spec (Z.land x a) 0) as [->|Ha], (Z.eqb_spec (Z.land x b) 0) as [->|Hb]; cbn;
    rewrite ?Z.lor_0_l, ?Z.lor_0_r; try (by rewrite (proj2 (Z.eqb_neq _ _))).
  - done.
  - rewrite (proj2 (Z.eqb_neq _ _)); [done|]. intros [? ?]%Z.lor_eq_0_iff. done.
Qed.

Lemma has_bit x k : 0 <= k -> has x (2 ^ k) = Z.testbit x k.
Proof.
  intros Hk. unfold has. destruct (Z.testbit x k) eqn:E.
  - rewrite (proj2 (Z.eqb_neq _ _)); [done|]. intros H0. apply (f_equal (fun z => Z.testbit z k)) in H0.
    by rewrite Z.land_spec, E, Z.pow2_bits_true, Z.bits_0 in H0 by done.
  - rewrite (proj2 (Z.eqb_eq _ _)); [done|]. apply Z.bits_inj'. intros n Hn. rewrite Z.land_spec, Z.bits_0.
    destruct (decide (n = k)) as [->|Hne]; [by rewrite E|]. by rewrite Z.pow2_bits_false, andb_false_r.
Qed.

(** ** Writing into an object *)

Lemma window_eq (m m' : list Z) a k : (forall j, (j < k)%nat -> m' !! (a + j)%nat = m !! (a + j)%nat) ->
  take k (drop a m') = take k (drop a m).
Proof.
  intros Hj. apply list_eq. intros j. destruct (decide (j < k)%nat).
  - rewrite !lookup_take_lt, !lookup_drop by done. by apply Hj.
  - by rewrite !lookup_take_ge by lia.
Qed.

(** [memcpy] into the middle of an object. *)
Lemma copy_at (m src : list Z) off n :
  0 <= off -> 0 <= n <= Z.of_nat (length src) -> off + n <= Z.of_nat (length m) ->
  exists m', copy m off src n = Some m' /\ length m' = length m /\
    forall i, m' !! i = if decide (Z.to_nat off <= i < Z.to_nat off + Z.to_nat n)%nat
                        then src !! (i - Z.to_nat off)%nat else m !! i.
Proof.
  intros Ho Hn Hl. unfold copy. destruct (Z.leb_spec n 0).
  { exists m. split; [done|]. split; [done|]. intros i. rewrite decide_False by lia. done. }
  rewrite fetch_ok by lia. cbn [mbind option_bind]. rewrite drop_0.
  assert (length (take (Z.to_nat n) src) = Z.to_nat n) as Hbl by (rewrite length_take; lia).
  rewrite store_ok by (rewrite ?Hbl; lia). eexists. split; [done|].
  split; [rewrite !length_app, length_take, length_drop, Hbl; lia|].
  intros i. rewrite splice_lookup by (rewrite Hbl; lia). rewrite Hbl. case_decide; [|done].
  by rewrite lookup_take_lt by lia.
Qed.

(** ** One card in the state *)

Module CardState.

Section Place.
Context {P : Type} `{PortIO P} `{PortIO32 P}.

(** [d] with the device object [x] at [dev], the driver object [r] at [rtl], the
    memory [m] of the card, and the ports [p]. *)
Definition place (d : nics P rtls) (dev rtl : Z) (x : netdev) (r : rtl8139) (m : list Z) (p : P) : nics P rtls :=
  let g := nic_reg d in let v := nic_drv d in
  mk_nics p (nic_pci d) (mk_reg (netdevs g) (netdev_count g) (eth_counter g) (<[dev := x]> (dev_objs g)))
    (mk_rtls (<[rtl := r]> (rtl_objs v)) (<[rx_ring (rx r) := m]> (dma v)) (vectors v)).

Lemma place_id d dev rtl x r m :
  dev_objs (nic_reg d) !! dev = Some x -> rtl_objs (nic_drv d) !! rtl = Some r ->
  dma (nic_drv d) !! rx_ring (rx r) = Some m -> place d dev rtl x r m (nic_ports d) = d.
Proof.
  intros Hx Hr Hm. unfold place. rewrite !insert_id by done.
  destruct d as [p db [] []]. done.
Qed.

Section At.
Variables (d : nics P rtls) (dev rtl : Z) (x : netdev) (r : rtl8139) (m : list Z) (p : P).

Abbreviation at_ := (place d dev rtl).

Lemma get_netdev_at : get_netdev dev (at_ x r m p) = Some (x, at_ x r m p).
Proof. unfold get_netdev. cbn. by rewrite lookup_insert_eq. Qed.

Lemma upd_netdev_at f : upd_netdev dev f (at_ x r m p) = Some (tt, at_ (f x) r m p).
Proof.
  unfold upd_netdev. rewrite (bind_Some _ _ _ _ _ get_netdev_at). unfold put_netdev, modify, put_reg, place.
  cbn. by rewrite insert_insert_eq.
Qed.

Lemma get_rtl_at : get_rtl rtl (at_ x r m p) = Some (r, at_ x r m p).
Proof. unfold get_rtl. cbn. by rewrite lookup_insert_eq. Qed.

Lemma upd_rtl_at f : rx_ring (rx (f r)) = rx_ring (rx r) ->
  upd_rtl rtl f (at_ x r m p) = Some (tt, at_ x (f r) m p).
Proof.
  intros Hf. unfold upd_rtl. rewrite (bind_Some _ _ _ _ _ get_rtl_at). unfold put_rtl, modify, put_drv, place.
  cbn. by rewrite insert_insert_eq, Hf.
Qed.

Lemma get_dma_at q : q = rx_ring (rx r) -> get_dma q (at_ x r m p) = Some (m, at_ x r m p).
Proof. intros ->. unfold get_dma. cbn. by rewrite lookup_insert_eq. Qed.

Lemma put_dma_at q m' : q = rx_ring (rx r) -> put_dma q m' (at_ x r m p) = Some (tt, at_ x r m' p).
Proof. intros ->. unfold put_dma, modify, put_drv, place. cbn. by rewrite insert_insert_eq. Qed.

Lemma io_out_at f port v : io_out f port v (at_ x r m p) = Some (tt, at_ x r m (f p (u16 port) v)).
Proof. done. Qed.

Lemma io_in_at f port : io_in f port (at_ x r m p) = Some ((f p (u16 port)).1, at_ x r m (f p (u16 port)).2).
Proof. unfold io_in. cbn. by destruct (f p (u16 port)). Qed.

End At.
End Place.

(** One step of a function on a placed card. *)
Ltac at_step :=
  erewrite bind_Some by
    first [ apply get_netdev_at | apply get_rtl_at | apply upd_netdev_at | apply io_out_at | apply io_in_at
          | apply get_dma_at; reflexivity | apply put_dma_at; reflexivity | apply upd_rtl_at; reflexivity ];
  cbv beta.

End CardState.

(** ** The transmitter *)

Module TxFacts.
Import CardState.

(** The bytes of a packet. *)
Definition frame (b : netbuf) : list Z := take (Z.to_nat (nb_len b)) (nb_data b).

(** A packet that fits a transmit buffer. *)
Definition buf_ok (b : netbuf) : Prop := 0 <= nb_len b <= TX_BUF_SIZE /\ nb_len b <= Z.of_nat (length (nb_data b)).

(** Descriptor [i] counted from the oldest one in use. *)
Definition slot (r : rtl8139) (i : nat) : nat := Z.to_nat ((dirty_tx (tx r) + Z.of_nat i) mod 4).

(** Where buffer [e] starts in the memory of the card. *)
Definition tx_off (r : rtl8139) (e : nat) : Z := rx_buf_len (rx r) + 16 + Z.of_nat e * TX_BUF_SIZE.

Definition flag_ok (v : Z) : Prop := 0 <= v < 2 ^ 22 /\ v mod 2 ^ 16 = 0.

Definition padded (n : Z) : Z := if ETH_ZLEN <=? n then n else ETH_ZLEN.

Section Rel.
Context {P : Type} `{RtlCard P}.

(** The driver and the card agree: [dn] are the packets that the card has sent
    and the driver has not yet freed, [qu] those that the card still has to send,
    oldest first, and [w] is what has been sent. *)
Record tx_rel (p : P) (r : rtl8139) (m : list Z) (w : list (list Z)) (dn qu : list netbuf) : Prop := {
  tr_base : rtl_iobase r = card_base;
  tr_cur : 0 <= cur_tx (tx r) < 2 ^ 32;
  tr_dirty : 0 <= dirty_tx (tx r) < 2 ^ 32;
  tr_count : u32 (cur_tx (tx r) - dirty_tx (tx r)) = Z.of_nat (length (dn ++ qu));
  tr_max : (length (dn ++ qu) <= 4)%nat;
  tr_bufs_len : length (tx_bufs (tx r)) = 4%nat;
  tr_bufs : forall i b, (dn ++ qu) !! i = Some b -> tx_bufs (tx r) !! slot r i = Some (Some b);
  tr_free : forall e, (e < 4)%nat -> (forall i, (i < length (dn ++ qu))%nat -> slot r i <> e) ->
    tx_bufs (tx r) !! e = Some None;
  tr_buffer : forall e, (e < 4)%nat -> tx_buffer (tx r) !! e = Some (rx_ring (rx r) + tx_off r e);
  tr_mem : Z.of_nat (length m) = rx_buf_len (rx r) + 16 + TX_BUF_SIZE * NUM_TX_DESC;
  tr_len : 0 < rx_buf_len (rx r);
  tr_ring : 0 < rx_ring (rx r) /\ rx_ring (rx r) + Z.of_nat (length m) < 2 ^ 32;
  tr_flag : flag_ok (tx_flag (tx r));
  tr_desc : length (c_tx (card_view p)) = 4%nat;
  tr_done : forall i b, dn !! i = Some b ->
    exists t, c_tx (card_view p) !! slot r i = Some t /\ has (s32 (td_status t)) tx_done_bits = true;
  tr_queue : c_queue (card_view p) = map (slot r) (seq (length dn) (length qu));
  tr_queued : forall i b, qu !! i = Some b -> buf_ok b /\
    (exists g, flag_ok g /\ c_tx (card_view p) !! slot r (length dn + i)
      = Some (mk_txd (rx_ring (rx r) + tx_off r (slot r (length dn + i))) (Z.lor g (padded (nb_len b))))) /\
    fetch m (tx_off r (slot r (length dn + i))) (nb_len b) = Some (frame b);
  tr_wire : c_wire (card_view p) = w
}.

Lemma slot_lt r i : (slot r i < 4)%nat.
Proof. unfold slot. zlia. Qed.

Lemma slot_inj r i j : (i < 4)%nat -> (j < 4)%nat -> slot r i = slot r j -> i = j.
Proof. unfold slot. zlia. Qed.

(** A size and a threshold in one status word. *)
Lemma status_word g n : flag_ok g -> 0 <= n < 8192 ->
  0 <= Z.lor g n < 2 ^ 31 /\ Z.testbit (Z.lor g n) 13 = false /\ Z.lor g n mod 8192 = n /\
  has (s32 (Z.lor g n)) tx_done_bits = false.
Proof.
  intros [Hg Hm] Hn. assert (Z.lor g n = g + n) as E by (apply (lor_low g n 16); lia).
  assert (0 <= Z.lor g n < 2 ^ 23) as Hr by (rewrite E; lia).
  assert (forall j, 13 <= j < 16 -> Z.testbit (Z.lor g n) j = false) as Hb.
  { intros j Hj. rewrite Z.lor_spec. rewrite <- (Z.mod_pow2_bits_low g 16 j) by lia. rewrite Hm, Z.bits_0.
    rewrite <- (Z.mod_small n (2 ^ 13)) by lia. by rewrite Z.mod_pow2_bits_high by lia. }
  split; [lia|]. split; [apply Hb; lia|]. split; [rewrite E; zlia|].
  rewrite s32_small by lia. unfold tx_done_bits. rewrite !has_lor.
  change TxStatOK with (2 ^ 15). change TxUnderrun with (2 ^ 14). change TxAborted with (2 ^ 30).
  rewrite !has_bit, !Hb by lia. cbn [orb].
  rewrite <- (Z.mod_small (Z.lor g n) (2 ^ 23)) by lia. by apply Z.mod_pow2_bits_high.
Qed.

Lemma slot_cur p r m w dn qu : tx_rel p r m w dn qu ->
  Z.to_nat (cur_tx (tx r) mod 4) = slot r (length (dn ++ qu)).
Proof.
  intros T. pose proof (tr_count _ _ _ _ _ _ T) as Hc. pose proof (tr_cur _ _ _ _ _ _ T).
  pose proof (tr_dirty _ _ _ _ _ _ T). unfold slot. rewrite <- Hc. unfold u32. f_equal. zlia.
Qed.

Lemma port_small k : 0 <= k < 256 -> u16 (card_base + k) = card_base + k.
Proof. intros. pose proof card_base_range. apply u16_small. lia. Qed.

(** The state of the driver after it has accepted the packet [b]. *)
Definition accepted (r : rtl8139) (b : netbuf) (e : nat) : rtl8139 :=
  let t := tx r in
  with_tx (mk_tx (tx_lock t) (u32 (cur_tx t + 1)) (dirty_tx t) (tx_flag t) (<[e := Some b]> (tx_bufs t))
             (tx_buffer t) (tx_bufs_mem t) 0) r.

Lemma transmit_run d dev rtl x r m m' p w dn qu b :
  tx_rel p r m w dn qu -> driver_data x = rtl -> buf_ok b -> (length (dn ++ qu) < 4)%nat ->
  let e := slot r (length (dn ++ qu)) in
  copy m (tx_off r e) (nb_data b) (nb_len b) = Some m' ->
  exists p', rtl8139_transmit dev b (place d dev rtl x r m p)
      = Some (0, place d dev rtl (with_stats (count_tx (nb_len b)) x) (accepted r b e) m' p') /\
    card_view p' = start e (Z.lor (tx_flag (tx r)) (padded (nb_len b)))
      (set_addr e (rx_ring (rx r) + tx_off r e) (card_view p)).
Proof.
  intros T Hx Hb Hk e Hm'. unfold rtl8139_transmit. at_step. rewrite Hx. at_step.
  rewrite (tr_count _ _ _ _ _ _ T), (proj2 (Z.leb_gt _ _)) by (unfold NUM_TX_DESC; lia).
  change NUM_TX_DESC with 4. rewrite (slot_cur _ _ _ _ _ _ T). fold e. at_step.
  assert (e < 4)%nat as He by apply slot_lt.
  rewrite (bind_lift _ _ _ _ (tr_buffer _ _ _ _ _ _ T e He)).
  at_step. replace (rx_ring (rx r) + tx_off r e - rx_ring (rx r)) with (tx_off r e) by lia.
  rewrite (bind_lift _ _ _ _ Hm'). at_step. at_step. at_step. at_step. at_step.
  eexists. split; [reflexivity|].
  assert (cur_tx (tx r) mod 4 = Z.of_nat e) as Hce by (unfold e; rewrite <- (slot_cur _ _ _ _ _ _ T); zlia).
  rewrite Hce, (tr_base _ _ _ _ _ _ T), <- !Z.add_assoc, !port_small by (unfold TxAddr0, TxStatus0; lia).
  rewrite !Z.add_assoc. fold (padded (nb_len b)).
  pose proof (tr_ring _ _ _ _ _ _ T) as [Hr0 Hr1]. pose proof (tr_mem _ _ _ _ _ _ T) as Hml.
  pose proof (tr_len _ _ _ _ _ _ T) as Hl0.
  assert (0 <= rx_ring (rx r) + tx_off r e < 2 ^ 32) as Ha
    by (unfold tx_off, TX_BUF_SIZE, NUM_TX_DESC in *; lia).
  assert (0 <= padded (nb_len b) < 8192) as Hpd.
  { destruct Hb as [Hb _]. unfold padded, ETH_ZLEN, TX_BUF_SIZE in *. case_match; lia. }
  destruct (status_word (tx_flag (tx r)) (padded (nb_len b)) (tr_flag _ _ _ _ _ _ T) Hpd) as (Hv & H13 & _ & _).
  rewrite (u32_small (_ + _)), (u32_small (Z.lor _ _)) by lia.
  rewrite card_tx_status, card_tx_addr by (done || lia). done.
Qed.

(** A descriptor other than the one just started is unchanged. *)
Lemma start_other e e' v a c : e <> e' -> c_tx (start e v (set_addr e a c)) !! e' = c_tx c !! e'.
Proof. intros He. cbn. by rewrite !list_lookup_alter_ne by done. Qed.

Lemma start_same e v a c t : c_tx c !! e = Some t -> c_tx (start e v (set_addr e a c)) !! e = Some (mk_txd a v).
Proof. intros Ht. cbn. by rewrite !list_lookup_alter_eq, Ht. Qed.

Lemma transmit_rel p p' r m m' w dn qu b :
  tx_rel p r m w dn qu -> buf_ok b -> (length (dn ++ qu) < 4)%nat ->
  let e := slot r (length (dn ++ qu)) in
  length m' = length m ->
  (forall i, m' !! i = if decide (Z.to_nat (tx_off r e) <= i < Z.to_nat (tx_off r e) + Z.to_nat (nb_len b))%nat
                       then nb_data b !! (i - Z.to_nat (tx_off r e))%nat else m !! i) ->
  card_view p' = start e (Z.lor (tx_flag (tx r)) (padded (nb_len b)))
      (set_addr e (rx_ring (rx r) + tx_off r e) (card_view p)) ->
  tx_rel p' (accepted r b e) m' w dn (qu ++ [b]).
Proof.
  intros T Hb Hk e Hl Hm' Hv. assert (e < 4)%nat as He by apply slot_lt.
  assert (forall i, (i < length (dn ++ qu))%nat -> e <> slot r i) as Hne.
  { intros i Hi Heq. apply slot_inj in Heq; lia. }
  destruct T as [T1 T2 T3 T4 T5 T6 T7 T8 T9 T10 T11 T12 T13 T14 T15 T16 T17 T18].
  split; cbn [accepted with_tx rtl_iobase rx tx cur_tx dirty_tx tx_bufs tx_buffer tx_flag]; rewrite ?Hv; try done.
  - apply u32_range.
  - rewrite app_assoc, length_app. cbn [length]. unfold u32 in *. zlia.
  - rewrite app_assoc, length_app. cbn [length]. lia.
  - by rewrite length_insert.
  - intros i b' Hi. change (slot (accepted r b e) i) with (slot r i). rewrite app_assoc in Hi.
    apply lookup_app_Some in Hi as [Hi|[Hi1 Hi2]].
    + rewrite list_lookup_insert_ne by (apply Hne; by eapply lookup_lt_Some). by apply T7.
    + apply list_lookup_singleton_Some in Hi2 as [Hi2 <-].
      replace i with (length (dn ++ qu)) by lia. fold e. by rewrite list_lookup_insert_eq by lia.
  - intros e' He' Hs. rewrite app_assoc, length_app in Hs. cbn [length] in Hs.
    change (slot (accepted r b e)) with (slot r) in Hs.
    rewrite list_lookup_insert_ne by (apply (Hs (length (dn ++ qu))); lia). apply T8; [done|].
    intros i Hi. apply Hs. lia.
  - by rewrite Hl.
  - by rewrite Hl.
  - cbn. by rewrite !length_alter.
  - intros i b' Hi. rewrite start_other by (apply Hne; rewrite length_app; apply lookup_lt_Some in Hi; lia). by apply (T15 i b').
  - cbn. rewrite T16, length_app, seq_app, map_app. cbn [length map seq]. do 2 f_equal. rewrite <- length_app. done.
  - intros i b' Hi. change (slot (accepted r b e)) with (slot r). change (tx_off (accepted r b e)) with (tx_off r).
    apply lookup_app_Some in Hi as [Hi|[Hi1 Hi2]].
    + pose proof (lookup_lt_Some _ _ _ Hi) as Hil. set (e' := slot r (length dn + i)).
      assert (e <> e') as Hee by (apply Hne; rewrite length_app; lia). assert (e' < 4)%nat by apply slot_lt.
      destruct (T17 i b' Hi) as (Hb' & Hd & Hf). fold e' in Hd, Hf. split; [done|]. split; [by rewrite start_other by done|].
      rewrite <- Hf. rewrite !fetch_ok; [|destruct Hb' as [Hb1 Hb2]; unfold tx_off, TX_BUF_SIZE, NUM_TX_DESC in *; lia..].
      f_equal. apply window_eq. intros j Hj. rewrite Hm', decide_False; [done|].
      destruct Hb as [Hb1 _], Hb' as [Hb2 _]. unfold tx_off, TX_BUF_SIZE in *. lia.
    + apply list_lookup_singleton_Some in Hi2 as [Hi2 <-]. assert (i = length qu) as -> by lia.
      rewrite <- length_app. fold e. split; [done|]. split.
      * exists (tx_flag (tx r)). split; [done|]. destruct (lookup_lt_is_Some_2 (c_tx (card_view p)) e) as [t Ht]; [lia|].
        by apply (start_same e _ _ _ t).
      * destruct Hb as [Hb1 Hb2]. rewrite fetch_ok by (unfold tx_off, TX_BUF_SIZE, NUM_TX_DESC in *; lia).
        f_equal. unfold frame. apply list_eq. intros j. destruct (decide (j < Z.to_nat (nb_len b))%nat).
        -- rewrite !lookup_take_lt, lookup_drop, Hm', decide_True by lia. f_equal. lia.
        -- by rewrite !lookup_take_ge by lia.
Qed.

(** *** The card sends *)

Lemma padded_range b : buf_ok b -> nb_len b <= padded (nb_len b) <= TX_BUF_SIZE /\ 60 <= padded (nb_len b).
Proof. intros [Hb _]. unfold padded, ETH_ZLEN, TX_BUF_SIZE in *. case_match; lia. Qed.

Lemma sends_rel p p' r m w dn qu :
  tx_rel p r m w dn qu -> sends (rx_ring (rx r)) m p p' ->
  exists b qu' pad, qu = b :: qu' /\ Z.of_nat (length (frame b ++ pad)) = padded (nb_len b) /\
    tx_rel p' r m (w ++ [frame b ++ pad]) (dn ++ [b]) qu' /\ c_rx (card_view p') = c_rx (card_view p) /\
    c_rxpos (card_view p') = c_rxpos (card_view p) /\ c_ring (card_view p') = c_ring (card_view p).
Proof.
  intros T (e & q & t & st & Hq & Ht & Hst & Hdone & Hv).
  pose proof (tr_queue _ _ _ _ _ _ T) as Hqu. rewrite Hq in Hqu.
  destruct qu as [|b qu]; [done|]. cbn [length seq map] in Hqu. injection Hqu as -> ->.
  destruct (tr_queued _ _ _ _ _ _ T 0%nat b eq_refl) as (Hb & (g & Hg & Hd) & Hf).
  rewrite Nat.add_0_r in Hd, Hf. rewrite Hd in Ht. injection Ht as <-. set (e := slot r (length dn)) in *.
  pose proof (padded_range b Hb) as [Hp Hp60]. assert (e < 4)%nat as He by apply slot_lt.
  destruct (status_word g (padded (nb_len b)) Hg) as (_ & _ & Hsz & _); [unfold TX_BUF_SIZE in *; lia|].
  pose proof (tr_mem _ _ _ _ _ _ T) as Hm. pose proof (tr_len _ _ _ _ _ _ T) as Hl.
  set (off := tx_off r e) in *.
  assert (0 <= off /\ off + TX_BUF_SIZE <= Z.of_nat (length m)) as [Ho Ho2]
    by (unfold off, tx_off, TX_BUF_SIZE, NUM_TX_DESC in *; lia).
  exists b, qu, (take (Z.to_nat (padded (nb_len b) - nb_len b)) (drop (Z.to_nat (off + nb_len b)) m)).
  cbn [td_addr td_status] in Hv. rewrite Hsz in Hv. unfold dma_read in Hv.
  replace (rx_ring (rx r) + off - rx_ring (rx r)) with off in Hv by lia.
  destruct Hb as [Hb1 Hb2]. rewrite fetch_ok in Hf by (unfold TX_BUF_SIZE in *; lia). injection Hf as Hf.
  rewrite <- Hf. rewrite (Z2Nat.inj_add off), <- drop_drop, take_take_drop, <- Z2Nat.inj_add by lia.
  replace (nb_len b + (padded (nb_len b) - nb_len b)) with (padded (nb_len b)) by lia.
  split; [done|]. split; [rewrite length_take, length_drop; unfold TX_BUF_SIZE in *; lia|].
  split; [|by rewrite Hv].
  destruct T as [T1 T2 T3 T4 T5 T6 T7 T8 T9 T10 T11 T12 T13 T14 T15 T16 T17 T18].
  assert ((dn ++ [b]) ++ qu = dn ++ b :: qu) as Happ by (by rewrite <- app_assoc).
  split; rewrite ?Happ, ?Hv; cbn [c_tx c_queue c_wire]; try done.
  - by rewrite length_insert.
  - intros i b' [Hi|[Hi1 Hi2]]%lookup_app_Some.
    + pose proof (lookup_lt_Some _ _ _ Hi). rewrite list_lookup_insert_ne; [by apply (T15 i b')|].
      intros Heq. apply slot_inj in Heq; rewrite length_app in T5; cbn in T5; lia.
    + apply list_lookup_singleton_Some in Hi2 as [Hi2 <-]. replace i with (length dn) by lia. fold e.
      rewrite list_lookup_insert_eq by lia. by eexists.
  - rewrite length_app. cbn [length]. by rewrite Nat.add_1_r.
  - intros i b' Hi. pose proof (lookup_lt_Some _ _ _ Hi). rewrite length_app. cbn [length].
    replace (length dn + 1 + i)%nat with (length dn + S i)%nat by lia.
    destruct (T17 (S i) b' Hi) as (? & ? & ?). split; [done|]. split; [|done].
    rewrite list_lookup_insert_ne; [done|]. intros Heq. apply slot_inj in Heq; rewrite length_app in T5; cbn in T5; lia.
  - by rewrite T18.
Qed.

End Rel.

(** *** The driver frees what has been sent *)

Section Clear.
Context {A P : Type} `{KL : KAllocLaws A} `{RtlCard P}.

Abbreviation nst := (net A (nics P rtls)).

Lemma on_dev_at {X} (f : M (nics P rtls) X) (s : nst) v d' :
  f (n_dev s) = Some (v, d') -> on_dev f s = Some (v, set_dev d' s).
Proof. unfold on_dev. by intros ->. Qed.

(** The blocks of a packet. *)
Definition pages (b : netbuf) : list Z := [nb_data_addr b; nb_addr b].

Lemma netbuf_free_live a lv n b :
  ka_live a lv n -> NoDup (pages b) -> Forall (fun q => lv !! q = Some 1) (pages b) ->
  ka_live (netbuf_free a b) (del_pages lv (pages b)) (n + 2).
Proof.
  intros Ha [Hne _]%NoDup_cons [Hq [Hp _]%Forall_cons]%Forall_cons. rewrite list_elem_of_singleton in Hne.
  unfold netbuf_free. rewrite (proj2 (Z.eqb_neq _ NULL)).
  2: { intros E. rewrite E in Hq. by rewrite (ka_null _ _ _ Ha) in Hq. }
  replace (n + 2) with (n + 1 + 1) by lia. apply ka_free_spec; [by apply ka_free_spec|].
  by rewrite lookup_delete_ne.
Qed.

Lemma free_all_live bs : forall a lv n,
  ka_live a lv n -> NoDup (bs ≫= pages) -> Forall (fun q => lv !! q = Some 1) (bs ≫= pages) ->
  ka_live (foldl netbuf_free a bs) (del_pages lv (bs ≫= pages)) (n + 2 * Z.of_nat (length bs)).
Proof.
  induction bs as [|b bs IH]; intros a lv n Ha Hnd Hl; [cbn; by rewrite Z.add_0_r|].
  change ((b :: bs) ≫= pages) with (pages b ++ (bs ≫= pages)) in *.
  apply NoDup_app in Hnd as (Hn1 & Hd & Hn2). apply Forall_app in Hl as [Hl1 Hl2].
  unfold del_pages. rewrite foldl_app. fold (del_pages lv (pages b)).
  replace (n + 2 * Z.of_nat (length (b :: bs))) with (n + 2 + 2 * Z.of_nat (length bs)) by (cbn [length]; lia).
  apply IH; [by apply netbuf_free_live|done|]. rewrite Forall_forall in Hl2 |- *. intros q Hq.
  rewrite lookup_del_pages, decide_False; [by apply Hl2|]. intros Hin. by apply (Hd q Hin).
Qed.

(** The driver object with [dirty] as the oldest descriptor in use. *)
Definition at_dirty (dirty : Z) (r : rtl8139) : rtl8139 := with_tx (set_tx_ptrs (cur_tx (tx r)) dirty (tx r)) r.

(** The state with the card in it and the allocator [a]. *)
Definition nplace (s : nst) (dev rtl : Z) (x : netdev) (r : rtl8139) (m : list Z) (p : P) (a : A) : nst :=
  set_alloc a (set_dev (place (n_dev s) dev rtl x r m p) s).

Section At.
Variables (s : nst) (dev rtl : Z).

Abbreviation at_ := (nplace s dev rtl).

Lemma on_dev_place {X} (f : M (nics P rtls) X) x r m p a v x' r' m' p' :
  f (place (n_dev s) dev rtl x r m p) = Some (v, place (n_dev s) dev rtl x' r' m' p') ->
  on_dev f (at_ x r m p a) = Some (v, at_ x' r' m' p' a).
Proof. intros E. exact (on_dev_at f (at_ x r m p a) v _ E). Qed.

Lemma upd_stats_at g x r m p a : upd_stats dev g (at_ x r m p a) = Some (tt, at_ (with_stats g x) r m p a).
Proof. apply on_dev_place, upd_netdev_at. Qed.

Lemma free_buf_at b x r m p a : free_buf b (at_ x r m p a) = Some (tt, at_ x r m p (netbuf_free a b)).
Proof. done. Qed.

Lemma get_rtl_net x r m p a : on_dev (get_rtl rtl) (at_ x r m p a) = Some (r, at_ x r m p a).
Proof. apply on_dev_place, get_rtl_at. Qed.

Definition with_flag (v : Z) (r : rtl8139) : rtl8139 := with_tx (set_tx_flag v (tx r)) r.

Lemma with_flag_id r : with_flag (tx_flag (tx r)) r = r.
Proof. by destruct r as [? ? ? ? ? [] ?]. Qed.

(** What the driver does for the status of a finished descriptor. *)
Lemma clear_status x r m p a st :
  rtl_iobase r = card_base -> flag_ok (tx_flag (tx r)) ->
  exists fl p1,
    (if has st (Z.lor TxOutOfWindow TxAborted) then
       if has st TxAborted then on_dev (outl (rtl_iobase r + TxConfig) (Z.shiftl TX_DMA_BURST 8)) else ret tt
     else if has st TxUnderrun && (tx_flag (tx r) <? 0x00300000) then
       on_dev (upd_rtl rtl (fun r => with_tx (set_tx_flag (tx_flag (tx r) + 0x00020000) (tx r)) r))
     else ret tt) (at_ x r m p a)
    = Some (tt, at_ x (with_flag fl r) m p1 a) /\ flag_ok fl /\ card_view p1 = card_view p.
Proof.
  intros Hbase Hf. assert (forall p1, card_view p1 = card_view p -> exists fl p2,
    Some (tt, at_ x r m p1 a) = Some (tt, at_ x (with_flag fl r) m p2 a) /\ flag_ok fl /\ card_view p2 = card_view p) as Hid.
  { intros p1 Hp. exists (tx_flag (tx r)), p1. by rewrite with_flag_id. }
  destruct (has st (Z.lor TxOutOfWindow TxAborted)); [destruct (has st TxAborted)|
    destruct (has st TxUnderrun); [destruct (Z.ltb_spec (tx_flag (tx r)) 0x00300000)|]]; cbv iota beta delta [andb]; try (by apply Hid).
  - erewrite on_dev_place by apply io_out_at. apply Hid.
    rewrite Hbase, port_small by (unfold TxConfig; lia). apply card_tx_config.
  - exists (tx_flag (tx r) + 0x00020000), p. split; [|split; [unfold flag_ok in *; zlia|done]].
    apply on_dev_place. etrans; [by apply upd_rtl_at|reflexivity].
Qed.

(** The oldest descriptor is given back. *)
Lemma clear_rel p p1 r m w b dn qu dirty fl :
  tx_rel p (at_dirty dirty r) m w (b :: dn) qu -> card_view p1 = card_view p -> flag_ok fl ->
  tx_rel p1 (at_dirty (u32 (dirty + 1))
    (with_tx (set_tx_bufs (<[slot (at_dirty dirty r) 0 := None]> (tx_bufs (tx r))) (set_tx_flag fl (tx r))) r)) m w dn qu.
Proof.
  intros T Hv Hfl. set (r0 := at_dirty dirty r) in *. set (r1 := at_dirty (u32 (dirty + 1)) _).
  destruct T as [T1 T2 T3 T4 T5 T6 T7 T8 T9 T10 T11 T12 T13 T14 T15 T16 T17 T18].
  cbn in T2, T3, T4, T5, T6.
  assert (forall i, slot r1 i = slot r0 (S i)) as Hs by (intros i; unfold slot, u32; cbn; unfold u32; f_equal; zlia).
  change (tx_bufs (tx r)) with (tx_bufs (tx r0)) in *.
  split; rewrite ?Hv; cbn; try done.
  - apply u32_range.
  - unfold u32 in *. zlia.
  - lia.
  - by rewrite length_insert.
  - intros i b' Hi. rewrite Hs. pose proof (lookup_lt_Some _ _ _ Hi). rewrite list_lookup_insert_ne.
    + by apply (T7 (S i)).
    + intros Heq. apply slot_inj in Heq; lia.
  - intros e He Hne. destruct (decide (slot r0 0 = e)) as [<-|Hn0].
    + apply list_lookup_insert_eq. pose proof (slot_lt r0 0). change (length (tx_bufs (tx r))) with (length (tx_bufs (tx r0))). lia.
    + rewrite list_lookup_insert_ne by done. apply T8; [done|]. intros [|i] Hi; [done|]. rewrite <- Hs. apply Hne.
      cbn in Hi. lia.
  - intros i b' Hi. rewrite Hs. by apply (T15 (S i) b').
  - rewrite T16. rewrite (map_ext _ _ Hs). cbn [length]. by rewrite <- seq_shift, map_map.
  - intros i b' Hi. rewrite !Hs. apply (T17 i b' Hi).
Qed.

Lemma clear_step fuel x r m p a w b dn qu dirty :
  tx_rel p (at_dirty dirty r) m w (b :: dn) qu -> rtl_netdev r = dev ->
  exists g fl p1 t, let r1 := with_tx (set_tx_bufs t (set_tx_flag fl (tx r))) r in
    tx_clear_loop (S fuel) rtl dirty (at_ x r m p a)
      = tx_clear_loop fuel rtl (u32 (dirty + 1)) (at_ (with_stats g x) r1 m p1 (netbuf_free a b)) /\
    tx_rel p1 (at_dirty (u32 (dirty + 1)) r1) m w dn qu /\ card_view p1 = card_view p.
Proof.
  intros T Hdev. set (r0 := at_dirty dirty r) in *. set (e := slot r0 0).
  assert (Z.of_nat e = dirty mod 4) as He by (unfold e, slot; cbn; rewrite Z.add_0_r; zlia).
  assert (e < 4)%nat as He4 by apply slot_lt.
  destruct (tr_done _ _ _ _ _ _ T 0%nat b eq_refl) as (t & Ht & Hdone). fold e in Ht.
  destruct (card_tx_read p e t Ht He4) as [Hv Hp]. set (rd := p_insl p (card_base + TxStatus0 + Z.of_nat e * 4)) in *.
  destruct (clear_status (with_stats (count_tx_status (s32 (td_status t))) x) r m rd.2 a (s32 (td_status t))
    (tr_base _ _ _ _ _ _ T) (tr_flag _ _ _ _ _ _ T)) as (fl & p1 & E & Hfl & Hp1).
  exists (count_tx_status (s32 (td_status t))), fl, p1, (<[e := None]> (tx_bufs (tx r))).
  cbv zeta. split; [|split; [|by rewrite Hp1]].
  - cbn [tx_clear_loop]. erewrite bind_Some by apply get_rtl_net.
    pose proof (tr_count _ _ _ _ _ _ T) as Hc. cbn in Hc. rewrite (proj2 (Z.eqb_neq _ 0)) by (rewrite Hc; lia).
    change NUM_TX_DESC with 4. rewrite <- He. erewrite bind_Some by (apply on_dev_place, io_in_at).
    assert (u16 (rtl_iobase r + TxStatus0 + Z.of_nat e * 4) = card_base + TxStatus0 + Z.of_nat e * 4) as Hport.
    { rewrite (tr_base _ _ _ _ _ _ T : rtl_iobase r = card_base), <- Z.add_assoc.
      apply port_small. unfold TxStatus0. lia. }
    rewrite Hport. fold rd. rewrite Hv. fold tx_done_bits. rewrite Hdone. cbn [negb]. rewrite Hdev.
    erewrite bind_Some by apply upd_stats_at. rewrite (bind_Some _ _ _ _ _ E).
    rewrite Nat2Z.id. pose proof (tr_bufs _ _ _ _ _ _ T 0%nat b eq_refl : tx_bufs (tx r) !! e = Some (Some b)) as Hbe.
    rewrite (bind_lift _ _ _ _ Hbe). erewrite bind_Some.
    2: { erewrite bind_Some by apply free_buf_at. apply on_dev_place, upd_rtl_at. reflexivity. }
    reflexivity.
  - apply (clear_rel p _ _ _ _ b); [done|by rewrite Hp1|done].
Qed.

(** No finished descriptor is left: the loop ends. *)
Lemma clear_stop fuel x r m p a w qu dirty :
  tx_rel p (at_dirty dirty r) m w [] qu ->
  exists p', tx_clear_loop (S fuel) rtl dirty (at_ x r m p a) = Some (dirty, at_ x r m p' a) /\
    card_view p' = card_view p.
Proof.
  intros T. cbn [tx_clear_loop]. erewrite bind_Some by apply get_rtl_net.
  pose proof (tr_count _ _ _ _ _ _ T) as Hc. cbn in Hc. rewrite Hc.
  destruct qu as [|b qu]; [by exists p|]. rewrite (proj2 (Z.eqb_neq _ 0)) by (cbn; lia).
  set (r0 := at_dirty dirty r) in *. set (e := slot r0 0).
  assert (Z.of_nat e = dirty mod 4) as He by (unfold e, slot; cbn; rewrite Z.add_0_r; zlia).
  assert (e < 4)%nat as He4 by apply slot_lt.
  destruct (tr_queued _ _ _ _ _ _ T 0%nat b eq_refl) as (Hb & (g & Hg & Ht) & _). cbn [length Nat.add] in Ht. fold e in Ht.
  destruct (card_tx_read p e _ Ht He4) as [Hv Hp].
  change NUM_TX_DESC with 4. rewrite <- He. erewrite bind_Some by (apply on_dev_place, io_in_at).
  assert (u16 (rtl_iobase r + TxStatus0 + Z.of_nat e * 4) = card_base + TxStatus0 + Z.of_nat e * 4) as ->.
  { rewrite (tr_base _ _ _ _ _ _ T : rtl_iobase r = card_base), <- Z.add_assoc.
    apply port_small. unfold TxStatus0. lia. }
  rewrite Hv. cbn [td_status]. pose proof (padded_range b Hb) as [Hp1 Hp2].
  destruct (status_word g (padded (nb_len b)) Hg) as (_ & _ & _ & Hnd); [unfold TX_BUF_SIZE in *; lia|].
  fold tx_done_bits. rewrite Hnd. by eexists.
Qed.

Lemma with_tx_id r : with_tx (set_tx_bufs (tx_bufs (tx r)) (set_tx_flag (tx_flag (tx r)) (tx r))) r = r.
Proof. by destruct r as [? ? ? ? ? [] ?]. Qed.

Lemma with_stats_id x : with_stats (fun g => g) x = x.
Proof. by destruct x. Qed.

Lemma clear_loop_ok m w qu : forall dn fuel x r p a dirty,
  tx_rel p (at_dirty dirty r) m w dn qu -> rtl_netdev r = dev -> (length dn < fuel)%nat ->
  exists g t fl p' dirty', let r' := with_tx (set_tx_bufs t (set_tx_flag fl (tx r))) r in
    tx_clear_loop fuel rtl dirty (at_ x r m p a)
      = Some (dirty', at_ (with_stats g x) r' m p' (foldl netbuf_free a dn)) /\
    tx_rel p' (at_dirty dirty' r') m w [] qu /\ card_view p' = card_view p.
Proof.
  induction dn as [|b dn IH]; intros fuel x r p a dirty T Hd Hf; (destruct fuel as [|fuel]; [cbn in Hf; lia|]).
  - destruct (clear_stop fuel x r m p a w qu dirty T) as (p' & E & Hp).
    exists (fun g => g), (tx_bufs (tx r)), (tx_flag (tx r)), p', dirty. cbv zeta.
    rewrite with_tx_id, with_stats_id. split; [done|]. split; [|done].
    destruct T as [T1 T2 T3 T4 T5 T6 T7 T8 T9 T10 T11 T12 T13 T14 T15 T16 T17 T18].
    split; rewrite ?Hp; done.
  - destruct (clear_step fuel x r m p a w b dn qu dirty T Hd) as (g & fl & p1 & t & E & T1 & Hp1). rewrite E.
    destruct (IH fuel (with_stats g x) _ p1 (netbuf_free a b) (u32 (dirty + 1)) T1 Hd) as
      (g' & t' & fl' & p' & dirty' & E' & T' & Hp'); [cbn in Hf; lia|].
    exists (fun y => g' (g y)), t', fl', p', dirty'. cbv zeta. rewrite E'. split; [done|]. split; [exact T'|].
    by rewrite Hp'.
Qed.

Lemma tx_clear_ok x r m p a w dn qu :
  tx_rel p r m w dn qu -> rtl_netdev r = dev ->
  exists g t p', rtl8139_tx_clear rtl (at_ x r m p a)
      = Some (tt, at_ (with_stats g x) (with_tx t r) m p' (foldl netbuf_free a dn)) /\
    tx_rel p' (with_tx t r) m w [] qu /\ card_view p' = card_view p.
Proof.
  intros T Hd. unfold rtl8139_tx_clear. erewrite bind_Some by apply get_rtl_net.
  assert (at_dirty (dirty_tx (tx r)) r = r) as Hid by (by destruct r as [? ? ? ? ? [] ?]).
  pose proof (tr_max _ _ _ _ _ _ T) as Hmax. rewrite length_app in Hmax.
  destruct (clear_loop_ok m w qu dn tx_fuel x r p a (dirty_tx (tx r))) as (g & t & fl & p' & dirty' & E & T' & Hp);
    [by rewrite Hid|done|unfold tx_fuel; lia|].
  rewrite (bind_Some _ _ _ _ _ E). eexists g, _, p'. split; [|split; [exact T'|done]].
  apply on_dev_place. etrans; [by apply upd_rtl_at|reflexivity].
Qed.

End At.
End Clear.
End TxFacts.

(** ** Frames leave in the order in which the stack hands them over *)

Module TxProps.
Import CardState TxFacts.

Section Props.
Context {A P : Type} `{KAlloc A} `{RtlCard P}.

Abbreviation nst := (net A (nics P rtls)).

(** The card [rtl] of the device [dev] in the state, with its memory [m]. *)
Record has_card (s : nst) (dev rtl : Z) (x : netdev) (r : rtl8139) (m : list Z) : Prop := {
  hc_dev : dev_objs (nic_reg (n_dev s)) !! dev = Some x;
  hc_data : driver_data x = rtl;
  hc_rtl : rtl_objs (nic_drv (n_dev s)) !! rtl = Some r;
  hc_netdev : rtl_netdev r = dev;
  hc_dma : dma (nic_drv (n_dev s)) !! rx_ring (rx r) = Some m
}.

(** What can happen to the transmitter: the stack hands over a packet, the
    interrupt handler frees what has been sent, and the card sends; [acc] are the
    packets that the driver has accepted. *)
Inductive tx_trace (dev rtl : Z) (s0 : nst) : list netbuf -> nst -> Prop :=
| t_start : tx_trace dev rtl s0 [] s0
| t_transmit acc s b res s' :
    tx_trace dev rtl s0 acc s -> buf_ok b -> on_dev (rtl8139_transmit dev b) s = Some (res, s') ->
    tx_trace dev rtl s0 (if res =? 0 then acc ++ [b] else acc) s'
| t_clear acc s s' :
    tx_trace dev rtl s0 acc s -> rtl8139_tx_clear rtl s = Some (tt, s') -> tx_trace dev rtl s0 acc s'
| t_send acc s x r m p' :
    tx_trace dev rtl s0 acc s -> has_card s dev rtl x r m -> sends (rx_ring (rx r)) m (nic_ports (n_dev s)) p' ->
    tx_trace dev rtl s0 acc (set_dev (put_ports p' (n_dev s)) s).

(** A packet and the frame on the wire: the packet, padded to 60 bytes. *)
Definition sent_as (b : netbuf) (f : list Z) : Prop :=
  exists pad, f = frame b ++ pad /\ Z.of_nat (length f) = padded (nb_len b).

Lemma nplace_id s dev rtl x r m : has_card s dev rtl x r m ->
  nplace s dev rtl x r m (nic_ports (n_dev s)) (n_alloc s) = s.
Proof.
  intros [E1 _ E3 _ E5]. unfold nplace. rewrite (place_id _ _ _ _ _ _ E1 E3 E5). by destruct s.
Qed.

Lemma nplace_card s dev rtl x r m p a :
  driver_data x = rtl -> rtl_netdev r = dev -> has_card (nplace s dev rtl x r m p a) dev rtl x r m.
Proof. intros Hx Hr. split; cbn; rewrite ?lookup_insert_eq; done. Qed.

(** The packets accepted so far are those freed, those sent and not yet freed
    and those still to be sent. *)
Record in_order (dev rtl : Z) (s0 s : nst) (w0 : list (list Z)) (fr dn qu : list netbuf) : Prop := {
  io_card : exists x r m sent, has_card s dev rtl x r m /\
    tx_rel (nic_ports (n_dev s)) r m (w0 ++ sent) dn qu /\ Forall2 sent_as (fr ++ dn) sent;
  io_alloc : n_alloc s = foldl netbuf_free (n_alloc s0) fr
}.

Lemma in_order_start dev rtl s x r m w :
  has_card s dev rtl x r m -> tx_rel (nic_ports (n_dev s)) r m w [] [] -> in_order dev rtl s s w [] [] [].
Proof. intros C T. split; [|done]. exists x, r, m, []. by rewrite app_nil_r. Qed.

Lemma transmit_step dev rtl s0 s w0 fr dn qu b :
  in_order dev rtl s0 s w0 fr dn qu -> buf_ok b ->
  exists s', on_dev (rtl8139_transmit dev b) s = Some (if (length (dn ++ qu) <? 4)%nat then 0 else -1, s') /\
    in_order dev rtl s0 s' w0 fr dn (if (length (dn ++ qu) <? 4)%nat then qu ++ [b] else qu).
Proof.
  intros [(x & r & m & sent & C & T & F) Ha] Hb. pose proof C as [C1 C2 C3 C4 C5].
  rewrite <- (nplace_id _ _ _ _ _ _ C). set (p := nic_ports (n_dev s)) in *.
  pose proof (tr_max _ _ _ _ _ _ T) as Hmax. destruct (Nat.ltb_spec (length (dn ++ qu)) 4) as [Hk|Hk].
  - set (e := slot r (length (dn ++ qu))). assert (e < 4)%nat as He by apply slot_lt.
    pose proof (tr_mem _ _ _ _ _ _ T) as Hm. pose proof (tr_len _ _ _ _ _ _ T) as Hl.
    destruct (copy_at m (nb_data b) (tx_off r e) (nb_len b)) as (m' & Hm' & Hlen & Hlk);
      [destruct Hb; unfold tx_off, TX_BUF_SIZE, NUM_TX_DESC in *; lia..|].
    destruct (transmit_run (n_dev s) dev rtl x r m m' p _ dn qu b T C2 Hb Hk Hm') as (p' & E & Hv). fold e in E, Hv.
    pose proof (transmit_rel p p' r m m' _ dn qu b T Hb Hk Hlen Hlk Hv) as T'. fold e in T'.
    exists (nplace s dev rtl (with_stats (count_tx (nb_len b)) x) (accepted r b e) m' p' (n_alloc s)).
    split; [by apply on_dev_place|]. split; [|done].
    eexists _, _, _, sent. split; [by apply nplace_card|]. by split.
  - exists (nplace s dev rtl (with_stats (add_dropped 0 1) x) r m p (n_alloc s)). split.
    + apply on_dev_place. unfold rtl8139_transmit. at_step. rewrite C2. at_step.
      rewrite (tr_count _ _ _ _ _ _ T), (proj2 (Z.leb_le _ _)) by (unfold NUM_TX_DESC; lia). by at_step.
    + split; [|done]. eexists _, _, _, sent. split; [by apply nplace_card|]. by split.
Qed.

Lemma clear_all dev rtl s0 s w0 fr dn qu :
  in_order dev rtl s0 s w0 fr dn qu ->
  exists s', rtl8139_tx_clear rtl s = Some (tt, s') /\ in_order dev rtl s0 s' w0 (fr ++ dn) [] qu.
Proof.
  intros [(x & r & m & sent & C & T & F) Ha]. pose proof C as [C1 C2 C3 C4 C5].
  destruct (tx_clear_ok s dev rtl x r m (nic_ports (n_dev s)) (n_alloc s) _ dn qu T C4) as (g & t & p' & E & T' & _).
  rewrite (nplace_id _ _ _ _ _ _ C) in E. eexists. split; [exact E|]. split.
  - eexists _, _, _, sent. split; [by apply nplace_card|]. split; [done|]. by rewrite app_nil_r.
  - cbn. by rewrite Ha, foldl_app.
Qed.

Lemma send_step dev rtl s0 s w0 fr dn qu x r m p' :
  in_order dev rtl s0 s w0 fr dn qu -> has_card s dev rtl x r m ->
  sends (rx_ring (rx r)) m (nic_ports (n_dev s)) p' ->
  exists b qu', qu = b :: qu' /\ in_order dev rtl s0 (set_dev (put_ports p' (n_dev s)) s) w0 fr (dn ++ [b]) qu'.
Proof.
  intros [(x1 & r1 & m1 & sent & C1 & T & F) Ha] C Hs.
  assert (x1 = x /\ r1 = r) as [-> ->].
  { pose proof (hc_dev _ _ _ _ _ _ C) as E1. pose proof (hc_rtl _ _ _ _ _ _ C) as E2.
    rewrite (hc_dev _ _ _ _ _ _ C1) in E1. rewrite (hc_rtl _ _ _ _ _ _ C1) in E2. by simplify_eq. }
  assert (m1 = m) as ->.
  { pose proof (hc_dma _ _ _ _ _ _ C) as E1. rewrite (hc_dma _ _ _ _ _ _ C1) in E1. by simplify_eq. }
  destruct (sends_rel _ _ _ _ _ _ _ T Hs) as (b & qu' & pad & -> & Hpad & T' & _).
  exists b, qu'. split; [done|]. split; [|done]. exists x, r, m, (sent ++ [frame b ++ pad]).
  split; [by destruct C|]. rewrite app_assoc. split; [done|]. rewrite app_assoc. apply Forall2_app; [done|].
  constructor; [|constructor]. by exists pad.
Qed.

(** C11: the transmitter is a queue: whatever the interleaving of packets of at
    most 1536 bytes handed over by the stack, interrupts that free what has been sent and transmissions
    by the card, also when the 32-bit descriptor counters wrap around, the
    frames on the wire are the accepted packets in their order, each complete and
    padded to 60 bytes, at most four packets are in flight, exactly the packets
    that have been sent and acknowledged have been freed, each once; a packet is
    accepted unless four are in flight, and the interrupt frees all packets sent
    so far and makes room for as many.  When the card sends is up to the card:
    that it does is not part of the theorem. *)
Theorem rtl8139_tx_in_order dev rtl (s0 s : nst) x0 r0 m0 w0 acc :
  has_card s0 dev rtl x0 r0 m0 -> tx_rel (nic_ports (n_dev s0)) r0 m0 w0 [] [] -> tx_trace dev rtl s0 acc s ->
  exists fr dn qu sent, acc = fr ++ dn ++ qu /\ (length (dn ++ qu) <= 4)%nat /\
    c_wire (card_view (nic_ports (n_dev s))) = w0 ++ sent /\ Forall2 sent_as (fr ++ dn) sent /\
    n_alloc s = foldl netbuf_free (n_alloc s0) fr /\
    (forall b, buf_ok b -> exists s', on_dev (rtl8139_transmit dev b) s
      = Some (if (length (dn ++ qu) <? 4)%nat then 0 else -1, s')) /\
    (exists s', rtl8139_tx_clear rtl s = Some (tt, s') /\ n_alloc s' = foldl netbuf_free (n_alloc s0) (fr ++ dn) /\
      forall b, buf_ok b -> exists s2, on_dev (rtl8139_transmit dev b) s'
        = Some (if (length qu <? 4)%nat then 0 else -1, s2)).
Proof.
  intros C T0 Htr. assert (exists fr dn qu, acc = fr ++ dn ++ qu /\ in_order dev rtl s0 s w0 fr dn qu)
    as (fr & dn & qu & Hacc & I).
  { induction Htr as [|acc s b res s' _ (fr & dn & qu & -> & I) Hb E|acc s s' _ (fr & dn & qu & -> & I) E
      |acc s x r m p' _ (fr & dn & qu & -> & I) Hc Hs].
    - exists [], [], []. split; [done|]. by apply (in_order_start _ _ _ x0 r0 m0).
    - destruct (transmit_step _ _ _ _ _ _ _ _ b I Hb) as (s2 & E2 & I2). rewrite E in E2. injection E2 as -> <-.
      destruct (length (dn ++ qu) <? 4)%nat.
      + exists fr, dn, (qu ++ [b]). split; [|done]. change (0 =? 0) with true. cbv iota. by rewrite !app_assoc.
      + exists fr, dn, qu. by split.
    - destruct (clear_all _ _ _ _ _ _ _ _ I) as (s2 & E2 & I2). rewrite E in E2. injection E2 as <-.
      exists (fr ++ dn), [], qu. split; [by rewrite <- app_assoc|done].
    - destruct (send_step _ _ _ _ _ _ _ _ _ _ _ _ I Hc Hs) as (b & qu' & -> & I2).
      exists fr, (dn ++ [b]), qu'. split; [by rewrite <- app_assoc|done]. }
  pose proof I as [(x & r & m & sent & C' & T & F) Ha].
  exists fr, dn, qu, sent. split; [done|]. split; [apply (tr_max _ _ _ _ _ _ T)|].
  split; [apply (tr_wire _ _ _ _ _ _ T)|]. split; [done|]. split; [done|]. split.
  - intros b Hb. destruct (transmit_step _ _ _ _ _ _ _ _ b I Hb) as (s' & E & _). eauto.
  - destruct (clear_all _ _ _ _ _ _ _ _ I) as (s' & E & I'). exists s'. split; [exact E|].
    split; [apply (io_alloc _ _ _ _ _ _ _ _ I')|]. intros b Hb.
    destruct (transmit_step _ _ _ _ _ _ _ _ b I' Hb) as (s2 & E2 & _). eauto.
Qed.

End Props.
End TxProps.

(** ** The receiver *)

Module RxFacts.
Import NetFacts CardState TxFacts TxProps.

(** The space of a frame in the ring. *)
Definition space (f : list Z) : Z := (Z.of_nat (length f) + 11) / 4 * 4.

(** A frame at [pos] in a ring of [ring] bytes: the header word and the bytes
    behind it, around the end of the ring if need be. *)
Record frame_at (m : list Z) (ring pos st : Z) (f : list Z) : Prop := {
  fa_status : 0 <= st < 65536;
  fa_size : Z.of_nat (length f) + 8 <= ring;
  fa_header : exists h, fetch m pos 4 = Some h /\ le_val h = st + 65536 * (Z.of_nat (length f) + 4);
  fa_bytes : forall i, (i < length f)%nat -> m !! Z.to_nat ((pos + 4 + Z.of_nat i) mod ring) = f !! i
}.

Fixpoint ring_holds (m : list Z) (ring pos : Z) (fs : list (Z * list Z)) : Prop :=
  match fs with
  | [] => True
  | (st, f) :: fs' => frame_at m ring pos st f /\ ring_holds m ring (next_pos ring pos f) fs'
  end.

Fixpoint used (fs : list (Z * list Z)) : Z :=
  match fs with [] => 0 | (_, f) :: fs' => space f + used fs' end.

Lemma used_length fs : 8 * Z.of_nat (length fs) <= used fs.
Proof.
  induction fs as [|[st f] fs IH]; cbn [length used]; [lia|]. unfold space.
  pose proof (Zle_0_nat (length f)). zlia.
Qed.

(** The frame comes out of the ring in one piece. *)
Lemma copy_packet_ok m ring pos st f :
  frame_at m ring pos st f -> 0 <= pos < ring -> pos mod 4 = 0 -> ring mod 4 = 0 -> ring <= 65536 ->
  ring + 16 <= Z.of_nat (length m) ->
  copy_packet m ring pos (Z.of_nat (length f) + 4) (Z.of_nat (length f)) (replicate (length f) 0) = Some f.
Proof.
  intros [_ Hsz _ Hb] Hp Hp4 Hr4 Hr Hm. unfold copy_packet. set (n := Z.of_nat (length f)) in *.
  assert (pos + 4 <= ring) as Hpr by zlia. rewrite u32_small by lia.
  destruct (Z.ltb_spec ring (pos + (n + 4))) as [Hw|Hw].
  - rewrite s32_small by lia. set (k := ring - pos - 4).
    destruct (copy_at (replicate (length f) 0) (drop (Z.to_nat (pos + 4)) m) 0 k) as (d1 & -> & Hl1 & Hd1);
      [lia|rewrite length_drop; lia|rewrite length_replicate; lia|]. cbn [mbind option_bind].
    rewrite length_replicate in Hl1.
    destruct (copy_at d1 m k (n - k)) as (d2 & -> & Hl2 & Hd2); [lia|lia|lia|]. f_equal.
    apply list_eq. intros i. rewrite Hd2. case_decide as Hi.
    + rewrite <- (Hb i) by lia. f_equal. rewrite <- (Z.mod_add _ (-1)), Z.mod_small by lia. lia.
    + rewrite Hd1. case_decide as Hi2.
      * rewrite lookup_drop, <- (Hb i) by lia. f_equal. rewrite Z.mod_small by lia. lia.
      * rewrite !lookup_ge_None_2; [done|lia|rewrite length_replicate; lia].
  - destruct (copy_at (replicate (length f) 0) (drop (Z.to_nat (pos + 4)) m) 0 n) as (d1 & -> & Hl1 & Hd1);
      [lia|rewrite length_drop; lia|rewrite length_replicate; lia|]. f_equal.
    apply list_eq. intros i. rewrite Hd1. case_decide as Hi.
    + rewrite lookup_drop, <- (Hb i) by lia. f_equal. rewrite Z.mod_small by lia. lia.
    + rewrite !lookup_ge_None_2; [done|lia|rewrite length_replicate; lia].
Qed.

(** The ring is read in the memory below its end only. *)
Lemma ring_holds_ext m m' ring : forall fs pos,
  0 < ring -> ring mod 4 = 0 -> 0 <= pos < ring -> pos mod 4 = 0 -> ring <= Z.of_nat (length m) ->
  length m' = length m -> (forall i, Z.of_nat i < ring -> m' !! i = m !! i) ->
  ring_holds m ring pos fs -> ring_holds m' ring pos fs.
Proof.
  induction fs as [|[st f] fs IH]; intros pos Hr Hr4 Hp Hp4 Hm Hl He; [done|]. intros [[F1 F2 (h & Fh & Fv) F4] Hf]. split.
  - split; [done|done| |].
    + exists h. split; [|done]. rewrite fetch_ok in Fh |- * by zlia. rewrite <- Fh. f_equal.
      apply window_eq. intros j Hj. apply He. zlia.
    + intros i Hi. rewrite He; [by apply F4|]. pose proof (Z.mod_pos_bound (pos + 4 + Z.of_nat i) ring). lia.
  - apply IH; try done; unfold next_pos.
    + apply Z.mod_pos_bound. lia.
    + pose proof (Z.mod_pos_bound ((pos + Z.of_nat (length f) + 11) / 4 * 4) ring Hr).
      rewrite Z.mod_eq by lia. zlia.
Qed.

Lemma copy_prefix (m src : list Z) off n m' : copy m off src n = Some m' ->
  length m' = length m /\ forall i, Z.of_nat i < off -> m' !! i = m !! i.
Proof.
  unfold copy. destruct (n <=? 0); [by intros [= <-]|].
  destruct (fetch src 0 n) as [bs|]; [|done]. cbn [mbind option_bind]. unfold store.
  destruct (Z.leb_spec 0 off); [|done]. destruct (Z.leb_spec (off + Z.of_nat (length bs)) (Z.of_nat (length m))); [|done].
  cbn [andb]. intros [= <-]. split; [rewrite !length_app, length_take, length_drop; lia|].
  intros i Hi. rewrite splice_lookup, decide_False by lia. done.
Qed.

Section Rel.
Context {P : Type} `{RtlCard P}.

(** The interrupt status of the card. *)
Variable isr : Z.

(** The driver and the card agree on the ring: [cur] is the read position of the
    driver and [fs] are the frames that it has not taken. *)
Record rx_rel (p : P) (r : rtl8139) (m : list Z) (cur : Z) (fs : list (Z * list Z)) : Prop := {
  rr_base : rtl_iobase r = card_base;
  rr_ring : c_ring (card_view p) = rx_buf_len (rx r);
  rr_start : c_start (card_view p) = rx_ring (rx r);
  rr_len : rx_buf_len (rx r) ∈ [8192; 16384; 32768; 65536];
  rr_mem : Z.of_nat (length m) = rx_buf_len (rx r) + 16 + TX_BUF_SIZE * NUM_TX_DESC;
  rr_cur : 0 <= cur < 65536 /\ cur mod 4 = 0;
  rr_pos : c_rxpos (card_view p) = cur mod rx_buf_len (rx r);
  rr_frames : c_rx (card_view p) = fs;
  rr_holds : ring_holds m (rx_buf_len (rx r)) (cur mod rx_buf_len (rx r)) fs;
  rr_used : used fs <= rx_buf_len (rx r);
  rr_isr : c_isr (card_view p) = isr
}.

Lemma rr_bounds p r m cur fs : rx_rel p r m cur fs ->
  let n := rx_buf_len (rx r) in
  8192 <= n <= 65536 /\ n mod 4 = 0 /\ 65536 mod n = 0 /\ 0 <= cur mod n < n /\ (cur mod n) mod 4 = 0.
Proof.
  intros R n. pose proof (rr_len _ _ _ _ _ R) as Hn. fold n in Hn. pose proof (rr_cur _ _ _ _ _ R) as [Hc Hc4].
  rewrite !elem_of_cons, elem_of_nil in Hn.
  destruct Hn as [->|[->|[->|[->|[]]]]]; (split; [lia|]); (split; [done|]); (split; [done|]); zlia.
Qed.

(** One card, the first device, whose driver object differs from [r] in its
    transmit and configuration state only. *)
Record one_card (d : nics P rtls) (dev rtl : Z) (r : rtl8139) (x : netdev) (r' : rtl8139) (m : list Z) : Prop := {
  oc_count : 0 < netdev_count (nic_reg d);
  oc_first : netdevs (nic_reg d) !! 0%nat = Some dev;
  oc_dev : dev_objs (nic_reg d) !! dev = Some x;
  oc_data : driver_data x = rtl;
  oc_ops : ops x = Some rtl8139_netdev_ops;
  oc_rtl : rtl_objs (nic_drv d) !! rtl = Some r';
  oc_rx : rx r' = rx r;
  oc_base : rtl_iobase r' = rtl_iobase r;
  oc_netdev : rtl_netdev r' = dev;
  oc_self : rtl_netdev r = dev;
  oc_buffer : forall e, (e < 4)%nat -> tx_buffer (tx r') !! e = Some (rx_ring (rx r) + tx_off r e);
  oc_dma : dma (nic_drv d) !! rx_ring (rx r) = Some m
}.

Definition rx_inv (dev rtl : Z) (r : rtl8139) (cur : Z) (fs : list (Z * list Z)) (d : nics P rtls) : Prop :=
  exists x r' m, one_card d dev rtl r x r' m /\ rx_rel (nic_ports d) r m cur fs.

Lemma one_card_place d dev rtl r x r' m x1 r1 m1 p :
  one_card d dev rtl r x r' m ->
  driver_data x1 = rtl -> ops x1 = Some rtl8139_netdev_ops -> rx r1 = rx r -> rtl_iobase r1 = rtl_iobase r ->
  rtl_netdev r1 = dev -> tx_buffer (tx r1) = tx_buffer (tx r') ->
  one_card (place d dev rtl x1 r1 m1 p) dev rtl r x1 r1 m1.
Proof.
  intros [O1 O2 O3 O4 O5 O6 O7 O8 O9 O10 O11 O12] Hx Ho Hr Hb Hn Ht.
  split; cbn; rewrite ?lookup_insert_eq, ?Ht; try done. by rewrite Hr, lookup_insert_eq.
Qed.

Lemma one_card_eq d dev rtl r x r' m : one_card d dev rtl r x r' m -> place d dev rtl x r' m (nic_ports d) = d.
Proof. intros O. apply place_id; [apply O|apply O|]. rewrite (oc_rx _ _ _ _ _ _ _ O). apply O. Qed.

Lemma one_card_first d dev rtl r x r' m : one_card d dev rtl r x r' m -> first_dev d = Some (dev, x).
Proof.
  intros O. unfold first_dev. rewrite (proj2 (Z.leb_gt _ _)) by apply O.
  rewrite (oc_first _ _ _ _ _ _ _ O). cbn. by rewrite (oc_dev _ _ _ _ _ _ _ O).
Qed.

(** The relation depends on the receiver and on the ring in memory only. *)
Lemma rx_rel_ext p p' r m m' cur fs :
  rx_rel p r m cur fs -> rx_part (card_view p') = rx_part (card_view p) -> length m' = length m ->
  (forall i, Z.of_nat i < rx_buf_len (rx r) -> m' !! i = m !! i) -> rx_rel p' r m' cur fs.
Proof.
  intros R Hp Hl Hm. pose proof (rr_bounds _ _ _ _ _ R) as (Hb1 & Hb2 & Hb3 & Hb4 & Hb5).
  destruct R as [R1 R2 R2' R3 R4 R5 R6 R7 R8 R9 R10]. unfold rx_part in Hp. injection Hp as E1 E2 E3 E4 E5.
  split; rewrite ?E1, ?E2, ?E3, ?E4, ?E5, ?Hl; try done. apply (ring_holds_ext m); try done; unfold TX_BUF_SIZE, NUM_TX_DESC in *; lia.
Qed.

Lemma rx_inv_count dev rtl r cur fs d n : rx_inv dev rtl r cur fs d -> rx_inv dev rtl r cur fs (dev_count_rx d n).
Proof.
  intros (x & r' & m & O & R). unfold dev_count_rx. rewrite (one_card_first _ _ _ _ _ _ _ O).
  exists (with_stats (count_rx n) x), r', m. split; [|done].
  destruct O as [O1 O2 O3 O4 O5 O6 O7 O8 O9 O10 O11 O12].
  split; cbn; rewrite ?lookup_insert_eq; done.
Qed.

Lemma rx_inv_transmit dev rtl r cur fs d b res d' :
  dev_transmit d b = Some (res, d') -> rx_inv dev rtl r cur fs d -> rx_inv dev rtl r cur fs d'.
Proof.
  intros E (x & r' & m & O & R). unfold dev_transmit in E. rewrite (one_card_first _ _ _ _ _ _ _ O) in E.
  cbn [mbind option_bind] in E. rewrite (oc_ops _ _ _ _ _ _ _ O) in E. cbn [mbind option_bind op_transmit rtl8139_netdev_ops] in E.
  rewrite <- (one_card_eq _ _ _ _ _ _ _ O) in E. set (p := nic_ports d) in *.
  revert E. unfold rtl8139_transmit. at_step. rewrite (oc_data _ _ _ _ _ _ _ O). at_step.
  destruct (NUM_TX_DESC <=? _).
  { at_step. intros [= _ <-]. eexists _, r', m. split; [|exact R]. apply (one_card_place _ _ _ _ _ _ _ _ _ _ _ O); try done; apply O. }
  at_step. set (e := Z.to_nat (cur_tx (tx r') mod NUM_TX_DESC)).
  assert (e < 4)%nat as He by (unfold e, NUM_TX_DESC; zlia).
  rewrite (bind_lift _ _ _ _ (oc_buffer _ _ _ _ _ _ _ O e He)). at_step.
  destruct (copy m _ (nb_data b) (nb_len b)) as [m1|] eqn:Ec; [|done].
  unfold bind at 1, lift. at_step. at_step. at_step. at_step. at_step. intros [= _ <-].
  rewrite (oc_rx _ _ _ _ _ _ _ O) in Ec. destruct (copy_prefix _ _ _ _ _ Ec) as [Hl Hm].
  pose proof (rr_bounds _ _ _ _ _ R) as (Hb1 & _).
  eexists _, _, m1. split; [apply (one_card_place _ _ _ _ _ _ _ _ _ _ _ O); try done; apply O|].
  apply (rx_rel_ext p _ r m); try done.
  - cbn [nic_ports place]. rewrite (oc_base _ _ _ _ _ _ _ O), (rr_base _ _ _ _ _ R).
    assert (0 <= cur_tx (tx r') mod NUM_TX_DESC < 4) by (unfold NUM_TX_DESC; zlia).
    rewrite <- !Z.add_assoc, !port_small by (unfold TxAddr0, TxStatus0; lia).
    rewrite !card_tx_rx by (unfold TxAddr0, TxStatus0; lia). done.
  - intros i Hi. apply Hm. unfold tx_off, TX_BUF_SIZE. lia.
Qed.

End Rel.

(** *** Header words and positions *)

Lemma has_low st k mask : 0 <= st < 65536 -> 0 <= mask < 65536 -> has (st + 65536 * k) mask = has st mask.
Proof.
  intros Hs Hm. unfold has.
  assert (forall x, Z.land x mask = Z.land (x mod 65536) mask) as E.
  { intros x. change 65536 with (2 ^ 16). rewrite <- Z.land_ones by lia.
    rewrite <- (Z.mod_small mask (2 ^ 16)) by (change (2 ^ 16) with 65536; lia).
    rewrite <- (Z.land_ones mask) by lia. rewrite <- Z.land_assoc. f_equal.
    rewrite (Z.land_comm mask), Z.land_assoc, Z.land_diag. done. }
  rewrite (E (st + 65536 * k)). rewrite (Z.mul_comm 65536), Z.mod_add, Z.mod_small by lia. done.
Qed.

Lemma count_errors_low st k x : 0 <= st < 65536 -> count_rx_errors (st + 65536 * k) x = count_rx_errors st x.
Proof. intros Hs. unfold count_rx_errors. by rewrite !has_low by (done || (vm_compute; done)). Qed.

(** The position behind a frame, in 16 bits. *)
Definition next_cur (cur : Z) (f : list Z) : Z := u16 ((cur + Z.of_nat (length f) + 11) / 4 * 4).

Lemma land_not3 x : Z.land x (Z.lnot 3) = x / 4 * 4.
Proof.
  change 3 with (Z.ones 2). rewrite <- Z.ldiff_land, Z.ldiff_ones_r by lia.
  by rewrite Z.shiftr_div_pow2, Z.shiftl_mul_pow2 by lia.
Qed.

Lemma mod_ring x n : 0 < n -> 65536 mod n = 0 -> (x mod 65536) mod n = x mod n.
Proof.
  intros Hn Hd. apply Z.mod_mod_divide. by apply Z.mod_divide; [lia|].
Qed.

Lemma next_cur_pos n cur f : 0 < n -> n mod 4 = 0 -> 65536 mod n = 0 ->
  next_cur cur f mod n = next_pos n (cur mod n) f.
Proof.
  intros Hn Hn4 Hd. unfold next_cur, next_pos, u16. change (2 ^ 16) with 65536. rewrite mod_ring by done.
  assert (n = n / 4 * 4) as Hk by zlia. set (k := n / 4) in *.
  rewrite (Z.div_mod cur n) at 1 by lia. set (q := cur / n). set (y := cur mod n).
  replace (n * q + y + Z.of_nat (length f) + 11) with (k * q * 4 + (y + Z.of_nat (length f) + 11)) by lia.
  rewrite Z.div_add_l by lia. rewrite Z.mul_add_distr_r.
  replace (k * q * 4 + (y + Z.of_nat (length f) + 11) / 4 * 4) with ((y + Z.of_nat (length f) + 11) / 4 * 4 + q * n) by lia.
  apply Z.mod_add. lia.
Qed.

(** ** What becomes of a frame *)

Section Handle.
Context {A P : Type} `{KAlloc A} `{RtlCard P}.

Abbreviation nst := (net A (nics P rtls)).

(** A frame is counted as an error, or handed to the network stack in a new
    buffer, which is freed if the stack rejects it; [false] is the case that no
    buffer could be had. *)
Definition handle (dev st : Z) (f : list Z) : M nst bool :=
  let n := Z.of_nat (length f) in
  if has st 0x8000 then
    (if has st rx_error_bits then upd_stats dev (count_rx_errors st) else ret tt) ;! ret true
  else
    let! b := alloc_buf n in
    match b with
    | None => upd_stats dev (add_dropped 1 0) ;! ret false
    | Some nb =>
      let! (res, nb) := netdev_rx (mk_netbuf (nb_addr nb) (nb_data_addr nb) f n n) in
      (if res <? 0 then free_buf nb else ret tt) ;!
      upd_stats dev (count_rx n) ;!
      ret true
    end.

(** The states differ in the ports only, and the transmitter has not moved. *)
Definition tx_part (c : card) : list txdesc * list nat * list (list Z) := (c_tx c, c_queue c, c_wire c).

Definition quiet (s s' : nst) : Prop :=
  exists p', s' = set_dev (put_ports p' (n_dev s)) s /\
    tx_part (card_view p') = tx_part (card_view (nic_ports (n_dev s))) /\
    c_isr (card_view p') = c_isr (card_view (nic_ports (n_dev s))).

Lemma alloc_buf_data n (s s' : nst) nb :
  alloc_buf n s = Some (Some nb, s') -> nb_data nb = replicate (Z.to_nat (u16 n)) 0.
Proof.
  unfold alloc_buf, netbuf_alloc. destruct (ka_zalloc _ _) as [b a]. destruct (b =? NULL); [done|].
  destruct (ka_zalloc a _) as [q a']. destruct (q =? NULL); [done|]. by intros [= <- _].
Qed.

Section Card.
Variables (isr dev rtl : Z) (r : rtl8139).

Abbreviation inv := (rx_inv isr dev rtl r).

Lemma upd_stats_inv g cur fs (s : nst) : inv cur fs (n_dev s) ->
  exists s', upd_stats dev g s = Some (tt, s') /\ inv cur fs (n_dev s').
Proof.
  intros (x & r' & m & O & R). unfold upd_stats, on_dev. rewrite <- (one_card_eq _ _ _ _ _ _ _ O).
  rewrite upd_netdev_at. eexists. split; [done|]. exists (with_stats g x), r', m. split; [|done].
  apply (one_card_place _ _ _ _ _ _ _ _ _ _ _ O); try done; apply O.
Qed.

Lemma handle_inv st f cur fs : keeps (inv cur fs) (handle dev st f).
Proof.
  assert (forall g, keeps (inv cur fs) (@upd_stats A P dev g)) as Hu.
  { intros g s v s' E Hq. destruct (upd_stats_inv g cur fs s Hq) as (s2 & E2 & Hq2). rewrite E in E2. by injection E2 as -> <-. }
  unfold handle. case_match.
  - apply keeps_bind; [|intros; apply keeps_ret]. case_match; [apply Hu|apply keeps_ret].
  - apply keeps_bind; [apply keeps_alloc|]. intros [nb|].
    + apply keeps_bind.
      { apply keeps_netdev_rx; [intros; by apply rx_inv_count|intros d b res d'; apply rx_inv_transmit]. }
      intros [res nb']. apply keeps_bind; [case_match; [by apply keeps_modify|apply keeps_ret]|].
      intros _. apply keeps_bind; [apply Hu|intros; apply keeps_ret].
    + apply keeps_bind; [apply Hu|intros; apply keeps_ret].
Qed.

(** The command register shows whether a frame is waiting. *)
Lemma poll_ok cur fs (s : nst) : inv cur fs (n_dev s) ->
  exists v s1, on_dev (insb (rtl_iobase r + ChipCmd)) s = Some (v, s1) /\
    has v RxBufEmpty = bool_decide (fs = []) /\ quiet s s1 /\ inv cur fs (n_dev s1).
Proof.
  intros (x & r' & m & O & R). unfold on_dev, insb, io_in.
  rewrite (rr_base _ _ _ _ _ _ R), port_small by (unfold ChipCmd; lia).
  destruct (card_rx_empty (nic_ports (n_dev s))) as [Hv Hp]. destruct (p_insb _ _) as [v p']. cbn in Hv, Hp.
  rewrite (rr_frames _ _ _ _ _ _ R) in Hv. eexists v, _. split; [done|]. split; [done|]. split.
  - exists p'. by rewrite Hp.
  - exists x, r', m. split; [by destruct O|]. apply (rx_rel_ext isr (nic_ports (n_dev s)) _ r m); try done. cbn. by rewrite Hp.
Qed.

(** Moving the read pointer gives the space of the frame back to the card. *)
Lemma ack_ok cur st f fs (s : nst) : inv cur ((st, f) :: fs) (n_dev s) ->
  exists s1, on_dev (outw (rtl_iobase r + RxBufPtr) (next_cur cur f - 16)) s = Some (tt, s1) /\
    quiet s s1 /\ inv (next_cur cur f) fs (n_dev s1).
Proof.
  intros (x & r' & m & O & R). pose proof (rr_bounds _ _ _ _ _ _ R) as (Hb1 & Hb2 & Hb3 & Hb4 & Hb5).
  set (n := rx_buf_len (rx r)) in *. set (p := nic_ports (n_dev s)) in *.
  pose proof (next_cur_pos n cur f ltac:(lia) Hb2 Hb3) as Hnext.
  assert (card_view (p_outw p (card_base + RxBufPtr) (u16 (next_cur cur f - 16))) = take_frame (card_view p)) as Hv.
  { apply (card_rx_ptr _ _ st f fs); [apply (rr_frames _ _ _ _ _ _ R)|apply u16_range|].
    rewrite (rr_ring _ _ _ _ _ _ R), (rr_pos _ _ _ _ _ _ R). fold n. rewrite <- Hnext. unfold u16 at 1.
    change (2 ^ 16) with 65536. rewrite <- (Z.add_mod_idemp_l _ 16), mod_ring, Z.add_mod_idemp_l by lia. f_equal. lia. }
  set (p' := p_outw p (card_base + RxBufPtr) (u16 (next_cur cur f - 16))) in *.
  exists (set_dev (put_ports p' (n_dev s)) s).
  split; [unfold on_dev, outw, io_out, modify; rewrite (rr_base _ _ _ _ _ _ R), port_small by (unfold RxBufPtr; lia); done|].
  unfold take_frame in Hv. rewrite (rr_frames _ _ _ _ _ _ R) in Hv. split.
  - exists p'. split; [done|]. by rewrite Hv.
  - exists x, r', m. split; [by destruct O|]. destruct R as [R1 R2 R2' R3 R4 R5 R6 R7 [R8f R8] R9 R10]. cbn [used] in R9.
    split; cbn [n_dev set_dev nic_ports put_ports]; rewrite ?Hv; cbn [c_ring c_rxpos c_rx c_start]; try done.
    + unfold next_cur. split; [apply u16_range|]. unfold u16. zlia.
    + fold p in R2, R6. rewrite R2, R6. by fold n.
    + fold n. by rewrite Hnext.
    + unfold space in R9. pose proof (Zle_0_nat (length f)). fold n. zlia.
Qed.

Lemma upd_stats_ext g g' (s : nst) : (forall y, g y = g' y) -> upd_stats dev g s = upd_stats dev g' s.
Proof.
  intros E. unfold upd_stats, on_dev, upd_netdev, bind, get_netdev, put_netdev, modify.
  destruct (dev_objs _ !! dev); [|done]. unfold with_stats. by rewrite E.
Qed.

(** One round of the loop. *)
Lemma rx_round fuel cur st f fs (s : nst) : inv cur ((st, f) :: fs) (n_dev s) ->
  exists s1, quiet s s1 /\ inv cur ((st, f) :: fs) (n_dev s1) /\
    rx_loop (S fuel) r cur s = match handle dev st f s1 with
      | None => None
      | Some (false, s2) => Some (cur, s2)
      | Some (true, s2) =>
        (on_dev (outw (rtl_iobase r + RxBufPtr) (next_cur cur f - 16)) ;! rx_loop fuel r (next_cur cur f)) s2
      end.
Proof.
  intros Hi. destruct (poll_ok _ _ _ Hi) as (v & s1 & E1 & Hv & Hq & Hi1). exists s1. split; [done|]. split; [done|].
  cbn [rx_loop]. rewrite (bind_Some _ _ _ _ _ E1), Hv, bool_decide_false by done.
  destruct Hi1 as (x & r' & m & O & R). pose proof (rr_bounds _ _ _ _ _ _ R) as (Hb1 & Hb2 & Hb3 & Hb4 & Hb5).
  pose proof (rr_holds _ _ _ _ _ _ R) as [F _]. pose proof F as [F1 F2 (h & Fh & Fv) F4].
  erewrite bind_Some by (unfold on_dev, get_dma; rewrite (oc_dma _ _ _ _ _ _ _ O); reflexivity).
  replace (set_dev (n_dev s1) s1) with s1 by (by destruct s1).
  rewrite (bind_lift _ _ _ _ Fh), Fv. set (k := Z.of_nat (length f) + 4) in *.
  rewrite Z.shiftr_div_pow2 by lia. change (2 ^ 16) with 65536.
  replace ((st + 65536 * k) / 65536) with k by zlia.
  assert (u16 (Z.land (cur + k + 4 + 3) (Z.lnot 3)) = next_cur cur f) as Hn.
  { rewrite land_not3. unfold next_cur, k. do 2 f_equal. f_equal. lia. }
  rewrite Hn, !has_low by (done || (vm_compute; done)).
  rewrite (oc_self _ _ _ _ _ _ _ O). unfold handle. destruct (has st 0x8000).
  - unfold bind, ret. destruct (has st rx_error_bits); [|done].
    rewrite (upd_stats_ext _ (count_rx_errors st)) by (intros; by apply count_errors_low).
    by destruct (upd_stats dev (count_rx_errors st) s1) as [[[] s2]|].
  - rewrite (s32_small (k - 4)) by (unfold k; lia). replace (k - 4) with (Z.of_nat (length f)) by (unfold k; lia).
    destruct (alloc_buf (Z.of_nat (length f)) s1) as [[[nb|] s2]|] eqn:Ea.
    + pose proof (alloc_buf_data _ _ _ _ Ea) as Hd. rewrite u16_small, Nat2Z.id in Hd by lia.
      rewrite !(bind_Some _ _ _ _ _ Ea), Hd.
      rewrite (bind_lift _ _ _ _ (copy_packet_ok m _ _ st f F Hb4 Hb5 Hb2 ltac:(lia) ltac:(rewrite (rr_mem _ _ _ _ _ _ R); unfold TX_BUF_SIZE, NUM_TX_DESC; lia))).
      rewrite !(u16_small (Z.of_nat (length f))) by lia. unfold bind.
      destruct (netdev_rx _ s2) as [[[res nb'] s3]|]; [|done].
      destruct (res <? 0); [destruct (free_buf nb' s3) as [[[] s4]|]; [|done]|]; unfold ret.
      * by destruct (upd_stats dev _ s4) as [[[] s5]|].
      * by destruct (upd_stats dev _ s3) as [[[] s5]|].
    + rewrite !(bind_Some _ _ _ _ _ Ea). unfold bind, ret. by destruct (upd_stats dev _ s2) as [[[] s3]|].
    + unfold bind. by rewrite Ea.
Qed.

End Card.
End Handle.
End RxFacts.

(** ** Frames reach the stack in the order in which they arrive *)

Module RxProps.
Import NetFacts CardState TxFacts RxFacts.

Section Props.
Context {A P : Type} `{KAlloc A} `{RtlCard P}.

Abbreviation nst := (net A (nics P rtls)).

(** The frames handled one after the other; in between the driver moves the
    read pointer and polls the card. *)
Inductive handled (dev : Z) (s : nst) : list (Z * list Z) -> nst -> Prop :=
| hd_nil : handled dev s [] s
| hd_quiet fs s1 s2 : handled dev s fs s1 -> quiet s1 s2 -> handled dev s fs s2
| hd_frame fs s1 st f s2 :
    handled dev s fs s1 -> handle dev st f s1 = Some (true, s2) -> handled dev s (fs ++ [(st, f)]) s2.

(** How the loop ends: all frames handled, no memory for the next one, or a fault
    of the stack. *)
Inductive ends (isr dev rtl : Z) (r : rtl8139) (s : nst) : list (Z * list Z) -> option (Z * nst) -> Prop :=
| e_all fs cur s1 : handled dev s fs s1 -> rx_inv isr dev rtl r cur [] (n_dev s1) -> ends isr dev rtl r s fs (Some (cur, s1))
| e_squeeze fs st f l cur s1 s2 :
    handled dev s fs s1 -> handle dev st f s1 = Some (false, s2) -> rx_inv isr dev rtl r cur ((st, f) :: l) (n_dev s2) ->
    ends isr dev rtl r s (fs ++ (st, f) :: l) (Some (cur, s2))
| e_fault fs st f l s1 :
    handled dev s fs s1 -> handle dev st f s1 = None -> ends isr dev rtl r s (fs ++ (st, f) :: l) None.

Lemma rx_loop_ends isr dev rtl r s0 : forall fs fuel before cur s,
  handled dev s0 before s -> rx_inv isr dev rtl r cur fs (n_dev s) -> (length fs < fuel)%nat ->
  ends isr dev rtl r s0 (before ++ fs) (rx_loop fuel r cur s).
Proof.
  induction fs as [|[st f] fs IH]; intros fuel before cur s Hh Hi Hf; (destruct fuel as [|fuel]; [cbn in Hf; lia|]).
  - destruct (poll_ok _ _ _ _ _ _ _ Hi) as (v & s1 & E & Hv & Hq & Hi1).
    cbn [rx_loop]. rewrite (bind_Some _ _ _ _ _ E), Hv, bool_decide_true, app_nil_r by done.
    apply e_all; [|done]. by apply (hd_quiet _ _ _ s).
  - destruct (rx_round _ _ _ _ fuel _ _ _ _ _ Hi) as (s1 & Hq & Hi1 & E). rewrite E.
    assert (handled dev s0 before s1) as Hh1 by (by apply (hd_quiet _ _ _ s)).
    destruct (handle dev st f s1) as [[[] s2]|] eqn:Eh.
    + pose proof (handle_inv isr dev rtl r st f cur ((st, f) :: fs) s1 true s2 Eh Hi1) as Hi2.
      destruct (ack_ok _ _ _ _ _ _ _ _ _ Hi2) as (s3 & E3 & Hq3 & Hi3). rewrite (bind_Some _ _ _ _ _ E3).
      replace (before ++ (st, f) :: fs) with ((before ++ [(st, f)]) ++ fs) by (by rewrite <- app_assoc).
      apply IH; [|done|cbn in Hf; lia]. apply (hd_quiet _ _ _ s2); [|done]. by apply (hd_frame _ _ _ s1).
    + pose proof (handle_inv isr dev rtl r st f cur ((st, f) :: fs) s1 false s2 Eh Hi1) as Hi2.
      by apply (e_squeeze _ _ _ _ _ _ _ _ _ _ s1).
    + by apply (e_fault _ _ _ _ _ _ _ _ _ s1).
Qed.

(** The card of [dev] with the frames [fs] waiting. *)
Definition rx_ready (isr dev rtl : Z) (fs : list (Z * list Z)) (d : nics P rtls) : Prop :=
  exists r, rtl_objs (nic_drv d) !! rtl = Some r /\ rx_inv isr dev rtl r (cur_rx (rx r)) fs d.

(** The end of [rtl8139_rx]: the read position is stored. *)
Lemma store_cur isr dev rtl r cur fs (s : nst) : rx_inv isr dev rtl r cur fs (n_dev s) ->
  exists s', on_dev (upd_rtl rtl (fun r => with_rx (set_cur_rx cur (rx r)) r)) s = Some (tt, s') /\
    set_dev (n_dev s) s' = s /\ nic_ports (n_dev s') = nic_ports (n_dev s) /\ rx_ready isr dev rtl fs (n_dev s').
Proof.
  intros (x & r' & m & O & R). set (r1 := with_rx (set_cur_rx cur (rx r')) r').
  exists (set_dev (place (n_dev s) dev rtl x r1 m (nic_ports (n_dev s))) s). split; [|split; [by destruct s|split; [done|]]].
  - apply on_dev_at. rewrite <- (one_card_eq _ _ _ _ _ _ _ O) at 1. by apply upd_rtl_at.
  - exists r1. split; [cbn; by rewrite lookup_insert_eq|]. exists x, r1, m.
    destruct O as [O1 O2 O3 O4 O5 O6 O7 O8 O9 O9' O10 O11]. destruct R as [R1 R2 R2' R3 R4 R5 R6 R7 R8 R9 R10].
    split; split; cbn; rewrite ?lookup_insert_eq, ?O7, ?O8; try done.
    intros e He. unfold tx_off. cbn. rewrite O7. by apply O10.
Qed.

(** The loop of [rtl8139_rx] comes to one of its ends. *)
Lemma rx_ends isr dev rtl (s : nst) fs : rx_ready isr dev rtl fs (n_dev s) ->
  exists r o, ends isr dev rtl r s fs o /\
    rtl8139_rx rtl s = match o with
      | None => None
      | Some (cur, s1) => (on_dev (upd_rtl rtl (fun r => with_rx (set_cur_rx cur (rx r)) r)) ;! ret 0) s1
      end.
Proof.
  intros (r & Hr & Hi). exists r, (rx_loop rx_fuel r (cur_rx (rx r)) s). pose proof Hi as (x & r' & m & O & R). split.
  - assert (length fs < rx_fuel)%nat as Hf.
    { pose proof (rr_used _ _ _ _ _ _ R). pose proof (used_length fs). pose proof (rr_bounds _ _ _ _ _ _ R) as (Hb & _).
      unfold rx_fuel. lia. }
    apply (rx_loop_ends isr dev rtl r s fs rx_fuel [] _ s (hd_nil _ _) Hi Hf).
  - unfold rtl8139_rx. assert (on_dev (get_rtl rtl) s = Some (r, s)) as E by (unfold on_dev, get_rtl; rewrite Hr; by destruct s).
    rewrite (bind_Some _ _ _ _ _ E), u16_small by apply (rr_cur _ _ _ _ _ _ R). done.
Qed.

Lemma rx_keeps_ready isr dev rtl (s s' : nst) fs : rx_ready isr dev rtl fs (n_dev s) -> rtl8139_rx rtl s = Some (0, s') ->
  exists before left, fs = before ++ left /\ rx_ready isr dev rtl left (n_dev s').
Proof.
  intros Hrdy E. destruct (rx_ends _ _ _ _ _ Hrdy) as (r & o & He & Erx). rewrite Erx in E.
  destruct He as [fs cur s1 Hh Hi1|fs st f l cur s1 s2 Hh Eh Hi2|]; [| |done].
  - destruct (store_cur _ _ _ _ _ _ _ Hi1) as (s2 & E' & _ & _ & Hr'). rewrite (bind_Some _ _ _ _ _ E') in E.
    injection E as <-. exists fs, []. by rewrite app_nil_r.
  - destruct (store_cur _ _ _ _ _ _ _ Hi2) as (s3 & E' & _ & _ & Hr'). rewrite (bind_Some _ _ _ _ _ E') in E.
    injection E as <-. by exists fs, ((st, f) :: l).
Qed.

(** C12: received frames are handled in the order of their arrival and each once:
    with the frames fs in the ring, whatever their sizes and also across the end
    of the ring and the wrap-around of the 16-bit position, rtl8139_rx takes
    them one by one and hands each to the network stack, or counts it as an error,
    or, when bit 15 of its status is set (a multicast frame), skips it as the
    driver does; it stops with
    the ring empty or at the first frame for which there is no memory, leaving
    that one and the rest in the ring, and fails only if the stack does. *)
Theorem rtl8139_rx_in_order isr dev rtl (s : nst) fs : rx_ready isr dev rtl fs (n_dev s) ->
  match rtl8139_rx rtl s with
  | Some (res, s') => res = 0 /\ exists before left s1, fs = before ++ left /\ handled dev s before s1 /\
      rx_ready isr dev rtl left (n_dev s') /\
      ((left = [] /\ set_dev (n_dev s1) s' = s1) \/
       exists st f l s2, left = (st, f) :: l /\ handle dev st f s1 = Some (false, s2) /\ set_dev (n_dev s2) s' = s2)
  | None => exists before st f l s1, fs = before ++ (st, f) :: l /\ handled dev s before s1 /\ handle dev st f s1 = None
  end.
Proof.
  intros Hrdy. destruct (rx_ends _ _ _ _ _ Hrdy) as (r & o & He & ->).
  destruct He as [fs cur s1 Hh Hi1|fs st f l cur s1 s2 Hh Eh Hi2|fs st f l s1 Hh Eh].
  - destruct (store_cur _ _ _ _ _ _ _ Hi1) as (s' & E' & Hs' & _ & Hr'). rewrite (bind_Some _ _ _ _ _ E').
    split; [done|]. exists fs, [], s1. rewrite app_nil_r. split; [done|]. split; [done|]. split; [done|]. by left.
  - destruct (store_cur _ _ _ _ _ _ _ Hi2) as (s' & E' & Hs' & _ & Hr'). rewrite (bind_Some _ _ _ _ _ E').
    split; [done|]. exists fs, ((st, f) :: l), s1. split; [done|]. split; [done|]. split; [done|].
    right. by exists st, f, l, s2.
  - by exists fs, st, f, l, s1.
Qed.

End Props.
End RxProps.

(** ** From the wire to the socket *)

Module IrqProps.
Import NetFacts CardState TxFacts RxFacts RxProps.

Section Props.
Context {A P : Type} `{KL : KAllocLaws A} `{RtlCard P}.

Abbreviation nst := (net A (nics P rtls)).

(** Reading the interrupt status, and clearing what was read. *)
Lemma isr_read isr dev rtl r cur fs (s : nst) : rx_inv isr dev rtl r cur fs (n_dev s) ->
  exists p', on_dev (insw (rtl_iobase r + IntrStatus)) s = Some (isr, set_dev (put_ports p' (n_dev s)) s) /\
    rx_inv isr dev rtl r cur fs (put_ports p' (n_dev s)).
Proof.
  intros (x & r' & m & O & R). unfold on_dev, insw, io_in.
  rewrite (rr_base _ _ _ _ _ _ R), port_small by (unfold IntrStatus; lia).
  destruct (card_isr_read (nic_ports (n_dev s))) as [Hv Hp]. destruct (p_insw _ _) as [v p']. cbn in Hv, Hp.
  rewrite (rr_isr _ _ _ _ _ _ R) in Hv. subst v. exists p'. split; [done|]. exists x, r', m. split; [by destruct O|].
  apply (rx_rel_ext isr (nic_ports (n_dev s)) _ r m); try done. cbn. by rewrite Hp.
Qed.

Lemma isr_ack isr dev rtl r cur fs v (s : nst) : rx_inv isr dev rtl r cur fs (n_dev s) -> 0 <= v < 65536 ->
  exists p', on_dev (outw (rtl_iobase r + IntrStatus) v) s = Some (tt, set_dev (put_ports p' (n_dev s)) s) /\
    rx_inv (Z.ldiff isr v) dev rtl r cur fs (put_ports p' (n_dev s)).
Proof.
  intros (x & r' & m & O & R) Hv. set (p := nic_ports (n_dev s)) in *.
  exists (p_outw p (card_base + IntrStatus) v). split.
  - unfold on_dev, outw, io_out, modify. rewrite (rr_base _ _ _ _ _ _ R), port_small by (unfold IntrStatus; lia).
    by rewrite u16_small.
  - exists x, r', m. split; [by destruct O|]. pose proof (card_isr_write p v Hv) as Hc.
    destruct R as [R1 R2 R2' R3 R4 R5 R6 R7 R8 R9 R10]. fold p in R2, R6, R7, R10.
    split; cbn [nic_ports put_ports]; rewrite ?Hc; cbn; try done. by rewrite R10.
Qed.

(** A frame that the stack accepts is handled, and its buffer stays allocated. *)
Lemma handle_accepted isr dev rtl r cur fs st f (s : nst) lv n t :
  rx_inv isr dev rtl r cur fs (n_dev s) -> has st 0x8000 = false -> (0 < length f <= 4096)%nat ->
  ka_live (n_alloc s) lv n -> 2 <= n ->
  (forall p q (s1 : nst), n_sockets s1 = n_sockets s -> exists buf d, netdev_rx
    (mk_netbuf p q f (Z.of_nat (length f)) (Z.of_nat (length f))) s1 = Some (0, buf, set_sockets t (set_dev d s1))) ->
  exists p q s', handle dev st f s = Some (true, s') /\ n_sockets s' = t /\
    ka_live (n_alloc s') (add_pages lv [p; q]) (n - 2) /\ owned lv [p; q].
Proof.
  intros Hi Hst Hl Ha Hn Hrx.
  destruct (netbuf_alloc_ok (n_alloc s) lv n (Z.of_nat (length f)) Ha Hn) as (p & q & a' & Ea & Ha' & Ho); [lia|].
  assert (alloc_buf (Z.of_nat (length f)) s = Some (Some (mk_netbuf p q (replicate (Z.to_nat (Z.of_nat (length f))) 0) 0
    (Z.of_nat (length f))), set_alloc a' s)) as E1 by (unfold alloc_buf; by rewrite Ea).
  destruct (Hrx p q (set_alloc a' s) eq_refl) as (buf & d & E2).
  assert (rx_inv isr dev rtl r cur fs d) as Hd.
  { refine (keeps_netdev_rx (A := A) (rx_inv isr dev rtl r cur fs) _ _ _ _ _ _ E2 Hi).
    - intros. by apply rx_inv_count.
    - intros d0 b res d'. apply rx_inv_transmit. }
  destruct (upd_stats_inv isr dev rtl r (count_rx (Z.of_nat (length f))) cur fs (set_sockets t (set_dev d (set_alloc a' s))) Hd)
    as (s3 & E3 & _).
  exists p, q, s3. split; [|].
  - unfold handle. rewrite Hst. rewrite (bind_Some _ _ _ _ _ E1). cbn [nb_addr nb_data_addr].
    rewrite (bind_Some _ _ _ _ _ E2). change (0 <? 0) with false. cbv iota.
    rewrite (bind_Some _ _ _ _ _ (eq_refl : ret tt (set_sockets t (set_dev d (set_alloc a' s))) = Some (tt, _))).
    by rewrite (bind_Some _ _ _ _ _ E3).
  - unfold upd_stats, on_dev in E3. destruct (upd_netdev _ _ _) as [[[] d3]|]; [|done].
    injection E3 as <-. by split.
Qed.

Lemma rx_one isr dev rtl st f (s : nst) lv n t :
  rx_ready isr dev rtl [(st, f)] (n_dev s) -> has st 0x8000 = false -> (0 < length f <= 4096)%nat ->
  ka_live (n_alloc s) lv n -> 2 <= n ->
  (forall p q (s1 : nst), n_sockets s1 = n_sockets s -> exists buf d, netdev_rx
    (mk_netbuf p q f (Z.of_nat (length f)) (Z.of_nat (length f))) s1 = Some (0, buf, set_sockets t (set_dev d s1))) ->
  exists p q s', rtl8139_rx rtl s = Some (0, s') /\ n_sockets s' = t /\ rx_ready isr dev rtl [] (n_dev s') /\
    ka_live (n_alloc s') (add_pages lv [p; q]) (n - 2) /\ owned lv [p; q].
Proof.
  intros (r & Hr & Hi) Hst Hl Ha Hn Hrx. unfold rtl8139_rx.
  assert (on_dev (get_rtl rtl) s = Some (r, s)) as E by (unfold on_dev, get_rtl; rewrite Hr; by destruct s).
  rewrite (bind_Some _ _ _ _ _ E). assert (0 <= cur_rx (rx r) < 65536) as Hc.
  { destruct Hi as (x & r' & m & O & R). apply (rr_cur _ _ _ _ _ _ R). }
  rewrite u16_small by done. set (cur := cur_rx (rx r)) in *.
  assert (exists k, rx_fuel = S (S k)) as [k ->] by (exists (Z.to_nat 8191); unfold rx_fuel; lia).
  destruct (rx_round isr dev rtl r (S k) cur st f [] s Hi) as (s1 & (p1 & -> & _) & Hi1 & E1).
  destruct (handle_accepted isr dev rtl r cur [(st, f)] st f _ lv n t Hi1 Hst Hl Ha Hn Hrx)
    as (p & q & s2 & Eh & Hs2 & Ha2 & Ho).
  rewrite Eh in E1. pose proof (handle_inv isr dev rtl r st f cur [(st, f)] _ true s2 Eh Hi1) as Hi2.
  destruct (ack_ok _ _ _ _ _ _ _ _ _ Hi2) as (s3 & E3 & (p3 & -> & _) & Hi3). rewrite (bind_Some _ _ _ _ _ E3) in E1.
  destruct (poll_ok _ _ _ _ _ _ _ Hi3) as (v & s4 & E4 & Hv & (p4 & -> & _) & Hi4).
  cbn [rx_loop] in E1. rewrite (bind_Some _ _ _ _ _ E4), Hv, bool_decide_true in E1 by done.
  destruct (store_cur _ _ _ _ _ _ _ Hi4) as (s5 & E5 & Hs5 & _ & Hr5).
  change (rx_loop (S (S k)) r cur s = ret (next_cur cur f) (set_dev (put_ports p4 (put_ports p3 (n_dev s2))) s2)) in E1.
  rewrite (bind_Some _ _ _ _ _ E1), (bind_Some _ _ _ _ _ E5). exists p, q, s5. split; [done|].
  assert (n_sockets s5 = n_sockets s2 /\ n_alloc s5 = n_alloc s2) as [-> ->].
  { split; [apply (f_equal n_sockets) in Hs5|apply (f_equal n_alloc) in Hs5]; exact Hs5. }
  done.
Qed.

(** C14: a datagram that arrives at the card reaches its socket: when the card
    holds one frame with a UDP datagram for our address and a valid IP header
    checksum and raises a receive interrupt, the handler of the driver takes the
    frame out of the ring, the layers of the stack accept it, the data, the
    source address and the source port are in the queue of the socket bound to
    the port, the interrupt is acknowledged and the ring is empty; the buffer of
    the frame is not given back. *)
Theorem interrupt_delivers_datagram (s : nst) dev rtl lv n st dst src tos idf ttl cs sip sp dp data pad i x r rest t :
  length dst = 6%nat -> length src = 6%nat -> length idf = 4%nat -> length cs = 2%nat -> length sip = 4%nat ->
  0 <= sp < 65536 -> 0 <= dp < 65536 -> (length data <= 1500)%nat ->
  let len := Z.of_nat (length data) in
  let packet := ip_hdr tos (28 + len) idf ttl IP_PROTO_UDP cs sip our_ip ++ udp_header sp dp (8 + len) ++ data ++ pad in
  let frame := eth_frame dst src ETH_TYPE_IPV4 packet in
  (length frame <= 4096)%nat -> ip_checksum packet 20 = Some 0 -> has st 0x8000 = false ->
  rx_ready RxOK dev rtl [(st, frame)] (n_dev s) -> ka_live (n_alloc s) lv n -> 2 <= n ->
  pci_find_device (nic_pci (n_dev s)) RTL8139_VENDOR_ID RTL8139_DEVICE_ID = Some (Some i) ->
  netdev_get_by_name (nic_reg (n_dev s)) eth0 = Some dev -> dev <> NULL -> rtl <> NULL ->
  dev_objs (nic_reg (n_dev s)) !! dev = Some x -> driver_data x = rtl ->
  rtl_objs (nic_drv (n_dev s)) !! rtl = Some r -> 2 <= max_interrupt_work (conf r) ->
  socket_deliver_udp (n_sockets s) dp data len sip sp = Some (rest, t) ->
  exists p q s', rtl8139_interrupt s = Some (tt, s') /\ n_sockets s' = t /\ rx_ready 0 dev rtl [] (n_dev s') /\
    ka_live (n_alloc s') (add_pages lv [p; q]) (n - 2) /\ owned lv [p; q].
Proof.
  intros Hd Hs Hi Hc Hsip Hsp Hdp Hl len packet frame Hfl Hck Hst Hrdy Ha Hn Hpci Hname Hdev Hrtl Hx Hxd Hr Hw Hdel.
  unfold rtl8139_interrupt, bind at 1, get. rewrite (bind_lift _ _ _ _ Hpci), (bind_lift _ _ _ _ Hname).
  rewrite (proj2 (Z.eqb_neq dev NULL)) by done.
  assert (on_dev (get_netdev dev) s = Some (x, s)) as E1 by (unfold on_dev, get_netdev; rewrite Hx; by destruct s).
  rewrite (bind_Some _ _ _ _ _ E1), Hxd, (proj2 (Z.eqb_neq rtl NULL)) by done.
  assert (on_dev (get_rtl rtl) s = Some (r, s)) as E2 by (unfold on_dev, get_rtl; rewrite Hr; by destruct s).
  rewrite (bind_Some _ _ _ _ _ E2). destruct Hrdy as (r0 & Hr0 & Hinv). rewrite Hr in Hr0. injection Hr0 as <-.
  assert (exists k, Z.to_nat (max_interrupt_work (conf r)) = S (S k)) as [k ->]
    by (exists (Z.to_nat (max_interrupt_work (conf r) - 2)); lia).
  cbn [interrupt_loop]. destruct (isr_read _ _ _ _ _ _ _ Hinv) as (p1 & F1 & Hinv1).
  rewrite (bind_Some _ _ _ _ _ F1). change ((RxOK =? 0) || (RxOK =? 65535)) with false. cbv iota.
  set (s1 := set_dev (put_ports p1 (n_dev s)) s).
  destruct (isr_ack RxOK dev rtl r _ _ RxOK s1 Hinv1) as (p2 & F2 & Hinv2); [unfold RxOK; lia|].
  rewrite (bind_Some _ _ _ _ _ F2). change (has RxOK (Z.lor RxOK RxErr)) with true. cbv iota.
  change (Z.ldiff RxOK RxOK) with 0 in Hinv2. set (s2 := set_dev (put_ports p2 (n_dev s1)) s1) in *.
  destruct (rx_one 0 dev rtl st frame s2 lv n t) as (p & q & s3 & E3 & Hs3 & Hr3 & Ha3 & Ho); try done.
  - exists r. by split.
  - split; [|done]. unfold frame, eth_frame. rewrite length_app, Hd. lia.
  - intros p q s4 Hs4. destruct (udp_frame_ok p q (Z.of_nat (length frame)) dst src tos idf ttl cs sip sp dp data pad s4 rest t)
      as [buf E4]; try done; [fold len packet frame; lia|by rewrite Hs4|]. by eexists buf, _.
  - rewrite (bind_Some _ _ _ _ _ (bind_Some _ _ _ _ _ E3 : _ = Some (tt, s3))).
    change (has RxOK (Z.lor TxOK TxErr)) with false. cbv iota.
    rewrite (bind_Some _ _ _ _ _ (eq_refl : ret tt s3 = Some (tt, s3))).
    destruct Hr3 as (r3 & Hr3 & Hinv3). destruct (isr_read _ _ _ _ _ _ _ Hinv3) as (p5 & F5 & Hinv5).
    assert (rtl_iobase r = rtl_iobase r3) as ->.
    { destruct Hinv as (? & ? & ? & ? & R), Hinv3 as (? & ? & ? & ? & R3).
      by rewrite (rr_base _ _ _ _ _ _ R), (rr_base _ _ _ _ _ _ R3). }
    rewrite (bind_Some _ _ _ _ _ F5). change ((0 =? 0) || (0 =? 65535)) with true. cbv iota.
    exists p, q. eexists. split; [done|]. split; [done|]. split; [|done]. exists r3. split; [done|]. exact Hinv5.
Qed.

End Props.
End IrqProps.
