(* ===== verification/RtlOpen.v ===== *)
(** * Opening the RTL8139

    [rtl8139_open] brings driver and card into the relations on which the
    theorems on transmission and reception rest, and frames that the card then
    stores in the ring keep them. *)

From S2P Require Import Prelude CLib KAlloc Disk Inet Socket Net Pci Netdev Rtl8139 RtlCard.
Import Inet Socket Net Pci Netdev Rtl8139.
#[local] Open Scope prog_scope.

Module OpenFacts.
Import NetFacts CardState TxFacts TxProps RxFacts RxProps.

(** ** The card stores a frame in the ring *)

Lemma next_pos_space ring pos f : pos mod 4 = 0 -> next_pos ring pos f = (pos + space f) mod ring.
Proof. intros Hp. unfold next_pos, space. f_equal. zlia. Qed.

Lemma space_bounds f : Z.of_nat (length f) + 8 <= space f /\ space f mod 4 = 0.
Proof. unfold space. pose proof (Zle_0_nat (length f)). zlia. Qed.

Lemma mod4 ring a : ring mod 4 = 0 -> 0 < ring -> a mod 4 = 0 -> (a mod ring) mod 4 = 0.
Proof. intros Hr H0 Ha. rewrite Z.mod_eq by lia. zlia. Qed.

Lemma ring_holds_snoc m ring st f : 0 < ring -> ring mod 4 = 0 -> forall fs pos, pos mod 4 = 0 -> 0 <= pos < ring ->
  ring_holds m ring pos fs -> frame_at m ring ((pos + used fs) mod ring) st f -> ring_holds m ring pos (fs ++ [(st, f)]).
Proof.
  intros Hr Hr4. induction fs as [|[st0 f0] fs IH]; intros pos Hp Hpr Hh Hf; cbn [app ring_holds used] in *.
  - rewrite Z.add_0_r, Z.mod_small in Hf by done. done.
  - destruct Hh as [H1 H2]. split; [done|]. pose proof (space_bounds f0) as [_ Hs].
    apply IH; [| |done|]; rewrite next_pos_space by done.
    + apply mod4; [done|done|zlia].
    + by apply Z.mod_pos_bound.
    + by rewrite Z.add_mod_idemp_l, <- Z.add_assoc by lia.
Qed.

(** Distances around the ring. *)
Lemma mod_shift ring a b : 0 < ring -> 0 <= b -> a mod ring + b < ring -> (a + b) mod ring = a mod ring + b.
Proof.
  intros Hr Hb Hlt. pose proof (Z.mod_pos_bound a ring Hr). rewrite <- Z.add_mod_idemp_l by lia. apply Z.mod_small. lia.
Qed.

(** The frames of the ring are read within the space that they use. *)
Lemma ring_holds_used m m' ring : 0 < ring -> ring mod 4 = 0 -> ring <= Z.of_nat (length m) -> length m' = length m ->
  forall fs pos, pos mod 4 = 0 -> 0 <= pos < ring -> used fs <= ring ->
  (forall i, Z.of_nat i < ring -> (Z.of_nat i - pos) mod ring < used fs -> m' !! i = m !! i) ->
  ring_holds m ring pos fs -> ring_holds m' ring pos fs.
Proof.
  intros Hr Hr4 Hm Hl. induction fs as [|[st f] fs IH]; intros pos Hp4 Hp Hu Hi; [done|]. cbn [used] in *.
  intros [[F1 F2 (h & Fh & Fv) F4] Hf]. pose proof (space_bounds f) as [Hs Hs4]. pose proof (used_length fs).
  split; [split; [done|done| |]|].
  - exists h. split; [|done]. rewrite fetch_ok in Fh |- * by zlia. rewrite <- Fh. f_equal. apply window_eq. intros j Hj.
    apply Hi; [zlia|]. replace (Z.of_nat (Z.to_nat pos + j) - pos) with (Z.of_nat j) by lia. rewrite Z.mod_small by lia. lia.
  - intros i Hif. pose proof (Z.mod_pos_bound (pos + 4 + Z.of_nat i) ring Hr). rewrite Hi; [by apply F4|lia|].
    rewrite Z2Nat.id, Zminus_mod_idemp_l by lia. replace (pos + 4 + Z.of_nat i - pos) with (4 + Z.of_nat i) by lia.
    rewrite Z.mod_small by lia. lia.
  - rewrite next_pos_space in Hf |- * by done. apply IH; [apply mod4; [done|done|zlia]|by apply Z.mod_pos_bound|lia| |done].
    intros i Hir Hd. apply Hi; [done|]. rewrite Zminus_mod_idemp_r in Hd.
    replace (Z.of_nat i - pos) with (Z.of_nat i - (pos + space f) + space f) by lia. rewrite mod_shift by lia. lia.
Qed.

Section Store.
Context {P : Type} `{RtlCard P}.

(** The card stores the frame [f] behind the frames that wait, when there is
    room, and reports it; the rest of the memory is not touched. *)
Definition stores (st : Z) (f : list Z) (p : P) (m : list Z) (p' : P) (m' : list Z) : Prop :=
  let c := card_view p in
  let pos := (c_rxpos c + used (c_rx c)) mod c_ring c in
  used (c_rx c) + space f <= c_ring c /\
  card_view p' = mk_card (c_tx c) (c_queue c) (c_wire c) (c_rx c ++ [(st, f)]) (c_rxpos c) (c_ring c) (c_start c)
    (Z.lor (c_isr c) RxOK) /\
  length m' = length m /\ frame_at m' (c_ring c) pos st f /\
  (forall i, Z.of_nat i < c_ring c -> space f <= (Z.of_nat i - pos) mod c_ring c -> m' !! i = m !! i) /\
  (forall i, c_ring c <= Z.of_nat i -> m' !! i = m !! i).

Lemma used_app fs gs : used (fs ++ gs) = used fs + used gs.
Proof. induction fs as [|[? ?] fs IH]; cbn [app used]; lia. Qed.

Lemma used_mod4 fs : used fs mod 4 = 0.
Proof. induction fs as [|[st f] fs IH]; [done|]. cbn [used]. pose proof (space_bounds f). zlia. Qed.

Lemma stores_rel isr p p' r m m' cur fs st f :
  rx_rel isr p r m cur fs -> stores st f p m p' m' -> rx_rel (Z.lor isr RxOK) p' r m' cur (fs ++ [(st, f)]).
Proof.
  intros R (Hroom & Hv & Hl & Hf & Hin & _). pose proof (rr_bounds _ _ _ _ _ _ R) as (Hb1 & Hb2 & Hb3 & Hb4 & Hb5).
  destruct R as [R1 R2 R2' R3 R4 R5 R6 R7 R8 R9 R10]. rewrite R2, R6, R7 in *. set (n := rx_buf_len (rx r)) in *.
  pose proof (used_length fs). pose proof (used_mod4 fs) as Hu4. pose proof (space_bounds f) as [Hs _].
  split; rewrite ?Hv; cbn [c_ring c_start c_rxpos c_rx c_isr]; try done.
  - by rewrite Hl.
  - apply ring_holds_snoc; [lia|done|done|done| |done].
    apply (ring_holds_used m); try (done || (unfold TX_BUF_SIZE, NUM_TX_DESC in R4; lia)).
    intros i Hi Hd. fold n in Hi, Hd. apply Hin; [done|]. set (a := Z.of_nat i - cur mod n) in *.
    rewrite Zminus_mod_idemp_r. replace (Z.of_nat i - (cur mod n + used fs)) with (a - used fs) by (unfold a; lia).
    pose proof (Z.mod_pos_bound a n ltac:(lia)).
    assert ((a - used fs) mod n = a mod n - used fs + n) as ->; [|lia].
    rewrite <- Zminus_mod_idemp_l. symmetry. apply (Z.mod_unique_pos _ _ (-1)); lia.
  - rewrite used_app. cbn [used]. fold n. lia.
  - by rewrite R10.
Qed.

End Store.

(** ** Starting the hardware *)

(** The configuration word for a ring of 8192 bytes shifted by [idx]. *)
Definition ring_config (idx : Z) : Z :=
  Z.lor (Z.lor (Z.shiftl RX_FIFO_THRESH 13) (Z.shiftl idx 11)) (Z.shiftl RX_DMA_BURST 8).

Definition rx_mode : Z := Z.lor (Z.lor AcceptBroadcast AcceptMulticast) AcceptMyPhys.

Lemma ring_config_ok idx : 0 <= idx <= 2 ->
  0 <= ring_config idx < 2 ^ 32 /\ ring_config idx / 2048 mod 4 = idx /\
  0 <= Z.lor (ring_config idx) rx_mode < 2 ^ 32 /\ Z.lor (ring_config idx) rx_mode / 2048 mod 4 = idx.
Proof. intros Hi. assert (idx = 0 \/ idx = 1 \/ idx = 2) as [->|[->| ->]] by lia; by repeat split. Qed.

Section Start.
Context {P : Type} `{RtlCard P}.
Variables (d : nics P rtls) (dev rtl : Z) (x : netdev) (m : list Z).

(** [f] runs from a driver object [r] and a card that looks like [c]; the
    result, the driver object and the card satisfy [Q]. *)
Definition runs {X} (f : M (nics P rtls) X) (r : rtl8139) (c : card) (Q : X -> rtl8139 -> card -> Prop) : Prop :=
  forall p, card_view p = c -> exists v r' p',
    f (place d dev rtl x r m p) = Some (v, place d dev rtl x r' m p') /\ Q v r' (card_view p').

Lemma runs_bind {X Y} (f : M (nics P rtls) X) (k : X -> M (nics P rtls) Y) r c Q :
  runs f r c (fun v r' c' => runs (k v) r' c' Q) -> runs (bind f k) r c Q.
Proof.
  intros Hf p Hp. destruct (Hf p Hp) as (v & r1 & p1 & E & Hk). destruct (Hk p1 eq_refl) as (w & r2 & p2 & E2 & HQ).
  exists w, r2, p2. by rewrite (bind_Some _ _ _ _ _ E).
Qed.

Lemma runs_ret {X} (v : X) r c (Q : X -> rtl8139 -> card -> Prop) : Q v r c -> runs (ret v) r c Q.
Proof. intros HQ p <-. by exists v, r, p. Qed.

Lemma runs_lift {X} (o : option X) v r c (Q : X -> rtl8139 -> card -> Prop) :
  o = Some v -> Q v r c -> runs (lift o) r c Q.
Proof. intros -> HQ p <-. by exists v, r, p. Qed.

Lemma runs_get_rtl r c (Q : rtl8139 -> rtl8139 -> card -> Prop) : Q r r c -> runs (get_rtl rtl) r c Q.
Proof. intros HQ p <-. exists r, r, p. by rewrite get_rtl_at. Qed.

Lemma runs_get_netdev r c (Q : netdev -> rtl8139 -> card -> Prop) : Q x r c -> runs (get_netdev dev) r c Q.
Proof. intros HQ p <-. exists x, r, p. by rewrite get_netdev_at. Qed.

Lemma runs_upd_rtl f r c (Q : unit -> rtl8139 -> card -> Prop) :
  rx_ring (rx (f r)) = rx_ring (rx r) -> Q tt (f r) c -> runs (upd_rtl rtl f) r c Q.
Proof. intros Hf HQ p <-. exists tt, (f r), p. by rewrite upd_rtl_at. Qed.

(** A write to a register with a known effect on the card. *)
Lemma runs_io_out f k v r c (Q : unit -> rtl8139 -> card -> Prop) :
  0 <= k < 256 -> (forall p, card_view p = c -> Q tt r (card_view (f p (card_base + k) v))) ->
  runs (io_out f (card_base + k) v) r c Q.
Proof.
  intros Hk HQ p Hp. exists tt, r, (f p (card_base + k) v). rewrite io_out_at, port_small by done. by eauto.
Qed.

Lemma runs_io_same f k v r c (Q : unit -> rtl8139 -> card -> Prop) :
  0 <= k < 256 -> (forall p, card_view (f p (card_base + k) v) = card_view p) -> Q tt r c ->
  runs (io_out f (card_base + k) v) r c Q.
Proof. intros Hk Hf HQ. apply runs_io_out; [done|]. intros p <-. by rewrite Hf. Qed.

(** A read that the card does not notice. *)
Lemma runs_io_in f k r c (Q : Z -> rtl8139 -> card -> Prop) :
  0 <= k < 256 -> (forall p, card_view (f p (card_base + k)).2 = card_view p) -> (forall v, Q v r c) ->
  runs (io_in f (card_base + k)) r c Q.
Proof.
  intros Hk Hf HQ p <-. eexists _, r, (f p (card_base + k)).2. rewrite io_in_at, port_small by done.
  split; [done|]. rewrite Hf. apply HQ.
Qed.

Lemma runs_wait_reset r c (Q : unit -> rtl8139 -> card -> Prop) : Q tt r c -> forall n, runs (wait_reset n card_base) r c Q.
Proof.
  intros HQ n. induction n as [|n IH]; [by apply runs_ret|]. cbn [wait_reset]. apply runs_bind.
  apply runs_io_in; [unfold ChipCmd; lia|intros; apply card_insb; unfold ChipCmd; lia|].
  intros v. case_match; [by apply runs_ret|done].
Qed.

(** The transceiver is read through the registers of the chip. *)
Lemma runs_mdio_read r c (Q : Z -> rtl8139 -> card -> Prop) :
  rtl_iobase r = card_base -> (forall v, Q v r c) -> runs (rtl8139_mdio_read rtl 32 5) r c Q.
Proof.
  intros Hb HQ. apply runs_bind, runs_get_rtl. change (31 <? 32) with true. change (5 <? 8) with true. cbv iota.
  apply runs_bind, (runs_lift _ NWayLPAR); [done|]. change (NWayLPAR =? 0) with false. rewrite Hb.
  apply runs_io_in; [unfold NWayLPAR; lia|intros; apply card_insw; unfold NWayLPAR; lia|done].
Qed.

Lemma runs_set_rx_mode r c idx (Q : Z -> rtl8139 -> card -> Prop) :
  rtl_iobase r = card_base -> driver_data x = rtl -> 0 <= idx <= 2 -> rx_config (conf r) = ring_config idx ->
  Q 0 (with_conf (set_mc_filter [0xffffffff; 0xffffffff] (conf r)) r) (set_ring (8192 * 2 ^ idx) c) ->
  runs (rtl8139_set_rx_mode dev) r c Q.
Proof.
  intros Hb Hx Hi Hc HQ. destruct (ring_config_ok idx Hi) as (_ & _ & Hv & Hs).
  apply runs_bind, runs_get_netdev. rewrite Hx. apply runs_bind, runs_get_rtl. cbv zeta.
  rewrite Hb, Hc. fold rx_mode. rewrite Z.add_0_r.
  apply runs_bind, runs_io_out; [unfold RxConfig; lia|]. intros p <-. rewrite u32_small, card_rx_config, Hs by lia.
  apply runs_bind, runs_upd_rtl; [done|].
  apply runs_bind, runs_io_same; [unfold MAR0; lia|intros; apply card_setup; set_solver|].
  rewrite <- Z.add_assoc.
  apply runs_bind, runs_io_same; [unfold MAR0; lia|intros; apply card_setup; set_solver|]. by apply runs_ret.
Qed.

(** The driver after the start: the read position is 0, the configuration may differ. *)
Record restarted (r r' : rtl8139) : Prop := {
  rs_base : rtl_iobase r' = rtl_iobase r;
  rs_netdev : rtl_netdev r' = rtl_netdev r;
  rs_rx : rx r' = set_cur_rx 0 (rx r);
  rs_tx : tx r' = tx r;
  rs_work : max_interrupt_work (conf r') = max_interrupt_work (conf r)
}.

(** The card after the start: reset, with the ring of the driver. *)
Definition card_started (c : card) (idx ring : Z) (c' : card) : Prop :=
  is_reset c c' /\ c_ring c' = 8192 * 2 ^ idx /\ c_start c' = ring.

Lemma reset_ring c c' n : is_reset c c' -> is_reset c (set_ring n c').
Proof. by intros []. Qed.

Lemma reset_start c c' a : is_reset c c' -> is_reset c (set_start a c').
Proof. by intros []. Qed.

(** The second half: from the lock register on. *)
Definition start_tail (ioaddr : Z) (r : rtl8139) : M (nics P rtls) Z :=
  outb (ioaddr + Cfg9346) 0x00 ;!
  outl (ioaddr + RxBuf) (rx_ring (rx r)) ;!
  outl (ioaddr + RxMissed) 0 ;!
  let! _ := rtl8139_set_rx_mode dev in
  outb (ioaddr + ChipCmd) (Z.lor CmdRxEnb CmdTxEnb) ;!
  outw (ioaddr + IntrMask) intr_mask ;!
  let! _ := insw (ioaddr + IntrMask) in
  ret 0.

Lemma runs_start_tail r r1 c c1 idx :
  rtl_iobase r1 = card_base -> driver_data x = rtl -> 0 <= idx <= 2 ->
  rx_config (conf r1) = ring_config idx -> 0 <= rx_ring (rx r) < 2 ^ 32 -> restarted r r1 -> is_reset c c1 ->
  runs (start_tail card_base r) r1 c1 (fun v r' c' => v = 0 /\ restarted r r' /\ card_started c idx (rx_ring (rx r)) c').
Proof.
  intros Hb Hx Hi Hc Hring Hr Hc1. unfold start_tail.
  apply runs_bind, runs_io_same; [unfold Cfg9346; lia|intros; apply card_lock|].
  apply runs_bind, runs_io_out; [unfold RxBuf; lia|]. intros p <-. rewrite u32_small, card_rx_buf by lia.
  apply runs_bind, runs_io_same; [unfold RxMissed; lia|intros; apply card_setup; set_solver|].
  apply runs_bind, (runs_set_rx_mode _ _ idx); [done..|].
  apply runs_bind, runs_io_same; [unfold ChipCmd; lia|intros; by apply card_enable|].
  apply runs_bind, runs_io_same; [unfold IntrMask; lia|intros; apply card_mask|].
  apply runs_bind, runs_io_in; [unfold IntrMask; lia|intros; apply card_insw; unfold IntrMask; lia|]. intros _.
  apply runs_ret. split; [done|]. split; [by destruct Hr|]. split; [by apply reset_ring, reset_start|done].
Qed.

Lemma runs_hw_start r c idx :
  rtl_iobase r = card_base -> rtl_netdev r = dev -> driver_data x = rtl ->
  phys (conf r) !! 0%nat = Some 32 -> caps (conf r) = RTL8139_CAPS -> 0 <= idx <= 2 ->
  rx_config (conf r) = ring_config idx -> 0 <= rx_ring (rx r) < 2 ^ 32 ->
  runs (rtl8139_hw_start rtl) r c (fun v r' c' => v = 0 /\ restarted r r' /\ card_started c idx (rx_ring (rx r)) c').
Proof.
  intros Hb Hn Hx Hph Hcaps Hi Hc Hring. destruct (ring_config_ok idx Hi) as (Hv & Hs & _ & _).
  apply runs_bind, runs_get_rtl. cbv zeta. rewrite Hb, Hcaps.
  apply runs_bind, runs_io_out; [unfold ChipCmd; lia|]. intros p <-.
  assert (is_reset (card_view p) (card_view (p_outb p (card_base + ChipCmd) (u8 CmdReset)))) as R by by apply card_reset.
  set (c0 := card_view p) in *. set (c1 := card_view (p_outb _ _ _)) in *. clearbody c0 c1. clear p.
  apply runs_bind, runs_wait_reset.
  apply runs_bind, runs_io_same; [unfold Cfg9346; lia|intros; apply card_lock|].
  rewrite Hn. apply runs_bind, runs_get_netdev. rewrite Z.add_0_r.
  apply runs_bind, runs_io_same; [unfold MAC0; lia|intros; apply card_setup; set_solver|].
  rewrite <- Z.add_assoc.
  apply runs_bind, runs_io_same; [unfold MAC0; lia|intros; apply card_setup; set_solver|].
  apply runs_bind, runs_upd_rtl; [done|].
  apply runs_bind, runs_io_same; [unfold ChipCmd; lia|intros; by apply card_enable|].
  rewrite Hc. apply runs_bind, runs_io_out; [unfold RxConfig; lia|]. intros p Hp. rewrite u32_small, card_rx_config, Hs, Hp by lia.
  clear p Hp.
  apply runs_bind, runs_io_same; [unfold TxConfig; lia|intros; apply card_tx_config|].
  apply runs_bind, (runs_lift _ 32); [done|]. change (0 <=? 32) with true. cbn [orb].
  apply runs_bind, runs_bind, runs_mdio_read; [done|]. intros v. cbv zeta.
  set (r1 := with_rx _ r). change (has RTL8139_CAPS HAS_MII_XCVR) with false. cbv iota.
  assert (forall r2, restarted r r2 -> rtl_iobase r2 = card_base -> rx_config (conf r2) = ring_config idx ->
    runs (ret tt ;! start_tail card_base r) r2 (set_ring (8192 * 2 ^ idx) c1)
      (fun v r' c' => v = 0 /\ restarted r r' /\ card_started c0 idx (rx_ring (rx r)) c')) as Ht.
  { intros r2 Hr2 Hb2 Hc2. apply runs_bind, runs_ret. apply runs_start_tail; try done. by apply reset_ring. }
  case_match; [apply runs_upd_rtl; [done|]|apply runs_ret]; apply Ht; try done; by split.
Qed.

End Start.

(** ** The memory of the card *)

Section Open.
Context {A P : Type} `{KL : KAllocLaws A} `{RtlCard P}.

Abbreviation nst := (net A (nics P rtls)).

(** The memory for a ring of 8192 bytes shifted by [idx] and the transmit buffers. *)
Definition card_mem (idx : Z) : Z := 8192 * 2 ^ idx + 16 + TX_BUF_SIZE * NUM_TX_DESC.

Lemma card_mem_ok idx : 0 <= idx <= 2 -> size_ok (card_mem idx) /\ card_mem idx <= nblocks (card_mem idx) * 4096.
Proof.
  intros Hi. unfold size_ok. assert (idx = 0 \/ idx = 1 \/ idx = 2) as [->|[->| ->]] by lia; by vm_compute.
Qed.

(** The allocator has no memory for the ring of size index [idx]. *)
Definition ring_refused (a : A) (idx : Z) : Prop := (ka_zalloc a (card_mem idx)).1 = NULL.

(** [alloc_ring] takes the largest ring, of index at most [k], that the
    allocator grants, and fails only when it grants none. *)
Lemma alloc_ring_ok (s : nst) lv n : ka_live (n_alloc s) lv n -> forall k, (k <= 2)%nat ->
  exists p idx a', alloc_ring k (Z.of_nat k) s = Some ((p, 8192 * 2 ^ Z.max idx 0, idx), set_alloc a' s) /\
    (forall i, idx < i <= Z.of_nat k -> ring_refused (n_alloc s) i) /\
    ((p = NULL /\ idx = -1 /\ a' = n_alloc s) \/
     (p <> NULL /\ 0 <= idx <= 2 /\ lv !! p = None /\
      ka_live a' (<[p := nblocks (card_mem idx)]> lv) (n - nblocks (card_mem idx)))).
Proof.
  intros Ha. induction k as [|k IH]; intros Hk; cbn [alloc_ring]; unfold bind, net_kzalloc;
    rewrite Z.shiftl_mul_pow2 by lia;
    match goal with |- context [ka_zalloc _ (8192 * 2 ^ ?i + _ + _)] =>
      change (8192 * 2 ^ i + 16 + TX_BUF_SIZE * NUM_TX_DESC) with (card_mem i);
      destruct (card_mem_ok i) as [Hsz _]; [lia|];
      destruct (ka_zalloc (n_alloc s) (card_mem i)) as [p a'] eqn:Ez;
      destruct (ka_zalloc_spec _ _ _ _ _ _ Ha Hsz Ez) as [(-> & -> & _)|(Hp & _ & Hf & Hl)]
    end.
  - exists NULL, (-1), (n_alloc s). split; [done|]. split; [|by left].
    intros i Hi. assert (i = Z.of_nat 0) as -> by lia. unfold ring_refused. by rewrite Ez.
  - exists p, 0, a'. rewrite (proj2 (Z.eqb_neq p NULL)) by done. split; [done|]. split; [lia|]. right. repeat split; try done; lia.
  - change (NULL =? NULL) with true. cbv iota. replace (set_alloc (n_alloc s) s) with s by (by destruct s).
    replace (Z.of_nat (S k) - 1) with (Z.of_nat k) by lia.
    destruct (IH ltac:(lia)) as (p & idx & a' & E & Hr & Hc). exists p, idx, a'. split; [exact E|]. split; [|exact Hc].
    intros i Hi. destruct (decide (i = Z.of_nat (S k))) as [->|]; [unfold ring_refused; by rewrite Ez|apply Hr; lia].
  - exists p, (Z.of_nat (S k)), a'. rewrite (proj2 (Z.eqb_neq p NULL)), Z.max_l by (done || lia). split; [done|].
    split; [lia|]. right. repeat split; try done; lia.
Qed.

(** A heap with enough free blocks grants the smallest ring. *)
Lemma room_ring `{!KAllocRoom A} a lv n :
  ka_live a lv n -> 3 * (Z.of_nat (size lv) + 1) < n -> ~ ring_refused a 0.
Proof.
  intros Ha Hn. unfold ring_refused. destruct (ka_zalloc a (card_mem 0)) as [p a'] eqn:E.
  refine (ka_room _ _ _ _ _ _ Ha (proj1 (card_mem_ok 0 _)) _ E); [lia|].
  change (nblocks (card_mem 0)) with 4. lia.
Qed.

Lemma runs_on_dev {X} d dev rtl x m (f : M (nics P rtls) X) r (p : P) Q (s : nst) :
  runs d dev rtl x m f r (card_view p) Q ->
  exists v r' p', on_dev f (set_dev (place d dev rtl x r m p) s) = Some (v, set_dev (place d dev rtl x r' m p') s) /\
    Q v r' (card_view p').
Proof.
  intros Hf. destruct (Hf p eq_refl) as (v & r' & p' & E & HQ). exists v, r', p'. split; [|done].
  unfold on_dev. change (n_dev (set_dev ?d s)) with d. rewrite E. by destruct s.
Qed.

(** A device as [rtl8139_init] leaves it. *)
Record closed_card (s : nst) (dev rtl : Z) (x : netdev) (r : rtl8139) : Prop := {
  cc_count : 0 < netdev_count (nic_reg (n_dev s));
  cc_first : netdevs (nic_reg (n_dev s)) !! 0%nat = Some dev;
  cc_dev : dev_objs (nic_reg (n_dev s)) !! dev = Some x;
  cc_data : driver_data x = rtl;
  cc_ops : ops x = Some rtl8139_netdev_ops;
  cc_rtl : rtl_objs (nic_drv (n_dev s)) !! rtl = Some r;
  cc_netdev : rtl_netdev r = dev;
  cc_base : rtl_iobase r = card_base;
  cc_phys : phys (conf r) !! 0%nat = Some 32;
  cc_caps : caps (conf r) = RTL8139_CAPS
}.

(** The driver object when the hardware is started. *)
Definition opened (p idx : Z) (r : rtl8139) : rtl8139 :=
  let t := tx r in
  mk_rtl (rtl_netdev r) (rtl_iobase r) (rtl_irq r) (interrupt_registered r) (mk_rx p (cur_rx (rx r)) (8192 * 2 ^ idx))
    (mk_tx 0 0 0 (Z.land (Z.shiftl TX_FIFO_THRESH 11) 0x003f0000) (replicate 4 None)
      (map (fun i => ptr_add (ptr_add p (8192 * 2 ^ idx + 16)) (i * TX_BUF_SIZE)) [0; 1; 2; 3])
      (ptr_add p (8192 * 2 ^ idx + 16)) (trans_start t))
    (set_rx_config (ring_config idx) (set_duplex (duplex_lock (conf r)) (conf r))).

(** What the driver asked for: the interrupt vector. *)
Definition with_vector (v : Z) (d : nics P rtls) : nics P rtls :=
  let x := nic_drv d in put_drv (mk_rtls (rtl_objs x) (dma x) (v :: vectors x)) d.

(** Up to the start of the hardware. *)
Lemma open_prefix (s : nst) dev rtl x r lv n :
  closed_card s dev rtl x r -> ka_live (n_alloc s) lv n ->
  ((forall i, 0 <= i <= 2 -> ring_refused (n_alloc s) i) /\
   exists d', rtl8139_open dev s = Some (-1, set_dev d' s)) \/
  exists p idx a', p <> NULL /\ 0 <= idx <= 2 /\ (forall i, idx < i <= 2 -> ring_refused (n_alloc s) i) /\ lv !! p = None /\
    ka_live a' (<[p := nblocks (card_mem idx)]> lv) (n - nblocks (card_mem idx)) /\
    rtl8139_open dev s =
      (let! _ := on_dev (rtl8139_hw_start rtl) in
       let! _ := on_dev (insw (card_base + IntrStatus)) in
       let! _ := on_dev (insb (card_base + ChipCmd)) in
       ret 0)
      (set_dev (place (with_vector (0x20 + rtl_irq r) (n_dev s)) dev rtl x (opened p idx r)
         (replicate (Z.to_nat (card_mem idx)) 0) (nic_ports (n_dev s))) (set_alloc a' s)).
Proof.
  intros C Ha. pose proof (cc_dev _ _ _ _ _ C) as Hx. pose proof (cc_rtl _ _ _ _ _ C) as Hr.
  unfold rtl8139_open.
  assert (on_dev (get_netdev dev) s = Some (x, s)) as E1 by (unfold on_dev, get_netdev; rewrite Hx; by destruct s).
  rewrite (bind_Some _ _ _ _ _ E1), (cc_data _ _ _ _ _ C).
  assert (on_dev (get_rtl rtl) s = Some (r, s)) as E2 by (unfold on_dev, get_rtl; rewrite Hr; by destruct s).
  rewrite (bind_Some _ _ _ _ _ E2), (cc_base _ _ _ _ _ C).
  rewrite (bind_Some _ _ _ _ _ (eq_refl : on_dev (modify (with_vector (0x20 + rtl_irq r))) s = Some (tt, _))).
  set (s1 := set_dev (with_vector _ _) s).
  destruct (alloc_ring_ok s1 lv n Ha 2 (le_n 2)) as (p & idx & a' & E3 & Hr2 & [(-> & -> & ->)|(Hp & Hi & Hf & Hl)]).
  - left. split; [intros i Hi; apply Hr2; lia|]. rewrite (bind_Some _ _ _ _ _ E3). cbv beta iota. erewrite bind_Some.
    2: { unfold on_dev, upd_rtl, bind, get_rtl. cbn. rewrite Hr. reflexivity. }
    change (NULL =? NULL) with true. cbv iota. eexists. unfold ret. f_equal.
  - right. exists p, idx, a'. do 5 (split; [done|]). rewrite (bind_Some _ _ _ _ _ E3). cbv beta iota.
    rewrite Z.max_l by lia. erewrite bind_Some.
    2: { unfold on_dev, upd_rtl, bind, get_rtl. cbn. rewrite Hr. reflexivity. }
    rewrite (proj2 (Z.eqb_neq p NULL)) by done. change (8192 * 2 ^ idx + 16 + TX_BUF_SIZE * NUM_TX_DESC) with (card_mem idx).
    set (r1 := with_rx _ r). set (m := replicate _ 0). erewrite bind_Some by reflexivity.
    set (s2 := set_dev (place (with_vector (0x20 + rtl_irq r) (n_dev s)) dev rtl x r1 m (nic_ports (n_dev s))) (set_alloc a' s)).
    match goal with |- ?f _ = _ => transitivity (f s2) end.
    { f_equal. unfold s2. unfold place, set_dev, put_drv, with_vector. cbn. rewrite (insert_id _ _ _ Hx). by destruct s as [? [? ? [] []]]. }
    erewrite bind_Some by (apply on_dev_at, upd_rtl_at; reflexivity).
    erewrite bind_Some by (apply on_dev_at, upd_rtl_at; reflexivity).
    erewrite bind_Some by (apply on_dev_at, upd_rtl_at; reflexivity). reflexivity.
Qed.

Lemma ring_sizes idx : 0 <= idx <= 2 -> 8192 * 2 ^ idx ∈ [8192; 16384; 32768; 65536].
Proof.
  intros Hi. rewrite !elem_of_cons. assert (idx = 0 \/ idx = 1 \/ idx = 2) as [->|[->| ->]] by lia; [by left|by right; left|by right; right; left].
Qed.

Lemma opened_buffers p idx r e : 0 <= idx <= 2 -> 0 <= p -> p + card_mem idx < 2 ^ 32 -> (e < 4)%nat ->
  tx_buffer (tx (opened p idx r)) !! e = Some (p + tx_off (opened p idx r) e).
Proof.
  intros Hi Hp Hm He. unfold card_mem, TX_BUF_SIZE, NUM_TX_DESC in Hm. pose proof (Z.pow_pos_nonneg 2 idx).
  assert (forall i, 0 <= i < 4 -> ptr_add (ptr_add p (8192 * 2 ^ idx + 16)) (i * TX_BUF_SIZE)
    = p + (8192 * 2 ^ idx + 16 + i * TX_BUF_SIZE)) as Ha.
  { intros i Hi4. unfold TX_BUF_SIZE. rewrite !ptr_add_small by (rewrite ?ptr_add_small by lia; lia). lia. }
  do 4 (destruct e as [|e]; [cbn; f_equal; by apply Ha|]). lia.
Qed.

(** The relations between a started card and its driver. *)
Lemma opened_rel p idx r r' c (q : P) :
  rtl_iobase r = card_base -> 0 <= idx <= 2 -> 0 < p -> p + card_mem idx < 2 ^ 32 ->
  restarted (opened p idx r) r' -> card_started c idx p (card_view q) ->
  let m := replicate (Z.to_nat (card_mem idx)) 0 in
  tx_rel q r' m (c_wire c) [] [] /\ rx_rel 0 q r' m 0 [].
Proof.
  intros Hb Hi Hp Hm [S1 S2 S3 S4 S5] (R & Hr & Hs) m.
  assert (Z.of_nat (length m) = card_mem idx) as Hl.
  { unfold m. rewrite length_replicate. destruct (card_mem_ok idx Hi) as [[? _] _]. lia. }
  assert (idx = 0 \/ idx = 1 \/ idx = 2) as Hidx by lia.
  split; split; rewrite ?S1, ?S3, ?S4; try done.
  - cbn. lia.
  - intros e He _. by do 4 (destruct e as [|e]; [done|]); lia.
  - intros e He. rewrite opened_buffers by lia. unfold tx_off. by rewrite S3.
  - by destruct Hidx as [->|[->| ->]].
  - cbn [opened rx set_cur_rx rx_ring]. rewrite Hl. lia.
  - apply (ir_tx _ _ R).
  - apply (ir_queue _ _ R).
  - apply (ir_wire _ _ R).
  - by apply ring_sizes.
  - apply (ir_pos _ _ R).
  - apply (ir_rx _ _ R).
  - destruct Hidx as [->|[->| ->]]; done.
  - apply (ir_isr _ _ R).
Qed.

End Open.
End OpenFacts.

Module OpenProps.
Import NetFacts CardState TxFacts TxProps RxFacts RxProps OpenFacts.

Section Props.
Context {A P : Type} `{KL : KAllocLaws A} `{RtlCard P}.

(** C10: opening the card makes it ready: from the state in which rtl8139_init
    leaves the device, whatever the card was doing before, rtl8139_open returns
    -1 only when the allocator refuses each of the three sizes of the ring, and
    has then allocated nothing; this cannot happen while the heap has more than
    three free blocks for each live allocation and one more.  Otherwise it
    returns 0 with one allocation of the transmit buffers and the largest ring
    that the allocator grants, the card reset and told the address and the size
    of that ring, and driver and card in the relations on which the theorems on
    transmission and reception rest, with nothing in flight. *)
Theorem rtl8139_open_ready `{!KAllocRoom A} (s : net A (nics P rtls)) dev rtl x r lv n :
  closed_card s dev rtl x r -> ka_live (n_alloc s) lv n ->
  exists res s', rtl8139_open dev s = Some (res, s') /\ n_sockets s' = n_sockets s /\
    (3 * (Z.of_nat (size lv) + 1) < n -> res = 0) /\
    ((res = -1 /\ n_alloc s' = n_alloc s /\ (forall i, 0 <= i <= 2 -> ring_refused (n_alloc s) i)) \/
     (res = 0 /\ exists p idx r' m, 0 <= idx <= 2 /\
       (forall i, idx < i <= 2 -> ring_refused (n_alloc s) i) /\ lv !! p = None /\
       ka_live (n_alloc s') (<[p := nblocks (card_mem idx)]> lv) (n - nblocks (card_mem idx)) /\
       has_card s' dev rtl x r' m /\ rx_ring (rx r') = p /\
       c_ring (card_view (nic_ports (n_dev s'))) = 8192 * 2 ^ idx /\ c_start (card_view (nic_ports (n_dev s'))) = p /\
       tx_rel (nic_ports (n_dev s')) r' m (c_wire (card_view (nic_ports (n_dev s)))) [] [] /\
       rx_ready 0 dev rtl [] (n_dev s'))).
Proof.
  intros C Ha. destruct (open_prefix s dev rtl x r lv n C Ha) as [(Hr & d' & E)|(p & idx & a' & Hp & Hi & Hr & Hf & Hl & E)].
  { exists (-1), (set_dev d' s). split; [done|]. split; [done|]. split; [|by left].
    intros Hn. by destruct (room_ring _ _ _ Ha Hn (Hr 0 ltac:(lia))). }
  destruct (card_mem_ok idx Hi) as [_ Hsz].
  destruct (ka_range _ _ _ p (nblocks (card_mem idx)) Hl (lookup_insert_eq _ _ _)) as (Hp0 & Hk & Hpr).
  assert (0 <= rx_ring (rx (opened p idx r)) < 2 ^ 32) as Hp32 by (change (0 <= p < 2 ^ 32); lia).
  destruct C as [C1 C2 C3 C4 C5 C6 C7 C8 C9 C10]. set (d0 := with_vector _ _) in E. set (m := replicate _ 0) in E.
  pose proof (runs_hw_start d0 dev rtl x m (opened p idx r) (card_view (nic_ports (n_dev s))) idx C8 C7 C4 C9 C10 Hi eq_refl Hp32) as Hrun.
  destruct (runs_on_dev _ _ _ _ _ _ _ _ _ (set_alloc a' s) Hrun) as (v & r' & q1 & E1 & -> & Hr' & Hc).
  rewrite (bind_Some _ _ _ _ _ E1) in E. pose proof (rs_rx _ _ Hr') as Hrx. pose proof (rs_netdev _ _ Hr') as Hn'.
  destruct (runs_on_dev d0 dev rtl x m (insw (card_base + IntrStatus)) r' q1 (fun _ r1 c1 => r1 = r' /\ c1 = card_view q1)
    (set_alloc a' s)) as (v2 & r2 & q2 & E2 & -> & Hq2).
  { apply runs_io_in; [unfold IntrStatus; lia|intros; apply card_insw; unfold IntrStatus; lia|done]. }
  rewrite (bind_Some _ _ _ _ _ E2) in E.
  destruct (runs_on_dev d0 dev rtl x m (insb (card_base + ChipCmd)) r' q2 (fun _ r1 c1 => r1 = r' /\ c1 = card_view q2)
    (set_alloc a' s)) as (v3 & r3 & q3 & E3 & -> & Hq3).
  { apply runs_io_in; [unfold ChipCmd; lia|intros; apply card_insb; unfold ChipCmd; lia|done]. }
  rewrite (bind_Some _ _ _ _ _ E3) in E. rewrite <- Hq2, <- Hq3 in Hc.
  destruct (opened_rel p idx r r' _ q3 C8 Hi Hp0 ltac:(lia) Hr' Hc) as [T R]. fold m in T, R.
  pose proof Hc as (_ & Hring & Hstart).
  eexists 0, _. split; [exact E|]. do 2 (split; [done|]). right. split; [done|]. exists p, idx, r', m.
  assert (rx_ring (rx r') = p) as Hpr' by (by rewrite Hrx). cbn [opened rtl_netdev] in Hn'.
  do 4 (split; [done|]). split.
  { split; cbn; rewrite ?lookup_insert_eq; try done. by rewrite Hn', C7. }
  do 3 (split; [done|]). split; [done|]. exists r'. split; [cbn; by rewrite lookup_insert_eq|]. exists x, r', m.
  assert (cur_rx (rx r') = 0) as -> by (by rewrite Hrx). split; [|done].
  split; cbn; rewrite ?lookup_insert_eq, ?Hn'; try done. apply (tr_buffer _ _ _ _ _ _ T).
Qed.

(** What can happen to the receiver: the card stores a frame, and the interrupt
    handler takes frames; [arr] are the frames that have arrived. *)
Inductive rx_trace (dev rtl : Z) (s0 : net A (nics P rtls)) : list (Z * list Z) -> net A (nics P rtls) -> Prop :=
| r_start : rx_trace dev rtl s0 [] s0
| r_store arr s r m st f p' m' :
    rx_trace dev rtl s0 arr s -> rtl_objs (nic_drv (n_dev s)) !! rtl = Some r ->
    dma (nic_drv (n_dev s)) !! rx_ring (rx r) = Some m -> stores st f (nic_ports (n_dev s)) m p' m' ->
    rx_trace dev rtl s0 (arr ++ [(st, f)])
      (set_dev (put_ports p' (put_drv (mk_rtls (rtl_objs (nic_drv (n_dev s))) (<[rx_ring (rx r) := m']> (dma (nic_drv (n_dev s))))
        (vectors (nic_drv (n_dev s)))) (n_dev s))) s)
| r_take arr s s' :
    rx_trace dev rtl s0 arr s -> rtl8139_rx rtl s = Some (0, s') -> rx_trace dev rtl s0 arr s'.

Lemma stores_ready isr dev rtl r m fs st f p' m' (d : nics P rtls) :
  rx_ready isr dev rtl fs d -> rtl_objs (nic_drv d) !! rtl = Some r -> dma (nic_drv d) !! rx_ring (rx r) = Some m ->
  stores st f (nic_ports d) m p' m' ->
  rx_ready (Z.lor isr RxOK) dev rtl (fs ++ [(st, f)])
    (put_ports p' (put_drv (mk_rtls (rtl_objs (nic_drv d)) (<[rx_ring (rx r) := m']> (dma (nic_drv d))) (vectors (nic_drv d))) d)).
Proof.
  intros (r1 & Hr1 & x & r' & m1 & O & R) Hr Hm Hst. rewrite Hr in Hr1. injection Hr1 as <-.
  assert (m1 = m) as -> by (pose proof (oc_dma _ _ _ _ _ _ _ O); congruence).
  exists r. split; [done|]. exists x, r', m'. split; [|exact (stores_rel _ _ _ _ _ _ _ _ _ _ R Hst)].
  destruct O. split; try done. cbn. by rewrite lookup_insert_eq.
Qed.

(** C13: driver and card agree about the ring: from a card with an empty ring,
    whatever the interleaving of frames stored by the card, wherever they fall in
    the ring, and calls of rtl8139_rx, the frames that wait in the ring are the
    most recent of those that arrived, in their order and with their bytes, at the
    place where the driver reads next.  What rtl8139_rx does with the frames it
    takes is the theorem on rtl8139_rx. *)
Theorem rtl8139_ring_invariant isr dev rtl (s0 s : net A (nics P rtls)) arr :
  rx_ready isr dev rtl [] (n_dev s0) -> rx_trace dev rtl s0 arr s ->
  exists taken waiting isr', arr = taken ++ waiting /\ rx_ready isr' dev rtl waiting (n_dev s).
Proof.
  intros Hstart Htr. induction Htr as [|arr s r m st f p' m' _ (tk & w & i & -> & Hw) Hr Hm Hst|arr s s' _ (tk & w & i & -> & Hw) E].
  - by exists [], [], isr.
  - exists tk, (w ++ [(st, f)]), (Z.lor i RxOK). split; [by rewrite app_assoc|]. by apply (stores_ready _ _ _ _ m).
  - destruct (rx_keeps_ready _ _ _ _ _ _ Hw E) as (b & l & -> & Hl). exists (tk ++ b), l, i. by rewrite app_assoc.
Qed.

End Props.
End OpenProps.
