(* ===== verification/RtlSim.v ===== *)
(** * A simulated RTL8139

    A card that behaves as [RtlCard] asks, and the theorems on the driver at work
    on it. *)

From S2P Require Import Prelude CLib KAlloc Heap Disk Inet Socket Net Pci Netdev Rtl8139 RtlCard RtlOpen.
Import Inet Socket Net Pci Netdev Rtl8139.
#[local] Open Scope prog_scope.

Module RtlSim.
Import HeapProps Laws.

Definition sim_base : Z := 0xc000.

(** Double words at the transmit registers; writes with the owner bit set and
    all other registers leave the card as it is. *)
Definition sim_outl (c : card) (port v : Z) : card :=
  let r := port - sim_base in
  if negb (r mod 4 =? 0) then c
  else if (TxStatus0 <=? r) && (r <? TxAddr0) then
    if Z.testbit v 13 then c else start (Z.to_nat ((r - TxStatus0) / 4)) v c
  else if (TxAddr0 <=? r) && (r <? TxAddr0 + 16) then set_addr (Z.to_nat ((r - TxAddr0) / 4)) v c
  else if r =? RxBuf then set_start v c
  else if r =? RxConfig then set_ring (8192 * 2 ^ (v / 2048 mod 4)) c
  else c.

(** The command register: a reset. *)
Definition sim_outb (c : card) (port v : Z) : card :=
  if (port =? sim_base + ChipCmd) && has v CmdReset
  then mk_card (replicate 4 (mk_txd 0 0)) [] (c_wire c) [] 0 (c_ring c) (c_start c) 0 else c.

Definition sim_insl (c : card) (port : Z) : Z * card :=
  (from_option td_status 0 (c_tx c !! Z.to_nat ((port - sim_base - TxStatus0) / 4)), c).

Definition sim_outw (c : card) (port v : Z) : card :=
  if port =? sim_base + RxBufPtr then
    match c_rx c with
    | (_, f) :: _ => if (v + 16) mod c_ring c =? next_pos (c_ring c) (c_rxpos c) f then take_frame c else c
    | [] => c
    end
  else if port =? sim_base + IntrStatus then set_isr (Z.ldiff (c_isr c) v) c
  else c.

Definition sim_insb (c : card) (port : Z) : Z * card :=
  (if port =? sim_base + ChipCmd then match c_rx c with [] => RxBufEmpty | _ => 0 end else 0, c).

Definition sim_insw (c : card) (port : Z) : Z * card :=
  (if port =? sim_base + IntrStatus then c_isr c else 0, c).

#[local] Instance sim_ports : PortIO card :=
  {| p_outb := sim_outb; p_outw := sim_outw; p_insb := sim_insb; p_insw := sim_insw |}.

#[local] Instance sim_ports32 : PortIO32 card := {| p_outl := sim_outl; p_insl := sim_insl |}.

Lemma sim_outl_rx c r v : TxStatus0 <= r < TxAddr0 + 16 -> rx_part (sim_outl c (sim_base + r) v) = rx_part c.
Proof.
  intros Hr. unfold sim_outl. replace (sim_base + r - sim_base) with r by lia.
  assert (r =? RxBuf = false) as -> by (unfold RxBuf, TxAddr0 in *; lia).
  assert (r =? RxConfig = false) as -> by (unfold RxConfig, TxAddr0 in *; lia). by repeat case_match.
Qed.

#[local] Instance sim_card : RtlCard card.
Proof.
  refine (Build_RtlCard card _ _ sim_base _ (fun c => c) _ _ _ _ _ _ _ _ _ _ _ _ _ _ _ _ _ _);
    cbn [p_outl p_insl p_outb p_outw p_insb p_insw sim_ports sim_ports32].
  - unfold sim_base. lia.
  - intros c e v He _. unfold sim_outl.
    replace (sim_base + TxAddr0 + Z.of_nat e * 4 - sim_base) with (TxAddr0 + Z.of_nat e * 4) by lia.
    rewrite (proj2 (Z.eqb_eq _ 0)), (proj2 (Z.ltb_ge _ TxAddr0)) by (unfold TxAddr0; zlia). rewrite andb_false_r. cbn [negb].
    rewrite (proj2 (Z.leb_le TxAddr0 _)), (proj2 (Z.ltb_lt _ (TxAddr0 + 16))) by lia. cbn [andb]. f_equal. zlia.
  - intros c e v He _ Hv. unfold sim_outl.
    replace (sim_base + TxStatus0 + Z.of_nat e * 4 - sim_base) with (TxStatus0 + Z.of_nat e * 4) by lia.
    rewrite (proj2 (Z.eqb_eq _ 0)), (proj2 (Z.leb_le TxStatus0 _)), (proj2 (Z.ltb_lt _ TxAddr0)), Hv
      by (unfold TxAddr0, TxStatus0; zlia). cbn [andb negb]. f_equal. zlia.
  - intros c e t Ht He. unfold sim_insl. cbn. split; [|done].
    replace (Z.to_nat _) with e by zlia. by rewrite Ht.
  - intros c v. done.
  - intros. by apply sim_outl_rx.
  - intros c. split; [|done]. unfold sim_insb. rewrite Z.eqb_refl. by destruct (c_rx c).
  - intros c v st f r Hr _ Hv. unfold sim_outw. by rewrite Z.eqb_refl, Hr, Hv, Z.eqb_refl.
  - intros c. unfold sim_insw. by rewrite Z.eqb_refl.
  - intros c v _. unfold sim_outw. change (sim_base + IntrStatus =? sim_base + RxBufPtr) with false.
    by rewrite Z.eqb_refl.
  - intros c v Hv. unfold sim_outb. by rewrite Z.eqb_refl, Hv.
  - intros c v Hv. unfold sim_outb. by rewrite Z.eqb_refl, Hv.
  - done.
  - done.
  - done.
  - intros c r v Hr. rewrite !elem_of_cons, elem_of_nil in Hr. by destruct Hr as [->|[->|[->|[->|[->|[]]]]]].
  - done.
  - done.
  - done.
Defined.

(** ** A machine with the card *)

#[local] Instance sim_alloc : KAlloc mem := kheap_alloc kheap.
#[local] Instance sim_laws : KAllocLaws mem := kheap_laws kheap.
#[local] Instance sim_room : KAllocRoom mem := kheap_room kheap.

Definition dev0 : Z := 0x1000.
Definition rtl0 : Z := 0x2000.
Definition ring0 : Z := 0x100000.

Definition sim_netdev : netdev :=
  mk_netdev (eth0 ++ replicate 27 0) 0 NETDEV_STATE_UP (Some 0) sim_base 11 [82; 84; 0; 18; 52; 86]
    (Some rtl8139_netdev_ops) rtl0 zero_stats.

(** The driver with a ring of 8192 bytes, read position [cur] and descriptor
    counters [k]. *)
Definition sim_rtl (cur k : Z) : rtl8139 :=
  mk_rtl dev0 sim_base 11 1 (mk_rx ring0 cur 8192)
    (mk_tx 0 k k (Z.shiftl (TX_FIFO_THRESH / 32) 16) (replicate 4 None)
       (map (fun e => ring0 + 8208 + e * TX_BUF_SIZE) [0; 1; 2; 3]) (ring0 + 8208) 0)
    (mk_conf 0 [0; 0] [32; 0; 0; 0] 0 0 0 0 0 20 32 0 0).

Definition sim_pci : pci_device := mk_pci 0 3 0 RTL8139_VENDOR_ID RTL8139_DEVICE_ID 7 0 32 0 0 2 0 11 1 [0xc001; 0; 0; 0; 0; 0].

Definition sim_nics (c : card) (r : rtl8139) (m : list Z) : nics card rtls :=
  mk_nics c (mk_db [sim_pci] 1)
    (mk_reg (dev0 :: replicate 7 NULL) 1 1 {[dev0 := sim_netdev]})
    (mk_rtls {[rtl0 := r]} {[ring0 := m]} [43]).

Definition sim_state (c : card) (r : rtl8139) (m : list Z) (socks : list socket) : net mem (nics card rtls) :=
  mk_net boot_mem (sim_nics c r m) [] 0 0 socks.

Definition sim_mem_size : nat := 14352.

(** *** Opening *)

Section Open.
Import TxProps RxProps OpenFacts OpenProps.

(** A card as it comes out of [rtl8139_init], with frames that nobody asked for. *)
Definition fresh_rtl : rtl8139 :=
  mk_rtl dev0 sim_base 11 0 (mk_rx NULL 0 0) (tx zero_rtl)
    (mk_conf 0 [0; 0] [32; 255; 255; 255] 0 0 0 0 0 20 32 RTL8139_CAPS 0).

Definition open_start : net mem (nics card rtls) :=
  sim_state (mk_card [] [2%nat] [] [(1, [1; 2; 3])] 40 65536 0 0xffff) fresh_rtl [] [].

Lemma open_start_closed : closed_card open_start dev0 rtl0 sim_netdev fresh_rtl.
Proof. by split. Qed.

Lemma rtl8139_open_ready_witness :
  exists s', rtl8139_open dev0 open_start = Some (0, s') /\
    rx_ready 0 dev0 rtl0 [] (n_dev s') /\ c_wire (nic_ports (n_dev s')) = [].
Proof.
  destruct (rtl8139_open_ready open_start dev0 rtl0 sim_netdev fresh_rtl ∅ 25600 open_start_closed)
    as (res & s' & E & _ & Hm & Hr); [apply kheap_fresh|].
  rewrite (Hm ltac:(reflexivity)) in E, Hr. exists s'. split; [exact E|].
  destruct Hr as [[He _]|(_ & p & idx & r' & m & _ & _ & _ & _ & _ & _ & _ & _ & T & R)]; [discriminate He|].
  split; [exact R|]. exact (TxFacts.tr_wire _ _ _ _ _ _ T).
Defined.

End Open.

(** *** Transmission *)

Section Tx.
Import TxFacts TxProps.

(** The last counter values before the wrap-around. *)
Definition tx_start : net mem (nics card rtls) :=
  sim_state (mk_card (replicate 4 (mk_txd 0 TxStatOK)) [] [] [] 0 8192 ring0 0) (sim_rtl 0 (2 ^ 32 - 1))
    (replicate sim_mem_size 0) [].

Definition hello : netbuf := mk_netbuf 0x3000 0x4000 [104; 101; 108; 108; 111] 5 5.

Lemma tx_start_card : has_card tx_start dev0 rtl0 sim_netdev (sim_rtl 0 (2 ^ 32 - 1)) (replicate sim_mem_size 0).
Proof. split; reflexivity. Qed.

Lemma tx_start_rel :
  tx_rel (nic_ports (n_dev tx_start)) (sim_rtl 0 (2 ^ 32 - 1)) (replicate sim_mem_size 0) [] [] [].
Proof.
  split; try done.
  - cbn. lia.
  - intros e He _. by do 4 (destruct e as [|e]; [done|]); lia.
  - intros e He. by do 4 (destruct e as [|e]; [done|]); lia.
Qed.

(** The card sends the oldest frame. *)
Lemma card_can_send (c : card) r m w dn b qu : tx_rel c r m w dn (b :: qu) -> exists c', sends (rx_ring (rx r)) m c c'.
Proof.
  intros T. pose proof (tr_queue _ _ _ _ _ _ T) as Hq. cbn [length seq map] in Hq.
  destruct (tr_queued _ _ _ _ _ _ T 0%nat b eq_refl) as (_ & (g & _ & Ht) & _). rewrite Nat.add_0_r in Ht.
  eexists _, _, _, _, TxStatOK. split; [exact Hq|]. split; [exact Ht|]. split; [unfold TxStatOK; lia|]. by split.
Qed.

Lemma one_sent (b : netbuf) (fr dn qu : list netbuf) f :
  [b] = fr ++ dn ++ qu -> Forall2 sent_as (fr ++ dn) [f] -> sent_as b f.
Proof.
  rewrite app_assoc. destruct (fr ++ dn) as [|c l]; intros E F; [by apply Forall2_nil_inv_l in F|].
  injection E as <- _. by apply Forall2_cons_1 in F as [? _].
Qed.

Lemma rtl8139_tx_in_order_witness :
  exists s1 s2 f, on_dev (rtl8139_transmit dev0 hello) tx_start = Some (0, s1) /\
    tx_trace dev0 rtl0 tx_start [hello] s2 /\ c_wire (nic_ports (n_dev s2)) = [f] /\
    take 5 f = nb_data hello /\ length f = 60%nat.
Proof.
  pose proof (in_order_start dev0 rtl0 tx_start _ _ _ [] tx_start_card tx_start_rel) as I.
  assert (buf_ok hello) as Hb by (unfold buf_ok, TX_BUF_SIZE; cbn; lia).
  destruct (transmit_step _ _ _ _ _ _ _ _ hello I Hb) as (s1 & E & [(x & r & m & sent & C & T & F) _]).
  apply Forall2_nil_inv_l in F as ->. destruct (card_can_send _ _ _ _ _ _ _ T) as [c Hc].
  assert (tx_trace dev0 rtl0 tx_start [hello] (set_dev (put_ports c (n_dev s1)) s1)) as Htr.
  { apply (t_send _ _ _ _ _ x r m); [|done|done]. exact (t_transmit _ _ _ [] _ hello 0 s1 (t_start _ _ _) Hb E). }
  clear I. exists s1, (set_dev (put_ports c (n_dev s1)) s1). set (s2 := set_dev _ _) in *.
  destruct (rtl8139_tx_in_order dev0 rtl0 tx_start s2 _ _ _ [] [hello] tx_start_card tx_start_rel Htr)
    as (fr & dn & qu & sent & Hacc & _ & Hw & Hs & _).
  assert (length sent = 1%nat) as Hl.
  { rewrite <- (app_nil_l sent), <- Hw. destruct Hc as (e & q & t & st & _ & _ & _ & _ & Hv).
    cbn in Hv. cbn. rewrite Hv. cbn. pose proof (tr_wire _ _ _ _ _ _ T) as Hw0. cbn in Hw0. by rewrite Hw0. }
  destruct sent as [|f [|]]; [discriminate Hl| |discriminate Hl]. exists f.
  destruct (one_sent _ _ _ _ _ Hacc Hs) as (pad & Hf & Hp). subst f.
  split; [exact E|]. split; [exact Htr|]. split; [exact Hw|]. split; [reflexivity|].
  change (padded (nb_len hello)) with 60 in Hp. apply Nat2Z.inj. exact Hp.
Defined.

End Tx.

(** *** Reception *)

Section Rx.
Import NetFacts RxFacts RxProps IrqProps OpenFacts OpenProps.

(** A frame stored by the card at [pos] of the ring. *)
Definition ring_put (ring pos st : Z) (f m : list Z) : list Z :=
  let n := Z.of_nat (length f) in
  foldl (fun m '(i, b) => <[Z.to_nat ((pos + i) mod ring) := b]> m) m
    (zip (map Z.of_nat (seq 0 (4 + length f))) (le_bytes 2 st ++ le_bytes 2 (n + 4) ++ f)).

Definition frame_at_b (m : list Z) (ring pos st : Z) (f : list Z) : bool :=
  (0 <=? st) && (st <? 65536) && (Z.of_nat (length f) + 8 <=? ring) &&
  match fetch m pos 4 with
  | Some h => le_val h =? st + 65536 * (Z.of_nat (length f) + 4)
  | None => false
  end &&
  forallb (fun i => bool_decide (m !! Z.to_nat ((pos + 4 + Z.of_nat i) mod ring) = f !! i)) (seq 0 (length f)).

Lemma frame_at_b_ok m ring pos st f : frame_at_b m ring pos st f = true -> frame_at m ring pos st f.
Proof.
  unfold frame_at_b. rewrite !andb_true_iff. intros [[[[H1 H2] H3] H4] H5]. split.
  - lia.
  - lia.
  - destruct (fetch m pos 4) as [h|]; [|done]. exists h. split; [done|lia].
  - intros i Hi. rewrite List.forallb_forall in H5. eapply bool_decide_eq_true, H5. apply in_seq. lia.
Qed.

Definition peer_ip : list Z := [10; 0; 2; 2].
Definition peer_mac : list Z := [82; 85; 10; 0; 2; 2].

(** A datagram of two bytes from port 53 for our port 7. *)
Definition datagram : list Z :=
  eth_frame [82; 84; 0; 18; 52; 86] peer_mac ETH_TYPE_IPV4
    (ip_hdr 0 30 [0; 1; 0; 0] 64 IP_PROTO_UDP [98; 190] peer_ip our_ip ++ udp_header 53 7 10 ++ [104; 105] ++
     replicate 16 0).

(** The frame lies across the end of the ring. *)
Definition rx_mem : list Z := ring_put 8192 8180 1 datagram (replicate sim_mem_size 0).

Definition rx_card (isr : Z) : card := mk_card (replicate 4 (mk_txd 0 TxStatOK)) [] [] [(1, datagram)] 8180 8192 ring0 isr.

Definition bound_sockets : list socket :=
  mk_socket 1 2 7 (replicate 8 zero_packet) 0 0 0 :: replicate 15 zero_socket.

Definition rx_start (isr : Z) : net mem (nics card rtls) :=
  sim_state (rx_card isr) (sim_rtl 65524 0) rx_mem bound_sockets.

Lemma rx_mem_length : length rx_mem = sim_mem_size.
Proof. vm_compute. reflexivity. Qed.

Lemma rx_start_ready isr : rx_ready isr dev0 rtl0 [(1, datagram)] (sim_nics (rx_card isr) (sim_rtl 65524 0) rx_mem).
Proof.
  exists (sim_rtl 65524 0). split; [reflexivity|]. exists sim_netdev, (sim_rtl 65524 0), rx_mem. split.
  - split; try reflexivity. intros e He. by do 4 (destruct e as [|e]; [done|]); lia.
  - split; [reflexivity|reflexivity|reflexivity|by left|by rewrite rx_mem_length|done|reflexivity|reflexivity| |done|reflexivity].
    split; [|exact I]. apply frame_at_b_ok. vm_compute. reflexivity.
Qed.

Definition is_Some_b {T} (o : option T) : bool := match o with Some _ => true | None => false end.

Lemma rtl8139_rx_in_order_witness :
  exists s' before left s1, rtl8139_rx rtl0 (rx_start RxOK) = Some (0, s') /\ [(1, datagram)] = before ++ left /\
    handled dev0 (rx_start RxOK) before s1 /\ rx_ready RxOK dev0 rtl0 left (n_dev s').
Proof.
  pose proof (rtl8139_rx_in_order RxOK dev0 rtl0 (rx_start RxOK) [(1, datagram)] (rx_start_ready RxOK)) as Hrx.
  destruct (rtl8139_rx rtl0 (rx_start RxOK)) as [[res s']|] eqn:E.
  - destruct Hrx as (-> & before & left & s1 & Hf & Hh & Hr & _). exists s', before, left, s1.
    exact (conj eq_refl (conj Hf (conj Hh Hr))).
  - exfalso. clear Hrx. assert (is_Some_b (rtl8139_rx rtl0 (rx_start RxOK)) = true) as Hs by (vm_compute; reflexivity).
    rewrite E in Hs. discriminate Hs.
Defined.

(** The card before the frame arrives, and the frame stored. *)
Definition rx_empty : net mem (nics card rtls) :=
  sim_state (mk_card (replicate 4 (mk_txd 0 TxStatOK)) [] [] [] 8180 8192 ring0 0) (sim_rtl 65524 0)
    (replicate sim_mem_size 0) [].

Lemma rx_empty_ready : rx_ready 0 dev0 rtl0 [] (n_dev rx_empty).
Proof.
  exists (sim_rtl 65524 0). split; [reflexivity|]. exists sim_netdev, (sim_rtl 65524 0), (replicate sim_mem_size 0). split.
  - split; try reflexivity. intros e He. by do 4 (destruct e as [|e]; [done|]); lia.
  - split; [reflexivity|reflexivity|reflexivity|by left|by rewrite length_replicate|done|reflexivity|reflexivity|exact I|done|reflexivity].
Qed.

(** Outside of the space of a frame at [pos] the two memories agree. *)
Fixpoint same_outside (ring pos n i : Z) (m m' : list Z) : bool :=
  match m, m' with
  | a :: m, b :: m' =>
    ((a =? b) || ((i <? ring) && ((i - pos) mod ring <? n))) && same_outside ring pos n (i + 1) m m'
  | [], [] => true
  | _, _ => false
  end.

Lemma same_outside_ok ring pos n : forall m m' i, same_outside ring pos n i m m' = true ->
  length m' = length m /\ forall k, (ring <= i + Z.of_nat k \/ n <= (i + Z.of_nat k - pos) mod ring) -> m' !! k = m !! k.
Proof.
  induction m as [|a m IH]; intros [|b m'] i; cbn [same_outside]; try done.
  rewrite andb_true_iff, orb_true_iff, andb_true_iff. intros [Hab Hm]. destruct (IH _ _ Hm) as [Hl Hk].
  split; [cbn; by rewrite Hl|]. intros [|k] Hc; cbn.
  - rewrite Z.add_0_r in Hc. f_equal. destruct Hab as [?|[? ?]]; lia.
  - apply Hk. replace (i + 1 + Z.of_nat k) with (i + Z.of_nat (S k)) by lia. done.
Qed.

Lemma datagram_stored :
  stores 1 datagram (nic_ports (n_dev rx_empty)) (replicate sim_mem_size 0) (rx_card RxOK) rx_mem.
Proof.
  destruct (same_outside_ok 8192 8180 (space datagram) (replicate sim_mem_size 0) rx_mem 0) as [Hl Hs]; [vm_compute; reflexivity|].
  split; [vm_compute; discriminate|]. split; [reflexivity|]. split; [exact Hl|].
  split; [apply frame_at_b_ok; vm_compute; reflexivity|].
  split; intros i Hi; [intros Hd|]; apply Hs; [right; exact Hd|left; exact Hi].
Qed.

Lemma rtl8139_ring_invariant_witness :
  exists s taken waiting isr, rx_trace dev0 rtl0 rx_empty [(1, datagram)] s /\
    [(1, datagram)] = taken ++ waiting /\ rx_ready isr dev0 rtl0 waiting (n_dev s).
Proof.
  pose proof (r_store dev0 rtl0 rx_empty [] rx_empty (sim_rtl 65524 0) (replicate sim_mem_size 0) 1 datagram (rx_card RxOK) rx_mem
    (r_start _ _ _) eq_refl eq_refl datagram_stored) as Htr.
  destruct (rtl8139_ring_invariant 0 dev0 rtl0 rx_empty _ _ rx_empty_ready Htr) as (tk & w & isr & Ha & Hw).
  exact (ex_intro _ _ (ex_intro _ tk (ex_intro _ w (ex_intro _ isr (conj Htr (conj Ha Hw)))))).
Defined.

Lemma interrupt_delivers_datagram_witness :
  exists s' t, rtl8139_interrupt (rx_start RxOK) = Some (tt, s') /\
    socket_deliver_udp bound_sockets 7 [104; 105] 2 peer_ip 53 = Some (0, t) /\ n_sockets s' = t /\
    rx_ready 0 dev0 rtl0 [] (n_dev s').
Proof.
  destruct (socket_deliver_udp bound_sockets 7 [104; 105] 2 peer_ip 53) as [[rest t]|] eqn:E; [|vm_compute in E; discriminate].
  destruct (interrupt_delivers_datagram (rx_start RxOK) dev0 rtl0 ∅ 25600 1 [82; 84; 0; 18; 52; 86] peer_mac 0 [0; 1; 0; 0] 64
    [98; 190] peer_ip 53 7 [104; 105] (replicate 16 0) 0 sim_netdev (sim_rtl 65524 0) rest t)
    as (p & q & s' & E' & Hs & Hr & _ & _); try reflexivity; try lia.
  - cbn. lia.
  - vm_compute. lia.
  - apply rx_start_ready.
  - apply kheap_fresh.
  - done.
  - done.
  - cbn. lia.
  - exact E.
  - exists s', t. assert (rest = 0) as -> by (vm_compute in E; congruence).
    exact (conj E' (conj eq_refl (conj Hs Hr))).
Defined.

End Rx.

End RtlSim.
