(* ===== verification/Machine.v ===== *)
(** * The machine: the parts of the kernel together, idt.c (tables),
    keyboard.c and ps2.c

    The state of the whole kernel: processes and files (Task.v), the console
    with the ports of the machine (Terminal.v), the network (Net.v), the
    keyboards, the interrupt tables and the lock of the process system calls.
    The network allocates from the memory of the kernel.  Function pointers are
    the constructors of an enumeration of the functions that the kernel stores. *)

From S2P Require Import Prelude CLib KAlloc Heap Disk Cpu Terminal Paging PathParser Fat16 File Elf Task Process Inet Socket Net.
Import Gate Pic Terminal Paging Mmu Fat16 File Elf Task Process Inet Socket Net.
#[local] Open Scope prog_scope.

Definition TOYOS_MAX_SYSCALLS : Z := 1024.
Definition TOYOS_KEYBOARD_BUFFER_SIZE : Z := 1024.
Definition KEYBOARD_CAPS_LOCK_ON : Z := 1.
Definition KEYBOARD_CAPS_LOCK_OFF : Z := 0.
Definition PS2_PORT : Z := 0x64.
Definition PS2_COMMAND_ENABLE_FIRST_PORT : Z := 0xae.
Definition PS2_KEYBOARD_INPUT_PORT : Z := 0x60.
Definition PS2_ISR_KEYBOARD_INTERRUPT : Z := 0x21.
Definition PS2_KEYBOARD_KEY_RELEASED : Z := 0x80.
Definition PS2_KEYBOARD_CAPSLOCK : Z := 0x3a.

Module Machine.

(** *** Functions that are stored *)

Inductive callback := cb_idt_handle_exception | cb_idt_clock | cb_ps2_keyboard_handle_interrupt.

Inductive keyboard_init_fp := fp_ps2_keyboard_init.

Inductive sys_cmd_fp :=
| fp_test | fp_print | fp_getkey | fp_putchar | fp_malloc | fp_free | fp_process_load_start | fp_process_exit
| fp_get_program_arguments | fp_invoke_system_command | fp_clear_terminal | fp_get_processes | fp_check_lock
| fp_done | fp_fork | fp_kill | fp_socket | fp_bind | fp_sendto | fp_recvfrom.

#[global] Instance sys_cmd_fp_eq_dec : EqDecision sys_cmd_fp.
Proof. solve_decision. Defined.

(** *** The state *)

(** [struct keyboard]; [None] is a null function pointer. *)
Record keyboard_dev := mk_kdev {
  k_init : option keyboard_init_fp; k_name : list Z; capslock_state : Z; k_next : Z }.

(** Keyboards by address, and the list. *)
Record keyboards := mk_kbds { k_devs : gmap Z keyboard_dev; keyboard_list_head : Z; keyboard_list_last : Z }.

Record tables := mk_tables {
  idt_descriptors : list idt_desc; interrupt_callbacks : list (option callback);
  sys_commands : list (option sys_cmd_fp) }.

Record machine (S H D N : Type) := mk_machine {
  m_os : os S H; m_con : console D; m_net : net mem N; m_kbds : keyboards; m_tables : tables; m_lock : Z }.

Arguments mk_machine {S H D N}.
Arguments m_os {S H D N}.
Arguments m_con {S H D N}.
Arguments m_net {S H D N}.
Arguments m_kbds {S H D N}.
Arguments m_tables {S H D N}.
Arguments m_lock {S H D N}.

Section Ops.
Context {S H D N : Type} `{KAlloc mem} `{HasAlloc mem S} `{PortIO D} `{NetDriver N}.

Abbreviation K := (M (machine S H D N)).

Definition set_os (x : os S H) (s : machine S H D N) : machine S H D N :=
  mk_machine x (m_con s) (m_net s) (m_kbds s) (m_tables s) (m_lock s).

Definition set_con (x : console D) (s : machine S H D N) : machine S H D N :=
  mk_machine (m_os s) x (m_net s) (m_kbds s) (m_tables s) (m_lock s).

Definition set_net (x : net mem N) (s : machine S H D N) : machine S H D N :=
  mk_machine (m_os s) (m_con s) x (m_kbds s) (m_tables s) (m_lock s).

Definition set_kbds (x : keyboards) (s : machine S H D N) : machine S H D N :=
  mk_machine (m_os s) (m_con s) (m_net s) x (m_tables s) (m_lock s).

Definition set_tables (x : tables) (s : machine S H D N) : machine S H D N :=
  mk_machine (m_os s) (m_con s) (m_net s) (m_kbds s) x (m_lock s).

Definition set_lock (x : Z) (s : machine S H D N) : machine S H D N :=
  mk_machine (m_os s) (m_con s) (m_net s) (m_kbds s) (m_tables s) x.

Definition on_os {B} (x : M (os S H) B) : K B := fun s =>
  match x (m_os s) with Some (r, o) => Some (r, set_os o s) | None => None end.

Definition on_con {B} (x : M (console D) B) : K B := fun s =>
  match x (m_con s) with Some (r, c) => Some (r, set_con c s) | None => None end.

(** The network runs on the memory of the kernel. *)
Definition on_net {B} (x : M (net mem N) B) : K B := fun s =>
  match x (set_alloc (omem (m_os s)) (m_net s)) with
  | Some (r, n) => Some (r, set_net n (set_os (set_omem (n_alloc n) (m_os s)) s))
  | None => None
  end.

Definition on_ports (g : D -> D) : K unit := on_con (modify (fun c => set_ports (g (ports c)) c)).

(** *** idt.c: the tables *)

Definition idt_register_interrupt_callback (interrupt : Z) (cb : callback) : K Z :=
  if (interrupt <? 0) || (TOYOS_TOTAL_INTERRUPTS <=? interrupt) then ret (- EINVARG)
  else
    modify (fun s => let t := m_tables s in
      set_tables (mk_tables (idt_descriptors t) (<[Z.to_nat interrupt := Some cb]> (interrupt_callbacks t))
        (sys_commands t)) s) ;!
    ret OK.

(** A fault is [panick]. *)
Definition register_sys_command (cmd : Z) (handler : sys_cmd_fp) : K unit :=
  if (cmd <? 0) || (TOYOS_MAX_SYSCALLS <=? cmd) then fault
  else
    let! s := get in
    match sys_commands (m_tables s) !! Z.to_nat cmd with
    | Some None =>
      modify (fun s => let t := m_tables s in
        set_tables (mk_tables (idt_descriptors t) (interrupt_callbacks t)
          (<[Z.to_nat cmd := Some handler]> (sys_commands t))) s)
    | _ => fault
    end.

Definition set_gate (interrupt_no address : Z) : K unit :=
  let! s := get in
  let t := m_tables s in
  let! d := lift (idt_set (idt_descriptors t) interrupt_no address) in
  modify (set_tables (mk_tables d (interrupt_callbacks t) (sys_commands t))).

(** [interrupt_pointer_table], the addresses of the entry points of idt.asm, and
    the addresses of [int0h] and [int80h]. *)
Variables (interrupt_pointer_table : list Z) (int0h int80h : Z).

Definition idt_init : K unit :=
  modify (fun s => set_tables (mk_tables (replicate (Z.to_nat TOYOS_TOTAL_INTERRUPTS) zero_desc)
    (interrupt_callbacks (m_tables s)) (sys_commands (m_tables s))) s) ;!
  for_loop 512 0 (fun i => let! a := lift (rd interrupt_pointer_table i) in set_gate i a) ;!
  set_gate 0 int0h ;!
  set_gate 0x80 int80h ;!
  for_loop 32 0 (fun i => let! _ := idt_register_interrupt_callback i cb_idt_handle_exception in ret tt) ;!
  let! _ := idt_register_interrupt_callback 0x20 cb_idt_clock in
  ret tt.

(** *** keyboard.c *)

Definition get_kdev (p : Z) : K keyboard_dev := fun s =>
  match k_devs (m_kbds s) !! p with Some x => Some (x, s) | None => None end.

Definition put_kdev (p : Z) (x : keyboard_dev) : K unit :=
  modify (fun s => let k := m_kbds s in
    set_kbds (mk_kbds (<[p := x]> (k_devs k)) (keyboard_list_head k) (keyboard_list_last k)) s).

Definition keyboard_set_capslock (keyboard state : Z) : K unit :=
  let! x := get_kdev keyboard in
  put_kdev keyboard (mk_kdev (k_init x) (k_name x) state (k_next x)).

Definition keyboard_get_capslock (keyboard : Z) : K Z :=
  let! x := get_kdev keyboard in ret (capslock_state x).

(** [tail % sizeof(buffer)]: the [int] is converted to unsigned. *)
Definition keyboard_index (i : Z) : Z := u32 i mod TOYOS_KEYBOARD_BUFFER_SIZE.

Definition with_keyboard (k : keyboard_buffer) (x : process) : process :=
  mk_process (p_id x) (p_filename x) (p_task x) (allocations x) (p_stack x) (p_size x) k (p_program x)
    (argc x) (argv x).

(** [process] is the address of the process, or null. *)
Definition keyboard_get_tail_index (process : Z) : M (os S H) Z :=
  if process =? NULL then ret (- EINVARG)
  else let! x := get_process process in ret (keyboard_index (kb_tail (keyboard x))).

Definition keyboard_backspace (process : Z) : M (os S H) unit :=
  if process =? NULL then ret tt
  else
    change_process process (fun x => let k := keyboard x in
      with_keyboard (mk_kb (kb_buffer k) (s32 (kb_tail k - 1)) (kb_head k)) x) ;!
    let! real_index := keyboard_get_tail_index process in
    if real_index <? 0 then ret tt
    else
      let! x := get_process process in
      let k := keyboard x in
      let! b := lift (wr (kb_buffer k) real_index 0x00) in
      put_process process (with_keyboard (mk_kb b (kb_tail k) (kb_head k)) x).

Definition keyboard_push (c : Z) : M (os S H) unit :=
  let! process := process_current in
  if process =? NULL then ret tt
  else
    let! real_index := keyboard_get_tail_index process in
    let! x := get_process process in
    let k := keyboard x in
    let! b := lift (wr (kb_buffer k) real_index c) in
    put_process process (with_keyboard (mk_kb b (s32 (kb_tail k + 1)) (kb_head k)) x).

(** The process is that of the current task. *)
Definition keyboard_pop : M (os S H) Z :=
  let! task := on_sched task_current in
  if task =? NULL then ret 0
  else
    let! t := on_sched (get_task task) in
    let! x := get_process (process_of t) in
    let k := keyboard x in
    let real_index := keyboard_index (kb_head k) in
    let! c := lift (rd (kb_buffer k) real_index) in
    if c =? 0 then ret 0
    else
      let! b := lift (wr (kb_buffer k) real_index 0) in
      put_process (process_of t) (with_keyboard (mk_kb b (kb_tail k) (s32 (kb_head k + 1))) x) ;!
      ret c.

(** *** ps2.c *)

(** The address of the static [ps2_keyboard]. *)
Variable ps2_keyboard : Z.

Definition keyboard_scan_set_one : list Z :=
  [0x00; 0x1b; 49; 50; 51; 52; 53; 54; 55; 56; 57; 48; 45; 61; 0x08; 9; 81;
   87; 69; 82; 84; 89; 85; 73; 79; 80; 91; 93; 0x0d; 0x00; 65; 83; 68; 70;
   71; 72; 74; 75; 76; 59; 39; 96; 0x00; 92; 90; 88; 67; 86; 66; 78; 77;
   44; 46; 47; 0x00; 42; 0x00; 0x20; 0x00; 0x00; 0x00; 0x00; 0x00; 0x00; 0x00; 0x00; 0x00; 0x00;
   0x00; 55; 56; 57; 45; 52; 53; 54; 43; 49; 50; 51; 48; 46].

Definition ps2_keyboard_init : K Z :=
  let! _ := idt_register_interrupt_callback PS2_ISR_KEYBOARD_INTERRUPT cb_ps2_keyboard_handle_interrupt in
  keyboard_set_capslock ps2_keyboard KEYBOARD_CAPS_LOCK_OFF ;!
  on_con (outb PS2_PORT PS2_COMMAND_ENABLE_FIRST_PORT) ;!
  ret OK.

Definition call_keyboard_init (f : keyboard_init_fp) : K Z :=
  match f with fp_ps2_keyboard_init => ps2_keyboard_init end.

(** The list of the keyboards, walked with [fuel]. *)
Fixpoint keyboard_init_loop (fuel : nat) (keyboard : Z) : K unit :=
  if keyboard =? NULL then ret tt
  else
    match fuel with
    | 0%nat => fault
    | Datatypes.S fuel =>
      let! x := get_kdev keyboard in
      let! f := lift (k_init x) in
      let! _ := call_keyboard_init f in
      let! x := get_kdev keyboard in
      keyboard_init_loop fuel (k_next x)
    end.

(** One keyboard is registered, so two rounds are enough. *)
Definition keyboard_init : K unit :=
  let! s := get in keyboard_init_loop 2 (keyboard_list_head (m_kbds s)).

Definition keyboard_insert (keyboard : Z) : K Z :=
  if keyboard =? NULL then ret (- EINVARG)
  else
    let! x := get_kdev keyboard in
    match k_init x with
    | None => ret (- EINVARG)
    | Some f =>
      let! s := get in
      let last := keyboard_list_last (m_kbds s) in
      (if negb (last =? NULL) then
         let! l := get_kdev last in
         put_kdev last (mk_kdev (k_init l) (k_name l) (capslock_state l) keyboard)
       else
         modify (fun s => let k := m_kbds s in
           set_kbds (mk_kbds (k_devs k) keyboard (keyboard_list_last k)) s)) ;!
      modify (fun s => let k := m_kbds s in
        set_kbds (mk_kbds (k_devs k) (keyboard_list_head k) keyboard) s) ;!
      call_keyboard_init f
    end.

Definition ps2_register : K Z := keyboard_insert ps2_keyboard.

(** An index outside of the table is a fault. *)
Definition ps2_keyboard_scancode_to_char (scancode : Z) : K Z :=
  if Z.of_nat (length keyboard_scan_set_one) <? scancode then ret 0
  else
    let! c := lift (rd keyboard_scan_set_one scancode) in
    let! state := keyboard_get_capslock ps2_keyboard in
    ret (if (state =? KEYBOARD_CAPS_LOCK_OFF) && (65 <=? s8 c) && (s8 c <=? 90) then u8 (c + 32) else c).

Definition ps2_keyboard_handle_interrupt : K unit :=
  on_os kernel_page ;!
  let! scancode := on_con (insb PS2_KEYBOARD_INPUT_PORT) in
  let! _ := on_con (insb PS2_KEYBOARD_INPUT_PORT) in
  if negb (Z.land scancode PS2_KEYBOARD_KEY_RELEASED =? 0) then ret tt
  else
    (if scancode =? PS2_KEYBOARD_CAPSLOCK then
       let! old_state := keyboard_get_capslock ps2_keyboard in
       keyboard_set_capslock ps2_keyboard
         (if old_state =? KEYBOARD_CAPS_LOCK_ON then KEYBOARD_CAPS_LOCK_OFF else KEYBOARD_CAPS_LOCK_ON)
     else ret tt) ;!
    let! c := ps2_keyboard_scancode_to_char scancode in
    (if negb (c =? 0) then on_os (keyboard_push c) else ret tt) ;!
    let! _ := on_os task_page in
    ret tt.

End Ops.
End Machine.

(** ** The keyboard buffer is a queue *)

Module KeyFacts.
Import Machine.

(** The ring holds the characters of the queue behind its head, zeros elsewhere. *)
Record kb_ok (k : keyboard_buffer) (q : list Z) : Prop := {
  kb_len : length (kb_buffer k) = 1024%nat;
  kb_fits : (length q <= 1024)%nat;
  kb_chars : Forall Str.is_char q;
  kb_ends : u32 (kb_tail k) = u32 (kb_head k + Z.of_nat (length q));
  kb_cells : forall i, 0 <= i < 1024 ->
    kb_buffer k !! Z.to_nat ((kb_head k + i) mod 1024) = Some (default 0 (q !! Z.to_nat i)) }.

Lemma keyboard_index_mod i : keyboard_index i = i mod 1024.
Proof. unfold keyboard_index, u32, TOYOS_KEYBOARD_BUFFER_SIZE. zlia. Qed.

Lemma kb_tail_index k q : kb_ok k q -> keyboard_index (kb_tail k) = (kb_head k + Z.of_nat (length q)) mod 1024.
Proof.
  intros Hk. rewrite <- keyboard_index_mod. unfold keyboard_index. by rewrite (kb_ends _ _ Hk).
Qed.

Lemma index_inj h i j : 0 <= i < 1024 -> 0 <= j < 1024 -> (h + i) mod 1024 = (h + j) mod 1024 -> i = j.
Proof. intros. zlia. Qed.

(** Writing a cell of the ring *)
Lemma ring_write (l : list Z) h i v j w :
  length l = 1024%nat -> 0 <= i < 1024 -> 0 <= j < 1024 ->
  (i <> j -> l !! Z.to_nat ((h + j) mod 1024) = Some w) -> (i = j -> v = w) ->
  <[Z.to_nat ((h + i) mod 1024) := v]> l !! Z.to_nat ((h + j) mod 1024) = Some w.
Proof.
  intros Hl Hi Hj Hne Heq. destruct (decide (i = j)) as [->|Hij].
  - rewrite list_lookup_insert_eq by zlia. f_equal. by apply Heq.
  - rewrite list_lookup_insert_ne; [by apply Hne|]. intros E. apply Hij, (index_inj h); zlia.
Qed.

Lemma kb_push k q c :
  kb_ok k q -> (length q < 1024)%nat -> Str.is_char c ->
  exists b, wr (kb_buffer k) (keyboard_index (kb_tail k)) c = Some b /\
    kb_ok (mk_kb b (s32 (kb_tail k + 1)) (kb_head k)) (q ++ [c]).
Proof.
  intros Hk Hq Hc. rewrite (kb_tail_index k q Hk). destruct Hk as [Hl Hf Hch He Hcells].
  rewrite wr_Some by zlia. rewrite u8_small by (unfold Str.is_char in Hc; lia). eexists. split; [reflexivity|].
  constructor; cbn.
  - by rewrite length_insert.
  - rewrite length_app. cbn. lia.
  - apply Forall_app. split; [done|]. constructor; [done|constructor].
  - rewrite u32_s32, length_app. cbn. unfold u32 in *. zlia.
  - intros i Hi. apply ring_write; [done|lia..| |].
    + intros Hne. rewrite Hcells by done. f_equal.
      destruct (decide (Z.to_nat i < length q)%nat); [by rewrite lookup_app_l|].
      rewrite !lookup_ge_None_2; [done|rewrite length_app; cbn; lia|lia].
    + intros <-. by rewrite Nat2Z.id, list_lookup_middle.
Qed.

Lemma kb_head_cell k q : kb_ok k q -> rd (kb_buffer k) (keyboard_index (kb_head k)) = Some (default 0 (q !! 0%nat)).
Proof.
  intros Hk. rewrite keyboard_index_mod, rd_lookup by zlia.
  pose proof (kb_cells _ _ Hk 0 ltac:(lia)) as Hc. by rewrite Z.add_0_r in Hc.
Qed.

Lemma kb_pop k c q :
  kb_ok k (c :: q) ->
  exists b, wr (kb_buffer k) (keyboard_index (kb_head k)) 0 = Some b /\
    kb_ok (mk_kb b (kb_tail k) (s32 (kb_head k + 1))) q.
Proof.
  intros [Hl Hf Hch He Hcells]. rewrite keyboard_index_mod, wr_Some by zlia. change (u8 0) with 0.
  eexists. split; [reflexivity|]. apply Forall_cons in Hch as [Hc Hch]. cbn in Hf. constructor; cbn.
  - by rewrite length_insert.
  - lia.
  - done.
  - rewrite He. cbn. unfold u32, s32. zlia.
  - intros i Hi. replace ((s32 (kb_head k + 1) + i) mod 1024) with ((kb_head k + (i + 1) mod 1024) mod 1024)
      by (unfold s32; zlia).
    pose proof (ring_write (kb_buffer k) (kb_head k) 0 0 ((i + 1) mod 1024) (default 0 (q !! Z.to_nat i)) Hl) as Hw.
    rewrite Z.add_0_r in Hw. apply Hw; [lia|zlia| |].
    + intros Hne. rewrite Hcells by zlia. rewrite (Z.mod_small (i + 1)) by zlia.
      by replace (Z.to_nat (i + 1)) with (Datatypes.S (Z.to_nat i)) by lia.
    + intros E. rewrite lookup_ge_None_2; [done|]. zlia.
Qed.

(** The empty buffer of a new process *)
Lemma kb_zero : kb_ok (mk_kb (replicate 1024 0) 0 0) [].
Proof.
  constructor; cbn [kb_buffer kb_tail kb_head length]; [apply length_replicate|lia|constructor|done|].
  intros i Hi. rewrite lookup_replicate_2 by zlia. by rewrite lookup_nil.
Qed.

Section Os.
Context {S H : Type}.

Abbreviation st := (os S H).

(** Process [p] runs on the current task and has the keyboard. *)
Record attached (s : st) (p : Z) (x : process) (t : task) : Prop := {
  at_current : current_process (o_procs s) = p;
  at_null : p <> NULL;
  at_proc : procs (o_procs s) !! p = Some x;
  at_task_null : current_task (o_sched s) <> NULL;
  at_task : tasks (o_sched s) !! current_task (o_sched s) = Some t;
  at_owner : process_of t = p }.

Definition set_kb (p : Z) (k : keyboard_buffer) (x : process) (s : st) : st :=
  set_procs (mk_ptable (<[p := with_keyboard k x]> (procs (o_procs s))) (processes (o_procs s))
    (current_process (o_procs s))) s.

Lemma attached_set_kb s p x t k : attached s p x t -> attached (set_kb p k x s) p (with_keyboard k x) t.
Proof. intros [Hc Hn Hp Htn Ht Ho]. constructor; try done. apply lookup_insert_eq. Qed.

Lemma keyboard_push_ok (s : st) p x t q c :
  attached s p x t -> kb_ok (keyboard x) q -> (length q < 1024)%nat -> Str.is_char c ->
  exists k, keyboard_push c s = Some (tt, set_kb p k x s) /\ kb_ok k (q ++ [c]).
Proof.
  intros [Hc Hn Hp _ _ _] Hk Hq Hch. destruct (kb_push _ _ c Hk Hq Hch) as (b & Hb & Hk').
  eexists. split; [|exact Hk']. unfold keyboard_push, process_current, keyboard_get_tail_index.
  unfold bind at 1 2, get, ret. rewrite Hc, (proj2 (Z.eqb_neq p NULL) Hn). unfold bind, get_process, lift.
  rewrite Hp. cbn. rewrite Hp, Hb. reflexivity.
Qed.

Lemma keyboard_pop_ok (s : st) p x t c q :
  attached s p x t -> kb_ok (keyboard x) (c :: q) ->
  exists k, keyboard_pop s = Some (c, set_kb p k x s) /\ kb_ok k q.
Proof.
  intros [Hc Hn Hp Htn Ht Ho] Hk. destruct (kb_pop _ _ _ Hk) as (b & Hb & Hk').
  eexists. split; [|exact Hk']. unfold keyboard_pop, on_sched, task_current, get_task, bind, get, ret.
  cbn [o_sched set_sched]. rewrite (proj2 (Z.eqb_neq _ NULL) Htn). cbn [o_sched set_sched]. rewrite Ht, Ho.
  unfold get_process. cbn [o_procs set_sched]. rewrite Hp. unfold lift. rewrite (kb_head_cell _ _ Hk). cbn.
  pose proof (kb_chars _ _ Hk) as [Hch _]%Forall_cons. unfold Str.is_char in Hch.
  rewrite (proj2 (Z.eqb_neq c 0)), Hb by lia. by destruct s.
Qed.

Lemma keyboard_pop_empty (s : st) p x t :
  attached s p x t -> kb_ok (keyboard x) [] -> keyboard_pop s = Some (0, s).
Proof.
  intros [Hc Hn Hp Htn Ht Ho] Hk. unfold keyboard_pop, on_sched, task_current, get_task, bind, get, ret.
  cbn [o_sched set_sched]. rewrite (proj2 (Z.eqb_neq _ NULL) Htn). cbn [o_sched set_sched]. rewrite Ht, Ho.
  unfold get_process. cbn [o_procs set_sched]. rewrite Hp. unfold lift. rewrite (kb_head_cell _ _ Hk).
  by destruct s.
Qed.

End Os.
End KeyFacts.
