(* ===== verification/Syscall.v ===== *)
(** * Interrupts and system calls: idt.c, idt.asm, sys/

    What an interrupt or a system call does, from the entry point to the
    registers the processor continues with.  A handler returns, or resumes a
    task with [task_return] and never returns.  The buffers on the kernel stack
    are in memory at addresses that are parameters. *)

From S2P Require Import Prelude CLib KAlloc Heap Disk Cpu Terminal Paging PathParser Fat16 File Elf Task Process Inet Socket Net Machine.
Import Gate Pic Terminal Paging Mmu Fat16 File Elf Task Process Inet Socket Net Machine.
#[local] Open Scope prog_scope.

Definition VGA_COLOR_LIGHT_CYAN : Z := 11.

(** [sizeof(struct process_info)] *)
Definition sizeof_process_info : Z := 68.

Module Syscall.

(** What a handler does: it returns a value, or the processor continues in user
    mode with these registers. *)
Inductive outcome := Returned (v : Z) | Resumed (r : registers).

Definition ERROR (v : Z) : Z := u32 v.

(** *** Strings in memory; [fuel] bounds the walk to the terminator *)

Fixpoint mstrlen (fuel : nat) (m : mem) (p i : Z) : option Z :=
  if mread m (ptr_add p i) =? 0 then Some i
  else match fuel with O => None | S fuel => mstrlen fuel m p (i + 1) end.

(** The second loop of [strcat], from the string object [src]. *)
Fixpoint mstrcat_loop (m : mem) (dest i : Z) (src : list Z) : option mem :=
  match src with
  | [] => None
  | c :: src' =>
    if c =? 0 then Some (mwrite m (ptr_add dest i) 0) else mstrcat_loop (mwrite m (ptr_add dest i) c) dest (i + 1) src'
  end.

Definition mstrcat (fuel : nat) (m : mem) (dest : Z) (src : list Z) : option mem :=
  i ← mstrlen fuel m dest 0; mstrcat_loop m dest i src.

(** [strcpy] of string.c to memory *)
Definition mstrcpy (m : mem) (dest : Z) (src : list Z) : option mem := mstrcat_loop m dest 0 src.

(** The literals "0:/" and ".elf" *)
Definition str_drive : list Z := [48; 58; 47; 0].
Definition str_elf : list Z := [46; 101; 108; 102; 0].

(** The messages of [sys_handle_command] and of [sys_command9] *)
Definition str_invalid_call : list Z :=
  [73; 110; 118; 97; 108; 105; 100; 32; 115; 121; 115; 116; 101; 109; 32; 99; 97; 108; 108; 32; 110; 117; 109; 98; 101;
   114; 58; 32; 37; 105; 10; 0].
Definition str_no_handler : list Z :=
  [78; 111; 32; 104; 97; 110; 100; 108; 101; 114; 32; 102; 111; 114; 32; 115; 121; 115; 116; 101; 109; 32; 99; 97; 108;
   108; 32; 37; 105; 10; 0].
Definition str_not_recognized : list Z :=
  [67; 111; 109; 109; 97; 110; 100; 32; 110; 111; 116; 32; 114; 101; 99; 111; 103; 110; 105; 122; 101; 100; 46; 10; 10; 0].

Section Ops.
Context {S H D N : Type} `{KAlloc mem} `{HasAlloc mem S} `{PortIO D} `{NetDriver N}.

Abbreviation K := (M (machine S H D N)).

(** Buffers on the kernel stack; the value of a [va_list]; EFLAGS in the kernel;
    a bound for the walks over strings and lists of the user; whether
    [netdev_get_by_index(0)] finds a device; the static [ps2_keyboard]. *)
Variables (buf filename path va_args eflags : Z) (fuel : nat) (have_dev : bool) (ps2_keyboard : Z).

Definition current : K Z := on_os (on_sched task_current).

(** [task_current()->process] *)
Definition current_task_process : K Z :=
  let! c := current in
  let! t := on_os (on_sched (get_task c)) in
  ret (process_of t).

Definition stack_item (index : Z) : K Z :=
  let! c := current in on_os (task_get_stack_item c index).

Definition memory : K mem := let! s := get in ret (omem (m_os s)).

Definition set_memory (m : mem) : K unit := modify (fun s => set_os (set_omem m (m_os s)) s).

Definition user_to_physical (va : Z) : K Z :=
  let! c := current in on_os (task_virtual_address_to_physical c va).

(** [task_switch(process->task); task_return(&process->task->registers)] *)
Definition start_process (process : Z) : K outcome :=
  let! x := on_os (get_process process) in
  let! _ := on_os (task_switch (p_task x)) in
  let! t := on_os (on_sched (get_task (p_task x))) in
  ret (Resumed (task_return eflags (regs t))).

(** *** sys.c *)

Definition sys_command0_test : K outcome :=
  let! a := stack_item 0 in
  let! b := stack_item 1 in
  ret (Returned (u32 (a + b))).

(** *** sys/io/io.c *)

Definition sys_command1_print : K outcome :=
  let! user_space_msg_buffer := stack_item 0 in
  let! c := current in
  let! _ := on_os (copy_string_from_task c user_space_msg_buffer buf 1024) in
  let! m := memory in
  on_con (printk_colored (mread_n m buf 1024) VGA_COLOR_LIGHT_CYAN VGA_COLOR_BLUE) ;!
  ret (Returned NULL).

Definition sys_command2_getkey : K outcome :=
  let! c := on_os keyboard_pop in
  ret (Returned (u32 (s8 c))).

Definition sys_command3_putchar : K outcome :=
  let! item := stack_item 0 in
  on_con terminal_update_cursor ;!
  on_con (terminal_writechar (u8 item) VGA_COLOR_WHITE VGA_COLOR_BLUE) ;!
  ret (Returned NULL).

Definition sys_command10_clear_terminal : K outcome :=
  on_con terminal_clear_all ;! ret (Returned NULL).

(** *** sys/memory/heap.c *)

Definition sys_command4_malloc : K outcome :=
  let! size := stack_item 0 in
  let! process := current_task_process in
  let! ptr := on_os (process_malloc process (u32 size)) in
  ret (Returned ptr).

Definition sys_command5_free : K outcome :=
  let! ptr_to_free := stack_item 0 in
  let! process := current_task_process in
  on_os (process_free process ptr_to_free) ;!
  ret (Returned 0).

(** *** sys/task/process.c *)

(** [strcat(path, "0:/"); strcat(path, name); strcat(path, ".elf");] on the
    uninitialised [path]; the result is the array. *)
Definition build_path (name : Z) : K (list Z) :=
  let! m := memory in
  let! m := lift (mstrcat fuel m path str_drive) in
  let! n := lift (mstrlen fuel m name 0) in
  let! m := lift (mstrcat fuel m path (mread_n m name (Z.to_nat n) ++ [0])) in
  let! m := lift (mstrcat fuel m path str_elf) in
  set_memory m ;!
  ret (mread_n m path (Z.to_nat TOYOS_MAX_PATH)).

Definition sys_command6_process_load_start : K outcome :=
  let! filename_user_ptr := stack_item 0 in
  let! c := current in
  let! res := on_os (copy_string_from_task c filename_user_ptr filename TOYOS_MAX_PATH) in
  if res <? 0 then ret (Returned NULL)
  else
    let! p := build_path filename in
    let! (res, process) := on_os (process_load_and_switch (Some p)) in
    if res <? 0 then ret (Returned NULL) else start_process process.

Definition sys_command7_process_exit : K outcome :=
  let! process := current_task_process in
  let! _ := on_os (process_terminate process) in
  let! r := on_os (task_next eflags) in
  ret (Resumed r).

Definition sys_command8_get_program_arguments : K outcome :=
  let! process := current_task_process in
  let! item := stack_item 0 in
  let! arguments := user_to_physical item in
  let! (argc, argv) := on_os (process_get_arguments process) in
  let! m := memory in
  set_memory (store32 (store32 m arguments argc) (ptr_add arguments 4) argv) ;!
  ret (Returned 0).

(** [spin_lock]: [while (__sync_lock_test_and_set(&lock->locked, 1)) ;]; a lock
    that is held is never released, as nothing else runs *)
Definition spin_lock : K unit :=
  let! s := get in if m_lock s =? 0 then modify (set_lock 1) else fault.

Definition spin_unlock : K unit := modify (set_lock 0).

Definition sys_command9_invoke_system_command : K outcome :=
  let! item := stack_item 0 in
  let! arguments := user_to_physical item in
  let! m := memory in
  let! bad := (if arguments =? NULL then ret true
               else let! n := lift (mstrlen fuel m arguments 0) in ret (n =? 0)) in
  if bad : bool then ret (Returned (ERROR (- EINVARG)))
  else
    let! p := build_path arguments in
    let! (res, process) := on_os (process_load_and_switch (Some p)) in
    if res <? 0 then
      on_con (alertk str_not_recognized va_args) ;!
      ret (Returned (ERROR res))
    else
      let! res := on_os (process_inject_arguments fuel process arguments) in
      if res <? 0 then ret (Returned (ERROR res))
      else
        let! x := on_os (get_process process) in
        let! _ := on_os (task_switch (p_task x)) in
        spin_lock ;!
        let! t := on_os (on_sched (get_task (p_task x))) in
        ret (Resumed (task_return eflags (regs t))).

(** The loop over the process table; [index] is [pid]. *)
Definition process_info_entry (info pid : Z) : K unit :=
  let entry := ptr_add info (sizeof_process_info * pid) in
  let! m := memory in
  set_memory (store32 m entry (-1)) ;!
  let! s := get in
  let process := process_get pid (o_procs (m_os s)) in
  if process =? NULL then ret tt
  else
    let! x := on_os (get_process process) in
    let! m := memory in
    let! m := lift (mstrcpy (store32 m entry (p_id x)) (ptr_add entry 4) (p_filename x)) in
    set_memory m.

Definition sys_command11_get_processes : K outcome :=
  let! process := current_task_process in
  let! info := on_os (process_malloc process (sizeof_process_info * TOYOS_MAX_PROCESSES)) in
  if info =? NULL then ret (Returned (ERROR (- ENOMEM)))
  else
    for_loop 12 0 (process_info_entry info) ;!
    ret (Returned info).

Definition sys_command12_check_lock : K outcome :=
  let! s := get in
  ret (Returned (if negb (m_lock s =? 0) then ERROR (- EBUSY) else OK)).

Definition sys_command13_done : K outcome := spin_unlock ;! ret (Returned 0).

(** A null [child] is dereferenced. *)
Definition sys_command14_fork : K outcome :=
  let! (res, child) := on_os process_fork in
  if res <? 0 then ret (Returned (ERROR res))
  else
    let! x := on_os (get_process child) in
    ret (Returned (p_id x)).

Definition sys_command15_kill : K outcome :=
  let! current_task := current in
  if current_task =? NULL then ret (Returned (ERROR (- EINVARG)))
  else
    let! item := stack_item 0 in
    let pid := s32 item in
    if pid =? 0 then ret (Returned (ERROR (- EINVARG)))
    else
      let! s := get in
      let process := process_get pid (o_procs (m_os s)) in
      if process =? NULL then ret (Returned (ERROR (- EINVARG)))
      else
        let! res := on_os (process_terminate process) in
        if res <? 0 then ret (Returned (ERROR res)) else ret (Returned OK).

(** *** sys/net/sys_net.c *)

Definition on_sockets {B} (g : list socket -> B * list socket) : K B :=
  let! s := get in
  let '(r, t) := g (n_sockets (m_net s)) in
  modify (fun s => set_net (set_sockets t (m_net s)) s) ;!
  ret r.

Definition sys_command16_socket : K outcome :=
  let! type := stack_item 0 in
  let! sockfd := on_sockets (fun t => socket_create t (s32 type)) in
  ret (Returned (u32 sockfd)).

Definition sys_command17_bind : K outcome :=
  let! sockfd := stack_item 0 in
  let! port := stack_item 1 in
  let! res := on_sockets (fun t => socket_bind t (s32 sockfd) (u16 port)) in
  ret (Returned (u32 res)).

(** The object at a physical address; the socket layer accesses at most one
    packet of it. *)
Definition packet_at (m : mem) (p len : Z) : list Z := mread_n m p (Z.to_nat (Z.min len SOCKET_MAX_PACKET_SIZE)).

(** [struct sendto_args]: [sockfd], [buf], [len], [dst_ip], [dst_port] at
    offsets 0, 4, 8, 12, 16. *)
Definition sys_command18_sendto : K outcome :=
  let! user_ptr := stack_item 0 in
  let! args := user_to_physical user_ptr in
  if args =? NULL then ret (Returned (u32 (-1)))
  else
    let! m := memory in
    let! buf_phys := user_to_physical (load32 m (ptr_add args 4)) in
    if buf_phys =? NULL then ret (Returned (u32 (-1)))
    else
      let len := s32 (load32 m (ptr_add args 8)) in
      let! res := on_net (socket_sendto have_dev (s32 (load32 m args)) (Some (packet_at m buf_phys len)) len
        (mread_n m (ptr_add args 12) 4) (le_val (mread_n m (ptr_add args 16) 2))) in
      ret (Returned (u32 res)).

(** [struct recvfrom_args]: [sockfd], [buf], [max_len], [src_ip], [src_port] at
    offsets 0, 4, 8, 12, 16. *)
Definition sys_command19_recvfrom : K outcome :=
  let! user_ptr := stack_item 0 in
  let! args := user_to_physical user_ptr in
  if args =? NULL then ret (Returned (u32 (-1)))
  else
    let! m := memory in
    let! buf_phys := user_to_physical (load32 m (ptr_add args 4)) in
    if buf_phys =? NULL then ret (Returned (u32 (-1)))
    else
      let max_len := s32 (load32 m (ptr_add args 8)) in
      let! s := get in
      let! (res, data, sender, t) := lift (socket_recvfrom (n_sockets (m_net s)) (s32 (load32 m args))
        (Some (packet_at m buf_phys max_len)) max_len) in
      modify (fun s => set_net (set_sockets t (m_net s)) s) ;!
      let m := match data with Some b => mwrite_n m buf_phys b | None => m end in
      let '(m, src_port) := match sender with
                            | Some (ip, port) => (mwrite_n m (ptr_add args 12) ip, port)
                            | None => (m, 0)
                            end in
      set_memory (mwrite_n m (ptr_add args 16) (le_bytes 2 src_port)) ;!
      ret (Returned (u32 res)).

(** *** Dispatch *)

Definition call_sys (f : sys_cmd_fp) : K outcome :=
  match f with
  | fp_test => sys_command0_test
  | fp_print => sys_command1_print
  | fp_getkey => sys_command2_getkey
  | fp_putchar => sys_command3_putchar
  | fp_malloc => sys_command4_malloc
  | fp_free => sys_command5_free
  | fp_process_load_start => sys_command6_process_load_start
  | fp_process_exit => sys_command7_process_exit
  | fp_get_program_arguments => sys_command8_get_program_arguments
  | fp_invoke_system_command => sys_command9_invoke_system_command
  | fp_clear_terminal => sys_command10_clear_terminal
  | fp_get_processes => sys_command11_get_processes
  | fp_check_lock => sys_command12_check_lock
  | fp_done => sys_command13_done
  | fp_fork => sys_command14_fork
  | fp_kill => sys_command15_kill
  | fp_socket => sys_command16_socket
  | fp_bind => sys_command17_bind
  | fp_sendto => sys_command18_sendto
  | fp_recvfrom => sys_command19_recvfrom
  end.

(** The order of [enum SYSTEM_COMMANDS] *)
Definition sys_register_commands : K unit :=
  register_sys_command 0 fp_test ;!
  register_sys_command 1 fp_print ;!
  register_sys_command 2 fp_getkey ;!
  register_sys_command 3 fp_putchar ;!
  register_sys_command 4 fp_malloc ;!
  register_sys_command 5 fp_free ;!
  register_sys_command 6 fp_process_load_start ;!
  register_sys_command 7 fp_process_exit ;!
  register_sys_command 8 fp_get_program_arguments ;!
  register_sys_command 9 fp_invoke_system_command ;!
  register_sys_command 10 fp_clear_terminal ;!
  register_sys_command 11 fp_get_processes ;!
  register_sys_command 12 fp_check_lock ;!
  register_sys_command 13 fp_done ;!
  register_sys_command 14 fp_fork ;!
  register_sys_command 15 fp_kill ;!
  register_sys_command 16 fp_socket ;!
  register_sys_command 17 fp_bind ;!
  register_sys_command 18 fp_sendto ;!
  register_sys_command 19 fp_recvfrom.

(** The handlers do not use the frame, which is never null here. *)
Definition sys_handle_command (cmd : Z) : K outcome :=
  if (cmd <? 0) || (TOYOS_MAX_SYSCALLS <=? cmd) then
    on_con (alertk str_invalid_call va_args) ;! ret (Returned NULL)
  else
    let! s := get in
    let! h := lift (sys_commands (m_tables s) !! Z.to_nat cmd) in
    match h with
    | None => on_con (alertk str_no_handler va_args) ;! ret (Returned NULL)
    | Some handler => call_sys handler
    end.

Definition sys_handler (cmd : Z) (frame : interrupt_frame) : K outcome :=
  on_os kernel_page ;!
  on_os (on_sched (task_current_save_state (Some frame))) ;!
  let! res := sys_handle_command cmd in
  match res with
  | Returned v => let! _ := on_os task_page in ret (Returned v)
  | Resumed r => ret (Resumed r)
  end.

(** The entry point of idt.asm: the registers pushed, the handler called, the
    result in EAX. *)
Definition int80h (frame : interrupt_frame) : K registers :=
  let! res := sys_handler (s32 (f_eax frame)) frame in
  match res with
  | Returned v => ret (with_eax v (frame_regs frame))
  | Resumed r => ret r
  end.

(** *** Interrupts *)

Definition idt_handle_exception : K outcome :=
  let! process := current_task_process in
  let! _ := on_os (process_terminate process) in
  let! r := on_os (task_next eflags) in
  ret (Resumed r).

Definition idt_clock : K outcome :=
  on_ports (pic_send_eoi 0) ;!
  let! r := on_os (task_next eflags) in
  ret (Resumed r).

Definition call_callback (cb : callback) : K outcome :=
  match cb with
  | cb_idt_handle_exception => idt_handle_exception
  | cb_idt_clock => idt_clock
  | cb_ps2_keyboard_handle_interrupt => ps2_keyboard_handle_interrupt ps2_keyboard ;! ret (Returned 0)
  end.

Definition interrupt_handler (interrupt : Z) (frame : interrupt_frame) : K outcome :=
  on_os kernel_page ;!
  let! s := get in
  let! handler := lift (interrupt_callbacks (m_tables s) !! Z.to_nat interrupt) in
  let! res := (match handler with
               | Some cb =>
                 on_os (on_sched (task_current_save_state (Some frame))) ;!
                 call_callback cb
               | None => ret (Returned 0)
               end) in
  match res with
  | Returned v =>
    let! _ := on_os task_page in
    on_ports (pic_send_eoi (interrupt - 0x20)) ;!
    ret (Returned v)
  | Resumed r => ret (Resumed r)
  end.

(** The entry point [int%1] of idt.asm *)
Definition interrupt_entry (interrupt : Z) (frame : interrupt_frame) : K registers :=
  let! res := interrupt_handler interrupt frame in
  match res with
  | Returned _ => ret (frame_regs frame)
  | Resumed r => ret r
  end.

(** [int0h] calls [panick], which does not return. *)
Definition int0h (frame : interrupt_frame) : K registers := fault.

(** The code that a gate can lead to. *)
Inductive entry := en_int0h | en_int80h | en_int (interrupt : Z).

Definition run_entry (e : entry) (frame : interrupt_frame) : K registers :=
  match e with
  | en_int0h => int0h frame
  | en_int80h => int80h frame
  | en_int interrupt => interrupt_entry interrupt frame
  end.

(** What the processor does when interrupt [vector] arrives: it goes to the
    address in the gate; [code] says what was linked there. *)
Definition take_interrupt (code : Z -> option entry) (vector : Z) (frame : interrupt_frame) : K registers :=
  let! s := get in
  let! g := lift (idt_descriptors (m_tables s) !! Z.to_nat vector) in
  let! e := lift (code (CpuFacts.gate_address g)) in
  run_entry e frame.

End Ops.
End Syscall.

(** ** Entering and leaving the kernel *)

Module SyscallFacts.
Import Syscall KeyFacts.

(** The task with the registers of the frame saved *)
Definition saved (f : interrupt_frame) (t : task) : task :=
  mk_task (page_directory t) (frame_regs f) (process_of t) (next t) (prev t).

Section Facts.
Context {S H D N : Type} `{KAlloc mem} `{HasAlloc mem S} `{PortIO D} `{NetDriver N}.
Variables (buf filename path va_args eflags : Z) (fuel : nat) (have_dev : bool) (ps2_keyboard : Z).

Abbreviation st := (machine S H D N).
Abbreviation entry80 := (int80h buf filename path va_args eflags fuel have_dev).
Abbreviation handle := (sys_handle_command buf filename path va_args eflags fuel have_dev).
Abbreviation entry_irq := (interrupt_entry eflags ps2_keyboard).

(** On the kernel's pages, the state of the running task saved *)
Definition entered (f : interrupt_frame) (t : task) (o : os S H) : os S H :=
  let o := set_pg (paging_switch (omem o) (kernel_chunk o) (o_pg o)) o in
  let c := o_sched o in
  set_sched (mk_sched (<[current_task c := saved f t]> (tasks c)) (current_task c) (task_head c) (task_tail c)) o.

(** Back on the pages of the running task *)
Definition returned (t : task) (o : os S H) : os S H :=
  set_pg (paging_switch (omem o) (page_directory t) (o_pg o)) o.

Lemma enter_ok {B} (k : M st B) (s : st) t f :
  current_task (o_sched (m_os s)) <> NULL ->
  tasks (o_sched (m_os s)) !! current_task (o_sched (m_os s)) = Some t ->
  (on_os kernel_page ;! on_os (on_sched (task_current_save_state (Some f))) ;! k) s =
    k (set_os (entered f t (m_os s)) s).
Proof.
  intros Hn Ht. unfold bind at 1, on_os at 1, kernel_page, bind at 1, get, switch, modify.
  unfold bind at 1, on_os at 1, on_sched. cbn [m_os set_os o_sched set_pg].
  unfold task_current_save_state, task_current, bind at 1 2, get, ret.
  rewrite (proj2 (Z.eqb_neq _ NULL) Hn). unfold task_save_state. rewrite (proj2 (Z.eqb_neq _ NULL) Hn).
  unfold bind, get_task. rewrite Ht. reflexivity.
Qed.

Lemma leave_ok (s : st) t :
  tasks (o_sched (m_os s)) !! current_task (o_sched (m_os s)) = Some t ->
  on_os task_page s = Some (OK, set_os (returned t (m_os s)) s).
Proof.
  intros Ht. unfold on_os, task_page, task_switch, on_sched, task_current, set_current, get_task, switch.
  unfold bind, get, ret, modify. cbn [o_sched set_sched tasks]. rewrite Ht.
  cbn [o_sched set_sched tasks]. unfold returned. do 2 f_equal. destruct s as [[? ? ? [] ?] ? ? ? ? ?]. reflexivity.
Qed.

(** A system call whose handler returns *)
Lemma int80h_returns (s s' : st) t t' f v :
  current_task (o_sched (m_os s)) <> NULL ->
  tasks (o_sched (m_os s)) !! current_task (o_sched (m_os s)) = Some t ->
  handle (s32 (f_eax f)) (set_os (entered f t (m_os s)) s) = Some (Returned v, s') ->
  tasks (o_sched (m_os s')) !! current_task (o_sched (m_os s')) = Some t' ->
  entry80 f s = Some (with_eax v (frame_regs f), set_os (returned t' (m_os s')) s').
Proof.
  intros Hn Ht Hh Ht'. unfold int80h, sys_handler. unfold bind at 1.
  rewrite (enter_ok _ s t f Hn Ht). rewrite (bind_Some _ _ _ _ _ Hh).
  rewrite (bind_Some _ _ _ _ _ (leave_ok s' t' Ht')). reflexivity.
Qed.

(** A system call that resumes a task *)
Lemma int80h_resumes (s s' : st) t f r :
  current_task (o_sched (m_os s)) <> NULL ->
  tasks (o_sched (m_os s)) !! current_task (o_sched (m_os s)) = Some t ->
  handle (s32 (f_eax f)) (set_os (entered f t (m_os s)) s) = Some (Resumed r, s') ->
  entry80 f s = Some (r, s').
Proof.
  intros Hn Ht Hh. unfold int80h, sys_handler. unfold bind at 1.
  rewrite (enter_ok _ s t f Hn Ht). rewrite (bind_Some _ _ _ _ _ Hh). reflexivity.
Qed.

(** A registered number is dispatched to its handler. *)
Lemma handle_registered (s : st) cmd h :
  0 <= cmd < 1024 -> sys_commands (m_tables s) !! Z.to_nat cmd = Some (Some h) ->
  handle cmd s = call_sys buf filename path va_args eflags fuel have_dev h s.
Proof.
  intros Hc Hh. unfold sys_handle_command, TOYOS_MAX_SYSCALLS.
  rewrite (proj2 (Z.ltb_ge cmd 0)), (proj2 (Z.leb_gt 1024 cmd)) by lia. cbn [orb].
  unfold bind at 1, get. rewrite (bind_lift _ _ _ _ Hh). reflexivity.
Qed.

(** An interrupt with a handler *)
Lemma interrupt_run (s : st) t i f cb :
  current_task (o_sched (m_os s)) <> NULL ->
  tasks (o_sched (m_os s)) !! current_task (o_sched (m_os s)) = Some t ->
  interrupt_callbacks (m_tables s) !! Z.to_nat i = Some (Some cb) ->
  entry_irq i f s =
    (let! res := call_callback eflags ps2_keyboard cb in
     match res with
     | Returned _ => let! _ := on_os task_page in on_ports (pic_send_eoi (i - 0x20)) ;! ret (frame_regs f)
     | Resumed r => ret r
     end) (set_os (entered f t (m_os s)) s).
Proof.
  intros Hn Ht Hcb. unfold interrupt_entry, interrupt_handler.
  set (s0 := set_os (set_pg (paging_switch (omem (m_os s)) (kernel_chunk (m_os s)) (o_pg (m_os s))) (m_os s)) s).
  assert (E : (on_os (on_sched (task_current_save_state (Some f))) ;! call_callback eflags ps2_keyboard cb) s0
    = call_callback eflags ps2_keyboard cb (set_os (entered f t (m_os s)) s)).
  { rewrite <- (enter_ok (call_callback eflags ps2_keyboard cb) s t f Hn Ht). reflexivity. }
  unfold bind at 1 2. change (on_os kernel_page s) with (Some (tt, s0)). cbv iota beta.
  unfold bind at 1, get. change (interrupt_callbacks (m_tables s0)) with (interrupt_callbacks (m_tables s)).
  rewrite (bind_lift _ _ _ _ Hcb). unfold bind at 1. rewrite E. unfold bind.
  destruct (call_callback eflags ps2_keyboard cb _) as [[[v|r] s1]|]; [|done..].
  destruct (on_os task_page s1) as [[u s2]|]; [|done]. by destruct (on_ports _ s2) as [[]|].
Qed.

(** An interrupt whose handler returns *)
Lemma interrupt_returns (s s' : st) t t' i f cb v :
  current_task (o_sched (m_os s)) <> NULL ->
  tasks (o_sched (m_os s)) !! current_task (o_sched (m_os s)) = Some t ->
  interrupt_callbacks (m_tables s) !! Z.to_nat i = Some (Some cb) ->
  call_callback eflags ps2_keyboard cb (set_os (entered f t (m_os s)) s) = Some (Returned v, s') ->
  tasks (o_sched (m_os s')) !! current_task (o_sched (m_os s')) = Some t' ->
  entry_irq i f s = Some (frame_regs f,
    set_con (set_ports (pic_send_eoi (i - 0x20) (ports (m_con s'))) (m_con s')) (set_os (returned t' (m_os s')) s')).
Proof.
  intros Hn Ht Hcb Hh Ht'. rewrite (interrupt_run s t i f cb Hn Ht Hcb), (bind_Some _ _ _ _ _ Hh).
  rewrite (bind_Some _ _ _ _ _ (leave_ok s' t' Ht')). reflexivity.
Qed.

(** *** Keys *)

(** The character of a key, by the state of caps lock *)
Definition key_char (caps scancode : Z) : option Z :=
  c ← rd keyboard_scan_set_one scancode;
  Some (if (caps =? KEYBOARD_CAPS_LOCK_OFF) && (65 <=? s8 c) && (s8 c <=? 90) then u8 (c + 32) else c).

(** The keyboard delivers a scan code and the byte after it. *)
Definition key_pending (d : D) (scancode : Z) (d' : D) : Prop :=
  exists d1 b, p_insb d PS2_KEYBOARD_INPUT_PORT = (scancode, d1) /\ p_insb d1 PS2_KEYBOARD_INPUT_PORT = (b, d').

Lemma scan_chars caps sc c : key_char caps sc = Some c -> 0 <= sc < 82 /\ 0 <= c < 128.
Proof.
  unfold key_char, rd. intros Hk.
  assert (0 <= sc < 82) as Hs.
  { destruct (Z.ltb_spec sc 0); [done|]. destruct (decide (sc < 82)); [lia|].
    rewrite lookup_ge_None_2 in Hk; [done|]. change (length keyboard_scan_set_one) with 82%nat. lia. }
  split; [done|]. rewrite (proj2 (Z.ltb_ge sc 0)) in Hk by lia.
  destruct (keyboard_scan_set_one !! Z.to_nat sc) as [c0|] eqn:E; [|done]. cbn in Hk. injection Hk as Hk.
  assert (Forall (fun c => 0 <= c <= 96) keyboard_scan_set_one) as Hall
    by (repeat (constructor; [lia|]); constructor).
  pose proof (Forall_lookup_1 _ _ _ _ Hall E) as Hc0. cbn in Hc0.
  rewrite s8_small in Hk by lia. subst c. repeat case_match; try lia. rewrite u8_small; lia.
Qed.

Lemma key_interrupt_ok (s : st) p x t q sc c dev d' :
  attached (m_os s) p x t -> kb_ok (keyboard x) q -> (length q < 1024)%nat ->
  k_devs (m_kbds s) !! ps2_keyboard = Some dev -> key_char (capslock_state dev) sc = Some c -> c <> 0 ->
  sc <> PS2_KEYBOARD_CAPSLOCK -> key_pending (ports (m_con s)) sc d' ->
  exists k o, ps2_keyboard_handle_interrupt ps2_keyboard s =
      Some (tt, set_os o (set_con (set_ports d' (m_con s)) s)) /\
    attached o p (with_keyboard k x) t /\ kb_ok k (q ++ [c]).
Proof.
  intros Ha Hk Hq Hdev Hc Hc0 Hcaps (d1 & b & Hp1 & Hp2).
  destruct (scan_chars _ _ _ Hc) as [Hsc Hcr].
  set (o0 := set_pg (paging_switch (omem (m_os s)) (kernel_chunk (m_os s)) (o_pg (m_os s))) (m_os s)).
  assert (attached o0 p x t) as Ha0 by (by destruct Ha; constructor).
  destruct (keyboard_push_ok o0 p x t q c Ha0 Hk Hq) as (k & Hpush & Hk'); [unfold Str.is_char; lia|].
  exists k, (returned t (set_kb p k x o0)).
  assert (attached (set_kb p k x o0) p (with_keyboard k x) t) as Ha1 by (by apply attached_set_kb).
  split; [|split; [by destruct Ha1; constructor|done]].
  unfold ps2_keyboard_handle_interrupt. unfold bind at 1. change (on_os kernel_page s) with (Some (tt, set_os o0 s)).
  cbv iota beta. unfold bind at 1, on_con at 1, insb at 1. cbn [m_con set_os ports]. rewrite Hp1.
  unfold bind at 1, on_con at 1, insb at 1. cbn [m_con set_con set_os ports set_ports]. rewrite Hp2.
  replace (Z.land sc PS2_KEYBOARD_KEY_RELEASED =? 0) with true; last first.
  { symmetry. apply Z.eqb_eq. unfold PS2_KEYBOARD_KEY_RELEASED. rewrite Z.land_comm. apply (land_low _ _ 7); [lia|done|lia]. }
  cbn [negb]. rewrite (proj2 (Z.eqb_neq sc _) Hcaps). unfold bind at 1, ret at 1.
  unfold ps2_keyboard_scancode_to_char. change (Z.of_nat (length keyboard_scan_set_one)) with 82.
  rewrite (proj2 (Z.ltb_ge 82 sc)) by lia. unfold key_char in Hc.
  destruct (rd keyboard_scan_set_one sc) as [c0|] eqn:Hrd; [|done]. cbn [mbind option_bind] in Hc. injection Hc as Hc.
  unfold bind at 1 2, lift. unfold keyboard_get_capslock, bind at 1 2, get_kdev. cbn [m_kbds set_con set_os].
  rewrite Hdev. unfold ret at 1 2. rewrite Hc, (proj2 (Z.eqb_neq c 0) Hc0). cbn [negb].
  unfold bind at 1, on_os at 1. cbn [m_os set_con set_os]. rewrite Hpush.
  unfold bind at 1. rewrite (leave_ok _ t); [reflexivity|]. apply Ha1.
Qed.

(** [getkey] pops the queue of the calling process. *)
Lemma getkey_ok (s : st) p x t c q :
  attached (m_os s) p x t -> kb_ok (keyboard x) (c :: q) -> c < 128 ->
  exists k, sys_command2_getkey s = Some (Returned c, set_os (set_kb p k x (m_os s)) s) /\ kb_ok k q.
Proof.
  intros Ha Hk Hc. destruct (keyboard_pop_ok _ _ _ _ _ _ Ha Hk) as (k & Hp & Hk').
  exists k. split; [|done]. pose proof (kb_chars _ _ Hk) as [Hch _]%Forall_cons. unfold Str.is_char in Hch.
  unfold sys_command2_getkey, bind, on_os. rewrite Hp. unfold ret. rewrite s8_small, u32_small by lia. reflexivity.
Qed.

(** Entering and leaving keeps the process attached. *)
Lemma attached_entered (s : st) p x t f :
  attached (m_os s) p x t -> attached (entered f t (m_os s)) p x (saved f t).
Proof. intros [Hc Hn Hp Htn Ht Ho]. constructor; try done. apply lookup_insert_eq. Qed.

Lemma attached_returned o p x t u : attached o p x t -> attached (returned u o) p x t.
Proof. by intros []. Qed.

End Facts.
End SyscallFacts.
