(* ===== verification/Trap.v ===== *)
(** * What interrupts and system calls guarantee

    Theorems on the entry points of Syscall.v: dispatch, unknown numbers, the
    way of a key to the process that reads it, and the end of a process. *)

From S2P Require Import Prelude CLib KAlloc Heap Disk Cpu Terminal Paging AddressSpace PathParser Fat16 File Elf Task TaskMem Process ProcessMem Inet Socket Net Machine Syscall.
Import Gate Pic Terminal Render TermFacts Paging Mmu PagingFacts ASpace Fat16 File Elf Task TaskList TaskRun TaskMem.
Import Process ProcessFacts ProcessLoad ProcessMem Inet Socket Net Machine KeyFacts Syscall SyscallFacts.
#[local] Open Scope prog_scope.

Module TrapFacts.

(** *** Registration *)

(** The handlers in the order of [enum SYSTEM_COMMANDS] *)
Definition commands : list sys_cmd_fp :=
  [fp_test; fp_print; fp_getkey; fp_putchar; fp_malloc; fp_free; fp_process_load_start; fp_process_exit;
   fp_get_program_arguments; fp_invoke_system_command; fp_clear_terminal; fp_get_processes; fp_check_lock; fp_done;
   fp_fork; fp_kill; fp_socket; fp_bind; fp_sendto; fp_recvfrom].

Definition command_table : list (option sys_cmd_fp) := map Some commands ++ replicate 1004 None.

Section Facts.
Context {S H D N : Type} {KA : KAlloc mem} {HA : HasAlloc mem S} {PD : PortIO D} {ND : NetDriver N}.

Abbreviation st := (machine S H D N).

Lemma register_ok (s : st) : 
  sys_commands (m_tables s) = replicate 1024 None ->
  sys_register_commands s = Some (tt, set_tables (mk_tables (idt_descriptors (m_tables s))
    (interrupt_callbacks (m_tables s)) command_table) s).
Proof. destruct s as [o c n k [i cb l] lk]. cbn. intros ->. vm_compute. reflexivity. Qed.

Lemma command_table_lookup i : (i < 1024)%nat ->
  command_table !! i = Some (commands !! i).
Proof.
  intros Hi. unfold command_table. destruct (decide (i < 20)%nat) as [Hl|Hl].
  - rewrite lookup_app_l by (rewrite length_map; exact Hl). rewrite list_lookup_fmap.
    destruct (lookup_lt_is_Some_2 commands i Hl) as [h Hh]. by rewrite Hh.
  - rewrite lookup_app_r by (rewrite length_map; cbn; lia). rewrite length_map.
    rewrite lookup_replicate_2 by (cbn; lia). by rewrite (lookup_ge_None_2 commands) by (cbn; lia).
Qed.

(** *** Messages *)

Definition plain (c : Z) : Prop := is_byte c /\ c <> 8.

#[local] Instance plain_dec c : Decision (plain c).
Proof. unfold plain. apply _. Defined.

Lemma legal_plain t p : Forall plain t -> legal p t.
Proof. intros Ht. revert p. induction Ht as [|c t [Hc H8] _ IH]; intros p; [done|].
  split; [by split|apply IH].
Qed.

Lemma digits_plain fuel base n acc :
  0 < base <= 16 -> 0 <= n -> Forall plain acc -> Forall plain (digits fuel base n acc).
Proof.
  intros Hb. revert n acc. induction fuel as [|fuel IH]; intros n acc Hn Ha; [done|]. cbn. case_match; [done|].
  apply IH; [apply Z.div_pos; lia|]. constructor; [|done]. pose proof (Z.mod_pos_bound n base ltac:(lia)).
  unfold plain, is_byte, Str.hex_digit. case_match; lia.
Qed.

Lemma decimal_plain i : Forall plain (decimal i).
Proof.
  unfold decimal, number. apply Forall_app. split; [case_match; repeat constructor; unfold is_byte; lia|].
  case_match; [repeat constructor; unfold is_byte; lia|]. apply digits_plain; [lia..|constructor].
Qed.

Lemma alertk_shows str a text (c : console D) pg :
  shows c pg -> render false str [AInt a] = Some text -> arg_ok (AInt a) -> legal pg text ->
  exists c', alertk str a c = Some (tt, c') /\ shows c' (type_text pg text).
Proof.
  intros Hc Hr Ha Hl.
  destruct (printf_loop_shows false VGA_COLOR_LIGHT_BROWN VGA_COLOR_BLUE (length str) str [AInt a] text pg c)
    as (c1 & E1 & Hs1 & _); [done..|by constructor|done|done|].
  destruct (update_cursor_shows c1 _ Hs1) as (c2 & E2 & Hs2 & _).
  exists c2. split; [|done]. unfold alertk, printf_colored.
  rewrite (bind_Some _ _ c 0 c2); [done|]. by rewrite (bind_Some _ _ _ _ _ E1), (bind_Some _ _ _ _ _ E2).
Qed.

(** What is printed for a call without a handler; [a] is the [va_list]. *)
Definition unknown_message (cmd a : Z) : list Z :=
  if decide (0 <= cmd < 1024) then removelast (removelast (removelast (removelast str_no_handler))) ++ decimal a ++ [10]
  else removelast (removelast (removelast (removelast str_invalid_call))) ++ decimal a ++ [10].

Lemma unknown_message_legal cmd a pg : legal pg (unknown_message cmd a).
Proof.
  apply legal_plain. unfold unknown_message. case_decide;
    (apply Forall_app; split; [|apply Forall_app; split; [apply decimal_plain|]]);
    apply (bool_decide_unpack _); vm_compute; exact I.
Qed.

Lemma handle_unknown buf filename path va_args eflags fuel have_dev (s : st) cmd pg :
  shows (m_con s) pg -> arg_ok (AInt va_args) ->
  (0 <= cmd < 1024 -> sys_commands (m_tables s) !! Z.to_nat cmd = Some None) ->
  exists c', sys_handle_command buf filename path va_args eflags fuel have_dev cmd s =
      Some (Returned NULL, set_con c' s) /\
    shows c' (type_text pg (unknown_message cmd va_args)).
Proof.
  intros Hc Ha Hn. pose proof (unknown_message_legal cmd va_args pg) as Hl.
  unfold sys_handle_command, TOYOS_MAX_SYSCALLS. unfold unknown_message in *.
  destruct (decide (0 <= cmd < 1024)) as [Hr|Hr].
  - rewrite (proj2 (Z.ltb_ge cmd 0)), (proj2 (Z.leb_gt 1024 cmd)) by lia. cbn [orb].
    unfold bind at 1, get. rewrite (bind_lift _ _ _ _ (Hn Hr)).
    destruct (alertk_shows str_no_handler va_args _ (m_con s) pg Hc eq_refl Ha Hl) as (c' & E & Hs).
    exists c'. split; [|exact Hs]. unfold bind, on_con. by rewrite E.
  - replace ((cmd <? 0) || (1024 <=? cmd)) with true by lia.
    destruct (alertk_shows str_invalid_call va_args _ (m_con s) pg Hc eq_refl Ha Hl) as (c' & E & Hs).
    exists c'. split; [|exact Hs]. unfold bind, on_con. by rewrite E.
Qed.

(** *** The timer is a tick of the scheduler *)

Lemma clock_ticks eflags ps2_keyboard (s : st) t f :
  current_task (o_sched (m_os s)) <> NULL ->
  tasks (o_sched (m_os s)) !! current_task (o_sched (m_os s)) = Some t ->
  interrupt_callbacks (m_tables s) !! Z.to_nat 0x20 = Some (Some cb_idt_clock) ->
  interrupt_entry eflags ps2_keyboard 0x20 f s =
    match tick eflags f (m_os s) with
    | Some (r, o) =>
      Some (r, set_os o (set_con (set_ports (pic_send_eoi 0 (ports (m_con s))) (m_con s)) s))
    | None => None
    end.
Proof.
  intros Hn Ht Hcb. rewrite (interrupt_run eflags ps2_keyboard s t 0x20 f _ Hn Ht Hcb).
  assert (tick eflags f (m_os s) = task_next eflags (entered f t (m_os s))) as ->.
  { unfold tick, kernel_page, bind at 1 2, get, switch, modify. unfold bind at 1, on_sched at 1. cbn [o_sched set_pg].
    unfold task_current_save_state, task_current, bind at 1 2, get, ret. rewrite (proj2 (Z.eqb_neq _ NULL) Hn).
    unfold task_save_state. rewrite (proj2 (Z.eqb_neq _ NULL) Hn). unfold bind, get_task. by rewrite Ht. }
  unfold call_callback, idt_clock, bind, on_ports, on_con, on_os, modify. cbn.
  destruct (task_next eflags (entered f t (m_os s))) as [[r o]|]; reflexivity.
Qed.

(** *** The end of a process *)

Context {KL : KAllocLaws mem} {KM : KAllocMem} {KR : KAllocRoom mem} {KN : KAllocNull} {AL : AllocLens mem S}.

Lemma tasks_ok_entered (o : os S H) base n ks t f :
  tasks_ok (omem o) (o_sched o) base n ks -> tasks (o_sched o) !! current_task (o_sched o) = Some t ->
  tasks_ok (omem (entered f t o)) (o_sched (entered f t o)) base n ks.
Proof.
  intros [Hl Ho Hlv Hs] Ht. split; [|done|done|].
  - exact (list_ok_save _ _ _ _ (frame_regs f) Hl Ht).
  - eapply (spaces_keep _ _ (o_sched o) _ base); [apply keeps_refl| |exact Hs].
    intros k _. cbn. rewrite lookup_insert. case_decide as E; [|done]. by rewrite <- E, Ht.
Qed.

(** The current process is terminated and the next task resumed.  The task after
    the terminated one becomes current when its task is freed, and [task_next]
    moves on from there. *)
Lemma terminate_next eflags (o : os S H) base n xs j ys a r p x addr file b q :
  tasks_ok (omem o) (o_sched o) base n (xs ++ j :: ys) -> owns o p x j -> process_ok base p x addr file b ->
  0 <= p_id x < Z.of_nat (length (processes (o_procs o))) ->
  q ∈ <[Z.to_nat (p_id x) := NULL]> (processes (o_procs o)) -> q <> NULL ->
  ts_task j = current_task (o_sched o) -> ys ++ xs = a :: r ->
  let k := hd a r in
  exists o1 o2 y base', process_terminate p o = Some (OK, o1) /\
    task_next eflags o1 = Some (task_return eflags (regs y), o2) /\
    body <$> tasks (o_sched o) !! ts_task k = Some (body y) /\
    current_task (o_sched o2) = ts_task k /\ on_pages o2 y /\
    processes (o_procs o2) = <[Z.to_nat (p_id x) := NULL]> (processes (o_procs o)) /\
    tasks_ok (omem o2) (o_sched o2) base' (n + freed (allocations x) + b + 1032) (xs ++ ys) /\
    keeps base' (omem o) (omem o2).
Proof.
  intros T Hown Hok Hid Hq Hq0 Hcur Hyx k.
  set (x' := with_allocations (replicate 1024 (NULL, 0)) x).
  destruct (unlinked_ok o p x x' q eq_refl Hq Hq0) as (t' & Hu & Hpt & _).
  destruct (process_terminate_ok o base n xs j ys p x addr file b t' T Hown Hok Hid Hu) as
    (m' & c' & Ht & T' & Hk & _ & _ & Hc' & Hbd & _).
  set (base' := delete (p_stack x) _) in *. set (o1 := set_procs t' (upd m' c' o)) in *.
  assert (omem o1 = m') as Hm by apply al_get_put.
  rewrite (proj2 (Z.eqb_eq _ _) Hcur), Hyx in Hc'. cbn [map hd] in Hc'.
  assert (view (o_sched o1) (map ts_task (xs ++ ys)) (ts_task a :: map ts_task r)) as V.
  { change (ts_task a :: map ts_task r) with (map ts_task (a :: r)). rewrite <- Hyx, !map_app.
    destruct ys as [|y ys].
    - exists [], (map ts_task xs). rewrite !app_nil_r. cbn in Hyx. split; [done|]. split; [done|].
      rewrite Hyx. cbn. by rewrite Hc'.
    - exists (map ts_task xs), (map ts_task (y :: ys)). split; [done|]. split; [done|].
      injection Hyx as -> _. cbn. by rewrite Hc'. }
  destruct (task_next_ok o1 _ _ _ eflags (t_list _ _ _ _ _ T') V) as (o2 & y & Hn & Hy & Hs & Hp & Hok2 & Hpr).
  assert (hd (ts_task a) (map ts_task r) = ts_task k) as Hhd by (unfold k; by destruct r).
  assert (omem o2 = m') as Hm2 by (unfold omem; rewrite Hok2; exact Hm).
  exists o1, o2, y, base'. split; [exact Ht|]. split; [exact Hn|]. rewrite Hhd in *. split; [|split; [|split; [|split]]].
  - change (tasks c' !! ts_task k = Some y) in Hy. rewrite <- (Hbd (ts_task k)); [by rewrite Hy|]. intros Hjk.
    pose proof (l_nodup _ _ (t_list _ _ _ _ _ T)) as Hnd. rewrite map_app in Hnd. cbn [map] in Hnd.
    rewrite <- Permutation_middle, <- map_app in Hnd. apply NoDup_cons in Hnd as [Hnin _]. apply Hnin. rewrite <- Hjk.
    apply list_elem_of_fmap. exists k. split; [done|]. assert (k ∈ ys ++ xs) as Hin.
    { rewrite Hyx. unfold k. destruct r; [left|right; left]. }
    rewrite elem_of_app in Hin |- *. tauto.
  - by rewrite Hs.
  - exact Hp.
  - rewrite Hpr. exact Hpt.
  - rewrite Hm2. split; [|exact Hk]. destruct T' as [Tl To Tv Ts]. split; [|done|done|].
    + rewrite Hs. by destruct Tl.
    + eapply (spaces_keep _ _ c' _ base'); [apply keeps_refl| |exact Ts]. intros i _. by rewrite Hs.
Qed.

(** *** The gates *)

(** The addresses of the entry points: the table of idt.asm, [int0h] and [int80h]. *)
Variables (table : list Z) (addr0 addr80 : Z).

Definition gate_target (v : nat) : option Z :=
  if decide (v = 0%nat) then Some addr0 else if decide (v = 128%nat) then Some addr80 else table !! v.

(** The tables as the kernel fills them, whatever is registered for the interrupts
    of devices. *)
Record traps_installed (t : tables) : Prop := {
  ti_gates : forall v, (v < 512)%nat -> (CpuFacts.gate_address <$> idt_descriptors t !! v) = gate_target v;
  ti_exceptions : forall v, (v < 32)%nat -> interrupt_callbacks t !! v = Some (Some cb_idt_handle_exception);
  ti_commands : sys_commands t = command_table
}.

(** The entry points are linked at these addresses. *)
Record linked (code : Z -> option entry) : Prop := {
  lk_int0h : code addr0 = Some en_int0h;
  lk_int80h : code addr80 = Some en_int80h;
  lk_table : forall v a, table !! v = Some a -> code a = Some (en_int (Z.of_nat v))
}.

Record addresses_ok : Prop := {
  ao_length : length table = 512%nat;
  ao_table : Forall (fun a => 0 <= a < 2 ^ 32) table;
  ao_int0h : 0 <= addr0 < 2 ^ 32;
  ao_int80h : 0 <= addr80 < 2 ^ 32
}.

(** A state with other gates and callbacks. *)
Definition with_gates (d : list idt_desc) (cb : list (option callback)) (s : st) : st :=
  set_tables (mk_tables d cb (sys_commands (m_tables s))) s.

Lemma set_gate_ok (s : st) d cb i a : 0 <= i < 512 -> length d = 512%nat -> 0 <= a < 2 ^ 32 ->
  exists d', set_gate i a (with_gates d cb s) = Some (tt, with_gates d' cb s) /\ length d' = 512%nat /\
    (CpuFacts.gate_address <$> d' !! Z.to_nat i) = Some a /\ forall j, j <> Z.to_nat i -> d' !! j = d !! j.
Proof.
  intros Hi Hd Ha. destruct (CpuFacts.idt_set_address d i a) as (d' & E & Hl & Hg & Hj); [lia|done|].
  exists d'. split; [|rewrite Hl; done]. unfold set_gate, bind at 1, get.
  change (idt_descriptors (m_tables (with_gates d cb s))) with d. rewrite (bind_lift _ _ _ _ E). done.
Qed.

Lemma gates_loop_ok (s : st) d cb : addresses_ok -> length d = 512%nat ->
  exists d', for_loop 512 0 (fun i => let! a := lift (rd table i) in set_gate i a) (with_gates d cb s)
      = Some (tt, with_gates d' cb s) /\ length d' = 512%nat /\
    forall v, (v < 512)%nat -> (CpuFacts.gate_address <$> d' !! v) = table !! v.
Proof.
  intros [Hl Ha _ _] Hd.
  destruct (for_loop_inv (fun i s1 => exists d1, s1 = with_gates d1 cb s /\ length d1 = 512%nat /\
      forall v, (v < Z.to_nat i)%nat -> (CpuFacts.gate_address <$> d1 !! v) = table !! v)
    (fun i => let! a := lift (rd table i) in set_gate i a) 512 0 (with_gates d cb s)) as (s2 & E & d2 & -> & H1 & H2).
  - exists d. split; [done|]. split; [done|]. intros v Hv. simpl in Hv. lia.
  - intros i s1 Hi (d1 & -> & Hd1 & Hv). destruct (lookup_lt_is_Some_2 table (Z.to_nat i)) as [a Hta]; [lia|].
    assert (rd table i = Some a) as Hrd by (by rewrite rd_lookup by lia).
    rewrite Forall_lookup in Ha. destruct (set_gate_ok s d1 cb i a) as (d3 & E & Hd3 & Hg & Hj); [lia|done|by eapply Ha|].
    exists (with_gates d3 cb s). rewrite (bind_lift _ _ _ _ Hrd). split; [exact E|]. exists d3. split; [done|].
    split; [done|]. intros v Hvi. destruct (decide (v = Z.to_nat i)) as [->|Hne]; [by rewrite Hg|].
    rewrite Hj by done. apply Hv. lia.
  - exists d2. split; [exact E|]. split; [done|]. intros v Hv. apply H2. lia.
Qed.

Lemma exceptions_loop_ok (s : st) d cb : length cb = 512%nat ->
  exists cb', for_loop 32 0 (fun i => let! _ := idt_register_interrupt_callback i cb_idt_handle_exception in ret tt)
      (with_gates d cb s) = Some (tt, with_gates d cb' s) /\ length cb' = 512%nat /\
    forall v, (v < 32)%nat -> cb' !! v = Some (Some cb_idt_handle_exception).
Proof.
  intros Hl.
  destruct (for_loop_inv (fun i s1 => exists cb1, s1 = with_gates d cb1 s /\ length cb1 = 512%nat /\
      forall v, (v < Z.to_nat i)%nat -> cb1 !! v = Some (Some cb_idt_handle_exception))
    (fun i => let! _ := idt_register_interrupt_callback i cb_idt_handle_exception in ret tt) 32 0 (with_gates d cb s))
    as (s2 & E & cb2 & -> & H1 & H2).
  - exists cb. split; [done|]. split; [done|]. intros v Hv. simpl in Hv. lia.
  - intros i s1 Hi (cb1 & -> & Hc & Hv). exists (with_gates d (<[Z.to_nat i := Some cb_idt_handle_exception]> cb1) s).
    unfold idt_register_interrupt_callback. rewrite (proj2 (Z.ltb_ge i 0)), (proj2 (Z.leb_gt _ i)) by (unfold TOYOS_TOTAL_INTERRUPTS; lia).
    split; [done|]. eexists. split; [done|]. rewrite length_insert. split; [done|]. intros v Hvi.
    destruct (decide (v = Z.to_nat i)) as [->|Hne]; [by rewrite list_lookup_insert_eq by lia|].
    rewrite list_lookup_insert_ne by done. apply Hv. lia.
  - exists cb2. split; [exact E|]. split; [done|]. intros v Hv. apply H2. lia.
Qed.

Lemma idt_init_ok (s : st) : addresses_ok -> length (interrupt_callbacks (m_tables s)) = 512%nat ->
  exists d cb, idt_init table addr0 addr80 s = Some (tt, with_gates d cb s) /\
    (forall v, (v < 512)%nat -> (CpuFacts.gate_address <$> d !! v) = gate_target v) /\
    (forall v, (v < 32)%nat -> cb !! v = Some (Some cb_idt_handle_exception)) /\
    cb !! 32%nat = Some (Some cb_idt_clock).
Proof.
  intros Ha Hc. pose proof Ha as [_ _ H0 H80]. set (cb0 := interrupt_callbacks (m_tables s)) in *.
  set (d0 := replicate 512 zero_desc). assert (length d0 = 512%nat) as Hd0 by apply length_replicate.
  destruct (gates_loop_ok s d0 cb0 Ha Hd0) as (d1 & E1 & Hd1 & G1).
  destruct (set_gate_ok s d1 cb0 0 addr0) as (d2 & E2 & Hd2 & G2 & J2); [lia|done|done|].
  destruct (set_gate_ok s d2 cb0 0x80 addr80) as (d3 & E3 & Hd3 & G3 & J3); [lia|done|done|].
  destruct (exceptions_loop_ok s d3 cb0 Hc) as (cb4 & E4 & Hc4 & G4).
  exists d3, (<[32%nat := Some cb_idt_clock]> cb4). split; [|split; [|split]].
  - unfold idt_init. rewrite (bind_Some _ _ _ tt (with_gates d0 cb0 s)) by done.
    rewrite (bind_Some _ _ _ _ _ E1), (bind_Some _ _ _ _ _ E2), (bind_Some _ _ _ _ _ E3), (bind_Some _ _ _ _ _ E4). done.
  - intros v Hv. unfold gate_target. destruct (decide (v = 128%nat)) as [->|H8]; [exact G3|].
    rewrite J3 by done. case_decide as Hv0; [by subst|]. rewrite J2 by done. by apply G1.
  - intros v Hv. rewrite list_lookup_insert_ne by lia. by apply G4.
  - by rewrite list_lookup_insert_eq by lia.
Qed.

(** [idt_init] and [sys_register_commands] install the traps. *)
Lemma traps_boot (s : st) : addresses_ok -> length (interrupt_callbacks (m_tables s)) = 512%nat ->
  sys_commands (m_tables s) = replicate 1024 None ->
  exists s', (idt_init table addr0 addr80 ;! sys_register_commands) s = Some (tt, s') /\
    traps_installed (m_tables s') /\ s' = set_tables (m_tables s') s.
Proof.
  intros Ha Hc Hs. destruct (idt_init_ok s Ha Hc) as (d & cb & E & G & X & _).
  eexists. rewrite (bind_Some _ _ _ _ _ E). split; [apply register_ok, Hs|]. by split.
Qed.

End Facts.
End TrapFacts.

(** *** Through the gates *)

Module GateFacts.
Import TrapFacts.

Section Facts.
Context {S H D N : Type} {KA : KAlloc mem} {HA : HasAlloc mem S} {PD : PortIO D} {ND : NetDriver N}.
Variables (buf filename path va_args eflags : Z) (fuel : nat) (have_dev : bool) (ps2_keyboard : Z).
Variables (table : list Z) (addr0 addr80 : Z) (code : Z -> option entry).

Abbreviation st := (machine S H D N).
Abbreviation take := (take_interrupt buf filename path va_args eflags fuel have_dev ps2_keyboard code).
Abbreviation run := (run_entry buf filename path va_args eflags fuel have_dev ps2_keyboard).

Lemma take_at (s : st) i f a e : traps_installed table addr0 addr80 (m_tables s) -> 0 <= i < 512 ->
  gate_target table addr0 addr80 (Z.to_nat i) = Some a -> code a = Some e -> take i f s = run e f s.
Proof.
  intros Ht Hi Hg Hc. pose proof (ti_gates _ _ _ _ Ht (Z.to_nat i) ltac:(lia)) as E. rewrite Hg in E.
  destruct (idt_descriptors (m_tables s) !! Z.to_nat i) as [g|] eqn:Eg; [|discriminate E]. injection E as E.
  unfold take_interrupt, bind at 1, get. rewrite (bind_lift _ _ _ _ Eg), E, (bind_lift _ _ _ _ Hc). done.
Qed.

Lemma take_int0h (s : st) f : traps_installed table addr0 addr80 (m_tables s) -> linked table addr0 addr80 code ->
  take 0 f s = None.
Proof. intros Ht [H0 _ _]. by rewrite (take_at s 0 f addr0 en_int0h Ht ltac:(lia) eq_refl H0). Qed.

Lemma take_int80h (s : st) f : traps_installed table addr0 addr80 (m_tables s) -> linked table addr0 addr80 code ->
  take 0x80 f s = int80h buf filename path va_args eflags fuel have_dev f s.
Proof. intros Ht [_ H80 _]. by rewrite (take_at s 0x80 f addr80 en_int80h Ht ltac:(lia) eq_refl H80). Qed.

Lemma take_int (s : st) i f : traps_installed table addr0 addr80 (m_tables s) -> linked table addr0 addr80 code ->
  length table = 512%nat -> 1 <= i < 128 -> take i f s = interrupt_entry eflags ps2_keyboard i f s.
Proof.
  intros Ht Hl Hn Hi. destruct (lookup_lt_is_Some_2 table (Z.to_nat i)) as [a Ha]; [lia|].
  rewrite (take_at s i f a (en_int i) Ht); [done|lia| |].
  - unfold gate_target. by rewrite !decide_False by lia.
  - rewrite (lk_table _ _ _ _ Hl _ _ Ha). do 2 f_equal. lia.
Qed.

End Facts.
End GateFacts.

(** ** Claims *)

Module TrapProps.
Import TrapFacts GateFacts.

Section Props.
Context {S H D N : Type} {KA : KAlloc mem} {HA : HasAlloc mem S} {PD : PortIO D} {ND : NetDriver N}.
Variables (buf filename path va_args eflags : Z) (fuel : nat) (have_dev : bool) (ps2_keyboard : Z).

Abbreviation st := (machine S H D N).
Abbreviation entry80 := (int80h buf filename path va_args eflags fuel have_dev).
Abbreviation entry_irq := (interrupt_entry eflags ps2_keyboard).
Abbreviation take := (take_interrupt buf filename path va_args eflags fuel have_dev ps2_keyboard).

(** C28: System call numbers.  [sys_register_commands] fills an empty table without
    a panic.  With that table, interrupt 0x80 with a number from 0 to 19 in EAX
    runs the handler of that number in the order of the enumeration; any other
    number prints a message, returns 0 in EAX with every other register as it
    was, and changes nothing but the saved registers and the console.  The number
    in the message is not that of the call: [alertk] passes its [va_list] on as
    if it were the argument. *)
Theorem syscall_dispatch (s : st) :
  sys_commands (m_tables s) = replicate 1024 None -> arg_ok (AInt va_args) ->
  exists s', sys_register_commands s = Some (tt, s') /\ m_os s' = m_os s /\
    forall (s1 : st), m_tables s1 = m_tables s' ->
    (forall i h, commands !! i = Some h ->
       sys_handle_command buf filename path va_args eflags fuel have_dev (Z.of_nat i) s1 =
         call_sys buf filename path va_args eflags fuel have_dev h s1) /\
    (forall f t pg, ~ 0 <= s32 (f_eax f) < 20 -> shows (m_con s1) pg ->
       current_task (o_sched (m_os s1)) <> NULL ->
       tasks (o_sched (m_os s1)) !! current_task (o_sched (m_os s1)) = Some t ->
       exists c', entry80 f s1 = Some (with_eax 0 (frame_regs f),
           set_os (returned (saved f t) (entered f t (m_os s1))) (set_con c' s1)) /\
         shows c' (type_text pg (unknown_message (s32 (f_eax f)) va_args))).
Proof.
  intros Hs Ha. eexists. split; [apply (register_ok s Hs)|]. split; [done|]. intros s1 Ht. split.
  - intros i h Hi. apply lookup_lt_Some in Hi as Hlt. change (length commands) with 20%nat in Hlt.
    apply handle_registered; [lia|]. rewrite Ht, Nat2Z.id. cbn [m_tables set_tables sys_commands].
    by rewrite command_table_lookup, Hi by lia.
  - intros f t pg Hr Hc Hn Hx.
    destruct (handle_unknown buf filename path va_args eflags fuel have_dev (set_os (entered f t (m_os s1)) s1)
      (s32 (f_eax f)) pg) as (c' & E & Hc'); [done|done| |].
    { intros Hr'. cbn [m_tables set_os]. rewrite Ht. cbn [m_tables set_tables sys_commands].
      rewrite command_table_lookup by lia. f_equal. apply lookup_ge_None_2. change (length commands) with 20%nat. lia. }
    exists c'. split; [|exact Hc']. erewrite (int80h_returns _ _ _ _ _ _ _ s1 _ t (saved f t) f NULL Hn Hx E).
    + reflexivity.
    + cbn. apply lookup_insert_eq.
Qed.

(** C30: The way of a key.  A key pressed while process [p] runs and has the
    keyboard interrupts it without a change to its registers and puts the
    character, in the case that caps lock asks for, at the end of the process's
    queue; the process's next [getkey] returns the first character of that queue
    in EAX and takes it out, and leaves all other registers as they were. *)
Theorem key_press_getkey (s : st) p x t q sc c dev d' f g :
  attached (m_os s) p x t -> kb_ok (keyboard x) q -> (length q < 1024)%nat -> Forall (fun c => c < 128) q ->
  k_devs (m_kbds s) !! ps2_keyboard = Some dev -> key_char (capslock_state dev) sc = Some c -> c <> 0 ->
  sc <> PS2_KEYBOARD_CAPSLOCK -> key_pending (ports (m_con s)) sc d' ->
  interrupt_callbacks (m_tables s) !! Z.to_nat 0x21 = Some (Some cb_ps2_keyboard_handle_interrupt) ->
  sys_commands (m_tables s) !! Z.to_nat 2 = Some (Some fp_getkey) -> f_eax g = 2 ->
  exists s1 s2 c' q', q ++ [c] = c' :: q' /\
    entry_irq 0x21 f s = Some (frame_regs f, s1) /\
    (exists x1 t1, attached (m_os s1) p x1 t1 /\ kb_ok (keyboard x1) (q ++ [c])) /\
    entry80 g s1 = Some (with_eax c' (frame_regs g), s2) /\
    exists x2 t2, attached (m_os s2) p x2 t2 /\ kb_ok (keyboard x2) q'.
Proof.
  intros Ha Hk Hq Hq7 Hdev Hc Hc0 Hcaps Hp Hcb Hsys Hg. pose proof (scan_chars _ _ _ Hc) as [_ Hcr].
  pose proof (attached_entered s p x t f Ha) as Ha1.
  destruct (key_interrupt_ok ps2_keyboard (set_os (entered f t (m_os s)) s) p x (saved f t) q sc c dev d' Ha1 Hk Hq Hdev
    Hc Hc0 Hcaps Hp) as (k & o & E & Ho & Hk1).
  set (s0 := set_os o _) in E.
  assert (Hirq : entry_irq 0x21 f s = Some (frame_regs f,
    set_con (set_ports (pic_send_eoi (0x21 - 0x20) (ports (m_con s0))) (m_con s0))
      (set_os (returned (saved f t) (m_os s0)) s0))).
  { apply (interrupt_returns eflags ps2_keyboard s s0 t (saved f t) 0x21 f _ 0 (at_task_null _ _ _ _ Ha)
      (at_task _ _ _ _ Ha) Hcb); [|apply Ho].
    unfold call_callback. rewrite (bind_Some _ _ _ _ _ E). reflexivity. }
  set (s1 := set_con _ _) in Hirq.
  assert (attached (m_os s1) p (with_keyboard k x) (saved f t)) as Hs1 by (by apply attached_returned).
  destruct (q ++ [c]) as [|c' q'] eqn:Eq; [by destruct q|].
  assert (c' < 128) as Hc'.
  { assert (Forall (fun c => c < 128) (c' :: q')) as Hall
      by (rewrite <- Eq; apply Forall_app; split; [done|]; constructor; [lia|constructor]).
    by apply Forall_cons in Hall as [? _]. }
  pose proof (attached_entered s1 _ _ _ g Hs1) as Ha2.
  destruct (getkey_ok (set_os (entered g (saved f t) (m_os s1)) s1) p _ _ c' q' Ha2 Hk1 Hc') as (k2 & E2 & Hk2).
  pose proof (attached_set_kb _ _ _ _ k2 Ha2) as Ha3.
  set (s2 := set_os (set_kb p k2 (with_keyboard k x) (entered g (saved f t) (m_os s1))) s1).
  eexists s1, _, c', q'. split; [done|]. split; [exact Hirq|]. split; [by exists (with_keyboard k x), (saved f t)|].
  split.
  - apply (int80h_returns buf filename path va_args eflags fuel have_dev s1 s2 (saved f t) (saved g (saved f t)) g c');
      [apply Hs1|apply Hs1| |apply Ha3].
    rewrite Hg. change (s32 2) with 2. rewrite (handle_registered _ _ _ _ _ _ _ _ 2 fp_getkey) by (lia || exact Hsys).
    exact E2.
  - eexists _, _. split; [apply attached_returned, Ha3|]. exact Hk2.
Qed.

Context {KL : KAllocLaws mem} {KM : KAllocMem} {KR : KAllocRoom mem} {KN : KAllocNull} {AL : AllocLens mem S}.

(** C9: The end of a process, from the gates that idt_init sets.  When the running
    process exits with system call 7, or raises one of the processor exceptions 1
    to 31, it is terminated: its memory, its task and its slot in the process
    table are given back and no other allocation changes.  The processor then
    continues in another task, with the registers saved for that task and on its
    pages; with more than one task left it is not the next one in the queue but
    the one after it.  Exception 0 is different: its gate leads to int0h, so a
    division by zero in a process stops the whole machine with panick, although
    the exception handler is registered for it. *)
Theorem process_end_resumes (s : st) base n xs j ys a r p x addr file b q t f table addr0 addr80 code :
  let o := m_os s in
  tasks_ok (omem o) (o_sched o) base n (xs ++ j :: ys) -> owns o p x j -> process_ok base p x addr file b ->
  0 <= p_id x < Z.of_nat (length (processes (o_procs o))) ->
  q ∈ <[Z.to_nat (p_id x) := NULL]> (processes (o_procs o)) -> q <> NULL ->
  ts_task j = current_task (o_sched o) -> ys ++ xs = a :: r ->
  tasks (o_sched o) !! current_task (o_sched o) = Some t -> process_of t = p ->
  traps_installed table addr0 addr80 (m_tables s) -> linked table addr0 addr80 code -> length table = 512%nat ->
  take code 0 f s = None /\
  exists o' y base', (f_eax f = 7 -> take code 0x80 f s = Some (task_return eflags (regs y), set_os o' s)) /\
    (forall i, 1 <= i < 32 -> take code i f s = Some (task_return eflags (regs y), set_os o' s)) /\
    body <$> tasks (o_sched o) !! ts_task (hd a r) = Some (body y) /\
    current_task (o_sched o') = ts_task (hd a r) /\ on_pages o' y /\
    processes (o_procs o') = <[Z.to_nat (p_id x) := NULL]> (processes (o_procs o)) /\
    tasks_ok (omem o') (o_sched o') base' (n + freed (allocations x) + b + 1032) (xs ++ ys) /\
    keeps base' (omem o) (omem o').
Proof.
  intros o T Hown Hok Hid Hq Hq0 Hcur Hyx Ht Hpt Hti Hlk Hlt.
  split; [exact (take_int0h _ _ _ _ _ _ _ _ _ _ _ _ s f Hti Hlk)|].
  assert (current_task (o_sched o) <> NULL) as Hn.
  { rewrite <- Hcur. assert (ts_task j ∈ map ts_task (xs ++ j :: ys)) as Hin
      by (apply list_elem_of_fmap; exists j; split; [done|]; apply elem_of_app; right; left).
    by destruct (list_ok_lookup _ _ _ (t_list _ _ _ _ _ T) Hin) as (_ & _ & ?). }
  set (o0 := entered f t o). pose proof (tasks_ok_entered o base n _ t f T Ht) as T0. fold o0 in T0.
  assert (owns o0 p x j) as Hown0 by (by destruct Hown).
  destruct (terminate_next eflags o0 base n xs j ys a r p x addr file b q T0 Hown0 Hok Hid Hq Hq0 Hcur Hyx)
    as (o1 & o2 & y & base' & Htm & Hnx & Hy & Hc2 & Hp2 & Hps & T2 & Hk2).
  assert (Hrun : (let! process := current_task_process in let! _ := on_os (process_terminate process) in
    let! r := on_os (task_next eflags) in ret (Resumed r)) (set_os o0 s) = Some (Resumed (task_return eflags (regs y)), set_os o2 s)).
  { unfold current_task_process, current, bind at 1 2 3, on_os at 1 2, on_sched, task_current, get_task, bind, get, ret.
    cbn [m_os set_os o_sched set_sched o0 entered tasks current_task]. rewrite lookup_insert_eq. cbn [process_of saved].
    rewrite Hpt. unfold on_os. cbn [m_os set_os]. replace (set_sched _ _) with o0 by (by destruct o as [? ? ? [] ?]).
    rewrite Htm. cbn [m_os set_os]. rewrite Hnx. reflexivity. }
  exists o2, y, base'. split; [|split].
  - intros Hf. rewrite (take_int80h _ _ _ _ _ _ _ _ _ _ _ _ s f Hti Hlk).
    apply (int80h_resumes _ _ _ _ _ _ _ s _ t f _ Hn Ht). rewrite Hf. change (s32 7) with 7.
    assert (sys_commands (m_tables s) !! Z.to_nat 7 = Some (Some fp_process_exit)) as Hsys
      by (rewrite (ti_commands _ _ _ _ Hti); reflexivity).
    rewrite (handle_registered _ _ _ _ _ _ _ _ 7 fp_process_exit) by (lia || exact Hsys). exact Hrun.
  - intros i Hi. rewrite (take_int _ _ _ _ _ _ _ _ _ _ _ _ s i f Hti Hlk Hlt) by lia.
    pose proof (ti_exceptions _ _ _ _ Hti (Z.to_nat i) ltac:(lia)) as Hcb.
    rewrite (interrupt_run eflags ps2_keyboard s t i f _ Hn Ht Hcb).
    rewrite (bind_Some _ _ _ _ _ Hrun). reflexivity.
  - split; [|done]. rewrite <- Hy. cbn [o0 entered o_sched set_sched tasks]. rewrite lookup_insert_ne; [done|].
    intros Hjk. change (current_task (o_sched o) = ts_task (hd a r)) in Hjk. rewrite <- Hcur in Hjk. pose proof (l_nodup _ _ (t_list _ _ _ _ _ T)) as Hnd. rewrite map_app in Hnd.
    cbn [map] in Hnd. rewrite <- Permutation_middle, <- map_app in Hnd. apply NoDup_cons in Hnd as [Hnin _]. apply Hnin.
    rewrite Hjk. apply list_elem_of_fmap. exists (hd a r). split; [done|].
    assert (hd a r ∈ ys ++ xs) as Hin by (rewrite Hyx; destruct r; [left|right; left]).
    rewrite elem_of_app in Hin |- *. tauto.
Qed.

End Props.
End TrapProps.
