(* ===== verification/Kernel.v ===== *)
(** * The end of the boot: kernel.c

    Loading the first process and leaving the kernel for it, on the machine of
    Machine.v. *)

From S2P Require Import Prelude CLib KAlloc Heap Paging AddressSpace Disk Cpu Terminal PathParser Fat16 File FatFs Elf Task TaskMem Process ProcessMem Boot Inet Socket Net Machine Syscall.
Import Gate Pic Terminal Paging Mmu Fat16 File Elf Task TaskMem Process ProcessFacts ProcessLoad ProcessProps Inet Socket Net Machine Syscall.
Import ElfFacts ElfUse FileUse TermFacts.
#[local] Open Scope prog_scope.

Module Kernel.

(** "0:/shell.elf" *)
Definition shell_path : list Z := [48; 58; 47; 115; 104; 101; 108; 108; 46; 101; 108; 102; 0].

Section Ops.
Context {S H D N : Type} `{KAlloc mem} `{HasAlloc mem S} `{PortIO D} `{NetDriver N}.
Variable eflags : Z.

(** From [process_load_and_switch] to [task_return], which does not return; a
    fault is [panick]. *)
Definition start_shell : M (machine S H D N) registers :=
  let! (res, process) := on_os (process_load_and_switch (Some shell_path)) in
  if res <? 0 then fault
  else
    on_con terminal_clear_all ;!
    let! x := on_os (get_process process) in
    let! _ := on_os (task_switch (p_task x)) in
    let! t := on_os (on_sched (get_task (p_task x))) in
    ret (task_return eflags (regs t)).

End Ops.
End Kernel.

Module KernelProps.
Import Kernel.

(** "shell.elf" *)
Definition shell_elf : list Z := [115; 104; 101; 108; 108; 46; 101; 108; 102].

Lemma shell_path_arg : shell_path = path_arg [shell_elf] [].
Proof. reflexivity. Qed.

Section Props.
Context {S H D N : Type} {KA : KAlloc mem} {KL : KAllocLaws mem} {KM : KAllocMem} {KR : KAllocRoom mem}.
Context {HA : HasAlloc mem S} {AL : AllocLens mem S} (f : filesystem S H) {FP : FsSpec f}.
Context (FL : forall L : KAllocLaws mem, FsLaws f) {PD : PortIO D} {ND : NetDriver N}.

(** C7: The end of the boot.  With the shell's program on the disk and room in
    the heap, the kernel leaves for user mode at the entry point of the program,
    with the user's segments, an empty stack and interrupts enabled.  The shell
    is the current process and its task the current task; the page directory in
    CR3 is its own: it holds every byte of the program that a segment covers, at
    the address the segment asks for, and a stack of zeros.  The screen is
    cleared. *)
Theorem kernel_starts_shell eflags (s : machine S H D N) base n ks sz l slot :
  loadable f (m_os s) base n ks [shell_elf] sz l -> process_get_free_slot (o_procs (m_os s)) = slot -> 0 <= slot ->
  length (processes (o_procs (m_os s))) = 12%nat -> video_mem (m_con s) <> NULL ->
  exists s' p x, start_shell eflags s = Some (task_return eflags (start_regs (e_entry (image_header l))), s') /\
    current_process (o_procs (m_os s')) = p /\ procs (o_procs (m_os s')) !! p = Some x /\
    p_task x = current_task (o_sched (m_os s')) /\
    (forall xs ph ys va, image_phdrs l = xs ++ ph :: ys -> covers ph va ->
       Forall (fun q => ~ covers q va) ys -> 0 <= va < 2 ^ 32 ->
       ~ (0x3fb000 <= va < 0x3ff000) -> p_offset ph + (va - p_vaddr ph) < Z.of_nat (length l) ->
       vread (omem (m_os s')) (cr3 (o_pg (m_os s'))) va = l !! Z.to_nat (p_offset ph + (va - p_vaddr ph))) /\
    (forall va, 0x3fb000 <= va < 0x3ff000 -> vread (omem (m_os s')) (cr3 (o_pg (m_os s'))) va = Some 0) /\
    (forall j, 0 <= j < 2000 -> glyph (cell (screen_buffer (m_con s')) j) = 32).
Proof.
  intros LD Hs H0 Hl Hv.
  destruct (process_load_ok f FL (m_os s) base n ks [shell_elf] [] sz l slot LD Hs H0 Hl) as
    (p & x & j & E & base' & o' & Hr & T & Hld).
  destruct (terminal_clear_ok (m_con s) Hv) as (b & v & Ec & Hc).
  pose proof (t_space _ _ _ _ _ T) as Hsp. apply Forall_app in Hsp as [_ Hsp]. apply Forall_cons in Hsp as [[Has (y & Hy & Hdir)] _].
  destruct Hld as [Htab [addr (_ & _ & _ & Hx)] _ _ _ Htask _ Hm _].
  assert (regs y = start_regs (e_entry (image_header l))) as Hregs.
  { rewrite Hy in Htask. cbn in Htask. by injection Htask. }
  set (o1 := set_procs (process_switch p (o_procs o')) o').
  assert (on_os (process_load_and_switch (Some shell_path)) s = Some ((OK, p), set_os o1 s)) as E1.
  { unfold on_os, process_load_and_switch. rewrite shell_path_arg. by erewrite bind_Some by exact Hr. }
  set (o2 := set_pg (paging_switch (omem o1) (ts_chunk j) (o_pg o1))
    (set_sched (mk_sched (tasks (o_sched o')) (ts_task j) (task_head (o_sched o')) (task_tail (o_sched o'))) o1)).
  exists (set_os o2 (set_con (set_cursor 0 0 (set_vga v (set_screen b (m_con s)))) s)), p, x. split.
  { unfold start_shell. erewrite bind_Some by exact E1. cbv beta iota. change (OK <? 0) with false. cbv iota.
    erewrite bind_Some by (unfold on_con; cbn [m_con set_os]; rewrite Ec; reflexivity).
    assert (forall c, on_os (get_process p) (set_con c (set_os o1 s)) = Some (x, set_con c (set_os o1 s))) as Egp.
    { intros c. unfold on_os, get_process. cbn. rewrite Htab. cbn. by rewrite lookup_insert_eq. }
    erewrite bind_Some by apply Egp.
    assert (p_task x = ts_task j) as -> by (by rewrite Hx).
    assert (forall c, on_os (task_switch (ts_task j)) (set_con c (set_os o1 s)) = Some (OK, set_con c (set_os o2 s))) as Esw.
    { intros c. unfold on_os, task_switch, bind, on_sched, set_current, modify, get_task, switch. cbn.
      rewrite Hy. by rewrite Hdir. }
    erewrite bind_Some by apply Esw.
    erewrite bind_Some by (unfold on_os, on_sched, get_task; cbn; rewrite Hy; reflexivity). by rewrite Hregs. }
  assert (cr3 (o_pg o2) = ts_dir j) as Hcr by (cbn; apply (PagingFacts.c_ptr _ _ _ (ASpace.a_chunk _ _ _ _ Has))).
  destruct (mapped_bytes (omem o') j x E l _ Hm (lo_phdrs _ _ _ _ _ _ _ _ LD)) as [Hb1 Hb2].
  split; [done|]. split; [cbn; rewrite Htab; apply lookup_insert_eq|]. split; [by rewrite Hx|]. cbn [m_os set_os]. rewrite Hcr.
  split; [exact Hb1|]. split; [exact Hb2|]. intros k Hk. apply Hc, Hk.
Qed.

End Props.
End KernelProps.
