(* ===== verification/System.v ===== *)
(** * A whole machine

    Concrete states of the machine of Machine.v on top of Boot.v: a keyboard with
    a key pressed, a console, an empty system call table, two tasks.  They show
    that the hypotheses of the theorems of Trap.v and Kernel.v can be met. *)

From S2P Require Import Prelude CLib KAlloc Heap Disk Cpu Terminal Paging AddressSpace PathParser Fat16 File FatFs Elf Task TaskMem Process ProcessMem Boot Inet Socket Net Machine Syscall Trap Kernel.
Import Terminal Render TermFacts Paging Mmu PagingFacts ASpace Fat16 File Elf ElfFacts Task TaskList TaskRun TaskMem Process ProcessLoad ProcessMem.
Import Inet Socket Net Machine KeyFacts Syscall SyscallFacts TrapFacts TrapProps HeapProps Sim.

Module System.

#[local] Existing Instances Boot.boot_alloc quiet_laws quiet_mem quiet_room quiet_null Boot.fat_lens.

(** The bytes the keyboard has to deliver *)
#[local] Instance key_port : PortIO (list Z) := {
  p_outb := fun d p v => d;
  p_outw := fun d p v => d;
  p_insb := fun d p => (hd 0 d, tl d);
  p_insw := fun d p => (0, d) }.

(** A driver that keeps the frames it is given *)
#[local] Instance frame_log : NetDriver (list netbuf) := {
  nd_hwaddr _ := [82; 84; 0; 18; 52; 86]; nd_count_rx d _ := d;
  nd_transmit d b := Some (0, d ++ [b]); nd_hwaddr_count _ _ := eq_refl }.

Abbreviation mach := (machine (fat_state mem sim) fat_file_descriptor (list Z) (list netbuf)).

Definition boot_net : net mem (list netbuf) :=
  mk_net ∅ [] (replicate 16 (mk_entry [0; 0; 0; 0] [0; 0; 0; 0; 0; 0] false)) 0 1
    init_sockets.

(** The static [ps2_keyboard] is at 0x5000. *)
Definition boot_keyboards : keyboards :=
  mk_kbds {[0x5000 := mk_kdev (Some fp_ps2_keyboard_init) (112 :: 115 :: 50 :: replicate 17 0) KEYBOARD_CAPS_LOCK_OFF NULL]}
    0x5000 0x5000.

Definition boot_console (d : list Z) : console (list Z) :=
  mk_con NULL ∅ 0 0 ∅ (replicate 12 0) (replicate 12 0) d.

Definition with_tables (o : os (fat_state mem sim) fat_file_descriptor) (d : list Z) (cbs : list (option callback))
    (cmds : list (option sys_cmd_fp)) : mach :=
  mk_machine o (boot_console d) boot_net boot_keyboards
    (mk_tables (replicate 512 Gate.zero_desc) cbs cmds) 0.

Lemma syscall_dispatch_witness :
  exists s' : mach, sys_register_commands (with_tables Boot.start_os [] (replicate 512 None) (replicate 1024 None)) = Some (tt, s') /\
    sys_handle_command 0 0 0 0x5fff0 0x246 100 false 2 s' = sys_command2_getkey s'.
Proof.
  destruct (syscall_dispatch 0 0 0 0x5fff0 0x246 100 false
    (with_tables Boot.start_os [] (replicate 512 None) (replicate 1024 None))) as (s' & E & _ & Hs).
  - reflexivity.
  - split; vm_compute; congruence.
  - exists s'. split; [exact E|]. exact (proj1 (Hs s' eq_refl) 2%nat fp_getkey eq_refl).
Defined.

(** One process, whose task runs; the key Q is pressed. *)
Definition key_os : os (fat_state mem sim) fat_file_descriptor :=
  mk_os Boot.start_kernel (mk_paging_state 0 0) 0x9000
    (mk_sched {[0x2000 := mk_task 0x3000 zero_regs 0x1000 NULL NULL]} 0x2000 0x2000 0x2000)
    (mk_ptable {[0x1000 := zero_process]} (0x1000 :: replicate 11 NULL) 0x1000).

Definition key_state : mach :=
  with_tables key_os [16; 0] (<[0x21%nat := Some cb_ps2_keyboard_handle_interrupt]> (replicate 512 None)) command_table.

Definition some_frame (eax : Z) : interrupt_frame := mk_frame 1 2 3 0 4 5 6 eax 0x400010 0x1b 0x202 0x3fefe0 0x23.

Lemma key_press_getkey_witness :
  exists s1 s2, interrupt_entry 0x246 0x5000 0x21 (some_frame 0) key_state = Some (frame_regs (some_frame 0), s1) /\
    int80h 0 0 0 0x5fff0 0x246 100 false (some_frame 2) s1 = Some (with_eax 113 (frame_regs (some_frame 2)), s2).
Proof.
  destruct (key_press_getkey 0 0 0 0x5fff0 0x246 100 false 0x5000 key_state 0x1000 zero_process
    (mk_task 0x3000 zero_regs 0x1000 NULL NULL) [] 16 113 (mk_kdev (Some fp_ps2_keyboard_init)
      (112 :: 115 :: 50 :: replicate 17 0) KEYBOARD_CAPS_LOCK_OFF NULL) [] (some_frame 0) (some_frame 2))
    as (s1 & s2 & c & q & Hq & E1 & _ & E2 & _).
  - by split.
  - apply kb_zero.
  - simpl. lia.
  - constructor.
  - reflexivity.
  - reflexivity.
  - discriminate.
  - discriminate.
  - exists [0], 0. split; reflexivity.
  - reflexivity.
  - reflexivity.
  - reflexivity.
  - injection Hq as <- _. exists s1, s2. split; [exact E1|exact E2].
Defined.

(** Two tasks: the loaded program, which runs, and one of a flat binary. *)
Definition run_task (t : Z) (o : os (fat_state mem sim) fat_file_descriptor) : os (fat_state mem sim) fat_file_descriptor :=
  set_sched (mk_sched (tasks (o_sched o)) t (task_head (o_sched o)) (task_tail (o_sched o))) o.

Definition flat_process : process := with_program (PROCESS_FILETYPE_BINARY 0x2100000) zero_process.

Lemma tasks_ok_run t m (o : os (fat_state mem sim) fat_file_descriptor) base n ks :
  tasks_ok m (o_sched o) base n ks -> tasks_ok m (o_sched (run_task t o)) base n ks.
Proof. intros [[] Ho Hl Hs]. split; [by split|exact Ho|exact Hl|exact Hs]. Qed.

(** A link map: the entry points of idt.asm are 16 bytes apart from 0x200000 on,
    int0h and int80h follow. *)
Definition entry_table : list Z := map (fun i => 0x200000 + i * 16) (seqZ 0 512).

Definition entry_code (a : Z) : option entry :=
  if a =? 0x300000 then Some en_int0h else if a =? 0x300010 then Some en_int80h
  else Some (en_int ((a - 0x200000) / 16)).

Lemma entry_addresses : addresses_ok entry_table 0x300000 0x300010.
Proof.
  split; [reflexivity| |lia|lia]. apply Forall_forall. intros a (i & -> & Hi%elem_of_seqZ)%list_elem_of_fmap. lia.
Qed.

Lemma entry_linked : linked entry_table 0x300000 0x300010 entry_code.
Proof.
  split; [reflexivity|reflexivity|]. intros v a Hv. unfold entry_table in Hv.
  apply list_lookup_fmap_Some in Hv as (i & -> & Hi). apply lookup_seqZ in Hi as [-> Hi]. unfold entry_code.
  rewrite !(proj2 (Z.eqb_neq _ _)) by lia. do 2 f_equal. zlia.
Qed.

Abbreviation int_taken := (take_interrupt 0 0 0 0x5fff0 0x246 100 false 0x5000 entry_code).

Lemma process_end_resumes_witness :
  exists (s s' : mach) r, int_taken 0x80 (some_frame 7) s = Some (r, s') /\
    int_taken 13 (some_frame 7) s = Some (r, s') /\ int_taken 0 (some_frame 7) s = None.
Proof.
  destruct Boot.started as (p & x & j & addr & E & base & n & s0 & _ & T & Hn & Ho & Hok & Hal & Hid & Hps & _ & t & Ht & Hp).
  set (q := if decide (p = 0x2000000) then 0x2000004 else 0x2000000). assert (q <> p) as Hqp by (unfold q; case_decide; lia).
  assert (q <> NULL) as Hq0 by (unfold q; case_decide; discriminate).
  set (s1 := set_proc q flat_process s0).
  destruct (task_new_ok s1 base n [j] q flat_process 0x400000 T) as (m2 & c2 & k & _ & T2 & _ & _ & Hbk & Hbd & _);
    [lia|exact Hq0|apply lookup_insert_eq|reflexivity|].
  set (o := run_task (ts_task j) (set_sched c2 (set_omem m2 s1))).
  assert (omem o = m2) as Hm by apply al_get_put.
  destruct (traps_boot entry_table 0x300000 0x300010 (with_tables o [] (replicate 512 None) (replicate 1024 None)))
    as (s & _ & Htraps & Hs); [exact entry_addresses|reflexivity|reflexivity|].
  assert (m_os s = o) as Hso by (rewrite Hs; reflexivity).
  assert (ts_task j <> ts_task k) as Hjk.
  { pose proof (l_nodup _ _ (t_list _ _ _ _ _ T2)) as Hnd. apply NoDup_cons in Hnd as [Hnd _]. intros He.
    apply Hnd. rewrite He. left. }
  pose proof (Hbd (ts_task j) Hjk) as Hbj. change (tasks (o_sched s1)) with (tasks (o_sched s0)) in Hbj. rewrite Ht in Hbj.
  destruct (tasks c2 !! ts_task j) as [t2|] eqn:Ht2; [|discriminate Hbj]. injection Hbj as _ _ Hp2.
  destruct (process_end_resumes 0 0 0 0x5fff0 0x246 100 false 0x5000 s base (n - 1027) [] j [k] k [] p x addr
    (elf_of E Boot.program_file) 1 0x2000000 t2 (some_frame 7) entry_table 0x300000 0x300010 entry_code) as (E0 & o' & y & base' & E80 & Eirq & _);
    rewrite ?Hso.
  - rewrite Hm. by apply tasks_ok_run.
  - destruct Ho as [Hx Hxt]. split; [|exact Hxt]. cbn. rewrite lookup_insert_ne by exact Hqp. exact Hx.
  - exact Hok.
  - cbn. rewrite Hps, Hid. simpl. lia.
  - cbn. rewrite Hps, Hid. simpl. left.
  - discriminate.
  - reflexivity.
  - reflexivity.
  - exact Ht2.
  - congruence.
  - exact Htraps.
  - exact entry_linked.
  - reflexivity.
  - exists s, (set_os o' s), (task_return 0x246 (regs y)). split; [exact (E80 eq_refl)|]. split; [apply Eirq; lia|exact E0].
Defined.

(** The kernel is up and "shell.elf" is on the disk. *)
Definition shell_machine : mach :=
  set_con (mk_con 0xb8000 ∅ 3 0 ∅ (replicate 12 0) (replicate 12 0) []) (with_tables Boot.start_os [] (replicate 512 None) command_table).

Lemma kernel_starts_shell_witness :
  exists r s', Kernel.start_shell 2 shell_machine = Some (r, s') /\ ip r = 0x400054 /\
    vread (omem (m_os s')) (cr3 (o_pg (m_os s'))) 0x400000 = Some 0x7f /\
    vread (omem (m_os s')) (cr3 (o_pg (m_os s'))) 0x3fefff = Some 0.
Proof.
  destruct (KernelProps.kernel_starts_shell Boot.fat Boot.fat_is_fs 2 shell_machine ∅ 25600 [] 96 Boot.program_file 1 Boot.start_loadable)
    as (s' & p & x & E & _ & _ & _ & Hb & Hz & _); [reflexivity|lia|reflexivity|discriminate|].
  eexists. exists s'. split; [exact E|]. split; [vm_compute; reflexivity|]. split; [|apply Hz; lia].
  rewrite (Hb [] (image_phdr Boot.program_file 52) [] 0x400000); [reflexivity|reflexivity| |constructor|lia|lia|].
  - split; vm_compute; congruence.
  - vm_compute. reflexivity.
Defined.

End System.
