(* ===== verification/UserLib.v ===== *)
(** * The user library: programs/stdlib

    What a program is linked with: the string routines, [strtok], formatted
    output, reading a line, parsing a command.  A system call is an operation of
    the class [UserSys]; [UserLaws] is what the library relies on: the keys that
    the program will read, the text it has written and the memory it owns.
    Local arrays are objects with a number of their own, so that a pointer to an
    array of a function that has returned leads nowhere and using it faults
    ([None]); structures on the heap are kept by address. *)

From S2P Require Import Prelude CLib Terminal.
Import Memory Str Terminal Render.
#[local] Open Scope prog_scope.

(** ** string.c and memory.c

    The routines that the kernel has too are the same code. *)

Module UserString.

Definition user_tolower : Z -> Z := tolower.
Definition user_strcpy : list Z -> list Z -> option (list Z) := strcpy.
Definition user_strcat : list Z -> list Z -> option (list Z * Z) := strcat.
Definition user_strncpy : list Z -> list Z -> Z -> option (list Z) := strncpy.
Definition user_strlen : list Z -> option Z := strlen.
Definition user_strnlen : list Z -> Z -> option Z := strnlen.
Definition user_strnlen_terminator : list Z -> Z -> Z -> option Z := strnlen_terminator.
Definition user_ctoi : Z -> Z := ctoi.
Definition user_is_digit : Z -> bool := is_digit.
Definition user_istrncmp : list Z -> list Z -> Z -> option Z := istrncmp.
Definition user_strncmp : option (list Z) -> option (list Z) -> Z -> option Z := strncmp.
Definition user_itoa : list Z -> Z -> option (list Z * Z) := itoa.
Definition user_memset : mem -> Z -> Z -> Z -> mem := memset.
Definition user_memcmp : list Z -> list Z -> Z -> option Z := memcmp.
Definition user_memcpy : mem -> Z -> Z -> Z -> mem := memcpy.

End UserString.

(** ** System calls *)

(** [struct command_argument] *)
Record command_argument := mk_arg { argument : list Z; next : Z }.

Definition sizeof_command_argument : Z := 516.

(** [us_malloc] returns the address and what the memory holds; [us_stack] is what
    a local array holds before it is written; [us_system] reads the list of
    arguments in the memory of the program. *)
Class UserSys (S : Type) := {
  us_print : S -> list Z -> S;
  us_getkey : S -> Z * S;
  us_putchar : S -> Z -> S;
  us_malloc : S -> Z -> Z * list Z * S;
  us_free : S -> Z -> S;
  us_system : S -> gmap Z command_argument -> Z -> Z * S;
  us_check_done : S -> Z * S;
  us_done : S -> S;
  us_clear_terminal : S -> S;
  us_kill : S -> Z -> S;
  us_stack : S -> Z -> list Z
}.

Module UserLib.
Import UserString.

(** The static variables of the library ([sp] of strtok, [text] of itoa), the
    local arrays that are alive, and the heap of the program. *)
Record ustate (S : Type) := mk_ustate {
  u_sys : S; u_bufs : gmap nat (list Z); u_next : nat; u_sp : option (nat * Z);
  u_args : gmap Z command_argument; u_text : list Z }.

Arguments mk_ustate {S}.
Arguments u_sys {S}.
Arguments u_bufs {S}.
Arguments u_next {S}.
Arguments u_sp {S}.
Arguments u_args {S}.
Arguments u_text {S}.

Section Ops.
Context {S : Type} `{UserSys S}.

Abbreviation U := (M (ustate S)).

Definition set_sys (y : S) (s : ustate S) : ustate S := mk_ustate y (u_bufs s) (u_next s) (u_sp s) (u_args s) (u_text s).
Definition set_bufs (b : gmap nat (list Z)) (s : ustate S) : ustate S :=
  mk_ustate (u_sys s) b (u_next s) (u_sp s) (u_args s) (u_text s).
Definition set_sp (p : option (nat * Z)) (s : ustate S) : ustate S :=
  mk_ustate (u_sys s) (u_bufs s) (u_next s) p (u_args s) (u_text s).
Definition set_args (a : gmap Z command_argument) (s : ustate S) : ustate S :=
  mk_ustate (u_sys s) (u_bufs s) (u_next s) (u_sp s) a (u_text s).
Definition set_itoa (t : list Z) (s : ustate S) : ustate S :=
  mk_ustate (u_sys s) (u_bufs s) (u_next s) (u_sp s) (u_args s) t.

Definition do_sys {X} (f : S -> X * S) : U X := fun s => let '(r, y) := f (u_sys s) in Some (r, set_sys y s).

(** Entering and leaving the scope of a local array. *)
Definition enter (l : list Z) : U nat := fun s =>
  Some (u_next s, mk_ustate (u_sys s) (<[u_next s := l]> (u_bufs s)) (Datatypes.S (u_next s)) (u_sp s) (u_args s) (u_text s)).

Definition leave (b : nat) : U unit := modify (fun s => set_bufs (delete b (u_bufs s)) s).

Definition buffer (b : nat) : U (list Z) := fun s => l ← u_bufs s !! b; Some (l, s).

Definition set_buffer (b : nat) (l : list Z) : U unit := modify (fun s => set_bufs (<[b := l]> (u_bufs s)) s).

(** The object behind a pointer. *)
Definition object (p : nat * Z) : U (list Z) :=
  let! l := buffer p.1 in
  if (p.2 <? 0) || (Z.of_nat (length l) <? p.2) then fault else ret (drop (Z.to_nat p.2) l).

(** *** The calls of toyos.asm *)

Definition print_user (str : list Z) : U unit := do_sys (fun y => (tt, us_print y str)).
Definition toyos_getkey : U Z := do_sys us_getkey.
Definition toyos_putchar (c : Z) : U unit := do_sys (fun y => (tt, us_putchar y c)).
Definition toyos_check_done : U Z := do_sys us_check_done.

Definition toyos_system (arguments : Z) : U Z := fun s =>
  let '(r, y) := us_system (u_sys s) (u_args s) arguments in Some (r, set_sys y s).

(** [toyos_malloc(sizeof(struct command_argument))]: the new structure holds what
    the memory holds. *)
Definition malloc_argument : U Z := fun s =>
  let '(p, l, y) := us_malloc (u_sys s) sizeof_command_argument in
  Some (p, if p =? NULL then set_sys y s
           else set_args (<[p := mk_arg (take 512 l) (le_val (drop 512 l))]> (u_args s)) (set_sys y s)).

(** *** strtok *)

(** [for (i = 0; i < len; i++)] over the delimiters: the index of [c], or [len]. *)
Fixpoint delim_loop (n : nat) (delimiters : list Z) (i c : Z) : option Z :=
  match n with
  | O => Some i
  | Datatypes.S n' => d ← rd delimiters i; if c =? d then Some i else delim_loop n' delimiters (i + 1) c
  end.

(** [while(1)]: over the delimiters in front of the token.  Each round advances
    in the object, so its length bounds the rounds. *)
Fixpoint skip_loop (fuel : nat) (l delimiters : list Z) (len p_start : Z) : option Z :=
  match fuel with
  | O => None
  | Datatypes.S n =>
    c ← rd l p_start;
    i ← delim_loop (Z.to_nat len) delimiters 0 c;
    if i =? len then Some p_start else skip_loop n l delimiters len (p_start + 1)
  end.

(** To the end of the token, which is cut off there. *)
Fixpoint end_loop (fuel : nat) (l delimiters : list Z) (len sp : Z) : option (list Z * Z) :=
  match fuel with
  | O => None
  | Datatypes.S n =>
    c ← rd l sp;
    if c =? 0 then Some (l, sp)
    else
      i ← delim_loop (Z.to_nat len) delimiters 0 c;
      if i <? len then l ← wr l sp 0; Some (l, sp + 1)
      else end_loop n l delimiters len (sp + 1)
  end.

Definition strtok (str : option (nat * Z)) (delimiters : list Z) : U (option (nat * Z)) :=
  let! len := lift (user_strlen delimiters) in
  let! s := get in
  let sp := match u_sp s with Some p => Some p | None => str end in
  match sp with
  | None => ret None
  | Some (b, o) =>
    let! l := buffer b in
    let fuel := Datatypes.S (length l) in
    let! p_start := lift (skip_loop fuel l delimiters len o) in
    let! c := lift (rd l p_start) in
    if c =? 0 then
      modify (set_sp None) ;!
      ret None
    else
      let! (l, e) := lift (end_loop fuel l delimiters len p_start) in
      set_buffer b l ;!
      modify (set_sp (Some (b, e))) ;!
      ret (Some (b, p_start))
  end.

(** *** toyos.c *)

Definition space_str : list Z := [32; 0].

(** [strncpy(new_command->argument, token, 512); new_command->next = 0] *)
Definition fill_argument (p : Z) (token : nat * Z) : U unit :=
  let! t := object token in
  let! s := get in
  let! a := lift (u_args s !! p) in
  let! text := lift (user_strncpy (argument a) t 512) in
  modify (set_args (<[p := mk_arg text NULL]> (u_args s))).

Definition set_next (p q : Z) : U unit :=
  let! s := get in
  let! a := lift (u_args s !! p) in
  modify (set_args (<[p := mk_arg (argument a) q]> (u_args s))).

(** [while(token != 0)]: each token is at least one character of the command, so
    1026 rounds are enough. *)
Fixpoint parse_loop (fuel : nat) (current : Z) (token : option (nat * Z)) : U unit :=
  match fuel with
  | O => fault
  | Datatypes.S n =>
    match token with
    | None => ret tt
    | Some t =>
      let! new_command := malloc_argument in
      if new_command =? NULL then ret tt
      else
        fill_argument new_command t ;!
        set_next current new_command ;!
        let! token := strtok None space_str in
        parse_loop n new_command token
    end
  end.

Definition parse_fuel : nat := Z.to_nat 1026.

(** The body of the function, in the scope of [scommand]. *)
Definition parse_body (scommand : nat) : U Z :=
  let! token := strtok (Some (scommand, 0)) space_str in
  match token with
  | None => ret NULL
  | Some t =>
    let! root_command := malloc_argument in
    if root_command =? NULL then ret NULL
    else
      fill_argument root_command t ;!
      let! token := strtok None space_str in
      parse_loop parse_fuel root_command token ;!
      ret root_command
  end.

Definition toyos_parse_command (command : list Z) (max : Z) : U Z :=
  if 1025 <=? max then ret NULL
  else
    let! s := get in
    let! l := lift (user_strncpy (us_stack (u_sys s) 1025) command 1025) in
    let! scommand := enter l in
    let! r := parse_body scommand in
    leave scommand ;!
    ret r.

(** [do ... while(val == 0)]: polls; [fuel] is the number of polls. *)
Fixpoint toyos_getkeyblock (fuel : nat) : U Z :=
  match fuel with
  | O => fault
  | Datatypes.S n => let! val := toyos_getkey in if val =? 0 then toyos_getkeyblock n else ret val
  end.

(** [for (i = 0; i < max - 1; i++)] with the [char] that the key is converted to. *)
Fixpoint readline_loop (fuel : nat) (out : list Z) (i max : Z) (output_while_typing : bool) : U (list Z * Z) :=
  match fuel with
  | O => fault
  | Datatypes.S n =>
    if i <? max - 1 then
      let! val := toyos_getkeyblock fuel in
      let key := s8 val in
      if key =? 13 then ret (out, i)
      else
        (if output_while_typing then toyos_putchar (u8 key) else ret tt) ;!
        if (key =? 8) && (1 <=? i) then
          let! out := lift (wr out (i - 1) 0) in
          readline_loop n out (i - 1) max output_while_typing
        else
          let! out := lift (wr out i (u8 key)) in
          readline_loop n out (i + 1) max output_while_typing
    else ret (out, i)
  end.

(** [fuel] bounds the keys and the polls. *)
Definition toyos_terminal_readline (fuel : nat) (out : list Z) (max : Z) (output_while_typing : bool) : U (list Z) :=
  let! (out, i) := readline_loop fuel out 0 max output_while_typing in
  lift (wr out i 0).

Definition toyos_system_run (command : list Z) : U Z :=
  let! s := get in
  let! buf := lift (user_strncpy (us_stack (u_sys s) 1024) command 1024) in
  let! root_command_argument := toyos_parse_command buf 1024 in
  if root_command_argument =? NULL then ret (-1)
  else toyos_system root_command_argument.

Fixpoint toyos_wait (fuel : nat) : U unit :=
  match fuel with
  | O => fault
  | Datatypes.S n => let! d := toyos_check_done in if d =? 0 then ret tt else toyos_wait n
  end.

(** *** stdio.c *)

Definition putchar (c : Z) : U unit := toyos_putchar (u8 c).

Definition user_call_itoa (i : Z) : U (list Z) :=
  let! s := get in
  let! (t, loc) := lift (user_itoa (u_text s) i) in
  modify (set_itoa t) ;!
  ret (drop (Z.to_nat loc) t).

(** A variable argument is an integer or a string. *)
Fixpoint user_printf_loop (fmt : list Z) (ap : list arg) : U unit :=
  match fmt with
  | [] => fault
  | c :: p =>
    if c =? 0 then ret tt
    else if negb (c =? 37) then putchar c ;! user_printf_loop p ap
    else
      match p with
      | [] => fault
      | d :: p =>
        if d =? 105 then
          match ap with
          | AInt i :: ap => let! t := user_call_itoa i in print_user t ;! user_printf_loop p ap
          | _ => fault
          end
        else if d =? 115 then
          match ap with
          | AStr s :: ap => print_user s ;! user_printf_loop p ap
          | _ => fault
          end
        else putchar d ;! user_printf_loop p ap
      end
  end.

Definition user_printf (fmt : list Z) (ap : list arg) : U Z := user_printf_loop fmt ap ;! ret 0.

End Ops.
End UserLib.

(** ** What the library relies on *)

(** The values that the next calls of getkey return, the text on the terminal,
    and the addresses that the program has got. *)
Record uview := mk_view { v_input : list Z; v_output : list Z; v_owned : gset Z }.

Definition add_output (t : list Z) (v : uview) : uview := mk_view (v_input v) (v_output v ++ t) (v_owned v).

(** A message of the kernel has room for 1023 characters. *)
Class UserLaws (S : Type) `{UserSys S} := {
  us_view : S -> uview;
  us_getkey_law : forall s v vs, v_input (us_view s) = v :: vs ->
    (us_getkey s).1 = v /\ us_view (us_getkey s).2 = mk_view vs (v_output (us_view s)) (v_owned (us_view s));
  us_putchar_law : forall s c, us_view (us_putchar s c) = add_output [c] (us_view s);
  us_print_law : forall s str t, c_text str = Some t -> (length t < 1024)%nat ->
    us_view (us_print s str) = add_output t (us_view s);
  us_malloc_law : forall s n p l s', 0 <= n -> us_malloc s n = (p, l, s') ->
    Z.of_nat (length l) = n /\
    ((p = NULL /\ us_view s' = us_view s) \/
     (p <> NULL /\ p ∉ v_owned (us_view s) /\
      us_view s' = mk_view (v_input (us_view s)) (v_output (us_view s)) ({[p]} ∪ v_owned (us_view s))));
  us_stack_law : forall s n, 0 <= n -> Z.of_nat (length (us_stack s n)) = n
}.

(** ** Reference definitions *)

Module UserSpec.

(** The words of a text. *)
Fixpoint split_words (cur text : list Z) : list (list Z) :=
  match text with
  | [] => match cur with [] => [] | _ => [cur] end
  | c :: text =>
    if c =? 32 then match cur with [] => split_words [] text | _ => cur :: split_words [] text end
    else split_words (cur ++ [c]) text
  end.

Definition words (text : list Z) : list (list Z) := split_words [] text.

(** A linked list of arguments from [p] on. *)
Fixpoint chain (args : gmap Z command_argument) (p : Z) (ws : list (list Z)) : Prop :=
  match ws with
  | [] => p = NULL
  | w :: ws => p <> NULL /\ exists rest q, args !! p = Some (mk_arg (c_str w rest) q) /\ chain args q ws
  end.

(** Editing a line with room for [cap] characters: the line and the keys that
    have not been read; 0 is no key. *)
Fixpoint edit (cap : nat) (line keys : list Z) : option (list Z * list Z) :=
  if (cap <=? length line)%nat then Some (line, keys)
  else match keys with
  | [] => None
  | k :: keys =>
    if k =? 0 then edit cap line keys
    else if k =? 13 then Some (line, keys)
    else if (k =? 8) && (1 <=? length line)%nat then edit cap (take (length line - 1) line) keys
    else edit cap (line ++ [k]) keys
  end.

(** The keys that have been echoed. *)
Fixpoint echoed (cap : nat) (line keys : list Z) : list Z :=
  if (cap <=? length line)%nat then []
  else match keys with
  | [] => []
  | k :: keys =>
    if k =? 0 then echoed cap line keys
    else if k =? 13 then []
    else if (k =? 8) && (1 <=? length line)%nat then u8 k :: echoed cap (take (length line - 1) line) keys
    else u8 k :: echoed cap (line ++ [k]) keys
  end.

End UserSpec.
