(* ===== verification/UserProps.v ===== *)
(** * What the user library guarantees

    Reading a line, splitting a command and formatted output, against the
    interface of UserLib.v. *)

From S2P Require Import Prelude CLib Terminal UserLib.
Import Memory Str Terminal Render UserString UserLib UserSpec.
#[local] Open Scope prog_scope.

Module UserFacts.

Section Facts.
Context {S : Type} `{UserLaws S}.

Definition view (s : ustate S) : uview := us_view (u_sys s).

Definition set_input (l : list Z) (v : uview) : uview := mk_view l (v_output v) (v_owned v).

Lemma set_sys_sys y z (s : ustate S) : set_sys y (set_sys z s) = set_sys y s.
Proof. done. Qed.

(** ** Keys *)

(** The first key, after polls that found none. *)
Fixpoint first_key (l : list Z) : option (Z * list Z) :=
  match l with
  | [] => None
  | k :: l => if k =? 0 then first_key l else Some (k, l)
  end.

Lemma first_key_length l k r : first_key l = Some (k, r) -> (length r < length l)%nat /\ k <> 0.
Proof.
  induction l as [|a l IH]; [done|]. cbn [first_key length]. destruct (Z.eqb_spec a 0).
  - intros E. destruct (IH E). split; [lia|done].
  - intros [= -> ->]. split; [lia|done].
Qed.

Lemma first_key_Forall (P : Z -> Prop) l k r : Forall P l -> first_key l = Some (k, r) -> P k /\ Forall P r.
Proof.
  induction 1 as [|a l Ha Hl IH]; [done|]. cbn [first_key]. destruct (a =? 0); [done|]. intros [= -> ->]. done.
Qed.

Lemma edit_key cap line l : (length line < cap)%nat ->
  edit cap line l = match first_key l with
    | None => None
    | Some (k, r) =>
      if k =? 13 then Some (line, r)
      else if (k =? 8) && (1 <=? length line)%nat then edit cap (take (length line - 1) line) r
      else edit cap (line ++ [k]) r
    end.
Proof.
  intros Hl. induction l as [|a l IH]; cbn [edit first_key]; rewrite (proj2 (Nat.leb_gt _ _)) by done; [done|].
  by destruct (a =? 0).
Qed.

Lemma edit_full cap line l : (cap <= length line)%nat -> edit cap line l = Some (line, l).
Proof. intros. destruct l; cbn [edit]; by rewrite (proj2 (Nat.leb_le _ _)). Qed.

Lemma echoed_full cap line l : (cap <= length line)%nat -> echoed cap line l = [].
Proof. intros. destruct l; cbn [echoed]; by rewrite (proj2 (Nat.leb_le _ _)). Qed.

Lemma echoed_key cap line l : (length line < cap)%nat ->
  echoed cap line l = match first_key l with
    | None => []
    | Some (k, r) =>
      if k =? 13 then []
      else if (k =? 8) && (1 <=? length line)%nat then u8 k :: echoed cap (take (length line - 1) line) r
      else u8 k :: echoed cap (line ++ [k]) r
    end.
Proof.
  intros Hl. induction l as [|a l IH]; cbn [echoed first_key]; rewrite (proj2 (Nat.leb_gt _ _)) by done; [done|].
  by destruct (a =? 0).
Qed.

Lemma getkeyblock_ok l k r : forall fuel (s : ustate S),
  v_input (view s) = l -> first_key l = Some (k, r) -> (length l <= fuel)%nat ->
  exists y, toyos_getkeyblock fuel s = Some (k, set_sys y s) /\ us_view y = set_input r (view s).
Proof.
  induction l as [|a l IH]; intros fuel s Hi Hk Hf; [done|]. destruct fuel as [|fuel]; [cbn in Hf; lia|].
  destruct (us_getkey_law _ _ _ Hi) as [Hv Hw]. cbn [toyos_getkeyblock first_key] in *.
  assert (toyos_getkey s = Some (a, set_sys (us_getkey (u_sys s)).2 s)) as E.
  { unfold toyos_getkey, do_sys. rewrite <- Hv. by destruct (us_getkey (u_sys s)). }
  rewrite (bind_Some _ _ _ _ _ E). destruct (a =? 0).
  - destruct (IH fuel (set_sys (us_getkey (u_sys s)).2 s)) as (y & E' & Hy); [by unfold view; cbn; rewrite Hw|done|cbn in Hf; lia|].
    exists y. rewrite E'. split; [done|]. rewrite Hy. unfold view. cbn. by rewrite Hw.
  - injection Hk as -> ->. eexists. split; [done|]. done.
Qed.

(** ** The loop of readline *)

(** The array [out] when the line [line'] has been read, the keys [rest] are
    left and the text [t] has been echoed. *)
Record line_read (cap : nat) (out line' rest t : list Z) (v : uview) (out' : list Z) (y : S) : Prop := {
  lr_fits : (length line' <= cap)%nat;
  lr_length : length out' = length out;
  lr_text : take (length line') out' = map u8 line';
  lr_behind : drop cap out' = drop cap out;
  lr_view : us_view y = set_input rest (add_output t v)
}.

Lemma line_read_now cap out line v (y : S) : (length line <= cap)%nat -> take (length line) out = map u8 line ->
  us_view y = v -> line_read cap out line (v_input v) [] v out y.
Proof.
  intros Hl Ht <-. split; try done. unfold set_input, add_output. cbn. rewrite app_nil_r. by destruct (us_view y).
Qed.

Lemma line_read_then cap out out1 line' rest t t1 r v (y1 y : S) out' :
  us_view y1 = set_input r (add_output t1 v) -> length out1 = length out -> drop cap out1 = drop cap out ->
  line_read cap out1 line' rest t (us_view y1) out' y -> line_read cap out line' rest (t1 ++ t) v out' y.
Proof.
  intros Hy Hl Hd [L1 L2 L3 L4 L5]. split; try done; [congruence|congruence|]. rewrite L5, Hy.
  unfold set_input, add_output. cbn. by rewrite app_assoc.
Qed.

Lemma echo_ok (echo : bool) k (s : ustate S) : exists y,
  (if echo then toyos_putchar (u8 k) else ret tt) s = Some (tt, set_sys y s) /\
  us_view y = add_output (if echo then [u8 k] else []) (view s).
Proof.
  destruct echo.
  - exists (us_putchar (u_sys s) (u8 k)). split; [done|]. apply us_putchar_law.
  - exists (u_sys s). split; [by destruct s|]. unfold add_output. rewrite app_nil_r. by unfold view; destruct (us_view (u_sys s)).
Qed.

(** A character is stored, or the last one is taken back. *)
Lemma store_key out line k : (length line < length out)%nat -> take (length line) out = map u8 line ->
  exists out', wr out (Z.of_nat (length line)) (u8 k) = Some out' /\ length out' = length out /\
    take (length (line ++ [k])) out' = map u8 (line ++ [k]) /\
    forall cap, (length line < cap)%nat -> drop cap out' = drop cap out.
Proof.
  intros Hl Ht. rewrite wr_Some by lia. eexists. split; [done|]. rewrite Nat2Z.id, length_insert. split; [done|].
  rewrite u8_small by apply u8_range. split.
  - rewrite length_app, Nat.add_1_r. erewrite take_S_r by (apply list_lookup_insert_eq; lia).
    by rewrite take_insert_ge, Ht, map_app by lia.
  - intros cap Hc. by apply drop_insert_lt.
Qed.

Lemma erase_key out line : (length line < length out)%nat -> (1 <= length line)%nat -> take (length line) out = map u8 line ->
  exists out', wr out (Z.of_nat (length line) - 1) 0 = Some out' /\ length out' = length out /\
    take (length line - 1) out' = map u8 (take (length line - 1) line) /\
    forall cap, (length line <= cap)%nat -> drop cap out' = drop cap out.
Proof.
  intros Hl H1' Ht. rewrite wr_Some by lia. eexists. split; [done|]. rewrite length_insert. split; [done|]. split.
  - rewrite take_insert_ge by lia. rewrite <- firstn_map, <- Ht. change firstn with (@take Z). rewrite take_take. f_equal. lia.
  - intros cap Hc. apply drop_insert_lt. lia.
Qed.

Definition echo_text (echo : bool) (t : list Z) : list Z := if echo then t else [].

Lemma echo_text_cons echo c t : echo_text echo (c :: t) = (if echo then [c] else []) ++ echo_text echo t.
Proof. by destruct echo. Qed.

Lemma readline_loop_ok cap echo : forall fuel line out (s : ustate S) line' rest,
  (length line <= cap)%nat -> (cap < length out)%nat -> take (length line) out = map u8 line ->
  Forall (fun k => -128 <= k < 128) (v_input (view s)) -> edit cap line (v_input (view s)) = Some (line', rest) ->
  (length (v_input (view s)) < fuel)%nat ->
  exists out' y, readline_loop fuel out (Z.of_nat (length line)) (Z.of_nat cap + 1) echo s
      = Some ((out', Z.of_nat (length line')), set_sys y s) /\
    line_read cap out line' rest (echo_text echo (echoed cap line (v_input (view s)))) (view s) out' y.
Proof.
  induction fuel as [|fuel IH]; intros line out s line' rest Hlc Hco Htk Hch He Hf; [lia|]. cbn [readline_loop].
  destruct (Nat.eq_dec (length line) cap) as [Hfull|Hfull].
  { rewrite edit_full in He by lia. injection He as <- <-. rewrite echoed_full by lia.
    rewrite (proj2 (Z.ltb_ge _ _)) by lia. exists out, (u_sys s). split; [by destruct s|].
    replace (echo_text echo []) with (@nil Z) by (by destruct echo). by apply line_read_now. }
  assert (length line < cap)%nat as Hlt by lia. rewrite edit_key in He by done. rewrite echoed_key by done.
  destruct (first_key (v_input (view s))) as [[k r]|] eqn:Ek; [|done].
  destruct (first_key_length _ _ _ Ek) as [Hlen Hk0]. destruct (first_key_Forall _ _ _ _ Hch Ek) as [Hk Hr].
  rewrite (proj2 (Z.ltb_lt _ _)) by lia.
  destruct (getkeyblock_ok _ _ _ (Datatypes.S fuel) s eq_refl Ek) as (y1 & E1 & Hy1); [lia|].
  rewrite (bind_Some _ _ _ _ _ E1), s8_small by done. cbv zeta. destruct (k =? 13).
  { injection He as <- <-. exists out, y1. split; [done|]. replace (echo_text echo []) with (@nil Z) by (by destruct echo).
    split; try done. rewrite Hy1. unfold set_input, add_output. cbn. by rewrite app_nil_r. }
  destruct (echo_ok echo k (set_sys y1 s)) as (y2 & E2 & Hy2). rewrite (bind_Some _ _ _ _ _ E2), set_sys_sys.
  unfold view in Hy2. cbn [u_sys set_sys] in Hy2. rewrite Hy1 in Hy2.
  assert (forall line1 out1, (length line1 <= cap)%nat -> length out1 = length out -> take (length line1) out1 = map u8 line1 ->
    drop cap out1 = drop cap out -> edit cap line1 r = Some (line', rest) ->
    exists out' y, readline_loop fuel out1 (Z.of_nat (length line1)) (Z.of_nat cap + 1) echo (set_sys y2 s)
      = Some ((out', Z.of_nat (length line')), set_sys y s) /\
      line_read cap out line' rest (echo_text echo (u8 k :: echoed cap line1 r)) (view s) out' y) as Hnext.
  { intros line1 out1 Hl1 Ho1 Ht1 Hd1 He1.
    assert (v_input (view (set_sys y2 s)) = r) as Hin by (unfold view; cbn; by rewrite Hy2).
    destruct (IH line1 out1 (set_sys y2 s) line' rest) as (out' & y & E3 & L); rewrite ?Hin; try done; try lia.
    exists out', y. split; [exact E3|]. rewrite echo_text_cons. rewrite Hin in L. by apply (line_read_then _ _ out1 _ _ _ _ r _ y2). }
  destruct ((k =? 8) && (1 <=? length line)%nat) eqn:Eb.
  - apply andb_true_iff in Eb as [-> Hone%Nat.leb_le]. rewrite (proj2 (Z.leb_le 1 _)) by lia. cbn [andb].
    destruct (erase_key out line) as (out1 & E3 & Ho & Ht & Hd); [lia|done|done|]. rewrite (bind_lift _ _ _ _ E3).
    assert (length (take (length line - 1) line) = (length line - 1)%nat) as Hlen1 by (rewrite length_take; lia).
    replace (Z.of_nat (length line) - 1) with (Z.of_nat (length (take (length line - 1) line))) by lia.
    apply Hnext; rewrite ?Hlen1; try done; [lia|]. apply Hd. lia.
  - assert ((k =? 8) && (1 <=? Z.of_nat (length line)) = false) as ->.
    { destruct (k =? 8); [|done]. cbn [andb] in *. apply Nat.leb_gt in Eb. lia. }
    destruct (store_key out line k) as (out1 & E3 & Ho & Ht & Hd); [lia|done|]. rewrite (bind_lift _ _ _ _ E3).
    replace (Z.of_nat (length line) + 1) with (Z.of_nat (length (line ++ [k]))) by (rewrite length_app; cbn; lia).
    apply Hnext; try done; [rewrite length_app; cbn; lia|by apply Hd].
Qed.

Lemma readline_ok fuel out max echo (s : ustate S) line rest :
  1 <= max <= Z.of_nat (length out) -> Forall (fun k => -128 <= k < 128) (v_input (view s)) ->
  edit (Z.to_nat (max - 1)) [] (v_input (view s)) = Some (line, rest) -> (length (v_input (view s)) < fuel)%nat ->
  exists tail y, toyos_terminal_readline fuel out max echo s = Some (map u8 line ++ 0 :: tail, set_sys y s) /\
    length (map u8 line ++ 0 :: tail) = length out /\ Z.of_nat (length line) < max /\
    drop (Z.to_nat max) (map u8 line ++ 0 :: tail) = drop (Z.to_nat max) out /\
    us_view y = set_input rest (add_output (echo_text echo (echoed (Z.to_nat (max - 1)) [] (v_input (view s)))) (view s)).
Proof.
  intros Hm Hk He Hf. set (cap := Z.to_nat (max - 1)) in *. assert (cap < length out)%nat as Hcap by (unfold cap; lia).
  destruct (readline_loop_ok cap echo fuel [] out s line rest) as (out' & y & E & [Hfit Hlen Ht Hd Hv]); try done; [cbn; lia|].
  unfold toyos_terminal_readline. cbn [length] in E. change (Z.of_nat 0) with 0 in E.
  replace (Z.of_nat cap + 1) with max in E by (unfold cap; lia). erewrite bind_Some by exact E.
  assert (out' = map u8 line ++ drop (length line) out') as Hout by (rewrite <- Ht; by rewrite take_drop).
  assert (drop (length line) out' <> []) as Hne.
  { intros Hnil. apply (f_equal length) in Hnil. rewrite length_drop in Hnil. cbn in Hnil. lia. }
  exists (drop (Datatypes.S (length line)) out'), y. assert (length (map u8 line) = length line) as Hml by apply length_map.
  split_and!; [| | |..|exact Hv].
  - cbn iota beta. unfold lift. rewrite (wr_app out' _ 0 (map u8 line) (drop (length line) out')) by (done || by rewrite Hml).
    rewrite <- (Nat.add_1_r (length line)), <- drop_drop. by destruct (drop (length line) out').
  - rewrite length_app, Hml. cbn. rewrite length_drop. lia.
  - unfold cap in Hfit. lia.
  - replace (Z.to_nat max) with (Datatypes.S cap) by (unfold cap; lia).
    rewrite drop_app_ge, Hml by lia. replace (Datatypes.S cap - length line)%nat with (Datatypes.S (cap - length line)) by lia.
    cbn [drop]. rewrite drop_drop. replace (Datatypes.S (length line) + (cap - length line))%nat with (cap + 1)%nat by lia.
    by rewrite <- (Nat.add_1_r cap), <- !(drop_drop _ 1 cap), Hd.
Qed.

End Facts.

(** ** Words *)

Fixpoint skip_spaces (r : list Z) : list Z :=
  match r with
  | [] => []
  | c :: r' => if c =? 32 then skip_spaces r' else r
  end.

(** The characters before the first space, and the text from there on. *)
Fixpoint break (r : list Z) : list Z * list Z :=
  match r with
  | [] => ([], [])
  | c :: r' => if c =? 32 then ([], r) else let '(w, t) := break r' in (c :: w, t)
  end.

Lemma break_app r : r = (break r).1 ++ (break r).2.
Proof. induction r as [|c r IH]; [done|]. cbn. destruct (c =? 32); [done|]. destruct (break r). cbn in *. by rewrite IH at 1. Qed.

(** The text from the space on: nothing, or a space and more. *)
Lemma break_tail r : (break r).2 = [] \/ exists t, (break r).2 = 32 :: t.
Proof.
  induction r as [|c r IH]; [by left|]. cbn. destruct (Z.eqb_spec c 32) as [->|]; [right; by exists r|]. by destruct (break r).
Qed.

Lemma split_break cur r : cur <> [] \/ (break r).1 <> [] ->
  split_words cur r = (cur ++ (break r).1) :: words (tail (break r).2).
Proof.
  revert cur; induction r as [|c r IH]; intros cur Hne; cbn [split_words break].
  - destruct cur; [cbn in Hne; tauto|]. cbn. by rewrite app_nil_r.
  - destruct (c =? 32) eqn:Ec.
    + cbn in Hne |- *. rewrite Ec in Hne. cbn in Hne. rewrite app_nil_r. destruct cur; [tauto|done].
    + rewrite IH by (left; by destruct cur). destruct (break r) as [w t]. cbn. by rewrite <- app_assoc.
Qed.

Lemma words_skip r : words r = words (skip_spaces r).
Proof. induction r as [|c r IH]; [done|]. cbn. unfold words in *. cbn. by destruct (c =? 32) eqn:E; [|cbn; rewrite E]. Qed.

Lemma words_next r : words r = match skip_spaces r with
  | [] => []
  | r' => (break r').1 :: words (tail (break r').2)
  end.
Proof.
  rewrite words_skip. destruct (skip_spaces r) as [|c r'] eqn:E; [done|]. apply (split_break []). right.
  assert (c =? 32 = false) as Hc.
  { clear -E. induction r as [|a r IH]; [done|]. cbn in E. destruct (a =? 32) eqn:Ea; [by apply IH|]. by injection E as -> _. }
  cbn. rewrite Hc. by destruct (break r').
Qed.

Lemma skip_spaces_suffix r : exists k, r = replicate k 32 ++ skip_spaces r.
Proof.
  induction r as [|c r [k IH]]; [by exists 0%nat|]. cbn. destruct (Z.eqb_spec c 32) as [->|]; [|by exists 0%nat].
  exists (Datatypes.S k). cbn. by f_equal.
Qed.

Lemma words_length r : (length (words r) <= length r)%nat.
Proof.
  induction r as [r IH] using (induction_ltof1 _ (@length Z)). unfold ltof in IH. rewrite words_next.
  destruct (skip_spaces_suffix r) as [k Hk]. destruct (skip_spaces r) as [|c r'] eqn:E; [cbn; lia|].
  pose proof (break_app (c :: r')) as Hb. apply (f_equal length) in Hb, Hk. rewrite length_app in Hb, Hk. cbn [length] in *.
  assert (length (tail (break (c :: r')).2) <= length r')%nat as Ht.
  { destruct (break_tail (c :: r')) as [->|[t Ht]]; [cbn; lia|]. rewrite Ht in *. cbn in *. lia. }
  specialize (IH (tail (break (c :: r')).2) ltac:(lia)). lia.
Qed.

(** ** strtok *)

Lemma delim_space c : delim_loop 1 space_str 0 c = Some (if c =? 32 then 0 else 1).
Proof. unfold space_str. cbn [delim_loop]. rewrite rd_lookup by lia. change (Z.to_nat 0) with 0%nat. cbn. by destruct (c =? 32). Qed.

Lemma skip_loop_ok rest : forall r pre fuel, Forall is_char r -> (length r < fuel)%nat ->
  skip_loop fuel (pre ++ c_str r rest) space_str 1 (Z.of_nat (length pre))
  = Some (Z.of_nat (length pre + (length r - length (skip_spaces r)))).
Proof.
  unfold c_str. induction r as [|c r IH]; intros pre fuel Hr Hf; (destruct fuel as [|fuel]; [cbn in Hf; lia|]);
    cbn [skip_loop skip_spaces]; erewrite rd_app_r by done; cbn [head app mbind option_bind]; change (Z.to_nat 1) with 1%nat;
    rewrite delim_space; cbn [mbind option_bind].
  - by rewrite Nat.add_0_r.
  - apply Forall_cons in Hr as [_ Hr]. destruct (Z.eqb_spec c 32) as [->|Hc].
    + change (0 =? 1) with false. cbv iota. specialize (IH (pre ++ [32]) fuel Hr ltac:(cbn in Hf; lia)).
      rewrite <- app_assoc, length_app in IH. cbn [app length] in IH. replace (Z.of_nat (length pre) + 1) with (Z.of_nat (length pre + 1)) by lia.
      rewrite IH. do 2 f_equal. destruct (skip_spaces_suffix r) as [k Hk]. apply (f_equal length) in Hk. rewrite length_app in Hk.
      cbn [length]. lia.
    + change (1 =? 1) with true. cbn [length]. by rewrite Nat.sub_diag, Nat.add_0_r.
Qed.

(** The object after the token has been cut off, and the position behind it. *)
Definition cut (w t rest : list Z) : list Z := match t with [] => w ++ 0 :: rest | _ :: t => w ++ 0 :: t ++ 0 :: rest end.

Lemma end_loop_ok rest : forall r pre fuel, Forall is_char r -> (length r < fuel)%nat ->
  let '(w, t) := break r in
  end_loop fuel (pre ++ c_str r rest) space_str 1 (Z.of_nat (length pre))
  = Some (pre ++ cut w t rest, Z.of_nat (length pre + length w + if decide (t = []) then 0 else 1)).
Proof.
  unfold c_str. induction r as [|c r IH]; intros pre fuel Hr Hf; (destruct fuel as [|fuel]; [cbn in Hf; lia|]);
    cbn [end_loop break]; [erewrite rd_app_r by done; cbn; by rewrite !Nat.add_0_r|].
  apply Forall_cons in Hr as [Hc Hr]. unfold is_char in Hc. specialize (IH (pre ++ [c]) fuel Hr ltac:(cbn in Hf; lia)).
  assert (rd (pre ++ (c :: r) ++ 0 :: rest) (Z.of_nat (length pre)) = Some c) as Hrd by (by erewrite rd_app_r by done).
  rewrite Hrd. cbn [mbind option_bind]. rewrite (proj2 (Z.eqb_neq c 0)) by lia. change (Z.to_nat 1) with 1%nat.
  rewrite delim_space. cbn [mbind option_bind]. destruct (Z.eqb_spec c 32) as [->|Hne].
  - change (0 <? 1) with true. cbv iota. erewrite wr_app by done. cbn [mbind option_bind app tail cut]. rewrite decide_False by done.
    do 2 f_equal. cbn. lia.
  - change (1 <? 1) with false. cbv iota. destruct (break r) as [w t]. rewrite <- app_assoc, length_app in IH. cbn [app length] in *.
    replace (Z.of_nat (length pre) + 1) with (Z.of_nat (length pre + 1)) by lia. rewrite IH. unfold cut. rewrite <- app_assoc. cbn [app].
    f_equal. f_equal; [by destruct t|lia].
Qed.

(** The string [r] is at offset [o] of the object [l]. *)
Definition at_text (l : list Z) (o : Z) (r : list Z) : Prop :=
  exists pre rest, l = pre ++ c_str r rest /\ o = Z.of_nat (length pre) /\ Forall is_char r.

Lemma at_text_skip l o r : at_text l o r ->
  exists o', skip_loop (Datatypes.S (length l)) l space_str 1 o = Some o' /\ at_text l o' (skip_spaces r).
Proof.
  intros (pre & rest & -> & -> & Hr). eexists. split; [apply skip_loop_ok; [done|]; unfold c_str; rewrite !length_app; lia|].
  destruct (skip_spaces_suffix r) as [k Hk]. exists (pre ++ replicate k 32), rest. rewrite length_app, length_replicate.
  split; [rewrite Hk at 1; unfold c_str; by rewrite <- !app_assoc|]. split.
  - apply (f_equal length) in Hk. rewrite length_app, length_replicate in Hk. lia.
  - rewrite Hk in Hr. by apply Forall_app in Hr as [_ Hr].
Qed.

(** From a character that is no space: the token and the text behind it. *)
Lemma at_text_end l o r : at_text l o r -> exists l' o',
  end_loop (Datatypes.S (length l)) l space_str 1 o = Some (l', o') /\
  at_text l' o (break r).1 /\ at_text l' o' (tail (break r).2).
Proof.
  intros (pre & rest & -> & -> & Hr). pose proof (end_loop_ok rest r pre (Datatypes.S (length (pre ++ c_str r rest))) Hr) as He.
  pose proof (break_app r) as Hb. destruct (break r) as [w t] eqn:E. cbn [fst snd] in *. rewrite Hb in Hr. apply Forall_app in Hr as [Hw Ht].
  exists (pre ++ cut w t rest). eexists. split; [apply He; unfold c_str; rewrite !length_app; lia|]. unfold c_str in *.
  destruct t as [|c t]; cbn [cut tail].
  - rewrite decide_True, Nat.add_0_r by done. split; [by exists pre, rest|]. exists (pre ++ w), rest. rewrite length_app. cbn.
    by rewrite <- app_assoc.
  - rewrite decide_False by done. split; [by exists pre, (t ++ 0 :: rest)|]. exists (pre ++ w ++ [0]), rest. rewrite !length_app. cbn.
    rewrite <- !app_assoc. apply Forall_cons in Ht as [_ Ht]. split; [done|]. split; [lia|done].
Qed.

Section Parse.
Context {S : Type} `{UserLaws S}.

(** The scanner after a call of [strtok]: the token is the first of the words
    [ws] and the static pointer is at the others. *)
Definition scanning (s : ustate S) (b : nat) (token : option (nat * Z)) (ws : list (list Z)) : Prop :=
  match token with
  | None => ws = [] /\ u_sp s = None
  | Some (b', o) => exists l w r o', b' = b /\ ws = w :: words r /\ u_bufs s !! b = Some l /\ u_sp s = Some (b, o') /\
      at_text l o w /\ at_text l o' r
  end.

Lemma strtok_ok str (s : ustate S) b o l r :
  match u_sp s with Some p => Some p | None => str end = Some (b, o) -> u_bufs s !! b = Some l -> at_text l o r ->
  exists token l' sp, strtok str space_str s = Some (token, set_sp sp (set_bufs (<[b := l']> (u_bufs s)) s)) /\
    scanning (set_sp sp (set_bufs (<[b := l']> (u_bufs s)) s)) b token (words r).
Proof.
  intros Hsp Hb Hr. destruct (at_text_skip _ _ _ Hr) as (o1 & Hskip & Ht). rewrite words_next.
  assert (rd l o1 = head (c_str (skip_spaces r) [])) as Hrd.
  { destruct Ht as (pre & rest & -> & -> & _). erewrite rd_app_r by done. by destruct (skip_spaces r). }
  assert (strtok str space_str s = (if head (skip_spaces r) then
     let! (l, e) := lift (end_loop (Datatypes.S (length l)) l space_str 1 o1) in
     set_buffer b l ;! modify (set_sp (Some (b, e))) ;! ret (Some (b, o1)) else modify (set_sp None) ;! ret None) s) as ->.
  { unfold strtok. rewrite (bind_lift (user_strlen space_str) _ _ 1) by done. unfold bind, get. rewrite Hsp. unfold buffer, bind, lift.
    rewrite Hb. cbn [mbind option_bind]. rewrite Hskip, Hrd. destruct Ht as (pre & rest & _ & _ & Hc).
    destruct (skip_spaces r) as [|c r']; [done|]. apply Forall_cons in Hc as [Hc _]. unfold is_char in Hc. cbn [c_str app head].
    by rewrite (proj2 (Z.eqb_neq c 0)) by lia. }
  destruct (skip_spaces r) as [|c r'] eqn:E; cbn [head].
  - exists None, l, None. rewrite insert_id by done. by destruct s.
  - destruct (at_text_end _ _ _ Ht) as (l' & e & He & Hw & Ht'). rewrite He. exists (Some (b, o1)), l', (Some (b, e)).
    split; [done|]. exists l'. eexists _, _, e. split_and!; try done. cbn. by rewrite lookup_insert_eq.
Qed.

(** ** The list of arguments *)

(** The last call was one of [malloc] that failed. *)
Definition no_memory (s : ustate S) : Prop := exists y l, us_malloc y sizeof_command_argument = (NULL, l, u_sys s).

Definition args_owned (s : ustate S) : Prop := dom (u_args s) ⊆ v_owned (view s).

(** What does not change while a command in the array [b] is parsed; [A] are the
    structures that are left alone. *)
Record grows (b : nat) (A : gset Z) (s s' : ustate S) : Prop := {
  g_next : u_next s' = u_next s;
  g_text : u_text s' = u_text s;
  g_bufs : delete b (u_bufs s') = delete b (u_bufs s);
  g_input : v_input (view s') = v_input (view s);
  g_output : v_output (view s') = v_output (view s);
  g_args : forall q, q ∈ A -> u_args s' !! q = u_args s !! q;
  g_owned : args_owned s' }.

(** [k] of the words [ws] have been taken.  When that is not all, memory has run
    out and the static pointer is left in the array. *)
Definition finished (b : nat) (s : ustate S) (ws : list (list Z)) (k : nat) : Prop :=
  if (length ws <=? k)%nat then u_sp s = None else (exists o, u_sp s = Some (b, o)) /\ no_memory s.

Lemma malloc_cases (s : ustate S) : args_owned s ->
  (exists y, malloc_argument s = Some (NULL, set_sys y s) /\ us_view y = view s /\ no_memory (set_sys y s)) \/
  (exists p y t q, p <> NULL /\ p ∉ dom (u_args s) /\ length t = 512%nat /\
    malloc_argument s = Some (p, set_args (<[p := mk_arg t q]> (u_args s)) (set_sys y s)) /\
    us_view y = mk_view (v_input (view s)) (v_output (view s)) ({[p]} ∪ v_owned (view s))).
Proof.
  intros Ho. unfold malloc_argument. destruct (us_malloc (u_sys s) sizeof_command_argument) as [[p l] y] eqn:E.
  destruct (us_malloc_law _ sizeof_command_argument _ _ _ ltac:(done) E) as [Hl [[-> Hv]|(Hp & Hn & Hv)]].
  - left. exists y. split_and!; [done..|]. by exists (u_sys s), l.
  - right. exists p, y, (take 512 l). eexists. split_and!; [done|set_solver| |by rewrite (proj2 (Z.eqb_neq p NULL))|done].
    rewrite length_take. unfold sizeof_command_argument in Hl. lia.
Qed.

Lemma object_ok (s : ustate S) b o l w : u_bufs s !! b = Some l -> at_text l o w ->
  exists rest, object (b, o) s = Some (c_str w rest, s).
Proof.
  intros Hb (pre & rest & -> & -> & _). exists rest. unfold object, bind, buffer. cbn [fst snd]. rewrite Hb. cbn [mbind option_bind].
  rewrite (proj2 (Z.ltb_ge _ 0)), (proj2 (Z.ltb_ge _ _)) by (rewrite ?length_app; lia). cbn [orb]. by rewrite Nat2Z.id, drop_app_length.
Qed.

Lemma fill_ok (s : ustate S) p b o l w t q : u_bufs s !! b = Some l -> at_text l o w -> u_args s !! p = Some (mk_arg t q) ->
  length t = 512%nat -> exists rest,
  fill_argument p (b, o) s = Some (tt, set_args (<[p := mk_arg (c_str (take 511 w) rest) NULL]> (u_args s)) s).
Proof.
  intros Hb Hw Hp Ht. destruct (object_ok _ _ _ _ _ Hb Hw) as [rest Ho]. destruct Hw as (_ & _ & _ & _ & Hc).
  unfold fill_argument. erewrite bind_Some by exact Ho. unfold bind, get, lift. rewrite Hp.
  unfold user_strncpy. rewrite strncpy_spec by (done || lia || (cbn; rewrite length_take; lia)). by eexists.
Qed.

(** A new structure for the word [w]. *)
Lemma node_cases (s : ustate S) b o l w : args_owned s -> u_bufs s !! b = Some l -> at_text l o w ->
  (exists y, malloc_argument s = Some (NULL, set_sys y s) /\ us_view y = view s /\ no_memory (set_sys y s)) \/
  (exists p y s1 rest, p <> NULL /\ p ∉ dom (u_args s) /\ malloc_argument s = Some (p, s1) /\
    fill_argument p (b, o) s1 = Some (tt, set_args (<[p := mk_arg (c_str (take 511 w) rest) NULL]> (u_args s)) (set_sys y s)) /\
    us_view y = mk_view (v_input (view s)) (v_output (view s)) ({[p]} ∪ v_owned (view s))).
Proof.
  intros Ho Hb Hw. destruct (malloc_cases s Ho) as [?|(p & y & t & q & Hp & Hn & Ht & E & Hv)]; [by left|right].
  destruct (fill_ok (set_args (<[p := mk_arg t q]> (u_args s)) (set_sys y s)) p b o l w t q Hb Hw) as [rest Hf];
    [apply lookup_insert_eq|done|]. exists p, y. eexists. exists rest. split_and!; [done..|exact E| |done]. rewrite Hf.
  cbn [u_args set_args set_sys]. by rewrite insert_insert_eq.
Qed.

Lemma grows_trans b A B (s s1 s2 : ustate S) : grows b A s s1 -> grows b B s1 s2 -> A ⊆ B -> grows b A s s2.
Proof. intros [] [] HAB. constructor; [congruence..| |done]. intros q Hq. rewrite g_args1 by set_solver. by apply g_args0. Qed.

Lemma grows_no_memory b A (s : ustate S) y : args_owned s -> us_view y = view s -> grows b A s (set_sys y s).
Proof. intros Ho Hv. constructor; try done; unfold args_owned, view in *; cbn; by rewrite Hv. Qed.

(** A step of the scanner, with the structure [p] added. *)
Lemma grows_node b A (s : ustate S) p x y l sp args :
  args_owned s -> us_view y = mk_view (v_input (view s)) (v_output (view s)) ({[p]} ∪ v_owned (view s)) ->
  dom args = {[p]} ∪ dom (u_args s) -> (forall q, q ∈ A -> args !! q = u_args s !! q) ->
  x = set_sp sp (set_bufs (<[b := l]> (u_bufs s)) (set_args args (set_sys y s))) -> grows b A s x.
Proof.
  intros Ho Hv Hd Hk ->. constructor; unfold args_owned, view in *; cbn; rewrite ?Hv; try done; [by rewrite delete_insert_eq|].
  rewrite Hd. by apply union_mono_l.
Qed.

(** [current->next = new_command] *)
Lemma set_next_ok (s : ustate S) p q a r : u_args s !! p = Some (mk_arg a r) ->
  set_next p q s = Some (tt, set_args (<[p := mk_arg a q]> (u_args s)) s).
Proof. intros Hp. unfold set_next, bind, get, lift. by rewrite Hp. Qed.

Lemma parse_loop_ok b : forall fuel current token ws (s : ustate S) a,
  (length ws < fuel)%nat -> scanning s b token ws -> args_owned s -> u_args s !! current = Some (mk_arg a NULL) ->
  exists s' k q, parse_loop fuel current token s = Some (tt, s') /\ u_args s' !! current = Some (mk_arg a q) /\
    chain (u_args s') q (take k (map (take 511) ws)) /\ finished b s' ws k /\ grows b (dom (u_args s) ∖ {[current]}) s s'.
Proof.
  induction fuel as [|fuel IH]; intros current token ws s a Hf Hs Ho Hc; [lia|]. cbn [parse_loop].
  destruct token as [[b' o]|]; [|destruct Hs as [-> Hsp]; exists s, 0%nat, NULL; by split_and!; [..|constructor]].
  destruct Hs as (l & w & r & o' & -> & -> & Hb & Hsp & Hw & Hr).
  destruct (node_cases s b o l w Ho Hb Hw) as [(y & E & Hv & Hn)|(p & y & s1 & rest & Hp & Hpn & E & Ef & Hv)];
    erewrite bind_Some by exact E.
  { exists (set_sys y s), 0%nat, NULL. split_and!; [done..| |by apply grows_no_memory]. split; [by exists o'|done]. }
  assert (p <> current) as Hpc by (intros ->; apply Hpn; by apply elem_of_dom_2 in Hc).
  rewrite (proj2 (Z.eqb_neq p NULL)) by done. erewrite bind_Some by exact Ef.
  erewrite bind_Some by (eapply set_next_ok; cbn; rewrite lookup_insert_ne by done; exact Hc). cbn [u_args set_args].
  set (args := <[current := _]> _). set (s3 := set_args args _).
  destruct (strtok_ok None s3 b o' l r) as (token' & l' & sp & Est & Hscan); [cbn; by rewrite Hsp|done..|].
  erewrite bind_Some by exact Est. set (s4 := set_sp sp _) in *.
  assert (dom args = {[p]} ∪ dom (u_args s)) as Hd.
  { unfold args. rewrite !dom_insert_L. apply elem_of_dom_2 in Hc. set_solver. }
  assert (grows b (dom (u_args s) ∖ {[current]}) s s4) as Hg.
  { apply (grows_node b _ s p s4 y l' sp args); try done. intros q Hq. unfold args. by rewrite !lookup_insert_ne by set_solver. }
  destruct (IH p token' (words r) s4 (c_str (take 511 w) rest)) as (s' & k & q & Eloop & Hpq & Hch & Hfin & Hg'); try done.
  { cbn in Hf. lia. }
  { apply Hg. }
  { cbn. unfold args. by rewrite lookup_insert_ne, lookup_insert_eq by done. }
  assert (u_args s' !! current = Some (mk_arg a p)) as Hc'.
  { rewrite (g_args _ _ _ _ Hg'); cbn; [unfold args; by rewrite lookup_insert_eq|]. rewrite Hd. apply elem_of_dom_2 in Hc. set_solver. }
  exists s', (Datatypes.S k), p. split_and!; [done|done| |done|].
  - cbn. split; [done|]. by exists rest, q.
  - eapply grows_trans; [exact Hg|exact Hg'|]. cbn. rewrite Hd. set_solver.
Qed.

Lemma parse_body_ok b (s : ustate S) l r : u_sp s = None -> u_bufs s !! b = Some l -> at_text l 0 r -> args_owned s ->
  (length r <= 1024)%nat ->
  exists p s' k, parse_body b s = Some (p, s') /\ chain (u_args s') p (take k (map (take 511) (words r))) /\
    finished b s' (words r) k /\ grows b (dom (u_args s)) s s'.
Proof.
  intros Hsp Hb Hr Ho Hlen. pose proof (words_length r) as Hwl. unfold parse_body.
  destruct (strtok_ok (Some (b, 0)) s b 0 l r) as (token & l1 & sp & Est & Hs); [by rewrite Hsp|done..|].
  erewrite bind_Some by exact Est. set (s1 := set_sp _ _) in *.
  assert (grows b (dom (u_args s)) s s1) as Hg1 by (constructor; try done; cbn; by rewrite delete_insert_eq).
  destruct token as [[b' o]|]; [|destruct Hs as [-> Hn]; by exists NULL, s1, 0%nat].
  destruct Hs as (l' & w & r' & o' & -> & Hws & Hb1 & Hsp1 & Hw & Hr'). rewrite Hws in *.
  destruct (node_cases s1 b o l' w Ho Hb1 Hw) as [(y & E & Hv & Hn)|(p & y & s2 & rest & Hp & Hpn & E & Ef & Hv)];
    erewrite bind_Some by exact E.
  { exists NULL, (set_sys y s1), 0%nat. split_and!; [done..| |].
    - split; [by exists o'|done].
    - eapply grows_trans; [exact Hg1|by apply grows_no_memory|done]. }
  rewrite (proj2 (Z.eqb_neq p NULL)) by done. erewrite bind_Some by exact Ef. set (args := <[p := _]> _). set (s3 := set_args args _).
  destruct (strtok_ok None s3 b o' l' r') as (token' & l2 & sp2 & Est2 & Hscan); [cbn; cbn in Hsp1; by rewrite Hsp1|done..|].
  erewrite bind_Some by exact Est2. set (s4 := set_sp sp2 _) in *.
  assert (grows b (dom (u_args s)) s1 s4) as Hg.
  { apply (grows_node b _ s1 p s4 y l2 sp2 args); try done; [by unfold args; rewrite dom_insert_L|].
    intros q Hq. unfold args. by rewrite lookup_insert_ne by set_solver. }
  destruct (parse_loop_ok b parse_fuel p token' (words r') s4 (c_str (take 511 w) rest)) as (s' & k & q & Eloop & Hpq & Hch & Hfin & Hg');
    try done.
  { cbn [length] in Hwl. unfold parse_fuel. lia. }
  { apply Hg. }
  { cbn. unfold args. by rewrite lookup_insert_eq. }
  erewrite bind_Some by exact Eloop. exists p, s', (Datatypes.S k). split_and!; [done| |done|].
  - cbn. split; [done|]. by exists rest, q.
  - refine (grows_trans b _ _ s s1 s' Hg1 (grows_trans b _ _ s1 s4 s' Hg Hg' _) (reflexivity _)). cbn. unfold args. rewrite dom_insert_L.
    intros q' Hq'. apply elem_of_difference. split; [by apply elem_of_union_r|]. by intros ->%elem_of_singleton.
Qed.

(** The state in which a command can be parsed: no token is left over, the
    structures are in memory of the program, the next array is new. *)
Record parser_ready (s : ustate S) : Prop := {
  pr_sp : u_sp s = None;
  pr_owned : args_owned s;
  pr_fresh : forall b, (u_next s <= b)%nat -> u_bufs s !! b = None }.

(** After a command: the list [p] of the first [k] of the words. *)
Record command_parsed (s : ustate S) (ws : list (list Z)) (p : Z) (k : nat) (s' : ustate S) : Prop := {
  cp_chain : chain (u_args s') p (take k (map (take 511) ws));
  cp_finished : finished (u_next s) s' ws k;
  cp_bufs : u_bufs s' = u_bufs s;
  cp_next : u_next s' = Datatypes.S (u_next s);
  cp_input : v_input (view s') = v_input (view s);
  cp_output : v_output (view s') = v_output (view s);
  cp_args : forall q, q ∈ dom (u_args s) -> u_args s' !! q = u_args s !! q;
  cp_owned : args_owned s' }.

Lemma parse_command_ok (s : ustate S) text rest max : parser_ready s -> Forall is_char text -> max < 1025 ->
  exists p s' k, toyos_parse_command (c_str text rest) max s = Some (p, s') /\
    command_parsed s (words (take 1024 text)) p k s'.
Proof.
  intros [Hsp Ho Hn] Ht Hm. unfold toyos_parse_command. rewrite (proj2 (Z.leb_gt 1025 max)) by lia.
  unfold bind at 1, get. pose proof (us_stack_law (u_sys s) 1025 ltac:(lia)) as Hst.
  set (l := take 1024 text ++ 0 :: drop (Datatypes.S (length (take 1024 text))) (us_stack (u_sys s) 1025)).
  erewrite (bind_lift (user_strncpy _ _ _) _ _ l) by (apply strncpy_spec; [done|lia|]; cbn; rewrite length_take; lia).
  erewrite bind_Some by done. set (s1 := mk_ustate _ _ _ _ _ _).
  destruct (parse_body_ok (u_next s) s1 l (take 1024 text)) as (p & s' & k & E & Hch & Hfin & Hg); try done.
  { cbn. by rewrite lookup_insert_eq. }
  { exists [], (drop (Datatypes.S (length (take 1024 text))) (us_stack (u_sys s) 1025)). split; [done|]. split; [done|].
    by apply Forall_take. }
  { rewrite length_take. lia. }
  erewrite bind_Some by exact E. exists p, (set_bufs (delete (u_next s) (u_bufs s')) s'), k. split; [done|].
  destruct Hg. constructor; try done. cbn. rewrite g_bufs0. cbn. rewrite delete_insert_eq, delete_id; [done|]. by apply Hn.
Qed.

(** A pointer that is left in an array that is gone. *)
Lemma parse_command_stale (s : ustate S) text rest max b o : u_sp s = Some (b, o) -> u_bufs s !! b = None -> b <> u_next s ->
  Forall is_char text -> max < 1025 -> toyos_parse_command (c_str text rest) max s = None.
Proof.
  intros Hsp Hb Hn Ht Hm. unfold toyos_parse_command. rewrite (proj2 (Z.leb_gt 1025 max)) by lia.
  unfold bind at 1, get. pose proof (us_stack_law (u_sys s) 1025 ltac:(lia)) as Hst.
  erewrite bind_lift by (apply strncpy_spec; [done|lia|]; cbn; rewrite length_take; lia).
  erewrite bind_Some by done. unfold bind at 1, parse_body. unfold bind at 1, strtok.
  rewrite (bind_lift (user_strlen space_str) _ _ 1) by done. unfold bind at 1, get. cbn [u_sp]. rewrite Hsp.
  unfold bind at 1, buffer. cbn [u_bufs]. by rewrite lookup_insert_ne, Hb by done.
Qed.

End Parse.

(** ** Formatted output *)

Section Printf.
Context {S : Type} `{UserLaws S}.

Lemma c_text_app t rest : Forall (fun c => c <> 0) t -> c_text (t ++ 0 :: rest) = Some t.
Proof. induction 1 as [|c t Hc _ IH]; [done|]. cbn. by rewrite (proj2 (Z.eqb_neq c 0)), IH. Qed.

Lemma digits_length fuel base n : (length (digits fuel base n []) <= fuel)%nat.
Proof.
  revert n. induction fuel as [|fuel IH]; intros n; [done|]. cbn. case_match; [cbn; lia|]. rewrite digits_app, length_app. cbn.
  specialize (IH (n / base)). lia.
Qed.

Lemma decimal_length i : (length (decimal i) < 1024)%nat.
Proof.
  unfold decimal, number. pose proof (digits_length itoa_fuel 10 (Z.abs i)) as Hd. unfold itoa_fuel in *. rewrite length_app.
  repeat case_match; cbn [length]; lia.
Qed.

(** A string argument fits into a message of the kernel. *)
Definition short (a : arg) : Prop :=
  match a with AInt _ => True | AStr s => forall t, c_text s = Some t -> (length t < 1024)%nat end.

(** The state after output: the text is written, the buffer of [itoa] may hold
    another number. *)
Definition wrote (t : list Z) (s s' : ustate S) : Prop :=
  exists y b, s' = set_itoa b (set_sys y s) /\ us_view y = add_output t (view s) /\ length b = 12%nat.

Lemma wrote_nil (s : ustate S) : length (u_text s) = 12%nat -> wrote [] s s.
Proof.
  intros Ht. exists (u_sys s), (u_text s). split; [by destruct s|]. split; [|done].
  unfold view, add_output. rewrite app_nil_r. by destruct (us_view (u_sys s)).
Qed.

Lemma wrote_trans t u (s s1 s2 : ustate S) : wrote t s s1 -> wrote u s1 s2 -> wrote (t ++ u) s s2.
Proof.
  intros (y & b & -> & Hy & _) (z & c & -> & Hz & Hc). exists z, c. split; [done|]. split; [|done]. rewrite Hz. unfold view. cbn.
  rewrite Hy. unfold add_output. cbn. by rewrite app_assoc.
Qed.

Lemma wrote_text t (s s' : ustate S) : wrote t s s' -> length (u_text s') = 12%nat.
Proof. by intros (y & b & -> & _ & Hb). Qed.

Lemma print_user_ok (s : ustate S) str t : c_text str = Some t -> (length t < 1024)%nat -> length (u_text s) = 12%nat ->
  exists s', print_user str s = Some (tt, s') /\ wrote t s s'.
Proof.
  intros Ht Hl Hb. eexists. split; [done|]. exists (us_print (u_sys s) str), (u_text s). split; [by destruct s|].
  split; [by apply us_print_law|done].
Qed.

Lemma putchar_ok (s : ustate S) c : is_byte c -> length (u_text s) = 12%nat ->
  exists s', putchar c s = Some (tt, s') /\ wrote [c] s s'.
Proof.
  intros Hc Hb. eexists. split; [done|]. exists (us_putchar (u_sys s) (u8 c)), (u_text s). split; [by destruct s|].
  split; [|done]. unfold is_byte in Hc. by rewrite us_putchar_law, u8_small by lia.
Qed.

Lemma user_itoa_ok (s : ustate S) i : arg_ok (AInt i) -> length (u_text s) = 12%nat ->
  exists b, user_call_itoa i s = Some (decimal i ++ [0], set_itoa b s) /\ length b = 12%nat.
Proof.
  intros Hi Ht. destruct (itoa_text_ok (u_text s) i Ht Hi) as (t & loc & E & Hd). exists t. unfold user_call_itoa, user_itoa.
  unfold bind at 1, get. rewrite (bind_lift _ _ _ _ E). rewrite <- Hd. split; [done|]. apply itoa_length in E. cbn in E. congruence.
Qed.

Lemma printf_step {X Y} (m : M (ustate S) X) (k : X -> M (ustate S) Y) t u r (s s1 s2 : ustate S) x :
  m s = Some (x, s1) -> wrote t s s1 -> k x s1 = Some (r, s2) -> wrote u s1 s2 ->
  exists s', bind m k s = Some (r, s') /\ wrote (t ++ u) s s'.
Proof. intros Em Ht Ek Hu. exists s2. erewrite bind_Some by exact Em. split; [exact Ek|]. by eapply wrote_trans. Qed.

Lemma user_printf_loop_ok n : forall fmt ap t (s : ustate S), (length fmt <= n)%nat ->
  render false fmt ap = Some t -> Forall is_byte fmt -> Forall arg_ok ap -> Forall short ap -> length (u_text s) = 12%nat ->
  exists s', user_printf_loop fmt ap s = Some (tt, s') /\ wrote t s s'.
Proof.
  induction n as [|n IH]; intros fmt ap t s Hn Hr Hf Ha Hs Ht; (destruct fmt as [|c p]; [done|]); [cbn in Hn; lia|].
  cbn [render user_printf_loop length] in *. apply Forall_cons in Hf as [Hc Hp].
  destruct (c =? 0) eqn:E0. { injection Hr as <-. exists s. split; [done|]. by apply wrote_nil. }
  assert (forall p ap t d, (length p <= n)%nat -> cons d <$> render false p ap = Some t -> is_byte d -> Forall is_byte p ->
    Forall arg_ok ap -> Forall short ap -> exists s', (putchar d ;! user_printf_loop p ap) s = Some (tt, s') /\ wrote t s s') as Hput.
  { intros p' ap' t' d Hl' (t1 & E & ->)%fmap_Some Hd Hp' Ha' Hs'. destruct (putchar_ok s d Hd Ht) as (s1 & E1 & W1).
    destruct (IH p' ap' t1 s1 Hl' E Hp' Ha' Hs' (wrote_text _ _ _ W1)) as (s2 & E2 & W2). by eapply (printf_step _ _ [d] t1). }
  destruct (c =? 37) eqn:E37; cbn [negb] in *; [|apply Hput; (done || lia)].
  destruct p as [|d p]; [done|]. apply Forall_cons in Hp as [Hd Hp]. cbn [length] in Hn. destruct (d =? 0); [done|].
  destruct (d =? 105).
  { destruct ap as [|[i|] ap]; try done. apply Forall_cons in Ha as [Hi Ha]. apply Forall_cons in Hs as [_ Hs].
    apply fmap_Some in Hr as (t1 & E & ->). destruct (user_itoa_ok s i Hi Ht) as (b & Ei & Hb). erewrite bind_Some by exact Ei.
    destruct (print_user_ok (set_itoa b s) (decimal i ++ [0]) (decimal i)) as (s1 & E1 & W1);
      [by apply c_text_app, decimal_nonzero|by apply decimal_length|done|].
    destruct (IH p ap t1 s1) as (s2 & E2 & W2); [lia|done..|by eapply wrote_text|].
    destruct (printf_step _ (fun _ => user_printf_loop p ap) _ t1 _ _ _ _ _ E1 W1 E2 W2) as (s3 & E3 & (y & b' & -> & Hv & Hb')). exists (set_itoa b' (set_sys y s)).
    split; [exact E3|]. by exists y, b'. }
  destruct (d =? 115).
  { destruct ap as [|[|str] ap]; try done. apply Forall_cons in Ha as [_ Ha]. apply Forall_cons in Hs as [Hsh Hs].
    destruct (c_text str) as [t0|] eqn:Ec; [|done]. cbn [mbind option_bind] in Hr. apply fmap_Some in Hr as (t1 & E & ->).
    destruct (print_user_ok s str t0 Ec (Hsh _ Ec) Ht) as (s1 & E1 & W1).
    destruct (IH p ap t1 s1) as (s2 & E2 & W2); [lia|done..|by eapply wrote_text|]. by eapply (printf_step _ _ t0 t1). }
  apply Hput; (done || lia).
Qed.

Lemma user_printf_ok fmt ap t (s : ustate S) : render false fmt ap = Some t -> Forall is_byte fmt -> Forall arg_ok ap ->
  Forall short ap -> length (u_text s) = 12%nat -> exists s', user_printf fmt ap s = Some (0, s') /\ wrote t s s'.
Proof.
  intros Hr Hf Ha Hs Ht. destruct (user_printf_loop_ok _ fmt ap t s (le_n _) Hr Hf Ha Hs Ht) as (s' & E & W).
  exists s'. split; [|done]. unfold user_printf. by erewrite bind_Some by exact E.
Qed.

End Printf.
End UserFacts.

Module UserProps.
Import UserFacts.

Section Props.
Context {S : Type} `{UserLaws S}.

(** C38: Reading a line writes the line as it was edited (a backspace removes the
    character before it, the return key or a full buffer ends it), terminated
    inside of the [max] bytes of the buffer: what is behind them stays as it
    was.  The keys behind the line are left unread and every key is echoed when
    that was asked for. *)
Theorem readline_edits fuel out max echo (s : ustate S) line rest :
  1 <= max <= Z.of_nat (length out) -> Forall (fun k => -128 <= k < 128) (v_input (view s)) ->
  edit (Z.to_nat (max - 1)) [] (v_input (view s)) = Some (line, rest) -> (length (v_input (view s)) < fuel)%nat ->
  exists tail y, toyos_terminal_readline fuel out max echo s = Some (map u8 line ++ 0 :: tail, set_sys y s) /\
    length (map u8 line ++ 0 :: tail) = length out /\ Z.of_nat (length line) < max /\
    drop (Z.to_nat max) (map u8 line ++ 0 :: tail) = drop (Z.to_nat max) out /\
    us_view y = set_input rest (add_output (echo_text echo (echoed (Z.to_nat (max - 1)) [] (v_input (view s)))) (view s)).
Proof. intros Hm Hk He Hf. exact (readline_ok fuel out max echo s line rest Hm Hk He Hf). Qed.

(** C20: A command is parsed into the list of its words: the structures in memory
    hold, in order, the words of the first 1024 characters, each cut to 511
    characters.  Only when memory runs out the list is shorter.  The structures
    that the program had, and its arrays, are left as they were. *)
Theorem parse_command_words (s : ustate S) text rest max :
  parser_ready s -> Forall is_char text -> max < 1025 ->
  exists p s' k, toyos_parse_command (c_str text rest) max s = Some (p, s') /\
    command_parsed s (words (take 1024 text)) p k s' /\ (~ no_memory s' -> chain (u_args s') p (map (take 511) (words (take 1024 text)))).
Proof.
  intros Hs Ht Hm. destruct (parse_command_ok s text rest max Hs Ht Hm) as (p & s' & k & E & Hp). exists p, s', k.
  split; [exact E|]. split; [exact Hp|]. intros Hn. destruct Hp as [Hc Hf _ _ _ _ _ _]. revert Hf. unfold finished.
  destruct (Nat.leb_spec (length (words (take 1024 text))) k) as [Hk|]; [|tauto]. intros _.
  by rewrite take_ge in Hc by (by rewrite length_map).
Qed.

(** C39: When memory runs out in the middle of a command, the static pointer of
    [strtok] stays in the local array of the call; the next command, whatever it
    is, is read through that pointer, after the array is gone, which is a fault of
    the model: in C the behaviour is undefined. *)
Theorem parse_after_no_memory (s : ustate S) text rest max p s' text' rest' max' :
  parser_ready s -> Forall is_char text -> max < 1025 -> toyos_parse_command (c_str text rest) max s = Some (p, s') ->
  ~ chain (u_args s') p (map (take 511) (words (take 1024 text))) -> Forall is_char text' -> max' < 1025 ->
  toyos_parse_command (c_str text' rest') max' s' = None.
Proof.
  intros Hs Ht Hm E Hc Ht' Hm'. destruct (parse_command_ok s text rest max Hs Ht Hm) as (p1 & s1 & k & E1 & Hp).
  rewrite E in E1. injection E1 as -> ->. destruct Hp as [Hch Hf Hb Hn _ _ _ _]. revert Hf. unfold finished.
  destruct (Nat.leb_spec (length (words (take 1024 text))) k) as [Hk|Hk].
  - rewrite take_ge in Hch by (by rewrite length_map). done.
  - intros [[o Ho] _]. apply (parse_command_stale s1 text' rest' max' (u_next s) o); [done| |lia|done..].
    rewrite Hb. by apply Hs.
Qed.

End Props.
End UserProps.
