(* ===== verification/Programs.v ===== *)
(** * The programs: programs/echo, kill, clear, ps, shell, udpecho, forkdemo

    The way of a system call out of a program (the stubs of toyos.asm), the start
    of a program (c_start.c), and the programs themselves on top of UserLib.v.
    The network calls are the class [UserNet]; its instance [KernelNet] is the
    socket table of Socket.v, with datagrams arriving between the calls. *)

From S2P Require Import Prelude CLib Terminal Socket Machine Trap UserLib UserProps.
Import Memory Str Terminal Render Machine TrapFacts UserString UserLib UserSpec UserFacts.
#[local] Open Scope prog_scope.

(** ** toyos.asm *)

Module Stubs.

Inductive stub :=
| st_print | st_getkey | st_get_processes | st_malloc | st_free | st_putchar | st_process_load_start | st_exit
| st_process_get_arguments | st_system | st_clear_terminal | st_check_done | st_done | st_fork | st_kill
| st_socket | st_bind | st_sendto | st_recvfrom.

(** [mov eax, n] *)
Definition stub_command (s : stub) : Z :=
  match s with
  | st_print => 1 | st_getkey => 2 | st_get_processes => 11 | st_malloc => 4 | st_free => 5 | st_putchar => 3
  | st_process_load_start => 6 | st_exit => 7 | st_process_get_arguments => 8 | st_system => 9 | st_clear_terminal => 10
  | st_check_done => 12 | st_done => 13 | st_fork => 14 | st_kill => 15 | st_socket => 16 | st_bind => 17
  | st_sendto => 18 | st_recvfrom => 19
  end.

(** The offsets of the [push dword[ebp+n]], in order *)
Definition stub_pushes (s : stub) : list Z :=
  match s with
  | st_bind => [12; 8]
  | st_getkey | st_get_processes | st_exit | st_clear_terminal | st_check_done | st_done | st_fork => []
  | _ => [8]
  end.

(** Memory and the two stack registers *)
Record cpu := mk_cpu { c_mem : mem; c_esp : Z; c_ebp : Z }.

Definition push (v : Z) (c : cpu) : cpu :=
  let esp := ptr_add (c_esp c) (-4) in mk_cpu (store32 (c_mem c) esp v) esp (c_ebp c).

(** From the first instruction to [int 0x80] *)
Definition stub_enter (s : stub) (c : cpu) : cpu :=
  let c := push (c_ebp c) c in
  let c := mk_cpu (c_mem c) (c_esp c) (c_esp c) in
  fold_left (fun c off => push (load32 (c_mem c) (ptr_add (c_ebp c) off)) c) (stub_pushes s) c.

(** The number in [add esp, n]; the stubs without arguments do not have the
    instruction. *)
Definition stub_cleanup (s : stub) : Z :=
  match s with
  | st_print => 4 | st_malloc => 4 | st_free => 4 | st_putchar => 4 | st_process_load_start => 4
  | st_process_get_arguments => 4 | st_system => 4 | st_kill => 4 | st_socket => 4 | st_bind => 8
  | st_sendto => 4 | st_recvfrom => 4
  | st_getkey | st_get_processes | st_exit | st_clear_terminal | st_check_done | st_done | st_fork => 0
  end.

(** From there to [ret]: [add esp, n; pop ebp] *)
Definition stub_leave (s : stub) (c : cpu) : cpu :=
  let esp := ptr_add (c_esp c) (stub_cleanup s) in
  mk_cpu (c_mem c) (ptr_add esp 4) (load32 (c_mem c) esp).

(** The prototypes of toyos.h: the number of arguments, and the service. *)
Definition stub_arity (s : stub) : nat :=
  match s with
  | st_print | st_malloc | st_putchar | st_free | st_process_load_start | st_process_get_arguments | st_system
  | st_kill | st_socket | st_sendto | st_recvfrom => 1
  | st_bind => 2
  | st_getkey | st_exit | st_clear_terminal | st_fork | st_get_processes | st_check_done | st_done => 0
  end.

Definition stub_service (s : stub) : sys_cmd_fp :=
  match s with
  | st_print => fp_print | st_getkey => fp_getkey | st_get_processes => fp_get_processes | st_malloc => fp_malloc
  | st_free => fp_free | st_putchar => fp_putchar | st_process_load_start => fp_process_load_start
  | st_exit => fp_process_exit | st_process_get_arguments => fp_get_program_arguments
  | st_system => fp_invoke_system_command | st_clear_terminal => fp_clear_terminal | st_check_done => fp_check_lock
  | st_done => fp_done | st_fork => fp_fork | st_kill => fp_kill | st_socket => fp_socket | st_bind => fp_bind
  | st_sendto => fp_sendto | st_recvfrom => fp_recvfrom
  end.

End Stubs.

(** ** The other calls *)

(** [struct process_info] *)
Record process_info := mk_info { pi_id : Z; pi_filename : list Z }.

Definition USER_MAX_PROCESSES : nat := 12.

(** [us_get_processes] returns the address of the array and what it holds. *)
Class UserProc (S : Type) := {
  us_get_processes : S -> Z * list process_info * S;
  us_fork : S -> Z * S
}.

(** [un_recvfrom] gets the descriptor, the buffer, [src_ip] and [max_len]; it
    returns the result, the buffer, [src_ip] and [src_port]. *)
Class UserNet (S : Type) := {
  un_socket : S -> Z -> Z * S;
  un_bind : S -> Z -> Z -> Z * S;
  un_recvfrom : S -> Z -> list Z -> list Z -> Z -> option (Z * list Z * list Z * Z * S);
  un_sendto : S -> Z -> list Z -> list Z -> Z -> Z * S
}.

Module Programs.

(** [Err-1] Usage: echo < string >\n\n *)
Definition str_usage_echo : list Z :=
  [91; 69; 114; 114; 45; 49; 93; 32; 85; 115; 97; 103; 101; 58; 32; 101; 99; 104; 111; 32; 60; 32; 115; 116; 114;
   105; 110; 103; 32; 62; 10; 10; 0].
(** %s  *)
Definition str_word : list Z :=
  [37; 115; 32; 0].
(** \n\n *)
Definition str_newlines : list Z :=
  [10; 10; 0].
(** \n *)
Definition str_newline : list Z :=
  [10; 0].
(** [Err-1] Usage: kill < process id >\n\n *)
Definition str_usage_kill : list Z :=
  [91; 69; 114; 114; 45; 49; 93; 32; 85; 115; 97; 103; 101; 58; 32; 107; 105; 108; 108; 32; 60; 32; 112; 114;
   111; 99; 101; 115; 115; 32; 105; 100; 32; 62; 10; 10; 0].
(**       *)
Definition str_spaces : list Z :=
  [32; 32; 32; 32; 32; 0].
(**  PID  %sPATH\n *)
Definition str_head : list Z :=
  [32; 80; 73; 68; 32; 32; 37; 115; 80; 65; 84; 72; 10; 0].
(**  ---  %s----\n *)
Definition str_rule : list Z :=
  [32; 45; 45; 45; 32; 32; 37; 115; 45; 45; 45; 45; 10; 0].
(**   %i   %s%s\n *)
Definition str_entry : list Z :=
  [32; 32; 37; 105; 32; 32; 32; 37; 115; 37; 115; 10; 0].
(** ToyOS $  *)
Definition str_prompt : list Z :=
  [84; 111; 121; 79; 83; 32; 36; 32; 0].
(** UDP Echo Server starting on port 7...\n *)
Definition str_starting : list Z :=
  [85; 68; 80; 32; 69; 99; 104; 111; 32; 83; 101; 114; 118; 101; 114; 32; 115; 116; 97; 114; 116; 105; 110; 103;
   32; 111; 110; 32; 112; 111; 114; 116; 32; 55; 46; 46; 46; 10; 0].
(** Failed to create socket!\n *)
Definition str_no_socket : list Z :=
  [70; 97; 105; 108; 101; 100; 32; 116; 111; 32; 99; 114; 101; 97; 116; 101; 32; 115; 111; 99; 107; 101; 116; 33;
   10; 0].
(** Failed to bind to port 7!\n *)
Definition str_no_bind : list Z :=
  [70; 97; 105; 108; 101; 100; 32; 116; 111; 32; 98; 105; 110; 100; 32; 116; 111; 32; 112; 111; 114; 116; 32; 55;
   33; 10; 0].
(** Listening on UDP port 7. Send packets with:\n *)
Definition str_listening : list Z :=
  [76; 105; 115; 116; 101; 110; 105; 110; 103; 32; 111; 110; 32; 85; 68; 80; 32; 112; 111; 114; 116; 32; 55; 46;
   32; 83; 101; 110; 100; 32; 112; 97; 99; 107; 101; 116; 115; 32; 119; 105; 116; 104; 58; 10; 0].
(**   echo 'hello' | nc -u -w1 10.0.2.15 7\n\n *)
Definition str_hint : list Z :=
  [32; 32; 101; 99; 104; 111; 32; 34; 104; 101; 108; 108; 111; 34; 32; 124; 32; 110; 99; 32; 45; 117; 32; 45;
   119; 49; 32; 49; 48; 46; 48; 46; 50; 46; 49; 53; 32; 55; 10; 10; 0].
(** fork: i'm the child process\n\n *)
Definition str_child : list Z :=
  [102; 111; 114; 107; 58; 32; 105; 39; 109; 32; 116; 104; 101; 32; 99; 104; 105; 108; 100; 32; 112; 114; 111;
   99; 101; 115; 115; 10; 10; 0].
(** fork: i'm the parent with child pid=%i\n\n *)
Definition str_parent : list Z :=
  [102; 111; 114; 107; 58; 32; 105; 39; 109; 32; 116; 104; 101; 32; 112; 97; 114; 101; 110; 116; 32; 119; 105;
   116; 104; 32; 99; 104; 105; 108; 100; 32; 112; 105; 100; 61; 37; 105; 10; 10; 0].
(** Running processes:\n *)
Definition str_running : list Z :=
  [82; 117; 110; 110; 105; 110; 103; 32; 112; 114; 111; 99; 101; 115; 115; 101; 115; 58; 10; 0].

Section Ops.
Context {S : Type} `{UserSys S}.

Abbreviation U := (M (ustate S)).

(** c_start.c; the arguments are C strings. *)
Definition c_start (main : list (list Z) -> U Z) (argv : list (list Z)) : U unit :=
  let! _ := main argv in
  do_sys (fun y => (tt, us_done y)).

(** [for (int i = 1; i < argc; i++)] *)
Fixpoint echo_loop (argv : list (list Z)) : U unit :=
  match argv with
  | [] => ret tt
  | a :: argv => let! _ := user_printf str_word [AStr a] in echo_loop argv
  end.

Definition echo_main (argv : list (list Z)) : U Z :=
  if Z.of_nat (length argv) =? 1 then
    let! _ := user_printf str_usage_echo [] in ret (-1)
  else
    echo_loop (drop 1 argv) ;!
    let! _ := user_printf str_newlines [] in
    ret 0.

Definition toyos_kill (pid : Z) : U unit := do_sys (fun y => (tt, us_kill y pid)).

Definition kill_main (argv : list (list Z)) : U Z :=
  if Z.of_nat (length argv) =? 1 then
    let! _ := user_printf str_usage_kill [] in ret (-1)
  else
    let! a := lift (argv !! 1%nat) in
    let! c := lift (head a) in
    toyos_kill (user_ctoi c) ;!
    ret 0.

Definition clear_main (argv : list (list Z)) : U Z :=
  do_sys (fun y => (tt, us_clear_terminal y)) ;! ret 0.

(** One round of the [while(1)] of the shell; [fuel] bounds the polls. *)
Definition shell_round (fuel : nat) : U unit :=
  print_user str_prompt ;!
  let! s := get in
  let! buf := toyos_terminal_readline fuel (us_stack (u_sys s) 1024) 1024 true in
  print_user str_newlines ;!
  let! _ := toyos_system_run buf in
  toyos_wait fuel.

Section Ps.
Context `{UserProc S}.

(** [char a[n]] of a length that is computed must be positive. *)
Definition local_array (n : Z) : U (list Z) :=
  if n <=? 0 then fault else let! s := get in ret (us_stack (u_sys s) n).

(** The first loop, over the entries that are left *)
Fixpoint max_pid_loop (l : list process_info) (max_pid_len : Z) : U Z :=
  match l with
  | [] => ret max_pid_len
  | e :: l =>
    if pi_id e <? 0 then max_pid_loop l max_pid_len
    else
      let! t := user_call_itoa (pi_id e) in
      let! pid_len := lift (user_strlen t) in
      max_pid_loop l (if max_pid_len <? pid_len then pid_len else max_pid_len)
  end.

Fixpoint list_loop (l : list process_info) (max_pid_len : Z) : U unit :=
  match l with
  | [] => ret tt
  | e :: l =>
    if pi_id e <? 0 then list_loop l max_pid_len
    else
      let! n := lift (user_strlen (pi_filename e)) in
      let! this_padding := local_array (max_pid_len - n) in
      let! this_padding := lift (user_strncpy this_padding str_spaces max_pid_len) in
      let! _ := user_printf str_entry [AInt (pi_id e); AStr (pi_filename e); AStr this_padding] in
      list_loop l max_pid_len
  end.

Definition ps_main (argv : list (list Z)) : U Z :=
  let! s := get in
  let '(processes, l, y) := us_get_processes (u_sys s) in
  modify (set_sys y) ;!
  if (processes =? NULL) || negb (length l =? USER_MAX_PROCESSES)%nat then fault
  else
    let! max_pid_len := max_pid_loop l 0 in
    let! padding := local_array max_pid_len in
    let! padding := lift (user_strncpy padding str_spaces max_pid_len) in
    let! _ := user_printf str_head [AStr padding] in
    let! _ := user_printf str_rule [AStr padding] in
    list_loop l max_pid_len ;!
    print_user str_newline ;!
    do_sys (fun y => (tt, us_free y processes)) ;!
    ret 0.

(** The child stays in [for (;;)]: [None].  Its [ps] is the text of ps.c. *)
Definition forkdemo_main (argv : list (list Z)) : U (option Z) :=
  let! pid := do_sys us_fork in
  if pid =? 0 then
    let! _ := user_printf str_child [] in ret None
  else
    let! _ := user_printf str_parent [AInt pid] in
    let! _ := user_printf str_running [] in
    let! _ := ps_main argv in
    ret (Some 0).

End Ps.

Section Udpecho.
Context `{UserNet S}.

Definition ECHO_PORT : Z := 7.
Definition BUF_SIZE : Z := 1024.

(** [buf], [recv_args.src_ip] and [recv_args.src_port] *)
Record echo_vars := mk_vars { e_buf : list Z; e_ip : list Z; e_port : Z }.

(** One round of the [while (1)] *)
Definition udpecho_round (sock : Z) (v : echo_vars) : U echo_vars :=
  let! s := get in
  let! (n, buf, ip, port, y) := lift (un_recvfrom (u_sys s) sock (e_buf v) (e_ip v) BUF_SIZE) in
  modify (set_sys y) ;!
  (if 0 <? n then let! _ := do_sys (fun y => un_sendto y sock (take (Z.to_nat n) buf) ip port) in ret tt else ret tt) ;!
  ret (mk_vars buf ip port).

(** [n] rounds; the program does not leave the loop. *)
Fixpoint udpecho_loop (n : nat) (sock : Z) (v : echo_vars) : U echo_vars :=
  match n with
  | O => ret v
  | Datatypes.S n => let! v := udpecho_round sock v in udpecho_loop n sock v
  end.

(** The result, or the variables after [n] rounds *)
Definition udpecho_main (n : nat) (argv : list (list Z)) : U (Z + echo_vars) :=
  print_user str_starting ;!
  let! sock := do_sys (fun y => un_socket y SOCK_DGRAM) in
  if sock <? 0 then print_user str_no_socket ;! ret (inl 1)
  else
    let! r := do_sys (fun y => un_bind y sock ECHO_PORT) in
    if r <? 0 then print_user str_no_bind ;! ret (inl 1)
    else
      print_user str_listening ;!
      print_user str_hint ;!
      let! s := get in
      let! v := udpecho_loop n sock (mk_vars (us_stack (u_sys s) BUF_SIZE) (us_stack (u_sys s) 4)
        (le_val (us_stack (u_sys s) 2))) in
      ret (inr v).

End Udpecho.
End Ops.
End Programs.

(** ** Network calls answered by the socket table *)

Module KernelNet.
Import Socket.

(** A UDP datagram for the machine *)
Record datagram := mk_dgram { d_port : Z; d_data : list Z; d_ip : list Z; d_sport : Z }.

(** The other services, the table, the datagrams that arrive before each of the
    next calls of [recvfrom], and those handed to [sendto]. *)
Record knet (S : Type) := mk_knet {
  k_sys : S; k_socks : list socket; k_arrivals : list (list datagram); k_sent : list (Z * list Z * list Z * Z) }.

Arguments mk_knet {S}.
Arguments k_sys {S}.
Arguments k_socks {S}.
Arguments k_arrivals {S}.
Arguments k_sent {S}.

Definition deliver (t : list socket) (d : datagram) : option (list socket) :=
  snd <$> socket_deliver_udp t (d_port d) (d_data d) (Z.of_nat (length (d_data d))) (d_ip d) (d_sport d).

Fixpoint deliver_all (t : list socket) (ds : list datagram) : option (list socket) :=
  match ds with
  | [] => Some t
  | d :: ds => t ← deliver t d; deliver_all t ds
  end.

Section Inst.
Context {S : Type} {US : UserSys S}.

Definition on_sys (y : S) (k : knet S) : knet S := mk_knet y (k_socks k) (k_arrivals k) (k_sent k).

Definition set_socks (t : list socket) (k : knet S) : knet S := mk_knet (k_sys k) t (k_arrivals k) (k_sent k).

#[export] Instance knet_sys : UserSys (knet S) := {
  us_print := fun k str => on_sys (us_print (k_sys k) str) k;
  us_getkey := fun k => let '(r, y) := us_getkey (k_sys k) in (r, on_sys y k);
  us_putchar := fun k c => on_sys (us_putchar (k_sys k) c) k;
  us_malloc := fun k n => let '(p, l, y) := us_malloc (k_sys k) n in (p, l, on_sys y k);
  us_free := fun k p => on_sys (us_free (k_sys k) p) k;
  us_system := fun k a p => let '(r, y) := us_system (k_sys k) a p in (r, on_sys y k);
  us_check_done := fun k => let '(r, y) := us_check_done (k_sys k) in (r, on_sys y k);
  us_done := fun k => on_sys (us_done (k_sys k)) k;
  us_clear_terminal := fun k => on_sys (us_clear_terminal (k_sys k)) k;
  us_kill := fun k p => on_sys (us_kill (k_sys k) p) k;
  us_stack := fun k n => us_stack (k_sys k) n }.

#[export] Instance knet_net : UserNet (knet S) := {
  un_socket := fun k type => let '(r, t) := socket_create (k_socks k) type in (r, set_socks t k);
  un_bind := fun k fd port => let '(r, t) := socket_bind (k_socks k) fd port in (r, set_socks t k);
  un_recvfrom := fun k fd buf ip max_len =>
    t ← deliver_all (k_socks k) (default [] (head (k_arrivals k)));
    '(r, b, sender, t) ← socket_recvfrom t fd (Some buf) max_len;
    b ← b;
    let '(ip, port) := match sender with Some (ip, port) => (ip, port) | None => (ip, 0) end in
    Some (r, b, ip, port, mk_knet (k_sys k) t (tail (k_arrivals k)) (k_sent k));
  un_sendto := fun k fd data ip port =>
    (Z.of_nat (length data), mk_knet (k_sys k) (k_socks k) (k_arrivals k) (k_sent k ++ [(fd, data, ip, port)])) }.

End Inst.
End KernelNet.
