(* ===== verification/ProgramProps.v ===== *)
(** * What the programs guarantee

    The calling convention of the stubs, a round of the shell, echo, ps and the
    echo server; UserSim.v has the examples. *)

From S2P Require Import Prelude CLib Terminal Socket Machine Trap UserLib UserProps Programs.
Import Memory Str Terminal Render Machine TrapFacts UserString UserLib UserSpec UserFacts Programs Stubs.
#[local] Open Scope prog_scope.

Module StubFacts.

Lemma push_small v c : 4 <= c_esp c < 2 ^ 32 -> push v c = mk_cpu (store32 (c_mem c) (c_esp c - 4) v) (c_esp c - 4) (c_ebp c).
Proof. intros He. unfold push. rewrite ptr_add_small by lia. f_equal. Qed.

(** The arguments, the last one first *)
Fixpoint desc (n : nat) : list Z := match n with O => [] | S n => (8 + 4 * Z.of_nat n) :: desc n end.

Lemma stub_pushes_desc s : stub_pushes s = desc (stub_arity s).
Proof. by destruct s. Qed.

Definition push_off (c : cpu) (off : Z) : cpu := push (load32 (c_mem c) (ptr_add (c_ebp c) off)) c.

Lemma pushes_ok n : forall c, 4 * Z.of_nat n <= c_esp c <= c_ebp c -> c_ebp c + 8 + 4 * Z.of_nat n < 2 ^ 32 ->
  let c' := fold_left push_off (desc n) c in
  c_esp c' = c_esp c - 4 * Z.of_nat n /\ c_ebp c' = c_ebp c /\
  (forall i, (i < n)%nat -> load32 (c_mem c') (c_esp c' + 4 * Z.of_nat i) = load32 (c_mem c) (c_ebp c + 8 + 4 * Z.of_nat i)) /\
  (forall a, c_esp c <= a -> a + 4 <= 2 ^ 32 -> load32 (c_mem c') a = load32 (c_mem c) a).
Proof.
  induction n as [|n IH]; intros c He Hb; cbn [desc fold_left]; cbv zeta; [split_and!; (lia || done)|].
  change (push_off c (8 + 4 * Z.of_nat n)) with (push (load32 (c_mem c) (ptr_add (c_ebp c) (8 + 4 * Z.of_nat n))) c). rewrite push_small, ptr_add_small by lia. set (v := load32 _ _). set (c1 := mk_cpu _ _ _).
  assert (forall a, c_esp c <= a -> a + 4 <= 2 ^ 32 -> load32 (c_mem c1) a = load32 (c_mem c) a) as K1.
  { intros a Ha Hl. apply load32_store32_ne; lia. }
  destruct (IH c1) as (E & B & A & K); [cbn; lia..|]. cbv zeta in *. change (c_ebp c1) with (c_ebp c) in *. change (c_esp c1) with (c_esp c - 4) in *.
  split; [lia|]. split; [done|]. split.
  - intros i Hi. destruct (decide (i = n)) as [->|Hne].
    + rewrite E, K by lia. replace (c_esp c - 4 - 4 * Z.of_nat n + 4 * Z.of_nat n) with (c_esp c - 4) by lia. cbn [c_mem c1].
      rewrite load32_store32_eq by lia. unfold v. rewrite Z.add_assoc. apply u32_small, load32_range.
    + rewrite A by lia. apply K1; lia.
  - intros a Ha Hl. rewrite K by lia. by apply K1.
Qed.

Lemma stub_ok s c : 16 <= c_esp c <= 2 ^ 32 - 32 -> 0 <= c_ebp c < 2 ^ 32 ->
  (forall i, (i < stub_arity s)%nat ->
    load32 (c_mem (stub_enter s c)) (ptr_add (c_esp (stub_enter s c)) (4 * Z.of_nat i)) =
    load32 (c_mem c) (ptr_add (c_esp c) (4 + 4 * Z.of_nat i))) /\
  (forall a, c_esp c <= a -> a + 4 <= 2 ^ 32 -> load32 (c_mem (stub_enter s c)) a = load32 (c_mem c) a) /\
  stub_leave s (stub_enter s c) = mk_cpu (c_mem (stub_enter s c)) (c_esp c) (c_ebp c).
Proof.
  intros He Hb. unfold stub_leave, stub_enter. rewrite push_small, stub_pushes_desc by lia. cbn [c_mem c_esp].
  set (c2 := mk_cpu _ _ _). change (fold_left _ (desc (stub_arity s)) c2) with (fold_left push_off (desc (stub_arity s)) c2).
  assert (stub_arity s <= 2)%nat as Har by (destruct s; cbn; lia).
  assert (stub_cleanup s = 4 * Z.of_nat (stub_arity s)) as Hlen by (by destruct s).
  destruct (pushes_ok (stub_arity s) c2) as (E & B & A & K); [cbn; lia..|]. set (c3 := fold_left _ _ _) in *.
  cbn [c2 c_esp c_ebp] in E, A, K. rewrite Hlen, E in *.
  assert (forall a, c_esp c <= a -> a + 4 <= 2 ^ 32 -> load32 (c_mem c2) a = load32 (c_mem c) a) as K2.
  { intros a Ha Hl. apply load32_store32_ne; lia. }
  split_and!.
  - intros i Hi. rewrite !ptr_add_small, A, K2 by lia. f_equal. lia.
  - intros a Ha Hl. rewrite K, K2 by lia. done.
  - rewrite !ptr_add_small by (rewrite ?ptr_add_small; lia). f_equal; [lia|]. rewrite K by lia.
    replace (c_esp c - 4 - 4 * Z.of_nat (stub_arity s) + 4 * Z.of_nat (stub_arity s)) with (c_esp c - 4) by lia.
    cbn [c2 c_mem]. rewrite load32_store32_eq by lia. by apply u32_small.
Qed.

End StubFacts.

Module EchoFacts.
Import Socket SocketSpec KernelNet.

(** The table with the server's socket, in which the messages [q] wait. *)
Definition serving (q : list msg) : list asock := Some (7, q) :: replicate 15 None.

(** The messages that are accepted when [n] wait: those for the port while there
    is room for eight. *)
Fixpoint arrive (n : nat) (ds : list datagram) : list msg * nat :=
  match ds with
  | [] => ([], n)
  | d :: ds =>
    if (d_port d =? ECHO_PORT) && (n <? 8)%nat
    then let '(ms, k) := arrive (S n) ds in ((take 1500 (d_data d), d_ip d, d_sport d) :: ms, k)
    else arrive n ds
  end.

(** Between two rounds a message is taken. *)
Fixpoint accepted (n : nat) (bs : list (list datagram)) : list msg :=
  match bs with
  | [] => []
  | b :: bs => let '(ms, k) := arrive n b in ms ++ accepted (pred k) bs
  end.

(** The answer to a message: its first 1024 bytes back to the sender; none to an
    empty message. *)
Definition answer (m : msg) : list (Z * list Z * list Z * Z) :=
  let '(d, ip, port) := m in match d with [] => [] | _ => [(0, take 1024 d, ip, port)] end.

Definition answers (q : list msg) : list (Z * list Z * list Z * Z) := concat (map answer q).

Lemma answers_app a b : answers (a ++ b) = answers a ++ answers b.
Proof. unfold answers. by rewrite map_app, concat_app. Qed.

Lemma spec_deliver q d : spec (serving q) (Deliver (d_port d) (d_data d) (d_ip d) (d_sport d)) =
  if (d_port d =? ECHO_PORT) && (length q <? 8)%nat
  then (just 0, serving (q ++ [(take 1500 (d_data d), d_ip d, d_sport d)]))
  else (just (-1), serving q).
Proof.
  unfold spec, serving, ECHO_PORT. cbn [a_port replicate]. rewrite Z.eqb_sym. destruct (d_port d =? 7); [|done].
  cbn [lookup list_lookup mjoin option_join andb]. unfold msg in *. rewrite Nat.ltb_antisym. by destruct (8 <=? length q)%nat.
Qed.

Lemma deliver_ok t q d : table_ok t -> abs t = serving q -> length (d_ip d) = 4%nat ->
  exists t' ms n, deliver t d = Some t' /\ table_ok t' /\ arrive (length q) [d] = (ms, n) /\ abs t' = serving (q ++ ms).
Proof.
  intros Ht Ha Hip. destruct (deliver_refines t (d_port d) (d_data d) (d_ip d) (d_sport d) Ht Hip) as (r & t' & E & Hs & Ht').
  rewrite Ha, spec_deliver in Hs. cbn [impl] in E. exists t'. unfold deliver.
  destruct (socket_deliver_udp _ _ _ _ _ _) as [[r' t1]|]; [|done]. cbn in E. injection E as <- ->. cbn [arrive fmap option_fmap option_map snd].
  destruct (_ && _); injection Hs as _ Hs; eexists _, _; (split; [done|]; split; [done|]; split; [done|]); [done|by rewrite app_nil_r].
Qed.

Lemma arrive_app n a b : arrive n (a ++ b) = let '(ms, k) := arrive n a in let '(ms', k') := arrive k b in (ms ++ ms', k').
Proof.
  revert n. induction a as [|d a IH]; intros n; cbn [arrive app]; [by destruct (arrive n b)|].
  destruct (_ && _); rewrite IH; [|done]. destruct (arrive (S n) a) as [ms k]. by destruct (arrive k b).
Qed.

Lemma arrive_count n ds : (arrive n ds).2 = (n + length (arrive n ds).1)%nat.
Proof.
  revert n. induction ds as [|d ds IH]; intros n; cbn [arrive]; [cbn; lia|]. destruct (_ && _); [|done].
  specialize (IH (S n)). destruct (arrive (S n) ds). cbn in *. lia.
Qed.

Lemma deliver_all_ok ds : forall t q, table_ok t -> abs t = serving q -> Forall (fun d => length (d_ip d) = 4%nat) ds ->
  exists t', deliver_all t ds = Some t' /\ table_ok t' /\ abs t' = serving (q ++ (arrive (length q) ds).1).
Proof.
  induction ds as [|d ds IH]; intros t q Ht Ha Hd; [exists t; cbn; by rewrite app_nil_r|].
  apply Forall_cons in Hd as [Hd Hds]. destruct (deliver_ok t q d Ht Ha Hd) as (t1 & ms & n & E & Ht1 & Hm & Ha1).
  destruct (IH t1 (q ++ ms) Ht1 Ha1 Hds) as (t2 & E2 & Ht2 & Ha2). exists t2. cbn [deliver_all]. rewrite E. cbn [mbind option_bind].
  split; [done|]. split; [done|]. rewrite Ha2. change (d :: ds) with ([d] ++ ds). rewrite arrive_app, Hm.
  pose proof (arrive_count (length q) [d]) as Hn. rewrite Hm in Hn. cbn in Hn. subst n. rewrite length_app.
  destruct (arrive (length q + length ms) ds). cbn [fst]. by rewrite <- app_assoc.
Qed.

Section Server.
Context {S : Type} `{UserLaws S}.

Abbreviation st := (ustate (knet S)).

(** What the server has sent and what still waits answers [R]. *)
Record server (q : list msg) (bs : list (list datagram)) (R : list (Z * list Z * list Z * Z)) (s : st) : Prop := {
  sv_table : table_ok (k_socks (u_sys s));
  sv_abs : abs (k_socks (u_sys s)) = serving q;
  sv_arrivals : k_arrivals (u_sys s) = bs;
  sv_sent : k_sent (u_sys s) ++ answers q = R }.

Lemma recv_ok t q buf : table_ok t -> abs t = serving q -> length buf = 1024%nat ->
  exists r b snd t', socket_recvfrom t 0 (Some buf) BUF_SIZE = Some (r, Some b, snd, t') /\ table_ok t' /\
    length b = 1024%nat /\ abs t' = serving (tail q) /\
    match q with
    | [] => r = 0 /\ snd = None
    | (d, i, p) :: _ => r = Z.min 1024 (Z.of_nat (length d)) /\ take (Z.to_nat r) b = take 1024 d /\ snd = Some (i, p)
    end.
Proof.
  intros Ht Ha Hb. destruct (recv_refines t 0 buf BUF_SIZE Ht) as (r & t' & E & Hs & Ht'); [unfold BUF_SIZE; lia|].
  rewrite Ha in Hs. cbn [impl] in E. destruct (socket_recvfrom t 0 (Some buf) BUF_SIZE) as [[[[r' b'] sd] t1]|]; [|done].
  cbn [mbind option_bind] in E. destruct b' as [b|]; [|done]. cbn in E. injection E as <- ->.
  exists r', b, sd, t'. split; [done|]. split; [done|]. revert Hs. destruct q as [|[[d i] p] q].
  - intros [= <- <- <- <-]. by rewrite Hb.
  - unfold spec. change (a_lookup (serving ((d, i, p) :: q)) 0) with (Some (7, (d, i, p) :: q) : asock).
    change (BUF_SIZE <=? 0) with false. cbv iota beta. change (Z.to_nat 0) with 0%nat. change BUF_SIZE with 1024.
    set (n := Z.min 1024 (Z.of_nat (length d))). intros E. injection E as <- <- <- Ht1.
    assert (Z.to_nat n <= length d)%nat by lia. split.
    { rewrite length_app, length_take, length_drop. lia. }
    split; [symmetry; exact Ht1|]. split; [done|]. split; [|done]. rewrite take_app_le, take_take, Nat.min_id by (rewrite length_take; lia).
    unfold n. destruct (Nat.le_ge_cases 1024 (length d)).
    + f_equal. lia.
    + rewrite !take_ge by lia. done.
Qed.

Lemma round_ok q b bs R (s : st) v : server q (b :: bs) R s -> Forall (fun d => length (d_ip d) = 4%nat) b ->
  length (e_buf v) = 1024%nat ->
  exists v' s', udpecho_round 0 v s = Some (v', s') /\ length (e_buf v') = 1024%nat /\
    let ms := (arrive (length q) b).1 in server (tail (q ++ ms)) bs (R ++ answers ms) s'.
Proof.
  intros [Ht Ha Hb HR] Hd Hbuf. destruct (deliver_all_ok b _ q Ht Ha Hd) as (t1 & E1 & Ht1 & Ha1).
  destruct (recv_ok t1 _ (e_buf v) Ht1 Ha1 Hbuf) as (r & bf & sd & t2 & E2 & Ht2 & Hl & Ha2 & Hr).
  unfold udpecho_round. unfold bind at 1, get.
  assert (un_recvfrom (u_sys s) 0 (e_buf v) (e_ip v) BUF_SIZE =
    Some (r, bf, (match sd with Some (i, _) => i | None => e_ip v end), (match sd with Some (_, p) => p | None => 0 end),
      mk_knet (k_sys (u_sys s)) t2 bs (k_sent (u_sys s)))) as E.
  { cbn [un_recvfrom knet_net]. rewrite Hb. change (default [] (head (b :: bs))) with b. rewrite E1. cbn [mbind option_bind]. rewrite E2. cbn [mbind option_bind tail].
    by destruct sd as [[]|]. }
  rewrite (bind_lift _ _ _ _ E). unfold bind at 1, modify. set (ms := (arrive (length q) b).1) in *.
  destruct (q ++ ms) as [|[[d i] p] q'] eqn:Eq.
  - destruct Hr as [-> ->]. change (0 <? 0) with false. cbv iota. eexists _, _. split; [done|]. split; [done|].
    apply app_nil in Eq as [Hq Hms]. cbv zeta. rewrite Hms. subst q. constructor; [done..|]. cbn in HR |- *. by rewrite HR, app_nil_r.
  - destruct Hr as (Hr & Htk & ->). assert (R ++ answers ms = k_sent (u_sys s) ++ answer (d, i, p) ++ answers q') as HR'.
    { rewrite <- HR, <- app_assoc, <- answers_app, Eq. done. }
    destruct (Z.ltb_spec 0 r) as [Hpos|Hpos].
    + eexists _, _. split; [done|]. split; [done|]. cbv zeta. constructor; [done..|]. cbn. rewrite HR', <- app_assoc, Htk. f_equal.
      destruct d; [cbn in Hr; lia|done].
    + eexists _, _. split; [done|]. split; [done|]. cbv zeta. constructor; [done..|]. cbn. rewrite HR'.
      destruct d; [done|cbn in Hr; lia].
Qed.

Lemma loop_ok bs : forall q R (s : st) v, server q bs R s -> Forall (Forall (fun d => length (d_ip d) = 4%nat)) bs ->
  length (e_buf v) = 1024%nat ->
  exists v' s' q', udpecho_loop (length bs) 0 v s = Some (v', s') /\ server q' [] (R ++ answers (accepted (length q) bs)) s'.
Proof.
  induction bs as [|b bs IH]; intros q R s v Hs Hd Hv; cbn [length udpecho_loop accepted].
  - exists v, s, q. split; [done|]. by rewrite app_nil_r.
  - apply Forall_cons in Hd as [Hd Hds]. destruct (round_ok q b bs R s v Hs Hd Hv) as (v1 & s1 & E & Hv1 & Hs1).
    pose proof (arrive_count (length q) b) as Hn. destruct (arrive (length q) b) as [ms k]. cbn [fst snd] in *. cbv zeta in Hs1.
    destruct (IH _ _ s1 v1 Hs1 Hds Hv1) as (v2 & s2 & q' & E2 & Hs2). exists v2, s2, q'. erewrite bind_Some by exact E.
    split; [done|]. rewrite answers_app, app_assoc. subst k. replace (pred (length q + length ms)) with (length (tail (q ++ ms))); [done|].
    rewrite <- length_app. by destruct (q ++ ms).
Qed.

Lemma echo_open_ok : exists t1 t2, socket_create init_sockets SOCK_DGRAM = (0, t1) /\ socket_bind t1 0 ECHO_PORT = (0, t2) /\
  table_ok t2 /\ abs t2 = serving [].
Proof.
  destruct (create_refines init_sockets SOCK_DGRAM init_ok) as (r & t1 & E1 & Hs1 & T1).
  change (abs init_sockets) with (replicate 16 (None : asock)) in Hs1. cbn in Hs1. injection Hs1 as <- Ha1.
  destruct (bind_refines t1 0 ECHO_PORT T1) as (r2 & t2 & E2 & Hs2 & T2). rewrite <- Ha1 in Hs2. vm_compute in Hs2.
  injection Hs2 as <- Ha2. exists t1, t2. cbn [impl] in E1, E2. destruct (socket_create init_sockets SOCK_DGRAM) as [c1 u1].
  injection E1 as -> ->. destruct (socket_bind t1 0 ECHO_PORT) as [c2 u2]. injection E2 as -> ->. done.
Qed.

(** The start of the server *)
Lemma main_ok n argv (s : st) : k_socks (u_sys s) = init_sockets ->
  exists s1 v, udpecho_main n argv s = bind (udpecho_loop n 0 v) (fun v => ret (inr v)) s1 /\ length (e_buf v) = 1024%nat /\
    table_ok (k_socks (u_sys s1)) /\ abs (k_socks (u_sys s1)) = serving [] /\
    k_arrivals (u_sys s1) = k_arrivals (u_sys s) /\ k_sent (u_sys s1) = k_sent (u_sys s).
Proof.
  intros Hk. destruct echo_open_ok as (t1 & t2 & E1 & E2 & T2 & A2). unfold udpecho_main.
  eexists _, _. split.
  - erewrite bind_Some by reflexivity. erewrite bind_Some by (unfold do_sys; cbn; rewrite Hk, E1; reflexivity).
    change (0 <? 0) with false. cbv iota. erewrite bind_Some by (unfold do_sys; cbn; rewrite E2; reflexivity).
    change (0 <? 0) with false. cbv iota. do 2 erewrite bind_Some by reflexivity. unfold bind at 1, get. reflexivity.
  - cbn [e_buf u_sys set_sys k_socks k_arrivals k_sent on_sys set_socks us_print us_stack knet_sys].
    pose proof (us_stack_law (us_print (us_print (us_print (k_sys (u_sys s)) str_starting) str_listening) str_hint) BUF_SIZE ltac:(done)) as Hl.
    split; [unfold BUF_SIZE in *; cbn; lia|]. done.
Qed.

End Server.
End EchoFacts.

Module PsFacts.

Section Ps.
Context {S : Type} `{UserSys S}.

Lemma decimal_small i : 0 <= i < 12 -> exists n, user_strlen (decimal i ++ [0]) = Some n /\ n <= 2.
Proof.
  intros Hi. set (ok := fun k => match user_strlen (decimal (Z.of_nat k) ++ [0]) with Some n => n <=? 2 | None => false end).
  assert (forallb ok (seq 0 12) = true) as Hall by (vm_compute; reflexivity).
  rewrite forallb_forall in Hall. specialize (Hall (Z.to_nat i) ltac:(apply in_seq; lia)). unfold ok in Hall.
  rewrite Z2Nat.id in Hall by lia. destruct (user_strlen _) as [n|]; [|done]. exists n. split; [done|]. lia.
Qed.

(** An entry that is listed, with a name that is as long as any number. *)
Definition named (e : process_info) : Prop :=
  0 <= pi_id e /\ exists name rest, pi_filename e = c_str name rest /\ Forall is_char name /\ (2 <= length name)%nat.

Lemma max_pid_small l : forall m (s : ustate S) m' s', Forall (fun e => pi_id e < 12) l -> length (u_text s) = 12%nat -> m <= 2 ->
  max_pid_loop l m s = Some (m', s') -> m' <= 2.
Proof.
  induction l as [|e l IH]; intros m s m' s' Hl Ht Hm; cbn [max_pid_loop]; [by intros [= <- <-]|].
  apply Forall_cons in Hl as [He Hl]. destruct (Z.ltb_spec (pi_id e) 0); [by apply IH|].
  destruct (user_itoa_ok s (pi_id e)) as (b & Ei & Hb); [cbn; lia|done|]. erewrite bind_Some by exact Ei.
  destruct (decimal_small (pi_id e)) as (n & En & Hn); [lia|]. rewrite (bind_lift _ _ _ _ En).
  apply IH; [done|done|]. destruct (m <? n); lia.
Qed.

Lemma list_loop_faults l : forall m (s : ustate S), m <= 2 -> Exists named l -> list_loop l m s = None.
Proof.
  induction l as [|e l IH]; intros m s Hm Hex; [by apply Exists_nil in Hex|]. cbn [list_loop].
  apply Exists_cons in Hex as [(Hid & name & rest & En & Hc & Hl)|Hex].
  - rewrite (proj2 (Z.ltb_ge (pi_id e) 0)), En by lia. unfold user_strlen. rewrite (bind_lift _ _ _ _ (strlen_spec name rest Hc)).
    unfold bind at 1, local_array. by rewrite (proj2 (Z.leb_le _ 0)) by lia.
  - destruct (pi_id e <? 0); [by apply IH|]. destruct (bind _ _ s) as [r|] eqn:E; [|done].
    apply bind_inv in E as (n & s1 & _ & E). apply bind_inv in E as (a & s2 & _ & E). apply bind_inv in E as (a' & s3 & _ & E).
    apply bind_inv in E as (x & s4 & _ & E). by rewrite IH in E.
Qed.

End Ps.
End PsFacts.

Module EchoText.

Section Echo.
Context {S : Type} `{UserLaws S}.

Lemma echo_loop_ok (s : ustate S) args ws : Forall2 (fun a w => c_text a = Some w /\ (length w < 1024)%nat) args ws ->
  length (u_text s) = 12%nat -> exists s', echo_loop args s = Some (tt, s') /\ wrote (concat (map (fun w => w ++ [32]) ws)) s s'.
Proof.
  intros Hw. revert s. induction Hw as [|a w args ws [Ha Hl] _ IH]; intros s Ht; [exists s; split; [done|by apply wrote_nil]|].
  cbn [echo_loop map concat]. destruct (user_printf_ok str_word [AStr a] (w ++ [32]) s) as (s1 & E1 & W1); [|by repeat constructor| | |done|].
  - cbn [render str_word]. change (render false [32; 0] []) with (Some [32]). by rewrite Ha.
  - by repeat constructor.
  - constructor; [|constructor]. cbn. intros t Hta. congruence.
  - destruct (IH s1 (wrote_text _ _ _ W1)) as (s2 & E2 & W2). exists s2. erewrite bind_Some by exact E1. split; [done|]. by eapply wrote_trans.
Qed.

End Echo.
End EchoText.

Module ShellFacts.

Section Shell.
Context {S : Type} `{UserLaws S}.

Lemma edit_chars cap keys : forall line line' rest, Forall (fun k => -128 <= k < 128) keys ->
  Forall (fun k => -128 <= k < 128 /\ k <> 0) line -> edit cap line keys = Some (line', rest) ->
  Forall (fun k => -128 <= k < 128 /\ k <> 0) line'.
Proof.
  induction keys as [|k keys IH]; intros line line' rest Hk Hl; cbn [edit];
    (destruct (cap <=? length line)%nat; [by intros [= <- <-]|]); [done|].
  apply Forall_cons in Hk as [Hk Hks]. destruct (Z.eqb_spec k 0); [by apply IH|]. destruct (k =? 13); [by intros [= <- <-]|].
  destruct (_ && _); apply IH; try done; [by apply Forall_take|]. apply Forall_app. split; [done|]. by apply Forall_singleton.
Qed.

Lemma line_chars line : Forall (fun k => -128 <= k < 128 /\ k <> 0) line -> Forall is_char (map u8 line).
Proof.
  intros Hl. apply Forall_map. eapply Forall_impl; [exact Hl|]. intros k [Hk Hn]. change (0 < k mod 256 < 256).
  destruct (Z.ltb_spec k 0); [rewrite <- (Z_mod_plus_full k 1 256)|]; rewrite Z.mod_small; lia.
Qed.

Lemma ready_sys (s : ustate S) y : parser_ready s -> v_owned (us_view y) = v_owned (view s) -> parser_ready (set_sys y s).
Proof. intros [Hsp Ho Hn] Hv. constructor; [done| |done]. unfold args_owned, view in *. cbn. by rewrite Hv. Qed.

(** Running a command: it is copied, parsed and handed to the kernel. *)
Lemma system_run_ok (s : ustate S) text rest : parser_ready s -> Forall is_char text -> (length text < 1024)%nat ->
  exists p s' k, command_parsed s (words text) p k s' /\
    toyos_system_run (c_str text rest) s = if p =? NULL then Some (-1, s') else toyos_system p s'.
Proof.
  intros Hs Ht Hl. unfold toyos_system_run. unfold bind at 1, get. pose proof (us_stack_law (u_sys s) 1024 ltac:(lia)) as Hst.
  assert (take (Z.to_nat (1024 - 1)) text = text) as Hall by (apply take_ge; lia).
  pose proof (strncpy_spec (us_stack (u_sys s) 1024) text rest 1024 Ht ltac:(lia)) as Hc. cbv zeta in Hc. rewrite Hall in Hc.
  specialize (Hc ltac:(lia)). unfold user_strncpy. rewrite (bind_lift _ _ _ _ Hc).
  destruct (parse_command_ok s text (drop (Datatypes.S (length text)) (us_stack (u_sys s) 1024)) 1024 Hs Ht ltac:(lia)) as (p & s' & k & E & Hp).
  rewrite take_ge in Hp by lia. exists p, s', k. split; [exact Hp|]. unfold c_str in E. erewrite bind_Some by exact E.
  by destruct (p =? NULL).
Qed.

Lemma shell_round_ok fuel (s : ustate S) line rest :
  parser_ready s -> Forall (fun k => -128 <= k < 128) (v_input (view s)) -> (length (v_input (view s)) < fuel)%nat ->
  edit 1023 [] (v_input (view s)) = Some (line, rest) ->
  exists p s0 s1 k, command_parsed s0 (words (map u8 line)) p k s1 /\ v_input (view s1) = rest /\
    v_output (view s1) = v_output (view s) ++ take 8 str_prompt ++ echoed 1023 [] (v_input (view s)) ++ [10; 10] /\
    shell_round fuel s = if p =? NULL then toyos_wait fuel s1 else bind (toyos_system p) (fun _ => toyos_wait fuel) s1.
Proof.
  intros Hs Hk Hf He. unfold shell_round. set (y1 := us_print (u_sys s) str_prompt). erewrite bind_Some by reflexivity. fold y1.
  assert (us_view y1 = add_output (take 8 str_prompt) (view s)) as Hy1 by (apply us_print_law; [done|cbn; lia]).
  unfold bind at 1, get. pose proof (us_stack_law y1 1024 ltac:(lia)) as Hst.
  destruct (readline_ok fuel (us_stack y1 1024) 1024 true (set_sys y1 s) line rest) as (tl & y2 & E2 & _ & Hlen & _ & Hy2);
    unfold view; cbn [u_sys set_sys]; rewrite ?Hy1; [lia|exact Hk|exact He|exact Hf|]. cbn [u_sys set_sys] in *. erewrite bind_Some by exact E2.
  set (y3 := us_print y2 str_newlines). erewrite bind_Some by reflexivity. cbn [u_sys set_sys]. fold y3.
  assert (us_view y3 = add_output [10; 10] (us_view y2)) as Hy3 by (apply us_print_law; [done|cbn; lia]).
  unfold view in Hy2. cbn [u_sys set_sys] in Hy2. rewrite Hy1 in Hy2.
  destruct (system_run_ok (set_sys y3 s) (map u8 line) tl) as (p & s1 & k & Hp & E).
  { apply ready_sys; [done|]. by rewrite Hy3, Hy2. }
  { apply line_chars. by eapply (edit_chars 1023); [exact Hk|constructor|exact He]. }
  { rewrite length_map. lia. }
  exists p, (set_sys y3 s), s1, k. split; [done|].
  pose proof (cp_input _ _ _ _ _ Hp) as Hi. pose proof (cp_output _ _ _ _ _ Hp) as Ho. unfold view in Hi, Ho.
  split; [rewrite Hi; cbn; by rewrite Hy3, Hy2|]. split.
  { rewrite Ho. cbn [u_sys set_sys]. rewrite Hy3, Hy2. cbn [v_output add_output set_input echo_text v_input].
    by rewrite <- !app_assoc. }
  unfold bind at 1. change (set_sys y3 (set_sys y2 (set_sys y1 s))) with (set_sys y3 s). unfold c_str in E. rewrite E.
  by destruct (p =? NULL).
Qed.

End Shell.
End ShellFacts.

Module ProgramProps.
Import ShellFacts EchoText StubFacts PsFacts.

(** C29: The calling convention.  A stub of toyos.asm, called with its arguments on
    the stack, reaches [int 0x80] with the number of its service in EAX and its
    arguments where the handler reads them, the first one at the top of the
    stack.  What was on the stack of the caller is unchanged, and when the call
    returns, the stub restores the stack pointer and EBP. *)
Theorem stub_calls_service s c :
  16 <= c_esp c <= 2 ^ 32 - 32 -> 0 <= c_ebp c < 2 ^ 32 ->
  commands !! Z.to_nat (stub_command s) = Some (stub_service s) /\
  (forall i, (i < stub_arity s)%nat ->
    load32 (c_mem (stub_enter s c)) (ptr_add (c_esp (stub_enter s c)) (4 * Z.of_nat i)) =
    load32 (c_mem c) (ptr_add (c_esp c) (4 + 4 * Z.of_nat i))) /\
  (forall a, c_esp c <= a -> a + 4 <= 2 ^ 32 -> load32 (c_mem (stub_enter s c)) a = load32 (c_mem c) a) /\
  stub_leave s (stub_enter s c) = mk_cpu (c_mem (stub_enter s c)) (c_esp c) (c_ebp c).
Proof. intros He Hb. split; [by destruct s|]. by apply stub_ok. Qed.

Section Text.
Context {S : Type} `{UserLaws S}.

(** [echo] writes its arguments in order, a space behind each and an empty line
    at the end, and returns 0. *)
Theorem echo_prints (s : ustate S) name args ws :
  args <> [] -> Forall2 (fun a w => c_text a = Some w /\ (length w < 1024)%nat) args ws -> length (u_text s) = 12%nat ->
  exists s', echo_main (name :: args) s = Some (0, s') /\ wrote (concat (map (fun w => w ++ [32]) ws) ++ [10; 10]) s s'.
Proof.
  intros Hne Hw Ht. destruct (echo_loop_ok s args ws Hw Ht) as (s1 & E1 & W1).
  destruct (user_printf_ok str_newlines [] [10; 10] s1) as (s2 & E2 & W2); [done|by repeat constructor|done..|by eapply wrote_text|].
  exists s2. unfold echo_main. rewrite (proj2 (Z.eqb_neq _ 1)) by (destruct args; [done|cbn; lia]). change (drop 1 (name :: args)) with args.
  erewrite bind_Some by exact E1. erewrite bind_Some by exact E2. split; [done|]. by eapply wrote_trans.
Qed.

(** [ps] goes wrong on every process table: for a process whose path has at
    least two characters (a path starts with the drive) it declares an array of
    length zero or less for the padding, because it subtracts the length of the
    path from the length of the longest process id. *)
Theorem ps_faults `{UserProc S} (s : ustate S) argv processes l y :
  us_get_processes (u_sys s) = (processes, l, y) -> Forall (fun e => pi_id e < 12) l -> Exists named l ->
  length (u_text s) = 12%nat -> ps_main argv s = None.
Proof.
  intros Hp Hid Hn Ht. unfold ps_main. unfold bind at 1, get. rewrite Hp. unfold bind at 1, modify.
  destruct (_ || _); [done|]. destruct (bind _ _ _) as [r|] eqn:E; [|done].
  apply bind_inv in E as (m & s1 & Em & E). apply max_pid_small in Em; [|done|done|lia].
  apply bind_inv in E as (a & s2 & _ & E). apply bind_inv in E as (a' & s3 & _ & E).
  apply bind_inv in E as (x & s4 & _ & E). apply bind_inv in E as (x' & s5 & _ & E). apply bind_inv in E as (u & s6 & El & _).
  by rewrite list_loop_faults in El.
Qed.

(** C19: A round of the shell: it prompts, reads the line that the user types and
    edits, echoing the keys, and asks the kernel to run exactly the words of that
    line, in order (each cut to 511 characters); then it waits for the process.
    Only when the program is out of memory words are missing. *)
Theorem shell_runs_line fuel (s : ustate S) line rest :
  parser_ready s -> Forall (fun k => -128 <= k < 128) (v_input (view s)) -> (length (v_input (view s)) < fuel)%nat ->
  edit 1023 [] (v_input (view s)) = Some (line, rest) ->
  exists p s1 k, let ws := map (take 511) (words (map u8 line)) in
    chain (u_args s1) p (take k ws) /\ (~ no_memory s1 -> chain (u_args s1) p ws /\ u_sp s1 = None) /\ v_input (view s1) = rest /\
    v_output (view s1) = v_output (view s) ++ take 8 str_prompt ++ echoed 1023 [] (v_input (view s)) ++ [10; 10] /\
    shell_round fuel s = if p =? NULL then toyos_wait fuel s1 else bind (toyos_system p) (fun _ => toyos_wait fuel) s1.
Proof.
  intros Hs Hk Hf He. destruct (shell_round_ok fuel s line rest Hs Hk Hf He) as (p & s0 & s1 & k & [Hc Hfin _ _ _ _ _ _] & Hi & Ho & E).
  exists p, s1, k. cbv zeta. split_and!; [done| |done..]. intros Hn. revert Hfin. unfold finished.
  destruct (Nat.leb_spec (length (words (map u8 line))) k); [|tauto]. intros Hsp.
  by rewrite take_ge in Hc by (by rewrite length_map).
Qed.

(** [kill] looks at the first character of its argument only: a process with a
    number of two digits cannot be named, another one is killed. *)
Lemma kill_first_digit (s : ustate S) name d more rest :
  kill_main [name; (48 + d) :: more ++ rest] s = Some (0, set_sys (us_kill (u_sys s) (user_ctoi (48 + d))) s).
Proof. reflexivity. Qed.

End Text.

Section Props.
Import Socket SocketSpec KernelNet EchoFacts.
Context {S : Type} `{UserLaws S}.

(** C21: The echo server.  On a machine without sockets it gets the first socket
    and port 7; then, whatever datagrams arrive between its calls, what it has
    sent, followed by the answers to the messages that still wait, answers the
    datagrams for port 7 that found room in the queue, in the order of their
    arrival: the first 1024 bytes of each go back to the address and the port it
    came from.  Datagrams for other ports and empty ones are not answered. *)
Theorem udpecho_answers (s : ustate (knet S)) argv bs :
  k_socks (u_sys s) = init_sockets -> k_sent (u_sys s) = [] -> k_arrivals (u_sys s) = bs ->
  Forall (Forall (fun d => length (d_ip d) = 4%nat)) bs ->
  exists v s' q, udpecho_main (length bs) argv s = Some (inr v, s') /\ abs (k_socks (u_sys s')) = serving q /\
    k_sent (u_sys s') ++ answers q = answers (accepted 0 bs).
Proof.
  intros Ht Hs Hb Hd. destruct (main_ok (length bs) argv s Ht) as (s1 & v & E & Hv & T & A & Hb1 & Hs1).
  destruct (loop_ok bs [] [] s1 v) as (v' & s' & q & El & [_ Hq _ Ha]); [|done..|].
  - constructor; [done|done|congruence|]. by rewrite Hs1, Hs.
  - exists v', s', q. rewrite E. erewrite bind_Some by exact El. done.
Qed.

End Props.
End ProgramProps.
