(* ===== verification/UserSim.v ===== *)
(** * A simulated user side

    Keys from a list, a terminal, an allocator with a number of blocks, and
    examples for the theorems on the user library and the programs. *)

From S2P Require Import Prelude CLib Terminal Socket Machine Trap UserLib UserProps Programs ProgramProps.
Import Memory Str Terminal Render Machine TrapFacts UserString UserLib UserSpec UserFacts Programs Stubs.
Import KernelNet UserProps.UserProps ProgramProps.ProgramProps.
#[local] Open Scope prog_scope.

Module UserSim.

(** [i_failed]: a call of [malloc] has failed; [i_ran]: the arguments
    of the commands that the kernel was asked to run. *)
Record usim := mk_usim {
  i_keys : list Z; i_out : list Z; i_owned : gset Z; i_next : Z; i_left : nat; i_failed : bool;
  i_ran : list Z; i_procs : list process_info }.

Definition set_keys (l : list Z) (s : usim) : usim :=
  mk_usim l (i_out s) (i_owned s) (i_next s) (i_left s) (i_failed s) (i_ran s) (i_procs s).
Definition add_out (t : list Z) (s : usim) : usim :=
  mk_usim (i_keys s) (i_out s ++ t) (i_owned s) (i_next s) (i_left s) (i_failed s) (i_ran s) (i_procs s).
Definition failed (s : usim) : usim :=
  mk_usim (i_keys s) (i_out s) (i_owned s) (i_next s) (i_left s) true (i_ran s) (i_procs s).

Definition sim_malloc (s : usim) (n : Z) : Z * list Z * usim :=
  match i_left s with
  | S k =>
    if decide (i_next s <> NULL /\ i_next s ∉ i_owned s)
    then (i_next s, replicate (Z.to_nat n) 0,
          mk_usim (i_keys s) (i_out s) ({[i_next s]} ∪ i_owned s) (i_next s + n) k (i_failed s) (i_ran s) (i_procs s))
    else (NULL, replicate (Z.to_nat n) 0, failed s)
  | O => (NULL, replicate (Z.to_nat n) 0, failed s)
  end.

#[export] Instance sim_sys : UserSys usim := {
  us_print := fun s str => add_out (default [] (c_text str)) s;
  us_getkey := fun s => match i_keys s with [] => (0, s) | k :: l => (k, set_keys l s) end;
  us_putchar := fun s c => add_out [c] s;
  us_malloc := sim_malloc;
  us_free := fun s _ => s;
  us_system := fun s args p =>
    (0, mk_usim (i_keys s) (i_out s) (i_owned s) (i_next s) (i_left s) (i_failed s) (i_ran s ++ [p]) (i_procs s));
  us_check_done := fun s => (0, s);
  us_done := fun s => s;
  us_clear_terminal := fun s => s;
  us_kill := fun s _ => s;
  us_stack := fun _ n => replicate (Z.to_nat n) 0 }.

#[export] Instance sim_proc : UserProc usim := {
  us_get_processes := fun s => (0x8000, i_procs s, s);
  us_fork := fun s => (1, s) }.

#[export] Instance sim_laws : UserLaws usim.
Proof.
  refine {| us_view := fun s => mk_view (i_keys s) (i_out s) (i_owned s) |}.
  - intros s v vs E. cbn in *. by rewrite E.
  - done.
  - intros s str t E _. cbn. by rewrite E.
  - intros s n p l s' Hn E. cbn in E. unfold sim_malloc in E.
    destruct (i_left s) as [|k]; [injection E as <- <- <-; rewrite length_replicate; split; [lia|by left]|].
    destruct (decide _) as [[H1 H2]|]; injection E as <- <- <-; (rewrite length_replicate; split; [lia|]); [right|by left]. done.
  - intros s n Hn. cbn. rewrite length_replicate. lia.
Defined.

Lemma malloc_failed y n l s : us_malloc y n = (NULL, l, s) -> i_failed s = true.
Proof.
  cbn. unfold sim_malloc. destruct (i_left y) as [|k]; [by intros [= <- <-]|].
  destruct (decide _) as [[H1 _]|]; [intros [= H2 _ _]; congruence|by intros [= <- <-]].
Qed.

(** Nothing parsed yet; [left] blocks of memory. *)
Definition start (keys : list Z) (left : nat) (procs : list process_info) : ustate usim :=
  mk_ustate (mk_usim keys [] ∅ 0x400000 left false [] procs) ∅ 0 None ∅ (replicate 12 0).

Lemma start_ready keys left procs : parser_ready (start keys left procs).
Proof. constructor; [done|unfold args_owned; cbn; set_solver|done]. Qed.

(** "lx", a backspace, "s", return, and a key that is not read *)
Definition typed : list Z := [108; 0; 120; 8; 115; 0; 13; 113].

Lemma readline_edits_witness :
  exists tail y, toyos_terminal_readline 9 (replicate 6 7) 5 true (start typed 0 []) =
      Some ([108; 115] ++ 0 :: tail, set_sys y (start typed 0 [])) /\ drop 5 ([108; 115] ++ 0 :: tail) = [7] /\
    v_output (us_view y) = [108; 120; 8; 115] /\ v_input (us_view y) = [113].
Proof.
  destruct (readline_edits 9 (replicate 6 7) 5 true (start typed 0 []) [108; 115] [113]) as (tail & y & E & _ & _ & D & V).
  - cbn. lia.
  - repeat (apply List.Forall_cons; [lia|]). apply List.Forall_nil.
  - vm_compute. reflexivity.
  - cbn. lia.
  - exists tail, y. split; [exact E|]. split; [exact D|]. rewrite V. split; vm_compute; reflexivity.
Defined.

(** "ls  -l" *)
Definition command_text : list Z := [108; 115; 32; 32; 45; 108].

Lemma command_chars : Forall is_char command_text.
Proof. repeat (apply List.Forall_cons; [unfold is_char; lia|]). apply List.Forall_nil. Qed.

Lemma parse_command_words_witness :
  exists p s', toyos_parse_command (c_str command_text []) 1024 (start [] 9 []) = Some (p, s') /\
    chain (u_args s') p [[108; 115]; [45; 108]].
Proof.
  destruct (parse_command_words (start [] 9 []) command_text [] 1024 (start_ready _ _ _) command_chars) as (p & s' & k & E & Hp & Hc);
    [lia|]. exists p, s'. split; [exact E|]. apply Hc. intros (y & l & Hm). apply malloc_failed in Hm.
  assert (option_map (fun r => i_failed (u_sys r.2)) (toyos_parse_command (c_str command_text []) 1024 (start [] 9 [])) = Some false)
    as Hf by (vm_compute; reflexivity).
  rewrite E in Hf. cbn in Hf. congruence.
Defined.

(** With memory for one structure the second word is lost, and the next command
    is read through the pointer that was left. *)
Lemma parse_after_no_memory_witness :
  exists p s', toyos_parse_command (c_str command_text []) 1024 (start [] 1 []) = Some (p, s') /\
    toyos_parse_command (c_str command_text []) 1024 s' = None.
Proof.
  destruct (toyos_parse_command (c_str command_text []) 1024 (start [] 1 [])) as [[p s']|] eqn:E; [|vm_compute in E; discriminate E].
  exists p, s'. split; [reflexivity|].
  apply (parse_after_no_memory (start [] 1 []) command_text [] 1024 p s'); [apply start_ready|apply command_chars|lia|exact E| |apply command_chars|lia].
  intros (Hp & rest & q & Hl & Hq & _).
  assert (option_map (fun r => next <$> u_args r.2 !! r.1) (toyos_parse_command (c_str command_text []) 1024 (start [] 1 [])) = Some (Some 0))
    as Hn by (vm_compute; reflexivity).
  rewrite E in Hn. cbn [option_map fst snd] in Hn. rewrite Hl in Hn. cbn in Hn. injection Hn as Hn. apply Hq. exact Hn.
Defined.

(** "echo a b" *)
Lemma echo_prints_witness :
  exists s', echo_main [[101; 0]; [97; 0]; [98; 98; 0]] (start [] 0 []) = Some (0, s') /\
    wrote [97; 32; 98; 98; 32; 10; 10] (start [] 0 []) s'.
Proof.
  apply (echo_prints (start [] 0 []) [101; 0] [[97; 0]; [98; 98; 0]] [[97]; [98; 98]]).
  - discriminate.
  - repeat (apply List.Forall2_cons; [split; [vm_compute; reflexivity|cbn; lia]|]). apply List.Forall2_nil.
  - reflexivity.
Defined.

(** "0:/shell.elf" runs as process 0. *)
Definition process_list : list process_info :=
  mk_info 0 ([48; 58; 47; 115; 104; 101; 108; 108; 46; 101; 108; 102] ++ replicate 52 0) :: replicate 11 (mk_info (-1) (replicate 64 0)).

Lemma ps_faults_witness : ps_main [] (start [] 0 process_list) = None.
Proof.
  apply (ps_faults (start [] 0 process_list) [] 0x8000 process_list (u_sys (start [] 0 process_list))).
  - reflexivity.
  - repeat (apply List.Forall_cons; [cbn; lia|]). apply List.Forall_nil.
  - apply Exists_cons_hd. split; [cbn; lia|].
    exists [48; 58; 47; 115; 104; 101; 108; 108; 46; 101; 108; 102], (replicate 51 0). split; [reflexivity|]. split; [|cbn; lia].
    repeat (apply List.Forall_cons; [unfold is_char; lia|]). apply List.Forall_nil.
  - reflexivity.
Defined.

Lemma wait_now (s : ustate usim) : toyos_wait 9 s = Some (tt, set_sys (u_sys s) s).
Proof. reflexivity. Qed.

(** "ls" is typed. *)
Lemma shell_runs_line_witness :
  exists p s1, chain (u_args s1) p [[108; 115]] /\ v_output (view s1) = take 8 str_prompt ++ [108; 120; 8; 115; 10; 10] /\
    exists s2, shell_round 9 (start typed 9 []) = Some (tt, s2) /\ i_ran (u_sys s2) = [p].
Proof.
  destruct (shell_runs_line 9 (start typed 9 []) [108; 115] [113]) as (p & s1 & k & _ & Hc & _ & Ho & E).
  - apply start_ready.
  - repeat (apply List.Forall_cons; [lia|]). apply List.Forall_nil.
  - cbn. lia.
  - vm_compute. reflexivity.
  - set (r := shell_round 9 (start typed 9 [])) in *.
    assert (option_map (fun x => (i_failed (u_sys x.2), i_ran (u_sys x.2))) r = Some (false, [0x400000])) as Hr by (vm_compute; reflexivity).
    assert (~ no_memory s1) as Hn.
    { intros (y & l & Hm). apply malloc_failed in Hm. rewrite E in Hr. destruct (p =? NULL).
      - rewrite wait_now in Hr. cbn in Hr. congruence.
      - unfold bind, toyos_system in Hr. cbn [us_system sim_sys] in Hr. rewrite wait_now in Hr. cbn in Hr. congruence. }
    destruct (Hc Hn) as [Hch _]. exists p, s1. split; [exact Hch|]. split; [exact Ho|]. destruct Hch as [Hp _].
    rewrite E in Hr |- *. rewrite (proj2 (Z.eqb_neq p NULL) Hp) in Hr |- *.
    unfold bind, toyos_system in Hr |- *. cbn [us_system sim_sys] in Hr |- *. rewrite wait_now in Hr |- *. cbn in Hr. eexists. split; [reflexivity|]. cbn.
    injection Hr as _ Hr. apply (app_inj_tail _ []) in Hr as [-> _]. reflexivity.
Defined.

(** Two datagrams for the server and one for another port, before the first and
    the second call. *)
Definition arrivals : list (list KernelNet.datagram) :=
  [[KernelNet.mk_dgram 7 [104; 105] [10; 0; 2; 2] 5000; KernelNet.mk_dgram 9 [1] [10; 0; 2; 2] 5001];
   [KernelNet.mk_dgram 7 [120] [10; 0; 2; 3] 6000]; []].

Definition net_start : ustate (KernelNet.knet usim) :=
  mk_ustate (KernelNet.mk_knet (u_sys (start [] 0 [])) Socket.init_sockets arrivals []) ∅ 0 None ∅ (replicate 12 0).

Lemma udpecho_answers_witness :
  exists v s' q, udpecho_main 3 [] net_start = Some (inr v, s') /\
    KernelNet.k_sent (u_sys s') ++ EchoFacts.answers q = [(0, [104; 105], [10; 0; 2; 2], 5000); (0, [120], [10; 0; 2; 3], 6000)].
Proof.
  destruct (udpecho_answers net_start [] arrivals) as (v & s' & q & E & _ & Ha).
  - reflexivity.
  - reflexivity.
  - reflexivity.
  - repeat (apply List.Forall_cons; [repeat (apply List.Forall_cons; [reflexivity|]); apply List.Forall_nil|]). apply List.Forall_nil.
  - exists v, s', q. split; [exact E|]. rewrite Ha. vm_compute. reflexivity.
Defined.

(** [toyos_bind(3, 7)] with a stack at 0x3fefe0 *)
Definition bind_call : cpu := mk_cpu (store32 (store32 ∅ 0x3fefe4 3) 0x3fefe8 7) 0x3fefe0 0x3ff000.

Lemma stub_calls_service_witness :
  commands !! 17%nat = Some fp_bind /\
  load32 (c_mem (stub_enter st_bind bind_call)) (c_esp (stub_enter st_bind bind_call)) = 3 /\
  load32 (c_mem (stub_enter st_bind bind_call)) (ptr_add (c_esp (stub_enter st_bind bind_call)) 4) = 7.
Proof.
  destruct (stub_calls_service st_bind bind_call) as (Hc & Ha & _); [cbn; lia|cbn; lia|]. split; [exact Hc|]. split.
  - exact (Ha 0%nat ltac:(cbn; lia)).
  - exact (Ha 1%nat ltac:(cbn; lia)).
Defined.

End UserSim.
